(* ===== verification/_CoqProject ===== *)
-Q . S2P
Prelude.v
NetAddr.v
Options.v
Codec.v
HmacMd5.v
Forcerenew.v
Values.v
Arp.v
Backoff.v
Kinds.v
Lease.v
RateLimit.v
Rings.v
IpUdp.v
Acd.v
Params.v
Core.v
Machine.v
MachineSpec.v
MachineLogic.v
Messages.v
MachineInv.v
MachineSteps.v
MachineRun.v
MachineProps.v
MachineLocal.v
Dhcp6.v
Rkap.v
Backoff6.v
Icmpv6.v
Lease6.v
Sha256.v
Slaac.v
Params6.v
Router6.v
Outward.v
Core6.v
Machine6.v
Machine6Steps.v
Machine6Spec.v
Machine6Logic.v
Machine6Msgs.v
Machine6Inv.v
Machine6Slaac.v
Machine6Bound.v
Machine6Ends.v
Machine6Reply.v
Machine6Run.v
Machine6Props.v
Machine6Local.v
Machine6Findings.v
Record.v
Rebuild.v
IpUdp6.v
Release.v
Timers.v
Manager.v
ManagerLogic.v
ManagerRun.v
Manager4.v
Manager4Laws.v
Manager6.v
Manager6Laws.v
ManagerProps.v
