(* ===== verification/Prelude.v ===== *)
(** * dhcp-golib: a managed-lease DHCP client, verified

    This library models the repository's inner rings: the DHCPv4, DHCPv6 and
    neighbour discovery codecs of package [wire] (src/wire), the pure DHCPv4 and
    DHCPv6 client machines of package [proto] (src/proto), the manager and the record
    keeping of package [lease] (src/lease), and the frames, releases and timers of
    package [runtime] (src/runtime), and proves what makes them correct.  The
    program is a
    client that keeps one lease: bytes become a [Message] (ring 0), a [Message]
    or a timer becomes an [Event], [Machine.Step] turns an event into a new state
    and a list of [Action]s (ring 1), the manager performs them through its ports
    and reports lease events (ring 2), and the runtime implements the ports
    (ring 3).
    Ring 1 does no I/O, reads no clock and draws no randomness: the instant and
    one random word are arguments of [Step], so the model is a function of them.

    ** The files

    - Prelude: record update, machine integers with their wrap-around ([u8] to
      [u64], [i64]), the type [outcome] of a fallible Go call ([Ok], [Err], a
      run-time [Panic], a loop out of fuel [Hang]), checked indexing and slicing.
    - NetAddr: Go's net/netip ([Addr], [Prefix], [As4], [Masked]), standard
      library the source uses.
    - Options: option codes, big-endian words, user class, rapid commit, options
      108 and 145 (src/wire/option.go, src/wire/codec.go).
    - Codec: [Message], [Encode], [Decode], [parseOptions] (src/wire/codec.go,
      src/wire/message.go).
    - HmacMd5: [md5Sum], [hmacMD5] and the digest comparison
      (src/wire/hmacmd5.go).
    - Forcerenew: option 90, [forcerenewSpan], [VerifyForcerenew]
      (src/wire/option_auth.go).
    - Values: typed option values: addresses, text, routes, compressed names,
      option 81, vendor options (src/wire/values.go).
    - Arp: the ARP codec (src/wire/arp.go).
    - Backoff: instants, durations, the retransmission schedule, [split]
      (src/proto/time.go, src/proto/backoff.go).
    - Kinds: states, timers, reasons, events, journal texts (src/proto/state.go,
      src/proto/event.go, src/proto/action.go).
    - Lease: [Lease], deadlines, [leaseFromAck] (src/proto/lease.go).
    - Acd: the RFC 5227 conflict-detection machine (src/proto/acd.go).
    - Params: the configuration and what [New] refuses (src/proto/params.go).
    - Core: the fields of [Machine], [New], the actions, and the monad of the
      methods: a method reads and assigns fields, stamps actions with ids, or
      panics ([None]).
    - Machine: every method [Step] reaches (src/proto/machine.go,
      machine_acd.go, machine_forcerenew.go, machine_hostname.go,
      rapidcommit.go, ipv6only.go), and [run], a sequence of steps.
    - MachineSpec: the abstract specification: RFC 2131 Table 5 as predicates on
      messages, the observer [Env] that watches the actions, and [allowed], what
      the observer may see next.
    - MachineLogic: a program logic ([wpx]) for the monad, whose triples carry the
      observer along.
    - Messages: the messages the machine builds have the shapes of Table 5 and
      can be encoded.
    - MachineInv, MachineSteps: the invariant [Inv] between fields and observer,
      and that every method and every step keeps it.
    - MachineRun: [New] establishes the invariant; runs and their traces.
    - MachineProps: theorems about every run from every configuration [New]
      accepts.
    - MachineLocal: exact accounts of single methods.
    - Dhcp6: the DHCPv6 codec: messages, options, identity associations, names,
      option 39, NTP and vendor options (src/wire/dhcpv6.go).
    - Rkap: option 11 and the reconfigure key protocol
      (src/wire/dhcpv6_reconfigure.go).
    - Backoff6: RFC 9915 section 15 retransmission, in 128-bit arithmetic
      (src/proto/backoff6.go).
    - Icmpv6: router and neighbour messages and their options
      (src/wire/icmpv6.go).
    - Lease6: [Lease6], its deadlines, what is read from a Reply, what a renewal
      carries over (src/proto/lease6.go, prefix6.go, temporary6.go).
    - Sha256, Slaac: stable identifiers and the table of formed addresses
      (src/proto/sha256.go, iid6.go, slaac6.go).
    - Params6: the DHCPv6 configuration, option requests, schedules
      (src/proto/params6.go, backoff6.go).
    - Router6: the table of what routers advertise (src/proto/router6.go).
    - Outward: the lease, events and clock bridge a caller sees
      (src/lease/event.go).
    - Core6: the states, events and actions of the DHCPv6 side, the fields of
      [Machine6], [New6], and the monad of its methods (src/proto/state6.go,
      action.go, machine6.go, dad6.go).
    - Machine6, Machine6Steps: every method of [Machine6] that [Step] reaches:
      building messages, exchanges, timers, discovery, duplicate checks, bound
      states, declines and releases; then the Replies, router advertisements,
      Reconfigure, the state handlers and [Step6] (src/proto/machine6.go,
      machine6_slaac.go, machine6_reconfigure.go, machine6_hostname.go,
      rapidcommit6.go, prefix6.go, temporary6.go).
    - Machine6Spec: the abstract specification: the message shapes of RFC 9915
      section 18.2 ([conforms6]), the observer [Env6], what it may see next
      ([allowed6]), acceptable inputs, [reach6], and the invariant's parts.
    - Machine6Logic, Machine6Msgs: the program logic [wp6], and that what the
      machine builds conforms.
    - Machine6Inv, Machine6Slaac, Machine6Bound, Machine6Ends, Machine6Reply,
      Machine6Run: the invariant [Inv6] and that every method keeps it.
    - Machine6Props: theorems about every reachable machine; a concrete run.
    - Machine6Local: exact accounts of single methods, and what only grows
      ([moves], [later]): replay floors, declined addresses.
    - Machine6Findings: runs the comments or the RFCs rule out.
    - Record, Rebuild: the durable record, the fold of one journal line, and the
      rebuild of a journal (src/lease/record.go, src/lease/rebuild.go).
    - RateLimit: the token bucket (src/lease/ratelimit.go).
    - Rings: the packet and journal rings (src/runtime/packetring.go,
      src/runtime/journal.go).
    - IpUdp, IpUdp6: IPv4, IPv6 and UDP frames (src/runtime/ipudp.go,
      src/runtime/ipudp6.go).
    - Release: the releases a record gives rise to and the sending of them
      (src/lease/release.go, src/runtime/release_record.go,
      src/runtime/release_link.go).
    - Timers: the timer service as a transition system, and the abstract service
      it implements (src/runtime/timers.go).
    - Manager: the state of a [Manager], its ports, counters and events, the
      request queue, [drain], [dispatch] and [Run], over an interface to the
      family ([Ring1], [Handler]); Manager4 and Manager6 are its two instances
      with their constructors (src/lease/manager.go, manager6.go, ports.go).
    - ManagerLogic: what the log of a manager must look like ([log_ok],
      [counters]), the program logic [wpm], and the laws of a family ([Lawful],
      [Served]).
    - ManagerRun: any family that obeys the laws serves every wake-up; then
      [Manager4Laws] and [Manager6Laws] discharge them from the machines'
      invariants.
    - ManagerProps: theorems about every run of either manager.

    ** What the theorems show

    - The codecs: [Decode] and the readers return on every octet string, neither
      panicking nor looping; the option map is exactly the concatenation RFC 3396
      asks for; encoding then decoding is the identity on well-formed messages,
      ARP packets, authentication options, user classes and names; the MD5 rounds
      are RFC 1321's; a DHCPFORCERENEW that verifies is a message whose one
      authentication option is the HMAC of the octets that arrived.
    - The values: deadlines are ordered as RFC 2131 section 4.4.5 asks whatever a
      server sent, classless routes supersede the router, masks are read exactly,
      retransmission delays are the clamped powers plus or minus jitter.
    - Conflict detection: the schedule of RFC 5227, what counts as a conflict, the
      rate limit.
    - The machine as a whole: [run_refines] says that no sequence of events makes
      it panic and that every action is one the specification admits where it
      stands.  Read off it: lease events alternate, messages conform to Table 5,
      an address is announced before it is used in ConflictWait mode, a lease is
      reported with its expiry timer running, a state that waits has the timer it
      waits for armed (INIT unless the link was lost or an action failed; T1 and
      T2 where the lease has them and a server to ask), and no timer that sends is
      set for zero.
    - Single methods: which messages are read, what a DHCPFORCERENEW must prove,
      how restarts back off, what a conflict leads to, that an acknowledgement is
      taken, and that a remembered lease is asked for.

    - The DHCPv6 machine: [step6_refines] says that from every configuration
      [New6] accepts no sequence of inputs [input_ok] admits makes it panic and
      every action is one the specification admits; read off it or proved beside
      it: messages conform, what was announced is what is held, a granted lease
      that ends has its expiry timer armed, in managed mode without temporary
      addresses no unchecked address is announced, and a managed client that has
      reported no transport failure has what its state waits for outstanding and
      timed; a Reconfigure acts once and only if authentic; an address declined,
      or declined before by the configuration, is not solicited again; what is
      admitted.
    - DHCPv6 and its neighbours: the message codec is a bijection on octets; a
      Reconfigure verifies exactly when its digest is the HMAC; a lease read
      from any Reply is exactly what one of its associations says and is sound,
      and a renewal neither loses nor extends anything on its own;
      retransmission factors are exact; neighbour discovery input never panics
      or loops and is read as it was written; a table of formed addresses keeps
      its invariant whatever its methods are called with, and a refreshed
      address ends exactly when the two-hour rule of RFC 4862 says; the router
      table is bounded and the union of what routers said, list by list.
    - Around the machine: frames this side builds are read by this side; the
      ring holds the last entries; the bucket keeps the bound of RFC 9915
      section 14.1; outward leases show the ends of the inner ones; a record's
      id, scope, identity and family are written once, its wire counters are the
      sum over its managers of the snapshots an independent observer counts, an
      event made durable is not mis-folded, and each rebuilt record is the fold
      of its own lines whatever others stand between.
    - Releases: what [Releases] makes of a record, on every branch, decodes to a
      RELEASE of exactly the bindings the record names; a source that is not
      this machine's stops everything before anything is sent; one message goes
      out per server, and a failed one does not stop the others.
    - Timers: in every interleaving the service refines one whose timers are
      armed or not and disarm by firing; a timer is read no more often than it
      was set; an armed one can always be read, whoever waits to send, and a
      Close can always finish.
    - The manager: whatever its ports answer and its callers ask for, [Run] comes
      to the end of any sequence of wake-ups; lease events alternate on the
      outside as they do inside, and [Lease] is what they last said; each counter
      but two counts what its name says, the failed sends together, the mirrored
      ones being the machine's, and no failed send is kept from the machine; no
      stretch of a DHCPv6 run that starts at the bucket sends more than the rate
      limit allows; a lease crosses from one process to the next with the time
      that is left of it, of its T1 and T2, and of its prefixes.  A DHCPv6 run is
      one of a configuration a program can hold ([given6]) whose timers fire as
      [input_ok] asks ([timelyRun]).

    ** Conventions and bounds

    A Go integer is a [Z] followed by the wrap of its type where an operation can
    leave it.  A Go string is its octets.  A nil pointer is [None].  Maps are
    finite maps; [Encode] sorts the codes as [Options.Codes] does.  A slice the
    code copies is a value here.  Journal texts are kept as format and arguments;
    what they print to is not modelled.

    Loops whose recursion is not structural take fuel, and a run out of fuel is
    [Hang] (or [None] in the machine), so that the theorems that a function
    returns rule it out: an option walk needs one unit per octet left, a
    compressed name (maxNameJumps + 1) passes over the option, MD5 padding one
    block.  [applyACD] and [enterBound] call each other in the source; the model
    unfolds that twice ([acdDepth]), and the no-panic theorem shows it is enough.
    The DHCPv6 machine's recursion is over lists.

    The inputs of the DHCPv6 theorems ([input_ok]): an advertisement's prefixes
    are those of decoded options; a timer fires only if it was set at some time,
    possibly after its cancel, but a retransmission fire is of the timer as it is
    armed ([late_retransmission] shows what a late one does).  That only checked
    addresses are announced is stated for the managed mode without temporary
    addresses ([stateful]): a formed address is checked by its own table, and a
    renewal that moves the IA_NA onto a held temporary address treats a duplicate
    of it as temporary.  [state6_is_driven] is for the managed mode and until a
    transport failure was reported: a message that could not be built, or too many
    sends that failed.

    A manager's port answers as a function of the log of all calls so far, so a
    theorem over all ports is one over every clock, network and caller; a send on
    the events channel is answered by whether it was taken or given up.  The log
    also has what came out of a channel ([FxReceive] and its kin, [FxFired]), so
    that a counter of what arrived can be held against it.  The ready
    cases of the [select] are an arbitrary list ([Moment]).  [dispatch] takes fuel;
    [manager_ends] proves that some is enough: a step is followed by one for each
    of its sends that failed, and those send nothing.  Of a DHCPv6 run the timers
    must fire as [input_ok] asks, and a frame be octets ([timelyRun]).

    ** What is not modelled

    The runtime's clients, sockets and files are operating-system I/O around those
    parts: the manager's ports are parameters.  The fault-injecting transport of
    the tests (src/lease/fault.go), the journal encoding (src/proto/journal.go and
    its companions), the rendering of values as text and the repository's own
    tools and gates are left out.  A mutex of the source makes a method one atomic
    step here; how long a full events channel holds the manager up, and the
    getters that copy a field under the mutex, have no definition of their own. *)

From Stdlib Require Export ZArith Lia ZifyNat Bool.
From Stdlib Require Export String.
From stdpp Require Export base list gmap sorting.

#[global] Open Scope Z_scope.

(** ** Functional record update

    Go methods assign one field of a struct at a time.  [r <| f := v |>] is the
    record [r] with the projection [f] replaced; it works for every record that
    declares its eta expansion as a [Settable] instance. *)

Class Settable (R : Type) := eta_of : R -> R.

Class Setter {R T : Type} (get : R -> T) := set_fld : (T -> T) -> R -> R.

#[global] Hint Mode Setter - - ! : typeclass_instances.

Ltac derive_setter R get :=
  let eta := eval hnf in (@eta_of R _) in
  let pat := eval pattern get in eta in
  lazymatch pat with
  | ?f _ =>
    let body := constr:(fun upd r => f (fun r' => upd (get r')) r) in
    let body := eval cbv beta in body in
    exact body
  end.

#[global] Hint Extern 1 (@Setter ?R _ ?get) => derive_setter R get : typeclass_instances.

Declare Scope record_scope.
#[global] Open Scope record_scope.

#[warnings="-postfix-notation-not-level-1"]
Notation "r <| f := v |>" := (set_fld (get := f) (fun _ => v) r)
  (at level 12, f at next level, left associativity) : record_scope.

(** ** Machine integers

    Every Go integer is a [Z]; the conversions and the operations that can
    leave the width are followed by the wrap of their type. *)

Definition u8 (z : Z) : Z := z mod 2 ^ 8.
Definition u16 (z : Z) : Z := z mod 2 ^ 16.
Definition u32 (z : Z) : Z := z mod 2 ^ 32.
Definition u64 (z : Z) : Z := z mod 2 ^ 64.
Definition i64 (z : Z) : Z := (z + 2 ^ 63) mod 2 ^ 64 - 2 ^ 63.

Definition MaxInt64 : Z := 2 ^ 63 - 1.

(** The value ranges of the widths, as boolean predicates. *)
Definition in_width (w z : Z) : bool := (0 <=? z) && (z <? 2 ^ w).
Definition in_i64 (z : Z) : bool := (- 2 ^ 63 <=? z) && (z <? 2 ^ 63).

Lemma in_width_spec w z : in_width w z = true <-> 0 <= z < 2 ^ w.
Proof. unfold in_width. rewrite andb_true_iff, Z.leb_le, Z.ltb_lt. done. Qed.

Lemma in_i64_spec z : in_i64 z = true <-> - 2 ^ 63 <= z < 2 ^ 63.
Proof. unfold in_i64. rewrite andb_true_iff, Z.leb_le, Z.ltb_lt. done. Qed.

Lemma u8_range z : 0 <= u8 z < 256.
Proof. apply Z.mod_pos_bound. lia. Qed.
Lemma u64_range z : 0 <= u64 z < 2 ^ 64.
Proof. apply Z.mod_pos_bound. lia. Qed.

Lemma u8_id z : 0 <= z < 256 -> u8 z = z.
Proof. intros. apply Z.mod_small. lia. Qed.
Lemma u16_id z : 0 <= z < 65536 -> u16 z = z.
Proof. intros. apply Z.mod_small. lia. Qed.
Lemma u32_id z : 0 <= z < 2 ^ 32 -> u32 z = z.
Proof. intros. apply Z.mod_small. lia. Qed.
Lemma u64_id z : 0 <= z < 2 ^ 64 -> u64 z = z.
Proof. intros. apply Z.mod_small. lia. Qed.

Lemma i64_id z : - 2 ^ 63 <= z < 2 ^ 63 -> i64 z = z.
Proof. intros. unfold i64. rewrite Z.mod_small; lia. Qed.

Lemma i64_range z : - 2 ^ 63 <= i64 z < 2 ^ 63.
Proof. unfold i64. pose proof (Z.mod_pos_bound (z + 2 ^ 63) (2 ^ 64)). lia. Qed.

(** [two64] and friends as numerals, for [lia] after [cbn] left powers behind. *)
Ltac zpow := change (2 ^ 8) with 256 in *; change (2 ^ 16) with 65536 in *;
  change (2 ^ 32) with 4294967296 in *; change (2 ^ 63) with 9223372036854775808 in *;
  change (2 ^ 64) with 18446744073709551616 in *.

(** Linear arithmetic with divisions and remainders, on [nat] as well. *)
Ltac lia_mod := zify; Z.to_euclidean_division_equations; lia.

(** ** Octets and Go strings *)

(** A Go [byte] is a [Z]; a slice of them is a list, and so is a Go string,
    which is a read-only sequence of octets. *)
Abbreviation byte := Z (only parsing).
Abbreviation bytes := (list Z) (only parsing).
Abbreviation gostring := (list Z) (only parsing).

Definition is_byte (b : Z) : Prop := 0 <= b < 256.
Definition are_bytes (l : bytes) : Prop := Forall is_byte l.

Lemma are_bytes_cons x l : are_bytes (x :: l) <-> 0 <= x < 256 /\ are_bytes l.
Proof. unfold are_bytes. by rewrite Forall_cons. Qed.

Lemma are_bytes_app a b : are_bytes (a ++ b) <-> are_bytes a /\ are_bytes b.
Proof. unfold are_bytes. by rewrite Forall_app. Qed.

Lemma are_bytes_take n b : are_bytes b -> are_bytes (take n b).
Proof. apply Forall_take. Qed.
Lemma are_bytes_drop n b : are_bytes b -> are_bytes (drop n b).
Proof. apply Forall_drop. Qed.

#[global] Instance is_byte_dec b : Decision (is_byte b).
Proof. unfold is_byte. apply _. Defined.

Definition bytes_eqb (a b : bytes) : bool := bool_decide (a = b).

Lemma bytes_eqb_eq a b : bytes_eqb a b = true <-> a = b.
Proof. apply bool_decide_eq_true. Qed.

(** The octets of an ASCII literal, for the constant texts of the source. *)
Fixpoint ascii_bytes (s : string) : gostring :=
  match s with
  | EmptyString => []
  | String c s' => Z.of_N (Ascii.N_of_ascii c) :: ascii_bytes s'
  end.

(** ** Outcomes

    [Ok] is a value, [Err] an error the Go function returns, [Panic] a run-time
    panic (an index or slice out of range, a nil dereference, [As4] on a value
    that is no IPv4 address) and [Hang] a loop that has not finished within the
    fuel it was given. *)

Inductive outcome (E A : Type) :=
| Ok (a : A)
| Err (e : E)
| Panic
| Hang.
Arguments Ok {E A} a.
Arguments Err {E A} e.
Arguments Panic {E A}.
Arguments Hang {E A}.

#[global] Instance outcome_ret E : MRet (outcome E) := fun A a => Ok a.
#[global] Instance outcome_bind E : MBind (outcome E) := fun A B f c =>
  match c with
  | Ok a => f a
  | Err e => Err e
  | Panic => Panic
  | Hang => Hang
  end.

#[global] Create HintDb returns.

(** A function is safe when it returns: a value or an error, never a panic and
    never a loop without end. *)
Definition returns {E A} (o : outcome E A) : Prop := o <> Panic /\ o <> Hang.

Definition is_ok {E A} (o : outcome E A) : bool :=
  match o with Ok _ => true | _ => false end.

Lemma returns_ok {E A} (a : A) : returns (Ok a : outcome E A).
Proof. done. Qed.
Lemma returns_err {E A} (e : E) : returns (Err e : outcome E A).
Proof. done. Qed.

Lemma returns_bind {E A B} (c : outcome E A) (f : A -> outcome E B) :
  returns c -> (forall a, c = Ok a -> returns (f a)) -> returns (c ≫= f).
Proof. intros [H1 H2] Hf. destruct c; cbn; [by apply Hf | done | done | done]. Qed.

#[export] Hint Resolve returns_ok returns_err returns_bind : returns.

(** Inversion of a successful bind. *)
Lemma ok_inj {E A} (a b : A) : (Ok a : outcome E A) = Ok b -> a = b.
Proof. by intros [= ->]. Qed.

Lemma bind_ok_inv {E A B} (c : outcome E A) (f : A -> outcome E B) b :
  c ≫= f = Ok b -> exists a, c = Ok a /\ f a = Ok b.
Proof. destruct c; cbn; [eauto | done | done | done]. Qed.

Ltac inv_ok :=
  repeat match goal with
  | H : _ ≫= _ = Ok _ |- _ => apply bind_ok_inv in H; destruct H as (? & ? & H)
  | H : Ok _ = Ok _ |- _ => injection H as H; try subst
  | H : Err _ = Ok _ |- _ => discriminate H
  | H : Panic = Ok _ |- _ => discriminate H
  | H : Hang = Ok _ |- _ => discriminate H
  end.

(** Checked indexing and slicing, [b[i]] and [b[i:j]]. *)
Definition idx {E} (b : bytes) (i : nat) : outcome E byte :=
  match b !! i with Some x => Ok x | None => Panic end.

Definition slice {E} (b : bytes) (i j : nat) : outcome E bytes :=
  if ((i <=? j) && (j <=? length b))%nat then Ok (take (j - i) (drop i b)) else Panic.

Lemma idx_ok {E} b i : (i < length b)%nat -> exists x, @idx E b i = Ok x /\ b !! i = Some x.
Proof. intros H. unfold idx. destruct (lookup_lt_is_Some_2 b i H) as [x ->]. eauto. Qed.

Lemma idx_drop {E} b i x b' : drop i b = x :: b' -> @idx E b i = Ok x.
Proof.
  intros H. unfold idx. replace (b !! i) with (drop i b !! 0%nat); [by rewrite H|].
  rewrite lookup_drop. f_equal. lia.
Qed.

Lemma slice_ok {E} b i j : (i <= j)%nat -> (j <= length b)%nat ->
  @slice E b i j = Ok (take (j - i) (drop i b)).
Proof.
  intros. unfold slice. rewrite (proj2 (Nat.leb_le i j)), (proj2 (Nat.leb_le j _)); done.
Qed.

Lemma slice_inv {E} b i j v : @slice E b i j = Ok v ->
  (i <= j)%nat /\ (j <= length b)%nat /\ v = take (j - i) (drop i b).
Proof.
  unfold slice. destruct (i <=? j)%nat eqn:H1; [|done]. destruct (j <=? length b)%nat eqn:H2; [|done].
  apply Nat.leb_le in H1, H2. cbn. intros [= <-]. done.
Qed.

Lemma slice_length {E} b i j v : @slice E b i j = Ok v -> length v = (j - i)%nat.
Proof. intros (? & ? & ->)%slice_inv. rewrite length_take, length_drop. lia. Qed.

(** Indexing and slicing in range return. *)
Section returns.
Context {E : Type}.

Lemma returns_idx b i : (i < length b)%nat -> returns (@idx E b i).
Proof. intros (x & -> & _)%(@idx_ok E). done. Qed.

Lemma returns_slice b i j : (i <= j)%nat -> (j <= length b)%nat -> returns (@slice E b i j).
Proof. intros. by rewrite slice_ok. Qed.

Lemma returns_slice_bind {A} b i j (f : bytes -> outcome E A) :
  (i <= j)%nat -> (j <= length b)%nat ->
  (forall v, length v = (j - i)%nat -> returns (f v)) -> returns (slice b i j ≫= f).
Proof.
  intros Hi Hj Hf. apply returns_bind; [by apply returns_slice|].
  intros v Hv. apply Hf. by apply slice_length in Hv.
Qed.
End returns.

Lemma drop_cons_inv (b : bytes) i : (i < length b)%nat ->
  exists c, drop i b = c :: drop (i + 1) b.
Proof.
  intros H. destruct (lookup_lt_is_Some_2 b i H) as [c Hc]. exists c.
  rewrite (drop_S _ _ _ Hc). by rewrite Nat.add_1_r.
Qed.

(** The rest of a buffer. *)
Lemma slice_tail {E} b i : (i <= length b)%nat -> @slice E b i (length b) = Ok (drop i b).
Proof. intros. rewrite slice_ok by lia. by rewrite take_ge by (rewrite length_drop; lia). Qed.

(** A slice of a list that is split at the slice's bounds. *)
Lemma slice_app {E} (a v c : bytes) i j :
  i = length a -> j = (length a + length v)%nat -> @slice E (a ++ v ++ c) i j = Ok v.
Proof.
  intros -> ->. rewrite slice_ok; [| lia | rewrite !length_app; lia].
  rewrite drop_app_length. f_equal.
  replace (length a + length v - length a)%nat with (length v) by lia.
  apply take_app_length.
Qed.

(** ** Lists *)

(** Go's [copy] into a zeroed field of [n] octets. *)
Definition pad_to (n : nat) (l : bytes) : bytes :=
  take n l ++ replicate (n - length l) 0.

Lemma length_pad_to n l : length (pad_to n l) = n.
Proof. unfold pad_to. rewrite length_app, length_take, length_replicate. lia. Qed.

Lemma take_pad_to n l : (length l <= n)%nat -> take (length l) (pad_to n l) = l.
Proof. intros. unfold pad_to. rewrite (take_ge l n) by done. by rewrite take_app_length. Qed.

Lemma list_split_at {A} (l : list A) i j : (i <= j)%nat ->
  l = take i l ++ take (j - i) (drop i l) ++ drop j l.
Proof.
  intros. rewrite <- (take_drop i l) at 1. f_equal.
  rewrite <- (take_drop (j - i) (drop i l)) at 1. f_equal.
  rewrite drop_drop. f_equal. lia.
Qed.

Lemma map_id_on {A} (f : A -> A) l : Forall (fun x => f x = x) l -> map f l = l.
Proof. induction 1 as [|x l Hx _ IH]; [done|]. cbn. by rewrite Hx, IH. Qed.

(** ** Bits *)

Lemma lor_shiftl_add a b n : 0 <= n -> 0 <= b < 2 ^ n ->
  Z.lor (Z.shiftl a n) b = a * 2 ^ n + b.
Proof.
  intros Hn Hb.
  assert (Hland : Z.land (Z.shiftl a n) b = 0).
  { apply Z.bits_inj'. intros i Hi. rewrite Z.land_spec, Z.bits_0.
    destruct (Z.ltb_spec i n).
    - rewrite Z.shiftl_spec_low by done. done.
    - rewrite andb_comm. replace (Z.testbit b i) with false; [done|]. symmetry.
      destruct (Z.eq_dec b 0) as [->|]; [apply Z.bits_0|].
      apply Z.bits_above_log2; [lia|].
      apply Z.lt_le_trans with n; [apply Z.log2_lt_pow2; lia | done]. }
  rewrite <- (Z.shiftl_mul_pow2 a n) by done.
  rewrite Z.add_nocarry_lxor by done. by rewrite Z.lxor_lor.
Qed.
