(* ===== verification/NetAddr.v ===== *)
(** * IP addresses

    The part of Go's [net/netip] the client uses.  [netip.Addr] is a value with
    three shapes: the zero [Addr], an IPv4 address and an IPv6 address with a
    zone.  [netip.Prefix] is an address and a width, -1 when the width is not
    one the family has. *)

From S2P Require Import Prelude.

Inductive Addr :=
| AddrZero
| Addr4 (v : Z)
| Addr6 (v : Z) (zone : gostring).

#[global] Instance Addr_eq_dec : EqDecision Addr.
Proof. solve_decision. Defined.

Definition addr_eqb (a b : Addr) : bool := bool_decide (a = b).

Lemma addr_eqb_eq a b : addr_eqb a b = true <-> a = b.
Proof. apply bool_decide_eq_true. Qed.
Lemma addr_eqb_neq a b : addr_eqb a b = false <-> a <> b.
Proof. apply bool_decide_eq_false. Qed.
Lemma addr_eqb_refl a : addr_eqb a a = true.
Proof. by apply addr_eqb_eq. Qed.

Definition IsValid (a : Addr) : bool := match a with AddrZero => false | _ => true end.
Definition Is4 (a : Addr) : bool := match a with Addr4 _ => true | _ => false end.

(** [::ffff:0:0/96], the IPv4-mapped IPv6 addresses. *)
Definition Is4In6 (a : Addr) : bool :=
  match a with Addr6 v _ => Z.shiftr v 32 =? 0xffff | _ => false end.

Definition IsUnspecified (a : Addr) : bool :=
  match a with
  | AddrZero => false
  | Addr4 v => v =? 0
  | Addr6 v zone => (v =? 0) && bytes_eqb zone []
  end.

Definition Unmap (a : Addr) : Addr :=
  match a with
  | Addr6 v _ => if Is4In6 a then Addr4 (u32 v) else a
  | _ => a
  end.

Definition IsMulticast (a : Addr) : bool :=
  match Unmap a with
  | AddrZero => false
  | Addr4 v => Z.shiftr v 28 =? 0xe
  | Addr6 v _ => Z.shiftr v 120 =? 0xff
  end.

(** [AddrFrom4] of four octets and [As4] back; [As4] panics on the zero [Addr]
    and on an IPv6 address that is not IPv4-mapped. *)
Definition AddrFrom4 (b : bytes) : Addr :=
  match b with
  | [b0; b1; b2; b3] =>
    Addr4 (Z.lor (Z.shiftl b0 24) (Z.lor (Z.shiftl b1 16) (Z.lor (Z.shiftl b2 8) b3)))
  | _ => AddrZero
  end.

Definition octets4 (v : Z) : bytes :=
  [u8 (Z.shiftr v 24); u8 (Z.shiftr v 16); u8 (Z.shiftr v 8); u8 v].

Definition As4 (a : Addr) : option bytes :=
  match a with
  | Addr4 v => Some (octets4 v)
  | Addr6 v _ => if Is4In6 a then Some (octets4 v) else None
  | AddrZero => None
  end.

(** [0.0.0.0] and [255.255.255.255]. *)
Definition addr_any : Addr := Addr4 0.
Definition addr_broadcast : Addr := Addr4 0xffffffff.

(** A usable IPv4 address: the test the client makes before it puts an address
    in a message, [a.Is4() && !a.IsUnspecified()]. *)
Definition usable4 (a : Addr) : bool := Is4 a && negb (IsUnspecified a).

(** A value of the type [netip.Addr] has the width of its family. *)
Definition addr_wf (a : Addr) : Prop :=
  match a with
  | AddrZero => True
  | Addr4 v => 0 <= v < 2 ^ 32
  | Addr6 v _ => 0 <= v < 2 ^ 128
  end.

Record Prefix := PrefixOf { paddr : Addr; pbits : Z }.

#[global] Instance Prefix_eq_dec : EqDecision Prefix.
Proof. solve_decision. Defined.

Definition prefix_zero : Prefix := PrefixOf AddrZero (-1).

Definition BitLen (a : Addr) : Z :=
  match a with AddrZero => 0 | Addr4 _ => 32 | Addr6 _ _ => 128 end.

Definition WithoutZone (a : Addr) : Addr :=
  match a with Addr6 v _ => Addr6 v [] | _ => a end.

Definition PrefixFrom (a : Addr) (bits : Z) : Prefix :=
  PrefixOf (WithoutZone a)
    (if IsValid a && (0 <=? bits) && (bits <=? BitLen a) then bits else -1).

(** The first [bits] of a [w]-bit address. *)
Definition mask_to (w bits v : Z) : Z := Z.shiftl (Z.shiftr v (w - bits)) (w - bits).

Definition Masked (p : Prefix) : Prefix :=
  if (pbits p <? 0) then prefix_zero else
  match paddr p with
  | AddrZero => prefix_zero
  | Addr4 v => PrefixOf (Addr4 (mask_to 32 (pbits p) v)) (pbits p)
  | Addr6 v z => PrefixOf (Addr6 (mask_to 128 (pbits p) v) z) (pbits p)
  end.

Definition PrefixIsValid (p : Prefix) : bool := 0 <=? pbits p.

(** [Prefix.Contains]: the families agree and so do the first bits; no address
    with a zone is in a prefix. *)
Definition Contains (p : Prefix) (ip : Addr) : bool :=
  if negb (PrefixIsValid p) then false else
  match paddr p, ip with
  | Addr4 v, Addr4 w => Z.shiftr v (32 - pbits p) =? Z.shiftr w (32 - pbits p)
  | Addr6 v _, Addr6 w zone => bytes_eqb zone [] && (Z.shiftr v (128 - pbits p) =? Z.shiftr w (128 - pbits p))
  | _, _ => false
  end.

(** Addresses and prefixes are keys of maps and members of sets. *)
#[global] Instance Addr_countable : Countable Addr.
Proof.
  refine (inj_countable'
    (fun a => match a with AddrZero => inl tt | Addr4 v => inr (inl v) | Addr6 v z => inr (inr (v, z)) end)
    (fun s => match s with inl _ => AddrZero | inr (inl v) => Addr4 v | inr (inr (v, z)) => Addr6 v z end) _).
  by intros [].
Defined.

#[global] Instance Prefix_countable : Countable Prefix.
Proof.
  refine (inj_countable' (fun p => (paddr p, pbits p)) (fun s => PrefixOf s.1 s.2) _). by intros [].
Defined.

(** ** IPv6: [Is6], [AddrFrom16] of sixteen octets and [As16] back *)

Definition Is6 (a : Addr) : bool := match a with Addr6 _ _ => true | _ => false end.

Definition fromBE (b : bytes) : Z := foldl (fun acc x => Z.lor (Z.shiftl acc 8) x) 0 b.

Fixpoint toBE (n : nat) (v : Z) : bytes :=
  match n with O => [] | S n => toBE n (Z.shiftr v 8) ++ [u8 v] end.

Definition AddrFrom16 (b : bytes) : Addr := Addr6 (fromBE b) [].

Definition As16 (a : Addr) : bytes :=
  match a with
  | AddrZero => replicate 16 0
  | Addr4 v => replicate 10 0 ++ [0xff; 0xff] ++ octets4 v
  | Addr6 v _ => toBE 16 v
  end.

(** ** Lemmas *)

Lemma fromBE_snoc b x : fromBE (b ++ [x]) = Z.lor (Z.shiftl (fromBE b) 8) x.
Proof. unfold fromBE. by rewrite foldl_app. Qed.

Lemma fromBE_range b : are_bytes b -> 0 <= fromBE b < 2 ^ (8 * Z.of_nat (length b)).
Proof.
  induction b as [|x b IH] using rev_ind; [done|]. rewrite are_bytes_app, are_bytes_cons. intros (Hb & Hx & _).
  specialize (IH Hb). rewrite fromBE_snoc, lor_shiftl_add, length_app by lia. cbn [length].
  replace (8 * Z.of_nat (length b + 1)) with (8 * Z.of_nat (length b) + 8) by lia.
  rewrite Z.pow_add_r by lia. zpow. lia.
Qed.

Lemma fromBE_app a b : are_bytes b -> fromBE (a ++ b) = fromBE a * 2 ^ (8 * Z.of_nat (length b)) + fromBE b.
Proof.
  induction b as [|x b IH] using rev_ind; intros Hb; [rewrite app_nil_r; cbn; lia|].
  apply are_bytes_app in Hb as [Hb [Hx _]%are_bytes_cons]. rewrite app_assoc, !fromBE_snoc, !lor_shiftl_add by lia.
  rewrite IH, length_app by done. cbn [length]. replace (8 * Z.of_nat (length b + 1)) with (8 * Z.of_nat (length b) + 8) by lia.
  rewrite Z.pow_add_r by lia. lia.
Qed.

Lemma length_toBE n v : length (toBE n v) = n.
Proof. revert v. induction n as [|n IH]; intros v; [done|]. cbn. rewrite length_app, IH. cbn. lia. Qed.

Lemma toBE_bytes n v : are_bytes (toBE n v).
Proof.
  revert v. induction n as [|n IH]; intros v; [constructor|]. cbn. apply are_bytes_app. split; [apply IH|].
  repeat constructor; apply u8_range.
Qed.

Lemma toBE_fromBE b : are_bytes b -> toBE (length b) (fromBE b) = b.
Proof.
  induction b as [|x b IH] using rev_ind; [done|]. rewrite are_bytes_app, are_bytes_cons. intros (Hb & Hx & _).
  rewrite length_app, Nat.add_1_r, fromBE_snoc, lor_shiftl_add by lia. cbn [toBE].
  rewrite Z.shiftr_div_pow2 by lia. unfold u8.
  replace ((fromBE b * 2 ^ 8 + x) / 2 ^ 8) with (fromBE b) by (zpow; lia_mod).
  replace ((fromBE b * 2 ^ 8 + x) mod 2 ^ 8) with x by (zpow; lia_mod). by rewrite IH.
Qed.

Lemma fromBE_toBE n : forall v, 0 <= v < 2 ^ (8 * Z.of_nat n) -> fromBE (toBE n v) = v.
Proof.
  induction n as [|n IH]; intros v Hv; [cbn in *; lia|]. cbn [toBE].
  replace (8 * Z.of_nat (S n)) with (8 * Z.of_nat n + 8) in Hv by lia. rewrite Z.pow_add_r in Hv by lia.
  pose proof (u8_range v). rewrite fromBE_snoc, lor_shiftl_add by lia. rewrite IH.
  - unfold u8. rewrite Z.shiftr_div_pow2 by lia. zpow. lia_mod.
  - rewrite Z.shiftr_div_pow2 by lia. zpow. split; [lia_mod|]. apply Z.div_lt_upper_bound; lia.
Qed.

Lemma AddrFrom16_As16 v : 0 <= v < 2 ^ 128 -> AddrFrom16 (toBE 16 v) = Addr6 v [].
Proof. intros. unfold AddrFrom16. by rewrite fromBE_toBE. Qed.

Lemma As16_AddrFrom16 b : are_bytes b -> length b = 16%nat -> As16 (AddrFrom16 b) = b.
Proof. intros Hb Hl. unfold AddrFrom16, As16. rewrite <- Hl at 1. by apply toBE_fromBE. Qed.

Lemma Is4_inv a : Is4 a = true -> exists v, a = Addr4 v.
Proof. destruct a; naive_solver. Qed.

Lemma usable4_inv a : usable4 a = true -> exists v, a = Addr4 v /\ v <> 0.
Proof.
  unfold usable4. intros [H1 H2]%andb_true_iff. apply Is4_inv in H1 as [v ->].
  exists v. split; [done|]. cbn in H2. destruct (Z.eqb_spec v 0); done.
Qed.

Lemma usable4_Is4 a : usable4 a = true -> Is4 a = true.
Proof. unfold usable4. by intros [? _]%andb_true_iff. Qed.

Lemma As4_Is4 a : Is4 a = true -> exists b, As4 a = Some b.
Proof. intros [v ->]%Is4_inv. cbn. eauto. Qed.

Lemma octets4_bytes v : are_bytes (octets4 v).
Proof. repeat constructor; apply u8_range. Qed.

Lemma length_octets4 v : length (octets4 v) = 4%nat.
Proof. done. Qed.

Lemma AddrFrom4_octets4 v : 0 <= v < 2 ^ 32 -> AddrFrom4 (octets4 v) = Addr4 v.
Proof.
  intros Hv. unfold octets4, AddrFrom4, u8. f_equal.
  rewrite !Z.shiftr_div_pow2 by lia.
  pose proof (Z.mod_pos_bound v (2 ^ 8)). pose proof (Z.mod_pos_bound (v / 2 ^ 8) (2 ^ 8)).
  pose proof (Z.mod_pos_bound (v / 2 ^ 16) (2 ^ 8)). pose proof (Z.mod_pos_bound (v / 2 ^ 24) (2 ^ 8)).
  rewrite (lor_shiftl_add _ (v mod 2 ^ 8)) by lia.
  rewrite (lor_shiftl_add _ (_ + _)) by lia.
  rewrite (lor_shiftl_add _ (_ + _)) by lia.
  change (2 ^ 8) with 256 in *. change (2 ^ 16) with 65536 in *. change (2 ^ 24) with 16777216 in *.
  change (2 ^ 32) with 4294967296 in *. Z.to_euclidean_division_equations. lia.
Qed.

Lemma AddrFrom4_wf b : are_bytes b -> addr_wf (AddrFrom4 b).
Proof.
  intros Hb. destruct b as [|b0 [|b1 [|b2 [|b3 [|]]]]]; try done.
  unfold are_bytes, is_byte in Hb. rewrite !Forall_cons in Hb. destruct Hb as (?&?&?&?&_).
  cbn [AddrFrom4 addr_wf]. rewrite (lor_shiftl_add b2 b3) by lia.
  rewrite (lor_shiftl_add b1) by lia. rewrite (lor_shiftl_add b0) by lia. lia.
Qed.

Lemma octets4_AddrFrom4 b0 b1 b2 b3 : are_bytes [b0; b1; b2; b3] ->
  exists v, AddrFrom4 [b0; b1; b2; b3] = Addr4 v /\ octets4 v = [b0; b1; b2; b3].
Proof.
  intros Hb. unfold are_bytes, is_byte in Hb. rewrite !Forall_cons in Hb. destruct Hb as (?&?&?&?&_).
  eexists. split; [done|]. unfold octets4, u8.
  rewrite (lor_shiftl_add b2 b3) by lia.
  rewrite (lor_shiftl_add b1) by lia. rewrite (lor_shiftl_add b0) by lia.
  rewrite !Z.shiftr_div_pow2 by lia.
  change (2 ^ 8) with 256. change (2 ^ 16) with 65536. change (2 ^ 24) with 16777216.
  repeat f_equal; Z.to_euclidean_division_equations; lia.
Qed.
