(* ===== verification/Options.v ===== *)
(** * The DHCPv4 options: wire/option.go

    The option codes, the map of raw option values, the byte-order helpers of
    wire/codec.go that every reader shares, and the option values that have a
    codec of their own: user class (RFC 3004), rapid commit (RFC 4039),
    IPv6-only preferred (RFC 8925) and forcerenew nonce capable (RFC 6704).

    A reader's three Go results (value, present, error) are one value here:
    [None] for an option that is absent, [Some (Err e)] for one that is present
    and unusable, [Some (Ok v)] for its value. *)

From S2P Require Import Prelude NetAddr.

(** The sentinel errors of the package; the text around a sentinel is not
    modelled. *)
Inductive WireErr :=
| ErrShort | ErrBadCookie | ErrTruncatedOption | ErrOptionOverrun
| ErrCHAddrTooLong | ErrOptionTooLong
| ErrBadOptionValue
| ErrMalformedRoutes | ErrMalformedNames | ErrMalformedVendor
| ErrBadFQDNFlags | ErrBadName
| ErrForcerenewAuth | ErrForcerenewNonce | ErrForcerenewDigest
| ErrARPShort | ErrARPFamily | ErrARPAddrLen | ErrARPEncode
| ErrV6Short | ErrV6NotForClient | ErrV6UnknownType | ErrV6TruncatedOption | ErrV6OptionOverrun
| ErrV6BadOption | ErrV6Encode | ErrV6Name | ErrV6Vendor | ErrMalformedNTP | ErrDUID
| ErrV6Auth | ErrRKAPKey | ErrRKAPDigest
| ErrICMPv6Short | ErrICMPv6Type | ErrNDOption | ErrICMPv6Validity | ErrICMPv6Encode | ErrNotIPv6.

#[global] Instance WireErr_eq_dec : EqDecision WireErr.
Proof. solve_decision. Defined.

Abbreviation wire A := (outcome WireErr A) (only parsing).

(** ** Byte order (wire/codec.go) *)

Definition be16 (v : Z) : bytes := [u8 (Z.shiftr v 8); u8 v].

Definition be32 (v : Z) : bytes :=
  [u8 (Z.shiftr v 24); u8 (Z.shiftr v 16); u8 (Z.shiftr v 8); u8 v].

Definition ube16 {E} (b : bytes) : outcome E Z :=
  match b with
  | b0 :: b1 :: _ => Ok (Z.lor (Z.shiftl b0 8) b1)
  | _ => Panic
  end.

Definition ube32 {E} (b : bytes) : outcome E Z :=
  match b with
  | b0 :: b1 :: b2 :: b3 :: _ =>
    Ok (Z.lor (Z.lor (Z.lor (Z.shiftl b0 24) (Z.shiftl b1 16)) (Z.shiftl b2 8)) b3)
  | _ => Panic
  end.

(** [for i := range 8 { dst[i] = byte(v >> (56 - 8*i)) }] *)
Definition be64 (v : Z) : bytes :=
  map (fun i => u8 (Z.shiftr v (56 - 8 * Z.of_nat i))) (seq 0 8).

(** [for i := range 8 { v = v<<8 | uint64(b[i]) }] *)
Definition ube64 {E} (b : bytes) : outcome E Z :=
  foldl (fun acc i => v ← acc; x ← idx b i; Ok (Z.lor (u64 (Z.shiftl v 8)) x)) (Ok 0) (seq 0 8).

(** ** Option codes *)

Abbreviation OptionCode := Z (only parsing).

Definition OptPad : OptionCode := 0.
Definition OptSubnetMask : OptionCode := 1.
Definition OptTimeOffset : OptionCode := 2.
Definition OptRouter : OptionCode := 3.
Definition OptDNSServer : OptionCode := 6.
Definition OptHostName : OptionCode := 12.
Definition OptDomainName : OptionCode := 15.
Definition OptInterfaceMTU : OptionCode := 26.
Definition OptBroadcastAddress : OptionCode := 28.
Definition OptStaticRoute : OptionCode := 33.
Definition OptNTPServer : OptionCode := 42.
Definition OptVendorSpecific : OptionCode := 43.
Definition OptRequestedIP : OptionCode := 50.
Definition OptLeaseTime : OptionCode := 51.
Definition OptOverload : OptionCode := 52.
Definition OptMessageType : OptionCode := 53.
Definition OptServerID : OptionCode := 54.
Definition OptParameterList : OptionCode := 55.
Definition OptMessage : OptionCode := 56.
Definition OptMaxMessageSize : OptionCode := 57.
Definition OptRenewalTime : OptionCode := 58.
Definition OptRebindingTime : OptionCode := 59.
Definition OptVendorClassID : OptionCode := 60.
Definition OptClientID : OptionCode := 61.
Definition OptTFTPServer : OptionCode := 66.
Definition OptBootfileName : OptionCode := 67.
Definition OptUserClass : OptionCode := 77.
Definition OptRapidCommit : OptionCode := 80.
Definition OptFQDN : OptionCode := 81.
Definition OptAuthentication : OptionCode := 90.
Definition OptPosixTimezone : OptionCode := 100.
Definition OptTZDatabase : OptionCode := 101.
Definition OptIPv6OnlyPreferred : OptionCode := 108.
Definition OptDomainSearch : OptionCode := 119.
Definition OptClasslessStaticRte : OptionCode := 121.
Definition OptVIVSO : OptionCode := 125.
Definition OptForcerenewNonce : OptionCode := 145.
Definition OptMSClasslessStaticRte : OptionCode := 249.
Definition OptWPAD : OptionCode := 252.
Definition OptEnd : OptionCode := 255.

(** ** The option map *)

(** [type Options map[OptionCode][]byte] *)
Abbreviation Options := (gmap Z (list Z)).

(** [Options.Codes]: the codes present, ascending. *)
Definition Codes (o : Options) : list OptionCode :=
  merge_sort Z.le (map_to_list o).*1.

(** ** User class, option 77 *)

Definition maxUserClassInstance : nat := 254.

Fixpoint userClassTotal (classes : list bytes) (total : nat) : wire nat :=
  match classes with
  | [] => Ok total
  | c :: rest =>
    if ((length c =? 0) || (maxUserClassInstance <? length c))%nat then Err ErrBadOptionValue
    else userClassTotal rest (total + (1 + length c))
  end.

Definition EncodeUserClass (classes : list bytes) : wire bytes :=
  if (length classes =? 0)%nat then Err ErrBadOptionValue else
  total ← userClassTotal classes 0;
  if (255 <? total)%nat then Err ErrBadOptionValue else
  Ok (concat (map (fun c => u8 (Z.of_nat (length c)) :: c) classes)).

Fixpoint userClassLoop (fuel : nat) (v : bytes) (i : nat) (out : list bytes) : wire (list bytes) :=
  match fuel with
  | O => Hang
  | S fuel =>
    if (i <? length v)%nat then
      x ← idx v i;
      let n := Z.to_nat x in
      let i := (i + 1)%nat in
      if (n =? 0)%nat then Err ErrBadOptionValue else
      if (length v - i <? n)%nat then Err ErrBadOptionValue else
      c ← slice v i (i + n);
      userClassLoop fuel v (i + n) (out ++ [c])
    else Ok out
  end.

Definition UserClass (o : Options) : option (wire (list bytes)) :=
  v ← o !! OptUserClass;
  Some (if (length v =? 0)%nat then Err ErrBadOptionValue
        else userClassLoop (S (length v)) v 0 []).

(** ** Rapid commit, option 80 *)

Definition EncodeRapidCommit : bytes := [].

(** [RapidCommit]: present, or the error of a value that is not empty. *)
Definition RapidCommit (o : Options) : wire bool :=
  match o !! OptRapidCommit with
  | None => Ok false
  | Some v => if negb (length v =? 0)%nat then Err ErrBadOptionValue else Ok true
  end.

(** ** IPv6-only preferred, option 108 *)

Definition EncodeIPv6OnlyPreferred (seconds : Z) : bytes := be32 seconds.

Definition IPv6OnlyPreferred (o : Options) : option (wire Z) :=
  v ← o !! OptIPv6OnlyPreferred;
  Some (if negb (length v =? 4)%nat then Err ErrBadOptionValue else ube32 v).

(** ** Forcerenew nonce capable, option 145 *)

Definition ForcerenewAlgorithmHMACMD5 : Z := 1.

Definition EncodeForcerenewNonceCapable : bytes := [ForcerenewAlgorithmHMACMD5].

Definition ForcerenewNonceAlgorithms (o : Options) : option (wire bytes) :=
  v ← o !! OptForcerenewNonce;
  Some (if (length v =? 0)%nat then Err ErrBadOptionValue else Ok v).

(** ** Lemmas: byte order *)

Lemma length_be32 v : length (be32 v) = 4%nat.
Proof. done. Qed.

Lemma be16_bytes v : are_bytes (be16 v).
Proof. repeat constructor; apply u8_range. Qed.
Lemma be32_bytes v : are_bytes (be32 v).
Proof. repeat constructor; apply u8_range. Qed.

Lemma ube16_be16 {E} v rest : 0 <= v < 2 ^ 16 -> @ube16 E (be16 v ++ rest) = Ok v.
Proof.
  intros Hv. cbn. unfold u8. f_equal. rewrite Z.shiftr_div_pow2 by lia.
  pose proof (Z.mod_pos_bound v (2 ^ 8)). rewrite lor_shiftl_add by lia.
  zpow. Z.to_euclidean_division_equations. lia.
Qed.

Lemma ube32_be32 {E} v rest : 0 <= v < 2 ^ 32 -> @ube32 E (be32 v ++ rest) = Ok v.
Proof.
  intros Hv. pose proof (AddrFrom4_octets4 v Hv) as H. cbn in *.
  injection H as H. rewrite <- !Z.lor_assoc. by rewrite H.
Qed.

(** What the readers return is what the writers write. *)
Lemma be16_ube16 {E} s v : are_bytes s -> length s = 2%nat -> @ube16 E s = Ok v -> be16 v = s /\ 0 <= v < 2 ^ 16.
Proof.
  destruct s as [|a [|b [|]]]; try done. repeat rewrite are_bytes_cons. intros (Ha & Hb & _) _ [= <-].
  rewrite lor_shiftl_add by lia. unfold be16, u8. rewrite Z.shiftr_div_pow2 by lia. zpow.
  split; [|lia]. repeat f_equal; lia_mod.
Qed.

Lemma be32_ube32 {E} s v : are_bytes s -> length s = 4%nat -> @ube32 E s = Ok v -> be32 v = s /\ 0 <= v < 2 ^ 32.
Proof.
  intros Hb Hl. destruct s as [|b0 [|b1 [|b2 [|b3 [|]]]]]; try done.
  destruct (octets4_AddrFrom4 b0 b1 b2 b3 Hb) as (x & Hx & Hs). pose proof (AddrFrom4_wf _ Hb) as Hw.
  rewrite Hx in Hw. cbn in Hx. injection Hx as Hx. cbn [ube32]. rewrite <- !Z.lor_assoc, Hx. intros [= <-]. done.
Qed.

Lemma ube16_be16' {E} v : 0 <= v < 2 ^ 16 -> @ube16 E (be16 v) = Ok v.
Proof. exact (ube16_be16 v []). Qed.
Lemma ube32_be32' {E} v : 0 <= v < 2 ^ 32 -> @ube32 E (be32 v) = Ok v.
Proof. exact (ube32_be32 v []). Qed.

Lemma ube32_returns {E} (b : bytes) : (4 <= length b)%nat -> exists v, @ube32 E b = Ok v.
Proof. destruct b as [|? [|? [|? [|? ?]]]]; cbn; try lia; eauto. Qed.
Lemma ube16_returns {E} (b : bytes) : (2 <= length b)%nat -> exists v, @ube16 E b = Ok v.
Proof. destruct b as [|? [|? ?]]; cbn; try lia; eauto. Qed.

Lemma returns_ube32 {E} b : (4 <= length b)%nat -> returns (@ube32 E b).
Proof. intros [v ->]%(@ube32_returns E). done. Qed.
Lemma returns_ube16 {E} b : (2 <= length b)%nat -> returns (@ube16 E b).
Proof. intros [v ->]%(@ube16_returns E). done. Qed.

Lemma returns_ube64 {E} b : (8 <= length b)%nat -> returns (@ube64 E b).
Proof. intros Hb. do 8 (destruct b as [|? b]; [cbn in Hb; lia|]). done. Qed.

Lemma shift_in acc b : 0 <= acc < 2 ^ 56 -> 0 <= b < 256 ->
  Z.lor (u64 (Z.shiftl acc 8)) b = acc * 256 + b.
Proof.
  intros Ha Hb. unfold u64. rewrite Z.mod_small.
  - apply lor_shiftl_add; lia.
  - rewrite Z.shiftl_mul_pow2 by lia. zpow. lia.
Qed.

Lemma ube64_8 {E} b0 b1 b2 b3 b4 b5 b6 b7 rest : are_bytes [b0; b1; b2; b3; b4; b5; b6; b7] ->
  @ube64 E (b0 :: b1 :: b2 :: b3 :: b4 :: b5 :: b6 :: b7 :: rest) =
  Ok (b0 * 2 ^ 56 + b1 * 2 ^ 48 + b2 * 2 ^ 40 + b3 * 2 ^ 32 + b4 * 2 ^ 24 + b5 * 2 ^ 16 + b6 * 2 ^ 8 + b7).
Proof.
  intros Hb. unfold are_bytes, is_byte in Hb. rewrite !Forall_cons in Hb.
  destruct Hb as (?&?&?&?&?&?&?&?&_). unfold ube64. cbn [seq foldl].
  repeat (unfold idx at 1; cbn [lookup list_lookup mbind outcome_bind]). f_equal.
  repeat match goal with |- context [Z.lor (u64 (Z.shiftl ?a 8)) ?b] =>
    lazymatch a with context [Z.lor] => fail | _ => rewrite (shift_in a b) by lia end
  end. lia.
Qed.

Lemma ube64_be64 {E} v rest : 0 <= v < 2 ^ 64 -> @ube64 E (be64 v ++ rest) = Ok v.
Proof.
  intros Hv. unfold be64. cbn [seq map app].
  rewrite ube64_8 by (repeat constructor; apply u8_range). f_equal.
  unfold u8. rewrite !Z.shiftr_div_pow2 by lia. cbn -[Z.div Z.modulo Z.mul Z.add].
  change (2 ^ 64) with 18446744073709551616 in Hv.
  Z.to_euclidean_division_equations. lia.
Qed.

Lemma be64_ube64 {E} s v : are_bytes s -> length s = 8%nat -> @ube64 E s = Ok v -> be64 v = s /\ 0 <= v < 2 ^ 64.
Proof.
  intros Hb Hl. destruct s as [|b0 [|b1 [|b2 [|b3 [|b4 [|b5 [|b6 [|b7 [|]]]]]]]]]; try done.
  rewrite ube64_8 by done. repeat rewrite are_bytes_cons in Hb. destruct Hb as (?&?&?&?&?&?&?&?&_).
  intros [= <-]. split; [|zpow; lia]. unfold be64, u8. cbn [seq map]. rewrite !Z.shiftr_div_pow2 by lia.
  repeat f_equal; cbn -[Z.div Z.modulo Z.mul Z.add]; lia_mod.
Qed.

Lemma ube64_be64' {E} v : 0 <= v < 2 ^ 64 -> @ube64 E (be64 v) = Ok v.
Proof. intros. rewrite <- (app_nil_r (be64 v)). by apply ube64_be64. Qed.

(** ** Lemmas: user class *)

Lemma userClassTotal_ok classes : forall total n,
  userClassTotal classes total = Ok n ->
  Forall (fun c => (1 <= length c <= 254)%nat) classes /\
  n = (total + length (concat (map (fun c => u8 (Z.of_nat (length c)) :: c) classes)))%nat.
Proof.
  induction classes as [|c rest IH]; cbn [userClassTotal]; intros total n H.
  - injection H as <-. cbn. split; [constructor|lia].
  - destruct ((length c =? 0)%nat || (maxUserClassInstance <? length c)%nat)%bool eqn:Hc; [done|].
    apply orb_false_iff in Hc as [H1 H2]. apply Nat.eqb_neq in H1. apply Nat.ltb_ge in H2.
    apply IH in H as [HF ->]. unfold maxUserClassInstance in H2. split.
    + constructor; [lia|done].
    + cbn. rewrite !length_app. cbn. lia.
Qed.

Lemma userClassLoop_spec fuel : forall v i out cs,
  drop i v = concat (map (fun c => u8 (Z.of_nat (length c)) :: c) cs) ->
  Forall (fun c => (1 <= length c <= 254)%nat) cs ->
  (length v - i < fuel)%nat ->
  userClassLoop fuel v i out = Ok (out ++ cs).
Proof.
  induction fuel as [|fuel IH]; intros v i out cs Hd HF Hfuel; [lia|]. cbn [userClassLoop].
  destruct cs as [|c cs]; cbn in Hd.
  { apply (f_equal length) in Hd as Hl. rewrite length_drop in Hl. cbn in Hl.
    rewrite (proj2 (Nat.ltb_ge _ _)) by lia. by rewrite app_nil_r. }
  apply Forall_cons in HF as [Hc HF].
  assert (Hi : (length v - i = S (length c + length (concat (map (fun c => u8 (Z.of_nat (length c)) :: c) cs))))%nat).
  { rewrite <- length_drop, Hd. cbn. by rewrite length_app. }
  rewrite (proj2 (Nat.ltb_lt _ _)) by lia.
  rewrite (idx_drop _ _ _ _ Hd). cbn [mbind outcome_bind].
  rewrite u8_id by lia. rewrite Nat2Z.id.
  rewrite (proj2 (Nat.eqb_neq _ _)) by lia. rewrite (proj2 (Nat.ltb_ge _ _)) by lia.
  assert (Hd1 : drop (i + 1) v = c ++ concat (map (fun c => u8 (Z.of_nat (length c)) :: c) cs)).
  { rewrite <- drop_drop, Hd. done. }
  rewrite slice_ok by lia. cbn [mbind outcome_bind].
  replace (i + 1 + length c - (i + 1))%nat with (length c) by lia.
  rewrite Hd1, take_app_length.
  rewrite (IH _ _ _ cs); [by rewrite <- app_assoc | | done | lia].
  rewrite <- drop_drop, Hd1. apply drop_app_length.
Qed.

(** User classes survive the wire.  Every list [EncodeUserClass] accepts is
    read back by [UserClass], in order, whatever else the map carries. *)
Theorem UserClass_roundtrip (o : Options) classes v : EncodeUserClass classes = Ok v ->
  UserClass (<[OptUserClass := v]> o) = Some (Ok classes).
Proof.
  unfold EncodeUserClass, UserClass. rewrite lookup_insert_eq. cbn [mbind option_bind].
  destruct (Nat.eqb_spec (length classes) 0) as [|Hne]; [done|]. intros H.
  apply bind_ok_inv in H as (n & Hn & H). destruct (255 <? n)%nat; [done|]. injection H as <-.
  apply userClassTotal_ok in Hn as [HF _].
  destruct (Nat.eqb_spec (length (concat (map (fun c => u8 (Z.of_nat (length c)) :: c) classes))) 0) as [E|_].
  - destruct classes; [done|]. cbn in E. done.
  - by rewrite (userClassLoop_spec _ _ _ _ classes) by (done || lia).
Qed.

Lemma UserClass_roundtrip_witness : exists v,
  EncodeUserClass [ascii_bytes "lab"; ascii_bytes "printer"] = Ok v /\
  UserClass (<[OptUserClass := v]> ∅) = Some (Ok [ascii_bytes "lab"; ascii_bytes "printer"]).
Proof.
  eexists. split; [vm_compute; reflexivity|]. apply UserClass_roundtrip. vm_compute. reflexivity.
Defined.
