(* ===== verification/Codec.v ===== *)
(** * The DHCPv4 message codec: wire/message.go and wire/codec.go

    [Message] is the BOOTP header and the option map; [Encode] and [Decode] are
    the two codec functions with their layout, their error order and their
    loops.  [tlv_area] is the grammar of an option area (RFC 2132 section 2) the
    option loop is proved against. *)

From S2P Require Import Prelude NetAddr Options.

(** ** wire/message.go *)

Definition BootRequest : Z := 1.
Definition BootReply : Z := 2.

Definition MsgDiscover : Z := 1.
Definition MsgOffer : Z := 2.
Definition MsgRequest : Z := 3.
Definition MsgDecline : Z := 4.
Definition MsgAck : Z := 5.
Definition MsgNak : Z := 6.
Definition MsgRelease : Z := 7.
Definition MsgInform : Z := 8.
Definition MsgForceRenew : Z := 9.

Definition HTypeEthernet : Z := 1.
Definition FlagBroadcast : Z := 0x8000.

Record Message := mkMessage {
  Op : Z;
  HType : Z;
  HLen : Z;
  Hops : Z;
  XID : Z;
  Secs : Z;
  Flags : Z;
  CIAddr : Addr;
  YIAddr : Addr;
  SIAddr : Addr;
  GIAddr : Addr;
  CHAddr : bytes;
  SName : bytes;
  File : bytes;
  MOptions : Options
}.

#[global] Instance eta_Message : Settable Message := fun m =>
  mkMessage (Op m) (HType m) (HLen m) (Hops m) (XID m) (Secs m) (Flags m) (CIAddr m)
    (YIAddr m) (SIAddr m) (GIAddr m) (CHAddr m) (SName m) (File m) (MOptions m).

(** [Message.Type]: option 53, when it is one octet long. *)
Definition Type_ (m : Message) : option Z :=
  match MOptions m !! OptMessageType with
  | Some [t] => Some t
  | _ => None
  end.

Definition SetType (m : Message) (t : Z) : Message :=
  m <| MOptions := <[OptMessageType := [u8 t]]> (MOptions m) |>.

(** ** wire/codec.go: layout *)

Definition fixedLen : nat := 236.
Definition cookieLen : nat := 4.
Definition HeaderLen : nat := fixedLen + cookieLen.
Definition chaddrLen : nat := 16.
Definition snameLen : nat := 64.
Definition fileLen : nat := 128.
Definition snameOff : nat := 44.
Definition fileOff : nat := 108.
Definition MinMessageLen : nat := 300.
Definition magicCookie : bytes := [99; 130; 83; 99].

Definition putAddr (a : Addr) : bytes :=
  if Is4 a then default [] (As4 a) else [0; 0; 0; 0].

Definition getAddr (b : bytes) : wire Addr := v ← slice b 0 4; Ok (AddrFrom4 v).

(** ** Encode *)

Fixpoint encodeOptions (o : Options) (codes : list OptionCode) (buf : bytes) : wire bytes :=
  match codes with
  | [] => Ok buf
  | c :: rest =>
    if (c =? OptPad) || (c =? OptEnd) then encodeOptions o rest buf else
    let v := default [] (o !! c) in
    if (255 <? length v)%nat then Err ErrOptionTooLong else
    encodeOptions o rest (buf ++ [u8 c; u8 (Z.of_nat (length v))] ++ v)
  end.

Definition encodeHeader (m : Message) : bytes :=
  [u8 (Op m); HType m; u8 (Z.of_nat (length (CHAddr m))); Hops m]
  ++ be32 (XID m) ++ be16 (Secs m) ++ be16 (Flags m)
  ++ putAddr (CIAddr m) ++ putAddr (YIAddr m) ++ putAddr (SIAddr m) ++ putAddr (GIAddr m)
  ++ pad_to chaddrLen (CHAddr m) ++ pad_to snameLen (SName m) ++ pad_to fileLen (File m)
  ++ magicCookie.

Definition Encode (m : Message) : wire bytes :=
  if (chaddrLen <? length (CHAddr m))%nat then Err ErrCHAddrTooLong else
  buf ← encodeOptions (MOptions m) (Codes (MOptions m)) (encodeHeader m);
  let buf := buf ++ [OptEnd] in
  Ok (buf ++ replicate (MinMessageLen - length buf) OptPad).

(** ** Decode *)

(** [parseOptions], the loop at offset [i] of [b]; [out] is the map it fills.
    [out[c] = append(out[c], v...)] concatenates repeated codes. *)
Definition appendOption (out : Options) (c : OptionCode) (v : bytes) : Options :=
  <[c := default [] (out !! c) ++ v]> out.

Fixpoint parseLoop (fuel : nat) (b : bytes) (i : nat) (out : Options) : wire Options :=
  match fuel with
  | O => Hang
  | S fuel =>
    if (i <? length b)%nat then
      c ← idx b i;
      if c =? OptPad then parseLoop fuel b (i + 1) out else
      if c =? OptEnd then Ok out else
      if (length b <=? i + 1)%nat then Err ErrTruncatedOption else
      l ← idx b (i + 1);
      let n := Z.to_nat l in
      if (length b <? i + 2 + n)%nat then Err ErrOptionOverrun else
      v ← slice b (i + 2) (i + 2 + n);
      parseLoop fuel b (i + 2 + n) (appendOption out c v)
    else Ok out
  end.

(** Every turn of the loop advances [i], so one turn per octet is enough. *)
Definition parseOptions (b : bytes) (out : Options) : wire Options :=
  parseLoop (S (length b)) b 0 out.

(** [trimNul]: the octets before the first NUL. *)
Fixpoint trimNul (b : bytes) : bytes :=
  match b with
  | [] => []
  | c :: rest => if c =? 0 then [] else c :: trimNul rest
  end.

Definition Decode (b : bytes) : wire Message :=
  if (length b <? HeaderLen)%nat then Err ErrShort else
  cookie ← slice b fixedLen HeaderLen;
  if negb (bytes_eqb cookie magicCookie) then Err ErrBadCookie else
  op ← idx b 0; htype ← idx b 1; hlen ← idx b 2; hops ← idx b 3;
  xid ← (s ← slice b 4 8; ube32 s);
  secs ← (s ← slice b 8 10; ube16 s);
  flags ← (s ← slice b 10 12; ube16 s);
  ci ← (s ← slice b 12 16; getAddr s);
  yi ← (s ← slice b 16 20; getAddr s);
  si ← (s ← slice b 20 24; getAddr s);
  gi ← (s ← slice b 24 28; getAddr s);
  let hl := Z.to_nat hlen in
  let hl := if (chaddrLen <? hl)%nat then chaddrLen else hl in
  chaddr ← slice b 28 (28 + hl);
  area ← slice b HeaderLen (length b);
  o ← parseOptions area ∅;
  let overload := match o !! OptOverload with Some [x] => x | _ => 0 end in
  fileField ← slice b fileOff (fileOff + fileLen);
  o ← (if negb (Z.land overload 1 =? 0) then parseOptions fileField o else Ok o);
  let file := if negb (Z.land overload 1 =? 0) then [] else trimNul fileField in
  snameField ← slice b snameOff (snameOff + snameLen);
  o ← (if negb (Z.land overload 2 =? 0) then parseOptions snameField o else Ok o);
  let sname := if negb (Z.land overload 2 =? 0) then [] else trimNul snameField in
  Ok (mkMessage op htype hlen hops xid secs flags ci yi si gi chaddr sname file o).

(** ** The grammar of an option area *)

(** The options of an area, in wire order.  The area ends at an END octet or at
    the end of the buffer; PAD octets stand between options. *)
Inductive tlv_area : bytes -> list (OptionCode * bytes) -> Prop :=
| area_nil : tlv_area [] []
| area_end rest : tlv_area (OptEnd :: rest) []
| area_pad b os : tlv_area b os -> tlv_area (OptPad :: b) os
| area_opt c l v b os :
    c <> OptPad -> c <> OptEnd -> Z.to_nat l = length v ->
    tlv_area b os -> tlv_area (c :: l :: v ++ b) ((c, v) :: os).

(** What the decoder builds from them: RFC 3396 concatenation per code. *)
Definition collect (os : list (OptionCode * bytes)) (out : Options) : Options :=
  foldl (fun o cv => appendOption o cv.1 cv.2) out os.

(** ** The option loop implements the grammar *)

Lemma collect_cons c v os out : collect ((c, v) :: os) out = collect os (appendOption out c v).
Proof. done. Qed.

Lemma collect_app os1 os2 out : collect (os1 ++ os2) out = collect os2 (collect os1 out).
Proof. unfold collect. by rewrite foldl_app. Qed.

(** The values of one code, in wire order. *)
Definition values (k : OptionCode) (os : list (OptionCode * bytes)) : list bytes :=
  map snd (filter (fun cv => cv.1 = k) os).

Lemma values_cons_eq k v os : values k ((k, v) :: os) = v :: values k os.
Proof. unfold values. by rewrite filter_cons_True. Qed.
Lemma values_cons_ne k c v os : c <> k -> values k ((c, v) :: os) = values k os.
Proof. intros. unfold values. by rewrite filter_cons_False. Qed.
Lemma values_app k os os' : values k (os ++ os') = values k os ++ values k os'.
Proof. unfold values. by rewrite filter_app, map_app. Qed.

(** Looking a code up in the result: RFC 3396 concatenation. *)
Lemma lookup_collect os : forall out k, collect os out !! k =
  match values k os with [] => out !! k | vs => Some (default [] (out !! k) ++ concat vs) end.
Proof.
  induction os as [|[c v] os IH]; intros out k; [done|].
  rewrite collect_cons, IH. unfold appendOption.
  destruct (decide (c = k)) as [->|Hc].
  - rewrite values_cons_eq, lookup_insert_eq. destruct (values k os); cbn; [by rewrite app_nil_r|].
    by rewrite <- app_assoc.
  - rewrite values_cons_ne, lookup_insert_ne by done. done.
Qed.

Lemma parseLoop_area rest os : tlv_area rest os -> forall fuel b i out,
  drop i b = rest -> (length b - i < fuel)%nat ->
  parseLoop fuel b i out = Ok (collect os out).
Proof.
  induction 1 as [|rest|rest os _ IH|c l v rest os Hp He Hl _ IH]; intros fuel b i out Hd Hf;
    (destruct fuel as [|fuel]; [lia|]); cbn [parseLoop];
    apply (f_equal length) in Hd as Hlen; rewrite length_drop in Hlen; cbn in Hlen.
  - rewrite (proj2 (Nat.ltb_ge _ _)) by lia. done.
  - rewrite (proj2 (Nat.ltb_lt _ _)) by lia. rewrite (idx_drop _ _ _ _ Hd). done.
  - rewrite (proj2 (Nat.ltb_lt _ _)) by lia. rewrite (idx_drop _ _ _ _ Hd). cbn [mbind outcome_bind].
    rewrite Z.eqb_refl. apply IH; [|lia]. rewrite <- drop_drop, Hd. done.
  - rewrite length_app in Hlen.
    rewrite (proj2 (Nat.ltb_lt _ _)) by lia. rewrite (idx_drop _ _ _ _ Hd). cbn [mbind outcome_bind].
    apply Z.eqb_neq in Hp, He. rewrite Hp, He.
    rewrite (proj2 (Nat.leb_gt _ _)) by lia.
    assert (Hd1 : drop (i + 1) b = l :: v ++ rest) by (rewrite <- drop_drop, Hd; done).
    rewrite (idx_drop _ _ _ _ Hd1). cbn [mbind outcome_bind]. rewrite Hl.
    assert (Hd2 : drop (i + 2) b = v ++ rest) by (rewrite <- drop_drop, Hd; done).
    rewrite (proj2 (Nat.ltb_ge _ _)) by lia. rewrite slice_ok by lia. cbn [mbind outcome_bind].
    replace (i + 2 + length v - (i + 2))%nat with (length v) by lia.
    rewrite Hd2, take_app_length, IH; [done | | lia].
    rewrite <- drop_drop, Hd2. apply drop_app_length.
Qed.

(** One turn of the loop, read off the octets left. *)
Lemma parseLoop_step fuel b i out : (i < length b)%nat -> exists c,
  drop i b = c :: drop (i + 1) b /\
  parseLoop (S fuel) b i out =
    if c =? OptPad then parseLoop fuel b (i + 1) out else
    if c =? OptEnd then Ok out else
    if (length b <=? i + 1)%nat then Err ErrTruncatedOption else
    l ← idx b (i + 1);
    if (length b <? i + 2 + Z.to_nat l)%nat then Err ErrOptionOverrun else
    v ← slice b (i + 2) (i + 2 + Z.to_nat l);
    parseLoop fuel b (i + 2 + Z.to_nat l) (appendOption out c v).
Proof.
  intros H. destruct (drop_cons_inv b i H) as [c Hc]. exists c. split; [done|].
  cbn [parseLoop]. rewrite (proj2 (Nat.ltb_lt _ _) H), (idx_drop _ _ _ _ Hc). done.
Qed.

Lemma parseLoop_returns fuel : forall b i out,
  (length b - i < fuel)%nat -> returns (parseLoop fuel b i out).
Proof.
  induction fuel as [|fuel IH]; intros b i out Hf; [lia|].
  destruct (le_lt_dec (length b) i) as [Hge|Hlt].
  { cbn [parseLoop]. rewrite (proj2 (Nat.ltb_ge _ _)) by lia. done. }
  destruct (parseLoop_step fuel b i out Hlt) as (c & _ & ->).
  destruct (c =? OptPad); [apply IH; lia|]. destruct (c =? OptEnd); [done|].
  destruct (Nat.leb_spec (length b) (i + 1)); [done|].
  destruct (@idx_ok WireErr b (i + 1)) as (l & -> & _); [lia|]. cbn [mbind outcome_bind].
  destruct (Nat.ltb_spec (length b) (i + 2 + Z.to_nat l)); [done|].
  rewrite slice_ok by lia. cbn [mbind outcome_bind]. apply IH. lia.
Qed.

Lemma parseLoop_ok fuel : forall b i out out',
  parseLoop fuel b i out = Ok out' ->
  exists os, tlv_area (drop i b) os /\ out' = collect os out.
Proof.
  induction fuel as [|fuel IH]; intros b i out out' H; [done|].
  destruct (le_lt_dec (length b) i) as [Hge|Hlt].
  { cbn [parseLoop] in H. rewrite (proj2 (Nat.ltb_ge _ _)) in H by lia. injection H as <-.
    exists []. rewrite drop_ge by done. split; [constructor|done]. }
  destruct (parseLoop_step fuel b i out Hlt) as (c & Hc & E). rewrite E in H. clear E.
  destruct (Z.eqb_spec c OptPad) as [Hp|Hp].
  { rewrite Hp in Hc. apply IH in H as (os & Hos & ->). exists os. rewrite Hc. split; [by constructor|done]. }
  destruct (Z.eqb_spec c OptEnd) as [He|He].
  { rewrite He in Hc. injection H as <-. exists []. rewrite Hc. split; [constructor|done]. }
  destruct (Nat.leb_spec (length b) (i + 1)) as [|Hi]; [done|].
  destruct (drop_cons_inv b (i + 1) Hi) as [l Hl]. rewrite (idx_drop _ _ _ _ Hl) in H.
  cbn [mbind outcome_bind] in H.
  destruct (Nat.ltb_spec (length b) (i + 2 + Z.to_nat l)) as [|Hn]; [done|].
  rewrite slice_ok in H by lia. cbn [mbind outcome_bind] in H.
  apply IH in H as (os & Hos & ->).
  replace (i + 2 + Z.to_nat l - (i + 2))%nat with (Z.to_nat l) in * by lia.
  exists ((c, take (Z.to_nat l) (drop (i + 2) b)) :: os). split; [|done]. rewrite Hc, Hl.
  replace (i + 1 + 1)%nat with (i + 2)%nat by lia.
  rewrite <- (take_drop (Z.to_nat l) (drop (i + 2) b)) at 1. constructor; try done.
  - rewrite length_take, length_drop. lia.
  - by rewrite drop_drop.
Qed.

Lemma parseOptions_returns b out : returns (parseOptions b out).
Proof. apply parseLoop_returns. lia. Qed.
#[export] Hint Resolve parseOptions_returns : returns.

Lemma parseOptions_area b os out : tlv_area b os -> parseOptions b out = Ok (collect os out).
Proof. intros H. apply (parseLoop_area _ _ H); [done|lia]. Qed.

(** The option loop is the grammar.  [parseOptions] succeeds exactly on the
    buffers that are option areas, and the map it returns holds, for every code
    found in the area, what the map held before followed by the code's values
    concatenated in wire order (RFC 3396), and leaves every other code alone. *)
Theorem parseOptions_spec b out out' :
  parseOptions b out = Ok out' <->
  exists os, tlv_area b os /\
    forall k, out' !! k =
      match values k os with
      | [] => out !! k
      | vs => Some (default [] (out !! k) ++ concat vs)
      end.
Proof.
  split.
  - intros (os & Hos & ->)%parseLoop_ok. exists os. split; [done|]. apply lookup_collect.
  - intros (os & Hos & Hk). rewrite (parseOptions_area _ _ _ Hos). f_equal. apply map_eq.
    intros k. by rewrite lookup_collect, Hk.
Qed.

(** ** Decode returns on every buffer *)

Lemma returns_getAddr b : (4 <= length b)%nat -> returns (getAddr b).
Proof. intros. unfold getAddr. apply returns_slice_bind; [lia|lia|done]. Qed.

(** [Decode] returns on every octet string: it never indexes or slices out
    of range and its option loops end. *)
Theorem Decode_returns b : returns (Decode b).
Proof.
  unfold Decode. destruct (Nat.ltb_spec (length b) HeaderLen) as [|Hlen]; [done|].
  unfold HeaderLen, fixedLen, cookieLen, fileOff, fileLen, snameOff, snameLen in *. cbn in Hlen.
  apply returns_slice_bind; [cbn; lia..|]. intros cookie _.
  destruct (negb _); [done|].
  do 4 (apply returns_bind; [apply returns_idx; lia|intros ? _]).
  apply returns_bind; [apply returns_slice_bind; [lia..|intros; apply returns_ube32; lia]|intros ? _].
  do 2 (apply returns_bind;
    [apply returns_slice_bind; [lia..|intros; apply returns_ube16; lia]|intros ? _]).
  do 4 (apply returns_bind;
    [apply returns_slice_bind; [lia..|intros; apply returns_getAddr; lia]|intros ? _]).
  apply returns_slice_bind.
  { lia. }
  { unfold chaddrLen. destruct (Nat.ltb_spec 16 (Z.to_nat a1)); lia. }
  intros chaddr _. apply returns_slice_bind; [cbn; lia|lia|]. intros area _.
  apply returns_bind; [apply parseOptions_returns|]. intros o _.
  apply returns_slice_bind; [cbn; lia..|]. intros ff _.
  apply returns_bind; [destruct (negb _); auto with returns|]. intros o' _.
  apply returns_slice_bind; [cbn; lia..|]. intros sf _.
  apply returns_bind; [destruct (negb _); auto with returns|]. done.
Qed.

(** ** What survives the wire *)

Lemma elem_of_Codes (o : Options) c : c ∈ Codes o <-> is_Some (o !! c).
Proof.
  unfold Codes. rewrite merge_sort_Permutation, list_elem_of_fmap. split.
  - intros ([c' v] & -> & H%elem_of_map_to_list). cbn. eauto.
  - intros [v H]. exists (c, v). split; [done|]. by apply elem_of_map_to_list.
Qed.

Lemma NoDup_Codes (o : Options) : NoDup (Codes o).
Proof. unfold Codes. rewrite merge_sort_Permutation. apply NoDup_fst_map_to_list. Qed.

Lemma Sorted_Codes (o : Options) : Sorted Z.le (Codes o).
Proof. apply Sorted_merge_sort. intros ??. lia. Qed.

Definition is_content (c : OptionCode) : Prop := c <> OptPad /\ c <> OptEnd.
#[global] Instance is_content_dec c : Decision (is_content c).
Proof. unfold is_content. apply _. Defined.

(** The options [encodeOptions] writes, in its order. *)
Definition written (o : Options) (codes : list OptionCode) : list (OptionCode * bytes) :=
  map (fun c => (c, default [] (o !! c))) (filter is_content codes).

Lemma encodeOptions_area o codes : forall buf b,
  Forall is_byte codes -> encodeOptions o codes buf = Ok b ->
  exists area, b = buf ++ area /\ forall rest os, tlv_area rest os ->
    tlv_area (area ++ rest) (written o codes ++ os).
Proof.
  unfold written. induction codes as [|c codes IH]; cbn [encodeOptions]; intros buf b Hc H.
  { injection H as <-. exists []. rewrite app_nil_r. done. }
  apply Forall_cons in Hc as [Hc Hcs]. rewrite filter_cons.
  destruct (Z.eqb_spec c OptPad) as [Hp|Hp]; cbn [orb] in H.
  { destruct (decide (is_content c)) as [[? ?]|]; [done|]. by apply IH in H. }
  destruct (Z.eqb_spec c OptEnd) as [He|He].
  { destruct (decide (is_content c)) as [[? ?]|]; [done|]. by apply IH in H. }
  destruct (decide (is_content c)) as [_|Hn]; [|destruct Hn; done].
  destruct (Nat.ltb_spec 255 (length (default [] (o !! c)))) as [|Hl]; [done|].
  apply IH in H as (area & -> & Harea); [|done]. rewrite u8_id, u8_id by (done || lia).
  eexists. rewrite <- app_assoc. split; [done|]. intros rest os Hr. cbn. rewrite <- app_assoc.
  apply area_opt; [done..|lia|]. by apply Harea.
Qed.

Lemma collect_written o codes out k : NoDup codes -> Forall (fun c => out !! c = None) codes ->
  collect (written o codes) out !! k =
    if decide (k ∈ codes /\ is_content k) then Some (default [] (o !! k)) else out !! k.
Proof.
  unfold written. revert out. induction codes as [|c codes IH]; intros out Hnd Hout.
  { destruct (decide _) as [[H _]|]; [|done]. by apply not_elem_of_nil in H. }
  apply NoDup_cons in Hnd as [Hc Hnd]. apply Forall_cons in Hout as [Ho Hout].
  rewrite filter_cons. destruct (decide (is_content c)) as [Hi|Hi]; cbn [map].
  - rewrite collect_cons, IH; [|done|]; unfold appendOption; rewrite ?Ho; cbn.
    + destruct (decide (k = c)) as [->|Hk].
      * rewrite lookup_insert_eq, (decide_True (P := c ∈ c :: codes /\ _)) by (split; [left|done]).
        destruct (decide _); done.
      * rewrite lookup_insert_ne by done.
        destruct (decide (k ∈ codes /\ _)) as [[H1 H2]|H1]; destruct (decide (k ∈ c :: codes /\ _)) as [H3|H3];
          try done; [destruct H3; split; [by right|done]|].
        destruct H1, H3 as [[->|?]%elem_of_cons ?]; done.
    + apply Forall_forall. intros x Hx. rewrite lookup_insert_ne by naive_solver.
      by apply (proj1 (Forall_forall _ _) Hout).
  - rewrite IH by done.
    destruct (decide (k ∈ codes /\ _)) as [[H1 H2]|H1]; destruct (decide (k ∈ c :: codes /\ _)) as [H3|H3];
      try done; [destruct H3; split; [by right|done]|].
    destruct H1, H3 as [[->|?]%elem_of_cons ?]; done.
Qed.

Lemma collect_Codes o :
  collect (written o (Codes o)) ∅ = delete OptPad (delete OptEnd o).
Proof.
  apply map_eq. intros k.
  rewrite collect_written; [| apply NoDup_Codes | apply Forall_forall; intros; apply lookup_empty].
  rewrite lookup_empty, !lookup_delete.
  destruct (decide (k ∈ Codes o /\ is_content k)) as [[Hk [H1 H2]]|Hk].
  - rewrite !decide_False by done. apply elem_of_Codes in Hk as [v ->]. done.
  - destruct (decide _); [done|]. destruct (decide _); [done|].
    destruct (o !! k) as [v|] eqn:Ho; [|done]. destruct Hk. split.
    + apply elem_of_Codes. by rewrite Ho.
    + split; congruence.
Qed.

Lemma trimNul_zeros n : trimNul (replicate n 0) = [].
Proof. by destruct n. Qed.

Lemma trimNul_app_zeros l n : trimNul (l ++ replicate n 0) = trimNul l.
Proof.
  induction l as [|c l IH]; cbn; [apply trimNul_zeros|]. by rewrite IH.
Qed.

Lemma trimNul_pad_to n l : trimNul (pad_to n l) = trimNul (take n l).
Proof. unfold pad_to. apply trimNul_app_zeros. Qed.

(** The value [Decode] reads where [Encode] wrote [m]: addresses are valid,
    'hlen' is the length written, the two name fields end at their first NUL and
    the framing codes are gone from the map. *)
Definition wire_addr (a : Addr) : Addr := if Is4 a then a else addr_any.

Definition wire_form (m : Message) : Message :=
  mkMessage (Op m) (HType m) (Z.of_nat (length (CHAddr m))) (Hops m) (XID m) (Secs m) (Flags m)
    (wire_addr (CIAddr m)) (wire_addr (YIAddr m)) (wire_addr (SIAddr m)) (wire_addr (GIAddr m))
    (CHAddr m) (trimNul (take snameLen (SName m))) (trimNul (take fileLen (File m)))
    (delete OptPad (delete OptEnd (MOptions m))).

(** A value of the Go type [Message]: every field within its width. *)
Record message_wf (m : Message) : Prop := {
  wf_op : 0 <= Op m < 256;
  wf_htype : 0 <= HType m < 256;
  wf_hops : 0 <= Hops m < 256;
  wf_xid : 0 <= XID m < 2 ^ 32;
  wf_secs : 0 <= Secs m < 2 ^ 16;
  wf_flags : 0 <= Flags m < 2 ^ 16;
  wf_ci : addr_wf (CIAddr m);
  wf_yi : addr_wf (YIAddr m);
  wf_si : addr_wf (SIAddr m);
  wf_gi : addr_wf (GIAddr m);
  wf_codes : Forall is_byte (Codes (MOptions m))
}.

(** The option-overload bits of a map, as [Decode] reads them. *)
Definition overload_of (o : Options) : Z :=
  match o !! OptOverload with Some [x] => x | _ => 0 end.

Lemma putAddr_octets a : addr_wf a ->
  exists v, putAddr a = octets4 v /\ 0 <= v < 2 ^ 32 /\ wire_addr a = Addr4 v.
Proof.
  destruct a as [|v|v z]; cbn; intros; [exists 0 | exists v | exists 0]; done.
Qed.

Lemma getAddr_octets4 v : 0 <= v < 2 ^ 32 -> getAddr (octets4 v) = Ok (Addr4 v).
Proof.
  intros Hv. unfold getAddr, slice. cbn [length octets4 Nat.leb andb Nat.sub drop take mbind outcome_bind].
  f_equal. by apply AddrFrom4_octets4.
Qed.

(** The encoding of an accepted message, cut at the field boundaries. *)
Lemma Encode_shape m b : message_wf m -> Encode m = Ok b ->
  (length (CHAddr m) <= 16)%nat /\ exists area,
    b = encodeHeader m ++ area /\ tlv_area area (written (MOptions m) (Codes (MOptions m))).
Proof.
  intros Hwf. unfold Encode, chaddrLen.
  destruct (Nat.ltb_spec 16 (length (CHAddr m))) as [|Hch]; [done|]. intros H.
  apply bind_ok_inv in H as (buf & Hbuf & H). injection H as <-.
  apply encodeOptions_area in Hbuf as (area & -> & Harea); [|apply Hwf].
  split; [done|]. eexists. rewrite <- !app_assoc. split; [done|].
  rewrite <- (app_nil_r (written _ _)). apply Harea. apply (area_end (replicate _ _)).
Qed.

Lemma bytes_eqb_refl l : bytes_eqb l l = true.
Proof. by apply bytes_eqb_eq. Qed.

Lemma slice_cons {E} x l i j : @slice E (x :: l) (S i) (S j) = @slice E l i j.
Proof. done. Qed.

Lemma slice_take {E} l j : (j <= length l)%nat -> @slice E l 0 j = Ok (take j l).
Proof. intros. rewrite slice_ok by lia. by rewrite Nat.sub_0_r, drop_0. Qed.

(** The header fields of an encoded message, read back one by one. *)
Lemma Encode_header m : message_wf m -> (length (CHAddr m) <= 16)%nat ->
  exists h, encodeHeader m = h ++ pad_to 16 (CHAddr m) ++ pad_to 64 (SName m)
                               ++ pad_to 128 (File m) ++ magicCookie
  /\ length h = 28%nat
  /\ forall rest, let b := h ++ rest in
     @idx WireErr b 0 = Ok (Op m) /\ @idx WireErr b 1 = Ok (HType m)
     /\ @idx WireErr b 2 = Ok (Z.of_nat (length (CHAddr m))) /\ @idx WireErr b 3 = Ok (Hops m)
     /\ (s ← slice b 4 8; @ube32 WireErr s) = Ok (XID m)
     /\ (s ← slice b 8 10; @ube16 WireErr s) = Ok (Secs m)
     /\ (s ← slice b 10 12; @ube16 WireErr s) = Ok (Flags m)
     /\ (s ← slice b 12 16; getAddr s) = Ok (wire_addr (CIAddr m))
     /\ (s ← slice b 16 20; getAddr s) = Ok (wire_addr (YIAddr m))
     /\ (s ← slice b 20 24; getAddr s) = Ok (wire_addr (SIAddr m))
     /\ (s ← slice b 24 28; getAddr s) = Ok (wire_addr (GIAddr m)).
Proof.
  intros Hwf Hch.
  destruct (putAddr_octets _ (wf_ci m Hwf)) as (ci & Eci & Hci & ->).
  destruct (putAddr_octets _ (wf_yi m Hwf)) as (yi & Eyi & Hyi & ->).
  destruct (putAddr_octets _ (wf_si m Hwf)) as (si & Esi & Hsi & ->).
  destruct (putAddr_octets _ (wf_gi m Hwf)) as (gi & Egi & Hgi & ->).
  pose proof (wf_op m Hwf). pose proof (wf_xid m Hwf). pose proof (wf_secs m Hwf).
  pose proof (wf_flags m Hwf). pose proof (wf_htype m Hwf). pose proof (wf_hops m Hwf).
  exists ([u8 (Op m); HType m; u8 (Z.of_nat (length (CHAddr m))); Hops m]
    ++ be32 (XID m) ++ be16 (Secs m) ++ be16 (Flags m)
    ++ octets4 ci ++ octets4 yi ++ octets4 si ++ octets4 gi).
  split; [unfold encodeHeader; rewrite Eci, Eyi, Esi, Egi, <- !app_assoc; done|].
  split; [done|]. intros rest b. subst b. rewrite (u8_id (Op m)), u8_id by lia.
  do 4 (split; [done|]).
  cbn [be32 be16 octets4 app]. rewrite !slice_cons, !slice_take by (cbn; lia).
  cbn [take mbind outcome_bind].
  split; [by apply (ube32_be32 _ [])|]. split; [by apply (ube16_be16 _ [])|].
  split; [by apply (ube16_be16 _ [])|].
  repeat split; by apply getAddr_octets4.
Qed.

Lemma slice_at {E} b a v c i j : b = a ++ v ++ c ->
  i = length a -> j = (length a + length v)%nat -> @slice E b i j = Ok v.
Proof. intros ->. apply slice_app. Qed.

Lemma land3_0 x : Z.land x 3 = 0 -> Z.land x 1 = 0 /\ Z.land x 2 = 0.
Proof.
  intros H. split.
  - change 1 with (Z.land 3 1). by rewrite Z.land_assoc, H.
  - change 2 with (Z.land 3 2). by rewrite Z.land_assoc, H.
Qed.

Lemma overload_wire o : overload_of (delete OptPad (delete OptEnd o)) = overload_of o.
Proof. unfold overload_of. by rewrite !lookup_delete_ne. Qed.

(** What [Encode] accepts: a hardware address that fits its field and values
    that fit the length octet of an option. *)
Definition encodes (m : Message) : Prop :=
  (length (CHAddr m) <= 16)%nat /\ map_Forall (fun c v => is_content c -> (length v <= 255)%nat) (MOptions m).

Lemma encodeOptions_accepts o codes : forall buf,
  if decide (Forall (fun c => is_content c -> (length (default [] (o !! c)) <= 255)%nat) codes)
  then exists b, encodeOptions o codes buf = Ok b else encodeOptions o codes buf = Err ErrOptionTooLong.
Proof.
  induction codes as [|c codes IH]; intros buf; cbn [encodeOptions].
  { rewrite decide_True by constructor. by eexists. }
  assert (Hc : (c =? OptPad) || (c =? OptEnd) = negb (bool_decide (is_content c))).
  { destruct (Z.eqb_spec c OptPad), (Z.eqb_spec c OptEnd), (bool_decide_reflect (is_content c)) as [[]|H];
      try done. by destruct H. }
  rewrite Hc. case_bool_decide as Hi; cbn [negb].
  - destruct (Nat.ltb_spec 255 (length (default [] (o !! c)))) as [Hl|Hl].
    + rewrite decide_False; [done|]. intros [H _]%Forall_cons. specialize (H Hi). lia.
    + specialize (IH (buf ++ [u8 c; u8 (Z.of_nat (length (default [] (o !! c))))] ++ default [] (o !! c))).
      destruct (decide (Forall _ codes)) as [H|H].
      * rewrite decide_True; [done|]. by constructor.
      * rewrite decide_False; [done|]. by intros [_ ?]%Forall_cons.
  - specialize (IH buf). destruct (decide (Forall _ codes)) as [H|H].
    + rewrite decide_True; [done|]. by constructor.
    + rewrite decide_False; [done|]. by intros [_ ?]%Forall_cons.
Qed.

Lemma Encode_accepts m : (encodes m -> exists b, Encode m = Ok b) /\ (~ encodes m -> exists e, Encode m = Err e).
Proof.
  unfold Encode, encodes, chaddrLen. pose proof (encodeOptions_accepts (MOptions m) (Codes (MOptions m)) (encodeHeader m)) as H.
  assert (Hiff : Forall (fun c => is_content c -> (length (default [] (MOptions m !! c)) <= 255)%nat) (Codes (MOptions m)) <->
    map_Forall (fun c v => is_content c -> (length v <= 255)%nat) (MOptions m)).
  { rewrite Forall_forall. unfold map_Forall. split.
    - intros Hf c v Hv. specialize (Hf c ltac:(apply elem_of_Codes; by eexists)). by rewrite Hv in Hf.
    - intros Hf c [v Hv]%elem_of_Codes. rewrite Hv. by apply Hf. }
  destruct (Nat.ltb_spec 16 (length (CHAddr m))) as [Hl|Hl].
  { split; [intros [? _]; lia|]. intros _. by eexists. }
  destruct (decide _) as [Hf|Hf].
  - destruct H as [b ->]. split; [intros _; by eexists|]. intros Hn. destruct Hn. split; [done|]. by apply Hiff.
  - rewrite H. split; [|intros _; by eexists]. intros [_ Hm]. destruct Hf. by apply Hiff.
Qed.

(** What was encoded is decoded as its wire form. *)
Lemma Decode_written m b :
  message_wf m -> Z.land (overload_of (MOptions m)) 3 = 0 ->
  Encode m = Ok b -> Decode b = Ok (wire_form m).
Proof.
  intros Hwf Hov Henc. apply Encode_shape in Henc as (Hch & area & -> & Harea); [|done].
  destruct (Encode_header m Hwf Hch) as (h & -> & Hh & Hread).
  assert (L16 := length_pad_to 16 (CHAddr m)). assert (L64 := length_pad_to 64 (SName m)).
  assert (L128 := length_pad_to 128 (File m)). rewrite <- !app_assoc.
  set (c16 := pad_to 16 (CHAddr m)) in *. set (c64 := pad_to 64 (SName m)) in *.
  set (c128 := pad_to 128 (File m)) in *.
  destruct (Hread (c16 ++ c64 ++ c128 ++ magicCookie ++ area))
    as (E0 & E1 & E2 & E3 & E4 & E5 & E6 & E7 & E8 & E9 & E10).
  set (b := h ++ c16 ++ c64 ++ c128 ++ magicCookie ++ area) in *.
  assert (Lb : length b = (240 + length area)%nat)
    by (unfold b; rewrite !length_app, Hh, L16, L64, L128; cbn; lia).
  unfold Decode, HeaderLen, fixedLen, cookieLen, chaddrLen, fileOff, fileLen, snameOff, snameLen.
  assert (Ecookie : @slice WireErr b 236 240 = Ok magicCookie).
  { apply (slice_at _ (h ++ c16 ++ c64 ++ c128) _ area); [by rewrite <- !app_assoc|..];
      rewrite !length_app; cbn; lia. }
  assert (Earea : @slice WireErr b 240 (length b) = Ok area).
  { apply (slice_at _ (h ++ c16 ++ c64 ++ c128 ++ magicCookie) _ []);
      [by rewrite app_nil_r, <- !app_assoc|..]; rewrite !length_app; cbn; lia. }
  assert (Efile : @slice WireErr b 108 (108 + 128) = Ok c128).
  { apply (slice_at _ (h ++ c16 ++ c64) _ (magicCookie ++ area)); [by rewrite <- !app_assoc|..];
      rewrite !length_app; lia. }
  assert (Esname : @slice WireErr b 44 (44 + 64) = Ok c64).
  { apply (slice_at _ (h ++ c16) _ (c128 ++ magicCookie ++ area)); [by rewrite <- !app_assoc|..];
      rewrite !length_app; lia. }
  assert (Ech : @slice WireErr b 28 (28 + length (CHAddr m)) = Ok (CHAddr m)).
  { apply (slice_at _ h _ (replicate (16 - length (CHAddr m)) 0 ++ c64 ++ c128 ++ magicCookie ++ area)).
    - unfold b, c16, pad_to. rewrite take_ge by lia. by rewrite <- app_assoc.
    - lia.
    - lia. }
  assert (Hoptions : parseOptions area ∅ = Ok (delete OptPad (delete OptEnd (MOptions m)))).
  { rewrite (parseOptions_area _ _ _ Harea). by rewrite collect_Codes. }
  change (236 + 4)%nat with 240%nat. rewrite (proj2 (Nat.ltb_ge (length b) _)) by lia.
  rewrite Ecookie. cbn [mbind outcome_bind]. rewrite bytes_eqb_refl. cbn [negb].
  rewrite E0, E1, E2, E3, E4, E5, E6, E7, E8, E9, E10. cbn [mbind outcome_bind].
  rewrite Nat2Z.id, (proj2 (Nat.ltb_ge _ _)) by lia.
  rewrite Ech, Earea. cbn [mbind outcome_bind]. rewrite Hoptions. cbn [mbind outcome_bind].
  rewrite Efile, Esname. fold (overload_of (delete OptPad (delete OptEnd (MOptions m)))).
  rewrite overload_wire. apply land3_0 in Hov as [-> ->]. cbn [mbind outcome_bind Z.eqb negb].
  unfold wire_form, c64, c128, snameLen, fileLen. by rewrite !trimNul_pad_to.
Qed.

(** C33: round trip.  Every message [Encode] accepts is read back by [Decode] as
    its wire form; only a map that carries an option-overload octet asking for
    more areas is excluded, because [Encode] writes no options there. *)
Theorem Decode_Encode m b :
  message_wf m -> Z.land (overload_of (MOptions m)) 3 = 0 ->
  Encode m = Ok b -> Decode b = Ok (wire_form m).
Proof. apply Decode_written. Qed.

Definition sample_discover : Message :=
  mkMessage BootRequest HTypeEthernet 6 0 305419896 7 FlagBroadcast AddrZero AddrZero AddrZero
    AddrZero [2; 66; 172; 17; 0; 2] [] []
    (<[OptMessageType := [1]]> (<[OptClientID := [255; 1; 2]]> ∅)).

Lemma sample_discover_wf : message_wf sample_discover.
Proof.
  split; vm_compute; try done; try (split; done).
  repeat constructor; done.
Qed.

Lemma Decode_Encode_witness :
  exists b, Encode sample_discover = Ok b /\ Decode b = Ok (wire_form sample_discover).
Proof.
  eexists. split; [vm_compute; reflexivity|].
  apply (Decode_Encode sample_discover); [apply sample_discover_wf | reflexivity | vm_compute; reflexivity].
Defined.
