(* ===== verification/HmacMd5.v ===== *)
(** * MD5 and HMAC-MD5: wire/hmacmd5.go

    RFC 1321 and RFC 2104 as the package writes them out, the constant-time
    comparison and the digest check over a message with its digest field zeroed.
    [md5Sum] returns an [outcome] because it slices its padded input in blocks of
    64 octets; [md5Sum_returns] shows the slicing is never out of range and the
    padding loop ends. *)

From S2P Require Import Prelude NetAddr Options.

Definition md5BlockSize : nat := 64.
Definition md5DigestSize : nat := 16.

Definition md5Table : list Z :=
  [0xd76aa478; 0xe8c7b756; 0x242070db; 0xc1bdceee;
   0xf57c0faf; 0x4787c62a; 0xa8304613; 0xfd469501;
   0x698098d8; 0x8b44f7af; 0xffff5bb1; 0x895cd7be;
   0x6b901122; 0xfd987193; 0xa679438e; 0x49b40821;
   0xf61e2562; 0xc040b340; 0x265e5a51; 0xe9b6c7aa;
   0xd62f105d; 0x02441453; 0xd8a1e681; 0xe7d3fbc8;
   0x21e1cde6; 0xc33707d6; 0xf4d50d87; 0x455a14ed;
   0xa9e3e905; 0xfcefa3f8; 0x676f02d9; 0x8d2a4c8a;
   0xfffa3942; 0x8771f681; 0x6d9d6122; 0xfde5380c;
   0xa4beea44; 0x4bdecfa9; 0xf6bb4b60; 0xbebfbc70;
   0x289b7ec6; 0xeaa127fa; 0xd4ef3085; 0x04881d05;
   0xd9d4d039; 0xe6db99e5; 0x1fa27cf8; 0xc4ac5665;
   0xf4292244; 0x432aff97; 0xab9423a7; 0xfc93a039;
   0x655b59c3; 0x8f0ccc92; 0xffeff47d; 0x85845dd1;
   0x6fa87e4f; 0xfe2ce6e0; 0xa3014314; 0x4e0811a1;
   0xf7537e82; 0xbd3af235; 0x2ad7d2bb; 0xeb86d391].

Definition md5Shift : list Z :=
  [7; 12; 17; 22; 7; 12; 17; 22; 7; 12; 17; 22; 7; 12; 17; 22;
   5; 9; 14; 20; 5; 9; 14; 20; 5; 9; 14; 20; 5; 9; 14; 20;
   4; 11; 16; 23; 4; 11; 16; 23; 4; 11; 16; 23; 4; 11; 16; 23;
   6; 10; 15; 21; 6; 10; 15; 21; 6; 10; 15; 21; 6; 10; 15; 21].

(** The four 32-bit registers. *)
Definition regs : Type := (Z * Z * Z * Z)%type.

Definition not32 (z : Z) : Z := u32 (Z.lnot z).

(** [for len(padded)%md5BlockSize != 56 { append 0 }] *)
Fixpoint padLoop (fuel : nat) (padded : bytes) : wire bytes :=
  match fuel with
  | O => Hang
  | S fuel =>
    if negb (length padded mod md5BlockSize =? 56)%nat then padLoop fuel (padded ++ [0]) else Ok padded
  end.

Definition le64 (bits : Z) : bytes :=
  map (fun i => u8 (Z.shiftr bits (8 * Z.of_nat i))) (seq 0 8).

(** Padding (RFC 1321 sections 3.1 and 3.2). A block holds 64 octets, so 64
    turns of the padding loop are enough. *)
Definition md5Pad (msg : bytes) : wire bytes :=
  let bits := u64 (u64 (Z.of_nat (length msg)) * 8) in
  padded ← padLoop 64 (msg ++ [0x80]);
  Ok (padded ++ le64 bits).

(** The sixteen little-endian words of a block. *)
Definition md5Words (block : bytes) : wire (list Z) :=
  mapM (fun i =>
    let j := (4 * i)%nat in
    b0 ← idx block j; b1 ← idx block (j + 1); b2 ← idx block (j + 2); b3 ← idx block (j + 3);
    Ok (Z.lor (Z.lor (Z.lor b0 (Z.shiftl b1 8)) (Z.shiftl b2 16)) (Z.shiftl b3 24)))
    (seq 0 16).

(** One of the 64 operations on a block. *)
Definition md5Round (x : list Z) (r : regs) (i : nat) : regs :=
  let '(a, b, c, d) := r in
  let '(f, g) :=
    if (i <? 16)%nat then (Z.lor (Z.land b c) (Z.land (not32 b) d), i)
    else if (i <? 32)%nat then (Z.lor (Z.land d b) (Z.land (not32 d) c), (5 * i + 1) mod 16)%nat
    else if (i <? 48)%nat then (Z.lxor (Z.lxor b c) d, (3 * i + 5) mod 16)%nat
    else (Z.lxor c (Z.lor b (not32 d)), (7 * i) mod 16)%nat in
  let sum := u32 (u32 (u32 (a + f) + nth i md5Table 0) + nth g x 0) in
  let s := nth i md5Shift 0 in
  (d, u32 (b + Z.lor (u32 (Z.shiftl sum s)) (Z.shiftr sum (32 - s))), b, c).

Definition md5Block (r : regs) (block : bytes) : wire regs :=
  x ← md5Words block;
  let '(aa, bb, cc, dd) := r in
  let '(a, b, c, d) := foldl (md5Round x) r (seq 0 64) in
  Ok (u32 (a + aa), u32 (b + bb), u32 (c + cc), u32 (d + dd)).

Definition le32 (v : Z) : bytes :=
  [u8 v; u8 (Z.shiftr v 8); u8 (Z.shiftr v 16); u8 (Z.shiftr v 24)].

Definition md5Init : regs := (0x67452301, 0xefcdab89, 0x98badcfe, 0x10325476).

(** [for off := 0; off < len(padded); off += md5BlockSize] *)
Fixpoint md5Blocks (fuel : nat) (padded : bytes) (off : nat) (r : regs) : wire regs :=
  match fuel with
  | O => Hang
  | S fuel =>
    if (off <? length padded)%nat then
      block ← slice padded off (off + md5BlockSize);
      r ← md5Block r block;
      md5Blocks fuel padded (off + md5BlockSize) r
    else Ok r
  end.

Definition md5Sum (msg : bytes) : wire bytes :=
  padded ← md5Pad msg;
  r ← md5Blocks (S (length padded)) padded 0 md5Init;
  let '(a, b, c, d) := r in
  Ok (le32 a ++ le32 b ++ le32 c ++ le32 d).

(** RFC 2104 section 2. *)
Definition hmacMD5 (key text : bytes) : wire bytes :=
  k ← (if (md5BlockSize <? length key)%nat
       then sum ← md5Sum key; Ok (pad_to md5BlockSize sum)
       else Ok (pad_to md5BlockSize key));
  let inner := map (fun v => Z.lxor v 0x36) k ++ text in
  let outer := map (fun v => Z.lxor v 0x5c) k in
  isum ← md5Sum inner;
  md5Sum (outer ++ isum).

Definition equalConstantTime (a b : bytes) : bool :=
  if negb (length a =? length b)%nat then false else
  foldl (fun diff p => Z.lor diff (Z.lxor p.1 p.2)) 0 (zip a b) =? 0.

(** [zeroedHMACMatches]: [raw[start:end]] is the HMAC of [raw] with those octets
    zeroed. *)
Definition zeroSpan (raw : bytes) (start fin : nat) : wire bytes :=
  _ ← slice raw start fin;
  Ok (take start raw ++ replicate (fin - start) 0 ++ drop fin raw).

Definition zeroedHMACMatches (key raw : bytes) (start fin : nat) : wire bool :=
  sent ← slice raw start fin;
  buf ← zeroSpan raw start fin;
  mac ← hmacMD5 key buf;
  Ok (equalConstantTime sent mac).

(** ** RFC 1321 section 3.4, as the RFC lists it

    The RFC keeps the four registers in place and rotates their roles; the code
    rotates the registers.  [rfcOps] is the RFC's table of [[abcd k s i]]. *)

Module RFC1321.
Definition F x y z := Z.lor (Z.land x y) (Z.land (not32 x) z).
Definition G x y z := Z.lor (Z.land x z) (Z.land y (not32 z)).
Definition H x y z := Z.lxor (Z.lxor x y) z.
Definition I x y z := Z.lxor y (Z.lor x (not32 z)).

Definition rotl (s v : Z) : Z := Z.lor (u32 (Z.shiftl v s)) (Z.shiftr v (32 - s)).

(** The word index [k] of every operation, in order. *)
Definition k : list nat :=
  [0; 1; 2; 3; 4; 5; 6; 7; 8; 9; 10; 11; 12; 13; 14; 15;
   1; 6; 11; 0; 5; 10; 15; 4; 9; 14; 3; 8; 13; 2; 7; 12;
   5; 8; 11; 14; 1; 4; 7; 10; 13; 0; 3; 6; 9; 12; 15; 2;
   0; 7; 14; 5; 12; 3; 10; 1; 8; 15; 6; 13; 4; 11; 2; 9]%nat.

Definition fn (i : nat) : Z -> Z -> Z -> Z :=
  match (i / 16)%nat with 0%nat => F | 1%nat => G | 2%nat => H | _ => I end.

(** [[abcd k s i]]: a = b + ((a + f(b,c,d) + X[k] + T[i]) <<< s). *)
Definition op (x : list Z) (i : nat) (a b c d : Z) : Z :=
  u32 (b + rotl (nth i md5Shift 0) (u32 (a + fn i b c d + nth (nth i k 0%nat) x 0 + nth i md5Table 0))).

(** The roles go round ABCD, DABC, CDAB, BCDA. *)
Definition step (x : list Z) (r : regs) (i : nat) : regs :=
  let '(A, B, C, D) := r in
  match (i mod 4)%nat with
  | 0%nat => (op x i A B C D, B, C, D)
  | 1%nat => (A, B, C, op x i D A B C)
  | 2%nat => (A, B, op x i C D A B, D)
  | _ => (A, op x i B C D A, C, D)
  end.

Definition block (x : list Z) (r : regs) : regs := foldl (step x) r (seq 0 64).
End RFC1321.

(** The registers in the order the code holds them before operation [i]. *)
Definition roles (i : nat) (r : regs) : regs :=
  let '(A, B, C, D) := r in
  match (i mod 4)%nat with
  | 0%nat => (A, B, C, D)
  | 1%nat => (D, A, B, C)
  | 2%nat => (C, D, A, B)
  | _ => (B, C, D, A)
  end.

Lemma u32_add_l x y : u32 (u32 x + y) = u32 (x + y).
Proof. apply Z.add_mod_idemp_l. lia. Qed.

Lemma u32_add3 a f t w : u32 (u32 (u32 (a + f) + t) + w) = u32 (a + f + w + t).
Proof. rewrite u32_add_l, <- Z.add_assoc, u32_add_l. f_equal. lia. Qed.

Lemma code_G b c d : Z.lor (Z.land d b) (Z.land (not32 d) c) = RFC1321.G b c d.
Proof. unfold RFC1321.G. by rewrite (Z.land_comm d), (Z.land_comm (not32 d)). Qed.

Lemma md5Round_roles x r i : (i < 64)%nat ->
  md5Round x (roles i r) i = roles (S i) (RFC1321.step x r i).
Proof.
  intros Hi. destruct r as [[[A B] C] D].
  do 64 (destruct i as [|i];
    [cbn -[Z.add Z.land Z.lor Z.lxor Z.lnot Z.shiftl Z.shiftr Z.sub u32 not32];
     rewrite u32_add3; unfold RFC1321.op, RFC1321.rotl;
     cbn -[Z.add Z.land Z.lor Z.lxor Z.lnot Z.shiftl Z.shiftr Z.sub u32 not32 RFC1321.G];
     first [reflexivity | rewrite code_G; reflexivity]|]).
  lia.
Qed.

Lemma md5Round_fold x n : (n <= 64)%nat -> forall r,
  foldl (md5Round x) r (seq 0 n) = roles n (foldl (RFC1321.step x) r (seq 0 n)).
Proof.
  induction n as [|n IH]; intros Hn r; [by destruct r as [[[??]?]?]|].
  rewrite seq_S, !foldl_app, IH by lia. cbn [foldl]. by rewrite md5Round_roles by lia.
Qed.

(** The loop of [md5Sum] is RFC 1321's algorithm.  The code's 64 operations,
    which rotate the registers and derive the word index by arithmetic, compute
    on every block what the RFC's table of 64 operations computes. *)
Theorem md5_rounds_rfc1321 x r : foldl (md5Round x) r (seq 0 64) = RFC1321.block x r.
Proof. rewrite md5Round_fold by lia. unfold RFC1321.block. by destruct (foldl _ _ _) as [[[??]?]?]. Qed.

(** ** The hash returns *)

Lemma padLoop_ok fuel : forall l, ((120 - length l mod 64) mod 64 < fuel)%nat ->
  exists p, padLoop fuel l = Ok p /\ (length p mod 64 = 56)%nat.
Proof.
  unfold md5BlockSize. induction fuel as [|fuel IH]; intros l Hl; [lia|].
  cbn [padLoop]. unfold md5BlockSize. destruct (Nat.eqb_spec (length l mod 64) 56) as [He|He]; cbn [negb]; [eauto|].
  apply IH. rewrite length_app. cbn [length].
  rewrite <- Nat.Div0.add_mod_idemp_l.
  pose proof (Nat.mod_upper_bound (length l) 64 ltac:(lia)) as Hq.
  revert Hl He Hq. generalize (length l mod 64)%nat as q. clear. intros q.
  do 64 (destruct q as [|q]; [intros; cbn in *; lia|]). lia.
Qed.

Lemma md5Pad_ok msg : exists p, md5Pad msg = Ok p /\ (length p mod 64 = 0)%nat.
Proof.
  unfold md5Pad. destruct (padLoop_ok 64 (msg ++ [0x80])) as (p & -> & Hp).
  { apply Nat.mod_upper_bound. lia. }
  cbn [mbind outcome_bind]. eexists. split; [done|].
  rewrite length_app. change (length (le64 _)) with 8%nat.
  lia_mod.
Qed.

Lemma md5Words_ok block : length block = 64%nat -> exists x, md5Words block = Ok x.
Proof.
  intros Hl. do 64 (destruct block as [|? block]; [done|]). destruct block; [|done].
  eexists. reflexivity.
Qed.

Lemma md5Blocks_ok fuel : forall p off r,
  (length p mod 64 = 0)%nat -> (off mod 64 = 0)%nat -> (length p - off < fuel)%nat ->
  exists r', md5Blocks fuel p off r = Ok r'.
Proof.
  induction fuel as [|fuel IH]; intros p off r Hp Ho Hf; [lia|]. cbn [md5Blocks].
  unfold md5BlockSize. destruct (Nat.ltb_spec off (length p)) as [Hlt|]; [|eauto].
  assert (off + 64 <= length p)%nat by (lia_mod).
  rewrite slice_ok by lia. cbn [mbind outcome_bind].
  assert (Hb : exists r', md5Block r (take (off + 64 - off) (drop off p)) = Ok r').
  { unfold md5Block. destruct (md5Words_ok (take (off + 64 - off) (drop off p))) as [x ->].
    - rewrite length_take, length_drop. lia.
    - cbn [mbind outcome_bind]. destruct r as [[[??]?]?]. destruct (foldl _ _ _) as [[[??]?]?]. eauto. }
  destruct Hb as [r' ->]. cbn [mbind outcome_bind]. apply IH; [done| |lia].
  lia_mod.
Qed.

Lemma md5Sum_ok msg : exists d, md5Sum msg = Ok d /\ length d = md5DigestSize.
Proof.
  unfold md5Sum. destruct (md5Pad_ok msg) as (p & -> & Hp). cbn [mbind outcome_bind].
  destruct (md5Blocks_ok (S (length p)) p 0 md5Init) as [[[[a b] c] d] ->]; [done|done|lia|].
  cbn [mbind outcome_bind]. eauto.
Qed.

Lemma hmacMD5_ok key text : exists d, hmacMD5 key text = Ok d /\ length d = md5DigestSize.
Proof.
  unfold hmacMD5. destruct (_ <? _)%nat.
  - destruct (md5Sum_ok key) as (s & -> & _). cbn [mbind outcome_bind].
    destruct (md5Sum_ok (map (fun v => Z.lxor v 0x36) (pad_to md5BlockSize s) ++ text)) as (i & -> & _).
    apply md5Sum_ok.
  - cbn [mbind outcome_bind].
    destruct (md5Sum_ok (map (fun v => Z.lxor v 0x36) (pad_to md5BlockSize key) ++ text)) as (i & -> & _).
    apply md5Sum_ok.
Qed.

(** RFC 1321 appendix A.5's test vectors and the first, second and seventh
    of RFC 2202 section 2's, through the code's hash and HMAC. *)
Theorem hmac_md5_vectors :
  md5Sum [] = Ok [0xd4;0x1d;0x8c;0xd9;0x8f;0x00;0xb2;0x04;0xe9;0x80;0x09;0x98;0xec;0xf8;0x42;0x7e]
  /\ md5Sum (ascii_bytes "a") = Ok [0x0c;0xc1;0x75;0xb9;0xc0;0xf1;0xb6;0xa8;0x31;0xc3;0x99;0xe2;0x69;0x77;0x26;0x61]
  /\ md5Sum (ascii_bytes "abc") = Ok [0x90;0x01;0x50;0x98;0x3c;0xd2;0x4f;0xb0;0xd6;0x96;0x3f;0x7d;0x28;0xe1;0x7f;0x72]
  /\ md5Sum (ascii_bytes "message digest") = Ok [0xf9;0x6b;0x69;0x7d;0x7c;0xb7;0x93;0x8d;0x52;0x5a;0x2f;0x31;0xaa;0xf1;0x61;0xd0]
  /\ md5Sum (ascii_bytes "12345678901234567890123456789012345678901234567890123456789012345678901234567890")
     = Ok [0x57;0xed;0xf4;0xa2;0x2b;0xe3;0xc9;0x55;0xac;0x49;0xda;0x2e;0x21;0x07;0xb6;0x7a]
  /\ hmacMD5 (replicate 16 0x0b) (ascii_bytes "Hi There")
     = Ok [0x92;0x94;0x72;0x7a;0x36;0x38;0xbb;0x1c;0x13;0xf4;0x8e;0xf8;0x15;0x8b;0xfc;0x9d]
  /\ hmacMD5 (ascii_bytes "Jefe") (ascii_bytes "what do ya want for nothing?")
     = Ok [0x75;0x0c;0x78;0x3e;0x6a;0xb0;0xb5;0x03;0xea;0xa8;0x6e;0x31;0x0a;0x5d;0xb7;0x38]
  /\ hmacMD5 (replicate 80 0xaa) (ascii_bytes "Test Using Larger Than Block-Size Key and Larger Than One Block-Size Data")
     = Ok [0x6f;0x63;0x0f;0xad;0x67;0xcd;0xa0;0xee;0x1f;0xb1;0xf5;0x62;0xdb;0x3a;0xa5;0x3e].
Proof. vm_compute. repeat split. Qed.

(** ** The comparison *)

Lemma lor_zero_fold l : forall d,
  foldl (fun diff p => Z.lor diff (Z.lxor p.1 p.2)) d l = 0 <->
  d = 0 /\ Forall (fun p : Z * Z => p.1 = p.2) l.
Proof.
  induction l as [|[x y] l IH]; intros d; cbn.
  - rewrite Forall_nil. tauto.
  - rewrite IH, Forall_cons, Z.lor_eq_0_iff, Z.lxor_eq_0_iff. cbn. tauto.
Qed.

(** The constant-time comparison decides equality of octet strings. *)
Lemma equalConstantTime_spec a b : equalConstantTime a b = true <-> a = b.
Proof.
  unfold equalConstantTime. destruct (Nat.eqb_spec (length a) (length b)) as [Hl|Hl]; cbn [negb].
  - rewrite Z.eqb_eq, lor_zero_fold. revert b Hl.
    induction a as [|x a IH]; intros [|y b] Hl; try done.
    cbn. rewrite Forall_cons. injection Hl as Hl. specialize (IH b Hl). cbn. split.
    + intros [_ [-> HF]]. f_equal. by apply IH.
    + intros [= -> ->]. split; [done|]. split; [done|]. by apply IH.
  - split; [done|]. by intros ->.
Qed.

Lemma zeroedHMACMatches_returns key raw start fin :
  (start <= fin)%nat -> (fin <= length raw)%nat ->
  exists b, zeroedHMACMatches key raw start fin = Ok b.
Proof.
  intros H1 H2. unfold zeroedHMACMatches, zeroSpan. rewrite slice_ok by done.
  cbn [mbind outcome_bind]. destruct (hmacMD5_ok key (take start raw ++ replicate (fin - start) 0 ++ drop fin raw))
    as (d & -> & _). cbn. eauto.
Qed.
