(* ===== verification/Forcerenew.v ===== *)
(** * Forcerenew Nonce Authentication: wire/option_auth.go

    The one shape of the DHCPv4 Authentication option (90) the library reads,
    the offset of its digest in the octets that arrived, and the check of a
    DHCPFORCERENEW over those octets (RFC 6704, RFC 3118). *)

From S2P Require Import Prelude NetAddr Options Codec HmacMd5.

(** The constants wire/dhcpv6_reconfigure.go shares with this file. *)
Definition AuthFixedLen : nat := 11.
Definition AuthProtocolRKAP : Z := 3.
Definition AuthAlgorithmHMAC : Z := 1.
Definition AuthRDMMonotonic : Z := 0.

Definition ForcerenewTypeNonce : Z := 1.
Definition ForcerenewTypeDigest : Z := 2.
Definition ForcerenewNonceLen : nat := md5DigestSize.
Definition hopsOff : nat := 3.
Definition giaddrOff : nat := 24.
Definition forcerenewInfoLen : nat := 1 + ForcerenewNonceLen.

Record ForcerenewAuth := mkAuth { AuthType : Z; AuthReplay : Z; AuthValue : bytes }.

Definition decodeForcerenewAuth (v : bytes) : wire ForcerenewAuth :=
  if (length v <? AuthFixedLen)%nat then Err ErrForcerenewAuth else
  v0 ← idx v 0;
  if negb (v0 =? AuthProtocolRKAP) then Err ErrForcerenewAuth else
  v1 ← idx v 1;
  if negb (v1 =? AuthAlgorithmHMAC) then Err ErrForcerenewAuth else
  v2 ← idx v 2;
  if negb (v2 =? AuthRDMMonotonic) then Err ErrForcerenewAuth else
  if negb (length v - AuthFixedLen =? forcerenewInfoLen)%nat then Err ErrForcerenewAuth else
  t ← idx v AuthFixedLen;
  if negb (t =? ForcerenewTypeNonce) && negb (t =? ForcerenewTypeDigest) then Err ErrForcerenewAuth else
  replay ← (s ← slice v 3 11; ube64 s);
  value ← slice v (AuthFixedLen + 1) (length v);
  Ok (mkAuth t replay (pad_to ForcerenewNonceLen value)).

(** [Options.ForcerenewAuth]: absent, present and unusable, or decoded. *)
Definition GetForcerenewAuth (o : Options) : option (wire ForcerenewAuth) :=
  v ← o !! OptAuthentication; Some (decodeForcerenewAuth v).

Definition EncodeForcerenewAuth (typ : Z) (value : bytes) (replay : Z) : wire bytes :=
  if negb (length value =? ForcerenewNonceLen)%nat then Err ErrForcerenewNonce else
  if negb (typ =? ForcerenewTypeNonce) && negb (typ =? ForcerenewTypeDigest) then Err ErrForcerenewAuth else
  Ok ([AuthProtocolRKAP; AuthAlgorithmHMAC; AuthRDMMonotonic] ++ be64 replay ++ [typ] ++ value).

(** The closure [walk] of [forcerenewSpan]: the option loop over [raw[off:fin]]
    that records where the Authentication options stand and what the overload
    options carry. *)
Definition instance : Type := (nat * nat)%type.

Fixpoint walkLoop (fuel : nat) (raw : bytes) (i fin : nat)
    (auth : list instance) (overload : bytes) : wire (list instance * bytes) :=
  match fuel with
  | O => Hang
  | S fuel =>
    if (i <? fin)%nat then
      c ← idx raw i;
      if c =? OptPad then walkLoop fuel raw (i + 1) fin auth overload else
      if c =? OptEnd then Ok (auth, overload) else
      if (fin <=? i + 1)%nat then Err ErrTruncatedOption else
      l ← idx raw (i + 1);
      let n := Z.to_nat l in
      if (fin <? i + 2 + n)%nat then Err ErrOptionOverrun else
      if c =? OptAuthentication then
        walkLoop fuel raw (i + 2 + n) fin (auth ++ [((i + 2)%nat, n)]) overload
      else if c =? OptOverload then
        v ← slice raw (i + 2) (i + 2 + n);
        walkLoop fuel raw (i + 2 + n) fin auth (overload ++ v)
      else walkLoop fuel raw (i + 2 + n) fin auth overload
    else Ok (auth, overload)
  end.

Definition walk (raw : bytes) (off fin : nat) (auth : list instance) (overload : bytes) :=
  walkLoop (S (fin - off)) raw off fin auth overload.

Definition forcerenewSpan (raw : bytes) : wire nat :=
  if (length raw <? HeaderLen)%nat then Err ErrShort else
  cookie ← slice raw fixedLen HeaderLen;
  if negb (bytes_eqb cookie magicCookie) then Err ErrBadCookie else
  '(auth, overload) ← walk raw HeaderLen (length raw) [] [];
  let ov := match overload with [x] => x | _ => 0 end in
  '(auth, overload) ← (if negb (Z.land ov 1 =? 0)
    then walk raw fileOff (fileOff + fileLen) auth overload else Ok (auth, overload));
  '(auth, overload) ← (if negb (Z.land ov 2 =? 0)
    then walk raw snameOff (snameOff + snameLen) auth overload else Ok (auth, overload));
  match auth with
  | [(start, n)] =>
    v ← slice raw start (start + n);
    a ← decodeForcerenewAuth v;
    if negb (AuthType a =? ForcerenewTypeDigest) then Err ErrForcerenewAuth else
    Ok (start + AuthFixedLen + 1)%nat
  | _ => Err ErrForcerenewAuth
  end.

(** [VerifyForcerenew]: [Ok tt] is Go's nil error. *)
Definition VerifyForcerenew (raw nonce : bytes) : wire unit :=
  if negb (length nonce =? ForcerenewNonceLen)%nat then Err ErrForcerenewNonce else
  start ← forcerenewSpan raw;
  _ ← idx raw hopsOff;
  let masked := <[hopsOff := 0]> raw in
  masked ← zeroSpan masked giaddrOff (giaddrOff + 4);
  matches ← zeroedHMACMatches nonce masked start (start + ForcerenewNonceLen);
  if negb matches then Err ErrForcerenewDigest else Ok tt.

(** ** The option value *)

Lemma decodeForcerenewAuth_inv v a : decodeForcerenewAuth v = Ok a ->
  length v = 28%nat /\ AuthValue a = drop 12 v.
Proof.
  unfold decodeForcerenewAuth, AuthFixedLen, forcerenewInfoLen, ForcerenewNonceLen, md5DigestSize.
  destruct (Nat.ltb_spec (length v) 11) as [|H11]; [done|]. intros H.
  apply bind_ok_inv in H as (v0 & _ & H). destruct (negb _); [done|].
  apply bind_ok_inv in H as (v1 & _ & H). destruct (negb _); [done|].
  apply bind_ok_inv in H as (v2 & _ & H). destruct (negb _); [done|].
  destruct (Nat.eqb_spec (length v - 11) (1 + 16)) as [Hl|]; cbn [negb] in H; [|done].
  apply bind_ok_inv in H as (t & _ & H). destruct (_ && _)%bool; [done|].
  apply bind_ok_inv in H as (r & _ & H). apply bind_ok_inv in H as (value & Hv & H).
  injection H as <-. cbn. apply slice_inv in Hv as (_ & _ & ->). split; [lia|].
  rewrite take_ge by (rewrite length_drop; lia). unfold pad_to.
  rewrite take_ge by (rewrite length_drop; lia). rewrite length_drop.
  replace (16 - (length v - (11 + 1)))%nat with 0%nat by lia. cbn [replicate]. by rewrite app_nil_r.
Qed.

Lemma decodeForcerenewAuth_returns v : returns (decodeForcerenewAuth v).
Proof.
  unfold decodeForcerenewAuth, AuthFixedLen, forcerenewInfoLen, ForcerenewNonceLen, md5DigestSize.
  destruct (Nat.ltb_spec (length v) 11) as [|H11]; [done|].
  do 3 (apply returns_bind; [apply returns_idx; lia|intros ? _]; destruct (negb _); [done|]).
  destruct (Nat.eqb_spec (length v - 11) (1 + 16)) as [Hl|]; cbn [negb]; [|done].
  apply returns_bind; [apply returns_idx; lia|intros ? _]. destruct (_ && _)%bool; [done|].
  apply returns_bind.
  - apply returns_slice_bind; [lia..|]. intros s Hs.
    do 8 (destruct s as [|? s]; [done|]). cbn. destruct s; done.
  - intros r _. by apply returns_slice_bind; [lia..|].
Qed.

(** ** The walk is the option grammar *)

(** [auth] lists where values of the Authentication option stand in [raw]. *)
Definition stands (raw : bytes) (p : instance) (v : bytes) : Prop :=
  slice (E := WireErr) raw p.1 (p.1 + p.2) = Ok v.

Lemma walkLoop_ok raw fuel : forall i fin auth ov auth' ov', (fin <= length raw)%nat ->
  walkLoop fuel raw i fin auth ov = Ok (auth', ov') ->
  exists os ps, tlv_area (take (fin - i) (drop i raw)) os /\ auth' = auth ++ ps /\
    ov' = ov ++ concat (values OptOverload os) /\ Forall2 (stands raw) ps (values OptAuthentication os).
Proof.
  induction fuel as [|fuel IH]; intros i fin auth ov auth' ov' Hfin H; [done|]. cbn [walkLoop] in H.
  destruct (Nat.ltb_spec i fin) as [Hi|Hi].
  2:{ injection H as <- <-. exists [], []. replace (fin - i)%nat with 0%nat by lia.
      rewrite !app_nil_r. repeat constructor. }
  destruct (drop_cons_inv raw i ltac:(lia)) as [c Hc]. rewrite (idx_drop _ _ _ _ Hc) in H.
  cbn [mbind outcome_bind] in H.
  assert (Ha : take (fin - i) (drop i raw) = c :: take (fin - (i + 1)) (drop (i + 1) raw)).
  { rewrite Hc. replace (fin - i)%nat with (S (fin - (i + 1)))%nat by lia. done. }
  destruct (Z.eqb_spec c OptPad) as [Hp|Hp].
  { subst c. apply IH in H as (os & ps & Hos & Hr); [|done]. exists os, ps. rewrite Ha. split; [by constructor|done]. }
  destruct (Z.eqb_spec c OptEnd) as [He|He].
  { subst c. injection H as <- <-. exists [], []. rewrite Ha, !app_nil_r. repeat constructor. }
  destruct (Nat.leb_spec fin (i + 1)) as [|Hi1]; [done|].
  destruct (drop_cons_inv raw (i + 1) ltac:(lia)) as [l Hl]. rewrite (idx_drop _ _ _ _ Hl) in H.
  cbn [mbind outcome_bind] in H. set (n := Z.to_nat l) in *.
  destruct (Nat.ltb_spec fin (i + 2 + n)) as [|Hn]; [done|].
  assert (Hv : slice (E := WireErr) raw (i + 2) (i + 2 + n) = Ok (take n (drop (i + 2) raw))).
  { rewrite slice_ok by lia. do 2 f_equal. lia. }
  assert (Hlen : length (take n (drop (i + 2) raw)) = n) by (rewrite length_take, length_drop; lia).
  assert (Hb : take (fin - (i + 1)) (drop (i + 1) raw) =
    l :: take n (drop (i + 2) raw) ++ take (fin - (i + 2 + n)) (drop (i + 2 + n) raw)).
  { rewrite Hl. replace (i + 1 + 1)%nat with (i + 2)%nat by lia.
    replace (fin - (i + 1))%nat with (S (n + (fin - (i + 2 + n))))%nat by lia. cbn [take]. f_equal.
    rewrite <- take_take_drop. by rewrite drop_drop. }
  rewrite Hv in H. cbn [mbind outcome_bind] in H. rewrite Ha, Hb.
  assert (Hcons : forall os, tlv_area (take (fin - (i + 2 + n)) (drop (i + 2 + n) raw)) os ->
    tlv_area (c :: l :: take n (drop (i + 2) raw) ++ take (fin - (i + 2 + n)) (drop (i + 2 + n) raw))
      ((c, take n (drop (i + 2) raw)) :: os)) by (intros; constructor; done || lia).
  destruct (Z.eqb_spec c OptAuthentication) as [Hca|Hca].
  { subst c. apply IH in H as (os & ps & Hos & -> & -> & HF); [|done].
    eexists _, (_ :: ps). split; [by apply Hcons|]. rewrite values_cons_eq, values_cons_ne by done.
    rewrite <- app_assoc. split; [done|]. split; [done|]. by constructor. }
  destruct (Z.eqb_spec c OptOverload) as [Hco|Hco].
  - subst c. apply IH in H as (os & ps & Hos & -> & -> & HF); [|done].
    eexists _, ps. split; [by apply Hcons|]. rewrite values_cons_eq, values_cons_ne by done.
    cbn [concat]. by rewrite <- app_assoc.
  - apply IH in H as (os & ps & Hos & -> & -> & HF); [|done].
    eexists _, ps. split; [by apply Hcons|]. by rewrite !values_cons_ne.
Qed.

Lemma walkLoop_returns raw fuel : forall i fin auth ov, (fin <= length raw)%nat ->
  (fin - i < fuel)%nat -> returns (walkLoop fuel raw i fin auth ov).
Proof.
  induction fuel as [|fuel IH]; intros i fin auth ov Hfin Hf; [lia|]. cbn [walkLoop].
  destruct (Nat.ltb_spec i fin) as [Hi|]; [|done].
  apply returns_bind; [apply returns_idx; lia|]. intros c _.
  destruct (c =? OptPad); [apply IH; lia|]. destruct (c =? OptEnd); [done|].
  destruct (Nat.leb_spec fin (i + 1)); [done|].
  apply returns_bind; [apply returns_idx; lia|]. intros l _.
  destruct (Nat.ltb_spec fin (i + 2 + Z.to_nat l)); [done|].
  destruct (c =? OptAuthentication); [apply IH; lia|]. destruct (c =? OptOverload); [|apply IH; lia].
  apply returns_slice_bind; [lia..|]. intros; apply IH; lia.
Qed.

(** [Decode] succeeds on a buffer whose option areas parse. *)
Lemma Decode_areas raw o1 o2 o3 : (HeaderLen <= length raw)%nat ->
  slice (E := WireErr) raw fixedLen HeaderLen = Ok magicCookie ->
  parseOptions (drop HeaderLen raw) ∅ = Ok o1 ->
  let ov := overload_of o1 in
  (if negb (Z.land ov 1 =? 0) then parseOptions (take fileLen (drop fileOff raw)) o1 else Ok o1) = Ok o2 ->
  (if negb (Z.land ov 2 =? 0) then parseOptions (take snameLen (drop snameOff raw)) o2 else Ok o2) = Ok o3 ->
  exists m, Decode raw = Ok m /\ MOptions m = o3.
Proof.
  intros Hlen Hcookie H1 ov H2 H3. unfold Decode. rewrite (proj2 (Nat.ltb_ge _ _)) by done.
  rewrite Hcookie. cbn [mbind outcome_bind]. rewrite bytes_eqb_refl. cbn [negb].
  assert (240 <= length raw)%nat by done.
  do 4 (match goal with |- context [@idx WireErr raw ?i] =>
    destruct (@idx_ok WireErr raw i) as (? & -> & _); [lia|] end; cbn [mbind outcome_bind]).
  rewrite !(@slice_ok WireErr raw) by
    (unfold HeaderLen, fixedLen, cookieLen, fileOff, fileLen, snameOff, snameLen, chaddrLen;
     repeat case_match; rewrite ?Nat.ltb_lt, ?Nat.ltb_ge in *; lia).
  cbn [mbind outcome_bind].
  destruct (@ube32_returns WireErr (take (8 - 4) (drop 4 raw))) as [? ->];
    [rewrite length_take, length_drop; lia|]. cbn [mbind outcome_bind].
  do 2 (match goal with |- context [@ube16 WireErr ?b] =>
    destruct (@ube16_returns WireErr b) as [? ->]; [rewrite length_take, length_drop; lia|] end;
    cbn [mbind outcome_bind]).
  unfold getAddr. rewrite !slice_ok by (rewrite ?length_take, ?length_drop; lia).
  cbn [mbind outcome_bind]. rewrite (take_ge (drop HeaderLen raw)) by (rewrite length_drop; lia).
  rewrite H1. cbn [mbind outcome_bind]. fold (overload_of o1). fold ov.
  replace (fileOff + fileLen - fileOff)%nat with fileLen by done.
  replace (snameOff + snameLen - snameOff)%nat with snameLen by done.
  rewrite H2. cbn [mbind outcome_bind]. rewrite H3. cbn [mbind outcome_bind]. eauto.
Qed.

(** The walk of one area, when the overload octet asks for it. *)
Lemma walk_area raw (b : bool) off n auth ov auth' ov' : (off + n <= length raw)%nat ->
  (if b then walk raw off (off + n) auth ov else Ok (auth, ov)) = Ok (auth', ov') ->
  exists os ps, (forall out, (if b then parseOptions (take n (drop off raw)) out else Ok out) = Ok (collect os out))
    /\ auth' = auth ++ ps /\ ov' = ov ++ concat (values OptOverload os)
    /\ Forall2 (stands raw) ps (values OptAuthentication os).
Proof.
  intros Hn. destruct b.
  - intros (os & ps & Hos & ? & ? & ?)%walkLoop_ok; [|done]. exists os, ps.
    replace (off + n - off)%nat with n in Hos by lia. split; [|done].
    intros out. by apply parseOptions_area.
  - intros [= <- <-]. exists [], []. cbn. rewrite !app_nil_r. auto.
Qed.

(** Every instance stands behind the fixed header fields. *)
Definition behind (p : instance) : Prop := (28 <= p.1)%nat.

Lemma walkLoop_pos raw fuel : forall i fin auth ov auth' ov', (28 <= i)%nat ->
  Forall behind auth -> walkLoop fuel raw i fin auth ov = Ok (auth', ov') -> Forall behind auth'.
Proof.
  induction fuel as [|fuel IH]; intros i fin auth ov auth' ov' Hi Ha H; [done|]. cbn [walkLoop] in H.
  destruct (i <? fin)%nat; [|by injection H as <- <-].
  apply bind_ok_inv in H as (c & _ & H). destruct (c =? OptPad); [apply IH in H; done || lia|].
  destruct (c =? OptEnd); [by injection H as <- <-|]. destruct (fin <=? i + 1)%nat; [done|].
  apply bind_ok_inv in H as (l & _ & H). destruct (fin <? i + 2 + Z.to_nat l)%nat; [done|].
  destruct (c =? OptAuthentication).
  - apply IH in H; [done|lia|]. apply Forall_app. split; [done|]. constructor; [unfold behind; cbn; lia|done].
  - destruct (c =? OptOverload); [apply bind_ok_inv in H as (v & _ & H)|]; apply IH in H; done || lia.
Qed.

Lemma walk_pos raw (b : bool) off fin auth ov auth' ov' : (28 <= off)%nat -> Forall behind auth ->
  (if b then walk raw off fin auth ov else Ok (auth, ov)) = Ok (auth', ov') -> Forall behind auth'.
Proof. destruct b; [apply walkLoop_pos | by intros _ ? [= <- <-]]. Qed.

Lemma overload_collect os : overload_of (collect os ∅) =
  match concat (values OptOverload os) with [x] => x | _ => 0 end.
Proof.
  unfold overload_of. rewrite lookup_collect, lookup_empty. by destruct (values OptOverload os).
Qed.

Lemma forcerenewSpan_ok raw s : forcerenewSpan raw = Ok s ->
  (hopsOff < giaddrOff + 4 <= s)%nat /\
  exists m v a, Decode raw = Ok m /\ MOptions m !! OptAuthentication = Some v /\
    decodeForcerenewAuth v = Ok a /\ AuthType a = ForcerenewTypeDigest /\
    slice (E := WireErr) raw s (s + ForcerenewNonceLen) = Ok (AuthValue a).
Proof.
  unfold forcerenewSpan. destruct (Nat.ltb_spec (length raw) HeaderLen) as [|Hlen]; [done|]. intros H.
  apply bind_ok_inv in H as (cookie & Hcookie & H).
  destruct (bytes_eqb cookie magicCookie) eqn:Hck; cbn [negb] in H; [|done].
  apply bytes_eqb_eq in Hck as ->.
  assert (Hl240 : (240 <= length raw)%nat) by exact Hlen.
  apply bind_ok_inv in H as ([auth1 ov1] & H1 & H). 
  assert (G1 : Forall behind auth1) by (refine (walk_pos raw true _ _ _ _ _ _ _ (Forall_nil_2 _) H1); unfold HeaderLen, fixedLen; lia).
  replace (length raw) with (HeaderLen + (length raw - HeaderLen))%nat in H1 by (unfold HeaderLen, fixedLen, cookieLen; lia).
  apply (walk_area raw true) in H1 as (os1 & ps1 & P1 & -> & -> & F1); [|unfold HeaderLen, fixedLen, cookieLen, fileOff, fileLen, snameOff, snameLen; lia].
  apply bind_ok_inv in H as ([auth2 ov2] & H2 & H).
  assert (G2 : Forall behind auth2) by (refine (walk_pos _ _ _ _ _ _ _ _ _ G1 H2); unfold fileOff; lia).
  apply walk_area in H2 as (os2 & ps2 & P2 & -> & -> & F2); [|unfold HeaderLen, fixedLen, cookieLen, fileOff, fileLen, snameOff, snameLen; lia].
  apply bind_ok_inv in H as ([auth3 ov3] & H3 & H).
  assert (G3 : Forall behind auth3) by (refine (walk_pos _ _ _ _ _ _ _ _ _ G2 H3); unfold snameOff; lia).
  clear G1 G2.
  apply walk_area in H3 as (os3 & ps3 & P3 & -> & -> & F3); [|unfold HeaderLen, fixedLen, cookieLen, fileOff, fileLen, snameOff, snameLen; lia].
  cbn [app] in *. rewrite <- overload_collect in P2, P3.
  rewrite take_ge in P1 by (rewrite length_drop; lia).
  destruct (Decode_areas raw _ _ _ Hlen Hcookie (P1 ∅) (P2 _) (P3 _)) as (m & Hm & Ho).
  rewrite <- !collect_app in Ho.
  assert (HF : Forall2 (stands raw) ((ps1 ++ ps2) ++ ps3) (values OptAuthentication ((os1 ++ os2) ++ os3))).
  { rewrite !values_app. by repeat apply Forall2_app. }
  destruct ((ps1 ++ ps2) ++ ps3) as [|[start n] [|]]; [done| |done]. apply Forall_cons in G3 as [G3 _].
  apply Forall2_cons_inv_l in HF as (v & ? & Hst & HF & Hvs). apply Forall2_nil_inv_l in HF as ->.
  unfold stands in Hst. cbn [fst snd] in Hst. rewrite Hst in H. cbn [mbind outcome_bind] in H.
  apply bind_ok_inv in H as (a & Ha & H).
  destruct (Z.eqb_spec (AuthType a) ForcerenewTypeDigest) as [Ht|]; cbn [negb] in H; [|done].
  injection H as <-. destruct (decodeForcerenewAuth_inv _ _ Ha) as [Hv Hval].
  apply slice_length in Hst as Hn. rewrite Hv in Hn.
  split.
  { unfold behind in G3. cbn in G3. unfold hopsOff, giaddrOff, AuthFixedLen. lia. }
  exists m, v, a. rewrite Ho, (app_assoc os1), lookup_collect, Hvs, lookup_empty.
  cbn [default concat app]. rewrite app_nil_r.
  split_and!; try done. apply slice_inv in Hst as (_ & Hb & ->).
  unfold AuthFixedLen, ForcerenewNonceLen, md5DigestSize. rewrite slice_ok by lia. f_equal.
  rewrite Hval, skipn_firstn_comm, drop_drop. f_equal; [lia|f_equal; lia].
Qed.

(** The octets the digest is computed over: 'hops', 'giaddr' and the digest
    itself zeroed (RFC 6704 section 3.1.4, RFC 3118 section 5.3). *)
Definition authenticated (raw : bytes) (s : nat) : bytes :=
  let masked := <[hopsOff := 0]> raw in
  let masked := take giaddrOff masked ++ replicate 4 0 ++ drop (giaddrOff + 4) masked in
  take s masked ++ replicate ForcerenewNonceLen 0 ++ drop (s + ForcerenewNonceLen) masked.

Lemma VerifyForcerenew_inv raw nonce : VerifyForcerenew raw nonce = Ok tt ->
  exists s d, forcerenewSpan raw = Ok s /\
    slice (E := WireErr) raw s (s + ForcerenewNonceLen) = Ok d /\
    hmacMD5 nonce (authenticated raw s) = Ok d.
Proof.
  unfold VerifyForcerenew. destruct (negb (length nonce =? _)%nat); [done|]. intros H.
  apply bind_ok_inv in H as (s & Hs & H). apply bind_ok_inv in H as (h & _ & H).
  apply bind_ok_inv in H as (masked & Hm & H). apply bind_ok_inv in H as (b & Hb & H).
  destruct b; [|done]. exists s.
  destruct (forcerenewSpan_ok _ _ Hs) as [Hpos (m & v & a & _ & _ & _ & _ & Hd)].
  exists (AuthValue a). split; [done|]. split; [done|].
  unfold zeroSpan in Hm. apply bind_ok_inv in Hm as (x & Hx & Hm). injection Hm as <-.
  apply slice_inv in Hx as (_ & Hlen & _). rewrite length_insert in Hlen.
  replace (giaddrOff + 4 - giaddrOff)%nat with 4%nat in Hb by done.
  set (masked := take _ _ ++ _) in Hb.
  unfold zeroedHMACMatches in Hb. apply bind_ok_inv in Hb as (sent & Hsent & Hb).
  apply bind_ok_inv in Hb as (buf & Hbuf & Hb). apply bind_ok_inv in Hb as (mac & Hmac & Hb).
  injection Hb as Hb. apply equalConstantTime_spec in Hb as <-.
  unfold zeroSpan in Hbuf. apply bind_ok_inv in Hbuf as (y & Hy & Hbuf). injection Hbuf as <-.
  replace (s + ForcerenewNonceLen - s)%nat with ForcerenewNonceLen in Hmac by lia.
  etransitivity; [exact Hmac|]. f_equal.
  apply slice_inv in Hd as (_ & Hd1 & ->). apply slice_inv in Hsent as (_ & _ & ->).
  f_equal. unfold masked.
  assert (Hg : length (take giaddrOff (<[hopsOff := 0]> raw)) = giaddrOff)
    by (rewrite length_take, length_insert; lia).
  unfold hopsOff, giaddrOff in *. rewrite drop_app_ge by lia. rewrite Hg.
  replace (s - 24)%nat with (4 + (s - 28))%nat by lia. cbn [drop Nat.add replicate app].
  rewrite drop_drop, drop_insert_lt by lia. f_equal. lia.
Qed.

(** C24: an authenticated reconfiguration.  A datagram [VerifyForcerenew] accepts
    is one [Decode] reads; its option map carries one Authentication option in
    the shape of RFC 6704, of the digest type, and that digest is the HMAC-MD5
    under the nonce of the octets that arrived with 'hops', 'giaddr' and the
    digest zeroed. *)
Theorem VerifyForcerenew_sound raw nonce : VerifyForcerenew raw nonce = Ok tt ->
  exists m a s, Decode raw = Ok m /\ GetForcerenewAuth (MOptions m) = Some (Ok a) /\
    AuthType a = ForcerenewTypeDigest /\
    slice (E := WireErr) raw s (s + ForcerenewNonceLen) = Ok (AuthValue a) /\
    hmacMD5 nonce (authenticated raw s) = Ok (AuthValue a).
Proof.
  intros (s & d & Hs & Hd & Hmac)%VerifyForcerenew_inv.
  destruct (forcerenewSpan_ok _ _ Hs) as [_ (m & v & a & Hm & Ho & Ha & Ht & Hval)].
  exists m, a, s. unfold GetForcerenewAuth. rewrite Ho. cbn [mbind option_bind]. rewrite Ha.
  rewrite Hd in Hval. injection Hval as <-.
  split; [exact Hm|]. split; [reflexivity|]. split; [exact Ht|]. split; [exact Hd|exact Hmac].
Qed.

Lemma walk_returns raw (b : bool) off fin auth ov : (fin <= length raw)%nat ->
  returns (if b then walk raw off fin auth ov else Ok (auth, ov)).
Proof. intros. destruct b; [apply walkLoop_returns; [done|apply Nat.lt_succ_diag_r] | done]. Qed.

Lemma forcerenewSpan_returns raw : returns (forcerenewSpan raw).
Proof.
  unfold forcerenewSpan. destruct (Nat.ltb_spec (length raw) HeaderLen) as [|Hlen]; [done|].
  assert (Hl240 : (240 <= length raw)%nat) by exact Hlen.
  apply returns_slice_bind; [unfold HeaderLen, fixedLen; lia|exact Hlen|]. intros cookie _.
  destruct (negb _); [done|].
  apply returns_bind; [exact (walk_returns raw true _ _ _ _ (le_n _))|]. intros [auth1 ov1] H1.
  apply returns_bind; [apply walk_returns; unfold fileOff, fileLen; lia|]. intros [auth2 ov2] H2.
  apply returns_bind; [apply walk_returns; unfold snameOff, snameLen; lia|].
  intros [auth3 ov3] H3. destruct auth3 as [|[start n] [|]]; [done| |done].
  assert (HF : exists v, stands raw (start, n) v).
  { replace (length raw) with (HeaderLen + (length raw - HeaderLen))%nat in H1 by (unfold HeaderLen, fixedLen, cookieLen; lia).
    apply (walk_area raw true) in H1 as (os1 & ps1 & _ & -> & _ & F1); [|lia].
    apply walk_area in H2 as (os2 & ps2 & _ & -> & _ & F2); [|unfold fileOff, fileLen; lia].
    apply walk_area in H3 as (os3 & ps3 & _ & Hps & _ & F3); [|unfold snameOff, snameLen; lia].
    cbn [app] in *.
    pose proof (Forall2_app (Forall2_app F1 F2) F3) as HF. rewrite <- Hps in HF.
    apply Forall2_cons_inv_l in HF as (v & _ & Hst & _). eauto. }
  destruct HF as [v Hv]. unfold stands in Hv. cbn [fst snd] in Hv. rewrite Hv. cbn [mbind outcome_bind].
  apply returns_bind; [apply decodeForcerenewAuth_returns|]. intros a _.
  destruct (AuthType a =? ForcerenewTypeDigest); [apply returns_ok|apply returns_err].
Qed.

(** A DHCPFORCERENEW whose digest is under [sample_nonce]: two options and the
    end marker behind the header, the digest at octet 257. *)
Definition sample_nonce : bytes := seqZ 1 16.

Definition sample_unsigned : bytes :=
  [2; 1; 6; 0] ++ replicate 232 0 ++ magicCookie ++
  [OptMessageType; 1; 9; OptAuthentication; 28; 3; 1; 0; 0; 0; 0; 0; 0; 0; 0; 7; 2] ++ replicate 16 0 ++ [OptEnd].

Definition sample_forcerenew : bytes :=
  match hmacMD5 sample_nonce sample_unsigned with
  | Ok d => take 257 sample_unsigned ++ d ++ [OptEnd]
  | _ => []
  end.

Lemma VerifyForcerenew_sound_witness : VerifyForcerenew sample_forcerenew sample_nonce = Ok tt /\
  exists m a s, Decode sample_forcerenew = Ok m /\ GetForcerenewAuth (MOptions m) = Some (Ok a) /\
    AuthType a = ForcerenewTypeDigest /\
    slice (E := WireErr) sample_forcerenew s (s + ForcerenewNonceLen) = Ok (AuthValue a) /\
    hmacMD5 sample_nonce (authenticated sample_forcerenew s) = Ok (AuthValue a).
Proof.
  assert (H : VerifyForcerenew sample_forcerenew sample_nonce = Ok tt) by (vm_compute; reflexivity).
  split; [exact H | exact (VerifyForcerenew_sound sample_forcerenew sample_nonce H)].
Defined.

Lemma VerifyForcerenew_ends raw nonce : returns (VerifyForcerenew raw nonce).
Proof.
  unfold VerifyForcerenew. destruct (negb (length nonce =? _)%nat); [done|].
  apply returns_bind; [apply forcerenewSpan_returns|]. intros s Hs.
  destruct (forcerenewSpan_ok _ _ Hs) as [Hpos (m & v & a & _ & _ & _ & _ & Hd)].
  apply slice_inv in Hd as (_ & Hd & _). unfold ForcerenewNonceLen, md5DigestSize in Hd.
  apply returns_bind; [apply returns_idx; lia|]. intros h _. unfold zeroSpan.
  rewrite slice_ok by (rewrite ?length_insert; unfold giaddrOff in *; lia). cbn [mbind outcome_bind].
  match goal with |- context [zeroedHMACMatches ?k ?m ?i ?j] =>
    destruct (zeroedHMACMatches_returns k m i j) as [b Hb] end.
  - lia.
  - rewrite !length_app, length_take, length_replicate, length_drop, length_insert.
    unfold giaddrOff, ForcerenewNonceLen, md5DigestSize in *. lia.
  - rewrite Hb. cbn. by destruct b.
Qed.

(** The check ends on every octet string, with a verdict or an error: it
    never indexes or slices out of range, whatever the lengths a sender wrote
    into the options say. *)
Theorem VerifyForcerenew_returns raw nonce : returns (VerifyForcerenew raw nonce).
Proof. apply VerifyForcerenew_ends. Qed.

(** The option value round trip.  The value [EncodeForcerenewAuth] writes is
    read back with its type, its replay counter and its nonce or digest. *)
Theorem ForcerenewAuth_roundtrip typ value replay v : 0 <= replay < 2 ^ 64 ->
  EncodeForcerenewAuth typ value replay = Ok v ->
  decodeForcerenewAuth v = Ok (mkAuth typ replay value).
Proof.
  intros Hr. unfold EncodeForcerenewAuth, ForcerenewNonceLen, md5DigestSize.
  destruct (Nat.eqb_spec (length value) 16) as [Hl|]; [|done]. cbn [negb].
  destruct (_ && _)%bool eqn:Ht; [done|]. intros [= <-].
  match goal with |- decodeForcerenewAuth ?x = _ => set (v := x) end.
  assert (Hv : length v = 28%nat) by (unfold v; cbn; by rewrite Hl).
  assert (E : (s ← slice (E := WireErr) v 3 11; ube64 s) = Ok replay).
  { rewrite (slice_at v [3; 1; 0] (be64 replay) (typ :: value)) by done.
    cbn [mbind outcome_bind]. rewrite <- (app_nil_r (be64 replay)). by apply ube64_be64. }
  assert (E' : slice (E := WireErr) v 12 28 = Ok value).
  { apply (slice_at _ ([3; 1; 0] ++ be64 replay ++ [typ]) value []); [|done|cbn; lia].
    by rewrite app_nil_r. }
  unfold decodeForcerenewAuth, AuthFixedLen, forcerenewInfoLen, ForcerenewNonceLen, md5DigestSize.
  rewrite Hv, E. cbn [Nat.ltb Nat.leb Nat.sub Nat.add Nat.eqb negb]. rewrite E'.
  cbn -[pad_to Z.shiftr]. rewrite Ht. unfold pad_to.
  rewrite take_ge by lia. rewrite Hl. cbn [Nat.sub replicate]. by rewrite app_nil_r.
Qed.

Lemma ForcerenewAuth_roundtrip_witness : exists v,
  EncodeForcerenewAuth ForcerenewTypeDigest (seq 0 16 ≫= fun n => [Z.of_nat n]) 0x0102030405060708 = Ok v /\
  decodeForcerenewAuth v = Ok (mkAuth ForcerenewTypeDigest 0x0102030405060708 (seq 0 16 ≫= fun n => [Z.of_nat n])).
Proof.
  eexists. split; [vm_compute; reflexivity|].
  apply ForcerenewAuth_roundtrip; [lia | vm_compute; reflexivity].
Defined.
