(* ===== verification/Values.v ===== *)
(** * The typed option readers: wire/values.go

    Addresses, integers and text; the route lists of options 33, 121 and 249;
    the compressed names of option 119; option 81, the client's name; the vendor
    options 43 and 125.

    A reader that answers (value, bool) is an [option] here, or an [outcome] of
    one where it indexes.  A reader that answers (list, error) is an [outcome]:
    Go's (nil, nil) of an absent option is [Ok []]. *)

From S2P Require Import Prelude NetAddr Options Codec.

(** ** Fixed-size values *)

Definition addr_of (v : bytes) : Addr := AddrFrom4 v.

Definition OptAddr4 (o : Options) (c : OptionCode) : option Addr :=
  match o !! c with
  | None => None
  | Some v => if negb (length v =? 4)%nat then None else Some (AddrFrom4 (take 4 v))
  end.

(** [for i := 0; i+4 <= len(v); i += 4] *)
Fixpoint addrsLoop (fuel : nat) (v : bytes) (i : nat) (out : list Addr) : wire (list Addr) :=
  match fuel with
  | O => Hang
  | S fuel =>
    if (i + 4 <=? length v)%nat then
      a ← slice v i (i + 4);
      addrsLoop fuel v (i + 4) (out ++ [AddrFrom4 a])
    else Ok out
  end.

Definition OptAddrs4 (o : Options) (c : OptionCode) : wire (option (list Addr)) :=
  match o !! c with
  | None => Ok None
  | Some v =>
    if ((length v =? 0) || negb (length v mod 4 =? 0))%nat then Ok None else
    l ← addrsLoop (S (length v)) v 0 []; Ok (Some l)
  end.

Definition OptUint32 (o : Options) (c : OptionCode) : option Z :=
  match o !! c with
  | Some [v0; v1; v2; v3] =>
    Some (Z.lor (Z.lor (Z.lor (Z.shiftl v0 24) (Z.shiftl v1 16)) (Z.shiftl v2 8)) v3)
  | _ => None
  end.

(** Go's conversion of a uint32 to an int32. *)
Definition i32 (z : Z) : Z := (z + 2 ^ 31) mod 2 ^ 32 - 2 ^ 31.

Definition OptInt32 (o : Options) (c : OptionCode) : option Z :=
  match OptUint32 o c with None => None | Some v => Some (i32 v) end.

Definition OptUint16 (o : Options) (c : OptionCode) : option Z :=
  match o !! c with
  | Some [v0; v1] => Some (Z.lor (Z.shiftl v0 8) v1)
  | _ => None
  end.

(** The loop that shortens [v] while its last octet is NUL. *)
Fixpoint textLoop (fuel : nat) (v : bytes) : bytes :=
  match fuel with
  | O => v
  | S fuel =>
    match last v with
    | Some 0 => textLoop fuel (take (length v - 1) v)
    | _ => v
    end
  end.

Definition OptText (o : Options) (c : OptionCode) : option gostring :=
  match o !! c with None => None | Some v => Some (textLoop (length v) v) end.

(** ** Routes *)

Record Route := mkRoute { Dest : Prefix; Router : Addr }.

#[global] Instance Route_eq_dec : EqDecision Route.
Proof. solve_decision. Defined.

Definition OnLink (r : Route) : bool := negb (IsValid (Router r)) || IsUnspecified (Router r).

Definition IsDefault (r : Route) : bool := (pbits (Dest r) =? 0) && Is4 (paddr (Dest r)).

Definition ClasslessSource (o : Options) : OptionCode :=
  match o !! OptClasslessStaticRte with
  | None =>
    match o !! OptMSClasslessStaticRte with
    | Some _ => OptMSClasslessStaticRte
    | None => OptClasslessStaticRte
    end
  | Some _ => OptClasslessStaticRte
  end.

Fixpoint routesLoop (fuel : nat) (v : bytes) (i : nat) (out : list Route) : wire (list Route) :=
  match fuel with
  | O => Hang
  | S fuel =>
    if (i <? length v)%nat then
      w ← idx v i;
      let width := Z.to_nat w in
      let i := (i + 1)%nat in
      if (32 <? width)%nat then Err ErrMalformedRoutes else
      let sig := ((width + 7) / 8)%nat in
      if (length v <? i + sig + 4)%nat then Err ErrMalformedRoutes else
      d ← slice v i (i + sig);
      let i := (i + sig)%nat in
      r ← slice v i (i + 4);
      routesLoop fuel v (i + 4)
        (out ++ [mkRoute (Masked (PrefixFrom (AddrFrom4 (pad_to 4 d)) (Z.of_nat width))) (AddrFrom4 r)])
    else Ok out
  end.

Definition ClasslessRoutes (o : Options) : wire (list Route) :=
  match o !! ClasslessSource o with
  | None => Ok []
  | Some v =>
    if (length v =? 0)%nat then Err ErrMalformedRoutes
    else routesLoop (S (length v)) v 0 []
  end.

Fixpoint staticLoop (fuel : nat) (v : bytes) (i : nat) (out : list Route) : wire (list Route) :=
  match fuel with
  | O => Hang
  | S fuel =>
    if (i + 8 <=? length v)%nat then
      d ← slice v i (i + 4);
      r ← slice v (i + 4) (i + 8);
      staticLoop fuel v (i + 8) (out ++ [mkRoute (PrefixFrom (AddrFrom4 d) 32) (AddrFrom4 r)])
    else Ok out
  end.

Definition StaticRoutes (o : Options) : wire (list Route) :=
  match o !! OptStaticRoute with
  | None => Ok []
  | Some v =>
    if ((length v =? 0) || negb (length v mod 8 =? 0))%nat then Err ErrMalformedRoutes
    else staticLoop (S (length v)) v 0 []
  end.

(** ** Names *)

Definition dot : Z := 46.

(** [strings.Join(labels, ".")], [strings.Split(s, ".")], [strings.HasSuffix(s,
    ".")] and [strings.TrimSuffix(s, ".")]. *)
Fixpoint joinDots (labels : list gostring) : gostring :=
  match labels with
  | [] => []
  | [l] => l
  | l :: rest => l ++ dot :: joinDots rest
  end.

Fixpoint splitDots (s : gostring) : list gostring :=
  match s with
  | [] => [[]]
  | c :: s' =>
    if c =? dot then [] :: splitDots s'
    else match splitDots s' with
         | l :: rest => (c :: l) :: rest
         | [] => [[c]]
         end
  end.

Definition hasDotSuffix (s : gostring) : bool :=
  match last s with Some c => c =? dot | None => false end.

Definition trimDotSuffix (s : gostring) : gostring :=
  if hasDotSuffix s then take (length s - 1) s else s.

Definition maxNameJumps : nat := 128.

(** The loop of [readName]; [next] is [None] for Go's -1. *)
Fixpoint nameLoop (fuel : nat) (v : bytes) (off : nat) (labels : list gostring)
    (next : option nat) (jumps : nat) : wire (gostring * nat) :=
  match fuel with
  | O => Hang
  | S fuel =>
    if (length v <=? off)%nat then Err ErrMalformedNames else
    n ← idx v off;
    if n =? 0 then Ok (joinDots labels, default (off + 1)%nat next)
    else if Z.land n 0xC0 =? 0xC0 then
      if (length v <=? off + 1)%nat then Err ErrMalformedNames else
      x ← idx v (off + 1);
      let target := Z.to_nat (Z.lor (Z.shiftl (Z.land n 0x3F) 8) x) in
      let next := Some (default (off + 2)%nat next) in
      if (length v <=? target)%nat then Err ErrMalformedNames else
      if (maxNameJumps <? jumps + 1)%nat then Err ErrMalformedNames else
      nameLoop fuel v target labels next (jumps + 1)
    else if negb (Z.land n 0xC0 =? 0) then Err ErrMalformedNames
    else
      let k := Z.to_nat n in
      if (length v <? off + 1 + k)%nat then Err ErrMalformedNames else
      l ← slice v (off + 1) (off + 1 + k);
      nameLoop fuel v (off + 1 + k) (labels ++ [l]) next jumps
  end.

(** At most [maxNameJumps] pointers, at most one label per octet between two. *)
Definition nameFuel (v : bytes) : nat := (maxNameJumps + 1) * (length v + 1) + 1.

Definition readName (v : bytes) (off : nat) : wire (gostring * nat) :=
  nameLoop (nameFuel v) v off [] None 0.

Fixpoint searchLoop (fuel : nat) (v : bytes) (i : nat) (out : list gostring) : wire (list gostring) :=
  match fuel with
  | O => Hang
  | S fuel =>
    if (i <? length v)%nat then
      '(name, next) ← readName v i;
      searchLoop fuel v next (if bytes_eqb name [] then out else out ++ [name])
    else Ok out
  end.

Definition DomainSearch (o : Options) : wire (list gostring) :=
  match o !! OptDomainSearch with
  | None => Ok []
  | Some v =>
    if (length v =? 0)%nat then Err ErrMalformedNames else searchLoop (S (length v)) v 0 []
  end.

(** ** Option 81 *)

Definition FQDNFlagS : Z := 0x01.
Definition FQDNFlagO : Z := 0x02.
Definition FQDNFlagE : Z := 0x04.
Definition FQDNFlagN : Z := 0x08.
Definition FQDNFlagMBZ : Z := 0xF0.

Fixpoint encodeLabels (labels : list gostring) (out : bytes) : wire bytes :=
  match labels with
  | [] => Ok out
  | l :: rest =>
    if (length l =? 0)%nat then Err ErrBadName else
    if (63 <? length l)%nat then Err ErrBadName else
    encodeLabels rest (out ++ [u8 (Z.of_nat (length l))] ++ l)
  end.

Definition encodeName (name : gostring) : wire bytes :=
  let root := hasDotSuffix name in
  let trimmed := trimDotSuffix name in
  out ← (if negb (length trimmed =? 0)%nat then encodeLabels (splitDots trimmed) [] else Ok []);
  Ok (if root then out ++ [0] else out).

Definition EncodeFQDN (flags : Z) (name : gostring) : wire bytes :=
  if negb (Z.land flags FQDNFlagO =? 0) then Err ErrBadFQDNFlags else
  if negb (Z.land flags FQDNFlagN =? 0) && negb (Z.land flags FQDNFlagS =? 0) then Err ErrBadFQDNFlags else
  if negb (Z.land flags FQDNFlagMBZ =? 0) then Err ErrBadFQDNFlags else
  out ← (if Z.land flags FQDNFlagE =? 0 then Ok ([flags; 0; 0] ++ trimDotSuffix name)
         else body ← encodeName name; Ok ([flags; 0; 0] ++ body));
  if (255 <? length out)%nat then Err ErrBadName else Ok out.

(** ** Vendor options *)

Record VendorData := mkVendorData { Enterprise : Z; VData : bytes }.

Definition VendorSpecific (o : Options) : option bytes := o !! OptVendorSpecific.

Fixpoint vendorLoop (fuel : nat) (v : bytes) (i : nat) (out : list VendorData) : wire (list VendorData) :=
  match fuel with
  | O => Hang
  | S fuel =>
    if (i <? length v)%nat then
      if (length v <? i + 5)%nat then Err ErrMalformedVendor else
      x ← idx v (i + 4);
      let n := Z.to_nat x in
      if (length v <? i + 5 + n)%nat then Err ErrMalformedVendor else
      e ← (s ← slice v i (i + 4); ube32 s);
      d ← slice v (i + 5) (i + 5 + n);
      vendorLoop fuel v (i + 5 + n) (out ++ [mkVendorData e d])
    else Ok out
  end.

Definition VendorIdentifying (o : Options) : wire (list VendorData) :=
  match o !! OptVIVSO with
  | None => Ok []
  | Some v => vendorLoop (S (length v)) v 0 []
  end.

(** ** Routes: the loop is the grammar of RFC 3442 *)

(** A destination descriptor, a router, and the rest of the list. *)
Inductive route_list : bytes -> list Route -> Prop :=
| routes_nil : route_list [] []
| routes_cons w d r v rs :
    (Z.to_nat w <= 32)%nat -> length d = ((Z.to_nat w + 7) / 8)%nat -> length r = 4%nat ->
    route_list v rs ->
    route_list (w :: d ++ r ++ v)
      (mkRoute (Masked (PrefixFrom (AddrFrom4 (pad_to 4 d)) (Z.of_nat (Z.to_nat w)))) (AddrFrom4 r) :: rs).

Lemma routesLoop_grammar rest rs : route_list rest rs -> forall fuel v i out,
  drop i v = rest -> (length v - i < fuel)%nat -> routesLoop fuel v i out = Ok (out ++ rs).
Proof.
  induction 1 as [|w d r rest rs Hw Hd Hr _ IH]; intros fuel v i out Hv Hf;
    (destruct fuel as [|fuel]; [lia|]); cbn [routesLoop];
    apply (f_equal length) in Hv as Hlen; rewrite length_drop in Hlen; cbn [length] in Hlen.
  - rewrite (proj2 (Nat.ltb_ge _ _)) by lia. by rewrite app_nil_r.
  - rewrite !length_app in Hlen. rewrite (proj2 (Nat.ltb_lt _ _)) by lia.
    rewrite (idx_drop _ _ _ _ Hv). cbn [mbind outcome_bind].
    rewrite (proj2 (Nat.ltb_ge 32 _)) by done. rewrite <- Hd, (proj2 (Nat.ltb_ge _ _)) by lia.
    assert (Hv1 : drop (i + 1) v = d ++ r ++ rest) by (rewrite <- drop_drop, Hv; done).
    assert (Hv2 : drop (i + 1 + length d) v = r ++ rest)
      by (rewrite <- drop_drop, Hv1; apply drop_app_length).
    rewrite !slice_ok by lia. cbn [mbind outcome_bind].
    replace (i + 1 + length d - (i + 1))%nat with (length d) by lia.
    replace (i + 1 + length d + 4 - (i + 1 + length d))%nat with (length r) by lia.
    rewrite Hv1, Hv2, !take_app_length, IH; [by rewrite <- app_assoc | | lia].
    rewrite <- Hr, <- drop_drop, Hv2. apply drop_app_length.
Qed.

Lemma routesLoop_ok fuel : forall v i out out', routesLoop fuel v i out = Ok out' ->
  exists rs, route_list (drop i v) rs /\ out' = out ++ rs.
Proof.
  induction fuel as [|fuel IH]; intros v i out out' H; [done|]. cbn [routesLoop] in H.
  destruct (Nat.ltb_spec i (length v)) as [Hi|Hi].
  2:{ injection H as <-. exists []. rewrite drop_ge, app_nil_r by done. split; [constructor|done]. }
  destruct (drop_cons_inv v i Hi) as [w Hw]. rewrite (idx_drop _ _ _ _ Hw) in H.
  cbn [mbind outcome_bind] in H. destruct (Nat.ltb_spec 32 (Z.to_nat w)) as [|H32]; [done|].
  set (sig := ((Z.to_nat w + 7) / 8)%nat) in *.
  destruct (Nat.ltb_spec (length v) (i + 1 + sig + 4)) as [|Hlen]; [done|].
  rewrite !slice_ok in H by lia. cbn [mbind outcome_bind] in H.
  apply IH in H as (rs & Hrs & ->). eexists. rewrite <- app_assoc. split; [|done].
  replace (i + 1 + sig - (i + 1))%nat with sig by lia.
  replace (i + 1 + sig + 4 - (i + 1 + sig))%nat with 4%nat by lia.
  replace (drop i v) with (w :: take sig (drop (i + 1) v) ++ take 4 (drop (i + 1 + sig) v)
    ++ drop (i + 1 + sig + 4) v).
  - constructor; rewrite ?length_take, ?length_drop; try lia. done.
  - rewrite Hw. f_equal. rewrite (list_split_at (drop (i + 1) v) sig (sig + 4)) at 2 by lia.
    replace (sig + 4 - sig)%nat with 4%nat by lia. by rewrite !drop_drop, !Nat.add_assoc.
Qed.

Lemma routesLoop_returns fuel : forall v i out, (length v - i < fuel)%nat ->
  returns (routesLoop fuel v i out).
Proof.
  induction fuel as [|fuel IH]; intros v i out Hf; [lia|]. cbn [routesLoop].
  destruct (Nat.ltb_spec i (length v)); [|done].
  apply returns_bind; [by apply returns_idx|]. intros w _.
  destruct (32 <? Z.to_nat w)%nat; [done|].
  destruct (Nat.ltb_spec (length v) (i + 1 + (Z.to_nat w + 7) / 8 + 4)); [done|].
  apply returns_slice_bind; [lia..|]. intros d _. apply returns_slice_bind; [lia..|]. intros r _.
  apply IH. lia.
Qed.

(** The classless route list.  Option 121 is read, and 249 only where 249 is
    present and 121 is not; the reader ends on every value, it succeeds exactly
    on non-empty lists in the grammar of RFC 3442, and it returns every route of
    the list in order with its destination masked to its width. *)
Theorem ClasslessRoutes_spec (o : Options) v : o !! ClasslessSource o = Some v ->
  returns (ClasslessRoutes o) /\
  (o !! OptClasslessStaticRte = Some v \/
   o !! OptClasslessStaticRte = None /\ o !! OptMSClasslessStaticRte = Some v) /\
  forall rs, ClasslessRoutes o = Ok rs <-> v <> [] /\ route_list v rs.
Proof.
  intros Hv. split_and!.
  - unfold ClasslessRoutes. rewrite Hv. destruct (_ =? _)%nat; [done|]. apply routesLoop_returns. lia.
  - unfold ClasslessSource in Hv.
    destruct (o !! OptClasslessStaticRte) eqn:H121; [left; rewrite <- H121; exact Hv|].
    destruct (o !! OptMSClasslessStaticRte) eqn:H249; [right; split; [done|]; rewrite <- H249; exact Hv|].
    rewrite H121 in Hv. done.
  - intros rs. unfold ClasslessRoutes. rewrite Hv. destruct v as [|b v]; [naive_solver|].
    cbn [length Nat.eqb]. split.
    + intros H. split; [done|]. destruct (routesLoop_ok _ _ _ _ _ H) as (rs' & Hrs & ->). exact Hrs.
    + intros [_ H]. rewrite (routesLoop_grammar _ _ H); [done|done|cbn; lia].
Qed.

(** RFC 3442's own example: 129.210.177.132/25 installs as 129.210.177.128/25. *)
Lemma ClasslessRoutes_spec_witness :
  let o : Options := {[ OptClasslessStaticRte := [25; 129; 210; 177; 132; 10; 0; 0; 1] ]} in
  returns (ClasslessRoutes o) /\
  (o !! OptClasslessStaticRte = Some [25; 129; 210; 177; 132; 10; 0; 0; 1] \/
   o !! OptClasslessStaticRte = None /\ o !! OptMSClasslessStaticRte = Some [25; 129; 210; 177; 132; 10; 0; 0; 1]) /\
  ClasslessRoutes o = Ok [mkRoute (PrefixOf (AddrFrom4 [129; 210; 177; 128]) 25) (AddrFrom4 [10; 0; 0; 1])] /\
  forall rs, ClasslessRoutes o = Ok rs <->
    [25; 129; 210; 177; 132; 10; 0; 0; 1] <> [] /\ route_list [25; 129; 210; 177; 132; 10; 0; 0; 1] rs.
Proof.
  intros o.
  destruct (ClasslessRoutes_spec o [25; 129; 210; 177; 132; 10; 0; 0; 1]) as (H1 & H2 & H3); [reflexivity|].
  split; [exact H1|]. split; [exact H2|]. split; [vm_compute; reflexivity|exact H3].
Defined.

(** ** Names: the reader ends *)

(** A pointer uses up one of the jumps, a label moves the offset forward. *)
Lemma nameLoop_returns fuel : forall v off labels next jumps,
  (jumps <= maxNameJumps)%nat ->
  ((maxNameJumps - jumps) * (length v + 1) + (length v - off) < fuel)%nat ->
  returns (nameLoop fuel v off labels next jumps).
Proof.
  induction fuel as [|fuel IH]; intros v off labels next jumps Hj Hf; [by apply Nat.nlt_0_r in Hf|]. cbn [nameLoop].
  destruct (Nat.leb_spec (length v) off) as [|Hoff]; [done|].
  apply returns_bind; [by apply returns_idx|]. intros n _.
  destruct (n =? 0); [done|]. destruct (Z.land n 0xC0 =? 0xC0).
  - destruct (Nat.leb_spec (length v) (off + 1)); [done|].
    apply returns_bind; [apply returns_idx; lia|]. intros x _.
    destruct (Nat.leb_spec (length v) (Z.to_nat (Z.lor (Z.shiftl (Z.land n 0x3F) 8) x))); [done|].
    destruct (Nat.ltb_spec maxNameJumps (jumps + 1)); [done|]. apply IH; [lia|].
    replace (maxNameJumps - jumps)%nat with (S (maxNameJumps - (jumps + 1))) in Hf by lia.
    rewrite Nat.mul_succ_l in Hf. generalize dependent ((maxNameJumps - (jumps + 1)) * (length v + 1))%nat.
    intros. lia.
  - destruct (negb _); [done|]. destruct (Nat.ltb_spec (length v) (off + 1 + Z.to_nat n)); [done|].
    apply returns_slice_bind; [lia..|]. intros l _. apply IH; lia.
Qed.

Lemma readName_returns v off : returns (readName v off).
Proof. apply nameLoop_returns; unfold nameFuel; [lia|]. rewrite Nat.sub_0_r, Nat.mul_add_distr_r. lia. Qed.

(** Where the outer walk resumes is past where the name began. *)
Lemma nameLoop_next fuel : forall v off labels next jumps name next',
  nameLoop fuel v off labels next jumps = Ok (name, next') ->
  match next with Some k => next' = k | None => (off < next')%nat end.
Proof.
  induction fuel as [|fuel IH]; intros v off labels next jumps name next' H; [done|]. cbn [nameLoop] in H.
  destruct (length v <=? off)%nat; [done|]. apply bind_ok_inv in H as (n & _ & H).
  destruct (n =? 0). { injection H as _ <-. destruct next; cbn; lia. }
  destruct (Z.land n 0xC0 =? 0xC0).
  - destruct (length v <=? off + 1)%nat; [done|]. apply bind_ok_inv in H as (x & _ & H).
    destruct (_ <=? _)%nat; [done|]. destruct (_ <? _)%nat; [done|].
    apply IH in H. destruct next; cbn in H; lia.
  - destruct (negb _); [done|]. destruct (_ <? _)%nat; [done|].
    apply bind_ok_inv in H as (l & _ & H). apply IH in H. destruct next; lia.
Qed.

Lemma searchLoop_returns fuel : forall v i out, (length v - i < fuel)%nat ->
  returns (searchLoop fuel v i out).
Proof.
  induction fuel as [|fuel IH]; intros v i out Hf; [lia|]. cbn [searchLoop].
  destruct (Nat.ltb_spec i (length v)); [|done].
  apply returns_bind; [apply readName_returns|]. intros [name next] Hn.
  apply nameLoop_next in Hn. cbn in Hn. apply IH. lia.
Qed.

(** The search list reader ends on every option value, compression pointers
    that point forward, backward or at themselves included: no fuel runs out
    and no index is out of range. *)
Theorem DomainSearch_returns o : returns (DomainSearch o).
Proof.
  unfold DomainSearch. destruct (o !! OptDomainSearch) as [v|]; [|done].
  destruct (_ =? _)%nat; [done|]. apply searchLoop_returns. lia.
Qed.

(** ** Names: what is written is read back *)

Lemma splitDots_cons s : exists l rest, splitDots s = l :: rest.
Proof.
  induction s as [|c s (l & rest & E)]; cbn; [eauto|]. destruct (c =? dot); [eauto|]. rewrite E. eauto.
Qed.

Lemma joinDots_splitDots s : joinDots (splitDots s) = s.
Proof.
  induction s as [|c s IH]; [done|]. cbn [splitDots]. destruct (Z.eqb_spec c dot) as [->|].
  - destruct (splitDots_cons s) as (l & rest & E). rewrite E in *. cbn. by rewrite <- IH.
  - destruct (splitDots_cons s) as (l & rest & E). rewrite E in *. rewrite <- IH. by destruct rest.
Qed.

(** The wire form of a list of labels. *)
Definition wireLabels (labels : list gostring) : bytes :=
  concat (map (fun l => u8 (Z.of_nat (length l)) :: l) labels).

Lemma encodeLabels_ok labels : forall out b, encodeLabels labels out = Ok b ->
  b = out ++ wireLabels labels /\ Forall (fun l => (1 <= length l <= 63)%nat) labels.
Proof.
  induction labels as [|l labels IH]; intros out b H; cbn [encodeLabels] in H.
  { injection H as <-. by rewrite app_nil_r. }
  destruct (Nat.eqb_spec (length l) 0); [done|]. destruct (Nat.ltb_spec 63 (length l)); [done|].
  apply IH in H as [-> HF]. split; [by rewrite <- app_assoc|]. constructor; [lia|done].
Qed.

Lemma land_C0_small n : 0 <= n < 64 -> Z.land n 0xC0 = 0.
Proof.
  intros. apply Z.bits_inj'. intros i Hi. rewrite Z.land_spec, Z.bits_0.
  destruct (decide (i < 6)) as [Hlt|].
  - replace (Z.testbit 0xC0 i) with false; [by rewrite andb_false_r|].
    assert (i = 0 \/ i = 1 \/ i = 2 \/ i = 3 \/ i = 4 \/ i = 5) as [->|[->|[->|[->|[->| ->]]]]] by lia; done.
  - destruct (decide (n = 0)) as [->|]; [by rewrite Z.bits_0|].
    rewrite (Z.bits_above_log2 n i); [done|lia|]. apply Z.le_lt_trans with 5; [|lia].
    apply Z.lt_succ_r. apply Z.log2_lt_pow2; cbn; lia.
Qed.

Lemma nameLoop_labels labels : forall fuel v off acc rest,
  Forall (fun l => (1 <= length l <= 63)%nat) labels ->
  drop off v = wireLabels labels ++ 0 :: rest -> (length labels < fuel)%nat ->
  nameLoop fuel v off acc None 0 =
    Ok (joinDots (acc ++ labels), (off + length (wireLabels labels) + 1)%nat).
Proof.
  induction labels as [|l labels IH]; intros fuel v off acc rest HF Hv Hf;
    (destruct fuel as [|fuel]; [cbn in Hf; lia|]); cbn [nameLoop];
    apply (f_equal length) in Hv as Hlen; rewrite length_drop, length_app in Hlen; cbn [length] in Hlen.
  - cbn in Hv. rewrite (proj2 (Nat.leb_gt _ _)) by lia. rewrite (idx_drop _ _ _ _ Hv).
    cbn. rewrite app_nil_r. do 2 f_equal. lia.
  - apply Forall_cons in HF as [Hl HF]. change (wireLabels (l :: labels)) with
      ((u8 (Z.of_nat (length l)) :: l) ++ wireLabels labels) in *.
    rewrite length_app in *. cbn [length app] in *. rewrite <- app_assoc in Hv.
    rewrite (proj2 (Nat.leb_gt _ _)) by lia. rewrite (idx_drop _ _ _ _ Hv). cbn [mbind outcome_bind].
    rewrite u8_id by lia. rewrite (proj2 (Z.eqb_neq _ 0)) by lia.
    rewrite land_C0_small by lia. cbn [Z.eqb negb]. rewrite Nat2Z.id.
    rewrite (proj2 (Nat.ltb_ge _ _)) by lia. rewrite slice_ok by lia. cbn [mbind outcome_bind].
    assert (Hv1 : drop (off + 1) v = l ++ wireLabels labels ++ 0 :: rest).
    { rewrite <- drop_drop, Hv. done. }
    replace (off + 1 + length l - (off + 1))%nat with (length l) by lia.
    rewrite Hv1, take_app_length, (IH _ _ _ _ rest); [| done | | lia].
    + rewrite <- app_assoc. cbn [app]. do 2 f_equal. lia.
    + rewrite <- drop_drop, Hv1. apply drop_app_length.
Qed.

Lemma length_splitDots s : (length (splitDots s) <= S (length s))%nat.
Proof.
  induction s as [|c s IH]; [done|]. cbn [splitDots]. destruct (c =? dot); cbn; [lia|].
  destruct (splitDots s); cbn in *; lia.
Qed.

(** A fully qualified name survives the wire.  What [encodeName] writes for
    a name with a trailing dot, put anywhere in a search list, is read back by
    [readName] as the name without the dot, and the walk resumes behind it. *)
Theorem encodeName_readName name b pre rest : hasDotSuffix name = true ->
  encodeName name = Ok b ->
  readName (pre ++ b ++ rest) (length pre) = Ok (trimDotSuffix name, (length pre + length b)%nat).
Proof.
  intros Hroot. unfold encodeName. rewrite Hroot. set (t := trimDotSuffix name). intros H.
  apply bind_ok_inv in H as (out & Hout & H). injection H as <-.
  assert (exists labels, out = wireLabels labels /\ joinDots labels = t /\
    Forall (fun l => (1 <= length l <= 63)%nat) labels) as (labels & -> & Hj & HF).
  { destruct (Nat.eqb_spec (length t) 0) as [Ht|]; cbn [negb] in Hout.
    - injection Hout as <-. exists []. apply nil_length_inv in Ht as ->. done.
    - apply encodeLabels_ok in Hout as [-> HF]. exists (splitDots t). split; [done|].
      split; [apply joinDots_splitDots|done]. }
  assert (Hlabels : (length labels <= length (wireLabels labels))%nat).
  { clear -HF. unfold wireLabels. induction labels as [|l labels IH]; [done|]. apply Forall_cons in HF as [? ?].
    cbn. rewrite length_app. specialize (IH ltac:(done)). lia. }
  unfold readName. rewrite (nameLoop_labels labels _ _ _ [] rest); [| done | |].
  - rewrite length_app. cbn. rewrite Hj. do 2 f_equal. lia.
  - rewrite drop_app_length, <- app_assoc. done.
  - unfold nameFuel. rewrite !length_app. cbn [length]. lia.
Qed.

Lemma encodeName_readName_witness :
  let name := ascii_bytes "www.example.org." in
  exists b, encodeName name = Ok b /\
    readName ([7; 7] ++ b ++ [0]) 2 = Ok (ascii_bytes "www.example.org", (2 + length b)%nat).
Proof.
  intros name. eexists. split; [vm_compute; reflexivity|].
  apply (encodeName_readName name _ [7; 7] [0]); vm_compute; reflexivity.
Defined.
