(* ===== verification/Arp.v ===== *)
(** * ARP packets: wire/arp.go

    The Ethernet/IPv4 ARP codec (RFC 826) and RFC 5227's notion of a probe. *)

From S2P Require Import Prelude NetAddr Options Codec.

Definition ARPHTypeEthernet : Z := 1.
Definition ARPPTypeIPv4 : Z := 0x0800.
Definition ARPHLenEthernet : Z := 6.
Definition ARPPLenIPv4 : Z := 4.
Definition ARPPacketLen : nat := 28.

Definition ARPRequest : Z := 1.
Definition ARPReply : Z := 2.

Record ARPPacket := mkARP {
  ArpOp : Z; SenderHW : bytes; TargetHW : bytes; SenderIP : Addr; TargetIP : Addr }.

#[global] Instance ARPPacket_eq_dec : EqDecision ARPPacket.
Proof. solve_decision. Defined.

Definition IsProbe (p : ARPPacket) : bool :=
  (ArpOp p =? ARPRequest) && Is4 (SenderIP p) && IsUnspecified (SenderIP p).

Definition DecodeARP (b : bytes) : wire ARPPacket :=
  if (length b <? ARPPacketLen)%nat then Err ErrARPShort else
  htype ← (s ← slice b 0 2; ube16 s);
  ptype ← (s ← slice b 2 4; ube16 s);
  if negb (htype =? ARPHTypeEthernet) || negb (ptype =? ARPPTypeIPv4) then Err ErrARPFamily else
  hlen ← idx b 4;
  plen ← idx b 5;
  if negb (hlen =? ARPHLenEthernet) || negb (plen =? ARPPLenIPv4) then Err ErrARPAddrLen else
  op ← (s ← slice b 6 8; ube16 s);
  sha ← slice b 8 14;
  spa ← (s ← slice b 14 18; getAddr s);
  tha ← slice b 18 24;
  tpa ← (s ← slice b 24 28; getAddr s);
  Ok (mkARP op sha tha spa tpa).

(** The nil packet, which Go refuses first, is not a value of the type here. *)
Definition EncodeARP (p : ARPPacket) : wire bytes :=
  if negb (length (SenderHW p) =? Z.to_nat ARPHLenEthernet)%nat then Err ErrARPEncode else
  if negb (length (TargetHW p) =? 0)%nat && negb (length (TargetHW p) =? Z.to_nat ARPHLenEthernet)%nat
    then Err ErrARPEncode else
  if negb (Is4 (SenderIP p)) then Err ErrARPEncode else
  if negb (Is4 (TargetIP p)) then Err ErrARPEncode else
  Ok (be16 ARPHTypeEthernet ++ be16 ARPPTypeIPv4 ++ [ARPHLenEthernet; ARPPLenIPv4] ++ be16 (ArpOp p)
      ++ pad_to 6 (SenderHW p) ++ putAddr (SenderIP p) ++ pad_to 6 (TargetHW p) ++ putAddr (TargetIP p)).

(** The packet a receiver reads: an empty target hardware address is six zero
    octets on the wire. *)
Definition arp_wire_form (p : ARPPacket) : ARPPacket :=
  mkARP (ArpOp p) (SenderHW p) (pad_to 6 (TargetHW p)) (SenderIP p) (TargetIP p).

Record arp_wf (p : ARPPacket) : Prop := {
  arp_op : 0 <= ArpOp p < 2 ^ 16;
  arp_spa : addr_wf (SenderIP p);
  arp_tpa : addr_wf (TargetIP p)
}.

Lemma DecodeARP_returns b : returns (DecodeARP b).
Proof.
  unfold DecodeARP, ARPPacketLen. destruct (Nat.ltb_spec (length b) 28); [done|].
  do 2 (apply returns_bind; [apply returns_slice_bind; [lia..|intros; apply returns_ube16; lia]|intros ? _]).
  destruct (_ || _)%bool; [done|].
  do 2 (apply returns_bind; [apply returns_idx; lia|intros ? _]).
  destruct (_ || _)%bool; [done|].
  apply returns_bind; [apply returns_slice_bind; [lia..|intros; apply returns_ube16; lia]|intros ? _].
  apply returns_slice_bind; [lia..|]. intros sha _.
  apply returns_bind; [apply returns_slice_bind; [lia..|intros; apply returns_getAddr; lia]|intros ? _].
  apply returns_slice_bind; [lia..|]. intros tha _.
  apply returns_bind; [apply returns_slice_bind; [lia..|intros; apply returns_getAddr; lia]|intros ? _].
  done.
Qed.

(** ARP round trip.  Every packet [EncodeARP] accepts fills 28 octets, and
    [DecodeARP] reads it back from a frame padded with any trailing octets; the
    empty target hardware address of a probe comes back as zeroes. *)
Theorem DecodeARP_EncodeARP p b pad : arp_wf p -> EncodeARP p = Ok b ->
  length b = ARPPacketLen /\ DecodeARP (b ++ pad) = Ok (arp_wire_form p).
Proof.
  intros [Hop Hs Ht]. destruct p as [op sha tha spa tpa]. cbn in *. unfold EncodeARP.
  cbn [ArpOp SenderHW TargetHW SenderIP TargetIP]. change (Z.to_nat ARPHLenEthernet) with 6%nat.
  destruct (Nat.eqb_spec (length sha) 6) as [Lsha|]; [|done]. cbn [negb].
  destruct (_ && _)%bool; [done|].
  destruct spa as [|s|]; [done| |done]. destruct tpa as [|t|]; [done| |done].
  cbn in Hs, Ht. cbn [Is4 negb]. intros H.
  match type of H with Ok ?x = Ok ?y => assert (x = y) as <- by congruence end. clear H. unfold arp_wire_form. cbn [ArpOp SenderHW TargetHW SenderIP TargetIP].
  replace (pad_to 6 sha) with sha
    by (unfold pad_to; rewrite take_ge, Lsha by lia; cbn; by rewrite app_nil_r).
  assert (Ltha := length_pad_to 6 tha). set (tha' := pad_to 6 tha) in *.
  change (be16 ARPHTypeEthernet ++ be16 ARPPTypeIPv4 ++ [ARPHLenEthernet; ARPPLenIPv4] ++ be16 op ++ sha
    ++ putAddr (Addr4 s) ++ tha' ++ putAddr (Addr4 t))
    with ([0; 1; 8; 0; 6; 4] ++ be16 op ++ sha ++ octets4 s ++ tha' ++ octets4 t).
  assert (L : length ([0; 1; 8; 0; 6; 4] ++ be16 op ++ sha ++ octets4 s ++ tha' ++ octets4 t) = 28%nat)
    by (rewrite !length_app; cbn; lia).
  split; [done|]. unfold DecodeARP.
  set (b := [0; 1; 8; 0; 6; 4] ++ be16 op ++ sha ++ octets4 s ++ tha' ++ octets4 t) in *.
  assert (Lb : (length (b ++ pad) <? ARPPacketLen)%nat = false).
  { apply Nat.ltb_ge. rewrite length_app, L. unfold ARPPacketLen. lia. }
  rewrite Lb. unfold b. rewrite <- !app_assoc.
  rewrite (slice_at _ [] [0; 1] ([8; 0; 6; 4] ++ be16 op ++ sha ++ octets4 s ++ tha' ++ octets4 t ++ pad) 0 2) by done.
  rewrite (slice_at _ [0; 1] [8; 0] ([6; 4] ++ be16 op ++ sha ++ octets4 s ++ tha' ++ octets4 t ++ pad) 2 4) by done.
  rewrite (slice_at _ [0; 1; 8; 0; 6; 4] (be16 op) (sha ++ octets4 s ++ tha' ++ octets4 t ++ pad) 6 8) by done.
  rewrite (slice_at _ ([0; 1; 8; 0; 6; 4] ++ be16 op) sha (octets4 s ++ tha' ++ octets4 t ++ pad) 8 14)
    by (done || (cbn; lia)).
  rewrite (slice_at _ ([0; 1; 8; 0; 6; 4] ++ be16 op ++ sha) (octets4 s) (tha' ++ octets4 t ++ pad) 14 18)
    by (rewrite <- ?app_assoc; done || (rewrite !length_app; cbn; lia)).
  rewrite (slice_at _ ([0; 1; 8; 0; 6; 4] ++ be16 op ++ sha ++ octets4 s) tha' (octets4 t ++ pad) 18 24)
    by (rewrite <- ?app_assoc; done || (rewrite !length_app; cbn; lia)).
  rewrite (slice_at _ ([0; 1; 8; 0; 6; 4] ++ be16 op ++ sha ++ octets4 s ++ tha') (octets4 t) pad 24 28)
    by (rewrite <- ?app_assoc; done || (rewrite !length_app; cbn; lia)).
  cbn [mbind outcome_bind]. rewrite <- (app_nil_r (be16 op)), ube16_be16 by done.
  rewrite !getAddr_octets4 by done. done.
Qed.

Definition sample_probe : ARPPacket :=
  mkARP ARPRequest [2; 66; 172; 17; 0; 2] [] addr_any (AddrFrom4 [192; 0; 2; 7]).

Lemma DecodeARP_EncodeARP_witness : exists b,
  EncodeARP sample_probe = Ok b /\
  length b = ARPPacketLen /\ DecodeARP (b ++ replicate 18 0) = Ok (arp_wire_form sample_probe).
Proof.
  eexists. split; [vm_compute; reflexivity|].
  apply (DecodeARP_EncodeARP sample_probe); [split; vm_compute; split; congruence | vm_compute; reflexivity].
Defined.
