(* ===== verification/Backoff.v ===== *)
(** * Time and retransmission: proto/time.go, proto/backoff.go

    Instants and durations are int64 nanoseconds; every sum wraps.  The
    retransmission schedule of RFC 2131 section 4.1, its jitter, and the mixer
    that derives several values from the one random word a step is given. *)

From S2P Require Import Prelude.

(** ** Instants and durations *)

Abbreviation Instant := Z (only parsing).
Abbreviation Duration := Z (only parsing).

Definition Nanosecond : Duration := 1.
Definition Millisecond : Duration := 1000000.
Definition Second : Duration := 1000000000.
Definition Minute : Duration := 60 * Second.
Definition Hour : Duration := 60 * Minute.

Definition Add (t : Instant) (d : Duration) : Instant := i64 (t + d).
Definition Sub (t u : Instant) : Duration := i64 (t - u).
Definition Before (t u : Instant) : bool := t <? u.
Definition After (t u : Instant) : bool := u <? t.

(** Go's division truncates toward zero. *)
Definition Seconds (d : Duration) : Z := Z.quot d Second.

Definition InfiniteSeconds : Z := 0xFFFFFFFF.
Definition Infinite : Duration := -1.
Definition IsInfinite (d : Duration) : bool := d =? Infinite.

Definition SecondsToDuration (secs : Z) : Duration :=
  if secs =? InfiniteSeconds then Infinite else i64 (secs * Second).

(** ** The schedule *)

Record Backoff := mkBackoff {
  Initial : Duration; Max : Duration; Jitter : Duration; MaxRetransmissions : Z }.

#[global] Instance Backoff_eq_dec : EqDecision Backoff.
Proof. solve_decision. Defined.

Definition DefaultBackoff : Backoff := mkBackoff (4 * Second) (64 * Second) (1 * Second) 4.

(** [jitter]: uniform over [d - half, d + half], never negative. *)
Definition jitter (d half : Duration) (rnd : Z) : Duration :=
  if half <=? 0 then (if d <? 0 then 0 else d) else
  let span := u64 (u64 (u64 half * 2) + 1) in
  let off := i64 (i64 (rnd mod span) - half) in
  if (0 <? off) && (i64 (MaxInt64 - off) <? d) then MaxInt64 else
  let d := i64 (d + off) in
  if d <? 0 then 0 else d.

(** The loop of [Delay], [n] turns left. *)
Fixpoint delayLoop (n : nat) (max d : Duration) : Duration :=
  match n with
  | O => d
  | S n =>
    if ((0 <? max) && (max <=? d)) || (MaxInt64 / 2 <? d) then d
    else delayLoop n max (i64 (d * 2))
  end.

Definition Delay (b : Backoff) (n : Z) (rnd : Z) : Duration :=
  let n := if n <? 0 then 0 else n in
  let d := if Initial b <=? 0 then 0 else Initial b in
  let d := delayLoop (Z.to_nat n) (Max b) d in
  let d := if (0 <? Max b) && (Max b <? d) then Max b else d in
  jitter d (Jitter b) rnd.

(** [validate]: true where Go returns nil. *)
Definition validate (b : Backoff) : bool :=
  negb ((Jitter b <? 0) || (Initial b <=? Jitter b) || (Max b <? Initial b)).

Definition Exhausted (b : Backoff) (n : Z) : bool :=
  (0 <? MaxRetransmissions b) && (MaxRetransmissions b <=? n).

(** [split], splitmix64's finaliser on the [i]-th stream. *)
Definition split (rnd i : Z) : Z :=
  let z := u64 (rnd + u64 (0x9E3779B97F4A7C15 * u64 (i + 1))) in
  let z := u64 (Z.lxor z (Z.shiftr z 30) * 0xBF58476D1CE4E5B9) in
  let z := u64 (Z.lxor z (Z.shiftr z 27) * 0x94D049BB133111EB) in
  Z.lxor z (Z.shiftr z 31).

(** ** Lemmas *)

Lemma MaxInt64_val : MaxInt64 = 9223372036854775807.
Proof. reflexivity. Qed.

(** The widths of a Go [Backoff] value. *)
Record backoff_wf (b : Backoff) : Prop := {
  bo_initial : in_i64 (Initial b) = true;
  bo_max : in_i64 (Max b) = true;
  bo_jitter : in_i64 (Jitter b) = true
}.

Lemma validate_spec b : validate b = true <-> 0 <= Jitter b < Initial b /\ Initial b <= Max b.
Proof.
  unfold validate. rewrite negb_true_iff, !orb_false_iff, !Z.ltb_ge, Z.leb_gt. lia.
Qed.

Lemma jitter_range d half rnd : 0 <= d <= MaxInt64 -> 0 <= half <= MaxInt64 ->
  Z.max 0 (d - half) <= jitter d half rnd <= Z.min MaxInt64 (d + half).
Proof.
  rewrite MaxInt64_val. intros Hd Hh. unfold jitter. destruct (Z.leb_spec half 0).
  { rewrite (proj2 (Z.ltb_ge d 0)) by lia. lia. }
  rewrite (u64_id half), (u64_id (half * 2)), (u64_id (_ + _)) by lia.
  pose proof (Z.mod_pos_bound rnd (half * 2 + 1) ltac:(lia)) as Hm. set (m := rnd mod _) in *.
  destruct (Z.le_gt_cases m (2 ^ 63 - 1)) as [Hs|Hs].
  - rewrite (i64_id m), (i64_id (m - half)) by lia.
    destruct (Z.ltb_spec 0 (m - half)); cbn [andb].
    + rewrite MaxInt64_val, (i64_id (9223372036854775807 - _)) by lia.
      destruct (Z.ltb_spec (9223372036854775807 - (m - half)) d); [lia|].
      rewrite i64_id by lia. rewrite (proj2 (Z.ltb_ge _ 0)) by lia. lia.
    + rewrite i64_id by lia. destruct (Z.ltb_spec (d + (m - half)) 0); lia.
  - assert (E : i64 m = m - 2 ^ 64).
    { unfold i64. rewrite <- (Z_mod_plus_full _ (-1)), Z.mod_small; lia. }
    rewrite E. assert (E2 : i64 (m - 2 ^ 64 - half) = m - half).
    { unfold i64. rewrite <- (Z_mod_plus_full _ 1), Z.mod_small; lia. }
    rewrite E2. rewrite (proj2 (Z.ltb_lt 0 _)) by lia. cbn [andb].
    rewrite MaxInt64_val, (i64_id (9223372036854775807 - _)) by lia.
    destruct (Z.ltb_spec (9223372036854775807 - (m - half)) d); [lia|].
    rewrite i64_id by lia. rewrite (proj2 (Z.ltb_ge _ 0)) by lia. lia.
Qed.

Lemma delayLoop_bounds n : forall max d, 0 <= d <= MaxInt64 ->
  d <= delayLoop n max d <= MaxInt64.
Proof.
  induction n as [|n IH]; intros max d Hd; cbn [delayLoop]; [lia|].
  destruct (_ && _)%bool; cbn [orb]; [lia|]. rewrite MaxInt64_val in *.
  change (9223372036854775807 / 2) with 4611686018427387903.
  destruct (Z.ltb_spec 4611686018427387903 d); [lia|].
  rewrite i64_id by lia. specialize (IH max (d * 2)). lia.
Qed.

(** The doubling is capped before it is applied: the loop computes the exact
    power, clamped at the ceiling. *)
Lemma delayLoop_exact n : forall max d, 0 < max <= 2 ^ 62 -> 0 <= d <= MaxInt64 ->
  Z.min max (delayLoop n max d) = Z.min max (d * 2 ^ Z.of_nat n).
Proof.
  induction n as [|n IH]; intros max d Hm Hd; cbn [delayLoop].
  { cbn. f_equal. lia. }
  rewrite Nat2Z.inj_succ, Z.pow_succ_r by lia. set (p := 2 ^ Z.of_nat n) in *.
  assert (0 < p) by (apply Z.pow_pos_nonneg; lia). rewrite MaxInt64_val in *.
  change (2 ^ 62) with 4611686018427387904 in *.
  rewrite (proj2 (Z.ltb_lt 0 max)) by lia. cbn [andb].
  destruct (Z.leb_spec max d); cbn [orb]; [rewrite !Z.min_l; nia|].
  change (9223372036854775807 / 2) with 4611686018427387903.
  rewrite (proj2 (Z.ltb_ge 4611686018427387903 d)) by lia.
  rewrite i64_id by lia. rewrite IH by lia. f_equal. nia.
Qed.

Lemma Delay_range b n rnd : validate b = true -> backoff_wf b ->
  0 < Initial b - Jitter b <= Delay b n rnd /\
  Delay b n rnd <= Z.min MaxInt64 (Max b + Jitter b).
Proof.
  intros Hv [Hi%in_i64_spec Hm%in_i64_spec Hj%in_i64_spec].
  apply validate_spec in Hv. unfold Delay. rewrite (proj2 (Z.leb_gt (Initial b) 0)) by lia.
  set (k := Z.to_nat _). pose proof (delayLoop_bounds k (Max b) (Initial b)) as Hd.
  rewrite MaxInt64_val in *. set (d := delayLoop _ _ _) in *.
  rewrite (proj2 (Z.ltb_lt 0 (Max b))) by lia. cbn [andb].
  assert (Hd' : Initial b <= (if Max b <? d then Max b else d) <= Max b)
    by (destruct (Z.ltb_spec (Max b) d); lia).
  set (d' := if Max b <? d then Max b else d) in *.
  pose proof (jitter_range d' (Jitter b) rnd) as Hjit. rewrite MaxInt64_val in *. lia.
Qed.

(** Where the ceiling leaves room to double, the delay is the exact power. *)
Lemma Delay_exact b n rnd : validate b = true -> backoff_wf b -> 0 <= n -> Max b <= 2 ^ 62 ->
  Delay b n rnd = jitter (Z.min (Max b) (Initial b * 2 ^ n)) (Jitter b) rnd.
Proof.
  intros Hv Hwf Hn H62.
  destruct Hwf as [Hi%in_i64_spec Hm%in_i64_spec Hj%in_i64_spec]. apply validate_spec in Hv.
  unfold Delay. rewrite (proj2 (Z.leb_gt (Initial b) 0)), (proj2 (Z.ltb_ge n 0)) by lia. f_equal.
  pose proof (delayLoop_exact (Z.to_nat n) (Max b) (Initial b)) as E.
  rewrite MaxInt64_val, Z2Nat.id in E by lia. rewrite <- E by lia.
  rewrite (proj2 (Z.ltb_lt 0 (Max b))) by lia. cbn [andb].
  destruct (Z.ltb_spec (Max b) (delayLoop (Z.to_nat n) (Max b) (Initial b))); lia.
Qed.

(** The retransmission schedule of RFC 2131 section 4.1.  A schedule
    [validate] accepts never yields a delay of zero or less: every delay lies in
    [Initial - Jitter, Max + Jitter], whatever the count and the entropy; and
    where the ceiling leaves room to double, the delay before jitter is exactly
    min(Max, Initial * 2^n), with no wrap-around on the way. *)
Theorem Delay_bounds b n rnd : validate b = true -> backoff_wf b -> 0 <= n ->
  0 < Initial b - Jitter b <= Delay b n rnd /\ Delay b n rnd <= Max b + Jitter b /\
  (Max b <= 2 ^ 62 -> Delay b n rnd = jitter (Z.min (Max b) (Initial b * 2 ^ n)) (Jitter b) rnd).
Proof.
  intros Hv Hwf Hn. destruct (Delay_range b n rnd Hv Hwf) as [H1 H2].
  split; [done|]. split; [lia|]. by apply Delay_exact.
Qed.

Lemma DefaultBackoff_wf : backoff_wf DefaultBackoff.
Proof. by split. Qed.

Lemma Delay_bounds_witness :
  0 < Initial DefaultBackoff - Jitter DefaultBackoff <= Delay DefaultBackoff 3 12345 /\
  Delay DefaultBackoff 3 12345 <= Max DefaultBackoff + Jitter DefaultBackoff /\
  (Max DefaultBackoff <= 2 ^ 62 -> Delay DefaultBackoff 3 12345 = jitter (32 * Second) Second 12345).
Proof. apply (Delay_bounds DefaultBackoff 3 12345); [reflexivity | apply DefaultBackoff_wf | lia]. Defined.

(** ** The mixer *)

(** Multiplication by an odd constant and a shifted exclusive-or are both
    invertible on 64 bits; [unxor] undoes the second for shifts of at least 22
    bits, in three rounds. *)
Lemma lxor_shift_inj s x y : 0 < s -> 0 <= x < 2 ^ 64 -> 0 <= y < 2 ^ 64 ->
  Z.lxor x (Z.shiftr x s) = Z.lxor y (Z.shiftr y s) -> x = y.
Proof.
  intros Hs Hx Hy H. apply Z.bits_inj'. intros i Hi.
  destruct (Z.le_gt_cases 64 i) as [Hge|Hlt].
  { assert (forall z, 0 <= z < 2 ^ 64 -> Z.testbit z i = false) as Hz.
    { intros z Hz. destruct (decide (z = 0)) as [->|]; [apply Z.bits_0|].
      apply Z.bits_above_log2; [lia|]. apply Z.lt_le_trans with 64; [|done].
      apply Z.log2_lt_pow2; lia. }
    by rewrite !Hz. }
  (* bit [i] of each side is [x_i xor x_(i+s)]: induction from the top *)
  remember (Z.to_nat (64 - i)) as k eqn:Hk. revert i Hi Hlt Hk.
  induction k as [k IH] using lt_wf_ind. intros i Hi Hlt Hk.
  assert (E : Z.testbit (Z.lxor x (Z.shiftr x s)) i = Z.testbit (Z.lxor y (Z.shiftr y s)) i) by by rewrite H.
  rewrite !Z.lxor_spec, !Z.shiftr_spec in E by lia.
  assert (E' : Z.testbit x (i + s) = Z.testbit y (i + s)).
  { destruct (Z.le_gt_cases 64 (i + s)).
    - assert (forall z, 0 <= z < 2 ^ 64 -> Z.testbit z (i + s) = false) as Hz.
      { intros z Hz. destruct (decide (z = 0)) as [->|]; [apply Z.bits_0|].
        apply Z.bits_above_log2; [lia|]. apply Z.lt_le_trans with 64; [|done].
        apply Z.log2_lt_pow2; lia. }
      by rewrite !Hz.
    - apply (IH (Z.to_nat (64 - (i + s)))); [lia|lia|lia|done]. }
  rewrite E' in E. by destruct (Z.testbit x i), (Z.testbit y i), (Z.testbit y (i + s)).
Qed.

Lemma mul_odd_inj c c' x y : u64 (c * c') = 1 -> 0 <= x < 2 ^ 64 -> 0 <= y < 2 ^ 64 ->
  u64 (x * c) = u64 (y * c) -> x = y.
Proof.
  intros Hc Hx Hy H. apply (f_equal (fun z => u64 (z * c'))) in H. unfold u64 in *.
  rewrite !Z.mul_mod_idemp_l, <- !Z.mul_assoc in H by lia.
  rewrite <- (Z.mul_mod_idemp_r x), <- (Z.mul_mod_idemp_r y), Hc, !Z.mul_1_r in H by lia.
  by rewrite !Z.mod_small in H by lia.
Qed.

Lemma lxor_shift_range s x : 0 <= s -> 0 <= x < 2 ^ 64 -> 0 <= Z.lxor x (Z.shiftr x s) < 2 ^ 64.
Proof.
  intros Hs Hx. assert (Hsh : 0 <= Z.shiftr x s) by (apply Z.shiftr_nonneg; lia).
  assert (H0 : 0 <= Z.lxor x (Z.shiftr x s)) by (apply Z.lxor_nonneg; lia). split; [done|].
  destruct (decide (Z.lxor x (Z.shiftr x s) = 0)) as [->|]; [lia|].
  apply Z.log2_lt_pow2; [lia|]. eapply Z.le_lt_trans; [apply Z.log2_lxor; lia|].
  assert (Hx' : Z.log2 x < 64).
  { destruct (decide (x = 0)) as [->|]; [done|]. apply Z.log2_lt_pow2; lia. }
  apply Z.max_lub_lt; [done|]. rewrite Z.shiftr_div_pow2 by done.
  apply Z.le_lt_trans with (Z.log2 x); [|done]. apply Z.log2_le_mono.
  apply Z.div_le_upper_bound; [apply Z.pow_pos_nonneg; lia|].
  assert (1 <= 2 ^ s) by (apply (Z.pow_le_mono_r 2 0); lia). nia.
Qed.

(** The two multiplicative inverses modulo 2^64. *)
Definition inv1 : Z := 0x96de1b173f119089.
Definition inv2 : Z := 0x319642b2d24d8ec3.

Lemma split_inj rnd rnd' i i' : 0 <= rnd < 2 ^ 64 -> 0 <= rnd' < 2 ^ 64 ->
  0 <= i < 2 ^ 64 -> 0 <= i' < 2 ^ 64 -> rnd = rnd' \/ i = i' ->
  split rnd i = split rnd' i' -> rnd = rnd' /\ i = i'.
Proof.
  intros Hr Hr' Hi Hi' Hor. unfold split.
  set (s0 := u64 (rnd + _)). set (s0' := u64 (rnd' + _)).
  set (s1 := u64 (Z.lxor s0 _ * _)). set (s1' := u64 (Z.lxor s0' _ * _)).
  set (s2 := u64 (Z.lxor s1 _ * _)). set (s2' := u64 (Z.lxor s1' _ * _)). intros H.
  assert (R : forall z, 0 <= u64 z < 2 ^ 64) by (intros; apply u64_range).
  apply lxor_shift_inj in H; [|lia|apply R..].
  apply (mul_odd_inj _ inv2) in H; [|reflexivity|apply lxor_shift_range; [lia|apply R]..].
  apply lxor_shift_inj in H; [|lia|apply R..].
  apply (mul_odd_inj _ inv1) in H; [|reflexivity|apply lxor_shift_range; [lia|apply R]..].
  apply lxor_shift_inj in H; [|lia|apply R..]. unfold s0, s0' in H.
  destruct Hor as [-> | ->].
  - split; [done|].
    assert (E : u64 (u64 (i + 1) * 0x9E3779B97F4A7C15) = u64 (u64 (i' + 1) * 0x9E3779B97F4A7C15)).
    { rewrite !(Z.mul_comm (u64 _)). apply (f_equal (fun z => u64 (z - rnd'))) in H. unfold u64 in *.
      rewrite !Zminus_mod_idemp_l in H. rewrite !(Z.add_comm rnd'), !Z.add_simpl_r, !Z.mod_mod in H by lia. done. }
    apply (mul_odd_inj _ 0xf1de83e19937733d) in E; [|reflexivity|apply R..].
    apply (f_equal (fun z => u64 (z - 1))) in E. unfold u64 in E.
    rewrite !Zminus_mod_idemp_l, !Z.add_simpl_r, !Z.mod_small in E by lia. done.
  - split; [|done]. apply (f_equal (fun z => u64 (z - u64 (0x9E3779B97F4A7C15 * u64 (i' + 1))))) in H.
    unfold u64 in *. rewrite !Zminus_mod_idemp_l, !Z.add_simpl_r, !Z.mod_small in H by lia. done.
Qed.

(** The streams never collide.  For every index the mixer is a bijection of
    the 64-bit words: two steps with different entropy draw different values
    from the same stream, and one step draws different values from streams
    whose indices differ modulo 2^64. *)
Theorem split_injective rnd rnd' i i' : 0 <= rnd < 2 ^ 64 -> 0 <= rnd' < 2 ^ 64 ->
  0 <= i < 2 ^ 64 -> 0 <= i' < 2 ^ 64 -> rnd = rnd' \/ i = i' -> (rnd, i) <> (rnd', i') ->
  split rnd i <> split rnd' i'.
Proof. intros ? ? ? ? Hor Hne H. apply split_inj in H as [-> ->]; done. Qed.

Lemma split_injective_witness : split 7 0 <> split 7 1.
Proof. apply split_injective; [lia|lia|lia|lia|by left|done]. Defined.
