(* ===== verification/Kinds.v ===== *)
(** * The closed sets of the machine: proto/state.go, proto/event.go, proto/action.go

    The states, event kinds, timers, reasons and modes of ring 1, the text of a
    journal line, and the events a step is handed.  A journal text is kept as
    its format string and its unrendered arguments: what is said and about
    which values, and not how a value prints. *)

From S2P Require Import Prelude NetAddr Options Codec Arp Backoff.

(** ** States (proto/state.go) *)

Inductive State :=
| StateStopped | StateInit | StateSelecting | StateRequesting | StateBound
| StateRenewing | StateRebinding | StateRebooting | StateProbing.

#[global] Instance State_eq_dec : EqDecision State.
Proof. solve_decision. Defined.

Definition state_eqb (a b : State) : bool := bool_decide (a = b).

Definition AllStates : list State :=
  [StateStopped; StateInit; StateSelecting; StateRequesting; StateBound;
   StateRenewing; StateRebinding; StateRebooting; StateProbing].

(** ** Timers (proto/action.go) *)

Inductive TimerID :=
| TimerRetransmit | TimerDesync | TimerExpire | TimerRestart | TimerRenew | TimerRebind | TimerACD
| Timer6Retransmit | Timer6Delay | Timer6Expire | Timer6Renew | Timer6Rebind | Timer6DAD
| Timer6Refresh | Timer6RouterSolicit | Timer6SLAAC | Timer6AutoFallback.

#[global] Instance TimerID_eq_dec : EqDecision TimerID.
Proof. solve_decision. Defined.

Definition timer_eqb (a b : TimerID) : bool := bool_decide (a = b).

Definition AllTimerIDs : list TimerID :=
  [TimerRetransmit; TimerDesync; TimerExpire; TimerRestart; TimerRenew; TimerRebind; TimerACD;
   Timer6Retransmit; Timer6Delay; Timer6Expire; Timer6Renew; Timer6Rebind; Timer6DAD; Timer6Refresh;
   Timer6RouterSolicit; Timer6SLAAC; Timer6AutoFallback].

Lemma elem_of_AllTimerIDs t : t ∈ AllTimerIDs.
Proof. apply list_elem_of_In. destruct t; cbn; tauto. Qed.

(** ** Reasons, modes, phases, refusals *)

Inductive Reason :=
| ReasonNone | ReasonNoServer | ReasonNak | ReasonExpired | ReasonStopped | ReasonLinkDown
| ReasonAddressLost | ReasonConflict | ReasonTransport | ReasonDADIncomplete | ReasonReleased
| ReasonNoRouter | ReasonNoPrefix | ReasonIPv6OnlyPreferred.

#[global] Instance Reason_eq_dec : EqDecision Reason.
Proof. solve_decision. Defined.

Inductive ConflictMode := ConflictWait | ConflictAsync | ConflictOff.

#[global] Instance ConflictMode_eq_dec : EqDecision ConflictMode.
Proof. solve_decision. Defined.

Inductive ACDPhase := ACDIdle | ACDProbing | ACDSettling | ACDAnnouncing | ACDDefending.

#[global] Instance ACDPhase_eq_dec : EqDecision ACDPhase.
Proof. solve_decision. Defined.

(** [ForcerenewRefusalNone] is the array's first index and never a refusal. *)
Inductive ForcerenewRefusal :=
| ForcerenewRefusalNone
| ForcerenewRefusalWrongState | ForcerenewRefusalNoRaw | ForcerenewRefusalNotUnicast
| ForcerenewRefusalNotOurAddress | ForcerenewRefusalNotThisClient | ForcerenewRefusalNoNonce
| ForcerenewRefusalNoAuth | ForcerenewRefusalMalformedAuth | ForcerenewRefusalReplay
| ForcerenewRefusalBadDigest | ForcerenewRefusalNoServer.

#[global] Instance ForcerenewRefusal_eq_dec : EqDecision ForcerenewRefusal.
Proof. solve_decision. Defined.

(** ** Events (proto/event.go)

    One constructor per kind, with the fields that kind sets.  What a router
    advertisement carries is the DHCPv6 machine's. *)

Abbreviation ActionID := Z (only parsing).

Inductive Event :=
| EvStart
| EvStop
| EvReceived (msg : option Message) (raw : bytes) (dst : Addr)
| EvTimerFired (t : TimerID)
| EvLinkDown
| EvLinkUp
| EvConflictDetected
| EvAddressLost
| EvActionFailed (id : ActionID) (reason : gostring)
| EvRelease
| EvARPReceived (p : option ARPPacket)
| EvRouterAdvert
| EvDADResult (addr : Addr) (duplicate : bool)
| EvSetHostname (name : gostring).

(** The text [ev.Kind.String()]. *)
Definition KindString (ev : Event) : string :=
  match ev with
  | EvStart => "Start" | EvStop => "Stop" | EvReceived _ _ _ => "Received"
  | EvTimerFired _ => "TimerFired" | EvLinkDown => "LinkDown" | EvLinkUp => "LinkUp"
  | EvConflictDetected => "ConflictDetected" | EvAddressLost => "AddressLost"
  | EvActionFailed _ _ => "ActionFailed" | EvRelease => "Release"
  | EvARPReceived _ => "ARPReceived" | EvRouterAdvert => "RouterAdvert"
  | EvDADResult _ _ => "DADResult" | EvSetHostname _ => "SetHostname"
  end%string.

(** ** Journal texts *)

Inductive NoteArg :=
| AStr (s : string) | AText (s : gostring) | ANum (n : Z) | ADur (d : Duration)
| AAddr (a : Addr) | AAddrs (l : list Addr) | APrefix (p : Prefix) | AHW (hw : bytes)
| AState (s : State) | ATimer (t : TimerID) | AAction (id : ActionID) | AType (t : Z) | AOp (op : Z)
| APhase (p : ACDPhase) | ARefusal (r : ForcerenewRefusal) | AErr (e : WireErr)
(** the DHCPv6 side: a status code, a message type *)
| AStatus (c : Z) | AType6 (t : Z).

Record NoteLine := mkNote { NoteFmt : string; NoteArgs : list NoteArg }.

(** A note: the lines [joinNotes] put together with a semicolon, none for the
    empty string. *)
Abbreviation Note := (list NoteLine).

Definition note (fmt : string) (args : list NoteArg) : Note := [mkNote fmt args].

Definition joinNotes (a b : Note) : Note := a ++ b.

Definition note_empty (n : Note) : bool := match n with [] => true | _ => false end.
