(* ===== verification/Lease.v ===== *)
(** * The lease: proto/lease.go

    What the machine derives from a DHCPACK: the address and its mask, the
    server, the routes after RFC 3442's supersession, the three intervals, and
    the deadlines the timers are armed for.  Every deadline is an [Instant]. *)

From S2P Require Import Prelude NetAddr Options Codec Forcerenew Values Backoff Kinds.

Record Lease := mkLease {
  lAddr : Prefix;
  lServerID : Addr;
  lRouter : list Addr;
  lRoutes : list Route;
  lDNS : list Addr;
  lDomain : gostring;
  lDomainSearch : list gostring;
  lMTU : Z;
  lStart : Instant;
  lLeaseTime : Duration;
  lT1 : Duration;
  lT2 : Duration;
  lOptions : Options;
  lForcerenewNonce : bytes;
  lForcerenewReplay : Z }.

#[global] Instance eta_Lease : Settable Lease := fun l =>
  mkLease (lAddr l) (lServerID l) (lRouter l) (lRoutes l) (lDNS l) (lDomain l) (lDomainSearch l)
    (lMTU l) (lStart l) (lLeaseTime l) (lT1 l) (lT2 l) (lOptions l) (lForcerenewNonce l)
    (lForcerenewReplay l).

(** Go's [Lease{}]; the zero [netip.Prefix] holds the zero [Addr] and no width. *)
Definition lease_zero : Lease :=
  mkLease (PrefixOf AddrZero (-1)) AddrZero [] [] [] [] [] 0 0 0 0 0 ∅ [] 0.

(** ** Deadlines *)

Definition Expire (l : Lease) : option Instant :=
  if IsInfinite (lLeaseTime l) then None else Some (Add (lStart l) (lLeaseTime l)).

(** A deadline that is not armed is [None]: Go's value with its Has flag. *)
Record Deadlines := mkDeadlines {
  dRenew : option Instant; dRebind : option Instant; dExpire : option Instant; dNote : Note }.

Definition LeaseDeadlines (l : Lease) : Deadlines :=
  let infinite := IsInfinite (lLeaseTime l) in
  let expire := if infinite then None else Some (Add (lStart l) (lLeaseTime l)) in
  if negb infinite && (lLeaseTime l <=? 0) then mkDeadlines None None expire [] else
  let rebind := lT2 l in
  let rebind := if (rebind <=? 0) && negb infinite then i64 (Z.quot (lLeaseTime l) 8 * 7) else rebind in
  let '(rebind, n) :=
    if negb infinite && (lLeaseTime l <=? rebind) then
      let was := rebind in
      let rebind := i64 (Z.quot (lLeaseTime l) 8 * 7) in
      (rebind, note "T2 (%s) is not earlier than the lease (%s): using RFC 2131 4.4.5's 0.875 default of %s"
                 [ADur was; ADur (lLeaseTime l); ADur rebind])
    else (rebind, []) in
  let renew := lT1 l in
  let renew := if (renew <=? 0) && negb infinite then Z.quot (lLeaseTime l) 2 else renew in
  let '(renew, n) :=
    if (0 <? rebind) && (rebind <=? renew) then
      let was := renew in
      let renew := Z.quot rebind 2 in
      (renew, joinNotes n (note "T1 (%s) is not earlier than T2 (%s): using half of T2, %s"
                 [ADur was; ADur rebind; ADur renew]))
    else (renew, n) in
  mkDeadlines (if 0 <? renew then Some (Add (lStart l) renew) else None)
    (if 0 <? rebind then Some (Add (lStart l) rebind) else None) expire n.

Definition RenewAt (l : Lease) : option Instant := dRenew (LeaseDeadlines l).
Definition RebindAt (l : Lease) : option Instant := dRebind (LeaseDeadlines l).

(** ** Gateway and equality *)

Fixpoint defaultRoute (rs : list Route) : option Addr :=
  match rs with
  | [] => None
  | r :: rest => if IsDefault r && negb (OnLink r) then Some (Router r) else defaultRoute rest
  end.

Definition Gateway (l : Lease) : option Addr :=
  match defaultRoute (lRoutes l) with
  | Some a => Some a
  | None => match lRouter l with a :: _ => Some a | [] => None end
  end.

(** [routesEqual], [stringsEqual], [addrsEqual]: the same loop three times. *)
Fixpoint list_eqb {A} `{EqDecision A} (a b : list A) : bool :=
  match a, b with
  | [], [] => true
  | x :: a, y :: b => bool_decide (x = y) && list_eqb a b
  | _, _ => false
  end.

Definition LeaseEqual (l o : Lease) : bool :=
  if negb (bool_decide (lAddr l = lAddr o)) || negb (addr_eqb (lServerID l) (lServerID o))
     || negb (bytes_eqb (lDomain l) (lDomain o)) || negb (lMTU l =? lMTU o) then false else
  if negb (list_eqb (lRouter l) (lRouter o)) || negb (list_eqb (lDNS l) (lDNS o)) then false else
  if negb (list_eqb (lDomainSearch l) (lDomainSearch o)) then false else
  list_eqb (lRoutes l) (lRoutes o).

(** ** The subnet mask *)

(** [for n < 32 && u&(1<<uint(31-n)) != 0 { n++ }] *)
Fixpoint maskLoop (fuel : nat) (u n : Z) : Z :=
  match fuel with
  | O => n
  | S fuel =>
    if (n <? 32) && negb (Z.land u (u32 (Z.shiftl 1 (31 - n))) =? 0) then maskLoop fuel u (n + 1) else n
  end.

Definition maskBits (mask : Addr) : option Z :=
  if negb (Is4 mask) then None else
  match As4 mask with
  | Some [v0; v1; v2; v3] =>
    let u := Z.lor (Z.lor (Z.lor (Z.shiftl v0 24) (Z.shiftl v1 16)) (Z.shiftl v2 8)) v3 in
    let n := maskLoop 32 u 0 in
    if (n <? 32) && negb (u32 (Z.shiftl u n) =? 0) then None else Some n
  | _ => None
  end.

(** ** From the acknowledgement *)

(** The error path of a reader, handled: a panic or an endless loop is not. *)
Definition catch {A B} (c : wire A) (ok : A -> wire B) (err : WireErr -> wire B) : wire B :=
  match c with Ok a => ok a | Err e => err e | Panic => Panic | Hang => Hang end.

Definition takeStaticRoutes (l : Lease) (o : Options) : wire (Lease * Note) :=
  catch (StaticRoutes o)
    (fun static => Ok (l <| lRoutes := static |>, []))
    (fun e => Ok (l, note "%s: no static routes taken from it" [AErr e])).

Definition classlessBasis (c : OptionCode) : string :=
  if c =? OptMSClasslessStaticRte then "Microsoft classless static routes" else "RFC 3442".

Definition takeRoutes (l : Lease) (o : Options) : wire (Lease * Note) :=
  let src := ClasslessSource o in
  catch (ClasslessRoutes o)
    (fun classless =>
      if (0 <? length classless)%nat then
        let l := l <| lRoutes := classless |> in
        let '(l, n) :=
          if (0 <? length (lRouter l))%nat then
            (l <| lRouter := [] |>,
             note "option %d supersedes the router option (%s): ignoring %s"
               [ANum src; AStr (classlessBasis src); AAddrs (lRouter l)])
          else (l, []) in
        let n := match o !! OptStaticRoute with
                 | Some _ => joinNotes n (note "option %d supersedes the static-route option (%s)"
                                            [ANum src; AStr (classlessBasis src)])
                 | None => n
                 end in
        Ok (l, n)
      else takeStaticRoutes l o)
    (fun e =>
      '(l, _) ← takeStaticRoutes l o;
      Ok (l, note "%s: falling back to the router and static-route options (RFC 3442 supersession does not apply to a value that does not decode)" [AErr e])).

Definition takeDomainSearch (l : Lease) (o : Options) : wire (Lease * Note) :=
  catch (DomainSearch o)
    (fun names => Ok (l <| lDomainSearch := names |>, []))
    (fun e => Ok (l, note "%s: the search list is left empty" [AErr e])).

(** [validForcerenewNonce] (proto/machine_forcerenew.go). *)
Definition validForcerenewNonce (m : Message) : wire (option ForcerenewAuth) :=
  match GetForcerenewAuth (MOptions m) with
  | None => Ok None
  | Some r =>
    catch r (fun a => Ok (if AuthType a =? ForcerenewTypeNonce then Some a else None))
            (fun _ => Ok None)
  end.

(** [if v, ok := x; ok { l.F = v }]. *)
Definition setField {A} (x : option A) (f : A -> Lease -> Lease) (l : Lease) : Lease :=
  match x with Some v => f v l | None => l end.

(** [Ok None] is the false of Go's third result. *)
Definition leaseFromAck (m : Message) (sentAt : Instant) : wire (option (Lease * Note)) :=
  let o := MOptions m in
  if negb (Is4 (YIAddr m)) || IsUnspecified (YIAddr m) then Ok None else
  match OptUint32 o OptLeaseTime with
  | None => Ok None
  | Some secs =>
    let '(bits, n) :=
      match OptAddr4 o OptSubnetMask with
      | Some mask =>
        match maskBits mask with
        | Some n => (n, [])
        | None => (32, note "subnet mask %s is not contiguous: address kept at /32" [AAddr mask])
        end
      | None => (32, [])
      end in
    let l := lease_zero <| lAddr := PrefixFrom (YIAddr m) bits |> <| lStart := sentAt |>
               <| lLeaseTime := SecondsToDuration secs |> <| lOptions := o |> in
    let l := setField (OptAddr4 o OptServerID) (fun sid l => l <| lServerID := sid |>) l in
    r ← OptAddrs4 o OptRouter;
    let l := setField r (fun r l => l <| lRouter := r |>) l in
    d ← OptAddrs4 o OptDNSServer;
    let l := setField d (fun d l => l <| lDNS := d |>) l in
    let l := setField (OptText o OptDomainName) (fun s l => l <| lDomain := s |>) l in
    let l := setField (OptUint16 o OptInterfaceMTU) (fun mtu l => l <| lMTU := mtu |>) l in
    let l := setField (OptUint32 o OptRenewalTime) (fun t1 l => l <| lT1 := SecondsToDuration t1 |>) l in
    let l := setField (OptUint32 o OptRebindingTime) (fun t2 l => l <| lT2 := SecondsToDuration t2 |>) l in
    a ← validForcerenewNonce m;
    let l := setField a (fun a l => l <| lForcerenewNonce := AuthValue a |> <| lForcerenewReplay := AuthReplay a |>) l in
    '(l, n1) ← takeRoutes l o;
    '(l, n2) ← takeDomainSearch l o;
    Ok (Some (l, joinNotes (joinNotes n n1) n2))
  end.

(** ** The deadlines are in order *)

Lemma IsInfinite_spec d : IsInfinite d = true <-> d = Infinite.
Proof. apply Z.eqb_eq. Qed.

Lemma LeaseDeadlines_order l : Second <= lLeaseTime l -> 0 <= lStart l ->
  lStart l + lLeaseTime l <= MaxInt64 ->
  let d := LeaseDeadlines l in
  dExpire d = Some (lStart l + lLeaseTime l) /\
  exists r, dRebind d = Some r /\ lStart l < r < lStart l + lLeaseTime l /\
    (forall n, dRenew d = Some n -> lStart l < n < r) /\
    (lT2 l <> 1 -> is_Some (dRenew d)).
Proof.
  rewrite MaxInt64_val. unfold Second. intros Hl Hs Hmax. unfold LeaseDeadlines. cbv zeta.
  assert (Hinf : IsInfinite (lLeaseTime l) = false) by (unfold IsInfinite, Infinite; lia).
  rewrite Hinf, (proj2 (Z.leb_gt (lLeaseTime l) 0)) by lia. cbn [negb andb].
  rewrite !andb_true_r. set (L := lLeaseTime l) in *. set (S0 := lStart l) in *.
  assert (Hq8 : 2 <= Z.quot L 8 * 7 < L)
    by (pose proof (Z.quot_rem' L 8); pose proof (Z.rem_bound_pos L 8); lia).
  assert (Hq2 : 1 <= Z.quot L 2 < L) by (pose proof (Z.quot_rem' L 2); pose proof (Z.rem_bound_pos L 2); lia).
  rewrite (i64_id (Z.quot L 8 * 7)) by lia.
  set (rb0 := if lT2 l <=? 0 then Z.quot L 8 * 7 else lT2 l).
  assert (Hrb0 : 1 <= rb0 /\ (lT2 l <> 1 -> 2 <= rb0)) by (unfold rb0; destruct (Z.leb_spec (lT2 l) 0); lia).
  clearbody rb0.
  destruct (if L <=? rb0 then _ else _) as [rb n] eqn:Erb.
  assert (Hrb : 1 <= rb < L /\ (lT2 l <> 1 -> 2 <= rb))
    by (destruct (Z.leb_spec L rb0); injection Erb as <- _; lia).
  clear Erb Hrb0. rewrite (proj2 (Z.ltb_lt 0 rb)) by lia. cbn [andb].
  set (rn0 := if lT1 l <=? 0 then Z.quot L 2 else lT1 l).
  assert (Hrn0 : 1 <= rn0) by (unfold rn0; destruct (Z.leb_spec (lT1 l) 0); lia). clearbody rn0.
  assert (Hqr : 0 <= Z.quot rb 2 < rb /\ (2 <= rb -> 1 <= Z.quot rb 2))
    by (pose proof (Z.quot_rem' rb 2); pose proof (Z.rem_bound_pos rb 2); lia).
  destruct (if rb <=? rn0 then _ else _) as [rn n'] eqn:Ern.
  assert (Hrn : 0 <= rn < rb /\ (lT2 l <> 1 -> 1 <= rn))
    by (destruct (Z.leb_spec rb rn0); injection Ern as <- _; lia).
  cbn [dRenew dRebind dExpire]. unfold Add. rewrite !i64_id by lia. split; [done|].
  exists (S0 + rb). split; [done|]. split; [lia|]. split.
  - intros x. destruct (Z.ltb_spec 0 rn); [|done]. intros [= <-]. lia.
  - intros Ht2. rewrite (proj2 (Z.ltb_lt 0 rn)) by lia. eauto.
Qed.

(** RFC 2131 section 4.4.5's ordering, enforced.  For every finite lease of
    at least a second that does not run past the clock, whatever T1 and T2 the
    server sent, the expiry is the start plus the lease, the rebinding is armed
    strictly between the start and the expiry, and an armed renewal lies strictly
    between the start and the rebinding; only a T2 of one nanosecond, which no
    message can carry, leaves no room for a renewal. *)
Theorem Deadlines_ordered l : Second <= lLeaseTime l -> 0 <= lStart l ->
  lStart l + lLeaseTime l <= MaxInt64 ->
  let d := LeaseDeadlines l in
  dExpire d = Some (lStart l + lLeaseTime l) /\
  exists r, dRebind d = Some r /\ lStart l < r < lStart l + lLeaseTime l /\
    (forall n, dRenew d = Some n -> lStart l < n < r) /\
    (lT2 l <> 1 -> is_Some (dRenew d)).
Proof. apply LeaseDeadlines_order. Qed.

Definition sample_lease : Lease :=
  lease_zero <| lAddr := PrefixFrom (AddrFrom4 [192; 0; 2; 7]) 24 |> <| lServerID := AddrFrom4 [192; 0; 2; 1] |>
    <| lStart := 5 * Second |> <| lLeaseTime := 3600 * Second |> <| lT1 := 4000 * Second |>.

Lemma Deadlines_ordered_witness :
  let d := LeaseDeadlines sample_lease in
  dExpire d = Some (3605 * Second) /\
  exists r, dRebind d = Some r /\ 5 * Second < r < 3605 * Second /\
    (forall n, dRenew d = Some n -> 5 * Second < n < r) /\ (0 <> 1 -> is_Some (dRenew d)).
Proof. apply (Deadlines_ordered sample_lease); vm_compute; congruence. Defined.

(** ** The subnet mask *)

(** The mask whose first [n] bits are ones. *)
Definition mask_of (n : Z) : Z := mask_to 32 n (2 ^ 32 - 1).

Definition all_masks : list Z := map (fun k => mask_of (Z.of_nat k)) (seq 0 33).

Lemma maskLoop_range fuel u n : 0 <= n <= 32 -> n <= maskLoop fuel u n <= 32.
Proof.
  revert n. induction fuel as [|fuel IH]; intros n Hn; cbn [maskLoop]; [lia|].
  destruct (Z.ltb_spec n 32); cbn [andb]; [|lia]. destruct (negb _); [|lia].
  specialize (IH (n + 1)). lia.
Qed.

Lemma maskBits_range mask n : maskBits mask = Some n -> 0 <= n <= 32.
Proof.
  unfold maskBits. destruct (negb (Is4 mask)); [done|].
  destruct (As4 mask) as [[|? [|? [|? [|? [|]]]]]|]; try done.
  match goal with |- context [maskLoop 32 ?u 0] => pose proof (maskLoop_range 32 u 0 ltac:(lia));
    generalize dependent (maskLoop 32 u 0) end.
  intros r Hr.  destruct (_ && _)%bool; [done|]. intros [= <-]. lia.
Qed.

(** The loop stops where the run of ones does. *)
Lemma maskLoop_spec fuel u : forall n, 0 <= n <= 32 -> 32 - n <= Z.of_nat fuel ->
  let r := maskLoop fuel u n in
  (forall i, n <= i < r -> Z.testbit u (31 - i) = true) /\
  (r < 32 -> Z.testbit u (31 - r) = false).
Proof.
  induction fuel as [|fuel IH]; intros n Hn Hf; cbn [maskLoop].
  { split; [lia|]. lia. }
  destruct (Z.ltb_spec n 32) as [Hlt|]; cbn [andb]; [|split; lia].
  assert (E : Z.land u (u32 (Z.shiftl 1 (31 - n))) = if Z.testbit u (31 - n) then 2 ^ (31 - n) else 0).
  { rewrite Z.shiftl_mul_pow2, Z.mul_1_l by lia. rewrite u32_id.
    2:{ split; [apply Z.pow_nonneg; lia|apply Z.pow_lt_mono_r; lia]. }
    apply Z.bits_inj'. intros i Hi. rewrite Z.land_spec, Z.pow2_bits_eqb by lia.
    destruct (Z.eqb_spec (31 - n) i) as [<-|].
    - rewrite andb_true_r. destruct (Z.testbit u (31 - n)); [by rewrite Z.pow2_bits_true by lia|].
      by rewrite Z.bits_0.
    - rewrite andb_false_r. destruct (Z.testbit u (31 - n)); [|by rewrite Z.bits_0].
      by rewrite Z.pow2_bits_false by lia. }
  rewrite E. clear E. destruct (Z.testbit u (31 - n)) eqn:Hb.
  - rewrite (proj2 (Z.eqb_neq _ 0)) by (pose proof (Z.pow_pos_nonneg 2 (31 - n)); lia). cbn [negb].
    destruct (IH (n + 1)) as [IH1 IH2]; [lia|lia|]. split; [|done].
    intros i Hi. destruct (decide (i = n)) as [->|]; [done|]. apply IH1. lia.
  - cbn [Z.eqb negb]. split; [lia|]. done.
Qed.

Lemma mask_of_testbit n i : 0 <= n <= 32 -> 0 <= i < 32 ->
  Z.testbit (mask_of n) i = (32 - n <=? i).
Proof.
  intros Hn Hi. unfold mask_of, mask_to. rewrite Z.shiftl_spec by lia.
  destruct (Z.leb_spec (32 - n) i).
  - rewrite Z.shiftr_spec by lia. replace (i - (32 - n) + (32 - n)) with i by lia.
    change (2 ^ 32 - 1) with (Z.ones 32). apply Z.ones_spec_low. lia.
  - apply Z.testbit_neg_r. lia.
Qed.

Lemma testbit_u32_high u i : 0 <= u < 2 ^ 32 -> 32 <= i -> Z.testbit u i = false.
Proof.
  intros Hu Hi. destruct (decide (u = 0)) as [->|]; [apply Z.bits_0|].
  apply Z.bits_above_log2; [lia|]. apply Z.lt_le_trans with 32; [|done]. apply Z.log2_lt_pow2; lia.
Qed.

Lemma mask_of_range n : 0 <= n <= 32 -> 0 <= mask_of n < 2 ^ 32.
Proof.
  intros Hn. unfold mask_of, mask_to. rewrite Z.shiftl_mul_pow2, Z.shiftr_div_pow2 by lia.
  pose proof (Z.pow_pos_nonneg 2 (32 - n)). pose proof (Z.div_mod (2 ^ 32 - 1) (2 ^ (32 - n)) ltac:(lia)).
  pose proof (Z.mod_pos_bound (2 ^ 32 - 1) (2 ^ (32 - n))). split; [|lia].
  apply Z.mul_nonneg_nonneg; [apply Z.div_pos; lia|lia].
Qed.

(** A mask is a prefix exactly when it is contiguous.  [maskBits] answers [n]
    for the mask of [n] leading ones and for no other address; a mask with a hole
    is refused and never rounded. *)
Theorem maskBits_spec v n : 0 <= v < 2 ^ 32 ->
  maskBits (Addr4 v) = Some n <-> 0 <= n <= 32 /\ v = mask_of n.
Proof.
  intros Hv. unfold maskBits. cbn [Is4 negb As4 octets4].
  pose proof (AddrFrom4_octets4 v Hv) as Hu. cbn in Hu. injection Hu as Hu.
  rewrite <- !Z.lor_assoc, Hu. clear Hu.
  pose proof (maskLoop_range 32 v 0 ltac:(lia)) as Hr.
  destruct (maskLoop_spec 32 v 0) as [Hones Hzero]; [lia|lia|]. set (r := maskLoop 32 v 0) in *.
  assert (Hlow : u32 (Z.shiftl v r) = 0 <-> v = mask_of r).
  { split.
    - intros H0. apply Z.bits_inj'. intros i Hi. destruct (Z.le_gt_cases 32 i).
      { rewrite !testbit_u32_high; first [done | apply mask_of_range; lia]. }
      rewrite mask_of_testbit by lia. destruct (Z.leb_spec (32 - r) i).
      + replace i with (31 - (31 - i)) by lia. apply Hones. lia.
      + assert (E : Z.testbit (u32 (Z.shiftl v r)) (i + r) = false) by (rewrite H0; apply Z.bits_0).
        unfold u32 in E. rewrite Z.mod_pow2_bits_low, Z.shiftl_spec in E by lia.
        replace (i + r - r) with i in E by lia. done.
    - intros Hm. apply Z.bits_inj'. intros i Hi. rewrite Z.bits_0. unfold u32.
      destruct (Z.le_gt_cases 32 i); [by rewrite Z.mod_pow2_bits_high by lia|].
      rewrite Z.mod_pow2_bits_low, Z.shiftl_spec by lia. destruct (Z.le_gt_cases r i).
      + rewrite Hm, mask_of_testbit by lia. apply Z.leb_gt. lia.
      + apply Z.testbit_neg_r. lia. }
  assert (Huniq : forall k, 0 <= k <= 32 -> v = mask_of k -> k = r).
  { intros k Hk Hm. destruct (Z.lt_trichotomy k r) as [Hlt|[?|Hgt]]; [exfalso|done|exfalso].
    - specialize (Hones k ltac:(lia)). rewrite Hm, mask_of_testbit in Hones by lia. lia.
    - specialize (Hzero ltac:(lia)). rewrite Hm, mask_of_testbit in Hzero by lia. lia. }
  destruct (Z.ltb_spec r 32) as [Hlt|]; cbn [andb].
  - destruct (Z.eqb_spec (u32 (Z.shiftl v r)) 0) as [H0|H0]; cbn [negb].
    + split; [intros [= <-]; split; [lia|by apply Hlow] | intros [Hn Hm]; f_equal; symmetry; by apply Huniq].
    + split; [done|]. intros [Hn Hm]. destruct H0. apply Hlow. by rewrite <- (Huniq n Hn Hm).
  - split.
    + intros [= <-]. split; [lia|]. assert (Hr32 : r = 32) by lia. rewrite Hr32 in *.
      apply Z.bits_inj'. intros i Hi. destruct (Z.le_gt_cases 32 i).
      { rewrite !testbit_u32_high; first [done | apply mask_of_range; lia]. }
      rewrite mask_of_testbit by lia. rewrite (proj2 (Z.leb_le _ _)) by lia.
      replace i with (31 - (31 - i)) by lia. apply Hones. lia.
    + intros [Hn Hm]. f_equal. symmetry. by apply Huniq.
Qed.

Lemma maskBits_spec_witness : maskBits (Addr4 0xFFFFFF00) = Some 24 <-> 0 <= 24 <= 32 /\ 0xFFFFFF00 = mask_of 24.
Proof. apply (maskBits_spec 0xFFFFFF00 24). lia. Defined.

(** ** Reading an acknowledgement *)

Lemma addrsLoop_returns fuel : forall v i out, (length v - i < fuel)%nat ->
  exists l, addrsLoop fuel v i out = Ok l.
Proof.
  induction fuel as [|fuel IH]; intros v i out Hf; [lia|]. cbn [addrsLoop].
  destruct (Nat.leb_spec (i + 4) (length v)); [|eauto].
  rewrite slice_ok by lia. cbn [mbind outcome_bind]. apply IH. lia.
Qed.

Lemma OptAddrs4_ok o c : exists r, OptAddrs4 o c = Ok r.
Proof.
  unfold OptAddrs4. destruct (o !! c) as [v|]; [|eauto]. destruct (_ || _)%bool; [eauto|].
  destruct (addrsLoop_returns (S (length v)) v 0 []) as [l ->]; [lia|]. cbn. eauto.
Qed.

Lemma staticLoop_returns fuel : forall v i out, (length v - i < fuel)%nat ->
  returns (staticLoop fuel v i out).
Proof.
  induction fuel as [|fuel IH]; intros v i out Hf; [lia|]. cbn [staticLoop].
  destruct (Nat.leb_spec (i + 8) (length v)); [|done].
  apply returns_slice_bind; [lia..|]. intros d _. apply returns_slice_bind; [lia..|]. intros r _.
  apply IH. lia.
Qed.

Lemma StaticRoutes_returns o : returns (StaticRoutes o).
Proof.
  unfold StaticRoutes. destruct (o !! _) as [v|]; [|done]. destruct (_ || _)%bool; [done|].
  apply staticLoop_returns. lia.
Qed.

Lemma ClasslessRoutes_returns o : returns (ClasslessRoutes o).
Proof.
  unfold ClasslessRoutes. destruct (o !! _) as [v|]; [|done]. destruct (_ =? _)%nat; [done|].
  apply routesLoop_returns. lia.
Qed.

Lemma search_returns o : returns (DomainSearch o).
Proof.
  unfold DomainSearch. destruct (o !! OptDomainSearch) as [v|]; [|done].
  destruct (_ =? _)%nat; [done|]. apply searchLoop_returns. lia.
Qed.

(** A handled reader is a value. *)
Lemma catch_ok {A B} (c : wire A) (ok : A -> wire B) err (P : B -> Prop) : returns c ->
  (forall a, c = Ok a -> exists b, ok a = Ok b /\ P b) -> (forall e, c = Err e -> exists b, err e = Ok b /\ P b) ->
  exists b, catch c ok err = Ok b /\ P b.
Proof. intros [H1 H2] Hok Herr. destruct c; cbn; [by apply Hok | by apply Herr | done | done]. Qed.

Lemma takeStaticRoutes_ok l o : exists rs n, takeStaticRoutes l o = Ok (l <| lRoutes := rs |>, n).
Proof.
  unfold takeStaticRoutes.
  match goal with |- context [catch ?c ?f ?g] =>
    destruct (catch_ok c f g (fun p => exists rs, p.1 = l <| lRoutes := rs |>) (StaticRoutes_returns o))
      as ([l' n] & -> & rs & Hl) end.
  - eauto.
  - intros e _. eexists. split; [done|]. exists (lRoutes l). by destruct l.
  - cbn in Hl. subst. eauto.
Qed.

(** [takeRoutes] touches the routes and the router list and nothing else. *)
Lemma takeRoutes_ok l o : exists rs r n,
  takeRoutes l o = Ok (l <| lRoutes := rs |> <| lRouter := r |>, n).
Proof.
  unfold takeRoutes.
  match goal with |- context [catch ?c ?f ?g] =>
    destruct (catch_ok c f g (fun p => exists rs r, p.1 = l <| lRoutes := rs |> <| lRouter := r |>)
      (ClasslessRoutes_returns o)) as ([l' n] & -> & rs & r & Hl) end.
  - intros cl _. destruct (0 <? length cl)%nat.
    + destruct (0 <? length (lRouter _))%nat; eexists; split; [done| |done|]; cbn [fst].
      * exists cl, []. done.
      * exists cl, (lRouter l). done.
    + destruct (takeStaticRoutes_ok l o) as (rs & n & ->). eexists. split; [done|].
      exists rs, (lRouter l). by destruct l.
  - intros e _. destruct (takeStaticRoutes_ok l o) as (rs & n & ->). cbn. eexists. split; [done|].
    exists rs, (lRouter l). by destruct l.
  - cbn in Hl. subst. eauto.
Qed.

Lemma takeDomainSearch_ok l o : exists ds n, takeDomainSearch l o = Ok (l <| lDomainSearch := ds |>, n).
Proof.
  unfold takeDomainSearch.
  match goal with |- context [catch ?c ?f ?g] =>
    destruct (catch_ok c f g (fun p => exists ds, p.1 = l <| lDomainSearch := ds |>) (search_returns o))
      as ([l' n] & -> & ds & Hl) end.
  - eauto.
  - intros e _. eexists. split; [done|]. exists (lDomainSearch l). by destruct l.
  - cbn in Hl. subst. eauto.
Qed.

Lemma validForcerenewNonce_ok m : exists a, validForcerenewNonce m = Ok a /\
  match a with
  | Some a => GetForcerenewAuth (MOptions m) = Some (Ok a) /\ AuthType a = ForcerenewTypeNonce /\
              length (AuthValue a) = ForcerenewNonceLen
  | None => True
  end.
Proof.
  unfold validForcerenewNonce, GetForcerenewAuth. destruct (MOptions m !! _) as [v|]; cbn; [|by exists None].
  apply catch_ok; [apply decodeForcerenewAuth_returns | |].
  - intros a Ha. eexists. split; [done|]. destruct (Z.eqb_spec (AuthType a) ForcerenewTypeNonce); [|done].
    rewrite Ha. split; [done|]. split; [done|].
    apply decodeForcerenewAuth_inv in Ha as [Hv ->]. rewrite length_drop, Hv. done.
  - intros e _. by exists None.
Qed.

(** What [leaseFromAck] answers: the two refusals of the code, and the fields the
    machine relies on. *)
Definition ack_lease (m : Message) (sentAt : Instant) (l : Lease) : Prop :=
  usable4 (YIAddr m) = true /\ paddr (lAddr l) = YIAddr m /\ 0 <= pbits (lAddr l) <= 32 /\ lStart l = sentAt /\
  (exists secs, OptUint32 (MOptions m) OptLeaseTime = Some secs /\ lLeaseTime l = SecondsToDuration secs) /\
  lServerID l = default AddrZero (OptAddr4 (MOptions m) OptServerID) /\
  lOptions l = MOptions m /\
  (lForcerenewNonce l = [] \/ length (lForcerenewNonce l) = ForcerenewNonceLen).

(** The fields of a lease the rest of the reading leaves alone. *)
Definition keeps (l l' : Lease) : Prop :=
  lAddr l' = lAddr l /\ lStart l' = lStart l /\ lLeaseTime l' = lLeaseTime l /\
  lServerID l' = lServerID l /\ lOptions l' = lOptions l /\ lForcerenewNonce l' = lForcerenewNonce l.

Lemma keeps_field {A} (x : option A) f l0 l : (forall l v, keeps l (f v l)) ->
  keeps l0 l -> keeps l0 (setField x f l).
Proof.
  intros Hf (?&?&?&?&?&?). destruct x as [v|]; [|done]. destruct (Hf l v) as (?&?&?&?&?&?).
  unfold keeps, setField. split_and!; congruence.
Qed.

Lemma leaseFromAck_cases m sentAt : exists r, leaseFromAck m sentAt = Ok r /\
  match r with
  | Some (l, _) => ack_lease m sentAt l
  | None => usable4 (YIAddr m) = false \/ OptUint32 (MOptions m) OptLeaseTime = None
  end.
Proof.
  unfold leaseFromAck, ack_lease, usable4. destruct (Is4 (YIAddr m)) eqn:H4; cbn [negb orb andb]; [|exists None; by eauto].
  destruct (IsUnspecified (YIAddr m)); cbn [negb]; [exists None; by eauto|].
  destruct (OptUint32 (MOptions m) OptLeaseTime) as [secs|]; [|exists None; by eauto].
  match goal with |- context [match OptAddr4 _ OptSubnetMask with _ => _ end] =>
    destruct (match OptAddr4 (MOptions m) OptSubnetMask with Some _ => _ | None => _ end) as [bits n] eqn:Ebits end.
  assert (Hbits : 0 <= bits <= 32).
  { destruct (OptAddr4 (MOptions m) OptSubnetMask) as [mask|]; [|injection Ebits as <- _; lia].
    destruct (maskBits mask) eqn:Em; injection Ebits as <- _; [|lia]. by eapply maskBits_range. }
  destruct (OptAddrs4_ok (MOptions m) OptRouter) as [r ->].
  destruct (OptAddrs4_ok (MOptions m) OptDNSServer) as [d ->]. cbn [mbind outcome_bind].
  destruct (validForcerenewNonce_ok m) as (a & -> & Ha). cbn [mbind outcome_bind].
  set (l0 := lease_zero <| lAddr := PrefixFrom (YIAddr m) bits |> <| lStart := sentAt |>
    <| lLeaseTime := SecondsToDuration secs |> <| lOptions := MOptions m |>).
  match goal with |- context [setField a _ ?l] =>
    assert (K : keeps (l0 <| lServerID := default AddrZero (OptAddr4 (MOptions m) OptServerID) |>) l);
      [|generalize dependent l] end.
  { do 6 (apply keeps_field; [done|]). by destruct (OptAddr4 (MOptions m) OptServerID). }
  intros l K.
  match goal with |- context [takeRoutes ?l ?o] => destruct (takeRoutes_ok l o) as (rs & r' & n1 & ->) end.
  cbn [mbind outcome_bind].
  match goal with |- context [takeDomainSearch ?l ?o] => destruct (takeDomainSearch_ok l o) as (ds & n2 & ->) end.
  cbn [mbind outcome_bind]. eexists. split; [done|]. cbn beta iota.
  destruct K as (K1 & K2 & K3 & K4 & K5 & K6). apply Is4_inv in H4 as [v Hv].
  destruct a as [a|]; cbn -[default]; rewrite K1, K2, K3, K4, K5, ?K6; cbn -[default]; rewrite Hv;
    (split_and!; [done|done| | |done|by exists secs|done|done|]); cbn [IsValid BitLen andb].
  all: try (destruct (Z.leb_spec 0 bits), (Z.leb_spec bits 32); cbn [andb]; lia).
  all: try (by left). all: right; apply Ha.
Qed.

(** The lease of an acknowledgement.  [leaseFromAck] always answers.  It
    refuses a message without a usable 'yiaddr' or without a lease time, and
    otherwise the lease has that address, the lease time of option 51, the
    server of option 54, the whole option map, and starts when the request was
    sent. *)
Theorem leaseFromAck_spec m sentAt : exists r, leaseFromAck m sentAt = Ok r /\
  match r with
  | Some (l, _) => ack_lease m sentAt l
  | None => usable4 (YIAddr m) = false \/ OptUint32 (MOptions m) OptLeaseTime = None
  end.
Proof. apply leaseFromAck_cases. Qed.

(** RFC 3442's supersession.  A classless route list that decodes and is not
    empty is the whole routing table of the lease: the router option is
    dropped, the static-route option is not read, and the default route, if the
    lease has one, is a route of that list. *)
Theorem takeRoutes_supersedes l o rs : ClasslessRoutes o = Ok rs -> rs <> [] ->
  exists l' n, takeRoutes l o = Ok (l', n) /\ lRoutes l' = rs /\ lRouter l' = [] /\
    forall gw, Gateway l' = Some gw -> exists r, r ∈ rs /\ IsDefault r = true /\ OnLink r = false /\ Router r = gw.
Proof.
  intros Hrs Hne. unfold takeRoutes. rewrite Hrs. cbn [catch].
  rewrite (proj2 (Nat.ltb_lt 0 (length rs))) by (destruct rs; cbn; [done|lia]).
  destruct (Nat.ltb_spec 0 (length (lRouter (l <| lRoutes := rs |>)))) as [Hr|Hr].
  all: do 2 eexists; split; [done|]; split; [done|]; split.
  1: done.
  2: { cbn in *. apply nil_length_inv. lia. }
  all: intros gw; unfold Gateway.
  2: assert (E : lRouter (l <| lRoutes := rs |>) = []) by (apply nil_length_inv; cbn in *; lia); rewrite E.
  all: cbn [lRoutes lRouter set_fld]; change (lRoutes _) with rs; change (lRouter _) with (@nil Addr);
    clear; induction rs as [|r rs IH]; [done|]; cbn [defaultRoute];
    destruct (IsDefault r) eqn:H1, (OnLink r) eqn:H2; cbn [negb andb];
    try (intros Hg; destruct (IH Hg) as (r' & Hin & H); exists r'; split; [by right|done]);
    intros [= <-]; exists r; split; [left|done].
Qed.

Lemma takeRoutes_supersedes_witness :
  let l := lease_zero <| lRouter := [AddrFrom4 [10; 0; 0; 254]] |> in
  let o : Options := {[ OptClasslessStaticRte := [0; 10; 0; 0; 1] ]} in
  exists l' n, takeRoutes l o = Ok (l', n) /\
    lRoutes l' = [mkRoute (PrefixOf (Addr4 0) 0) (AddrFrom4 [10; 0; 0; 1])] /\ lRouter l' = [] /\
    forall gw, Gateway l' = Some gw ->
      exists r, r ∈ [mkRoute (PrefixOf (Addr4 0) 0) (AddrFrom4 [10; 0; 0; 1])] /\
        IsDefault r = true /\ OnLink r = false /\ Router r = gw.
Proof. intros l o. apply takeRoutes_supersedes; [vm_compute; reflexivity | done]. Defined.
