(* ===== verification/RateLimit.v ===== *)
(** * The message rate limit (lease/ratelimit.go)

    The token bucket of RFC 9915 section 14.1: its configuration, its state, one
    [take_] per message, and what the bucket bounds. *)

From S2P Require Import Prelude Backoff.

(** ** Configuration *)

Record RateLimit := mkRateLimit { Messages : Z; Interval : Duration }.

#[global] Instance eta_RateLimit : Settable RateLimit := fun r => mkRateLimit (Messages r) (Interval r).

Definition DefaultRateLimit : RateLimit := mkRateLimit 20 (20 * Second).

(** [resolve]: the limit with its defaults, and whether it is on. *)
Definition resolve (r : RateLimit) : RateLimit * bool :=
  if Messages r <? 0 then (r, false) else
  let r := if Messages r =? 0 then r <| Messages := 20 |> else r in
  let r := if Interval r <=? 0 then r <| Interval := 20 * Second |> else r in
  (r, true).

(** ** The bucket *)

Record bucket := mkBucket {
  blimit : RateLimit;
  bon : bool;
  blevel : Duration;
  blast : Instant;
  bstarted : bool;
  brefused : Z }.

#[global] Instance eta_bucket : Settable bucket := fun b =>
  mkBucket (blimit b) (bon b) (blevel b) (blast b) (bstarted b) (brefused b).

Definition newBucket (r : RateLimit) : bucket :=
  let '(limit, on) := resolve r in mkBucket limit on 0 0 false 0.

(** [take]: the bucket after one message asked to leave at [now], and the answer. *)
Definition take_ (b : bucket) (now : Instant) : bucket * bool :=
  if negb (bon b) then (b, true) else
  let full := i64 (Messages (blimit b) * Interval (blimit b)) in
  let b :=
    if negb (bstarted b) then b <| blevel := full |> <| blast := now |> <| bstarted := true |>
    else
      let d := Sub now (blast b) in
      let b :=
        if 0 <? d then
          let b := b <| blevel := i64 (blevel b + i64 (d * Messages (blimit b))) |> in
          if full <? blevel b then b <| blevel := full |> else b
        else b in
      b <| blast := now |> in
  if blevel b <? Interval (blimit b) then (b <| brefused := u64 (brefused b + 1) |>, false)
  else (b <| blevel := i64 (blevel b - Interval (blimit b)) |>, true).

Definition Refused (b : bucket) : Z := brefused b.

(** A run of the bucket: the answers to messages asking at these instants. *)
Fixpoint takes (b : bucket) (ts : list Instant) : bucket * list bool :=
  match ts with
  | [] => (b, [])
  | t :: ts =>
    let '(b, g) := take_ b t in
    let '(b, gs) := takes b ts in (b, g :: gs)
  end.

(** How many of them may leave. *)
Fixpoint granted (gs : list bool) : Z :=
  match gs with [] => 0 | g :: gs => (if g : bool then 1 else 0) + granted gs end.

(** ** What one message costs *)

(** The clock of a run does not go back, starts no earlier than [t] and ends no
    later than [e]. *)
Fixpoint clock (t : Instant) (ts : list Instant) (e : Instant) : Prop :=
  match ts with [] => t <= e | t' :: ts => t <= t' /\ clock t' ts e end.

Lemma clock_le t ts e : clock t ts e -> t <= e.
Proof. revert t. induction ts as [|t' ts IH]; cbn; intros t; [done|]. intros [? ?%IH]. lia. Qed.

Lemma clock_weaken t ts e e' : clock t ts e -> e <= e' -> clock t ts e'.
Proof. revert t. induction ts as [|t' ts IH]; cbn; intros t; [lia|]. intros [? ?] ?. split; [done|by apply IH]. Qed.

Lemma last_cons (t d : Z) ts : List.last (t :: ts) d = List.last ts t.
Proof. revert t d. induction ts as [|t' ts IH]; intros; [done|].
  change (List.last (t' :: ts) d = List.last (t' :: ts) t). by rewrite !IH.
Qed.

Lemma clock_app t l1 l2 e : clock t (l1 ++ l2) e -> clock t l1 (List.last l1 t) /\ clock (List.last l1 t) l2 e.
Proof.
  revert t. induction l1 as [|t' l1 IH]; intros t; [cbn; split; [lia|done]|].
  rewrite last_cons. cbn. intros [? [? ?]%IH]. done.
Qed.

Section bucket.
(** The limit in force, and the time the bucket runs for: within it, no product
    of a duration and [Messages] leaves 63 bits. *)
Context (M W : Z) (t0 te : Instant).
Hypotheses (HM : 0 < M) (HW : 0 < W) (H0 : 0 <= t0 <= te) (He : te <= MaxInt64)
  (Hfit : M * W + M * (te - t0) <= MaxInt64).

Definition started (b : bucket) : Prop :=
  blimit b = mkRateLimit M W /\ bon b = true /\ bstarted b = true /\
  0 <= blevel b <= M * W /\ t0 <= blast b <= te.

Definition fresh (b : bucket) : Prop :=
  blimit b = mkRateLimit M W /\ bon b = true /\ bstarted b = false.

Definition price (g : bool) : Z := if g then W else 0.

Lemma full_range : W <= M * W <= MaxInt64 /\ MaxInt64 = 2 ^ 63 - 1.
Proof. split; [nia|done]. Qed.

Lemma full_fits : i64 (M * W) = M * W.
Proof. pose proof full_range. apply i64_id. lia. Qed.

(** The last lines of [take]: the level pays, or the message is refused. *)
Lemma pay_spec l t r : 0 <= l <= M * W -> t0 <= t <= te ->
  let b := mkBucket (mkRateLimit M W) true l t true r in
  let '(b', g) := if l <? W then (b <| brefused := u64 (r + 1) |>, false)
    else (b <| blevel := i64 (l - W) |>, true) in
  started b' /\ blast b' = t /\ blevel b' + price g = l /\ (g = false <-> l < W).
Proof.
  intros Hl Ht. pose proof full_range. cbn. unfold started, price.
  destruct (Z.ltb_spec l W); cbn; [|rewrite i64_id by lia]; repeat split; (done || lia).
Qed.

(** The bucket starts full. *)
Lemma take_fresh b t : fresh b -> t0 <= t <= te ->
  let '(b', g) := take_ b t in started b' /\ blast b' = t /\ blevel b' + price g = M * W /\ g = true.
Proof.
  destruct b as [lim on l u s r]. intros (El & Eo & Es) Ht. cbn in El, Eo, Es. subst.
  pose proof full_range as [? _].
  unfold take_. cbn. rewrite full_fits. pose proof (pay_spec (M * W) t r ltac:(lia) Ht) as P. cbn in P.
  destruct (_ <? W); [|destruct P as (? & ? & ? & _); done].
  exfalso. destruct P as (_ & _ & _ & [P _]). specialize (P eq_refl). lia.
Qed.

(** Once started, a message is paid from what the level has filled up to since
    the last one, at most the bucket's size; it is refused only if that is less
    than one message costs. *)
Lemma take_started b t : started b -> blast b <= t <= te ->
  let '(b', g) := take_ b t in
  let level := Z.min (M * W) (blevel b + M * (t - blast b)) in
  started b' /\ blast b' = t /\ blevel b' + price g = level /\ (g = false <-> level < W).
Proof.
  destruct b as [lim on l u s r]. intros (El & Eo & Es & Hl & Hu) Ht. cbn in El, Eo, Es, Hl, Hu, Ht. subst.
  pose proof full_range. unfold take_. cbn. rewrite full_fits.
  assert (HM' : 0 <= (t - u) * M <= M * (te - t0)) by nia.
  unfold Sub. rewrite (i64_id (t - u)) by lia. rewrite (i64_id (_ * M)) by lia.
  rewrite (i64_id (l + _)) by lia.
  pose proof (pay_spec (Z.min (M * W) (l + M * (t - u))) t r ltac:(lia) ltac:(lia)) as P. cbn in P.
  destruct (Z.ltb_spec 0 (t - u)) as [Hd|Hd]; cbn.
  - destruct (Z.ltb_spec (M * W) (l + (t - u) * M)); cbn.
    + replace (Z.min _ _) with (M * W) in * by lia. exact P.
    + replace (Z.min _ _) with (l + (t - u) * M) in * by lia. exact P.
  - replace (Z.min _ _) with l in * by nia. exact P.
Qed.

(** ** What the bucket bounds *)

(** A bucket in a run that has come as far as [t]. *)
Definition ready (b : bucket) (t : Instant) : Prop := fresh b \/ started b /\ blast b <= t.

Lemma take_ready b t : ready b t -> t0 <= t <= te ->
  let '(b', g) := take_ b t in started b' /\ blast b' = t /\ blevel b' + price g <= M * W /\
    (fresh b -> g = true).
Proof.
  intros [Hb|[Hb Hl]] Ht.
  - pose proof (take_fresh b t Hb Ht) as H. destruct (take_ b t). intuition lia.
  - pose proof (take_started b t Hb ltac:(lia)) as H. destruct (take_ b t) as [b' g].
    destruct H as (? & ? & H & _). split; [done|]. split; [done|]. split; [lia|].
    intros (_ & _ & F). destruct Hb as (_ & _ & S & _). congruence.
Qed.

Lemma takes_started ts : forall b, started b -> clock (blast b) ts te ->
  let '(b', gs) := takes b ts in
  started b' /\ blast b' = List.last ts (blast b) /\
  W * granted gs + blevel b' <= blevel b + M * (List.last ts (blast b) - blast b).
Proof.
  induction ts as [|t ts IH]; intros b Hb Hc; cbn [takes].
  { split; [done|]. split; [done|]. cbn. lia. }
  destruct Hc as [Ht Hc]. pose proof (clock_le _ _ _ Hc) as Hle.
  pose proof (take_started b t Hb ltac:(lia)) as Hk. destruct (take_ b t) as [b1 g].
  destruct Hk as (Hb1 & E1 & Hp & _). rewrite <- E1 in Hc. specialize (IH b1 Hb1 Hc).
  destruct (takes b1 ts) as [b2 gs]. destruct IH as (Hb2 & E2 & Hs). split; [done|].
  rewrite last_cons, <- E1. split; [done|]. cbn [granted]. unfold price in Hp. destruct g; nia.
Qed.

Lemma takes_ready ts : forall b t, ready b t -> t0 <= t -> clock t ts te ->
  ready (takes b ts).1 (List.last ts t).
Proof.
  induction ts as [|t' ts IH]; intros b t Hb Ht Hc; [done|]. destruct Hc as [Ht' Hc].
  rewrite last_cons. cbn [takes]. pose proof (clock_le _ _ _ Hc).
  assert (Hb' : ready b t') by (destruct Hb as [?|[? ?]]; [by left|right; split; [done|lia]]).
  pose proof (take_ready b t' Hb' ltac:(lia)) as Hk. destruct (take_ b t') as [b1 g].
  destruct Hk as (Hb1 & E1 & _). specialize (IH b1 t' ltac:(right; split; [done|lia]) ltac:(lia) Hc).
  by destruct (takes b1 ts).
Qed.
End bucket.

Lemma takes_app b l1 l2 :
  takes b (l1 ++ l2) =
    let '(b1, g1) := takes b l1 in let '(b2, g2) := takes b1 l2 in (b2, g1 ++ g2).
Proof.
  revert b. induction l1 as [|t l1 IH]; intros b; cbn; [by destruct (takes b l2)|].
  destruct (take_ b t) as [b' g]. rewrite IH. destruct (takes b' l1) as [b1 g1]. by destruct (takes b1 l2).
Qed.

Lemma length_takes b l : length (takes b l).2 = length l.
Proof.
  revert b. induction l as [|t l IH]; intros b; cbn; [done|]. destruct (take_ b t) as [b' g].
  specialize (IH b'). destruct (takes b' l). cbn in *. by rewrite IH.
Qed.

(** ** The bound *)

Lemma resolve_pos rl M W : resolve rl = (mkRateLimit M W, true) -> 0 < M /\ 0 < W.
Proof.
  unfold resolve, Second. destruct rl as [m i]. cbn [Messages Interval set_fld].
  destruct (Z.ltb_spec m 0); [done|]. destruct (Z.eqb_spec m 0); cbn; destruct (Z.leb_spec i 0); cbn;
    intros E; inversion E; lia.
Qed.

Lemma take_length_app {A} (l1 l2 l3 : list A) n m : length l1 = n -> length l2 = m ->
  take m (drop n (l1 ++ l2 ++ l3)) = l2.
Proof. intros <- <-. by rewrite drop_app_length, take_app_length. Qed.

(** The rate limit of RFC 9915 section 14.1.  Of the messages that ask to
    leave in any window of a run, from one asking at [t] to the last of [w], at
    most [Messages] and as many as the window's own length refills may leave;
    the first message of the run may always leave, and one that asks no
    sooner than [Interval / Messages] after the one before is never refused. *)
Theorem bucket_bound rl M W t0 te l t w r : resolve rl = (mkRateLimit M W, true) ->
  0 <= t0 -> te <= MaxInt64 -> M * W + M * (te - t0) <= MaxInt64 ->
  clock t0 (l ++ t :: w ++ r) te ->
  let gs := (takes (newBucket rl) (l ++ t :: w ++ r)).2 in
  W * granted (take (S (length w)) (drop (length l) gs)) <= M * (W + (List.last w t - t)) /\
  (l = [] -> gs !! 0%nat = Some true) /\
  (forall t' w', w = t' :: w' -> W <= M * (t' - t) -> gs !! S (length l) = Some true).
Proof.
  intros Hr H0 He Hfit Hc. destruct (resolve_pos _ _ _ Hr) as [HM HW].
  pose proof (clock_le _ _ _ Hc) as Hle. apply clock_app in Hc as [Hc1 [Ht Hc]].
  pose proof (clock_le _ _ _ Hc1). pose proof (clock_le _ _ _ Hc).
  assert (Hf : fresh M W (newBucket rl)) by (unfold newBucket; rewrite Hr; done).
  pose proof (length_takes (newBucket rl) l) as Hll.
  pose proof (takes_ready M W t0 te HM HW ltac:(lia) He Hfit l (newBucket rl) t0 ltac:(by left) ltac:(lia)
    (clock_weaken _ _ _ te Hc1 ltac:(lia))) as Hready.
  assert (Hnil : l = [] -> fresh M W (takes (newBucket rl) l).1) by (by intros ->).
  rewrite takes_app. destruct (takes (newBucket rl) l) as [b1 gl]. cbn [fst snd takes] in *.
  assert (Hready1 : ready M W t0 te b1 t) by (destruct Hready as [?|[? ?]]; [by left|right; split; [done|lia]]).
  pose proof (take_ready M W t0 te HM HW ltac:(lia) He Hfit b1 t Hready1 ltac:(lia)) as Hk1.
  destruct (take_ b1 t) as [b2 g] eqn:E1. destruct Hk1 as (Hb2 & E2 & Hp & Hg).
  apply clock_app in Hc as [Hw Hc]. pose proof (clock_le _ _ _ Hc). 
  pose proof (takes_started M W t0 te HM HW ltac:(lia) He Hfit w b2 Hb2) as Hk2.
  rewrite E2 in Hk2. specialize (Hk2 (clock_weaken _ _ _ te Hw ltac:(lia))).
  rewrite takes_app. pose proof (length_takes b2 w) as Hlw.
  destruct (takes b2 w) as [b3 gw] eqn:E3. destruct Hk2 as (Hb3 & _ & Hsum). cbn [snd] in *.
  destruct (takes b3 r) as [b4 gr]. cbn [snd].
  change (gl ++ g :: gw ++ gr) with (gl ++ (g :: gw) ++ gr). repeat split.
  - rewrite (take_length_app gl (g :: gw) gr) by (cbn; lia). cbn [granted].
    destruct Hb3 as (_ & _ & _ & ? & _). unfold price in Hp. destruct g; nia.
  - intros ->. destruct gl; [|done]. cbn. by rewrite Hg by (by apply Hnil).
  - intros t' w' -> Hd. replace (S (length l)) with (length gl + 1)%nat by lia.
    rewrite lookup_app_r, Nat.add_comm, Nat.add_sub by lia. cbn. destruct Hw as [Ht' Hw].
    pose proof (clock_le _ _ _ Hw). cbn [takes] in E3.
    pose proof (take_started M W t0 te HM HW ltac:(lia) He Hfit b2 t' Hb2 ltac:(rewrite last_cons in *; lia)) as Hk3.
    destruct (take_ b2 t') as [b5 g5]. destruct (takes b5 w'). injection E3 as _ <-. cbn.
    destruct Hk3 as (_ & _ & _ & [Hno _]). destruct g5; [done|]. specialize (Hno eq_refl).
    destruct Hb2 as (_ & _ & _ & ? & _). nia.
Qed.

(** The default, 20 messages in 20 seconds: a second of burst takes the whole
    bucket, the 21st message is refused, and a second later one may leave. *)
Lemma bucket_bound_witness :
  let l := replicate 20 0 in
  let gs := (takes (newBucket DefaultRateLimit) (l ++ 1 :: [Second] ++ [])).2 in
  20 * Second * granted (take 2 (drop 20 gs)) <= 20 * (20 * Second + (Second - 1)) /\
  gs = replicate 20 true ++ [false; true].
Proof.
  split; [|vm_compute; reflexivity].
  apply (bucket_bound DefaultRateLimit 20 (20 * Second) 0 Second (replicate 20 0) 1 [Second] []);
    [reflexivity|done|done|done|]. cbn. unfold Second. lia.
Defined.

(** ** Outside the bound *)

(** The condition on the products is not one [resolve] makes.  With 1000
    messages in 20 seconds, a client that sends once and then is silent for 107
    days finds the refill wrapped round: the message is refused, and so is every
    one it tries for the next hundred days. *)
Theorem bucket_wraps : let day := 86400 * Second in
  (takes (newBucket (mkRateLimit 1000 (20 * Second))) [0; 107 * day; 108 * day; 150 * day; 200 * day]).2 =
  [true; false; false; false; false].
Proof. vm_compute. reflexivity. Qed.
