(* ===== verification/Rings.v ===== *)
(** * The bounded recorders (runtime/packetring.go, runtime/journal.go)

    [PacketRing] and [Journal] are one ring buffer over two entry types.  It is
    modelled once, for any entry type with a zero value, and refined to its
    specification: a ring of [n] slots holds the last [n] entries. *)

From S2P Require Import Prelude.

Section ring.
Context {A : Type} (zero : A).

(** ** The ring *)

Record PacketRing := mkRing { buf : list A; next : nat; full : bool; dropped : Z }.

#[global] Instance eta_PacketRing : Settable PacketRing := fun r => mkRing (buf r) (next r) (full r) (dropped r).

Definition NewPacketRing (size : Z) : PacketRing :=
  let size := if size <? 1 then 1 else size in
  mkRing (replicate (Z.to_nat size) zero) 0 false 0.

(** [Record]; [None] where the store or the remainder is a run-time panic. *)
Definition Record_ (r : PacketRing) (p : A) : option PacketRing :=
  let r := if full r then r <| dropped := i64 (dropped r + 1) |> else r in
  if (length (buf r) <=? next r)%nat then None else
  let r := r <| buf := <[next r := p]> (buf r) |> in
  let r := r <| next := ((next r + 1) mod length (buf r))%nat |> in
  Some (if (next r =? 0)%nat then r <| full := true |> else r).

(** [Packets]; [None] where a slice expression is out of range. *)
Definition Packets (r : PacketRing) : option (list A) :=
  if (length (buf r) <? next r)%nat then None else
  let out := if full r then drop (next r) (buf r) else [] in
  Some (out ++ take (next r) (buf r)).

Definition Dropped (r : PacketRing) : Z := dropped r.

(** [Journal]'s operations, line by line those of [PacketRing]. *)
Definition NewJournal (size : Z) : PacketRing := NewPacketRing size.
Definition Append (j : PacketRing) (e : A) : option PacketRing := Record_ j e.
Definition Entries (j : PacketRing) : option (list A) := Packets j.

Definition DefaultPacketRingSize : Z := 256.
Definition DefaultJournalSize : Z := 4096.

Fixpoint records (r : PacketRing) (ps : list A) : option PacketRing :=
  match ps with
  | [] => Some r
  | p :: ps => r' ← Record_ r p; records r' ps
  end.

(** ** What it implements *)

(** The last [n] entries. *)
Definition lastn (n : nat) (ps : list A) : list A := drop (length ps - n) ps.

(** [r] is a ring of [n] slots after [ps]. *)
Definition holds_last (n : nat) (ps : list A) (r : PacketRing) : Prop :=
  length (buf r) = n /\ (next r < n)%nat /\
  dropped r = i64 (Z.max 0 (Z.of_nat (length ps) - Z.of_nat n)) /\
  if full r then (n <= length ps)%nat /\ drop (next r) (buf r) ++ take (next r) (buf r) = lastn n ps
  else next r = length ps /\ take (next r) (buf r) = ps.

Lemma NewPacketRing_holds size : holds_last (Z.to_nat (Z.max 1 size)) [] (NewPacketRing size).
Proof.
  unfold holds_last, NewPacketRing. cbn -[Z.max]. rewrite length_replicate.
  replace (if size <? 1 then 1 else size) with (Z.max 1 size) by (destruct (Z.ltb_spec size 1); lia).
  repeat split; [lia|]. rewrite Z.max_l by lia. done.
Qed.

Lemma take_store (l : list A) i p : (i < length l)%nat -> take (i + 1) (<[i:=p]> l) = take i l ++ [p].
Proof.
  intros H. rewrite Nat.add_1_r. rewrite (take_S_r _ _ p) by (by apply list_lookup_insert_eq).
  by rewrite take_insert_ge by lia.
Qed.

Lemma lastn_snoc n ps p : (n <= length ps)%nat -> (0 < n)%nat ->
  lastn n (ps ++ [p]) = tail (lastn n ps) ++ [p].
Proof.
  intros H Hn. unfold lastn. rewrite length_app. cbn [length].
  replace (length ps + 1 - n)%nat with (S (length ps - n)) by lia.
  rewrite drop_app_le by lia. f_equal. 
  destruct (drop (length ps - n) ps) as [|x l] eqn:E.
  { apply (f_equal length) in E. rewrite length_drop in E. cbn in E. lia. }
  rewrite <- Nat.add_1_r, <- drop_drop, E. done.
Qed.

Lemma i64_succ z : i64 (i64 z + 1) = i64 (z + 1).
Proof. unfold i64. rewrite <- !(Z.add_comm (2 ^ 63)). f_equal. 
  replace (2 ^ 63 + ((2 ^ 63 + z) mod 2 ^ 64 - 2 ^ 63 + 1)) with ((2 ^ 63 + z) mod 2 ^ 64 + 1) by lia.
  rewrite Zplus_mod_idemp_l. f_equal. lia.
Qed.

(** The slot index after a store: one further, or back at the start. *)
Lemma next_slot i n : (i < n)%nat -> ((i + 1) mod n = if i + 1 =? n then 0 else i + 1)%nat.
Proof.
  intros H. destruct (Nat.eqb_spec (i + 1) n) as [->|]; [apply Nat.Div0.mod_same|].
  apply Nat.mod_small. lia.
Qed.

Lemma Record_eq b i f d p : (i < length b)%nat ->
  Record_ (mkRing b i f d) p =
    Some (let wraps := (i + 1 =? length b)%nat in
      mkRing (<[i:=p]> b) (if wraps then 0%nat else (i + 1)%nat) (f || wraps) (if f then i64 (d + 1) else d)).
Proof.
  intros H. unfold Record_. destruct f; cbn; rewrite (proj2 (Nat.leb_gt _ _) H); cbn;
    rewrite length_insert, next_slot by done;
    destruct (Nat.eqb_spec (i + 1) (length b)); cbn; rewrite ?Nat.add_1_r; done.
Qed.

Lemma Record_holds n ps r p : holds_last n ps r ->
  exists r', Record_ r p = Some r' /\ holds_last n (ps ++ [p]) r'.
Proof.
  destruct r as [b i f d]. intros (Hl & Hi & Hd & Hb). cbn in Hl, Hi, Hd, Hb. subst n.
  rewrite Record_eq by done. eexists. split; [done|].
  assert (Hlen : length (ps ++ [p]) = S (length ps)) by (rewrite length_app; cbn; lia).
  pose proof (take_store b i p Hi) as Ht.
  unfold holds_last. cbn. rewrite Hlen, length_insert. split; [done|].
  split; [destruct (Nat.eqb_spec (i + 1) (length b)); lia|]. destruct f; cbn.
  - destruct Hb as [Hn Hb]. split; [rewrite Hd, i64_succ; f_equal; lia|]. split; [lia|].
    assert (Hf : drop (i + 1) (<[i:=p]> b) ++ take (i + 1) (<[i:=p]> b) = lastn (length b) (ps ++ [p])).
    { rewrite Ht, drop_insert_lt, lastn_snoc, <- Hb by lia.
      destruct (drop i b) as [|x l] eqn:E.
      { apply (f_equal length) in E. rewrite length_drop in E. cbn in E. lia. }
      rewrite <- drop_drop, E. cbn. by rewrite app_assoc. }
    destruct (Nat.eqb_spec (i + 1) (length b)) as [Ei|]; [|done].
    rewrite drop_0, take_0, app_nil_r, <- Hf, drop_ge, take_ge by (rewrite length_insert; lia). done.
  - destruct Hb as [-> Hb]. rewrite Hb in Ht. split.
    { rewrite Hd. f_equal. lia. }
    destruct (Nat.eqb_spec (length ps + 1) (length b)) as [Ei|]; cbn.
    + split; [lia|]. rewrite take_0, app_nil_r. rewrite take_ge in Ht by (rewrite length_insert; lia).
      rewrite Ht. unfold lastn. rewrite Hlen. by replace (S (length ps) - length b)%nat with 0%nat by lia.
    + split; [lia|]. done.
Qed.

Lemma records_hold ps : forall n qs r, holds_last n qs r ->
  exists r', records r ps = Some r' /\ holds_last n (qs ++ ps) r'.
Proof.
  induction ps as [|p ps IH]; intros n qs r H; cbn [records].
  { exists r. by rewrite app_nil_r. }
  destruct (Record_holds _ _ _ p H) as (r1 & -> & H1). cbn [mbind option_bind].
  destruct (IH _ _ _ H1) as (r2 & -> & H2). exists r2. by rewrite <- app_assoc in H2.
Qed.

(** A ring is its last entries.  Whatever is recorded into a ring made for
    [size] entries, no store or slice is out of range, the ring answers the last
    max(1, size) entries in the order they came, and it counts exactly the
    others as dropped: a recorder that has dropped none holds everything. *)
Theorem ring_last size ps :
  let n := Z.max 1 size in
  exists r, records (NewPacketRing size) ps = Some r /\
    Packets r = Some (lastn (Z.to_nat n) ps) /\
    Dropped r = i64 (Z.max 0 (Z.of_nat (length ps) - n)).
Proof.
  intros n. destruct (records_hold ps _ [] _ (NewPacketRing_holds size)) as (r & Hr & Hl & Hi & Hd & Hb).
  exists r. split; [done|]. cbn [app] in *. split; [|unfold Dropped; rewrite Hd; do 2 f_equal; lia].
  unfold Packets. rewrite (proj2 (Nat.ltb_ge _ _)) by lia. f_equal. destruct (full r).
  - exact (proj2 Hb).
  - destruct Hb as [Hn Hb]. cbn. rewrite Hb. unfold lastn. by replace (length ps - _)%nat with 0%nat by lia.
Qed.
End ring.
