(* ===== verification/IpUdp.v ===== *)
(** * The IPv4 and UDP headers (runtime/ipudp.go)

    The frames the packet transport sends and reads: [BuildIPv4UDP],
    [ParseIPv4UDP] with every refusal, and the checksums of RFC 1071 and RFC 768
    with the three states a received checksum field can be in. *)

From S2P Require Import Prelude NetAddr Options.

Definition ClientPort : Z := 68.
Definition ServerPort : Z := 67.
Definition ipv4HeaderLen : nat := 20.
Definition udpHeaderLen : nat := 8.
Definition protoUDP : Z := 17.
Definition ipv4Version : Z := 4.

(** The sentinel errors, and [BuildIPv4UDP]'s error without one. *)
Inductive FrameErr :=
| ErrNotIPv4 | ErrNotUDP | ErrShortFrame | ErrWrongPort | ErrFragmented | ErrBadChecksum | ErrPayloadShort
| ErrDatagramTooLong.

#[global] Instance FrameErr_eq_dec : EqDecision FrameErr.
Proof. solve_decision. Defined.

Abbreviation framed A := (outcome FrameErr A) (only parsing).

(** ** Checksums *)

(** The loop over whole words and the odd octet behind it. *)
Fixpoint sumWords (b : bytes) (sum : Z) : Z :=
  match b with
  | hi :: lo :: b => sumWords b (u32 (sum + Z.lor (Z.shiftl hi 8) lo))
  | [hi] => u32 (sum + u32 (Z.shiftl hi 8))
  | [] => sum
  end.

(** [for sum>>16 != 0]; three turns are enough for any [uint32]
    ([foldCarries_spec]). *)
Fixpoint foldCarries (fuel : nat) (sum : Z) : Z :=
  match fuel with
  | O => sum
  | S fuel =>
    if Z.shiftr sum 16 =? 0 then sum
    else foldCarries fuel (u32 (Z.land sum 0xFFFF + Z.shiftr sum 16))
  end.

Definition sum16 (b : bytes) (sum : Z) : Z := u16 (foldCarries 3 (sumWords b sum)).

(** [^] on a [uint16]. *)
Definition not16 (v : Z) : Z := u16 (Z.lnot v).

Definition checksum (b : bytes) : Z := not16 (sum16 b 0).

(** [src] and [dst] are [[4]byte]. *)
Definition pseudoBase (src dst : bytes) (ulen : Z) : framed Z :=
  s0 ← slice src 0 2; s0 ← ube16 s0;
  s1 ← slice src 2 4; s1 ← ube16 s1;
  d0 ← slice dst 0 2; d0 ← ube16 d0;
  d1 ← slice dst 2 4; d1 ← ube16 d1;
  let sum := u32 (u32 (u32 (s0 + s1) + d0) + d1) in
  Ok (u32 (u32 (sum + protoUDP) + u32 ulen)).

Definition pseudoSum (src dst u : bytes) : framed Z :=
  base ← pseudoBase src dst (Z.of_nat (length u)); Ok (sum16 u base).

Definition pseudoHeaderSum (src dst : bytes) (ulen : Z) : framed Z :=
  base ← pseudoBase src dst ulen; Ok (sum16 [] base).

Definition udpChecksum (src dst u : bytes) : framed Z :=
  s ← pseudoSum src dst u;
  let c := not16 s in
  Ok (if c =? 0 then 0xFFFF else c).

Definition udpChecksumVerify (src dst u : bytes) : framed Z :=
  s ← pseudoSum src dst u; Ok (not16 s).

Inductive ChecksumState := ChecksumVerified | ChecksumAbsent | ChecksumUncompleted.

#[global] Instance ChecksumState_eq_dec : EqDecision ChecksumState.
Proof. solve_decision. Defined.

Definition Verified (c : ChecksumState) : bool := bool_decide (c = ChecksumVerified).

Definition acceptUDPChecksum (src dst u : bytes) : framed (ChecksumState * bool) :=
  got ← slice u 6 8; got ← ube16 got;
  if got =? 0 then Ok (ChecksumAbsent, true) else
  v ← udpChecksumVerify src dst u;
  if v =? 0 then Ok (ChecksumVerified, true) else
  p ← pseudoHeaderSum src dst (Z.of_nat (length u));
  if got =? p then Ok (ChecksumUncompleted, true) else Ok (ChecksumVerified, false).

(** ** Frames *)

(** The two headers with a checksum in place. *)
Definition ipv4Header (total ident ttl cs : Z) (s4 d4 : bytes) : bytes :=
  [Z.lor (Z.shiftl ipv4Version 4) (Z.of_nat ipv4HeaderLen / 4); 0]
  ++ be16 (u16 total) ++ be16 ident ++ be16 0 ++ [ttl; protoUDP] ++ be16 cs ++ s4 ++ d4.

Definition udpDatagram (sport dport cs : Z) (payload : bytes) : bytes :=
  be16 sport ++ be16 dport ++ be16 (u16 (Z.of_nat (udpHeaderLen + length payload))) ++ be16 cs ++ payload.

Definition BuildIPv4UDP (src dst : Addr) (sport dport ident ttl : Z) (payload : bytes) : framed bytes :=
  if negb (Is4 src) || negb (Is4 dst) then Err ErrNotIPv4 else
  let total := (ipv4HeaderLen + udpHeaderLen + length payload)%nat in
  if 0xFFFF <? Z.of_nat total then Err ErrDatagramTooLong else
  match As4 src, As4 dst with
  | Some s4, Some d4 =>
    let header := fun cs => ipv4Header (Z.of_nat total) ident ttl cs s4 d4 in
    let u := fun cs => udpDatagram sport dport cs payload in
    cs ← udpChecksum s4 d4 (u 0);
    Ok (header (checksum (header 0)) ++ u cs)
  | _, _ => Panic
  end.

Record Datagram := mkDatagram {
  DPayload : bytes; DgSrc : Addr; DgDst : Addr; DChecksum : ChecksumState }.

Definition ParseIPv4UDP (frame : bytes) : framed Datagram :=
  if (length frame <? ipv4HeaderLen)%nat then Err ErrShortFrame else
  b0 ← idx frame 0;
  if negb (Z.shiftr b0 4 =? ipv4Version) then Err ErrNotIPv4 else
  let ihl := Z.to_nat (Z.land b0 0x0F * 4) in
  if ((ihl <? ipv4HeaderLen) || (length frame <? ihl))%nat then Err ErrShortFrame else
  b9 ← idx frame 9;
  if negb (b9 =? protoUDP) then Err ErrNotUDP else
  b6 ← idx frame 6;
  b7 ← idx frame 7;
  if negb (Z.land b6 0x20 =? 0) || negb (Z.lor (u16 (Z.shiftl (Z.land b6 0x1F) 8)) b7 =? 0)
    then Err ErrFragmented else
  h ← slice frame 0 ihl;
  if negb (checksum h =? 0) then Err ErrBadChecksum else
  t ← slice frame 2 4; total ← ube16 t;
  let total := Z.to_nat total in
  if ((total <? ihl) || (length frame <? total))%nat then Err ErrShortFrame else
  u ← slice frame ihl total;
  if (length u <? udpHeaderLen)%nat then Err ErrShortFrame else
  p ← slice u 2 4; port ← ube16 p;
  if negb (port =? ClientPort) then Err ErrWrongPort else
  l ← slice u 4 6; ulen ← ube16 l;
  let ulen := Z.to_nat ulen in
  if ((ulen <? udpHeaderLen) || (length u <? ulen))%nat then Err ErrPayloadShort else
  u ← slice u 0 ulen;
  s4 ← slice frame 12 16;
  d4 ← slice frame 16 20;
  r ← acceptUDPChecksum s4 d4 u;
  let '(state, ok) := r in
  if negb ok then Err ErrBadChecksum else
  payload ← slice u udpHeaderLen (length u);
  Ok (mkDatagram payload (AddrFrom4 s4) (AddrFrom4 d4) state).

(** A DHCPOFFER's worth of framing, read back; and the same frame with one
    payload octet changed. *)
Definition sample_frame : bytes :=
  match BuildIPv4UDP (AddrFrom4 [192; 168; 0; 1]) addr_broadcast ServerPort ClientPort 7 64 [2; 1; 6; 0; 57] with
  | Ok b => b
  | _ => []
  end.

Example sample_frame_reads :
  ParseIPv4UDP (sample_frame ++ [0; 0; 0]) =
    Ok (mkDatagram [2; 1; 6; 0; 57] (AddrFrom4 [192; 168; 0; 1]) addr_broadcast ChecksumVerified).
Proof. vm_compute. reflexivity. Qed.

Example sample_frame_corrupt : ParseIPv4UDP (<[29%nat := 9]> sample_frame) = Err ErrBadChecksum.
Proof. vm_compute. reflexivity. Qed.

(** ** One's-complement sums *)

(** The plain sum of the 16-bit words, and its residue in 1 .. 65535 (0 for an
    empty sum): what folding the carries computes. *)
Fixpoint words (b : bytes) : Z :=
  match b with
  | hi :: lo :: b => hi * 256 + lo + words b
  | [hi] => hi * 256
  | [] => 0
  end.

Definition ones (n : Z) : Z := if n =? 0 then 0 else (n - 1) mod 65535 + 1.

(** Induction two octets at a time. *)
Lemma words_ind (P : bytes -> Prop) : P [] -> (forall x, P [x]) ->
  (forall x y l, P l -> P (x :: y :: l)) -> forall l, P l.
Proof.
  intros H0 H1 H2. fix IH 1. intros [|x [|y l]]; [done|done|]. apply H2, IH.
Qed.

Lemma words_bound b : are_bytes b -> 0 <= words b <= 32768 * (Z.of_nat (length b) + 1).
Proof.
  induction b as [|x|x y l IH] using words_ind; cbn [words length]; rewrite ?are_bytes_cons; [lia|lia|].
  intros (? & ? & Hl). specialize (IH Hl). lia.
Qed.

Lemma sumWords_ok b : forall sum, are_bytes b -> 0 <= sum -> sum + words b < 2 ^ 32 ->
  sumWords b sum = sum + words b.
Proof.
  induction b as [|x|x y l IH] using words_ind; intros sum; cbn [words sumWords]; rewrite ?are_bytes_cons.
  - lia.
  - intros [? _] ? ?. rewrite Z.shiftl_mul_pow2 by lia. rewrite (u32_id (x * 2 ^ 8)), u32_id by lia. lia.
  - intros (? & ? & Hl) ? ?. pose proof (words_bound l Hl). rewrite lor_shiftl_add by lia.
    rewrite u32_id by lia. rewrite IH by (done || lia). lia.
Qed.

Lemma foldCarries_spec s : 0 <= s < 2 ^ 32 -> foldCarries 3 s = ones s.
Proof.
  intros Hs. assert (Hstep : forall f s, 0 <= s < 2 ^ 32 ->
    foldCarries (S f) s = if s <? 65536 then s else foldCarries f (s mod 65536 + s / 65536)).
  { intros f z Hz. cbn [foldCarries]. rewrite Z.shiftr_div_pow2 by lia.
    change 0xFFFF with (Z.ones 16). rewrite Z.land_ones by lia. zpow.
    rewrite u32_id by (zpow; lia_mod).
    destruct (Z.eqb_spec (z / 65536) 0), (Z.ltb_spec z 65536); try done; lia_mod. }
  unfold ones. rewrite Hstep by done. destruct (Z.ltb_spec s 65536).
  { destruct (Z.eqb_spec s 0); [done|]. rewrite Z.mod_small; lia. }
  zpow. assert (0 <= s mod 65536 + s / 65536 <= 131070) by lia_mod.
  rewrite Hstep by (zpow; lia). destruct (Z.eqb_spec s 0); [lia|].
  destruct (Z.ltb_spec (s mod 65536 + s / 65536) 65536); [lia_mod|].
  assert (Ht : exists q, s = 65535 * q + (s mod 65536 + s / 65536)) by (exists (s / 65536); lia_mod).
  revert Ht H0 H1. generalize (s mod 65536 + s / 65536). intros t [q ->] Ht1 Ht2.
  assert (Hu : t mod 65536 + t / 65536 = t - 65535) by lia_mod.
  rewrite Hu, Hstep by (zpow; lia). destruct (Z.ltb_spec (t - 65535) 65536); lia_mod.
Qed.

Lemma ones_range n : 0 <= n -> 0 <= ones n <= 65535.
Proof. intros. unfold ones. destruct (Z.eqb_spec n 0); [lia|]. lia_mod. Qed.

Lemma sum16_ok b sum : are_bytes b -> 0 <= sum -> sum + words b < 2 ^ 32 -> sum16 b sum = ones (sum + words b).
Proof.
  intros Hb Hs H. pose proof (words_bound b Hb). unfold sum16. rewrite sumWords_ok, foldCarries_spec by (done || lia).
  apply u16_id. pose proof (ones_range (sum + words b)). lia.
Qed.

Lemma not16_ok v : 0 <= v <= 65535 -> not16 v = 65535 - v.
Proof. intros. unfold not16, Z.lnot, u16. lia_mod. Qed.

(** Adding the complement of a sum makes it sum to all ones. *)
Lemma ones_completed n c : 0 < n -> c = 65535 - ones n \/ c = 65535 /\ ones n = 65535 -> ones (n + c) = 65535.
Proof.
  unfold ones. destruct (Z.eqb_spec n 0); [lia|]. intros Hn Hc.
  destruct (Z.eqb_spec (n + c) 0); [lia_mod|].
  assert (H : (n + c) mod 65535 = 0) by lia_mod. lia_mod.
Qed.

(** ** Building and reading back *)

Lemma word_be16 v : 0 <= v < 65536 -> u8 (Z.shiftr v 8) * 256 + u8 v = v.
Proof. intros. unfold u8. rewrite Z.shiftr_div_pow2 by lia. zpow. lia_mod. Qed.

Lemma ube16_pair {E} a b : 0 <= a < 256 -> 0 <= b < 256 -> @ube16 E [a; b] = Ok (a * 256 + b).
Proof. intros. cbn. f_equal. apply lor_shiftl_add; lia. Qed.

Lemma pseudoBase_ok s d ulen : 0 <= ulen < 65536 ->
  pseudoBase (octets4 s) (octets4 d) ulen = Ok (words (octets4 s) + words (octets4 d) + 17 + ulen).
Proof.
  intros Hu. pose proof (octets4_bytes s) as Hs. pose proof (octets4_bytes d) as Hd. unfold octets4 in *.
  repeat rewrite are_bytes_cons in *. destruct Hs as (? & ? & ? & ? & _), Hd as (? & ? & ? & ? & _).
  unfold pseudoBase, protoUDP. cbn [slice length Nat.leb andb take drop Nat.sub mbind outcome_bind words].
  rewrite !ube16_pair by done. cbn [mbind outcome_bind]. f_equal.
  repeat match goal with |- context [u32 ?x] =>
    lazymatch x with context [u32] => fail | context [u8] => idtac | _ => idtac end; rewrite (u32_id x) by (zpow; lia) end.
  lia.
Qed.

(** The checksum field is a word of its own. *)
Lemma ipv4Header_words total ident ttl cs s d : 0 <= cs < 65536 ->
  words (ipv4Header total ident ttl cs (octets4 s) (octets4 d)) =
  words (ipv4Header total ident ttl 0 (octets4 s) (octets4 d)) + cs.
Proof.
  intros H. pose proof (word_be16 cs H). unfold ipv4Header, octets4, be16. cbn [words app].
  change (u8 (Z.shiftr 0 8) * 256 + u8 0) with 0. lia.
Qed.

Lemma udpDatagram_words sport dport cs payload : 0 <= cs < 65536 ->
  words (udpDatagram sport dport cs payload) = words (udpDatagram sport dport 0 payload) + cs.
Proof.
  intros H. pose proof (word_be16 cs H). unfold udpDatagram, be16. cbn [words app].
  change (u8 (Z.shiftr 0 8) * 256 + u8 0) with 0. lia.
Qed.

Lemma ipv4Header_bytes total ident ttl cs s d : 0 <= ttl < 256 ->
  are_bytes (ipv4Header total ident ttl cs (octets4 s) (octets4 d)).
Proof.
  intros. unfold ipv4Header. repeat rewrite are_bytes_app.
  repeat split; try apply be16_bytes; try apply octets4_bytes; repeat constructor; done || lia.
Qed.

Lemma udpDatagram_bytes sport dport cs payload : are_bytes payload ->
  are_bytes (udpDatagram sport dport cs payload).
Proof. intros. unfold udpDatagram. repeat rewrite are_bytes_app. repeat split; (apply be16_bytes || done). Qed.

Lemma length_udpDatagram sport dport cs payload :
  length (udpDatagram sport dport cs payload) = (8 + length payload)%nat.
Proof. done. Qed.

(** A block with its checksum put into its checksum field sums to all ones, over
    any pseudo-header. *)
Lemma completed (f : Z -> bytes) base : (forall cs, are_bytes (f cs)) ->
  (forall cs, 0 <= cs < 65536 -> words (f cs) = words (f 0) + cs) ->
  0 <= base -> 0 < base + words (f 0) -> base + words (f 0) + 65535 < 2 ^ 32 ->
  let c := not16 (sum16 (f 0) base) in
  0 <= c < 65536 /\ sum16 (f c) base = 65535 /\ (c = 0 -> sum16 (f 65535) base = 65535).
Proof.
  intros Hb Hw H0 Hpos Hfit c.
  assert (Hs : forall cs, 0 <= cs < 65536 -> sum16 (f cs) base = ones (base + words (f 0) + cs)).
  { intros cs Hcs. specialize (Hw cs Hcs). rewrite sum16_ok by (try apply Hb; lia). f_equal. lia. }
  pose proof (ones_range (base + words (f 0)) ltac:(lia)) as Hr.
  assert (Hc : c = 65535 - ones (base + words (f 0))).
  { unfold c. rewrite Hs, Z.add_0_r by lia. by apply not16_ok. }
  split; [lia|]. split; [rewrite Hs by lia|intros Hz; rewrite Hs by lia]; apply ones_completed; lia.
Qed.

Lemma words_ge x y l : are_bytes (x :: y :: l) -> x * 256 <= words (x :: y :: l).
Proof. repeat rewrite are_bytes_cons. intros (? & ? & Hl). apply words_bound in Hl. cbn. lia. Qed.

(** A built header sums to all ones. *)
Lemma header_checks total ident ttl s d : 0 <= ttl < 256 ->
  let header cs := ipv4Header total ident ttl cs (octets4 s) (octets4 d) in
  0 <= checksum (header 0) < 65536 /\ checksum (header (checksum (header 0))) = 0.
Proof.
  intros Ht header. pose proof (fun cs => ipv4Header_bytes total ident ttl cs s d Ht) as Hb.
  pose proof (words_bound _ (Hb 0)) as Hw.
  assert (Hge : 69 * 256 <= words (ipv4Header total ident ttl 0 (octets4 s) (octets4 d))) by apply words_ge, Hb.
  change (length (ipv4Header total ident ttl 0 (octets4 s) (octets4 d))) with 20%nat in Hw.
  destruct (completed header 0 Hb (fun cs => ipv4Header_words total ident ttl cs s d)) as (Hc & Hs & _);
    unfold header in *; [lia..|].
  unfold checksum. split; [done|]. by rewrite Hs.
Qed.

Lemma words_octets4 s : 0 <= words (octets4 s) <= 163840.
Proof. pose proof (words_bound _ (octets4_bytes s)). rewrite length_octets4 in *. lia. Qed.

(** A built datagram sums to all ones, and its field is never the zero that
    means "not computed". *)
Lemma udp_checks s d sport dport payload : are_bytes payload -> Z.of_nat (length payload) < 65528 ->
  let u cs := udpDatagram sport dport cs payload in
  exists cs, udpChecksum (octets4 s) (octets4 d) (u 0) = Ok cs /\ 0 < cs < 65536 /\
    udpChecksumVerify (octets4 s) (octets4 d) (u cs) = Ok 0.
Proof.
  intros Hp Hn u. pose proof (fun cs => udpDatagram_bytes sport dport cs payload Hp) as Hb.
  set (base := words (octets4 s) + words (octets4 d) + 17 + Z.of_nat (8 + length payload)).
  assert (Hs : forall cs, pseudoSum (octets4 s) (octets4 d) (u cs) = Ok (sum16 (u cs) base)).
  { intros cs. unfold pseudoSum, u. rewrite length_udpDatagram, pseudoBase_ok by lia. done. }
  pose proof (words_octets4 s). pose proof (words_octets4 d).
  pose proof (words_bound _ (Hb 0)) as Hw. rewrite length_udpDatagram in Hw.
  destruct (completed u base Hb (fun cs => udpDatagram_words sport dport cs payload)) as (Hc & Hok & Hz);
    unfold u, base in *; [lia..|].
  set (c := not16 _) in *. unfold udpChecksum, udpChecksumVerify.
  exists (if c =? 0 then 65535 else c). rewrite !Hs. cbn [mbind outcome_bind]. fold c.
  destruct (Z.eqb_spec c 0) as [Ez|]; rewrite ?Ez; (split; [done|]); (split; [lia|]).
  - by rewrite (Hz Ez).
  - by rewrite Hok.
Qed.

Lemma be16_read {E} v : 0 <= v < 65536 -> @ube16 E (be16 v) = Ok v.
Proof. intros. exact (ube16_be16 v [] H). Qed.

(** Where the fields of a built frame stand. *)
Lemma frame_fields (total ident ttl cs s d : Z) (u pad : bytes) :
  let hdr := ipv4Header total ident ttl cs (octets4 s) (octets4 d) in
  let F := hdr ++ u ++ pad in
  @idx FrameErr F 0 = Ok 69 /\ @idx FrameErr F 9 = Ok 17 /\ @idx FrameErr F 6 = Ok 0 /\ @idx FrameErr F 7 = Ok 0 /\
  @slice FrameErr F 0 20 = Ok hdr /\ @slice FrameErr F 2 4 = Ok (be16 (u16 total)) /\
  @slice FrameErr F 20 (20 + length u) = Ok u /\
  @slice FrameErr F 12 16 = Ok (octets4 s) /\ @slice FrameErr F 16 20 = Ok (octets4 d).
Proof.
  intros hdr F. repeat (apply conj); try reflexivity. by apply slice_app.
Qed.

Lemma datagram_fields sport dport cs payload :
  let u := udpDatagram sport dport cs payload in
  @slice FrameErr u 2 4 = Ok (be16 dport) /\
  @slice FrameErr u 4 6 = Ok (be16 (u16 (Z.of_nat (8 + length payload)))) /\
  @slice FrameErr u 6 8 = Ok (be16 cs) /\
  @slice FrameErr u 0 (8 + length payload) = Ok u /\
  @slice FrameErr u 8 (8 + length payload) = Ok payload.
Proof.
  intros u.
  assert (Su : forall i j v (l1 l2 : bytes), u = l1 ++ v ++ l2 -> i = length l1 -> j = (length l1 + length v)%nat ->
    @slice FrameErr u i j = Ok v) by (intros i j v l1 l2 ->; apply slice_app).
  split; [|split; [|split; [|split]]].
  - by apply (Su _ _ (be16 dport) (take 2 u) (drop 4 u)).
  - by apply (Su _ _ (be16 (u16 (Z.of_nat (8 + length payload)))) (take 4 u) (drop 6 u)).
  - by apply (Su _ _ (be16 cs) (take 6 u) payload).
  - apply (Su _ _ u [] []); by rewrite ?app_nil_r.
  - apply (Su _ _ payload (take 8 u) []); by rewrite ?app_nil_r.
Qed.

(** A frame this side builds is a frame this side reads.  What
    [BuildIPv4UDP] makes of a payload for the client port, padded with any
    octets behind it, is read back with its addresses and its payload, and its
    checksum verifies: it is never reported as absent or uncompleted. *)
Theorem ParseIPv4UDP_Build s d sport ident ttl payload b pad :
  0 <= s < 2 ^ 32 -> 0 <= d < 2 ^ 32 -> 0 <= ttl < 256 -> are_bytes payload ->
  BuildIPv4UDP (Addr4 s) (Addr4 d) sport ClientPort ident ttl payload = Ok b ->
  ParseIPv4UDP (b ++ pad) = Ok (mkDatagram payload (Addr4 s) (Addr4 d) ChecksumVerified).
Proof.
  intros Hs Hd Ht Hp. unfold BuildIPv4UDP. cbn [Is4 negb orb As4].
  destruct (Z.ltb_spec 65535 (Z.of_nat (ipv4HeaderLen + udpHeaderLen + length payload))) as [|Hlen]; [done|].
  unfold ipv4HeaderLen, udpHeaderLen in Hlen.
  destruct (udp_checks s d sport ClientPort payload Hp ltac:(lia)) as (cs & -> & Hcs & Hv).
  set (total := Z.of_nat _). assert (Htotal : total = Z.of_nat (28 + length payload)) by done. clearbody total.
  cbn [mbind outcome_bind]. destruct (header_checks total ident ttl s d Ht) as [Hh Hok].
  set (hc := checksum (ipv4Header total ident ttl 0 _ _)) in *. clearbody hc. intros Eb.
  apply (f_equal (fun o => match o with Ok x => x | _ => [] end)) in Eb. rewrite <- Eb, <- app_assoc. clear b Eb.
  pose proof (frame_fields total ident ttl hc s d (udpDatagram sport ClientPort cs payload) pad) as HF.
  pose proof (datagram_fields sport ClientPort cs payload) as HU.
  pose proof (length_udpDatagram sport ClientPort cs payload) as Hlu. cbv zeta in HF, HU.
  set (u := udpDatagram sport ClientPort cs payload) in *. clearbody u.
  assert (HlF : length (ipv4Header total ident ttl hc (octets4 s) (octets4 d) ++ u ++ pad)
    = (20 + (8 + length payload + length pad))%nat) by (rewrite !length_app, Hlu; done).
  set (hdr := ipv4Header total ident ttl hc (octets4 s) (octets4 d)) in *. clearbody hdr.
  set (F := hdr ++ u ++ pad) in *. clearbody F. rewrite Hlu in HF.
  destruct HF as (I0 & I9 & I6 & I7 & S0 & S2 & Su & S12 & S16), HU as (U2 & U4 & U6 & Ua & Up).
  unfold ParseIPv4UDP, ipv4HeaderLen, udpHeaderLen.
  rewrite HlF, (proj2 (Nat.ltb_ge _ _)), I0 by lia. cbn [mbind outcome_bind].
  change (Z.shiftr 69 4 =? ipv4Version) with true. change (Z.to_nat (Z.land 69 15 * 4)) with 20%nat.
  cbn [negb]. rewrite !(proj2 (Nat.ltb_ge _ _)), I9, I6, I7 by lia. cbn [orb mbind outcome_bind].
  change (negb (17 =? protoUDP)) with false. change (negb (Z.land 0 32 =? 0) || _) with false. cbv iota.
  rewrite S0. cbn [mbind outcome_bind]. rewrite Hok, S2, u16_id by lia. cbn [Z.eqb negb mbind outcome_bind].
  rewrite be16_read by lia. cbn [mbind outcome_bind]. rewrite Htotal, Nat2Z.id.
  rewrite !(proj2 (Nat.ltb_ge _ _)) by lia. cbn [orb].
  change (28 + length payload)%nat with (20 + (8 + length payload))%nat. rewrite Su.
  cbn [mbind outcome_bind]. rewrite Hlu, (proj2 (Nat.ltb_ge _ _)), U2, U4 by lia.
  cbn [mbind outcome_bind]. rewrite u16_id, (be16_read ClientPort), be16_read by (unfold ClientPort; lia).
  cbn [mbind outcome_bind]. change (negb (ClientPort =? ClientPort)) with false. cbv iota.
  rewrite Nat2Z.id, !(proj2 (Nat.ltb_ge _ _)), Ua, S12, S16 by lia. cbn [orb mbind outcome_bind].
  unfold acceptUDPChecksum. rewrite U6. cbn [mbind outcome_bind]. rewrite be16_read by lia.
  cbn [mbind outcome_bind]. rewrite (proj2 (Z.eqb_neq _ _)), Hv by lia. cbn [mbind outcome_bind Z.eqb negb].
  rewrite Hlu, Up, !AddrFrom4_octets4 by done. done.
Qed.

Lemma ParseIPv4UDP_Build_witness : exists b,
  BuildIPv4UDP (Addr4 0xC0A80001) addr_broadcast ServerPort ClientPort 7 64 [2; 1; 6] = Ok b /\
  ParseIPv4UDP (b ++ [0; 0]) = Ok (mkDatagram [2; 1; 6] (Addr4 0xC0A80001) addr_broadcast ChecksumVerified).
Proof.
  eexists. split; [vm_compute; reflexivity|].
  apply (ParseIPv4UDP_Build 0xC0A80001 0xffffffff ServerPort 7 64 [2; 1; 6]);
    [done|done|done|repeat constructor; done|vm_compute; reflexivity].
Defined.

(** ** Every frame is answered *)

Lemma pseudoBase_returns src dst n : length src = 4%nat -> length dst = 4%nat -> returns (pseudoBase src dst n).
Proof.
  intros Hs Hd. unfold pseudoBase.
  repeat (apply returns_slice_bind; [lia..|]; intros ? ?; apply returns_bind; [apply returns_ube16; lia|intros ? _]).
  done.
Qed.

Lemma acceptUDPChecksum_returns src dst u : length src = 4%nat -> length dst = 4%nat -> (8 <= length u)%nat ->
  returns (acceptUDPChecksum src dst u).
Proof.
  intros Hs Hd Hu. unfold acceptUDPChecksum, udpChecksumVerify, pseudoSum, pseudoHeaderSum.
  apply returns_slice_bind; [lia..|]. intros g Hg. apply returns_bind; [apply returns_ube16; lia|]. intros got _.
  destruct (got =? 0); [done|].
  apply returns_bind; [apply returns_bind; [apply returns_bind; [by apply pseudoBase_returns|done]|done]|].
  intros v _. destruct (v =? 0); [done|].
  apply returns_bind; [apply returns_bind; [by apply pseudoBase_returns|done]|].
  intros p _. destruct (got =? p); done.
Qed.

(** [ParseIPv4UDP] returns on every frame: a packet socket hands it all the
    traffic of the link, and no length field a sender writes makes it index or
    slice out of range. *)
Theorem ParseIPv4UDP_returns frame : returns (ParseIPv4UDP frame).
Proof.
  unfold ParseIPv4UDP, ipv4HeaderLen, udpHeaderLen. destruct (Nat.ltb_spec (length frame) 20); [done|].
  apply returns_bind; [apply returns_idx; lia|intros b0 _]. destruct (negb _); [done|].
  destruct (Nat.ltb_spec (Z.to_nat (Z.land b0 15 * 4)) 20); [done|].
  destruct (Nat.ltb_spec (length frame) (Z.to_nat (Z.land b0 15 * 4))); [done|]. cbn [orb].
  apply returns_bind; [apply returns_idx; lia|intros b9 _]. destruct (negb _); [done|].
  do 2 (apply returns_bind; [apply returns_idx; lia|intros ? _]). destruct (_ || _); [done|].
  apply returns_slice_bind; [lia..|]. intros h _. destruct (negb _); [done|].
  apply returns_slice_bind; [lia..|]. intros t Hlt. apply returns_bind; [apply returns_ube16; lia|intros total _].
  destruct (Nat.ltb_spec (Z.to_nat total) (Z.to_nat (Z.land b0 15 * 4))); [done|].
  destruct (Nat.ltb_spec (length frame) (Z.to_nat total)); [done|]. cbn [orb].
  apply returns_slice_bind; [lia..|]. intros u Hu. destruct (Nat.ltb_spec (length u) 8); [done|].
  apply returns_slice_bind; [lia..|]. intros p Hlp. apply returns_bind; [apply returns_ube16; lia|intros port _].
  destruct (negb _); [done|].
  apply returns_slice_bind; [lia..|]. intros l Hll. apply returns_bind; [apply returns_ube16; lia|intros ulen _].
  destruct (Nat.ltb_spec (Z.to_nat ulen) 8); [done|].
  destruct (Nat.ltb_spec (length u) (Z.to_nat ulen)); [done|]. cbn [orb].
  apply returns_slice_bind; [lia..|]. intros u' Hu'.
  do 2 (apply returns_slice_bind; [lia..|]; intros ? ?).
  apply returns_bind; [apply acceptUDPChecksum_returns; lia|]. intros [st ok] _. destruct ok; [|done].
  apply returns_slice_bind; [lia..|]. done.
Qed.
