(* ===== verification/Acd.v ===== *)
(** * Address conflict detection: proto/acd.go

    RFC 5227's prober as a machine of its own: probe, wait, announce, defend.
    The Go methods mutate the receiver; here each returns the new [acd] beside
    the actions it appended.  The commented type is the source's [acd]. *)

From S2P Require Import Prelude NetAddr Arp Backoff Kinds.

(** ** Constants *)

Record ACDParams := mkACDParams {
  ProbeWait : Duration; ProbeNum : Z; ProbeMin : Duration; ProbeMax : Duration;
  AnnounceWait : Duration; AnnounceNum : Z; AnnounceInterval : Duration;
  MaxConflicts : Z; RateLimitInterval : Duration; DefendInterval : Duration }.

#[global] Instance ACDParams_eq_dec : EqDecision ACDParams.
Proof. solve_decision. Defined.

Definition DefaultACDParams : ACDParams :=
  mkACDParams (1 * Second) 3 (1 * Second) (2 * Second) (2 * Second) 2 (2 * Second) 10
    (60 * Second) (10 * Second).

(** Go's [ACDParams{}], which stands for the RFC table. *)
Definition acdparams_zero : ACDParams := mkACDParams 0 0 0 0 0 0 0 0 0 0.

(** [ACDParams.validate]: true where Go returns nil. *)
Definition acdparams_validate (a : ACDParams) : bool :=
  if bool_decide (a = acdparams_zero) then true else
  forallb (fun d => 0 <? d)
    [ProbeWait a; ProbeMin a; ProbeMax a; AnnounceWait a; AnnounceInterval a; RateLimitInterval a; DefendInterval a]
  && forallb (fun n => 0 <? n) [ProbeNum a; AnnounceNum a; MaxConflicts a]
  && negb (ProbeMax a <? ProbeMin a).

(** ** State, events, actions *)

Record acd := mkAcd {
  aparams : ACDParams;
  amode : ConflictMode;
  aphase : ACDPhase;
  aaddr : Addr;
  ahw : bytes;
  asent : Z;
  attemptAt : Instant;
  conflicts : Z }.

#[global] Instance eta_acd : Settable acd := fun a =>
  mkAcd (aparams a) (amode a) (aphase a) (aaddr a) (ahw a) (asent a) (attemptAt a) (conflicts a).

Inductive acdEvent :=
| acdEvStart (addr : Addr)
| acdEvTimer
| acdEvARP (pkt : option ARPPacket)
| acdEvStop.

Inductive acdAction :=
| acdSendProbe
| acdSendAnnounce
| acdSetTimer (after : Duration)
| acdCancelTimer
| acdReady
| acdConflict (why : Note)
| acdNote (text : Note).

Definition newACD (p : ACDParams) (mode : ConflictMode) (hw : bytes) : acd :=
  mkAcd p mode ACDIdle AddrZero hw 0 0 0.

Definition running (a : acd) : bool := negb (bool_decide (aphase a = ACDIdle)).

Definition acd_stop (a : acd) : acd := a <| aphase := ACDIdle |> <| aaddr := AddrZero |> <| asent := 0 |>.

(** [uniform]: drawn from [lo, hi], both included. *)
Definition uniform (lo hi : Duration) (rnd : Z) : Duration :=
  let span := i64 (hi - lo) in
  if span <=? 0 then lo else i64 (lo + i64 (rnd mod u64 (i64 (span + 1)))).

Definition acd_start (a : acd) (now : Instant) (rnd : Z) (addr : Addr) : acd * list acdAction :=
  let a := a <| aaddr := addr |> <| asent := 0 |> <| attemptAt := now |> <| aphase := ACDProbing |> in
  if ProbeNum (aparams a) <=? 0 then
    (a <| aphase := ACDSettling |>, [acdSetTimer (AnnounceWait (aparams a))])
  else (a, [acdSetTimer (uniform 0 (ProbeWait (aparams a)) rnd)]).

Definition announce (a : acd) : acd * list acdAction :=
  if AnnounceNum (aparams a) <=? 0 then (a <| aphase := ACDDefending |>, [acdCancelTimer]) else
  let a := a <| asent := i64 (asent a + 1) |> in
  if asent a <? AnnounceNum (aparams a) then
    (a, [acdSendAnnounce; acdSetTimer (AnnounceInterval (aparams a))])
  else (a <| aphase := ACDDefending |>, [acdSendAnnounce; acdCancelTimer]).

Definition acd_timer (a : acd) (rnd : Z) : acd * list acdAction :=
  match aphase a with
  | ACDProbing =>
    let a := a <| asent := i64 (asent a + 1) |> in
    if asent a <? ProbeNum (aparams a) then
      (a, [acdSendProbe; acdSetTimer (uniform (ProbeMin (aparams a)) (ProbeMax (aparams a)) rnd)])
    else (a <| aphase := ACDSettling |>, [acdSendProbe; acdSetTimer (AnnounceWait (aparams a))])
  | ACDSettling =>
    let '(a, out) := announce (a <| aphase := ACDAnnouncing |> <| asent := 0 |>) in
    (a, out ++ [acdReady])
  | ACDAnnouncing => announce a
  | ACDIdle | ACDDefending =>
    (a, [acdNote (note "ACD timer fired in phase %s: ignored" [APhase (aphase a)])])
  end.

(** The loop of [isOurs] compares two slices of one length octet by octet. *)
Definition isOurs (a : acd) (b : bytes) : bool :=
  if ((length b =? 0) || negb (length b =? length (ahw a)))%nat then false else bytes_eqb b (ahw a).

(** [conflictRule]: [None] is Go's empty rule. *)
Definition conflictRule (a : acd) (p : ARPPacket) : option (string * Note) :=
  match aphase a with
  | ACDProbing | ACDSettling =>
    if addr_eqb (SenderIP p) (aaddr a) && negb (isOurs a (SenderHW p)) then
      Some ("RFC 5227 2.1.1"%string,
            note "an ARP packet from %s claims %s while we are probing for it" [AHW (SenderHW p); AAddr (aaddr a)])
    else if IsProbe p && addr_eqb (TargetIP p) (aaddr a) && negb (isOurs a (SenderHW p)) then
      Some ("RFC 5227 2.1.1"%string,
            note "another host at %s is probing for %s at the same time" [AHW (SenderHW p); AAddr (aaddr a)])
    else None
  | ACDAnnouncing | ACDDefending =>
    if addr_eqb (SenderIP p) (aaddr a) && negb (isOurs a (SenderHW p)) then
      Some ("RFC 5227 2.4"%string, note "%s is using %s, which this client holds" [AHW (SenderHW p); AAddr (aaddr a)])
    else None
  | ACDIdle => None
  end.

Definition acd_arp (a : acd) (pkt : option ARPPacket) : acd * list acdAction :=
  match pkt with
  | None => (a, [])
  | Some p =>
    if negb (IsValid (aaddr a)) then (a, []) else
    match conflictRule a p with
    | None => (a, [])
    | Some (rule, why) =>
      (acd_stop (a <| conflicts := i64 (conflicts a + 1) |>),
       [acdConflict (note "%s:" [AStr rule] ++ why)])
    end
  end.

Definition acdStep (a : acd) (now : Instant) (rnd : Z) (ev : acdEvent) : acd * list acdAction :=
  match ev with
  | acdEvStop => (acd_stop a, [])
  | acdEvStart addr => acd_start a now rnd addr
  | acdEvTimer => acd_timer a rnd
  | acdEvARP pkt => acd_arp a pkt
  end.

Definition relevant (a : acd) (pkt : option ARPPacket) : bool :=
  match pkt with
  | None => false
  | Some p =>
    if negb (running a) || negb (IsValid (aaddr a)) then false
    else addr_eqb (SenderIP p) (aaddr a) || addr_eqb (TargetIP p) (aaddr a)
  end.

Definition rateLimited (a : acd) : bool :=
  (0 <? MaxConflicts (aparams a)) && (MaxConflicts (aparams a) <=? conflicts a).

Definition acd_restartDelay (a : acd) (now : Instant) (base : Duration) : Duration :=
  if negb (rateLimited a) then base else
  let next := Add (attemptAt a) (RateLimitInterval (aparams a)) in
  let d := Sub next now in
  if d <? base then base else d.

Definition probe (a : acd) : ARPPacket := mkARP ARPRequest (ahw a) [] (AddrFrom4 [0; 0; 0; 0]) (aaddr a).

Definition announcement (a : acd) : ARPPacket := mkARP ARPRequest (ahw a) [] (aaddr a) (aaddr a).

(** ** What counts as a conflict *)

(** The conflict rules.  While an address is probed or held, a packet is a
    conflict exactly when it comes from a hardware address that is not this
    interface's and either claims the address or, before the address is in use,
    probes for it (RFC 5227 sections 2.1.1 and 2.4); a frame of this interface's
    own never is one; and the subscription filter admits every conflict. *)
Theorem conflictRule_spec a p : aphase a <> ACDIdle -> IsValid (aaddr a) = true ->
  (is_Some (conflictRule a p) <->
     isOurs a (SenderHW p) = false /\
     (SenderIP p = aaddr a \/
      (aphase a = ACDProbing \/ aphase a = ACDSettling) /\ IsProbe p = true /\ TargetIP p = aaddr a)) /\
  (is_Some (conflictRule a p) -> relevant a (Some p) = true).
Proof.
  intros Hp Hv. unfold conflictRule, relevant, running. rewrite Hv, bool_decide_false by done. cbn [negb orb].
  destruct (isOurs a (SenderHW p)); cbn [negb]; rewrite ?andb_false_r, ?andb_true_r;
    destruct (aphase a); try done;
    (destruct (addr_eqb (SenderIP p) (aaddr a)) eqn:E1;
      [apply addr_eqb_eq in E1 | apply addr_eqb_neq in E1]);
    (destruct (addr_eqb (TargetIP p) (aaddr a)) eqn:E2;
      [apply addr_eqb_eq in E2 | apply addr_eqb_neq in E2]);
    destruct (IsProbe p) eqn:E3; cbn [andb orb]; unfold is_Some; split; naive_solver.
Qed.

Definition sample_acd (ph : ACDPhase) : acd :=
  mkAcd DefaultACDParams ConflictWait ph (AddrFrom4 [192; 0; 2; 7]) [2; 66; 172; 17; 0; 2] 1 0 0.

Lemma conflictRule_spec_witness :
  let a := sample_acd ACDProbing in
  let p := mkARP ARPRequest [6; 6; 6; 6; 6; 6] [] addr_any (AddrFrom4 [192; 0; 2; 7]) in
  (is_Some (conflictRule a p) <->
     isOurs a (SenderHW p) = false /\
     (SenderIP p = aaddr a \/
      (aphase a = ACDProbing \/ aphase a = ACDSettling) /\ IsProbe p = true /\ TargetIP p = aaddr a)) /\
  (is_Some (conflictRule a p) -> relevant a (Some p) = true).
Proof. apply (conflictRule_spec (sample_acd ACDProbing)); [done|reflexivity]. Defined.

(** ** How long the check takes *)

Lemma uniform_range lo hi rnd : 0 <= lo <= hi -> hi <= MaxInt64 ->
  lo <= uniform lo hi rnd <= hi.
Proof.
  rewrite MaxInt64_val. intros Hlo Hhi. unfold uniform. rewrite (i64_id (hi - lo)) by lia.
  destruct (Z.leb_spec (hi - lo) 0); [lia|].
  assert (Hs : u64 (i64 (hi - lo + 1)) = hi - lo + 1).
  { unfold u64, i64. zpow. Z.to_euclidean_division_equations. lia. }
  rewrite Hs. pose proof (Z.mod_pos_bound rnd (hi - lo + 1)).
  rewrite (i64_id (rnd mod _)), i64_id by lia. lia.
Qed.

(** The prober fed one timer per random word. *)
Fixpoint acd_timers (a : acd) (now : Instant) (rnds : list Z) : acd * list acdAction :=
  match rnds with
  | [] => (a, [])
  | rnd :: rest =>
    let '(a, o1) := acdStep a now rnd acdEvTimer in
    let '(a, o2) := acd_timers a now rest in
    (a, o1 ++ o2)
  end.

(** The waits an output asks for, the probes it sends, and the rest of it. *)
Definition waits (o : list acdAction) : Z :=
  foldr (fun x s => match x with acdSetTimer d => d + s | _ => s end) 0 o.
Definition probes (o : list acdAction) : Z :=
  foldr (fun x s => match x with acdSendProbe => 1 + s | _ => s end) 0 o.
Definition probing_only (o : list acdAction) : Prop :=
  Forall (fun x => match x with acdSetTimer _ | acdSendProbe => True | _ => False end) o.

Lemma waits_app o1 o2 : waits (o1 ++ o2) = waits o1 + waits o2.
Proof. unfold waits. induction o1 as [|[] o1 IH]; cbn; lia. Qed.
Lemma probes_app o1 o2 : probes (o1 ++ o2) = probes o1 + probes o2.
Proof. unfold probes. induction o1 as [|[] o1 IH]; cbn; lia. Qed.

(** A table whose windows are in order and whose values are durations. *)
Record acdparams_wf (p : ACDParams) : Prop := {
  wf_num : 0 < ProbeNum p <= MaxInt64;
  wf_wait : 0 <= ProbeWait p <= MaxInt64;
  wf_window : 0 <= ProbeMin p <= ProbeMax p /\ ProbeMax p <= MaxInt64;
  wf_announce : 0 < AnnounceNum p
}.

Lemma acd_timers_probing now rnds : forall a, acdparams_wf (aparams a) ->
  aphase a = ACDProbing -> 0 <= asent a -> asent a + Z.of_nat (length rnds) = ProbeNum (aparams a) ->
  rnds <> [] ->
  let p := aparams a in
  let '(a', o) := acd_timers a now rnds in
  aphase a' = ACDSettling /\ aaddr a' = aaddr a /\ aparams a' = p /\ ahw a' = ahw a /\
  probing_only o /\ probes o = Z.of_nat (length rnds) /\
  (Z.of_nat (length rnds) - 1) * ProbeMin p + AnnounceWait p <= waits o
    <= (Z.of_nat (length rnds) - 1) * ProbeMax p + AnnounceWait p.
Proof.
  induction rnds as [|rnd rnds IH]; intros a Hwf Hph Hs Hn Hne; [done|]. cbn [acd_timers acdStep length] in *.
  unfold acd_timer. rewrite Hph. destruct (wf_num _ Hwf) as [N1 N2]. rewrite MaxInt64_val in *.
  change (asent (set_fld (get := asent) (fun _ => ?x) a)) with x.
  assert (E : i64 (asent a + 1) = asent a + 1) by (apply i64_id; lia). rewrite E.
  change (aparams (set_fld (get := asent) _ a)) with (aparams a).
  destruct rnds as [|rnd' rnds].
  - cbn [length] in Hn. cbn [asent aparams set_fld]. 
    destruct (Z.ltb_spec (asent a + 1) (ProbeNum (aparams a))); [lia|]. cbn.
    split_and!; try done; try lia. repeat constructor.
  - cbn [asent aparams set_fld].
    destruct (Z.ltb_spec (asent a + 1) (ProbeNum (aparams a))); [|cbn [length] in Hn; lia].
    specialize (IH (a <| asent := asent a + 1 |>)).
    destruct (acd_timers _ now (rnd' :: rnds)) as [a' o] eqn:Eo.
    destruct IH as (P1 & P2 & P3 & P4 & P5 & P6 & P7); [done|done|cbn; lia|cbn; cbn [length] in *; lia|done|].
    pose proof (uniform_range (ProbeMin (aparams a)) (ProbeMax (aparams a)) rnd) as Hu.
    destruct (wf_window _ Hwf) as [W1 W2]. rewrite MaxInt64_val in *.
    split_and!; try done.
    + repeat constructor. done.
    + cbn. cbn in P6. fold (probes o). lia.
    + cbn. fold (waits o). change (aparams (set_fld _ a)) with (aparams a) in P7. cbn [length] in *. nia.
    + cbn. fold (waits o). change (aparams (set_fld _ a)) with (aparams a) in P7. cbn [length] in *. nia.
Qed.

(** The check of RFC 5227 section 2.1.  Started for an address and driven by
    its own timer, the prober sends exactly PROBE_NUM probes and nothing else,
    its waits add up to between (PROBE_NUM - 1) * PROBE_MIN + ANNOUNCE_WAIT and
    PROBE_WAIT + (PROBE_NUM - 1) * PROBE_MAX + ANNOUNCE_WAIT (four to seven
    seconds with the RFC's table), and only the timer after that announces the
    address and then reports it ready, in this order. *)
Theorem acd_schedule a now rnd0 addr rnds rnd : acdparams_wf (aparams a) ->
  Z.of_nat (length rnds) = ProbeNum (aparams a) ->
  let p := aparams a in
  let '(a1, o1) := acdStep a now rnd0 (acdEvStart addr) in
  let '(a2, o2) := acd_timers a1 now rnds in
  let '(a3, o3) := acdStep a2 now rnd acdEvTimer in
  probing_only (o1 ++ o2) /\ probes (o1 ++ o2) = ProbeNum p /\
  (ProbeNum p - 1) * ProbeMin p + AnnounceWait p <= waits (o1 ++ o2)
    <= ProbeWait p + (ProbeNum p - 1) * ProbeMax p + AnnounceWait p /\
  aphase a2 = ACDSettling /\ probe a2 = mkARP ARPRequest (ahw a) [] (Addr4 0) addr /\
  announcement a2 = mkARP ARPRequest (ahw a) [] addr addr /\
  (o3 = [acdSendAnnounce; acdSetTimer (AnnounceInterval p); acdReady] \/
   o3 = [acdSendAnnounce; acdCancelTimer; acdReady]).
Proof.
  intros Hwf Hlen. cbn [acdStep]. unfold acd_start.
  change (aparams (set_fld _ _)) with (aparams a).
  destruct (wf_num _ Hwf) as [N1 N2]. rewrite (proj2 (Z.leb_gt (ProbeNum (aparams a)) 0)) by lia.
  set (a1 := a <| aaddr := addr |> <| asent := 0 |> <| attemptAt := now |> <| aphase := ACDProbing |>).
  pose proof (acd_timers_probing now rnds a1) as H. change (aparams a1) with (aparams a) in H.
  destruct (acd_timers a1 now rnds) as [a2 o2].
  destruct H as (P1 & P2 & P3 & P4 & P5 & P6 & P7); [done|done|done|cbn; lia|destruct rnds; [cbn in Hlen; lia|done]|].
  pose proof (uniform_range 0 (ProbeWait (aparams a)) rnd0) as Hu.
  pose proof (wf_wait _ Hwf). pose proof (wf_announce _ Hwf).
  unfold acd_timer. rewrite P1. unfold announce. cbn -[Z.mul Z.sub uniform i64].
  rewrite P3, (proj2 (Z.leb_gt (AnnounceNum (aparams a)) 0)) by lia.
  change (i64 (0 + 1)) with 1. cbn -[Z.mul Z.sub uniform].
  destruct (Z.ltb_spec 1 (AnnounceNum (aparams a))); cbn -[Z.mul Z.sub uniform];
    fold (waits o2) (probes o2); unfold probe, announcement; rewrite P2, P4;
    (split_and!; [by constructor|lia|lia|lia|done|done|done|first [by left|by right]]).
Qed.

Lemma acd_schedule_witness :
  let p := DefaultACDParams in
  let '(a1, o1) := acdStep (sample_acd ACDIdle) 0 5 (acdEvStart (AddrFrom4 [192; 0; 2; 7])) in
  let '(a2, o2) := acd_timers a1 0 [6; 7; 8] in
  let '(a3, o3) := acdStep a2 0 9 acdEvTimer in
  probing_only (o1 ++ o2) /\ probes (o1 ++ o2) = 3 /\
  2 * Second + 2 * Second <= waits (o1 ++ o2) <= Second + 2 * (2 * Second) + 2 * Second /\
  aphase a2 = ACDSettling /\
  probe a2 = mkARP ARPRequest [2; 66; 172; 17; 0; 2] [] (Addr4 0) (AddrFrom4 [192; 0; 2; 7]) /\
  announcement a2 =
    mkARP ARPRequest [2; 66; 172; 17; 0; 2] [] (AddrFrom4 [192; 0; 2; 7]) (AddrFrom4 [192; 0; 2; 7]) /\
  (o3 = [acdSendAnnounce; acdSetTimer (AnnounceInterval p); acdReady] \/
   o3 = [acdSendAnnounce; acdCancelTimer; acdReady]).
Proof.
  apply (acd_schedule (sample_acd ACDIdle) 0 5 (AddrFrom4 [192; 0; 2; 7]) [6; 7; 8] 9);
    [split; vm_compute; repeat split; congruence | reflexivity].
Defined.

(** The rate limit of RFC 5227 section 2.1.1.  From the MAX_CONFLICTSth
    conflict on, the wait before the next attempt ends no earlier than
    RATE_LIMIT_INTERVAL after the last attempt began; in every case the wait is
    at least the one the DHCP machine asked for. *)
Theorem acd_restartDelay_spec a now base : 0 <= attemptAt a <= now -> now <= MaxInt64 ->
  0 <= RateLimitInterval (aparams a) -> attemptAt a + RateLimitInterval (aparams a) <= MaxInt64 ->
  base <= acd_restartDelay a now base /\
  (0 < MaxConflicts (aparams a) -> MaxConflicts (aparams a) <= conflicts a ->
     attemptAt a + RateLimitInterval (aparams a) <= now + acd_restartDelay a now base) /\
  (conflicts a < MaxConflicts (aparams a) -> acd_restartDelay a now base = base).
Proof.
  rewrite MaxInt64_val. intros Ha Hn Hi Hs. unfold acd_restartDelay, rateLimited, Sub, Add.
  rewrite (i64_id (attemptAt a + _)), i64_id by lia.
  destruct (Z.ltb_spec 0 (MaxConflicts (aparams a))); cbn [andb negb]; [|lia].
  destruct (Z.leb_spec (MaxConflicts (aparams a)) (conflicts a)); cbn [negb]; [|lia].
  destruct (Z.ltb_spec (attemptAt a + RateLimitInterval (aparams a) - now) base); lia.
Qed.

Lemma acd_restartDelay_spec_witness :
  let a := sample_acd ACDIdle <| conflicts := 10 |> in
  10 * Second <= acd_restartDelay a (7 * Second) (10 * Second) /\
  (0 < 10 -> 10 <= 10 -> 0 + 60 * Second <= 7 * Second + acd_restartDelay a (7 * Second) (10 * Second)) /\
  (10 < 10 -> acd_restartDelay a (7 * Second) (10 * Second) = 10 * Second).
Proof.
  intros a. apply (acd_restartDelay_spec a (7 * Second) (10 * Second)); vm_compute; try split; congruence.
Defined.
