(* ===== verification/Params.v ===== *)
(** * Configuration: proto/params.go

    Everything the machine needs that is not an event, the checks [New] runs on
    it, and the policy on which servers the client deals with. *)

From S2P Require Import Prelude NetAddr Options Codec Values Backoff Kinds Acd.

(** ** Resume, the server policy, option 81 *)

Record Resume := mkResume { ResumeAddr : Addr; ResumeExpire : Instant; HasExpire : bool }.

(** [live]: the nil [Resume] is [None]. *)
Definition live (r : option Resume) (now : Instant) : bool :=
  match r with
  | None => false
  | Some r =>
    if negb (Is4 (ResumeAddr r)) || IsUnspecified (ResumeAddr r) then false
    else negb (HasExpire r) || After (ResumeExpire r) now
  end.

Record ServerPolicy := mkPolicy { Allow : list Addr; Deny : list Addr }.

(** [for _, d := range s.Deny { if d == sid ...}] *)
Fixpoint lists_addr (l : list Addr) (a : Addr) : bool :=
  match l with [] => false | d :: rest => if addr_eqb d a then true else lists_addr rest a end.

(** The refusal's text is [None] where the server is permitted. *)
Definition permits (s : ServerPolicy) (sid : Addr) (present : bool) : option Note :=
  if present && lists_addr (Deny s) sid then Some (note "server %s is on the deny list" [AAddr sid]) else
  if (length (Allow s) =? 0)%nat then None else
  if negb present then
    Some (note "an allow list is configured and this message carries no server identifier" []) else
  if lists_addr (Allow s) sid then None else Some (note "server %s is not on the allow list" [AAddr sid]).

Record FQDN := mkFQDN { FQDNName : gostring; FQDNFlags : Z }.

Definition DefaultFQDNFlags : Z := Z.lor FQDNFlagS FQDNFlagE.

Definition fqdn_flags (f : FQDN) : Z := if FQDNFlags f =? 0 then DefaultFQDNFlags else FQDNFlags f.

(** ** Params *)

Record Params := mkParams {
  pCHAddr : bytes;
  pLinkHWAddr : bytes;
  pClientID : bytes;
  pHostname : gostring;
  pVendorClass : gostring;
  pUserClass : list bytes;
  pRapidCommit : bool;
  pIPv6OnlyPreferred : bool;
  pParameterList : list OptionCode;
  pRequestedIP : Addr;
  pResume : option Resume;
  pRequestedLease : Duration;
  pBroadcast : bool;
  pDiscover : Backoff;
  pRequest : Backoff;
  pDesyncMin : Duration;
  pDesyncMax : Duration;
  pRestartDelay : Duration;
  pMaxSendFailures : Z;
  pConflict : ConflictMode;
  pACD : ACDParams;
  pServers : ServerPolicy;
  pFQDN : FQDN;
  (** the two unexported fields, encoded once at New *)
  pfqdn : bytes;
  puserClass : bytes }.

#[global] Instance eta_Params : Settable Params := fun p =>
  mkParams (pCHAddr p) (pLinkHWAddr p) (pClientID p) (pHostname p) (pVendorClass p) (pUserClass p)
    (pRapidCommit p) (pIPv6OnlyPreferred p) (pParameterList p) (pRequestedIP p) (pResume p)
    (pRequestedLease p) (pBroadcast p) (pDiscover p) (pRequest p) (pDesyncMin p) (pDesyncMax p)
    (pRestartDelay p) (pMaxSendFailures p) (pConflict p) (pACD p) (pServers p) (pFQDN p) (pfqdn p)
    (puserClass p).

Definition DefaultRestartDelay : Duration := 10 * Second.

Definition DefaultParameterList : list OptionCode :=
  [OptClasslessStaticRte; OptMSClasslessStaticRte; OptRouter; OptStaticRoute; OptSubnetMask;
   OptDNSServer; OptDomainName; OptDomainSearch; OptInterfaceMTU; OptBroadcastAddress; OptNTPServer;
   OptTimeOffset; OptPosixTimezone; OptTZDatabase; OptTFTPServer; OptBootfileName; OptWPAD;
   OptVendorSpecific; OptVIVSO].

Definition DefaultParams (chaddr : bytes) : Params :=
  mkParams chaddr [] [] [] [] [] false false DefaultParameterList AddrZero None 0 true
    DefaultBackoff DefaultBackoff (1 * Second) (10 * Second) DefaultRestartDelay 5 ConflictWait
    DefaultACDParams (mkPolicy [] []) (mkFQDN [] 0) [] [].

(** ** What New refuses *)

Inductive ParamErr :=
| ErrNoCHAddr | ErrCHAddrTooLong | ErrBadDesync | ErrBadRestartDelay | ErrBadBackoff | ErrBadResume
| ErrBadACDParams | ErrBadFQDN | ErrBadUserClass | ErrBadRapidCommit | ErrBadIPv6OnlyPreferred
| ErrBadHostname.

Fixpoint lists_code (l : list OptionCode) (c : OptionCode) : bool :=
  match l with [] => false | d :: rest => if d =? c then true else lists_code rest c end.

Definition ValidateHostname (name : gostring) : bool :=
  if (length name =? 0)%nat then true else
  if (255 <? length name)%nat then false else
  forallb (fun c => negb ((c <? 0x21) || (0x7E <? c))) name.

(** [Params.validate]: [None] is Go's nil.  A conflict mode outside the three is
    not a value of the type here. *)
Definition params_validate (p : Params) : option ParamErr :=
  if (length (pCHAddr p) =? 0)%nat then Some ErrNoCHAddr else
  if (16 <? length (pCHAddr p))%nat then Some ErrCHAddrTooLong else
  if (16 <? length (pLinkHWAddr p))%nat then Some ErrCHAddrTooLong else
  if (pDesyncMin p <? 0) || (pDesyncMax p <? 0) || (pDesyncMax p <? pDesyncMin p) then Some ErrBadDesync else
  if pRestartDelay p <? 0 then Some ErrBadRestartDelay else
  if negb (validate (pDiscover p)) then Some ErrBadBackoff else
  if negb (validate (pRequest p)) then Some ErrBadBackoff else
  if match pResume p with
     | Some r => negb (Is4 (ResumeAddr r)) || IsUnspecified (ResumeAddr r)
     | None => false
     end then Some ErrBadResume else
  if negb (acdparams_validate (pACD p)) then Some ErrBadACDParams else
  if negb (length (FQDNName (pFQDN p)) =? 0)%nat
     && negb (is_ok (EncodeFQDN (fqdn_flags (pFQDN p)) (FQDNName (pFQDN p)))) then Some ErrBadFQDN else
  if (0 <? length (pUserClass p))%nat && negb (is_ok (EncodeUserClass (pUserClass p))) then Some ErrBadUserClass else
  if pRapidCommit p && lists_code (pParameterList p) OptRapidCommit then Some ErrBadRapidCommit else
  if negb (pIPv6OnlyPreferred p) && lists_code (pParameterList p) OptIPv6OnlyPreferred
    then Some ErrBadIPv6OnlyPreferred else
  if negb (ValidateHostname (pHostname p)) then Some ErrBadHostname else None.

(** ** Derived values *)

Definition params_acd (p : Params) : ACDParams :=
  if bool_decide (pACD p = acdparams_zero) then DefaultACDParams else pACD p.

Definition params_restartDelay (p : Params) : Duration :=
  if pRestartDelay p <=? 0 then DefaultRestartDelay else pRestartDelay p.

Definition desync (p : Params) (rnd : Z) : Duration :=
  let span := i64 (pDesyncMax p - pDesyncMin p) in
  if span <=? 0 then pDesyncMin p
  else i64 (pDesyncMin p + i64 (rnd mod u64 (i64 (span + 1)))).

Definition parameterList (p : Params) : list OptionCode :=
  if (length (pParameterList p) =? 0)%nat then DefaultParameterList else pParameterList p.

Definition linkHW (p : Params) : bytes :=
  if (0 <? length (pLinkHWAddr p))%nat then pLinkHWAddr p else pCHAddr p.

(** ** The server policy *)

Lemma lists_addr_spec l a : lists_addr l a = true <-> a ∈ l.
Proof.
  induction l as [|d l IH]; cbn [lists_addr].
  - split; [done|]. by intros ?%not_elem_of_nil.
  - rewrite elem_of_cons. destruct (addr_eqb d a) eqn:E.
    + apply addr_eqb_eq in E as ->. naive_solver.
    + apply addr_eqb_neq in E. rewrite IH. naive_solver.
Qed.

(** The server policy.  A server is dealt with exactly when it is not on the
    deny list and, where an allow list is configured, it names itself and is on
    that list; the deny list wins over the allow list. *)
Theorem permits_spec s sid present : permits s sid present = None <->
  (present = true -> sid ∉ Deny s) /\ (Allow s = [] \/ present = true /\ sid ∈ Allow s).
Proof.
  unfold permits.
  assert (Hd : lists_addr (Deny s) sid = false <-> sid ∉ Deny s)
    by (rewrite <- not_true_iff_false, lists_addr_spec; done).
  assert (Ha : lists_addr (Allow s) sid = true <-> sid ∈ Allow s) by apply lists_addr_spec.
  destruct present, (lists_addr (Deny s) sid), (lists_addr (Allow s) sid), (Allow s) as [|x xs];
    cbn [andb negb length Nat.eqb]; naive_solver.
Qed.

(** The startup wait of RFC 2131 section 4.4.1 lies in the configured window,
    whatever the entropy, for every window [params_validate] accepts. *)
Theorem desync_window p rnd : params_validate p = None ->
  pDesyncMin p <= MaxInt64 -> pDesyncMax p <= MaxInt64 ->
  pDesyncMin p <= desync p rnd <= pDesyncMax p.
Proof.
  intros Hv Hmin Hmax. unfold params_validate in Hv.
  do 3 (destruct (_ : bool) in Hv; [done|]).
  destruct (Z.ltb_spec (pDesyncMin p) 0); [done|]. destruct (Z.ltb_spec (pDesyncMax p) 0); [done|].
  destruct (Z.ltb_spec (pDesyncMax p) (pDesyncMin p)); [done|].
  exact (uniform_range (pDesyncMin p) (pDesyncMax p) rnd ltac:(lia) Hmax).
Qed.

Lemma desync_window_witness :
  let p := DefaultParams [2; 66; 172; 17; 0; 2] in Second <= desync p 99 <= 10 * Second.
Proof. intros p. apply (desync_window p 99); vm_compute; congruence. Defined.
