(* ===== verification/Core.v ===== *)
(** * The machine's state and its actions: proto/action.go, proto/machine.go

    The actions a step returns, the fields of [Machine], and the monad the
    methods are written in: a method reads and assigns fields and stamps actions
    with consecutive ids, or stops at a Go run-time panic ([None]). *)

From S2P Require Import Prelude NetAddr Options Codec Forcerenew Values Arp Backoff Kinds Lease Acd Params.

(** ** Actions *)

Record Dest := mkDest { DBroadcast : bool; DAddr : Addr; DSrc : Addr }.

Definition dest_broadcast : Dest := mkDest true AddrZero AddrZero.

(** One constructor per kind.  The last five are the DHCPv6 machine's. *)
Inductive ActionBody :=
| ActSend (msg : Message) (d : Dest)
| ActSetTimer (t : TimerID) (after : Duration)
| ActCancelTimer (t : TimerID)
| ActLeaseAcquired (l : Lease) (requested : Addr)
| ActLeaseChanged (l : Lease)
| ActLeaseRenewed (l : Lease)
| ActLeaseLost (r : Reason)
| ActFailed (r : Reason) (text : Note)
| ActJournal (text : Note)
| ActSendARP (p : ARPPacket)
| ActSendRouterSolicit | ActStartDAD | ActConfigured | ActRouterObserved | ActSendV6.

Record Action := mkAction { ActID : ActionID; ActBody : ActionBody }.

(** ** Counters and the forcerenew key *)

Record RapidCommitCounters := mkRapid { RapidAccepted : Z; RapidRefused : Z }.
#[global] Instance eta_Rapid : Settable RapidCommitCounters := fun r =>
  mkRapid (RapidAccepted r) (RapidRefused r).

Record IPv6OnlyCounters := mkV6Only { Waited : Z; Ignored : Z; Malformed : Z }.
#[global] Instance eta_V6Only : Settable IPv6OnlyCounters := fun r =>
  mkV6Only (Waited r) (Ignored r) (Malformed r).

Record ForcerenewCounters := mkFr {
  FrRenewed : Z; FrAlreadyRenewing : Z; FrAckRefused : Z; FrRefused : ForcerenewRefusal -> Z }.
#[global] Instance eta_Fr : Settable ForcerenewCounters := fun r =>
  mkFr (FrRenewed r) (FrAlreadyRenewing r) (FrAckRefused r) (FrRefused r).

Record forcerenewKey := mkKey { frHave : bool; frNonce : bytes; frFloor : Z }.
#[global] Instance eta_key : Settable forcerenewKey := fun r => mkKey (frHave r) (frNonce r) (frFloor r).

Definition key_zero : forcerenewKey := mkKey false (replicate ForcerenewNonceLen 0) 0.

(** ** The machine *)

(** The fields of [Machine] but for the action counter, which only [stamp]
    touches. *)
Record Core := mkCore {
  mparams : Params;
  mstate : State;
  mstartedAt : Instant;
  mstarted : bool;
  mxid : Z;
  mretransmits : Z;
  msendFailures : Z;
  mrestarts : Z;
  moffer : option Message;
  mrequestSentAt : Instant;
  mrapidCounts : RapidCommitCounters;
  mv6OnlyCounts : IPv6OnlyCounters;
  mfrCounts : ForcerenewCounters;
  mfr : forcerenewKey;
  mlease : Lease;
  mhaveLse : bool;
  mresume : option Resume;
  mrebootAddr : Addr;
  macd : option acd;
  mprobing : Lease;
  mhaveProbe : bool;
  mhostname : gostring;
  mnameOnWire : gostring;
  marpAction : ActionID;
  mhaveARPAction : bool }.

#[global] Instance eta_Core : Settable Core := fun m =>
  mkCore (mparams m) (mstate m) (mstartedAt m) (mstarted m) (mxid m) (mretransmits m) (msendFailures m)
    (mrestarts m) (moffer m) (mrequestSentAt m) (mrapidCounts m) (mv6OnlyCounts m) (mfrCounts m) (mfr m)
    (mlease m) (mhaveLse m) (mresume m) (mrebootAddr m) (macd m) (mprobing m) (mhaveProbe m) (mhostname m)
    (mnameOnWire m) (marpAction m) (mhaveARPAction m).

Record Machine := mkMachine { mcore : Core; mnextAction : ActionID }.

(** [New] copies the slices and the pointer it is given, so a value is the model
    of each.  A refusal that [params_validate] has already made cannot come from
    the two encoders. *)
Definition New (p : Params) : ParamErr + Machine :=
  match params_validate p with
  | Some e => inl e
  | None =>
    let p := p <| pParameterList := parameterList p |> <| puserClass := [] |> <| pfqdn := [] |> in
    match (if (0 <? length (pUserClass p))%nat then EncodeUserClass (pUserClass p) else Ok []) with
    | Ok uc =>
      let p := p <| puserClass := uc |> in
      match (if negb (length (FQDNName (pFQDN p)) =? 0)%nat
             then EncodeFQDN (fqdn_flags (pFQDN p)) (FQDNName (pFQDN p)) else Ok []) with
      | Ok fq =>
        let p := p <| pfqdn := fq |> in
        inr (mkMachine
          (mkCore p StateStopped 0 false 0 0 0 0 None 0 (mkRapid 0 0) (mkV6Only 0 0 0)
            (mkFr 0 0 0 (fun _ => 0)) key_zero lease_zero false (pResume p) AddrZero
            (match pConflict p with
             | ConflictOff => None
             | _ => Some (newACD (params_acd p) (pConflict p) (linkHW p))
             end)
            lease_zero false (pHostname p) [] 0 false) 0)
      | _ => inl ErrBadFQDN
      end
    | _ => inl ErrBadUserClass
    end
  end.

(** ** Accessors *)

(** [Machine.Lease]: the held lease with the live forcerenew key. *)
Definition MachineLease (m : Core) : Lease * bool :=
  let l := mlease m in
  (if mhaveLse m && frHave (mfr m)
   then l <| lForcerenewNonce := frNonce (mfr m) |> <| lForcerenewReplay := frFloor (mfr m) |> else l,
   mhaveLse m).

Definition MachineACDPhase (m : Core) : ACDPhase :=
  match macd m with None => ACDIdle | Some a => aphase a end.

Definition ARPRelevant (m : Core) (p : option ARPPacket) : bool :=
  match macd m with None => false | Some a => relevant a p end.

Definition heldOrProbing (m : Core) : Lease :=
  if mhaveLse m then mlease m else if mhaveProbe m then mprobing m else lease_zero.

(** ** The monad *)

Record St := mkSt { core : Core; next : ActionID; out : list Action }.

Definition M (A : Type) := St -> option (A * St).

#[global] Instance M_ret : MRet M := fun A a s => Some (a, s).
#[global] Instance M_bind : MBind M := fun A B f c s =>
  match c s with
  | Some (a, s') => f a s'
  | None => None
  end.

Definition get : M Core := fun s => Some (core s, s).

Definition modify (f : Core -> Core) : M unit := fun s => Some (tt, mkSt (f (core s)) (next s) (out s)).

(** [m.field = v] *)
Notation "f ::= v" := (modify (fun k : Core => k <| f := v |>)) (at level 60, only parsing).

(** A run-time panic of the Go program. *)
Definition panic {A} : M A := fun _ => None.

Definition lift {A} (x : option A) : M A := match x with Some a => mret a | None => panic end.

(** A call into package wire whose error the code does not look at. *)
Definition liftw {A} (x : wire A) : M A := match x with Ok a => mret a | _ => panic end.

Definition when (b : bool) (c : M unit) : M unit := if b then c else mret tt.

(** [actions.stamp] and [takeActionID]. *)
Definition stamp (b : ActionBody) : M ActionID := fun s =>
  Some (next s, mkSt (core s) (u64 (next s + 1)) (out s ++ [mkAction (next s) b])).

Definition send (msg : Message) (d : Dest) : M unit := stamp (ActSend msg d) ;; mret tt.
Definition setTimer (t : TimerID) (d : Duration) : M unit := stamp (ActSetTimer t d) ;; mret tt.
Definition cancel (t : TimerID) : M unit := stamp (ActCancelTimer t) ;; mret tt.
Definition journal (n : Note) : M unit := stamp (ActJournal n) ;; mret tt.
Definition failed (r : Reason) (n : Note) : M unit := stamp (ActFailed r n) ;; mret tt.

Fixpoint forM_ {A} (l : list A) (f : A -> M unit) : M unit :=
  match l with [] => mret tt | x :: l => f x ;; forM_ l f end.

Definition cancelAll : M unit := forM_ AllTimerIDs cancel.
