(* ===== verification/Machine.v ===== *)
(** * The DHCPv4 machine: proto/machine.go and its companions

    Every method of [Machine] that a step can reach, in dependency order:
    building messages, the terminal messages, renewals, the acquisition, conflict
    detection (proto/machine_acd.go), IPv6-only (proto/ipv6only.go), rapid commit
    (proto/rapidcommit.go), forcerenew (proto/machine_forcerenew.go), the host name
    (proto/machine_hostname.go), and [Step]. *)

From S2P Require Import Prelude NetAddr Options Codec Forcerenew Values Arp Backoff Kinds Lease Acd Params Core.

(** ** Small reads *)

Definition msgType (m : Message) : Z := default 0 (Type_ m).

(** [secs]: whole seconds since the process began, saturating. *)
Definition secs (m : Core) (now : Instant) : Z :=
  if negb (mstarted m) then 0 else
  let d := Sub now (mstartedAt m) in
  if d <=? 0 then 0 else
  let s := Seconds d in
  if 65535 <? s then 65535 else u16 s.

Definition chaddrMatches (m : Core) (msg : Message) : bool :=
  if negb (length (CHAddr msg) =? length (pCHAddr (mparams m)))%nat then false
  else bytes_eqb (CHAddr msg) (pCHAddr (mparams m)).

Definition nakText (msg : Message) : Note :=
  match OptText (MOptions msg) OptMessage with
  | Some s => if negb (bytes_eqb s []) then note "DHCPNAK: %s" [AText s] else note "DHCPNAK" []
  | None => note "DHCPNAK" []
  end.

Fixpoint listsCode (l : bytes) (c : OptionCode) : bool :=
  match l with [] => false | b :: rest => if b =? u8 c then true else listsCode rest c end.

Definition sendsHostname (m : Core) : bool := (length (pfqdn (mparams m)) =? 0)%nat.

Definition requestedAddr (m : Core) : Addr :=
  if IsValid (mrebootAddr m) && negb (IsUnspecified (mrebootAddr m)) then mrebootAddr m
  else pRequestedIP (mparams m).

(** ** Messages *)

(** [base], the message; the assignment to [nameOnWire] is in [base]. *)
Definition baseMessage (m : Core) (now : Instant) (t : Z) : Message :=
  let p := mparams m in
  let o : Options := {[ OptMessageType := [u8 t] ]} in
  let o := if (0 <? length (pClientID p))%nat then <[OptClientID := pClientID p]> o else o in
  let o := if (0 <? length (pfqdn p))%nat then <[OptFQDN := pfqdn p]> o
           else if negb (bytes_eqb (mhostname m) []) then <[OptHostName := mhostname m]> o else o in
  let o := if negb (bytes_eqb (pVendorClass p) []) then <[OptVendorClassID := pVendorClass p]> o else o in
  let o := if (0 <? length (puserClass p))%nat then <[OptUserClass := puserClass p]> o else o in
  let pl := parameterList p in
  let o := if (0 <? length pl)%nat then
      let b := map u8 pl in
      let b := if pIPv6OnlyPreferred p && negb (listsCode b OptIPv6OnlyPreferred)
               then b ++ [u8 OptIPv6OnlyPreferred] else b in
      <[OptParameterList := b]> o
    else o in
  let o := <[OptForcerenewNonce := EncodeForcerenewNonceCapable]> o in
  let o := if (0 <? pRequestedLease p) && negb (IsInfinite (pRequestedLease p)) then
      let secs := u32 (Seconds (pRequestedLease p)) in
      <[OptLeaseTime := [u8 (Z.shiftr secs 24); u8 (Z.shiftr secs 16); u8 (Z.shiftr secs 8); u8 secs]]> o
    else o in
  mkMessage BootRequest HTypeEthernet 0 0 (mxid m) (secs m now)
    (if pBroadcast p then FlagBroadcast else 0) AddrZero AddrZero AddrZero AddrZero
    (pCHAddr p) [] [] o.

Definition base (now : Instant) (t : Z) : M Message :=
  m ← get;
  let msg := baseMessage m now t in
  mnameOnWire ::= default [] (MOptions msg !! OptHostName) ;;
  mret msg.

(** [msg.Options[c] = v] *)
Definition setOption (msg : Message) (c : OptionCode) (v : bytes) : Message :=
  msg <| MOptions := <[c := v]> (MOptions msg) |>.

(** ** DHCPDECLINE and DHCPRELEASE *)

Definition declineMessage : bytes := ascii_bytes "address already in use".
Definition releaseMessage : bytes := ascii_bytes "no longer required".

Definition terminalFields (m : Core) : Addr * Addr * option Note :=
  let l := heldOrProbing m in
  let addr := paddr (lAddr l) in
  let sid := lServerID l in
  (addr, sid,
   if negb (Is4 addr) || IsUnspecified addr then Some (note "the held lease carries no IPv4 address" [])
   else if negb (Is4 sid) || IsUnspecified sid then
     Some (note "the held lease carries no server identifier (RFC 2131 Table 5 makes it a MUST)" [])
   else None).

Definition terminalBase (m : Core) (t xid : Z) : Message :=
  let o : Options := {[ OptMessageType := [u8 t] ]} in
  let o := if (0 <? length (pClientID (mparams m)))%nat then <[OptClientID := pClientID (mparams m)]> o else o in
  mkMessage BootRequest HTypeEthernet 0 0 xid 0 0 AddrZero AddrZero AddrZero AddrZero
    (pCHAddr (mparams m)) [] [] o.

Definition sendDecline (rnd : Z) : M unit :=
  m ← get;
  let '(addr, sid, why) := terminalFields m in
  match why with
  | Some why => journal (note "DHCPDECLINE not sent:" [] ++ why)
  | None =>
    let msg := terminalBase m MsgDecline (u32 (split rnd 4)) in
    v ← lift (As4 addr);
    let msg := setOption msg OptRequestedIP v in
    sv ← lift (As4 sid);
    let msg := setOption msg OptServerID sv in
    let msg := setOption msg OptMessage declineMessage in
    send msg dest_broadcast
  end.

Definition sendRelease (rnd : Z) : M unit :=
  m ← get;
  let '(addr, sid, why) := terminalFields m in
  match why with
  | Some why => journal (note "DHCPRELEASE not sent:" [] ++ why)
  | None =>
    let msg := terminalBase m MsgRelease (u32 (split rnd 5)) in
    let msg := msg <| CIAddr := addr |> in
    sv ← lift (As4 sid);
    let msg := setOption msg OptServerID sv in
    let msg := setOption msg OptMessage releaseMessage in
    send msg (mkDest false sid addr)
  end.

(** ** Losing and idling *)

Definition dropLease (r : Reason) : M unit :=
  m ← get;
  if negb (mhaveLse m) then mret tt else
  mhaveLse ::= false ;;
  mlease ::= lease_zero ;;
  mfr ::= key_zero ;;
  cancel TimerExpire ;;
  cancel TimerRenew ;;
  cancel TimerRebind ;;
  stamp (ActLeaseLost r) ;; mret tt.

Definition acdIdle : M unit :=
  m ← get;
  match macd m with Some a => macd ::= Some (acd_stop a) | None => mret tt end ;;
  mprobing ::= lease_zero ;;
  mhaveProbe ::= false ;;
  mhaveARPAction ::= false.

Definition toInitIdle : M unit :=
  mstate ::= StateInit ;;
  moffer ::= None ;;
  mretransmits ::= 0 ;;
  acdIdle ;;
  cancelAll.

Definition linkDown : M unit :=
  journal (note "link down during acquisition: parked in INIT" []) ;;
  toInitIdle.

Definition halt (r : Reason) : M unit :=
  dropLease r ;;
  acdIdle ;;
  cancelAll ;;
  mstate ::= StateStopped ;;
  mstarted ::= false ;;
  moffer ::= None ;;
  mretransmits ::= 0 ;;
  msendFailures ::= 0 ;;
  mrestarts ::= 0.

Definition stop : M unit := halt ReasonStopped.

Definition release (rnd : Z) : M unit := sendRelease rnd ;; halt ReasonReleased.

Definition releaseBeforeBound : M unit :=
  journal (note "release with no lease held: stopping, nothing sent (RFC 2131 4.4.6)" []) ;;
  halt ReasonReleased.

(** ** Acquisition *)

Definition sendDiscover (now : Instant) (rnd : Z) : M unit :=
  msg ← base now MsgDiscover;
  m ← get;
  let p := mparams m in
  msg ← (if Is4 (pRequestedIP p) && negb (IsUnspecified (pRequestedIP p)) then
           v ← lift (As4 (pRequestedIP p)); mret (setOption msg OptRequestedIP v)
         else mret msg);
  msg ← (if pRapidCommit p then
           mrequestSentAt ::= now ;; mret (setOption msg OptRapidCommit EncodeRapidCommit)
         else mret msg);
  mstate ::= StateSelecting ;;
  cancel TimerDesync ;;
  send msg dest_broadcast ;;
  setTimer TimerRetransmit (Delay (pDiscover p) (mretransmits m) rnd).

Definition sendRequest (now : Instant) (rnd : Z) : M unit :=
  m ← get;
  match moffer m with
  | None => journal (note "REQUEST with no offer held: restarting" []) ;; toInitIdle
  | Some offer =>
    msg ← base now MsgRequest;
    yi ← lift (As4 (YIAddr offer));
    let msg := setOption msg OptRequestedIP yi in
    msg ← match OptAddr4 (MOptions offer) OptServerID with
          | Some sid => v ← lift (As4 sid); mret (setOption msg OptServerID v)
          | None => mret msg
          end;
    mstate ::= StateRequesting ;;
    mrequestSentAt ::= now ;;
    send msg dest_broadcast ;;
    setTimer TimerRetransmit (Delay (pRequest (mparams m)) (mretransmits m) rnd)
  end.

Definition sendReboot (now : Instant) (rnd : Z) : M unit :=
  msg ← base now MsgRequest;
  m ← get;
  v ← lift (As4 (mrebootAddr m));
  let msg := setOption msg OptRequestedIP v in
  mstate ::= StateRebooting ;;
  mrequestSentAt ::= now ;;
  send msg dest_broadcast ;;
  setTimer TimerRetransmit (Delay (pRequest (mparams m)) (mretransmits m) rnd).

Definition takeResume (now : Instant) : M bool :=
  m ← get;
  match mresume m with
  | None => mret false
  | Some r =>
    mresume ::= None ;;
    if negb (live (Some r) now) then
      journal (note "the remembered lease on %s has expired: acquiring from INIT, because a server with no record of a client must stay silent (RFC 2131 4.3.2)"
                 [AAddr (ResumeAddr r)]) ;;
      mret false
    else
      mrebootAddr ::= ResumeAddr r ;;
      journal (note "INIT-REBOOT: asking to keep %s (RFC 2131 4.4.2)" [AAddr (ResumeAddr r)]) ;;
      mret true
  end.

Definition beginAcquisition (now : Instant) (rnd : Z) (withDesync : bool) : M unit :=
  mstartedAt ::= now ;;
  mstarted ::= true ;;
  mretransmits ::= 0 ;;
  msendFailures ::= 0 ;;
  moffer ::= None ;;
  mrebootAddr ::= AddrZero ;;
  mxid ::= u32 (split rnd 0) ;;
  mstate ::= StateInit ;;
  cancelAll ;;
  taken ← takeResume now;
  if (taken : bool) then sendReboot now (split rnd 3) else
  m ← get;
  let d := if withDesync then desync (mparams m) (split rnd 2) else 0 in
  if d <=? 0 then sendDiscover now (split rnd 3) else
  setTimer TimerDesync d ;;
  journal (note "INIT: waiting %s to desynchronise (RFC 2131 4.4.1)" [ADur d]).

Definition restartPaced (now : Instant) (rnd : Z) (withDesync : bool) : M unit :=
  m ← get;
  let n := mrestarts m in
  mrestarts ::= i64 (n + 1) ;;
  if n =? 0 then beginAcquisition now rnd withDesync else
  toInitIdle ;;
  let d := Delay (pDiscover (mparams m)) (i64 (n - 1)) (split rnd 4) in
  setTimer TimerRestart d ;;
  journal (note "INIT: restart %d in a row without a lease that held, waiting %s (RFC 2131 4.1 backoff)"
             [ANum (i64 (n + 1)); ADur d]).

Definition declineAndRestart (now : Instant) (rnd : Z) : M unit :=
  sendDecline rnd ;;
  dropLease ReasonConflict ;;
  m ← get;
  let limited := match macd m with Some a => rateLimited a | None => false end in
  let conflicts := match macd m with Some a => conflicts a | None => 0 end in
  toInitIdle ;;
  let d := params_restartDelay (mparams m) in
  d ← (if limited then
         m ← get;
         a ← lift (macd m);
         let d := acd_restartDelay a now d in
         journal (note "RFC 5227 2.1.1 rate limit: %d conflicts on this client, next attempt in %s"
                    [ANum conflicts; ADur d]) ;;
         mret d
       else mret d);
  setTimer TimerRestart d ;;
  journal (note "INIT: waiting %s before restarting after DHCPDECLINE (RFC 2131 3.1)" [ADur d]).

(** ** Renewal *)

Definition RenewRetransmitFloor : Duration := 60 * Second.

Definition renewalDelay (m : Core) (now : Instant) : Duration :=
  let d := LeaseDeadlines (mlease m) in
  let until :=
    match dRebind d with
    | Some t => if state_eqb (mstate m) StateRenewing then Some t else dExpire d
    | None => dExpire d
    end in
  match until with
  | None => RenewRetransmitFloor
  | Some until =>
    let half := Z.quot (Sub until now) 2 in
    if half <? RenewRetransmitFloor then RenewRetransmitFloor else half
  end.

Definition sendRenewal (now : Instant) : M unit :=
  msg ← base now MsgRequest;
  m ← get;
  let msg := msg <| CIAddr := paddr (lAddr (mlease m)) |> in
  mrequestSentAt ::= now ;;
  (if state_eqb (mstate m) StateRenewing
   then send msg (mkDest false (lServerID (mlease m)) (CIAddr msg))
   else send msg dest_broadcast) ;;
  setTimer TimerRetransmit (renewalDelay m now).

Definition beginRenewalTransaction (now : Instant) (rnd : Z) : M unit :=
  mxid ::= u32 (split rnd 0) ;;
  mstartedAt ::= now ;;
  mstarted ::= true ;;
  mretransmits ::= 0 ;;
  msendFailures ::= 0 ;;
  moffer ::= None.

Definition enterRenewing (now : Instant) (rnd : Z) : M unit :=
  m ← get;
  let sid := lServerID (mlease m) in
  if negb (Is4 sid) || IsUnspecified sid then
    journal (note "no server identifier in the lease: staying in BOUND until T2, where the DHCPREQUEST is broadcast (RFC 2131 4.4.5)" [])
  else
    beginRenewalTransaction now rnd ;;
    mstate ::= StateRenewing ;;
    sendRenewal now.

Definition enterRebinding (now : Instant) (rnd : Z) (fresh : bool) : M unit :=
  when fresh (beginRenewalTransaction now rnd) ;;
  mstate ::= StateRebinding ;;
  sendRenewal now.

(** ** The host name (proto/machine_hostname.go) *)

Definition announceHostname (now : Instant) (rnd : Z) : M bool :=
  m ← get;
  if negb (sendsHostname m) || bytes_eqb (mhostname m) (mnameOnWire m) || bytes_eqb (mhostname m) []
  then mret false else
  match mstate m with
  | StateBound =>
    enterRenewing now rnd ;;
    m ← get;
    mret (state_eqb (mstate m) StateRenewing)
  | StateRenewing | StateRebinding => sendRenewal now ;; mret true
  | _ => mret false
  end.

Definition takeHostname (now : Instant) (rnd : Z) (name : gostring) : M unit :=
  m ← get;
  if negb (sendsHostname m) then
    journal (note "hostname ignored: this client sends option 81, which RFC 4702 section 3.1 forbids the Host Name option beside" [])
  else if negb (ValidateHostname name) then
    journal (note "hostname refused: proto: hostname cannot be sent in option 12" [])
  else
    mhostname ::= name ;;
    sent ← announceHostname now rnd;
    if (sent : bool) then mret tt else
    m ← get;
    journal (note "hostname %q recorded in %s: option 12 carries %q and no message was sent"
               [AText (mhostname m); AState (mstate m); AText (mnameOnWire m)]).

(** ** Forcerenew: the key (proto/machine_forcerenew.go) *)

(** [settleForcerenew]: the lease with its key settled, and the new key. *)
Definition settleForcerenew (m : Core) (l : Lease) (renewal : bool) : Lease * forcerenewKey :=
  if (length (lForcerenewNonce l) =? ForcerenewNonceLen)%nat then
    let same := renewal && frHave (mfr m) && bytes_eqb (frNonce (mfr m)) (lForcerenewNonce l) in
    let l := if same && (lForcerenewReplay l <? frFloor (mfr m))
             then l <| lForcerenewReplay := frFloor (mfr m) |> else l in
    (l, mkKey true (lForcerenewNonce l) (lForcerenewReplay l))
  else if renewal && frHave (mfr m) && addr_eqb (lServerID l) (lServerID (mlease m)) then
    (l <| lForcerenewNonce := frNonce (mfr m) |> <| lForcerenewReplay := frFloor (mfr m) |>, mfr m)
  else (l <| lForcerenewNonce := [] |> <| lForcerenewReplay := 0 |>, key_zero).

(** ** BOUND *)

Definition armDeadline (now : Instant) (t : TimerID) (ts : option Instant) : M unit :=
  match ts with
  | None => cancel t
  | Some ts =>
    let d := Sub ts now in
    setTimer t (if d <? 0 then 0 else d)
  end.

Definition sendARP (p : ARPPacket) : M unit :=
  id ← stamp (ActSendARP p);
  marpAction ::= id ;;
  mhaveARPAction ::= true.

(** [enterBound] starts a conflict check, whose actions can end in [enterBound]:
    the recursion of the source is closed below, and [apply] is [applyACD]. *)
Section recursion.
Variable apply : Instant -> Z -> list acdAction -> M unit.

Definition startACD_ (now : Instant) (rnd : Z) (addr : Addr) : M unit :=
  m ← get;
  match macd m with
  | None => mret tt
  | Some a =>
    let '(a, acts) := acdStep a now rnd (acdEvStart addr) in
    macd ::= Some a ;;
    apply now rnd acts
  end.

Definition enterBound_ (now : Instant) (rnd : Z) (l : Lease) (renewal : bool) : M unit :=
  m ← get;
  let prev := mlease m in
  let hadPrev := mhaveLse m in
  cancel TimerRetransmit ;;
  m ← get;
  let '(l, key) := settleForcerenew m l (renewal && hadPrev) in
  mfr ::= key ;;
  mlease ::= l ;;
  mhaveLse ::= true ;;
  mstate ::= StateBound ;;
  moffer ::= None ;;
  mretransmits ::= 0 ;;
  msendFailures ::= 0 ;;
  let d := LeaseDeadlines l in
  when (negb (note_empty (dNote d))) (journal (dNote d)) ;;
  when (match dExpire d with Some e => Sub e now <? 0 | None => false end)
    (journal (note "DHCPACK grants a lease that has already expired" [])) ;;
  when (match dExpire d with Some _ => false | None => true end)
    (journal (note "lease is infinite: no expiry timer armed" [])) ;;
  when (match dExpire d with Some e => 0 <? Sub e now | None => true end) (mrestarts ::= 0) ;;
  armDeadline now TimerExpire (dExpire d) ;;
  armDeadline now TimerRenew (dRenew d) ;;
  armDeadline now TimerRebind (dRebind d) ;;
  if negb renewal then
    m ← get;
    stamp (ActLeaseAcquired l (requestedAddr m)) ;;
    announceHostname now rnd ;;
    mret tt
  else
    stamp (ActLeaseRenewed l) ;;
    when (hadPrev && negb (LeaseEqual prev l))
      (when (negb (bool_decide (lAddr prev = lAddr l)))
         (journal (note "renewal moved the address from %s to %s" [APrefix (lAddr prev); APrefix (lAddr l)]) ;;
          startACD_ now rnd (paddr (lAddr l))) ;;
       stamp (ActLeaseChanged l) ;; mret tt).

Definition acdReady_ (now : Instant) (rnd : Z) : M unit :=
  m ← get;
  if negb (mhaveProbe m) then journal (note "RFC 5227 2.1 probing completed with no conflict" []) else
  let l := mprobing m in
  mprobing ::= lease_zero ;;
  mhaveProbe ::= false ;;
  journal (note "%s is free (RFC 5227 2.1): taking the lease" [AAddr (paddr (lAddr l))]) ;;
  enterBound_ now rnd l false.

Definition applyACDAction_ (now : Instant) (rnd : Z) (x : acdAction) : M unit :=
  match x with
  | acdSetTimer after => setTimer TimerACD after
  | acdCancelTimer => cancel TimerACD
  | acdSendProbe => m ← get; a ← lift (macd m); sendARP (probe a)
  | acdSendAnnounce => m ← get; a ← lift (macd m); sendARP (announcement a)
  | acdReady => acdReady_ now rnd
  | acdConflict why =>
    journal (note "address conflict:" [] ++ why) ;;
    m ← get;
    let held := mhaveLse m in
    declineAndRestart now rnd ;;
    when (negb held) (failed ReasonConflict why)
  | acdNote text => journal text
  end.

Definition applyACD_ (now : Instant) (rnd : Z) (acts : list acdAction) : M unit :=
  forM_ acts (applyACDAction_ now rnd).
End recursion.

(** [applyACD] calls [acdReady] calls [enterBound] calls [startACD] calls
    [applyACD]; the depth is bounded by [n], and a call below it does not
    return. *)
Fixpoint applyACD (n : nat) : Instant -> Z -> list acdAction -> M unit :=
  match n with
  | O => fun _ _ _ => panic
  | S n => applyACD_ (applyACD n)
  end.

(** Two levels are enough: [acdReady] enters BOUND as an acquisition, and only a
    renewal starts a check there. *)
Definition acdDepth : nat := 2.

Definition startACD := startACD_ (applyACD acdDepth).
Definition enterBound := enterBound_ (applyACD acdDepth).

Definition onARP (now : Instant) (rnd : Z) (pkt : option ARPPacket) : M unit :=
  m ← get;
  match macd m with
  | None => journal (note "ARP packet delivered to a client with conflict detection off: ignored" [])
  | Some a =>
    match pkt with
    | None => journal (note "ARP event with no packet: ignored" [])
    | Some _ =>
      let '(a, acts) := acdStep a now rnd (acdEvARP pkt) in
      macd ::= Some a ;;
      applyACD acdDepth now rnd acts
    end
  end.

Definition acdTimer (now : Instant) (rnd : Z) : M unit :=
  m ← get;
  match macd m with
  | None => journal (note "ACD timer fired on a client with conflict detection off: ignored" [])
  | Some a =>
    let '(a, acts) := acdStep a now rnd acdEvTimer in
    macd ::= Some a ;;
    applyACD acdDepth now rnd acts
  end.

Definition enterProbing (now : Instant) (rnd : Z) (l : Lease) : M unit :=
  cancel TimerRetransmit ;;
  mprobing ::= l ;;
  mhaveProbe ::= true ;;
  mstate ::= StateProbing ;;
  moffer ::= None ;;
  mretransmits ::= 0 ;;
  msendFailures ::= 0 ;;
  journal (note "DHCPACK for %s: checking it is free before use (RFC 5227 2.1)" [AAddr (paddr (lAddr l))]) ;;
  startACD now rnd (paddr (lAddr l)).

Definition afterAck (now : Instant) (rnd : Z) (l : Lease) : M unit :=
  m ← get;
  match pConflict (mparams m) with
  | ConflictWait => enterProbing now rnd l
  | ConflictAsync => startACD now rnd (paddr (lAddr l)) ;; enterBound now rnd l false
  | ConflictOff => enterBound now rnd l false
  end.

(** ** What is accepted *)

(** [acceptable]: the message, or the reason it is discarded with. *)
Definition acceptableWhy (m : Core) (msg : option Message) : Message + Note :=
  match msg with
  | None => inr (note "nil message: discarded" [])
  | Some msg =>
    if negb (Op msg =? BootReply) then inr (note "%s is not a BOOTREPLY: discarded" [AOp (Op msg)]) else
    match Type_ msg with
    | None => inr (note "message carries no DHCP message type: discarded" [])
    | Some _ =>
      if negb (XID msg =? mxid m) then
        inr (note "xid %#08x does not match %#08x: discarded" [ANum (XID msg); ANum (mxid m)]) else
      let sid := default AddrZero (OptAddr4 (MOptions msg) OptServerID) in
      let hasSID := match OptAddr4 (MOptions msg) OptServerID with Some _ => true | None => false end in
      match permits (pServers (mparams m)) sid hasSID with
      | Some why => inr (why ++ note "discarded" [])
      | None =>
        if negb (chaddrMatches m msg) then inr (note "chaddr does not match: discarded" [])
        else inl msg
      end
    end
  end.

Definition acceptable (msg : option Message) : M (option Message) :=
  m ← get;
  match acceptableWhy m msg with
  | inl msg => mret (Some msg)
  | inr why => journal why ;; mret None
  end.

(** ** IPv6-only preferred (proto/ipv6only.go) *)

Definition MinV6OnlyWait : Duration := 300 * Second.

Definition v6OnlyWait (secs : Z) : Duration :=
  let d := i64 (secs * Second) in
  if d <? MinV6OnlyWait then MinV6OnlyWait else d.

Definition v6OnlyValue (msg : option Message) : M (option Z) :=
  m ← get;
  match msg with
  | None => mret None
  | Some msg =>
    if negb (pIPv6OnlyPreferred (mparams m)) then mret None else
    match IPv6OnlyPreferred (MOptions msg) with
    | None => mret None
    | Some (Ok secs) => mret (Some secs)
    | Some (Err e) =>
      mv6OnlyCounts ::= mv6OnlyCounts m <| Malformed := u64 (Malformed (mv6OnlyCounts m) + 1) |> ;;
      journal (note "option 108 ignored: %v" [AErr e]) ;;
      mret None
    | Some _ => panic
    end
  end.

Definition waitForIPv6 (now : Instant) (from : State) (secs : Z) : M unit :=
  m ← get;
  mv6OnlyCounts ::= mv6OnlyCounts m <| Waited := u64 (Waited (mv6OnlyCounts m) + 1) |> ;;
  let d := v6OnlyWait secs in
  toInitIdle ;;
  failed ReasonIPv6OnlyPreferred (note "option 108 in %s: DHCPv4 paused for %s" [AState from; ADur d]) ;;
  setTimer TimerRestart d ;;
  journal (note "INIT: IPv6-only preferred, waiting %s before restarting (RFC 8925 3.2)" [ADur d]).

Definition noteV6OnlyKept (msg : option Message) (state : State) : M unit :=
  match msg with
  | None => mret tt
  | Some ms =>
    if negb (msgType ms =? MsgAck) then mret tt else
    v ← v6OnlyValue msg;
    match v with
    | None => mret tt
    | Some _ =>
      m ← get;
      mv6OnlyCounts ::= mv6OnlyCounts m <| Ignored := u64 (Ignored (mv6OnlyCounts m) + 1) |> ;;
      journal (note "DHCPACK with option 108 in %s: lease kept" [AState state])
    end
  end.

(** ** Rapid commit (proto/rapidcommit.go) *)

Definition hasRapidOption (msg : option Message) : bool :=
  match msg with
  | None => false
  | Some msg => match MOptions msg !! OptRapidCommit with Some _ => true | None => false end
  end.

Definition refuseRapid (state : State) (why : string) : M unit :=
  m ← get;
  mrapidCounts ::= mrapidCounts m <| RapidRefused := u64 (RapidRefused (mrapidCounts m) + 1) |> ;;
  journal (note "DHCPACK with Rapid Commit in %s: refused, %s" [AState state; AStr why]).

Definition takeRapidAck (now : Instant) (rnd : Z) (msg : Message) : M unit :=
  m ← get;
  match RapidCommit (MOptions msg) with
  | Err _ => refuseRapid StateSelecting "option 80 is malformed"
  | Panic | Hang => panic
  | Ok _ =>
    if negb (pRapidCommit (mparams m)) then
      refuseRapid StateSelecting "the DHCPDISCOVER did not ask for it" else
    if match OptAddr4 (MOptions msg) OptServerID with Some sid => IsUnspecified sid | None => true end then
      refuseRapid StateSelecting "no usable server identifier" else
    r ← liftw (leaseFromAck msg (mrequestSentAt m));
    match r with
    | None => refuseRapid StateSelecting "no usable yiaddr and lease time"
    | Some (lse, n) =>
      if (lLeaseTime lse <=? 0) && negb (IsInfinite (lLeaseTime lse)) then
        refuseRapid StateSelecting "lease time is 0" else
      mrapidCounts ::= mrapidCounts m <| RapidAccepted := u64 (RapidAccepted (mrapidCounts m) + 1) |> ;;
      journal (note "DHCPACK with Rapid Commit for %s from %s: lease taken, no DHCPREQUEST sent"
                 [AAddr (paddr (lAddr lse)); AAddr (lServerID lse)]) ;;
      when (negb (note_empty n)) (journal n) ;;
      noteV6OnlyKept (Some msg) StateSelecting ;;
      afterAck now rnd lse
    end
  end.

(** [refusesRapidInRequesting]: the verdict; the caller journals the refusal. *)
Definition refusesRapid (m : Core) (msg : Message) : bool :=
  match moffer m with
  | None => false
  | Some offer =>
    if negb (pRapidCommit (mparams m)) || negb (hasRapidOption (Some msg)) then false else
    let offered := default AddrZero (OptAddr4 (MOptions offer) OptServerID) in
    let sid := default AddrZero (OptAddr4 (MOptions msg) OptServerID) in
    negb (is_ok (RapidCommit (MOptions msg)) && addr_eqb sid offered && addr_eqb (YIAddr msg) (YIAddr offer))
  end.

Definition refusesRapidInRequesting (msg : Message) : M bool :=
  m ← get;
  if refusesRapid m msg then
    refuseRapid StateRequesting "it does not answer the offer being requested" ;; mret true
  else mret false.

(** ** Forcerenew: the message (proto/machine_forcerenew.go) *)

Definition offerCarried145 (m : Core) : bool :=
  match moffer m with
  | None => false
  | Some offer =>
    match ForcerenewNonceAlgorithms (MOptions offer) with Some (Ok _) => true | _ => false end
  end.

Definition refusesAckWithoutNonce (msg : Message) : M bool :=
  m ← get;
  if negb (offerCarried145 m) then mret false else
  a ← liftw (validForcerenewNonce msg);
  mret (match a with Some _ => false | None => true end).

Definition refuseForcerenew (why : ForcerenewRefusal) : M unit :=
  m ← get;
  mfrCounts ::= mfrCounts m <| FrRefused := fun r =>
    if decide (r = why) then u64 (FrRefused (mfrCounts m) r + 1) else FrRefused (mfrCounts m) r |> ;;
  journal (note "DHCPFORCERENEW refused: %s" [ARefusal why]).

(** [last[i/8] |= 1 << (7 - uint(i%8))] for [i] from [bits] to 31. *)
Definition setHostBits (bits : nat) (last : bytes) : bytes :=
  foldl (fun b i => alter (fun x => Z.lor x (u8 (Z.shiftl 1 (7 - Z.of_nat (i mod 8))))) (i / 8)%nat b)
    last (seq bits (32 - bits)).

(** [None] is the panic of [As4] on a lease without an IPv4 prefix. *)
Definition forcerenewDestinationIsUnicast (m : Core) (dst : Addr) : option bool :=
  let d := Unmap dst in
  if negb (Is4 d) || IsUnspecified d || IsMulticast d || addr_eqb d addr_broadcast then Some false else
  let p := Masked (lAddr (mlease m)) in
  if pbits p <? 31 then
    match As4 (paddr p) with
    | None => None
    | Some last => Some (negb (addr_eqb d (AddrFrom4 (setHostBits (Z.to_nat (pbits p)) last))))
    end
  else Some true.

Definition takeForcerenew (now : Instant) (rnd : Z) (msg : Message) (raw : bytes) (dst : Addr) : M unit :=
  m ← get;
  if negb (state_eqb (mstate m) StateBound || state_eqb (mstate m) StateRenewing
           || state_eqb (mstate m) StateRebinding) then refuseForcerenew ForcerenewRefusalWrongState else
  if (length raw =? 0)%nat then refuseForcerenew ForcerenewRefusalNoRaw else
  unicast ← lift (forcerenewDestinationIsUnicast m dst);
  if negb (unicast : bool) then refuseForcerenew ForcerenewRefusalNotUnicast else
  let own := paddr (lAddr (mlease m)) in
  if negb (addr_eqb (Unmap dst) own) then refuseForcerenew ForcerenewRefusalNotOurAddress else
  if negb (Op msg =? BootReply) || negb (chaddrMatches m msg) || negb (addr_eqb (CIAddr msg) own)
    then refuseForcerenew ForcerenewRefusalNotThisClient else
  if negb (frHave (mfr m)) then refuseForcerenew ForcerenewRefusalNoNonce else
  match GetForcerenewAuth (MOptions msg) with
  | None => refuseForcerenew ForcerenewRefusalNoAuth
  | Some (Err _) => refuseForcerenew ForcerenewRefusalMalformedAuth
  | Some Panic | Some Hang => panic
  | Some (Ok a) =>
    if negb (AuthType a =? ForcerenewTypeDigest) then refuseForcerenew ForcerenewRefusalMalformedAuth else
    if AuthReplay a <=? frFloor (mfr m) then refuseForcerenew ForcerenewRefusalReplay else
    match VerifyForcerenew raw (frNonce (mfr m)) with
    | Err e =>
      if bool_decide (e = ErrForcerenewDigest) then refuseForcerenew ForcerenewRefusalBadDigest
      else refuseForcerenew ForcerenewRefusalMalformedAuth
    | Panic | Hang => panic
    | Ok _ =>
      if negb (state_eqb (mstate m) StateBound) then
        mfr ::= mfr m <| frFloor := AuthReplay a |> ;;
        mfrCounts ::= mfrCounts m <| FrAlreadyRenewing := u64 (FrAlreadyRenewing (mfrCounts m) + 1) |> ;;
        journal (note "DHCPFORCERENEW accepted in %s: already renewing" [AState (mstate m)])
      else
      if negb (Is4 (lServerID (mlease m))) || IsUnspecified (lServerID (mlease m))
        then refuseForcerenew ForcerenewRefusalNoServer else
      mfr ::= mfr m <| frFloor := AuthReplay a |> ;;
      mfrCounts ::= mfrCounts m <| FrRenewed := u64 (FrRenewed (mfrCounts m) + 1) |> ;;
      journal (note "DHCPFORCERENEW accepted: renewing now (RFC 3203 section 2.2)" []) ;;
      enterRenewing now rnd
    end
  end.

(** ** Failed actions *)

Definition noteActionFailed (now : Instant) (rnd : Z) (id : ActionID) (reason : gostring) : M unit :=
  m ← get;
  if mhaveARPAction m && (id =? marpAction m) then
    mhaveARPAction ::= false ;;
    journal (note "%s failed (%s): an RFC 5227 ARP packet did not leave the host, so this address's conflict check is incomplete"
               [AAction id; AText reason])
  else
    let n := i64 (msendFailures m + 1) in
    msendFailures ::= n ;;
    journal (note "%s failed (%s), consecutive failures %d" [AAction id; AText reason; ANum n]) ;;
    if state_eqb (mstate m) StateRenewing || state_eqb (mstate m) StateRebinding then
      setTimer TimerRetransmit (renewalDelay m now)
    else if (0 <? pMaxSendFailures (mparams m)) && (pMaxSendFailures (mparams m) <=? n) then
      failed ReasonTransport (note "%d consecutive send failures: %s" [ANum n; AText reason]) ;;
      dropLease ReasonTransport ;;
      when (negb (state_eqb (mstate m) StateInit)) toInitIdle
    else
      match mstate m with
      | StateSelecting =>
        setTimer TimerRetransmit (Delay (pDiscover (mparams m)) (mretransmits m) rnd)
      | StateRequesting | StateRebooting =>
        setTimer TimerRetransmit (Delay (pRequest (mparams m)) (mretransmits m) rnd)
      | _ => mret tt
      end.

(** ** Steps *)

Definition ignoredIn (ev : Event) (where_ : string) : M unit :=
  journal (note "%s ignored in %s" [AStr (KindString ev); AStr where_]).

Definition stepStopped (now : Instant) (rnd : Z) (ev : Event) : M unit :=
  match ev with
  | EvStart => beginAcquisition now rnd true
  | EvStop => journal (note "already stopped" [])
  | EvActionFailed id reason =>
    journal (note "%s failed (%s) after the machine stopped: the lease is given up locally, and the server may still hold the binding (RFC 2131 4.4.6)"
               [AAction id; AText reason])
  | EvSetHostname name => takeHostname now rnd name
  | _ => ignoredIn ev "STOPPED"
  end.

Definition stepInit (now : Instant) (rnd : Z) (ev : Event) : M unit :=
  match ev with
  | EvStart => beginAcquisition now rnd true
  | EvStop => stop
  | EvRelease => releaseBeforeBound
  | EvTimerFired TimerDesync => sendDiscover now rnd
  | EvTimerFired TimerRestart => beginAcquisition now rnd false
  | EvTimerFired t => journal (note "timer %s fired in INIT: ignored" [ATimer t])
  | EvLinkUp => beginAcquisition now rnd true
  | EvActionFailed id reason => noteActionFailed now rnd id reason
  | EvSetHostname name => takeHostname now rnd name
  | EvReceived msg _ _ =>
    if hasRapidOption msg && (match msg with Some ms => msgType ms =? MsgAck | None => false end) then
      refuseRapid StateInit "no DHCPDISCOVER is outstanding"
    else ignoredIn ev "INIT"
  | _ => ignoredIn ev "INIT"
  end.

Definition stepSelecting (now : Instant) (rnd : Z) (ev : Event) : M unit :=
  match ev with
  | EvStop => stop
  | EvRelease => releaseBeforeBound
  | EvReceived msg _ _ =>
    r ← acceptable msg;
    match r with
    | None => mret tt
    | Some msg =>
      let t := msgType msg in
      if t =? MsgOffer then
        v ← v6OnlyValue (Some msg);
        match v with
        | Some secs => waitForIPv6 now StateSelecting secs
        | None =>
          if negb (Is4 (YIAddr msg)) || IsUnspecified (YIAddr msg)
             || match OptAddr4 (MOptions msg) OptServerID with Some sid => IsUnspecified sid | None => true end
          then journal (note "DHCPOFFER without a usable yiaddr and server identifier: discarded" [])
          else
            moffer ::= Some msg ;;
            mretransmits ::= 0 ;;
            sendRequest now rnd
        end
      else if (t =? MsgAck) && hasRapidOption (Some msg) then takeRapidAck now rnd msg
      else journal (note "%s in SELECTING: discarded" [AType t])
    end
  | EvTimerFired TimerRetransmit =>
    m ← get;
    if Exhausted (pDiscover (mparams m)) (mretransmits m) then
      failed ReasonNoServer (note "no DHCPOFFER after the retransmission budget; restarting" []) ;;
      beginAcquisition now (split rnd 1) false
    else
      mretransmits ::= i64 (mretransmits m + 1) ;;
      sendDiscover now rnd
  | EvTimerFired t => journal (note "timer %s fired in SELECTING: ignored" [ATimer t])
  | EvLinkDown => linkDown
  | EvActionFailed id reason => noteActionFailed now rnd id reason
  | EvSetHostname name => takeHostname now rnd name
  | _ => ignoredIn ev "SELECTING"
  end.

Definition nakRestart (now : Instant) (rnd : Z) (msg : Message) : M unit :=
  cancel TimerRetransmit ;;
  failed ReasonNak (nakText msg) ;;
  restartPaced now (split rnd 1) false.

Definition noUsableAck : M unit :=
  journal (note "DHCPACK without a usable yiaddr and lease time: discarded" []).

Definition stepRequesting (now : Instant) (rnd : Z) (ev : Event) : M unit :=
  match ev with
  | EvStop => stop
  | EvRelease => releaseBeforeBound
  | EvReceived msg _ _ =>
    r ← acceptable msg;
    match r with
    | None => mret tt
    | Some msg =>
      let t := msgType msg in
      if t =? MsgAck then
        refused ← refusesRapidInRequesting msg;
        if (refused : bool) then mret tt else
        noNonce ← refusesAckWithoutNonce msg;
        if (noNonce : bool) then
          m ← get;
          mfrCounts ::= mfrCounts m <| FrAckRefused := u64 (FrAckRefused (mfrCounts m) + 1) |> ;;
          journal (note "DHCPACK without a valid option 90 after an OFFER with option 145: discarded, back to INIT (RFC 6704 section 3.1.4)" []) ;;
          restartPaced now (split rnd 1) true
        else
        noteV6OnlyKept (Some msg) StateRequesting ;;
        m ← get;
        l ← liftw (leaseFromAck msg (mrequestSentAt m));
        match l with
        | None => noUsableAck
        | Some (lse, n) => when (negb (note_empty n)) (journal n) ;; afterAck now rnd lse
        end
      else if t =? MsgNak then nakRestart now rnd msg
      else if t =? MsgOffer then journal (note "DHCPOFFER in REQUESTING: discarded" [])
      else journal (note "%s in REQUESTING: discarded" [AType t])
    end
  | EvTimerFired TimerRetransmit =>
    m ← get;
    if Exhausted (pRequest (mparams m)) (mretransmits m) then
      failed ReasonNoServer (note "no DHCPACK after the retransmission budget; restarting" []) ;;
      beginAcquisition now (split rnd 1) false
    else
      mretransmits ::= i64 (mretransmits m + 1) ;;
      sendRequest now rnd
  | EvTimerFired t => journal (note "timer %s fired in REQUESTING: ignored" [ATimer t])
  | EvLinkDown => linkDown
  | EvActionFailed id reason => noteActionFailed now rnd id reason
  | EvSetHostname name => takeHostname now rnd name
  | _ => ignoredIn ev "REQUESTING"
  end.

Definition stepRebooting (now : Instant) (rnd : Z) (ev : Event) : M unit :=
  match ev with
  | EvStop => stop
  | EvStart => journal (note "Start in REBOOTING: already running" [])
  | EvRelease => releaseBeforeBound
  | EvReceived msg _ _ =>
    r ← acceptable msg;
    match r with
    | None => mret tt
    | Some msg =>
      let t := msgType msg in
      if t =? MsgAck then
        v ← v6OnlyValue (Some msg);
        match v with
        | Some secs => waitForIPv6 now StateRebooting secs
        | None =>
          m ← get;
          l ← liftw (leaseFromAck msg (mrequestSentAt m));
          match l with
          | None => noUsableAck
          | Some (lse, n) => when (negb (note_empty n)) (journal n) ;; afterAck now rnd lse
          end
        end
      else if t =? MsgNak then nakRestart now rnd msg
      else if t =? MsgOffer then journal (note "DHCPOFFER in REBOOTING: discarded (RFC 2131 Figure 5)" [])
      else journal (note "%s in REBOOTING: discarded" [AType t])
    end
  | EvTimerFired TimerRetransmit =>
    m ← get;
    if Exhausted (pRequest (mparams m)) (mretransmits m) then
      failed ReasonNoServer (note "no answer to the INIT-REBOOT DHCPREQUEST after the retransmission budget; acquiring from INIT" []) ;;
      beginAcquisition now (split rnd 1) false
    else
      mretransmits ::= i64 (mretransmits m + 1) ;;
      sendReboot now rnd
  | EvTimerFired t => journal (note "timer %s fired in REBOOTING: ignored" [ATimer t])
  | EvLinkDown => linkDown
  | EvActionFailed id reason => noteActionFailed now rnd id reason
  | EvSetHostname name => takeHostname now rnd name
  | _ => ignoredIn ev "REBOOTING"
  end.

Definition stepBound (now : Instant) (rnd : Z) (ev : Event) : M unit :=
  match ev with
  | EvStop => stop
  | EvTimerFired TimerExpire => dropLease ReasonExpired ;; restartPaced now rnd false
  | EvTimerFired TimerRenew => enterRenewing now rnd
  | EvTimerFired TimerRebind => enterRebinding now rnd true
  | EvTimerFired TimerACD => acdTimer now rnd
  | EvTimerFired t => journal (note "timer %s fired in BOUND: ignored" [ATimer t])
  | EvLinkDown => dropLease ReasonLinkDown ;; toInitIdle
  | EvAddressLost => dropLease ReasonAddressLost ;; beginAcquisition now rnd false
  | EvConflictDetected => declineAndRestart now rnd
  | EvARPReceived p => onARP now rnd p
  | EvRelease => release rnd
  | EvStart => journal (note "Start in BOUND: already running" [])
  | EvReceived msg _ _ =>
    noteV6OnlyKept msg StateBound ;;
    journal (note "message in BOUND with no transaction open: discarded" [])
  | EvActionFailed id reason => noteActionFailed now rnd id reason
  | EvSetHostname name => takeHostname now rnd name
  | _ => ignoredIn ev "BOUND"
  end.

Definition stepRenewal (now : Instant) (rnd : Z) (ev : Event) : M unit :=
  m ← get;
  let st := mstate m in
  match ev with
  | EvStop => stop
  | EvStart => journal (note "Start in %s: already running" [AState st])
  | EvRelease => release rnd
  | EvConflictDetected => declineAndRestart now rnd
  | EvARPReceived p => onARP now rnd p
  | EvReceived msg _ _ =>
    r ← acceptable msg;
    match r with
    | None => mret tt
    | Some msg =>
      let t := msgType msg in
      if t =? MsgAck then
        noteV6OnlyKept (Some msg) st ;;
        m ← get;
        l ← liftw (leaseFromAck msg (mrequestSentAt m));
        match l with
        | None => noUsableAck
        | Some (lse, n) => when (negb (note_empty n)) (journal n) ;; enterBound now rnd lse true
        end
      else if t =? MsgNak then
        dropLease ReasonNak ;;
        failed ReasonNak (nakText msg) ;;
        restartPaced now (split rnd 1) false
      else journal (note "%s in %s: discarded" [AType t; AState st])
    end
  | EvTimerFired TimerRetransmit => sendRenewal now
  | EvTimerFired TimerRebind =>
    if negb (state_eqb st StateRenewing) then journal (note "timer rebind fired in REBINDING: ignored" [])
    else enterRebinding now rnd false
  | EvTimerFired TimerExpire => dropLease ReasonExpired ;; restartPaced now rnd false
  | EvTimerFired TimerACD => acdTimer now rnd
  | EvTimerFired t => journal (note "timer %s fired in %s: ignored" [ATimer t; AState st])
  | EvLinkDown => dropLease ReasonLinkDown ;; toInitIdle
  | EvAddressLost => dropLease ReasonAddressLost ;; beginAcquisition now rnd false
  | EvActionFailed id reason => noteActionFailed now rnd id reason
  | EvSetHostname name => takeHostname now rnd name
  | _ => journal (note "%s ignored in %s" [AStr (KindString ev); AState st])
  end.

Definition stepProbing (now : Instant) (rnd : Z) (ev : Event) : M unit :=
  match ev with
  | EvStop => stop
  | EvStart => journal (note "Start in PROBING: already running" [])
  | EvRelease => release rnd
  | EvTimerFired TimerACD => acdTimer now rnd
  | EvTimerFired t => journal (note "timer %s fired in PROBING: ignored" [ATimer t])
  | EvARPReceived p => onARP now rnd p
  | EvConflictDetected => declineAndRestart now rnd
  | EvLinkDown =>
    journal (note "link down while probing: the ACKed address is abandoned unchecked" []) ;; toInitIdle
  | EvAddressLost => journal (note "AddressLost in PROBING: no address is configured yet, ignored" [])
  | EvReceived _ _ _ => journal (note "message in PROBING with no transaction open: discarded" [])
  | EvActionFailed id reason => noteActionFailed now rnd id reason
  | EvSetHostname name => takeHostname now rnd name
  | _ => ignoredIn ev "PROBING"
  end.

(** The dispatch on the state. *)
Definition stepState (st : State) (now : Instant) (rnd : Z) (ev : Event) : M unit :=
  match st with
  | StateStopped => stepStopped now rnd ev
  | StateInit => stepInit now rnd ev
  | StateSelecting => stepSelecting now rnd ev
  | StateRequesting => stepRequesting now rnd ev
  | StateBound => stepBound now rnd ev
  | StateRenewing | StateRebinding => stepRenewal now rnd ev
  | StateRebooting => stepRebooting now rnd ev
  | StateProbing => stepProbing now rnd ev
  end.

Definition step (now : Instant) (rnd : Z) (ev : Event) : M unit :=
  m ← get;
  match ev with
  | EvReceived (Some msg) raw dst =>
    if bool_decide (Type_ msg = Some MsgForceRenew) then takeForcerenew now rnd msg raw dst
    else stepState (mstate m) now rnd ev
  | _ => stepState (mstate m) now rnd ev
  end.

(** [Step]: the new machine, its state and the actions in order; [None] is a
    run-time panic. *)
Definition Step (m : Machine) (now : Instant) (rnd : Z) (ev : Event) : option (Machine * State * list Action) :=
  match step now rnd ev (mkSt (mcore m) (mnextAction m) []) with
  | Some (_, s) => Some (mkMachine (core s) (next s), mstate (core s), out s)
  | None => None
  end.

(** ** Runs *)

Record Input := mkInput { inNow : Instant; inRnd : Z; inEv : Event }.

(** A sequence of steps, with the machine after each and its actions. *)
Fixpoint run (m : Machine) (ins : list Input) : option (Machine * list (list Action)) :=
  match ins with
  | [] => Some (m, [])
  | i :: rest =>
    match Step m (inNow i) (inRnd i) (inEv i) with
    | None => None
    | Some (m, _, acts) =>
      match run m rest with
      | None => None
      | Some (m, outs) => Some (m, acts :: outs)
      end
    end
  end.
