(* ===== verification/MachineSpec.v ===== *)
(** * What the machine promises

    The specification side of the DHCPv4 machine: the message shapes of RFC 2131
    Table 5, the environment an observer of the actions keeps (which timers are
    armed, whether a lease has been announced, when the last request was sent,
    which ARP packet went out last), and what an observer may see next.  Nothing
    here is code of the repository. *)

From S2P Require Import Prelude NetAddr Options Codec Forcerenew Values Arp Backoff Kinds Lease Acd Params Core Machine.

(** ** RFC 2131 Table 5 *)

Definition has (m : Message) (c : OptionCode) : Prop := is_Some (MOptions m !! c).
Definition hasnt (m : Message) (c : OptionCode) : Prop := MOptions m !! c = None.

(** The option carries this address. *)
Definition carries (m : Message) (c : OptionCode) (a : Addr) : Prop :=
  exists v, As4 a = Some v /\ MOptions m !! c = Some v.

(** What every message of the client has in common: a BOOTREQUEST for this
    hardware address, with the server's address fields empty and the configured
    client identifier, or none. *)
Record from_client (p : Params) (m : Message) : Prop := {
  fc_op : Op m = BootRequest;
  fc_htype : HType m = HTypeEthernet;
  fc_hops : Hops m = 0;
  fc_yi : YIAddr m = AddrZero;
  fc_si : SIAddr m = AddrZero;
  fc_gi : GIAddr m = AddrZero;
  fc_chaddr : CHAddr m = pCHAddr p;
  fc_id : MOptions m !! OptClientID =
    if (length (pClientID p) =? 0)%nat then None else Some (pClientID p)
}.

(** The parameter request list of RFC 2131 section 4.4.1: one list, the same in
    every message that carries one. *)
Definition request_list (p : Params) : bytes :=
  let b := map u8 (parameterList p) in
  if pIPv6OnlyPreferred p && negb (listsCode b OptIPv6OnlyPreferred) then b ++ [OptIPv6OnlyPreferred] else b.

(** DHCPDISCOVER and DHCPREQUEST: the configured flags and lists, and never both
    a Host Name and a Client FQDN option (RFC 4702 section 3.1). *)
Record negotiates (p : Params) (m : Message) : Prop := {
  ng_flags : Flags m = if pBroadcast p then FlagBroadcast else 0;
  ng_list : MOptions m !! OptParameterList = Some (request_list p);
  ng_nonce : MOptions m !! OptForcerenewNonce = Some EncodeForcerenewNonceCapable;
  ng_name : hasnt m OptHostName \/ hasnt m OptFQDN;
  ng_secs : 0 <= Secs m <= 65535
}.

Definition broadcasts (d : Dest) : Prop := DBroadcast d = true.
Definition unicasts (d : Dest) (a src : Addr) : Prop :=
  DBroadcast d = false /\ DAddr d = a /\ DSrc d = src /\ usable4 a = true.

(** The columns of Table 5. *)
Definition is_discover (p : Params) (m : Message) (d : Dest) : Prop :=
  Type_ m = Some MsgDiscover /\ CIAddr m = AddrZero /\ hasnt m OptServerID /\ negotiates p m /\
  broadcasts d /\ (has m OptRapidCommit <-> pRapidCommit p = true).

Definition is_selecting_request (p : Params) (m : Message) (d : Dest) : Prop :=
  Type_ m = Some MsgRequest /\ CIAddr m = AddrZero /\ has m OptRequestedIP /\ has m OptServerID /\
  hasnt m OptRapidCommit /\ negotiates p m /\ broadcasts d.

Definition is_reboot_request (p : Params) (m : Message) (d : Dest) : Prop :=
  Type_ m = Some MsgRequest /\ CIAddr m = AddrZero /\ has m OptRequestedIP /\ hasnt m OptServerID /\
  hasnt m OptRapidCommit /\ negotiates p m /\ broadcasts d.

Definition is_renewal_request (p : Params) (m : Message) (d : Dest) : Prop :=
  Type_ m = Some MsgRequest /\ usable4 (CIAddr m) = true /\ hasnt m OptRequestedIP /\ hasnt m OptServerID /\
  hasnt m OptRapidCommit /\ negotiates p m /\ (broadcasts d \/ exists sid, unicasts d sid (CIAddr m)).

Definition is_decline (p : Params) (m : Message) (d : Dest) : Prop :=
  Type_ m = Some MsgDecline /\ CIAddr m = AddrZero /\ Secs m = 0 /\ Flags m = 0 /\
  (exists a, usable4 a = true /\ carries m OptRequestedIP a) /\
  (exists s, usable4 s = true /\ carries m OptServerID s) /\
  hasnt m OptParameterList /\ hasnt m OptLeaseTime /\ hasnt m OptHostName /\ broadcasts d.

Definition is_release (p : Params) (m : Message) (d : Dest) : Prop :=
  Type_ m = Some MsgRelease /\ usable4 (CIAddr m) = true /\ Secs m = 0 /\ Flags m = 0 /\
  hasnt m OptRequestedIP /\ hasnt m OptParameterList /\ hasnt m OptLeaseTime /\ hasnt m OptHostName /\
  exists s, carries m OptServerID s /\ unicasts d s (CIAddr m).

Definition conforms (p : Params) (m : Message) (d : Dest) : Prop :=
  from_client p m /\
  (is_discover p m d \/ is_selecting_request p m d \/ is_reboot_request p m d \/ is_renewal_request p m d
   \/ is_decline p m d \/ is_release p m d).

(** An ARP packet of RFC 5227: a probe or an announcement from this interface
    for a usable address. *)
Definition is_acd_packet (p : Params) (q : ARPPacket) : Prop :=
  exists a, usable4 a = true /\
    (q = mkARP ARPRequest (linkHW p) [] addr_any a \/ q = mkARP ARPRequest (linkHW p) [] a a).

(** ** Encodability *)

(** The configured values fit one option instance each; nothing in
    [params_validate] says so. *)
Record sized (p : Params) : Prop := {
  sz_id : (length (pClientID p) <= 255)%nat;
  sz_class : (length (pVendorClass p) <= 255)%nat;
  sz_list : (length (request_list p) <= 255)%nat
}.

Definition encodable (p : Params) (m : Message) : Prop := sized p -> exists b, Encode m = Ok b.

(** ** The observer *)

Record Env := mkEnv {
  armed : TimerID -> bool;
  holds : bool;
  lastReq : Instant;
  lastARP : option ARPPacket }.

#[global] Instance eta_Env : Settable Env := fun e => mkEnv (armed e) (holds e) (lastReq e) (lastARP e).

Definition arm (t : TimerID) (b : bool) (f : TimerID -> bool) : TimerID -> bool :=
  fun t' => if timer_eqb t' t then b else f t'.

Definition is_request (m : Message) : bool :=
  match Type_ m with Some t => (t =? MsgDiscover) || (t =? MsgRequest) | None => false end.

(** What an action, seen at [now], does to what the observer knows. *)
Definition observe (now : Instant) (e : Env) (b : ActionBody) : Env :=
  match b with
  | ActSetTimer t _ => e <| armed := arm t true (armed e) |>
  | ActCancelTimer t => e <| armed := arm t false (armed e) |>
  | ActLeaseAcquired _ _ => e <| holds := true |>
  | ActLeaseLost _ => e <| holds := false |>
  | ActSend m _ => if is_request m then e <| lastReq := now |> else e
  | ActSendARP q => e <| lastARP := Some q |>
  | _ => e
  end.

(** A lease is reported with its expiry timer already running, and it starts
    when the last request was sent. *)
Definition reportable (e : Env) (l : Lease) : Prop :=
  usable4 (paddr (lAddr l)) = true /\ lStart l = lastReq e /\
  (IsInfinite (lLeaseTime l) = false -> armed e TimerExpire = true).

(** What the observer may see next. *)
Definition allowed (p : Params) (e : Env) (b : ActionBody) : Prop :=
  match b with
  | ActSend m d => conforms p m d /\ encodable p m
  | ActSendARP q => is_acd_packet p q
  | ActSetTimer t d =>
    0 <= d /\ (t = TimerRetransmit \/ t = TimerRestart \/ t = TimerDesync -> 0 < d)
  | ActLeaseAcquired l _ =>
    holds e = false /\ reportable e l /\
    (pConflict p = ConflictWait ->
     lastARP e = Some (mkARP ARPRequest (linkHW p) [] (paddr (lAddr l)) (paddr (lAddr l))))
  | ActLeaseRenewed l => holds e = true /\ reportable e l
  | ActLeaseChanged _ => holds e = true
  | ActLeaseLost _ => holds e = true
  | ActCancelTimer _ | ActFailed _ _ | ActJournal _ => True
  | ActSendRouterSolicit | ActStartDAD | ActConfigured | ActRouterObserved | ActSendV6 => False
  end.

(** Every action of a list is allowed where it stands. *)
Fixpoint trace_ok (p : Params) (now : Instant) (e : Env) (l : list ActionBody) : Prop :=
  match l with
  | [] => True
  | b :: l => allowed p e b /\ trace_ok p now (observe now e b) l
  end.

Definition final (now : Instant) (e : Env) (l : list ActionBody) : Env := foldl (observe now) e l.

(** A timer that fires is no longer armed. *)
Definition fire (ev : Event) (e : Env) : Env :=
  match ev with EvTimerFired t => e <| armed := arm t false (armed e) |> | _ => e end.

(** What is known before the first step. *)
Definition env0 : Env := mkEnv (fun _ => false) false 0 None.

(** The trace of a run is allowed, step by step, and leaves this environment. *)
Fixpoint run_ok (p : Params) (e : Env) (ins : list Input) (outs : list (list Action)) : Prop :=
  match ins, outs with
  | [], [] => True
  | i :: ins, acts :: outs =>
    trace_ok p (inNow i) (fire (inEv i) e) (map ActBody acts) /\
    run_ok p (final (inNow i) (fire (inEv i) e) (map ActBody acts)) ins outs
  | _, _ => False
  end.

Fixpoint run_env (e : Env) (ins : list Input) (outs : list (list Action)) : Env :=
  match ins, outs with
  | i :: ins, acts :: outs => run_env (final (inNow i) (fire (inEv i) e) (map ActBody acts)) ins outs
  | _, _ => e
  end.

(** Consecutive ids, counted modulo 2^64. *)
Fixpoint ids_from (n : ActionID) (acts : list Action) (n' : ActionID) : Prop :=
  match acts with
  | [] => n' = n
  | a :: acts => ActID a = n /\ ids_from (u64 (n + 1)) acts n'
  end.

Lemma ids_from_app n acts acts' n1 n2 : ids_from n acts n1 -> ids_from n1 acts' n2 ->
  ids_from n (acts ++ acts') n2.
Proof.
  revert n. induction acts as [|a acts IH]; cbn; intros n; [by intros ->|].
  intros [? ?] ?. split; [done|]. by apply IH.
Qed.

Lemma trace_ok_app p now e l l' :
  trace_ok p now e (l ++ l') <-> trace_ok p now e l /\ trace_ok p now (final now e l) l'.
Proof. revert e. induction l as [|b l IH]; cbn; intros e; [tauto|]. rewrite IH. tauto. Qed.

Lemma final_app now e l l' : final now e (l ++ l') = final now (final now e l) l'.
Proof. apply foldl_app. Qed.
