(* ===== verification/MachineLogic.v ===== *)
(** * A program logic for the machine's methods

    [wpx c Q k e]: from the fields [k] and the observer's knowledge [e], the
    method [c] does not panic, every action it emits is allowed where it stands,
    the ids it takes are consecutive, and [Q] holds of its result, the fields and
    the knowledge it leaves.  The rules follow the shape of the methods, so a
    proof is a symbolic execution. *)

From S2P Require Import Prelude NetAddr Options Codec Forcerenew Values Arp Backoff Kinds Lease Acd Params Core Machine MachineSpec.

Section logic.
Context (p : Params) (now : Instant).

Definition wpx {A} (c : M A) (Q : A -> Core -> Env -> Prop) (k : Core) (e : Env) : Prop :=
  forall n o,
    match c (mkSt k n o) with
    | None => False
    | Some (a, s) => exists acts,
        out s = o ++ acts /\ ids_from n acts (next s) /\
        trace_ok p now e (map ActBody acts) /\ Q a (core s) (final now e (map ActBody acts))
    end.

Lemma wpx_ret {A} (a : A) Q k e : Q a k e -> wpx (mret a) Q k e.
Proof. intros H n o. exists []. rewrite app_nil_r. done. Qed.

Lemma wpx_bind {A B} (c : M A) (f : A -> M B) Q k e :
  wpx c (fun a k' e' => wpx (f a) Q k' e') k e -> wpx (c ≫= f) Q k e.
Proof.
  intros H n o. specialize (H n o). unfold mbind, M_bind.
  destruct (c (mkSt k n o)) as [[a s]|]; [|done].
  destruct H as (acts & Ho & Hi & Ht & H). specialize (H (next s) (out s)).
  destruct s as [k' n' o']. cbn in *. destruct (f a (mkSt k' n' o')) as [[b s']|]; [|done].
  destruct H as (acts' & Ho' & Hi' & Ht' & H). exists (acts ++ acts').
  rewrite map_app, final_app, trace_ok_app. subst o'. rewrite app_assoc.
  split; [done|]. split; [by eapply ids_from_app|]. done.
Qed.

Lemma wpx_mono {A} (c : M A) (Q Q' : A -> Core -> Env -> Prop) k e :
  wpx c Q k e -> (forall a k' e', Q a k' e' -> Q' a k' e') -> wpx c Q' k e.
Proof.
  intros H HQ n o. specialize (H n o). destruct (c _) as [[a s]|]; [|done].
  destruct H as (acts & ? & ? & ? & ?). exists acts. auto.
Qed.

Lemma wpx_get Q k e : Q k k e -> wpx get Q k e.
Proof. intros H n o. exists []. rewrite app_nil_r. done. Qed.

Lemma wpx_modify f Q k e : Q tt (f k) e -> wpx (modify f) Q k e.
Proof. intros H n o. exists []. rewrite app_nil_r. done. Qed.

Lemma wpx_stamp b Q k e : allowed p e b -> (forall id, Q id k (observe now e b)) ->
  wpx (stamp b) Q k e.
Proof. intros Ha H n o. exists [mkAction n b]. cbn. split_and!; done. Qed.

Lemma wpx_lift {A} (x : option A) a Q k e : x = Some a -> Q a k e -> wpx (lift x) Q k e.
Proof. intros ->. apply wpx_ret. Qed.

Lemma wpx_liftw {A} (x : wire A) a Q k e : x = Ok a -> Q a k e -> wpx (liftw x) Q k e.
Proof. intros ->. apply wpx_ret. Qed.

Lemma wpx_when (b : bool) c Q k e : (b = true -> wpx c Q k e) -> (b = false -> Q tt k e) ->
  wpx (when b c) Q k e.
Proof. destruct b; intros H1 H2; [by apply H1 | by apply wpx_ret, H2]. Qed.

(** One stamped action whose id nobody keeps. *)
Lemma wpx_emit b Q k e : allowed p e b -> Q tt k (observe now e b) ->
  wpx (stamp b ;; mret tt) Q k e.
Proof. intros. apply wpx_bind, wpx_stamp; [done|]. intros _. by apply wpx_ret. Qed.

Lemma wpx_send m d Q k e : conforms p m d -> encodable p m ->
  Q tt k (if is_request m then e <| lastReq := now |> else e) -> wpx (send m d) Q k e.
Proof. intros. by apply wpx_emit. Qed.

Lemma wpx_setTimer t d Q k e : allowed p e (ActSetTimer t d) ->
  Q tt k (e <| armed := arm t true (armed e) |>) -> wpx (setTimer t d) Q k e.
Proof. apply wpx_emit. Qed.

Lemma wpx_cancel t Q k e : Q tt k (e <| armed := arm t false (armed e) |>) -> wpx (cancel t) Q k e.
Proof. intros. by apply wpx_emit. Qed.

Lemma wpx_journal n Q k e : Q tt k e -> wpx (journal n) Q k e.
Proof. intros. by apply wpx_emit. Qed.

Lemma wpx_failed r n Q k e : Q tt k e -> wpx (failed r n) Q k e.
Proof. intros. by apply wpx_emit. Qed.

Lemma wpx_journal_ret {A} n (a : A) Q k e : Q a k e -> wpx (journal n ;; mret a) Q k e.
Proof. intros. apply wpx_bind, wpx_journal. by apply wpx_ret. Qed.

Lemma wpx_forM_nil {A} (f : A -> M unit) Q k e : Q tt k e -> wpx (forM_ [] f) Q k e.
Proof. apply wpx_ret. Qed.

Lemma wpx_forM_cons {A} (x : A) l (f : A -> M unit) Q k e :
  wpx (f x) (fun _ k' e' => wpx (forM_ l f) Q k' e') k e -> wpx (forM_ (x :: l) f) Q k e.
Proof. intros. by apply wpx_bind. Qed.

(** [cancelAll] leaves no timer armed. *)
Lemma wpx_cancels l Q k e :
  Q tt k (e <| armed := foldl (fun f t => arm t false f) (armed e) l |>) -> wpx (forM_ l cancel) Q k e.
Proof.
  revert e. induction l as [|t l IH]; intros e H.
  - apply wpx_forM_nil. by destruct e.
  - apply wpx_forM_cons, wpx_cancel, IH. done.
Qed.

Lemma foldl_arm_false l f t : t ∈ l \/ f t = false -> foldl (fun f t => arm t false f) f l t = false.
Proof.
  revert f. induction l as [|t' l IH]; cbn; intros f H.
  - destruct H as [H|]; [by apply not_elem_of_nil in H|done].
  - apply IH. unfold arm, timer_eqb. destruct (decide (t = t')) as [->|Hne].
    + right. by rewrite bool_decide_true.
    + rewrite bool_decide_false by done. destruct H as [[->|?]%elem_of_cons|?]; [done|by left|by right].
Qed.

Lemma wpx_cancelAll Q k e :
  (forall f, (forall t, f t = false) -> Q tt k (e <| armed := f |>)) -> wpx cancelAll Q k e.
Proof. intros H. apply wpx_cancels, H. intros t. apply foldl_arm_false. left. apply elem_of_AllTimerIDs. Qed.
End logic.

(** One step of symbolic execution. *)
Ltac wstep :=
  lazymatch goal with
  | |- wpx _ _ (mret _) _ _ _ => apply wpx_ret
  | |- wpx _ _ (_ ≫= _) _ _ _ => apply wpx_bind
  | |- wpx _ _ get _ _ _ => apply wpx_get
  | |- wpx _ _ (modify _) _ _ _ => apply wpx_modify
  | |- wpx _ _ (journal _) _ _ _ => apply wpx_journal
  | |- wpx _ _ (failed _ _) _ _ _ => apply wpx_failed
  | |- wpx _ _ (cancel _) _ _ _ => apply wpx_cancel
  | |- wpx _ _ (when _ _) _ _ _ => apply wpx_when; intro
  | |- wpx _ _ cancelAll _ _ _ => apply wpx_cancelAll; intros
  | |- wpx _ _ (if true then _ else _) _ _ _ => cbv iota
  | |- wpx _ _ (if false then _ else _) _ _ _ => cbv iota
  | |- wpx _ _ (if ?b then _ else _) _ _ _ => destruct b eqn:?
  | |- wpx _ _ ((fun _ => _) _) _ _ _ => cbv beta
  end.

Ltac wsteps := repeat wstep.
