(* ===== verification/Messages.v ===== *)
(** * The messages the machine builds

    Every message [base], the terminal builder and the senders put together has
    the shape of its column of RFC 2131 Table 5, and the encoder accepts it when
    the configured values fit one option each. *)

From S2P Require Import Prelude NetAddr Options Codec Forcerenew Values Arp Backoff Kinds Lease Acd Params Core Machine MachineSpec.

(** ** The encoder accepts short values *)

Lemma encodeOptions_ok o codes : forall buf,
  (forall c v, o !! c = Some v -> (length v <= 255)%nat) -> exists b, encodeOptions o codes buf = Ok b.
Proof.
  induction codes as [|c codes IH]; intros buf Ho; cbn [encodeOptions]; [eauto|].
  destruct ((c =? OptPad) || (c =? OptEnd))%bool; [by apply IH|].
  rewrite (proj2 (Nat.ltb_ge 255 _)); [by apply IH|].
  destruct (o !! c) eqn:E; cbn; [by eapply Ho | lia].
Qed.

Lemma Encode_ok m : (length (CHAddr m) <= 16)%nat ->
  (forall c v, MOptions m !! c = Some v -> (length v <= 255)%nat) -> exists b, Encode m = Ok b.
Proof.
  intros Hch Ho. unfold Encode, chaddrLen. rewrite (proj2 (Nat.ltb_ge 16 _)) by done.
  destruct (encodeOptions_ok (MOptions m) (Codes (MOptions m)) (encodeHeader m) Ho) as [b ->]. cbn. eauto.
Qed.

(** ** Maps built by conditional assignment *)

Lemma lookup_cond_ne (b : bool) (o : Options) c v k : c <> k ->
  (if b then <[c := v]> o else o) !! k = o !! k.
Proof. intros. destruct b; [by rewrite lookup_insert_ne|done]. Qed.

Definition short (o : Options) : Prop := forall c v, o !! c = Some v -> (length v <= 255)%nat.

Lemma short_insert o c v : short o -> (length v <= 255)%nat -> short (<[c := v]> o).
Proof. intros Ho Hv k w. rewrite lookup_insert. destruct (decide (c = k)); [by intros [= <-]|apply Ho]. Qed.

Lemma short_cond (b : bool) o c v : short o -> (b = true -> (length v <= 255)%nat) ->
  short (if b then <[c := v]> o else o).
Proof. intros. destruct b; [apply short_insert|]; auto. Qed.

Lemma short_singleton c v : (length v <= 255)%nat -> short {[ c := v ]}.
Proof. intros Hv k w. rewrite lookup_singleton. destruct (decide (c = k)); [by intros [= <-]|done]. Qed.

(** ** Configuration of a running machine *)

(** What [New] leaves in [params], and the widths of the Go types. *)
Record params_wf (p : Params) : Prop := {
  pw_chaddr : (0 < length (pCHAddr p) <= 16)%nat;
  pw_fqdn : (length (pfqdn p) <= 255)%nat;
  pw_userClass : (length (puserClass p) <= 255)%nat;
  pw_discover : validate (pDiscover p) = true /\ backoff_wf (pDiscover p);
  pw_request : validate (pRequest p) = true /\ backoff_wf (pRequest p);
  pw_desync : 0 <= pDesyncMin p <= MaxInt64 /\ 0 <= pDesyncMax p <= MaxInt64;
  pw_acd : let a := params_acd p in
    0 < ProbeNum a /\ 0 < AnnounceNum a /\ 0 <= ProbeWait a <= MaxInt64 /\ 0 <= ProbeMin a <= ProbeMax a /\
    ProbeMax a <= MaxInt64 /\ 0 <= AnnounceWait a /\ 0 <= AnnounceInterval a
}.

Section messages.
Context (p : Params) (Hp : params_wf p).

Lemma parameterList_nonempty : (0 <? length (parameterList p))%nat = true.
Proof. unfold parameterList. destruct (Nat.eqb_spec (length (pParameterList p)) 0); [done|]. apply Nat.ltb_lt. lia. Qed.

(** ** DHCPDISCOVER and DHCPREQUEST *)

Section base.
Context (k : Core) (Hk : mparams k = p) (Hname : (length (mhostname k) <= 255)%nat) (now : Instant) (t : Z).

Let m := baseMessage k now t.

Lemma base_type : 0 <= t < 256 -> MOptions m !! OptMessageType = Some [t].
Proof.
  intros Ht. unfold m, baseMessage. cbn [MOptions]. rewrite Hk, parameterList_nonempty.
  rewrite lookup_cond_ne, lookup_insert_ne, lookup_insert_ne, lookup_cond_ne, lookup_cond_ne by done.
  destruct (0 <? length (pfqdn p))%nat; rewrite ?lookup_insert_ne, ?lookup_cond_ne, ?lookup_insert_ne by done;
    rewrite ?lookup_cond_ne, lookup_singleton_eq, u8_id by done; done.
Qed.

(** The codes [base] never sets. *)
Lemma base_hasnt c : c = OptServerID \/ c = OptRequestedIP \/ c = OptRapidCommit \/ c = OptMessage ->
  MOptions m !! c = None.
Proof.
  intros Hc. unfold m, baseMessage. cbn [MOptions]. rewrite Hk, parameterList_nonempty.
  destruct Hc as [-> | [-> | [-> | ->]]];
    rewrite lookup_cond_ne, lookup_insert_ne, lookup_insert_ne, lookup_cond_ne, lookup_cond_ne by done;
    (destruct (0 <? length (pfqdn p))%nat; rewrite ?lookup_insert_ne, ?lookup_cond_ne, ?lookup_insert_ne by done;
     rewrite ?lookup_cond_ne, lookup_singleton_ne by done; done).
Qed.

Lemma base_id : MOptions m !! OptClientID =
  if (length (pClientID p) =? 0)%nat then None else Some (pClientID p).
Proof.
  unfold m, baseMessage. cbn [MOptions]. rewrite Hk, parameterList_nonempty.
  rewrite lookup_cond_ne, lookup_insert_ne, lookup_insert_ne, lookup_cond_ne, lookup_cond_ne by done.
  assert (E : forall o : Options, o !! OptClientID = None ->
    (if (0 <? length (pClientID p))%nat then <[OptClientID := pClientID p]> o else o) !! OptClientID
    = if (length (pClientID p) =? 0)%nat then None else Some (pClientID p)).
  { intros o Ho. destruct (length (pClientID p)); cbn [Nat.ltb Nat.leb Nat.eqb]; [done|].
    by rewrite lookup_insert_eq. }
  destruct (0 <? length (pfqdn p))%nat; rewrite ?lookup_insert_ne, ?lookup_cond_ne by done; by apply E.
Qed.

Lemma base_list : MOptions m !! OptParameterList = Some (request_list p).
Proof.
  unfold m, baseMessage. cbn [MOptions]. rewrite Hk, parameterList_nonempty.
  rewrite lookup_cond_ne, lookup_insert_ne, lookup_insert_eq by done. done.
Qed.

Lemma base_nonce : MOptions m !! OptForcerenewNonce = Some EncodeForcerenewNonceCapable.
Proof. unfold m, baseMessage. cbn [MOptions]. by rewrite lookup_cond_ne, lookup_insert_eq. Qed.

Lemma base_name : MOptions m !! OptHostName = None \/ MOptions m !! OptFQDN = None.
Proof.
  unfold m, baseMessage. cbn [MOptions]. rewrite Hk, parameterList_nonempty.
  rewrite !(lookup_cond_ne _ _ OptLeaseTime), !(lookup_insert_ne _ OptForcerenewNonce),
    !(lookup_insert_ne _ OptParameterList), !(lookup_cond_ne _ _ OptUserClass),
    !(lookup_cond_ne _ _ OptVendorClassID) by done.
  destruct (0 <? length (pfqdn p))%nat.
  - left. by rewrite lookup_insert_ne, lookup_cond_ne, lookup_singleton_ne by done.
  - right. by rewrite lookup_cond_ne, lookup_cond_ne, lookup_singleton_ne by done.
Qed.

Lemma base_short : sized p -> short (MOptions m).
Proof.
  intros [Hid Hclass Hlist]. unfold m, baseMessage. cbn [MOptions]. rewrite Hk, parameterList_nonempty.
  change (if _ && negb (listsCode _ _) then _ else _) with (request_list p).
  apply short_cond; [|intros _; cbn [length]; lia]. apply short_insert; [|cbn; lia]. apply short_insert; [|done].
  apply short_cond; [|intros _; apply Hp]. apply short_cond; [|done].
  assert (H0 : short (if (0 <? length (pClientID p))%nat
    then <[OptClientID := pClientID p]> {[ OptMessageType := [u8 t] ]} else {[ OptMessageType := [u8 t] ]})).
  { apply short_cond; [apply short_singleton; cbn; lia|done]. }
  destruct (0 <? length (pfqdn p))%nat; [apply short_insert; [done|apply Hp]|]. by apply short_cond.
Qed.

Lemma secs_range : 0 <= secs k now <= 65535.
Proof.
  unfold secs. destruct (negb _); [lia|]. destruct (_ <=? 0); [lia|].
  destruct (Z.ltb_spec 65535 (Seconds (Sub now (mstartedAt k)))); [lia|].
  unfold u16. pose proof (Z.mod_pos_bound (Seconds (Sub now (mstartedAt k))) (2 ^ 16)). lia.
Qed.
End base.

(** Options added after [base]. *)
Lemma setOption_lookup_ne m c v c' : c <> c' -> MOptions (setOption m c v) !! c' = MOptions m !! c'.
Proof. intros. cbn. by rewrite lookup_insert_ne. Qed.
Lemma setOption_lookup m c v : MOptions (setOption m c v) !! c = Some v.
Proof. cbn. apply lookup_insert_eq. Qed.

Lemma As4_short a v : As4 a = Some v -> (length v <= 255)%nat.
Proof. destruct a; cbn; [done| |destruct (_ =? _); [|done]]; intros [= <-]; cbn; lia. Qed.

Section senders.
Context (k : Core) (Hk : mparams k = p) (Hname : (length (mhostname k) <= 255)%nat) (now : Instant).

(** The fields of [base] a later [setOption] cannot change. *)
Lemma from_client_base t m : 
  Op m = BootRequest -> HType m = HTypeEthernet -> Hops m = 0 -> YIAddr m = AddrZero -> SIAddr m = AddrZero ->
  GIAddr m = AddrZero -> CHAddr m = pCHAddr p ->
  MOptions m !! OptClientID = MOptions (baseMessage k now t) !! OptClientID -> from_client p m.
Proof. intros. constructor; try done. by rewrite (base_id k Hk now t) in *. Qed.

Lemma negotiates_base t m : Flags m = Flags (baseMessage k now t) -> Secs m = secs k now ->
  (forall c, c = OptParameterList \/ c = OptForcerenewNonce \/ c = OptHostName \/ c = OptFQDN ->
     MOptions m !! c = MOptions (baseMessage k now t) !! c) -> negotiates p m.
Proof.
  intros Hf Hs Ho. constructor.
  - rewrite Hf. cbn. by rewrite Hk.
  - rewrite Ho by tauto. by apply base_list.
  - rewrite Ho by tauto. by apply base_nonce.
  - unfold hasnt. rewrite !Ho by tauto. by apply base_name.
  - rewrite Hs. by apply secs_range.
Qed.

Lemma encodable_of m : CHAddr m = pCHAddr p -> (sized p -> short (MOptions m)) -> encodable p m.
Proof.
  intros Hch Hs Hsz. apply Encode_ok; [rewrite Hch; apply Hp | by apply Hs].
Qed.

Let cond (b : bool) m c v := if b then setOption m c v else m.

Lemma discover_conforms rip : (rip = None \/ exists v, rip = Some v /\ (length v <= 255)%nat) ->
  let m := baseMessage k now MsgDiscover in
  let m := match rip with Some v => setOption m OptRequestedIP v | None => m end in
  let m := if pRapidCommit p then setOption m OptRapidCommit EncodeRapidCommit else m in
  conforms p m dest_broadcast /\ encodable p m /\ is_request m = true.
Proof.
  intros Hrip m0 m1 m2.
  assert (Hne : forall c, c <> OptRequestedIP -> c <> OptRapidCommit -> MOptions m2 !! c = MOptions m0 !! c).
  { intros c H1 H2. unfold m2, m1. destruct (pRapidCommit p); rewrite ?setOption_lookup_ne by done;
      destruct rip; rewrite ?setOption_lookup_ne by done; done. }
  assert (Hf : Op m2 = BootRequest /\ HType m2 = HTypeEthernet /\ Hops m2 = 0 /\ YIAddr m2 = AddrZero /\
    SIAddr m2 = AddrZero /\ GIAddr m2 = AddrZero /\ CHAddr m2 = pCHAddr p /\ CIAddr m2 = AddrZero /\
    Flags m2 = Flags m0 /\ Secs m2 = secs k now).
  { unfold m2, m1, m0. destruct (pRapidCommit p), rip; cbn; by rewrite Hk. }
  destruct Hf as (F1 & F2 & F3 & F4 & F5 & F6 & F7 & F8 & F9 & F10).
  assert (Ht : Type_ m2 = Some MsgDiscover).
  { unfold Type_. rewrite Hne by done. unfold m0. by rewrite (base_type k Hk). }
  split; [split|split].
  - apply (from_client_base MsgDiscover); try done. by rewrite Hne.
  - left. split_and!; try done.
    + unfold hasnt. rewrite Hne by done. apply (base_hasnt k Hk now MsgDiscover); tauto.
    + apply (negotiates_base MsgDiscover); try done.
      intros c Hc. apply Hne; destruct_or!; subst c; done.
    + unfold has, m2. destruct (pRapidCommit p).
      * rewrite setOption_lookup. split; [done|]. eauto.
      * assert (E : MOptions m1 !! OptRapidCommit = None).
        { unfold m1. destruct rip; rewrite ?setOption_lookup_ne by done; apply (base_hasnt k Hk now MsgDiscover); tauto. }
        rewrite E. split; [intros [? ?]; done|done].
  - apply encodable_of; [done|]. intros Hs.
    assert (S0 : short (MOptions m0)) by (by apply (base_short k Hk Hname)).
    assert (S1 : short (MOptions m1)).
    { unfold m1. destruct Hrip as [->|(v & -> & Hv)]; [done|]. by apply short_insert. }
    unfold m2. destruct (pRapidCommit p); [apply short_insert; [done|cbn; lia]|done].
  - unfold is_request. by rewrite Ht.
Qed.

(** A DHCPREQUEST: option 50 and option 54 where they are given. *)
Definition requestMessage (ci : Addr) (rip sid : option bytes) : Message :=
  let m := baseMessage k now MsgRequest in
  let m := m <| CIAddr := ci |> in
  let m := match rip with Some v => setOption m OptRequestedIP v | None => m end in
  match sid with Some v => setOption m OptServerID v | None => m end.

Lemma request_shape ci rip sid :
  match rip with Some v => (length v <= 255)%nat | None => True end ->
  match sid with Some v => (length v <= 255)%nat | None => True end ->
  let m := requestMessage ci rip sid in
  from_client p m /\ negotiates p m /\ encodable p m /\ Type_ m = Some MsgRequest /\ CIAddr m = ci /\
  is_request m = true /\ MOptions m !! OptRequestedIP = rip /\ MOptions m !! OptServerID = sid /\
  hasnt m OptRapidCommit.
Proof.
  intros Hr Hs m. unfold requestMessage in m. set (m0 := baseMessage k now MsgRequest) in *.
  assert (Hne : forall c, c <> OptRequestedIP -> c <> OptServerID -> MOptions m !! c = MOptions m0 !! c).
  { intros c H1 H2. unfold m. destruct rip, sid; cbn; rewrite ?lookup_insert_ne by done; done. }
  assert (Hf : Op m = BootRequest /\ HType m = HTypeEthernet /\ Hops m = 0 /\ YIAddr m = AddrZero /\
    SIAddr m = AddrZero /\ GIAddr m = AddrZero /\ CHAddr m = pCHAddr p /\ CIAddr m = ci /\
    Flags m = Flags m0 /\ Secs m = secs k now).
  { unfold m, m0. destruct rip, sid; cbn; by rewrite Hk. }
  destruct Hf as (F1 & F2 & F3 & F4 & F5 & F6 & F7 & F8 & F9 & F10).
  assert (Ht : Type_ m = Some MsgRequest).
  { unfold Type_. rewrite Hne by done. unfold m0. by rewrite (base_type k Hk). }
  split_and!; try done.
  - apply (from_client_base MsgRequest); try done. by rewrite Hne.
  - apply (negotiates_base MsgRequest); try done. intros c Hc. apply Hne; destruct_or!; subst c; done.
  - apply encodable_of; [done|]. intros Hsz.
    assert (S0 : short (MOptions m0)) by (by apply (base_short k Hk Hname)).
    unfold m. destruct rip, sid; cbn; repeat apply short_insert; done.
  - unfold is_request. by rewrite Ht.
  - unfold m. destruct sid; cbn; rewrite ?lookup_insert_ne by done;
      (destruct rip; cbn; [apply lookup_insert_eq|apply (base_hasnt k Hk now MsgRequest); tauto]).
  - unfold m. destruct sid; cbn; [apply lookup_insert_eq|].
    destruct rip; cbn; rewrite ?lookup_insert_ne by done; apply (base_hasnt k Hk now MsgRequest); tauto.
  - unfold hasnt. rewrite Hne by done. apply (base_hasnt k Hk now MsgRequest); tauto.
Qed.

End senders.

(** ** DHCPDECLINE and DHCPRELEASE *)

Section terminal.
Context (k : Core) (Hk : mparams k = p).

Lemma terminal_lookup t xid c : c <> OptMessageType -> c <> OptClientID ->
  MOptions (terminalBase k t xid) !! c = None.
Proof. intros. unfold terminalBase. cbn [MOptions]. by rewrite lookup_cond_ne, lookup_singleton_ne by done. Qed.

Lemma terminal_client t xid m : 0 <= t < 256 ->
  Op m = BootRequest -> HType m = HTypeEthernet -> Hops m = 0 -> YIAddr m = AddrZero -> SIAddr m = AddrZero ->
  GIAddr m = AddrZero -> CHAddr m = pCHAddr p ->
  (forall c, c = OptClientID \/ c = OptMessageType -> MOptions m !! c = MOptions (terminalBase k t xid) !! c) ->
  from_client p m /\ Type_ m = Some t.
Proof.
  intros Ht H1 H2 H3 H4 H5 H6 H7 Ho. split.
  - constructor; try done. rewrite Ho by tauto. unfold terminalBase. cbn [MOptions]. rewrite Hk.
    destruct (length (pClientID p)); cbn [Nat.ltb Nat.leb Nat.eqb];
      [by rewrite lookup_singleton_ne|by rewrite lookup_insert_eq].
  - unfold Type_. rewrite Ho by tauto. unfold terminalBase. cbn [MOptions]. rewrite lookup_cond_ne, lookup_singleton_eq by done.
    by rewrite u8_id.
Qed.

Lemma terminal_short t xid : sized p -> short (MOptions (terminalBase k t xid)).
Proof.
  intros Hs. unfold terminalBase. cbn [MOptions]. rewrite Hk. apply short_cond; [apply short_singleton; cbn; lia|]. intros _. apply Hs.
Qed.
End terminal.
End messages.
