(* ===== verification/MachineInv.v ===== *)
(** * The invariant of the machine, and its methods one by one

    [InvOf q p k e] relates the fields [k] of a machine configured with [p] and
    what an observer of its actions knows, [e]; [q] says that nothing has parked
    the machine in INIT, neither the loss of the link nor a failed action.  Every
    method keeps it; the step functions are in MachineSteps. *)

From S2P Require Import Prelude NetAddr Options Codec Forcerenew Values Arp Backoff Kinds Lease Acd Params Core Machine MachineSpec MachineLogic Messages.

(** ** The invariant *)

(** The three timers of a lease are off. *)
Definition lease_timers_off (e : Env) : Prop :=
  armed e TimerExpire = false /\ armed e TimerRenew = false /\ armed e TimerRebind = false.

Definition acd_ok (p : Params) (o : option acd) : Prop :=
  match o with
  | None => pConflict p = ConflictOff
  | Some a => pConflict p <> ConflictOff /\ aparams a = params_acd p /\ ahw a = linkHW p /\
              (aphase a = ACDIdle \/ usable4 (aaddr a) = true)
  end.

Definition offer_ok (o : option Message) : Prop :=
  match o with
  | None => True
  | Some m => usable4 (YIAddr m) = true /\ is_Some (OptAddr4 (MOptions m) OptServerID)
  end.

(** What holds in every state. *)
Record common (p : Params) (k : Core) (e : Env) : Prop := {
  co_params : mparams k = p;
  co_name : (length (mhostname k) <= 255)%nat;
  co_holds : holds e = mhaveLse k;
  co_acd : acd_ok p (macd k);
  co_offer : offer_ok (moffer k);
  co_key : frHave (mfr k) = true -> mhaveLse k = true
}.

(** A lease that can be held: what [leaseFromAck] establishes. *)
Definition good_lease (l : Lease) : Prop := usable4 (paddr (lAddr l)) = true /\ 0 <= pbits (lAddr l) <= 32.

Definition nolease (k : Core) (e : Env) : Prop :=
  mhaveLse k = false /\ mhaveProbe k = false /\ lease_timers_off e.

Definition lease_ok (k : Core) (e : Env) : Prop :=
  mhaveLse k = true /\ mhaveProbe k = false /\ good_lease (mlease k) /\
  (IsInfinite (lLeaseTime (mlease k)) = false -> armed e TimerExpire = true).

(** A DHCPREQUEST or a DHCPDISCOVER is outstanding and will be sent again. *)
Definition asking (k : Core) (e : Env) : Prop := armed e TimerRetransmit = true /\ mrequestSentAt k = lastReq e.

Definition probing_ok (p : Params) (k : Core) (e : Env) : Prop :=
  mhaveLse k = false /\ mhaveProbe k = true /\ lease_timers_off e /\ pConflict p = ConflictWait /\
  good_lease (mprobing k) /\ lStart (mprobing k) = lastReq e /\
  exists a, macd k = Some a /\ (aphase a = ACDProbing \/ aphase a = ACDSettling) /\
    aaddr a = paddr (lAddr (mprobing k)).

(** What holds in one state; [weak_inv] leaves out the timers that drive it, for
    the step one of them fires in. *)
Definition weak_inv (p : Params) (s : State) (k : Core) (e : Env) : Prop :=
  match s with
  | StateStopped => nolease k e /\ (forall t, armed e t = false)
  | StateInit => nolease k e
  | StateSelecting => nolease k e /\ (pRapidCommit p = true -> mrequestSentAt k = lastReq e)
  | StateRequesting => nolease k e /\ mrequestSentAt k = lastReq e /\ moffer k <> None
  | StateRebooting => nolease k e /\ mrequestSentAt k = lastReq e /\ usable4 (mrebootAddr k) = true
  | StateBound => mhaveLse k = true /\ mhaveProbe k = false /\ good_lease (mlease k)
  | StateRenewing => mhaveLse k = true /\ mhaveProbe k = false /\ good_lease (mlease k) /\
                     mrequestSentAt k = lastReq e /\ usable4 (lServerID (mlease k)) = true
  | StateRebinding => mhaveLse k = true /\ mhaveProbe k = false /\ good_lease (mlease k) /\
                      mrequestSentAt k = lastReq e
  | StateProbing => probing_ok p k e
  end.

(** T1 and T2 of a held lease: a T1 that has come without a server to ask leaves
    the rest to T2. *)
Definition renews (k : Core) (e : Env) : Prop :=
  is_Some (dRenew (LeaseDeadlines (mlease k))) -> armed e TimerRenew = true \/ usable4 (lServerID (mlease k)) = false.
Definition rebinds (k : Core) (e : Env) : Prop :=
  is_Some (dRebind (LeaseDeadlines (mlease k))) -> armed e TimerRebind = true.

(** The timers a state cannot be left waiting without. *)
Definition driven (q : Prop) (s : State) (k : Core) (e : Env) : Prop :=
  let expiring := IsInfinite (lLeaseTime (mlease k)) = false -> armed e TimerExpire = true in
  match s with
  | StateStopped => True
  | StateInit => q -> armed e TimerRestart = true \/ armed e TimerDesync = true
  | StateSelecting | StateRequesting | StateRebooting => armed e TimerRetransmit = true
  | StateBound => expiring /\ renews k e /\ rebinds k e
  | StateRenewing => expiring /\ armed e TimerRetransmit = true /\ rebinds k e
  | StateRebinding => expiring /\ armed e TimerRetransmit = true
  | StateProbing => armed e TimerACD = true
  end.

Definition InvOf (q : Prop) (p : Params) (k : Core) (e : Env) : Prop :=
  common p k e /\ weak_inv p (mstate k) k e /\ driven q (mstate k) k e.

(** ** Reading the invariant through assignments *)

Lemma arm_eq t b f : arm t b f t = b.
Proof. unfold arm, timer_eqb. by rewrite bool_decide_true. Qed.
Lemma arm_ne t t' b f : t' <> t -> arm t b f t' = f t'.
Proof. intros. unfold arm, timer_eqb. by rewrite bool_decide_false. Qed.

(** Projections of assigned fields. *)
Ltac ks := cbn [set_fld mparams mstate mstartedAt mstarted mxid mretransmits msendFailures mrestarts moffer
  mrequestSentAt mrapidCounts mv6OnlyCounts mfrCounts mfr mlease mhaveLse mresume mrebootAddr macd mprobing
  mhaveProbe mhostname mnameOnWire marpAction mhaveARPAction armed holds lastReq lastARP frHave key_zero
  observe fire aparams amode aphase aaddr ahw asent attemptAt conflicts weak_inv driven renews rebinds MOptions CIAddr] in *.

(** The timers after a few settings. *)
Ltac arms := repeat first [ rewrite arm_eq | rewrite arm_ne by done ].

(** ** Facts the senders share *)

Lemma OptAddr4_As4 o c a : OptAddr4 o c = Some a -> exists v, As4 a = Some v.
Proof.
  unfold OptAddr4. destruct (o !! c) as [v|]; [|done].
  destruct (Nat.eqb_spec (length v) 4) as [Hl|]; cbn [negb]; [|done].
  do 4 (destruct v as [|? v]; [done|]). destruct v; [|done]. intros [= <-]. cbn. eauto.
Qed.

Lemma usable4_As4 a : usable4 a = true -> exists v, As4 a = Some v.
Proof. intros H. by apply As4_Is4, usable4_Is4. Qed.

(** The test the code writes before it uses an address. *)
Lemma unusable_false a : negb (Is4 a) || IsUnspecified a = false <-> usable4 a = true.
Proof. unfold usable4. destruct (Is4 a), (IsUnspecified a); done. Qed.

Lemma usable4_test a : Is4 a && negb (IsUnspecified a) = usable4 a.
Proof. done. Qed.

Section methods.
Context (unparked : Prop) (p : Params) (Hp : params_wf p) (now : Instant).
Local Abbreviation Inv := (InvOf unparked).

Local Abbreviation wp := (wpx p now).

Lemma Delay_allowed e b n rnd : b = pDiscover p \/ b = pRequest p ->
  forall t, allowed p e (ActSetTimer t (Delay b n rnd)).
Proof.
  intros Hb t. assert (H : validate b = true /\ backoff_wf b) by (destruct Hb as [->| ->]; apply Hp).
  destruct H as [Hv Hwf]. destruct (Delay_range b n rnd Hv Hwf). cbn. lia.
Qed.

Lemma acd_ok_stop o : acd_ok p o -> acd_ok p (acd_stop <$> o).
Proof. destruct o as [a|]; cbn; [|done]. intros (?&?&?&?). split_and!; try done. by left. Qed.

(** [common] of assigned fields. *)
Ltac commons := constructor; ks; try done; try (by apply acd_ok_stop); try congruence.

(** ** Explicit specifications *)

Lemma wpx_base t (Q : Message -> Core -> Env -> Prop) k e :
  (forall n, Q (baseMessage k now t) (k <| mnameOnWire := n |>) e) -> wp (base now t) Q k e.
Proof. intros H. unfold base. wsteps. apply H. Qed.

Lemma wpx_acdIdle (Q : unit -> Core -> Env -> Prop) k e :
  Q tt (k <| macd := acd_stop <$> macd k |> <| mprobing := lease_zero |> <| mhaveProbe := false |>
          <| mhaveARPAction := false |>) e -> wp acdIdle Q k e.
Proof.
  intros H. unfold acdIdle. wsteps. destruct (macd k) as [a|] eqn:Ea; wsteps; [exact H|].
  destruct k; cbn in *; by subst.
Qed.

Lemma wpx_toInitIdle (Q : unit -> Core -> Env -> Prop) k e :
  (forall f, (forall t, f t = false) ->
    Q tt (k <| mstate := StateInit |> <| moffer := None |> <| mretransmits := 0 |>
            <| macd := acd_stop <$> macd k |> <| mprobing := lease_zero |> <| mhaveProbe := false |>
            <| mhaveARPAction := false |>) (e <| armed := f |>)) -> wp toInitIdle Q k e.
Proof. intros H. unfold toInitIdle. wsteps. apply wpx_acdIdle. wsteps. by apply H. Qed.

(** The parked machine: INIT, no lease and no timer. *)
Lemma toInitIdle_inv k e : ~ unparked -> common p k e -> mhaveLse k = false -> wp toInitIdle (fun _ => Inv p) k e.
Proof.
  intros Hq [] Hl. apply wpx_toInitIdle. intros f Hf. split_and!.
  - commons.
  - ks. split_and!; try done; unfold lease_timers_off; ks; auto.
  - intros Hq'. by destruct (Hq Hq').
Qed.

(** Losing the lease: announced once, its timers off, its key gone. *)
Lemma wpx_dropLease r (Q : unit -> Core -> Env -> Prop) k e : common p k e ->
  (mhaveLse k = false -> Q tt k e) ->
  (mhaveLse k = true -> forall f, (forall t, f t = true -> armed e t = true) ->
     lease_timers_off (e <| armed := f |>) ->
     Q tt (k <| mhaveLse := false |> <| mlease := lease_zero |> <| mfr := key_zero |>)
          (e <| armed := f |> <| holds := false |>)) ->
  wp (dropLease r) Q k e.
Proof.
  intros Hc Hno Hyes. unfold dropLease. wsteps.
  - apply Hno. by destruct (mhaveLse k).
  - destruct (mhaveLse k) eqn:E; [|done]. apply wpx_stamp.
    { cbn. rewrite (co_holds _ _ _ Hc). exact E. }
    intros _. wsteps.
    match goal with |- Q _ _ ?e' => change e' with (e <| armed := armed e' |> <| holds := false |>) end.
    apply Hyes; [done| |].
    + intros t. ks. unfold arm. by destruct (timer_eqb t TimerRebind), (timer_eqb t TimerRenew), (timer_eqb t TimerExpire).
    + unfold lease_timers_off. ks. by arms.
Qed.

(** ** The terminal messages *)

Lemma terminalFields_ok k : forall addr sid, terminalFields k = (addr, sid, None) ->
  usable4 addr = true /\ usable4 sid = true.
Proof.
  intros addr sid. unfold terminalFields. cbv zeta.
  destruct (negb (Is4 (paddr _)) || _) eqn:E1; [done|]. destruct (negb (Is4 (lServerID _)) || _) eqn:E2; [done|].
  intros [= <- <-]. by split; apply unusable_false.
Qed.

(** Neither is a request: the observer learns nothing from them. *)
Lemma wpx_sendDecline rnd (Q : unit -> Core -> Env -> Prop) k e : mparams k = p ->
  Q tt k e -> wp (sendDecline rnd) Q k e.
Proof.
  intros Hk H. unfold sendDecline. wsteps. destruct (terminalFields k) as [[addr sid] [why|]] eqn:Ef; [by wsteps|].
  destruct (terminalFields_ok _ _ _ Ef) as [Ha Hs].
  destruct (usable4_As4 _ Ha) as [v Hv], (usable4_As4 _ Hs) as [sv Hsv].
  wsteps. apply (wpx_lift _ _ _ _ _ _ _ Hv). wsteps. apply (wpx_lift _ _ _ _ _ _ _ Hsv).
  set (m := setOption (setOption (setOption _ _ _) _ _) _ _).
  assert (Hne : forall c, c <> OptRequestedIP -> c <> OptServerID -> c <> OptMessage ->
    MOptions m !! c = MOptions (terminalBase k MsgDecline (u32 (split rnd 4))) !! c)
    by (intros; unfold m; by rewrite !setOption_lookup_ne by done).
  destruct (terminal_client p k Hk MsgDecline (u32 (split rnd 4)) m) as [Hfrom Ht]; try done.
  { by rewrite <- Hk. }
  { intros c [-> | ->]; by apply Hne. }
  apply wpx_send.
  - split; [exact Hfrom|]. do 4 right. left. split_and!; try done.
    + exists addr. split; [done|]. exists v. split; [done|]. unfold m.
      by rewrite !setOption_lookup_ne, setOption_lookup by done.
    + exists sid. split; [done|]. exists sv. split; [done|]. unfold m.
      by rewrite !setOption_lookup_ne, setOption_lookup by done.
    + unfold hasnt. by rewrite Hne, terminal_lookup by done.
    + unfold hasnt. by rewrite Hne, terminal_lookup by done.
    + unfold hasnt. by rewrite Hne, terminal_lookup by done.
  - apply (encodable_of p Hp); [by rewrite <- Hk|]. intros Hsz. unfold m.
    apply short_insert; [apply short_insert; [apply short_insert|]|];
      [by apply (terminal_short p)|by eapply As4_short..|apply Nat.leb_le; reflexivity].
  - unfold is_request. rewrite Ht. exact H.
Qed.

Lemma wpx_sendRelease rnd (Q : unit -> Core -> Env -> Prop) k e : mparams k = p ->
  Q tt k e -> wp (sendRelease rnd) Q k e.
Proof.
  intros Hk H. unfold sendRelease. wsteps. destruct (terminalFields k) as [[addr sid] [why|]] eqn:Ef; [by wsteps|].
  destruct (terminalFields_ok _ _ _ Ef) as [Ha Hs]. destruct (usable4_As4 _ Hs) as [sv Hsv].
  wsteps. apply (wpx_lift _ _ _ _ _ _ _ Hsv).
  set (m := setOption (setOption _ _ _) _ _).
  assert (Hne : forall c, c <> OptServerID -> c <> OptMessage ->
    MOptions m !! c = MOptions (terminalBase k MsgRelease (u32 (split rnd 5))) !! c)
    by (intros; unfold m; by rewrite !setOption_lookup_ne by done).
  destruct (terminal_client p k Hk MsgRelease (u32 (split rnd 5)) m) as [Hfrom Ht]; try done.
  { by rewrite <- Hk. }
  { intros c [-> | ->]; by apply Hne. }
  apply wpx_send.
  - split; [exact Hfrom|]. do 5 right. split_and!; try done.
    + unfold hasnt. by rewrite Hne, terminal_lookup by done.
    + unfold hasnt. by rewrite Hne, terminal_lookup by done.
    + unfold hasnt. by rewrite Hne, terminal_lookup by done.
    + unfold hasnt. by rewrite Hne, terminal_lookup by done.
    + exists sid. split; [|done]. exists sv. split; [done|]. unfold m.
      by rewrite !setOption_lookup_ne, setOption_lookup by done.
  - apply (encodable_of p Hp); [by rewrite <- Hk|]. intros Hsz. unfold m.
    apply short_insert; [apply short_insert|];
      [by apply (terminal_short p)|by eapply As4_short|apply Nat.leb_le; reflexivity].
  - unfold is_request. rewrite Ht. exact H.
Qed.

(** ** Stopping *)

Lemma halt_inv r k e : common p k e -> wp (halt r) (fun _ => Inv p) k e.
Proof.
  intros Hc. unfold halt. wsteps. apply (wpx_dropLease _ _ _ _ Hc).
  all: intros Hl; intros; wsteps; apply wpx_acdIdle; wsteps; destruct Hc;
    (split_and!; [commons | ks; split_and!; done | done]).
Qed.

(** ** Acquiring *)

Lemma sendDiscover_inv rnd k e : common p k e -> nolease k e -> wp (sendDiscover now rnd) (fun _ => Inv p) k e.
Proof.
  intros Hc (Hl & Hpr & Hoff). pose proof Hc as [Hk Hname _ _ _ _].
  unfold sendDiscover. apply wpx_bind, wpx_base. intros n. apply wpx_bind, wpx_get, wpx_bind. ks. rewrite Hk.
  set (k1 := k <| mnameOnWire := n |>).
  assert (Hrip : exists rip, (rip = None \/ exists v, rip = Some v /\ (length v <= 255)%nat) /\
    forall Q : Message -> Core -> Env -> Prop, Q match rip with
       Some v => setOption (baseMessage k now MsgDiscover) OptRequestedIP v
       | None => baseMessage k now MsgDiscover end k1 e ->
      wp (if Is4 (pRequestedIP p) && negb (IsUnspecified (pRequestedIP p)) then
           v ← lift (As4 (pRequestedIP p)); mret (setOption (baseMessage k now MsgDiscover) OptRequestedIP v)
         else mret (baseMessage k now MsgDiscover)) Q k1 e).
  { rewrite usable4_test. destruct (usable4 (pRequestedIP p)) eqn:E.
    - destruct (usable4_As4 _ E) as [v Hv]. exists (Some v). split.
      + right. exists v. split; [done|]. by eapply As4_short.
      + intros Q HQ. wsteps. apply (wpx_lift _ _ _ _ _ _ _ Hv). by wsteps.
    - exists None. split; [by left|]. intros Q HQ. by wsteps. }
  destruct Hrip as (rip & Hrip & Hwp). apply Hwp. clear Hwp.
  destruct (discover_conforms p Hp k Hk Hname now rip Hrip) as (Hconf & Henc & Hreq).
  cbv zeta in Hconf, Henc, Hreq.
  destruct (pRapidCommit p) eqn:Er; wsteps; (apply wpx_send; [exact Hconf|exact Henc|]); rewrite Hreq;
    (apply wpx_setTimer; [ks; apply Delay_allowed; tauto|]);
    unfold k1; (split_and!; [destruct Hc; commons| ks; split_and!; try done | ks; by arms]);
    destruct Hoff as (?&?&?); unfold lease_timers_off; ks; arms; try done.
  congruence.
Qed.

Lemma sendRequest_inv rnd k e : common p k e -> nolease k e -> moffer k <> None ->
  wp (sendRequest now rnd) (fun _ => Inv p) k e.
Proof.
  intros Hc (Hl & Hpr & Hoff) Ho. pose proof Hc as [Hk Hname _ _ Hof _].
  unfold sendRequest. apply wpx_bind, wpx_get. destruct (moffer k) as [offer|] eqn:Eo.
  2:{ done. }
  destruct Hof as [Hyi [sid Hsid]]. apply wpx_bind, wpx_base. intros n.
  destruct (usable4_As4 _ Hyi) as [v Hv]. destruct (OptAddr4_As4 _ _ _ Hsid) as [sv Hsv].
  wsteps. apply (wpx_lift _ _ _ _ _ _ _ Hv). wsteps. rewrite Hsid.
  wsteps. apply (wpx_lift _ _ _ _ _ _ _ Hsv). wsteps.
  destruct (request_shape p Hp k Hk Hname now AddrZero (Some v) (Some sv)) as (H1&H2&H3&H4&H5&H6&H7&H8&H9);
    [by eapply As4_short..|].
  set (m := requestMessage k now AddrZero (Some v) (Some sv)) in *.
  assert (Hconf : conforms p m dest_broadcast).
  { split; [exact H1|]. right. left. unfold is_selecting_request, has. rewrite H7, H8. split_and!; eauto; done. }
  apply wpx_send; [exact Hconf|exact H3|].
  - change (is_request _) with (is_request m). rewrite H6. apply wpx_setTimer; [ks; rewrite Hk; apply Delay_allowed; tauto|].
    split_and!; [destruct Hc; commons|ks; split_and!; try done|ks; by arms].
    by rewrite Eo.
Qed.

Lemma sendReboot_inv rnd k e : common p k e -> nolease k e -> usable4 (mrebootAddr k) = true ->
  wp (sendReboot now rnd) (fun _ => Inv p) k e.
Proof.
  intros Hc (Hl & Hpr & Hoff) Hra. pose proof Hc as [Hk Hname _ _ _ _].
  unfold sendReboot. apply wpx_bind, wpx_base. intros n.
  destruct (usable4_As4 _ Hra) as [v Hv]. wsteps. ks. apply (wpx_lift _ _ _ _ _ _ _ Hv). wsteps.
  destruct (request_shape p Hp k Hk Hname now AddrZero (Some v) None) as (H1&H2&H3&H4&H5&H6&H7&H8&H9);
    [by eapply As4_short|done|].
  set (m := requestMessage k now AddrZero (Some v) None) in *.
  assert (Hconf : conforms p m dest_broadcast).
  { split; [exact H1|]. do 2 right. left. unfold is_reboot_request, has. rewrite H7. split_and!; eauto; done. }
  apply wpx_send; [exact Hconf|exact H3|].
  - change (is_request _) with (is_request m). rewrite H6. apply wpx_setTimer; [ks; rewrite Hk; apply Delay_allowed; tauto|].
    split_and!; [destruct Hc; commons|ks; split_and!; try done|ks; by arms].
Qed.

(** INIT with a clean slate, and whichever message the configuration starts with. *)
Lemma beginAcquisition_inv rnd w k e : common p k e -> mhaveLse k = false -> mhaveProbe k = false ->
  wp (beginAcquisition now rnd w) (fun _ => Inv p) k e.
Proof.
  intros Hc Hl Hpr. pose proof Hc as [Hk _ _ _ _ _]. unfold beginAcquisition.
  set (start := get ≫= _).
  assert (Hstart : forall k0 e0, common p k0 e0 -> nolease k0 e0 -> mstate k0 = StateInit ->
    wp start (fun _ => Inv p) k0 e0).
  { intros k0 e0 Hc0 Hn H3. unfold start. wsteps; [by apply sendDiscover_inv|].
    apply wpx_setTimer; [cbn; lia|]. wsteps. split_and!; [destruct Hc0; commons| |rewrite H3; ks; intros _; right; by arms].
    rewrite H3. destruct Hn as (?&?&?&?&?). ks. split_and!; try done; unfold lease_timers_off; ks; by arms. }
  clearbody start. unfold takeResume. wsteps.
  assert (Hidle : forall k', mhaveLse k' = false -> mhaveProbe k' = false -> nolease k' (e <| armed := f |>)).
  { intros k' ? ?. split_and!; try done; unfold lease_timers_off; ks; auto. }
  ks. destruct (mresume k) as [r|] eqn:Er; wsteps.
  - apply Hstart; [destruct Hc; commons|by apply Hidle|done].
  - apply sendReboot_inv; [destruct Hc; commons|by apply Hidle|]. ks.
    destruct (live (Some r) now) eqn:Elive; [|done]. unfold live in Elive.
    destruct (negb (Is4 (ResumeAddr r)) || _) eqn:E; [done|]. by apply unusable_false.
  - apply Hstart; [destruct Hc; commons|by apply Hidle|done].
Qed.

Lemma restartPaced_inv rnd w k e : common p k e -> mhaveLse k = false -> mhaveProbe k = false ->
  wp (restartPaced now rnd w) (fun _ => Inv p) k e.
Proof.
  intros Hc Hl Hpr. pose proof Hc as [Hk _ _ _ _ _]. unfold restartPaced. wsteps.
  - apply beginAcquisition_inv; try done. destruct Hc; commons.
  - apply wpx_toInitIdle. intros f Hf. wsteps. apply wpx_setTimer; [ks; rewrite Hk; apply Delay_allowed; tauto|].
    wsteps. split_and!; [destruct Hc; commons| |ks; intros _; left; by arms]. ks. split_and!; try done. unfold lease_timers_off. ks. by arms.
Qed.

(** ** A conflict *)

Lemma restartDelay_pos q : 0 < params_restartDelay q.
Proof. unfold params_restartDelay. destruct (Z.leb_spec (pRestartDelay q) 0); [done|lia]. Qed.

Lemma acd_restartDelay_le a t d : d <= acd_restartDelay a t d.
Proof.
  unfold acd_restartDelay. destruct (negb _); [lia|]. cbv zeta.
  destruct (Z.ltb_spec (Sub (Add (attemptAt a) (RateLimitInterval (aparams a))) t) d); lia.
Qed.

Lemma declineAndRestart_inv rnd k e : common p k e -> wp (declineAndRestart now rnd) (fun _ => Inv p) k e.
Proof.
  intros Hc. unfold declineAndRestart. set (tail := get ≫= _).
  assert (Htail : forall k0 e0, common p k0 e0 -> mhaveLse k0 = false -> wp tail (fun _ => Inv p) k0 e0).
  { intros k0 e0 Hc0 Hl. unfold tail. apply wpx_bind, wpx_get. cbv zeta.
    set (lim := match macd k0 with Some a => rateLimited a | None => false end).
    assert (Hlim : lim = true -> exists a, macd k0 = Some a) by (unfold lim; destruct (macd k0); [eauto|done]).
    clearbody lim. apply wpx_bind, wpx_toInitIdle. intros f Hf.
    assert (Hend : Inv p
      (k0 <| mstate := StateInit |> <| moffer := None |> <| mretransmits := 0 |> <| macd := acd_stop <$> macd k0 |>
          <| mprobing := lease_zero |> <| mhaveProbe := false |> <| mhaveARPAction := false |>)
      (e0 <| armed := f |> <| armed := arm TimerRestart true f |>)).
    { split_and!; [destruct Hc0; commons| |ks; intros _; left; by arms]. ks. split_and!; try done; unfold lease_timers_off; ks; by arms. }
    pose proof (restartDelay_pos (mparams k0)) as Hpos. apply wpx_bind. destruct lim.
    - destruct (Hlim eq_refl) as [a Ha]. wsteps. apply (wpx_lift _ _ _ (acd_stop a)); [ks; by rewrite Ha|].
      pose proof (acd_restartDelay_le (acd_stop a) now (params_restartDelay (mparams k0))).
      wsteps. apply wpx_setTimer; [cbn -[acd_restartDelay]; lia|]. wsteps. exact Hend.
    - wsteps. apply wpx_setTimer; [cbn; lia|]. wsteps. exact Hend. }
  clearbody tail. wsteps. apply wpx_sendDecline; [apply Hc|]. wsteps. apply (wpx_dropLease _ _ _ _ Hc).
  - intros Hl. wsteps. by apply Htail.
  - intros Hl f _ _. wsteps. apply Htail; [destruct Hc; commons|done].
Qed.

(** ** Renewing *)

Lemma renewalDelay_floor k : RenewRetransmitFloor <= renewalDelay k now.
Proof.
  unfold renewalDelay. cbv zeta.
  match goal with |- _ <= match ?u with _ => _ end => destruct u as [t|]; [|lia] end.
  destruct (Z.ltb_spec (Z.quot (Sub t now) 2) RenewRetransmitFloor); lia.
Qed.

Lemma renewal_allowed e k : allowed p e (ActSetTimer TimerRetransmit (renewalDelay k now)).
Proof. pose proof (renewalDelay_floor k) as H. unfold RenewRetransmitFloor, Second in H. cbn -[renewalDelay]. lia. Qed.

Definition renewing_state (k : Core) (e : Env) : Prop :=
  mstate k = StateRenewing /\ usable4 (lServerID (mlease k)) = true /\ rebinds k e \/ mstate k = StateRebinding.

Lemma sendRenewal_inv k e : common p k e -> lease_ok k e -> renewing_state k e ->
  wp (sendRenewal now) (fun _ => Inv p) k e.
Proof.
  intros Hc (Hl & Hpr & Hgood & Hexp) Hst. pose proof Hc as [Hk Hname _ _ _ _].
  unfold sendRenewal. apply wpx_bind, wpx_base. intros n.
  destruct (request_shape p Hp k Hk Hname now (paddr (lAddr (mlease k))) None None)
    as (H1&H2&H3&H4&H5&H6&H7&H8&H9); [done..|].
  set (m := requestMessage k now (paddr (lAddr (mlease k))) None None) in *.
  assert (Hus : usable4 (CIAddr m) = true) by (rewrite H5; apply Hgood).
  assert (Hconf : forall d, (broadcasts d \/ exists sid, unicasts d sid (CIAddr m)) -> conforms p m d).
  { intros d Hd. split; [exact H1|]. do 3 right. left. by split_and!. }
  assert (Hpost : forall k0, k0 = k <| mnameOnWire := n |> <| mrequestSentAt := now |> ->
    wp (setTimer TimerRetransmit (renewalDelay (k <| mnameOnWire := n |>) now)) (fun _ => Inv p) k0
      (if is_request m then e <| lastReq := now |> else e)).
  { intros k0 ->. rewrite H6. apply wpx_setTimer; [apply renewal_allowed|].
    split_and!; [destruct Hc; commons| |].
    - ks. destruct Hst as [(-> & Hsid & Hrb)| ->]; ks; split_and!; done.
    - unfold rebinds in *. ks. destruct Hst as [(-> & Hsid & Hrb)| ->]; ks; arms; done. }
  apply wpx_bind, wpx_get. cbv zeta. ks. apply wpx_bind, wpx_modify. ks.
  apply wpx_bind. destruct (state_eqb (mstate k) StateRenewing) eqn:Es.
  - apply wpx_send; [apply Hconf|exact H3|by apply Hpost].
    right. exists (lServerID (mlease k)). split_and!; try done.
    destruct Hst as [(_ & Hsid & _)|Hst]; [done|]. by rewrite Hst in Es.
  - apply wpx_send; [apply Hconf; by left|exact H3|by apply Hpost].
Qed.

(** A fresh transaction changes nothing the invariant reads but the offer. *)
Lemma wpx_beginRenewal rnd (Q : unit -> Core -> Env -> Prop) k e :
  Q tt (k <| mxid := u32 (split rnd 0) |> <| mstartedAt := now |> <| mstarted := true |> <| mretransmits := 0 |>
          <| msendFailures := 0 |> <| moffer := None |>) e ->
  wp (beginRenewalTransaction now rnd) Q k e.
Proof. intros H. unfold beginRenewalTransaction. by wsteps. Qed.

Lemma enterRenewing_inv rnd k e : common p k e -> lease_ok k e -> rebinds k e -> mstate k = StateBound ->
  wp (enterRenewing now rnd) (fun _ => Inv p) k e.
Proof.
  intros Hc Hl Hrb Hst. unfold enterRenewing. apply wpx_bind, wpx_get. cbv zeta.
  destruct (negb (Is4 (lServerID (mlease k))) || _) eqn:E.
  - assert (Hno : usable4 (lServerID (mlease k)) = false).
    { destruct (usable4 _) eqn:Eu; [|done]. apply unusable_false in Eu. congruence. }
    wsteps. destruct Hl as (?&?&?&?). split_and!; [done| |]; rewrite Hst; ks; [done|].
    split; [done|]. split; [by right|done].
  - wsteps. apply wpx_beginRenewal. wsteps. apply sendRenewal_inv; [destruct Hc; commons|done|].
    left. split; [done|]. split; [by apply unusable_false|exact Hrb].
Qed.

Lemma enterRebinding_inv rnd fresh k e : common p k e -> lease_ok k e ->
  wp (enterRebinding now rnd fresh) (fun _ => Inv p) k e.
Proof.
  intros Hc Hl. unfold enterRebinding. wsteps; [apply wpx_beginRenewal|]; wsteps;
    (apply sendRenewal_inv; [destruct Hc; commons|done|by right]).
Qed.

(** ** The host name *)

(** The lease of a state that holds one. *)
Lemma inv_lease_ok k e : Inv p k e ->
  mstate k = StateBound \/ mstate k = StateRenewing \/ mstate k = StateRebinding -> lease_ok k e.
Proof.
  intros (_ & Hw & Hd) Hst. unfold lease_ok. destruct Hst as [Hst|[Hst|Hst]]; rewrite Hst in Hw, Hd; ks; tauto.
Qed.

Lemma inv_rebinds k e : Inv p k e -> mstate k = StateBound \/ mstate k = StateRenewing -> rebinds k e.
Proof. intros (_ & _ & Hd) [Hst|Hst]; rewrite Hst in Hd; ks; tauto. Qed.

Lemma announceHostname_inv rnd k e : Inv p k e -> wp (announceHostname now rnd) (fun _ => Inv p) k e.
Proof.
  intros Hi. pose proof (inv_lease_ok _ _ Hi) as Hl. pose proof (inv_rebinds _ _ Hi) as Hrb. pose proof Hi as (Hc & Hw & _).
  unfold announceHostname. apply wpx_bind, wpx_get. destruct (_ || _); [by apply wpx_ret|].
  destruct (mstate k) eqn:Es; try (by apply wpx_ret).
  - apply wpx_bind. eapply wpx_mono; [apply enterRenewing_inv; tauto|]. intros [] k' e' Hi'. by wsteps.
  - apply wpx_bind. eapply wpx_mono.
    + apply sendRenewal_inv; [done|tauto|]. left. split; [exact Es|]. ks. tauto.
    + intros [] k' e' Hi'. by wsteps.
  - apply wpx_bind. eapply wpx_mono; [apply sendRenewal_inv; [done|tauto|by right]|]. intros [] k' e' Hi'. by wsteps.
Qed.

Lemma takeHostname_inv rnd name k e : Inv p k e -> wp (takeHostname now rnd name) (fun _ => Inv p) k e.
Proof.
  intros Hi. unfold takeHostname. apply wpx_bind, wpx_get.
  destruct (negb (sendsHostname k)); [by wsteps|].
  destruct (ValidateHostname name) eqn:Ev; cbn [negb]; [|by wsteps].
  apply wpx_bind, wpx_modify, wpx_bind. eapply wpx_mono.
  - apply announceHostname_inv. destruct Hi as ([] & Hw & Hd). split_and!; [commons|done|done].
    unfold ValidateHostname in Ev. destruct (Nat.eqb_spec (length name) 0); [lia|].
    destruct (Nat.ltb_spec 255 (length name)); [done|lia].
  - intros [] k' e' Hi'; by wsteps.
Qed.
End methods.
