(* ===== verification/MachineSteps.v ===== *)
(** * Every step keeps the invariant

    Entering BOUND, the conflict check, what each message does, and [step]
    itself: from a state of the invariant, a step does not panic, each of its
    actions is allowed where it stands, and the invariant holds again. *)

From S2P Require Import Prelude NetAddr Options Codec Forcerenew Values Arp Backoff Kinds Lease Acd Params Core Machine MachineSpec MachineLogic Messages MachineInv.

(** ** Entering BOUND *)

Lemma Deadlines_expire l : dExpire (LeaseDeadlines l) = Expire l.
Proof.
  unfold LeaseDeadlines, Expire. cbv zeta. destruct (negb _ && _)%bool; [done|].
  match goal with |- context [let '(a, b) := ?x in _] => destruct x as [rb n] end.
  match goal with |- context [let '(a, b) := ?x in _] => destruct x as [rn n'] end. done.
Qed.

Lemma Expire_None l : Expire l = None <-> IsInfinite (lLeaseTime l) = true.
Proof. unfold Expire. by destruct (IsInfinite _). Qed.

(** Settling the key leaves the rest of the lease alone. *)
Lemma settle_keeps k l r : let l' := (settleForcerenew k l r).1 in
  lAddr l' = lAddr l /\ lStart l' = lStart l /\ lLeaseTime l' = lLeaseTime l /\ lServerID l' = lServerID l.
Proof.
  unfold settleForcerenew. destruct (_ =? _)%nat; cbn [fst].
  - by destruct (_ && (_ <? _))%bool.
  - by destruct (_ && _)%bool.
Qed.

Section steps.
Context (unparked : Prop) (p : Params) (Hp : params_wf p) (now : Instant).
Local Abbreviation Inv := (InvOf unparked).
Local Abbreviation driven := (driven unparked).

Local Abbreviation wp := (wpx p now).

(** [common] of assigned fields. *)
Ltac commons := constructor; ks; try done; try (by apply acd_ok_stop); try congruence.

(** One branch of the code. *)
Ltac wif := lazymatch goal with |- wpx _ _ (if ?b then _ else _) _ _ _ => destruct b eqn:? end.

(** [Inv] after the assignment of a field it does not read. *)
Ltac keeping H := let Hc := fresh in let Hw := fresh in let Hd := fresh in
  destruct H as (Hc & Hw & Hd); split_and!; [destruct Hc; commons | exact Hw | exact Hd].

Lemma wpx_armDeadline t ts (Q : unit -> Core -> Env -> Prop) k e :
  (t <> TimerRetransmit /\ t <> TimerRestart /\ t <> TimerDesync) ->
  Q tt k (e <| armed := arm t (bool_decide (is_Some ts)) (armed e) |>) -> wp (armDeadline now t ts) Q k e.
Proof.
  intros Ht H. unfold armDeadline. destruct ts as [ts|].
  - apply wpx_setTimer; [|exact H]. cbv zeta. destruct (Z.ltb_spec (Sub ts now) 0); cbn; [naive_solver lia|].
    split; [done|]. naive_solver.
  - by wsteps.
Qed.

Lemma wpx_when_journal b n (Q : unit -> Core -> Env -> Prop) k e : Q tt k e -> wp (when b (journal n)) Q k e.
Proof. intros H. by wsteps. Qed.

(** The prober, started for an address. *)
Definition started (a : acd) (addr : Addr) : acd :=
  a <| aaddr := addr |> <| asent := 0 |> <| attemptAt := now |> <| aphase := ACDProbing |>.

Lemma wpx_startACD n rnd addr (Q : unit -> Core -> Env -> Prop) k e : acd_ok p (macd k) ->
  (macd k = None -> Q tt k e) ->
  (forall a, macd k = Some a ->
     Q tt (k <| macd := Some (started a addr) |>) (e <| armed := arm TimerACD true (armed e) |>)) ->
  wp (startACD_ (applyACD (S n)) now rnd addr) Q k e.
Proof.
  intros Hok Hno Hyes. unfold startACD_. apply wpx_bind, wpx_get. destruct (macd k) as [a|] eqn:Ea.
  2:{ apply wpx_ret. by apply Hno. }
  destruct Hok as (_ & Hpar & _ & _). pose proof (pw_acd p Hp) as Hacd. cbv zeta in Hacd.
  unfold acdStep, acd_start. cbv zeta.
  change (ProbeNum (aparams _)) with (ProbeNum (aparams a)). change (ProbeWait (aparams _)) with (ProbeWait (aparams a)).
  rewrite Hpar, (proj2 (Z.leb_gt (ProbeNum (params_acd p)) 0)) by lia.
  wsteps. cbn [applyACD]. unfold applyACD_. apply wpx_forM_cons. cbn [applyACDAction_].
  pose proof (uniform_range 0 (ProbeWait (params_acd p)) rnd).
  apply wpx_setTimer; [cbn -[uniform]; split; [lia|by intros [?|[?|?]]]|].
  apply wpx_forM_nil. by apply Hyes.
Qed.

Lemma enterBound_inv apply rnd l renewal k e :
  common p k e -> mhaveLse k = renewal -> mhaveProbe k = false -> good_lease l -> lStart l = lastReq e ->
  (renewal = false -> pConflict p = ConflictWait ->
     lastARP e = Some (mkARP ARPRequest (linkHW p) [] (paddr (lAddr l)) (paddr (lAddr l)))) ->
  (renewal = true -> exists n, apply = applyACD (S n)) ->
  wp (enterBound_ apply now rnd l renewal) (fun _ => Inv p) k e.
Proof.
  intros Hc Hl Hpr Hgood Hstart Harp Happly. unfold enterBound_.
  apply wpx_bind, wpx_get. cbv zeta. apply wpx_bind, wpx_cancel. apply wpx_bind, wpx_get.
  destruct (settleForcerenew k l (renewal && mhaveLse k)) as [l' key] eqn:Es.
  pose proof (settle_keeps k l (renewal && mhaveLse k)) as Hkeep. rewrite Es in Hkeep. cbv zeta in Hkeep. cbn [fst] in Hkeep.
  destruct Hkeep as (K1 & K2 & K3 & K4). clear Es.
  assert (Hgood' : good_lease l') by (unfold good_lease; by rewrite K1).
  do 7 (apply wpx_bind, wpx_modify).
  do 3 (apply wpx_bind, wpx_when_journal). rewrite Deadlines_expire.
  set (rest := armDeadline now TimerExpire _ ≫= _).
  match goal with |- wp _ _ ?k' ?e' => set (k1 := k'); set (e1 := e') end.
  assert (Hrest : forall k2, k2 = k1 \/ k2 = k1 <| mrestarts := 0 |> -> wp rest (fun _ => Inv p) k2 e1).
  2:{ clearbody rest. apply wpx_bind, wpx_when; intros _; [apply wpx_modify|]; apply Hrest; tauto. }
  intros k2 Hk2. unfold rest. do 3 (apply wpx_bind, wpx_armDeadline; [done|]).
  set (f := arm TimerRebind _ _).
  match goal with |- wp _ _ _ ?e' => change e' with (e1 <| armed := f |>) end.
  assert (Hexp : IsInfinite (lLeaseTime l') = false -> f TimerExpire = true).
  { intros Hi. unfold f. ks. arms. apply bool_decide_true. destruct (Expire l') eqn:E; [done|].
    apply Expire_None in E. congruence. }
  assert (Htimes : (is_Some (dRenew (LeaseDeadlines l')) -> f TimerRenew = true) /\
    (is_Some (dRebind (LeaseDeadlines l')) -> f TimerRebind = true)).
  { unfold f. ks. arms. split; intros ?; by apply bool_decide_true. }
  destruct Htimes as [Hrn Hrb]. clearbody f.
  assert (Hrep : reportable (e1 <| armed := f |>) l')
    by (unfold reportable; ks; rewrite K2; split_and!; [apply Hgood'|done|exact Hexp]).
  assert (Hinv : Inv p k2 (e1 <| armed := f |> <| holds := true |>)).
  { destruct Hk2 as [->| ->]; unfold k1;
      (split; [destruct Hc; commons|split; [ks; split_and!; try done; apply Hgood'|ks; split; [exact Hexp|split; [intros Hsome; left; exact (Hrn Hsome)|exact Hrb]]]]). }
  assert (Hst : mstate k2 = StateBound) by (by destruct Hk2 as [->| ->]).
  assert (Hh : holds e1 = mhaveLse k) by apply (co_holds _ _ _ Hc).
  assert (Ha : lastARP e1 = lastARP e) by done. rewrite Hl in Hh.
  clearbody e1. clear Hk2 rest. clearbody k1. destruct renewal; cbn [negb].
  - apply wpx_bind, wpx_stamp; [by split|]. intros _. ks. 
    assert (Hinv' : Inv p k2 (e1 <| armed := f |>)) by (destruct e1; ks; by subst).
    apply wpx_when; [intros _|by intros _]. apply wpx_bind.
    assert (Hchanged : forall k3 e3, Inv p k3 e3 -> holds e3 = true ->
      wp (stamp (ActLeaseChanged l') ;; mret tt) (fun _ => Inv p) k3 e3) by (intros; by apply wpx_emit).
    apply wpx_when; intros _; [|by apply Hchanged]. destruct (Happly eq_refl) as [n ->].
    apply wpx_bind, wpx_journal. destruct Hinv' as (Hc2 & Hw2 & Hd2).
    apply wpx_startACD; [apply Hc2|by intros; apply Hchanged|]. intros a Hacd. apply Hchanged; [|done].
    rewrite Hst in Hw2, Hd2. split; [|split].
    + destruct Hc2. commons. rewrite Hacd in co_acd. destruct co_acd as (?&?&?&?). split_and!; try done.
      right. apply Hgood'.
    + ks. rewrite Hst. done.
    + ks. rewrite Hst. unfold renews, rebinds in *. ks. by arms.
  - apply wpx_bind, wpx_get, wpx_bind, wpx_stamp.
    { split; [done|]. split; [done|]. intros Hwait. ks. rewrite Ha, K1. by apply Harp. }
    intros _. apply wpx_bind. eapply wpx_mono; [by apply announceHostname_inv|]. intros b k' e' Hi. by wsteps.
Qed.

(** ** The conflict check *)

Lemma wpx_sendARP q (Q : unit -> Core -> Env -> Prop) k e : is_acd_packet p q ->
  (forall id, Q tt (k <| marpAction := id |> <| mhaveARPAction := true |>) (e <| lastARP := Some q |>)) ->
  wp (sendARP q) Q k e.
Proof. intros Hq H. unfold sendARP. apply wpx_bind, wpx_stamp; [done|]. intros id. wsteps. apply H. Qed.

(** A state in which the check's timer has just fired. *)
Definition acd_pre (k : Core) (e : Env) : Prop :=
  common p k e /\ weak_inv p (mstate k) k e /\ (mstate k = StateProbing \/ driven (mstate k) k e) /\
  mstate k <> StateStopped.

Lemma acd_after k e a a' id b q : acd_pre k e -> macd k = Some a -> acd_ok p (Some a') ->
  (mstate k = StateProbing -> b = true /\ (aphase a' = ACDProbing \/ aphase a' = ACDSettling) /\ aaddr a' = aaddr a) ->
  Inv p (k <| macd := Some a' |> <| marpAction := id |> <| mhaveARPAction := true |>)
        (e <| lastARP := q |> <| armed := arm TimerACD b (armed e) |>).
Proof.
  intros (Hc & Hw & Hd & Hs) Ha Ha' Hpr. split_and!; [destruct Hc; commons| |]; ks.
  - unfold nolease, probing_ok, lease_timers_off in *. destruct (mstate k); ks; arms; try done.
    destruct (Hpr eq_refl) as (_ & Hph & Haddr). destruct Hw as (?&?&?&?&?&?&a0&Ha0&_&Haddr0).
    split_and!; try done; try tauto. exists a'. rewrite Ha in Ha0. injection Ha0 as <-.
    split; [done|]. split; [done|]. ks. congruence.
  - unfold renews, rebinds in *. destruct (mstate k); ks; arms; try done; try (destruct Hd as [Hd|Hd]; done). by destruct (Hpr eq_refl).
Qed.

Lemma packet_ok a : acd_ok p (Some a) -> aphase a <> ACDIdle ->
  is_acd_packet p (probe a) /\ is_acd_packet p (announcement a).
Proof.
  intros (_ & _ & Hhw & [?|Hus]) Hph; [done|]. unfold probe, announcement. rewrite Hhw.
  split; exists (aaddr a); (split; [done|]); [by left|by right].
Qed.

Lemma conflict_inv f rnd why k e : common p k e -> wp (applyACDAction_ f now rnd (acdConflict why)) (fun _ => Inv p) k e.
Proof.
  intros Hc. cbn [applyACDAction_]. wsteps. eapply wpx_mono; [by apply declineAndRestart_inv|].
  intros [] k' e' Hi. by wsteps.
Qed.

(** Both packets go out with the address they check, and the timer follows. *)
Lemma probe_and_wait f rnd a a' d k e : acd_pre k e -> macd k = Some a -> acd_ok p (Some a') ->
  (aphase a' = ACDProbing \/ aphase a' = ACDSettling) -> aaddr a' = aaddr a -> 0 <= d ->
  wp (applyACD_ f now rnd [acdSendProbe; acdSetTimer d]) (fun _ => Inv p) (k <| macd := Some a' |>) e.
Proof.
  intros Hpre Ha Ha' Hph Haddr Hd. unfold applyACD_. apply wpx_forM_cons. cbn [applyACDAction_].
  apply wpx_bind, wpx_get, wpx_bind. apply (wpx_lift _ _ _ a'); [done|].
  apply wpx_sendARP; [apply packet_ok; [done|by destruct Hph as [->| ->]]|]. intros id.
  apply wpx_forM_cons, wpx_setTimer; [cbn; split; [lia|by intros [?|[?|?]]]|]. apply wpx_forM_nil.
  exact (acd_after k e a a' id true (Some (probe a')) Hpre Ha Ha' ltac:(done)).
Qed.

(** Announcing, and what follows it. *)
Lemma announce_and rest f rnd a a' (Q : unit -> Core -> Env -> Prop) k e : macd k = Some a -> acd_ok p (Some a') ->
  usable4 (aaddr a') = true -> (rest = acdSetTimer (AnnounceInterval (params_acd p)) \/ rest = acdCancelTimer) ->
  forall more,
  (forall id b, (b = true \/ b = false) ->
     wp (applyACD_ f now rnd more) Q (k <| macd := Some a' |> <| marpAction := id |> <| mhaveARPAction := true |>)
       (e <| lastARP := Some (announcement a') |> <| armed := arm TimerACD b (armed e) |>)) ->
  wp (applyACD_ f now rnd (acdSendAnnounce :: rest :: more)) Q (k <| macd := Some a' |>) e.
Proof.
  intros Ha Ha' Hus Hrest more H. pose proof (pw_acd p Hp) as Hacd. cbv zeta in Hacd.
  unfold applyACD_. apply wpx_forM_cons. cbn [applyACDAction_].
  apply wpx_bind, wpx_get, wpx_bind. apply (wpx_lift _ _ _ a'); [done|].
  apply wpx_sendARP.
  { unfold announcement. destruct Ha' as (_ & _ & -> & _). exists (aaddr a'). split; [done|by right]. }
  intros id. apply wpx_forM_cons. destruct Hrest as [->| ->]; cbn [applyACDAction_].
  - apply wpx_setTimer; [cbn; split; [lia|by intros [?|[?|?]]]|]. apply (H id true). by left.
  - apply wpx_cancel. apply (H id false). by right.
Qed.

Lemma set_macd_same k a : macd k = Some a -> k <| macd := Some a |> = k.
Proof. intros H. destruct k. cbn in *. by subst. Qed.

(** In PROBING the prober is probing or settling for the address on trial. *)
Lemma pre_probing k e a : acd_pre k e -> macd k = Some a -> mstate k = StateProbing ->
  (aphase a = ACDProbing \/ aphase a = ACDSettling) /\ probing_ok p k e /\ aaddr a = paddr (lAddr (mprobing k)).
Proof.
  intros (_ & Hw & _) Ha Hs. rewrite Hs in Hw. pose proof Hw as Hw'. destruct Hw' as (?&?&?&?&?&?&a0&Ha0&Hph&Haddr).
  rewrite Ha in Ha0. injection Ha0 as <-. by split_and!.
Qed.

Lemma pre_inv k e : acd_pre k e -> mstate k <> StateProbing -> Inv p k e.
Proof. intros (Hc & Hw & [Hd|Hd] & _) Hne; [done|]. by split_and!. Qed.

(** The check ends: a lease on trial is taken, announced first. *)
Lemma ready_inv n rnd a a' id b k e : acd_pre k e -> macd k = Some a -> acd_ok p (Some a') ->
  aaddr a' = aaddr a -> (aphase a = ACDSettling) ->
  wp (applyACD_ (applyACD n) now rnd [acdReady]) (fun _ => Inv p)
    (k <| macd := Some a' |> <| marpAction := id |> <| mhaveARPAction := true |>)
    (e <| lastARP := Some (announcement a') |> <| armed := arm TimerACD b (armed e) |>).
Proof.
  intros Hpre Ha Ha' Haddr Hph. pose proof Hpre as (Hc & Hw & _ & Hs).
  unfold applyACD_. apply wpx_forM_cons. cbn [applyACDAction_]. unfold acdReady_.
  apply wpx_bind, wpx_get. ks. destruct (mhaveProbe k) eqn:Epr; cbn [negb].
  - assert (Est : mstate k = StateProbing).
    { destruct (mstate k); ks; unfold nolease in Hw; destruct_and?; try done; try congruence. }
    destruct (pre_probing _ _ _ Hpre Ha Est) as (_ & (Hl & _ & Hoff & Hwait & Hgood & Hstart & _) & Hprobing).
    cbv zeta. apply wpx_bind, wpx_modify, wpx_bind, wpx_modify, wpx_bind, wpx_journal.
    apply wpx_mono with (Q := fun _ => Inv p).
    + apply enterBound_inv; try done; [destruct Hc; commons|].
      intros _ _. ks. unfold announcement. destruct Ha' as (_ & _ & -> & _). by rewrite Haddr, Hprobing.
    + intros [] k' e' Hi. by apply wpx_forM_nil.
  - apply wpx_journal, wpx_forM_nil.
    apply (acd_after k e a a' id b (Some (announcement a')) Hpre Ha Ha').
    intros Est. destruct (pre_probing _ _ _ Hpre Ha Est) as (_ & (_ & Hpr & _) & _). congruence.
Qed.

Lemma acdTimer_inv rnd k e : acd_pre k e -> wp (acdTimer now rnd) (fun _ => Inv p) k e.
Proof.
  intros Hpre. pose proof Hpre as (Hc & Hw & Hd & Hs). pose proof (pw_acd p Hp) as Hacd. cbv zeta in Hacd.
  unfold acdTimer. apply wpx_bind, wpx_get. pose proof (co_acd _ _ _ Hc) as Hok.
  destruct (macd k) as [a|] eqn:Ea.
  2:{ apply wpx_journal, pre_inv; [done|]. intros Est. rewrite Est in Hw. destruct Hw as (_&_&_&_&_&_&a0&Ha0&_); congruence. }
  destruct Hok as (Hmode & Hpar & Hhw & Hus). unfold acdDepth.
  change (applyACD 2) with (applyACD_ (applyACD 1)).
  cbn [acdStep]. unfold acd_timer. destruct (aphase a) eqn:Eph.
  - apply wpx_bind, wpx_modify. unfold applyACD_. apply wpx_forM_cons, wpx_journal, wpx_forM_nil.
    rewrite set_macd_same by done. apply pre_inv; [done|]. intros Est.
    destruct (pre_probing _ _ _ Hpre Ea Est) as ([?|?] & _); congruence.
  - destruct Hus as [?|Hus]; [done|]. cbv zeta.
    ks. rewrite !Hpar.
    pose proof (uniform_range (ProbeMin (params_acd p)) (ProbeMax (params_acd p)) rnd).
    destruct (_ <? _); apply wpx_bind, wpx_modify; eapply probe_and_wait; try done;
      ks; rewrite ?Hpar; try tauto; try lia; split_and!; try done; by right.
  - destruct Hus as [?|Hus]; [done|]. unfold announce. ks. rewrite Hpar.
    rewrite (proj2 (Z.leb_gt (AnnounceNum (params_acd p)) 0)) by lia. cbv zeta. ks. rewrite ?Hpar.
    destruct (_ <? _); cbn [app]; apply wpx_bind, wpx_modify; eapply announce_and; try done; try tauto;
      try (split_and!; try done; by right); intros id b _; eapply ready_inv; try done; split_and!; try done; by right.
  - destruct Hus as [?|Hus]; [done|]. unfold announce. ks. rewrite Hpar.
    assert (Hnp : mstate k <> StateProbing).
    { intros Est. destruct (pre_probing _ _ _ Hpre Ea Est) as ([?|?] & _); congruence. }
    rewrite (proj2 (Z.leb_gt (AnnounceNum (params_acd p)) 0)) by lia. cbv zeta. ks. rewrite ?Hpar.
    destruct (_ <? _); cbn [app]; apply wpx_bind, wpx_modify; eapply announce_and; try done; try tauto;
      try (split_and!; try done; by right); intros id b _; apply wpx_forM_nil; 
      (eapply acd_after; [done..| |done]); split_and!; try done; by right.
  - apply wpx_bind, wpx_modify. unfold applyACD_. apply wpx_forM_cons, wpx_journal, wpx_forM_nil.
    rewrite set_macd_same by done. apply pre_inv; [done|]. intros Est.
    destruct (pre_probing _ _ _ Hpre Ea Est) as ([?|?] & _); congruence.
Qed.

Lemma onARP_inv rnd pkt k e : Inv p k e -> wp (onARP now rnd pkt) (fun _ => Inv p) k e.
Proof.
  intros Hi. pose proof Hi as (Hc & _ & _). pose proof (co_acd _ _ _ Hc) as Hok.
  unfold onARP. apply wpx_bind, wpx_get. destruct (macd k) as [a|] eqn:Ea; [|by wsteps].
  destruct pkt as [q|]; [|by wsteps]. unfold acdDepth. change (applyACD 2) with (applyACD_ (applyACD 1)).
  cbn [acdStep]. unfold acd_arp.
  assert (Hsame : wp (macd ::= Some a ;; applyACD_ (applyACD 1) now rnd []) (fun _ => Inv p) k e).
  { apply wpx_bind, wpx_modify, wpx_forM_nil. by rewrite set_macd_same. }
  destruct (negb (IsValid (aaddr a))); [exact Hsame|].
  destruct (conflictRule a q) as [[rule why]|]; [|exact Hsame].
  apply wpx_bind, wpx_modify. unfold applyACD_. apply wpx_forM_cons.
  eapply wpx_mono; [apply conflict_inv|].
  - destruct Hok as (?&?&?&_), Hc. commons. split_and!; try done. by left.
  - intros [] k' e' Hi'. by apply wpx_forM_nil.
Qed.

(** ** What an acknowledgement leads to *)

Lemma enterProbing_inv rnd l k e : common p k e -> nolease k e -> good_lease l -> lStart l = lastReq e ->
  pConflict p = ConflictWait -> wp (enterProbing now rnd l) (fun _ => Inv p) k e.
Proof.
  intros Hc (Hl & Hpr & Hoff) Hgood Hstart Hwait. pose proof (co_acd _ _ _ Hc) as Hok.
  unfold enterProbing. wsteps. unfold startACD, acdDepth. apply wpx_startACD; [done| |].
  - ks. intros Hn. rewrite Hn in Hok. cbn in Hok. congruence.
  - ks. intros a Ha. rewrite Ha in Hok. destruct Hok as (?&?&?&_).
    split_and!; [destruct Hc; commons| |done].
    + split_and!; try done. right. apply Hgood.
    + ks. destruct Hoff as (?&?&?). unfold probing_ok. ks. split_and!; try done; try apply Hgood.
      eexists. split; [done|]. split; [by left|done].
Qed.

Lemma afterAck_inv rnd l k e : common p k e -> nolease k e -> good_lease l -> lStart l = lastReq e ->
  wp (afterAck now rnd l) (fun _ => Inv p) k e.
Proof.
  intros Hc Hn Hgood Hstart. pose proof Hn as (Hl & Hpr & Hoff). unfold afterAck. apply wpx_bind, wpx_get.
  rewrite (co_params _ _ _ Hc). destruct (pConflict p) eqn:Em.
  - by apply enterProbing_inv.
  - pose proof (co_acd _ _ _ Hc) as Hok. unfold startACD, enterBound, acdDepth.
    apply wpx_bind, wpx_startACD; [done| |].
    + intros Ha. rewrite Ha in Hok. cbn in Hok. congruence.
    + intros a Ha. rewrite Ha in Hok. destruct Hok as (?&?&?&_).
      apply enterBound_inv; try done; try congruence. destruct Hc; commons. split_and!; try done. right. apply Hgood.
  - unfold enterBound. apply enterBound_inv; try done; congruence.
Qed.

Lemma wpx_lease m t (Q : option (Lease * Note) -> Core -> Env -> Prop) k e :
  (forall l n, good_lease l -> lStart l = t -> Q (Some (l, n)) k e) -> Q None k e ->
  wp (liftw (leaseFromAck m t)) Q k e.
Proof.
  intros Hs Hn. destruct (leaseFromAck_cases m t) as (r & Hr & H). apply (wpx_liftw _ _ _ r); [done|].
  destruct r as [[l n]|]; [|done]. destruct H as (H1 & H2 & H3 & H4 & _). apply Hs; [|done].
  split; [by rewrite H2|done].
Qed.

(** ** IPv6-only *)

Lemma wpx_v6OnlyValue msg (Q : option Z -> Core -> Env -> Prop) k e :
  (forall r c, Q r (k <| mv6OnlyCounts := c |>) e) -> wp (v6OnlyValue msg) Q k e.
Proof.
  intros H. assert (H0 : forall r, Q r k e).
  { intros r. specialize (H r (mv6OnlyCounts k)). by destruct k. }
  unfold v6OnlyValue. apply wpx_bind, wpx_get. destruct msg as [msg|]; [|by wsteps].
  destruct (negb _); [by wsteps|]. unfold IPv6OnlyPreferred. destruct (MOptions msg !! _) as [v|]; cbn [mbind option_bind]; [|by wsteps].
  destruct (Nat.eqb_spec (length v) 4) as [Hv|]; cbn [negb]; [|wsteps; apply H].
  destruct (@ube32_returns WireErr v) as [s ->]; [lia|]. by wsteps.
Qed.

Lemma waitForIPv6_inv st secs k e : common p k e -> mhaveLse k = false ->
  wp (waitForIPv6 now st secs) (fun _ => Inv p) k e.
Proof.
  intros Hc Hl. unfold waitForIPv6. wsteps. apply wpx_toInitIdle. intros f Hf. wsteps.
  apply wpx_setTimer.
  { assert (MinV6OnlyWait <= v6OnlyWait secs).
    { unfold v6OnlyWait. cbv zeta. destruct (Z.ltb_spec (i64 (secs * Second)) MinV6OnlyWait); lia. }
    unfold MinV6OnlyWait, Second in *. cbn -[v6OnlyWait]. lia. }
  wsteps. split_and!; [destruct Hc; commons| |ks; intros _; left; by arms]. ks. split_and!; try done. unfold lease_timers_off. ks. by arms.
Qed.

(** A counter is no part of the invariant. *)
Lemma wpx_noteV6OnlyKept msg st (Q : unit -> Core -> Env -> Prop) k e :
  (forall c, Q tt (k <| mv6OnlyCounts := c |>) e) -> wp (noteV6OnlyKept msg st) Q k e.
Proof.
  intros H. assert (H0 : Q tt k e) by (specialize (H (mv6OnlyCounts k)); by destruct k).
  unfold noteV6OnlyKept. destruct msg as [ms|]; [|by wsteps]. destruct (negb _); [by wsteps|].
  apply wpx_bind, wpx_v6OnlyValue. intros r c. destruct r; wsteps; [apply H|apply H].
Qed.

(** ** What is accepted *)

Lemma wpx_acceptable msg (Q : option Message -> Core -> Env -> Prop) k e :
  (forall m, msg = Some m -> Q (Some m) k e) -> Q None k e -> wp (acceptable msg) Q k e.
Proof.
  intros Hs Hn. unfold acceptable. apply wpx_bind, wpx_get. destruct (acceptableWhy k msg) as [m|why] eqn:E; wsteps; [|done].
  apply Hs. unfold acceptableWhy in E. destruct msg as [m0|]; [|done]. destruct (negb _); [done|].
  destruct (Type_ m0); [|done]. destruct (negb _); [done|]. cbv zeta in E. destruct (permits _ _ _); [done|].
  destruct (negb _); [done|]. congruence.
Qed.

Lemma wpx_refuseRapid st why (Q : unit -> Core -> Env -> Prop) k e :
  (forall c, Q tt (k <| mrapidCounts := c |>) e) -> wp (refuseRapid st why) Q k e.
Proof. intros H. unfold refuseRapid. wsteps. apply H. Qed.

Lemma takeRapidAck_inv rnd msg k e : Inv p k e -> mstate k = StateSelecting ->
  wp (takeRapidAck now rnd msg) (fun _ => Inv p) k e.
Proof.
  intros Hi Hst. pose proof Hi as (Hc & Hw & _). unfold takeRapidAck. apply wpx_bind, wpx_get.
  assert (Hre : forall st why, wp (refuseRapid st why) (fun _ => Inv p) k e) by (intros; apply wpx_refuseRapid; intros c; keeping Hi).
  assert (Hno : returns (RapidCommit (MOptions msg))).
  { unfold RapidCommit. destruct (_ !! _); [|done]. by destruct (negb _). }
  destruct (RapidCommit (MOptions msg)) as [b|err| |]; [|by apply Hre|by destruct Hno|by destruct Hno].
  rewrite (co_params _ _ _ Hc).
  destruct (pRapidCommit p) eqn:Er; cbn [negb]; [|by apply Hre].
  match goal with |- wp (if ?b then _ else _) _ _ _ => destruct b end; [by apply Hre|].
  apply wpx_bind, wpx_lease; [|by apply Hre]. intros l n Hgood Hstart.
  destruct ((lLeaseTime l <=? 0) && _)%bool; [by apply Hre|].
  apply wpx_bind, wpx_modify, wpx_bind, wpx_journal, wpx_bind, wpx_when_journal, wpx_bind, wpx_noteV6OnlyKept.
  intros c. rewrite Hst in Hw. destruct Hw as [Hn Hreq]. apply afterAck_inv; [destruct Hc; commons|done|done|].
  rewrite Hstart. by apply Hreq.
Qed.

(** ** Forcerenew *)

Lemma refuse_inv why k e : Inv p k e -> wp (refuseForcerenew why) (fun _ => Inv p) k e.
Proof. intros Hi. unfold refuseForcerenew. wsteps. keeping Hi. Qed.

Lemma destination_ok k dst : good_lease (mlease k) -> exists b, forcerenewDestinationIsUnicast k dst = Some b.
Proof.
  intros [Hus Hbits]. apply usable4_inv in Hus as (v & Hv & _). unfold forcerenewDestinationIsUnicast. cbv zeta.
  destruct (_ || _); [eauto|]. unfold Masked. rewrite (proj2 (Z.ltb_ge _ 0)) by lia. rewrite Hv.
  destruct (_ <? 31); cbn; eauto.
Qed.

Lemma takeForcerenew_inv rnd msg raw dst k e : Inv p k e ->
  wp (takeForcerenew now rnd msg raw dst) (fun _ => Inv p) k e.
Proof.
  intros Hi. pose proof (fun why => refuse_inv why k e Hi) as Hre.
  unfold takeForcerenew. apply wpx_bind, wpx_get.
  destruct (negb _) eqn:Est; [by apply Hre|]. wif; [by apply Hre|].
  assert (Hst : mstate k = StateBound \/ mstate k = StateRenewing \/ mstate k = StateRebinding).
  { destruct (mstate k); cbn in Est; try done; tauto. }
  pose proof (inv_lease_ok unparked p k e Hi Hst) as Hl.
  destruct (destination_ok k dst) as [u Hu]; [apply Hl|]. apply wpx_bind, (wpx_lift _ _ _ _ _ _ _ Hu). cbv zeta.
  do 4 (wif; [by apply Hre|]).
  unfold GetForcerenewAuth. destruct (MOptions msg !! _) as [v|]; cbn [mbind option_bind]; [|by apply Hre].
  pose proof (decodeForcerenewAuth_returns v) as [Hr1 Hr2].
  destruct (decodeForcerenewAuth v) as [a|err| |]; [|by apply Hre|done|done].
  do 2 (wif; [by apply Hre|]).
  destruct (VerifyForcerenew_ends raw (frNonce (mfr k))) as [Hv1 Hv2].
  destruct (VerifyForcerenew raw _) as [[]|err| |]; [|by destruct (bool_decide _); apply Hre|done|done].
  destruct (state_eqb (mstate k) StateBound) eqn:Eb; cbn [negb].
  - destruct (negb (Is4 _) || _)%bool; [by apply Hre|].
    apply wpx_bind, wpx_modify, wpx_bind, wpx_modify, wpx_bind, wpx_journal.
    apply bool_decide_eq_true in Eb. pose proof (inv_rebinds unparked p k e Hi (or_introl Eb)) as Hrb.
    apply enterRenewing_inv; [done| |exact Hl|exact Hrb|done]. destruct Hi as ([] & _ & _). commons.
  - wsteps. keeping Hi.
Qed.

(** ** A failed action *)

Lemma noteActionFailed_inv rnd id reason k e : ~ unparked -> Inv p k e ->
  wp (noteActionFailed now rnd id reason) (fun _ => Inv p) k e.
Proof.
  intros Hq Hi. pose proof Hi as (Hc & Hw & Hd). unfold noteActionFailed. apply wpx_bind, wpx_get.
  destruct (_ && _)%bool; [wsteps; keeping Hi|].
  cbv zeta. apply wpx_bind, wpx_modify, wpx_bind, wpx_journal.
  assert (Hc' : forall n, common p (k <| msendFailures := n |>) e) by (intros; destruct Hc; commons).
  assert (Hi' : Inv p (k <| msendFailures := i64 (msendFailures k + 1) |>) e) by keeping Hi.
  assert (Hset : forall d, mstate k <> StateStopped -> allowed p e (ActSetTimer TimerRetransmit d) ->
    wp (setTimer TimerRetransmit d) (fun _ => Inv p) (k <| msendFailures := i64 (msendFailures k + 1) |>) e).
  { intros d Hne Ha. apply wpx_setTimer; [done|]. split_and!; [destruct Hc; commons| |]; ks;
      unfold nolease, probing_ok, lease_timers_off, renews, rebinds in *; destruct (mstate k); ks; arms; tauto. }
  destruct (_ || _)%bool eqn:Er.
  { apply Hset; [|apply renewal_allowed]. by intros Hs; rewrite Hs in Er. }
  destruct (_ && _)%bool.
  - apply wpx_bind, wpx_failed, wpx_bind, wpx_dropLease; [apply Hc'| |].
    + ks. intros Hl. apply wpx_when; intros _; [|exact Hi']. by apply toInitIdle_inv.
    + ks. intros Hl f _ _. apply wpx_when; intros Hs.
      * apply toInitIdle_inv; [done|destruct Hc; commons|done].
      * destruct (mstate k); ks; try done. destruct Hw. congruence.
  - destruct (mstate k) eqn:Es; try (by apply wpx_ret); apply Hset; try done; rewrite (co_params _ _ _ Hc);
      apply Delay_allowed; tauto.
Qed.

(** ** The states *)

Lemma common_fire ev k e : common p k e -> common p k (fire ev e).
Proof. intros []. destruct ev; by constructor. Qed.

Lemma arm_false t t' f : f t' = false -> arm t false f t' = false.
Proof. unfold arm. by destruct (timer_eqb t' t). Qed.

Lemma weak_fire ev s k e : weak_inv p s k e -> weak_inv p s k (fire ev e).
Proof.
  destruct ev; try done. intros H.
  destruct s; ks; unfold nolease, probing_ok, lease_timers_off in *; ks; destruct_and?; split_and!; try done;
    intros; by apply arm_false.
Qed.

(** The timers whose firing leaves a state without what drives it. *)
Definition drives (s : State) (t : TimerID) : bool :=
  match s, t with
  | (StateSelecting | StateRequesting | StateRebooting), TimerRetransmit => true
  | StateInit, (TimerRestart | TimerDesync) => true
  | StateBound, (TimerExpire | TimerRenew | TimerRebind) => true
  | StateRenewing, (TimerExpire | TimerRetransmit | TimerRebind) => true
  | StateRebinding, (TimerExpire | TimerRetransmit) => true
  | StateProbing, TimerACD => true
  | _, _ => false
  end.

Definition driving (s : State) (ev : Event) : bool :=
  match ev with EvTimerFired t => drives s t | _ => false end.

Lemma fire_inv ev k e : driving (mstate k) ev = false -> Inv p k e -> Inv p k (fire ev e).
Proof.
  intros Hd (Hc & Hw & Hdr). split; [by apply common_fire|]. split; [by apply weak_fire|].
  destruct ev; try done. cbn [driving] in Hd. unfold renews, rebinds in *. destruct (mstate k), t; try done; ks; cbn in Hdr |- *;
    rewrite ?arm_ne by done; done.
Qed.

(** The events that may leave the machine parked in INIT. *)
Definition parks (ev : Event) : bool := match ev with EvLinkDown | EvActionFailed _ _ => true | _ => false end.

(** A state without a lease, in a step of an event. *)
Definition free (s : State) : Prop :=
  s = StateStopped \/ s = StateInit \/ s = StateSelecting \/ s = StateRequesting \/ s = StateRebooting.

Lemma free_facts ev k e : Inv p k e -> free (mstate k) ->
  common p k (fire ev e) /\ nolease k (fire ev e) /\ weak_inv p (mstate k) k (fire ev e).
Proof.
  intros (Hc & Hw & _) Hf. apply (weak_fire ev) in Hw. split; [by apply common_fire|]. split; [|done].
  destruct Hf as [Hf|[Hf|[Hf|[Hf|Hf]]]]; rewrite Hf in Hw; ks; tauto.
Qed.

Lemma releaseBeforeBound_inv k e : common p k e -> wp releaseBeforeBound (fun _ => Inv p) k e.
Proof. intros. unfold releaseBeforeBound. wsteps. by apply halt_inv. Qed.

Lemma release_inv rnd k e : common p k e -> wp (release rnd) (fun _ => Inv p) k e.
Proof.
  intros Hc. unfold release. apply wpx_bind, wpx_sendRelease; [done|apply Hc|]. by apply halt_inv.
Qed.

Lemma linkDown_inv k e : ~ unparked -> common p k e -> mhaveLse k = false -> wp linkDown (fun _ => Inv p) k e.
Proof. intros. unfold linkDown. wsteps. by apply toInitIdle_inv. Qed.

Lemma nakRestart_inv rnd msg k e : common p k e -> mhaveLse k = false -> mhaveProbe k = false ->
  wp (nakRestart now rnd msg) (fun _ => Inv p) k e.
Proof. intros Hc Hl Hpr. unfold nakRestart. wsteps. apply restartPaced_inv; try done. destruct Hc; by constructor. Qed.

(** An event that parks contradicts what is assumed of an unparked machine. *)
Ltac parked := let H := fresh in intros H;
  match goal with Hpk : unparked -> parks _ = false |- _ => discriminate (Hpk H) end.

(** The cases every state shares. *)
Ltac ignored Hi := lazymatch goal with
  | |- wpx _ _ (journal _) _ _ _ => apply wpx_journal; exact Hi
  | |- wpx _ _ (noteActionFailed _ _ _ _) _ _ _ => apply noteActionFailed_inv; [parked|exact Hi]
  | |- wpx _ _ (takeHostname _ _ _) _ _ _ => apply takeHostname_inv; [exact Hp|exact Hi]
  | |- wpx _ _ (onARP _ _ _) _ _ _ => apply onARP_inv; exact Hi
  end.

Lemma stepStopped_inv rnd ev k e : Inv p k e -> mstate k = StateStopped -> (unparked -> parks ev = false) ->
  wp (stepStopped now rnd ev) (fun _ => Inv p) k (fire ev e).
Proof.
  intros Hi Hs Hpk. destruct (free_facts ev k e Hi) as (Hc & (Hl & Hpr & _) & _); [left; done|].
  assert (Hi' : Inv p k (fire ev e)) by (apply fire_inv; [rewrite Hs; by destruct ev|done]).
  unfold stepStopped, ignoredIn. destruct ev; try ignored Hi'. by apply beginAcquisition_inv.
Qed.

Lemma stepInit_inv rnd ev k e : Inv p k e -> mstate k = StateInit -> (unparked -> parks ev = false) ->
  wp (stepInit now rnd ev) (fun _ => Inv p) k (fire ev e).
Proof.
  intros Hi Hs Hpk. destruct (free_facts ev k e Hi) as (Hc & Hn & _); [right; left; done|].
  pose proof Hn as (Hl & Hpr & _).
  pose proof (fire_inv ev k e) as Hf. rewrite Hs in Hf.
  unfold stepInit, ignoredIn, stop. destruct ev; try ignored (Hf eq_refl Hi).
  - by apply beginAcquisition_inv.
  - by apply halt_inv.
  - wif; [|wsteps; exact Hi]. apply wpx_refuseRapid. intros c. keeping Hi.
  - destruct t; try ignored (Hf eq_refl Hi); [by apply sendDiscover_inv|by apply beginAcquisition_inv].
  - by apply beginAcquisition_inv.
  - by apply releaseBeforeBound_inv.
Qed.

Lemma stepSelecting_inv rnd ev k e : Inv p k e -> mstate k = StateSelecting -> (unparked -> parks ev = false) ->
  wp (stepSelecting now rnd ev) (fun _ => Inv p) k (fire ev e).
Proof.
  intros Hi Hs Hpk. destruct (free_facts ev k e Hi) as (Hc & Hn & _); [unfold free; tauto|].
  pose proof Hn as (Hl & Hpr & _). pose proof (fire_inv ev k e) as Hf. rewrite Hs in Hf.
  unfold stepSelecting, ignoredIn, stop. destruct ev; try (ignored (Hf eq_refl Hi)).
  - by apply halt_inv.
  - cbn [fire] in *. apply wpx_bind, wpx_acceptable; [|by apply wpx_ret]. intros m _. cbv zeta.
    wif.
    + apply wpx_bind, wpx_v6OnlyValue. intros r c. destruct r as [secs|].
      * apply waitForIPv6_inv; [destruct Hc; commons|done].
      * wif; [wsteps; keeping Hi|]. apply orb_false_iff in Heqb0 as [Hyi Hsid]. apply unusable_false in Hyi.
        wsteps. apply sendRequest_inv; [done| |done|done]. destruct Hc; commons. split; [done|].
        by destruct (OptAddr4 _ _).
    + wif; [by apply takeRapidAck_inv|]. wsteps. exact Hi.
  - destruct t; try (ignored (Hf eq_refl Hi)). wsteps.
    + apply beginAcquisition_inv; try done.
    + apply sendDiscover_inv; [done|destruct Hc; commons|done].
  - apply linkDown_inv; [parked|done..].
  - by apply releaseBeforeBound_inv.
Qed.

(** A DHCPACK outside a renewal: the lease is checked and taken. *)
Lemma takeAck_inv rnd m k e : Inv p k e -> nolease k e -> mrequestSentAt k = lastReq e ->
  wp (m0 ← get;
      l ← liftw (leaseFromAck m (mrequestSentAt m0));
      match l with
      | None => noUsableAck
      | Some (lse, n) => when (negb (note_empty n)) (journal n) ;; afterAck now rnd lse
      end) (fun _ => Inv p) k e.
Proof.
  intros Hi Hn Hsent. apply wpx_bind, wpx_get, wpx_bind, wpx_lease.
  - intros l n Hgood Hstart. apply wpx_bind, wpx_when_journal. apply afterAck_inv; [apply Hi|done|done|congruence].
  - by apply wpx_journal.
Qed.

Lemma stepRequesting_inv rnd ev k e : Inv p k e -> mstate k = StateRequesting -> (unparked -> parks ev = false) ->
  wp (stepRequesting now rnd ev) (fun _ => Inv p) k (fire ev e).
Proof.
  intros Hi Hs Hpk. destruct (free_facts ev k e Hi) as (Hc & Hn & Hw); [unfold free; tauto|].
  pose proof Hn as (Hl & Hpr & _). pose proof (fire_inv ev k e) as Hf. rewrite Hs in Hf, Hw.
  destruct Hw as (_ & Hsent & Hoffer).
  unfold stepRequesting, ignoredIn, stop. destruct ev; try (ignored (Hf eq_refl Hi)).
  - by apply halt_inv.
  - cbn [fire] in *. apply wpx_bind, wpx_acceptable; [|by apply wpx_ret]. intros m _. cbv zeta. wif.
    + unfold refusesRapidInRequesting, refusesAckWithoutNonce. apply wpx_bind, wpx_bind, wpx_get. wif.
      { apply wpx_bind, wpx_refuseRapid. intros c. wsteps. keeping Hi. }
      apply wpx_ret, wpx_bind, wpx_bind, wpx_get. wif.
      * apply wpx_ret, wpx_bind, wpx_noteV6OnlyKept. intros c. apply takeAck_inv; [keeping Hi|done|done].
      * apply wpx_bind. destruct (validForcerenewNonce_ok m) as (a & Ha & _). apply (wpx_liftw _ _ _ _ _ _ _ Ha).
        apply wpx_ret. destruct a as [a|].
        -- apply wpx_bind, wpx_noteV6OnlyKept. intros c. apply takeAck_inv; [keeping Hi|done|done].
        -- wsteps. apply restartPaced_inv; try done. destruct Hc; commons.
    + wif; [by apply nakRestart_inv|]. wif; by apply wpx_journal.
  - destruct t; try (ignored (Hf eq_refl Hi)). apply wpx_bind, wpx_get. wif.
    + wsteps. by apply beginAcquisition_inv.
    + wsteps. apply sendRequest_inv; [done|destruct Hc; commons|done|done].
  - apply linkDown_inv; [parked|done..].
  - by apply releaseBeforeBound_inv.
Qed.

Lemma stepRebooting_inv rnd ev k e : Inv p k e -> mstate k = StateRebooting -> (unparked -> parks ev = false) ->
  wp (stepRebooting now rnd ev) (fun _ => Inv p) k (fire ev e).
Proof.
  intros Hi Hs Hpk. destruct (free_facts ev k e Hi) as (Hc & Hn & Hw); [unfold free; tauto|].
  pose proof Hn as (Hl & Hpr & _). pose proof (fire_inv ev k e) as Hf. rewrite Hs in Hf, Hw.
  destruct Hw as (_ & Hsent & Hreboot).
  unfold stepRebooting, ignoredIn, stop. destruct ev; try (ignored (Hf eq_refl Hi)).
  - by apply halt_inv.
  - cbn [fire] in *. apply wpx_bind, wpx_acceptable; [|by apply wpx_ret]. intros m _. cbv zeta. wif.
    + apply wpx_bind, wpx_v6OnlyValue. intros r c. destruct r as [secs|].
      * apply waitForIPv6_inv; [destruct Hc; commons|done].
      * apply takeAck_inv; [keeping Hi|done|done].
    + wif; [by apply nakRestart_inv|]. wif; by apply wpx_journal.
  - destruct t; try (ignored (Hf eq_refl Hi)). apply wpx_bind, wpx_get. wif.
    + wsteps. by apply beginAcquisition_inv.
    + wsteps. apply sendReboot_inv; [done|destruct Hc; commons|done|done].
  - apply linkDown_inv; [parked|done..].
  - by apply releaseBeforeBound_inv.
Qed.

(** ** With a lease *)

(** A lease that is gone, and what comes next. *)
Lemma drop_then r (c : M unit) k e : common p k e -> mhaveLse k = true -> mhaveProbe k = false ->
  (forall k' e', common p k' e' -> mhaveLse k' = false -> mhaveProbe k' = false -> wp c (fun _ => Inv p) k' e') ->
  wp (dropLease r ;; c) (fun _ => Inv p) k e.
Proof.
  intros Hc Hl Hpr H. apply wpx_bind, wpx_dropLease; [done|congruence|].
  intros _ f _ _. apply H; [destruct Hc; commons|done|done].
Qed.

Lemma held_facts ev k e : Inv p k e -> mstate k = StateBound \/ mstate k = StateRenewing \/ mstate k = StateRebinding ->
  common p k (fire ev e) /\ mhaveLse k = true /\ mhaveProbe k = false /\ good_lease (mlease k) /\
  weak_inv p (mstate k) k (fire ev e).
Proof.
  intros (Hc & Hw & _) Hf. apply (weak_fire ev) in Hw. split; [by apply common_fire|].
  destruct Hf as [Hf|[Hf|Hf]]; rewrite Hf in Hw |- *; pose proof Hw as Hw'; ks; tauto.
Qed.

(** The lease timer is still running where another timer fired. *)
Lemma lease_ok_fire ev k e : Inv p k e ->
  mstate k = StateBound \/ mstate k = StateRenewing \/ mstate k = StateRebinding ->
  ev <> EvTimerFired TimerExpire -> lease_ok k (fire ev e).
Proof.
  intros Hi Hst Hne. destruct (inv_lease_ok unparked p k e Hi Hst) as (?&?&?&Hexp). split_and!; try done.
  intros Hinf. destruct ev; ks; try (by apply Hexp). rewrite arm_ne; [by apply Hexp|congruence].
Qed.

(** And so is T2's. *)
Lemma rebinds_fire ev k e : Inv p k e -> mstate k = StateBound \/ mstate k = StateRenewing ->
  ev <> EvTimerFired TimerRebind -> rebinds k (fire ev e).
Proof.
  intros Hi Hst Hne. pose proof (inv_rebinds unparked p k e Hi Hst) as Hrb. destruct ev; try done. unfold rebinds in *. ks.
  rewrite arm_ne; [done|congruence].
Qed.

Lemma acd_pre_fire k e : Inv p k e -> mstate k <> StateStopped -> acd_pre k (fire (EvTimerFired TimerACD) e).
Proof.
  intros Hi Hne. pose proof Hi as (Hc & Hw & _). split; [by apply common_fire|]. split; [by apply weak_fire|].
  split; [|done]. destruct (decide (mstate k = StateProbing)) as [|Hp']; [by left|]. right.
  apply fire_inv; [|done]. cbn. by destruct (mstate k).
Qed.

Lemma stepBound_inv rnd ev k e : Inv p k e -> mstate k = StateBound -> (unparked -> parks ev = false) ->
  wp (stepBound now rnd ev) (fun _ => Inv p) k (fire ev e).
Proof.
  intros Hi Hs Hpk. destruct (held_facts ev k e Hi) as (Hc & Hl & Hpr & _ & _); [by left|].
  pose proof (fire_inv ev k e) as Hf. rewrite Hs in Hf.
  pose proof (lease_ok_fire ev k e Hi (or_introl Hs)) as Hlease.
  unfold stepBound, ignoredIn, stop. destruct ev; try (ignored (Hf eq_refl Hi)).
  - by apply halt_inv.
  - apply wpx_bind, wpx_noteV6OnlyKept. intros c. apply wpx_journal. keeping Hi.
  - destruct t; try (ignored (Hf eq_refl Hi)).
    + apply drop_then; try done. intros. by apply restartPaced_inv.
    + apply enterRenewing_inv; [done|done|by apply Hlease|apply rebinds_fire; [done|by left|done]|done].
    + apply enterRebinding_inv; [done|done|by apply Hlease].
    + apply acdTimer_inv, acd_pre_fire; [done|congruence].
  - apply drop_then; try done. intros. apply toInitIdle_inv; [parked|done..].
  - by apply declineAndRestart_inv.
  - apply drop_then; try done. intros. by apply beginAcquisition_inv.
  - by apply release_inv.
Qed.

Lemma stepRenewal_inv rnd ev k e : Inv p k e -> mstate k = StateRenewing \/ mstate k = StateRebinding -> (unparked -> parks ev = false) ->
  wp (stepRenewal now rnd ev) (fun _ => Inv p) k (fire ev e).
Proof.
  intros Hi Hs Hpk. destruct (held_facts ev k e Hi) as (Hc & Hl & Hpr & Hgood & Hw); [tauto|].
  pose proof (fire_inv ev k e) as Hf.
  pose proof (lease_ok_fire ev k e Hi (or_intror Hs)) as Hlease.
  assert (Hf' : driving StateRenewing ev = false -> Inv p k (fire ev e)).
  { intros H. apply Hf; [|done]. destruct Hs as [->| ->]; [done|]. destruct ev; try done. by destruct t. }
  assert (Hsent : mrequestSentAt k = lastReq (fire ev e)).
  { destruct Hs as [Hs|Hs]; rewrite Hs in Hw; ks; tauto. }
  assert (Hst : ev <> EvTimerFired TimerRebind -> renewing_state k (fire ev e)).
  { intros Hne. destruct Hs as [Hs|Hs]; [left|by right]. split; [done|]. split; [rewrite Hs in Hw; ks; tauto|].
    apply rebinds_fire; [done|by right|done]. }
  unfold stepRenewal, stop. apply wpx_bind, wpx_get. cbv zeta.
  destruct ev; try (ignored (Hf' eq_refl)).
  - by apply halt_inv.
  - cbn [fire] in *. apply wpx_bind, wpx_acceptable; [|by apply wpx_ret]. intros m _. wif.
    + apply wpx_bind, wpx_noteV6OnlyKept. intros c. apply wpx_bind, wpx_get, wpx_bind, wpx_lease.
      * intros l n Hgood' Hstart. apply wpx_bind, wpx_when_journal. unfold enterBound, acdDepth.
        apply enterBound_inv; try done; [destruct Hc; commons|rewrite Hstart; exact Hsent|by eauto].
      * unfold noUsableAck. apply wpx_journal. keeping Hi.
    + wif; [|by apply wpx_journal]. apply drop_then; try done. intros. wsteps. by apply restartPaced_inv.
  - destruct t; try (ignored (Hf' eq_refl)).
    + apply sendRenewal_inv; [done|done|by apply Hlease|by apply Hst].
    + apply drop_then; try done. intros. by apply restartPaced_inv.
    + wif; [apply wpx_journal, Hf; [destruct Hs as [Hs|Hs]; rewrite Hs in *; done|done]|]. apply enterRebinding_inv; [done|done|by apply Hlease].
    + apply acdTimer_inv, acd_pre_fire; [done|]. by destruct Hs as [->| ->].
  - apply drop_then; try done. intros. apply toInitIdle_inv; [parked|done..].
  - by apply declineAndRestart_inv.
  - apply drop_then; try done. intros. by apply beginAcquisition_inv.
  - by apply release_inv.
Qed.

Lemma stepProbing_inv rnd ev k e : Inv p k e -> mstate k = StateProbing -> (unparked -> parks ev = false) ->
  wp (stepProbing now rnd ev) (fun _ => Inv p) k (fire ev e).
Proof.
  intros Hi Hs Hpk. pose proof (common_fire ev _ _ (proj1 Hi)) as Hc.
  assert (Hl : mhaveLse k = false) by (destruct Hi as (_ & Hw & _); rewrite Hs in Hw; apply Hw).
  pose proof (fire_inv ev k e) as Hf. rewrite Hs in Hf.
  unfold stepProbing, ignoredIn, stop. destruct ev; try (ignored (Hf eq_refl Hi)).
  - by apply halt_inv.
  - destruct t; try (ignored (Hf eq_refl Hi)). apply acdTimer_inv, acd_pre_fire; [done|congruence].
  - wsteps. apply toInitIdle_inv; [parked|done..].
  - by apply declineAndRestart_inv.
  - by apply release_inv.
Qed.

(** Every step, in every state, on every event. *)
Lemma step_inv rnd ev k e : Inv p k e -> (unparked -> parks ev = false) -> wp (step now rnd ev) (fun _ => Inv p) k (fire ev e).
Proof.
  intros Hi Hpk.
  assert (Hstate : wp (stepState (mstate k) now rnd ev) (fun _ => Inv p) k (fire ev e)).
  { unfold stepState. destruct (mstate k) eqn:Es.
    - by apply stepStopped_inv.
    - by apply stepInit_inv.
    - by apply stepSelecting_inv.
    - by apply stepRequesting_inv.
    - by apply stepBound_inv.
    - apply stepRenewal_inv; tauto.
    - apply stepRenewal_inv; tauto.
    - by apply stepRebooting_inv.
    - by apply stepProbing_inv. }
  unfold step. apply wpx_bind, wpx_get. destruct ev; try exact Hstate.
  destruct msg as [msg|]; [|exact Hstate]. wif; [|exact Hstate]. by apply takeForcerenew_inv.
Qed.
End steps.
