(* ===== verification/MachineRun.v ===== *)
(** * Runs of the machine

    What [New] accepts starts in the invariant, so every sequence of events from
    it runs: the theorems here are about whole runs, and each reads one promise
    off the trace an observer sees. *)

From S2P Require Import Prelude NetAddr Options Codec Forcerenew Values Arp Backoff Kinds Lease Acd Params Core Machine MachineSpec MachineLogic Messages MachineInv MachineSteps.

(** ** What New establishes *)

(** The parameters are values of their Go types: every duration is an int64. *)
Record typed (p : Params) : Prop := {
  ty_discover : backoff_wf (pDiscover p);
  ty_request : backoff_wf (pRequest p);
  ty_desync : pDesyncMin p <= MaxInt64 /\ pDesyncMax p <= MaxInt64;
  ty_acd : ProbeWait (pACD p) <= MaxInt64 /\ ProbeMax (pACD p) <= MaxInt64
}.

Lemma acdparams_wf_of a : acdparams_validate a = true -> ProbeWait a <= MaxInt64 /\ ProbeMax a <= MaxInt64 ->
  let a := if bool_decide (a = acdparams_zero) then DefaultACDParams else a in
  0 < ProbeNum a /\ 0 < AnnounceNum a /\ 0 <= ProbeWait a <= MaxInt64 /\ 0 <= ProbeMin a <= ProbeMax a /\
  ProbeMax a <= MaxInt64 /\ 0 <= AnnounceWait a /\ 0 <= AnnounceInterval a.
Proof.
  unfold acdparams_validate. intros H Hty. destruct (bool_decide (a = acdparams_zero)).
  - cbn. rewrite MaxInt64_val. unfold Second. lia.
  - cbn [forallb] in H. rewrite !andb_true_iff, !Z.ltb_lt, negb_true_iff, Z.ltb_ge in H. cbv zeta. lia.
Qed.

Lemma userClass_length classes v : EncodeUserClass classes = Ok v -> (length v <= 255)%nat.
Proof.
  unfold EncodeUserClass. destruct (_ =? _)%nat; [done|]. intros H.
  apply bind_ok_inv in H as (n & Hn & H). destruct (Nat.ltb_spec 255 n); [done|]. injection H as <-.
  apply userClassTotal_ok in Hn as [_ Hn]. lia.
Qed.

Lemma fqdn_length flags name v : EncodeFQDN flags name = Ok v -> (length v <= 255)%nat.
Proof.
  unfold EncodeFQDN. do 3 (destruct (_ : bool); [done|]). intros H.
  apply bind_ok_inv in H as (out & _ & H). destruct (Nat.ltb_spec 255 (length out)); [done|]. by injection H as <-.
Qed.

(** What a configuration [params_validate] accepts satisfies. *)
Record accepted (p : Params) : Prop := {
  ac_chaddr : (0 < length (pCHAddr p) <= 16)%nat;
  ac_desync : 0 <= pDesyncMin p <= pDesyncMax p;
  ac_discover : validate (pDiscover p) = true;
  ac_request : validate (pRequest p) = true;
  ac_acd : acdparams_validate (pACD p) = true;
  ac_name : ValidateHostname (pHostname p) = true
}.

Lemma params_validate_accepted p : params_validate p = None -> accepted p.
Proof.
  unfold params_validate. intros H.
  repeat match type of H with (if ?b then _ else _) = None => destruct b eqn:?; [discriminate H|] end.
  rewrite ?negb_false_iff, ?orb_false_iff, ?Z.ltb_ge, ?Nat.eqb_neq, ?Nat.ltb_ge in *.
  destruct_and?. constructor; try done; lia.
Qed.

Lemma ValidateHostname_length name : ValidateHostname name = true -> (length name <= 255)%nat.
Proof.
  unfold ValidateHostname. destruct (Nat.eqb_spec (length name) 0); [lia|].
  destruct (Nat.ltb_spec 255 (length name)); [done|lia].
Qed.

Lemma New_inv unparked p m : typed p -> New p = inr m ->
  params_wf (mparams (mcore m)) /\ InvOf unparked (mparams (mcore m)) (mcore m) env0 /\ mnextAction m = 0 /\
  mstate (mcore m) = StateStopped.
Proof.
  intros Hty H. unfold New in H. destruct (params_validate p) eqn:Hv; [discriminate H|].
  destruct (params_validate_accepted p Hv). cbv zeta in H.
  match type of H with match ?x with _ => _ end = _ => destruct x as [uc| | |] eqn:Euc; try discriminate H end.
  match type of H with match ?x with _ => _ end = _ => destruct x as [fq| | |] eqn:Efq; try discriminate H end.
  assert (Huc : (length uc <= 255)%nat).
  { destruct (0 <? _)%nat in Euc; [by eapply userClass_length|]. injection Euc as <-. cbn. lia. }
  assert (Hfq : (length fq <= 255)%nat).
  { destruct (negb _) in Efq; [by eapply fqdn_length|]. injection Efq as <-. cbn. lia. }
  clear Euc Efq. set (q := p <| pParameterList := parameterList p |> <| puserClass := [] |> <| pfqdn := [] |>
    <| puserClass := uc |> <| pfqdn := fq |>) in *.
  destruct Hty as [Hbd Hbr [Hd1 Hd2] Hacd].
  injection H as <-. cbn [mcore mnextAction mparams mstate]. split; [|split; [split; [|split]|done]].
  - constructor; try done.
    + change (pDesyncMin q) with (pDesyncMin p). change (pDesyncMax q) with (pDesyncMax p). lia.
    + by apply acdparams_wf_of.
  - constructor; ks; try done.
    + by apply ValidateHostname_length.
    + unfold acd_ok. change (pConflict q) with (pConflict p). destruct (pConflict p); cbn; [|split_and!; try done; by left|done].
      split_and!; try done. by left.
  - ks. split_and!; done.
  - done.
Qed.

(** ** From a step to a run *)

Lemma Step_inv unparked p m now rnd ev e : params_wf p -> InvOf unparked p (mcore m) e ->
  (unparked -> parks ev = false) -> exists m' acts,
  Step m now rnd ev = Some (m', mstate (mcore m'), acts) /\
  ids_from (mnextAction m) acts (mnextAction m') /\
  trace_ok p now (fire ev e) (map ActBody acts) /\
  InvOf unparked p (mcore m') (final now (fire ev e) (map ActBody acts)).
Proof.
  intros Hp Hi Hpk. pose proof (step_inv unparked p Hp now rnd ev _ _ Hi Hpk (mnextAction m) []) as H. unfold Step.
  destruct (step now rnd ev _) as [[u s]|]; [|done]. destruct H as (acts & Hout & Hids & Htr & Hinv).
  cbn in Hout. exists (mkMachine (core s) (next s)), acts. rewrite Hout. by split_and!.
Qed.

Lemma run_inv unparked p ins : params_wf p -> (unparked -> Forall (fun i => parks (inEv i) = false) ins) ->
  forall m e, InvOf unparked p (mcore m) e -> exists m' outs,
  run m ins = Some (m', outs) /\ run_ok p e ins outs /\
  ids_from (mnextAction m) (concat outs) (mnextAction m') /\ InvOf unparked p (mcore m') (run_env e ins outs).
Proof.
  intros Hp. induction ins as [|i ins IH]; intros Hpk m e Hi.
  - exists m, []. by split_and!.
  - destruct (Step_inv unparked p m (inNow i) (inRnd i) (inEv i) e Hp Hi) as (m1 & acts & Hs & Hids & Htr & Hi1).
    { intros Hq. specialize (Hpk Hq). by apply Forall_cons in Hpk as [? _]. }
    destruct (IH (fun Hq => proj2 (proj1 (Forall_cons _ _ _) (Hpk Hq))) m1 _ Hi1) as (m' & outs & Hr & Hok & Hids' & Hi').
    exists m', (acts :: outs). cbn [run]. rewrite Hs, Hr. split_and!; try done. by eapply ids_from_app.
Qed.

(** Nothing has parked the machine: the link was not lost and no action failed. *)
Definition undisturbed (ins : list Input) : Prop := Forall (fun i => parks (inEv i) = false) ins.

(** The shape every theorem below starts from. *)
Lemma run_from_New p m ins m' outs : typed p -> New p = inr m -> run m ins = Some (m', outs) ->
  params_wf (mparams (mcore m)) /\ run_ok (mparams (mcore m)) env0 ins outs /\
  ids_from 0 (concat outs) (mnextAction m') /\ InvOf (undisturbed ins) (mparams (mcore m)) (mcore m') (run_env env0 ins outs).
Proof.
  intros Hty Hn Hr. destruct (New_inv (undisturbed ins) p m Hty Hn) as (Hp & Hi & Hid & _).
  destruct (run_inv (undisturbed ins) _ ins Hp (fun H => H) m env0 Hi) as (m1 & outs1 & Hr1 & Hok & Hids & Hi1).
  rewrite Hr in Hr1. injection Hr1 as <- <-. rewrite Hid in Hids. by split_and!.
Qed.

(** ** Reading a trace *)

(** What an observer of the actions alone knows: whether a lease is out, and the
    ARP packet that went out last. *)
Definition heldAfter (h : bool) (b : ActionBody) : bool :=
  match b with ActLeaseAcquired _ _ => true | ActLeaseLost _ => false | _ => h end.

Definition arpAfter (q : option ARPPacket) (b : ActionBody) : option ARPPacket :=
  match b with ActSendARP q' => Some q' | _ => q end.

Definition held (l : list ActionBody) : bool := foldl heldAfter false l.
Definition lastPacket (l : list ActionBody) : option ARPPacket := foldl arpAfter None l.

(** The actions of a run, in order. *)
Definition trace (outs : list (list Action)) : list ActionBody := map ActBody (concat outs).

Lemma final_flat now l : forall e,
  holds (final now e l) = foldl heldAfter (holds e) l /\ lastARP (final now e l) = foldl arpAfter (lastARP e) l.
Proof.
  induction l as [|b l IH]; intros e; [done|]. destruct (IH (observe now e b)) as [H1 H2].
  cbn [foldl]. unfold final in *. cbn [foldl]. rewrite H1, H2. destruct b; try done. cbn. by destruct (is_request msg).
Qed.

Lemma trace_at p now e l1 b l2 : trace_ok p now e (l1 ++ b :: l2) -> allowed p (final now e l1) b.
Proof. intros [_ H]%trace_ok_app. apply H. Qed.

Lemma run_env_flat p e ins outs : run_ok p e ins outs ->
  holds (run_env e ins outs) = foldl heldAfter (holds e) (trace outs).
Proof.
  revert e outs. induction ins as [|i ins IH]; intros e [|acts outs]; cbn [run_ok]; try done.
  intros [_ H]. cbn [run_env]. rewrite (IH _ _ H). unfold trace. cbn [concat]. rewrite map_app, foldl_app.
  f_equal. rewrite (proj1 (final_flat _ _ _)). by destruct (inEv i).
Qed.

(** Each action of a run is allowed for what the actions before it tell. *)
Lemma run_flat p e ins outs l1 b l2 : run_ok p e ins outs -> trace outs = l1 ++ b :: l2 ->
  exists e', allowed p e' b /\ holds e' = foldl heldAfter (holds e) l1 /\ lastARP e' = foldl arpAfter (lastARP e) l1.
Proof.
  revert e outs l1. induction ins as [|i ins IH]; intros e [|acts outs] l1; cbn [run_ok]; try done.
  { by destruct l1. }
  intros [Ht H] Heq. unfold trace in Heq. cbn [concat] in Heq. rewrite map_app in Heq.
  assert (Hfire : holds (fire (inEv i) e) = holds e /\ lastARP (fire (inEv i) e) = lastARP e) by (by destruct (inEv i)).
  destruct Hfire as [Hf1 Hf2].
  apply app_eq_inv in Heq as [(l & Hl1 & Hl2)|(l & Hl1 & Hl2)].
  - destruct (final_flat (inNow i) l1 (fire (inEv i) e)) as [E1 E2].
    destruct l as [|b' l].
    + rewrite app_nil_r in Hl1. cbn in Hl2. subst l1. destruct (IH _ outs [] H (eq_sym Hl2)) as (e' & Ha & E3 & E4).
      exists e'. cbn in E3, E4. rewrite E3, E4, E1, E2, Hf1, Hf2. done.
    + injection Hl2 as <- Hl2. exists (final (inNow i) (fire (inEv i) e) l1). rewrite Hl1 in Ht.
      split; [by eapply trace_at|]. by rewrite E1, E2, Hf1, Hf2.
  - destruct (final_flat (inNow i) (map ActBody acts) (fire (inEv i) e)) as [E1 E2].
    destruct (IH _ outs l H Hl2) as (e' & Ha & E3 & E4). exists e'. split; [done|].
    by rewrite Hl1, !foldl_app, E3, E4, E1, E2, Hf1, Hf2.
Qed.

Lemma run_step_at p e ins outs n i acts : run_ok p e ins outs -> ins !! n = Some i -> outs !! n = Some acts ->
  trace_ok p (inNow i) (fire (inEv i) (run_env e (take n ins) (take n outs))) (map ActBody acts).
Proof.
  revert e outs n. induction ins as [|i0 ins IH]; intros e [|acts0 outs] n; cbn [run_ok]; try done.
  intros [Ht H] Hi Ho. destruct n as [|n].
  - cbn in Hi, Ho. injection Hi as ->. injection Ho as ->. done.
  - cbn [take run_env]. by apply IH.
Qed.

Lemma ids_from_lookup acts : forall n n' i a, 0 <= n < 2 ^ 64 -> ids_from n acts n' -> acts !! i = Some a ->
  ActID a = u64 (n + Z.of_nat i).
Proof.
  induction acts as [|a0 acts IH]; intros n n' i a Hn H Hi; [done|]. destruct H as [Ha H].
  destruct i as [|i].
  - cbn in Hi. injection Hi as <-. rewrite Ha, u64_id by lia. lia.
  - cbn in Hi. rewrite (IH _ _ _ _ (u64_range _) H Hi). unfold u64. rewrite Zplus_mod_idemp_l. f_equal. lia.
Qed.
