(* ===== verification/MachineProps.v ===== *)
(** * What every run of the machine promises

    Theorems about [run] from whatever [New] accepts, for every sequence of
    events, instants and random words: the machine keeps running, reports a lease
    in order, sends only the messages RFC 2131 gives a client, and is never left
    waiting for a timer that is not armed. *)

From S2P Require Import Prelude NetAddr Options Codec Forcerenew Values Arp Backoff Kinds Lease Acd Params Core Machine MachineSpec MachineLogic Messages MachineInv MachineSteps MachineRun.

(** ** A concrete run

    A client in ConflictWait mode that starts at once, is offered 192.0.2.7, has
    it acknowledged, probes it for its whole schedule, and is stopped. *)

Definition sample_params : Params := DefaultParams [2; 66; 172; 17; 0; 2] <| pDesyncMin := 0 |> <| pDesyncMax := 0 |>.

Definition sample_server : Addr := AddrFrom4 [192; 0; 2; 1].

Definition sample_reply (t : Z) : Message :=
  mkMessage BootReply HTypeEthernet 0 0 (u32 (split 7 0)) 0 0 AddrZero (AddrFrom4 [192; 0; 2; 7]) AddrZero AddrZero
    [2; 66; 172; 17; 0; 2] [] []
    (<[OptMessageType := [t]]> (<[OptServerID := [192; 0; 2; 1]]> {[ OptLeaseTime := be32 3600 ]})).

Definition sample_inputs : list Input :=
  map (fun x => mkInput (x.1 * Second) 7 x.2)
    [(1, EvStart); (2, EvReceived (Some (sample_reply MsgOffer)) [] AddrZero);
     (3, EvReceived (Some (sample_reply MsgAck)) [] AddrZero);
     (4, EvTimerFired TimerACD); (5, EvTimerFired TimerACD); (7, EvTimerFired TimerACD); (9, EvTimerFired TimerACD);
     (10, EvStop)].

(** The lease events of a trace. *)
Definition lease_event (b : ActionBody) : bool :=
  match b with ActLeaseAcquired _ _ | ActLeaseChanged _ | ActLeaseRenewed _ | ActLeaseLost _ => true | _ => false end.

Definition sample_outs : list (list Action) :=
  match New sample_params with
  | inr m => match run m sample_inputs with Some (_, outs) => outs | None => [] end
  | inl _ => []
  end.

Lemma sample_typed : typed sample_params.
Proof. split; [split; reflexivity|split; reflexivity| |]; vm_compute; split; congruence. Qed.

Lemma sample_new : exists m, New sample_params = inr m /\ exists m', run m sample_inputs = Some (m', sample_outs).
Proof.
  unfold sample_outs. destruct (New sample_params) as [|m] eqn:E; [vm_compute in E; discriminate E|].
  exists m. split; [done|]. destruct (run_inv False (mparams (mcore m)) sample_inputs
    (proj1 (New_inv False _ _ sample_typed E)) (False_ind _) m env0 (proj1 (proj2 (New_inv False _ _ sample_typed E)))) as (m' & outs & -> & _).
  eauto.
Qed.

(** The run acquires the lease and loses it, and that is all it reports. *)
Lemma sample_events : map (fun b => match b with ActLeaseAcquired l _ => Some (paddr (lAddr l)) | _ => None end)
    (filter (fun b => lease_event b = true) (trace sample_outs)) =
  [Some (AddrFrom4 [192; 0; 2; 7]); None].
Proof. vm_compute. reflexivity. Qed.

(** The acquisition stands at position 38 of the trace, and at position 7 of the
    seventh step. *)
Lemma sample_acquired : exists l a,
  trace sample_outs = take 38 (trace sample_outs) ++ ActLeaseAcquired l a :: drop 39 (trace sample_outs) /\
  paddr (lAddr l) = AddrFrom4 [192; 0; 2; 7].
Proof.
  assert (H : exists l a, trace sample_outs !! 38%nat = Some (ActLeaseAcquired l a) /\
    paddr (lAddr l) = AddrFrom4 [192; 0; 2; 7]) by (vm_compute; eauto).
  destruct H as (l & a & H & Ha). exists l, a. split; [|done]. symmetry. by apply take_drop_middle.
Qed.

Lemma sample_acquired_step : exists i acts l a, sample_inputs !! 6%nat = Some i /\ sample_outs !! 6%nat = Some acts /\
  map ActBody acts = take 7 (map ActBody acts) ++ ActLeaseAcquired l a :: drop 8 (map ActBody acts).
Proof.
  assert (H : exists i acts l a, sample_inputs !! 6%nat = Some i /\ sample_outs !! 6%nat = Some acts /\
    map ActBody acts !! 7%nat = Some (ActLeaseAcquired l a)) by (vm_compute; eauto 10).
  destruct H as (i & acts & l & a & Hi & Ho & H). exists i, acts, l, a. split_and!; [done|done|].
  symmetry. by apply take_drop_middle.
Qed.

(** ** The machine keeps running *)

(** C1: refinement of the observer's specification.  From every configuration
    [New] accepts, every sequence of events, instants and random words runs to
    its end without a run-time panic, and every action of the run is one the
    specification [allowed] admits where it stands: for the timers armed, the
    lease announced, the last request and the last ARP packet the actions before
    it tell of. *)
Theorem run_refines p m ins : typed p -> New p = inr m -> exists m' outs,
  run m ins = Some (m', outs) /\ length outs = length ins /\ run_ok (mparams (mcore m)) env0 ins outs.
Proof.
  intros Hty Hn. destruct (New_inv False p m Hty Hn) as (Hp & Hi & _).
  destruct (run_inv False _ ins Hp (False_ind _) m env0 Hi) as (m' & outs & Hr & Hok & _). exists m', outs. split_and!; try done.
  clear Hr. revert outs Hok. generalize env0. induction ins as [|i ins IH]; intros e [|acts outs]; try done.
  intros [_ H]. cbn. f_equal. by eapply IH.
Qed.

Lemma run_refines_witness : exists m m' outs, New sample_params = inr m /\
  run m sample_inputs = Some (m', outs) /\ length outs = length sample_inputs /\
  run_ok (mparams (mcore m)) env0 sample_inputs outs.
Proof.
  destruct sample_new as (m & Hn & _). exists m.
  destruct (run_refines sample_params m sample_inputs sample_typed Hn) as (m' & outs & H).
  exists m', outs. exact (conj Hn H).
Defined.

(** C4: lease events come in order.  A lease is announced only while none is
    held, and renewed, changed or lost only while one is, so the events of a run
    alternate; and what the actions tell is what [Machine.Lease] answers. *)
Theorem lease_events_alternate p m ins m' outs : typed p -> New p = inr m -> run m ins = Some (m', outs) ->
  (forall l1 b l2, trace outs = l1 ++ b :: l2 ->
     match b with
     | ActLeaseAcquired _ _ => held l1 = false
     | ActLeaseRenewed _ | ActLeaseChanged _ | ActLeaseLost _ => held l1 = true
     | _ => True
     end) /\
  held (trace outs) = (MachineLease (mcore m')).2.
Proof.
  intros Hty Hn Hr. destruct (run_from_New _ _ _ _ _ Hty Hn Hr) as (_ & Hok & _ & Hi). split.
  - intros l1 b l2 Heq. destruct (run_flat _ _ _ _ _ _ _ Hok Heq) as (e' & Ha & Hh & _).
    unfold held. change false with (holds env0). rewrite <- Hh. destruct b; try done; apply Ha.
  - cbn. rewrite <- (co_holds _ _ _ (proj1 Hi)). symmetry. by eapply (run_env_flat _ env0).
Qed.

Lemma lease_events_alternate_witness : exists m', 
  (forall l1 b l2, trace sample_outs = l1 ++ b :: l2 ->
     match b with
     | ActLeaseAcquired _ _ => held l1 = false
     | ActLeaseRenewed _ | ActLeaseChanged _ | ActLeaseLost _ => held l1 = true
     | _ => True
     end) /\
  held (trace sample_outs) = (MachineLease (mcore m')).2.
Proof.
  destruct sample_new as (m & Hn & m' & Hr). exists m'.
  exact (lease_events_alternate sample_params m sample_inputs m' sample_outs sample_typed Hn Hr).
Defined.

(** C17: an address is announced before it is used.  In ConflictWait mode, the last
    ARP packet before every acquisition is the RFC 5227 announcement of exactly
    the acquired address from this interface. *)
Theorem wait_mode_announces p m ins m' outs l1 l a l2 : typed p -> New p = inr m ->
  run m ins = Some (m', outs) -> pConflict (mparams (mcore m)) = ConflictWait ->
  trace outs = l1 ++ ActLeaseAcquired l a :: l2 ->
  lastPacket l1 = Some (mkARP ARPRequest (linkHW (mparams (mcore m))) [] (paddr (lAddr l)) (paddr (lAddr l))).
Proof.
  intros Hty Hn Hr Hw Heq. destruct (run_from_New _ _ _ _ _ Hty Hn Hr) as (_ & Hok & _ & _).
  destruct (run_flat _ _ _ _ _ _ _ Hok Heq) as (e' & (_ & _ & Ha) & _ & Hl).
  unfold lastPacket. change None with (lastARP env0). rewrite <- Hl. by apply Ha.
Qed.

Lemma wait_mode_announces_witness : exists m l,
  lastPacket (take 38 (trace sample_outs)) =
    Some (mkARP ARPRequest (linkHW (mparams (mcore m))) [] (paddr (lAddr l)) (paddr (lAddr l))) /\
  paddr (lAddr l) = AddrFrom4 [192; 0; 2; 7].
Proof.
  destruct sample_new as (m & Hn & m' & Hr). destruct sample_acquired as (l & a & Heq & Ha).
  exists m, l. split; [|exact Ha].
  assert (Hw : pConflict (mparams (mcore m)) = ConflictWait).
  { vm_compute in Hn. injection Hn as <-. reflexivity. }
  exact (wait_mode_announces sample_params m sample_inputs m' sample_outs _ l a _ sample_typed Hn Hr Hw Heq).
Defined.

(** C18: a lease is reported with its end in sight.  Whenever a lease is acquired
    or renewed, it starts at the instant the last DHCPDISCOVER or DHCPREQUEST was
    sent (RFC 2131 section 4.4.1), and a lease that ends has its expiry timer
    armed before it is reported. *)
Theorem lease_reported_with_expiry p m ins m' outs n i acts l1 b l2 : typed p -> New p = inr m ->
  run m ins = Some (m', outs) -> ins !! n = Some i -> outs !! n = Some acts ->
  map ActBody acts = l1 ++ b :: l2 ->
  let e := final (inNow i) (fire (inEv i) (run_env env0 (take n ins) (take n outs))) l1 in
  match b with
  | ActLeaseAcquired l _ | ActLeaseRenewed l =>
    lStart l = lastReq e /\ (IsInfinite (lLeaseTime l) = false -> armed e TimerExpire = true)
  | _ => True
  end.
Proof.
  intros Hty Hn Hr Hi Ho Heq e. destruct (run_from_New _ _ _ _ _ Hty Hn Hr) as (_ & Hok & _ & _).
  pose proof (run_step_at _ _ _ _ _ _ _ Hok Hi Ho) as Ht. rewrite Heq in Ht. apply trace_at in Ht. fold e in Ht.
  destruct b; try done; [destruct Ht as (_ & (_ & ? & ?) & _)|destruct Ht as (_ & _ & ? & ?)]; done.
Qed.

Lemma lease_reported_with_expiry_witness : exists i acts l,
  sample_inputs !! 6%nat = Some i /\ sample_outs !! 6%nat = Some acts /\
  let e := final (inNow i) (fire (inEv i) (run_env env0 (take 6 sample_inputs) (take 6 sample_outs)))
             (take 7 (map ActBody acts)) in
  lStart l = lastReq e /\ (IsInfinite (lLeaseTime l) = false -> armed e TimerExpire = true).
Proof.
  destruct sample_new as (m & Hn & m' & Hr). destruct sample_acquired_step as (i & acts & l & a & Hi & Ho & Heq).
  exists i, acts, l. split; [exact Hi|]. split; [exact Ho|].
  exact (lease_reported_with_expiry sample_params m sample_inputs m' sample_outs 6 i acts _ _ _
    sample_typed Hn Hr Hi Ho Heq).
Defined.

(** ** What goes on the wire *)

(** An action of a run is allowed somewhere. *)
Lemma action_allowed p m ins m' outs b : typed p -> New p = inr m -> run m ins = Some (m', outs) ->
  b ∈ trace outs -> exists e, allowed (mparams (mcore m)) e b.
Proof.
  intros Hty Hn Hr Hb. destruct (run_from_New _ _ _ _ _ Hty Hn Hr) as (_ & Hok & _ & _).
  apply list_elem_of_split in Hb as (l1 & l2 & Heq).
  destruct (run_flat _ _ _ _ _ _ _ Hok Heq) as (e' & Ha & _). eauto.
Qed.


Lemma sample_sends : exists msg d, ActSend msg d ∈ trace sample_outs /\ Type_ msg = Some MsgRequest.
Proof.
  assert (H : exists msg d, trace sample_outs !! 20%nat = Some (ActSend msg d) /\ Type_ msg = Some MsgRequest)
    by (vm_compute; eauto).
  destruct H as (msg & d & H & Ht). exists msg, d. split; [by eapply list_elem_of_lookup_2|done].
Qed.


(** What is sent can be encoded, where the configured client identifier,
    vendor class and parameter list fit one option each; so an encoder's refusal
    never stands for a message the client owes. *)
Theorem messages_encodable p m ins m' outs msg d : typed p -> New p = inr m -> run m ins = Some (m', outs) ->
  sized (mparams (mcore m)) -> ActSend msg d ∈ trace outs -> exists b, Encode msg = Ok b.
Proof.
  intros Hty Hn Hr Hs Hb. destruct (action_allowed _ _ _ _ _ _ Hty Hn Hr Hb) as (e & _ & He). by apply He.
Qed.

Lemma messages_encodable_witness : exists msg, Type_ msg = Some MsgRequest /\ exists b, Encode msg = Ok b.
Proof.
  destruct sample_new as (m & Hn & m' & Hr). destruct sample_sends as (msg & d & Hin & Ht).
  exists msg. split; [exact Ht|].
  assert (Hs : sized (mparams (mcore m))).
  { vm_compute in Hn. injection Hn as <-. split; apply Nat.leb_le; vm_compute; reflexivity. }
  exact (messages_encodable sample_params m sample_inputs m' sample_outs msg d sample_typed Hn Hr Hs Hin).
Defined.

(** The condition is not one [New] makes.  It accepts a client identifier of
    256 octets, and then the very first message of the client is one [Encode]
    refuses: the machine runs, and nothing it asks to be sent can leave. *)
Theorem New_accepts_unsendable : exists p m msg d acts,
  New p = inr m /\ typed p /\
  option_map (fun r => map ActBody r.2) (Step m 0 7 EvStart) = Some acts /\
  ActSend msg d ∈ acts /\ Type_ msg = Some MsgDiscover /\ Encode msg = Err ErrOptionTooLong.
Proof.
  set (p := sample_params <| pClientID := replicate 256 0 |>).
  assert (H : match New p with
    | inr m => match Step m 0 7 EvStart with
      | Some (_, _, acts) => match map ActBody acts !! 18%nat with
        | Some (ActSend msg _) => bool_decide (Type_ msg = Some MsgDiscover) &&
            match Encode msg with Err e => bool_decide (e = ErrOptionTooLong) | _ => false end
        | _ => false
        end
      | None => false
      end
    | inl _ => false
    end = true) by (vm_compute; reflexivity).
  destruct (New p) as [|m] eqn:En; [discriminate H|].
  destruct (Step m 0 7 EvStart) as [[[m' s] acts]|] eqn:Es; [|discriminate H].
  destruct (map ActBody acts !! 18%nat) as [[msg d| | | | | | | | | | | | | |]|] eqn:Ha; try discriminate H.
  apply andb_true_iff in H as [Ht He]. apply bool_decide_eq_true in Ht.
  destruct (Encode msg) as [|err| |] eqn:Eenc; try discriminate He. apply bool_decide_eq_true in He as ->.
  exists p, m, msg, d, (map ActBody acts). split; [exact En|]. split; [by destruct sample_typed|]. rewrite Es.
  split; [done|]. split; [by eapply list_elem_of_lookup_2|done].
Qed.

(** ** Timers *)

(** No busy loop.  Every timer of a run is set for a duration that is not
    negative, and the timers that make the machine send or start over are never
    set for zero. *)
Theorem timers_positive p m ins m' outs t d : typed p -> New p = inr m -> run m ins = Some (m', outs) ->
  ActSetTimer t d ∈ trace outs ->
  0 <= d /\ (t = TimerRetransmit \/ t = TimerRestart \/ t = TimerDesync -> 0 < d).
Proof. intros Hty Hn Hr Hb. by destruct (action_allowed _ _ _ _ _ _ Hty Hn Hr Hb) as (e & Ha). Qed.

Lemma timers_positive_witness : exists d, 0 <= d /\
  (TimerRetransmit = TimerRetransmit \/ TimerRetransmit = TimerRestart \/ TimerRetransmit = TimerDesync -> 0 < d).
Proof.
  destruct sample_new as (m & Hn & m' & Hr).
  assert (H : exists d, trace sample_outs !! 19%nat = Some (ActSetTimer TimerRetransmit d)) by (vm_compute; eauto).
  destruct H as (d & H). exists d.
  exact (timers_positive sample_params m sample_inputs m' sample_outs TimerRetransmit d sample_typed Hn Hr
    (list_elem_of_lookup_2 _ _ _ H)).
Defined.

(** C34: nothing waits for a timer that is not running.  After every run of a
    machine an accepted configuration makes: in INIT, unless the link was lost or
    an action failed on the way, the restart timer or the start delay is armed;
    one that is asking has its retransmission timer armed, one that is probing its
    conflict timer; one that holds a lease with an end has its expiry timer
    armed; in BOUND the timer of T1 is armed where the lease has a T1, or the
    lease names no server that could be asked (T1 may have come for nothing), and
    so is that of T2 in BOUND and RENEWING where it has a T2; one that renews or
    rebinds has its retransmission timer armed.  A stopped machine has no timer
    armed, and without a lease none of the three lease timers is. *)
Theorem state_is_driven p m ins m' outs : typed p -> New p = inr m -> run m ins = Some (m', outs) ->
  let k := mcore m' in
  let e := run_env env0 ins outs in
  let d := LeaseDeadlines (mlease k) in
  match mstate k with
  | StateStopped => forall t, armed e t = false
  | StateInit => Forall (fun i => match inEv i with EvLinkDown | EvActionFailed _ _ => False | _ => True end) ins ->
    armed e TimerRestart = true \/ armed e TimerDesync = true
  | StateSelecting | StateRequesting | StateRebooting => armed e TimerRetransmit = true
  | StateProbing => armed e TimerACD = true
  | StateBound | StateRenewing | StateRebinding =>
    mhaveLse k = true /\ (IsInfinite (lLeaseTime (mlease k)) = false -> armed e TimerExpire = true) /\
    (mstate k = StateBound -> is_Some (dRenew d) -> armed e TimerRenew = true \/ usable4 (lServerID (mlease k)) = false) /\
    (mstate k <> StateRebinding -> is_Some (dRebind d) -> armed e TimerRebind = true) /\
    (mstate k <> StateBound -> armed e TimerRetransmit = true)
  end /\
  (mhaveLse k = false ->
     armed e TimerExpire = false /\ armed e TimerRenew = false /\ armed e TimerRebind = false).
Proof.
  intros Hty Hn Hr k e. destruct (run_from_New _ _ _ _ _ Hty Hn Hr) as (_ & _ & _ & (_ & Hw & Hd)).
  fold k e in Hw, Hd. cbv zeta. split.
  - assert (Hq : Forall (fun i => match inEv i with EvLinkDown | EvActionFailed _ _ => False | _ => True end) ins -> undisturbed ins)
      by (intros H; eapply Forall_impl; [exact H|]; intros i; cbv beta; unfold parks; destruct (inEv i); tauto).
    clear -Hw Hd Hq. destruct (mstate k); ks; try (exact Hd || exact (proj2 Hw)); [by intros H; apply Hd, Hq|..];
      destruct Hw as (Hl & _); unfold renews, rebinds in Hd; split_and!; try done; try tauto; by intros _; apply Hd.
  - intros Hl. destruct (mstate k); ks; unfold nolease, probing_ok, lease_timers_off in Hw; intuition congruence.
Qed.

Lemma state_is_driven_witness : exists m', exists m outs, run m (take 3 sample_inputs) = Some (m', outs) /\
  mstate (mcore m') = StateProbing /\ armed (run_env env0 (take 3 sample_inputs) outs) TimerACD = true.
Proof.
  destruct (New sample_params) as [|m] eqn:En; [vm_compute in En; discriminate En|].
  destruct (run m (take 3 sample_inputs)) as [[m' outs]|] eqn:Er.
  2:{ vm_compute in En. injection En as <-. vm_compute in Er. discriminate Er. }
  exists m', m, outs. pose proof (state_is_driven sample_params m _ m' outs sample_typed En Er) as [H _].
  assert (Hs : mstate (mcore m') = StateProbing).
  { vm_compute in En. injection En as <-. vm_compute in Er. injection Er as <- _. reflexivity. }
  cbv zeta in H. rewrite Hs in H. split; [exact Er|]. split; [exact Hs|exact H].
Defined.

(** Action ids are consecutive.  The [i]th action of a run, counted across
    steps, has id [i], modulo 2^64: an [ActionFailed] event names one action. *)
Theorem action_ids_consecutive p m ins m' outs i a : typed p -> New p = inr m -> run m ins = Some (m', outs) ->
  concat outs !! i = Some a -> ActID a = Z.of_nat i mod 2 ^ 64.
Proof.
  intros Hty Hn Hr Hi. destruct (run_from_New _ _ _ _ _ Hty Hn Hr) as (_ & _ & Hids & _).
  exact (ids_from_lookup _ 0 _ i a ltac:(lia) Hids Hi).
Qed.

Lemma action_ids_consecutive_witness : exists a, concat sample_outs !! 38%nat = Some a /\ ActID a = Z.of_nat 38 mod 2 ^ 64.
Proof.
  destruct sample_new as (m & Hn & m' & Hr).
  assert (H : exists a, concat sample_outs !! 38%nat = Some a) by (vm_compute; eauto).
  destruct H as (a & H). exists a. split; [exact H|].
  exact (action_ids_consecutive sample_params m sample_inputs m' sample_outs 38 a sample_typed Hn Hr H).
Defined.
