(* ===== verification/MachineLocal.v ===== *)
(** * What single methods of the machine do

    Exact accounts of the methods with a contract of their own: which messages
    are accepted, what a DHCPFORCERENEW must prove, how restarts are paced, what a
    conflict leads to, and that an acknowledgement is taken.  [runs] is the
    triple these are stated in: the method does not panic, and its result, the
    fields it leaves and the actions it emits satisfy the postcondition. *)

From S2P Require Import Prelude NetAddr Options Codec Forcerenew Values Arp Backoff Kinds Lease Acd Params Core Machine MachineSpec MachineLogic Messages MachineInv MachineSteps.

(** ** The triple *)

Definition runs {A} (c : M A) (Q : A -> Core -> list ActionBody -> Prop) (k : Core) : Prop :=
  forall n o, match c (mkSt k n o) with
    | None => False
    | Some (a, s) => exists acts, out s = o ++ acts /\ Q a (core s) (map ActBody acts)
    end.

Lemma runs_ret {A} (a : A) Q k : Q a k [] -> runs (mret a) Q k.
Proof. intros H n o. exists []. by rewrite app_nil_r. Qed.

Lemma runs_bind {A B} (c : M A) (f : A -> M B) Q k :
  runs c (fun a k' l => runs (f a) (fun b k'' l' => Q b k'' (l ++ l')) k') k -> runs (c ≫= f) Q k.
Proof.
  intros H n o. specialize (H n o). unfold mbind, M_bind. destruct (c _) as [[a s]|]; [|done].
  destruct H as (acts & Ho & H). specialize (H (next s) (out s)). destruct s as [k' n' o']. cbn in *.
  destruct (f a _) as [[b s']|]; [|done]. destruct H as (acts' & Ho' & H). exists (acts ++ acts').
  by rewrite Ho', Ho, map_app, app_assoc.
Qed.

Lemma runs_mono {A} (c : M A) (Q Q' : A -> Core -> list ActionBody -> Prop) k :
  runs c Q k -> (forall a k' l, Q a k' l -> Q' a k' l) -> runs c Q' k.
Proof.
  intros H HQ n o. specialize (H n o). destruct (c _) as [[a s]|]; [|done].
  destruct H as (acts & ? & ?). eauto.
Qed.

Lemma runs_get Q k : Q k k [] -> runs get Q k.
Proof. intros H n o. exists []. by rewrite app_nil_r. Qed.
Lemma runs_modify f Q k : Q tt (f k) [] -> runs (modify f) Q k.
Proof. intros H n o. exists []. by rewrite app_nil_r. Qed.
Lemma runs_stamp b Q k : (forall id, Q id k [b]) -> runs (stamp b) Q k.
Proof. intros H n o. by exists [mkAction n b]. Qed.
Lemma runs_lift {A} (x : option A) a Q k : x = Some a -> Q a k [] -> runs (lift x) Q k.
Proof. intros ->. apply runs_ret. Qed.
Lemma runs_liftw {A} (x : wire A) a Q k : x = Ok a -> Q a k [] -> runs (liftw x) Q k.
Proof. intros ->. apply runs_ret. Qed.

Lemma runs_emit b Q k : Q tt k [b] -> runs (stamp b ;; mret tt) Q k.
Proof. intros H. apply runs_bind, runs_stamp. intros _. by apply runs_ret. Qed.

Lemma runs_when (b : bool) c Q k : (b = true -> runs c Q k) -> (b = false -> Q tt k []) -> runs (when b c) Q k.
Proof. destruct b; intros H1 H2; [by apply H1|by apply runs_ret, H2]. Qed.

Lemma runs_cancels l Q k : Q tt k (map ActCancelTimer l) -> runs (forM_ l cancel) Q k.
Proof.
  revert Q. induction l as [|t l IH]; intros Q H; [by apply runs_ret|].
  apply runs_bind, runs_emit. by apply IH.
Qed.

(** The list of cancels of [cancelAll], folded. *)
Definition cancels : list ActionBody := map ActCancelTimer AllTimerIDs.

Lemma runs_cancelAll Q k : Q tt k cancels -> runs cancelAll Q k.
Proof. apply runs_cancels. Qed.

Ltac rstep :=
  lazymatch goal with
  | |- runs (mret _) _ _ => apply runs_ret
  | |- runs (_ ≫= _) _ _ => apply runs_bind
  | |- runs get _ _ => apply runs_get
  | |- runs (modify _) _ _ => apply runs_modify
  | |- runs (journal _) _ _ => apply runs_emit
  | |- runs (failed _ _) _ _ => apply runs_emit
  | |- runs (cancel _) _ _ => apply runs_emit
  | |- runs (setTimer _ _) _ _ => apply runs_emit
  | |- runs (send _ _) _ _ => apply runs_emit
  | |- runs (stamp _) _ _ => apply runs_stamp; intros
  | |- runs cancelAll _ _ => apply runs_cancelAll
  | |- runs (if true then _ else _) _ _ => cbv iota
  | |- runs (if false then _ else _) _ _ => cbv iota
  end; cbv beta; cbn [app].

Ltac rsteps := repeat rstep.

(** An action among those emitted. *)
Ltac in_list := repeat first [rewrite elem_of_cons | rewrite elem_of_app]; tauto.

Ltac rif := lazymatch goal with |- runs (if ?b then _ else _) _ _ => destruct b eqn:? end.

(** ** Which messages are read *)

(** What the client answers to.  A message is read only if it is a BOOTREPLY
    with a message type, for this transaction, from a server the policy permits
    and for this hardware address; and in every state with a transaction open, any
    other message changes no field of the machine and emits one journal line. *)
Theorem message_filter k msg raw dst now rnd :
  match acceptableWhy k msg with
  | inl m => msg = Some m /\ Op m = BootReply /\ is_Some (Type_ m) /\ XID m = mxid k /\
      CHAddr m = pCHAddr (mparams k) /\
      permits (pServers (mparams k)) (default AddrZero (OptAddr4 (MOptions m) OptServerID))
        (bool_decide (is_Some (OptAddr4 (MOptions m) OptServerID))) = None
  | inr why =>
      (mstate k = StateSelecting \/ mstate k = StateRequesting \/ mstate k = StateRebooting \/
       mstate k = StateRenewing \/ mstate k = StateRebinding) ->
      (forall m, msg = Some m -> Type_ m <> Some MsgForceRenew) ->
      runs (step now rnd (EvReceived msg raw dst)) (fun _ k' acts => k' = k /\ acts = [ActJournal why]) k
  end.
Proof.
  destruct (acceptableWhy k msg) as [m|why] eqn:E.
  - unfold acceptableWhy in E. destruct msg as [m0|]; [|discriminate E].
    destruct (Z.eqb_spec (Op m0) BootReply); cbn [negb] in E; [|discriminate E].
    destruct (Type_ m0) eqn:Et; [|discriminate E].
    destruct (Z.eqb_spec (XID m0) (mxid k)); cbn [negb] in E; [|discriminate E]. cbv zeta in E.
    destruct (permits _ _ _) eqn:Ep; [discriminate E|]. unfold chaddrMatches in E.
    destruct (length (CHAddr m0) =? length (pCHAddr (mparams k)))%nat; cbn [negb] in E; [|discriminate E].
    destruct (bytes_eqb (CHAddr m0) (pCHAddr (mparams k))) eqn:Ec; cbn [negb] in E; [|discriminate E].
    injection E as <-. apply bytes_eqb_eq in Ec. split_and!; try done.
    destruct (OptAddr4 (MOptions m0) OptServerID); [by rewrite bool_decide_true by eauto|].
    by rewrite bool_decide_false by (by intros [? ?]).
  - intros Hst Hfr. unfold step. rsteps.
    assert (Hacc : forall Q : option Message -> Core -> list ActionBody -> Prop,
      Q None k [ActJournal why] -> runs (acceptable msg) Q k).
    { intros Q H. unfold acceptable. rsteps. rewrite E. by rsteps. }
    assert (Hs : runs (stepState (mstate k) now rnd (EvReceived msg raw dst))
      (fun _ k' acts => k' = k /\ acts = [ActJournal why]) k).
    { unfold stepState, stepSelecting, stepRequesting, stepRebooting, stepRenewal.
      destruct Hst as [->|[->|[->|[->| ->]]]]; rsteps; apply Hacc; by rsteps. }
    destruct msg as [m|]; [|exact Hs]. by rewrite bool_decide_false by (by apply Hfr).
Qed.

(** A machine in SELECTING, for the witnesses. *)
Definition sample_core (s : State) : Core :=
  mkCore (DefaultParams [2; 66; 172; 17; 0; 2]) s 0 false 5 0 0 0 None 0 (mkRapid 0 0) (mkV6Only 0 0 0)
    (mkFr 0 0 0 (fun _ => 0)) key_zero lease_zero false None AddrZero
    (Some (newACD DefaultACDParams ConflictWait [2; 66; 172; 17; 0; 2])) lease_zero false [] [] 0 false.

Definition stray_reply : Message :=
  mkMessage BootReply HTypeEthernet 0 0 6 0 0 AddrZero AddrZero AddrZero AddrZero [2; 66; 172; 17; 0; 2] [] []
    {[ OptMessageType := [MsgOffer] ]}.

Lemma message_filter_witness : exists why,
  acceptableWhy (sample_core StateSelecting) (Some stray_reply) = inr why /\
  runs (step 0 0 (EvReceived (Some stray_reply) [] AddrZero))
    (fun _ k' acts => k' = sample_core StateSelecting /\ acts = [ActJournal why]) (sample_core StateSelecting).
Proof.
  pose proof (message_filter (sample_core StateSelecting) (Some stray_reply) [] AddrZero 0 0) as H.
  destruct (acceptableWhy (sample_core StateSelecting) (Some stray_reply)) as [m|why] eqn:E;
    [vm_compute in E; discriminate E|].
  exists why. split; [reflexivity|]. apply H; [by left|]. intros m [= <-]. vm_compute. congruence.
Defined.

(** ** DHCPFORCERENEW *)

(** What a DHCPFORCERENEW is accepted for: a holder of the lease, addressed by
    the lease's own address, with an Authentication option whose digest verifies
    under the nonce of the lease and whose replay value is above the floor. *)
Definition genuine (k : Core) (msg : Message) (raw : bytes) (dst : Addr) (replay : Z) : Prop :=
  (mstate k = StateBound \/ mstate k = StateRenewing \/ mstate k = StateRebinding) /\
  forcerenewDestinationIsUnicast k dst = Some true /\ Unmap dst = paddr (lAddr (mlease k)) /\
  Op msg = BootReply /\ CHAddr msg = pCHAddr (mparams k) /\ CIAddr msg = paddr (lAddr (mlease k)) /\
  frHave (mfr k) = true /\ frFloor (mfr k) < replay /\ VerifyForcerenew raw (frNonce (mfr k)) = Ok tt /\
  exists a, GetForcerenewAuth (MOptions msg) = Some (Ok a) /\ AuthType a = ForcerenewTypeDigest /\ AuthReplay a = replay.

Lemma runs_refuse why (Q : unit -> Core -> list ActionBody -> Prop) k :
  (forall c, Q tt (k <| mfrCounts := c |>) [ActJournal (note "DHCPFORCERENEW refused: %s" [ARefusal why])]) ->
  runs (refuseForcerenew why) Q k.
Proof. intros H. unfold refuseForcerenew. rsteps. apply H. Qed.

(** Sending a renewal leaves the key alone. *)
Lemma enterRenewing_key now rnd k (Q : unit -> Core -> list ActionBody -> Prop) :
  (forall k' l, mfr k' = mfr k -> mlease k' = mlease k -> mhaveLse k' = mhaveLse k -> Q tt k' l) ->
  runs (enterRenewing now rnd) Q k.
Proof.
  intros H. unfold enterRenewing, beginRenewalTransaction, sendRenewal, base. rsteps.
  rif; rsteps; [by apply H|]. rif; rsteps; by apply H.
Qed.

(** C23: an unauthenticated, replayed or misdirected DHCPFORCERENEW does nothing.
    Whatever arrives, [takeForcerenew] either accepts a genuine message, and then
    the replay floor rises to that message's value while the key and the lease
    stay, so the same message is never accepted twice; or it refuses, and then it
    changes nothing but a counter and emits nothing but one journal line. *)
Theorem takeForcerenew_sound k msg raw dst now rnd : good_lease (mlease k) ->
  runs (takeForcerenew now rnd msg raw dst) (fun _ k' acts =>
    (exists c why, k' = k <| mfrCounts := c |> /\
       acts = [ActJournal (note "DHCPFORCERENEW refused: %s" [ARefusal why])]) \/
    (exists replay, genuine k msg raw dst replay /\
       mfr k' = mfr k <| frFloor := replay |> /\ mlease k' = mlease k /\ mhaveLse k' = mhaveLse k)) k.
Proof.
  intros Hgood. set (Q := fun (_ : unit) (k' : Core) (acts : list ActionBody) => _ \/ _).
  assert (Hre : forall why, runs (refuseForcerenew why) Q k) by (intros why; apply runs_refuse; intros c; left; eauto).
  unfold takeForcerenew. apply runs_bind, runs_get. cbn [app].
  rif; [apply Hre|]. rif; [apply Hre|].
  assert (Hst : mstate k = StateBound \/ mstate k = StateRenewing \/ mstate k = StateRebinding).
  { destruct (mstate k); try discriminate Heqb; tauto. }
  assert (Hu : exists u, forcerenewDestinationIsUnicast k dst = Some u) by (by apply destination_ok).
  destruct Hu as [u Hu]. apply runs_bind, (runs_lift _ u); [done|]. cbn [app]. cbv zeta.
  destruct u; cbn [negb]; [|apply Hre].
  destruct (addr_eqb (Unmap dst) (paddr (lAddr (mlease k)))) eqn:Edst; cbn [negb]; [|apply Hre].
  apply addr_eqb_eq in Edst.
  rif; [apply Hre|]. rewrite !orb_false_iff, !negb_false_iff in Heqb1. destruct Heqb1 as [[Hop Hch] Hci].
  apply Z.eqb_eq in Hop. apply addr_eqb_eq in Hci.
  assert (Hch' : CHAddr msg = pCHAddr (mparams k)).
  { unfold chaddrMatches in Hch. destruct (negb _) in Hch; [discriminate Hch|]. by apply bytes_eqb_eq in Hch. }
  destruct (frHave (mfr k)) eqn:Ehave; cbn [negb]; [|apply Hre].
  destruct (GetForcerenewAuth (MOptions msg)) as [r|] eqn:Eauth; [|apply Hre].
  assert (Hr : returns r).
  { unfold GetForcerenewAuth in Eauth. destruct (MOptions msg !! _); cbn in Eauth; [|discriminate Eauth].
    injection Eauth as <-. apply decodeForcerenewAuth_returns. }
  destruct r as [a|err| |]; [|apply Hre|by destruct Hr|by destruct Hr].
  destruct (Z.eqb_spec (AuthType a) ForcerenewTypeDigest) as [Etype|]; cbn [negb]; [|apply Hre].
  destruct (Z.leb_spec (AuthReplay a) (frFloor (mfr k))) as [|Efloor]; [apply Hre|].
  pose proof (VerifyForcerenew_ends raw (frNonce (mfr k))) as Hv.
  destruct (VerifyForcerenew raw (frNonce (mfr k))) as [[]|err| |] eqn:Ever;
    [|destruct (bool_decide _); apply Hre|by destruct Hv|by destruct Hv].
  assert (Hgen : genuine k msg raw dst (AuthReplay a)) by (unfold genuine; split_and!; eauto).
  destruct (state_eqb (mstate k) StateBound); cbn [negb].
  - rif; [apply Hre|]. rsteps. apply enterRenewing_key. intros k' l H1 H2 H3. right. exists (AuthReplay a). by split_and!.
  - rsteps. right. exists (AuthReplay a). by split_and!.
Qed.

(** A holder of the sample lease. *)
Definition sample_bound : Core :=
  sample_core StateBound <| mlease := sample_lease |> <| mhaveLse := true |> <| mfr := mkKey true sample_nonce 6 |>.

Lemma sample_lease_good : good_lease sample_lease.
Proof. split; [reflexivity|]. vm_compute. split; congruence. Qed.

Lemma takeForcerenew_sound_witness :
  good_lease (mlease sample_bound) /\
  runs (takeForcerenew 0 0 stray_reply sample_forcerenew (AddrFrom4 [192; 0; 2; 7])) (fun _ k' acts =>
    (exists c why, k' = sample_bound <| mfrCounts := c |> /\
       acts = [ActJournal (note "DHCPFORCERENEW refused: %s" [ARefusal why])]) \/
    (exists replay, genuine sample_bound stray_reply sample_forcerenew (AddrFrom4 [192; 0; 2; 7]) replay /\
       mfr k' = mfr sample_bound <| frFloor := replay |> /\ mlease k' = mlease sample_bound /\
       mhaveLse k' = mhaveLse sample_bound)) sample_bound.
Proof.
  split; [exact sample_lease_good|].
  exact (takeForcerenew_sound sample_bound stray_reply sample_forcerenew _ 0 0 sample_lease_good).
Defined.

(** ** Pacing *)

Lemma runs_acdIdle (Q : unit -> Core -> list ActionBody -> Prop) k :
  Q tt (k <| macd := acd_stop <$> macd k |> <| mprobing := lease_zero |> <| mhaveProbe := false |>
          <| mhaveARPAction := false |>) [] -> runs acdIdle Q k.
Proof.
  intros H. unfold acdIdle. rsteps. destruct (macd k) as [a|] eqn:Ea; rsteps; [exact H|].
  destruct k; cbn in *; by subst.
Qed.

Lemma runs_toInitIdle (Q : unit -> Core -> list ActionBody -> Prop) k :
  Q tt (k <| mstate := StateInit |> <| moffer := None |> <| mretransmits := 0 |>
          <| macd := acd_stop <$> macd k |> <| mprobing := lease_zero |> <| mhaveProbe := false |>
          <| mhaveARPAction := false |>) cancels -> runs toInitIdle Q k.
Proof. intros H. unfold toInitIdle. rsteps. apply runs_acdIdle. by rsteps. Qed.

(** Restarts back off.  The first restart after a lease that held is
    immediate; the [n]th restart in a row without one waits in INIT, sending
    nothing, for min(Max, Initial * 2^(n-1)) of the DHCPDISCOVER schedule, plus or
    minus its jitter, and the count goes up by one each time. *)
Theorem restart_paced k now rnd w : let n := mrestarts k in let b := pDiscover (mparams k) in
  1 <= n < MaxInt64 -> validate b = true -> backoff_wf b -> Max b <= 2 ^ 62 ->
  runs (restartPaced now rnd w) (fun _ k' acts =>
    mstate k' = StateInit /\ mrestarts k' = n + 1 /\
    exists d text, acts = cancels ++ [ActSetTimer TimerRestart d; ActJournal text] /\
      let full := Z.min (Max b) (Initial b * 2 ^ (n - 1)) in
      full - Jitter b <= d <= full + Jitter b /\ 0 < d) k.
Proof.
  intros n b Hn Hv Hwf Hmax. unfold restartPaced. rsteps. fold n. cbv zeta.
  rewrite (proj2 (Z.eqb_neq n 0)) by lia. rsteps. apply runs_toInitIdle. rsteps. ks. fold b.
  pose proof Hwf as [Hi%in_i64_spec Hm%in_i64_spec Hj%in_i64_spec].
  rewrite MaxInt64_val in Hn. rewrite (i64_id (n + 1)), (i64_id (n - 1)) by lia.
  split_and!; [done|done|]. eexists _, _. split; [done|]. cbv zeta.
  destruct (Delay_range b (n - 1) (split rnd 4) Hv Hwf) as [Hpos _].
  pose proof (proj1 (validate_spec b) Hv) as Hb.
  assert (E : Delay b (n - 1) (split rnd 4) = jitter (Z.min (Max b) (Initial b * 2 ^ (n - 1))) (Jitter b) (split rnd 4))
    by (apply Delay_exact; (done || lia)).
  rewrite E in *. pose proof (jitter_range (Z.min (Max b) (Initial b * 2 ^ (n - 1))) (Jitter b) (split rnd 4)) as Hjit.
  rewrite MaxInt64_val in *. assert (0 < 2 ^ (n - 1)) by (apply Z.pow_pos_nonneg; lia).
  split; [|lia]. nia.
Qed.

Lemma restart_paced_witness :
  let k := sample_core StateRequesting <| mrestarts := 3 |> in
  runs (restartPaced 0 7 false) (fun _ k' acts =>
    mstate k' = StateInit /\ mrestarts k' = 4 /\
    exists d text, acts = cancels ++ [ActSetTimer TimerRestart d; ActJournal text] /\
      16 * Second - Second <= d <= 16 * Second + Second /\ 0 < d) k.
Proof.
  intros k. apply (restart_paced k 0 7 false);
    [vm_compute; split; congruence|reflexivity|apply DefaultBackoff_wf|vm_compute; congruence].
Defined.

(** ** Conflicts *)

Definition is_send (b : ActionBody) : bool := match b with ActSend _ _ => true | _ => false end.

Lemma runs_dropLease r (Q : unit -> Core -> list ActionBody -> Prop) k :
  (mhaveLse k = false -> Q tt k []) ->
  (mhaveLse k = true -> Q tt (k <| mhaveLse := false |> <| mlease := lease_zero |> <| mfr := key_zero |>)
     (map ActCancelTimer [TimerExpire; TimerRenew; TimerRebind] ++ [ActLeaseLost r])) ->
  runs (dropLease r) Q k.
Proof.
  intros Hno Hyes. unfold dropLease. rsteps. destruct (mhaveLse k); cbn [negb]; rsteps; auto.
Qed.

(** A conflict is declined before anything else (RFC 2131 section 3.1,
    RFC 5227 section 2.4).  The first action names the address and the server in a
    broadcast DHCPDECLINE; a lease that was held is then reported lost; nothing
    more is sent; and the machine waits in INIT at least the configured delay. *)
Theorem conflict_declines k now rnd : let addr := paddr (lAddr (heldOrProbing k)) in
  let sid := lServerID (heldOrProbing k) in
  usable4 addr = true -> usable4 sid = true ->
  runs (declineAndRestart now rnd) (fun _ k' acts =>
    mstate k' = StateInit /\ mhaveLse k' = false /\ mhaveProbe k' = false /\
    exists msg rest d, acts = ActSend msg dest_broadcast :: rest /\
      Type_ msg = Some MsgDecline /\ carries msg OptRequestedIP addr /\ carries msg OptServerID sid /\
      existsb is_send rest = false /\ (mhaveLse k = true -> ActLeaseLost ReasonConflict ∈ rest) /\
      ActSetTimer TimerRestart d ∈ rest /\ params_restartDelay (mparams k) <= d) k.
Proof.
  intros addr sid Ha Hs. unfold declineAndRestart. set (tail := get ≫= _).
  assert (Htail : forall k0, mparams k0 = mparams k -> mhaveLse k0 = false ->
    runs tail (fun _ k' acts => (mstate k' = StateInit /\ mhaveLse k' = false /\ mhaveProbe k' = false) /\
      existsb is_send acts = false /\
      exists d, ActSetTimer TimerRestart d ∈ acts /\ params_restartDelay (mparams k) <= d) k0).
  { intros k0 Hp Hl. unfold tail. rsteps. cbv zeta.
    set (lim := match macd k0 with Some a => rateLimited a | None => false end).
    assert (Hlim : lim = true -> exists a, macd k0 = Some a) by (unfold lim; destruct (macd k0); [eauto|done]).
    clearbody lim. apply runs_toInitIdle. cbn [app]. apply runs_bind. destruct lim.
    - destruct (Hlim eq_refl) as [a Ha']. rsteps. apply (runs_lift _ (acd_stop a)); [ks; by rewrite Ha'|]. rsteps.
      split_and!; [done|done|done|by vm_compute|]. rewrite Hp.
      exists (acd_restartDelay (acd_stop a) now (params_restartDelay (mparams k))). split; [|apply acd_restartDelay_le].
      apply elem_of_app. right. right. by left.
    - rsteps. split_and!; [done|done|done|by vm_compute|]. rewrite Hp. eexists. split; [|reflexivity].
      apply elem_of_app. right. by left. }
  clearbody tail. apply runs_bind. unfold sendDecline. rsteps.
  unfold terminalFields. cbv zeta. fold addr sid.
  rewrite (proj2 (unusable_false addr) Ha), (proj2 (unusable_false sid) Hs).
  destruct (usable4_As4 _ Ha) as [v Hv], (usable4_As4 _ Hs) as [sv Hsv].
  rsteps. apply (runs_lift _ _ _ _ Hv). rsteps. apply (runs_lift _ _ _ _ Hsv). rsteps.
  set (msg := setOption _ OptMessage declineMessage).
  assert (Hm : Type_ msg = Some MsgDecline /\ carries msg OptRequestedIP addr /\ carries msg OptServerID sid).
  { unfold msg. split_and!.
    - unfold Type_. rewrite !setOption_lookup_ne by done. unfold terminalBase. cbn [MOptions].
      by rewrite lookup_cond_ne, lookup_singleton_eq by done.
    - exists v. split; [done|]. by rewrite !setOption_lookup_ne, setOption_lookup by done.
    - exists sv. split; [done|]. by rewrite !setOption_lookup_ne, setOption_lookup by done. }
  destruct Hm as (M1 & M2 & M3). clearbody msg.
  apply runs_dropLease; intros Hl; rsteps; (eapply runs_mono; [by apply Htail|]);
    intros [] k' acts (Hst & Hno & d & Hd & Hle); (split_and!; [apply Hst..|]); eexists msg, _, d;
    (split; [done|]); split_and!; try done.
  - congruence.
  - cbn. intros _. do 3 right. by left.
  - cbn. by do 4 right.
Qed.

Lemma conflict_declines_witness :
  runs (declineAndRestart 0 7) (fun _ k' acts =>
    mstate k' = StateInit /\ mhaveLse k' = false /\ mhaveProbe k' = false /\
    exists msg rest d, acts = ActSend msg dest_broadcast :: rest /\
      Type_ msg = Some MsgDecline /\ carries msg OptRequestedIP (AddrFrom4 [192; 0; 2; 7]) /\
      carries msg OptServerID (AddrFrom4 [192; 0; 2; 1]) /\
      existsb is_send rest = false /\ (true = true -> ActLeaseLost ReasonConflict ∈ rest) /\
      ActSetTimer TimerRestart d ∈ rest /\ 10 * Second <= d) sample_bound.
Proof. apply (conflict_declines sample_bound 0 7); reflexivity. Defined.

(** ** An acknowledgement is taken *)

(** The host name is the only thing an acquisition may still have to say. *)
Lemma runs_announceHostname now rnd k (Q : bool -> Core -> list ActionBody -> Prop) :
  (forall b k' l, mlease k' = mlease k -> mhaveLse k' = mhaveLse k -> Q b k' l) -> mstate k = StateBound ->
  runs (announceHostname now rnd) Q k.
Proof.
  intros H Hst. unfold announceHostname. rsteps. rif; [apply runs_ret; by apply H|]. rewrite Hst.
  apply runs_bind, enterRenewing_key. intros k' l _ H1 H2. rsteps. by apply H.
Qed.

Lemma runs_when_journal b n (Q : unit -> Core -> list ActionBody -> Prop) k :
  (forall l, (l = [] \/ l = [ActJournal n]) -> Q tt k l) -> runs (when b (journal n)) Q k.
Proof. intros H. apply runs_when; intros _; rsteps; apply H; tauto. Qed.

Lemma runs_armDeadline now t ts (Q : unit -> Core -> list ActionBody -> Prop) k :
  (forall l, Q tt k l) -> runs (armDeadline now t ts) Q k.
Proof. intros H. unfold armDeadline. destruct ts; rsteps; apply H. Qed.

(** Entering BOUND with a first lease reports that lease. *)
Lemma runs_enterBound f now rnd l k : mhaveLse k = false ->
  runs (enterBound_ f now rnd l false) (fun _ k' acts => mhaveLse k' = true /\ lAddr (mlease k') = lAddr l /\
    exists l' a, ActLeaseAcquired l' a ∈ acts /\ lAddr l' = lAddr l /\ lStart l' = lStart l /\ lLeaseTime l' = lLeaseTime l) k.
Proof.
  intros Hl. unfold enterBound_. rsteps. cbv zeta. rsteps. rewrite Hl. cbn [andb].
  pose proof (settle_keeps k l false) as Hkeep. destruct (settleForcerenew k l false) as [l' key]. cbv zeta in Hkeep.
  cbn [fst] in Hkeep. destruct Hkeep as (K1 & K2 & K3 & _). rsteps.
  do 3 (apply runs_when_journal; intros ? _; rsteps).
  set (rest := armDeadline now TimerExpire _ ≫= _).
  match goal with |- runs _ _ ?k' => set (k1 := k') end.
  assert (Hrest : forall k2 pre, k2 = k1 \/ k2 = k1 <| mrestarts := 0 |> -> runs rest (fun _ k' acts =>
    mhaveLse k' = true /\ lAddr (mlease k') = lAddr l /\ exists l' a, ActLeaseAcquired l' a ∈ pre ++ acts /\
      lAddr l' = lAddr l /\ lStart l' = lStart l /\ lLeaseTime l' = lLeaseTime l) k2).
  { intros k2 pre Hk2. unfold rest. cbn [negb]. rsteps. do 3 (apply runs_armDeadline; intros ?; rsteps).
    apply runs_announceHostname; [|by destruct Hk2 as [->| ->]].
    intros b k' acts H1 H2. rsteps. rewrite H1, H2.
    split; [by destruct Hk2 as [->| ->]|]. split; [destruct Hk2 as [->| ->]; exact K1|].
    exists l'. eexists. split_and!; [|done|done|done]. in_list. }
  clearbody rest. apply runs_when; intros _; rsteps; (eapply runs_mono; [apply (Hrest _ []); first [by left|by right]|]);
    cbn [app]; intros [] k' acts (?&?&l3&a3&Hin&?&?&?); (split_and!; [done|done|]); exists l3, a3;
    (split_and!; [|done|done|done]); in_list.
Qed.

Lemma runs_v6 msg st (Q : unit -> Core -> list ActionBody -> Prop) k :
  (forall c l, existsb is_send l = false -> Q tt (k <| mv6OnlyCounts := c |>) l) -> runs (noteV6OnlyKept msg st) Q k.
Proof.
  intros H. assert (H0 : Q tt k []) by (specialize (H (mv6OnlyCounts k) []); destruct k; by apply H).
  unfold noteV6OnlyKept, v6OnlyValue. destruct msg as [ms|]; [|by rsteps]. rif; [by rsteps|]. rsteps.
  rif; [by rsteps|]. unfold IPv6OnlyPreferred. destruct (MOptions ms !! _) as [v|]; cbn [mbind option_bind]; [|by rsteps].
  destruct (Nat.eqb_spec (length v) 4) as [Hv|]; cbn [negb]; [|rsteps; by apply H].
  destruct (@ube32_returns WireErr v) as [s ->]; [lia|]. rsteps. by apply H.
Qed.

(** The check starts. *)
Lemma runs_startACD n now rnd addr a k (Q : unit -> Core -> list ActionBody -> Prop) : macd k = Some a ->
  (forall a' d, aaddr a' = addr -> Q tt (k <| macd := Some a' |>) [ActSetTimer TimerACD d]) ->
  runs (startACD_ (applyACD (S n)) now rnd addr) Q k.
Proof.
  intros Ha H. unfold startACD_. rsteps. rewrite Ha. unfold acdStep, acd_start. cbv zeta.
  destruct (_ <=? 0); rsteps; cbn [applyACD]; unfold applyACD_; cbn [forM_ applyACDAction_]; rsteps; by apply H.
Qed.

(** An acceptable DHCPACK is taken.  In REQUESTING, an acknowledgement that
    passes the checks and carries a lease is used: with ConflictOff and
    ConflictAsync the lease is announced in this step, and with ConflictWait the
    machine goes to PROBING for its address with the conflict timer set and says
    nothing of a lease yet. *)
Theorem ack_taken k m raw dst now rnd l n : mstate k = StateRequesting -> mhaveLse k = false ->
  acceptableWhy k (Some m) = inl m -> Type_ m = Some MsgAck ->
  refusesRapid k m = false ->
  (offerCarried145 k = false \/ exists a, validForcerenewNonce m = Ok (Some a)) ->
  leaseFromAck m (mrequestSentAt k) = Ok (Some (l, n)) ->
  (pConflict (mparams k) = ConflictOff <-> macd k = None) ->
  runs (step now rnd (EvReceived (Some m) raw dst)) (fun _ k' acts =>
    match pConflict (mparams k) with
    | ConflictWait => mstate k' = StateProbing /\ mprobing k' = l /\ mhaveLse k' = false /\
        (exists a, macd k' = Some a /\ aaddr a = paddr (lAddr l)) /\ exists d, ActSetTimer TimerACD d ∈ acts
    | _ => mhaveLse k' = true /\ lAddr (mlease k') = lAddr l /\
        exists l' a, ActLeaseAcquired l' a ∈ acts /\ lAddr l' = lAddr l /\ lStart l' = lStart l /\
          lLeaseTime l' = lLeaseTime l
    end) k.
Proof.
  intros Hst Hl Hacc Ht Hrapid Hnonce Hlease Hacd. match goal with |- runs _ ?Q _ => set (P := Q) end.
  unfold step. rsteps. rewrite Ht, bool_decide_false by done. unfold stepState. rewrite Hst.
  unfold stepRequesting, acceptable. rsteps. rewrite Hacc. rsteps. cbv zeta.
  assert (Hty : msgType m = MsgAck) by (unfold msgType; by rewrite Ht). rewrite Hty. cbn [Z.eqb MsgAck Pos.eqb].
  unfold refusesRapidInRequesting, refusesAckWithoutNonce. rsteps. rewrite Hrapid. rsteps.
  set (rest := noteV6OnlyKept (Some m) StateRequesting ≫= _).
  assert (Hrest : runs rest P k).
  2:{ destruct (negb (offerCarried145 k)) eqn:E145; rsteps; [(eapply runs_mono; [exact Hrest|]; intros; assumption)|].
      destruct Hnonce as [Hn|[a Hn]]; [by rewrite Hn in E145|].
      apply (runs_liftw _ _ _ _ Hn). rsteps. exact Hrest. }
  unfold rest. apply runs_bind, runs_v6. intros c l0 _. cbn [app]. rsteps. ks.
  apply (runs_liftw _ _ _ _ Hlease). rsteps. apply runs_when_journal. intros l1 _. cbn [app].
  unfold afterAck. rsteps. ks. unfold P. clear P rest. destruct (pConflict (mparams k)) eqn:Ec.
  - destruct (macd k) as [a|] eqn:Ea; [|by destruct Hacd as [_ Hacd]; discriminate (Hacd eq_refl)].
    unfold enterProbing, startACD, acdDepth. rsteps. apply (runs_startACD 1 _ _ _ a); [done|].
    intros a' d Ha'. split_and!; try done; [by exists a'|]. exists d. in_list.
  - destruct (macd k) as [a|] eqn:Ea; [|by destruct Hacd as [_ Hacd]; discriminate (Hacd eq_refl)].
    unfold startACD, enterBound, acdDepth. rsteps. apply (runs_startACD 1 _ _ _ a); [done|].
    intros a' d Ha'. rsteps. eapply runs_mono; [by apply runs_enterBound|].
    intros [] k' acts (?&?&l3&a3&Hin&?). split_and!; try done. exists l3, a3. split; [|done].
    in_list.
  - unfold enterBound. eapply runs_mono; [by apply runs_enterBound|].
    intros [] k' acts (?&?&l3&a3&Hin&?). split_and!; try done. exists l3, a3. split; [|done].
    in_list.
Qed.

Definition sample_ack : Message :=
  mkMessage BootReply HTypeEthernet 0 0 5 0 0 AddrZero (AddrFrom4 [192; 0; 2; 7]) AddrZero AddrZero
    [2; 66; 172; 17; 0; 2] [] []
    (<[OptMessageType := [MsgAck]]> (<[OptServerID := [192; 0; 2; 1]]> {[ OptLeaseTime := be32 3600 ]})).

Lemma ack_taken_witness : let k := sample_core StateRequesting in exists l n,
  leaseFromAck sample_ack 0 = Ok (Some (l, n)) /\
  runs (step 0 0 (EvReceived (Some sample_ack) [] AddrZero)) (fun _ k' acts =>
    mstate k' = StateProbing /\ mprobing k' = l /\ mhaveLse k' = false /\
    (exists a, macd k' = Some a /\ aaddr a = paddr (lAddr l)) /\ exists d, ActSetTimer TimerACD d ∈ acts) k.
Proof.
  intros k. destruct (leaseFromAck sample_ack 0) as [[[l n]|]| | |] eqn:E; try (vm_compute in E; discriminate E).
  exists l, n. split; [reflexivity|].
  refine (ack_taken k sample_ack [] AddrZero 0 0 l n eq_refl eq_refl _ _ eq_refl (or_introl eq_refl) E _).
  - vm_compute. reflexivity.
  - vm_compute. reflexivity.
  - split; intros H; discriminate H.
Defined.

(** ** INIT-REBOOT *)

Lemma runs_base now t (Q : Message -> Core -> list ActionBody -> Prop) k :
  (forall n, Q (baseMessage k now t) (k <| mnameOnWire := n |>) []) -> runs (base now t) Q k.
Proof. intros H. unfold base. rsteps. apply H. Qed.

Lemma live_usable r now : live (Some r) now = true -> usable4 (ResumeAddr r) = true.
Proof. unfold live. destruct (negb (Is4 (ResumeAddr r)) || _) eqn:E; [done|]. intros _. by apply unusable_false. Qed.

(** A remembered lease is asked for once, and only while it is live
    (RFC 2131 section 4.4.2).  [Start] consumes the [Resume] value; if its lease
    has not expired, the one message of the step is a broadcast DHCPREQUEST for
    that address that names no server, and the machine is in REBOOTING; otherwise
    the machine goes to INIT or SELECTING as if there had been none. *)
Theorem resume_reboots k now rnd : mstate k = StateStopped ->
  runs (step now rnd EvStart) (fun _ k' acts => mresume k' = None /\
    match mresume k with
    | Some r =>
      if live (Some r) now then
        mstate k' = StateRebooting /\ mrebootAddr k' = ResumeAddr r /\
        exists msg, filter (fun b => is_send b = true) acts = [ActSend msg dest_broadcast] /\
          Type_ msg = Some MsgRequest /\ carries msg OptRequestedIP (ResumeAddr r) /\ hasnt msg OptServerID
      else mstate k' = StateInit \/ mstate k' = StateSelecting
    | None => mstate k' = StateInit \/ mstate k' = StateSelecting
    end) k.
Proof.
  intros Hst. unfold step. rsteps. rewrite Hst. unfold stepState, stepStopped, beginAcquisition. set (tail := get ≫= _).
  assert (Hdisc : forall k0 rnd (Q : unit -> Core -> list ActionBody -> Prop),
    (forall k' l, mresume k' = mresume k0 -> mstate k' = StateSelecting -> Q tt k' l) ->
    runs (sendDiscover now rnd) Q k0).
  { intros k0 rnd0 Q H. unfold sendDiscover. apply runs_bind, runs_base. intros nm. rsteps. cbv zeta. ks.
    destruct (Is4 (pRequestedIP (mparams k0)) && _)%bool eqn:Eu.
    - destruct (usable4_As4 _ Eu) as [v Hv]. rsteps. apply (runs_lift _ _ _ _ Hv). rsteps.
      destruct (pRapidCommit _); rsteps; by apply H.
    - rsteps. destruct (pRapidCommit _); rsteps; by apply H. }
  assert (Htail : forall k0, mresume k0 = None -> mstate k0 = StateInit -> runs tail
    (fun _ k' _ => mresume k' = None /\ (mstate k' = StateInit \/ mstate k' = StateSelecting)) k0).
  { intros k0 H1 H2. unfold tail. rsteps. cbv zeta iota. rif.
    - apply Hdisc. intros k' l E1 E2. split; [congruence|by right].
    - rsteps. split; [done|by left]. }
  clearbody tail. unfold takeResume.
  rsteps. ks. destruct (mresume k) as [r|] eqn:Er; rsteps.
  - destruct (live (Some r) now) eqn:El; cbn [negb]; rsteps.
    + destruct (usable4_As4 _ (live_usable _ _ El)) as [v Hv].
      unfold sendReboot. apply runs_bind, runs_base. intros nm. rsteps. ks.
      apply (runs_lift _ _ _ _ Hv). rsteps. split; [done|]. split; [done|]. split; [done|].
      eexists. split; [reflexivity|]. unfold Type_, hasnt. rewrite !setOption_lookup_ne by done.
      rewrite (base_type _ _ eq_refl), (base_hasnt _ _ eq_refl) by (done || tauto).
      split_and!; [done| |done]. exists v. split; [done|]. apply setOption_lookup.
    + eapply runs_mono; [by apply Htail|]. by intros.
  - eapply runs_mono; [by apply Htail|]. by intros.
Qed.

Lemma resume_reboots_witness :
  let k := sample_core StateStopped <| mresume := Some (mkResume (AddrFrom4 [192; 0; 2; 7]) (100 * Second) true) |> in
  runs (step (5 * Second) 7 EvStart) (fun _ k' acts => mresume k' = None /\
    mstate k' = StateRebooting /\ mrebootAddr k' = AddrFrom4 [192; 0; 2; 7] /\
    exists msg, filter (fun b => is_send b = true) acts = [ActSend msg dest_broadcast] /\
      Type_ msg = Some MsgRequest /\ carries msg OptRequestedIP (AddrFrom4 [192; 0; 2; 7]) /\
      hasnt msg OptServerID) k.
Proof. intros k. exact (resume_reboots k (5 * Second) 7 eq_refl). Defined.
