(* ===== verification/Dhcp6.v ===== *)
(** * The DHCPv6 message codec: wire/dhcpv6.go

    Messages and their options in wire order, the identity associations and
    what nests in them, and the option values the client reads and writes.

    A reader's three Go results (value, present, error) are one value:
    [None] for an option that is absent, [Some (Err e)] for one that is present
    and unusable, [Some (Ok v)] for its value.  An error that wraps two sentinels
    is named for the pair: [ErrV6Vendor] is [ErrMalformedVendor] with
    [ErrV6BadOption], [ErrMalformedNTP] is always wrapped with [ErrV6BadOption]. *)

From S2P Require Import Prelude NetAddr Options Values.

(** ** Message types and option codes *)

Abbreviation MessageTypeV6 := Z (only parsing).

Definition MsgSolicit : MessageTypeV6 := 1.
Definition MsgAdvertise : MessageTypeV6 := 2.
Definition MsgRequest6 : MessageTypeV6 := 3.
Definition MsgConfirm : MessageTypeV6 := 4.
Definition MsgRenew : MessageTypeV6 := 5.
Definition MsgRebind : MessageTypeV6 := 6.
Definition MsgReply : MessageTypeV6 := 7.
Definition MsgRelease6 : MessageTypeV6 := 8.
Definition MsgDecline6 : MessageTypeV6 := 9.
Definition MsgReconfigure : MessageTypeV6 := 10.
Definition MsgInformationRequest : MessageTypeV6 := 11.
Definition MsgRelayForw : MessageTypeV6 := 12.
Definition MsgRelayRepl : MessageTypeV6 := 13.

Definition ForClient (m : MessageTypeV6) : bool := (MsgSolicit <=? m) && (m <=? MsgInformationRequest).

Abbreviation OptionCodeV6 := Z (only parsing).

Definition OptV6ClientID : OptionCodeV6 := 1.
Definition OptV6ServerID : OptionCodeV6 := 2.
Definition OptV6IANA : OptionCodeV6 := 3.
Definition OptV6IATA : OptionCodeV6 := 4.
Definition OptV6IAAddr : OptionCodeV6 := 5.
Definition OptV6ORO : OptionCodeV6 := 6.
Definition OptV6Preference : OptionCodeV6 := 7.
Definition OptV6ElapsedTime : OptionCodeV6 := 8.
Definition OptV6StatusCode : OptionCodeV6 := 13.
Definition OptV6RapidCommit : OptionCodeV6 := 14.
Definition OptV6VendorOpts : OptionCodeV6 := 17.
Definition OptV6DNSServers : OptionCodeV6 := 23.
Definition OptV6DomainList : OptionCodeV6 := 24.
Definition OptV6IAPD : OptionCodeV6 := 25.
Definition OptV6IAPrefix : OptionCodeV6 := 26.
Definition OptV6InfoRefresh : OptionCodeV6 := 32.
Definition OptV6ClientFQDN : OptionCodeV6 := 39.
Definition OptV6PosixTimezone : OptionCodeV6 := 41.
Definition OptV6TZDatabase : OptionCodeV6 := 42.
Definition OptV6NTPServer : OptionCodeV6 := 56.
Definition OptV6SolMaxRTCode : OptionCodeV6 := 82.
Definition OptV6InfMaxRTCode : OptionCodeV6 := 83.

(** ** Options *)

Record OptionV6 := mkOptionV6 { OCode : OptionCodeV6; OData : bytes }.

#[global] Instance OptionV6_eq_dec : EqDecision OptionV6.
Proof. solve_decision. Defined.

Abbreviation OptionsV6 := (list OptionV6) (only parsing).

Fixpoint First (o : OptionsV6) (c : OptionCodeV6) : option bytes :=
  match o with
  | [] => None
  | opt :: o => if OCode opt =? c then Some (OData opt) else First o c
  end.

Fixpoint All (o : OptionsV6) (c : OptionCodeV6) : list bytes :=
  match o with
  | [] => []
  | opt :: o => if OCode opt =? c then OData opt :: All o c else All o c
  end.

Fixpoint Count (o : OptionsV6) (c : OptionCodeV6) : Z :=
  match o with
  | [] => 0
  | opt :: o => (if OCode opt =? c then 1 else 0) + Count o c
  end.

Fixpoint parse6Loop (fuel : nat) (b : bytes) (i : nat) (out : OptionsV6) : wire OptionsV6 :=
  match fuel with
  | O => Hang
  | S fuel =>
    if (i <? length b)%nat then
      if (length b - i <? 4)%nat then Err ErrV6TruncatedOption else
      c ← slice b i (i + 2); code ← ube16 c;
      l ← slice b (i + 2) (i + 4); n ← ube16 l;
      let n := Z.to_nat n in
      let i := (i + 4)%nat in
      if (length b - i <? n)%nat then Err ErrV6OptionOverrun else
      d ← slice b i (i + n);
      parse6Loop fuel b (i + n) (out ++ [mkOptionV6 code d])
    else Ok out
  end.

Definition ParseOptionsV6 (b : bytes) : wire OptionsV6 := parse6Loop (S (length b)) b 0 [].

Fixpoint encode6Loop (o : OptionsV6) (out : bytes) : wire bytes :=
  match o with
  | [] => Ok out
  | opt :: o =>
    if 0xFFFF <? Z.of_nat (length (OData opt)) then Err ErrV6Encode else
    encode6Loop o (out ++ be16 (OCode opt) ++ be16 (u16 (Z.of_nat (length (OData opt)))) ++ OData opt)
  end.

Definition EncodeOptionsV6 (o : OptionsV6) : wire bytes := encode6Loop o [].

(** ** Messages *)

Definition MaxXID6 : Z := Z.shiftl 1 24.
Definition V6HeaderLen : nat := 4.

Record MessageV6 := mkMessageV6 { MType : MessageTypeV6; MXID : Z; MOptionsV6 : OptionsV6 }.

#[global] Instance MessageV6_eq_dec : EqDecision MessageV6.
Proof. solve_decision. Defined.

Definition DecodeV6 (b : bytes) : wire MessageV6 :=
  if (length b <? V6HeaderLen)%nat then Err ErrV6Short else
  t ← idx b 0;
  if ForClient t then
    body ← slice b V6HeaderLen (length b);
    opts ← ParseOptionsV6 body;
    x1 ← idx b 1; x2 ← idx b 2; x3 ← idx b 3;
    Ok (mkMessageV6 t (Z.lor (Z.lor (Z.shiftl x1 16) (Z.shiftl x2 8)) x3) opts)
  else if (t =? MsgRelayForw) || (t =? MsgRelayRepl) then Err ErrV6NotForClient
  else Err ErrV6UnknownType.

Definition EncodeV6 (m : MessageV6) : wire bytes :=
  if MaxXID6 <=? MXID m then Err ErrV6Encode else
  body ← EncodeOptionsV6 (MOptionsV6 m);
  Ok ([u8 (MType m); u8 (Z.shiftr (MXID m) 16); u8 (Z.shiftr (MXID m) 8); u8 (MXID m)] ++ body).

(** ** Identity associations *)

Record IANA := mkIANA { naIAID : Z; naT1 : Z; naT2 : Z; naOptions : OptionsV6 }.
Record IATA := mkIATA { taIAID : Z; taOptions : OptionsV6 }.
Record IAPD := mkIAPD { pdIAID : Z; pdT1 : Z; pdT2 : Z; pdOptions : OptionsV6 }.

Definition IANAFixedLen : nat := 12.
Definition IATAFixedLen : nat := 4.
Definition IAPDFixedLen : nat := 12.

Definition DecodeIANA (v : bytes) : wire IANA :=
  if (length v <? IANAFixedLen)%nat then Err ErrV6BadOption else
  body ← slice v IANAFixedLen (length v);
  opts ← ParseOptionsV6 body;
  i ← slice v 0 4; i ← ube32 i;
  t1 ← slice v 4 8; t1 ← ube32 t1;
  t2 ← slice v 8 12; t2 ← ube32 t2;
  Ok (mkIANA i t1 t2 opts).

Definition EncodeIANA (ia : IANA) : wire bytes :=
  body ← EncodeOptionsV6 (naOptions ia);
  Ok (be32 (naIAID ia) ++ be32 (naT1 ia) ++ be32 (naT2 ia) ++ body).

Definition DecodeIATA (v : bytes) : wire IATA :=
  if (length v <? IATAFixedLen)%nat then Err ErrV6BadOption else
  body ← slice v IATAFixedLen (length v);
  opts ← ParseOptionsV6 body;
  i ← slice v 0 4; i ← ube32 i;
  Ok (mkIATA i opts).

Definition EncodeIATA (ia : IATA) : wire bytes :=
  body ← EncodeOptionsV6 (taOptions ia);
  Ok (be32 (taIAID ia) ++ body).

Definition DecodeIAPD (v : bytes) : wire IAPD :=
  if (length v <? IAPDFixedLen)%nat then Err ErrV6BadOption else
  body ← slice v IAPDFixedLen (length v);
  opts ← ParseOptionsV6 body;
  i ← slice v 0 4; i ← ube32 i;
  t1 ← slice v 4 8; t1 ← ube32 t1;
  t2 ← slice v 8 12; t2 ← ube32 t2;
  Ok (mkIAPD i t1 t2 opts).

Definition EncodeIAPD (ia : IAPD) : wire bytes :=
  body ← EncodeOptionsV6 (pdOptions ia);
  Ok (be32 (pdIAID ia) ++ be32 (pdT1 ia) ++ be32 (pdT2 ia) ++ body).

Record IAPrefix := mkIAPrefix {
  pxPrefix : Prefix; pxPreferredLifetime : Z; pxValidLifetime : Z; pxOptions : OptionsV6 }.
Record IAAddr := mkIAAddr {
  iaAddr : Addr; iaPreferredLifetime : Z; iaValidLifetime : Z; iaOptions : OptionsV6 }.

Definition IAPrefixFixedLen : nat := 25.
Definition IAAddrFixedLen : nat := 24.

Definition DecodeIAPrefix (v : bytes) : wire IAPrefix :=
  if (length v <? IAPrefixFixedLen)%nat then Err ErrV6BadOption else
  bits ← idx v 8;
  if 128 <? bits then Err ErrV6BadOption else
  body ← slice v IAPrefixFixedLen (length v);
  opts ← ParseOptionsV6 body;
  p ← slice v 0 4; p ← ube32 p;
  l ← slice v 4 8; l ← ube32 l;
  a ← slice v 9 25;
  Ok (mkIAPrefix (PrefixFrom (AddrFrom16 a) bits) p l opts).

Definition EncodeIAPrefix (p : IAPrefix) : wire bytes :=
  let a := paddr (pxPrefix p) in
  if negb (PrefixIsValid (pxPrefix p)) || negb (Is6 a) || Is4In6 a then Err ErrV6Encode else
  body ← EncodeOptionsV6 (pxOptions p);
  Ok (be32 (pxPreferredLifetime p) ++ be32 (pxValidLifetime p) ++ [u8 (pbits (pxPrefix p))] ++ As16 a ++ body).

Definition IAPrefix_Valid (p : IAPrefix) : bool := pxPreferredLifetime p <=? pxValidLifetime p.

Definition DecodeIAAddr (v : bytes) : wire IAAddr :=
  if (length v <? IAAddrFixedLen)%nat then Err ErrV6BadOption else
  body ← slice v IAAddrFixedLen (length v);
  opts ← ParseOptionsV6 body;
  a ← slice v 0 16;
  p ← slice v 16 20; p ← ube32 p;
  l ← slice v 20 24; l ← ube32 l;
  Ok (mkIAAddr (AddrFrom16 a) p l opts).

Definition EncodeIAAddr (a : IAAddr) : wire bytes :=
  if negb (Is6 (iaAddr a)) || Is4In6 (iaAddr a) then Err ErrV6Encode else
  body ← EncodeOptionsV6 (iaOptions a);
  Ok (As16 (iaAddr a) ++ be32 (iaPreferredLifetime a) ++ be32 (iaValidLifetime a) ++ body).

Definition IAAddr_Valid (a : IAAddr) : bool := iaPreferredLifetime a <=? iaValidLifetime a.

(** The loop of [IANAs], [IATAs], [IAPDs], [Prefixes] and [Addrs]: every
    instance of the code, or the first error. *)
Fixpoint decodeAll {A} (decode : bytes -> wire A) (vs : list bytes) : wire (list A) :=
  match vs with
  | [] => Ok []
  | v :: vs => x ← decode v; l ← decodeAll decode vs; Ok (x :: l)
  end.

Definition IANAs (o : OptionsV6) : wire (list IANA) := decodeAll DecodeIANA (All o OptV6IANA).
Definition IATAs (o : OptionsV6) : wire (list IATA) := decodeAll DecodeIATA (All o OptV6IATA).
Definition IAPDs (o : OptionsV6) : wire (list IAPD) := decodeAll DecodeIAPD (All o OptV6IAPD).
Definition Prefixes (o : OptionsV6) : wire (list IAPrefix) := decodeAll DecodeIAPrefix (All o OptV6IAPrefix).
Definition Addrs (o : OptionsV6) : wire (list IAAddr) := decodeAll DecodeIAAddr (All o OptV6IAAddr).

(** [OptionsV6.RapidCommit]: every instance must be empty. *)
Fixpoint rapidLoop (vs : list bytes) (present : bool) : wire bool :=
  match vs with
  | [] => Ok present
  | v :: vs => if negb (length v =? 0)%nat then Err ErrV6BadOption else rapidLoop vs true
  end.

Definition RapidCommitV6 (o : OptionsV6) : wire bool := rapidLoop (All o OptV6RapidCommit) false.
Definition RapidCommitOption : OptionV6 := mkOptionV6 OptV6RapidCommit [].

(** ** Status *)

Abbreviation StatusCode := Z (only parsing).

Definition StatusSuccess : StatusCode := 0.
Definition StatusUnspecFail : StatusCode := 1.
Definition StatusNoAddrsAvail : StatusCode := 2.
Definition StatusNoBinding : StatusCode := 3.
Definition StatusNotOnLink : StatusCode := 4.
Definition StatusNoPrefixAvail : StatusCode := 6.
Definition StatusMalformed : StatusCode := 0xFFFF.

Record Status := mkStatus { StCode : StatusCode; StMessage : gostring }.

Definition DecodeStatus (v : bytes) : wire Status :=
  if (length v <? 2)%nat then Err ErrV6BadOption else
  c ← slice v 0 2; c ← ube16 c;
  m ← slice v 2 (length v);
  Ok (mkStatus c m).

Definition EncodeStatus (s : Status) : bytes := be16 (StCode s) ++ StMessage s.

(** [OptionsV6.Status]: the status, whether the option is there, the error. *)
Definition OptionsV6_Status (o : OptionsV6) : wire (Status * bool * option WireErr) :=
  match First o OptV6StatusCode with
  | None => Ok (mkStatus StatusSuccess [], false, None)
  | Some v =>
    match DecodeStatus v with
    | Ok s => Ok (s, true, None)
    | Err e => Ok (mkStatus StatusMalformed [], true, Some e)
    | Panic => Panic
    | Hang => Hang
    end
  end.

(** ** Single values *)

Definition Preference (o : OptionsV6) : option (wire Z) :=
  match First o OptV6Preference with
  | None => None
  | Some [x] => Some (Ok x)
  | Some _ => Some (Err ErrV6BadOption)
  end.

Definition MaxElapsedHundredths : Z := 0xFFFF.

Definition ElapsedHundredths (h : Z) : Z :=
  if MaxElapsedHundredths <? h then MaxElapsedHundredths else u16 h.

Definition ElapsedTime (o : OptionsV6) : option (wire Z) :=
  match First o OptV6ElapsedTime with
  | None => None
  | Some v => Some (if negb (length v =? 2)%nat then Err ErrV6BadOption else ube16 v)
  end.

Definition Uint32V6 (o : OptionsV6) (c : OptionCodeV6) : option (wire Z) :=
  match First o c with
  | None => None
  | Some v => Some (if negb (length v =? 4)%nat then Err ErrV6BadOption else ube32 v)
  end.

(** [for i := 0; i+16 <= len(v); i += 16] *)
Fixpoint dnsLoop (fuel : nat) (v : bytes) (i : nat) (out : list Addr) : wire (list Addr) :=
  match fuel with
  | O => Hang
  | S fuel =>
    if (i + 16 <=? length v)%nat then
      a ← slice v i (i + 16);
      dnsLoop fuel v (i + 16) (out ++ [AddrFrom16 a])
    else Ok out
  end.

Fixpoint dnsServersLoop (vs : list bytes) (out : list Addr) : wire (list Addr) :=
  match vs with
  | [] => Ok out
  | v :: vs =>
    if negb (length v mod 16 =? 0)%nat then Err ErrV6BadOption else
    out ← dnsLoop (S (length v)) v 0 out;
    dnsServersLoop vs out
  end.

Definition DNSServers (o : OptionsV6) : wire (list Addr) := dnsServersLoop (All o OptV6DNSServers) [].

(** ** Uncompressed names *)

Definition MaxNameLen : nat := 255.

Fixpoint name6Loop (fuel : nat) (v : bytes) (off : nat) (labels : list gostring) : wire (gostring * nat) :=
  match fuel with
  | O => Hang
  | S fuel =>
    if (length v <=? off)%nat then Err ErrV6Name else
    n ← idx v off;
    if n =? 0 then Ok (joinDots labels, (off + 1)%nat)
    else if Z.land n 0xC0 =? 0xC0 then Err ErrV6Name
    else if negb (Z.land n 0xC0 =? 0) then Err ErrV6Name
    else
      let k := Z.to_nat n in
      if (length v <? off + 1 + k)%nat then Err ErrV6Name else
      l ← slice v (off + 1) (off + 1 + k);
      name6Loop fuel v (off + 1 + k) (labels ++ [l])
  end.

Definition readNameUncompressed (v : bytes) (off : nat) : wire (gostring * nat) :=
  name6Loop (S (length v)) v off [].

Fixpoint search6Loop (fuel : nat) (v : bytes) (i : nat) (out : list gostring) : wire (list gostring) :=
  match fuel with
  | O => Hang
  | S fuel =>
    if (i <? length v)%nat then
      '(name, next) ← readNameUncompressed v i;
      search6Loop fuel v next (if bytes_eqb name [] then out else out ++ [name])
    else Ok out
  end.

Fixpoint domainSearchLoop (vs : list bytes) (out : list gostring) : wire (list gostring) :=
  match vs with
  | [] => Ok out
  | v :: vs => out ← search6Loop (S (length v)) v 0 out; domainSearchLoop vs out
  end.

Definition DomainSearchV6 (o : OptionsV6) : wire (list gostring) := domainSearchLoop (All o OptV6DomainList) [].

(** The label loop of [encodeNameUncompressed] and [EncodeClientFQDN]. *)
Fixpoint encodeLabels6 (labels : list gostring) (out : bytes) : wire bytes :=
  match labels with
  | [] => Ok out
  | l :: rest =>
    if (length l =? 0)%nat then Err ErrV6Name else
    if (63 <? length l)%nat then Err ErrV6Name else
    encodeLabels6 rest (out ++ [u8 (Z.of_nat (length l))] ++ l)
  end.

Definition encodeNameUncompressed (name : gostring) : wire bytes :=
  let name := trimDotSuffix name in
  if bytes_eqb name [] then Err ErrV6Name else
  out ← encodeLabels6 (splitDots name) [];
  let out := out ++ [0] in
  if (MaxNameLen <? length out)%nat then Err ErrV6Name else Ok out.

Fixpoint encodeSearch (names : list gostring) (out : bytes) : wire bytes :=
  match names with
  | [] => Ok out
  | n :: names => enc ← encodeNameUncompressed n; encodeSearch names (out ++ enc)
  end.

Definition EncodeDomainSearch (names : list gostring) : wire bytes := encodeSearch names [].

(** ** Client FQDN *)

Definition ClientFQDNFlagS : Z := 0x01.
Definition ClientFQDNFlagO : Z := 0x02.
Definition ClientFQDNFlagN : Z := 0x04.
Definition ClientFQDNFlagMBZ : Z := 0xF8.

Record ClientFQDN := mkClientFQDN { FqFlags : Z; FqName : gostring }.

#[global] Instance ClientFQDN_eq_dec : EqDecision ClientFQDN.
Proof. solve_decision. Defined.

Definition EncodeClientFQDN (flags : Z) (name : gostring) : wire bytes :=
  if negb (Z.land flags ClientFQDNFlagO =? 0) then Err ErrV6Encode else
  if negb (Z.land flags ClientFQDNFlagN =? 0) && negb (Z.land flags ClientFQDNFlagS =? 0) then Err ErrV6Encode else
  if negb (Z.land flags ClientFQDNFlagMBZ =? 0) then Err ErrV6Encode else
  let full := hasDotSuffix name in
  let trimmed := trimDotSuffix name in
  if full && bytes_eqb trimmed [] then Err ErrV6Name else
  out ← (if bytes_eqb trimmed [] then Ok [flags] else encodeLabels6 (splitDots trimmed) [flags]);
  let out := if full then out ++ [0] else out in
  if (MaxNameLen <? length out - 1)%nat then Err ErrV6Name else Ok out.

Fixpoint fqdnLoop (fuel : nat) (v : bytes) (flags : Z) (off : nat) (labels : list gostring) : wire ClientFQDN :=
  match fuel with
  | O => Hang
  | S fuel =>
    if (off <? length v)%nat then
      n ← idx v off;
      let k := Z.to_nat n in
      if n =? 0 then
        if negb (off + 1 =? length v)%nat then Err ErrV6Name
        else Ok (mkClientFQDN flags (joinDots labels ++ [dot]))
      else if Z.land n 0xC0 =? 0xC0 then Err ErrV6Name
      else if negb (Z.land n 0xC0 =? 0) then Err ErrV6Name
      else if (length v <? off + 1 + k)%nat then Err ErrV6Name else
      l ← slice v (off + 1) (off + 1 + k);
      if existsb (fun c => c =? dot) l then Err ErrV6Name else
      fqdnLoop fuel v flags (off + 1 + k) (labels ++ [l])
    else Ok (mkClientFQDN flags (joinDots labels))
  end.

Definition DecodeClientFQDN (v : bytes) : wire ClientFQDN :=
  if (length v <? 1)%nat then Err ErrV6BadOption else
  flags ← idx v 0;
  fqdnLoop (S (length v)) v flags 1 [].

Definition OptionsV6_ClientFQDN (o : OptionsV6) : option (wire ClientFQDN) :=
  match First o OptV6ClientFQDN with None => None | Some v => Some (DecodeClientFQDN v) end.

(** ** Vendor options and time servers *)

Fixpoint vendor6Loop (vs : list bytes) (out : list VendorData) : wire (list VendorData) :=
  match vs with
  | [] => Ok out
  | v :: vs =>
    if (length v <? 4)%nat then Err ErrV6Vendor else
    e ← (s ← slice v 0 4; ube32 s);
    d ← slice v 4 (length v);
    vendor6Loop vs (out ++ [mkVendorData e d])
  end.

Definition VendorOpts (o : OptionsV6) : wire (list VendorData) := vendor6Loop (All o OptV6VendorOpts) [].

Definition ntpSubSrvAddr : Z := 1.
Definition ntpSubMCAddr : Z := 2.
Definition ntpSubSrvFQDN : Z := 3.

Record NTPServer := mkNTPServer { NTPAddr : Addr; Multicast : bool; NTPFQDN : gostring }.

#[global] Instance eta_NTPServer : Settable NTPServer := fun r => mkNTPServer (NTPAddr r) (Multicast r) (NTPFQDN r).

(** The loop of [readNTPServer]; an error of a name inside it is reported, like
    its own, under [ErrMalformedNTP]. *)
Fixpoint ntpLoop (fuel : nat) (v : bytes) (i : nat) (rec : NTPServer) (seen : Z) : wire (NTPServer * bool) :=
  match fuel with
  | O => Hang
  | S fuel =>
    if (i <? length v)%nat then
      if (length v - i <? 4)%nat then Err ErrMalformedNTP else
      c0 ← idx v i; c1 ← idx v (i + 1); n0 ← idx v (i + 2); n1 ← idx v (i + 3);
      let code := Z.lor (Z.shiftl c0 8) c1 in
      let n := Z.to_nat (Z.lor (Z.shiftl n0 8) n1) in
      if (length v - i - 4 <? n)%nat then Err ErrMalformedNTP else
      body ← slice v (i + 4) (i + 4 + n);
      let i := (i + 4 + n)%nat in
      if (code =? ntpSubSrvAddr) || (code =? ntpSubMCAddr) then
        if negb (n =? 16)%nat then Err ErrMalformedNTP else
        ntpLoop fuel v i (rec <| NTPAddr := AddrFrom16 body |> <| Multicast := code =? ntpSubMCAddr |>) (seen + 1)
      else if code =? ntpSubSrvFQDN then
        match readNameUncompressed body 0 with
        | Ok (name, next) =>
          if bytes_eqb name [] || negb (next =? n)%nat then Err ErrMalformedNTP else
          ntpLoop fuel v i (rec <| NTPFQDN := name |>) (seen + 1)
        | Err _ => Err ErrMalformedNTP
        | Panic => Panic
        | Hang => Hang
        end
      else ntpLoop fuel v i rec seen
    else if 1 <? seen then Err ErrMalformedNTP
    else Ok (rec, seen =? 1)
  end.

Definition readNTPServer (v : bytes) : wire (NTPServer * bool) :=
  ntpLoop (S (length v)) v 0 (mkNTPServer AddrZero false []) 0.

Fixpoint ntpServersLoop (vs : list bytes) (out : list NTPServer) : wire (list NTPServer) :=
  match vs with
  | [] => Ok out
  | v :: vs => '(rec, ok) ← readNTPServer v; ntpServersLoop vs (if ok : bool then out ++ [rec] else out)
  end.

Definition NTPServers (o : OptionsV6) : wire (list NTPServer) := ntpServersLoop (All o OptV6NTPServer) [].

(** ** DUIDs *)

Definition DUIDTypeLL : Z := 3.
Definition DUIDTypeUUID : Z := 4.
Definition UUIDLen : nat := 16.

Definition DUIDLL (hwType : Z) (lladdr : bytes) : wire bytes :=
  if (length lladdr =? 0)%nat then Err ErrDUID else
  Ok (be16 DUIDTypeLL ++ be16 hwType ++ lladdr).

Definition DUIDUUID (uuid : bytes) : wire bytes :=
  if negb (length uuid =? UUIDLen)%nat then Err ErrDUID else
  Ok (be16 DUIDTypeUUID ++ uuid).

Definition PortV6Client : Z := 546.
Definition PortV6Server : Z := 547.

(** netip.MustParseAddr("ff02::1:2") *)
Definition AllDHCPRelayAgentsAndServers : Addr := Addr6 (Z.lor (Z.shiftl 0xff02 112) 0x10002) [].

(** ** The option area is a list of options, exactly *)

Definition wireOption (opt : OptionV6) : bytes :=
  be16 (OCode opt) ++ be16 (Z.of_nat (length (OData opt))) ++ OData opt.

Definition wireOptions (o : OptionsV6) : bytes := concat (map wireOption o).

Lemma All_app a b c : All (a ++ b) c = All a c ++ All b c.
Proof. induction a as [|o a IH]; cbn; [done|]. destruct (OCode o =? c); cbn; by rewrite IH. Qed.

Lemma wireOptions_app o1 o2 : wireOptions (o1 ++ o2) = wireOptions o1 ++ wireOptions o2.
Proof. unfold wireOptions. by rewrite map_app, concat_app. Qed.

(** An option that has a wire form: a 16-bit code and a value of octets that
    fits its length field. *)
Definition option_wf (opt : OptionV6) : Prop :=
  0 <= OCode opt < 2 ^ 16 /\ are_bytes (OData opt) /\ Z.of_nat (length (OData opt)) < 2 ^ 16.

Lemma encode6Loop_spec o : forall out b,
  encode6Loop o out = Ok b <-> Forall (fun opt => Z.of_nat (length (OData opt)) < 2 ^ 16) o /\ b = out ++ wireOptions o.
Proof.
  induction o as [|opt o IH]; intros out b; cbn [encode6Loop].
  { cbn. rewrite app_nil_r. split; [intros [= ->]; done|intros [_ ->]; done]. }
  rewrite Forall_cons. change (wireOptions (opt :: o)) with (wireOption opt ++ wireOptions o).
  destruct (Z.ltb_spec 65535 (Z.of_nat (length (OData opt)))).
  { split; [done|]. intros [[? _] _]. lia. }
  rewrite IH, u16_id by lia. unfold wireOption. rewrite !app_assoc. split; intros [? ->]; repeat split; (done || lia || naive_solver).
Qed.

(** One option at an offset, read off octets that were written so. *)
Lemma option_written {A} raw i opt rest : option_wf opt -> drop i raw = wireOption opt ++ rest ->
  (i + 4 + length (OData opt) <= length raw)%nat /\
  (forall f : Z -> Z -> wire A,
    (c ← slice raw i (i + 2); code ← ube16 c; l ← slice raw (i + 2) (i + 4); n ← ube16 l; f code n)
    = f (OCode opt) (Z.of_nat (length (OData opt)))) /\
  slice (E := WireErr) raw (i + 4) (i + 4 + length (OData opt)) = Ok (OData opt) /\
  drop (i + 4 + length (OData opt)) raw = rest.
Proof.
  intros (Hc & Hb & Hn) Hd. apply (f_equal length) in Hd as Hlen. unfold wireOption in *.
  rewrite length_drop, !length_app in Hlen. cbn [be16 length] in Hlen.
  assert (Hd2 : drop (i + 4) raw = OData opt ++ rest) by (rewrite <- drop_drop, Hd, <- !app_assoc; done).
  split; [lia|]. rewrite !slice_ok by lia. cbn [mbind outcome_bind].
  replace (i + 2 - i)%nat with 2%nat by lia. replace (i + 4 - (i + 2))%nat with 2%nat by lia.
  replace (drop (i + 2) raw) with (drop 2 (drop i raw)) by (by rewrite drop_drop).
  replace (take 2 (drop i raw)) with (be16 (OCode opt)) by (by rewrite Hd).
  replace (take 2 (drop 2 (drop i raw))) with (be16 (Z.of_nat (length (OData opt)))) by (by rewrite Hd).
  split; [intros f; cbn [mbind outcome_bind]; by rewrite !ube16_be16' by lia|]. replace (i + 4 + length (OData opt) - (i + 4))%nat with (length (OData opt)) by lia.
  rewrite Hd2, take_app_length. split; [done|]. rewrite <- drop_drop, Hd2. apply drop_app_length.
Qed.

(** The option header at an offset, and the option it announces when the value
    is there. *)
Lemma option_read {A} raw i : are_bytes raw -> (4 <= length raw - i)%nat ->
  exists code n, (forall f : Z -> Z -> wire A,
      (c ← slice raw i (i + 2); code ← ube16 c; l ← slice raw (i + 2) (i + 4); n ← ube16 l; f code n) = f code n)
    /\ ((Z.to_nat n <= length raw - (i + 4))%nat -> let opt := mkOptionV6 code (take (Z.to_nat n) (drop (i + 4) raw)) in
        slice (E := WireErr) raw (i + 4) (i + 4 + Z.to_nat n) = Ok (OData opt) /\
        option_wf opt /\ drop i raw = wireOption opt ++ drop (i + 4 + Z.to_nat n) raw).
Proof.
  intros Hb H4. rewrite !slice_ok by lia. cbn [mbind outcome_bind].
  replace (i + 2 - i)%nat with 2%nat in * by lia. replace (i + 4 - (i + 2))%nat with 2%nat in * by lia.
  destruct (@ube16_returns WireErr (take 2 (drop i raw))) as [code Hc]; [rewrite length_take, length_drop; lia|].
  destruct (@ube16_returns WireErr (take 2 (drop (i + 2) raw))) as [n Hn]; [rewrite length_take, length_drop; lia|].
  exists code, n. split; [intros f; rewrite Hc; cbn [mbind outcome_bind]; by rewrite Hn|].
  apply be16_ube16 in Hc as [Hc Hcr]; [|by apply are_bytes_take, are_bytes_drop|rewrite length_take, length_drop; lia].
  apply be16_ube16 in Hn as [Hn Hnr]; [|by apply are_bytes_take, are_bytes_drop|rewrite length_take, length_drop; lia].
  intros Hl. cbv zeta. rewrite slice_ok by lia.
  replace (i + 4 + Z.to_nat n - (i + 4))%nat with (Z.to_nat n) by lia. split; [done|].
  set (d := take (Z.to_nat n) (drop (i + 4) raw)).
  assert (Hd : Z.of_nat (length d) = n) by (unfold d; rewrite length_take, length_drop; lia).
  unfold option_wf, wireOption. cbn [OCode OData]. rewrite Hd, Hc, Hn. split.
  { split; [done|]. split; [by apply are_bytes_take, are_bytes_drop|lia]. }
  rewrite <- (take_drop 2 (drop i raw)) at 1. rewrite <- (take_drop 2 (drop 2 (drop i raw))) at 1.
  rewrite <- (take_drop (Z.to_nat n) (drop 2 (drop 2 (drop i raw)))) at 1.
  rewrite !drop_drop. unfold d. rewrite <- !app_assoc. by replace (i + 2 + 2)%nat with (i + 4)%nat by lia.
Qed.

Lemma parse6Loop_reads o : forall fuel b i out, Forall option_wf o -> drop i b = wireOptions o ->
  (length b - i < fuel)%nat -> parse6Loop fuel b i out = Ok (out ++ o).
Proof.
  induction o as [|opt o IH]; intros fuel b i out Hw Hd Hf; (destruct fuel as [|fuel]; [lia|]); cbn [parse6Loop].
  { apply (f_equal length) in Hd. rewrite length_drop in Hd. cbn in Hd.
    rewrite (proj2 (Nat.ltb_ge _ _)) by lia. by rewrite app_nil_r. }
  apply Forall_cons in Hw as [Hwo Hw].
  change (wireOptions (opt :: o)) with (wireOption opt ++ wireOptions o) in Hd.
  destruct (option_written (A := OptionsV6) b i opt _ Hwo Hd) as (Hlen & E & Es & Hr).
  rewrite (proj2 (Nat.ltb_lt _ _)), (proj2 (Nat.ltb_ge _ _)), E by lia. cbv beta zeta.
  rewrite Nat2Z.id, (proj2 (Nat.ltb_ge _ _)), Es by lia. cbn [mbind outcome_bind].
  rewrite IH by (done || lia). rewrite <- app_assoc. by destruct opt.
Qed.

Lemma parse6Loop_inv fuel : forall b i out o', are_bytes b -> parse6Loop fuel b i out = Ok o' ->
  exists o, o' = out ++ o /\ drop i b = wireOptions o /\ Forall option_wf o.
Proof.
  induction fuel as [|fuel IH]; intros b i out o' Hb H; [done|]. cbn [parse6Loop] in H.
  destruct (Nat.ltb_spec i (length b)) as [Hi|Hi].
  2:{ injection H as <-. exists []. rewrite app_nil_r, drop_ge by done. done. }
  destruct (Nat.ltb_spec (length b - i) 4); [done|].
  destruct (option_read (A := OptionsV6) b i) as (code & n & E & Ho); [done|lia|].
  rewrite E in H. cbv beta zeta in H.
  destruct (Nat.ltb_spec (length b - (i + 4)) (Z.to_nat n)); [done|].
  destruct Ho as (Es & Hwo & Hd); [lia|]. rewrite Es in H. cbn [mbind outcome_bind OData] in H.
  apply IH in H as (o & -> & Hd' & Hw); [|done].
  eexists (_ :: o). split; [by rewrite <- app_assoc|]. split; [|by constructor].
  rewrite Hd, Hd'. done.
Qed.

(** The reader and the writer of option areas are inverse to one another. *)
Lemma options_codec b o : are_bytes b ->
  ParseOptionsV6 b = Ok o <-> EncodeOptionsV6 o = Ok b /\ Forall option_wf o.
Proof.
  intros Hb. unfold ParseOptionsV6, EncodeOptionsV6. rewrite encode6Loop_spec. cbn [app]. split.
  - intros (o' & -> & Hd & Hw)%parse6Loop_inv; [|done]. cbn in *. split; [|done]. split; [|done].
    eapply Forall_impl; [exact Hw|]. by intros ? (_ & _ & ?).
  - intros [[_ ->] Hw]. by rewrite (parse6Loop_reads o) by (done || lia).
Qed.

(** ** Messages *)

Definition message6_wf (m : MessageV6) : Prop :=
  ForClient (MType m) = true /\ 0 <= MXID m /\ Forall option_wf (MOptionsV6 m).

Lemma xid_read x1 x2 x3 : are_bytes [x1; x2; x3] ->
  let x := Z.lor (Z.lor (Z.shiftl x1 16) (Z.shiftl x2 8)) x3 in
  0 <= x < MaxXID6 /\ [u8 (Z.shiftr x 16); u8 (Z.shiftr x 8); u8 x] = [x1; x2; x3].
Proof.
  repeat rewrite are_bytes_cons. intros (H1 & H2 & H3 & _). cbv zeta. rewrite <- Z.lor_assoc.
  rewrite (lor_shiftl_add x2), (lor_shiftl_add x1) by lia. change MaxXID6 with (2 ^ 24).
  split; [lia|]. unfold u8. rewrite !Z.shiftr_div_pow2 by lia.
  change (2 ^ 8) with 256. change (2 ^ 16) with 65536. repeat f_equal; lia_mod.
Qed.

Lemma xid_written x : 0 <= x < MaxXID6 ->
  Z.lor (Z.lor (Z.shiftl (u8 (Z.shiftr x 16)) 16) (Z.shiftl (u8 (Z.shiftr x 8)) 8)) (u8 x) = x.
Proof.
  change MaxXID6 with (2 ^ 24). intros Hx. rewrite <- Z.lor_assoc.
  pose proof (u8_range x). pose proof (u8_range (Z.shiftr x 8)). pose proof (u8_range (Z.shiftr x 16)).
  rewrite (lor_shiftl_add (u8 (Z.shiftr x 8))), lor_shiftl_add by lia. unfold u8.
  rewrite !Z.shiftr_div_pow2 by lia. change (2 ^ 8) with 256. change (2 ^ 16) with 65536.
  change (2 ^ 24) with 16777216 in Hx. lia_mod.
Qed.

Lemma ForClient_range t : ForClient t = true -> 1 <= t <= 11.
Proof. unfold ForClient, MsgSolicit, MsgInformationRequest. rewrite andb_true_iff, !Z.leb_le. done. Qed.

Lemma DecodeV6_spec b m : are_bytes b ->
  DecodeV6 b = Ok m <-> EncodeV6 m = Ok b /\ message6_wf m.
Proof.
  intros Hb. unfold DecodeV6, EncodeV6, message6_wf, V6HeaderLen. destruct m as [ty x o]. cbn [MType MXID MOptionsV6].
  split.
  - destruct (Nat.ltb_spec (length b) 4); [done|].
    destruct b as [|t [|x1 [|x2 [|x3 body]]]]; cbn [length] in *; try lia.
    cbn [idx lookup list_lookup mbind outcome_bind]. destruct (ForClient t) eqn:Ht; [|by destruct (_ || _)].
    rewrite (slice_tail (_ :: _ :: _ :: _ :: body) 4) by (cbn; lia). cbn [drop mbind outcome_bind]. rewrite ?drop_0. intros Hd. apply bind_ok_inv in Hd as (opts & Ho & Hd).
    repeat rewrite are_bytes_cons in Hb. destruct Hb as (Hbt & H1 & H2 & H3 & Hb).
    destruct (xid_read x1 x2 x3) as [Hx Hxs]; [do 3 (apply are_bytes_cons; split; [done|]); apply Forall_nil, I|].
    injection Hd as <- <- <-. apply options_codec in Ho as [He Hw]; [|done].
    rewrite (proj2 (Z.leb_gt _ _)), He by lia. cbn [mbind outcome_bind]. split; [|split; [done|split; [lia|done]]].
    injection Hxs as -> -> ->. apply ForClient_range in Ht. rewrite u8_id by lia. done.
  - intros (H & Ht & Hx & Hw). destruct (Z.leb_spec MaxXID6 x); [done|].
    apply bind_ok_inv in H as (body & He & H). injection H as <-. cbn [app] in *.
    pose proof (ForClient_range _ Ht). rewrite u8_id in * by lia.
    repeat rewrite are_bytes_cons in Hb. destruct Hb as (_ & _ & _ & _ & Hb).
    cbn [length Nat.ltb Nat.leb idx lookup list_lookup mbind outcome_bind]. rewrite Ht.
    rewrite (slice_tail (_ :: _ :: _ :: _ :: body) 4) by (cbn; lia). cbn [drop mbind outcome_bind]. rewrite ?drop_0.
    assert (Hp : ParseOptionsV6 body = Ok o) by (by apply options_codec).
    rewrite Hp. cbn [mbind outcome_bind]. by rewrite xid_written by lia.
Qed.

(** C14: the DHCPv6 codec is a bijection.  On octets, [DecodeV6] answers a message
    exactly where [EncodeV6] writes these octets for it and the message is one of
    a client's exchange whose options have a wire form: nothing is lost, nothing
    is accepted that could not have been written, and no two buffers are the
    same message. *)
Theorem DecodeV6_EncodeV6 b m : are_bytes b ->
  DecodeV6 b = Ok m <-> EncodeV6 m = Ok b /\ message6_wf m.
Proof. apply DecodeV6_spec. Qed.

Definition sample_solicit : MessageV6 :=
  mkMessageV6 MsgSolicit 0x123456
    [mkOptionV6 OptV6ClientID [0; 3; 0; 1; 2; 0; 0; 0; 0; 1]; mkOptionV6 OptV6ElapsedTime [0; 0]; RapidCommitOption].

Lemma DecodeV6_EncodeV6_witness : exists b, EncodeV6 sample_solicit = Ok b /\ length b = 28%nat /\
  DecodeV6 b = Ok sample_solicit.
Proof.
  eexists. split; [vm_compute; reflexivity|]. split; [reflexivity|].
  apply DecodeV6_EncodeV6; [repeat constructor; done|]. split; [vm_compute; reflexivity|].
  unfold message6_wf, option_wf. split; [reflexivity|]. split; [done|]. repeat constructor; cbn; done || lia.
Defined.

(** ** Identity associations *)

Definition u32_wf (z : Z) : Prop := 0 <= z < 2 ^ 32.

(** A 32-bit field that was read from a buffer of octets. *)
Lemma read32_inv {A} (v : bytes) i j (f : Z -> wire A) r : (s ← slice v i j; x ← ube32 s; f x) = Ok r ->
  are_bytes v -> j = (i + 4)%nat -> exists x, f x = Ok r /\ u32_wf x /\ be32 x = take 4 (drop i v).
Proof.
  intros H Hv ->. apply bind_ok_inv in H as (s & Hs & H). pose proof (slice_length _ _ _ _ Hs) as Hl.
  apply slice_inv in Hs as (_ & _ & ->). replace (i + 4 - i)%nat with 4%nat in * by lia.
  apply bind_ok_inv in H as (x & Hx & H). exists x. split; [done|].
  apply be32_ube32 in Hx as [? ?]; [done|by apply are_bytes_take, are_bytes_drop|done].
Qed.

(** A buffer cut at its fields. *)
Lemma cut (v : bytes) n m : drop n v = take m (drop n v) ++ drop (n + m) v.
Proof. by rewrite <- drop_drop, take_drop. Qed.

Lemma cut2 (v : bytes) : take 4 (drop 0 v) ++ drop 4 v = v.
Proof. apply take_drop. Qed.
Lemma cut3 (v : bytes) : take 4 (drop 0 v) ++ take 4 (drop 4 v) ++ take 4 (drop 8 v) ++ drop 12 v = v.
Proof. pose proof (cut v 8 4) as H8. pose proof (cut v 4 4) as H4. cbn [Nat.add] in *. by rewrite <- H8, <- H4, cut2. Qed.

(** The fields of a fixed header that was written. *)
Lemma written3 a b c body : let v := be32 a ++ be32 b ++ be32 c ++ body in
  (length v <? 12)%nat = false /\ @slice WireErr v 12 (length v) = Ok body /\
  @slice WireErr v 0 4 = Ok (be32 a) /\ @slice WireErr v 4 8 = Ok (be32 b) /\ @slice WireErr v 8 12 = Ok (be32 c).
Proof.
  intros v. split; [done|]. split; [rewrite slice_tail by (unfold v; rewrite !length_app; cbn; lia); done|]. done.
Qed.

Definition iana_wf (ia : IANA) : Prop :=
  u32_wf (naIAID ia) /\ u32_wf (naT1 ia) /\ u32_wf (naT2 ia) /\ Forall option_wf (naOptions ia).
Definition iata_wf (ia : IATA) : Prop := u32_wf (taIAID ia) /\ Forall option_wf (taOptions ia).
Definition iapd_wf (ia : IAPD) : Prop :=
  u32_wf (pdIAID ia) /\ u32_wf (pdT1 ia) /\ u32_wf (pdT2 ia) /\ Forall option_wf (pdOptions ia).
Definition iaaddr_wf (a : IAAddr) : Prop :=
  (exists v, iaAddr a = Addr6 v [] /\ 0 <= v < 2 ^ 128) /\
  u32_wf (iaPreferredLifetime a) /\ u32_wf (iaValidLifetime a) /\ Forall option_wf (iaOptions a).
Definition iaprefix_wf (p : IAPrefix) : Prop :=
  (exists v n, pxPrefix p = PrefixOf (Addr6 v []) n /\ 0 <= v < 2 ^ 128 /\ 0 <= n <= 128) /\
  u32_wf (pxPreferredLifetime p) /\ u32_wf (pxValidLifetime p) /\ Forall option_wf (pxOptions p).

Lemma IANA_codec v ia : are_bytes v -> DecodeIANA v = Ok ia <-> EncodeIANA ia = Ok v /\ iana_wf ia.
Proof.
  intros Hb. unfold DecodeIANA, EncodeIANA, IANAFixedLen. split.
  - destruct (Nat.ltb_spec (length v) 12) as [|Hl]; [done|]. rewrite slice_tail by lia. cbn [mbind outcome_bind].
    intros H. apply bind_ok_inv in H as (o & Ho & H).
    apply options_codec in Ho as [He Hw]; [|by apply are_bytes_drop].
    apply read32_inv in H as (i & H & Hi & Bi); [|done..].
    apply read32_inv in H as (t1 & H & Ht1 & B1); [|done..].
    apply read32_inv in H as (t2 & H & Ht2 & B2); [|done..].
    injection H as <-. cbn [naOptions naIAID naT1 naT2]. rewrite He. cbn [mbind outcome_bind].
    split; [|done]. f_equal. rewrite Bi, B1, B2. apply cut3.
  - intros [H (Hi & Ht1 & Ht2 & Hw)]. apply bind_ok_inv in H as (body & He & H). apply ok_inj in H as <-.
    assert (Hp : ParseOptionsV6 body = Ok (naOptions ia)).
    { rewrite !are_bytes_app in Hb. apply options_codec; [apply Hb|done]. }
    destruct (written3 (naIAID ia) (naT1 ia) (naT2 ia) body) as (-> & -> & -> & -> & ->).
    cbn [mbind outcome_bind]. rewrite Hp. cbn [mbind outcome_bind].
    rewrite (ube32_be32' (naIAID ia)), (ube32_be32' (naT1 ia)), (ube32_be32' (naT2 ia)) by done.
    by destruct ia.
Qed.

Lemma IAPD_codec v ia : are_bytes v -> DecodeIAPD v = Ok ia <-> EncodeIAPD ia = Ok v /\ iapd_wf ia.
Proof.
  intros Hb. unfold DecodeIAPD, EncodeIAPD, IAPDFixedLen. split.
  - destruct (Nat.ltb_spec (length v) 12) as [|Hl]; [done|]. rewrite slice_tail by lia. cbn [mbind outcome_bind].
    intros H. apply bind_ok_inv in H as (o & Ho & H).
    apply options_codec in Ho as [He Hw]; [|by apply are_bytes_drop].
    apply read32_inv in H as (i & H & Hi & Bi); [|done..].
    apply read32_inv in H as (t1 & H & Ht1 & B1); [|done..].
    apply read32_inv in H as (t2 & H & Ht2 & B2); [|done..].
    injection H as <-. cbn [pdOptions pdIAID pdT1 pdT2]. rewrite He. cbn [mbind outcome_bind].
    split; [|done]. f_equal. rewrite Bi, B1, B2. apply cut3.
  - intros [H (Hi & Ht1 & Ht2 & Hw)]. apply bind_ok_inv in H as (body & He & H). apply ok_inj in H as <-.
    assert (Hp : ParseOptionsV6 body = Ok (pdOptions ia)).
    { rewrite !are_bytes_app in Hb. apply options_codec; [apply Hb|done]. }
    destruct (written3 (pdIAID ia) (pdT1 ia) (pdT2 ia) body) as (-> & -> & -> & -> & ->).
    cbn [mbind outcome_bind]. rewrite Hp. cbn [mbind outcome_bind].
    rewrite (ube32_be32' (pdIAID ia)), (ube32_be32' (pdT1 ia)), (ube32_be32' (pdT2 ia)) by done.
    by destruct ia.
Qed.

Lemma IATA_codec v ia : are_bytes v -> DecodeIATA v = Ok ia <-> EncodeIATA ia = Ok v /\ iata_wf ia.
Proof.
  intros Hb. unfold DecodeIATA, EncodeIATA, IATAFixedLen. split.
  - destruct (Nat.ltb_spec (length v) 4) as [|Hl]; [done|]. rewrite slice_tail by lia. cbn [mbind outcome_bind].
    intros H. apply bind_ok_inv in H as (o & Ho & H).
    apply options_codec in Ho as [He Hw]; [|by apply are_bytes_drop].
    apply read32_inv in H as (i & H & Hi & Bi); [|done..].
    injection H as <-. cbn [taOptions taIAID]. rewrite He. cbn [mbind outcome_bind].
    split; [|done]. f_equal. rewrite Bi. apply cut2.
  - intros [H (Hi & Hw)]. apply bind_ok_inv in H as (body & He & H). apply ok_inj in H as <-.
    assert (Hp : ParseOptionsV6 body = Ok (taOptions ia)).
    { rewrite !are_bytes_app in Hb. apply options_codec; [apply Hb|done]. }
    rewrite (slice_tail _ 4) by (rewrite length_app; cbn; lia).
    change (length (be32 (taIAID ia) ++ body) <? 4)%nat with false. cbv iota.
    change (drop 4 (be32 (taIAID ia) ++ body)) with body.
    change (@slice WireErr (be32 (taIAID ia) ++ body) 0 4) with (@Ok WireErr bytes (be32 (taIAID ia))).
    cbn [mbind outcome_bind]. rewrite Hp. cbn [mbind outcome_bind]. rewrite ube32_be32' by done. by destruct ia.
Qed.

Lemma As16_bytes v z : are_bytes (As16 (Addr6 v z)).
Proof. apply toBE_bytes. Qed.

Lemma cut_addr (v : bytes) : take 16 v ++ take 4 (drop 16 v) ++ take 4 (drop 20 v) ++ drop 24 v = v.
Proof. pose proof (cut v 20 4) as H8. pose proof (cut v 16 4) as H4. cbn [Nat.add] in *. by rewrite <- H8, <- H4, take_drop. Qed.

Lemma cut_prefix (v : bytes) n : drop 8 v = n :: drop 9 v ->
  take 4 (drop 0 v) ++ take 4 (drop 4 v) ++ [n] ++ take 16 (drop 9 v) ++ drop 25 v = v.
Proof.
  intros Hn. pose proof (cut v 9 16) as H9. pose proof (cut v 4 4) as H4. cbn [Nat.add] in *.
  cbn [app]. by rewrite <- H9, <- Hn, <- H4, cut2.
Qed.

Lemma written_addr x z p l body : let v := As16 (Addr6 x z) ++ be32 p ++ be32 l ++ body in
  (length v <? 24)%nat = false /\ @slice WireErr v 24 (length v) = Ok body /\
  @slice WireErr v 0 16 = Ok (toBE 16 x) /\ @slice WireErr v 16 20 = Ok (be32 p) /\ @slice WireErr v 20 24 = Ok (be32 l).
Proof.
  intros v. split; [done|]. split; [rewrite slice_tail by (unfold v; rewrite !length_app; cbn; lia); done|]. done.
Qed.

Lemma written_prefix x z n p l body : let v := be32 p ++ be32 l ++ [n] ++ As16 (Addr6 x z) ++ body in
  (length v <? 25)%nat = false /\ @slice WireErr v 25 (length v) = Ok body /\ @idx WireErr v 8 = Ok n /\
  @slice WireErr v 9 25 = Ok (toBE 16 x) /\ @slice WireErr v 0 4 = Ok (be32 p) /\ @slice WireErr v 4 8 = Ok (be32 l).
Proof.
  intros v. split; [done|]. split; [rewrite slice_tail by (unfold v; rewrite !length_app; cbn; lia); done|]. done.
Qed.

(** A sixteen-octet address in front of a buffer. *)
Lemma addr16_split v : (16 <= length v)%nat -> are_bytes v ->
  exists x, @slice WireErr v 0 16 = Ok (take 16 v) /\ AddrFrom16 (take 16 v) = Addr6 x [] /\ 0 <= x < 2 ^ 128 /\
    As16 (Addr6 x []) = take 16 v.
Proof.
  intros Hl Hb. assert (Ht : are_bytes (take 16 v)) by (by apply are_bytes_take).
  assert (Hlt : length (take 16 v) = 16%nat) by (rewrite length_take; lia).
  exists (fromBE (take 16 v)). rewrite slice_ok by lia. cbn [Nat.sub]. rewrite drop_0. split; [done|].
  split; [done|]. split; [|by apply (As16_AddrFrom16 (take 16 v))].
  pose proof (fromBE_range _ Ht) as Hr. by rewrite Hlt in Hr.
Qed.

Lemma IAAddr_codec v a : are_bytes v ->
  DecodeIAAddr v = Ok a /\ Is4In6 (iaAddr a) = false <-> EncodeIAAddr a = Ok v /\ iaaddr_wf a.
Proof.
  intros Hb. unfold DecodeIAAddr, EncodeIAAddr, IAAddrFixedLen. split.
  - destruct (Nat.ltb_spec (length v) 24) as [|Hl]; [by intros []|]. rewrite slice_tail by lia. cbn [mbind outcome_bind].
    intros [H H4]. apply bind_ok_inv in H as (o & Ho & H).
    apply options_codec in Ho as [He Hw]; [|by apply are_bytes_drop].
    destruct (addr16_split v) as (x & Hs & Hx & Hr & Ha); [lia|done|]. rewrite Hs in H. cbn [mbind outcome_bind] in H.
    apply read32_inv in H as (p & H & Hp & Bp); [|done..].
    apply read32_inv in H as (l & H & Hl' & Bl); [|done..].
    injection H as <-. cbn [iaAddr iaOptions iaPreferredLifetime iaValidLifetime] in *. rewrite Hx in *.
    rewrite H4, He. cbn [Is6 negb orb mbind outcome_bind].
    split; [|unfold iaaddr_wf; cbn; eauto 10]. f_equal. rewrite Ha, Bp, Bl. apply cut_addr.
  - intros [H ((x & Hx & Hr) & Hp & Hl & Hw)]. rewrite Hx in *. cbn [Is6 negb orb] in H.
    destruct (Is4In6 (Addr6 x [])); [done|].
    apply bind_ok_inv in H as (body & He & H). apply ok_inj in H as <-. split; [|done].
    assert (Hpo : ParseOptionsV6 body = Ok (iaOptions a)).
    { rewrite !are_bytes_app in Hb. apply options_codec; [apply Hb|done]. }
    destruct (written_addr x [] (iaPreferredLifetime a) (iaValidLifetime a) body) as (-> & -> & -> & -> & ->).
    cbn [mbind outcome_bind]. rewrite Hpo. cbn [mbind outcome_bind].
    rewrite (ube32_be32' (iaPreferredLifetime a)), (ube32_be32' (iaValidLifetime a)), AddrFrom16_As16 by done.
    rewrite <- Hx. by destruct a.
Qed.

Lemma IAPrefix_codec v p : are_bytes v ->
  DecodeIAPrefix v = Ok p /\ Is4In6 (paddr (pxPrefix p)) = false <-> EncodeIAPrefix p = Ok v /\ iaprefix_wf p.
Proof.
  intros Hb. unfold DecodeIAPrefix, EncodeIAPrefix, IAPrefixFixedLen. split.
  - destruct (Nat.ltb_spec (length v) 25) as [|Hl]; [by intros []|].
    destruct (drop_cons_inv v 8) as [n Hn]; [lia|]. rewrite (idx_drop _ _ _ _ Hn). cbn [mbind outcome_bind].
    destruct (Z.ltb_spec 128 n) as [|H128]; [by intros []|]. rewrite slice_tail by lia. cbn [mbind outcome_bind].
    intros [H H4]. apply bind_ok_inv in H as (o & Ho & H).
    apply options_codec in Ho as [He Hw]; [|by apply are_bytes_drop].
    apply read32_inv in H as (pl & H & Hp & Bp); [|done..].
    apply read32_inv in H as (l & H & Hl' & Bl); [|done..].
    destruct (addr16_split (drop 9 v)) as (x & _ & Hx & Hr & Ha); [rewrite length_drop; lia|by apply are_bytes_drop|].
    rewrite slice_ok in H by lia. cbn [mbind outcome_bind Nat.sub] in H. rewrite Hx in H.
    assert (0 <= n < 256).
    { apply (are_bytes_drop 8) in Hb. rewrite Hn in Hb. by apply are_bytes_cons in Hb as [? _]. }
    injection H as <-. cbn [pxPrefix pxOptions pxPreferredLifetime pxValidLifetime] in *.
    unfold PrefixFrom, PrefixIsValid in *. cbn [WithoutZone paddr pbits BitLen IsValid] in *.
    rewrite (proj2 (Z.leb_le 0 n)), (proj2 (Z.leb_le n 128)) by lia. cbn [andb].
    rewrite (proj2 (Z.leb_le 0 n)), H4, He, u8_id, Ha, Bp, Bl by lia. cbn [Is6 negb orb mbind outcome_bind].
    split; [f_equal; by apply cut_prefix|]. unfold iaprefix_wf. cbn. split; [|done]. exists x, n. split; [done|]. split; [done|lia].
  - intros [H ((x & n & Hx & Hr & Hn) & Hp & Hl & Hw)]. rewrite Hx in *. cbn [paddr pbits PrefixIsValid] in *.
    unfold PrefixIsValid in H. cbn [pbits] in H. rewrite (proj2 (Z.leb_le 0 n)) in H by lia. cbn [Is6 negb orb] in H.
    destruct (Is4In6 (Addr6 x [])); [done|].
    apply bind_ok_inv in H as (body & He & H). apply ok_inj in H as <-. split; [|done].
    assert (Hpo : ParseOptionsV6 body = Ok (pxOptions p)).
    { rewrite !are_bytes_app in Hb. apply options_codec; [apply Hb|done]. }
    rewrite u8_id by lia.
    destruct (written_prefix x [] n (pxPreferredLifetime p) (pxValidLifetime p) body)
      as (-> & -> & -> & -> & -> & ->).
    cbn [mbind outcome_bind]. rewrite (proj2 (Z.ltb_ge _ _)), Hpo by lia. cbn [mbind outcome_bind].
    rewrite (ube32_be32' (pxPreferredLifetime p)), (ube32_be32' (pxValidLifetime p)), AddrFrom16_As16 by done.
    cbn [mbind outcome_bind]. unfold PrefixFrom. cbn [WithoutZone BitLen IsValid andb].
    rewrite (proj2 (Z.leb_le 0 n)), (proj2 (Z.leb_le n 128)) by lia. cbn [andb].
    rewrite <- Hx. by destruct p.
Qed.

(** The identity associations nest without loss.  On octets, each decoder of
    an IA_NA, an IA_TA, an IA_PD, an IA Address and an IA Prefix answers a value
    exactly where the encoder writes these octets for it and the value has a wire
    form; only the two that hold an address also answer IPv4-mapped ones, which
    their encoders refuse. *)
Theorem ia_codecs v : are_bytes v ->
  (forall ia, DecodeIANA v = Ok ia <-> EncodeIANA ia = Ok v /\ iana_wf ia) /\
  (forall ia, DecodeIATA v = Ok ia <-> EncodeIATA ia = Ok v /\ iata_wf ia) /\
  (forall ia, DecodeIAPD v = Ok ia <-> EncodeIAPD ia = Ok v /\ iapd_wf ia) /\
  (forall a, DecodeIAAddr v = Ok a /\ Is4In6 (iaAddr a) = false <-> EncodeIAAddr a = Ok v /\ iaaddr_wf a) /\
  (forall p, DecodeIAPrefix v = Ok p /\ Is4In6 (paddr (pxPrefix p)) = false <->
     EncodeIAPrefix p = Ok v /\ iaprefix_wf p).
Proof.
  intros Hb. split; [|split; [|split; [|split]]]; intros x.
  - by apply IANA_codec.
  - by apply IATA_codec.
  - by apply IAPD_codec.
  - by apply IAAddr_codec.
  - by apply IAPrefix_codec.
Qed.

Lemma ia_codecs_witness : let a := mkIAAddr (Addr6 1 []) 3600 7200 [] in
  exists v, EncodeIAAddr a = Ok v /\ DecodeIAAddr v = Ok a.
Proof.
  intros a. exists (As16 (Addr6 1 []) ++ be32 3600 ++ be32 7200 ++ []). split; [reflexivity|].
  apply (ia_codecs (As16 (Addr6 1 []) ++ be32 3600 ++ be32 7200 ++ [])); [repeat constructor; done|].
  split; [reflexivity|]. split; [exists 1; done|]. repeat split; done || constructor.
Defined.

(** ** The readers end *)

Lemma parse6Loop_returns fuel : forall b i out, (length b - i < fuel)%nat -> returns (parse6Loop fuel b i out).
Proof.
  induction fuel as [|fuel IH]; intros b i out Hf; [lia|]. cbn [parse6Loop].
  destruct (Nat.ltb_spec i (length b)); [|done]. destruct (Nat.ltb_spec (length b - i) 4); [done|].
  apply returns_slice_bind; [lia..|]. intros c Hc. apply returns_bind; [apply returns_ube16; lia|intros code _].
  apply returns_slice_bind; [lia..|]. intros l Hl. apply returns_bind; [apply returns_ube16; lia|intros n _].
  destruct (Nat.ltb_spec (length b - (i + 4)) (Z.to_nat n)); [done|].
  apply returns_slice_bind; [lia..|]. intros d _. apply IH. lia.
Qed.

Lemma ParseOptionsV6_returns b : returns (ParseOptionsV6 b).
Proof. apply parse6Loop_returns. lia. Qed.

Lemma DecodeV6_returns b : returns (DecodeV6 b).
Proof.
  unfold DecodeV6, V6HeaderLen. destruct (Nat.ltb_spec (length b) 4); [done|].
  apply returns_bind; [apply returns_idx; lia|intros t _]. destruct (ForClient t); [|by destruct (_ || _)].
  apply returns_slice_bind; [lia..|]. intros body _. apply returns_bind; [apply ParseOptionsV6_returns|intros o _].
  do 3 (apply returns_bind; [apply returns_idx; lia|intros ? _]). done.
Qed.

(** ** Names are read back *)

Lemma encodeLabels6_ok labels : forall out b, encodeLabels6 labels out = Ok b ->
  b = out ++ wireLabels labels /\ Forall (fun l => (1 <= length l <= 63)%nat) labels.
Proof.
  induction labels as [|l labels IH]; intros out b H; cbn [encodeLabels6] in H.
  { injection H as <-. by rewrite app_nil_r. }
  destruct (Nat.eqb_spec (length l) 0); [done|]. destruct (Nat.ltb_spec 63 (length l)); [done|].
  apply IH in H as [-> HF]. split; [by rewrite <- app_assoc|]. constructor; [lia|done].
Qed.

(** What one label looks like to the loops of the two readers. *)
Lemma label_at v off (l : gostring) rest : (1 <= length l <= 63)%nat ->
  drop off v = (u8 (Z.of_nat (length l)) :: l) ++ rest ->
  let n := Z.of_nat (length l) in
  (off + 1 + length l <= length v)%nat /\ @idx WireErr v off = Ok n /\ (n =? 0) = false /\
  (Z.land n 0xC0 =? 0xC0) = false /\ (Z.land n 0xC0 =? 0) = true /\ Z.to_nat n = length l /\
  @slice WireErr v (off + 1) (off + 1 + length l) = Ok l /\ drop (off + 1 + length l) v = rest.
Proof.
  intros Hl Hv n. apply (f_equal length) in Hv as Hlen. rewrite length_drop, length_app in Hlen. cbn [length] in Hlen.
  cbn [app] in Hv. rewrite u8_id in Hv by lia.
  assert (Hv1 : drop (off + 1) v = l ++ rest) by (by rewrite <- drop_drop, Hv).
  split; [lia|]. rewrite (idx_drop _ _ _ _ Hv). unfold n. split; [done|]. split; [apply Z.eqb_neq; lia|].
  rewrite land_C0_small by lia. split; [done|]. split; [done|]. split; [lia|]. split.
  - rewrite slice_ok by lia. replace (off + 1 + length l - (off + 1))%nat with (length l) by lia.
    by rewrite Hv1, take_app_length.
  - rewrite <- drop_drop, Hv1. apply drop_app_length.
Qed.

Lemma name6Loop_labels labels : forall fuel v off acc rest,
  Forall (fun l => (1 <= length l <= 63)%nat) labels ->
  drop off v = wireLabels labels ++ 0 :: rest -> (length labels < fuel)%nat ->
  name6Loop fuel v off acc = Ok (joinDots (acc ++ labels), (off + length (wireLabels labels) + 1)%nat).
Proof.
  induction labels as [|l labels IH]; intros fuel v off acc rest HF Hv Hf;
    (destruct fuel as [|fuel]; [cbn in Hf; lia|]); cbn [name6Loop].
  - apply (f_equal length) in Hv as Hlen. rewrite length_drop in Hlen. cbn in Hv, Hlen.
    rewrite (proj2 (Nat.leb_gt _ _)) by lia. rewrite (idx_drop _ _ _ _ Hv).
    cbn. rewrite app_nil_r. do 2 f_equal. lia.
  - apply Forall_cons in HF as [Hl HF].
    change (wireLabels (l :: labels)) with ((u8 (Z.of_nat (length l)) :: l) ++ wireLabels labels) in *.
    rewrite <- app_assoc in Hv. destruct (label_at v off l _ Hl Hv) as (Hb & -> & E0 & E1 & E2 & E3 & Es & Hd).
    rewrite (proj2 (Nat.leb_gt _ _)) by lia. cbn [mbind outcome_bind]. rewrite E0, E1, E2, E3.
    cbn [negb]. rewrite (proj2 (Nat.ltb_ge _ _)), Es by lia. cbn [mbind outcome_bind].
    rewrite (IH _ _ _ _ rest) by (done || (cbn in Hf; lia)). rewrite <- app_assoc, length_app. cbn [app length].
    do 2 f_equal. lia.
Qed.

Lemma wireLabels_length labels : Forall (fun l => (1 <= length l <= 63)%nat) labels ->
  (length labels <= length (wireLabels labels))%nat.
Proof.
  unfold wireLabels. induction 1 as [|l labels ? ? IH]; [done|]. cbn. rewrite length_app. lia.
Qed.

Lemma readName6_written name b pre rest : encodeNameUncompressed name = Ok b ->
  trimDotSuffix name <> [] /\
  readNameUncompressed (pre ++ b ++ rest) (length pre) = Ok (trimDotSuffix name, (length pre + length b)%nat).
Proof.
  unfold encodeNameUncompressed. set (t := trimDotSuffix name).
  destruct (bytes_eqb t []) eqn:Ht; [done|]. intros H. apply bind_ok_inv in H as (out & Hout & H).
  apply encodeLabels6_ok in Hout as [-> HF]. cbn [app] in H. destruct (_ <? _)%nat; [done|]. injection H as <-.
  split. { intros E. rewrite E in Ht. done. }
  pose proof (wireLabels_length _ HF). unfold readNameUncompressed.
  rewrite (name6Loop_labels _ _ _ _ _ rest HF).
  - cbn [app]. rewrite joinDots_splitDots, length_app. cbn. do 2 f_equal. lia.
  - rewrite drop_app_length, <- app_assoc. done.
  - rewrite !length_app. cbn. lia.
Qed.

Lemma encodeName_length name e : encodeNameUncompressed name = Ok e -> (0 < length e)%nat.
Proof.
  unfold encodeNameUncompressed. intros He. destruct (bytes_eqb _ _); [done|]. apply bind_ok_inv in He as (o & _ & He).
  destruct (_ <? _)%nat; [done|]. injection He as <-. rewrite length_app. cbn. lia.
Qed.

Lemma encodeSearch_ok names : forall out b, encodeSearch names out = Ok b ->
  exists encs, b = out ++ concat encs /\ Forall2 (fun n e => encodeNameUncompressed n = Ok e) names encs.
Proof.
  induction names as [|n names IH]; intros out b; cbn [encodeSearch].
  { intros [= <-]. exists []. rewrite app_nil_r. split; [done|constructor]. }
  intros H. apply bind_ok_inv in H as (enc & He & H). apply IH in H as (encs & -> & HF).
  exists (enc :: encs). split; [by rewrite <- app_assoc|by constructor].
Qed.

Lemma search6Loop_written names encs : Forall2 (fun n e => encodeNameUncompressed n = Ok e) names encs ->
  forall pre fuel out, (length (concat encs) < fuel)%nat ->
  search6Loop fuel (pre ++ concat encs) (length pre) out = Ok (out ++ map trimDotSuffix names).
Proof.
  induction 1 as [|n e names encs He _ IH]; intros pre fuel out Hf; (destruct fuel as [|fuel]; [lia|]);
    cbn [search6Loop concat map]; cbn [concat] in Hf.
  { rewrite !app_nil_r, Nat.ltb_irrefl. done. }
  destruct (readName6_written n e pre (concat encs) He) as [Hn ->].
  pose proof (encodeName_length _ _ He) as Hle.
  rewrite length_app in Hf. rewrite (proj2 (Nat.ltb_lt _ _)) by (rewrite !length_app; lia).
  cbn [mbind outcome_bind]. rewrite <- length_app, app_assoc.
  destruct (bytes_eqb (trimDotSuffix n) []) eqn:Eb; [by apply bytes_eqb_eq in Eb|].
  rewrite IH by lia. by rewrite <- app_assoc.
Qed.

(** The search list survives the wire.  What [EncodeDomainSearch] writes is
    read back by [DomainSearch] as the same names in the same order, each without
    its trailing dot; an empty name has no wire form. *)
Theorem DomainSearchV6_Encode names v : EncodeDomainSearch names = Ok v ->
  DomainSearchV6 [mkOptionV6 OptV6DomainList v] = Ok (map trimDotSuffix names) /\
  Forall (fun n => trimDotSuffix n <> []) names.
Proof.
  intros (encs & -> & HF)%encodeSearch_ok. cbn [app]. split.
  - unfold DomainSearchV6. cbn [All OCode OData]. change (OptV6DomainList =? OptV6DomainList) with true. cbn [domainSearchLoop].
    by rewrite (search6Loop_written names encs HF [] _ []) by lia.
  - induction HF as [|n e names encs He _ IH]; constructor; [|done].
    by destruct (readName6_written n e [] [] He) as [? _].
Qed.

Lemma DomainSearchV6_Encode_witness :
  let names := [ascii_bytes "lab.example."; ascii_bytes "example"] in
  exists v, EncodeDomainSearch names = Ok v /\
    DomainSearchV6 [mkOptionV6 OptV6DomainList v] = Ok [ascii_bytes "lab.example"; ascii_bytes "example"].
Proof.
  intros names. eexists. split; [vm_compute; reflexivity|].
  apply (DomainSearchV6_Encode names). vm_compute. reflexivity.
Defined.

Lemma splitDots_nodot s : Forall (fun l => existsb (fun c => c =? dot) l = false) (splitDots s).
Proof.
  induction s as [|c s IH]; cbn [splitDots]; [by repeat constructor|].
  destruct (Z.eqb_spec c dot) as [|Hc]; [by constructor|].
  destruct (splitDots_cons s) as (l & rest & E). rewrite E in *. apply Forall_cons in IH as [Hl IH].
  constructor; [|done]. cbn. rewrite Hl, orb_false_r. by apply Z.eqb_neq.
Qed.

Lemma fqdnLoop_labels flags labels : forall fuel v off acc (full : bool),
  Forall (fun l => (1 <= length l <= 63)%nat) labels ->
  Forall (fun l => existsb (fun c => c =? dot) l = false) labels ->
  drop off v = wireLabels labels ++ (if full then [0] else []) -> (length labels < fuel)%nat ->
  fqdnLoop fuel v flags off acc = Ok (mkClientFQDN flags (joinDots (acc ++ labels) ++ if full then [dot] else [])).
Proof.
  induction labels as [|l labels IH]; intros fuel v off acc full HF HD Hv Hf;
    (destruct fuel as [|fuel]; [cbn in Hf; lia|]); cbn [fqdnLoop].
  - apply (f_equal length) in Hv as Hlen. rewrite length_drop in Hlen. rewrite app_nil_r. destruct full; cbn in Hlen, Hv.
    + rewrite (proj2 (Nat.ltb_lt _ _)) by lia. rewrite (idx_drop _ _ _ _ Hv). cbn [mbind outcome_bind Z.eqb].
      by rewrite (proj2 (Nat.eqb_eq _ _)) by lia.
    + rewrite (proj2 (Nat.ltb_ge _ _)) by lia. by rewrite app_nil_r.
  - apply Forall_cons in HF as [Hl HF]. apply Forall_cons in HD as [Hd HD].
    change (wireLabels (l :: labels)) with ((u8 (Z.of_nat (length l)) :: l) ++ wireLabels labels) in *.
    rewrite <- app_assoc in Hv. destruct (label_at v off l _ Hl Hv) as (Hb & -> & E0 & E1 & E2 & E3 & Es & Hdr).
    rewrite (proj2 (Nat.ltb_lt _ _)) by lia. cbn [mbind outcome_bind]. rewrite E0, E1, E2, E3.
    cbn [negb]. rewrite (proj2 (Nat.ltb_ge _ _)), Es by lia. cbn [mbind outcome_bind]. rewrite Hd.
    rewrite (IH _ _ _ _ full) by (done || (cbn in Hf; lia)). by rewrite <- app_assoc.
Qed.

Lemma dotSuffix_split s : hasDotSuffix s = true -> s = trimDotSuffix s ++ [dot].
Proof.
  intros H. unfold trimDotSuffix. rewrite H. unfold hasDotSuffix in H.
  destruct (last s) as [c|] eqn:E; [|done]. apply Z.eqb_eq in H as ->.
  apply last_Some in E as [s' ->]. rewrite length_app, Nat.add_sub. cbn. by rewrite take_app_length.
Qed.

(** The client's name survives the wire.  Every name [EncodeClientFQDN]
    accepts, partial or fully qualified, is read back by [DecodeClientFQDN] with
    its flags and with its trailing dot where it has one. *)
Theorem DecodeClientFQDN_Encode flags name v : EncodeClientFQDN flags name = Ok v ->
  DecodeClientFQDN v = Ok (mkClientFQDN flags name).
Proof.
  unfold EncodeClientFQDN. destruct (negb _); [done|]. destruct (_ && _); [done|]. destruct (negb _); [done|].
  set (t := trimDotSuffix name). set (full := hasDotSuffix name). destruct (full && _); [done|].
  intros H. apply bind_ok_inv in H as (out & Hout & H). destruct (_ <? _)%nat; [done|]. apply ok_inj in H as <-.
  assert (exists labels, out = flags :: wireLabels labels /\ joinDots labels = t /\
    Forall (fun l => (1 <= length l <= 63)%nat) labels /\
    Forall (fun l => existsb (fun c => c =? dot) l = false) labels) as (labels & -> & Hj & HF & HD).
  { destruct (bytes_eqb t []) eqn:Et.
    - apply bytes_eqb_eq in Et. injection Hout as <-. exists []. rewrite Et. repeat split; constructor.
    - apply encodeLabels6_ok in Hout as [-> HF]. exists (splitDots t). split; [done|].
      split; [apply joinDots_splitDots|]. split; [done|]. apply splitDots_nodot. }
  assert (Hname : name = t ++ if full then [dot] else []).
  { unfold full, t. destruct (hasDotSuffix name) eqn:E; [by apply dotSuffix_split|].
    unfold trimDotSuffix. by rewrite E, app_nil_r. }
  replace (if full then (flags :: wireLabels labels) ++ [0] else flags :: wireLabels labels)
    with (flags :: wireLabels labels ++ if full then [0] else []) by (destruct full; by rewrite ?app_nil_r).
  unfold DecodeClientFQDN. cbn [length Nat.ltb Nat.leb idx lookup list_lookup mbind outcome_bind].
  pose proof (wireLabels_length _ HF).
  rewrite (fqdnLoop_labels flags labels _ _ _ [] full) by (done || (rewrite ?length_app; lia)).
  cbn [app]. by rewrite Hj, <- Hname.
Qed.

Lemma DecodeClientFQDN_Encode_witness :
  exists v, EncodeClientFQDN ClientFQDNFlagS (ascii_bytes "host.lab.") = Ok v /\
    DecodeClientFQDN v = Ok (mkClientFQDN ClientFQDNFlagS (ascii_bytes "host.lab.")).
Proof.
  eexists. split; [vm_compute; reflexivity|].
  apply (DecodeClientFQDN_Encode ClientFQDNFlagS (ascii_bytes "host.lab.")). vm_compute. reflexivity.
Defined.

(** ** Every reader ends *)

Lemma decodeAll_returns {A} (f : bytes -> wire A) vs : (forall v, returns (f v)) -> returns (decodeAll f vs).
Proof.
  intros Hf. induction vs as [|v vs IH]; [done|]. cbn [decodeAll].
  apply returns_bind; [apply Hf|intros x _]. by apply returns_bind.
Qed.

Ltac read_u32 := apply returns_slice_bind; [lia..|]; intros ? ?; apply returns_bind; [apply returns_ube32; lia|intros ? _].

Lemma DecodeIANA_returns v : returns (DecodeIANA v).
Proof.
  unfold DecodeIANA, IANAFixedLen. destruct (Nat.ltb_spec (length v) 12); [done|].
  apply returns_slice_bind; [lia..|]. intros b _. apply returns_bind; [apply ParseOptionsV6_returns|intros o _].
  do 3 read_u32. done.
Qed.
Lemma DecodeIATA_returns v : returns (DecodeIATA v).
Proof.
  unfold DecodeIATA, IATAFixedLen. destruct (Nat.ltb_spec (length v) 4); [done|].
  apply returns_slice_bind; [lia..|]. intros b _. apply returns_bind; [apply ParseOptionsV6_returns|intros o _].
  read_u32. done.
Qed.
Lemma DecodeIAPD_returns v : returns (DecodeIAPD v).
Proof.
  unfold DecodeIAPD, IAPDFixedLen. destruct (Nat.ltb_spec (length v) 12); [done|].
  apply returns_slice_bind; [lia..|]. intros b _. apply returns_bind; [apply ParseOptionsV6_returns|intros o _].
  do 3 read_u32. done.
Qed.
Lemma DecodeIAAddr_returns v : returns (DecodeIAAddr v).
Proof.
  unfold DecodeIAAddr, IAAddrFixedLen. destruct (Nat.ltb_spec (length v) 24); [done|].
  apply returns_slice_bind; [lia..|]. intros b _. apply returns_bind; [apply ParseOptionsV6_returns|intros o _].
  apply returns_slice_bind; [lia..|]. intros a _. do 2 read_u32. done.
Qed.
Lemma DecodeIAPrefix_returns v : returns (DecodeIAPrefix v).
Proof.
  unfold DecodeIAPrefix, IAPrefixFixedLen. destruct (Nat.ltb_spec (length v) 25); [done|].
  apply returns_bind; [apply returns_idx; lia|intros n _]. destruct (_ <? n); [done|].
  apply returns_slice_bind; [lia..|]. intros b _. apply returns_bind; [apply ParseOptionsV6_returns|intros o _].
  do 2 read_u32. apply returns_slice_bind; [lia..|]. done.
Qed.

Lemma dnsLoop_returns fuel : forall v i out, (length v - i < fuel)%nat -> returns (dnsLoop fuel v i out).
Proof.
  induction fuel as [|fuel IH]; intros v i out Hf; [lia|]. cbn [dnsLoop].
  destruct (Nat.leb_spec (i + 16) (length v)); [|done].
  apply returns_slice_bind; [lia..|]. intros a _. apply IH. lia.
Qed.

Lemma DNSServers_returns o : returns (DNSServers o).
Proof.
  unfold DNSServers. generalize (@nil Addr). induction (All o OptV6DNSServers) as [|v vs IH]; intros out; [done|].
  cbn [dnsServersLoop]. destruct (negb _); [done|].
  apply returns_bind; [apply dnsLoop_returns; lia|intros out' _; apply IH].
Qed.

Lemma name6Loop_returns fuel : forall v off labels, (length v - off < fuel)%nat ->
  returns (name6Loop fuel v off labels).
Proof.
  induction fuel as [|fuel IH]; intros v off labels Hf; [lia|]. cbn [name6Loop].
  destruct (Nat.leb_spec (length v) off); [done|]. apply returns_bind; [by apply returns_idx|intros n _].
  destruct (n =? 0); [done|]. destruct (_ =? 0xC0); [done|]. destruct (negb _); [done|].
  destruct (Nat.ltb_spec (length v) (off + 1 + Z.to_nat n)); [done|].
  apply returns_slice_bind; [lia..|]. intros l _. apply IH. lia.
Qed.

Lemma name6Loop_next fuel : forall v off labels name next,
  name6Loop fuel v off labels = Ok (name, next) -> (off < next)%nat.
Proof.
  induction fuel as [|fuel IH]; intros v off labels name next H; [done|]. cbn [name6Loop] in H.
  destruct (length v <=? off)%nat; [done|]. apply bind_ok_inv in H as (n & _ & H).
  destruct (n =? 0). { injection H as _ <-. lia. }
  destruct (_ =? 0xC0); [done|]. destruct (negb _); [done|]. destruct (_ <? _)%nat; [done|].
  apply bind_ok_inv in H as (l & _ & H). apply IH in H. lia.
Qed.

Lemma readNameUncompressed_returns v off : returns (readNameUncompressed v off).
Proof. apply name6Loop_returns. lia. Qed.

Lemma DomainSearchV6_returns o : returns (DomainSearchV6 o).
Proof.
  assert (Hl : forall fuel v i out, (length v - i < fuel)%nat -> returns (search6Loop fuel v i out)).
  { induction fuel as [|fuel IH]; intros v i out Hf; [lia|]. cbn [search6Loop].
    destruct (Nat.ltb_spec i (length v)); [|done].
    apply returns_bind; [apply readNameUncompressed_returns|]. intros [name next] Hn.
    apply name6Loop_next in Hn. apply IH. lia. }
  unfold DomainSearchV6. generalize (@nil gostring). induction (All o OptV6DomainList) as [|v vs IH]; intros out; [done|].
  cbn [domainSearchLoop]. apply returns_bind; [apply Hl; lia|intros out' _; apply IH].
Qed.

Lemma DecodeClientFQDN_returns v : returns (DecodeClientFQDN v).
Proof.
  assert (Hl : forall fuel flags off labels, (length v - off < fuel)%nat -> returns (fqdnLoop fuel v flags off labels)).
  { induction fuel as [|fuel IH]; intros flags off labels Hf; [lia|]. cbn [fqdnLoop].
    destruct (Nat.ltb_spec off (length v)); [|done]. apply returns_bind; [by apply returns_idx|intros n _].
    destruct (n =? 0); [by destruct (negb _)|]. destruct (_ =? 0xC0); [done|]. destruct (negb _); [done|].
    destruct (Nat.ltb_spec (length v) (off + 1 + Z.to_nat n)); [done|].
    apply returns_slice_bind; [lia..|]. intros l _. destruct (existsb _ l); [done|]. apply IH. lia. }
  unfold DecodeClientFQDN. destruct (Nat.ltb_spec (length v) 1); [done|].
  apply returns_bind; [apply returns_idx; lia|intros flags _]. apply Hl. lia.
Qed.

Lemma VendorOpts_returns o : returns (VendorOpts o).
Proof.
  unfold VendorOpts. generalize (@nil VendorData). induction (All o OptV6VendorOpts) as [|v vs IH]; intros out; [done|].
  cbn [vendor6Loop]. destruct (Nat.ltb_spec (length v) 4); [done|].
  apply returns_bind; [apply returns_slice_bind; [lia..|]; intros; apply returns_ube32; lia|intros e _].
  apply returns_slice_bind; [lia..|]. intros d _. apply IH.
Qed.

Lemma NTPServers_returns o : returns (NTPServers o).
Proof.
  assert (Hl : forall v fuel i rec seen, (length v - i < fuel)%nat -> returns (ntpLoop fuel v i rec seen)).
  { intros v. induction fuel as [|fuel IH]; intros i rec seen Hf; [lia|]. cbn [ntpLoop].
    destruct (Nat.ltb_spec i (length v)); [|by destruct (1 <? seen)].
    destruct (Nat.ltb_spec (length v - i) 4); [done|].
    do 4 (apply returns_bind; [apply returns_idx; lia|intros ? _]).
    destruct (Nat.ltb_spec (length v - i - 4) (Z.to_nat (Z.lor (Z.shiftl a1 8) a2))) as [|Hn]; [done|].
    apply returns_slice_bind; [lia..|]. intros body _.
    destruct (_ || _); [destruct (negb _); [done|apply IH; lia]|]. destruct (_ =? ntpSubSrvFQDN); [|apply IH; lia].
    destruct (readNameUncompressed_returns body 0) as [Hp Hh].
    destruct (readNameUncompressed body 0) as [[name next]| | |]; [|done..].
    destruct (_ || _); [done|apply IH; lia]. }
  unfold NTPServers. generalize (@nil NTPServer). induction (All o OptV6NTPServer) as [|v vs IH]; intros out; [done|].
  cbn [ntpServersLoop]. apply returns_bind; [apply Hl; lia|intros [rec ok] _; apply IH].
Qed.

(** No DHCPv6 message panics or stalls the reader.  The decoder returns on
    every octet string, and every typed reader on every list of options:
    whatever lengths, counts and nesting a sender writes, no index is out of
    range and no loop runs on. *)
Theorem readers6_return b (o : OptionsV6) : returns (DecodeV6 b) /\
  returns (IANAs o) /\ returns (IATAs o) /\ returns (IAPDs o) /\ returns (Addrs o) /\ returns (Prefixes o) /\
  returns (DNSServers o) /\ returns (DomainSearchV6 o) /\ returns (NTPServers o) /\ returns (VendorOpts o) /\
  (forall v, returns (DecodeClientFQDN v)).
Proof.
  split; [apply DecodeV6_returns|]. unfold IANAs, IATAs, IAPDs, Addrs, Prefixes.
  split; [apply decodeAll_returns, DecodeIANA_returns|]. split; [apply decodeAll_returns, DecodeIATA_returns|].
  split; [apply decodeAll_returns, DecodeIAPD_returns|]. split; [apply decodeAll_returns, DecodeIAAddr_returns|].
  split; [apply decodeAll_returns, DecodeIAPrefix_returns|].
  split; [apply DNSServers_returns|]. split; [apply DomainSearchV6_returns|]. split; [apply NTPServers_returns|].
  split; [apply VendorOpts_returns|apply DecodeClientFQDN_returns].
Qed.
