(* ===== verification/Rkap.v ===== *)
(** * Reconfigure authentication of DHCPv6: wire/dhcpv6_reconfigure.go

    The Authentication, Reconfigure Message and Reconfigure Accept options, and
    the Reconfiguration Key Authentication Protocol over the octets a
    Reconfigure arrived as (RFC 9915 sections 20.4, 21.11, 21.19 and 21.20). *)

From S2P Require Import Prelude NetAddr Options Codec HmacMd5 Forcerenew Dhcp6.

Definition OptV6Auth : OptionCodeV6 := 11.
Definition OptV6ReconfMsg : OptionCodeV6 := 19.
Definition OptV6ReconfAccept : OptionCodeV6 := 20.

Definition RKAPTypeKey : Z := 1.
Definition RKAPTypeDigest : Z := 2.
Definition RKAPValueLen : nat := md5DigestSize.
Definition rkapInfoLen : nat := 1 + RKAPValueLen.

Record Auth := mkAuth6 { Protocol : Z; Algorithm : Z; RDM : Z; Replay : Z; Info : bytes }.

Definition DecodeAuth (v : bytes) : wire Auth :=
  if (length v <? AuthFixedLen)%nat then Err ErrV6BadOption else
  v0 ← idx v 0; v1 ← idx v 1; v2 ← idx v 2;
  r ← slice v 3 11; r ← ube64 r;
  info ← slice v AuthFixedLen (length v);
  Ok (mkAuth6 v0 v1 v2 r info).

Definition EncodeAuth (a : Auth) : bytes :=
  [Protocol a; Algorithm a; RDM a] ++ be64 (Replay a) ++ Info a.

(** [OptionsV6.Auth]: absent, present and unusable, or decoded. *)
Definition OptionsV6_Auth (o : OptionsV6) : option (wire Auth) :=
  let n := Count o OptV6Auth in
  if n =? 0 then None else
  if 1 <? n then Some (Err ErrV6Auth) else
  let v := default [] (First o OptV6Auth) in
  Some (DecodeAuth v).

(** [Auth.RKAP]: the Type octet and the Value. *)
Definition RKAP (a : Auth) : wire (Z * bytes) :=
  if negb (Protocol a =? AuthProtocolRKAP) then Err ErrV6Auth else
  if negb (Algorithm a =? AuthAlgorithmHMAC) then Err ErrV6Auth else
  if negb (RDM a =? AuthRDMMonotonic) then Err ErrV6Auth else
  if negb (length (Info a) =? rkapInfoLen)%nat then Err ErrV6Auth else
  t ← idx (Info a) 0;
  v ← slice (Info a) 1 (length (Info a));
  Ok (t, v).

Definition EncodeRKAPAuth (typ : Z) (value : bytes) (replay : Z) : wire bytes :=
  if negb (length value =? RKAPValueLen)%nat then Err ErrRKAPKey else
  Ok (EncodeAuth (mkAuth6 AuthProtocolRKAP AuthAlgorithmHMAC AuthRDMMonotonic replay (typ :: value))).

(** The loop of [rkapDigestSpan]: how many Authentication options were found,
    and where the Value of the last stands. *)
Fixpoint spanLoop (fuel : nat) (raw : bytes) (i : nat) (found : Z) (start fin : nat) : wire (Z * nat * nat) :=
  match fuel with
  | O => Hang
  | S fuel =>
    if (i <? length raw)%nat then
      if (length raw - i <? 4)%nat then Err ErrV6TruncatedOption else
      c ← slice raw i (i + 2); code ← ube16 c;
      l ← slice raw (i + 2) (i + 4); n ← ube16 l;
      let n := Z.to_nat n in
      let i := (i + 4)%nat in
      if (length raw - i <? n)%nat then Err ErrV6OptionOverrun else
      if code =? OptV6Auth then
        let found := found + 1 in
        if 1 <? found then Err ErrV6Auth else
        v ← slice raw i (i + n);
        a ← DecodeAuth v;
        _ ← RKAP a;
        let start := (i + AuthFixedLen + 1)%nat in
        spanLoop fuel raw (i + n) found start (start + RKAPValueLen)
      else spanLoop fuel raw (i + n) found start fin
    else Ok (found, start, fin)
  end.

Definition rkapDigestSpan (raw : bytes) : wire (nat * nat) :=
  if (length raw <? V6HeaderLen)%nat then Err ErrV6Short else
  '(found, start, fin) ← spanLoop (S (length raw)) raw V6HeaderLen 0 0 0;
  if found =? 0 then Err ErrV6Auth else Ok (start, fin).

(** [RKAPVerify]: [Ok tt] is Go's nil error. *)
Definition RKAPVerify (raw key : bytes) : wire unit :=
  if negb (length key =? RKAPValueLen)%nat then Err ErrRKAPKey else
  '(start, fin) ← rkapDigestSpan raw;
  sent ← slice raw start fin;
  buf ← zeroSpan raw start fin;
  mac ← hmacMD5 key buf;
  if negb (equalConstantTime sent mac) then Err ErrRKAPDigest else Ok tt.

(** [MessageTypeV6.ReconfigurableBy] *)
Definition ReconfigurableBy (m : MessageTypeV6) : bool :=
  (m =? MsgRenew) || (m =? MsgRebind) || (m =? MsgInformationRequest).

(** [OptionsV6.ReconfigureMessage]: the msg-type, whether the option is there,
    the error. *)
Definition ReconfigureMessage (o : OptionsV6) : MessageTypeV6 * bool * option WireErr :=
  let n := Count o OptV6ReconfMsg in
  if n =? 0 then (0, false, None) else
  if 1 <? n then (0, true, Some ErrV6BadOption) else
  match default [] (First o OptV6ReconfMsg) with
  | [t] => if negb (ReconfigurableBy t) then (t, true, Some ErrV6BadOption) else (t, true, None)
  | _ => (0, true, Some ErrV6BadOption)
  end.

Definition EncodeReconfigureMessage (t : MessageTypeV6) : wire bytes :=
  if negb (ReconfigurableBy t) then Err ErrV6Encode else Ok [u8 t].

(** [OptionsV6.ReconfigureAccept]: announced, and the error. *)
Definition ReconfigureAccept (o : OptionsV6) : bool * option WireErr :=
  match First o OptV6ReconfAccept with
  | None => (false, None)
  | Some v => if negb (length v =? 0)%nat then (true, Some ErrV6BadOption) else (true, None)
  end.

(** ** The option value *)

Definition auth_wf (a : Auth) : Prop :=
  is_byte (Protocol a) /\ is_byte (Algorithm a) /\ is_byte (RDM a) /\ 0 <= Replay a < 2 ^ 64 /\ are_bytes (Info a).

(** The Authentication option of section 20.4.1. *)
Definition rkap (t replay : Z) (value : bytes) : Auth :=
  mkAuth6 AuthProtocolRKAP AuthAlgorithmHMAC AuthRDMMonotonic replay (t :: value).

Lemma DecodeAuth_parts p g m b8 info r : length b8 = 8%nat -> ube64 (E := WireErr) b8 = Ok r ->
  DecodeAuth ([p; g; m] ++ b8 ++ info) = Ok (mkAuth6 p g m r info).
Proof.
  intros H8 Hr. unfold DecodeAuth, AuthFixedLen.
  assert (Hl : length ([p; g; m] ++ b8 ++ info) = (11 + length info)%nat) by (cbn; rewrite length_app; lia).
  rewrite (proj2 (Nat.ltb_ge _ _)) by lia.
  rewrite (slice_at _ [p; g; m] b8 info 3 11) by (done || by rewrite H8).
  rewrite slice_tail by lia. cbn [app idx lookup list_lookup mbind outcome_bind]. rewrite Hr. cbn [mbind outcome_bind drop].
  by rewrite drop_app_ge, H8 by lia.
Qed.

Lemma Auth_written a : 0 <= Replay a < 2 ^ 64 -> DecodeAuth (EncodeAuth a) = Ok a.
Proof. intros Hr. destruct a. by apply DecodeAuth_parts, ube64_be64'. Qed.

Lemma RKAP_spec a t d : RKAP a = Ok (t, d) <-> a = rkap t (Replay a) d /\ length d = RKAPValueLen.
Proof.
  destruct a as [p g m r info]. unfold RKAP, rkap. cbn [Protocol Algorithm RDM Replay Info]. split.
  - destruct (Z.eqb_spec p AuthProtocolRKAP) as [->|]; [|done].
    destruct (Z.eqb_spec g AuthAlgorithmHMAC) as [->|]; [|done].
    destruct (Z.eqb_spec m AuthRDMMonotonic) as [->|]; [|done].
    destruct (Nat.eqb_spec (length info) rkapInfoLen) as [Hl|]; [|done]. cbn [negb].
    destruct info as [|x info]; [done|]. rewrite slice_tail by (cbn; lia). cbn. rewrite drop_0. intros [= -> ->].
    cbn in Hl. split; [done|]. unfold rkapInfoLen in Hl. lia.
  - intros [[= -> -> -> ->] Hd]. cbn [length]. rewrite Hd, !Z.eqb_refl, Nat.eqb_refl. cbn [negb].
    cbn [idx lookup list_lookup mbind outcome_bind]. rewrite <- Hd.
    change (S (length d)) with (length (t :: d)). rewrite slice_tail by (cbn; lia). cbn [drop]. by rewrite drop_0.
Qed.

Lemma Auth_read v a : are_bytes v -> DecodeAuth v = Ok a -> v = EncodeAuth a /\ auth_wf a.
Proof.
  intros Hb. unfold DecodeAuth, AuthFixedLen. destruct (Nat.ltb_spec (length v) 11) as [|Hl]; [done|].
  destruct v as [|p [|g [|m v]]]; cbn [length] in Hl; try lia.
  cbn [idx lookup list_lookup mbind outcome_bind]. rewrite (slice_ok _ 3 11), slice_tail by (cbn; lia).
  cbn [mbind outcome_bind drop Nat.sub]. rewrite drop_0. intros H.
  apply bind_ok_inv in H as (r & Hr & H). injection H as <-.
  repeat rewrite are_bytes_cons in Hb. destruct Hb as (? & ? & ? & Hb).
  apply be64_ube64 in Hr as [Hr Hrr]; [|by apply are_bytes_take|rewrite length_take; lia].
  unfold EncodeAuth, auth_wf. cbn [Protocol Algorithm RDM Replay Info app]. rewrite Hr, take_drop.
  split; [done|]. do 4 (split; [done|]). by apply are_bytes_drop.
Qed.

(** ** Where the digest stands *)

Definition noAuth (o : OptionsV6) : Prop := Forall (fun opt => OCode opt <> OptV6Auth) o.
Definition authOption (a : Auth) : OptionV6 := mkOptionV6 OptV6Auth (EncodeAuth a).

Lemma wireOption_length opt : length (wireOption opt) = (4 + length (OData opt))%nat.
Proof. unfold wireOption. by rewrite !length_app. Qed.

Lemma spanLoop_skip o : forall fuel raw i rest, Forall option_wf o -> noAuth o ->
  drop i raw = wireOptions o ++ rest -> (length raw - i < fuel)%nat ->
  exists fuel', (length raw - (i + length (wireOptions o)) < fuel')%nat /\
    drop (i + length (wireOptions o)) raw = rest /\
    forall found s e, spanLoop fuel raw i found s e = spanLoop fuel' raw (i + length (wireOptions o)) found s e.
Proof.
  induction o as [|opt o IH]; intros fuel raw i rest Hw Hn Hd Hf.
  { exists fuel. cbn. rewrite Nat.add_0_r. done. }
  destruct fuel as [|fuel]; [lia|]. apply Forall_cons in Hw as [Hwo Hw]. apply Forall_cons in Hn as [Hno Hn].
  change (wireOptions (opt :: o)) with (wireOption opt ++ wireOptions o) in *. rewrite <- app_assoc in Hd.
  destruct (option_written (A := Z * nat * nat) raw i opt _ Hwo Hd) as (Hlen & E & _ & Hr).
  destruct (IH fuel raw (i + 4 + length (OData opt))%nat rest Hw Hn Hr) as (fuel' & Hf' & Hr' & E'); [lia|].
  rewrite length_app, wireOption_length.
  replace (i + (4 + length (OData opt) + length (wireOptions o)))%nat
    with (i + 4 + length (OData opt) + length (wireOptions o))%nat by lia.
  exists fuel'. split; [done|]. split; [done|]. intros. rewrite <- E'. cbn [spanLoop].
  rewrite (proj2 (Nat.ltb_lt _ _)), (proj2 (Nat.ltb_ge _ _)), E by lia. cbv beta zeta.
  rewrite Nat2Z.id, (proj2 (Nat.ltb_ge _ _)), (proj2 (Z.eqb_neq _ _)) by (done || lia). done.
Qed.

Lemma spanLoop_end fuel raw i found s e : drop i raw = [] -> (0 < fuel)%nat ->
  spanLoop fuel raw i found s e = Ok (found, s, e).
Proof.
  intros Hd Hf. apply (f_equal length) in Hd. rewrite length_drop in Hd. cbn in Hd.
  destruct fuel; [lia|]. cbn [spanLoop]. by rewrite (proj2 (Nat.ltb_ge _ _)) by lia.
Qed.

(** The walk over a message with one RKAP option. *)
Lemma span_written hdr pre a t d post : length hdr = V6HeaderLen ->
  Forall option_wf (pre ++ authOption a :: post) -> noAuth pre -> noAuth post ->
  auth_wf a -> RKAP a = Ok (t, d) ->
  let s := (length hdr + length (wireOptions pre) + 4 + AuthFixedLen + 1)%nat in
  rkapDigestSpan (hdr ++ wireOptions (pre ++ authOption a :: post)) = Ok (s, (s + RKAPValueLen)%nat).
Proof.
  intros Hh Hw Hn1 Hn2 Ha Hr. cbv zeta. set (raw := hdr ++ _).
  apply Forall_app in Hw as [Hw1 [Hwa Hw2]%Forall_cons].
  assert (Hd : drop (length hdr) raw = wireOptions pre ++ wireOption (authOption a) ++ wireOptions post).
  { unfold raw. rewrite drop_app_length, wireOptions_app. done. }
  unfold rkapDigestSpan. replace (length raw <? V6HeaderLen)%nat with false
    by (symmetry; apply Nat.ltb_ge; unfold raw; rewrite length_app; lia). rewrite <- Hh.
  destruct (spanLoop_skip pre (S (length raw)) raw (length hdr) _ Hw1 Hn1 Hd) as (fuel & Hf & Hd1 & ->); [lia|].
  destruct (option_written (A := Z * nat * nat) raw _ (authOption a) _ Hwa Hd1) as (Hlen & E & Es & Hd2).
  destruct fuel as [|fuel]; [lia|]. cbn [spanLoop].
  rewrite (proj2 (Nat.ltb_lt _ _)), (proj2 (Nat.ltb_ge _ _)), E by lia. cbv beta zeta.
  rewrite Nat2Z.id, (proj2 (Nat.ltb_ge _ _)) by lia. cbn [authOption OCode OData] in *.
  rewrite Z.eqb_refl. cbn [Z.add Z.ltb Z.compare Pos.compare Pos.compare_cont]. rewrite Es. cbn [mbind outcome_bind].
  rewrite Auth_written by apply Ha. cbn [mbind outcome_bind]. rewrite Hr. cbn [mbind outcome_bind].
  rewrite <- (app_nil_r (wireOptions post)) in Hd2.
  destruct (spanLoop_skip post fuel raw _ _ Hw2 Hn2 Hd2) as (fuel' & Hf' & Hd3 & E'); [lia|].
  rewrite E', spanLoop_end by (done || lia). done.
Qed.

(** A walk that succeeds saw a list of options with at most one Authentication
    option, of RKAP's shape. *)
Lemma spanLoop_inv fuel : forall raw i found s e found' s' e', are_bytes raw -> 0 <= found ->
  spanLoop fuel raw i found s e = Ok (found', s', e') ->
  exists o, Forall option_wf o /\ drop i raw = wireOptions o /\
    (found' = found /\ noAuth o \/ found = 0 /\ exists pre a t d post, o = pre ++ authOption a :: post /\
       noAuth pre /\ noAuth post /\ auth_wf a /\ RKAP a = Ok (t, d)).
Proof.
  induction fuel as [|fuel IH]; intros raw i found s e found' s' e' Hb Hpos H; [done|]. cbn [spanLoop] in H.
  destruct (Nat.ltb_spec i (length raw)) as [Hi|Hi].
  2:{ injection H as <- <- <-. exists []. split; [done|]. split; [by rewrite drop_ge|]. left. split; [done|constructor]. }
  destruct (Nat.ltb_spec (length raw - i) 4); [done|].
  destruct (option_read (A := Z * nat * nat) raw i) as (code & n & E & Ho); [done|lia|].
  rewrite E in H. cbv beta zeta in H. clear E.
  destruct (Nat.ltb_spec (length raw - (i + 4)) (Z.to_nat n)); [done|].
  destruct Ho as (Es & Hwo & Hd); [lia|]. cbn [OData] in Es.
  destruct (Z.eqb_spec code OptV6Auth) as [->|Hc].
  - destruct (Z.ltb_spec 1 (found + 1)) as [|Hf]; [done|]. rewrite Es in H. cbn [mbind outcome_bind] in H.
    apply bind_ok_inv in H as (a & Ha & H). apply bind_ok_inv in H as ([t d] & Hr & H).
    apply IH in H as (o & Hw & Hd' & Hcase); [|done|lia].
    apply Auth_read in Ha as [Hv Hwa]; [|apply Hwo]. rewrite Hv in Hwo, Hd.
    exists (authOption a :: o). split; [by constructor|]. split; [by rewrite Hd, Hd'|]. right.
    split; [lia|]. destruct Hcase as [[_ Hn]|[? _]]; [|lia]. exists [], a, t, d, o. split_and!; (done || constructor).
  - apply IH in H as (o & Hw & Hd' & Hcase); [|done..]. eexists (_ :: o). split; [by constructor|].
    split; [by rewrite Hd, Hd'|].
    destruct Hcase as [[-> Hn]|(-> & pre & a & t & d & post & -> & Hn1 & Hn2 & Hcase)];
      [left; split; [done|by constructor]|right; split; [done|]].
    eexists (_ :: pre), a, t, d, post. split; [done|]. split; [by constructor|done].
Qed.

(** ** The check *)

(** The octets of a Reconfigure whose Authentication option is [a]. *)
Definition reconfigure (hdr : bytes) (pre post : OptionsV6) (a : Auth) : bytes :=
  hdr ++ wireOptions (pre ++ authOption a :: post).

(** The digest stands where [rkapDigestSpan] says, and zeroing the span is
    writing the option with a digest of zeroes. *)
Lemma reconfigure_parts hdr pre post t r : length hdr = V6HeaderLen -> exists x,
  (forall d' : bytes, length d' = RKAPValueLen -> reconfigure hdr pre post (rkap t r d') = x ++ d' ++ wireOptions post) /\
  length x = (length hdr + length (wireOptions pre) + 4 + AuthFixedLen + 1)%nat.
Proof.
  intros Hh. exists (hdr ++ wireOptions pre ++ be16 OptV6Auth ++ be16 28 ++
    [AuthProtocolRKAP; AuthAlgorithmHMAC; AuthRDMMonotonic] ++ be64 r ++ [t]). split.
  - intros d' Hd'. unfold reconfigure. rewrite wireOptions_app. cbn [wireOptions map concat].
    change (concat (map wireOption post)) with (wireOptions post). unfold wireOption. cbn [authOption OCode OData].
    replace (Z.of_nat (length (EncodeAuth (rkap t r d')))) with 28.
    { unfold EncodeAuth, rkap. cbn [Protocol Algorithm RDM Replay Info]. by rewrite <- !app_assoc. }
    unfold EncodeAuth, rkap. cbn [Protocol Algorithm RDM Replay Info]. rewrite !length_app. cbn [length]. rewrite Hd'. done.
  - rewrite !length_app. unfold AuthFixedLen. cbn. lia.
Qed.

Lemma rkap_option_wf t r d : 0 <= r < 2 ^ 64 -> length d = RKAPValueLen -> are_bytes (t :: d) ->
  auth_wf (rkap t r d) /\ option_wf (authOption (rkap t r d)).
Proof.
  intros Hr Hd Hb. split; [unfold auth_wf, rkap, is_byte; cbn; done|].
  unfold option_wf, authOption, EncodeAuth, rkap. cbn [OCode OData Protocol Algorithm RDM Replay Info].
  split; [done|]. rewrite !length_app. cbn [length]. rewrite Hd. split; [|done].
  rewrite !are_bytes_app. split; [by repeat constructor|]. split; [|done].
  unfold be64, are_bytes. apply Forall_map, Forall_forall. intros. apply u8_range.
Qed.

(** The check of a message that carries one RKAP option. *)
Lemma RKAPVerify_written hdr pre post t r d key : are_bytes (reconfigure hdr pre post (rkap t r d)) ->
  length key = RKAPValueLen -> length hdr = V6HeaderLen -> length d = RKAPValueLen ->
  Forall option_wf (pre ++ post) -> noAuth (pre ++ post) -> 0 <= r < 2 ^ 64 ->
  RKAPVerify (reconfigure hdr pre post (rkap t r d)) key = Ok tt <->
  hmacMD5 key (reconfigure hdr pre post (rkap t r (replicate RKAPValueLen 0))) = Ok d.
Proof.
  intros Hb Hk Hh Hd [Hw1 Hw2]%Forall_app [Hn1 Hn2]%Forall_app Hr. unfold RKAPVerify.
  rewrite (proj2 (Nat.eqb_eq _ _) Hk). cbn [negb].
  destruct (reconfigure_parts hdr pre post t r Hh) as (x & Hx & Hlx).
  assert (Hab : are_bytes (t :: d)).
  { unfold reconfigure in Hb. rewrite wireOptions_app in Hb. cbn [wireOptions map concat] in Hb.
    unfold wireOption, authOption, EncodeAuth, rkap in Hb. cbn [OCode OData Info] in Hb.
    repeat rewrite are_bytes_app in Hb. apply Hb. }
  destruct (rkap_option_wf t r d Hr Hd Hab) as [Hwa Hao].
  assert (Hs : rkapDigestSpan (reconfigure hdr pre post (rkap t r d)) = Ok (length x, (length x + RKAPValueLen)%nat)).
  { rewrite Hlx. unfold reconfigure. eapply span_written; [done| |done..|by apply RKAP_spec].
    apply Forall_app. split; [done|]. by constructor. }
  rewrite Hs. clear Hs. cbn [mbind outcome_bind]. unfold zeroSpan. pose proof (Hx d Hd) as Hxd. set (raw := reconfigure _ _ _ _) in *.
  rewrite (Hx (replicate RKAPValueLen 0)) by by rewrite length_replicate. rewrite <- Hd.
  rewrite (slice_at raw x d (wireOptions post)) by done. cbn [mbind outcome_bind].
  replace (take (length x) raw) with x by (by rewrite Hxd, take_app_length).
  replace (drop (length x + length d) raw) with (wireOptions post)
    by (rewrite Hxd, <- drop_drop, drop_app_length; by rewrite drop_app_length).
  replace (length x + length d - length x)%nat with (length d) by lia.
  destruct (hmacMD5_ok key (x ++ replicate (length d) 0 ++ wireOptions post)) as (m & -> & _).
  cbn [mbind outcome_bind]. destruct (equalConstantTime d m) eqn:Hm; cbn [negb].
  - apply equalConstantTime_spec in Hm as <-. done.
  - split; [done|]. intros [= ->]. by rewrite (proj2 (equalConstantTime_spec d d) eq_refl) in Hm.
Qed.

(** What an accepted datagram is made of. *)
Lemma RKAPVerify_inv raw key : are_bytes raw -> RKAPVerify raw key = Ok tt ->
  length key = RKAPValueLen /\ exists hdr pre post t r d,
    raw = reconfigure hdr pre post (rkap t r d) /\ length hdr = V6HeaderLen /\ length d = RKAPValueLen /\
    Forall option_wf (pre ++ post) /\ noAuth (pre ++ post) /\ 0 <= r < 2 ^ 64.
Proof.
  intros Hb H. unfold RKAPVerify in H. destruct (Nat.eqb_spec (length key) RKAPValueLen) as [Hk|]; cbn [negb] in H; [|done].
  split; [done|]. apply bind_ok_inv in H as ([start fin] & Hspan & _).
  unfold rkapDigestSpan in Hspan. destruct (Nat.ltb_spec (length raw) V6HeaderLen) as [|Hl]; [done|].
  apply bind_ok_inv in Hspan as ([[found ?] ?] & Hloop & Hspan).
  destruct (Z.eqb_spec found 0) as [|Hf]; [done|].
  apply spanLoop_inv in Hloop as (o & Hw & Hd & [[? _]|(_ & pre & a & t & d & post & -> & Hn1 & Hn2 & Hwa & Hr)]); [lia| |done|lia].
  apply RKAP_spec in Hr as [Ha Hdl]. destruct Hwa as (_ & _ & _ & Hrr & _).
  apply Forall_app in Hw as [Hw1 [_ Hw2]%Forall_cons].
  exists (take V6HeaderLen raw), pre, post, t, (Replay a), d. split.
  { unfold reconfigure. rewrite <- Ha, <- Hd. by rewrite take_drop. }
  split; [rewrite length_take; lia|]. split; [done|]. split; [by apply Forall_app|]. split; [by apply Forall_app|done].
Qed.

(** C25: a Reconfigure is obeyed exactly when it is signed.  On octets,
    [RKAPVerify] accepts a datagram if and only if the key is 128 bits and the
    datagram is a header and options of which one, and only one, is an
    Authentication option in the shape of section 20.4.1 whose Value is the
    HMAC-MD5, under the key, of the same datagram with that Value zeroed. *)
Theorem RKAPVerify_spec raw key : are_bytes raw ->
  RKAPVerify raw key = Ok tt <->
  length key = RKAPValueLen /\ exists hdr pre post t r d,
    raw = reconfigure hdr pre post (rkap t r d) /\ length hdr = V6HeaderLen /\ length d = RKAPValueLen /\
    Forall option_wf (pre ++ post) /\ noAuth (pre ++ post) /\ 0 <= r < 2 ^ 64 /\
    hmacMD5 key (reconfigure hdr pre post (rkap t r (replicate RKAPValueLen 0))) = Ok d.
Proof.
  intros Hb. split.
  - intros H. destruct (RKAPVerify_inv raw key Hb H) as (Hk & hdr & pre & post & t & r & d & -> & Hrest).
    split; [done|]. exists hdr, pre, post, t, r, d. destruct Hrest as (Hh & Hd & Hw & Hn & Hr).
    do 6 (split; [done|]). by apply (RKAPVerify_written hdr pre post t r d key).
  - intros (Hk & hdr & pre & post & t & r & d & -> & Hh & Hd & Hw & Hn & Hr & Hmac). by apply RKAPVerify_written.
Qed.

(** A Reconfigure that asks for a Renew, signed under [sample_key]. *)
Definition sample_key : bytes := seqZ 1 16.
Definition sample_hdr : bytes := [MsgReconfigure; 0; 0; 0].
Definition sample_pre : OptionsV6 := [mkOptionV6 OptV6ServerID [0; 3; 0; 1; 2; 0; 0; 0; 0; 1]; mkOptionV6 OptV6ReconfMsg [MsgRenew]].
Definition sample_digest : bytes :=
  match hmacMD5 sample_key (reconfigure sample_hdr sample_pre [] (rkap RKAPTypeDigest 7 (replicate RKAPValueLen 0))) with
  | Ok d => d
  | _ => []
  end.

Lemma RKAPVerify_spec_witness :
  RKAPVerify (reconfigure sample_hdr sample_pre [] (rkap RKAPTypeDigest 7 sample_digest)) sample_key = Ok tt /\
  RKAPVerify (reconfigure sample_hdr sample_pre [] (rkap RKAPTypeDigest 8 sample_digest)) sample_key = Err ErrRKAPDigest.
Proof.
  split; [|vm_compute; reflexivity].
  apply RKAPVerify_spec; [apply (bool_decide_unpack _); vm_compute; exact I|]. split; [reflexivity|].
  exists sample_hdr, sample_pre, [], RKAPTypeDigest, 7, sample_digest.
  split; [reflexivity|]. split; [reflexivity|]. split; [vm_compute; reflexivity|].
  split; [unfold option_wf; repeat constructor; cbn; done || lia|]. split; [by repeat constructor|]. split; [done|].
  vm_compute; reflexivity.
Defined.

(** ** The readers and writers of the three options *)

Lemma DecodeAuth_returns v : returns (DecodeAuth v).
Proof.
  unfold DecodeAuth, AuthFixedLen. destruct (Nat.ltb_spec (length v) 11); [done|].
  do 3 (apply returns_bind; [apply returns_idx; lia|intros ? _]). apply returns_slice_bind; [lia..|]. intros r Hr.
  apply returns_bind; [by apply returns_ube64; lia|intros x _]. by apply returns_slice_bind; [lia..|].
Qed.

Lemma DecodeAuth_length v a : DecodeAuth v = Ok a -> (length v = AuthFixedLen + length (Info a))%nat.
Proof.
  unfold DecodeAuth. destruct (Nat.ltb_spec (length v) AuthFixedLen); [done|]. intros H'. inv_ok. cbn [Info].
  match goal with Hs : slice v AuthFixedLen _ = Ok _ |- _ => apply slice_length in Hs; lia end.
Qed.

Lemma RKAP_returns a : returns (RKAP a).
Proof.
  unfold RKAP. destruct (Protocol a =? _); [|apply returns_err]. destruct (Algorithm a =? _); [|apply returns_err].
  destruct (RDM a =? _); [|apply returns_err]. destruct (Nat.eqb_spec (length (Info a)) rkapInfoLen); [|apply returns_err].
  cbn [negb]. destruct (Info a) as [|t i]; [done|]. cbn [idx lookup list_lookup mbind outcome_bind]. by rewrite slice_tail by (cbn; lia).
Qed.

Lemma RKAP_length a r : RKAP a = Ok r -> length (Info a) = rkapInfoLen.
Proof. destruct r as [t d]. intros [-> Hd]%RKAP_spec. unfold rkap. cbn. by rewrite Hd. Qed.

(** The walk ends, and the span it reports is inside the datagram. *)
Lemma spanLoop_range fuel : forall raw i found s e, (length raw - i < fuel)%nat -> (s <= e <= length raw)%nat ->
  returns (spanLoop fuel raw i found s e) /\
  forall f s' e', spanLoop fuel raw i found s e = Ok (f, s', e') -> (s' <= e' <= length raw)%nat.
Proof.
  induction fuel as [|fuel IH]; intros raw i found s e Hf Hse; [lia|]. cbn [spanLoop].
  destruct (Nat.ltb_spec i (length raw)); [|by split; [|intros ??? [= <- <- <-]]].
  destruct (Nat.ltb_spec (length raw - i) 4); [done|]. rewrite !slice_ok by lia. cbn [mbind outcome_bind].
  destruct (@ube16_returns WireErr (take (i + 2 - i) (drop i raw))) as [code ->]; [rewrite length_take, length_drop; lia|].
  destruct (@ube16_returns WireErr (take (i + 4 - (i + 2)) (drop (i + 2) raw))) as [n ->]; [rewrite length_take, length_drop; lia|].
  cbn [mbind outcome_bind]. destruct (Nat.ltb_spec (length raw - (i + 4)) (Z.to_nat n)); [done|].
  destruct (code =? OptV6Auth); [|apply IH; lia]. destruct (1 <? found + 1); [done|].
  rewrite slice_ok by lia. cbn [mbind outcome_bind]. set (v := take _ _).
  assert (Hv : length v = Z.to_nat n) by (unfold v; rewrite length_take, length_drop; lia).
  destruct (DecodeAuth v) as [a| | |] eqn:Ha; [|done|by destruct (DecodeAuth_returns v)..].
  cbn [mbind outcome_bind]. destruct (RKAP a) as [r| | |] eqn:Hr; [|done|by destruct (RKAP_returns a)..].
  apply DecodeAuth_length in Ha. apply RKAP_length in Hr. unfold rkapInfoLen in Hr. cbn [mbind outcome_bind].
  apply IH; lia.
Qed.

Lemma RKAPVerify_returns raw key : returns (RKAPVerify raw key).
Proof.
  unfold RKAPVerify, rkapDigestSpan. destruct (negb _); [done|]. destruct (length raw <? V6HeaderLen)%nat; [done|].
  destruct (spanLoop_range (S (length raw)) raw V6HeaderLen 0 0 0) as [Hret Hse]; [unfold V6HeaderLen; lia|lia|].
  destruct (spanLoop _ _ _ _ _ _) as [[[f s] e]| | |]; [|done|by destruct Hret..].
  specialize (Hse _ _ _ eq_refl). cbn [mbind outcome_bind]. destruct (f =? 0); [done|]. cbn [mbind outcome_bind].
  unfold zeroSpan. rewrite slice_ok by lia. cbn [mbind outcome_bind].
  match goal with |- context [hmacMD5 key ?b] => destruct (hmacMD5_ok key b) as (m & -> & _) end.
  cbn [mbind outcome_bind]. by destruct (negb _).
Qed.

(** The options of a Reconfigure.  Writing and reading an RKAP option, and a
    Reconfigure Message option, returns what was written; the readers end on
    every option list and octet string, and refuse a second instance of either
    singleton rather than choose one. *)
Theorem reconfigure_options typ value replay t v m (o : OptionsV6) (raw key : bytes) : 0 <= replay < 2 ^ 64 ->
  EncodeRKAPAuth typ value replay = Ok v -> EncodeReconfigureMessage t = Ok m ->
  (OptionsV6_Auth [mkOptionV6 OptV6Auth v] = Some (Ok (rkap typ replay value)) /\
   RKAP (rkap typ replay value) = Ok (typ, value)) /\
  ReconfigureMessage [mkOptionV6 OptV6ReconfMsg m] = (t, true, None) /\
  (1 < Count o OptV6Auth -> OptionsV6_Auth o = Some (Err ErrV6Auth)) /\
  (1 < Count o OptV6ReconfMsg -> ReconfigureMessage o = (0, true, Some ErrV6BadOption)) /\
  from_option returns True (OptionsV6_Auth o) /\ returns (RKAPVerify raw key).
Proof.
  intros Hr Hv Hm. unfold EncodeRKAPAuth in Hv. destruct (Nat.eqb_spec (length value) RKAPValueLen) as [Hl|]; [|done].
  injection Hv as <-. unfold EncodeReconfigureMessage in Hm. destruct (ReconfigurableBy t) eqn:Ht; [|done].
  injection Hm as <-. assert (Hu : u8 t = t).
  { unfold ReconfigurableBy in Ht. rewrite !orb_true_iff, !Z.eqb_eq in Ht. by destruct Ht as [[-> | ->]| ->]. }
  split; [split|split; [|split; [|split; [|split]]]].
  - unfold OptionsV6_Auth. cbn [Count OCode First OData]. rewrite Z.eqb_refl. cbn [Z.add Z.eqb Z.ltb Z.compare Pos.compare Pos.compare_cont default].
    f_equal. by apply Auth_written.
  - by apply RKAP_spec.
  - unfold ReconfigureMessage. cbn [Count OCode First OData]. rewrite Z.eqb_refl. cbn [Z.add Z.eqb Z.ltb Z.compare Pos.compare Pos.compare_cont default].
    rewrite Hu. cbn. by rewrite Ht.
  - intros Hc. unfold OptionsV6_Auth. by rewrite (proj2 (Z.eqb_neq _ _)), (proj2 (Z.ltb_lt _ _)) by lia.
  - intros Hc. unfold ReconfigureMessage. by rewrite (proj2 (Z.eqb_neq _ _)), (proj2 (Z.ltb_lt _ _)) by lia.
  - unfold OptionsV6_Auth. destruct (_ =? 0); [done|]. destruct (1 <? _); [done|]. apply DecodeAuth_returns.
  - apply RKAPVerify_returns.
Qed.

Lemma reconfigure_options_witness : exists v m,
  EncodeRKAPAuth RKAPTypeDigest sample_key 7 = Ok v /\ EncodeReconfigureMessage MsgRenew = Ok m /\
  OptionsV6_Auth [mkOptionV6 OptV6Auth v] = Some (Ok (rkap RKAPTypeDigest 7 sample_key)) /\
  ReconfigureMessage [mkOptionV6 OptV6ReconfMsg m] = (MsgRenew, true, None).
Proof.
  do 2 eexists. split; [reflexivity|]. split; [reflexivity|].
  destruct (reconfigure_options RKAPTypeDigest sample_key 7 MsgRenew _ _ [] [] [] ltac:(lia) eq_refl eq_refl)
    as ([H1 _] & H2 & _).
  split; [exact H1|exact H2].
Defined.
