(* ===== verification/Backoff6.v ===== *)
(** * The DHCPv6 retransmission schedule: proto/backoff6.go

    RFC 9915 section 15 in integers: the draw of RAND, the exact 128-bit
    scaling, the first and the later retransmission times, and the two bounds
    that end an exchange.  The table of section 7.6 and its methods are fields
    of [Params6] and are in Params6.v. *)

From S2P Require Import Prelude Backoff.

Record Retransmit := mkRetransmit { IRT : Duration; MRT : Duration; MRC : Z; MRD : Duration }.

#[global] Instance Retransmit_eq_dec : EqDecision Retransmit.
Proof. solve_decision. Defined.

Definition MaxRTOptionMinSeconds : Z := 60.
Definition MaxRTOptionMaxSeconds : Z := 86400.

Definition maxRTInRange (secs : Z) : bool :=
  (MaxRTOptionMinSeconds <=? secs) && (secs <=? MaxRTOptionMaxSeconds).

Definition randScale : Z := 1000000.
Definition randDenom : Z := 10000000.

Definition randFactor (rnd : Z) : Z :=
  let span := u64 (2 * randScale + 1) in
  i64 (i64 (rnd mod span) - randScale).

Definition nonNegative (d : Duration) : Duration := if d <? 0 then 0 else d.

Definition abs64 (v : Z) : Z := if v <? 0 then u64 (i64 (- v)) else u64 v.

(** [bits.Mul64] and [bits.Div64] of the standard library: the 128-bit product
    in two words, and the quotient of a 128-bit value by a word, which panics
    when the quotient has no room; the guard before the call keeps it out. *)
Definition Mul64 (x y : Z) : Z * Z := (Z.shiftr (x * y) 64, u64 (x * y)).
Definition Div64 (hi lo y : Z) : Z * Z := ((hi * 2 ^ 64 + lo) / y, (hi * 2 ^ 64 + lo) mod y).

Definition scaleRand (d : Duration) (n : Z) : Duration :=
  if (d =? 0) || (n =? 0) then 0 else
  let neg := xorb (d <? 0) (n <? 0) in
  let ad := abs64 d in
  let an := abs64 n in
  let '(hi, lo) := Mul64 ad an in
  if u64 randDenom <=? hi then
    let q := i64 (ad / 10) in
    if neg then i64 (- q) else q
  else
    let '(q, _) := Div64 hi lo (u64 randDenom) in
    if neg then i64 (- i64 q) else i64 q.

(** [Retransmit.First] and [Retransmit.Next] *)
Definition FirstRT (r : Retransmit) (rnd : Z) : Duration :=
  nonNegative (i64 (IRT r + scaleRand (IRT r) (randFactor rnd))).

Definition NextRT (r : Retransmit) (prev : Duration) (rnd : Z) : Duration :=
  let n := randFactor rnd in
  let rt := i64 (i64 (2 * prev) + scaleRand prev n) in
  let rt := if (0 <? MRT r) && (MRT r <? rt) then i64 (MRT r + scaleRand (MRT r) n) else rt in
  nonNegative rt.

(** [Retransmit.Exhausted] *)
Definition Exhausted6 (r : Retransmit) (count : Z) (elapsed : Duration) : bool :=
  if (0 <? MRC r) && (MRC r <=? count) then true else
  if (0 <? MRD r) && (MRD r <=? elapsed) then true else false.

(** ** Exactness *)

Lemma randFactor_range rnd : - randScale <= randFactor rnd <= randScale.
Proof.
  unfold randFactor, randScale. rewrite (u64_id (2 * _ + 1)) by lia.
  pose proof (Z.mod_pos_bound rnd (2 * 1000000 + 1) ltac:(lia)). rewrite !i64_id by (rewrite ?i64_id by lia; lia). lia.
Qed.

Lemma abs64_abs v : in_i64 v = true -> abs64 v = Z.abs v.
Proof.
  rewrite in_i64_spec. intros Hv. unfold abs64. destruct (Z.ltb_spec v 0); [|rewrite u64_id by lia; lia].
  destruct (Z.eq_dec v (- 2 ^ 63)) as [->|]; [reflexivity|]. rewrite i64_id, u64_id by lia. lia.
Qed.

Lemma tenth d n : - randScale <= n <= randScale -> 10 * (Z.abs (d * n) / randDenom) <= Z.abs d.
Proof.
  unfold randScale, randDenom. intros Hn. rewrite Z.abs_mul.
  assert (Hx : Z.abs d * Z.abs n <= Z.abs d * 1000000) by (apply Z.mul_le_mono_nonneg_l; lia).
  apply (Z.div_le_mono _ _ (10 * 1000000)) in Hx; [|lia]. rewrite Z.div_mul_cancel_r in Hx by lia.
  pose proof (Z.mul_div_le (Z.abs d) 10). change (10 * 1000000) with 10000000 in Hx. lia.
Qed.

Lemma scaleRand_spec d rnd : in_i64 d = true ->
  let n := randFactor rnd in
  scaleRand d n = Z.quot (d * n) randDenom /\ 10 * Z.abs (scaleRand d n) <= Z.abs d /\
  (Mul64 (abs64 d) (abs64 n)).1 < u64 randDenom.
Proof.
  intros Hd n. pose proof (randFactor_range rnd) as Hn. fold n in Hn. clearbody n.
  apply in_i64_spec in Hd as Hd'.
  assert (Hp : 0 <= Z.abs d * Z.abs n <= 2 ^ 63 * 1000000) by (unfold randScale in Hn; nia).
  rewrite !abs64_abs by (done || (apply in_i64_spec; unfold randScale in Hn; lia)). unfold Mul64. cbn [fst].
  change (u64 randDenom) with 10000000.
  assert (Hhi : Z.shiftr (Z.abs d * Z.abs n) 64 < 10000000).
  { rewrite Z.shiftr_div_pow2 by lia. set (x := Z.abs d * Z.abs n) in *. clearbody x. zpow. lia_mod. }
  enough (E : scaleRand d n = Z.quot (d * n) randDenom).
  { split; [done|]. split; [|done]. rewrite E. pose proof (tenth d n Hn) as Ht.
    rewrite <- Z.quot_div_nonneg in Ht by (unfold randDenom; lia).
    change randDenom with (Z.abs randDenom) in Ht at 1. by rewrite Z.quot_abs in Ht by done. }
  unfold scaleRand. destruct (Z.eqb_spec d 0) as [->|Hd0]; [done|].
  destruct (Z.eqb_spec n 0) as [->|Hn0]; [by rewrite Z.mul_0_r|]. cbn [orb].
  rewrite !abs64_abs by (done || (apply in_i64_spec; unfold randScale in Hn; lia)). unfold Mul64. cbv zeta.
  change (u64 randDenom) with 10000000. rewrite (proj2 (Z.leb_gt _ _)) by done. unfold Div64.
  assert (E : (Z.shiftr (Z.abs d * Z.abs n) 64 * 2 ^ 64 + u64 (Z.abs d * Z.abs n)) = Z.abs (d * n)).
  { rewrite Z.shiftr_div_pow2 by lia. unfold u64. rewrite Z.abs_mul, (Z.mul_comm (_ / _)). symmetry. by apply Z.div_mod. }
  rewrite E. unfold randDenom.
  assert (Hq : 0 <= Z.abs (d * n) / 10000000 < 2 ^ 63) by (rewrite Z.abs_mul; set (x := Z.abs d * Z.abs n) in *; clearbody x; zpow; lia_mod).
  rewrite !(i64_id (_ / _)), (i64_id (- _)) by lia.
  rewrite <- Z.quot_div_nonneg by lia. clear E Hq Hhi Hp.
  destruct (Z.ltb_spec d 0), (Z.ltb_spec n 0); cbn [xorb].
  - rewrite Z.abs_eq by nia. done.
  - rewrite (Z.abs_neq (d * n)) by nia. rewrite Z.quot_opp_l by lia. lia.
  - rewrite (Z.abs_neq (d * n)) by nia. rewrite Z.quot_opp_l by lia. lia.
  - rewrite Z.abs_eq by nia. done.
Qed.

(** RAND is scaled exactly.  For every duration and every draw, [scaleRand]
    is the real product [d * n / 10^7] truncated toward zero: the 128-bit
    intermediate never loses a bit, the guard against a panic of the division
    is never taken, and the tenfold error the comment fears cannot happen. *)
Theorem scaleRand_exact d rnd : in_i64 d = true ->
  let n := randFactor rnd in
  scaleRand d n = Z.quot (d * n) randDenom /\ 10 * Z.abs (scaleRand d n) <= Z.abs d /\
  (Mul64 (abs64 d) (abs64 n)).1 < u64 randDenom.
Proof. apply scaleRand_spec. Qed.

Lemma scaleRand_exact_witness : in_i64 (86400 * Second) = true /\
  scaleRand (86400 * Second) (randFactor 2000000) = 8640 * Second /\ scaleRand (- 2 ^ 63) (randFactor 0) = 922337203685477580.
Proof.
  assert (H : in_i64 (86400 * Second) = true) by reflexivity. split; [exact H|].
  destruct (scaleRand_exact _ 2000000 H) as (-> & _). split; [reflexivity|].
  destruct (scaleRand_exact (- 2 ^ 63) 0 eq_refl) as (-> & _). reflexivity.
Defined.

(** ** The schedule *)

(** Durations up to 2^61 nanoseconds, seventy-three years: every sum below stays
    inside an int64. *)
Definition sane (d : Duration) : Prop := 0 < d <= 2 ^ 61.

(** [within d rt]: [rt] is [d] spread over plus or minus a tenth. *)
Definition within (d rt : Duration) : Prop := 9 * d <= 10 * rt <= 11 * d.

Lemma scaled d rnd : 0 <= d < 2 ^ 63 -> - d <= 10 * scaleRand d (randFactor rnd) <= d.
Proof.
  intros Hd. destruct (scaleRand_spec d rnd) as (_ & H & _); [apply in_i64_spec; lia|]. clear - H Hd. lia.
Qed.

Lemma FirstRT_within r rnd : sane (IRT r) -> within (IRT r) (FirstRT r rnd).
Proof.
  unfold sane, within, FirstRT. intros Hd. pose proof (scaled (IRT r) rnd ltac:(lia)) as Hs.
  set (s := scaleRand _ _) in *. clearbody s. rewrite i64_id by lia. unfold nonNegative.
  rewrite (proj2 (Z.ltb_ge _ _)) by lia. lia.
Qed.

(** One more retransmission: the doubled time within a tenth of the previous
    one, or, past the ceiling, the ceiling within a tenth of itself. *)
Lemma NextRT_spec r prev rnd : sane (MRT r) -> 0 <= prev <= 2 ^ 61 + 2 ^ 59 ->
  let rt := NextRT r prev rnd in
  within (MRT r) rt /\ 10 * MRT r < 21 * prev \/ 19 * prev <= 10 * rt <= 21 * prev /\ rt <= MRT r.
Proof.
  unfold sane, within, NextRT. intros Hm Hp. pose proof (scaled prev rnd ltac:(lia)) as Hs.
  pose proof (scaled (MRT r) rnd ltac:(lia)) as Hs2. cbv zeta.
  set (s := scaleRand prev _) in *. clearbody s. set (s2 := scaleRand (MRT r) _) in *. clearbody s2.
  rewrite (i64_id (2 * prev)), (i64_id (2 * prev + s)), (i64_id (MRT r + s2)) by lia.
  rewrite (proj2 (Z.ltb_lt 0 _)) by lia. cbn [andb]. unfold nonNegative.
  destruct (Z.ltb_spec (MRT r) (2 * prev + s)); rewrite (proj2 (Z.ltb_ge _ _)) by lia; lia.
Qed.

(** The time before retransmission [length rnds], each drawn with its own
    random word. *)
Definition rt_after (r : Retransmit) (r0 : Z) (rnds : list Z) : Duration := foldl (NextRT r) (FirstRT r r0) rnds.

Lemma rt_after_inv r r0 rnds : sane (IRT r) -> sane (MRT r) ->
  let k := Z.of_nat (length rnds) in let rt := rt_after r r0 rnds in
  within (MRT r) rt \/
  9 * IRT r * 19 ^ k <= 10 ^ (k + 1) * rt /\ 9 * IRT r <= 10 * rt /\ (k = 0 /\ within (IRT r) rt \/ rt <= MRT r).
Proof.
  intros Hi Hm. induction rnds as [|rnd rnds IH] using rev_ind; cbv zeta.
  { right. cbn. pose proof (FirstRT_within r r0 Hi) as Hw. unfold within in *. split; [lia|]. split; [lia|]. by left. }
  unfold rt_after. rewrite foldl_app, length_app. cbn [foldl length]. fold (rt_after r r0 rnds).
  set (prev := rt_after r r0 rnds) in *. cbv zeta in IH. set (k := Z.of_nat (length rnds)) in *.
  unfold sane, within in *. destruct (NextRT_spec r prev rnd) as [[Hw _]|(Hg & Hle)]; [done|lia|by left|].
  destruct IH as [Hw|(Hk & Hi' & Hcase)]; [lia|]. right.
  replace (Z.of_nat (length rnds + 1)) with (k + 1) by lia.
  rewrite (Z.pow_add_r 19), (Z.pow_add_r 10 (k + 1)) by lia.
  assert (0 < 10 ^ (k + 1)) by (apply Z.pow_pos_nonneg; lia).
  split; [|split; [lia|by right]]. set (A := 9 * IRT r * 19 ^ k) in *. set (P := 10 ^ (k + 1)) in *.
  replace (9 * IRT r * (19 ^ k * 19 ^ 1)) with (A * 19) by (unfold A; lia). set (rt := NextRT _ _ _) in *.
  apply Z.le_trans with (P * prev * 19); [lia|]. replace (P * 10 ^ 1 * rt) with (P * (10 * rt)) by lia.
  rewrite <- Z.mul_assoc. apply Z.mul_le_mono_nonneg_l; lia.
Qed.

(** The schedule settles at the ceiling and never collapses.  Whatever the
    random words, every retransmission time stays between nine tenths of the
    smaller and eleven tenths of the larger of the initial and the maximum time,
    so a client never retransmits in a tight loop; and once the times have grown
    past the ceiling (by at least 1.9 per transmission) each of them is the
    ceiling within a tenth, spread anew every time. *)
Theorem schedule_settles r r0 rnds : sane (IRT r) -> sane (MRT r) ->
  let k := Z.of_nat (length rnds) in let rt := rt_after r r0 rnds in
  9 * Z.min (IRT r) (MRT r) <= 10 * rt <= 11 * Z.max (IRT r) (MRT r) /\
  (0 < k -> MRT r * 10 ^ (k + 1) < 9 * IRT r * 19 ^ k -> within (MRT r) rt).
Proof.
  intros Hi Hm k rt. pose proof (rt_after_inv r r0 rnds Hi Hm) as H. cbv zeta in H. fold k rt in H. unfold within, sane in *.
  split; [lia|]. intros Hk Hbig. destruct H as [H|(H1 & H2 & [[H3 _]|H3])]; [done|lia|].
  assert (10 ^ (k + 1) * rt <= 10 ^ (k + 1) * MRT r) by (apply Z.mul_le_mono_nonneg_l; [apply Z.pow_nonneg; lia|done]). lia.
Qed.

(** The Solicit of section 7.6, one second growing to an hour: from the
    fourteenth transmission on the time is the hour within six minutes. *)
Lemma schedule_settles_witness : let r := mkRetransmit Second (3600 * Second) 0 0 in
  3240 * Second <= rt_after r 5 (seqZ 100 13) <= 3960 * Second.
Proof.
  intros r. assert (Hi : sane (IRT r)) by (split; vm_compute; congruence).
  assert (Hm : sane (MRT r)) by (split; vm_compute; congruence).
  destruct (schedule_settles r 5 (seqZ 100 13) Hi Hm) as [_ H].
  specialize (H eq_refl eq_refl). unfold within in H. change (MRT r) with 3600000000000 in H.
  change (3240 * Second) with 3240000000000. change (3960 * Second) with 3960000000000. lia.
Defined.
