(* ===== verification/Icmpv6.v ===== *)
(** * Neighbour discovery: wire/icmpv6.go

    The checksum, the two messages the client sends (Router Solicitation, and
    the Neighbor Solicitation of duplicate address detection) and the four it
    reads, with the options of a Router Advertisement (RFC 4861, 4191, 8106 and
    8781).

    A packet's octets are what a socket gives: the fields are read at the
    offsets the source reads them at, and an offset out of range is a panic. *)

From S2P Require Import Prelude NetAddr Options Codec Values Arp Dhcp6 IpUdp.

Definition ICMPv6RouterSolicit : Z := 133.
Definition ICMPv6RouterAdvert : Z := 134.
Definition ICMPv6NeighborSolicit : Z := 135.
Definition ICMPv6NeighborAdvert : Z := 136.
Definition ICMPv6NextHeader : Z := 58.

Definition NDOptSourceLinkAddr : Z := 1.
Definition NDOptTargetLinkAddr : Z := 2.
Definition NDOptPrefixInfo : Z := 3.
Definition NDOptMTU : Z := 5.
Definition NDOptRouteInfo : Z := 24.
Definition NDOptRDNSS : Z := 25.
Definition NDOptDNSSL : Z := 31.
Definition NDOptPREF64 : Z := 38.

Definition rsFixedLen : nat := 8.
Definition raFixedLen : nat := 16.
Definition nsFixedLen : nat := 24.
Definition naFixedLen : nat := 24.
Definition pioLen : nat := 32.
Definition mtuOptLen : nat := 8.
Definition rioMinUnits : nat := 1.
Definition rioMaxUnits : nat := 3.
Definition rdnssMinUnits : nat := 3.
Definition dnsslMinUnits : nat := 2.
Definition pref64Len : nat := 16.

(** ** Addresses *)

Definition AllNodesMulticast : Addr := Addr6 (Z.lor (Z.shiftl 0xff02 112) 1) [].
Definition AllRoutersMulticast : Addr := Addr6 (Z.lor (Z.shiftl 0xff02 112) 2) [].
Definition IPv6Unspecified : Addr := Addr6 0 [].

Definition requireIPv6 (a : Addr) : wire unit := if negb (Is6 a) || Is4In6 a then Err ErrNotIPv6 else Ok tt.

Definition SolicitedNodeMulticast (a : Addr) : wire Addr :=
  _ ← requireIPv6 a;
  let b := As16 a in
  b13 ← idx b 13; b14 ← idx b 14; b15 ← idx b 15;
  Ok (AddrFrom16 ([0xFF; 0x02; 0; 0; 0; 0; 0; 0; 0; 0; 0; 0x01; 0xFF; b13; b14; b15])).

Definition LinkLocalFromMAC (mac : bytes) : wire Addr :=
  if negb (Z.of_nat (length mac) =? ARPHLenEthernet) then Err ErrICMPv6Encode else
  m0 ← idx mac 0; m1 ← idx mac 1; m2 ← idx mac 2; m3 ← idx mac 3; m4 ← idx mac 4; m5 ← idx mac 5;
  Ok (AddrFrom16 ([0xFE; 0x80; 0; 0; 0; 0; 0; 0; Z.lxor m0 0x02; m1; m2; 0xFF; 0xFE; m3; m4; m5])).

(** ** The checksum *)

(** The loops over the sixteen octets of an address, and over the body, which
    leaves out the word at offset 2. *)
Fixpoint addrWords (b : bytes) (sum : Z) : Z :=
  match b with
  | hi :: lo :: b => addrWords b (u32 (sum + Z.lor (Z.shiftl hi 8) lo))
  | _ => sum
  end.

Fixpoint bodyWords (b : bytes) (i : nat) (sum : Z) : Z :=
  match b with
  | [] => sum
  | [hi] => if (i =? 2)%nat then sum else u32 (sum + u32 (Z.shiftl hi 8))
  | hi :: lo :: b =>
    bodyWords b (i + 2) (if (i =? 2)%nat then sum else u32 (sum + Z.lor (u32 (Z.shiftl hi 8)) lo))
  end.

(** [for sum>>16 != 0]; three turns are enough for any [uint32]. *)
Fixpoint foldHigh (fuel : nat) (sum : Z) : Z :=
  match fuel with
  | O => sum
  | S fuel =>
    if Z.shiftr sum 16 =? 0 then sum
    else foldHigh fuel (u32 (Z.shiftr sum 16 + Z.land sum 0xFFFF))
  end.

Definition ICMPv6Checksum (src dst : Addr) (body : bytes) : Z :=
  let sum := addrWords (As16 dst) (addrWords (As16 src) 0) in
  let n := u32 (Z.of_nat (length body)) in
  let sum := u32 (sum + Z.shiftr n 16) in
  let sum := u32 (sum + Z.land n 0xFFFF) in
  let sum := u32 (sum + ICMPv6NextHeader) in
  not16 (u16 (foldHigh 3 (bodyWords body 0 sum))).

Definition VerifyICMPv6Checksum (src dst : Addr) (body : bytes) : wire bool :=
  if (length body <? 4)%nat then Ok false else
  c ← slice body 2 4; c ← ube16 c;
  Ok (c =? ICMPv6Checksum src dst body).

(** ** What the client sends *)

Record ICMPv6Packet := mkPacket { PSrc : Addr; PDst : Addr; PBody : bytes }.

(** [be16(body[2:4], v)] *)
Definition put16at2 (body : bytes) (v : Z) : bytes := take 2 body ++ be16 v ++ drop 4 body.

Definition encodeLinkAddrOption (typ : Z) (hw : bytes) : wire bytes :=
  if negb (Z.of_nat (length hw) =? ARPHLenEthernet) then Err ErrICMPv6Encode else Ok ([typ; 1] ++ hw).

Definition EncodeRouterSolicit (src : Addr) (linkHW : bytes) : wire ICMPv6Packet :=
  _ ← requireIPv6 src;
  let body := ICMPv6RouterSolicit :: replicate (rsFixedLen - 1) 0 in
  body ← (if negb (IsUnspecified src) && negb (length linkHW =? 0)%nat then
      opt ← encodeLinkAddrOption NDOptSourceLinkAddr linkHW; Ok (body ++ opt)
    else if IsUnspecified src && negb (length linkHW =? 0)%nat then Err ErrICMPv6Encode
    else Ok body);
  let dst := AllRoutersMulticast in
  Ok (mkPacket src dst (put16at2 body (ICMPv6Checksum src dst body))).

Definition EncodeDADNeighborSolicit (target : Addr) : wire ICMPv6Packet :=
  _ ← requireIPv6 target;
  if IsMulticast target then Err ErrICMPv6Encode else
  dst ← SolicitedNodeMulticast target;
  let src := IPv6Unspecified in
  let body := ICMPv6NeighborSolicit :: replicate 7 0 ++ As16 target in
  Ok (mkPacket src dst (put16at2 body (ICMPv6Checksum src dst body))).

(** ** The option walk *)

(** [walkNDOptions]: the callback [fn] updates the message being read. *)
Fixpoint walkNDLoop {A} (fuel : nat) (b : bytes) (i : nat) (fn : Z -> bytes -> A -> wire A) (acc : A) : wire A :=
  match fuel with
  | O => Hang
  | S fuel =>
    if (i <? length b)%nat then
      if (length b - i <? 2)%nat then Err ErrNDOption else
      l ← idx b (i + 1);
      let n := Z.to_nat (l * 8) in
      if (n =? 0)%nat then Err ErrNDOption else
      if (length b <? i + n)%nat then Err ErrNDOption else
      typ ← idx b i;
      opt ← slice b i (i + n);
      acc ← fn typ opt acc;
      walkNDLoop fuel b (i + n) fn acc
    else Ok acc
  end.

Definition walkNDOptions {A} (b : bytes) (fn : Z -> bytes -> A -> wire A) (acc : A) : wire A :=
  walkNDLoop (S (length b)) b 0 fn acc.

(** ** Router Advertisements *)

Abbreviation RoutePreference := Z (only parsing).

Definition RoutePrefLow : RoutePreference := -1.
Definition RoutePrefMedium : RoutePreference := 0.
Definition RoutePrefHigh : RoutePreference := 1.

Record PrefixInfo := mkPrefixInfo {
  PrefixLen : Z; OnLink : bool; Autonomous : bool; PiValid : Z; PiPreferred : Z; PiPrefix : Addr }.
Record RouteInfo := mkRouteInfo { RiPrefix : Prefix; RiPref : RoutePreference; RiLifetime : Z }.
Record RDNSS := mkRDNSS { RdLifetime : Z; RdAddrs : list Addr }.
Record DNSSL := mkDNSSL { DlLifetime : Z; DlNames : list gostring }.
Record PREF64 := mkPREF64 { P64Prefix : Prefix; P64Lifetime : Z }.

(** [PREF64.Withdrawn] *)
Definition Withdrawn (p : PREF64) : bool := P64Lifetime p =? 0.

Record RouterAdvert := mkRA {
  CurHopLimit : Z; Managed : bool; Other : bool; RouterLifetime : Z; RaPref : RoutePreference;
  ReachableTime : Z; RetransTimerRA : Z; RaPrefixes : list PrefixInfo; RaRouter : Addr; RaMTU : Z;
  RaRoutes : list RouteInfo; RaRDNSS : list RDNSS; RaDNSSL : list DNSSL; RaPREF64 : list PREF64;
  IgnoredOptions : Z }.

#[global] Instance eta_RA : Settable RouterAdvert := fun r =>
  mkRA (CurHopLimit r) (Managed r) (Other r) (RouterLifetime r) (RaPref r) (ReachableTime r) (RetransTimerRA r)
    (RaPrefixes r) (RaRouter r) (RaMTU r) (RaRoutes r) (RaRDNSS r) (RaDNSSL r) (RaPREF64 r) (IgnoredOptions r).

#[global] Instance PrefixInfo_eq_dec : EqDecision PrefixInfo.
Proof. solve_decision. Defined.
#[global] Instance RouteInfo_eq_dec : EqDecision RouteInfo.
Proof. solve_decision. Defined.
#[global] Instance PREF64_eq_dec : EqDecision PREF64.
Proof. solve_decision. Defined.

Definition raFlagManaged : Z := 0x80.
Definition raFlagOther : Z := 0x40.
Definition pioFlagOnLink : Z := 0x80.
Definition pioFlagAuto : Z := 0x40.

Definition decodeRoutePreference (b : Z) : RoutePreference * bool :=
  let x := Z.land (Z.shiftr b 3) 0x3 in
  if x =? 0x0 then (RoutePrefMedium, true) else
  if x =? 0x1 then (RoutePrefHigh, true) else
  if x =? 0x3 then (RoutePrefLow, true) else (RoutePrefMedium, false).

Definition decodeRouterPreference (flags lifetime : Z) : RoutePreference :=
  if lifetime =? 0 then RoutePrefMedium else
  let '(pref, ok) := decodeRoutePreference flags in
  if negb ok then RoutePrefMedium else pref.

Definition pref64Lengths : list Z := [96; 64; 56; 48; 40; 32].

(** The decoders of one option: [None] is an option its own standard's rule
    refuses. *)
Definition decodePREF64 (opt : bytes) : wire (option PREF64) :=
  if negb (length opt =? pref64Len)%nat then Ok None else
  f ← slice opt 2 4; field ← ube16 f;
  match pref64Lengths !! Z.to_nat (Z.land field 0x7) with
  | None => Ok None
  | Some plen =>
    a ← slice opt 4 16;
    let pfx := PrefixFrom (AddrFrom16 (a ++ replicate 4 0)) plen in
    Ok (Some (mkPREF64 (Masked pfx) (u32 (Z.shiftr field 3 * 8))))
  end.

Definition decodeRouteInfo (opt : bytes) : wire (option RouteInfo) :=
  let units := (length opt / 8)%nat in
  if ((units <? rioMinUnits) || (rioMaxUnits <? units))%nat then Ok None else
  plen ← idx opt 2;
  if 128 <? plen then Ok None else
  if (64 <? plen) && negb (units =? 3)%nat then Ok None else
  if (0 <? plen) && (units <? 2)%nat then Ok None else
  p ← idx opt 3;
  let '(pref, ok) := decodeRoutePreference p in
  if negb ok then Ok None else
  a ← slice opt 8 (length opt);
  let pfx := PrefixFrom (AddrFrom16 (pad_to 16 a)) plen in
  if negb (PrefixIsValid pfx) then Ok None else
  l ← slice opt 4 8; l ← ube32 l;
  Ok (Some (mkRouteInfo (Masked pfx) pref l)).

(** The address loop of [decodeRDNSS]; [None] is the return from inside it. *)
Fixpoint rdnssLoop (fuel : nat) (opt : bytes) (i : nat) (out : list Addr) : wire (option (list Addr)) :=
  match fuel with
  | O => Hang
  | S fuel =>
    if (i + 16 <=? length opt)%nat then
      s ← slice opt i (i + 16);
      let a := AddrFrom16 s in
      if IsMulticast a || IsUnspecified a then Ok None else
      rdnssLoop fuel opt (i + 16) (out ++ [a])
    else Ok (Some out)
  end.

Definition decodeRDNSS (opt : bytes) : wire (option RDNSS) :=
  let units := (length opt / 8)%nat in
  if (units <? rdnssMinUnits)%nat || negb ((units - 1) mod 2 =? 0)%nat then Ok None else
  l ← slice opt 4 8; l ← ube32 l;
  r ← rdnssLoop (S (length opt)) opt 8 [];
  match r with
  | None => Ok None
  | Some addrs => if (length addrs =? 0)%nat then Ok None else Ok (Some (mkRDNSS l addrs))
  end.

(** The name loop of [decodeDNSSL]; an empty name is padding. *)
Fixpoint dnsslLoop (fuel : nat) (opt : bytes) (i : nat) (out : list gostring) : wire (option (list gostring)) :=
  match fuel with
  | O => Hang
  | S fuel =>
    if (i <? length opt)%nat then
      match readNameUncompressed opt i with
      | Err _ => Ok None
      | Panic => Panic
      | Hang => Hang
      | Ok (name, next) => dnsslLoop fuel opt next (if bytes_eqb name [] then out else out ++ [name])
      end
    else Ok (Some out)
  end.

Definition decodeDNSSL (opt : bytes) : wire (option DNSSL) :=
  if (length opt / 8 <? dnsslMinUnits)%nat then Ok None else
  l ← slice opt 4 8; l ← ube32 l;
  r ← dnsslLoop (S (length opt)) opt 8 [];
  match r with
  | None => Ok None
  | Some names => if (length names =? 0)%nat then Ok None else Ok (Some (mkDNSSL l names))
  end.

Definition ignored (ra : RouterAdvert) : RouterAdvert := ra <| IgnoredOptions := IgnoredOptions ra + 1 |>.

(** The callback of [DecodeRouterAdvert]. *)
Definition raOption (typ : Z) (opt : bytes) (ra : RouterAdvert) : wire RouterAdvert :=
  if typ =? NDOptPrefixInfo then
    if negb (length opt =? pioLen)%nat then Ok (ignored ra) else
    plen ← idx opt 2; flags ← idx opt 3;
    v ← slice opt 4 8; v ← ube32 v;
    p ← slice opt 8 12; p ← ube32 p;
    a ← slice opt 16 32;
    Ok (ra <| RaPrefixes := RaPrefixes ra ++ [mkPrefixInfo plen (negb (Z.land flags pioFlagOnLink =? 0))
      (negb (Z.land flags pioFlagAuto =? 0)) v p (AddrFrom16 a)] |>)
  else if typ =? NDOptMTU then
    if negb (length opt =? mtuOptLen)%nat then Ok (ignored ra) else
    m ← slice opt 4 8; m ← ube32 m;
    Ok (ra <| RaMTU := m |>)
  else if typ =? NDOptRouteInfo then
    r ← decodeRouteInfo opt;
    match r with None => Ok (ignored ra) | Some ri => Ok (ra <| RaRoutes := RaRoutes ra ++ [ri] |>) end
  else if typ =? NDOptRDNSS then
    r ← decodeRDNSS opt;
    match r with None => Ok (ignored ra) | Some r => Ok (ra <| RaRDNSS := RaRDNSS ra ++ [r] |>) end
  else if typ =? NDOptDNSSL then
    r ← decodeDNSSL opt;
    match r with None => Ok (ignored ra) | Some d => Ok (ra <| RaDNSSL := RaDNSSL ra ++ [d] |>) end
  else if typ =? NDOptPREF64 then
    r ← decodePREF64 opt;
    match r with None => Ok (ignored ra) | Some p => Ok (ra <| RaPREF64 := RaPREF64 ra ++ [p] |>) end
  else Ok ra.

Definition requireZeroCode (code : Z) : wire unit := if code =? 0 then Ok tt else Err ErrICMPv6Validity.

Definition DecodeRouterAdvert (b : bytes) : wire RouterAdvert :=
  if (length b <? raFixedLen)%nat then Err ErrICMPv6Short else
  t ← idx b 0;
  if negb (t =? ICMPv6RouterAdvert) then Err ErrICMPv6Type else
  code ← idx b 1;
  _ ← requireZeroCode code;
  hop ← idx b 4; flags ← idx b 5;
  l ← slice b 6 8; lifetime ← ube16 l;
  r ← slice b 8 12; reachable ← ube32 r;
  x ← slice b 12 16; retrans ← ube32 x;
  let ra := mkRA hop (negb (Z.land flags raFlagManaged =? 0)) (negb (Z.land flags raFlagOther =? 0)) lifetime
    (decodeRouterPreference flags lifetime) reachable retrans [] AddrZero 0 [] [] [] [] 0 in
  body ← slice b raFixedLen (length b);
  walkNDOptions body raOption ra.

(** ** Neighbor Solicitations and Advertisements *)

Record NeighborSolicit := mkNS { NsTarget : Addr; HasSourceLinkAddr : bool }.

Definition DecodeNeighborSolicit (b : bytes) : wire NeighborSolicit :=
  if (length b <? nsFixedLen)%nat then Err ErrICMPv6Short else
  t ← idx b 0;
  if negb (t =? ICMPv6NeighborSolicit) then Err ErrICMPv6Type else
  code ← idx b 1;
  _ ← requireZeroCode code;
  a ← slice b 8 24;
  let target := AddrFrom16 a in
  if IsMulticast target then Err ErrICMPv6Validity else
  body ← slice b nsFixedLen (length b);
  walkNDOptions body (fun typ _ ns =>
    Ok (if typ =? NDOptSourceLinkAddr then mkNS (NsTarget ns) true else ns)) (mkNS target false).

Record NeighborAdvert := mkNA { NaRouter : bool; Solicited : bool; Override : bool; NaTarget : Addr }.

Definition naFlagRouter : Z := 0x80.
Definition naFlagSolicited : Z := 0x40.
Definition naFlagOverride : Z := 0x20.

Definition DecodeNeighborAdvert (b : bytes) : wire NeighborAdvert :=
  if (length b <? naFixedLen)%nat then Err ErrICMPv6Short else
  t ← idx b 0;
  if negb (t =? ICMPv6NeighborAdvert) then Err ErrICMPv6Type else
  code ← idx b 1;
  _ ← requireZeroCode code;
  a ← slice b 8 24;
  let target := AddrFrom16 a in
  if IsMulticast target then Err ErrICMPv6Validity else
  body ← slice b naFixedLen (length b);
  _ ← walkNDOptions body (fun _ _ u => Ok u) tt;
  flags ← idx b 4;
  Ok (mkNA (negb (Z.land flags naFlagRouter =? 0)) (negb (Z.land flags naFlagSolicited =? 0))
    (negb (Z.land flags naFlagOverride =? 0)) target).

(** ** The walk ends, whatever the lengths say *)

Lemma walkNDLoop_returns {A} (fn : Z -> bytes -> A -> wire A) b fuel :
  (forall typ opt acc, (length opt mod 8 = 0)%nat -> (8 <= length opt)%nat -> returns (fn typ opt acc)) ->
  forall i acc, (length b - i < fuel)%nat -> returns (walkNDLoop fuel b i fn acc).
Proof.
  intros Hfn. induction fuel as [|fuel IH]; intros i acc Hf; [lia|]. cbn [walkNDLoop].
  destruct (Nat.ltb_spec i (length b)); [|done]. destruct (Nat.ltb_spec (length b - i) 2); [done|].
  apply returns_bind; [apply returns_idx; lia|intros l _]. destruct (Nat.eqb_spec (Z.to_nat (l * 8)) 0); [done|].
  destruct (Nat.ltb_spec (length b) (i + Z.to_nat (l * 8))); [done|].
  apply returns_bind; [apply returns_idx; lia|intros typ _]. apply returns_slice_bind; [lia..|]. intros opt Hopt.
  assert (Hl : (length opt = 8 * Z.to_nat l)%nat) by lia.
  apply returns_bind; [apply Hfn; rewrite Hl; [rewrite Nat.mul_comm; apply Nat.Div0.mod_mul|lia]|]. intros acc' _. apply IH. lia.
Qed.

Lemma walkNDOptions_returns {A} (fn : Z -> bytes -> A -> wire A) b acc :
  (forall typ opt acc, (length opt mod 8 = 0)%nat -> (8 <= length opt)%nat -> returns (fn typ opt acc)) ->
  returns (walkNDOptions b fn acc).
Proof. intros Hfn. apply walkNDLoop_returns; [done|lia]. Qed.

Lemma decodePREF64_returns opt : returns (decodePREF64 opt).
Proof.
  unfold decodePREF64, pref64Len. destruct (Nat.eqb_spec (length opt) 16); [|done]. cbn [negb].
  apply returns_slice_bind; [lia..|]. intros f Hf. apply returns_bind; [apply returns_ube16; lia|intros x _].
  destruct (_ !! _); [|done]. by apply returns_slice_bind; [lia..|].
Qed.

Lemma decodeRouteInfo_returns opt : (length opt mod 8 = 0)%nat -> returns (decodeRouteInfo opt).
Proof.
  intros Hm. unfold decodeRouteInfo, rioMinUnits, rioMaxUnits.
  destruct (Nat.ltb_spec (length opt / 8) 1); [done|]. destruct (3 <? _)%nat; [done|]. cbn [orb].
  assert (8 <= length opt)%nat by lia_mod. apply returns_bind; [apply returns_idx; lia|intros plen _].
  destruct (128 <? plen); [done|]. destruct (_ && _)%bool; [done|]. destruct (_ && _)%bool; [done|].
  apply returns_bind; [apply returns_idx; lia|intros p _]. destruct (decodeRoutePreference p) as [pref ok].
  destruct ok; [|done]. cbn [negb]. apply returns_slice_bind; [lia..|]. intros a _. destruct (negb _); [done|].
  apply returns_slice_bind; [lia..|]. intros l Hl. by apply returns_bind; [apply returns_ube32; lia|].
Qed.

Lemma rdnssLoop_returns opt fuel : forall i out, (length opt - i < fuel)%nat -> returns (rdnssLoop fuel opt i out).
Proof.
  induction fuel as [|fuel IH]; intros i out Hf; [lia|]. cbn [rdnssLoop].
  destruct (Nat.leb_spec (i + 16) (length opt)); [|done]. apply returns_slice_bind; [lia..|]. intros s _.
  destruct (_ || _)%bool; [done|]. apply IH. lia.
Qed.

Lemma decodeRDNSS_returns opt : returns (decodeRDNSS opt).
Proof.
  unfold decodeRDNSS, rdnssMinUnits. destruct (Nat.ltb_spec (length opt / 8) 3); [done|]. cbn [orb].
  destruct (negb _); [done|]. assert (24 <= length opt)%nat by lia_mod.
  apply returns_slice_bind; [lia..|]. intros l Hl. apply returns_bind; [apply returns_ube32; lia|intros x _].
  apply returns_bind; [apply rdnssLoop_returns; lia|]. intros [r|] _; [|done]. by destruct (_ =? _)%nat.
Qed.

Lemma dnsslLoop_returns opt fuel : forall i out, (length opt - i < fuel)%nat -> returns (dnsslLoop fuel opt i out).
Proof.
  induction fuel as [|fuel IH]; intros i out Hf; [lia|]. cbn [dnsslLoop].
  destruct (Nat.ltb_spec i (length opt)); [|done].
  destruct (readNameUncompressed opt i) as [[name next]| | |] eqn:Hr; [|done|by destruct (readNameUncompressed_returns opt i)..].
  unfold readNameUncompressed in Hr. apply name6Loop_next in Hr. apply IH. lia.
Qed.

Lemma decodeDNSSL_returns opt : (length opt mod 8 = 0)%nat -> returns (decodeDNSSL opt).
Proof.
  intros Hm. unfold decodeDNSSL, dnsslMinUnits. destruct (Nat.ltb_spec (length opt / 8) 2); [done|].
  assert (16 <= length opt)%nat by lia_mod.
  apply returns_slice_bind; [lia..|]. intros l Hl. apply returns_bind; [apply returns_ube32; lia|intros x _].
  apply returns_bind; [apply dnsslLoop_returns; lia|]. intros [r|] _; [|done]. by destruct (_ =? _)%nat.
Qed.

Lemma raOption_returns typ opt ra : (length opt mod 8 = 0)%nat -> (8 <= length opt)%nat -> returns (raOption typ opt ra).
Proof.
  intros Hm H8. unfold raOption, pioLen, mtuOptLen. destruct (typ =? NDOptPrefixInfo).
  { destruct (Nat.eqb_spec (length opt) 32); [|done]. cbn [negb].
    do 2 (apply returns_bind; [apply returns_idx; lia|intros ? _]).
    do 2 (apply returns_slice_bind; [lia..|intros ? ?]; apply returns_bind; [apply returns_ube32; lia|intros ? _]).
    by apply returns_slice_bind; [lia..|]. }
  destruct (typ =? NDOptMTU).
  { destruct (Nat.eqb_spec (length opt) 8); [|done]. cbn [negb].
    apply returns_slice_bind; [lia..|intros ? ?]. by apply returns_bind; [apply returns_ube32; lia|]. }
  destruct (typ =? NDOptRouteInfo); [apply returns_bind; [by apply decodeRouteInfo_returns|by intros [?|]]|].
  destruct (typ =? NDOptRDNSS); [apply returns_bind; [by apply decodeRDNSS_returns|by intros [?|]]|].
  destruct (typ =? NDOptDNSSL); [apply returns_bind; [by apply decodeDNSSL_returns|by intros [?|]]|].
  destruct (typ =? NDOptPREF64); [apply returns_bind; [by apply decodePREF64_returns|by intros [?|]]|done].
Qed.

(** Neighbour discovery input is total.  On every octet string the three
    decoders and the checksum test return a value or an error: no length octet
    takes a read outside the packet, and none of them loops. *)
Theorem nd_returns b src dst :
  returns (DecodeRouterAdvert b) /\ returns (DecodeNeighborSolicit b) /\ returns (DecodeNeighborAdvert b) /\
  returns (VerifyICMPv6Checksum src dst b).
Proof.
  split; [|split; [|split]].
  - unfold DecodeRouterAdvert, raFixedLen, requireZeroCode. destruct (Nat.ltb_spec (length b) 16); [done|].
    apply returns_bind; [apply returns_idx; lia|intros t _]. destruct (negb _); [done|].
    apply returns_bind; [apply returns_idx; lia|intros c _]. destruct (c =? 0); [|done]. cbn [mbind outcome_bind].
    do 2 (apply returns_bind; [apply returns_idx; lia|intros ? _]).
    apply returns_slice_bind; [lia..|intros ? ?]. apply returns_bind; [apply returns_ube16; lia|intros ? _].
    do 2 (apply returns_slice_bind; [lia..|intros ? ?]; apply returns_bind; [apply returns_ube32; lia|intros ? _]).
    apply returns_slice_bind; [lia..|intros ? _]. apply walkNDOptions_returns. intros. by apply raOption_returns.
  - unfold DecodeNeighborSolicit, nsFixedLen, requireZeroCode. destruct (Nat.ltb_spec (length b) 24); [done|].
    apply returns_bind; [apply returns_idx; lia|intros t _]. destruct (negb _); [done|].
    apply returns_bind; [apply returns_idx; lia|intros c _]. destruct (c =? 0); [|done]. cbn [mbind outcome_bind].
    apply returns_slice_bind; [lia..|intros a _]. destruct (IsMulticast _); [done|].
    apply returns_slice_bind; [lia..|intros ? _]. by apply walkNDOptions_returns.
  - unfold DecodeNeighborAdvert, naFixedLen, requireZeroCode. destruct (Nat.ltb_spec (length b) 24); [done|].
    apply returns_bind; [apply returns_idx; lia|intros t _]. destruct (negb _); [done|].
    apply returns_bind; [apply returns_idx; lia|intros c _]. destruct (c =? 0); [|done]. cbn [mbind outcome_bind].
    apply returns_slice_bind; [lia..|intros a _]. destruct (IsMulticast _); [done|].
    apply returns_slice_bind; [lia..|intros ? _]. apply returns_bind; [by apply walkNDOptions_returns|intros u _].
    by apply returns_bind; [apply returns_idx; lia|].
  - unfold VerifyICMPv6Checksum. destruct (Nat.ltb_spec (length b) 4); [done|].
    apply returns_slice_bind; [lia..|intros c Hc]. by apply returns_bind; [apply returns_ube16; lia|].
Qed.

(** ** The checksum is RFC 1071's *)

Lemma As16_bytes_length a : are_bytes (As16 a) /\ length (As16 a) = 16%nat.
Proof.
  destruct a as [|v|v z]; cbn [As16].
  - split; [apply (bool_decide_unpack _); vm_compute; exact I|done].
  - split; [|done]. rewrite !are_bytes_app. split; [apply (bool_decide_unpack _); vm_compute; exact I|].
    split; [by repeat constructor|apply octets4_bytes].
  - split; [apply toBE_bytes|apply length_toBE].
Qed.

Lemma addrWords_ok b : forall sum, are_bytes b -> Nat.even (length b) = true -> 0 <= sum -> sum + words b < 2 ^ 32 ->
  addrWords b sum = sum + words b.
Proof.
  induction b as [|x|x y l IH] using words_ind; intros sum; cbn [words addrWords length Nat.even];
    repeat rewrite are_bytes_cons; [lia|done|].
  intros (? & ? & Hl) ? ? ?. pose proof (words_bound l Hl). rewrite lor_shiftl_add by lia.
  rewrite u32_id by lia. rewrite IH by (done || lia). lia.
Qed.

Lemma bodyWords_ok b : forall i sum, (4 <= i)%nat -> are_bytes b -> 0 <= sum -> sum + words b < 2 ^ 32 ->
  bodyWords b i sum = sum + words b.
Proof.
  induction b as [|x|x y l IH] using words_ind; intros i sum Hi; cbn [words bodyWords];
    rewrite ?are_bytes_cons; rewrite ?(proj2 (Nat.eqb_neq i 2)) by lia.
  - lia.
  - intros [? _] ? ?. rewrite Z.shiftl_mul_pow2 by lia. rewrite (u32_id (x * 2 ^ 8)), u32_id by lia. lia.
  - intros (? & ? & Hl) ? ?. pose proof (words_bound l Hl).
    rewrite (u32_id (Z.shiftl x 8)) by (rewrite Z.shiftl_mul_pow2 by lia; zpow; lia).
    rewrite lor_shiftl_add by lia. rewrite u32_id by lia. rewrite IH by (done || lia). lia.
Qed.

Lemma foldHigh_foldCarries fuel : forall sum, foldHigh fuel sum = foldCarries fuel sum.
Proof. induction fuel as [|fuel IH]; intros sum; [done|]. cbn. rewrite IH. by rewrite Z.add_comm. Qed.

(** The sum of the pseudo-header and the body without its checksum field. *)
Definition icmpSum (src dst : Addr) (body : bytes) : Z :=
  words (As16 src) + words (As16 dst) + Z.of_nat (length body) + 58 + words body.

Lemma ICMPv6Checksum_ok src dst t c k rest (b := t :: c :: be16 k ++ rest) : are_bytes b -> 0 <= k < 65536 ->
  Z.of_nat (length b) < 65536 -> ICMPv6Checksum src dst b = 65535 - ones (icmpSum src dst b - k).
Proof.
  intros Hb Hk Hlen. unfold ICMPv6Checksum.
  destruct (As16_bytes_length src) as [Hs Hsl], (As16_bytes_length dst) as [Hd Hdl].
  pose proof (words_bound _ Hs) as Hsw. pose proof (words_bound _ Hd) as Hdw. rewrite Hsl in Hsw. rewrite Hdl in Hdw.
  rewrite (addrWords_ok (As16 src)), addrWords_ok by (done || lia || by rewrite ?Hsl, ?Hdl).
  rewrite (u32_id (Z.of_nat (length b))) by lia.
  rewrite Z.shiftr_div_pow2, (Z.div_small (Z.of_nat _)), Z.add_0_r by lia.
  change 0xFFFF with (Z.ones 16). rewrite Z.land_ones, (Z.mod_small (Z.of_nat _)) by lia.
  set (base := 0 + words (As16 src) + words (As16 dst)) in *. unfold ICMPv6NextHeader.
  rewrite (u32_id base), (u32_id (base + _)), (u32_id (base + _ + 58)) by lia.
  assert (Hw : words b = t * 256 + c + k + words rest).
  { unfold b. cbn [be16 words app]. pose proof (word_be16 k Hk). lia. }
  assert (Hr : are_bytes rest) by (unfold b, be16 in Hb; cbn [app] in Hb; repeat rewrite are_bytes_cons in Hb; apply Hb).
  assert (Htc : 0 <= t < 256 /\ 0 <= c < 256) by (unfold b in Hb; repeat rewrite are_bytes_cons in Hb; split; apply Hb).
  pose proof (words_bound rest Hr) as Hrw.
  assert (Hlr : (length b = 4 + length rest)%nat) by done.
  assert (E : bodyWords b 0 (base + Z.of_nat (length b) + 58) = icmpSum src dst b - k).
  { unfold b at 1, be16. cbn [app bodyWords Nat.eqb Nat.add].
    rewrite (u32_id (Z.shiftl t 8)) by (rewrite Z.shiftl_mul_pow2 by lia; zpow; lia).
    rewrite lor_shiftl_add by lia. rewrite u32_id by lia. rewrite bodyWords_ok by (done || lia).
    unfold icmpSum. rewrite Hw. unfold base. lia. }
  rewrite E, foldHigh_foldCarries. unfold icmpSum in *. rewrite foldCarries_spec by (unfold base in *; lia).
  pose proof (ones_range (words (As16 src) + words (As16 dst) + Z.of_nat (length b) + 58 + words b - k) ltac:(unfold base in *; lia)).
  rewrite u16_id, not16_ok by lia. done.
Qed.

Lemma ones_minus S k : 58 <= S - k -> 0 <= k <= 65535 ->
  (k = 65535 - ones (S - k) -> ones S = 65535) /\ (ones S = 65535 -> k <> 65535 -> k = 65535 - ones (S - k)).
Proof.
  intros Hp Hk. unfold ones. destruct (Z.eqb_spec (S - k) 0); [lia|]. destruct (Z.eqb_spec S 0); [lia|].
  split; intros; lia_mod.
Qed.

(** The ICMPv6 checksum is RFC 1071's.  What [VerifyICMPv6Checksum] accepts
    sums, with the IPv6 pseudo-header, to all ones; and every packet that sums to
    all ones is accepted, unless its field holds the all-ones word no sender of a
    non-zero sum writes.  No 32-bit sum in the loops wraps. *)
Theorem icmp_checksum_rfc1071 src dst b : are_bytes b -> (4 <= length b)%nat -> Z.of_nat (length b) < 65536 ->
  let S := icmpSum src dst b in
  (VerifyICMPv6Checksum src dst b = Ok true -> ones S = 65535) /\
  (ones S = 65535 -> slice (E := WireErr) b 2 4 <> Ok [0xFF; 0xFF] -> VerifyICMPv6Checksum src dst b = Ok true).
Proof.
  intros Hb H4 Hlen. cbv zeta. destruct b as [|t [|c [|x [|y rest]]]]; cbn [length] in H4; try lia.
  assert (Hxy : exists k, [x; y] = be16 k /\ 0 <= k < 65536 /\ ube16 (E := WireErr) [x; y] = Ok k).
  { repeat rewrite are_bytes_cons in Hb. destruct Hb as (_ & _ & Hx & Hy & _).
    destruct (@ube16_returns WireErr [x; y]) as [k Hk]; [done|]. exists k.
    destruct (@be16_ube16 WireErr [x; y] k) as [Hbk ?]; [repeat rewrite are_bytes_cons; split; [done|split; [done|by apply Forall_nil]]|done|done|].
    by rewrite Hbk. }
  destruct Hxy as (k & Exy & Hk & Hu). change (t :: c :: x :: y :: rest) with (t :: c :: [x; y] ++ rest) in *.
  unfold VerifyICMPv6Checksum. replace (length _ <? 4)%nat with false by done.
  replace (slice (E := WireErr) (t :: c :: [x; y] ++ rest) 2 4) with (Ok [x; y] : wire bytes)
    by (symmetry; by apply (slice_at _ [t; c] [x; y] rest)).
  cbn [mbind outcome_bind]. rewrite Hu. cbn [mbind outcome_bind].
  rewrite Exy in *. rewrite (ICMPv6Checksum_ok src dst t c k rest Hb Hk Hlen).
  set (S := icmpSum _ _ _).
  assert (Hp : 58 <= S - k).
  { unfold S, icmpSum. rewrite ?Exy. unfold be16. cbn [app words length]. pose proof (word_be16 k Hk).
    destruct (As16_bytes_length src) as [Hs _], (As16_bytes_length dst) as [Hd _].
    apply words_bound in Hs, Hd. unfold be16 in Hb. cbn [app] in Hb. repeat rewrite are_bytes_cons in Hb.
    destruct Hb as (? & ? & _ & _ & Hr). apply words_bound in Hr. lia. }
  destruct (ones_minus S k Hp ltac:(lia)) as [H1 H2]. split.
  - intros [= Hv%Z.eqb_eq]. by apply H1.
  - intros Ho Hne. do 2 f_equal. apply Z.eqb_eq, H2; [done|]. intros ->. by apply Hne.
Qed.

(** A Router Solicitation from the unspecified address to all routers. *)
Lemma icmp_checksum_rfc1071_witness :
  let b := [133; 0; 0x7B; 0xB8; 0; 0; 0; 0] in
  VerifyICMPv6Checksum IPv6Unspecified AllRoutersMulticast b = Ok true /\
  ones (icmpSum IPv6Unspecified AllRoutersMulticast b) = 65535.
Proof.
  intros b. split; [vm_compute; reflexivity|].
  destruct (icmp_checksum_rfc1071 IPv6Unspecified AllRoutersMulticast b) as [H1 _].
  - repeat (apply are_bytes_cons; split; [done|]). apply Forall_nil, I.
  - apply (bool_decide_unpack _). vm_compute. exact I.
  - apply (bool_decide_unpack _). vm_compute. exact I.
  - apply H1. vm_compute. reflexivity.
Defined.

(** ** What the client sends is what a receiver checks *)

Lemma put_checksum src dst t c rest : let body k := t :: c :: be16 k ++ rest in
  are_bytes (body 0) -> Z.of_nat (length (body 0)) < 65536 ->
  VerifyICMPv6Checksum src dst (put16at2 (body 0) (ICMPv6Checksum src dst (body 0))) = Ok true.
Proof.
  intros body Hb Hlen. set (k := ICMPv6Checksum src dst (body 0)).
  assert (Hk : k = 65535 - ones (icmpSum src dst (body 0) - 0)) by (by apply ICMPv6Checksum_ok).
  clearbody k.
  destruct (As16_bytes_length src) as [Hs _], (As16_bytes_length dst) as [Hd _].
  apply words_bound in Hs, Hd. pose proof (words_bound _ Hb) as Hw.
  pose proof (ones_range (icmpSum src dst (body 0) - 0) ltac:(unfold icmpSum; lia)) as Hr.
  change (put16at2 (body 0) k) with (body k). unfold VerifyICMPv6Checksum.
  replace (length (body k) <? 4)%nat with false by done.
  replace (slice (E := WireErr) (body k) 2 4) with (Ok (be16 k) : wire bytes)
    by (symmetry; by apply (slice_at _ [t; c] (be16 k) rest)).
  cbn [mbind outcome_bind]. rewrite ube16_be16' by lia. cbn [mbind outcome_bind]. do 2 f_equal. apply Z.eqb_eq.
  change (ICMPv6Checksum src dst (body k)) with (ICMPv6Checksum src dst (t :: c :: be16 k ++ rest)).
  rewrite (ICMPv6Checksum_ok src dst t c k rest); [| |lia|exact Hlen].
  - rewrite Hk at 1. do 2 f_equal. unfold icmpSum, body, be16. cbn [app words length].
    pose proof (word_be16 k ltac:(lia)). change (u8 (Z.shiftr 0 8)) with 0. change (u8 0) with 0. lia.
  - unfold body, be16 in Hb |- *. cbn [app] in *. repeat rewrite are_bytes_cons in *.
    destruct Hb as (? & ? & _ & _ & ?). split; [done|]. split; [done|]. split; [apply u8_range|]. split; [apply u8_range|done].
Qed.

Lemma EncodeRouterSolicit_form src hw pkt : are_bytes hw -> EncodeRouterSolicit src hw = Ok pkt ->
  VerifyICMPv6Checksum (PSrc pkt) (PDst pkt) (PBody pkt) = Ok true /\ PDst pkt = AllRoutersMulticast.
Proof.
  intros Hhw Hrs. apply bind_ok_inv in Hrs as (u & _ & Hrs). apply bind_ok_inv in Hrs as (body & Hbody & Hrs).
  injection Hrs as <-. cbn [PSrc PDst PBody]. split; [|done].
  assert (Hform : exists rest, body = ICMPv6RouterSolicit :: 0 :: be16 0 ++ rest /\ are_bytes rest /\ (length rest <= 12)%nat).
  { destruct (_ && _)%bool.
    - apply bind_ok_inv in Hbody as (opt & Ho & Hbody). apply ok_inj in Hbody as <-. unfold encodeLinkAddrOption in Ho.
      destruct (Z.eqb_spec (Z.of_nat (length hw)) ARPHLenEthernet) as [Hl|]; [|done]. injection Ho as <-.
      exists (replicate 4 0 ++ [NDOptSourceLinkAddr; 1] ++ hw). split; [done|]. unfold ARPHLenEthernet in Hl.
      rewrite !length_app, length_replicate. cbn [length]. split; [|lia]. rewrite !are_bytes_app.
      split; [by repeat constructor|]. split; [by repeat constructor|done].
    - destruct (_ && _)%bool; [done|]. injection Hbody as <-. exists (replicate 4 0). split; [done|].
      split; [by repeat constructor|cbn; lia]. }
  destruct Hform as (rest & -> & Hr & Hrl).
  apply put_checksum; [|cbn [length]; rewrite length_app; cbn [length be16]; lia].
  change (are_bytes ([ICMPv6RouterSolicit; 0; 0; 0] ++ rest)). apply are_bytes_app. split; [by repeat constructor|done].
Qed.

Lemma SolicitedNode_multicast a g : SolicitedNodeMulticast a = Ok g -> IsMulticast g = true.
Proof.
  intros H. apply bind_ok_inv in H as (u & _ & H). cbv zeta in H. destruct (As16_bytes_length a) as [Ht _].
  apply bind_ok_inv in H as (x & Hx & H). apply bind_ok_inv in H as (y & Hy & H). apply bind_ok_inv in H as (z & Hz & H).
  injection H as <-.
  assert (Hbz : forall i v, @idx WireErr (As16 a) i = Ok v -> is_byte v).
  { intros i v Hi. unfold idx in Hi. destruct (As16 a !! i) as [w|] eqn:E; [|done]. injection Hi as <-.
    by apply (Forall_lookup_1 _ _ _ _ Ht E). }
  apply Hbz in Hx, Hy, Hz.
  assert (Hbs : are_bytes [0; 0; 0; 0; 0; 0; 0; 0; 0; 1; 255; x; y; z]).
  { change (are_bytes ([0; 0; 0; 0; 0; 0; 0; 0; 0; 1; 255] ++ [x; y; z])). apply are_bytes_app.
    split; [apply (bool_decide_unpack _); vm_compute; exact I|]. do 3 (apply are_bytes_cons; split; [done|]); constructor. }
  unfold AddrFrom16, IsMulticast, Unmap, Is4In6. set (v := fromBE _).
  assert (Hlo : 0xFF02 * 2 ^ 112 <= v < 0xFF03 * 2 ^ 112).
  { unfold v. change [255; 2; 0; 0; 0; 0; 0; 0; 0; 0; 0; 1; 255; x; y; z] with ([255; 2] ++ [0; 0; 0; 0; 0; 0; 0; 0; 0; 1; 255; x; y; z]).
    rewrite fromBE_app by done. change (fromBE [255; 2]) with 0xFF02. cbn [length].
    pose proof (fromBE_range [0; 0; 0; 0; 0; 0; 0; 0; 0; 1; 255; x; y; z] Hbs) as Hr. cbn [length] in Hr.
    lia. }
  clearbody v. rewrite !Z.shiftr_div_pow2 by lia.
  destruct (Z.eqb_spec (v / 2 ^ 32) 65535); [lia_mod|]. rewrite Z.shiftr_div_pow2 by lia. apply Z.eqb_eq. lia_mod.
Qed.

Lemma EncodeDAD_form target probe : addr_wf target -> EncodeDADNeighborSolicit target = Ok probe ->
  VerifyICMPv6Checksum (PSrc probe) (PDst probe) (PBody probe) = Ok true /\
  SolicitedNodeMulticast target = Ok (PDst probe) /\ PSrc probe = IPv6Unspecified /\
  DecodeNeighborSolicit (PBody probe) = Ok (mkNS (WithoutZone target) false).
Proof.
  intros Hwf Hns. unfold EncodeDADNeighborSolicit, requireIPv6 in Hns.
  destruct (Is6 target) eqn:H6; [|done]. destruct (Is4In6 target) eqn:H46; [done|]. cbn [negb orb mbind outcome_bind] in Hns.
  destruct (IsMulticast target) eqn:Hm; [done|]. apply bind_ok_inv in Hns as (dst & Hdst & Hns).
  injection Hns as <-. cbn [PSrc PDst PBody]. rewrite Hdst.
  destruct target as [|?|v zone]; try done. cbn [WithoutZone addr_wf] in *. set (body := _ :: _ :: _).
  assert (Hb : are_bytes body).
  { change (are_bytes ([ICMPv6NeighborSolicit; 0; 0; 0; 0; 0; 0; 0] ++ toBE 16 v)).
    apply are_bytes_app. split; [by repeat constructor|apply toBE_bytes]. }
  split; [by apply (put_checksum IPv6Unspecified dst ICMPv6NeighborSolicit 0 (replicate 4 0 ++ toBE 16 v))|].
  split; [done|]. split; [done|].
  set (k := ICMPv6Checksum _ _ _). clearbody k.
  change (put16at2 body k) with ([ICMPv6NeighborSolicit; 0] ++ be16 k ++ replicate 4 0 ++ toBE 16 v).
  set (b := _ ++ _). assert (Hb24 : length b = 24%nat) by done.
  unfold DecodeNeighborSolicit, nsFixedLen. rewrite Hb24. cbn [Nat.ltb Nat.leb].
  assert (Hs : slice (E := WireErr) b 8 24 = Ok (toBE 16 v)).
  { apply (slice_at _ ([ICMPv6NeighborSolicit; 0] ++ be16 k ++ replicate 4 0) (toBE 16 v) []); [|done|done].
    unfold b. by rewrite app_nil_r, <- !app_assoc. }
  change (@idx WireErr b 0) with (Ok ICMPv6NeighborSolicit : wire Z). change (@idx WireErr b 1) with (Ok 0 : wire Z).
  rewrite Hs. cbn [mbind outcome_bind requireZeroCode Z.eqb]. rewrite AddrFrom16_As16 by done.
  replace (IsMulticast (Addr6 v [])) with false by (rewrite <- Hm; unfold IsMulticast, Unmap; cbn [Is4In6] in H46 |- *; by rewrite H46).
  assert (Ht : slice (E := WireErr) b 24 24 = Ok []) by (rewrite slice_ok by lia; by rewrite Nat.sub_diag). by rewrite Ht.
Qed.

(** The solicitations are well formed.  A Router Solicitation goes to the
    all-routers group and a duplicate-address probe to the solicited-node group
    of its target, both with a checksum a receiver accepts; the probe decodes to
    a Neighbor Solicitation for the target with no source link-layer address
    option; and the probe's encoder never panics on an address of the type. *)
Theorem solicitations_wellformed src hw pkt target probe : are_bytes hw -> addr_wf target ->
  EncodeRouterSolicit src hw = Ok pkt -> EncodeDADNeighborSolicit target = Ok probe ->
  VerifyICMPv6Checksum (PSrc pkt) (PDst pkt) (PBody pkt) = Ok true /\ PDst pkt = AllRoutersMulticast /\
  VerifyICMPv6Checksum (PSrc probe) (PDst probe) (PBody probe) = Ok true /\
  SolicitedNodeMulticast target = Ok (PDst probe) /\ IsMulticast (PDst probe) = true /\ PSrc probe = IPv6Unspecified /\
  DecodeNeighborSolicit (PBody probe) = Ok (mkNS (WithoutZone target) false).
Proof.
  intros Hhw Hwf Hrs Hns. destruct (EncodeRouterSolicit_form src hw pkt Hhw Hrs) as [H1 H2].
  destruct (EncodeDAD_form target probe Hwf Hns) as (H3 & H4 & H5 & H6).
  split; [exact H1|]. split; [exact H2|]. split; [exact H3|]. split; [exact H4|].
  split; [exact (SolicitedNode_multicast _ _ H4)|]. split; [exact H5|exact H6].
Qed.

Lemma solicitations_wellformed_witness : exists pkt probe,
  EncodeRouterSolicit (Addr6 (Z.lor (Z.shiftl 0xfe80 112) 1) []) [2; 0; 0; 0; 0; 1] = Ok pkt /\
  EncodeDADNeighborSolicit (Addr6 (Z.lor (Z.shiftl 0x20010db8 96) 0x1234567) []) = Ok probe /\
  length (PBody pkt) = 16%nat /\ PDst probe = Addr6 0xff0200000000000000000001ff234567 [] /\
  VerifyICMPv6Checksum (PSrc probe) (PDst probe) (PBody probe) = Ok true.
Proof.
  eexists _, _. split; [vm_compute; reflexivity|]. split; [vm_compute; reflexivity|].
  split; [reflexivity|]. split; [reflexivity|].
  eapply (solicitations_wellformed (Addr6 (Z.lor (Z.shiftl 0xfe80 112) 1) []) [2; 0; 0; 0; 0; 1] _
    (Addr6 (Z.lor (Z.shiftl 0x20010db8 96) 0x1234567) []));
    [repeat constructor; done|split; vm_compute; congruence|vm_compute; reflexivity|vm_compute; reflexivity].
Defined.

(** ** What a Router Advertisement says is what is read

    The options of an advertisement as their standards write them, and what each
    of them adds to the message read so far. *)

Inductive NDItem :=
| IPrefix (p : PrefixInfo)
| IMTU (m : Z)
| IRoute (r : RouteInfo)
| IRDNSS (r : RDNSS)
| IDNSSL (d : DNSSL)
| IPREF64 (p : PREF64)
| IOther (typ : Z) (body : bytes).

(** The octets an RFC 4191 route prefix of this length takes. *)
Definition routeOctets (plen : Z) : nat := if plen =? 0 then 0 else if plen <=? 64 then 8 else 16.

Definition prefBits (p : RoutePreference) : Z := if p =? RoutePrefHigh then 0x08 else if p =? RoutePrefLow then 0x18 else 0.

(** The names of a search list with the zeroes that fill the option up. *)
Definition dnsslNames (names : list gostring) : bytes :=
  let enc := match EncodeDomainSearch names with Ok e => e | _ => [] end in
  enc ++ replicate ((8 - length enc mod 8) mod 8) 0.

Definition ndWire (it : NDItem) : bytes :=
  match it with
  | IPrefix p => [NDOptPrefixInfo; 4; PrefixLen p;
      (if OnLink p then pioFlagOnLink else 0) + (if Autonomous p then pioFlagAuto else 0)]
      ++ be32 (PiValid p) ++ be32 (PiPreferred p) ++ be32 0 ++ As16 (PiPrefix p)
  | IMTU m => [NDOptMTU; 1; 0; 0] ++ be32 m
  | IRoute r =>
    let k := routeOctets (pbits (RiPrefix r)) in
    [NDOptRouteInfo; 1 + Z.of_nat k / 8; pbits (RiPrefix r); prefBits (RiPref r)] ++ be32 (RiLifetime r)
      ++ take k (As16 (paddr (RiPrefix r)))
  | IRDNSS r => [NDOptRDNSS; 1 + 2 * Z.of_nat (length (RdAddrs r)); 0; 0] ++ be32 (RdLifetime r)
      ++ concat (map As16 (RdAddrs r))
  | IDNSSL d => [NDOptDNSSL; 1 + Z.of_nat (length (dnsslNames (DlNames d))) / 8; 0; 0] ++ be32 (DlLifetime d)
      ++ dnsslNames (DlNames d)
  | IPREF64 p =>
    let plc := match list_find (fun l => l = pbits (P64Prefix p)) pref64Lengths with Some (i, _) => Z.of_nat i | None => 7 end in
    [NDOptPREF64; 2] ++ be16 (P64Lifetime p + plc) ++ take 12 (As16 (paddr (P64Prefix p)))
  | IOther typ body => [typ; (2 + Z.of_nat (length body)) / 8] ++ body
  end.

Definition ndApply (ra : RouterAdvert) (it : NDItem) : RouterAdvert :=
  match it with
  | IPrefix p => ra <| RaPrefixes := RaPrefixes ra ++ [p] |>
  | IMTU m => ra <| RaMTU := m |>
  | IRoute r => ra <| RaRoutes := RaRoutes ra ++ [r] |>
  | IRDNSS r => ra <| RaRDNSS := RaRDNSS ra ++ [r] |>
  | IDNSSL d => ra <| RaDNSSL := RaDNSSL ra ++ [d] |>
  | IPREF64 p => ra <| RaPREF64 := RaPREF64 ra ++ [p] |>
  | IOther _ _ => ra
  end.

(** A zone-less IPv6 address, and a prefix of it with no bit behind its width. *)
Definition plain6 (a : Addr) : Prop := exists v, a = Addr6 v [] /\ 0 <= v < 2 ^ 128.
Definition prefix6_wf (p : Prefix) : Prop := exists v, p = PrefixOf (Addr6 v []) (pbits p) /\
  0 <= v < 2 ^ 128 /\ 0 <= pbits p <= 128 /\ mask_to 128 (pbits p) v = v.

Definition item_wf (it : NDItem) : Prop :=
  match it with
  | IPrefix p => plain6 (PiPrefix p) /\ u32_wf (PiValid p) /\ u32_wf (PiPreferred p)
  | IMTU m => u32_wf m
  | IRoute r => prefix6_wf (RiPrefix r) /\ RoutePrefLow <= RiPref r <= RoutePrefHigh /\ u32_wf (RiLifetime r)
  | IRDNSS r => u32_wf (RdLifetime r) /\ RdAddrs r <> [] /\
      Forall (fun a => plain6 a /\ IsMulticast a = false /\ IsUnspecified a = false) (RdAddrs r)
  | IDNSSL d => u32_wf (DlLifetime d) /\ DlNames d <> [] /\ is_ok (EncodeDomainSearch (DlNames d)) = true /\
      Forall (fun n => trimDotSuffix n = n) (DlNames d)
  | IPREF64 p => prefix6_wf (P64Prefix p) /\ pbits (P64Prefix p) ∈ pref64Lengths /\
      0 <= P64Lifetime p < 2 ^ 16 /\ P64Lifetime p mod 8 = 0
  | IOther typ body => (typ ∉ [NDOptPrefixInfo; NDOptMTU; NDOptRouteInfo; NDOptRDNSS; NDOptDNSSL; NDOptPREF64]) /\
      (2 + Z.of_nat (length body)) mod 8 = 0
  end.

(** The walk over well-delimited options is a fold of the callback. *)
Lemma walkNDLoop_step {A} (fn : Z -> bytes -> A -> wire A) b fuel i acc typ units body rest :
  drop i b = (typ :: units :: body) ++ rest -> Z.of_nat (length (typ :: units :: body)) = 8 * units -> 0 < units ->
  walkNDLoop (S fuel) b i fn acc = (acc ← fn typ (typ :: units :: body) acc; walkNDLoop fuel b (i + Z.to_nat (8 * units)) fn acc) /\
  drop (i + Z.to_nat (8 * units)) b = rest.
Proof.
  set (opt := typ :: units :: body). intros Hd Hl Hu.
  assert (Hn : Z.to_nat (8 * units) = length opt) by lia.
  apply (f_equal length) in Hd as Hlen. rewrite length_drop, length_app in Hlen. cbn [length opt] in Hlen.
  split; [|rewrite <- drop_drop, Hd, Hn; apply drop_app_length].
  cbn [walkNDLoop]. rewrite (proj2 (Nat.ltb_lt _ _)), (proj2 (Nat.ltb_ge _ _)) by lia.
  assert (H1 : @idx WireErr b (i + 1) = Ok units).
  { apply (idx_drop _ _ _ (body ++ rest)). rewrite <- drop_drop, Hd. done. }
  assert (H0 : @idx WireErr b i = Ok typ) by (apply (idx_drop _ _ _ (units :: body ++ rest)); rewrite Hd; done).
  rewrite H1, H0. cbn [mbind outcome_bind]. rewrite (Z.mul_comm units), Hn.
  rewrite (proj2 (Nat.eqb_neq _ _)), (proj2 (Nat.ltb_ge _ _)) by (cbn [opt length] in *; lia).
  rewrite slice_ok by (cbn [opt length] in *; lia). replace (i + length opt - i)%nat with (length opt) by lia.
  by rewrite Hd, take_app_length.
Qed.

Lemma walkNDOptions_fold items : forall fuel b i ra,
  Forall (fun it => exists typ units body, ndWire it = typ :: units :: body /\ Z.of_nat (length (ndWire it)) = 8 * units /\
    0 < units /\ forall ra, raOption typ (ndWire it) ra = Ok (ndApply ra it)) items ->
  drop i b = concat (map ndWire items) -> (length b - i < fuel)%nat ->
  walkNDLoop fuel b i raOption ra = Ok (foldl ndApply ra items).
Proof.
  induction items as [|it items IH]; intros fuel b i ra HF Hd Hf; (destruct fuel as [|fuel]; [lia|]).
  { apply (f_equal length) in Hd. rewrite length_drop in Hd. cbn in Hd. cbn [walkNDLoop].
    by rewrite (proj2 (Nat.ltb_ge _ _)) by lia. }
  apply Forall_cons in HF as [(typ & units & body & Hw & Hl & Hu & Ha) HF]. cbn [map concat] in Hd. rewrite Hw in *.
  destruct (walkNDLoop_step raOption b fuel i ra typ units body _ Hd Hl Hu) as [-> Hd'].
  rewrite Ha. cbn [mbind outcome_bind foldl]. apply IH; [done|done|].
  apply (f_equal length) in Hd. rewrite length_drop, length_app in Hd. lia.
Qed.

Definition item_reads (it : NDItem) : Prop :=
  exists typ units body, ndWire it = typ :: units :: body /\ Z.of_nat (length (ndWire it)) = 8 * units /\
    0 < units /\ forall ra, raOption typ (ndWire it) ra = Ok (ndApply ra it).

Lemma plain6_read a : plain6 a -> AddrFrom16 (As16 a) = a /\ length (As16 a) = 16%nat.
Proof. intros (v & -> & Hv). cbn [As16]. by rewrite AddrFrom16_As16, length_toBE. Qed.

Lemma reads_prefix p : item_wf (IPrefix p) -> item_reads (IPrefix p).
Proof.
  intros (Ha & Hv & Hp). destruct (plain6_read _ Ha) as [Hr Hl]. eexists _, 4, _. split; [reflexivity|].
  split; [by cbn [ndWire]; rewrite !length_app, Hl|]. split; [done|]. intros ra. unfold raOption. cbn [Z.eqb NDOptPrefixInfo Pos.eqb].
  set (w := ndWire _). assert (Hw : length w = 32%nat) by (unfold w; cbn [ndWire]; by rewrite !length_app, Hl).
  rewrite Hw. cbn [Nat.eqb pioLen negb].
  set (fl := (if OnLink p then pioFlagOnLink else 0) + (if Autonomous p then pioFlagAuto else 0)).
  assert (E : w = [3; 4; PrefixLen p; fl] ++ be32 (PiValid p) ++ be32 (PiPreferred p) ++ be32 0 ++ As16 (PiPrefix p)) by done.
  change (@idx WireErr w 2) with (Ok (PrefixLen p) : wire Z). change (@idx WireErr w 3) with (Ok fl : wire Z).
  rewrite (slice_at w [3; 4; PrefixLen p; fl] (be32 (PiValid p)) (be32 (PiPreferred p) ++ be32 0 ++ As16 (PiPrefix p)) 4 8) by done.
  rewrite (slice_at w ([3; 4; PrefixLen p; fl] ++ be32 (PiValid p)) (be32 (PiPreferred p)) (be32 0 ++ As16 (PiPrefix p)) 8 12) by done.
  rewrite (slice_at w ([3; 4; PrefixLen p; fl] ++ be32 (PiValid p) ++ be32 (PiPreferred p) ++ be32 0) (As16 (PiPrefix p)) [] 16 32)
    by (done || (by rewrite E, app_nil_r, <- !app_assoc) || by rewrite !length_app, Hl).
  cbn [mbind outcome_bind]. rewrite !ube32_be32' by done.
  cbn [mbind outcome_bind ndApply]. rewrite Hr. destruct p as [n o a v pr ad]. unfold fl. cbn. by destruct o, a.
Qed.

Lemma reads_mtu m : item_wf (IMTU m) -> item_reads (IMTU m).
Proof.
  intros Hm. eexists _, 1, _. split; [reflexivity|]. split; [done|]. split; [done|]. intros ra. unfold raOption.
  cbn [Z.eqb NDOptPrefixInfo NDOptMTU Pos.eqb]. change (length (ndWire (IMTU m))) with 8%nat. cbn [Nat.eqb mtuOptLen negb].
  rewrite (slice_at _ [5; 1; 0; 0] (be32 m) [] 4 8) by done. cbn [mbind outcome_bind]. rewrite ube32_be32' by done. done.
Qed.

Lemma rdnssLoop_reads addrs : forall fuel opt i out,
  Forall (fun a => plain6 a /\ IsMulticast a = false /\ IsUnspecified a = false) addrs ->
  drop i opt = concat (map As16 addrs) -> (length opt - i < fuel)%nat ->
  rdnssLoop fuel opt i out = Ok (Some (out ++ addrs)).
Proof.
  induction addrs as [|a addrs IH]; intros fuel opt i out HF Hd Hf; (destruct fuel as [|fuel]; [lia|]);
    apply (f_equal length) in Hd as Hlen; rewrite length_drop in Hlen; cbn [rdnssLoop].
  { cbn in Hlen. rewrite (proj2 (Nat.leb_gt _ _)) by lia. by rewrite app_nil_r. }
  apply Forall_cons in HF as [(Ha & Hm & Hu) HF]. destruct (plain6_read _ Ha) as [Hr Hl].
  cbn [map concat] in Hd, Hlen. rewrite length_app, Hl in Hlen. rewrite (proj2 (Nat.leb_le _ _)) by lia.
  rewrite slice_ok by lia. cbn [mbind outcome_bind]. replace (i + 16 - i)%nat with (length (As16 a)) by lia.
  rewrite Hd, take_app_length, Hr, Hm, Hu. cbn [orb]. rewrite IH; [by rewrite <- app_assoc|done| |lia].
  rewrite <- drop_drop, Hd, <- Hl. apply drop_app_length.
Qed.

Lemma length_As16s addrs : length (concat (map As16 addrs)) = (16 * length addrs)%nat.
Proof.
  induction addrs as [|a l IH]; [done|]. cbn [map concat length]. rewrite length_app, IH, (proj2 (As16_bytes_length a)). lia.
Qed.

Lemma reads_rdnss r : item_wf (IRDNSS r) -> item_reads (IRDNSS r).
Proof.
  intros (Hl & Hne & HF). destruct r as [l addrs]. cbn [RdLifetime RdAddrs] in *. set (n := length addrs).
  assert (Hn : (1 <= n)%nat) by (unfold n; destruct addrs; [done|cbn; lia]).
  eexists _, (1 + 2 * Z.of_nat n), _. split; [reflexivity|].
  assert (Hlw : length (ndWire (IRDNSS (mkRDNSS l addrs))) = (8 * (1 + 2 * n))%nat).
  { cbn [ndWire RdLifetime RdAddrs]. rewrite !length_app, length_As16s. cbn [length be32 octets4]. unfold n. lia. }
  split; [rewrite Hlw; lia|]. split; [lia|]. intros ra. unfold raOption.
  change (NDOptRDNSS =? NDOptPrefixInfo) with false. change (NDOptRDNSS =? NDOptMTU) with false.
  change (NDOptRDNSS =? NDOptRouteInfo) with false. change (NDOptRDNSS =? NDOptRDNSS) with true. cbv iota.
  unfold decodeRDNSS. rewrite Hlw. replace (8 * (1 + 2 * n) / 8)%nat with (1 + 2 * n)%nat
    by (rewrite (Nat.mul_comm 8); symmetry; by apply Nat.div_mul).
  rewrite (proj2 (Nat.ltb_ge _ _)) by (unfold rdnssMinUnits; lia). cbn [orb].
  replace ((1 + 2 * n - 1) mod 2)%nat with 0%nat by lia_mod. cbn [Nat.eqb negb]. set (w := ndWire _) in *.
  rewrite (slice_at w [25; 1 + 2 * Z.of_nat n; 0; 0] (be32 l) (concat (map As16 addrs)) 4 8) by done.
  cbn [mbind outcome_bind]. rewrite ube32_be32' by done. cbn [mbind outcome_bind].
  rewrite (rdnssLoop_reads addrs) by (done || lia). cbn [mbind outcome_bind app].
  rewrite (proj2 (Nat.eqb_neq _ _)) by (fold n; lia). done.
Qed.

Lemma reads_other typ body : item_wf (IOther typ body) -> item_reads (IOther typ body).
Proof.
  intros (Ht & Hm). eexists _, _, _. split; [reflexivity|]. cbn [ndWire]. rewrite length_app. cbn [length].
  split; [lia_mod|]. split; [lia_mod|]. intros ra. unfold raOption.
  rewrite !not_elem_of_cons in Ht. destruct Ht as (H1 & H2 & H3 & H4 & H5 & H6 & _).
  by rewrite !(proj2 (Z.eqb_neq _ _)) by done.
Qed.

(** The octets of a prefix behind its width are zero, so that writing only the
    leading ones loses nothing. *)
Lemma take_padded p k : prefix6_wf p -> (k <= 16)%nat -> pbits p <= 8 * Z.of_nat k ->
  pad_to 16 (take k (As16 (paddr p))) = As16 (paddr p) /\
  take k (As16 (paddr p)) ++ replicate (16 - k) 0 = As16 (paddr p).
Proof.
  intros (v & Ep & Hv & Hb & Hm) Hk Hw.
  assert (E : take k (As16 (paddr p)) ++ replicate (16 - k) 0 = As16 (paddr p)).
  { rewrite Ep. cbn [paddr As16].
    enough (Hd : drop k (toBE 16 v) = replicate (16 - k) 0) by (rewrite <- Hd; apply take_drop).
    assert (Hlo : v mod 2 ^ (8 * Z.of_nat (16 - k)) = 0).
    { rewrite <- Hm. unfold mask_to. rewrite Z.shiftl_mul_pow2 by lia.
      replace (128 - pbits p) with (8 * Z.of_nat k - pbits p + 8 * Z.of_nat (16 - k)) by lia.
      rewrite Z.pow_add_r by lia. rewrite Z.mul_assoc. apply Z.mod_mul. lia. }
    pose proof (toBE_bytes 16 v) as Hbs. pose proof (length_toBE 16 v) as Hl.
    set (b := toBE 16 v) in *. assert (Hf : fromBE b = v) by (by apply fromBE_toBE).
    rewrite <- (take_drop k b), fromBE_app in Hf by by apply are_bytes_drop.
    pose proof (fromBE_range (drop k b) (are_bytes_drop k b Hbs)) as Hr. rewrite length_drop, Hl in *.
    assert (Hz : fromBE (drop k b) = 0).
    { rewrite <- Hf, Z.add_comm, Z.mod_add, Z.mod_small in Hlo by lia. done. }
    rewrite <- (toBE_fromBE (drop k b)) by by apply are_bytes_drop. rewrite Hz, length_drop, Hl. clear.
    induction (16 - k)%nat as [|n IH]; [done|]. cbn [toBE]. change (Z.shiftr 0 8) with 0. rewrite IH.
    change (u8 0) with 0. by rewrite <- replicate_cons_app. }
  split; [|exact E]. unfold pad_to. rewrite take_ge by (rewrite length_take; lia).
  rewrite length_take, (proj2 (As16_bytes_length _)), Nat.min_l by lia. exact E.
Qed.

Lemma prefix6_rebuilt p : prefix6_wf p -> Masked (PrefixFrom (AddrFrom16 (As16 (paddr p))) (pbits p)) = p /\
  PrefixIsValid (PrefixFrom (AddrFrom16 (As16 (paddr p))) (pbits p)) = true.
Proof.
  intros (v & Ep & Hv & Hb & Hm).
  assert (E : PrefixFrom (AddrFrom16 (As16 (paddr p))) (pbits p) = PrefixOf (Addr6 v []) (pbits p)).
  { rewrite Ep at 1. cbn [paddr As16]. rewrite AddrFrom16_As16 by done. unfold PrefixFrom. cbn [WithoutZone IsValid BitLen andb].
    rewrite (proj2 (Z.leb_le 0 _)), (proj2 (Z.leb_le _ 128)) by lia. done. }
  rewrite E. unfold Masked, PrefixIsValid. cbn [paddr pbits]. rewrite (proj2 (Z.ltb_ge _ _)), Hm by lia.
  split; [by symmetry|]. apply Z.leb_le. lia.
Qed.

Lemma routeOctets_spec n : 0 <= n <= 128 -> let k := routeOctets n in
  (k = 0 \/ k = 8 \/ k = 16)%nat /\ n <= 8 * Z.of_nat k /\ (64 < n -> k = 16%nat) /\ (0 < n -> (8 <= k)%nat).
Proof. intros Hn. unfold routeOctets. destruct (Z.eqb_spec n 0), (Z.leb_spec n 64); cbv zeta; lia. Qed.

Lemma prefBits_read p : RoutePrefLow <= p <= RoutePrefHigh -> decodeRoutePreference (prefBits p) = (p, true).
Proof.
  unfold RoutePrefLow, RoutePrefHigh. intros Hp. assert (p = -1 \/ p = 0 \/ p = 1) as [-> | [-> | ->]] by lia; done.
Qed.

Lemma reads_route r : item_wf (IRoute r) -> item_reads (IRoute r).
Proof.
  destruct r as [p pref l]. intros (Hp & Hpref & Hl). cbn [RiPrefix RiPref RiLifetime] in *.
  assert (Hb : 0 <= pbits p <= 128) by (by destruct Hp as (v & _ & _ & ? & _)).
  destruct (routeOctets_spec (pbits p) Hb) as (Hk & Hw & H64 & H0). set (k := routeOctets (pbits p)) in *.
  destruct (take_padded p k Hp ltac:(lia) Hw) as [Hpad _]. destruct (prefix6_rebuilt p Hp) as [Hre Hval].
  set (a := take k (As16 (paddr p))) in *.
  assert (Hla : length a = k) by (unfold a; rewrite length_take, (proj2 (As16_bytes_length _)); lia).
  set (it := IRoute _). assert (E : ndWire it = [24; 1 + Z.of_nat k / 8; pbits p; prefBits pref] ++ be32 l ++ a) by done.
  assert (Hlw : length (ndWire it) = (8 + k)%nat) by (rewrite E, !length_app, Hla; done).
  eexists _, (1 + Z.of_nat k / 8), _. split; [exact E|]. split; [rewrite Hlw; lia_mod|]. split; [lia_mod|]. intros ra.
  unfold raOption. change (NDOptRouteInfo =? NDOptPrefixInfo) with false. change (NDOptRouteInfo =? NDOptMTU) with false.
  change (24 =? NDOptPrefixInfo) with false. change (24 =? NDOptMTU) with false. change (24 =? NDOptRouteInfo) with true. cbv iota.
  unfold decodeRouteInfo. rewrite Hlw. set (units := ((8 + k) / 8)%nat).
  assert (Hu : (units = 1 + k / 8)%nat) by (unfold units; lia_mod).
  rewrite (proj2 (Nat.ltb_ge units _)), (proj2 (Nat.ltb_ge _ units)) by (unfold rioMinUnits, rioMaxUnits; lia_mod). cbn [orb].
  change (@idx WireErr (ndWire it) 2) with (Ok (pbits p) : wire Z). change (@idx WireErr (ndWire it) 3) with (Ok (prefBits pref) : wire Z).
  cbn [mbind outcome_bind]. rewrite (proj2 (Z.ltb_ge 128 _)) by lia.
  replace ((64 <? pbits p) && negb (units =? 3)%nat) with false
    by (symmetry; apply andb_false_iff; rewrite Z.ltb_ge, negb_false_iff, Nat.eqb_eq; lia_mod).
  replace ((0 <? pbits p) && (units <? 2)%nat) with false
    by (symmetry; apply andb_false_iff; rewrite Z.ltb_ge, Nat.ltb_ge; lia_mod).
  rewrite prefBits_read by done. cbn [negb].
  rewrite (slice_at (ndWire it) ([24; 1 + Z.of_nat k / 8; pbits p; prefBits pref] ++ be32 l) a [] 8 (8 + k))
    by (done || (by rewrite E, app_nil_r, <- app_assoc) || by rewrite Hla).
  rewrite (slice_at (ndWire it) [24; 1 + Z.of_nat k / 8; pbits p; prefBits pref] (be32 l) a 4 8) by done.
  cbn [mbind outcome_bind]. rewrite Hpad, Hval. cbn [negb]. rewrite ube32_be32' by done. cbn [mbind outcome_bind].
  by rewrite Hre.
Qed.

Lemma reads_pref64 p : item_wf (IPREF64 p) -> item_reads (IPREF64 p).
Proof.
  destruct p as [p l]. intros (Hp & Hin & Hl & Hm). cbn [P64Prefix P64Lifetime] in *.
  assert (Hplc : exists plc, match list_find (fun l => l = pbits p) pref64Lengths with Some (i, _) => Z.of_nat i | None => 7 end = plc
    /\ 0 <= plc < 6 /\ pref64Lengths !! Z.to_nat plc = Some (pbits p) /\ pbits p <= 96).
  { unfold pref64Lengths in *. repeat rewrite elem_of_cons in Hin. rewrite elem_of_nil in Hin.
    destruct Hin as [-> | [-> | [-> | [-> | [-> | [-> | []]]]]]]; vm_compute; eexists; split_and!; try reflexivity; congruence. }
  destruct Hplc as (plc & Hplc & Hr & Hlk & H96).
  destruct (take_padded p 12 Hp ltac:(lia) ltac:(lia)) as [_ Hpad]. destruct (prefix6_rebuilt p Hp) as [Hre _].
  set (a := take 12 (As16 (paddr p))) in *.
  assert (Hla : length a = 12%nat) by (unfold a; by rewrite length_take, (proj2 (As16_bytes_length _))).
  set (it := IPREF64 _). assert (E : ndWire it = [38; 2] ++ be16 (l + plc) ++ a) by (cbn [it ndWire P64Prefix P64Lifetime]; by rewrite Hplc).
  assert (Hlw : length (ndWire it) = 16%nat) by (rewrite E, !length_app, Hla; done).
  assert (Hf : 0 <= l + plc < 2 ^ 16) by (zpow; lia_mod).
  eexists _, 2, _. split; [exact E|]. split; [by rewrite Hlw|]. split; [done|]. intros ra. unfold raOption.
  change (38 =? NDOptPrefixInfo) with false. change (38 =? NDOptMTU) with false. change (38 =? NDOptRouteInfo) with false.
  change (38 =? NDOptRDNSS) with false. change (38 =? NDOptDNSSL) with false. change (38 =? NDOptPREF64) with true. cbv iota.
  unfold decodePREF64. rewrite Hlw. cbn [Nat.eqb pref64Len negb].
  rewrite (slice_at (ndWire it) [38; 2] (be16 (l + plc)) a 2 4) by done.
  rewrite (slice_at (ndWire it) ([38; 2] ++ be16 (l + plc)) a [] 4 16)
    by (done || (by rewrite E, app_nil_r, <- app_assoc) || by rewrite Hla).
  cbn [mbind outcome_bind]. rewrite ube16_be16' by done. cbn [mbind outcome_bind].
  replace (Z.land (l + plc) 7) with plc by (change 7 with (Z.ones 3); rewrite Z.land_ones by lia; change (2 ^ 3) with 8; lia_mod).
  rewrite Hlk. cbn [mbind outcome_bind]. change (16 - 12)%nat with 4%nat in Hpad. rewrite Hpad, Hre.
  rewrite Z.shiftr_div_pow2 by lia. change (2 ^ 3) with 8. rewrite u32_id by (zpow; lia_mod).
  replace ((l + plc) / 8 * 8) with l by lia_mod. done.
Qed.

(** Zeroes behind the names are empty names, which add nothing. *)
Lemma dnsslLoop_padding n : forall fuel pre out, (n < fuel)%nat ->
  dnsslLoop fuel (pre ++ replicate n 0) (length pre) out = Ok (Some out).
Proof.
  induction n as [|n IH]; intros fuel pre out Hf; (destruct fuel as [|fuel]; [lia|]); cbn [dnsslLoop replicate].
  { by rewrite app_nil_r, Nat.ltb_irrefl. }
  rewrite length_app. cbn [length]. rewrite (proj2 (Nat.ltb_lt _ _)) by lia.
  assert (Hr : readNameUncompressed (pre ++ 0 :: replicate n 0) (length pre) = Ok ([], (length pre + 1)%nat)).
  { unfold readNameUncompressed. cbn [name6Loop]. rewrite length_app. cbn [length]. rewrite (proj2 (Nat.leb_gt _ _)) by lia.
    rewrite (idx_drop _ _ 0 (replicate n 0)) by apply drop_app_length. done. }
  rewrite Hr. change (bytes_eqb [] []) with true. cbv iota.
  replace (pre ++ 0 :: replicate n 0) with ((pre ++ [0]) ++ replicate n 0) by (by rewrite <- app_assoc).
  replace (length pre + 1)%nat with (length (pre ++ [0])) by (by rewrite length_app). apply IH. lia.
Qed.

Lemma dnsslLoop_names names encs n : Forall2 (fun n e => encodeNameUncompressed n = Ok e) names encs ->
  forall pre fuel out, (length (concat encs) + n < fuel)%nat ->
  dnsslLoop fuel (pre ++ concat encs ++ replicate n 0) (length pre) out = Ok (Some (out ++ map trimDotSuffix names)).
Proof.
  induction 1 as [|nm e names encs He _ IH]; intros pre fuel out Hf; cbn [concat map] in *.
  { rewrite app_nil_r. apply dnsslLoop_padding. cbn in Hf. lia. }
  destruct fuel as [|fuel]; [lia|]. cbn [dnsslLoop]. rewrite <- app_assoc.
  destruct (readName6_written nm e pre (concat encs ++ replicate n 0) He) as [Hne ->].
  pose proof (encodeName_length _ _ He) as Hle. rewrite !length_app in *.
  rewrite (proj2 (Nat.ltb_lt _ _)) by lia. destruct (bytes_eqb (trimDotSuffix nm) []) eqn:Eb; [by apply bytes_eqb_eq in Eb|].
  rewrite <- length_app, app_assoc, IH by lia. by rewrite <- app_assoc.
Qed.

Lemma reads_dnssl d : item_wf (IDNSSL d) -> item_reads (IDNSSL d).
Proof.
  destruct d as [l names]. intros (Hl & Hne & Hok & Htrim). cbn [DlLifetime DlNames] in *.
  destruct (EncodeDomainSearch names) as [enc| | |] eqn:Henc; try done.
  destruct (encodeSearch_ok _ _ _ Henc) as (encs & Ee & HF). cbn [app] in Ee.
  assert (Hpos : (1 <= length enc)%nat).
  { rewrite Ee. destruct HF as [|nm e names encs He _]; [done|]. apply encodeName_length in He. cbn. rewrite length_app. lia. }
  set (n := ((8 - length enc mod 8) mod 8)%nat).
  assert (Ed : dnsslNames names = enc ++ replicate n 0) by (unfold dnsslNames; by rewrite Henc).
  set (it := IDNSSL _). set (L := length (dnsslNames names)).
  assert (HL : L = (length enc + n)%nat) by (unfold L; by rewrite Ed, length_app, length_replicate).
  assert (Hm : (L mod 8 = 0)%nat) by (rewrite HL; unfold n; lia_mod).
  assert (E : ndWire it = ([31; 1 + Z.of_nat L / 8; 0; 0] ++ be32 l) ++ dnsslNames names) by (by rewrite <- app_assoc).
  assert (Hlw : length (ndWire it) = (8 + L)%nat) by (rewrite E, !length_app; done).
  eexists _, (1 + Z.of_nat L / 8), _. split; [reflexivity|]. split; [rewrite Hlw; lia_mod|]. split; [lia_mod|].
  intros ra. unfold raOption. change (NDOptDNSSL =? NDOptPrefixInfo) with false. change (NDOptDNSSL =? NDOptMTU) with false.
  change (NDOptDNSSL =? NDOptRouteInfo) with false. change (NDOptDNSSL =? NDOptRDNSS) with false.
  change (NDOptDNSSL =? NDOptDNSSL) with true. cbv iota. unfold decodeDNSSL. rewrite Hlw.
  rewrite (proj2 (Nat.ltb_ge _ _)) by (unfold dnsslMinUnits; lia_mod).
  rewrite (slice_at (ndWire it) [31; 1 + Z.of_nat L / 8; 0; 0] (be32 l) (dnsslNames names) 4 8) by done.
  cbn [mbind outcome_bind]. rewrite ube32_be32' by done. cbn [mbind outcome_bind].
  rewrite E, Ed, Ee. change 8%nat with (length ([31; 1 + Z.of_nat L / 8; 0; 0] ++ be32 l)) at 2.
  rewrite (dnsslLoop_names names encs n HF) by (rewrite Ee in HL; cbn [length app be32 octets4]; lia).
  cbn [mbind outcome_bind app].
  assert (Hmap : map trimDotSuffix names = names) by (by apply map_id_on).
  rewrite Hmap, (proj2 (Nat.eqb_neq _ _)) by (destruct names; [done|cbn; lia]). done.
Qed.

Lemma item_reads_all it : item_wf it -> item_reads it.
Proof. destruct it; [apply reads_prefix|apply reads_mtu|apply reads_route|apply reads_rdnss|apply reads_dnssl|apply reads_pref64|apply reads_other]. Qed.

(** The fixed part of an advertisement. *)
Definition raHeader (cs : Z) (h : RouterAdvert) : bytes :=
  [ICMPv6RouterAdvert; 0] ++ be16 cs ++ [CurHopLimit h;
    (if Managed h then raFlagManaged else 0) + (if Other h then raFlagOther else 0) + prefBits (RaPref h)]
  ++ be16 (RouterLifetime h) ++ be32 (ReachableTime h) ++ be32 (RetransTimerRA h).

(** C39: a Router Advertisement is read as it was written.  For every fixed part
    and every list of well-formed options, in any order and number, decoding the
    written octets yields the fixed part with exactly the options' contents:
    prefixes, routes, resolvers, search names and NAT64 prefixes in wire order,
    the last MTU, nothing ignored; an option type the client does not know is
    passed over; a preference counts only where the router is a default router. *)
Theorem DecodeRouterAdvert_reads cs h items : RaPrefixes h = [] -> RaRouter h = AddrZero -> RaMTU h = 0 ->
  RaRoutes h = [] -> RaRDNSS h = [] -> RaDNSSL h = [] -> RaPREF64 h = [] -> IgnoredOptions h = 0 ->
  0 <= RouterLifetime h < 2 ^ 16 -> u32_wf (ReachableTime h) -> u32_wf (RetransTimerRA h) ->
  RoutePrefLow <= RaPref h <= RoutePrefHigh -> Forall item_wf items ->
  DecodeRouterAdvert (raHeader cs h ++ concat (map ndWire items)) =
    Ok (foldl ndApply (h <| RaPref := if RouterLifetime h =? 0 then RoutePrefMedium else RaPref h |>) items).
Proof.
  destruct h as [hop mg ot life pref rea ret ps rt mtu ro rd dn p64 ig].
  cbn [RaPrefixes RaRouter RaMTU RaRoutes RaRDNSS RaDNSSL RaPREF64 IgnoredOptions RouterLifetime ReachableTime RetransTimerRA RaPref].
  intros -> -> -> -> -> -> -> -> Hlife Hrea Hret Hpref HF. set (opts := concat (map ndWire items)).
  set (fl := (if mg then raFlagManaged else 0) + (if ot then raFlagOther else 0) + prefBits pref).
  set (b := raHeader _ _ ++ opts).
  assert (E : b = ([134; 0] ++ be16 cs ++ [hop; fl]) ++ be16 life ++ be32 rea ++ be32 ret ++ opts).
  { unfold b, raHeader. cbn [CurHopLimit Managed Other RaPref RouterLifetime ReachableTime RetransTimerRA]. by rewrite <- !app_assoc. }
  unfold DecodeRouterAdvert. assert (Hlen : length b = (16 + length opts)%nat) by (rewrite E, !length_app; cbn; lia).
  rewrite (proj2 (Nat.ltb_ge _ _)) by (unfold raFixedLen; lia).
  change (@idx WireErr b 0) with (Ok 134 : wire Z). change (@idx WireErr b 1) with (Ok 0 : wire Z).
  change (@idx WireErr b 4) with (Ok hop : wire Z). change (@idx WireErr b 5) with (Ok fl : wire Z).
  rewrite (slice_at b ([134; 0] ++ be16 cs ++ [hop; fl]) (be16 life) (be32 rea ++ be32 ret ++ opts) 6 8) by done.
  rewrite (slice_at b (([134; 0] ++ be16 cs ++ [hop; fl]) ++ be16 life) (be32 rea) (be32 ret ++ opts) 8 12) by done.
  rewrite (slice_at b (([134; 0] ++ be16 cs ++ [hop; fl]) ++ be16 life ++ be32 rea) (be32 ret) opts 12 16) by done.
  rewrite slice_tail by (unfold raFixedLen; lia). cbn [mbind outcome_bind requireZeroCode Z.eqb negb].
  change (134 =? ICMPv6RouterAdvert) with true. cbn [negb].
  rewrite ube16_be16', !ube32_be32' by done. cbn [mbind outcome_bind].
  unfold walkNDOptions. rewrite (walkNDOptions_fold items); [| |by rewrite E|rewrite E; lia].
  - f_equal. f_equal. unfold fl, decodeRouterPreference.
    assert (Hb : forall m o q, RoutePrefLow <= q <= RoutePrefHigh ->
      let f := (if m : bool then raFlagManaged else 0) + (if o : bool then raFlagOther else 0) + prefBits q in
      negb (Z.land f raFlagManaged =? 0) = m /\ negb (Z.land f raFlagOther =? 0) = o /\ decodeRoutePreference f = (q, true)).
    { intros m o q Hq. unfold RoutePrefLow, RoutePrefHigh in Hq. assert (q = -1 \/ q = 0 \/ q = 1) as [-> | [-> | ->]] by lia; by destruct m, o. }
    destruct (Hb mg ot pref Hpref) as (-> & -> & ->). by destruct (life =? 0).
  - eapply Forall_impl; [exact HF|]. apply item_reads_all.
Qed.

(** An advertisement of an on-link autonomous prefix, an MTU, a route, a
    resolver, a search list, a NAT64 prefix and an option nobody knows. *)
Definition sample_ra : RouterAdvert := mkRA 64 false true 1800 RoutePrefHigh 0 0 [] AddrZero 0 [] [] [] [] 0.
Definition sample_items : list NDItem :=
  [IOther 1 [2; 0; 0; 0; 0; 1];
   IPrefix (mkPrefixInfo 64 true true 86400 14400 (Addr6 (Z.shiftl 0x20010db8 96) []));
   IMTU 1480;
   IRoute (mkRouteInfo (PrefixOf (Addr6 (Z.shiftl 0xfd00 112) []) 8) RoutePrefLow 600);
   IRDNSS (mkRDNSS 1200 [Addr6 (Z.lor (Z.shiftl 0x20010db8 96) 0x53) []]);
   IDNSSL (mkDNSSL 1200 [ascii_bytes "lab.example"]);
   IPREF64 (mkPREF64 (PrefixOf (Addr6 (Z.shiftl 0x64ff9b 96) []) 96) 1800)].

Lemma DecodeRouterAdvert_reads_witness : exists ra,
  DecodeRouterAdvert (raHeader 0 sample_ra ++ concat (map ndWire sample_items)) = Ok ra /\
  RaMTU ra = 1480 /\ IgnoredOptions ra = 0 /\ length (RaPrefixes ra) = 1%nat /\ RaPref ra = RoutePrefHigh.
Proof.
  eexists. split.
  - apply DecodeRouterAdvert_reads; try reflexivity; try (split; vm_compute; congruence).
    assert (Hp : forall a, bool_decide (0 <= a < 2 ^ 128) = true -> plain6 (Addr6 a [])).
    { intros a Ha. exists a. split; [done|]. by apply bool_decide_eq_true in Ha. }
    repeat (apply Forall_cons; split); [| | | | | | |apply Forall_nil, I].
    + split; [|reflexivity]. apply (bool_decide_unpack _). vm_compute. exact I.
    + split; [by apply Hp|]. split; split; vm_compute; congruence.
    + split; vm_compute; congruence.
    + split; [|split; split; vm_compute; congruence]. eexists. split; [reflexivity|]. repeat split; vm_compute; congruence.
    + split; [split; vm_compute; congruence|]. split; [done|]. constructor; [|constructor]. split; [by apply Hp|by vm_compute].
    + split; [split; vm_compute; congruence|]. split; [done|]. split; [reflexivity|]. by repeat constructor.
    + split; [eexists; split; [reflexivity|]; repeat split; vm_compute; congruence|].
      split; [apply elem_of_cons; by left|]. split; [split; vm_compute; congruence|reflexivity].
  - split; [reflexivity|]. split; [reflexivity|]. split; reflexivity.
Defined.
