(* ===== verification/Lease6.v ===== *)
(** * The DHCPv6 lease: proto/lease6.go, and the values of proto/temporary6.go and proto/prefix6.go

    What the machine derives from a Reply: the identity associations it reads,
    the addresses and prefixes with their lifetimes, what a renewal keeps, and
    the deadlines the timers are armed for.  The methods of the machine in the
    last two files are not here. *)

From S2P Require Import Prelude NetAddr Options Codec Values Backoff Kinds Lease Dhcp6.

(** ** Addresses, prefixes, the lease *)

(** The struct [Addr6] of the source; the name is [netip]'s constructor here. *)
Record Addr6T := mkAddr6 { a6Addr : Addr; a6Preferred : Duration; a6Valid : Duration; a6PrefixLen : Z }.
Record Prefix6 := mkPrefix6 { p6Prefix : Prefix; p6Preferred : Duration; p6Valid : Duration }.

#[global] Instance Addr6T_eq_dec : EqDecision Addr6T.
Proof. solve_decision. Defined.
#[global] Instance Prefix6_eq_dec : EqDecision Prefix6.
Proof. solve_decision. Defined.

Record Lease6 := mkLease6 {
  l6IAID : Z;
  l6Addrs : list Addr6T;
  l6TempAddrs : list Addr6T;
  l6Prefixes : list Prefix6;
  l6ServerDUID : bytes;
  l6PrefixServerDUID : bytes;
  l6pdT1 : Duration;
  l6pdT2 : Duration;
  l6pdStart : Instant;
  l6pdTimed : bool;
  l6T1 : Duration;
  l6T2 : Duration;
  l6Start : Instant;
  l6DNS : list Addr;
  l6Search : list gostring;
  l6Options : OptionsV6;
  l6FQDN : ClientFQDN;
  l6HasFQDN : bool;
  l6SLAAC : bool;
  l6ReconfigureKey : bytes;
  l6ReconfigureReplay : Z;
  l6ReconfigureReplaySeen : bool }.

#[global] Instance eta_Lease6 : Settable Lease6 := fun l =>
  mkLease6 (l6IAID l) (l6Addrs l) (l6TempAddrs l) (l6Prefixes l) (l6ServerDUID l) (l6PrefixServerDUID l)
    (l6pdT1 l) (l6pdT2 l) (l6pdStart l) (l6pdTimed l) (l6T1 l) (l6T2 l) (l6Start l) (l6DNS l) (l6Search l)
    (l6Options l) (l6FQDN l) (l6HasFQDN l) (l6SLAAC l) (l6ReconfigureKey l) (l6ReconfigureReplay l)
    (l6ReconfigureReplaySeen l).

(** Go's [Lease6{}]. *)
Definition lease6_zero : Lease6 :=
  mkLease6 0 [] [] [] [] [] 0 0 0 false 0 0 0 [] [] [] (mkClientFQDN 0 []) false false [] 0 false.

(** [Lease6.Addr] and [Lease6.Prefix] *)
Definition Lease6_Addr (l : Lease6) : option Addr :=
  match l6Addrs l with [] => None | a :: _ => Some (a6Addr a) end.

Definition Lease6_Prefix (l : Lease6) : option Prefix :=
  match l6Addrs l with
  | [] => None
  | a :: _ => Some (if 0 <? a6PrefixLen a then PrefixFrom (a6Addr a) (a6PrefixLen a) else PrefixFrom (a6Addr a) 128)
  end.

(** ** Lifetimes *)

(** [expiry] (proto/temporary6.go): the instant a lifetime ends. *)
Definition expiry (start : Instant) (d : Duration) : option Instant :=
  if IsInfinite d then None else Some (Add start d).

Fixpoint shortestLoop (l : list Addr6T) (out : Duration) (first : bool) : Duration * bool :=
  match l with
  | [] => (out, first)
  | a :: l =>
    if IsInfinite (a6Preferred a) then shortestLoop l out first else
    if first || (a6Preferred a <? out) then shortestLoop l (a6Preferred a) false else shortestLoop l out first
  end.

Definition shortestPreferred (l : Lease6) : Duration :=
  let '(out, first) := shortestLoop (l6Addrs l) 0 true in
  if first then (if (length (l6Addrs l) =? 0)%nat then 0 else Infinite) else out.

Fixpoint renewLoop (l : list Addr6T) (out : Duration) (live inf : bool) : Duration * bool * bool :=
  match l with
  | [] => (out, live, inf)
  | a :: l =>
    if IsInfinite (a6Preferred a) then renewLoop l out live true else
    if (0 <? a6Preferred a) && (negb live || (a6Preferred a <? out)) then renewLoop l (a6Preferred a) true inf
    else renewLoop l out live inf
  end.

Definition renewPreferred (l : Lease6) : Duration :=
  let '(out, live, inf) := renewLoop (l6Addrs l) 0 false false in
  if live then out else if inf then Infinite else 0.

Fixpoint longestLoop (l : list Addr6T) (out : Duration) : Duration :=
  match l with
  | [] => out
  | a :: l =>
    if IsInfinite (a6Valid a) then Infinite else
    longestLoop l (if out <? a6Valid a then a6Valid a else out)
  end.

Definition longestValid (l : Lease6) : Duration := longestLoop (l6Addrs l) 0.

(** The closure [take] of [nextEnd]. *)
Definition takeEnd (start : Instant) (at_ : option Instant) (d : Duration) : option Instant :=
  match expiry start d with
  | Some e => match at_ with None => Some e | Some t => if Before e t then Some e else Some t end
  | None => at_
  end.

Definition nextEnd (l : Lease6) : option Instant :=
  let t := foldl (fun t a => takeEnd (l6Start l) t (a6Valid a)) None (l6Addrs l) in
  let t := foldl (fun t a => takeEnd (l6Start l) t (a6Valid a)) t (l6TempAddrs l) in
  foldl (fun t p => takeEnd (l6Start l) t (p6Valid p)) t (l6Prefixes l).

(** The closures [ended] and [keep] of [withoutEnded], and its prefix loop. *)
Definition ended (start now : Instant) (d : Duration) : bool :=
  match expiry start d with Some e => negb (Before now e) | None => false end.

Fixpoint keepLoop {A} (valid : A -> Duration) (start now : Instant) (l : list A) (n : Z) : list A * Z :=
  match l with
  | [] => ([], n)
  | a :: l =>
    if ended start now (valid a) then keepLoop valid start now l (n + 1)
    else let '(out, n) := keepLoop valid start now l n in (a :: out, n)
  end.

Definition withoutEnded (l : Lease6) (now : Instant) : Lease6 * Z :=
  let '(addrs, n) := keepLoop a6Valid (l6Start l) now (l6Addrs l) 0 in
  let '(temps, n) := keepLoop a6Valid (l6Start l) now (l6TempAddrs l) n in
  let '(ps, n) := keepLoop p6Valid (l6Start l) now (l6Prefixes l) n in
  (l <| l6Addrs := addrs |> <| l6TempAddrs := temps |> <| l6Prefixes := ps |>, n).

Definition PreferredUntil (l : Lease6) : option Instant :=
  if (length (l6Addrs l) =? 0)%nat then None else
  let p := shortestPreferred l in
  if IsInfinite p || (p <=? 0) then None else Some (Add (l6Start l) p).

(** ** Deadlines *)

Definition chosenTime (base den num : Duration) : Duration :=
  if IsInfinite base then Infinite else i64 (Z.quot base den * num).

Definition renewTimes (t1 t2 : Duration) (start : Instant) (pref valid : Duration) : Deadlines :=
  let base := if negb (IsInfinite pref) && (pref <=? 0) then valid else pref in
  let renew := if (t1 =? 0) || (t1 <? 0) && negb (IsInfinite t1) then chosenTime base 2 1 else t1 in
  let rebind := if (t2 =? 0) || (t2 <? 0) && negb (IsInfinite t2) then chosenTime base 5 4 else t2 in
  let '(rebind, n) :=
    if negb (IsInfinite rebind) && negb (IsInfinite valid) && (valid <=? rebind) then
      let was := rebind in
      let rebind := if IsInfinite base then valid else i64 (Z.quot base 5 * 4) in
      let basis := if negb (IsInfinite pref) && (pref <=? 0) then "the valid lifetime"%string
                   else "the shortest preferred lifetime"%string in
      (rebind, note "T2 (%s) is not earlier than the longest valid lifetime (%s): using §21.4's 0.8 of %s, %s"
                 [ADur was; ADur valid; AStr basis; ADur rebind])
    else (rebind, []) in
  let '(renew, n) :=
    if negb (IsInfinite renew) && negb (IsInfinite rebind) && (rebind <=? renew) then
      let was := renew in
      let renew := Z.quot rebind 2 in
      (renew, joinNotes n (note "T1 (%s) is not earlier than T2 (%s): using half of T2, %s"
                 [ADur was; ADur rebind; ADur renew]))
    else (renew, n) in
  mkDeadlines (if 0 <? renew then Some (Add start renew) else None)
    (if 0 <? rebind then Some (Add start rebind) else None) None n.

Definition earliestDeadline (a b : option Instant) : option Instant :=
  match a, b with
  | None, _ => b
  | Some x, Some y => if Before y x then Some y else Some x
  | Some x, None => Some x
  end.

Definition prefixesPreferForever (l : Lease6) : bool :=
  forallb (fun p => match expiry (l6Start l) (p6Preferred p) with Some _ => false | None => true end) (l6Prefixes l).

(** The loop of [groupDeadlines] over the delegated prefixes. *)
Definition pdStep (l : Lease6) (acc : Duration * Duration * bool) (p : Prefix6) : Duration * Duration * bool :=
  let '(pref, pvalid, live) := acc in
  let '(pref, live) :=
    match expiry (l6Start l) (p6Preferred p) with
    | Some e => if (0 <? Sub e (l6pdStart l)) && (negb live || (Sub e (l6pdStart l) <? pref))
                then (Sub e (l6pdStart l), true) else (pref, live)
    | None => (pref, live)
    end in
  let pvalid :=
    match expiry (l6Start l) (p6Valid p) with
    | None => Infinite
    | Some e => if negb (IsInfinite pvalid) && (pvalid <? Sub e (l6pdStart l)) then Sub e (l6pdStart l) else pvalid
    end in
  (pref, pvalid, live).

Definition groupDeadlines (l : Lease6) : Deadlines * Deadlines :=
  let valid := longestValid l in
  let na := renewTimes (l6T1 l) (l6T2 l) (l6Start l) (renewPreferred l) valid in
  if negb (l6pdTimed l) then (na, na) else
  let '(pref, pvalid, live) := foldl (pdStep l) (0, 0, false) (l6Prefixes l) in
  let pref := if negb live && prefixesPreferForever l then Infinite else pref in
  (na, renewTimes (l6pdT1 l) (l6pdT2 l) (l6pdStart l) pref pvalid).

(** [Lease6.Deadlines] *)
Definition Lease6Deadlines (l : Lease6) : Deadlines :=
  let valid := longestValid l in
  let expire := if negb (IsInfinite valid) then Some (Add (l6Start l) valid) else None in
  if (length (l6Addrs l) =? 0)%nat || (negb (IsInfinite valid) && (valid <=? 0)) then mkDeadlines None None expire [] else
  if l6SLAAC l then mkDeadlines None None expire [] else
  if l6pdTimed l && (0 <? length (l6Prefixes l))%nat then
    let '(na, pd) := groupDeadlines l in
    mkDeadlines (earliestDeadline (dRenew na) (dRenew pd)) (earliestDeadline (dRebind na) (dRebind pd)) expire (dNote na)
  else
    let r := renewTimes (l6T1 l) (l6T2 l) (l6Start l) (renewPreferred l) valid in
    mkDeadlines (dRenew r) (dRebind r) expire (dNote r).

(** ** Servers and equality *)

Definition sameDUID (a b : bytes) : bool := bytes_eqb a b.

Definition prefixServer (l : Lease6) : bytes :=
  if (0 <? length (l6PrefixServerDUID l))%nat then l6PrefixServerDUID l else l6ServerDUID l.

(** [Lease6.split] *)
Definition Lease6_split (l : Lease6) : bool := (0 <? length (l6PrefixServerDUID l))%nat.

Definition canonPD (l : Lease6) : Lease6 :=
  if (length (l6Prefixes l) =? 0)%nat then
    l <| l6PrefixServerDUID := [] |> <| l6pdT1 := 0 |> <| l6pdT2 := 0 |> <| l6pdStart := 0 |> <| l6pdTimed := false |>
  else if sameDUID (l6PrefixServerDUID l) (l6ServerDUID l) then l <| l6PrefixServerDUID := [] |> else l.

Definition pdOrigin (l : Lease6) : Instant := if l6pdTimed l then l6pdStart l else l6Start l.

Definition sameT (s1 : Instant) (a : Duration) (s2 : Instant) (b : Duration) : bool :=
  if a =? b then true else (0 <? a) && (0 <? b) && (Add s1 a =? Add s2 b).

Definition opt_eqb (a b : option Instant) : bool := bool_decide (a = b).

Definition sameEnd (s1 : Instant) (d1 : Duration) (s2 : Instant) (d2 : Duration) : bool :=
  opt_eqb (expiry s1 d1) (expiry s2 d2).

Definition samePreferred (s1 : Instant) (d1 : Duration) (s2 : Instant) (d2 : Duration) : bool :=
  match expiry s1 d1, expiry s2 d2 with
  | Some e1, Some e2 =>
    let later := if After s2 s1 then s2 else s1 in
    if negb (After e1 later) && negb (After e2 later) then true else e1 =? e2
  | None, None => true
  | _, _ => false
  end.

Definition sameLifetimes (s1 : Instant) (p1 v1 : Duration) (s2 : Instant) (p2 v2 : Duration) : bool :=
  if (p1 =? p2) && (v1 =? v2) then true else sameEnd s1 v1 s2 v2 && samePreferred s1 p1 s2 p2.

(** The index loops of [Equal] and [tempEqual] over two lists of one length. *)
Fixpoint forall2b {A} (f : A -> A -> bool) (a b : list A) : bool :=
  match a, b with
  | x :: a, y :: b => f x y && forall2b f a b
  | _, _ => true
  end.

Definition tempEqual (a b : Lease6) : bool :=
  if negb (length (l6TempAddrs a) =? length (l6TempAddrs b))%nat then false else
  forall2b (fun x y => addr_eqb (a6Addr x) (a6Addr y) && (a6PrefixLen x =? a6PrefixLen y) &&
    sameEnd (l6Start a) (a6Valid x) (l6Start b) (a6Valid y) &&
    samePreferred (l6Start a) (a6Preferred x) (l6Start b) (a6Preferred y)) (l6TempAddrs a) (l6TempAddrs b).

Definition Lease6Equal (l o : Lease6) : bool :=
  if negb (l6IAID l =? l6IAID o) || negb (length (l6Addrs l) =? length (l6Addrs o))%nat
     || negb (eqb (l6SLAAC l) (l6SLAAC o)) then false else
  if negb (forall2b (fun x y => addr_eqb (a6Addr x) (a6Addr y) && (a6PrefixLen x =? a6PrefixLen y) &&
      sameLifetimes (l6Start l) (a6Preferred x) (a6Valid x) (l6Start o) (a6Preferred y) (a6Valid y))
      (l6Addrs l) (l6Addrs o)) then false else
  if negb (tempEqual l o) then false else
  if negb (length (l6Prefixes l) =? length (l6Prefixes o))%nat then false else
  if negb (forall2b (fun x y => bool_decide (p6Prefix x = p6Prefix y) &&
      sameLifetimes (l6Start l) (p6Preferred x) (p6Valid x) (l6Start o) (p6Preferred y) (p6Valid y))
      (l6Prefixes l) (l6Prefixes o)) then false else
  if negb (sameDUID (l6ServerDUID l) (l6ServerDUID o)) || negb (sameDUID (prefixServer l) (prefixServer o)) then false else
  if (l6pdTimed l || l6pdTimed o) &&
     negb (sameT (pdOrigin l) (l6pdT1 l) (pdOrigin o) (l6pdT1 o) && sameT (pdOrigin l) (l6pdT2 l) (pdOrigin o) (l6pdT2 o))
    then false else
  (l6T1 l =? l6T1 o) && (l6T2 l =? l6T2 o) && list_eqb (l6DNS l) (l6DNS o) && list_eqb (l6Search l) (l6Search o).

(** ** Reading a Reply *)

(** The test every reader makes: an IPv6 address one can use. *)
Definition usable6 (a : Addr) : bool := Is6 a && negb (Is4In6 a) && negb (IsUnspecified a).

(** The loop of [iaAddrs]. *)
Fixpoint iaAddrsLoop (addrs : list IAAddr) (out : list Addr6T) (zeroed : list Addr) (n : Note)
    : list Addr6T * list Addr * Note :=
  match addrs with
  | [] => (out, zeroed, n)
  | a :: addrs =>
    if negb (IAAddr_Valid a) then
      iaAddrsLoop addrs out zeroed (joinNotes n (note "IA Address %s has preferred %d greater than valid %d: discarded (§21.6)"
        [AAddr (iaAddr a); ANum (iaPreferredLifetime a); ANum (iaValidLifetime a)]))
    else if iaValidLifetime a =? 0 then
      iaAddrsLoop addrs out (zeroed ++ [iaAddr a])
        (joinNotes n (note "IA Address %s has a valid lifetime of 0: discarded (§18.2.10.1)" [AAddr (iaAddr a)]))
    else if negb (usable6 (iaAddr a)) then
      iaAddrsLoop addrs out zeroed (joinNotes n (note "IA Address %s is not a usable IPv6 address: discarded" [AAddr (iaAddr a)]))
    else
      iaAddrsLoop addrs (out ++ [mkAddr6 (iaAddr a) (SecondsToDuration (iaPreferredLifetime a))
        (SecondsToDuration (iaValidLifetime a)) 0]) zeroed n
  end.

Definition iaAddrs (o : OptionsV6) (what : string) : wire (list Addr6T * list Addr * Note) :=
  catch (Addrs o) (fun addrs => Ok (iaAddrsLoop addrs [] [] []))
    (fun e => Ok ([], [], note "%s: %s" [AStr what; AErr e])).

(** The status an IA carries: the switch the three readers share. *)
Definition iaStatus (o : OptionsV6) (what : string) : wire (StatusCode * Note) :=
  '(st, ok, err) ← OptionsV6_Status o;
  match err with
  | Some e => Ok (StatusMalformed, note "%s Status Code option: %s" [AStr what; AErr e])
  | None => Ok (if ok : bool then StCode st else StatusSuccess, [])
  end.

Record iaResult := mkIaResult {
  iaAddrsOf : list Addr6T; iaT1 : Duration; iaT2 : Duration; iaStatusOf : StatusCode; iaFound : bool; iaZeroed : list Addr }.

Fixpoint readIALoop (ias : list IANA) (iaid : Z) (out : iaResult) (n : Note) : wire (iaResult * Note) :=
  match ias with
  | [] => Ok (out, n)
  | ia :: ias =>
    if negb (naIAID ia =? iaid) then
      readIALoop ias iaid out (joinNotes n (note "IA_NA with IAID %d is not ours (%d): ignored" [ANum (naIAID ia); ANum iaid]))
    else if iaFound out then
      readIALoop ias iaid out (joinNotes n (note "a second IA_NA with IAID %d: ignored, this client sends one" [ANum iaid]))
    else
      let t1 := SecondsToDuration (naT1 ia) in
      let t2 := SecondsToDuration (naT2 ia) in
      if (0 <? naT1 ia) && (0 <? naT2 ia) && (naT2 ia <? naT1 ia) then
        readIALoop ias iaid out (joinNotes n
          (note "IA_NA T1 %s is greater than T2 %s, both non-zero: IA_NA discarded (§21.4)" [ADur t1; ADur t2]))
      else
        '(st, n1) ← iaStatus (naOptions ia) "IA_NA";
        '(addrs, zs, n2) ← iaAddrs (naOptions ia) "IA Address option";
        readIALoop ias iaid (mkIaResult (iaAddrsOf out ++ addrs) t1 t2 st true (iaZeroed out ++ zs))
          (joinNotes (joinNotes n n1) n2)
  end.

Definition readIA (o : OptionsV6) (iaid : Z) : wire (iaResult * Note) :=
  let zero := mkIaResult [] 0 0 StatusSuccess false [] in
  catch (IANAs o)
    (fun ias =>
      '(out, n) ← readIALoop ias iaid zero [];
      Ok (out, if negb (iaFound out) && (0 <? length ias)%nat
               then joinNotes n (note "no IA_NA with our IAID %d in the message" [ANum iaid]) else n))
    (fun e => Ok (zero, note "IA_NA option: %s" [AErr e])).

Definition serverFQDN (o : OptionsV6) : wire (ClientFQDN * bool * Note) :=
  match OptionsV6_ClientFQDN o with
  | None => Ok (mkClientFQDN 0 [], false, [])
  | Some r =>
    catch r
      (fun f =>
        let bit b := if negb (Z.land (FqFlags f) b =? 0) then 1 else 0 in
        Ok (f, true, note "the server's Client FQDN option: S=%d O=%d N=%d name %q (RFC 4704 section 6)"
          [ANum (bit ClientFQDNFlagS); ANum (bit ClientFQDNFlagO); ANum (bit ClientFQDNFlagN); AText (FqName f)]))
      (fun e => Ok (mkClientFQDN 0 [], false, note "Client FQDN option: %s; ignored" [AErr e]))
  end.

(** The lease, the withdrawn addresses, the notes, the IA's status, and whether
    there is a lease. *)
Definition leaseFromReply (m : MessageV6) (iaid : Z) (sentAt : Instant)
    : wire (Lease6 * list Addr * Note * StatusCode * bool) :=
  let o := MOptionsV6 m in
  let l := lease6_zero <| l6IAID := iaid |> <| l6Start := sentAt |> <| l6Options := o |> in
  let l := match First o OptV6ServerID with Some sid => l <| l6ServerDUID := sid |> | None => l end in
  let n := Count o OptV6IAAddr in
  let notes := if 0 <? n then
      note "%d IA Address option(s) at the top level, outside any IA_NA: ignored, §21.6 encapsulates them within IA_NA" [ANum n]
    else [] in
  '(res, ns) ← readIA o iaid;
  let notes := joinNotes notes ns in
  if negb (iaFound res) then Ok (lease6_zero, [], notes, StatusSuccess, false) else
  let '(addrs, notes) :=
    if (iaStatusOf res =? StatusNoAddrsAvail) && (0 <? length (iaAddrsOf res))%nat then
      ([], joinNotes notes (note "the IA_NA says NoAddrsAvail and carries %d address(es): they are not ours to use (§18.2.10.1)"
        [ANum (Z.of_nat (length (iaAddrsOf res)))]))
    else (iaAddrsOf res, notes) in
  let l := l <| l6T1 := iaT1 res |> <| l6T2 := iaT2 res |> <| l6Addrs := addrs |> in
  '(l, notes) ← catch (DNSServers o) (fun dns => Ok (l <| l6DNS := dns |>, notes))
    (fun e => Ok (l, joinNotes notes (note "DNS Recursive Name Server option: %s" [AErr e])));
  '(l, notes) ← catch (DomainSearchV6 o) (fun s => Ok (l <| l6Search := s |>, notes))
    (fun e => Ok (l, joinNotes notes (note "Domain Search List option: %s" [AErr e])));
  '(f, ok, nf) ← serverFQDN o;
  let l := l <| l6FQDN := f |> <| l6HasFQDN := ok |> in
  Ok (l, iaZeroed res, joinNotes notes nf, iaStatusOf res, (0 <? length addrs)%nat).

(** ** What a renewal keeps *)

Fixpoint addrIndex (l : list Addr6T) (a : Addr) : option nat :=
  match l with
  | [] => None
  | x :: l => if addr_eqb (a6Addr x) a then Some O else option_map S (addrIndex l a)
  end.

(** [containsAddr] (proto/machine6.go) *)
Fixpoint containsAddr (hay : list Addr) (a : Addr) : bool :=
  match hay with [] => false | h :: hay => if addr_eqb h a then true else containsAddr hay a end.

(** [carryLifetimes] (proto/temporary6.go): the same ends seen from a new start,
    none for a lifetime that has run out. *)
Definition carryLifetimes (pref valid : Duration) (prevStart newStart now : Instant) : option (Duration * Duration) :=
  match (match expiry prevStart valid with
         | Some e => if negb (After e now) then None else Some (Sub e newStart)
         | None => Some valid
         end) with
  | None => None
  | Some valid =>
    let pref := match expiry prevStart pref with
                | Some p => let d := Sub p newStart in if d <? 0 then 0 else d
                | None => pref
                end in
    Some (pref, valid)
  end.

Definition renewedAddrs (held : list Addr6T) (heldStart : Instant) (got : list Addr6T) (zeroed : list Addr)
    (newStart now : Instant) : list Addr6T :=
  let kept := held ≫= fun h =>
    match addrIndex got (a6Addr h) with
    | Some i => match got !! i with Some g => [g] | None => [] end
    | None =>
      if containsAddr zeroed (a6Addr h) then [] else
      match carryLifetimes (a6Preferred h) (a6Valid h) heldStart newStart now with
      | Some (p, v) => [mkAddr6 (a6Addr h) p v (a6PrefixLen h)]
      | None => []
      end
    end in
  kept ++ filter (fun a => addrIndex held (a6Addr a) = None) got.

(** ** Temporary addresses (proto/temporary6.go) *)

Record taResult := mkTaResult { taFound : bool; taStatus : StatusCode; taAddrs : list Addr6T }.

Fixpoint readIATALoop (ias : list IATA) (iaid : Z) (out : taResult) (n : Note) : wire (taResult * Note) :=
  match ias with
  | [] => Ok (out, n)
  | ia :: ias =>
    if negb (taIAID ia =? iaid) then
      readIATALoop ias iaid out (joinNotes n (note "IA_TA with IAID %d is not ours (%d): ignored" [ANum (taIAID ia); ANum iaid]))
    else if taFound out then
      readIATALoop ias iaid out (joinNotes n (note "a second IA_TA with IAID %d: ignored, this client sends one" [ANum iaid]))
    else
      '(st, n1) ← iaStatus (taOptions ia) "IA_TA";
      '(addrs, _, n2) ← iaAddrs (taOptions ia) "IA_TA Address option";
      readIATALoop ias iaid (mkTaResult true st (taAddrs out ++ addrs)) (joinNotes (joinNotes n n1) n2)
  end.

Definition readIATA (o : OptionsV6) (iaid : Z) : wire (taResult * Note) :=
  let zero := mkTaResult false StatusSuccess [] in
  catch (IATAs o)
    (fun ias =>
      '(out, n) ← readIATALoop ias iaid zero [];
      let n := if (0 <? length ias)%nat && negb (taFound out)
               then joinNotes n (note "no IA_TA with our IAID %d in the message" [ANum iaid]) else n in
      Ok (if negb (taStatus out =? StatusSuccess) && (0 <? length (taAddrs out))%nat
          then (mkTaResult (taFound out) (taStatus out) [],
                joinNotes n (note "the IA_TA says %s and carries %d address(es): they are not ours to use (§18.2.10.1)"
                  [AStatus (taStatus out); ANum (Z.of_nat (length (taAddrs out)))]))
          else (out, n)))
    (fun e => Ok (zero, note "IA_TA option: %s" [AErr e])).

Fixpoint dropStable (temp stable : list Addr6T) : list Addr6T * Note :=
  match temp with
  | [] => ([], [])
  | t :: temp =>
    let '(keep, n) := dropStable temp stable in
    if existsb (fun s => addr_eqb (a6Addr s) (a6Addr t)) stable then
      (keep, joinNotes (note "IA_TA address %s is also in the IA_NA: kept as the stable address only" [AAddr (a6Addr t)]) n)
    else (t :: keep, n)
  end.

Definition carryTemp (prev : list Addr6T) (prevStart newStart now : Instant) : list Addr6T :=
  prev ≫= fun a =>
    match carryLifetimes (a6Preferred a) (a6Valid a) prevStart newStart now with
    | Some (p, v) => [mkAddr6 (a6Addr a) p v (a6PrefixLen a)]
    | None => []
    end.

Definition withoutTemp (l : Lease6) (drop : list Addr) : Lease6 :=
  l <| l6TempAddrs := filter (fun a => containsAddr drop (a6Addr a) = false) (l6TempAddrs l) |>.

Definition isTemp (l : Lease6) (a : Addr) : bool := existsb (fun t => addr_eqb (a6Addr t) a) (l6TempAddrs l).

Definition releaseTemps (held : list Addr6T) : list Addr6T :=
  map (fun a => mkAddr6 (a6Addr a) 0 0 0) (filter (fun a => usable6 (a6Addr a) = true) held).

(** ** Delegated prefixes (proto/prefix6.go) *)

Record pdResult := mkPdResult {
  pdFound : bool; pdStatus : StatusCode; pdT1Of : Duration; pdT2Of : Duration; pdPrefixes : list Prefix6;
  pdZeroed : list Prefix }.

Definition usablePrefix (p : Prefix) : bool :=
  PrefixIsValid p && Is6 (paddr p) && negb (Is4In6 (paddr p)) && negb (pbits p <? 1).

Fixpoint iaPrefixesLoop (ps : list IAPrefix) (out : list Prefix6) (zeroed : list Prefix) (n : Note)
    : list Prefix6 * list Prefix * Note :=
  match ps with
  | [] => (out, zeroed, n)
  | p :: ps =>
    if negb (IAPrefix_Valid p) then
      iaPrefixesLoop ps out zeroed (joinNotes n (note "IA Prefix %s has preferred %d greater than valid %d: discarded (§21.22)"
        [APrefix (pxPrefix p); ANum (pxPreferredLifetime p); ANum (pxValidLifetime p)]))
    else if pxValidLifetime p =? 0 then
      iaPrefixesLoop ps out (zeroed ++ [Masked (pxPrefix p)])
        (joinNotes n (note "IA Prefix %s has a valid lifetime of 0: discarded (§18.2.10.1)" [APrefix (pxPrefix p)]))
    else if negb (usablePrefix (pxPrefix p)) then
      iaPrefixesLoop ps out zeroed (joinNotes n (note "IA Prefix %s is not a usable IPv6 prefix: discarded" [APrefix (pxPrefix p)]))
    else
      iaPrefixesLoop ps (out ++ [mkPrefix6 (Masked (pxPrefix p)) (SecondsToDuration (pxPreferredLifetime p))
        (SecondsToDuration (pxValidLifetime p))]) zeroed n
  end.

Definition iaPrefixes (o : OptionsV6) : wire (list Prefix6 * list Prefix * Note) :=
  catch (Prefixes o) (fun ps => Ok (iaPrefixesLoop ps [] [] []))
    (fun e => Ok ([], [], note "IA Prefix option: %s" [AErr e])).

Fixpoint readIAPDLoop (ias : list IAPD) (iaid : Z) (out : pdResult) (n : Note) : wire (pdResult * Note) :=
  match ias with
  | [] => Ok (out, n)
  | ia :: ias =>
    if negb (pdIAID ia =? iaid) then
      readIAPDLoop ias iaid out (joinNotes n (note "IA_PD with IAID %d is not ours (%d): ignored" [ANum (pdIAID ia); ANum iaid]))
    else if pdFound out then
      readIAPDLoop ias iaid out (joinNotes n (note "a second IA_PD with IAID %d: ignored, this client sends one" [ANum iaid]))
    else if (0 <? pdT1 ia) && (0 <? pdT2 ia) && (pdT2 ia <? pdT1 ia) then
      readIAPDLoop ias iaid out (joinNotes n
        (note "IA_PD T1 %s is greater than T2 %s, both non-zero: IA_PD discarded (§21.21)"
          [ADur (SecondsToDuration (pdT1 ia)); ADur (SecondsToDuration (pdT2 ia))]))
    else
      '(st, n1) ← iaStatus (pdOptions ia) "IA_PD";
      '(ps, zs, n2) ← iaPrefixes (pdOptions ia);
      readIAPDLoop ias iaid (mkPdResult true st (SecondsToDuration (pdT1 ia)) (SecondsToDuration (pdT2 ia))
        (pdPrefixes out ++ ps) (pdZeroed out ++ zs)) (joinNotes (joinNotes n n1) n2)
  end.

Definition readIAPD (o : OptionsV6) (iaid : Z) : wire (pdResult * Note) :=
  let zero := mkPdResult false StatusSuccess 0 0 [] [] in
  catch (IAPDs o)
    (fun ias =>
      '(out, n) ← readIAPDLoop ias iaid zero [];
      let n := if (0 <? length ias)%nat && negb (pdFound out)
               then joinNotes n (note "no usable IA_PD with our IAID %d in the message" [ANum iaid]) else n in
      Ok (if negb (pdStatus out =? StatusSuccess) && (0 <? length (pdPrefixes out))%nat
          then (mkPdResult (pdFound out) (pdStatus out) (pdT1Of out) (pdT2Of out) [] (pdZeroed out),
                joinNotes n (note "the IA_PD says %s and carries %d prefix(es): they are not ours to use (§18.2.10.1)"
                  [AStatus (pdStatus out); ANum (Z.of_nat (length (pdPrefixes out)))]))
          else (out, n)))
    (fun e => Ok (zero, note "IA_PD option: %s" [AErr e])).

Fixpoint prefixIndex (l : list Prefix6) (p : Prefix) : option nat :=
  match l with
  | [] => None
  | x :: l => if bool_decide (p6Prefix x = p) then Some O else option_map S (prefixIndex l p)
  end.

Fixpoint containsPrefix (ps : list Prefix) (p : Prefix) : bool :=
  match ps with [] => false | q :: ps => if bool_decide (q = p) then true else containsPrefix ps p end.

Definition renewedPrefixes (held : list Prefix6) (heldStart : Instant) (res : pdResult) (newStart now : Instant) : list Prefix6 :=
  if pdFound res && negb (pdStatus res =? StatusSuccess) then pdPrefixes res else
  let kept := held ≫= fun h =>
    match prefixIndex (pdPrefixes res) (p6Prefix h) with
    | Some i => match pdPrefixes res !! i with Some g => [g] | None => [] end
    | None =>
      if containsPrefix (pdZeroed res) (p6Prefix h) then [] else
      match carryLifetimes (p6Preferred h) (p6Valid h) heldStart newStart now with
      | Some (p, v) => [mkPrefix6 (p6Prefix h) p v]
      | None => []
      end
    end in
  kept ++ filter (fun p => prefixIndex held (p6Prefix p) = None) (pdPrefixes res).

Definition rebasePrefixes (ps : list Prefix6) (from to_ now : Instant) : list Prefix6 :=
  ps ≫= fun p =>
    match carryLifetimes (p6Preferred p) (p6Valid p) from to_ now with
    | Some (pref, valid) => [mkPrefix6 (p6Prefix p) pref valid]
    | None => []
    end.

Definition samePrefixes (a b : list Prefix6) : bool :=
  if negb (length a =? length b)%nat then false else
  forall2b (fun x y => bool_decide (p6Prefix x = p6Prefix y)) a b.

Definition earliestT (a b : Duration) : Duration :=
  if a =? 0 then b else if b =? 0 then a else if IsInfinite a then b else if IsInfinite b then a else
  if b <? a then b else a.

Definition laterOf (t holdoff : Instant) : Instant := if After holdoff t then holdoff else t.

(** [durationToSeconds] (proto/machine6.go) *)
Definition durationToSeconds (d : Duration) : Z :=
  if IsInfinite d then InfiniteSeconds else
  if d <=? 0 then 0 else
  let s := Seconds d in
  if InfiniteSeconds - 1 <? s then InfiniteSeconds - 1 else u32 s.

(** ** The deadlines are in order *)

(** The instants and lifetimes the sums below are about: instants within 2^62
    nanoseconds of the clock's origin (146 years), lifetimes a 32-bit count of
    seconds can name. *)
Definition instant_wf (t : Instant) : Prop := 0 <= t <= 2 ^ 62.
Definition lifetime_wf (d : Duration) : Prop := d = Infinite \/ 0 <= d <= 4294967294 * Second.

(** One lifetime is no longer than another, [Infinite] being the longest. *)
Definition no_longer (a b : Duration) : Prop := b = Infinite \/ a <> Infinite /\ a <= b.

Lemma SecondsToDuration_wf s : 0 <= s < 2 ^ 32 -> lifetime_wf (SecondsToDuration s) /\
  (SecondsToDuration s = Infinite <-> s = InfiniteSeconds) /\ (s <> InfiniteSeconds -> SecondsToDuration s = s * Second).
Proof.
  intros Hs. unfold SecondsToDuration, lifetime_wf. unfold InfiniteSeconds. destruct (Z.eqb_spec s 0xFFFFFFFF) as [->|Hne].
  - split; [by left|]. split; [done|]. by intros ?.
  - unfold Second, Infinite. change (2 ^ 32) with 4294967296 in Hs. rewrite i64_id by lia. split; [right; lia|]. split; [lia|done].
Qed.

Lemma SecondsToDuration_mono a b : 0 <= a < 2 ^ 32 -> 0 <= b < 2 ^ 32 -> a <= b ->
  no_longer (SecondsToDuration a) (SecondsToDuration b).
Proof.
  intros Ha Hb Hab. destruct (SecondsToDuration_wf a Ha) as (_ & Hia & Hva), (SecondsToDuration_wf b Hb) as (_ & Hib & Hvb).
  unfold no_longer. destruct (decide (b = InfiniteSeconds)) as [Eb|Eb]; [left; by apply Hib|right].
  assert (a <> InfiniteSeconds) by (unfold InfiniteSeconds in *; change (2 ^ 32) with 4294967296 in *; lia).
  split; [naive_solver|]. rewrite Hva, Hvb by done. unfold Second. lia.
Qed.

(** What [renewTimes] arms, for a group whose lifetimes are in order. *)
Section RenewTimes.
Context (t1 t2 : Duration) (start : Instant) (pref valid : Duration).
Hypotheses (H1 : lifetime_wf t1) (H2 : lifetime_wf t2) (Hs : instant_wf start)
  (Hp : lifetime_wf pref) (Hv : lifetime_wf valid) (Hv0 : valid <> 0) (Hpv : no_longer pref valid).

Lemma renew_base : exists base, (if negb (IsInfinite pref) && (pref <=? 0) then valid else pref) = base /\
  (base = Infinite /\ valid = Infinite \/
   1 <= base <= 4294967294 * Second /\ (valid = Infinite \/ base <= valid)).
Proof.
  unfold IsInfinite, lifetime_wf, no_longer, Infinite, Second in *. eexists; split; [reflexivity|].
  destruct (Z.eqb_spec pref (-1)), (Z.leb_spec pref 0); cbn [negb andb]; lia.
Qed.

Lemma fraction_wf base den num : (den, num) = (2, 1) \/ (den, num) = (5, 4) ->
  1 <= base <= 4294967294 * Second ->
  i64 (Z.quot base den * num) = Z.quot base den * num /\ 0 <= Z.quot base den * num < base.
Proof.
  unfold Second. intros Hdn Hb.
  pose proof (Z.quot_rem' base den) as Q. pose proof (Z.rem_bound_pos base den) as R.
  destruct Hdn as [[= -> ->]|[= -> ->]]; rewrite i64_id; lia.
Qed.

Let d := renewTimes t1 t2 start pref valid.

Lemma renewTimes_order :
  (forall b, dRebind d = Some b -> start < b /\ (valid <> Infinite -> b < start + valid)) /\
  (forall r, dRenew d = Some r -> start < r) /\
  (forall r b, dRenew d = Some r -> dRebind d = Some b -> r < b).
Proof.
  destruct renew_base as (base & Ebase & Hb). unfold d, renewTimes. rewrite Ebase.
  set (rebind0 := if (t2 =? 0) || _ then chosenTime base 5 4 else t2).
  set (renew0 := if (t1 =? 0) || _ then chosenTime base 2 1 else t1).
  assert (F5 : base <> Infinite -> i64 (Z.quot base 5 * 4) = Z.quot base 5 * 4 /\ 0 <= Z.quot base 5 * 4 < base).
  { intros. apply fraction_wf; [by right|]. intuition. }
  assert (F2 : base <> Infinite -> i64 (Z.quot base 2 * 1) = Z.quot base 2 * 1 /\ 0 <= Z.quot base 2 * 1 < base).
  { intros. apply fraction_wf; [by left|]. intuition. }
  assert (Hr0 : rebind0 = Infinite \/ 0 <= rebind0 <= 4294967294 * Second).
  { unfold rebind0, chosenTime. unfold IsInfinite, lifetime_wf, Infinite in *. clear F2 renew0 H1 Ebase.
    destruct ((t2 =? 0) || _); [|intuition lia]. destruct (Z.eqb_spec base (-1)); [by left|]. rewrite (proj1 (F5 n)). lia. }
  assert (Hn0 : renew0 = Infinite \/ 0 <= renew0 <= 4294967294 * Second).
  { unfold renew0, chosenTime. unfold IsInfinite, lifetime_wf, Infinite in *. clear F5 Hr0 rebind0 H2 Ebase.
    destruct ((t1 =? 0) || _); [|intuition lia]. destruct (Z.eqb_spec base (-1)); [by left|]. rewrite (proj1 (F2 n)). lia. }
  clearbody rebind0 renew0. clear Ebase F2 H1 H2.
  unfold IsInfinite, lifetime_wf, no_longer, instant_wf, Infinite, Second in *.
  set (clamp := negb (rebind0 =? -1) && negb (valid =? -1) && (valid <=? rebind0)).
  destruct (if clamp then _ else (rebind0, [])) as [rebind n] eqn:E.
  assert (Hr : rebind = -1 \/ 0 <= rebind <= 4294967294 * 1000000000 /\ (valid = -1 \/ rebind < valid)).
  { unfold clamp in E. clear Hn0 Hs. destruct (Z.eqb_spec rebind0 (-1)), (Z.eqb_spec valid (-1)), (Z.leb_spec valid rebind0);
      cbn [negb andb] in E; injection E as E1 _; subst rebind; try lia.
    destruct (Z.eqb_spec base (-1)); [lia|]. destruct (F5 n2) as [-> ?]. lia. }
  clear E clamp F5 Hb Hr0.
  set (swap := negb (renew0 =? -1) && negb (rebind =? -1) && (rebind <=? renew0)).
  destruct (if swap then _ else (renew0, n)) as [renew n'] eqn:E.
  assert (Hn : renew = -1 \/ 0 <= renew <= 4294967294 * 1000000000 /\ (rebind <= 0 \/ renew < rebind)).
  { unfold swap in E. pose proof (Z.quot_rem' rebind 2) as Q. pose proof (Z.rem_bound_pos rebind 2) as R. clear Hs.
    destruct (Z.eqb_spec renew0 (-1)), (Z.eqb_spec rebind (-1)), (Z.leb_spec rebind renew0);
      cbn [negb andb] in E; injection E as E1 _; subst renew; clear swap; try lia. }
  clear E swap Hn0. cbn [dRenew dRebind]. change (2 ^ 62) with 4611686018427387904 in Hs. unfold Add.
  destruct (Z.ltb_spec 0 renew), (Z.ltb_spec 0 rebind); split_and!; try (by intros); try (intros x [= <-] || intros x y [= <-] [= <-]);
    rewrite ?i64_id by lia; intuition lia.
Qed.
End RenewTimes.

(** ** A lease read from a Reply *)

(** The lifetimes of a held address or prefix. *)
Definition lifetimes_wf (pref valid : Duration) : Prop :=
  lifetime_wf pref /\ lifetime_wf valid /\ valid <> 0 /\ no_longer pref valid.

(** An address worth holding: one a host can use, with lifetimes in order. *)
Definition good_addr (a : Addr6T) : Prop :=
  usable6 (a6Addr a) = true /\ lifetimes_wf (a6Preferred a) (a6Valid a).

Lemma All_bytes o c : Forall option_wf o -> Forall are_bytes (All o c).
Proof.
  induction 1 as [|opt o (_ & Hb & _) _ IH]; cbn [All]; [constructor|]. destruct (_ =? _); [by constructor|done].
Qed.

Lemma decodeAll_ok {A} (f : bytes -> wire A) (P : A -> Prop) vs l :
  (forall v x, are_bytes v -> f v = Ok x -> P x) -> Forall are_bytes vs -> decodeAll f vs = Ok l -> Forall P l.
Proof.
  intros Hf Hv. revert l. induction Hv as [|v vs Hb _ IH]; intros l; cbn [decodeAll]; [by intros [= <-]|].
  intros H. apply bind_ok_inv in H as (x & Hx & H). apply bind_ok_inv in H as (l' & Hl & H). injection H as <-.
  constructor; eauto.
Qed.

Lemma DecodeIAAddr_lifetimes v a : are_bytes v -> DecodeIAAddr v = Ok a ->
  u32_wf (iaPreferredLifetime a) /\ u32_wf (iaValidLifetime a).
Proof.
  intros Hb. unfold DecodeIAAddr. destruct (_ <? _)%nat; [done|]. intros H.
  apply bind_ok_inv in H as (b & _ & H). apply bind_ok_inv in H as (o & _ & H).
  apply bind_ok_inv in H as (ab & _ & H).
  apply read32_inv in H as (p & H & Hp & _); [|done|done].
  apply read32_inv in H as (l & H & Hl & _); [|done|done]. by injection H as <-.
Qed.

Lemma Addrs_lifetimes o l : Forall option_wf o -> Addrs o = Ok l ->
  Forall (fun a => u32_wf (iaPreferredLifetime a) /\ u32_wf (iaValidLifetime a)) l.
Proof. intros Ho. apply decodeAll_ok; [apply DecodeIAAddr_lifetimes|by apply All_bytes]. Qed.

Lemma IANAs_wf o l : Forall option_wf o -> IANAs o = Ok l -> Forall iana_wf l.
Proof.
  intros Ho. apply decodeAll_ok; [|by apply All_bytes]. intros v ia Hb Hd. by apply IANA_codec in Hd as [_ ?].
Qed.

Lemma seconds_lifetimes p v : u32_wf p -> u32_wf v -> p <= v -> v <> 0 ->
  lifetimes_wf (SecondsToDuration p) (SecondsToDuration v).
Proof.
  intros Hp Hv Hle Hne. destruct (SecondsToDuration_wf v Hv) as (Hw & Hi & He). split; [by apply SecondsToDuration_wf|].
  split; [done|]. split; [|by apply SecondsToDuration_mono].
  intros H0. destruct (decide (v = InfiniteSeconds)) as [Ev|Ev]; [by apply Hi in Ev; rewrite Ev in H0|].
  rewrite He in H0 by done. unfold Second in H0. lia.
Qed.

Lemma iaAddrsLoop_good addrs : forall out zeroed n out' zeroed' n',
  Forall (fun a => u32_wf (iaPreferredLifetime a) /\ u32_wf (iaValidLifetime a)) addrs -> Forall good_addr out ->
  iaAddrsLoop addrs out zeroed n = (out', zeroed', n') -> Forall good_addr out'.
Proof.
  induction addrs as [|a addrs IH]; intros out zeroed n out' zeroed' n' Ha Ho; cbn [iaAddrsLoop]; [by intros [= <- _ _]|].
  apply Forall_cons in Ha as [[Hp Hv] Ha]. unfold IAAddr_Valid.
  destruct (Z.leb_spec (iaPreferredLifetime a) (iaValidLifetime a)); cbn [negb]; [|by apply IH].
  destruct (Z.eqb_spec (iaValidLifetime a) 0); [by apply IH|].
  destruct (usable6 (iaAddr a)) eqn:Hu; cbn [negb]; [|by apply IH]. apply IH; [done|].
  apply Forall_app; split; [done|]. apply Forall_singleton. split; [done|]. by apply seconds_lifetimes.
Qed.

Lemma iaAddrs_good o what l z n : Forall option_wf o -> iaAddrs o what = Ok (l, z, n) -> Forall good_addr l.
Proof.
  intros Ho. unfold iaAddrs, catch. destruct (Addrs o) as [addrs| | |] eqn:Ha; try done; [|by intros [= <- _ _]].
  intros Hl%ok_inj. eapply iaAddrsLoop_good; [by apply (Addrs_lifetimes o)| |done]. constructor.
Qed.

(** The renewal and rebinding times of an identity association that was kept. *)
Definition times_ordered (t1 t2 : Duration) : Prop :=
  lifetime_wf t1 /\ lifetime_wf t2 /\ (t1 <> 0 -> t2 <> 0 -> no_longer t1 t2).

Definition ia_good (r : iaResult) : Prop :=
  Forall good_addr (iaAddrsOf r) /\ times_ordered (iaT1 r) (iaT2 r).

Lemma times_kept t1 t2 : u32_wf t1 -> u32_wf t2 -> (0 <? t1) && (0 <? t2) && (t2 <? t1) = false ->
  times_ordered (SecondsToDuration t1) (SecondsToDuration t2).
Proof.
  intros H1 H2 Hc. split; [by apply SecondsToDuration_wf|]. split; [by apply SecondsToDuration_wf|].
  intros N1 N2. destruct (decide (t1 <= t2)) as [Hle|Hgt]; [by apply SecondsToDuration_mono|].
  unfold u32_wf in *. destruct (Z.ltb_spec t2 t1); [|lia]. destruct (Z.ltb_spec 0 t1); [|lia].
  destruct (Z.ltb_spec 0 t2); [done|]. by replace t2 with 0 in N2 by lia.
Qed.

Lemma readIALoop_good ias iaid : forall out n out' n', Forall iana_wf ias -> ia_good out ->
  readIALoop ias iaid out n = Ok (out', n') -> ia_good out'.
Proof.
  induction ias as [|ia ias IH]; intros out n out' n' Hi Ho; cbn [readIALoop]; [by intros [= <- _]|].
  apply Forall_cons in Hi as [(_ & H1 & H2 & Hopt) Hi].
  destruct (negb _); [by apply IH|]. destruct (iaFound out); [by apply IH|].
  destruct (_ && _ && _) eqn:Ht; [by apply IH|]. intros H.
  apply bind_ok_inv in H as ([st n1] & _ & H). apply bind_ok_inv in H as ([[addrs zs] n2] & Ha & H).
  revert H. apply IH; [done|]. split; cbn; [|by apply times_kept].
  apply Forall_app; split; [apply Ho|]. by apply iaAddrs_good in Ha.
Qed.

Lemma readIA_good o iaid r n : Forall option_wf o -> readIA o iaid = Ok (r, n) -> ia_good r.
Proof.
  assert (Hz : ia_good (mkIaResult [] 0 0 StatusSuccess false [])).
  { split; [constructor|]. split; [by right|]. split; [by right|done]. }
  intros Ho. unfold readIA, catch. destruct (IANAs o) as [ias| | |] eqn:Hi; try done; [|by intros [= <- _]].
  intros H. apply bind_ok_inv in H as ([out n'] & Hl & H). injection H as <- _.
  eapply readIALoop_good; [by apply (IANAs_wf o)|done..].
Qed.

(** An IA_PD that failed grants nothing. *)
Lemma readIAPD_refused o iaid res n : readIAPD o iaid = Ok (res, n) -> pdStatus res <> StatusSuccess -> pdPrefixes res = [].
Proof.
  unfold readIAPD, catch. destruct (IAPDs o) as [ias| | |]; try done; [|by intros [= <- _]].
  intros H. apply bind_ok_inv in H as ([out n'] & _ & H). apply ok_inj in H.
  destruct (Z.eqb_spec (pdStatus out) StatusSuccess); cbn [negb andb] in H; [by injection H as <- _|].
  destruct (pdPrefixes out) as [|p ps] eqn:Ep; cbn in H; injection H as <- _; [done|done].
Qed.

(** ** What is read of an association, exactly *)

(** An IA Address option a lease keeps, as it keeps it, and one that withdraws
    an address. *)
Definition keeps_addr (a : IAAddr) : bool := IAAddr_Valid a && negb (iaValidLifetime a =? 0) && usable6 (iaAddr a).
Definition withdraws_addr (a : IAAddr) : bool := IAAddr_Valid a && (iaValidLifetime a =? 0).
Definition kept_addr (a : IAAddr) : Addr6T :=
  mkAddr6 (iaAddr a) (SecondsToDuration (iaPreferredLifetime a)) (SecondsToDuration (iaValidLifetime a)) 0.

(** The same of an IA Prefix option. *)
Definition keeps_prefix (p : IAPrefix) : bool :=
  IAPrefix_Valid p && negb (pxValidLifetime p =? 0) && usablePrefix (pxPrefix p).
Definition withdraws_prefix (p : IAPrefix) : bool := IAPrefix_Valid p && (pxValidLifetime p =? 0).
Definition kept_prefix (p : IAPrefix) : Prefix6 :=
  mkPrefix6 (Masked (pxPrefix p)) (SecondsToDuration (pxPreferredLifetime p)) (SecondsToDuration (pxValidLifetime p)).

Lemma filter_bool_cons {A} (f : A -> bool) x l :
  filter (fun a => f a = true) (x :: l) = if f x then x :: filter (fun a => f a = true) l else filter (fun a => f a = true) l.
Proof. rewrite filter_cons. destruct (decide (f x = true)) as [->|E]; [done|by apply not_true_is_false in E as ->]. Qed.

Lemma iaAddrsLoop_exact addrs : forall out zeroed n, exists n', iaAddrsLoop addrs out zeroed n =
  (out ++ map kept_addr (filter (fun a => keeps_addr a = true) addrs),
   zeroed ++ map iaAddr (filter (fun a => withdraws_addr a = true) addrs), n').
Proof.
  induction addrs as [|a addrs IH]; intros out zeroed n; cbn [iaAddrsLoop].
  { exists n. by rewrite !app_nil_r. }
  rewrite !filter_bool_cons. unfold keeps_addr at 1, withdraws_addr at 1.
  destruct (IAAddr_Valid a), (iaValidLifetime a =? 0), (usable6 (iaAddr a)); cbn [negb andb];
    match goal with |- context [iaAddrsLoop addrs ?o ?z ?n] => destruct (IH o z n) as [n' ->] end; exists n'; cbn [map];
    by rewrite <- ?app_assoc.
Qed.

Lemma iaPrefixesLoop_exact ps : forall out zeroed n, exists n', iaPrefixesLoop ps out zeroed n =
  (out ++ map kept_prefix (filter (fun p => keeps_prefix p = true) ps),
   zeroed ++ map (fun p => Masked (pxPrefix p)) (filter (fun p => withdraws_prefix p = true) ps), n').
Proof.
  induction ps as [|p ps IH]; intros out zeroed n; cbn [iaPrefixesLoop].
  { exists n. by rewrite !app_nil_r. }
  rewrite !filter_bool_cons. unfold keeps_prefix at 1, withdraws_prefix at 1.
  destruct (IAPrefix_Valid p), (pxValidLifetime p =? 0), (usablePrefix (pxPrefix p)); cbn [negb andb];
    match goal with |- context [iaPrefixesLoop ps ?o ?z ?n] => destruct (IH o z n) as [n' ->] end; exists n'; cbn [map];
    by rewrite <- ?app_assoc.
Qed.

(** The association an answer is read from: ours by its IAID, its times kept,
    and its addresses, unless its options do not decode. *)
Definition read_from (iaid : Z) (ias : list IANA) (r : iaResult) : Prop :=
  exists ia, ia ∈ ias /\ naIAID ia = iaid /\ iaT1 r = SecondsToDuration (naT1 ia) /\ iaT2 r = SecondsToDuration (naT2 ia) /\
    match Addrs (naOptions ia) with
    | Ok addrs => iaAddrsOf r = map kept_addr (filter (fun a => keeps_addr a = true) addrs) /\
                  iaZeroed r = map iaAddr (filter (fun a => withdraws_addr a = true) addrs)
    | _ => iaAddrsOf r = [] /\ iaZeroed r = []
    end.

Lemma readIALoop_exact iaid all ias : forall out n out' n', (forall ia, ia ∈ ias -> ia ∈ all) ->
  (if iaFound out then read_from iaid all out else iaAddrsOf out = [] /\ iaZeroed out = []) ->
  readIALoop ias iaid out n = Ok (out', n') -> if iaFound out' then read_from iaid all out' else iaAddrsOf out' = [] /\ iaZeroed out' = [].
Proof.
  induction ias as [|ia ias IH]; intros out n out' n' Hin Ho; cbn [readIALoop]; [by intros [= <- _]|].
  assert (Hin' : forall ia, ia ∈ ias -> ia ∈ all) by (intros; apply Hin; by right).
  destruct (Z.eqb_spec (naIAID ia) iaid) as [Ei|]; cbn [negb]; [|by apply IH].
  destruct (iaFound out) eqn:Ef; [apply IH; [done|by rewrite Ef]|].
  destruct (_ && _ && _); [apply IH; [done|by rewrite Ef]|]. intros H.
  apply bind_ok_inv in H as ([st n1] & _ & H). apply bind_ok_inv in H as ([[addrs zs] n2] & Ha & H).
  revert H. apply IH; [done|]. cbn [iaFound]. exists ia. split; [apply Hin; by left|]. split; [done|]. split; [done|]. split; [done|].
  cbn [iaAddrsOf iaZeroed]. destruct Ho as [-> ->]. cbn [app]. unfold iaAddrs, catch in Ha.
  destruct (Addrs (naOptions ia)) as [l| | |]; try done; [|by injection Ha as <- <- _].
  destruct (iaAddrsLoop_exact l [] [] []) as [n3 E]. rewrite E in Ha. cbn [app] in Ha. by injection Ha as <- <- _.
Qed.

Lemma readIA_exact o iaid r n : readIA o iaid = Ok (r, n) -> iaFound r = true ->
  exists ias, IANAs o = Ok ias /\ read_from iaid ias r.
Proof.
  unfold readIA, catch. destruct (IANAs o) as [ias| | |]; try done; [|by intros [= <- _]].
  intros H Hf. apply bind_ok_inv in H as ([out n'] & Hl & H). injection H as <- _. exists ias. split; [done|].
  apply (readIALoop_exact iaid ias) in Hl; [by rewrite Hf in Hl|done|by split].
Qed.

(** The same of the association of delegated prefixes. *)
Definition pd_from (iaid : Z) (ias : list IAPD) (r : pdResult) : Prop :=
  exists ia, ia ∈ ias /\ pdIAID ia = iaid /\ pdT1Of r = SecondsToDuration (pdT1 ia) /\ pdT2Of r = SecondsToDuration (pdT2 ia) /\
    times_ordered (pdT1Of r) (pdT2Of r) /\
    match Prefixes (pdOptions ia) with
    | Ok ps => pdPrefixes r = map kept_prefix (filter (fun p => keeps_prefix p = true) ps) /\
               pdZeroed r = map (fun p => Masked (pxPrefix p)) (filter (fun p => withdraws_prefix p = true) ps)
    | _ => pdPrefixes r = [] /\ pdZeroed r = []
    end.

Lemma readIAPDLoop_exact iaid all ias : Forall iapd_wf all -> forall out n out' n', (forall ia, ia ∈ ias -> ia ∈ all) ->
  (if pdFound out then pd_from iaid all out else pdPrefixes out = [] /\ pdZeroed out = []) ->
  readIAPDLoop ias iaid out n = Ok (out', n') -> if pdFound out' then pd_from iaid all out' else pdPrefixes out' = [] /\ pdZeroed out' = [].
Proof.
  intros Hwf. induction ias as [|ia ias IH]; intros out n out' n' Hin Ho; cbn [readIAPDLoop]; [by intros [= <- _]|].
  assert (Hin' : forall ia, ia ∈ ias -> ia ∈ all) by (intros; apply Hin; by right).
  destruct (Z.eqb_spec (pdIAID ia) iaid) as [Ei|]; cbn [negb]; [|by apply IH].
  destruct (pdFound out) eqn:Ef; [apply IH; [done|by rewrite Ef]|].
  destruct (_ && _ && _) eqn:Et; [apply IH; [done|by rewrite Ef]|]. intros H.
  apply bind_ok_inv in H as ([st n1] & _ & H). apply bind_ok_inv in H as ([[ps zs] n2] & Ha & H).
  revert H. apply IH; [done|]. cbn [pdFound]. exists ia. split; [apply Hin; by left|]. split; [done|]. split; [done|]. split; [done|].
  cbn [pdPrefixes pdZeroed pdT1Of pdT2Of]. split.
  { rewrite Forall_forall in Hwf. destruct (Hwf ia) as (_ & H1 & H2 & _); [apply Hin; by left|]. by apply times_kept. }
  destruct Ho as [-> ->]. cbn [app]. unfold iaPrefixes, catch in Ha.
  destruct (Prefixes (pdOptions ia)) as [l| | |]; try done; [|by injection Ha as <- <- _].
  destruct (iaPrefixesLoop_exact l [] [] []) as [n3 E]. rewrite E in Ha. cbn [app] in Ha. by injection Ha as <- <- _.
Qed.

Lemma IAPDs_wf o l : Forall option_wf o -> IAPDs o = Ok l -> Forall iapd_wf l.
Proof.
  intros Ho. apply decodeAll_ok; [|by apply All_bytes]. intros v ia Hb Hd. by apply IAPD_codec in Hd as [_ ?].
Qed.

(** What [readIAPD] hands on: nothing; nothing but the withdrawn of an
    association whose status is not Success; or what the association says. *)
Lemma readIAPD_exact o iaid r n : Forall option_wf o -> readIAPD o iaid = Ok (r, n) ->
  (pdStatus r <> StatusSuccess -> pdPrefixes r = []) /\
  if pdFound r then exists ias r0, IAPDs o = Ok ias /\ pd_from iaid ias r0 /\
      pdT1Of r = pdT1Of r0 /\ pdT2Of r = pdT2Of r0 /\ pdZeroed r = pdZeroed r0 /\
      (pdStatus r = StatusSuccess -> pdPrefixes r = pdPrefixes r0)
  else pdPrefixes r = [] /\ pdZeroed r = [].
Proof.
  intros Ho H. split; [by apply (readIAPD_refused o iaid _ n)|]. revert H.
  unfold readIAPD, catch. destruct (IAPDs o) as [ias| | |] eqn:Ei; try done; [|by intros [= <- _]].
  intros H. apply bind_ok_inv in H as ([out n'] & Hl & H). apply ok_inj in H.
  apply (readIAPDLoop_exact iaid ias ias (IAPDs_wf o ias Ho Ei)) in Hl; [|done|by split].
  destruct (Z.eqb_spec (pdStatus out) StatusSuccess) as [Es|Es]; cbn [negb andb] in H.
  - injection H as <- _. destruct (pdFound out); [|done]. by exists ias, out.
  - destruct (pdPrefixes out) as [|p ps] eqn:Ep; cbn in H; injection H as <- _; cbn [pdFound pdPrefixes pdZeroed pdT1Of pdT2Of pdStatus];
      (destruct (pdFound out); [|try done; by destruct Hl]); exists ias, out; done.
Qed.

Lemma DecodeIAPrefix_lifetimes v p : are_bytes v -> DecodeIAPrefix v = Ok p ->
  u32_wf (pxPreferredLifetime p) /\ u32_wf (pxValidLifetime p).
Proof.
  intros Hb. unfold DecodeIAPrefix. destruct (_ <? _)%nat; [done|]. intros H.
  apply bind_ok_inv in H as (bits & _ & H). destruct (128 <? bits); [done|].
  apply bind_ok_inv in H as (b & _ & H). apply bind_ok_inv in H as (o & _ & H).
  apply read32_inv in H as (p0 & H & Hp & _); [|done|done].
  apply read32_inv in H as (l & H & Hl & _); [|done|done].
  apply bind_ok_inv in H as (a & _ & H). by injection H as <-.
Qed.

(** A prefix worth holding: a usable prefix without its host bits, with
    lifetimes in order. *)
Definition good_prefix (p : Prefix6) : Prop :=
  (exists q, usablePrefix q = true /\ p6Prefix p = Masked q) /\ lifetimes_wf (p6Preferred p) (p6Valid p).

Lemma kept_prefixes_good ps : Forall (fun p => u32_wf (pxPreferredLifetime p) /\ u32_wf (pxValidLifetime p)) ps ->
  Forall good_prefix (map kept_prefix (filter (fun p => keeps_prefix p = true) ps)).
Proof.
  intros Hw. induction Hw as [|p ps [Hp Hv] _ IH]; [constructor|]. rewrite filter_bool_cons.
  destruct (keeps_prefix p) eqn:E; [|done]. constructor; [|done]. unfold keeps_prefix, IAPrefix_Valid in E.
  rewrite !andb_true_iff, negb_true_iff, Z.leb_le, Z.eqb_neq in E. destruct E as [[Hle Hne] Hu].
  split; [by exists (pxPrefix p)|]. by apply seconds_lifetimes.
Qed.

Lemma readIAPD_good o iaid r n : Forall option_wf o -> readIAPD o iaid = Ok (r, n) -> Forall good_prefix (pdPrefixes r).
Proof.
  intros Ho H. destruct (readIAPD_exact o iaid r n Ho H) as [H1 H2].
  destruct (decide (pdStatus r = StatusSuccess)) as [Es|Es]; [|rewrite (H1 Es); constructor].
  destruct (pdFound r); [|destruct H2 as [-> _]; constructor].
  destruct H2 as (ias & r0 & Ei & (ia & Hin & _ & _ & _ & _ & Hm) & _ & _ & _ & Hp). rewrite (Hp Es).
  pose proof (IAPDs_wf o ias Ho Ei) as Hw. rewrite Forall_forall in Hw. destruct (Hw ia Hin) as (_ & _ & _ & Hopt).
  destruct (Prefixes (pdOptions ia)) as [ps| | |] eqn:Ep; destruct Hm as [-> _]; try constructor.
  apply kept_prefixes_good. revert Ep. apply decodeAll_ok; [apply DecodeIAPrefix_lifetimes|by apply All_bytes].
Qed.

(** ** The lifetimes of a lease, and its deadlines *)

Definition lives (l : list Addr6T) : Prop := Forall (fun a => lifetimes_wf (a6Preferred a) (a6Valid a)) l.

Lemma no_longer_trans a b c : no_longer a b -> no_longer b c -> no_longer a c.
Proof. intros [->|[? ?]] [->|[? ?]]; [by left|done|by left|]. right. split; [done|lia]. Qed.

Lemma longestLoop_spec l : forall out, lives l -> lifetime_wf out -> out <> Infinite ->
  lifetime_wf (longestLoop l out) /\ no_longer out (longestLoop l out) /\
  Forall (fun a => no_longer (a6Valid a) (longestLoop l out)) l.
Proof.
  induction l as [|a l IH]; intros out Hl Ho Hi; cbn [longestLoop].
  { split; [done|]. split; [|constructor]. right. split; [done|lia]. }
  apply Forall_cons in Hl as [(_ & Hv & _ & _) Hl]. unfold IsInfinite.
  destruct (Z.eqb_spec (a6Valid a) Infinite) as [Ei|Ei].
  { split; [by left|]. split; [by left|]. rewrite Forall_cons. split; [by left|]. apply Forall_forall. intros. by left. }
  set (m := if out <? a6Valid a then a6Valid a else out).
  assert (Hm : lifetime_wf m /\ m <> Infinite /\ out <= m /\ a6Valid a <= m).
  { unfold m. destruct (Z.ltb_spec out (a6Valid a)); repeat split; (done || lia). }
  destruct Hm as (Hm & Hmi & Hom & Ham). destruct (IH m Hl Hm Hmi) as (H1 & H2 & H3).
  split; [done|]. rewrite Forall_cons. split_and!; [| |done].
  - eapply no_longer_trans; [|done]. by right.
  - eapply no_longer_trans; [|done]. by right.
Qed.

Lemma longestValid_spec l : lives (l6Addrs l) -> lifetime_wf (longestValid l) /\
  Forall (fun a => no_longer (a6Valid a) (longestValid l)) (l6Addrs l).
Proof.
  intros Hl. destruct (longestLoop_spec (l6Addrs l) 0 Hl) as (? & _ & ?); [right; unfold Second; lia|done|done].
Qed.

Lemma renewLoop_spec v l : forall out live inf out' live' inf',
  lives l -> Forall (fun a => no_longer (a6Valid a) v) l ->
  (live = true -> lifetime_wf out /\ no_longer out v) -> (inf = true -> v = Infinite) ->
  renewLoop l out live inf = (out', live', inf') ->
  (live' = true -> lifetime_wf out' /\ no_longer out' v) /\ (inf' = true -> v = Infinite).
Proof.
  induction l as [|a l IH]; intros out live inf out' live' inf' Hl Hv Ho Hi; cbn [renewLoop]; [by intros [= <- <- <-]|].
  apply Forall_cons in Hl as [(Hp & _ & _ & Hn) Hl]. apply Forall_cons in Hv as [Ha Hv]. unfold IsInfinite.
  pose proof (no_longer_trans _ _ _ Hn Ha) as Hpv.
  destruct (Z.eqb_spec (a6Preferred a) Infinite) as [Ei|Ei].
  - apply IH; try done. intros _. destruct Hpv as [|[]]; done.
  - destruct (_ && _); by apply IH.
Qed.

Lemma renewPreferred_spec l : lives (l6Addrs l) ->
  lifetime_wf (renewPreferred l) /\ no_longer (renewPreferred l) (longestValid l).
Proof.
  intros Hl. destruct (longestValid_spec l Hl) as [Hv Ha]. unfold renewPreferred.
  destruct (renewLoop _ _ _ _) as [[out live] inf] eqn:E.
  apply (renewLoop_spec (longestValid l)) in E as [H1 H2]; try done.
  destruct live; [by apply H1|]. destruct inf; [split; by left; auto|].
  split; [right; unfold Second; lia|]. destruct (decide (longestValid l = Infinite)); [by left|right].
  unfold lifetime_wf, Infinite in *. split; [done|lia].
Qed.

(** The timers of a lease: each strictly after the lease began, renewal before
    rebinding, rebinding before the end. *)
Definition deadlines_ordered (start : Instant) (d : Deadlines) : Prop :=
  (forall r, dRenew d = Some r -> start < r) /\
  (forall b, dRebind d = Some b -> start < b) /\
  (forall e, dExpire d = Some e -> start < e) /\
  (forall r b, dRenew d = Some r -> dRebind d = Some b -> r < b) /\
  (forall b e, dRebind d = Some b -> dExpire d = Some e -> b < e).

Lemma Lease6Deadlines_ordered l : l6Addrs l <> [] -> lives (l6Addrs l) -> instant_wf (l6Start l) ->
  lifetime_wf (l6T1 l) -> lifetime_wf (l6T2 l) -> l6SLAAC l = false -> l6pdTimed l = false ->
  deadlines_ordered (l6Start l) (Lease6Deadlines l) /\
  (dExpire (Lease6Deadlines l) = None <-> longestValid l = Infinite) /\
  (longestValid l <> Infinite -> dExpire (Lease6Deadlines l) = Some (l6Start l + longestValid l)).
Proof.
  intros Hne Hl Hs H1 H2 Hsl Hpd. destruct (longestValid_spec l Hl) as [Hv Ha].
  destruct (renewPreferred_spec l Hl) as [Hp Hpv].
  assert (Hv0 : longestValid l <> 0).
  { destruct (l6Addrs l) as [|a addrs]; [done|]. apply Forall_cons in Hl as [(_ & Hva & Hv0 & _) _].
    apply Forall_cons in Ha as [[Ha|[Hi Ha]] _]; [by rewrite Ha|]. unfold lifetime_wf in *. intuition lia. }
  unfold Lease6Deadlines. rewrite Hsl, Hpd. cbn [andb].
  destruct (renewTimes_order (l6T1 l) (l6T2 l) (l6Start l) (renewPreferred l) (longestValid l)) as (Hb & Hr & Hrb); try done.
  rewrite (proj2 (Nat.eqb_neq _ 0)) by (by destruct (l6Addrs l)). cbn [orb]. unfold IsInfinite.
  assert (Hadd : longestValid l <> Infinite -> Add (l6Start l) (longestValid l) = l6Start l + longestValid l /\ 0 < longestValid l).
  { intros Hi. destruct Hv as [|Hv]; [done|]. clear -Hv Hv0 Hs. unfold instant_wf, Second, Add in *.
    change (2 ^ 62) with 4611686018427387904 in Hs. rewrite i64_id by lia. lia. }
  revert Hb Hr Hrb. generalize (renewTimes (l6T1 l) (l6T2 l) (l6Start l) (renewPreferred l) (longestValid l)).
  intros d Hb Hr Hrb.
  destruct (Z.eqb_spec (longestValid l) Infinite) as [Ei|Ei]; cbn [negb andb].
  - split; [|done]. unfold deadlines_ordered. cbn [dRenew dRebind dExpire]. split_and!; try done. intros b Eb. by apply Hb.
  - destruct (Hadd Ei) as [Hsum Hpos]. destruct (Z.leb_spec (longestValid l) 0); [lia|]. rewrite Hsum.
    split; [|done]. unfold deadlines_ordered. cbn [dRenew dRebind dExpire]. split_and!; try done.
    + intros b Eb. by apply Hb.
    + intros e [= <-]. lia.
    + intros b e Hbb [= <-]. by apply Hb.
Qed.

(** What a lease has of the association it was read from. *)
Lemma leaseFromReply_fields m iaid sentAt l zeroed n st :
  leaseFromReply m iaid sentAt = Ok (l, zeroed, n, st, true) -> exists r ns,
  readIA (MOptionsV6 m) iaid = Ok (r, ns) /\ iaFound r = true /\ iaStatusOf r = st /\ st <> StatusNoAddrsAvail /\
  l6IAID l = iaid /\ l6Start l = sentAt /\ l6SLAAC l = false /\ l6pdTimed l = false /\
  l6Addrs l = iaAddrsOf r /\ l6T1 l = iaT1 r /\ l6T2 l = iaT2 r /\ l6Addrs l <> [] /\ zeroed = iaZeroed r /\
  l6ServerDUID l = default [] (First (MOptionsV6 m) OptV6ServerID).
Proof.
  unfold leaseFromReply. intros H. set (l0 := match First _ _ with Some _ => _ | None => _ end) in H.
  assert (Hl0 : l6IAID l0 = iaid /\ l6Start l0 = sentAt /\ l6SLAAC l0 = false /\ l6pdTimed l0 = false /\
    l6ServerDUID l0 = default [] (First (MOptionsV6 m) OptV6ServerID))
    by (unfold l0; by destruct (First _ _)). clearbody l0.
  apply bind_ok_inv in H as ([r ns] & Hr & H). exists r, ns. split; [done|].
  destruct (iaFound r); cbn [negb] in H; [|done]. split; [done|].
  destruct (if _ && _ then _ else _) as [addrs notes] eqn:Ea.
  apply bind_ok_inv in H as ([l1 n1] & H1 & H). apply bind_ok_inv in H as ([l2 n2] & H2 & H).
  apply bind_ok_inv in H as ([[f ok] nf] & _ & H). injection H as <- <- _ <- Hne.
  assert (Hne' : addrs <> []) by (by destruct addrs). split; [done|].
  assert (Hs : iaStatusOf r <> StatusNoAddrsAvail /\ addrs = iaAddrsOf r).
  { destruct (Z.eqb_spec (iaStatusOf r) StatusNoAddrsAvail), (iaAddrsOf r); cbn in Ea; injection Ea as <- _; done. }
  destruct Hs as [Hs ->]. split; [done|].
  unfold catch in H1, H2. destruct (DNSServers _) as [?| | |]; try done; injection H1 as <- _;
    destruct (DomainSearchV6 _) as [?| | |]; try done; injection H2 as <- _; cbn; naive_solver.
Qed.


(** A Reply with one address, preferred an hour and valid two, T1 and T2 left
    to the client. *)
Definition sample_reply : bytes :=
  [7; 1; 2; 3; 0; 3; 0; 40; 0; 0; 0; 9; 0; 0; 0; 0; 0; 0; 0; 0; 0; 5; 0; 24;
   32; 1; 13; 184; 0; 0; 0; 0; 0; 0; 0; 0; 0; 0; 0; 1; 0; 0; 14; 16; 0; 0; 28; 32].

Definition sample_message : MessageV6 :=
  mkMessageV6 MsgReply 0x10203 [mkOptionV6 OptV6IANA (drop 8 sample_reply)].


(** ** What a renewal keeps *)

(** An address or prefix held on: the same absolute end, which is still ahead,
    and the same end of preference unless that has passed. *)
Definition carried (start newStart now : Instant) (pref valid pref' valid' : Duration) : Prop :=
  ended start now valid = false /\ expiry newStart valid' = expiry start valid /\
  lifetimes_wf pref' valid' /\
  (expiry newStart pref' = expiry start pref \/
   exists e, expiry start pref = Some e /\ e <= newStart /\ pref' = 0).

Lemma expiry_wf start d : instant_wf start -> lifetime_wf d ->
  d = Infinite /\ expiry start d = None \/
  d <> Infinite /\ 0 <= d <= 4294967294 * Second /\ expiry start d = Some (start + d).
Proof.
  unfold expiry, IsInfinite. intros Hs [->|Hd]; [by left|right]. destruct (Z.eqb_spec d Infinite) as [->|Hi]; [unfold Infinite in Hd; lia|].
  split; [done|]. split; [done|]. f_equal. unfold Add, instant_wf, Second in *. clear Hi.
  change (2 ^ 62) with 4611686018427387904 in *. apply i64_id. lia.
Qed.

Section Carry.
Context (start newStart now : Instant).
Hypotheses (Hs : instant_wf start) (Hnow : instant_wf now) (Hsn : start <= newStart) (Hnn : newStart <= now).

Lemma expiry_moved d : 0 <= start + d - newStart -> d <= 4294967294 * Second ->
  Sub (start + d) newStart = start + d - newStart /\ lifetime_wf (start + d - newStart) /\
  start + d - newStart <> Infinite /\ expiry newStart (start + d - newStart) = Some (start + d).
Proof.
  intros H0 Hd. assert (Hr : start + d - newStart <> Infinite) by (unfold Infinite; lia).
  unfold Sub, expiry, IsInfinite, Add, lifetime_wf. rewrite (proj2 (Z.eqb_neq _ _) Hr).
  unfold instant_wf, Second in *. change (2 ^ 62) with 4611686018427387904 in *.
  rewrite !i64_id by lia. split; [done|]. split; [right; lia|]. split; [done|]. f_equal. lia.
Qed.

Lemma preferred_moved d : 0 <= d <= 4294967294 * Second ->
  let p := if Sub (start + d) newStart <? 0 then 0 else Sub (start + d) newStart in
  lifetime_wf p /\ p <> Infinite /\ p <= Z.max 0 (start + d - newStart) /\
  (expiry newStart p = Some (start + d) \/ exists e, Some (start + d) = Some e /\ e <= newStart /\ p = 0).
Proof.
  intros Hd p. destruct (decide (0 <= start + d - newStart)) as [Hle|Hgt].
  - destruct (expiry_moved d) as (E & Hw & Hi & He); [lia..|]. unfold p. rewrite E, (proj2 (Z.ltb_ge _ _)) by lia.
    split; [done|]. split; [done|]. split; [lia|]. by left.
  - assert (Hp : p = 0).
    { unfold p, Sub. unfold instant_wf, Second in *. change (2 ^ 62) with 4611686018427387904 in *.
      rewrite i64_id by lia. destruct (Z.ltb_spec (start + d - newStart) 0); lia. }
    clearbody p. subst p. split; [right; unfold Second; lia|]. split; [done|]. split; [lia|]. right. eexists. split; [done|lia].
Qed.

Lemma carryLifetimes_spec pref valid : lifetimes_wf pref valid ->
  match carryLifetimes pref valid start newStart now with
  | None => ended start now valid = true
  | Some (p, v) => carried start newStart now pref valid p v
  end.
Proof.
  intros (Hp & Hv & Hv0 & Hpv). unfold carryLifetimes, carried, ended, Before, After.
  destruct (expiry_wf start valid Hs Hv) as [[Ei ->]|(Ei & Hvr & ->)], (expiry_wf start pref Hs Hp) as [[Ep ->]|(Ep & Hpr & ->)].
  - split; [done|]. split; [by rewrite Ei|]. split; [done|]. left. by rewrite Ep.
  - destruct (preferred_moved pref Hpr) as (? & ? & _ & ?). split; [done|]. split; [by rewrite Ei|]. split; [|done].
    split; [done|]. split; [done|]. split; [done|by left].
  - destruct Hpv as [|[]]; done.
  - destruct (Z.ltb_spec now (start + valid)) as [Hlt|]; cbn [negb]; [|done].
    destruct (preferred_moved pref Hpr) as (? & ? & Hle & ?), (expiry_moved valid) as (-> & ? & ? & ?); [lia..|].
    split; [done|]. split; [done|]. split; [|done]. split; [done|]. split; [done|].
    destruct Hpv as [|[_ Hpv]]; [done|]. split; [lia|]. right. split; [done|]. lia.
Qed.
End Carry.

(** The merge a renewal makes, whatever is renewed: what was granted, and of
    what was held and neither granted nor withdrawn, what [keep] makes of it. *)
Section Renewal.
Context {A K : Type} `{EqDecision K} (key : A -> K) (keep : A -> option A) (gone : K -> bool).
Hypothesis keep_key : forall h a, keep h = Some a -> key a = key h.

Definition granted_of (got : list A) (k : K) : option A := snd <$> list_find (fun g => key g = k) got.

Definition renewed_by (held got : list A) : list A :=
  (held ≫= fun h =>
    match granted_of got (key h) with
    | Some g => [g]
    | None => if gone (key h) then [] else match keep h with Some a => [a] | None => [] end
    end) ++ filter (fun g => key g ∉ key <$> held) got.

Lemma granted_of_Some got k g : granted_of got k = Some g -> g ∈ got /\ key g = k.
Proof.
  unfold granted_of. rewrite fmap_Some. intros ([i x] & (Hx & Hk & _)%list_find_Some & ->).
  split; [by eapply list_elem_of_lookup_2|done].
Qed.

Lemma granted_of_None got k : granted_of got k = None -> k ∉ key <$> got.
Proof.
  unfold granted_of. rewrite fmap_None, list_find_None, Forall_forall. intros H.
  intros (g & -> & Hg)%list_elem_of_fmap. by apply (H g).
Qed.

Lemma bind_keys (f : A -> list A) l : (forall h, f h = [] \/ exists a, f h = [a] /\ key a = key h) ->
  (key <$> (l ≫= f)) `sublist_of` (key <$> l).
Proof.
  intros Hf. induction l as [|h l IH]; [done|]. change ((h :: l) ≫= f) with (f h ++ (l ≫= f)).
  rewrite fmap_app. destruct (Hf h) as [->|(a & -> & Ha)]; cbn; [by constructor|]. rewrite Ha. by constructor.
Qed.

Lemma keep_or_grant got h :
  let l := match granted_of got (key h) with
           | Some g => [g]
           | None => if gone (key h) then [] else match keep h with Some a => [a] | None => [] end
           end in
  l = [] \/ exists a, l = [a] /\ key a = key h.
Proof.
  cbv zeta. destruct (granted_of got (key h)) as [g|] eqn:E; [apply granted_of_Some in E; naive_solver|].
  destruct (gone _); [by left|]. destruct (keep h) eqn:Ek; [right; eauto|by left].
Qed.

Lemma renewed_by_NoDup held got : NoDup (key <$> held) -> NoDup (key <$> got) -> NoDup (key <$> renewed_by held got).
Proof.
  intros Hh Hg. unfold renewed_by. rewrite fmap_app. set (kept := held ≫= _).
  assert (Hs : (key <$> kept) `sublist_of` (key <$> held)) by (apply bind_keys; intros; by apply keep_or_grant).
  apply NoDup_app; split; [exact (sublist_NoDup _ _ Hh Hs)|]. split.
  - intros k Hk (g & -> & [Hn _]%list_elem_of_filter)%list_elem_of_fmap. apply Hn. by eapply elem_of_sublist.
  - eapply sublist_NoDup; [exact Hg|]. apply fmap_sublist, sublist_filter.
Qed.

(** The grants that are taken: of what was held the first grant of its key, of
    what was not held every grant. *)
Definition taken (held got : list A) (g : A) : Prop :=
  g ∈ got /\ ((key g ∉ key <$> held) \/ granted_of got (key g) = Some g).

Lemma renewed_by_elem held got a : a ∈ renewed_by held got <->
  (taken held got a \/ exists h, h ∈ held /\ (key h ∉ key <$> got) /\ gone (key h) = false /\ keep h = Some a).
Proof.
  unfold renewed_by, taken. rewrite elem_of_app, list_elem_of_bind, list_elem_of_filter. split.
  - intros [(h & Ha & Hh)|[Hn ?]]; [|left; auto]. destruct (granted_of got (key h)) as [g|] eqn:E.
    + pose proof (granted_of_Some _ _ _ E) as [Hg Ek]. apply list_elem_of_singleton in Ha as ->. left. rewrite Ek. auto.
    + right. exists h. apply granted_of_None in E. destruct (gone (key h)); [by apply not_elem_of_nil in Ha|].
      destruct (keep h); [|by apply not_elem_of_nil in Ha]. by apply list_elem_of_singleton in Ha as ->.
  - intros [[Ha Hor]|(h & Hh & Hn & Hgo & Hk)].
    + destruct (decide (key a ∈ key <$> held)) as [Hin|]; [left|by right]. destruct Hor as [|E]; [done|].
      apply list_elem_of_fmap in Hin as (h & Ek & Hh). exists h. split; [|done]. rewrite <- Ek, E. by left.
    + left. exists h. split; [|done]. destruct (granted_of got (key h)) as [g|] eqn:E.
      * apply granted_of_Some in E as [Hgg Ekg]. destruct Hn. rewrite <- Ekg. by apply list_elem_of_fmap_2.
      * rewrite Hgo, Hk. by left.
Qed.
End Renewal.

(** What holds of a renewal of [held] by [got], [gone] being the withdrawn
    keys: exactly the grants [taken] names are held as granted; of what was held
    and not granted again, exactly what is neither withdrawn nor past its end is
    carried, under its own key and with its own ends; and nothing is held twice
    that was not held or granted twice. *)
Definition renewal {A K} `{EqDecision K} (key : A -> K) (pref valid : A -> Duration) (gone : K -> Prop)
    (start newStart now : Instant) (held got result : list A) : Prop :=
  let kept h := h ∈ held /\ (key h ∉ key <$> got) /\ ~ gone (key h) in
  let same h a := key a = key h /\ carried start newStart now (pref h) (valid h) (pref a) (valid a) in
  (forall a, taken key held got a -> a ∈ result) /\
  (forall a, a ∈ result -> taken key held got a \/ exists h, kept h /\ same h a) /\
  (forall h, kept h -> ended start now (valid h) = false -> exists a, a ∈ result /\ same h a) /\
  (NoDup (key <$> held) -> NoDup (key <$> got) -> NoDup (key <$> result)).

Lemma renewed_by_renewal {A K} `{EqDecision K} (key : A -> K) (pref valid : A -> Duration)
    (mk : A -> Duration -> Duration -> A) (gone : K -> bool) start newStart now held got :
  (forall h p v, key (mk h p v) = key h /\ pref (mk h p v) = p /\ valid (mk h p v) = v) ->
  instant_wf start -> instant_wf now -> start <= newStart -> newStart <= now ->
  Forall (fun h => lifetimes_wf (pref h) (valid h)) held ->
  let keep h := match carryLifetimes (pref h) (valid h) start newStart now with
                | Some (p, v) => Some (mk h p v)
                | None => None
                end in
  renewal key pref valid (fun k => gone k = true) start newStart now held got (renewed_by key keep gone held got).
Proof.
  intros Hmk Hs Hn Hsn Hnn Hh keep.
  assert (Hkey : forall h a, keep h = Some a -> key a = key h).
  { intros h a. unfold keep. destruct (carryLifetimes _ _ _ _ _) as [[p v]|]; [|done]. intros [= <-]. apply Hmk. }
  assert (Hc : forall h, h ∈ held -> match keep h with
    | Some a => carried start newStart now (pref h) (valid h) (pref a) (valid a)
    | None => ended start now (valid h) = true end).
  { intros h Hin. rewrite Forall_forall in Hh. pose proof (carryLifetimes_spec _ newStart _ Hs Hn Hsn Hnn _ _ (Hh h Hin)) as H.
    unfold keep. destruct (carryLifetimes _ _ _ _ _) as [[p v]|]; [|done]. destruct (Hmk h p v) as (_ & -> & ->). done. }
  split; [|split; [|split]].
  - intros a Ha. apply renewed_by_elem; auto.
  - intros a [Ha|(h & Hin & Hng & Hgo & Hk)]%renewed_by_elem; auto. right. exists h. specialize (Hc h Hin).
    rewrite Hk in Hc. split; [|by auto]. split; [done|]. split; [done|]. by rewrite Hgo.
  - intros h (Hin & Hng & Hgo) He. specialize (Hc h Hin). destruct (keep h) as [a|] eqn:Hk; [|congruence].
    exists a. split; [|by auto]. apply renewed_by_elem; auto. right. exists h. apply not_true_is_false in Hgo. auto.
  - intros. by apply renewed_by_NoDup.
Qed.

Lemma granted_of_cons {A K} `{EqDecision K} (key : A -> K) x l k :
  granted_of key (x :: l) k = if decide (key x = k) then Some x else granted_of key l k.
Proof. unfold granted_of. cbn [list_find]. destruct (decide _); [done|]. by destruct (list_find _ l) as [[]|]. Qed.

Lemma granted_of_in {A K} `{EqDecision K} (key : A -> K) l k : granted_of key l k = None <-> k ∉ key <$> l.
Proof.
  split; [apply granted_of_None|]. intros Hn. destruct (granted_of key l k) as [g|] eqn:E; [|done].
  apply granted_of_Some in E as [Hg <-]. destruct Hn. by apply list_elem_of_fmap_2.
Qed.

Lemma addrIndex_granted l a : (addrIndex l a ≫= fun i => l !! i) = granted_of a6Addr l a /\
  (addrIndex l a = None <-> granted_of a6Addr l a = None).
Proof.
  induction l as [|x l [IH1 IH2]]; [done|]. rewrite granted_of_cons. cbn [addrIndex]. unfold addr_eqb.
  case_bool_decide; [by rewrite decide_True|]. rewrite decide_False by done. destruct (addrIndex l a) eqn:E; cbn in *; [|naive_solver].
  split; [done|]. destruct (granted_of _ l a); [done|]. naive_solver.
Qed.

Lemma prefixIndex_granted l p : (prefixIndex l p ≫= fun i => l !! i) = granted_of p6Prefix l p /\
  (prefixIndex l p = None <-> granted_of p6Prefix l p = None).
Proof.
  induction l as [|x l [IH1 IH2]]; [done|]. rewrite granted_of_cons. cbn [prefixIndex]. 
  case_bool_decide; [by rewrite decide_True|]. rewrite decide_False by done. destruct (prefixIndex l p) eqn:E; cbn in *; [|naive_solver].
  split; [done|]. destruct (granted_of _ l p); [done|]. naive_solver.
Qed.

Lemma containsAddr_in hay a : containsAddr hay a = true <-> a ∈ hay.
Proof.
  induction hay as [|h hay IH]; cbn [containsAddr]; [by rewrite elem_of_nil|].
  rewrite elem_of_cons, <- IH. unfold addr_eqb. case_bool_decide; naive_solver.
Qed.

Lemma containsPrefix_in ps p : containsPrefix ps p = true <-> p ∈ ps.
Proof.
  induction ps as [|q ps IH]; cbn [containsPrefix]; [by rewrite elem_of_nil|].
  rewrite elem_of_cons, <- IH. case_bool_decide; naive_solver.
Qed.

Lemma index_match {A} (l : list A) (i : option nat) (k : list A) :
  (i = None <-> (i ≫= fun i => l !! i) = None) ->
  match i with Some i => match l !! i with Some g => [g] | None => [] end | None => k end =
  match (i ≫= fun i => l !! i) with Some g => [g] | None => k end.
Proof. destruct i as [i|]; [|done]. cbn. destruct (l !! i); [done|]. intros [_ H]. by specialize (H eq_refl). Qed.

Lemma renewedAddrs_by held start got zeroed newStart now :
  renewedAddrs held start got zeroed newStart now =
  renewed_by a6Addr (fun h => match carryLifetimes (a6Preferred h) (a6Valid h) start newStart now with
                              | Some (p, v) => Some (mkAddr6 (a6Addr h) p v (a6PrefixLen h))
                              | None => None
                              end) (containsAddr zeroed) held got.
Proof.
  unfold renewedAddrs, renewed_by. f_equal.
  - apply list_bind_ext; [|done]. intros h. destruct (addrIndex_granted got (a6Addr h)) as [E1 E2].
    rewrite index_match by (rewrite E1; exact E2). rewrite E1. destruct (granted_of _ _ _); [done|]. destruct (containsAddr _ _); [done|].
    by destruct (carryLifetimes _ _ _ _ _) as [[p v]|].
  - apply list_filter_iff. intros g. rewrite (proj2 (addrIndex_granted held _)). apply granted_of_in.
Qed.

Lemma renewedPrefixes_by held start res newStart now : pdFound res && negb (pdStatus res =? StatusSuccess) = false ->
  renewedPrefixes held start res newStart now =
  renewed_by p6Prefix (fun h => match carryLifetimes (p6Preferred h) (p6Valid h) start newStart now with
                                | Some (p, v) => Some (mkPrefix6 (p6Prefix h) p v)
                                | None => None
                                end) (containsPrefix (pdZeroed res)) held (pdPrefixes res).
Proof.
  intros Hst. unfold renewedPrefixes, renewed_by. rewrite Hst. f_equal.
  - apply list_bind_ext; [|done]. intros h. destruct (prefixIndex_granted (pdPrefixes res) (p6Prefix h)) as [E1 E2].
    rewrite index_match by (rewrite E1; exact E2). rewrite E1. destruct (granted_of _ _ _); [done|]. destruct (containsPrefix _ _); [done|].
    by destruct (carryLifetimes _ _ _ _ _) as [[p v]|].
  - apply list_filter_iff. intros g. rewrite (proj2 (prefixIndex_granted held _)). apply granted_of_in.
Qed.

Lemma renewal_gone {A K} `{EqDecision K} (key : A -> K) pref valid (gone gone' : K -> Prop) start newStart now held got result :
  (forall k, gone k <-> gone' k) -> renewal key pref valid gone start newStart now held got result ->
  renewal key pref valid gone' start newStart now held got result.
Proof.
  intros Hg (H1 & H2 & H3 & H4). split; [done|]. split; [|split; [|done]].
  - intros a Ha. destruct (H2 a Ha) as [|(h & (? & ? & Hk) & ?)]; [by left|right]. exists h. by rewrite Hg in Hk.
  - intros h (? & ? & Hk). apply H3. by rewrite Hg.
Qed.

(** C27: a renewal loses nothing and extends nothing on its own.  For addresses,
    and for delegated prefixes where the Reply has no IA_PD of ours or one whose
    status is Success: what the Reply grants is held as granted (of a key granted
    twice, the first grant where it was held before, and both where it was not:
    the code does not deduplicate a Reply); of what was held before and the
    Reply does not name, exactly what it did not withdraw and what has not run
    out stays, and it stays with the very instants its lifetimes ended at before,
    whatever instant the new lease starts at; and if nothing was held twice or
    granted twice, nothing is.  An IA_PD of ours with any other status carries
    nothing: the prefixes are those it grants, of which [readIAPD] leaves none.
    What was held has lifetimes in order, and instants are within 2^62
    nanoseconds. *)
Theorem renewals_carry start newStart now : instant_wf start -> instant_wf now -> start <= newStart -> newStart <= now ->
  (forall held got zeroed, Forall good_addr held ->
    renewal a6Addr a6Preferred a6Valid (fun a => a ∈ zeroed) start newStart now held got
      (renewedAddrs held start got zeroed newStart now)) /\
  (forall held res, Forall (fun p => lifetimes_wf (p6Preferred p) (p6Valid p)) held ->
    pdFound res = false \/ pdStatus res = StatusSuccess ->
    renewal p6Prefix p6Preferred p6Valid (fun p => p ∈ pdZeroed res) start newStart now held (pdPrefixes res)
      (renewedPrefixes held start res newStart now)) /\
  (forall held res, pdFound res = true -> pdStatus res <> StatusSuccess ->
    renewedPrefixes held start res newStart now = pdPrefixes res) /\
  (forall held o iaid res n, readIAPD o iaid = Ok (res, n) -> pdFound res = true -> pdStatus res <> StatusSuccess ->
    renewedPrefixes held start res newStart now = []).
Proof.
  intros Hs Hn Hsn Hnn.
  assert (Hfail : forall held res, pdFound res = true -> pdStatus res <> StatusSuccess ->
    renewedPrefixes held start res newStart now = pdPrefixes res).
  { intros held res Hf Hst. unfold renewedPrefixes. by rewrite Hf, (proj2 (Z.eqb_neq _ _) Hst). }
  split; [|split; [|split; [done|]]].
  - intros held got zeroed Hh. rewrite renewedAddrs_by. eapply renewal_gone; [intros; apply containsAddr_in|].
    apply (renewed_by_renewal a6Addr a6Preferred a6Valid (fun h p v => mkAddr6 (a6Addr h) p v (a6PrefixLen h))); try done.
    eapply Forall_impl; [exact Hh|]. by intros h [_ ?].
  - intros held res Hh Hst. rewrite renewedPrefixes_by by (destruct Hst as [->| ->]; [done|by rewrite andb_false_r]).
    eapply renewal_gone; [intros; apply containsPrefix_in|].
    by apply (renewed_by_renewal p6Prefix p6Preferred p6Valid (fun h p v => mkPrefix6 (p6Prefix h) p v)).
  - intros held o iaid res n Hr Hf Hst. rewrite (Hfail held res Hf Hst). by apply readIAPD_refused in Hr.
Qed.

Lemma renewals_carry_witness : let h := mkAddr6 (Addr6 1 []) (60 * Second) (120 * Second) 0 in
  let g := mkAddr6 (Addr6 2 []) (60 * Second) (120 * Second) 0 in
  renewal a6Addr a6Preferred a6Valid (fun a => a ∈ []) 0 (70 * Second) (70 * Second) [h] [g]
    (renewedAddrs [h] 0 [g] [] (70 * Second) (70 * Second)) /\
  renewedAddrs [h] 0 [g] [] (70 * Second) (70 * Second) = [mkAddr6 (Addr6 1 []) 0 (50 * Second) 0; g].
Proof.
  intros h g. split; [|vm_compute; reflexivity].
  assert (Hi : forall t, 0 <= t <= 70 * Second -> instant_wf t)
    by (unfold instant_wf, Second; change (2 ^ 62) with 4611686018427387904; intros; lia).
  refine (proj1 (renewals_carry 0 (70 * Second) (70 * Second) _ _ _ _) [h] [g] [] _); [apply Hi; unfold Second; lia|apply Hi; unfold Second; lia|done|done|].
  apply Forall_singleton. split; [reflexivity|]. unfold h, lifetimes_wf, lifetime_wf, no_longer, Second, Infinite.
  cbn [a6Preferred a6Valid]. split_and!; [right; lia..|done|right; split; [done|lia]].
Defined.

(** ** The ends *)

(** The least instant with a property, if there is one. *)
Definition least (P : Instant -> Prop) (r : option Instant) : Prop :=
  match r with None => forall e, ~ P e | Some t => P t /\ forall e, P e -> t <= e end.

Lemma least_ext (P Q : Instant -> Prop) r : (forall e, P e <-> Q e) -> least P r -> least Q r.
Proof. intros H. destruct r; cbn; naive_solver. Qed.

Lemma takeEnd_least P start acc d : least P acc ->
  least (fun e => P e \/ expiry start d = Some e) (takeEnd start acc d).
Proof.
  unfold takeEnd, Before. destruct (expiry start d) as [e|] eqn:E, acc as [t|]; cbn; intros Ha.
  - destruct (Z.ltb_spec e t); cbn; split; try naive_solver; intros e' [H'|[= <-]]; destruct Ha as [_ Ha];
      try specialize (Ha _ H'); lia.
  - split; [by right|]. intros e' [H'|[= <-]]; [by destruct (Ha e')|lia].
  - naive_solver.
  - naive_solver.
Qed.

Lemma foldl_takeEnd {A} (valid : A -> Duration) start l : forall P acc, least P acc ->
  least (fun e => P e \/ exists a, a ∈ l /\ expiry start (valid a) = Some e)
    (foldl (fun t a => takeEnd start t (valid a)) acc l).
Proof.
  induction l as [|a l IH]; intros P acc Ha; cbn [foldl].
  { eapply least_ext; [|exact Ha]. intros e. split; [by left|]. intros [|(a & H%elem_of_nil & _)]; done. }
  eapply least_ext; [|apply IH, takeEnd_least, Ha]. intros e. cbn. setoid_rewrite elem_of_cons. naive_solver.
Qed.

(** The instants at which something of the lease ends. *)
Definition ends_of (l : Lease6) (e : Instant) : Prop :=
  (exists a, a ∈ l6Addrs l /\ expiry (l6Start l) (a6Valid a) = Some e) \/
  (exists a, a ∈ l6TempAddrs l /\ expiry (l6Start l) (a6Valid a) = Some e) \/
  (exists p, p ∈ l6Prefixes l /\ expiry (l6Start l) (p6Valid p) = Some e).

Lemma nextEnd_least l : least (ends_of l) (nextEnd l).
Proof.
  assert (H0 : least (fun _ => False) None) by (intros e []).
  unfold nextEnd. eapply least_ext; [|do 3 apply foldl_takeEnd; exact H0].
  intros e. unfold ends_of. cbn. tauto.
Qed.

Lemma keepLoop_spec {A} (valid : A -> Duration) start now l : forall n, exists k,
  keepLoop valid start now l n = (filter (fun a => ended start now (valid a) = false) l, n + k) /\ 0 <= k /\
  (k = 0 <-> forall a, a ∈ l -> ended start now (valid a) = false).
Proof.
  induction l as [|a l IH]; intros n; cbn [keepLoop].
  { exists 0. split; [by rewrite Z.add_0_r|]. split; [done|]. split; [|done]. intros _ a H. by apply elem_of_nil in H. }
  rewrite filter_cons. destruct (ended start now (valid a)) eqn:E.
  - rewrite decide_False by done. destruct (IH (n + 1)) as (k & -> & Hk & _). exists (k + 1). split; [f_equal; lia|].
    split; [lia|]. split; [lia|]. intros Ha. rewrite (Ha a) in E by left. done.
  - rewrite decide_True by done. destruct (IH n) as (k & -> & Hk & Hk0). exists k. split; [done|]. split; [done|].
    rewrite Hk0. setoid_rewrite elem_of_cons. naive_solver.
Qed.

Lemma filter_all {A} (P : A -> Prop) `{forall x, Decision (P x)} (l : list A) : (forall a, a ∈ l -> P a) -> filter P l = l.
Proof.
  induction l as [|a l IH]; intros Ha; [done|]. rewrite filter_cons, decide_True by (apply Ha; left).
  f_equal. apply IH. intros x Hx. apply Ha. by right.
Qed.

Lemma ended_iff start now d : ended start now d = false <-> forall e, expiry start d = Some e -> now < e.
Proof.
  unfold ended, Before. destruct (expiry start d) as [e|]; [|naive_solver].
  destruct (Z.ltb_spec now e); cbn; [naive_solver|]. split; [done|]. intros Hn. specialize (Hn e eq_refl). lia.
Qed.

Lemma ends_kept {A} (valid : A -> Duration) start now (l : list A) e :
  (exists a, a ∈ filter (fun a => ended start now (valid a) = false) l /\ expiry start (valid a) = Some e) <->
  (exists a, a ∈ l /\ expiry start (valid a) = Some e) /\ now < e.
Proof.
  setoid_rewrite list_elem_of_filter. setoid_rewrite ended_iff. split.
  - intros (a & [Hn Ha] & He). split; [eauto|by apply Hn].
  - intros [(a & Ha & He) Hn]. exists a. split; [|done]. split; [|done]. intros e'. rewrite He. by intros [= <-].
Qed.

Lemma none_ended {A} (valid : A -> Duration) start now (l : list A) :
  (forall a, a ∈ l -> ended start now (valid a) = false) <->
  (forall e, (exists a, a ∈ l /\ expiry start (valid a) = Some e) -> now < e).
Proof.
  setoid_rewrite ended_iff. split; [intros H e (a & Ha & He); by eapply H|]. intros H a Ha e He. apply H. eauto.
Qed.

(** The timer of the ends is never early and never late.  [nextEnd] is the
    first instant at which something of the lease ends: before it [withoutEnded]
    removes nothing, from it on it removes something, what it leaves ends later
    than now, and it removes nothing that has not ended. *)
Theorem nextEnd_exact l now :
  let '(kept, n) := withoutEnded l now in
  (n = 0 <-> match nextEnd l with Some t => now < t | None => True end) /\ (n = 0 -> kept = l) /\ 0 <= n /\
  match nextEnd kept with Some t => now < t | None => True end /\
  (forall e, ends_of kept e <-> ends_of l e /\ now < e).
Proof.
  unfold withoutEnded.
  destruct (keepLoop_spec a6Valid (l6Start l) now (l6Addrs l) 0) as (k1 & -> & P1 & Z1).
  destruct (keepLoop_spec a6Valid (l6Start l) now (l6TempAddrs l) (0 + k1)) as (k2 & -> & P2 & Z2).
  destruct (keepLoop_spec p6Valid (l6Start l) now (l6Prefixes l) (0 + k1 + k2)) as (k3 & -> & P3 & Z3).
  pose proof (nextEnd_least l) as HL. set (kept := l <| l6Addrs := _ |> <| l6TempAddrs := _ |> <| l6Prefixes := _ |>).
  assert (Hk : forall e, ends_of kept e <-> ends_of l e /\ now < e).
  { intros e. pose proof (ends_kept a6Valid (l6Start l) now (l6Addrs l) e).
    pose proof (ends_kept a6Valid (l6Start l) now (l6TempAddrs l) e).
    pose proof (ends_kept p6Valid (l6Start l) now (l6Prefixes l) e). unfold ends_of. destruct l; cbn in *. tauto. }
  assert (Hn : 0 + k1 + k2 + k3 = 0 <-> forall e, ends_of l e -> now < e).
  { transitivity (k1 = 0 /\ k2 = 0 /\ k3 = 0); [lia|]. rewrite Z1, Z2, Z3, !none_ended. unfold ends_of. naive_solver. }
  split_and!; try done; try lia.
  - rewrite Hn. destruct (nextEnd l) as [t|]; cbn in HL; [|naive_solver]. destruct HL as [Ht Hm].
    split; [auto|]. intros Hlt e He. specialize (Hm e He). lia.
  - intros E. assert (k1 = 0 /\ k2 = 0 /\ k3 = 0) as (E1 & E2 & E3) by lia.
    rewrite Z1 in E1. rewrite Z2 in E2. rewrite Z3 in E3. unfold kept. rewrite !filter_all by done. by destruct l.
  - pose proof (nextEnd_least kept) as HK. destruct (nextEnd kept) as [t|]; [|done]. destruct HK as [HK _]. by apply Hk.
Qed.
