(* ===== verification/Sha256.v ===== *)
(** * SHA-256: proto/sha256.go

    FIPS 180-4 section 6.2 as the package writes it out: padding, the message
    schedule, sixty-four rounds a block, eight 32-bit words of state. *)

From S2P Require Import Prelude NetAddr Options.

(** The sixty-four constants, two to a numeral in the source's order. *)
Definition sha256K : list Z :=
  flat_map (fun kk => [Z.shiftr kk 32; u32 kk]) [
    0x428a2f9871374491; 0xb5c0fbcfe9b5dba5; 0x3956c25b59f111f1; 0x923f82a4ab1c5ed5;
    0xd807aa9812835b01; 0x243185be550c7dc3; 0x72be5d7480deb1fe; 0x9bdc06a7c19bf174;
    0xe49b69c1efbe4786; 0x0fc19dc6240ca1cc; 0x2de92c6f4a7484aa; 0x5cb0a9dc76f988da;
    0x983e5152a831c66d; 0xb00327c8bf597fc7; 0xc6e00bf3d5a79147; 0x06ca635114292967;
    0x27b70a852e1b2138; 0x4d2c6dfc53380d13; 0x650a7354766a0abb; 0x81c2c92e92722c85;
    0xa2bfe8a1a81a664b; 0xc24b8b70c76c51a3; 0xd192e819d6990624; 0xf40e3585106aa070;
    0x19a4c1161e376c08; 0x2748774c34b0bcb5; 0x391c0cb34ed8aa4a; 0x5b9cca4f682e6ff3;
    0x748f82ee78a5636f; 0x84c878148cc70208; 0x90befffaa4506ceb; 0xbef9a3f7c67178f2].

Definition rotr32 (x n : Z) : Z := Z.lor (Z.shiftr x n) (u32 (Z.shiftl x (32 - n))).

(** Go's [+] and [^x] on [uint32]. *)
Definition add32 (x y : Z) : Z := u32 (x + y).
Definition inv32 (x : Z) : Z := u32 (Z.lnot x).

(** The registers a to h. *)
Definition words8 : Type := (Z * Z * Z * Z * Z * Z * Z * Z)%type.

Definition sha256Init : words8 :=
  (0x6a09e667, 0xbb67ae85, 0x3c6ef372, 0xa54ff53a, 0x510e527f, 0x9b05688c, 0x1f83d9ab, 0x5be0cd19).

(** [for len(padded)%64 != 56 { append 0 }]: 64 turns are enough. *)
Fixpoint sha256PadLoop {E} (fuel : nat) (padded : bytes) : outcome E bytes :=
  match fuel with
  | O => Hang
  | S fuel => if negb (length padded mod 64 =? 56)%nat then sha256PadLoop fuel (padded ++ [0]) else Ok padded
  end.

Definition sha256Pad {E} (msg : bytes) : outcome E bytes :=
  padded ← sha256PadLoop 64 (msg ++ [0x80]);
  let bits := u64 (u64 (Z.of_nat (length msg)) * 8) in
  Ok (padded ++ map (fun i => u8 (Z.shiftr bits (8 * (7 - Z.of_nat i)))) (seq 0 8)).

(** The first sixteen words of the schedule: the block's. *)
Definition sha256Words {E} (blk : bytes) : outcome E (list Z) :=
  mapM (fun t =>
    b0 ← idx blk (4 * t); b1 ← idx blk (4 * t + 1); b2 ← idx blk (4 * t + 2); b3 ← idx blk (4 * t + 3);
    Ok (Z.lor (Z.lor (Z.lor (Z.shiftl b0 24) (Z.shiftl b1 16)) (Z.shiftl b2 8)) b3)) (seq 0 16).

(** One more word: [w] holds those before it. *)
Definition sha256Extend (w : list Z) (t : nat) : list Z :=
  let x15 := nth (t - 15) w 0 in
  let x2 := nth (t - 2) w 0 in
  let s0 := Z.lxor (Z.lxor (rotr32 x15 7) (rotr32 x15 18)) (Z.shiftr x15 3) in
  let s1 := Z.lxor (Z.lxor (rotr32 x2 17) (rotr32 x2 19)) (Z.shiftr x2 10) in
  w ++ [add32 (add32 (add32 (nth (t - 16) w 0) s0) (nth (t - 7) w 0)) s1].

Definition sha256Round (w : list Z) (r : words8) (t : nat) : words8 :=
  let '(a, b, c, d, e, f, g, hh) := r in
  let t1 := add32 (add32 (add32 (add32 hh (Z.lxor (Z.lxor (rotr32 e 6) (rotr32 e 11)) (rotr32 e 25)))
                                (Z.lxor (Z.land e f) (Z.land (inv32 e) g)))
                         (nth t sha256K 0)) (nth t w 0) in
  let t2 := add32 (Z.lxor (Z.lxor (rotr32 a 2) (rotr32 a 13)) (rotr32 a 22))
                  (Z.lxor (Z.lxor (Z.land a b) (Z.land a c)) (Z.land b c)) in
  (add32 t1 t2, a, b, c, add32 d t1, e, f, g).

Definition sha256Block {E} (h : words8) (blk : bytes) : outcome E words8 :=
  w ← sha256Words blk;
  let w := foldl sha256Extend w (seq 16 48) in
  let '(h0, h1, h2, h3, h4, h5, h6, h7) := h in
  let '(a, b, c, d, e, f, g, hh) := foldl (sha256Round w) h (seq 0 64) in
  Ok (add32 h0 a, add32 h1 b, add32 h2 c, add32 h3 d, add32 h4 e, add32 h5 f, add32 h6 g, add32 h7 hh).

Fixpoint sha256Blocks {E} (fuel : nat) (padded : bytes) (off : nat) (h : words8) : outcome E words8 :=
  match fuel with
  | O => Hang
  | S fuel =>
    if (off <? length padded)%nat then
      blk ← slice padded off (off + 64);
      h ← sha256Block h blk;
      sha256Blocks fuel padded (off + 64) h
    else Ok h
  end.

Definition sha256Sum {E} (msg : bytes) : outcome E bytes :=
  padded ← sha256Pad msg;
  h ← sha256Blocks (S (length padded)) padded 0 sha256Init;
  let '(h0, h1, h2, h3, h4, h5, h6, h7) := h in
  Ok (concat (map be32 [h0; h1; h2; h3; h4; h5; h6; h7])).

(** ** The hash returns *)

Lemma sha256PadLoop_ok {E} fuel : forall l, ((120 - length l mod 64) mod 64 < fuel)%nat ->
  exists p, @sha256PadLoop E fuel l = Ok p /\ (length p mod 64 = 56)%nat.
Proof.
  induction fuel as [|fuel IH]; intros l Hl; [lia|]. cbn [sha256PadLoop].
  destruct (Nat.eqb_spec (length l mod 64) 56) as [He|He]; cbn [negb]; [eauto|].
  apply IH. rewrite length_app. cbn [length]. rewrite <- Nat.Div0.add_mod_idemp_l.
  pose proof (Nat.mod_upper_bound (length l) 64 ltac:(lia)) as Hq.
  revert Hl He Hq. generalize (length l mod 64)%nat as q. clear. intros q.
  do 64 (destruct q as [|q]; [intros; cbn in *; lia|]). lia.
Qed.

Lemma sha256Pad_ok {E} msg : exists p, @sha256Pad E msg = Ok p /\ (length p mod 64 = 0)%nat.
Proof.
  unfold sha256Pad. destruct (@sha256PadLoop_ok E 64 (msg ++ [0x80])) as (p & -> & Hp).
  { apply Nat.mod_upper_bound. lia. }
  cbn [mbind outcome_bind]. eexists. split; [done|]. rewrite length_app, length_map, length_seq. lia_mod.
Qed.

Lemma sha256Block_ok {E} h blk : length blk = 64%nat -> exists h', @sha256Block E h blk = Ok h'.
Proof.
  intros Hl. unfold sha256Block. assert (Hw : exists w, @sha256Words E blk = Ok w).
  { do 64 (destruct blk as [|? blk]; [done|]). destruct blk; [|done]. eexists. reflexivity. }
  destruct Hw as [w ->]. cbn [mbind outcome_bind]. destruct h as [[[[[[[? ?] ?] ?] ?] ?] ?] ?].
  destruct (foldl _ _ (seq 0 64)) as [[[[[[[? ?] ?] ?] ?] ?] ?] ?]. eauto.
Qed.

Lemma sha256Blocks_ok {E} fuel : forall p off h,
  (length p mod 64 = 0)%nat -> (off mod 64 = 0)%nat -> (length p - off < fuel)%nat ->
  exists h', @sha256Blocks E fuel p off h = Ok h'.
Proof.
  induction fuel as [|fuel IH]; intros p off h Hp Ho Hf; [lia|]. cbn [sha256Blocks].
  destruct (Nat.ltb_spec off (length p)) as [Hlt|]; [|eauto]. assert (off + 64 <= length p)%nat by lia_mod.
  rewrite slice_ok by lia. cbn [mbind outcome_bind].
  destruct (@sha256Block_ok E h (take (off + 64 - off) (drop off p))) as [h' ->]; [rewrite length_take, length_drop; lia|].
  cbn [mbind outcome_bind]. apply IH; [done|lia_mod|lia].
Qed.

Lemma sha256Sum_ok {E} msg : exists d, @sha256Sum E msg = Ok d /\ length d = 32%nat /\ are_bytes d.
Proof.
  unfold sha256Sum. destruct (@sha256Pad_ok E msg) as (p & -> & Hp). cbn [mbind outcome_bind].
  destruct (@sha256Blocks_ok E (S (length p)) p 0 sha256Init) as [[[[[[[[? ?] ?] ?] ?] ?] ?] ?] ->]; [done|done|lia|].
  cbn [mbind outcome_bind]. eexists. split; [done|]. split; [done|]. cbn [map concat].
  repeat (apply are_bytes_app; split; [apply be32_bytes|]). constructor.
Qed.

(** FIPS 180-4's and NIST's vectors through the code's hash: the empty message,
    one block, two blocks. *)
Theorem sha256_vectors :
  @sha256Sum unit [] = Ok [0xe3;0xb0;0xc4;0x42;0x98;0xfc;0x1c;0x14;0x9a;0xfb;0xf4;0xc8;0x99;0x6f;0xb9;0x24;
                           0x27;0xae;0x41;0xe4;0x64;0x9b;0x93;0x4c;0xa4;0x95;0x99;0x1b;0x78;0x52;0xb8;0x55]
  /\ @sha256Sum unit (ascii_bytes "abc")
     = Ok [0xba;0x78;0x16;0xbf;0x8f;0x01;0xcf;0xea;0x41;0x41;0x40;0xde;0x5d;0xae;0x22;0x23;
           0xb0;0x03;0x61;0xa3;0x96;0x17;0x7a;0x9c;0xb4;0x10;0xff;0x61;0xf2;0x00;0x15;0xad]
  /\ @sha256Sum unit (ascii_bytes "abcdbcdecdefdefgefghfghighijhijkijkljklmklmnlmnomnopnopq")
     = Ok [0x24;0x8d;0x6a;0x61;0xd2;0x06;0x38;0xb8;0xe5;0xc0;0x26;0x93;0x0c;0x3e;0x60;0x39;
           0xa3;0x3c;0xe4;0x59;0x64;0xff;0x21;0x67;0xf6;0xec;0xed;0xd4;0x19;0xdb;0x06;0xc1].
Proof. vm_compute. repeat split. Qed.
