(* ===== verification/Slaac.v ===== *)
(** * Stateless address autoconfiguration: proto/iid6.go and proto/slaac6.go

    How an interface identifier is formed (RFC 4291 appendix A, RFC 7217), what
    a Prefix Information option forms (RFC 4862 section 5.5.3), and the table of
    the addresses formed, with the rules that refresh, expire and re-form them. *)

From S2P Require Import Prelude NetAddr Options Backoff Icmpv6 Lease6 Sha256.

(** ** Interface identifiers *)

Abbreviation IIDMode := Z (only parsing).
Definition IIDModeEUI64 : IIDMode := 0.
Definition IIDModeStablePrivacy : IIDMode := 1.
Definition MinIIDSecretLen : nat := 16.
Definition IDGenRetries : Z := 3.

Inductive SLAACErr := ErrBadIIDMode | ErrNotIPv6Prefix | ErrPrefixLength | ErrLinkAddrLength.

(** [binary.AppendUvarint]: seven bits an octet, the last without the top bit. *)
Fixpoint uvarintLoop (fuel : nat) (x : Z) : bytes :=
  match fuel with
  | O => [u8 x]
  | S fuel => if 0x80 <=? x then Z.lor (u8 x) 0x80 :: uvarintLoop fuel (Z.shiftr x 7) else [u8 x]
  end.
Definition AppendUvarint (b : bytes) (x : Z) : bytes := b ++ uvarintLoop 9 x.

(** What [StablePrivacyIID] hashes. *)
Definition iidInput (prefix : Prefix) (netIface networkID : bytes) (dadCounter : Z) (secret : bytes) : bytes :=
  let prefix := Masked prefix in
  let in_ := As16 (paddr prefix) ++ [u8 (pbits prefix)] in
  let in_ := AppendUvarint in_ (u64 (Z.of_nat (length netIface))) ++ netIface in
  let in_ := AppendUvarint in_ (u64 (Z.of_nat (length networkID))) ++ networkID in
  in_ ++ [dadCounter] ++ secret.

Definition StablePrivacyIID (prefix : Prefix) (netIface networkID : bytes) (dadCounter : Z) (secret : bytes)
    : outcome SLAACErr bytes :=
  sum ← sha256Sum (iidInput prefix netIface networkID dadCounter secret);
  slice sum (length sum - 8) (length sum).

Definition ModifiedEUI64 (hw : bytes) : outcome SLAACErr bytes :=
  iid ← match hw with
        | [h0; h1; h2; h3; h4; h5] => Ok [h0; h1; h2; 0xff; 0xfe; h3; h4; h5]
        | [_; _; _; _; _; _; _; _] => Ok hw
        | _ => Err ErrLinkAddrLength
        end;
  match iid with
  | i0 :: iid => Ok (Z.lxor i0 0x02 :: iid)
  | [] => Panic
  end.

Record iidSource := mkIidSource {
  iidMode : IIDMode; iidHW : bytes; iidNetIface : bytes; iidNetworkID : bytes; iidSecret : bytes }.

Definition iid (s : iidSource) (prefix : Prefix) (counter : Z) : outcome SLAACErr bytes :=
  if iidMode s =? IIDModeEUI64 then ModifiedEUI64 (iidHW s)
  else if iidMode s =? IIDModeStablePrivacy then
    StablePrivacyIID prefix (iidNetIface s) (iidNetworkID s) counter (iidSecret s)
  else Err ErrBadIIDMode.

Definition retries (s : iidSource) : Z := if iidMode s =? IIDModeStablePrivacy then IDGenRetries else 0.

(** ** Modes, reasons, counters *)

Abbreviation Mode6 := Z (only parsing).
Definition Mode6DHCP : Mode6 := 0.
Definition Mode6SLAAC : Mode6 := 1.
Definition Mode6Auto : Mode6 := 2.
Definition Mode6Off : Mode6 := 3.

Definition formsAddresses (m : Mode6) : bool := (m =? Mode6SLAAC) || (m =? Mode6Auto).

Definition TwoHours : Duration := 7200 * Second.
Definition MaxSLAACAddresses : nat := 8.
Definition IIDBits : Z := 64.

Definition lengthsSumTo128 (prefixLen iidBits : Z) : bool := prefixLen + iidBits =? 128.

Abbreviation SLAACIgnore := nat (only parsing).
Definition SLAACIgnoreNone : SLAACIgnore := 0.
Definition SLAACIgnoreNotAutonomous : SLAACIgnore := 1.
Definition SLAACIgnoreLinkLocal : SLAACIgnore := 2.
Definition SLAACIgnorePreferredOverValid : SLAACIgnore := 3.
Definition SLAACIgnoreBadLength : SLAACIgnore := 4.
Definition SLAACIgnoreValidZero : SLAACIgnore := 5.
Definition SLAACIgnoreCapReached : SLAACIgnore := 6.
Definition SLAACIgnoreLinkAddr : SLAACIgnore := 7.
Definition SLAACIgnoreModeDHCP : SLAACIgnore := 8.
Definition SLAACIgnoreDuplicate : SLAACIgnore := 9.

Definition AllSLAACIgnores : list SLAACIgnore :=
  [SLAACIgnoreNotAutonomous; SLAACIgnoreLinkLocal; SLAACIgnorePreferredOverValid; SLAACIgnoreBadLength;
   SLAACIgnoreValidZero; SLAACIgnoreCapReached; SLAACIgnoreLinkAddr; SLAACIgnoreModeDHCP; SLAACIgnoreDuplicate].

(** Counters are [uint64]; [scIgnored] is the array indexed by the reason. *)
Record SLAACCounters := mkSLAACCounters {
  scFormed : Z; scRefreshed : Z; scDeprecated : Z; scExpired : Z; scConflicts : Z; scFallbacks : Z;
  scIgnored : list Z }.

#[global] Instance eta_SLAACCounters : Settable SLAACCounters := fun c =>
  mkSLAACCounters (scFormed c) (scRefreshed c) (scDeprecated c) (scExpired c) (scConflicts c) (scFallbacks c) (scIgnored c).

Definition counters_zero : SLAACCounters := mkSLAACCounters 0 0 0 0 0 0 (replicate 10 0).

Definition IgnoredTotal (c : SLAACCounters) : Z :=
  foldl (fun n r => u64 (n + nth r (scIgnored c) 0)) 0 AllSLAACIgnores.

(** ** Forming an address *)

Definition formSLAAC (prefix : Addr) (prefixLen : Z) (src : iidSource) (counter : Z) : outcome SLAACErr Addr :=
  if negb (Is6 prefix) || Is4In6 prefix then Err ErrNotIPv6Prefix else
  if negb (lengthsSumTo128 prefixLen IIDBits) then Err ErrPrefixLength else
  id ← iid src (PrefixFrom prefix prefixLen) counter;
  Ok (AddrFrom16 (take 8 (As16 prefix) ++ id)).

Definition SLAACAddress (prefix : Addr) (prefixLen : Z) (hw : bytes) : outcome SLAACErr Addr :=
  formSLAAC prefix prefixLen (mkIidSource IIDModeEUI64 hw [] [] []) 0.

(** [fe80::/10] *)
Definition linkLocalPrefix : Prefix := PrefixOf (Addr6 (Z.shiftl 0xfe80 112) []) 10.

(** ** The entries *)

Record slaacEntry := mkSlaacEntry {
  sePrefix : Prefix;
  seAddr : Addr;
  seStart : Instant;
  sePreferred : Duration;
  seValid : Duration;
  seDeprecationCharged : bool;
  seTentative : bool }.

#[global] Instance eta_slaacEntry : Settable slaacEntry := fun e =>
  mkSlaacEntry (sePrefix e) (seAddr e) (seStart e) (sePreferred e) (seValid e) (seDeprecationCharged e) (seTentative e).

Definition remaining (e : slaacEntry) (now : Instant) : Duration :=
  if IsInfinite (seValid e) then Infinite else
  let d := Sub (Add (seStart e) (seValid e)) now in if d <? 0 then 0 else d.

Definition remainingPreferred (e : slaacEntry) (now : Instant) : Duration :=
  if IsInfinite (sePreferred e) then Infinite else
  let d := Sub (Add (seStart e) (sePreferred e)) now in if d <? 0 then 0 else d.

Definition deprecated (e : slaacEntry) (now : Instant) : bool :=
  negb (IsInfinite (sePreferred e)) && (Add (seStart e) (sePreferred e) <=? now).

Definition expired (e : slaacEntry) (now : Instant) : bool :=
  negb (IsInfinite (seValid e)) && (Add (seStart e) (seValid e) <=? now).

Definition durGreater (a b : Duration) : bool :=
  if IsInfinite a && IsInfinite b then false else if IsInfinite a then true else if IsInfinite b then false else b <? a.

(** The table.  [refused] is the set of the keys the Go map holds (it only ever
    stores true); [dadCount] reads 0 where it has no entry. *)
Record slaacTable := mkSlaacTable {
  entries : list slaacEntry;
  counts : SLAACCounters;
  refused : gset Addr;
  dadCount : gmap Prefix Z }.

#[global] Instance eta_slaacTable : Settable slaacTable := fun t =>
  mkSlaacTable (entries t) (counts t) (refused t) (dadCount t).

Definition table_zero : slaacTable := mkSlaacTable [] counters_zero ∅ ∅.

Definition dadOf (t : slaacTable) (p : Prefix) : Z := default 0 (dadCount t !! p).

Definition refuse (t : slaacTable) (a : Addr) : slaacTable := t <| refused := {[ a ]} ∪ refused t |>.

Fixpoint findLoop (l : list slaacEntry) (p : Prefix) (i : nat) : option nat :=
  match l with
  | [] => None
  | e :: l => if bool_decide (sePrefix e = p) then Some i else findLoop l p (S i)
  end.
Definition find (t : slaacTable) (p : Prefix) : option nat := findLoop (entries t) (Masked p) 0.

Definition slaacOptionRules (pi : PrefixInfo) : Prefix * SLAACIgnore :=
  if negb (Autonomous pi) then (prefix_zero, SLAACIgnoreNotAutonomous) else
  if negb (Is6 (PiPrefix pi)) || Is4In6 (PiPrefix pi) then (prefix_zero, SLAACIgnoreBadLength) else
  if Contains linkLocalPrefix (PiPrefix pi) then (prefix_zero, SLAACIgnoreLinkLocal) else
  if durGreater (SecondsToDuration (PiPreferred pi)) (SecondsToDuration (PiValid pi))
  then (prefix_zero, SLAACIgnorePreferredOverValid) else
  let p := PrefixFrom (PiPrefix pi) (PrefixLen pi) in
  if negb (PrefixIsValid p) then (prefix_zero, SLAACIgnoreBadLength) else (Masked p, SLAACIgnoreNone).

(** An error of [formSLAAC] is a refusal; it cannot panic ([formSLAAC_returns]),
    and a panic would stop the model. *)
Definition slaacFormRules (pi : PrefixInfo) (src : iidSource) (counter : Z) : option (Addr * SLAACIgnore) :=
  if negb (lengthsSumTo128 (PrefixLen pi) IIDBits) then Some (AddrZero, SLAACIgnoreBadLength) else
  if SecondsToDuration (PiValid pi) =? 0 then Some (AddrZero, SLAACIgnoreValidZero) else
  match formSLAAC (PiPrefix pi) (PrefixLen pi) src counter with
  | Ok a => Some (a, SLAACIgnoreNone)
  | Err _ => Some (AddrZero, SLAACIgnoreLinkAddr)
  | _ => None
  end.

(** [refresh] on the entry it is given: the new entry, and whether anything a
    caller can see moved. *)
Definition refreshEntry (now : Instant) (e : slaacEntry) (preferred valid : Duration) : slaacEntry * bool :=
  let before := e in
  let left := remaining e now in
  let e := e <| sePreferred := preferred |> in
  let e := if durGreater valid TwoHours || durGreater valid left then e <| seValid := valid |>
           else if negb (durGreater left TwoHours) then e <| seValid := left |>
           else e <| seValid := TwoHours |> in
  let e := e <| seStart := now |> in
  let e := if negb (deprecated e now) then e <| seDeprecationCharged := false |> else e in
  (e, negb (Add (seStart before) (sePreferred before) =? Add (seStart e) (sePreferred e))
      || negb (Add (seStart before) (seValid before) =? Add (seStart e) (seValid e))
      || negb (eqb (IsInfinite (sePreferred before)) (IsInfinite (sePreferred e)))
      || negb (eqb (IsInfinite (seValid before)) (IsInfinite (seValid e)))).

Definition refresh (t : slaacTable) (now : Instant) (i : nat) (preferred valid : Duration) : option (slaacTable * bool) :=
  e ← entries t !! i;
  let '(e, changed) := refreshEntry now e preferred valid in
  Some (t <| entries := <[i := e]> (entries t) |>
          <| counts := counts t <| scRefreshed := u64 (scRefreshed (counts t) + 1) |> |>, changed).

(** The table, whether an address was formed, whether anything changed, and the
    rule that decided. *)
Definition applyPIO (t : slaacTable) (now : Instant) (pi : PrefixInfo) (src : iidSource)
    : option (slaacTable * bool * bool * SLAACIgnore) :=
  let '(p, why) := slaacOptionRules pi in
  if negb (why =? SLAACIgnoreNone)%nat then Some (t, false, false, why) else
  match find t p with
  | Some i =>
    '(t, changed) ← refresh t now i (SecondsToDuration (PiPreferred pi)) (SecondsToDuration (PiValid pi));
    Some (t, false, changed, SLAACIgnoreNone)
  | None =>
    '(addr, why) ← slaacFormRules pi src (dadOf t p);
    if negb (why =? SLAACIgnoreNone)%nat then Some (t, false, false, why) else
    if (MaxSLAACAddresses <=? length (entries t))%nat then Some (t, false, false, SLAACIgnoreCapReached) else
    if bool_decide (addr ∈ refused t) then Some (t, false, false, SLAACIgnoreDuplicate) else
    Some (t <| entries := entries t ++ [mkSlaacEntry p addr now (SecondsToDuration (PiPreferred pi))
                                          (SecondsToDuration (PiValid pi)) false true] |>
            <| counts := counts t <| scFormed := u64 (scFormed (counts t) + 1) |> |>, true, true, SLAACIgnoreNone)
  end.

(** The closure [consider] of [next]. *)
Definition consider (now : Instant) (best : option Instant) (origin : Instant) (d : Duration) : option Instant :=
  if IsInfinite d then best else
  let ts := Add origin d in
  if ts <=? now then best else
  match best with None => Some ts | Some b => if ts <? b then Some ts else best end.

Definition next (t : slaacTable) (now : Instant) : option Instant :=
  foldl (fun best e => consider now (consider now best (seStart e) (sePreferred e)) (seStart e) (seValid e)) None (entries t).

Fixpoint expireLoop (l : list slaacEntry) (now : Instant) (c : SLAACCounters)
    : list slaacEntry * list Addr * SLAACCounters :=
  match l with
  | [] => ([], [], c)
  | e :: l =>
    if expired e now then
      let '(kept, gone, c) := expireLoop l now (c <| scExpired := u64 (scExpired c + 1) |>) in
      (kept, seAddr e :: gone, c)
    else let '(kept, gone, c) := expireLoop l now c in (e :: kept, gone, c)
  end.

Definition expire (t : slaacTable) (now : Instant) : slaacTable * list Addr :=
  let '(kept, gone, c) := expireLoop (entries t) now (counts t) in
  (t <| entries := kept |> <| counts := c |>, gone).

(** The search [drop], [retry] and [settle] make: the first entry with an address. *)
Fixpoint entryOf (l : list slaacEntry) (a : Addr) : option nat :=
  match l with
  | [] => None
  | e :: l => if addr_eqb (seAddr e) a then Some O else option_map S (entryOf l a)
  end.

(** The method [drop] of the table; [drop] is the list function here. *)
Definition dropAddr (t : slaacTable) (a : Addr) : slaacTable * bool :=
  match entryOf (entries t) a with
  | Some i => (t <| entries := take i (entries t) ++ drop (S i) (entries t) |>, true)
  | None => (t, false)
  end.

(** The loop of [retry]; the counter is a [uint8].  [None]: out of fuel, or a
    panic. *)
Fixpoint retryLoop (fuel : nat) (t : slaacTable) (i : nat) (e : slaacEntry) (src : iidSource)
    : option (slaacTable * Addr * Z * bool) :=
  match fuel with
  | O => None
  | S fuel =>
    if dadOf t (sePrefix e) <? retries src then
      let n := u8 (dadOf t (sePrefix e) + 1) in
      let t := t <| dadCount := <[sePrefix e := n]> (dadCount t) |> in
      match formSLAAC (paddr (sePrefix e)) (u8 (pbits (sePrefix e))) src n with
      | Ok nxt =>
        if bool_decide (nxt ∈ refused t) then retryLoop fuel t i e src else
        Some (t <| entries := <[i := e <| seAddr := nxt |> <| seTentative := true |>]> (entries t) |>, nxt, n, true)
      | Err _ => Some (t, AddrZero, 0, false)
      | _ => None
      end
    else Some (t, AddrZero, 0, false)
  end.

Definition retry (t : slaacTable) (a : Addr) (src : iidSource) : option (slaacTable * Addr * Z * bool) :=
  match entryOf (entries t) a with
  | None => Some (t, AddrZero, 0, false)
  | Some i => e ← entries t !! i; retryLoop 4 t i e src
  end.

Definition settle (t : slaacTable) (a : Addr) : slaacTable :=
  match entryOf (entries t) a with
  | Some i => t <| entries := alter (fun e => e <| seTentative := false |>) i (entries t) |>
  | None => t
  end.

Definition tentativeAddrs (t : slaacTable) : list Addr :=
  map seAddr (filter (fun e => seTentative e = true) (entries t)).

(** The method [lease] of the table. *)
Definition slaacLease (t : slaacTable) (now : Instant) (iaid : Z) : Lease6 :=
  lease6_zero <| l6IAID := iaid |> <| l6Start := now |> <| l6SLAAC := true |>
    <| l6Addrs := map (fun e => mkAddr6 (seAddr e) (remainingPreferred e now) (remaining e now) (pbits (sePrefix e)))
                      (entries t) |>.

Definition phases (t : slaacTable) (now : Instant) : gmap Addr bool :=
  foldl (fun out e => <[seAddr e := deprecated e now]> out) ∅ (entries t).

Definition phasesDiffer (a b : gmap Addr bool) : bool :=
  if negb (size a =? size b)%nat then true else
  existsb (fun kv => match b !! kv.1 with Some w => negb (eqb kv.2 w) | None => true end) (map_to_list a).

(** ** The identifier's input *)

Lemma lor_top_bit z : Z.lor (u8 z) 0x80 = 128 + z mod 128.
Proof.
  assert (H : Forall (fun w => Z.lor w 0x80 = 128 + w mod 128) (seqZ 0 256))
    by (apply (bool_decide_unpack _); vm_compute; exact I).
  rewrite Forall_forall in H. rewrite (H (u8 z)) by (apply elem_of_seqZ; pose proof (u8_range z); lia).
  f_equal. unfold u8. change (2 ^ 8) with 256. lia_mod.
Qed.

Lemma uvarint_prefix_free n : forall x y a b, 0 <= x < 2 ^ (7 * (Z.of_nat n + 1)) ->
  0 <= y < 2 ^ (7 * (Z.of_nat n + 1)) -> uvarintLoop n x ++ a = uvarintLoop n y ++ b -> x = y /\ a = b.
Proof.
  induction n as [|n IH]; intros x y a b Hx Hy; cbn [uvarintLoop].
  - change (2 ^ (7 * (Z.of_nat 0 + 1))) with 128 in *. rewrite !u8_id by lia. by intros [= -> ->].
  - replace (7 * (Z.of_nat (S n) + 1)) with (7 * (Z.of_nat n + 1) + 7) in * by lia.
    rewrite Z.pow_add_r in * by lia. change (2 ^ 7) with 128 in *.
    rewrite !lor_top_bit, !Z.shiftr_div_pow2 by lia. change (2 ^ 7) with 128.
    pose proof (Z.mod_pos_bound x 128 ltac:(lia)). pose proof (Z.mod_pos_bound y 128 ltac:(lia)).
    pose proof (Z.div_mod x 128 ltac:(lia)). pose proof (Z.div_mod y 128 ltac:(lia)).
    destruct (Z.leb_spec 0x80 x), (Z.leb_spec 0x80 y); cbn [app]; rewrite ?u8_id by lia.
    + intros [= Hm Ht]. apply IH in Ht as [Hd ->]; [split; [lia|done]| |].
      * split; [apply Z.div_pos; lia|]. apply Z.div_lt_upper_bound; lia.
      * split; [apply Z.div_pos; lia|]. apply Z.div_lt_upper_bound; lia.
    + intros [= Hm _]. lia.
    + intros [= Hm _]. lia.
    + by intros [= -> ->].
Qed.

(** A string behind its length is read back from what follows. *)
Lemma framed_inj a b x y : Z.of_nat (length a) < 2 ^ 63 -> Z.of_nat (length b) < 2 ^ 63 ->
  uvarintLoop 9 (u64 (Z.of_nat (length a))) ++ a ++ x = uvarintLoop 9 (u64 (Z.of_nat (length b))) ++ b ++ y ->
  a = b /\ x = y.
Proof.
  intros Ha Hb H. assert (Hr : forall z, 0 <= z < 2 ^ 63 -> u64 z = z /\ 0 <= z < 2 ^ (7 * (Z.of_nat 9 + 1))).
  { intros z Hz. split; [apply u64_id|]; change (7 * (Z.of_nat 9 + 1)) with 70; zpow; lia. }
  destruct (Hr (Z.of_nat (length a))) as [Ea Ra]; [lia|]. destruct (Hr (Z.of_nat (length b))) as [Eb Rb]; [lia|].
  rewrite Ea, Eb in H.
  apply uvarint_prefix_free in H as [Hl H]; [|done|done]. by apply app_inj_1 in H; [|lia].
Qed.

(** Two different requests for an identifier never hash the same octets.
    The input [StablePrivacyIID] hashes determines the masked prefix, the
    interface, the network, the counter and the secret, whatever their lengths:
    no length or content of one field can imitate another. *)
Theorem iidInput_injective p p' iface iface' net net' c c' secret secret' :
  (exists v n, Masked p = PrefixOf (Addr6 v []) n /\ 0 <= v < 2 ^ 128 /\ 0 <= n <= 128) ->
  (exists v n, Masked p' = PrefixOf (Addr6 v []) n /\ 0 <= v < 2 ^ 128 /\ 0 <= n <= 128) ->
  Forall (fun s => Z.of_nat (length s) < 2 ^ 63) [iface; iface'; net; net'] ->
  iidInput p iface net c secret = iidInput p' iface' net' c' secret' ->
  Masked p = Masked p' /\ iface = iface' /\ net = net' /\ c = c' /\ secret = secret'.
Proof.
  intros (v & n & Hp & Hv & Hn) (v' & n' & Hp' & Hv' & Hn') Hl.
  repeat rewrite Forall_cons in Hl. destruct Hl as (L1 & L2 & L3 & L4 & _).
  unfold iidInput. rewrite Hp, Hp'. unfold AppendUvarint. cbn [paddr pbits As16]. rewrite <- !app_assoc.
  rewrite !u8_id by lia. intros H. apply app_inj_1 in H as [H16 H]; [|by rewrite !length_toBE].
  apply (app_inj_1 [n] [n']) in H as [[= <-] H]; [|done]. apply framed_inj in H as [-> H]; [|done|done]. apply framed_inj in H as [-> H]; [|done|done].
  apply (app_inj_1 [c] [c']) in H as [[= <-] ->]; [|done]. assert (v = v') as ->; [|done].
  rewrite <- (fromBE_toBE 16 v), <- (fromBE_toBE 16 v') by done. by rewrite H16.
Qed.

Lemma iidInput_injective_witness : let p := PrefixOf (Addr6 (Z.shiftl 0x20010db8 96) []) 64 in
  iidInput p (ascii_bytes "ab") (ascii_bytes "c") 0 (replicate 16 7) <>
  iidInput p (ascii_bytes "a") (ascii_bytes "bc") 0 (replicate 16 7).
Proof.
  intros p H. apply iidInput_injective in H as (_ & H & _); [discriminate H| | |].
  - clear H. exists (Z.shiftl 0x20010db8 96), 64. split; [reflexivity|]. split; [split; [vm_compute; discriminate|vm_compute; reflexivity]|done].
  - clear H. exists (Z.shiftl 0x20010db8 96), 64. split; [reflexivity|]. split; [split; [vm_compute; discriminate|vm_compute; reflexivity]|done].
  - clear H. repeat constructor; cbn; lia.
Defined.

(** ** What is formed *)

Lemma ModifiedEUI64_ok hw : returns (ModifiedEUI64 hw) /\
  forall id, ModifiedEUI64 hw = Ok id -> length id = 8%nat /\ (are_bytes hw -> are_bytes id).
Proof.
  assert (Hx : forall x, 0 <= x < 256 -> 0 <= Z.lxor x 2 < 256).
  { assert (H : Forall (fun x => 0 <= Z.lxor x 2 < 256) (seqZ 0 256)) by (apply (bool_decide_unpack _); vm_compute; exact I).
    rewrite Forall_forall in H. intros x Hx. apply H, elem_of_seqZ. lia. }
  unfold ModifiedEUI64.
  destruct hw as [|a [|b [|c [|d [|e [|f [|g [|h [|]]]]]]]]]; cbn [mbind outcome_bind];
    try (split; [done|intros id; discriminate]); (split; [done|]); intros id Hid; apply ok_inj in Hid as <-;
    (split; [done|]); repeat rewrite are_bytes_cons; intros (Ha & ?); (split; [by apply Hx|]); intuition lia.
Qed.

Definition source_wf (s : iidSource) : Prop := are_bytes (iidHW s).

Lemma StablePrivacyIID_ok p iface net c secret : exists id, StablePrivacyIID p iface net c secret = Ok id /\
  length id = 8%nat /\ are_bytes id.
Proof.
  unfold StablePrivacyIID. generalize (iidInput p iface net c secret). intros in_.
  destruct (@sha256Sum_ok SLAACErr in_) as (d & -> & Hl & Hb). cbn [mbind outcome_bind].
  rewrite slice_ok by lia. eexists. split; [reflexivity|]. rewrite length_take, length_drop. split; [lia|].
  by apply are_bytes_take, are_bytes_drop.
Qed.

Lemma iid_ok s p c : returns (iid s p c) /\
  forall id, iid s p c = Ok id -> length id = 8%nat /\ (source_wf s -> are_bytes id).
Proof.
  unfold iid. destruct (iidMode s =? IIDModeEUI64); [apply ModifiedEUI64_ok|].
  destruct (_ =? IIDModeStablePrivacy); [|by split].
  destruct (StablePrivacyIID_ok p (iidNetIface s) (iidNetworkID s) c (iidSecret s)) as (id & -> & Hl & Hb).
  split; [done|]. by intros id' <-%ok_inj.
Qed.

Lemma iid_stable s p c : iidMode s = IIDModeStablePrivacy -> exists id, iid s p c = Ok id.
Proof.
  intros Hm. unfold iid. rewrite Hm. cbn [Z.eqb IIDModeStablePrivacy IIDModeEUI64 Pos.eqb].
  destruct (StablePrivacyIID_ok p (iidNetIface s) (iidNetworkID s) c (iidSecret s)) as (id & -> & _). eauto.
Qed.

Lemma toBE_app n m : forall v, toBE (n + m) v = toBE n (Z.shiftr v (8 * Z.of_nat m)) ++ toBE m v.
Proof.
  induction m as [|m IH]; intros v; [by rewrite Nat.add_0_r, app_nil_r, Z.shiftr_0_r|].
  rewrite Nat.add_succ_r. cbn [toBE]. rewrite IH, Z.shiftr_shiftr, app_assoc by lia. repeat f_equal. lia.
Qed.

(** The address formed: the first 64 bits of the prefix, then the identifier. *)
Lemma formSLAAC_spec v z n s c : 0 <= v < 2 ^ 128 -> returns (formSLAAC (Addr6 v z) n s c) /\
  forall a, formSLAAC (Addr6 v z) n s c = Ok a ->
  n = 64 /\ Is4In6 (Addr6 v z) = false /\ exists id, iid s (PrefixFrom (Addr6 v z) n) c = Ok id /\
    a = AddrFrom16 (toBE 8 (Z.shiftr v 64) ++ id) /\
    (source_wf s -> exists w, a = Addr6 w [] /\ 0 <= w < 2 ^ 128 /\ Z.shiftr w 64 = Z.shiftr v 64).
Proof.
  intros Hv. unfold formSLAAC. cbn [Is6 negb orb]. destruct (Is4In6 (Addr6 v z)); [by split|].
  unfold lengthsSumTo128, IIDBits. destruct (Z.eqb_spec (n + 64) 128) as [Hn|]; cbn [negb]; [|by split].
  destruct (iid_ok s (PrefixFrom (Addr6 v z) n) c) as [Hr Hid].
  destruct (iid s _ c) as [id| | |]; [|by split|by destruct Hr|by destruct Hr]. cbn [mbind outcome_bind]. split; [done|]. intros a Ha%ok_inj. subst a.
  destruct (Hid id eq_refl) as [Hl Hb]. split; [lia|]. split; [done|]. exists id. split; [done|].
  cbn [As16]. rewrite (toBE_app 8 8), take_app_le, take_ge by (rewrite length_toBE; lia).
  change (8 * Z.of_nat 8) with 64. split; [done|]. intros Hw. specialize (Hb Hw). unfold AddrFrom16.
  eexists. split; [done|]. rewrite fromBE_app by done. pose proof (fromBE_range id Hb) as Hr'. rewrite Hl in *.
  change (8 * Z.of_nat 8) with 64 in *. rewrite fromBE_toBE.
  - rewrite !Z.shiftr_div_pow2 by lia. change (2 ^ 128) with (2 ^ 64 * 2 ^ 64) in *.
    pose proof (Z.div_lt_upper_bound v (2 ^ 64) (2 ^ 64)) as Hd. pose proof (Z.div_pos v (2 ^ 64)) as Hd0.
    split; [lia|]. rewrite Z.div_add_l by lia. rewrite (Z.div_small (fromBE id)) by lia. lia.
  - rewrite Z.shiftr_div_pow2 by lia. change (8 * Z.of_nat 8) with 64. change (2 ^ 128) with (2 ^ 64 * 2 ^ 64) in Hv.
    split; [apply Z.div_pos; lia|]. apply Z.div_lt_upper_bound; lia.
Qed.

(** ** The table's invariant *)

(** An entry: the address of a /64, not the link-local prefix, and an address
    in it. *)
Definition entry_ok (e : slaacEntry) : Prop := exists v w,
  sePrefix e = PrefixOf (Addr6 v []) 64 /\ 0 <= v < 2 ^ 128 /\ v = mask_to 128 64 v /\
  Contains linkLocalPrefix (Addr6 v []) = false /\
  seAddr e = Addr6 w [] /\ 0 <= w < 2 ^ 128 /\ Z.shiftr w 64 = Z.shiftr v 64.

Definition table_ok (t : slaacTable) : Prop :=
  (length (entries t) <= MaxSLAACAddresses)%nat /\ Forall entry_ok (entries t) /\ NoDup (map sePrefix (entries t)) /\
  forall p, 0 <= dadOf t p <= IDGenRetries.

Lemma entry_ok_addr e1 e2 : entry_ok e1 -> entry_ok e2 -> seAddr e1 = seAddr e2 -> sePrefix e1 = sePrefix e2.
Proof.
  intros (v1 & w1 & -> & _ & M1 & _ & -> & _ & E1) (v2 & w2 & -> & _ & M2 & _ & -> & _ & E2) [= ->].
  rewrite M1, M2. unfold mask_to. change (128 - 64) with 64. by rewrite <- E1, <- E2.
Qed.

Lemma table_addrs_distinct t : table_ok t -> NoDup (map seAddr (entries t)).
Proof.
  intros (_ & Hf & Hn & _). induction (entries t) as [|e l IH]; [constructor|].
  apply Forall_cons in Hf as [He Hf]. cbn in *. apply NoDup_cons in Hn as [Hn Hl]. apply NoDup_cons. split; [|by apply IH].
  rewrite list_elem_of_In, in_map_iff. intros (e' & Ea & Hin). apply Hn. apply list_elem_of_In, in_map_iff. exists e'.
  split; [|done]. rewrite Forall_forall in Hf. apply entry_ok_addr; [|done|done]. apply Hf. by apply list_elem_of_In.
Qed.

(** The prefix of an option, as [wire.DecodeRouterAdvert] reads it. *)
Definition pio_wf (pi : PrefixInfo) : Prop := exists v, PiPrefix pi = Addr6 v [] /\ 0 <= v < 2 ^ 128.

Lemma mask_to_spec v n : 0 <= v < 2 ^ 128 -> 0 <= n <= 128 -> 0 <= mask_to 128 n v < 2 ^ 128 /\
  mask_to 128 n (mask_to 128 n v) = mask_to 128 n v /\
  forall k, 128 - n <= k -> Z.shiftr (mask_to 128 n v) k = Z.shiftr v k.
Proof.
  intros Hv Hn. assert (Hs : forall k, 128 - n <= k -> Z.shiftr (mask_to 128 n v) k = Z.shiftr v k).
  { intros k Hk. unfold mask_to. replace k with ((128 - n) + (k - (128 - n))) by lia.
    rewrite <- Z.shiftr_shiftr, Z.shiftr_shiftl_l, Z.sub_diag, Z.shiftl_0_r, Z.shiftr_shiftr by lia. done. }
  split; [|split; [|done]].
  - unfold mask_to. rewrite Z.shiftl_mul_pow2, Z.shiftr_div_pow2 by lia.
    pose proof (Z.pow_pos_nonneg 2 (128 - n) ltac:(lia) ltac:(lia)) as Hp. revert Hp. generalize (2 ^ (128 - n)) as q.
    intros q Hq. pose proof (Z.div_mod v q ltac:(lia)). pose proof (Z.mod_pos_bound v q Hq).
    pose proof (Z.div_pos v q ltac:(lia) Hq). split; [|lia]. apply Z.mul_nonneg_nonneg; lia.
  - unfold mask_to at 1 3. by rewrite Hs by lia.
Qed.

Lemma slaacOptionRules_spec pi p : pio_wf pi -> slaacOptionRules pi = (p, SLAACIgnoreNone) ->
  exists v, PiPrefix pi = Addr6 v [] /\ 0 <= v < 2 ^ 128 /\ Autonomous pi = true /\ Is4In6 (Addr6 v []) = false /\
    Contains linkLocalPrefix (Addr6 v []) = false /\ 0 <= PrefixLen pi <= 128 /\
    p = PrefixOf (Addr6 (mask_to 128 (PrefixLen pi) v) []) (PrefixLen pi) /\ Masked p = p.
Proof.
  intros (v & E & Hv). unfold slaacOptionRules. rewrite E. destruct (Autonomous pi); [|done]. cbn [negb Is6 orb].
  destruct (Is4In6 (Addr6 v [])) eqn:H4; [done|]. destruct (Contains linkLocalPrefix (Addr6 v [])) eqn:Hl; [done|].
  destruct (durGreater _ _); [done|]. unfold PrefixFrom. cbn [IsValid BitLen WithoutZone andb].
  destruct (Z.leb_spec 0 (PrefixLen pi)), (Z.leb_spec (PrefixLen pi) 128); cbn [andb]; try done.
  unfold PrefixIsValid. cbn [pbits]. rewrite (proj2 (Z.leb_le 0 (PrefixLen pi))) by done. cbn [negb].
  intros [= <-]. exists v. unfold Masked. cbn [pbits paddr]. rewrite (proj2 (Z.ltb_ge (PrefixLen pi) 0)) by done.
  cbn [pbits paddr]. rewrite (proj2 (Z.ltb_ge (PrefixLen pi) 0)) by done.
  split_and!; try done; try apply Hv. by rewrite (proj1 (proj2 (mask_to_spec v (PrefixLen pi) Hv ltac:(lia)))).
Qed.

Lemma findLoop_spec l p : forall i, match findLoop l p i with
  | Some j => exists e, (i <= j)%nat /\ l !! (j - i)%nat = Some e /\ sePrefix e = p
  | None => p ∉ map sePrefix l
  end.
Proof.
  induction l as [|e l IH]; intros i; cbn [findLoop map]; [apply not_elem_of_nil|].
  case_bool_decide as He; [exists e; rewrite Nat.sub_diag; done|]. specialize (IH (S i)).
  destruct (findLoop l p (S i)) as [j|]; [|rewrite elem_of_cons; naive_solver].
  destruct IH as (e' & Hj & Hl & Hp). exists e'. split; [lia|]. split; [|done].
  by replace (j - i)%nat with (S (j - S i)) by lia.
Qed.

Lemma refreshEntry_key now e pref valid : let e' := (refreshEntry now e pref valid).1 in
  sePrefix e' = sePrefix e /\ seAddr e' = seAddr e.
Proof.
  destruct e. unfold refreshEntry. cbn -[remaining deprecated]. destruct (_ || _); cbn -[deprecated];
    [|destruct (negb _); cbn -[deprecated]]; by destruct (negb _).
Qed.

Lemma entry_ok_key e e' : sePrefix e' = sePrefix e -> seAddr e' = seAddr e -> entry_ok e -> entry_ok e'.
Proof. intros E1 E2. unfold entry_ok. by rewrite E1, E2. Qed.

(** An entry replaced by one for the same prefix keeps the table. *)
Lemma table_ok_insert t i e e' c r d : table_ok t -> entries t !! i = Some e -> sePrefix e' = sePrefix e ->
  entry_ok e' -> (forall p, 0 <= default 0 (d !! p) <= IDGenRetries) ->
  table_ok (mkSlaacTable (<[i := e']> (entries t)) c r d).
Proof.
  intros (Hl & Hf & Hn & _) Hi Ep He Hd. unfold table_ok, dadOf. cbn [entries dadCount].
  split; [by rewrite length_insert|]. split; [by apply Forall_insert|]. split; [|done].
  replace (map sePrefix (<[i:=e']> (entries t))) with (map sePrefix (entries t)); [done|].
  change (sePrefix <$> entries t = sePrefix <$> <[i:=e']> (entries t)). rewrite list_fmap_insert, Ep.
  symmetry. apply list_insert_id. by rewrite list_lookup_fmap, Hi.
Qed.

Lemma entry_ok_formed v a s c : 0 <= v < 2 ^ 128 -> source_wf s -> Contains linkLocalPrefix (Addr6 v []) = false ->
  formSLAAC (Addr6 v []) 64 s c = Ok a -> forall start pref valid ch tent,
  entry_ok (mkSlaacEntry (PrefixOf (Addr6 (mask_to 128 64 v) []) 64) a start pref valid ch tent).
Proof.
  intros Hv Hs Hl Hf start pref valid ch tent. destruct (formSLAAC_spec v [] 64 s c Hv) as [_ Hspec].
  destruct (Hspec a Hf) as (_ & _ & id & _ & _ & Hw). destruct (Hw Hs) as (w & -> & Hwr & Hww).
  destruct (mask_to_spec v 64 Hv ltac:(lia)) as (Hm & Hmm & Hsh).
  exists (mask_to 128 64 v), w. cbn [sePrefix seAddr]. split; [done|]. split; [done|]. split; [done|]. split; [|split; [done|split; [done|]]].
  - revert Hl. unfold Contains. cbn [linkLocalPrefix PrefixIsValid pbits paddr Z.leb negb Z.compare Pos.compare].
    by rewrite Hsh by lia.
  - by rewrite Hsh by lia.
Qed.

Lemma table_ok_append t e c : table_ok t -> (length (entries t) < MaxSLAACAddresses)%nat -> entry_ok e ->
  sePrefix e ∉ map sePrefix (entries t) -> table_ok (mkSlaacTable (entries t ++ [e]) c (refused t) (dadCount t)).
Proof.
  intros (Hl & Hf & Hn & Hd) Hlt He Hp. unfold table_ok, dadOf. cbn [entries dadCount].
  split; [rewrite length_app; cbn; lia|]. split; [|split; [|done]].
  - apply Forall_app; split; [done|]. by apply Forall_singleton.
  - rewrite map_app. apply NoDup_app; split; [done|]. split; [|apply NoDup_singleton].
    by intros q Hq ->%list_elem_of_singleton.
Qed.

Lemma applyPIO_ok t now pi src : table_ok t -> pio_wf pi -> source_wf src ->
  exists t' f c w, applyPIO t now pi src = Some (t', f, c, w) /\ table_ok t'.
Proof.
  intros Ht Hpi Hs. unfold applyPIO. destruct (slaacOptionRules pi) as [p why] eqn:Er.
  destruct (Nat.eqb_spec why SLAACIgnoreNone) as [->|]; cbn [negb]; [|eauto 10].
  destruct (slaacOptionRules_spec pi p Hpi Er) as (v & Ev & Hv & _ & H4 & Hl & Hlen & Ep & Em).
  unfold find. rewrite Em. pose proof (findLoop_spec (entries t) p 0) as Hfind.
  destruct (findLoop (entries t) p 0) as [i|].
  - destruct Hfind as (e & _ & He & Epe). rewrite Nat.sub_0_r in He. unfold refresh. rewrite He. cbn [mbind option_bind].
    pose proof (refreshEntry_key now e (SecondsToDuration (PiPreferred pi)) (SecondsToDuration (PiValid pi))) as [K1 K2].
    destruct (refreshEntry _ _ _ _) as [e' ch]. cbn [mbind option_bind]. do 4 eexists. split; [reflexivity|].
    apply (table_ok_insert t i e); try done; [|apply Ht]. eapply entry_ok_key; [exact K1|exact K2|].
    destruct Ht as (_ & Hf & _). rewrite Forall_lookup in Hf. by eapply Hf.
  - unfold slaacFormRules. destruct (lengthsSumTo128 (PrefixLen pi) IIDBits) eqn:Hsum; cbn [negb]; [|cbn; eauto 10].
    unfold lengthsSumTo128, IIDBits in Hsum. apply Z.eqb_eq in Hsum. assert (E64 : PrefixLen pi = 64) by lia.
    destruct (_ =? 0); [cbn; eauto 10|]. rewrite Ev, E64 in *.
    destruct (formSLAAC_spec v [] 64 src (dadOf t p) Hv) as [Hr _].
    destruct (formSLAAC _ _ _ _) as [a|e| |] eqn:Ha; [|cbn; eauto 10|by destruct Hr|by destruct Hr].
    cbn [mbind option_bind negb Nat.eqb SLAACIgnoreNone].
    destruct (Nat.leb_spec MaxSLAACAddresses (length (entries t))); [eauto 10|]. case_bool_decide; [eauto 10|].
    do 4 eexists. split; [reflexivity|]. apply (table_ok_append t); [done|lia| |done].
    rewrite Ep. by apply (entry_ok_formed v a src (dadOf t p)).
Qed.

Lemma entryOf_spec l a i : entryOf l a = Some i -> exists e, l !! i = Some e /\ seAddr e = a.
Proof.
  revert i. induction l as [|e l IH]; intros i; cbn [entryOf]; [done|].
  destruct (addr_eqb (seAddr e) a) eqn:E; [intros [= <-]; apply addr_eqb_eq in E; eauto|].
  destruct (entryOf l a) as [j|]; [|done]. intros [= <-]. by apply IH.
Qed.

(** A filtered table is still one: what [expire] and [drop] leave. *)
Lemma table_ok_sublist t l c : table_ok t -> l `sublist_of` entries t -> table_ok (mkSlaacTable l c (refused t) (dadCount t)).
Proof.
  intros (Hl & Hf & Hn & Hd) Hs. unfold table_ok, dadOf. cbn [entries dadCount]. split; [|split; [|split; [|done]]].
  - apply sublist_length in Hs. lia.
  - rewrite Forall_forall in *. intros e He. apply Hf. by eapply elem_of_sublist.
  - apply (sublist_NoDup _ (sePrefix <$> entries t) Hn). by apply fmap_sublist.
Qed.

Lemma expireLoop_spec l now : forall c, exists c',
  expireLoop l now c = (filter (fun e => expired e now = false) l,
                        map seAddr (filter (fun e => expired e now = true) l), c') /\
  scExpired c' mod 2 ^ 64 = (scExpired c + Z.of_nat (length (filter (fun e => expired e now = true) l))) mod 2 ^ 64.
Proof.
  induction l as [|e l IH]; intros c; cbn [expireLoop].
  { exists c. split; [done|]. cbn. by rewrite Z.add_0_r. }
  rewrite !filter_cons. destruct (expired e now) eqn:E; cbn [negb].
  - rewrite decide_False, decide_True by done.
    destruct (IH (c <| scExpired := u64 (scExpired c + 1) |>)) as (c' & -> & Hc). exists c'. split; [done|].
    rewrite Hc. destruct c. cbn [set_fld length scExpired]. unfold u64. rewrite Zplus_mod_idemp_l. f_equal. lia.
  - rewrite decide_True, decide_False by done. destruct (IH c) as (c' & -> & Hc). by exists c'.
Qed.

Lemma retryLoop_ok src i e : forall fuel t, table_ok t -> source_wf src -> entries t !! i = Some e ->
  (Z.to_nat (retries src - dadOf t (sePrefix e)) < fuel)%nat ->
  exists t' a n ok, retryLoop fuel t i e src = Some (t', a, n, ok) /\ table_ok t' /\
    (ok = true -> (a ∉ refused t') /\ (exists e', entries t' !! i = Some e' /\ seAddr e' = a /\ sePrefix e' = sePrefix e /\
        seTentative e' = true) /\
      n = dadOf t' (sePrefix e) /\ dadOf t (sePrefix e) < n <= IDGenRetries /\ iidMode src = IIDModeStablePrivacy) /\
    (ok = false -> entries t' = entries t /\ retries src <= dadOf t' (sePrefix e)).
Proof.
  induction fuel as [|fuel IH]; intros t Ht Hs Hi Hf; [lia|]. cbn [retryLoop].
  destruct (Z.ltb_spec (dadOf t (sePrefix e)) (retries src)) as [Hlt|Hge]; [|do 4 eexists; split; [reflexivity|]; done].
  assert (Hm : iidMode src = IIDModeStablePrivacy /\ retries src = IDGenRetries).
  { unfold retries in *. pose proof (proj2 (proj2 (proj2 Ht)) (sePrefix e)).
    destruct (Z.eqb_spec (iidMode src) IIDModeStablePrivacy); [done|lia]. }
  destruct Hm as [Hm HR]. pose proof (proj2 (proj2 (proj2 Ht)) (sePrefix e)) as Hd. rewrite HR in *. unfold IDGenRetries in *.
  rewrite (u8_id (dadOf t (sePrefix e) + 1)) by lia. set (n := dadOf t (sePrefix e) + 1) in *.
  change (t <| dadCount := <[sePrefix e:=n]> (dadCount t) |>) with
    (mkSlaacTable (entries t) (counts t) (refused t) (<[sePrefix e:=n]> (dadCount t))).
  set (t1 := mkSlaacTable _ _ _ _).
  assert (Hoi : Forall entry_ok (entries t)) by apply Ht. rewrite Forall_lookup in Hoi.
  destruct (Hoi i e Hi) as (v & w & Ep & Hv & Hmask & Hll & Ea & Hw & Hww).
  assert (Hd1 : forall p, 0 <= default 0 (dadCount t1 !! p) <= 3).
  { intros p. cbn [t1 dadCount]. destruct (decide (p = sePrefix e)) as [->|Hp]; [rewrite lookup_insert_eq; cbn; unfold n; lia|].
    rewrite lookup_insert_ne by done. apply Ht. }
  assert (Ht1 : table_ok t1) by (destruct Ht as (? & ? & ? & _); split; [done|]; split; [done|]; split; [done|exact Hd1]).
  assert (Hn : dadOf t1 (sePrefix e) = n) by (unfold dadOf; cbn [t1 dadCount]; by rewrite lookup_insert_eq).
  assert (H4 : Is4In6 (Addr6 v []) = false).
  { cbn. rewrite Hmask. unfold mask_to. change (128 - 64) with 64. rewrite Z.shiftr_shiftl_l by lia.
    apply Z.eqb_neq. intros E. rewrite Z.shiftl_mul_pow2 in E by lia. change (2 ^ (64 - 32)) with 4294967296 in E. lia. }
  destruct (iid_stable src (PrefixFrom (Addr6 v []) 64) n Hm) as [id Hid].
  destruct (formSLAAC_spec v [] 64 src n Hv) as [_ Hspec].
  assert (Hform : exists a, formSLAAC (Addr6 v []) 64 src n = Ok a).
  { unfold formSLAAC. rewrite H4. cbn [Is6 negb orb lengthsSumTo128 IIDBits Z.eqb Z.add Pos.add Pos.eqb]. rewrite Hid. eauto. }
  destruct Hform as [a Ha].
  assert (Ha' : formSLAAC (paddr (sePrefix e)) (u8 (pbits (sePrefix e))) src n = Ok a) by (rewrite Ep; exact Ha).
  rewrite Ha'. case_bool_decide as Hr.
  - destruct (IH t1 Ht1 Hs Hi) as (t' & b & k & ok & -> & Ht' & H1 & H2); [rewrite Hn; unfold n; lia|].
    do 4 eexists. split; [reflexivity|]. split; [done|]. rewrite Hn in H1. split; [|done]. intros Hok.
    destruct (H1 Hok) as (? & ? & ? & ? & ?). split_and!; try done; unfold n in *; lia.
  - do 4 eexists. split; [reflexivity|]. split; [|split; [intros _|done]].
    + apply (table_ok_insert t1 i e); [done|done|done| |apply Ht1].
      destruct (Hspec a Ha) as (_ & _ & id' & _ & _ & Hwf). destruct (Hwf Hs) as (w' & -> & Hw' & Hww').
      exists v, w'. cbn [sePrefix seAddr]. done.
    + split; [done|]. split; [|split; [|split; [unfold n; lia|done]]].
      * eexists. split; [apply list_lookup_insert_eq; by eapply lookup_lt_Some|done].
      * symmetry. exact Hn.
Qed.

Lemma alter_map {A B} (f : A -> B) (g : A -> A) i (l : list A) : (forall x, f (g x) = f x) -> map f (alter g i l) = map f l.
Proof. intros H. revert i. induction l as [|x l IH]; intros [|i]; cbn; [done..| |]; [by rewrite H|by f_equal]. Qed.

Lemma settle_ok t a : table_ok t -> table_ok (settle t a).
Proof.
  intros Ht. unfold settle. destruct (entryOf (entries t) a) as [i|]; [|done]. destruct Ht as (Hl & Hf & Hn & Hd).
  unfold table_ok, dadOf. cbn [set_fld entries dadCount]. split; [by rewrite length_alter|]. split; [|split; [|done]].
  - apply Forall_alter; [done|]. intros e _ He. by apply (entry_ok_key e).
  - by rewrite alter_map.
Qed.

(** One call of a method of the table that changes it. *)
Inductive table_step (src : iidSource) : slaacTable -> slaacTable -> Prop :=
| StepPIO t now pi t' formed changed why : pio_wf pi ->
    applyPIO t now pi src = Some (t', formed, changed, why) -> table_step src t t'
| StepExpire t now : table_step src t (expire t now).1
| StepRefuse t a : table_step src t (refuse t a)
| StepDrop t a : table_step src t (dropAddr t a).1
| StepRetry t a t' nxt n ok : retry t a src = Some (t', nxt, n, ok) -> table_step src t t'
| StepSettle t a : table_step src t (settle t a).

Lemma table_step_ok src t t' : source_wf src -> table_ok t -> table_step src t t' -> table_ok t'.
Proof.
  intros Hs Ht Hstep. destruct Hstep as [t now pi t1 f c w Hpi E|t now|t a|t a|t a t1 nxt n ok E|t a].
  - destruct (applyPIO_ok t now pi src Ht Hpi Hs) as (t' & f' & c' & w' & E' & H). rewrite E in E'. by injection E' as -> -> -> ->.
  - unfold expire. destruct (expireLoop_spec (entries t) now (counts t)) as (c' & -> & _).
    apply (table_ok_sublist t); [done|]. apply sublist_filter.
  - by destruct Ht as (? & ? & ? & ?).
  - unfold dropAddr. destruct (entryOf (entries t) a) as [i|]; [|done].
    apply (table_ok_sublist t); [done|]. rewrite <- (take_drop i (entries t)) at 3. apply sublist_app; [done|].
    rewrite <- Nat.add_1_r, <- drop_drop. apply sublist_drop.
  - unfold retry in E. destruct (entryOf (entries t) a) as [i|] eqn:Ei; [|by injection E as <- _ _ _].
    apply entryOf_spec in Ei as (e & He & _). rewrite He in E. cbn [mbind option_bind] in E.
    destruct (retryLoop_ok src i e 4 t Ht Hs He) as (t' & b & k & ok' & E' & Ht' & _).
    { pose proof (proj2 (proj2 (proj2 Ht)) (sePrefix e)). unfold retries, IDGenRetries in *. destruct (_ =? _); lia. }
    rewrite E in E'. by injection E' as -> _ _ _.
  - by apply settle_ok.
Qed.

(** ** The lifetimes are in order *)

Lemma durGreater_trans a b c : durGreater a b = false -> durGreater b c = false -> durGreater a c = false.
Proof.
  unfold durGreater. destruct (IsInfinite a), (IsInfinite b), (IsInfinite c); cbn; rewrite ?Z.ltb_ge; try done; lia.
Qed.

Definition entry_ordered (e : slaacEntry) : Prop := durGreater (sePreferred e) (seValid e) = false.

(** Every arm of the two-hour rule keeps at least the advertised valid lifetime. *)
Lemma refreshEntry_ordered now e pref valid :
  durGreater pref valid = false -> entry_ordered (refreshEntry now e pref valid).1.
Proof.
  intros Hpv. unfold refreshEntry, entry_ordered. cbv zeta. cbn [fst].
  destruct (durGreater valid TwoHours) eqn:D1; [|destruct (durGreater valid (remaining e now)) eqn:D2; cbn [orb];
    [|destruct (negb (durGreater (remaining e now) TwoHours))]];
    cbn [orb]; case_match; cbn [set_fld sePreferred seValid]; eauto using durGreater_trans.
Qed.

Lemma slaacOptionRules_ordered pi p : slaacOptionRules pi = (p, SLAACIgnoreNone) ->
  durGreater (SecondsToDuration (PiPreferred pi)) (SecondsToDuration (PiValid pi)) = false.
Proof. unfold slaacOptionRules. repeat case_match; congruence || done. Qed.

Lemma applyPIO_ordered t now pi src t' formed changed why :
  Forall entry_ordered (entries t) -> applyPIO t now pi src = Some (t', formed, changed, why) ->
  Forall entry_ordered (entries t').
Proof.
  intros Ht. unfold applyPIO. destruct (slaacOptionRules pi) as [p w] eqn:Er.
  destruct (Nat.eqb_spec w SLAACIgnoreNone) as [->|]; cbn [negb]; [|by intros [= <- _ _ _]].
  apply slaacOptionRules_ordered in Er. destruct (find t p) as [i|].
  - unfold refresh. destruct (entries t !! i) as [e|]; cbn [mbind option_bind]; [|done].
    pose proof (refreshEntry_ordered now e _ _ Er) as He. destruct (refreshEntry _ _ _ _) as [e' ch]. cbn [mbind option_bind].
    intros [= <- _ _ _]. cbn [set_fld entries]. by apply Forall_insert.
  - destruct (slaacFormRules pi src (dadOf t p)) as [[a w]|]; cbn [mbind option_bind]; [|done].
    repeat case_match; intros [= <- _ _ _]; try done. cbn [set_fld entries]. apply Forall_app. split; [done|].
    by apply Forall_singleton.
Qed.

Lemma retryLoop_ordered src i e fuel t t' nxt n ok : Forall entry_ordered (entries t) -> entry_ordered e ->
  retryLoop fuel t i e src = Some (t', nxt, n, ok) -> Forall entry_ordered (entries t').
Proof.
  revert t. induction fuel as [|fuel IH]; intros t Ht He; cbn [retryLoop]; [done|].
  repeat case_match; first [by apply IH | by intros [= <- _ _ _] | intros [= <- _ _ _]; by apply Forall_insert].
Qed.

Lemma table_step_ordered src t t' : Forall entry_ordered (entries t) -> table_step src t t' ->
  Forall entry_ordered (entries t').
Proof.
  intros Ht Hstep. destruct Hstep as [t now pi t1 f c w _ E|t now|t a|t a|t a t1 nxt n ok E|t a].
  - by eapply applyPIO_ordered.
  - unfold expire. destruct (expireLoop_spec (entries t) now (counts t)) as (c' & -> & _). cbn [fst set_fld entries].
    apply Forall_forall. intros e [_ He]%list_elem_of_filter. by eapply Forall_forall in Ht.
  - done.
  - unfold dropAddr. destruct (entryOf (entries t) a); [|done]. cbn [fst set_fld entries].
    apply Forall_app. split; [by apply Forall_take|by apply Forall_drop].
  - unfold retry in E. destruct (entryOf (entries t) a) as [i|]; [|by injection E as <- _ _ _].
    destruct (entries t !! i) as [e|] eqn:Ei; [|done]. cbn [mbind option_bind] in E.
    eapply retryLoop_ordered; [done| |done]. by eapply Forall_lookup_1 in Ei.
  - unfold settle. destruct (entryOf (entries t) a); [|done]. cbn [set_fld entries]. by apply Forall_alter.
Qed.

Lemma table_zero_ok : table_ok table_zero.
Proof.
  split; [cbn; unfold MaxSLAACAddresses; lia|]. split; [constructor|]. split; [constructor|].
  intros p. unfold dadOf, table_zero. cbn [dadCount]. rewrite lookup_empty. cbn. unfold IDGenRetries. lia.
Qed.

(** C15: the addresses a table can hold.  However its methods are called, and
    whatever prefixes routers advertise, a table never holds more than eight
    addresses; each is in the /64 it was formed from, no two are of one prefix
    or are equal, and none is of the link-local prefix; none is preferred for
    longer than it is valid; the duplicate counter of a prefix never passes the retries RFC 7217 allows; and no method gets stuck:
    an advertised option always has an answer, and a retry always ends. *)
Theorem slaac_table_invariant src t : source_wf src -> rtc (table_step src) table_zero t ->
  (length (entries t) <= MaxSLAACAddresses)%nat /\
  NoDup (map sePrefix (entries t)) /\ NoDup (map seAddr (entries t)) /\
  Forall (fun e => Contains (sePrefix e) (seAddr e) = true /\ pbits (sePrefix e) = 64 /\
                   Contains linkLocalPrefix (seAddr e) = false) (entries t) /\
  Forall (fun e => durGreater (sePreferred e) (seValid e) = false) (entries t) /\
  (forall p, 0 <= dadOf t p <= IDGenRetries) /\
  (forall now pi, pio_wf pi -> applyPIO t now pi src <> None) /\ (forall a, retry t a src <> None).
Proof.
  intros Hs Hr. assert (Ht : table_ok t).
  { revert t Hr. apply (rtc_ind_r _ table_zero); [apply table_zero_ok|]. eauto using table_step_ok. }
  assert (Ho : Forall entry_ordered (entries t)).
  { clear Ht. revert t Hr. apply (rtc_ind_r _ table_zero); [constructor|]. eauto using table_step_ordered. }
  split; [apply Ht|]. split; [apply Ht|]. split; [by apply table_addrs_distinct|].
  split; [|split; [exact Ho|split; [apply Ht|split]]].
  - destruct Ht as (_ & Hf & _). eapply Forall_impl; [exact Hf|].
    intros e (v & w & -> & _ & Hm & Hl & -> & _ & E). cbn [pbits]. split_and!; [|done|].
    + cbn [Contains PrefixIsValid pbits paddr Z.leb Z.compare negb]. change (128 - 64) with 64. rewrite E. apply andb_true_iff.
      split; [done|apply Z.eqb_refl].
    + revert Hl. cbn [Contains linkLocalPrefix PrefixIsValid pbits paddr Z.leb Z.compare negb]. change (128 - 10) with 118.
      change 118 with (64 + 54). by rewrite <- !Z.shiftr_shiftr, E by lia.
  - intros now pi Hpi. destruct (applyPIO_ok t now pi src Ht Hpi Hs) as (? & ? & ? & ? & -> & _). done.
  - intros a. unfold retry. destruct (entryOf (entries t) a) as [i|] eqn:Ei; [|done].
    apply entryOf_spec in Ei as (e & He & _). rewrite He. cbn [mbind option_bind].
    destruct (retryLoop_ok src i e 4 t Ht Hs He) as (? & ? & ? & ? & -> & _); [|done].
    pose proof (proj2 (proj2 (proj2 Ht)) (sePrefix e)). unfold retries, IDGenRetries in *. destruct (_ =? _); lia.
Qed.

(** 2001:db8::/64, preferred an hour and valid two, heard by 02:00:00:00:00:01. *)
Definition sample_pio : PrefixInfo := mkPrefixInfo 64 true true 7200 3600 (Addr6 (Z.shiftl 0x20010db8 96) []).
Definition sample_source : iidSource := mkIidSource IIDModeEUI64 [2; 0; 0; 0; 0; 1] [] [] [].
Definition sample_table : slaacTable :=
  match applyPIO table_zero 0 sample_pio sample_source with Some (t, _, _, _) => t | None => table_zero end.

Lemma slaac_table_invariant_witness : rtc (table_step sample_source) table_zero sample_table /\
  map seAddr (entries sample_table) = [Addr6 (Z.shiftl 0x20010db8 96 + 0xfffe000001) []] /\
  NoDup (map seAddr (entries sample_table)).
Proof.
  assert (Hs : source_wf sample_source) by (repeat (apply are_bytes_cons; split; [done|]); apply Forall_nil, I).
  assert (Hr : rtc (table_step sample_source) table_zero sample_table).
  { apply rtc_once. apply (StepPIO sample_source table_zero 0 sample_pio sample_table true true 0%nat); [|vm_compute; reflexivity].
    eexists. split; [reflexivity|]. split; [vm_compute; discriminate|vm_compute; reflexivity]. }
  split; [exact Hr|]. split; [vm_compute; reflexivity|]. by apply (slaac_table_invariant sample_source sample_table Hs Hr).
Defined.

(** ** The two-hour rule *)

(** The end of one lifetime is before the end of another; [None] never comes. *)
Definition sooner (a b : option Instant) : Prop :=
  match a, b with
  | Some x, Some y => x < y
  | Some _, None => True
  | None, _ => False
  end.

Definition validEnd (e : slaacEntry) : option Instant := expiry (seStart e) (seValid e).
Definition preferredEnd (e : slaacEntry) : option Instant := expiry (seStart e) (sePreferred e).

Lemma refreshEntry_shape now e pref valid : let e' := (refreshEntry now e pref valid).1 in
  seStart e' = now /\ sePreferred e' = pref /\
  seValid e' = (if durGreater valid TwoHours || durGreater valid (remaining e now) then valid
                else if negb (durGreater (remaining e now) TwoHours) then remaining e now else TwoHours) /\
  ((refreshEntry now e pref valid).2 = false ->
   Add (seStart e) (sePreferred e) = Add now pref /\ Add (seStart e) (seValid e) = Add now (seValid e') /\
   IsInfinite (sePreferred e) = IsInfinite pref /\ IsInfinite (seValid e) = IsInfinite (seValid e')).
Proof.
  unfold refreshEntry. cbv zeta. set (left := remaining e now).
  set (v := if durGreater valid TwoHours || durGreater valid left then valid else _).
  set (e1 := if durGreater valid TwoHours || durGreater valid left then _ else _).
  assert (H1 : sePreferred e1 = pref /\ seValid e1 = v).
  { unfold e1, v. destruct (_ || _); [done|]. by destruct (negb _). } clearbody e1.
  set (e2 := if negb _ then _ else _).
  assert (H2 : seStart e2 = now /\ sePreferred e2 = sePreferred e1 /\ seValid e2 = seValid e1).
  { unfold e2. by destruct (negb (deprecated _ _)). }
  clearbody e2. destruct H1 as [P1 V1], H2 as (S2 & P2 & V2). cbn [fst snd].
  rewrite S2, P2, V2, P1, V1. split_and!; try done.
  rewrite !orb_false_iff, !negb_false_iff, !Z.eqb_eq, !eqb_true_iff. tauto.
Qed.

Lemma refreshEntry_tentative now e pref valid : seTentative (refreshEntry now e pref valid).1 = seTentative e.
Proof.
  unfold refreshEntry. cbv zeta. cbn [fst]. by repeat (case_match; cbn [set_fld seTentative]).
Qed.

(** What a reported change is a change of. *)
Lemma refreshEntry_changed now e pref valid : let '(e', changed) := refreshEntry now e pref valid in
  changed = true ->
  Add (seStart e) (sePreferred e) <> Add (seStart e') (sePreferred e') \/
  Add (seStart e) (seValid e) <> Add (seStart e') (seValid e') \/
  IsInfinite (sePreferred e) <> IsInfinite (sePreferred e') \/ IsInfinite (seValid e) <> IsInfinite (seValid e').
Proof.
  unfold refreshEntry. cbv zeta. rewrite !orb_true_iff, !negb_true_iff, !Z.eqb_neq, !eqb_false_iff. tauto.
Qed.

Section TwoHourRule.
Context (now : Instant) (e : slaacEntry) (pref valid : Duration).
Hypotheses (Hstart : instant_wf (seStart e)) (Hnow : instant_wf now) (Hle : seStart e <= now)
  (Hp : lifetime_wf (sePreferred e)) (Hv : lifetime_wf (seValid e)) (Hpref : lifetime_wf pref) (Hvalid : lifetime_wf valid).

Lemma TwoHours_wf : lifetime_wf TwoHours /\ TwoHours <> Infinite.
Proof. unfold lifetime_wf, TwoHours, Second, Infinite. lia. Qed.

(** What is left of the entry is the time to its end, nothing once it is past. *)
Lemma remaining_spec :
  seValid e = Infinite /\ remaining e now = Infinite \/
  seValid e <> Infinite /\ remaining e now = Z.max 0 (seStart e + seValid e - now) /\
  validEnd e = Some (seStart e + seValid e) /\ 0 <= remaining e now <= 4294967294 * Second.
Proof.
  unfold remaining, validEnd. destruct (expiry_wf (seStart e) (seValid e) Hstart Hv) as [[Ei _]|(Ei & Hr & ->)].
  - left. by rewrite Ei.
  - right. unfold IsInfinite. rewrite (proj2 (Z.eqb_neq _ _) Ei). split; [done|].
    unfold Add, Sub, instant_wf, Second in *. change (2 ^ 62) with 4611686018427387904 in *. rewrite !i64_id by (rewrite ?i64_id; lia).
    destruct (Z.ltb_spec (seStart e + seValid e - now) 0); (split; [lia|]; split; [done|lia]).
Qed.

Let e' := (refreshEntry now e pref valid).1.

Lemma refresh_ends :
  preferredEnd e' = expiry now pref /\
  (if durGreater valid TwoHours || durGreater valid (remaining e now) then validEnd e' = expiry now valid
   else if durGreater (remaining e now) TwoHours then validEnd e' = Some (now + TwoHours)
   else validEnd e' = expiry now (remaining e now)).
Proof.
  destruct (refreshEntry_shape now e pref valid) as (S1 & P1 & V1 & _). fold e' in S1, P1, V1.
  unfold preferredEnd, validEnd. rewrite S1, P1, V1. split; [done|]. destruct (_ || _); [done|].
  destruct (durGreater (remaining e now) TwoHours); [|done]. cbn [negb].
  destruct TwoHours_wf as [Hw Hi]. destruct (expiry_wf now TwoHours Hnow Hw) as [[E _]|(_ & _ & E)]; [by destruct Hi|exact E].
Qed.
End TwoHourRule.

(** Longer from one instant is later. *)
Lemma durGreater_sooner now a b : instant_wf now -> lifetime_wf a -> lifetime_wf b ->
  (durGreater a b = true <-> sooner (expiry now b) (expiry now a)) /\
  (durGreater a b = false -> expiry now a = expiry now b \/ sooner (expiry now a) (expiry now b)).
Proof.
  intros Hn Ha Hb. unfold durGreater, IsInfinite.
  destruct (expiry_wf now a Hn Ha) as [[-> ->]|(Ia & _ & ->)], (expiry_wf now b Hn Hb) as [[-> ->]|(Ib & _ & ->)];
    rewrite ?(proj2 (Z.eqb_neq _ _) Ia), ?(proj2 (Z.eqb_neq _ _) Ib), ?Z.eqb_refl; cbn [andb sooner].
  - split; [by split|by left].
  - by split.
  - split; [by split|by right].
  - rewrite Z.ltb_lt, Z.ltb_ge. split; [lia|]. intros Hle. destruct (decide (a = b)) as [->|]; [by left|right; lia].
Qed.

(** What is left of a live entry ends where the entry ends. *)
Lemma remaining_end now e : instant_wf (seStart e) -> instant_wf now -> seStart e <= now -> lifetime_wf (seValid e) ->
  expired e now = false -> lifetime_wf (remaining e now) /\ expiry now (remaining e now) = validEnd e.
Proof.
  intros Hs Hn Hle Hv He. unfold expired, IsInfinite in He.
  destruct (remaining_spec now e Hs Hn Hle Hv) as [[Ei ->]|(Ei & Er & Eend & Hr)].
  - split; [by left|]. unfold validEnd. by rewrite Ei.
  - split; [by right|]. rewrite Eend. rewrite (proj2 (Z.eqb_neq _ _) Ei) in He. cbn [negb andb] in He.
    destruct (expiry_wf (seStart e) (seValid e) Hs Hv) as [[? _]|(_ & _ & Ee)]; [done|].
    unfold expiry in Ee. unfold IsInfinite in Ee. rewrite (proj2 (Z.eqb_neq _ _) Ei) in Ee. injection Ee as Ee.
    rewrite Ee, Z.leb_gt in He. assert (Ei' : remaining e now <> Infinite) by (unfold Infinite; lia).
    destruct (expiry_wf now (remaining e now) Hn) as [[? _]|(_ & _ & ->)]; [by right|done|]. f_equal. lia.
Qed.

(** The later and the earlier of two ends. *)
Definition laterEnd (a b : option Instant) : option Instant :=
  match a, b with Some x, Some y => Some (Z.max x y) | _, _ => None end.
Definition earlierEnd (a b : option Instant) : option Instant :=
  match a, b with Some x, Some y => Some (Z.min x y) | None, _ => b | _, None => a end.

(** The ladder of RFC 4862 section 5.5.3 (e) in one formula: of the advertised
    end and of the end there is, cut to two hours, the later. *)
Lemma refresh_valid_end now e pref valid : instant_wf (seStart e) -> instant_wf now -> seStart e <= now ->
  lifetime_wf (seValid e) -> lifetime_wf valid -> expired e now = false ->
  validEnd (refreshEntry now e pref valid).1 =
    laterEnd (expiry now valid) (earlierEnd (validEnd e) (Some (now + TwoHours))).
Proof.
  intros Hs Hn Hle Hv Hvalid He. destruct (refresh_ends now e pref valid Hn) as [_ H].
  destruct (remaining_end now e Hs Hn Hle Hv He) as [Hrw Hre]. destruct TwoHours_wf as [H2w H2i].
  assert (E2 : expiry now TwoHours = Some (now + TwoHours)) by (destruct (expiry_wf now TwoHours Hn H2w) as [[? _]|(_ & _ & E)]; [done|exact E]).
  destruct (durGreater_sooner now valid TwoHours Hn Hvalid H2w) as [G1 G1'].
  destruct (durGreater_sooner now valid (remaining e now) Hn Hvalid Hrw) as [G2 G2'].
  destruct (durGreater_sooner now (remaining e now) TwoHours Hn Hrw H2w) as [G3 G3'].
  rewrite Hre, E2 in *. unfold laterEnd, earlierEnd.
  destruct (durGreater valid TwoHours); cbn [orb] in H.
  { rewrite H. pose proof (proj1 G1 eq_refl) as D. destruct (expiry now valid), (validEnd e); cbn in D |- *; try done; f_equal; lia. }
  destruct (durGreater valid (remaining e now)).
  { rewrite H. pose proof (proj1 G2 eq_refl) as D. destruct (expiry now valid), (validEnd e); cbn in D |- *; try done; f_equal; lia. }
  specialize (G1' eq_refl). specialize (G2' eq_refl). destruct (durGreater (remaining e now) TwoHours); rewrite H.
  - pose proof (proj1 G3 eq_refl) as D. destruct (expiry now valid), (validEnd e); cbn in *; destruct G1'; simplify_eq; try done; f_equal; lia.
  - specialize (G3' eq_refl). destruct (expiry now valid), (validEnd e); cbn in *;
      destruct G1', G2', G3'; simplify_eq; try done; f_equal; lia.
Qed.

(** C28: the two-hour rule, exactly.  Refreshing an address a client holds, that
    has not ended, by an advertisement of the lifetimes [pref] and [valid]:
    its preferred end becomes the advertised one; its valid end becomes the later
    of the advertised one and of the end it had cut to two hours from now (an end
    that never comes being the latest), so an advertised end that is later than
    either is adopted and one that is sooner than both is not; the address, its
    prefix and whether it is still being checked stay.  So a forged
    advertisement cannot bring the end of an address nearer than two hours from
    now, nor move an end that is already nearer.  And the answer says whether an
    end moved: when nothing is reported changed none has, and when a change is
    reported one has, unless a lifetime was infinite before and after.
    Instants are within 2^62 nanoseconds, the entry started before now, and
    lifetimes are those 32 bits of seconds can say, or infinite. *)
Theorem refresh_two_hours now e pref valid : instant_wf (seStart e) -> instant_wf now -> seStart e <= now ->
  lifetime_wf (sePreferred e) -> lifetime_wf (seValid e) -> lifetime_wf pref -> lifetime_wf valid ->
  expired e now = false ->
  let '(e', changed) := refreshEntry now e pref valid in
  preferredEnd e' = expiry now pref /\
  validEnd e' = laterEnd (expiry now valid) (earlierEnd (validEnd e) (Some (now + TwoHours))) /\
  seAddr e' = seAddr e /\ sePrefix e' = sePrefix e /\ seTentative e' = seTentative e /\
  (sooner (validEnd e') (Some (now + TwoHours)) -> ~ sooner (validEnd e') (validEnd e)) /\
  (changed = false -> validEnd e' = validEnd e /\ preferredEnd e' = preferredEnd e) /\
  (changed = true -> validEnd e' <> validEnd e \/ preferredEnd e' <> preferredEnd e \/
     validEnd e = None /\ validEnd e' = None \/ preferredEnd e = None /\ preferredEnd e' = None).
Proof.
  intros Hs Hn Hle Hp Hv Hpref Hvalid He.
  pose proof (refresh_valid_end now e pref valid Hs Hn Hle Hv Hvalid He) as H2.
  pose proof (refresh_ends now e pref valid Hn) as [H1 _].
  pose proof (refreshEntry_shape now e pref valid) as (S1 & P1 & V1 & C1).
  pose proof (refreshEntry_key now e pref valid) as [K1 K2]. pose proof (refreshEntry_tentative now e pref valid) as K3.
  pose proof (refreshEntry_changed now e pref valid) as C2.
  destruct (refreshEntry now e pref valid) as [e' changed]. cbn [fst snd] in *.
  split; [done|]. split; [done|]. split; [done|]. split; [done|]. split; [done|]. split; [|split].
  - rewrite H2. unfold laterEnd, earlierEnd. destruct (expiry now valid), (validEnd e); cbn; lia.
  - intros ->. destruct (C1 eq_refl) as (A1 & A2 & I1 & I2). unfold validEnd, preferredEnd, expiry. rewrite S1, P1.
    rewrite <- I1, <- I2, A1, A2. done.
  - intros ->. specialize (C2 eq_refl). unfold validEnd, preferredEnd, expiry.
    destruct (IsInfinite (sePreferred e)), (IsInfinite (sePreferred e')), (IsInfinite (seValid e)), (IsInfinite (seValid e')); naive_solver.
Qed.

(** A forged advertisement of zero lifetimes against a day-long address: the
    address ends in two hours.  A genuine one of two days is adopted. *)
Lemma refresh_two_hours_witness :
  let e := mkSlaacEntry (PrefixOf (Addr6 0 []) 64) (Addr6 1 []) 0 (3600 * Second) (86400 * Second) false false in
  let e' := (refreshEntry (100 * Second) e 0 0).1 in
  validEnd e' = Some (7300 * Second) /\ preferredEnd e' = Some (100 * Second) /\
  validEnd (refreshEntry (100 * Second) e 0 (172800 * Second)).1 = Some (172900 * Second) /\
  (sooner (validEnd e') (Some (100 * Second + TwoHours)) -> ~ sooner (validEnd e') (validEnd e)).
Proof.
  intros e e'. split; [reflexivity|]. split; [reflexivity|]. split; [reflexivity|].
  assert (Hi : forall t, 0 <= t <= 86400 * Second -> instant_wf t)
    by (unfold instant_wf, Second; change (2 ^ 62) with 4611686018427387904; intros; lia).
  assert (Hl : forall d, 0 <= d <= 86400 * Second -> lifetime_wf d) by (unfold lifetime_wf, Second; intros; lia).
  pose proof (refresh_two_hours (100 * Second) e 0 0 (Hi (seStart e) ltac:(vm_compute; (split; discriminate) || discriminate))
    (Hi (100 * Second) ltac:(vm_compute; split; discriminate)) ltac:(vm_compute; (split; discriminate) || discriminate)
    (Hl (sePreferred e) ltac:(vm_compute; (split; discriminate) || discriminate)) (Hl (seValid e) ltac:(vm_compute; (split; discriminate) || discriminate))
    (Hl 0 ltac:(vm_compute; split; discriminate)) (Hl 0 ltac:(vm_compute; split; discriminate)) eq_refl) as H.
  exact (proj1 (proj2 (proj2 (proj2 (proj2 (proj2 H)))))).
Defined.

(** The converse of the last part does not hold: an entry whose lifetimes are
    both infinite is reported as changed by every repeat of the advertisement
    that made it, although nothing about it ends, before or after. *)
Lemma infinite_refresh_changed :
  let e := mkSlaacEntry (PrefixOf (Addr6 0 []) 64) (Addr6 1 []) 0 Infinite Infinite false false in
  let '(e', changed) := refreshEntry (100 * Second) e Infinite Infinite in
  changed = true /\ validEnd e = None /\ validEnd e' = None /\ preferredEnd e = None /\ preferredEnd e' = None.
Proof. vm_compute. auto 6. Qed.

(** ** The timer of the table *)

(** The instants at which an address of the table is deprecated or ends. *)
Definition phase_ends (l : list slaacEntry) (i : Instant) : Prop :=
  exists e, e ∈ l /\ (preferredEnd e = Some i \/ validEnd e = Some i).

Lemma consider_least now P best origin d : least P best ->
  least (fun i => P i \/ expiry origin d = Some i /\ now < i) (consider now best origin d).
Proof.
  unfold consider, expiry. intros Hb. destruct (IsInfinite d); [eapply least_ext; [|exact Hb]; naive_solver|].
  destruct (Z.leb_spec (Add origin d) now) as [Hle|Hlt].
  { eapply least_ext; [|exact Hb]. intros i. split; [by left|]. intros [?|[[= <-] ?]]; [done|lia]. }
  destruct best as [b|]; cbn in Hb |- *.
  - destruct Hb as [Pb Hb]. destruct (Z.ltb_spec (Add origin d) b); cbn; (split; [naive_solver|]);
      intros i [Hi|[[= <-] _]]; try specialize (Hb i Hi); lia.
  - split; [by right|]. intros i [Hi|[[= <-] _]]; [by destruct (Hb i)|lia].
Qed.

Lemma next_least t now : least (fun i => phase_ends (entries t) i /\ now < i) (next t now).
Proof.
  unfold next. assert (H : forall l P best, least P best ->
    least (fun i => P i \/ phase_ends l i /\ now < i)
      (foldl (fun best e => consider now (consider now best (seStart e) (sePreferred e)) (seStart e) (seValid e)) best l)).
  { induction l as [|e l IH]; intros P best Hb; cbn [foldl].
    - eapply least_ext; [|exact Hb]. intros i. split; [by left|]. intros [?|[(e & He%elem_of_nil & _) _]]; done.
    - eapply least_ext; [|apply IH, consider_least, consider_least, Hb]. intros i. unfold phase_ends.
      setoid_rewrite elem_of_cons. unfold preferredEnd, validEnd. cbn. naive_solver. }
  eapply least_ext; [|apply (H (entries t) (fun _ => False) None); intros i []]. cbn. naive_solver.
Qed.

Lemma expired_iff e now : expired e now = true <-> exists i, validEnd e = Some i /\ i <= now.
Proof.
  unfold expired, validEnd, expiry. destruct (IsInfinite (seValid e)); cbn; [naive_solver|].
  rewrite Z.leb_le. naive_solver.
Qed.

Lemma deprecated_iff e now : deprecated e now = true <-> exists i, preferredEnd e = Some i /\ i <= now.
Proof.
  unfold deprecated, preferredEnd, expiry. destruct (IsInfinite (sePreferred e)); cbn; [naive_solver|].
  rewrite Z.leb_le. naive_solver.
Qed.

(** The one timer of the table misses nothing and fires for something.
    After [expire], which removes exactly the addresses that have ended and
    reports them, nothing ends and nothing is deprecated before the instant
    [next] names; at that instant an address ends or is deprecated that was not
    before; and when [next] names none, nothing ever will be. *)
Theorem slaac_timer_exact t now :
  let '(t', gone) := expire t now in
  (forall e, e ∈ entries t' <-> e ∈ entries t /\ expired e now = false) /\
  (forall a, a ∈ gone <-> exists e, e ∈ entries t /\ expired e now = true /\ seAddr e = a) /\
  (forall later, now <= later -> match next t' now with Some i => later < i | None => True end ->
    forall e, e ∈ entries t' -> expired e later = false /\ deprecated e later = deprecated e now) /\
  (forall i, next t' now = Some i -> now < i /\
    exists e, e ∈ entries t' /\ (expired e i = true \/ deprecated e now = false /\ deprecated e i = true)).
Proof.
  unfold expire. destruct (expireLoop_spec (entries t) now (counts t)) as (c & -> & _).
  set (t' := t <| entries := _ |> <| counts := c |>).
  assert (Hk : forall e, e ∈ entries t' <-> e ∈ entries t /\ expired e now = false).
  { intros e. change (entries t') with (filter (fun e => expired e now = false) (entries t)).
    rewrite list_elem_of_filter. tauto. }
  pose proof (next_least t' now) as HL. split; [done|]. split; [|split].
  - intros a. change (map seAddr) with (fmap (M:=list) seAddr). rewrite list_elem_of_fmap.
    setoid_rewrite list_elem_of_filter. naive_solver.
  - intros later Hle Hlt e He. apply Hk in He as [Hin Hx]. split.
    + apply not_true_is_false. rewrite expired_iff. intros (i & Hi & Hil). rewrite <- not_true_iff_false, expired_iff in Hx.
      assert (Hni : now < i) by (apply Z.nle_gt; intros ?; apply Hx; eauto).
      assert (Hp : phase_ends (entries t') i) by (exists e; rewrite Hk, <- not_true_iff_false, expired_iff; eauto).
      destruct (next t' now) as [b|]; cbn in HL; [destruct HL as [_ HL]; specialize (HL i (conj Hp Hni)); lia|by apply (HL i)].
    + apply eq_true_iff_eq. rewrite !deprecated_iff. split; intros (i & Hi & Hil); exists i; (split; [done|]); [|lia].
      apply Z.nlt_ge. intros Hni. assert (Hp : phase_ends (entries t') i) by (exists e; rewrite Hk; eauto).
      destruct (next t' now) as [b|]; cbn in HL; [destruct HL as [_ HL]; specialize (HL i (conj Hp Hni)); lia|by apply (HL i)].
  - intros i Hi. rewrite Hi in HL. destruct HL as [[(e & He & Hend) Hni] _]. split; [done|]. exists e. split; [done|].
    destruct Hend as [Hp|Hv]; [right|left; apply expired_iff; exists i; split; [done|lia]].
    split; [apply not_true_is_false|]; rewrite deprecated_iff; [intros (j & Hj & Hjn); rewrite Hp in Hj; injection Hj as <-; lia|].
    exists i. split; [done|lia].
Qed.

(** ** The lease of the table *)

(** [phasesDiffer] decides whether two maps of phases differ. *)
Lemma phasesDiffer_spec a b : phasesDiffer a b = false <-> a = b.
Proof.
  unfold phasesDiffer. split.
  - destruct (Nat.eqb_spec (size a) (size b)) as [Hs|]; cbn [negb]; [|done]. intros He.
    assert (Hsub : a ⊆ b).
    { apply map_subseteq_spec. intros k v Hk. apply elem_of_map_to_list in Hk.
      rewrite <- not_true_iff_false, existsb_exists in He.
      destruct (b !! k) as [w|] eqn:Eb.
      - destruct (eqb v w) eqn:E; [apply eqb_prop in E; by subst|]. destruct He. exists (k, v).
        split; [by apply list_elem_of_In|]. cbn. by rewrite Eb, E.
      - destruct He. exists (k, v). split; [by apply list_elem_of_In|]. cbn. by rewrite Eb. }
    apply (map_subseteq_size_eq a b); [done|lia].
  - intros ->. rewrite Nat.eqb_refl. cbn [negb]. apply not_true_is_false. rewrite existsb_exists.
    intros ([k v] & Hin & H). apply list_elem_of_In, elem_of_map_to_list in Hin. cbn in H. rewrite Hin in H. by destruct v.
Qed.

(** A live address is reported with the end it has, whatever the instant of the
    report. *)
Lemma slaacLease_ends t now iaid a : Forall (fun e => instant_wf (seStart e) /\ seStart e <= now /\ lifetime_wf (seValid e)) (entries t) ->
  instant_wf now -> a ∈ l6Addrs (slaacLease t now iaid) ->
  exists e, e ∈ entries t /\ a6Addr a = seAddr e /\ a6PrefixLen a = pbits (sePrefix e) /\
    (expired e now = false -> expiry now (a6Valid a) = validEnd e).
Proof.
  intros Hw Hn Ha. unfold slaacLease in Ha. cbn [set_fld l6Addrs] in Ha.
  apply list_elem_of_In, in_map_iff in Ha as (e & <- & Hin%list_elem_of_In). exists e. split; [done|]. split; [done|].
  split; [done|]. intros He. cbn [a6Valid]. rewrite Forall_forall in Hw. destruct (Hw e Hin) as (? & ? & ?).
  by apply remaining_end.
Qed.
