(* ===== verification/Params6.v ===== *)
(** * The DHCPv6 configuration: proto/params6.go and the fields of proto/backoff6.go

    [Params6], its defaults, what [New6] refuses ([validate]), the values it
    derives, the two retransmission maxima a server may rewrite (RFC 9915
    sections 21.24, 21.25) and the option codes a message requests. *)

From S2P Require Import Prelude NetAddr Options Codec Values Backoff Params Dhcp6 Backoff6 Icmpv6 Lease6 Slaac.

(** ** The remembered binding *)

Record Resume6 := mkResume6 {
  r6Addrs : list Addr6T;
  r6ServerDUID : bytes;
  r6PrefixServerDUID : bytes;
  r6T1 : Duration;
  r6T2 : Duration;
  r6DNS : list Addr;
  r6Search : list gostring;
  r6Prefixes : list Prefix6;
  r6ReconfigureKey : bytes;
  r6ReconfigureReplay : Z;
  r6ReconfigureReplaySeen : bool }.

(** [Resume6.live]; the nil pointer is [None]. *)
Definition live6 (r : option Resume6) : bool :=
  match r with
  | None => false
  | Some r => existsb (fun a => Is6 (a6Addr a) && negb (Is4In6 (a6Addr a)) && negb (IsUnspecified (a6Addr a))) (r6Addrs r)
  end.

(** ** The configuration *)

Record Params6 := mkParams6 {
  SolMaxDelay : Duration; SolTimeout : Duration; SolMaxRT : Duration;
  ReqTimeout : Duration; ReqMaxRT : Duration; ReqMaxRC : Z;
  CnfMaxDelay : Duration; CnfTimeout : Duration; CnfMaxRT : Duration; CnfMaxRD : Duration;
  RenTimeout : Duration; RenMaxRT : Duration; RebTimeout : Duration; RebMaxRT : Duration;
  InfMaxDelay : Duration; InfTimeout : Duration; InfMaxRT : Duration;
  RelTimeout : Duration; RelMaxRC : Z; DecTimeout : Duration; DecMaxRC : Z;
  IRTDefault : Duration; IRTMinimum : Duration;
  MaxWaitTime : Duration;
  P6DUID : bytes;
  P6IAID : Z;
  P6Hint : Addr;
  P6Declined : list Addr;
  P6ORO : list OptionCodeV6;
  P6Hostname : gostring;
  P6Resume : option Resume6;
  P6DADTimeout : Duration;
  P6RouterSolicitations : Z;
  P6RouterSolicitInterval : Duration;
  P6AcceptReconfigure : bool;
  P6RapidCommit : bool;
  P6Temporary : bool;
  P6PrefixHint : Z;
  P6MaxSendFailures : Z;
  P6Mode : Mode6;
  P6LinkAddr : bytes;
  P6IID : IIDMode;
  P6IIDSecret : bytes;
  P6IIDNetIface : bytes;
  P6IIDNetworkID : bytes;
  P6AutoFallback : Duration }.

#[global] Instance eta_Params6 : Settable Params6 := fun p =>
  mkParams6 (SolMaxDelay p) (SolTimeout p) (SolMaxRT p) (ReqTimeout p) (ReqMaxRT p) (ReqMaxRC p)
    (CnfMaxDelay p) (CnfTimeout p) (CnfMaxRT p) (CnfMaxRD p) (RenTimeout p) (RenMaxRT p) (RebTimeout p) (RebMaxRT p)
    (InfMaxDelay p) (InfTimeout p) (InfMaxRT p) (RelTimeout p) (RelMaxRC p) (DecTimeout p) (DecMaxRC p)
    (IRTDefault p) (IRTMinimum p) (MaxWaitTime p) (P6DUID p) (P6IAID p) (P6Hint p) (P6Declined p) (P6ORO p)
    (P6Hostname p) (P6Resume p) (P6DADTimeout p) (P6RouterSolicitations p) (P6RouterSolicitInterval p)
    (P6AcceptReconfigure p) (P6RapidCommit p) (P6Temporary p) (P6PrefixHint p) (P6MaxSendFailures p) (P6Mode p)
    (P6LinkAddr p) (P6IID p) (P6IIDSecret p) (P6IIDNetIface p) (P6IIDNetworkID p) (P6AutoFallback p).

(** ** Constants of RFC 4861 and RFC 4862 *)

Definition RtrSolicitationInterval : Duration := 4 * Second.
Definition MaxRtrSolicitations : Z := 3.
Definition MaxRtrSolicitationDelay : Duration := 1 * Second.
Definition MaxMulticastSolicit : Z := 3.
Definition RetransTimer : Duration := 1000 * Millisecond.
Definition DupAddrDetectTransmits : Z := 1.
Definition DefaultDADTimeout : Duration := (DupAddrDetectTransmits + MaxMulticastSolicit) * RetransTimer.
Definition DefaultAutoFallback : Duration := Z.quot (MaxRtrSolicitations * RtrSolicitationInterval) 2.
Definition DefaultMaxSendFailures6 : Z := 5.

Definition DefaultParams6 : Params6 := {|
  SolMaxDelay := 1 * Second; SolTimeout := 1 * Second; SolMaxRT := 3600 * Second;
  ReqTimeout := 1 * Second; ReqMaxRT := 30 * Second; ReqMaxRC := 10;
  CnfMaxDelay := 1 * Second; CnfTimeout := 1 * Second; CnfMaxRT := 4 * Second; CnfMaxRD := 10 * Second;
  RenTimeout := 10 * Second; RenMaxRT := 600 * Second; RebTimeout := 10 * Second; RebMaxRT := 600 * Second;
  InfMaxDelay := 1 * Second; InfTimeout := 1 * Second; InfMaxRT := 3600 * Second;
  RelTimeout := 1 * Second; RelMaxRC := 4; DecTimeout := 1 * Second; DecMaxRC := 4;
  IRTDefault := 86400 * Second; IRTMinimum := 600 * Second;
  MaxWaitTime := 60 * Second;
  P6DUID := []; P6IAID := 0; P6Hint := AddrZero; P6Declined := []; P6ORO := []; P6Hostname := []; P6Resume := None;
  P6DADTimeout := DefaultDADTimeout;
  P6RouterSolicitations := MaxRtrSolicitations;
  P6RouterSolicitInterval := RtrSolicitationInterval;
  P6AcceptReconfigure := true; P6RapidCommit := false; P6Temporary := false; P6PrefixHint := 0;
  P6MaxSendFailures := DefaultMaxSendFailures6;
  P6Mode := Mode6DHCP; P6LinkAddr := []; P6IID := IIDModeEUI64; P6IIDSecret := []; P6IIDNetIface := [];
  P6IIDNetworkID := []; P6AutoFallback := 0 |}.

(** ** What is refused *)

Inductive Param6Err :=
| ErrMode6Off | ErrBadMode6 | ErrBadIID | ErrShortIIDSecret | ErrNoIIDNetIface | ErrNoLinkAddr | ErrNoDUID
| ErrBadHostname6 | ErrBadHint | ErrBadResume6 | ErrBadPrefixHint | ErrBadDADTimeout | ErrBadRetransmit6.

Definition ValidateHostname6 (name : gostring) : option Param6Err :=
  if bytes_eqb name [] then None else
  if negb (ValidateHostname name) then Some ErrBadHostname6 else
  if negb (is_ok (EncodeClientFQDN ClientFQDNFlagS name)) then Some ErrBadHostname6 else None.

(** The durations of the loop of [validate], in its order. *)
Definition positiveDurations (p : Params6) : list Duration :=
  [SolTimeout p; SolMaxRT p; ReqTimeout p; ReqMaxRT p; CnfTimeout p; CnfMaxRT p; RenTimeout p; RenMaxRT p;
   RebTimeout p; RebMaxRT p; InfTimeout p; InfMaxRT p; RelTimeout p; DecTimeout p].

(** [Params6.validate]: [None] is Go's nil error. *)
Definition params6_validate (p : Params6) : option Param6Err :=
  if P6Mode p =? Mode6Off then Some ErrMode6Off else
  if negb ((P6Mode p =? Mode6DHCP) || (P6Mode p =? Mode6SLAAC) || (P6Mode p =? Mode6Auto)) then Some ErrBadMode6 else
  if negb (P6IID p =? IIDModeEUI64) && negb (P6IID p =? IIDModeStablePrivacy) then Some ErrBadIID else
  match
    if negb (formsAddresses (P6Mode p)) then None else
    if P6IID p =? IIDModeStablePrivacy then
      if (length (P6IIDSecret p) <? MinIIDSecretLen)%nat then Some ErrShortIIDSecret else
      if (length (P6IIDNetIface p) =? 0)%nat then Some ErrNoIIDNetIface else None
    else if negb (is_ok (ModifiedEUI64 (P6LinkAddr p))) then Some ErrNoLinkAddr else None
  with
  | Some e => Some e
  | None =>
    if (length (P6DUID p) =? 0)%nat then Some ErrNoDUID else
    match ValidateHostname6 (P6Hostname p) with
    | Some e => Some e
    | None =>
      if IsValid (P6Hint p) && (negb (Is6 (P6Hint p)) || Is4In6 (P6Hint p)) then Some ErrBadHint else
      if match P6Resume p with Some _ => negb (live6 (P6Resume p)) | None => false end then Some ErrBadResume6 else
      if (P6PrefixHint p <? 0) || (128 <? P6PrefixHint p) then Some ErrBadPrefixHint else
      if P6DADTimeout p <? 0 then Some ErrBadDADTimeout else
      if existsb (fun d => d <=? 0) (positiveDurations p) then Some ErrBadRetransmit6 else None
    end
  end.

(** ** Derived values *)

Definition dadTimeout (p : Params6) : Duration :=
  if P6DADTimeout p <=? 0 then DefaultDADTimeout else P6DADTimeout p.

Definition routerSolicitations (p : Params6) : Z :=
  if P6RouterSolicitations p =? 0 then MaxRtrSolicitations else
  if P6RouterSolicitations p <? 0 then 0 else P6RouterSolicitations p.

Definition routerSolicitInterval (p : Params6) : Duration :=
  if P6RouterSolicitInterval p <=? 0 then RtrSolicitationInterval else P6RouterSolicitInterval p.

(** [None] is a client that never falls back. *)
Definition autoFallback (p : Params6) : option Duration :=
  if P6AutoFallback p <? 0 then None else
  if P6AutoFallback p =? 0 then
    let w := Z.quot (i64 (routerSolicitations p * routerSolicitInterval p)) 2 in
    if 0 <? w then Some w else Some DefaultAutoFallback
  else Some (P6AutoFallback p).

Definition maxSendFailures6 (p : Params6) : Z :=
  if P6MaxSendFailures p <=? 0 then DefaultMaxSendFailures6 else P6MaxSendFailures p.

Definition hintAddr (p : Params6) : Addr :=
  if Is6 (P6Hint p) && negb (Is4In6 (P6Hint p)) && negb (IsUnspecified (P6Hint p)) then P6Hint p else AddrZero.

Definition iidSourceOf (p : Params6) : iidSource :=
  mkIidSource (P6IID p) (P6LinkAddr p) (P6IIDNetIface p) (P6IIDNetworkID p) (P6IIDSecret p).

(** ** The option codes requested *)

Fixpoint containsCode (hay : list OptionCodeV6) (c : OptionCodeV6) : bool :=
  match hay with [] => false | h :: hay => if h =? c then true else containsCode hay c end.

(** The codes RFC 9915 makes mandatory on a message. *)
Definition oroBase (t : MessageTypeV6) : list OptionCodeV6 :=
  if t =? MsgSolicit then [OptV6SolMaxRTCode] else
  if t =? MsgInformationRequest then [OptV6InfMaxRTCode; OptV6InfoRefresh] else
  if (t =? MsgRenew) || (t =? MsgRebind) then [OptV6SolMaxRTCode] else [].

Definition oro (p : Params6) (t : MessageTypeV6) : list OptionCodeV6 :=
  foldl (fun out c => if negb (containsCode out c) then out ++ [c] else out) (oroBase t) (P6ORO p).

Definition DefaultORO : list OptionCodeV6 :=
  [OptV6DNSServers; OptV6DomainList; OptV6VendorOpts; OptV6PosixTimezone; OptV6TZDatabase; OptV6NTPServer].

(** ** The schedules of RFC 9915 section 7.6, and the two a server rewrites *)

Definition SolicitRT (p : Params6) : Retransmit := mkRetransmit (SolTimeout p) (SolMaxRT p) 0 0.
Definition RequestRT (p : Params6) : Retransmit := mkRetransmit (ReqTimeout p) (ReqMaxRT p) (ReqMaxRC p) 0.
Definition ConfirmRT (p : Params6) : Retransmit := mkRetransmit (CnfTimeout p) (CnfMaxRT p) 0 (CnfMaxRD p).
Definition RenewRT (p : Params6) : Retransmit := mkRetransmit (RenTimeout p) (RenMaxRT p) 0 0.
Definition RebindRT (p : Params6) : Retransmit := mkRetransmit (RebTimeout p) (RebMaxRT p) 0 0.
Definition InfoRequestRT (p : Params6) : Retransmit := mkRetransmit (InfTimeout p) (InfMaxRT p) 0 0.
Definition ReleaseRT (p : Params6) : Retransmit := mkRetransmit (RelTimeout p) 0 (RelMaxRC p) 0.
Definition DeclineRT (p : Params6) : Retransmit := mkRetransmit (DecTimeout p) 0 (DecMaxRC p) 0.

Definition ApplySolMaxRT (p : Params6) (secs : Z) : Params6 * bool :=
  if negb (maxRTInRange secs) then (p, false) else (p <| SolMaxRT := i64 (secs * Second) |>, true).

Definition ApplyInfMaxRT (p : Params6) (secs : Z) : Params6 * bool :=
  if negb (maxRTInRange secs) then (p, false) else (p <| InfMaxRT := i64 (secs * Second) |>, true).

(** The loop of [ApplyOptions]: the parameters, the codes applied and ignored,
    and the error that ended it. *)
Fixpoint applyLoop (cs : list OptionCodeV6) (o : OptionsV6) (p : Params6) (applied ignored : list OptionCodeV6)
    : Params6 * list OptionCodeV6 * list OptionCodeV6 * wire unit :=
  match cs with
  | [] => (p, applied, ignored, Ok tt)
  | c :: cs =>
    match Uint32V6 o c with
    | None => applyLoop cs o p applied ignored
    | Some (Ok v) =>
      let '(p, took) := if c =? OptV6SolMaxRTCode then ApplySolMaxRT p v else ApplyInfMaxRT p v in
      if took then applyLoop cs o p (applied ++ [c]) ignored else applyLoop cs o p applied (ignored ++ [c])
    | Some (Err e) => (p, applied, ignored, Err e)
    | Some Panic => (p, applied, ignored, Panic)
    | Some Hang => (p, applied, ignored, Hang)
    end
  end.

Definition ApplyOptions (p : Params6) (o : OptionsV6)
    : Params6 * list OptionCodeV6 * list OptionCodeV6 * wire unit :=
  applyLoop [OptV6SolMaxRTCode; OptV6InfMaxRTCode] o p [] [].

(** ** What acceptance gives *)

Lemma validate6_spec p : params6_validate p = None ->
  (formsAddresses (P6Mode p) = true ->
     P6IID p = IIDModeStablePrivacy \/ P6IID p = IIDModeEUI64 /\ is_ok (ModifiedEUI64 (P6LinkAddr p)) = true) /\
  Forall (fun d => 0 < d) (positiveDurations p).
Proof.
  unfold params6_validate. destruct (P6Mode p =? Mode6Off); [done|].
  destruct (negb (_ || _)); [done|].
  destruct (Z.eqb_spec (P6IID p) IIDModeStablePrivacy) as [Hs|Hs], (Z.eqb_spec (P6IID p) IIDModeEUI64) as [He|He]; cbn [negb andb];
    try done; destruct (formsAddresses (P6Mode p)); cbn [negb]; intros H.
  all: (split; [intros Hf; try done; auto|]).
  all: repeat match type of H with
       | context [if ?b then _ else _] => destruct b eqn:?; try discriminate H
       | context [match ?b with Some _ => _ | None => _ end] => destruct b eqn:?; try discriminate H
       end.
  all: try (right; split; [done|]; by apply negb_false_iff).
  all: apply Forall_forall; intros d Hd; apply Z.lt_nge; intros Hle.
  all: match goal with E : existsb _ _ = false |- _ => apply not_true_iff_false in E; apply E end.
  all: apply existsb_exists; exists d; split; [by apply list_elem_of_In|by apply Z.leb_le].
Qed.

Lemma accepted_iid p q c : params6_validate p = None -> formsAddresses (P6Mode p) = true ->
  exists id, iid (iidSourceOf p) q c = Ok id.
Proof.
  intros Hv Hf. destruct (validate6_spec p Hv) as [[Hs|[He Hok]] _]; [exact Hf|by apply iid_stable|].
  unfold iid, iidSourceOf. cbn [iidMode iidHW]. rewrite He. cbn [IIDModeEUI64 Z.eqb].
  destruct (ModifiedEUI64 (P6LinkAddr p)) as [id|e| |]; [by exists id|done..].
Qed.

Lemma accepted_form_rules p pi q c : params6_validate p = None -> formsAddresses (P6Mode p) = true -> pio_wf pi ->
  slaacOptionRules pi = (q, SLAACIgnoreNone) ->
  exists a why, slaacFormRules pi (iidSourceOf p) c = Some (a, why) /\ why <> SLAACIgnoreLinkAddr /\
    (PrefixLen pi = 64 -> 0 < PiValid pi < 2 ^ 32 -> why = SLAACIgnoreNone).
Proof.
  intros Hv Hf Hpi Hr. destruct (slaacOptionRules_spec pi q Hpi Hr) as (v & Ev & _ & _ & H4 & _).
  unfold slaacFormRules. destruct (Z.eq_dec (PrefixLen pi) 64) as [E|E].
  - rewrite E, Ev. change (lengthsSumTo128 64 IIDBits) with true. cbn [negb].
    destruct (Z.eqb_spec (SecondsToDuration (PiValid pi)) 0) as [Ez|_].
    + do 2 eexists. split; [reflexivity|]. split; [done|]. intros _ Hval. exfalso. revert Ez. unfold SecondsToDuration.
      destruct (_ =? _); [done|]. unfold Second. rewrite i64_id by lia. lia.
    + unfold formSLAAC. cbn [Is6 negb orb]. rewrite H4. change (lengthsSumTo128 64 IIDBits) with true. cbn [negb].
      destruct (accepted_iid p (PrefixFrom (Addr6 v []) 64) c Hv Hf) as [id ->]. cbn [mbind outcome_bind]. eauto.
  - unfold lengthsSumTo128, IIDBits. rewrite (proj2 (Z.eqb_neq _ _)) by lia. cbn [negb].
    do 2 eexists. split; [reflexivity|]. by split; [|intros E'].
Qed.

(** An accepted configuration can form addresses.  In a mode that forms
    addresses [validate] lets no configuration pass whose interface identifier
    could fail: on any table and for any advertised prefix, [applyPIO] answers,
    never refuses for the link address, and keeps the table well formed; and on
    an empty table every usable autonomous /64 with a lifetime left becomes an
    address. *)
Theorem accepted_config_forms p t now pi : params6_validate p = None -> formsAddresses (P6Mode p) = true ->
  are_bytes (P6LinkAddr p) -> table_ok t -> pio_wf pi ->
  exists t' formed changed why, applyPIO t now pi (iidSourceOf p) = Some (t', formed, changed, why) /\
    table_ok t' /\ why <> SLAACIgnoreLinkAddr /\
    ((slaacOptionRules pi).2 = SLAACIgnoreNone -> PrefixLen pi = 64 -> 0 < PiValid pi < 2 ^ 32 ->
     entries t = [] -> refused t = ∅ -> formed = true /\ length (entries t') = 1%nat).
Proof.
  intros Hv Hf Hb Ht Hpi. destruct (applyPIO_ok t now pi (iidSourceOf p) Ht Hpi Hb) as (t' & f & ch & why & E & Ht').
  exists t', f, ch, why. split; [done|]. split; [done|]. revert E. unfold applyPIO.
  destruct (slaacOptionRules pi) as [q w] eqn:Er. cbn [snd].
  destruct (Nat.eqb_spec w SLAACIgnoreNone) as [->|Hw]; cbn [negb].
  2: { intros [= <- <- <- <-]. split; [|by intros ->]. intros ->. revert Er. unfold slaacOptionRules.
       repeat (destruct (negb _ || _) || destruct (negb _) || destruct (Contains _ _) || destruct (durGreater _ _)); intros [= _ E]; discriminate E. }
  unfold find. destruct (slaacOptionRules_spec pi q Hpi Er) as (v & _ & _ & _ & _ & _ & _ & _ & ->).
  destruct (findLoop (entries t) q 0) as [i|] eqn:Ei.
  - destruct (refresh _ _ _ _ _) as [[t1 c1]|]; cbn [mbind option_bind]; [|done]. intros [= <- <- <- <-].
    split; [done|]. intros _ _ _ En. by rewrite En in Ei.
  - destruct (accepted_form_rules p pi q (dadOf t q) Hv Hf Hpi Er) as (a & w & -> & Hw & Hnone). cbn [mbind option_bind].
    destruct (Nat.eqb_spec w SLAACIgnoreNone) as [->|Hw']; cbn [negb].
    2: { intros [= <- <- <- <-]. split; [done|]. intros _ H64 Hval. by destruct Hw'; apply Hnone. }
    destruct (Nat.leb_spec MaxSLAACAddresses (length (entries t))) as [Hl|Hl].
    { intros [= <- <- <- <-]. split; [done|]. intros _ _ _ En. rewrite En in Hl. cbn in Hl. unfold MaxSLAACAddresses in Hl. lia. }
    case_bool_decide as Href; intros [= <- <- <- <-]; (split; [done|]); intros _ _ _ En Er0.
    + rewrite Er0 in Href. by apply not_elem_of_empty in Href.
    + split; [done|]. cbn [entries]. by rewrite En.
Qed.

Definition sample_params6 : Params6 :=
  DefaultParams6 <| P6DUID := [0; 3; 0; 1; 2; 0; 0; 0; 0; 1] |> <| P6Mode := Mode6SLAAC |> <| P6LinkAddr := [2; 0; 0; 0; 0; 1] |>.

Lemma accepted_config_forms_witness : params6_validate sample_params6 = None /\
  exists t' c, applyPIO table_zero 0 sample_pio (iidSourceOf sample_params6) = Some (t', true, c, SLAACIgnoreNone).
Proof.
  assert (Hv : params6_validate sample_params6 = None) by (vm_compute; reflexivity). split; [exact Hv|].
  destruct (accepted_config_forms sample_params6 table_zero 0 sample_pio Hv) as (t' & f & c & why & E & _).
  - reflexivity.
  - apply (bool_decide_unpack _). vm_compute. exact I.
  - exact table_zero_ok.
  - exists (Z.shiftl 0x20010db8 96). split; [reflexivity|]. split; [vm_compute; discriminate|vm_compute; reflexivity].
  - exists t', c. rewrite E. assert (Hf : (f, why) = (true, SLAACIgnoreNone)); [|by injection Hf as -> ->].
    revert E. vm_compute. congruence.
Defined.

(** ** The option codes requested *)

Lemma containsCode_spec l c : containsCode l c = true <-> c ∈ l.
Proof.
  induction l as [|h l IH]; cbn [containsCode]; [split; [done|by intros ?%elem_of_nil]|].
  rewrite elem_of_cons. destruct (Z.eqb_spec h c) as [->|Hn]; [by split; [left|]|].
  rewrite IH. split; [by right|]. by intros [->|].
Qed.

Lemma oro_loop l : forall out, NoDup out ->
  let r := foldl (fun out c => if negb (containsCode out c) then out ++ [c] else out) out l in
  NoDup r /\ out `prefix_of` r /\ forall c, c ∈ r <-> c ∈ out \/ c ∈ l.
Proof.
  induction l as [|d l IH]; intros out Hn; cbn [foldl].
  { split; [done|]. split; [done|]. intros c. split; [by left|]. by intros [?|?%elem_of_nil]. }
  destruct (containsCode out d) eqn:Hd; cbn [negb].
  - apply containsCode_spec in Hd. destruct (IH out Hn) as (H1 & H2 & H3). split; [done|]. split; [done|].
    intros c. rewrite H3, elem_of_cons. split; [tauto|]. intros [?|[->|?]]; auto.
  - assert (Hnot : d ∉ out) by (intros Hin; apply containsCode_spec in Hin; congruence).
    destruct (IH (out ++ [d])) as (H1 & H2 & H3).
    { apply NoDup_app. split; [done|]. split; [|apply NoDup_singleton]. by intros x Hx ->%list_elem_of_singleton. }
    split; [done|]. split; [etrans; [|exact H2]; by apply prefix_app_r|].
    intros c. rewrite H3, elem_of_app, list_elem_of_singleton, elem_of_cons. tauto.
Qed.

(** What a message requests.  The list never names a code twice, starts with
    the codes RFC 9915 makes mandatory on that message (sections 21.23 to 21.25),
    and names exactly those and the caller's. *)
Theorem oro_spec p t : NoDup (oro p t) /\ oroBase t `prefix_of` oro p t /\
  forall c, c ∈ oro p t <-> c ∈ oroBase t \/ c ∈ P6ORO p.
Proof.
  apply oro_loop. unfold oroBase. repeat case_match; apply (bool_decide_unpack _); vm_compute; exact I.
Qed.

(** ** The maxima a server may rewrite *)

Definition rewritten (old new : Duration) : Prop := new = old \/ 60 * Second <= new <= 86400 * Second.

Lemma maxRT_applied secs : maxRTInRange secs = true -> 60 * Second <= i64 (secs * Second) <= 86400 * Second.
Proof.
  unfold maxRTInRange, MaxRTOptionMinSeconds, MaxRTOptionMaxSeconds, Second. rewrite andb_true_iff, !Z.leb_le. intros H.
  rewrite i64_id by lia. lia.
Qed.

(** The parameters with the two maxima rewritten or not. *)
Definition only_maxima (p p' : Params6) : Prop := exists s i,
  p' = p <| SolMaxRT := s |> <| InfMaxRT := i |> /\ rewritten (SolMaxRT p) s /\ rewritten (InfMaxRT p) i.

Lemma only_maxima_refl p : only_maxima p p.
Proof. exists (SolMaxRT p), (InfMaxRT p). split; [by destruct p|]. by split; left. Qed.

Lemma only_maxima_trans p q r : only_maxima p q -> only_maxima q r -> only_maxima p r.
Proof.
  intros (s & i & -> & Hs & Hi) (s' & i' & -> & Hs' & Hi'). exists s', i'. split; [by destruct p|].
  change (rewritten s s') in Hs'. change (rewritten i i') in Hi'. unfold rewritten in *.
  split; [destruct Hs' as [->|]|destruct Hi' as [->|]]; auto.
Qed.

Lemma Apply_only_maxima p v (b : bool) : only_maxima p (if b then ApplySolMaxRT p v else ApplyInfMaxRT p v).1.
Proof.
  unfold ApplySolMaxRT, ApplyInfMaxRT. destruct (maxRTInRange v) eqn:Hr; cbn [negb]; [|destruct b; apply only_maxima_refl].
  destruct b; cbn [fst].
  - exists (i64 (v * Second)), (InfMaxRT p). split; [by destruct p|]. split; [right; by apply maxRT_applied|by left].
  - exists (SolMaxRT p), (i64 (v * Second)). split; [by destruct p|]. split; [by left|right; by apply maxRT_applied].
Qed.

Lemma Uint32V6_returns o c u : Uint32V6 o c = Some u -> returns u.
Proof.
  unfold Uint32V6. destruct (First o c) as [v|]; [|done]. intros [= <-].
  destruct (Nat.eqb_spec (length v) 4) as [Hl|]; cbn [negb]; [|done]. by do 5 (destruct v as [|? v]; try done).
Qed.

Lemma applyLoop_spec cs o : forall p ap ig, let '(p', _, _, r) := applyLoop cs o p ap ig in only_maxima p p' /\ returns r.
Proof.
  induction cs as [|c cs IH]; intros p ap ig; cbn [applyLoop]; [by split; [apply only_maxima_refl|]|].
  destruct (Uint32V6 o c) as [u|] eqn:Eu; [|apply IH]. apply Uint32V6_returns in Eu.
  destruct u as [v|e| |]; [|by split; [apply only_maxima_refl|]|by destruct Eu|by destruct Eu].
  pose proof (Apply_only_maxima p v (c =? OptV6SolMaxRTCode)) as H1. destruct (if _ =? _ then _ else _) as [p1 took].
  destruct took; [specialize (IH p1 (ap ++ [c]) ig)|specialize (IH p1 ap (ig ++ [c]))];
    (destruct (applyLoop _ _ _ _ _) as [[[p' ap'] ig'] r]; destruct IH as [IH Hr]; split; [by eapply only_maxima_trans|done]).
Qed.

(** A server's SOL_MAX_RT and INF_MAX_RT.  Whatever options a message
    carries, [ApplyOptions] returns, changes nothing but the two maxima, sets
    them only to values of sixty seconds to a day (RFC 9915 sections 21.24 and
    21.25), and leaves an accepted configuration one [validate] accepts. *)
Theorem ApplyOptions_safe p o : let '(p', _, _, r) := ApplyOptions p o in
  only_maxima p p' /\ returns r /\ (params6_validate p = None -> params6_validate p' = None).
Proof.
  unfold ApplyOptions. pose proof (applyLoop_spec [OptV6SolMaxRTCode; OptV6InfMaxRTCode] o p [] []) as H.
  destruct (applyLoop _ _ _ _ _) as [[[p' ap'] ig'] r]. destruct H as [H Hr]. split; [done|]. split; [done|].
  intros Hv. destruct (validate6_spec p Hv) as [_ Hpos]. destruct H as (s & i & -> & Hs & Hi).
  set (p' := p <| SolMaxRT := s |> <| InfMaxRT := i |>).
  assert (Hp' : existsb (fun d => d <=? 0) (positiveDurations p') = false).
  { apply not_true_iff_false. rewrite existsb_exists. intros (d & Hd & Hle). apply Z.leb_le in Hle.
    assert (Hall : Forall (fun d => 0 < d) (positiveDurations p')); [|rewrite Forall_forall in Hall; by apply list_elem_of_In, Hall in Hd; lia].
    unfold rewritten, Second in Hs, Hi. unfold positiveDurations in *. rewrite !Forall_cons in *. unfold p'. destruct p. cbn in *. tauto || intuition lia. }
  revert Hv. unfold params6_validate. rewrite Hp'. clear Hp' Hpos Hs Hi. unfold p', live6. destruct p.
  cbn [set_fld SolMaxRT InfMaxRT P6Mode P6IID P6IIDSecret P6IIDNetIface P6LinkAddr P6DUID P6Hostname P6Hint P6Resume P6PrefixHint P6DADTimeout].
  generalize (existsb (fun d => d <=? 0)). clear. intros ex.
  repeat match goal with
  | |- (if ?b then _ else _) = _ -> _ => destruct b; try done
  | |- match ?b with Some _ => _ | None => _ end = _ -> _ => destruct b; try done
  end.
Qed.

(** ** The schedules of an accepted configuration *)

Definition schedules (p : Params6) : list Retransmit :=
  [SolicitRT p; RequestRT p; ConfirmRT p; RenewRT p; RebindRT p; InfoRequestRT p].

(** No schedule of an accepted configuration sends in a tight loop.  For
    every exchange with a maximum time, whatever the random words and however
    many retransmissions, the next time is positive and lies between nine tenths
    of the smaller and eleven tenths of the larger of its two parameters, which
    may be anything positive up to seventy-three years. *)
Theorem accepted_schedules p r r0 rnds : params6_validate p = None ->
  Forall (fun d => d <= 2 ^ 61) (positiveDurations p) -> r ∈ schedules p ->
  0 < rt_after r r0 rnds /\
  9 * Z.min (IRT r) (MRT r) <= 10 * rt_after r r0 rnds <= 11 * Z.max (IRT r) (MRT r).
Proof.
  intros Hv Hmax Hr. destruct (validate6_spec p Hv) as [_ Hpos].
  assert (Hs : sane (IRT r) /\ sane (MRT r)).
  { unfold positiveDurations, sane in *. rewrite !Forall_cons in *. unfold schedules in Hr. set_unfold in Hr.
    destruct_or! Hr; subst r; cbn [IRT MRT SolicitRT RequestRT ConfirmRT RenewRT RebindRT InfoRequestRT]; tauto. }
  destruct Hs as [Hi Hm]. destruct (schedule_settles r r0 rnds Hi Hm) as [H _]. split; [|done]. unfold sane in *. lia.
Qed.

Lemma accepted_schedules_witness : 900 * Millisecond <= rt_after (SolicitRT sample_params6) 7 [1; 2; 3] <= 3960 * Second.
Proof.
  destruct (accepted_schedules sample_params6 (SolicitRT sample_params6) 7 [1; 2; 3]) as [_ H].
  - vm_compute. reflexivity.
  - apply (bool_decide_unpack _). vm_compute. exact I.
  - apply list_elem_of_here.
  - change (IRT (SolicitRT sample_params6)) with 1000000000 in H. change (MRT (SolicitRT sample_params6)) with 3600000000000 in H.
    change (900 * Millisecond) with 900000000. change (3960 * Second) with 3960000000000. lia.
Defined.

Lemma ApplyOptions_safe_witness :
  params6_validate (ApplyOptions sample_params6 [mkOptionV6 OptV6SolMaxRTCode (be32 120)]).1.1.1 = None /\
  SolMaxRT (ApplyOptions sample_params6 [mkOptionV6 OptV6SolMaxRTCode (be32 120)]).1.1.1 = 120 * Second.
Proof.
  split; [|vm_compute; reflexivity].
  pose proof (ApplyOptions_safe sample_params6 [mkOptionV6 OptV6SolMaxRTCode (be32 120)]) as H.
  destruct (ApplyOptions _ _) as [[[p' ap] ig] r]. apply H. vm_compute. reflexivity.
Defined.
