(* ===== verification/Router6.v ===== *)
(** * The router table: proto/router6.go

    What the routers of a link have said and until when: default routers,
    resolvers, search domains, routes, NAT64 prefixes, the MTU.  Every list is
    bounded, every entry has its own deadline, and an advertisement changes only
    what it names. *)

From S2P Require Import Prelude NetAddr Options Values Backoff Dhcp6 Icmpv6 Lease6 Slaac.

Definition maxRouters : nat := 8.
Definition maxRouterDNS : nat := 8.
Definition maxRouterSearch : nat := 8.
Definition maxRouterRoutes : nat := 16.
Definition minRoutersFloor : nat := 2.
Definition minDNSFloor : nat := 3.
Definition minSearchFloor : nat := 3.
Definition maxRouterPref64 : nat := 4.
Definition minLinkMTU : Z := 1280.
Definition maxReportableMTU : Z := 2 ^ 31 - 1.

(** ** Deadlines *)

Record timedEntry := mkTimed { until : Instant; forever : bool }.

Definition entryUntil (now : Instant) (secs : Z) : timedEntry :=
  if IsInfinite (SecondsToDuration secs) then mkTimed 0 true else mkTimed (Add now (i64 (secs * Second))) false.

Definition routerLifetimeUntil (now : Instant) (secs : Z) : timedEntry := mkTimed (Add now (i64 (secs * Second))) false.

Definition expiresBefore (a b : timedEntry) : bool :=
  if forever a then false else if forever b then true else until a <? until b.

Definition live (e : timedEntry) (now : Instant) : bool := forever e || Before now (until e).

(** ** Entries *)

Record routerEntry := mkRouterEntry {
  reAddr : Addr; reDeflt : timedEntry; reIsDeflt : bool; rePref : RoutePreference; reSeq : Z }.

(** The structs [dnsEntry], [searchEntry] and [pref64Entry] have the same three
    fields: a key, its deadline, its place of arrival. *)
Record listEntry (K : Type) := mkEntry { ekey : K; elife : timedEntry; eseq : Z }.
Arguments mkEntry {K} ekey elife eseq.
Arguments ekey {K} l.
Arguments elife {K} l.
Arguments eseq {K} l.
Definition dnsEntry : Type := listEntry Addr.
Definition searchEntry : Type := listEntry gostring.
Definition pref64Entry : Type := listEntry Prefix.

Record routeEntry := mkRouteEntry {
  rtPrefix : Prefix; rtVia : Addr; rtPref : RoutePreference; rtLife : timedEntry; rtSeq : Z }.

Record routerTable := mkRouterTable {
  routers : list routerEntry;
  dns : list dnsEntry;
  search : list searchEntry;
  routes : list routeEntry;
  pref64 : list pref64Entry;
  mtu : Z;
  rtRefused : Z;
  rtEvicted : Z;
  optIgnored : Z;
  tseq : Z }.

#[global] Instance eta_routerTable : Settable routerTable := fun t =>
  mkRouterTable (routers t) (dns t) (search t) (routes t) (pref64 t) (mtu t) (rtRefused t) (rtEvicted t)
    (optIgnored t) (tseq t).

Definition routerTable_zero : routerTable := mkRouterTable [] [] [] [] [] 0 0 0 0 0.

(** The struct [RouterObservation] of proto/action.go. *)
Record RouterObservation := mkRouterObservation {
  roSeen : bool; roManaged : bool; roOther : bool; roRouter : Addr; roPrefixes : list PrefixInfo;
  roRouters : list Addr; roMTU : Z; roDNS : list Addr; roSearch : list gostring; roRoutes : list Route;
  roPREF64 : list Prefix }.

#[global] Instance eta_RouterObservation : Settable RouterObservation := fun r =>
  mkRouterObservation (roSeen r) (roManaged r) (roOther r) (roRouter r) (roPrefixes r) (roRouters r) (roMTU r)
    (roDNS r) (roSearch r) (roRoutes r) (roPREF64 r).

(** ** Eviction *)

(** The index loop of [evictShortest]: [idx] and [best] are the entry it holds,
    [i] the one it looks at. *)
Fixpoint shortestIdx {K} (l : list (listEntry K)) (i : nat) (idx : nat) (best : listEntry K) : nat :=
  match l with
  | [] => idx
  | e :: l =>
    if expiresBefore (elife best) (elife e) then shortestIdx l (S i) idx best
    else if expiresBefore (elife e) (elife best) || (eseq best <? eseq e) then shortestIdx l (S i) i e
    else shortestIdx l (S i) idx best
  end.

(** [None]: the slice expression of an empty list, a panic. *)
Definition evictShortest {K} (l : list (listEntry K)) : option (list (listEntry K)) :=
  match l with
  | [] => None
  | e :: _ => let idx := shortestIdx l 0 0 e in Some (take idx l ++ drop (S idx) l)
  end.

(** ** Observing *)

(** The search each of the loops makes for its key. *)
Fixpoint keyIndex {K} `{EqDecision K} (l : list (listEntry K)) (k : K) : option nat :=
  match l with
  | [] => None
  | e :: l => if bool_decide (ekey e = k) then Some O else option_map S (keyIndex l k)
  end.

Definition cutAt {A} (l : list A) (i : nat) : list A := take i l ++ drop (S i) l.

(** The body that [observeRDNSS], [observeDNSSL] and [observePREF64] share for
    one key: the new list, whether something was evicted, and the sequence
    number after it. *)
Definition observeKey {K} `{EqDecision K} (cap : nat) (now : Instant) (lifetime : Z) (k : K)
    (l : list (listEntry K)) (evicted seq : Z) : option (list (listEntry K) * Z * Z) :=
  let idx := keyIndex l k in
  if lifetime =? 0 then Some (match idx with Some i => cutAt l i | None => l end, evicted, seq) else
  match idx with
  | Some i => Some (alter (fun e => mkEntry (ekey e) (entryUntil now lifetime) (eseq e)) i l, evicted, seq)
  | None =>
    '(l, evicted) ← (if (cap <=? length l)%nat then l ← evictShortest l; Some (l, u64 (evicted + 1))
                     else Some (l, evicted));
    let seq := i64 (seq + 1) in
    Some (l ++ [mkEntry k (entryUntil now lifetime) seq], evicted, seq)
  end.

Fixpoint observeRDNSS (t : routerTable) (now : Instant) (lifetime : Z) (addrs : list Addr) : option routerTable :=
  match addrs with
  | [] => Some t
  | a :: addrs =>
    '(l, ev, sq) ← observeKey maxRouterDNS now lifetime a (dns t) (rtEvicted t) (tseq t);
    observeRDNSS (t <| dns := l |> <| rtEvicted := ev |> <| tseq := sq |>) now lifetime addrs
  end.

Fixpoint observeDNSSL (t : routerTable) (now : Instant) (lifetime : Z) (names : list gostring) : option routerTable :=
  match names with
  | [] => Some t
  | n :: names =>
    '(l, ev, sq) ← observeKey maxRouterSearch now lifetime n (search t) (rtEvicted t) (tseq t);
    observeDNSSL (t <| search := l |> <| rtEvicted := ev |> <| tseq := sq |>) now lifetime names
  end.

Definition observePREF64 (t : routerTable) (now : Instant) (p : PREF64) : option routerTable :=
  if negb (PrefixIsValid (P64Prefix p)) then Some (t <| optIgnored := u64 (optIgnored t + 1) |>) else
  '(l, ev, sq) ← observeKey maxRouterPref64 now (P64Lifetime p) (Masked (P64Prefix p)) (pref64 t) (rtEvicted t) (tseq t);
  Some (t <| pref64 := l |> <| rtEvicted := ev |> <| tseq := sq |>).

Fixpoint routeIndex (l : list routeEntry) (via : Addr) (p : Prefix) : option nat :=
  match l with
  | [] => None
  | e :: l => if addr_eqb (rtVia e) via && bool_decide (rtPrefix e = p) then Some O else option_map S (routeIndex l via p)
  end.

Definition observeRoute (t : routerTable) (now : Instant) (via : Addr) (ri : RouteInfo) : routerTable :=
  let idx := routeIndex (routes t) via (RiPrefix ri) in
  if RiLifetime ri =? 0 then
    match idx with Some i => t <| routes := cutAt (routes t) i |> | None => t end
  else
  match idx with
  | Some i =>
    t <| routes := alter (fun e => mkRouteEntry (rtPrefix e) (rtVia e) (RiPref ri) (entryUntil now (RiLifetime ri)) (rtSeq e))
                         i (routes t) |>
  | None =>
    if (maxRouterRoutes <=? length (routes t))%nat then t <| rtRefused := u64 (rtRefused t + 1) |> else
    let seq := i64 (tseq t + 1) in
    t <| tseq := seq |>
      <| routes := routes t ++ [mkRouteEntry (RiPrefix ri) via (RiPref ri) (entryUntil now (RiLifetime ri)) seq] |>
  end.

Fixpoint routerIndex (l : list routerEntry) (a : Addr) : option nat :=
  match l with
  | [] => None
  | e :: l => if addr_eqb (reAddr e) a then Some O else option_map S (routerIndex l a)
  end.

Definition observeRouterLifetime (t : routerTable) (now : Instant) (ra : RouterAdvert) : routerTable :=
  match routerIndex (routers t) (RaRouter ra) with
  | Some i =>
    if RouterLifetime ra =? 0 then
      t <| routers := alter (fun e => mkRouterEntry (reAddr e) (reDeflt e) false (rePref e) (reSeq e)) i (routers t) |>
    else
      t <| routers := alter (fun e => mkRouterEntry (reAddr e) (routerLifetimeUntil now (RouterLifetime ra)) true
                                        (RaPref ra) (reSeq e)) i (routers t) |>
  | None =>
    if (maxRouters <=? length (routers t))%nat then t <| rtRefused := u64 (rtRefused t + 1) |> else
    let seq := i64 (tseq t + 1) in
    let e := if negb (RouterLifetime ra =? 0)
             then mkRouterEntry (RaRouter ra) (routerLifetimeUntil now (RouterLifetime ra)) true (RaPref ra) seq
             else mkRouterEntry (RaRouter ra) (mkTimed 0 false) false RoutePrefMedium seq in
    t <| tseq := seq |> <| routers := routers t ++ [e] |>
  end.

Definition observeMTU (t : routerTable) (ra : RouterAdvert) : routerTable :=
  if RaMTU ra =? 0 then t else
  if (RaMTU ra <? minLinkMTU) || (maxReportableMTU <? RaMTU ra) then t <| optIgnored := u64 (optIgnored t + 1) |>
  else t <| mtu := RaMTU ra |>.

Definition holdsSomethingOf (t : routerTable) (a : Addr) : bool := existsb (fun r => addr_eqb (rtVia r) a) (routes t).

Definition undefault (now : Instant) (e : routerEntry) : routerEntry :=
  if reIsDeflt e && negb (live (reDeflt e) now)
  then mkRouterEntry (reAddr e) (reDeflt e) false (rePref e) (reSeq e) else e.

Definition prune (t : routerTable) (now : Instant) : routerTable :=
  let t := t <| routers := map (undefault now) (routers t) |> in
  let t := t <| dns := filter (fun e => live (elife e) now = true) (dns t) |> in
  let t := t <| search := filter (fun e => live (elife e) now = true) (search t) |> in
  let t := t <| routes := filter (fun e => live (rtLife e) now = true) (routes t) |> in
  let t := t <| pref64 := filter (fun e => live (elife e) now = true) (pref64 t) |> in
  t <| routers := filter (fun e => reIsDeflt e || holdsSomethingOf t (reAddr e) = true) (routers t) |>.

Fixpoint foldT {A} (f : routerTable -> A -> option routerTable) (t : routerTable) (l : list A) : option routerTable :=
  match l with
  | [] => Some t
  | x :: l => t ← f t x; foldT f t l
  end.

(** The argument [ra] is never nil where the machine calls [observe]. *)
Definition observe (t : routerTable) (now : Instant) (ra : RouterAdvert) : option (routerTable * bool) :=
  if negb (IsValid (RaRouter ra)) then Some (t, false) else
  let t := prune t now in
  let t := observeRouterLifetime t now ra in
  let t := observeMTU t ra in
  t ← foldT (fun t r => observeRDNSS t now (RdLifetime r) (RdAddrs r)) t (RaRDNSS ra);
  t ← foldT (fun t d => observeDNSSL t now (DlLifetime d) (DlNames d)) t (RaDNSSL ra);
  let t := foldl (fun t rt => observeRoute t now (RaRouter ra) rt) t (RaRoutes ra) in
  t ← foldT (fun t p => observePREF64 t now p) t (RaPREF64 ra);
  Some (prune t now, true).

(** ** The view *)

(** [sort.SliceStable]: sorted by [less], equals in the order they stood. *)
Fixpoint insertStable {A} (less : A -> A -> bool) (x : A) (l : list A) : list A :=
  match l with
  | [] => [x]
  | y :: l => if less y x then y :: insertStable less x l else x :: y :: l
  end.
Definition sortStable {A} (less : A -> A -> bool) (l : list A) : list A := foldr (insertStable less) [] l.

(** [Addr.Compare] of [net/netip], as [less]: width, value, zone. *)
Definition compareBytes (a b : gostring) : comparison := list_compare Z.compare a b.
Definition addrCompare (a b : Addr) : comparison :=
  match Z.compare (BitLen a) (BitLen b) with
  | Eq =>
    match a, b with
    | Addr4 v, Addr4 w => Z.compare v w
    | Addr6 v z, Addr6 w z' => match Z.compare v w with Eq => compareBytes z z' | c => c end
    | _, _ => Eq
    end
  | c => c
  end.

Definition routerLess (a b : routerEntry) : bool :=
  if negb (rePref a =? rePref b) then rePref b <? rePref a else reSeq a <? reSeq b.
Definition routeLess (a b : routeEntry) : bool :=
  if negb (rtPref a =? rtPref b) then rtPref b <? rtPref a else rtSeq a <? rtSeq b.
Definition prefixLess (a b : Prefix) : bool :=
  match addrCompare (paddr a) (paddr b) with Lt => true | Gt => false | Eq => pbits a <? pbits b end.

(** [fill]: the pruned table and the observation. *)
Definition fill (t : routerTable) (now : Instant) (out : RouterObservation) : routerTable * RouterObservation :=
  let t := prune t now in
  let deflts := filter (fun r => reIsDeflt r = true) (routers t) in
  (t, out <| roRouters := map reAddr (sortStable routerLess deflts) |>
          <| roMTU := mtu t |>
          <| roDNS := map ekey (dns t) |>
          <| roSearch := map ekey (search t) |>
          <| roRoutes := map (fun e => mkRoute (rtPrefix e) (rtVia e)) (sortStable routeLess (routes t)) |>
          <| roPREF64 := sortStable prefixLess (map ekey (pref64 t)) |>).

(** ** Eviction takes the entry that expires first *)

(** The entry [best] is at [idx] and is the one to evict of those seen. *)
Definition evicts {K} (seen : list (listEntry K)) (best : listEntry K) : Prop :=
  forall e, e ∈ seen -> expiresBefore (elife e) (elife best) = false /\
    (expiresBefore (elife best) (elife e) = false -> eseq e <= eseq best).

Lemma expiresBefore_trans a b c : expiresBefore a b = false -> expiresBefore b c = false -> expiresBefore a c = false.
Proof. unfold expiresBefore. destruct (forever a), (forever b), (forever c); try done. rewrite !Z.ltb_ge. lia. Qed.

Lemma shortestIdx_spec {K} (all : list (listEntry K)) l : forall i idx best seen,
  all = seen ++ l -> length seen = i -> all !! idx = Some best -> evicts seen best ->
  exists e, all !! shortestIdx l i idx best = Some e /\ evicts all e.
Proof.
  induction l as [|e l IH]; intros i idx best seen Hall Hi Hb He; cbn [shortestIdx].
  { rewrite app_nil_r in Hall. subst all. eauto. }
  assert (Hall' : all = (seen ++ [e]) ++ l) by (by rewrite <- app_assoc).
  assert (Hei : all !! i = Some e) by (by rewrite Hall, lookup_app_r, Hi, Nat.sub_diag by lia).
  destruct (expiresBefore (elife best) (elife e)) eqn:E1.
  - apply (IH _ _ _ (seen ++ [e])); [done|rewrite length_app; cbn; lia|done|].
    intros x [Hx| ->%list_elem_of_singleton]%elem_of_app; [by apply He|]. split; [|congruence].
    unfold expiresBefore in *. destruct (forever (elife best)), (forever (elife e)); try done.
    rewrite Z.ltb_lt in E1. rewrite Z.ltb_ge. lia.
  - destruct (expiresBefore (elife e) (elife best)) eqn:E2; cbn [orb].
    + apply (IH _ _ _ (seen ++ [e])); [done|rewrite length_app; cbn; lia|done|].
      intros x [Hx| ->%list_elem_of_singleton]%elem_of_app; [|split; [|lia]; unfold expiresBefore; destruct (forever _); [done|lia]].
      destruct (He x Hx) as [H1 _]. split; [by eapply expiresBefore_trans|].
      intros H2. rewrite (expiresBefore_trans _ _ _ H2 H1) in E2. done.
    + destruct (Z.ltb_spec (eseq best) (eseq e)) as [Hlt|Hge].
      * apply (IH _ _ _ (seen ++ [e])); [done|rewrite length_app; cbn; lia|done|].
        intros x [Hx| ->%list_elem_of_singleton]%elem_of_app; [|split; [|lia]; unfold expiresBefore; destruct (forever _); [done|lia]].
        destruct (He x Hx) as [H1 H2]. split; [by eapply expiresBefore_trans|].
        intros H3. assert (eseq x <= eseq best); [|lia]. apply H2. by eapply expiresBefore_trans.
      * apply (IH _ _ _ (seen ++ [e])); [done|rewrite length_app; cbn; lia|done|].
        intros x [Hx| ->%list_elem_of_singleton]%elem_of_app; [by apply He|]. done.
Qed.

Lemma evictShortest_spec {K} (l : list (listEntry K)) : l <> [] -> exists l1 e l2,
  l = l1 ++ e :: l2 /\ evictShortest l = Some (l1 ++ l2) /\ evicts l e.
Proof.
  intros Hne. destruct l as [|e0 l0]; [done|]. unfold evictShortest. set (l := e0 :: l0).
  destruct (shortestIdx_spec l l 0 0 e0 []) as (e & Hi & He); [done|done|done|by intros x Hx%elem_of_nil|].
  exists (take (shortestIdx l 0 0 e0) l), e, (drop (S (shortestIdx l 0 0 e0)) l).
  split; [|done]. by rewrite <- (drop_S _ e), take_drop.
Qed.

(** ** One key *)

Lemma keyIndex_spec {K} `{EqDecision K} (l : list (listEntry K)) k :
  match keyIndex l k with
  | Some i => exists e, l !! i = Some e /\ ekey e = k
  | None => k ∉ map ekey l
  end.
Proof.
  induction l as [|e l IH]; cbn [keyIndex map]; [apply not_elem_of_nil|].
  case_bool_decide as E; [by exists e|]. destruct (keyIndex l k) as [i|]; [exact IH|]. apply not_elem_of_cons. naive_solver.
Qed.

Lemma cutAt_split {A} (l : list A) i e : l !! i = Some e -> exists l1 l2, l = l1 ++ e :: l2 /\ cutAt l i = l1 ++ l2.
Proof.
  intros Hi. exists (take i l), (drop (S i) l). split; [|done]. by rewrite <- (drop_S _ e), take_drop.
Qed.

Definition keys_ok {K} (cap : nat) (l : list (listEntry K)) : Prop := (length l <= cap)%nat /\ NoDup (map ekey l).

Lemma keys_remove {K} cap (l1 l2 : list (listEntry K)) e : keys_ok cap (l1 ++ e :: l2) ->
  keys_ok cap (l1 ++ l2) /\ (ekey e ∉ map ekey (l1 ++ l2)) /\ (length (l1 ++ l2) < cap)%nat.
Proof.
  unfold keys_ok. rewrite !map_app, !length_app. cbn [map length]. intros [Hl Hn].
  rewrite <- Permutation_middle, NoDup_cons in Hn. destruct Hn as [Hn Hd]. repeat split; (done || lia).
Qed.

Lemma alter_split {A} (f : A -> A) (l : list A) i e : l !! i = Some e -> exists l1 l2,
  l = l1 ++ e :: l2 /\ alter f i l = l1 ++ f e :: l2.
Proof.
  revert l. induction i as [|i IH]; intros [|x l] Hi; try done; cbn in *.
  - injection Hi as ->. by exists [], l.
  - destruct (IH l Hi) as (l1 & l2 & -> & E). exists (x :: l1), l2. split; [done|]. cbn. f_equal. exact E.
Qed.

(** What taking one key does, whatever the list. *)
Lemma observeKey_spec {K} `{EqDecision K} cap now lifetime (k : K) l ev sq : keys_ok cap l -> (0 < cap)%nat ->
  exists l' ev' sq', observeKey cap now lifetime k l ev sq = Some (l', ev', sq') /\ keys_ok cap l' /\
  (lifetime <> 0 -> exists e, e ∈ l' /\ ekey e = k /\ elife e = entryUntil now lifetime) /\
  (lifetime = 0 -> k ∉ map ekey l') /\
  (forall e, e ∈ l' -> e ∈ l \/ ekey e = k /\ elife e = entryUntil now lifetime /\ lifetime <> 0) /\
  (forall e, e ∈ l -> ekey e <> k -> lifetime = 0 \/ (length l < cap)%nat \/ k ∈ map ekey l -> e ∈ l') /\
  (length l' <= S (length l))%nat.
Proof.
  intros Hok Hcap. unfold observeKey. pose proof (keyIndex_spec l k) as Hk. destruct (Z.eqb_spec lifetime 0) as [->|Hlt].
  - destruct (keyIndex l k) as [i|].
    + destruct Hk as (e & Hi & <-). destruct (cutAt_split l i e Hi) as (l1 & l2 & -> & ->).
      apply keys_remove in Hok as (? & ? & ?). do 3 eexists. split; [reflexivity|]. split; [done|]. split; [done|].
      split; [done|]. split; [|split].
      * intros x Hx. left. rewrite elem_of_app, elem_of_cons in *. tauto.
      * intros x Hx Hne _. rewrite elem_of_app, elem_of_cons in *. naive_solver.
      * rewrite !length_app. cbn. lia.
    + do 3 eexists. split; [reflexivity|]. do 3 (split; [done|]). split; [by left|]. split; [done|lia].
  - destruct (keyIndex l k) as [i|].
    + destruct Hk as (e & Hi & <-). set (f := fun e : listEntry K => mkEntry (ekey e) (entryUntil now lifetime) (eseq e)). destruct (alter_split f l i e Hi) as (l1 & l2 & -> & ->).
      do 3 eexists. split; [reflexivity|]. unfold keys_ok in *. rewrite !map_app, !length_app in *. cbn [map length f ekey] in *.
      split; [done|]. split; [|split; [done|split; [|split]]].
      * intros _. exists (f e). split; [rewrite elem_of_app, elem_of_cons; auto|done].
      * intros x. rewrite !elem_of_app, !elem_of_cons. intros [?|[->|?]]; [auto|right; done|auto].
      * intros x Hx Hne _. rewrite elem_of_app, elem_of_cons in *. naive_solver.
      * lia.
    + assert (Hroom : exists l1 ev1, (if (cap <=? length l)%nat then l ← evictShortest l; Some (l, u64 (ev + 1)) else Some (l, ev))
          = Some (l1, ev1) /\ keys_ok cap l1 /\ (length l1 < cap)%nat /\ (forall x, x ∈ l1 -> x ∈ l) /\
          ((length l < cap)%nat -> l1 = l) /\ (length l1 <= length l)%nat).
      { destruct (Nat.leb_spec cap (length l)) as [Hfull|]; [|do 2 eexists; split; [reflexivity|]; auto].
        destruct (evictShortest_spec l) as (l1 & e & l2 & -> & -> & _); [destruct l; [cbn in Hfull; lia|done]|].
        pose proof Hok as Hok'. apply keys_remove in Hok' as (Hok' & _ & Hlen).
        do 2 eexists. split; [reflexivity|]. split; [done|]. split; [done|]. split; [|split; [intros; destruct Hok; lia|]].
        - intros x. rewrite !elem_of_app, elem_of_cons. tauto.
        - rewrite !length_app. cbn. lia. }
      destruct Hroom as (l1 & ev1 & -> & Hok1 & Hlen & Hsub & Hid & Hle). cbn [mbind option_bind].
      do 3 eexists. split; [reflexivity|]. unfold keys_ok in *. rewrite map_app, length_app. cbn [map length ekey].
      destruct Hok1 as [_ Hn1]. split; [split; [lia|]|split; [|split; [done|split; [|split]]]].
      * apply NoDup_app; split; [done|]. split; [|apply NoDup_singleton]. intros x Hx ->%list_elem_of_singleton.
        apply Hk. rewrite list_elem_of_In, in_map_iff in *. destruct Hx as (e & E & Hin%list_elem_of_In%Hsub). exists e.
        split; [done|by apply list_elem_of_In].
      * intros _. eexists. split; [rewrite elem_of_app; right; by apply list_elem_of_singleton|done].
      * intros x [Hx| ->%list_elem_of_singleton]%elem_of_app; [left; auto|right; done].
      * intros x Hx Hne [?|[?|?]]; [done| |done]. rewrite Hid by done. rewrite elem_of_app. by left.
      * lia.
Qed.

(** ** A whole option *)

(** What the keys an option names, each with its lifetime, do to a list. *)
Record keyed {K} (cap : nat) (now : Instant) (named : list (K * Z)) (l l' : list (listEntry K)) : Prop := {
  keyed_ok : keys_ok cap l';
  keyed_only : forall e, e ∈ l' ->
    e ∈ l \/ exists lifetime, (ekey e, lifetime) ∈ named /\ lifetime <> 0 /\ elife e = entryUntil now lifetime;
  keyed_keeps : forall e, e ∈ l -> ekey e ∉ named.*1 -> (length l + length named <= cap)%nat -> e ∈ l';
  keyed_takes : forall k lifetime, NoDup named.*1 -> (k, lifetime) ∈ named -> lifetime <> 0 ->
    (length l + length named <= cap)%nat -> exists e, e ∈ l' /\ ekey e = k /\ elife e = entryUntil now lifetime;
  keyed_drops : forall k, NoDup named.*1 -> (k, 0) ∈ named -> k ∉ map ekey l';
  keyed_length : (length l' <= length l + length named)%nat }.

Lemma keyed_nil {K} cap now (l : list (listEntry K)) : keys_ok cap l -> keyed cap now [] l l.
Proof. intros H. split; auto; try (intros; by eapply elem_of_nil); [intros k lt _ Hin; by apply elem_of_nil in Hin|intros k _ Hin; by apply elem_of_nil in Hin|lia]. Qed.

Lemma map_ekey_in {K} (l : list (listEntry K)) k : k ∈ map ekey l <-> exists e, e ∈ l /\ ekey e = k.
Proof. change (map ekey l) with (ekey <$> l). rewrite list_elem_of_fmap. naive_solver. Qed.

Lemma keyed_app {K} cap now n1 n2 (l l1 l2 : list (listEntry K)) : keyed cap now n1 l l1 -> keyed cap now n2 l1 l2 ->
  keyed cap now (n1 ++ n2) l l2.
Proof.
  intros H1 H2. pose proof (keyed_length _ _ _ _ _ H1). pose proof (keyed_length _ _ _ _ _ H2).
  split; rewrite ?fmap_app, ?length_app.
  - apply H2.
  - intros e He. destruct (keyed_only _ _ _ _ _ H2 e He) as [He1|(lt & ? & ?)].
    + destruct (keyed_only _ _ _ _ _ H1 e He1) as [?|(lt & ? & ?)]; [by left|right; exists lt; by rewrite elem_of_app; auto].
    + right. exists lt. rewrite elem_of_app. auto.
  - intros e He Hn Hl. rewrite elem_of_app in Hn. apply (keyed_keeps _ _ _ _ _ H2); [|tauto|lia].
    apply (keyed_keeps _ _ _ _ _ H1); [done|tauto|lia].
  - intros k lt Hn Hin Hlt Hl. apply NoDup_app in Hn as (N1 & N12 & N2). apply elem_of_app in Hin as [Hin|Hin].
    + destruct (keyed_takes _ _ _ _ _ H1 k lt N1 Hin Hlt) as (e & He & Ek & El); [lia|]. exists e. split; [|done].
      apply (keyed_keeps _ _ _ _ _ H2); [done| |lia]. rewrite Ek. apply N12. apply (list_elem_of_fmap_2 fst _ _ Hin).
    + apply (keyed_takes _ _ _ _ _ H2); [done|done|done|lia].
  - intros k Hn Hin. apply NoDup_app in Hn as (N1 & N12 & N2). apply elem_of_app in Hin as [Hin|Hin].
    + intros (e & He & Ek)%map_ekey_in. destruct (keyed_only _ _ _ _ _ H2 e He) as [He1|(lt & Hlt & _)].
      * apply (keyed_drops _ _ _ _ _ H1 k N1 Hin). apply map_ekey_in. eauto.
      * rewrite Ek in Hlt. apply (N12 k); [apply (list_elem_of_fmap_2 fst _ _ Hin)|apply (list_elem_of_fmap_2 fst _ _ Hlt)].
    + by apply (keyed_drops _ _ _ _ _ H2).
  - lia.
Qed.

Lemma observeKey_keyed {K} `{EqDecision K} cap now lifetime (k : K) l ev sq : keys_ok cap l -> (0 < cap)%nat ->
  exists l' ev' sq', observeKey cap now lifetime k l ev sq = Some (l', ev', sq') /\ keyed cap now [(k, lifetime)] l l'.
Proof.
  intros Hok Hcap. destruct (observeKey_spec cap now lifetime k l ev sq Hok Hcap)
    as (l' & ev' & sq' & E & Hok' & Ht & Hd & Ho & Hk & Hl).
  exists l', ev', sq'. split; [done|]. split; cbn [fmap list_fmap fst length]; try done.
  - intros e He. destruct (Ho e He) as [?|(Ek & El & Hlt)]; [by left|right]. exists lifetime.
    split; [rewrite Ek; by apply list_elem_of_singleton|done].
  - intros e He Hn Hlen. apply Hk; [done| |right; left; lia]. intros Ek. apply Hn. rewrite Ek. by apply list_elem_of_singleton.
  - intros k' lt _ [= -> ->]%list_elem_of_singleton Hlt _. by apply Ht.
  - intros k' _ [= -> <-]%list_elem_of_singleton. by apply Hd.
  - lia.
Qed.

(** The parts of the table an option's loop does not touch. *)
Definition same_but_dns (t t' : routerTable) : Prop :=
  routers t' = routers t /\ search t' = search t /\ routes t' = routes t /\ pref64 t' = pref64 t /\ mtu t' = mtu t.
Definition same_but_search (t t' : routerTable) : Prop :=
  routers t' = routers t /\ dns t' = dns t /\ routes t' = routes t /\ pref64 t' = pref64 t /\ mtu t' = mtu t.
Definition same_but_pref64 (t t' : routerTable) : Prop :=
  routers t' = routers t /\ dns t' = dns t /\ search t' = search t /\ routes t' = routes t /\ mtu t' = mtu t.

Definition at_lifetime {K} (lifetime : Z) (ks : list K) : list (K * Z) := map (fun k => (k, lifetime)) ks.

Lemma observeRDNSS_keyed now lifetime addrs : forall t, keys_ok maxRouterDNS (dns t) ->
  exists t', observeRDNSS t now lifetime addrs = Some t' /\ same_but_dns t t' /\
    keyed maxRouterDNS now (at_lifetime lifetime addrs) (dns t) (dns t').
Proof.
  induction addrs as [|a addrs IH]; intros t Hok; cbn [observeRDNSS].
  { exists t. split; [done|]. split; [done|]. by apply keyed_nil. }
  destruct (observeKey_keyed maxRouterDNS now lifetime a (dns t) (rtEvicted t) (tseq t)) as (l & ev & sq & -> & Hk);
    [done|unfold maxRouterDNS; lia|]. cbn [mbind option_bind].
  destruct (IH (t <| dns := l |> <| rtEvicted := ev |> <| tseq := sq |>)) as (t' & -> & Hs & Hk'); [apply Hk|].
  exists t'. split; [done|]. split; [exact Hs|]. apply (keyed_app _ _ [(a, lifetime)] _ _ _ _ Hk Hk').
Qed.

Lemma observeDNSSL_keyed now lifetime names : forall t, keys_ok maxRouterSearch (search t) ->
  exists t', observeDNSSL t now lifetime names = Some t' /\ same_but_search t t' /\
    keyed maxRouterSearch now (at_lifetime lifetime names) (search t) (search t').
Proof.
  induction names as [|n names IH]; intros t Hok; cbn [observeDNSSL].
  { exists t. split; [done|]. split; [done|]. by apply keyed_nil. }
  destruct (observeKey_keyed maxRouterSearch now lifetime n (search t) (rtEvicted t) (tseq t)) as (l & ev & sq & -> & Hk);
    [done|unfold maxRouterSearch; lia|]. cbn [mbind option_bind].
  destruct (IH (t <| search := l |> <| rtEvicted := ev |> <| tseq := sq |>)) as (t' & -> & Hs & Hk'); [apply Hk|].
  exists t'. split; [done|]. split; [exact Hs|]. apply (keyed_app _ _ [(n, lifetime)] _ _ _ _ Hk Hk').
Qed.

Definition pref64_named (p : PREF64) : list (Prefix * Z) :=
  if PrefixIsValid (P64Prefix p) then [(Masked (P64Prefix p), P64Lifetime p)] else [].

Lemma observePREF64_keyed now p t : keys_ok maxRouterPref64 (pref64 t) ->
  exists t', observePREF64 t now p = Some t' /\ same_but_pref64 t t' /\
    keyed maxRouterPref64 now (pref64_named p) (pref64 t) (pref64 t').
Proof.
  intros Hok. unfold observePREF64, pref64_named. destruct (PrefixIsValid _); cbn [negb].
  - destruct (observeKey_keyed maxRouterPref64 now (P64Lifetime p) (Masked (P64Prefix p)) (pref64 t) (rtEvicted t) (tseq t))
      as (l & ev & sq & -> & Hk); [done|unfold maxRouterPref64; lia|]. cbn [mbind option_bind].
    eexists. split; [reflexivity|]. by split.
  - eexists. split; [reflexivity|]. split; [done|]. by apply keyed_nil.
Qed.

(** The loops of [observe] over the options of one kind. *)
Lemma foldT_keyed {A K} (f : routerTable -> A -> option routerTable) (get : routerTable -> list (listEntry K))
    (same : routerTable -> routerTable -> Prop) cap now (named : A -> list (K * Z)) :
  (forall t, same t t) -> (forall t1 t2 t3, same t1 t2 -> same t2 t3 -> same t1 t3) ->
  (forall x t, keys_ok cap (get t) -> exists t', f t x = Some t' /\ same t t' /\ keyed cap now (named x) (get t) (get t')) ->
  forall l t, keys_ok cap (get t) -> exists t', foldT f t l = Some t' /\ same t t' /\
    keyed cap now (l ≫= named) (get t) (get t').
Proof.
  intros Hrefl Htrans Hf. induction l as [|x l IH]; intros t Hok; cbn [foldT].
  { exists t. split; [done|]. split; [done|]. by apply keyed_nil. }
  destruct (Hf x t Hok) as (t1 & -> & Hs1 & Hk1). cbn [mbind option_bind].
  destruct (IH t1) as (t2 & -> & Hs2 & Hk2); [apply Hk1|]. exists t2. split; [done|]. split; [eauto|].
  change ((x :: l) ≫= named) with (named x ++ (l ≫= named)). by eapply keyed_app.
Qed.

(** ** Routes and routers *)

Definition routeKey (e : routeEntry) : Addr * Prefix := (rtVia e, rtPrefix e).
Definition routes_ok (l : list routeEntry) : Prop := (length l <= maxRouterRoutes)%nat /\ NoDup (map routeKey l).

(** What the Route Information options of one router do to the list. *)
Record routed (now : Instant) (via : Addr) (named : list RouteInfo) (l l' : list routeEntry) : Prop := {
  routed_ok : routes_ok l';
  routed_only : forall e, e ∈ l' -> e ∈ l \/ exists ri, ri ∈ named /\ RiLifetime ri <> 0 /\
    routeKey e = (via, RiPrefix ri) /\ rtPref e = RiPref ri /\ rtLife e = entryUntil now (RiLifetime ri);
  routed_keeps : forall e, e ∈ l -> (forall ri, ri ∈ named -> routeKey e <> (via, RiPrefix ri)) -> e ∈ l';
  routed_drops : forall ri, NoDup (map RiPrefix named) -> ri ∈ named -> RiLifetime ri = 0 ->
    (via, RiPrefix ri) ∉ map routeKey l';
  routed_takes : forall ri, NoDup (map RiPrefix named) -> ri ∈ named -> RiLifetime ri <> 0 ->
    (length l + length named <= maxRouterRoutes)%nat ->
    exists e, e ∈ l' /\ routeKey e = (via, RiPrefix ri) /\ rtPref e = RiPref ri /\ rtLife e = entryUntil now (RiLifetime ri);
  routed_length : (length l' <= length l + length named)%nat }.

Lemma map_in {A B} (f : A -> B) l y : y ∈ map f l <-> exists x, x ∈ l /\ f x = y.
Proof. change (map f l) with (f <$> l). rewrite list_elem_of_fmap. naive_solver. Qed.

Lemma routed_nil now via l : routes_ok l -> routed now via [] l l.
Proof.
  intros H. split; auto; try lia.
  - by intros ri _ Hin%elem_of_nil.
  - by intros ri _ Hin%elem_of_nil.
Qed.

Lemma routed_app now via n1 n2 l l1 l2 : routed now via n1 l l1 -> routed now via n2 l1 l2 -> routed now via (n1 ++ n2) l l2.
Proof.
  intros H1 H2. pose proof (routed_length _ _ _ _ _ H1). pose proof (routed_length _ _ _ _ _ H2).
  split; rewrite ?map_app, ?length_app.
  - apply H2.
  - intros e He. destruct (routed_only _ _ _ _ _ H2 e He) as [He1|(ri & ? & ?)].
    + destruct (routed_only _ _ _ _ _ H1 e He1) as [?|(ri & ? & ?)]; [by left|right; exists ri; by rewrite elem_of_app; auto].
    + right. exists ri. rewrite elem_of_app. auto.
  - intros e He Hn. apply (routed_keeps _ _ _ _ _ H2); [apply (routed_keeps _ _ _ _ _ H1); [done|]|];
      intros ri Hri; apply Hn; rewrite elem_of_app; auto.
  - intros ri Hn Hin Hz. apply NoDup_app in Hn as (N1 & N12 & N2). apply elem_of_app in Hin as [Hin|Hin].
    + intros (e & He & Ek)%map_in. destruct (routed_only _ _ _ _ _ H2 e He) as [He1|(ri' & Hri' & _ & Ek' & _)].
      * apply (routed_drops _ _ _ _ _ H1 ri N1 Hin Hz). apply map_in. eauto.
      * rewrite Ek in Ek'. injection Ek' as Ep. apply (N12 (RiPrefix ri)); apply map_in; eauto.
    + by apply (routed_drops _ _ _ _ _ H2).
  - intros ri Hn Hin Hz Hl. apply NoDup_app in Hn as (N1 & N12 & N2). apply elem_of_app in Hin as [Hin|Hin].
    + destruct (routed_takes _ _ _ _ _ H1 ri N1 Hin Hz) as (e & He & Ek & ?); [lia|]. exists e. split; [|done].
      apply (routed_keeps _ _ _ _ _ H2); [done|]. intros ri' Hri' E. rewrite Ek in E. injection E as E.
      apply (N12 (RiPrefix ri)); apply map_in; eauto.
    + apply (routed_takes _ _ _ _ _ H2); [done|done|done|lia].
  - lia.
Qed.

Lemma routeIndex_spec l via p : match routeIndex l via p with
  | Some i => exists e, l !! i = Some e /\ routeKey e = (via, p)
  | None => (via, p) ∉ map routeKey l
  end.
Proof.
  induction l as [|e l IH]; cbn [routeIndex map]; [apply not_elem_of_nil|].
  destruct (addr_eqb (rtVia e) via && bool_decide (rtPrefix e = p)) eqn:E.
  - apply andb_true_iff in E as [E1%addr_eqb_eq E2%bool_decide_eq_true]. exists e. split; [done|]. unfold routeKey. by rewrite E1, E2.
  - destruct (routeIndex l via p) as [i|]; [exact IH|]. apply not_elem_of_cons. split; [|done]. unfold routeKey.
    intros [= -> ->]. rewrite addr_eqb_refl, bool_decide_eq_true_2 in E by done. done.
Qed.

Lemma observeRoute_routed now via ri t : routes_ok (routes t) ->
  let t' := observeRoute t now via ri in
  routers t' = routers t /\ dns t' = dns t /\ search t' = search t /\ pref64 t' = pref64 t /\ mtu t' = mtu t /\
  routed now via [ri] (routes t) (routes t').
Proof.
  intros [Hl Hn]. unfold observeRoute. pose proof (routeIndex_spec (routes t) via (RiPrefix ri)) as Hi.
  destruct (routeIndex (routes t) via (RiPrefix ri)) as [i|].
  - destruct Hi as (e & Hi & Ek). destruct (Z.eqb_spec (RiLifetime ri) 0) as [Hz|Hz]; do 5 (split; [done|]); cbn [set_fld routes].
    + destruct (cutAt_split _ i e Hi) as (l1 & l2 & E & ->). rewrite E in *. rewrite map_app in Hn. cbn [map] in Hn.
      rewrite <- Permutation_middle, NoDup_cons in Hn. rewrite <- map_app in Hn. destruct Hn as [Hn Hd]. rewrite length_app in Hl. cbn in Hl.
      split; try (rewrite !length_app; cbn; lia).
      * split; [rewrite length_app; lia|done].
      * intros x Hx. left. rewrite elem_of_app, elem_of_cons in *. tauto.
      * intros x Hx Hne. rewrite elem_of_app, elem_of_cons in *. destruct Hx as [?|[->|?]]; [auto| |auto].
        exfalso. apply (Hne ri); [by left|done].
      * intros ri' _ ->%list_elem_of_singleton _. by rewrite <- Ek.
      * by intros ri' _ ->%list_elem_of_singleton.
    + set (f := fun e : routeEntry => _). destruct (alter_split f _ i e Hi) as (l1 & l2 & E & ->). rewrite E in *.
      split; try (rewrite !length_app; cbn; lia).
      * split; [by rewrite length_app in *|]. by rewrite map_app in *.
      * intros x. rewrite !elem_of_app, !elem_of_cons. intros [?|[->|?]]; [auto|right|auto]. exists ri.
        split; [by left|]. split; [done|]. split; [exact Ek|done].
      * intros x Hx Hne. rewrite elem_of_app, elem_of_cons in *. destruct Hx as [?|[->|?]]; [auto| |auto].
        exfalso. apply (Hne ri); [by left|done].
      * by intros ri' _ ->%list_elem_of_singleton.
      * intros ri' _ ->%list_elem_of_singleton _ _. exists (f e). split; [rewrite elem_of_app, elem_of_cons; auto|].
        split; [exact Ek|done].
  - destruct (Z.eqb_spec (RiLifetime ri) 0) as [Hz|Hz].
    { do 5 (split; [done|]). split; try (cbn; lia); try done.
      - by left.
      - by intros ri' _ ->%list_elem_of_singleton.
      - by intros ri' _ ->%list_elem_of_singleton. }
    destruct (Nat.leb_spec maxRouterRoutes (length (routes t))).
    { do 5 (split; [done|]). cbn [set_fld routes]. split; try (cbn; lia); try done.
      - by left.
      - by intros ri' _ ->%list_elem_of_singleton. }
    do 5 (split; [done|]). cbn [set_fld routes]. split; try (rewrite length_app; cbn; lia).
    + split; [rewrite length_app; cbn; lia|]. rewrite map_app. cbn [map]. apply NoDup_app; split; [done|].
      split; [|apply NoDup_singleton]. intros x Hx ->%list_elem_of_singleton. done.
    + intros x [?| ->%list_elem_of_singleton]%elem_of_app; [by left|right]. exists ri. split; [by left|done].
    + intros x Hx _. rewrite elem_of_app. by left.
    + by intros ri' _ ->%list_elem_of_singleton.
    + intros ri' _ ->%list_elem_of_singleton _ _. eexists. split; [rewrite elem_of_app; right; by left|done].
Qed.

Lemma observeRoutes_routed now via named : forall t, routes_ok (routes t) ->
  let t' := foldl (fun t rt => observeRoute t now via rt) t named in
  routers t' = routers t /\ dns t' = dns t /\ search t' = search t /\ pref64 t' = pref64 t /\ mtu t' = mtu t /\
  routed now via named (routes t) (routes t').
Proof.
  induction named as [|ri named IH]; intros t Hok; cbn [foldl]; [do 5 (split; [done|]); by apply routed_nil|].
  destruct (observeRoute_routed now via ri t Hok) as (E1 & E2 & E3 & E4 & E5 & H1).
  destruct (IH (observeRoute t now via ri)) as (F1 & F2 & F3 & F4 & F5 & H2); [apply H1|].
  rewrite F1, F2, F3, F4, F5. do 5 (split; [done|]). apply (routed_app now via [ri] named _ _ _ H1 H2).
Qed.

(** ** The whole table *)

Definition routers_ok (l : list routerEntry) : Prop := (length l <= maxRouters)%nat /\ NoDup (map reAddr l).

Definition table_wf (t : routerTable) : Prop :=
  routers_ok (routers t) /\ keys_ok maxRouterDNS (dns t) /\ keys_ok maxRouterSearch (search t) /\
  routes_ok (routes t) /\ keys_ok maxRouterPref64 (pref64 t) /\ (mtu t = 0 \/ minLinkMTU <= mtu t <= maxReportableMTU).

(** Nothing in the table has run out, and every router is either a default
    router or the next hop of a route. *)
Definition all_live (t : routerTable) (now : Instant) : Prop :=
  (forall e, e ∈ routers t -> (reIsDeflt e = true -> live (reDeflt e) now = true) /\
     (reIsDeflt e = true \/ exists r, r ∈ routes t /\ rtVia r = reAddr e)) /\
  (forall e, e ∈ dns t -> live (elife e) now = true) /\ (forall e, e ∈ search t -> live (elife e) now = true) /\
  (forall e, e ∈ routes t -> live (rtLife e) now = true) /\ (forall e, e ∈ pref64 t -> live (elife e) now = true).

Lemma map_undefault now l : map reAddr (map (undefault now) l) = map reAddr l.
Proof. induction l as [|e l IH]; [done|]. cbn. rewrite IH. f_equal. unfold undefault. by destruct (_ && _). Qed.

Lemma filter_ok {A K} (key : A -> K) cap (P : A -> Prop) `{forall x, Decision (P x)} (l : list A) :
  (length l <= cap)%nat /\ NoDup (map key l) -> (length (filter P l) <= cap)%nat /\ NoDup (map key (filter P l)).
Proof.
  intros [Hl Hn]. pose proof (sublist_filter P l) as Hs. split; [apply sublist_length in Hs; lia|].
  apply (sublist_NoDup _ (key <$> l) Hn). by apply fmap_sublist.
Qed.

Lemma prune_fields t now : let t' := prune t now in
  dns t' = filter (fun e => live (elife e) now = true) (dns t) /\
  search t' = filter (fun e => live (elife e) now = true) (search t) /\
  routes t' = filter (fun e => live (rtLife e) now = true) (routes t) /\
  pref64 t' = filter (fun e => live (elife e) now = true) (pref64 t) /\ mtu t' = mtu t /\
  routers t' = filter (fun e => reIsDeflt e || existsb (fun r => addr_eqb (rtVia r) (reAddr e)) (routes t') = true)
                      (map (undefault now) (routers t)).
Proof. done. Qed.

Lemma prune_wf t now : table_wf t -> table_wf (prune t now) /\ all_live (prune t now) now.
Proof.
  intros (Hr & Hd & Hs & Ho & Hp & Hm). destruct (prune_fields t now) as (E1 & E2 & E3 & E4 & E5 & E6).
  generalize dependent (prune t now). intros t' E1 E2 E3 E4 E5 E6. split.
  - unfold table_wf, keys_ok, routes_ok, routers_ok. rewrite E1, E2, E4, E5, E6.
    split; [|split; [by apply filter_ok|split; [by apply filter_ok|split; [rewrite E3; by apply filter_ok|split; [by apply filter_ok|done]]]]].
    apply filter_ok. by rewrite length_map, map_undefault.
  - unfold all_live. rewrite E1, E2, E4, E6. split; [|split; [|split; [|split]]];
      try (by intros e [? _]%list_elem_of_filter); try (rewrite E3; by intros e [? _]%list_elem_of_filter).
    intros e [Hor Hin]%list_elem_of_filter. apply map_in in Hin as (e0 & _ & <-). split.
    + unfold undefault. destruct (reIsDeflt e0 && negb (live (reDeflt e0) now)) eqn:E; [done|].
      intros Hdf. rewrite Hdf in E. cbn in E. by apply negb_false_iff in E.
    + apply orb_true_iff in Hor as [?|Hex]; [by left|right]. apply existsb_exists in Hex as (r & Hr' & Ha).
      exists r. split; [by apply list_elem_of_In|by apply addr_eqb_eq].
Qed.

Lemma routerIndex_spec l a : match routerIndex l a with
  | Some i => exists e, l !! i = Some e /\ reAddr e = a
  | None => a ∉ map reAddr l
  end.
Proof.
  induction l as [|e l IH]; cbn [routerIndex map]; [apply not_elem_of_nil|].
  destruct (addr_eqb (reAddr e) a) eqn:E; [apply addr_eqb_eq in E; by exists e|].
  destruct (routerIndex l a) as [i|]; [exact IH|]. apply not_elem_of_cons. split; [|done].
  intros ->. by rewrite addr_eqb_refl in E.
Qed.

(** What an advertisement says of its router as a default router. *)
Lemma observeRouterLifetime_spec t now ra : routers_ok (routers t) ->
  let t' := observeRouterLifetime t now ra in
  dns t' = dns t /\ search t' = search t /\ routes t' = routes t /\ pref64 t' = pref64 t /\ mtu t' = mtu t /\
  routers_ok (routers t') /\
  (forall e, e ∈ routers t -> reAddr e <> RaRouter ra -> e ∈ routers t') /\
  (forall e, e ∈ routers t' -> reAddr e <> RaRouter ra -> e ∈ routers t) /\
  (forall e, e ∈ routers t' -> reAddr e = RaRouter ra ->
     if RouterLifetime ra =? 0 then reIsDeflt e = false
     else reIsDeflt e = true /\ reDeflt e = routerLifetimeUntil now (RouterLifetime ra) /\ rePref e = RaPref ra) /\
  ((length (routers t) < maxRouters)%nat \/ RaRouter ra ∈ map reAddr (routers t) -> RaRouter ra ∈ map reAddr (routers t')).
Proof.
  intros [Hl Hn]. unfold observeRouterLifetime. pose proof (routerIndex_spec (routers t) (RaRouter ra)) as Hi.
  destruct (routerIndex (routers t) (RaRouter ra)) as [i|].
  - destruct Hi as (e & Hi & Ea).
    set (g := fun e : routerEntry => if RouterLifetime ra =? 0 then mkRouterEntry (reAddr e) (reDeflt e) false (rePref e) (reSeq e)
      else mkRouterEntry (reAddr e) (routerLifetimeUntil now (RouterLifetime ra)) true (RaPref ra) (reSeq e)).
    assert (Hg : exists t', (if RouterLifetime ra =? 0 then
      t <| routers := alter (fun e => mkRouterEntry (reAddr e) (reDeflt e) false (rePref e) (reSeq e)) i (routers t) |>
      else t <| routers := alter (fun e => mkRouterEntry (reAddr e) (routerLifetimeUntil now (RouterLifetime ra)) true
                                        (RaPref ra) (reSeq e)) i (routers t) |>) = t' /\
      dns t' = dns t /\ search t' = search t /\ routes t' = routes t /\ pref64 t' = pref64 t /\ mtu t' = mtu t /\
      routers t' = alter g i (routers t)).
    { unfold g. destruct (RouterLifetime ra =? 0); eexists; done. }
    destruct Hg as (t' & -> & F1 & F2 & F3 & F4 & F5 & F6). cbv zeta. do 5 (split; [done|]). rewrite F6.
    destruct (alter_split g _ i e Hi) as (l1 & l2 & E & ->). rewrite E in *.
    assert (Eg : reAddr (g e) = reAddr e) by (unfold g; by destruct (_ =? 0)).
    assert (Em : map reAddr (l1 ++ g e :: l2) = map reAddr (l1 ++ e :: l2)) by (rewrite !map_app; cbn; by rewrite Eg).
    assert (Hn' : reAddr e ∉ map reAddr (l1 ++ l2)).
    { rewrite map_app in Hn. cbn [map] in Hn. rewrite <- Permutation_middle, NoDup_cons in Hn. rewrite map_app. apply Hn. }
    split; [split; [rewrite length_app in *; exact Hl|by rewrite Em]|]. split; [|split; [|split]].
    + intros x Hx Hne. rewrite elem_of_app, elem_of_cons in *. naive_solver.
    + intros x Hx Hne. rewrite elem_of_app, elem_of_cons in *. destruct Hx as [?|[->|?]]; [auto|congruence|auto].
    + intros x Hx Ex. assert (x = g e) as ->.
      { rewrite elem_of_app, elem_of_cons in Hx. destruct Hx as [Hx|[->|Hx]]; [|done|]; exfalso; apply Hn';
          rewrite Ea, <- Ex; apply map_in; exists x; rewrite elem_of_app; auto. }
      unfold g. destruct (RouterLifetime ra =? 0); done.
    + intros _. rewrite Em. apply map_in. exists e. rewrite elem_of_app, elem_of_cons. auto.
  - destruct (Nat.leb_spec maxRouters (length (routers t))).
    { do 5 (split; [done|]). split; [done|]. split; [done|]. split; [done|]. cbn [set_fld routers]. split; [|].
      - intros e He Ea. destruct Hi. apply map_in. eauto.
      - intros [?|?]; [lia|done]. }
    set (e := if negb _ then _ else _). do 5 (split; [done|]). cbn [set_fld routers].
    assert (Ee : reAddr e = RaRouter ra /\ if RouterLifetime ra =? 0 then reIsDeflt e = false
      else reIsDeflt e = true /\ reDeflt e = routerLifetimeUntil now (RouterLifetime ra) /\ rePref e = RaPref ra)
      by (unfold e; by destruct (RouterLifetime ra =? 0)). clearbody e. destruct Ee as [Ea He].
    split; [split; [rewrite length_app; cbn; lia|]|split; [|split; [|split]]].
    + rewrite map_app. cbn [map]. apply NoDup_app; split; [done|]. split; [|apply NoDup_singleton].
      intros x Hx ->%list_elem_of_singleton. by rewrite Ea in Hx.
    + intros x Hx _. rewrite elem_of_app. by left.
    + intros x [?| ->%list_elem_of_singleton]%elem_of_app Hne; done.
    + intros x [Hx| ->%list_elem_of_singleton]%elem_of_app Ex; [|done]. destruct Hi. apply map_in. eauto.
    + intros _. apply map_in. exists e. split; [rewrite elem_of_app; right; by left|done].
Qed.

(** The names of an advertisement's options, each with its lifetime. *)
Definition ra_dns (ra : RouterAdvert) : list (Addr * Z) := RaRDNSS ra ≫= fun r => at_lifetime (RdLifetime r) (RdAddrs r).
Definition ra_search (ra : RouterAdvert) : list (gostring * Z) := RaDNSSL ra ≫= fun d => at_lifetime (DlLifetime d) (DlNames d).
Definition ra_pref64 (ra : RouterAdvert) : list (Prefix * Z) := RaPREF64 ra ≫= pref64_named.

Lemma observe_parts t now ra : table_wf t -> IsValid (RaRouter ra) = true ->
  exists t', observe t now ra = Some (prune t' now, true) /\ table_wf t' /\
    keyed maxRouterDNS now (ra_dns ra) (dns (prune t now)) (dns t') /\
    keyed maxRouterSearch now (ra_search ra) (search (prune t now)) (search t') /\
    keyed maxRouterPref64 now (ra_pref64 ra) (pref64 (prune t now)) (pref64 t') /\
    routed now (RaRouter ra) (RaRoutes ra) (routes (prune t now)) (routes t') /\
    routers t' = routers (observeRouterLifetime (prune t now) now ra) /\
    mtu t' = (if RaMTU ra =? 0 then mtu t else
              if (RaMTU ra <? minLinkMTU) || (maxReportableMTU <? RaMTU ra) then mtu t else RaMTU ra).
Proof.
  intros Hw Hv. unfold observe. rewrite Hv. cbn [negb]. destruct (prune_wf t now Hw) as [Hpw _].
  assert (Em : mtu (prune t now) = mtu t) by done. revert Hpw Em. generalize (prune t now). intros t0 Hpw Em.
  destruct Hpw as (Hr & Hd & Hs & Ho & Hp & Hm).
  destruct (observeRouterLifetime_spec t0 now ra Hr) as (A1 & A2 & A3 & A4 & A5 & Hr1 & _).
  set (t1 := observeRouterLifetime t0 now ra) in *. clearbody t1. set (t2 := observeMTU t1 ra).
  assert (B : routers t2 = routers t1 /\ dns t2 = dns t1 /\ search t2 = search t1 /\ routes t2 = routes t1 /\
    pref64 t2 = pref64 t1 /\ mtu t2 = (if RaMTU ra =? 0 then mtu t1 else
      if (RaMTU ra <? minLinkMTU) || (maxReportableMTU <? RaMTU ra) then mtu t1 else RaMTU ra)).
  { unfold t2, observeMTU. destruct (_ =? 0); [done|]. by destruct (_ || _). }
  clearbody t2. destruct B as (B1 & B2 & B3 & B4 & B5 & B6).
  destruct (foldT_keyed (fun t r => observeRDNSS t now (RdLifetime r) (RdAddrs r)) dns same_but_dns maxRouterDNS now
    (fun r => at_lifetime (RdLifetime r) (RdAddrs r))) with (l := RaRDNSS ra) (t := t2) as (t3 & -> & (C1 & C2 & C3 & C4 & C5) & K3).
  { done. } { unfold same_but_dns. intros; intuition congruence. } { intros r t' Ht'. by apply observeRDNSS_keyed. } { by rewrite B2, A1. }
  cbn [mbind option_bind].
  destruct (foldT_keyed (fun t d => observeDNSSL t now (DlLifetime d) (DlNames d)) search same_but_search maxRouterSearch now
    (fun d => at_lifetime (DlLifetime d) (DlNames d))) with (l := RaDNSSL ra) (t := t3) as (t4 & -> & (D1 & D2 & D3 & D4 & D5) & K4).
  { done. } { unfold same_but_search. intros; intuition congruence. } { intros r t' Ht'. by apply observeDNSSL_keyed. }
  { by rewrite C2, B3, A2. }
  cbn [mbind option_bind].
  destruct (observeRoutes_routed now (RaRouter ra) (RaRoutes ra) t4) as (E1 & E2 & E3 & E4 & E5 & K5); [by rewrite D3, C3, B4, A3|].
  set (t5 := foldl _ t4 (RaRoutes ra)) in *. clearbody t5.
  destruct (foldT_keyed (fun t p => observePREF64 t now p) pref64 same_but_pref64 maxRouterPref64 now pref64_named)
    with (l := RaPREF64 ra) (t := t5) as (t6 & -> & (F1 & F2 & F3 & F4 & F5) & K6).
  { done. } { unfold same_but_pref64. intros; intuition congruence. } { intros r t' Ht'. by apply observePREF64_keyed. }
  { by rewrite E4, D4, C4, B5, A4. }
  cbn [mbind option_bind]. exists t6. split; [done|].
  rewrite B2, A1 in K3. rewrite C2, B3, A2 in K4. rewrite D3, C3, B4, A3 in K5. rewrite E4, D4, C4, B5, A4 in K6.
  rewrite <- D2, <- E2, <- F2 in K3. rewrite <- E3, <- F3 in K4. rewrite <- F4 in K5.
  assert (M : mtu t6 = (if RaMTU ra =? 0 then mtu t else
      if (RaMTU ra <? minLinkMTU) || (maxReportableMTU <? RaMTU ra) then mtu t else RaMTU ra)) by (rewrite F5, E5, D5, C5, B6, A5, Em; reflexivity).
  assert (R : routers t6 = routers t1) by (rewrite F1, E1, D1, C1, B1; reflexivity).
  split; [|done]. unfold table_wf. rewrite R, M. split; [done|]. split; [apply K3|]. split; [apply K4|]. split; [apply K5|].
  split; [apply K6|]. rewrite Em in Hm. destruct (RaMTU ra =? 0); [done|]. destruct (_ || _) eqn:Eb; [done|].
  apply orb_false_iff in Eb as [?%Z.ltb_ge ?%Z.ltb_ge]. by right.
Qed.

(** ** What holds of every table *)

Inductive router_step : routerTable -> routerTable -> Prop :=
| StepObserve t now ra t' b : observe t now ra = Some (t', b) -> router_step t t'
| StepPrune t now : router_step t (prune t now)
| StepFill t now out : router_step t (fill t now out).1.

Lemma router_step_wf t t' : table_wf t -> router_step t t' -> table_wf t'.
Proof.
  intros Hw Hs. destruct Hs as [t now ra t' b E|t now|t now out]; [|by apply prune_wf|by apply prune_wf].
  destruct (IsValid (RaRouter ra)) eqn:Hv; [|unfold observe in E; rewrite Hv in E; by injection E as <- _].
  destruct (observe_parts t now ra Hw Hv) as (t1 & E' & Hw1 & _). rewrite E in E'. injection E' as -> _. by apply prune_wf.
Qed.

Lemma table_wf_zero : table_wf routerTable_zero.
Proof. unfold table_wf, routers_ok, keys_ok, routes_ok. cbn. split_and!; try lia; try constructor; done. Qed.

(** A link cannot fill a client's memory or poison its table.  Whatever is
    advertised, in whatever order, the table holds at most eight routers, eight
    resolvers, eight search domains, sixteen routes and four NAT64 prefixes
    (never fewer than the standards require it to be able to hold), never two
    entries with one key, and an MTU that is unset or one IPv6 allows; and taking
    an advertisement never panics. *)
Theorem router_table_bounded t : rtc router_step routerTable_zero t ->
  (length (routers t) <= 8)%nat /\ (length (dns t) <= 8)%nat /\ (length (search t) <= 8)%nat /\
  (length (routes t) <= 16)%nat /\ (length (pref64 t) <= 4)%nat /\
  (minRoutersFloor <= maxRouters)%nat /\ (minDNSFloor <= maxRouterDNS)%nat /\ (minSearchFloor <= maxRouterSearch)%nat /\
  NoDup (map reAddr (routers t)) /\ NoDup (map ekey (dns t)) /\ NoDup (map ekey (search t)) /\
  NoDup (map routeKey (routes t)) /\ NoDup (map ekey (pref64 t)) /\
  (mtu t = 0 \/ 1280 <= mtu t < 2 ^ 31) /\
  forall now ra, observe t now ra <> None.
Proof.
  intros Hr. assert (Hw : table_wf t).
  { revert t Hr. apply (rtc_ind_r _ routerTable_zero).
    - apply table_wf_zero.
    - intros t1 t2 _ Hs Hw. by eapply router_step_wf. }
  pose proof Hw as ([? ?] & [? ?] & [? ?] & [? ?] & [? ?] & Hm). unfold minRoutersFloor, minDNSFloor, minSearchFloor,
    maxRouters, maxRouterDNS, maxRouterSearch, maxRouterRoutes, maxRouterPref64, minLinkMTU, maxReportableMTU in *.
  split_and!; try done; try lia.
  intros now ra. destruct (IsValid (RaRouter ra)) eqn:Hv; [|unfold observe; by rewrite Hv].
  by destruct (observe_parts t now ra Hw Hv) as (t1 & -> & _).
Qed.

(** An entry of a list that is still running stays in the pruned list. *)
Lemma pruned_in {K} now (l : list (listEntry K)) e :
  e ∈ filter (fun e => live (elife e) now = true) l <-> live (elife e) now = true /\ e ∈ l.
Proof. by rewrite list_elem_of_filter. Qed.

(** A list of the table after an advertisement, of what it held and of what the
    advertisement named, each name with its lifetime.  What was not named is
    untouched while it lasts, where there is room for what was named; what was
    named once with a lifetime that is running is held to that lifetime from now,
    where there is room; what was named once with lifetime zero is gone; and
    nothing else is there. *)
Record union_of {K} (cap : nat) (now : Instant) (named : list (K * Z)) (l l' : list (listEntry K)) : Prop := {
  union_kept : forall e, e ∈ l -> live (elife e) now = true -> ekey e ∉ named.*1 ->
    (length l + length named <= cap)%nat -> e ∈ l';
  union_taken : forall k lifetime, NoDup named.*1 -> (k, lifetime) ∈ named -> lifetime <> 0 ->
    live (entryUntil now lifetime) now = true -> (length l + length named <= cap)%nat ->
    exists e, e ∈ l' /\ ekey e = k /\ elife e = entryUntil now lifetime;
  union_gone : forall k, NoDup named.*1 -> (k, 0) ∈ named -> k ∉ map ekey l';
  union_only : forall e, e ∈ l' -> live (elife e) now = true /\
    (e ∈ l \/ exists lifetime, (ekey e, lifetime) ∈ named /\ lifetime <> 0 /\ elife e = entryUntil now lifetime) }.

Lemma keyed_union {K} cap now named (l l' : list (listEntry K)) :
  let alive := fun e : listEntry K => live (elife e) now = true in
  keyed cap now named (filter alive l) l' -> union_of cap now named l (filter alive l').
Proof.
  cbv zeta. intros Hk. assert (Hs : (length (filter (fun e : listEntry K => live (elife e) now = true) l) <= length l)%nat)
    by apply sublist_length, sublist_filter. split.
  - intros e He Hl Hn Hr. apply pruned_in. split; [done|]. apply (keyed_keeps _ _ _ _ _ Hk); [by apply pruned_in|done|lia].
  - intros k lt Hn Hin Hlt Hl Hr. destruct (keyed_takes _ _ _ _ _ Hk k lt Hn Hin Hlt) as (e & He & Ek & El); [lia|].
    exists e. split; [|done]. apply pruned_in. by rewrite El.
  - intros k Hn Hin (e & [_ He]%pruned_in & Ek)%map_ekey_in. apply (keyed_drops _ _ _ _ _ Hk k Hn Hin). apply map_ekey_in. eauto.
  - intros e [Hl He]%pruned_in. split; [done|]. destruct (keyed_only _ _ _ _ _ Hk e He) as [[_ ?]%pruned_in|?]; [by left|by right].
Qed.

(** What the Route Information options of a router do to the routes, likewise. *)
Record routes_union (now : Instant) (via : Addr) (named : list RouteInfo) (l l' : list routeEntry) : Prop := {
  routes_kept : forall r, r ∈ l -> live (rtLife r) now = true ->
    (forall ri, ri ∈ named -> routeKey r <> (via, RiPrefix ri)) -> r ∈ l';
  routes_taken : forall ri, NoDup (map RiPrefix named) -> ri ∈ named -> RiLifetime ri <> 0 ->
    live (entryUntil now (RiLifetime ri)) now = true -> (length l + length named <= maxRouterRoutes)%nat ->
    exists r, r ∈ l' /\ routeKey r = (via, RiPrefix ri) /\ rtPref r = RiPref ri /\ rtLife r = entryUntil now (RiLifetime ri);
  routes_gone : forall ri, NoDup (map RiPrefix named) -> ri ∈ named -> RiLifetime ri = 0 ->
    (via, RiPrefix ri) ∉ map routeKey l';
  routes_only : forall r, r ∈ l' -> live (rtLife r) now = true /\
    (r ∈ l \/ exists ri, ri ∈ named /\ RiLifetime ri <> 0 /\ routeKey r = (via, RiPrefix ri) /\
       rtPref r = RiPref ri /\ rtLife r = entryUntil now (RiLifetime ri)) }.

Lemma routed_union now via named l l' : let alive := fun r => live (rtLife r) now = true in
  routed now via named (filter alive l) l' -> routes_union now via named l (filter alive l').
Proof.
  cbv zeta. intros Hk. assert (Hs : (length (filter (fun r => live (rtLife r) now = true) l) <= length l)%nat)
    by apply sublist_length, sublist_filter. split.
  - intros r Hr Hl Hn. apply list_elem_of_filter. split; [done|]. apply (routed_keeps _ _ _ _ _ Hk); [by apply list_elem_of_filter|done].
  - intros ri Hn Hin Hlt Hl Hr. destruct (routed_takes _ _ _ _ _ Hk ri Hn Hin Hlt) as (r & Hr' & E & Ep & El); [lia|].
    exists r. split; [|done]. apply list_elem_of_filter. by rewrite El.
  - intros ri Hn Hin Hz (r & [_ Hr]%list_elem_of_filter & Ek)%map_in. apply (routed_drops _ _ _ _ _ Hk ri Hn Hin Hz). apply map_in. eauto.
  - intros r [Hl Hr]%list_elem_of_filter. split; [done|].
    destruct (routed_only _ _ _ _ _ Hk r Hr) as [[_ ?]%list_elem_of_filter|?]; [by left|by right].
Qed.

(** What an advertisement does to the list of routers: [routes'] are the routes
    after it.  The other routers stay as they were while they are default
    routers or the next hop of a route; the router that spoke is held with the
    lifetime and the preference it named, where there is room or it was already
    known; with lifetime zero it is no default router. *)
Record routers_union (now : Instant) (ra : RouterAdvert) (routes' : list routeEntry) (l l' : list routerEntry) : Prop := {
  routers_kept : forall r, r ∈ l -> reAddr r <> RaRouter ra ->
    reIsDeflt (undefault now r) = true \/ (exists rt, rt ∈ routes' /\ rtVia rt = reAddr r) -> undefault now r ∈ l';
  routers_taken : RouterLifetime ra <> 0 -> live (routerLifetimeUntil now (RouterLifetime ra)) now = true ->
    (length l < maxRouters)%nat \/ RaRouter ra ∈ map reAddr l ->
    exists r, r ∈ l' /\ reAddr r = RaRouter ra /\ reIsDeflt r = true /\
      reDeflt r = routerLifetimeUntil now (RouterLifetime ra) /\ rePref r = RaPref ra;
  routers_gone : RouterLifetime ra = 0 -> forall r, r ∈ l' -> reAddr r = RaRouter ra -> reIsDeflt r = false;
  routers_only : forall r, r ∈ l' -> reAddr r = RaRouter ra \/ exists r0, r0 ∈ l /\ r = undefault now r0 }.

Lemma undefault_addr now r : reAddr (undefault now r) = reAddr r.
Proof. unfold undefault. by destruct (_ && _). Qed.

Lemma undefault_idemp now r : undefault now (undefault now r) = undefault now r.
Proof. unfold undefault at 2 3. destruct (reIsDeflt r && negb (live (reDeflt r) now)) eqn:E; [done|]. unfold undefault. by rewrite E. Qed.

(** A router of the table stays through [prune] while it is a default router or
    the next hop of a route that stays. *)
Lemma prune_routers_in t now r : r ∈ routers (prune t now) <->
  exists r0, r0 ∈ routers t /\ r = undefault now r0 /\
    (reIsDeflt r = true \/ exists rt, rt ∈ routes (prune t now) /\ rtVia rt = reAddr r).
Proof.
  destruct (prune_fields t now) as (_ & _ & _ & _ & _ & ->). rewrite list_elem_of_filter, map_in, orb_true_iff, existsb_exists.
  setoid_rewrite <- list_elem_of_In. setoid_rewrite addr_eqb_eq. naive_solver.
Qed.

(** The router that spoke, if the table held it, leaves room when it is pruned. *)
Lemma prune_room t now a : (length (routers t) < maxRouters)%nat \/ a ∈ map reAddr (routers t) ->
  (length (routers t) <= maxRouters)%nat ->
  (length (routers (prune t now)) < maxRouters)%nat \/ a ∈ map reAddr (routers (prune t now)).
Proof.
  intros Hor Hcap. destruct (decide (a ∈ map reAddr (routers (prune t now)))) as [?|Hn]; [by right|left].
  destruct (prune_fields t now) as (_ & _ & _ & _ & _ & E). rewrite E in *. set (P := fun e : routerEntry => _) in *.
  pose proof (sublist_length _ _ (sublist_filter P (map (undefault now) (routers t)))) as Hle. rewrite length_map in Hle.
  destruct Hor as [?|Hin]; [lia|]. apply map_in in Hin as (r & Hr & <-).
  assert (Hu : undefault now r ∈ map (undefault now) (routers t)) by (apply map_in; eauto).
  enough (length (filter P (map (undefault now) (routers t))) < length (map (undefault now) (routers t)))%nat
    by (rewrite length_map in *; lia).
  apply (length_filter_lt P _ (undefault now r) Hu). intros HP. apply Hn, map_in. exists (undefault now r).
  split; [by apply list_elem_of_filter|apply undefault_addr].
Qed.

Lemma observe_routers t t1 now ra : routers_ok (routers t) -> routers_ok (routers (prune t now)) ->
  routers t1 = routers (observeRouterLifetime (prune t now) now ra) ->
  (forall r, r ∈ routes (prune t1 now) -> rtVia r <> RaRouter ra -> r ∈ routes (prune t now)) ->
  routers_union now ra (routes (prune t1 now)) (routers t) (routers (prune t1 now)).
Proof.
  intros Hok Hp ER Hrt.
  destruct (observeRouterLifetime_spec (prune t now) now ra Hp) as (_ & _ & _ & _ & _ & _ & Hkeep & Honly & Hself & Hin).
  rewrite <- ER in *. split.
  - intros r Hr Hne Hor. apply prune_routers_in. exists (undefault now r). rewrite undefault_idemp, undefault_addr.
    split; [|done]. apply Hkeep; [|by rewrite undefault_addr]. apply prune_routers_in. exists r. rewrite undefault_addr.
    split; [done|]. split; [done|]. destruct Hor as [?|(rt & Hin' & Ev)]; [by left|right]. exists rt. split; [|done].
    apply Hrt; [done|by rewrite Ev].
  - intros Hnz Hl Hroom. destruct (prune_room t now (RaRouter ra) Hroom ltac:(apply Hok)) as [H|H];
      (destruct (proj1 (map_in reAddr _ _) (Hin ltac:(tauto))) as (r & Hr & Ea)); pose proof (Hself r Hr Ea) as Hf;
      rewrite (proj2 (Z.eqb_neq _ _) Hnz) in Hf; destruct Hf as (F1 & F2 & F3);
      (assert (Hu : undefault now r = r) by (unfold undefault; by rewrite F1, F2, Hl));
      (exists r; split; [|done]); apply prune_routers_in; exists r; (split; [done|]); (split; [done|]); by left.
  - intros Hz r (r0 & Hr0 & -> & _)%prune_routers_in Ea. rewrite undefault_addr in Ea. pose proof (Hself r0 Hr0 Ea) as Hf.
    rewrite Hz in Hf. cbn in Hf. unfold undefault. by rewrite Hf.
  - intros r (r0 & Hr0 & -> & _)%prune_routers_in. rewrite undefault_addr. destruct (decide (reAddr r0 = RaRouter ra)) as [?|Hne]; [by left|right].
    apply Honly in Hr0; [|done]. apply prune_routers_in in Hr0 as (r1 & Hr1 & -> & _). exists r1. by rewrite undefault_idemp.
Qed.

(** C29: the table is the union of what routers said.  After an advertisement
    from a router nothing that has run out is left, and each of the five lists is
    the union of what it held and of what the advertisement named, in the sense of
    [union_of] for the resolvers, the search domains and the NAT64 prefixes, of
    [routes_union] for the routes and of [routers_union] for the routers: what
    the advertisement did not speak of is untouched while it lasts (for the lists
    that evict, where there is room for what it named), what it names once with a
    lifetime that is running is held to that lifetime from now (where there is
    room; a known router always has it), what it names once with lifetime zero
    is gone (a router is no default router), and nothing else is in the table.
    The MTU is the one it names where IPv6 allows it, and the one there was
    otherwise.  Where a list that evicts has no room, the theorem says what may
    be in it, not what was let go. *)
Theorem observe_union t now ra : table_wf t -> IsValid (RaRouter ra) = true ->
  exists t', observe t now ra = Some (t', true) /\ table_wf t' /\ all_live t' now /\
  union_of maxRouterDNS now (ra_dns ra) (dns t) (dns t') /\
  union_of maxRouterSearch now (ra_search ra) (search t) (search t') /\
  union_of maxRouterPref64 now (ra_pref64 ra) (pref64 t) (pref64 t') /\
  routes_union now (RaRouter ra) (RaRoutes ra) (routes t) (routes t') /\
  routers_union now ra (routes t') (routers t) (routers t') /\
  mtu t' = (if (minLinkMTU <=? RaMTU ra) && (RaMTU ra <=? maxReportableMTU) then RaMTU ra else mtu t).
Proof.
  intros Hw Hv. destruct (observe_parts t now ra Hw Hv) as (t1 & -> & Hw1 & Kd & Ks & Kp & Kr & R & M).
  destruct (prune_wf t1 now Hw1) as [Hpw Hlive]. destruct (prune_wf t now Hw) as [(Hpr & _) _].
  exists (prune t1 now). split; [done|]. split; [done|]. split; [done|].
  assert (Hru : routes_union now (RaRouter ra) (RaRoutes ra) (routes t) (routes (prune t1 now))) by exact (routed_union _ _ _ _ _ Kr).
  split; [exact (keyed_union _ _ _ _ _ Kd)|]. split; [exact (keyed_union _ _ _ _ _ Ks)|]. split; [exact (keyed_union _ _ _ _ _ Kp)|].
  split; [exact Hru|]. split.
  - apply observe_routers; [apply Hw|done|done|]. intros r Hr Hne.
    destruct (routes_only _ _ _ _ _ Hru r Hr) as [Hl [Hin|(ri & _ & _ & Ek & _)]].
    + by apply list_elem_of_filter.
    + by injection Ek.
  - change (mtu (prune t1 now)) with (mtu t1). rewrite M. unfold minLinkMTU, maxReportableMTU.
    destruct (Z.eqb_spec (RaMTU ra) 0) as [->|]; [done|].
    destruct (Z.ltb_spec (RaMTU ra) 1280), (Z.ltb_spec (2 ^ 31 - 1) (RaMTU ra)), (Z.leb_spec 1280 (RaMTU ra)),
      (Z.leb_spec (RaMTU ra) (2 ^ 31 - 1)); cbn [andb orb]; lia || done.
Qed.

(** An advertisement from fe80::1: a default router for half an hour, an MTU, a
    resolver for ten minutes, a route. *)
Definition sample_router : Addr := Addr6 (Z.shiftl 0xfe80 112 + 1) [].
Definition sample_resolver : Addr := Addr6 (Z.shiftl 0xfd00 112 + 53) [].
Definition sample_advert : RouterAdvert :=
  mkRA 64 false false 1800 RoutePrefHigh 0 0 [] sample_router 1500
    [mkRouteInfo (PrefixOf (Addr6 (Z.shiftl 0xfd00 112) []) 8) RoutePrefLow 600] [mkRDNSS 600 [sample_resolver]] [] [] 0.
Definition sample_routers : routerTable :=
  match observe routerTable_zero 0 sample_advert with Some (t, _) => t | None => routerTable_zero end.

Lemma sample_step : router_step routerTable_zero sample_routers.
Proof. apply (StepObserve routerTable_zero 0 sample_advert sample_routers true). vm_compute. reflexivity. Qed.

Lemma router_table_bounded_witness : rtc router_step routerTable_zero sample_routers /\
  map reAddr (routers sample_routers) = [sample_router] /\ (length (routers sample_routers) <= 8)%nat.
Proof.
  assert (Hr : rtc router_step routerTable_zero sample_routers) by (apply rtc_once, sample_step).
  split; [exact Hr|]. split; [vm_compute; reflexivity|]. exact (proj1 (router_table_bounded sample_routers Hr)).
Defined.

(** Twenty minutes on, another router says nothing about the first one's route
    and resolver: the resolver has run out, the first router has not. *)
Lemma observe_union_witness :
  let ra2 := sample_advert <| RaRouter := Addr6 (Z.shiftl 0xfe80 112 + 2) [] |> <| RaRDNSS := [] |> <| RaRoutes := [] |> in
  option_map (fun r => (dns r.1, map reAddr (routers r.1))) (observe sample_routers (1200 * Second) ra2)
    = Some ([], [sample_router; Addr6 (Z.shiftl 0xfe80 112 + 2) []]) /\
  exists t', observe sample_routers (1200 * Second) ra2 = Some (t', true) /\ all_live t' (1200 * Second).
Proof.
  intros ra2. split; [vm_compute; reflexivity|].
  destruct (observe_union sample_routers (1200 * Second) ra2) as (t' & E & _ & Hl & _).
  - exact (router_step_wf _ _ table_wf_zero sample_step).
  - reflexivity.
  - exists t'. split; [exact E|exact Hl].
Defined.

(** ** The view *)

Lemma insertStable_perm {A} (less : A -> A -> bool) x l : insertStable less x l ≡ₚ x :: l.
Proof. induction l as [|y l IH]; [done|]. cbn. destruct (less y x); [|done]. rewrite IH. apply perm_swap. Qed.

Lemma sortStable_perm {A} (less : A -> A -> bool) l : sortStable less l ≡ₚ l.
Proof. induction l as [|x l IH]; [done|]. cbn. by rewrite insertStable_perm, IH. Qed.

(** A stable sort by a [less] that is an order sorts. *)
Lemma sortStable_sorted {A} (less : A -> A -> bool) l :
  (forall a b c, less b a = false -> less c b = false -> less c a = false) ->
  (forall a b, less a b = true -> less b a = false) ->
  StronglySorted (fun a b => less b a = false) (sortStable less l).
Proof.
  intros Htr Has. induction l as [|x l IH]; [constructor|]. cbn. revert IH. change (foldr (insertStable less) [] l) with (sortStable less l). generalize (sortStable less l). clear l. intros l.
  induction l as [|y l IH]; intros Hs; cbn; [repeat constructor|].
  apply StronglySorted_inv in Hs as [Hs Hy]. destruct (less y x) eqn:E.
  - constructor; [by apply IH|]. rewrite insertStable_perm. constructor; [by apply Has|done].
  - constructor; [by constructor|]. constructor; [done|]. eapply Forall_impl; [exact Hy|]. intros z Hz. by eapply Htr.
Qed.

Lemma StronglySorted_weaken {A} (R S : A -> A -> Prop) l : (forall a b, R a b -> S a b) -> StronglySorted R l -> StronglySorted S l.
Proof.
  intros H. induction l as [|x l IH]; intros Hs; [constructor|]. apply StronglySorted_inv in Hs as [Hs Hx].
  constructor; [by apply IH|]. eapply Forall_impl; [exact Hx|]. auto.
Qed.

Lemma routerLess_order : (forall a b c, routerLess b a = false -> routerLess c b = false -> routerLess c a = false) /\
  (forall a b, routerLess a b = true -> routerLess b a = false).
Proof.
  unfold routerLess. split; intros.
  - destruct (Z.eqb_spec (rePref b) (rePref a)), (Z.eqb_spec (rePref c) (rePref b)), (Z.eqb_spec (rePref c) (rePref a));
      cbn [negb] in *; rewrite ?Z.ltb_ge in *; lia.
  - destruct (Z.eqb_spec (rePref a) (rePref b)), (Z.eqb_spec (rePref b) (rePref a)); cbn [negb] in *;
      rewrite ?Z.ltb_ge, ?Z.ltb_lt in *; lia.
Qed.

Lemma routeLess_order : (forall a b c, routeLess b a = false -> routeLess c b = false -> routeLess c a = false) /\
  (forall a b, routeLess a b = true -> routeLess b a = false).
Proof.
  unfold routeLess. split; intros.
  - destruct (Z.eqb_spec (rtPref b) (rtPref a)), (Z.eqb_spec (rtPref c) (rtPref b)), (Z.eqb_spec (rtPref c) (rtPref a));
      cbn [negb] in *; rewrite ?Z.ltb_ge in *; lia.
  - destruct (Z.eqb_spec (rtPref a) (rtPref b)), (Z.eqb_spec (rtPref b) (rtPref a)); cbn [negb] in *;
      rewrite ?Z.ltb_ge, ?Z.ltb_lt in *; lia.
Qed.

(** The default routers a prune leaves. *)
Lemma pruned_defaults now (Q : routerEntry -> bool) l :
  filter (fun r => reIsDeflt r = true) (filter (fun e => reIsDeflt e || Q e = true) (map (undefault now) l)) =
  filter (fun r => reIsDeflt r = true /\ live (reDeflt r) now = true) l.
Proof.
  induction l as [|r l IH]; [done|]. cbn [map]. rewrite !filter_cons.
  assert (Hu : reIsDeflt (undefault now r) = reIsDeflt r && live (reDeflt r) now).
  { unfold undefault. destruct (reIsDeflt r) eqn:Hd, (live (reDeflt r) now); cbn; by rewrite ?Hd. }
  destruct (decide (reIsDeflt r = true /\ live (reDeflt r) now = true)) as [[Hd Hl]|Hn].
  - assert (E : undefault now r = r) by (unfold undefault; by rewrite Hd, Hl).
    rewrite E, decide_True by (by rewrite Hd). rewrite filter_cons, decide_True by done. by rewrite IH.
  - assert (Hf : reIsDeflt (undefault now r) = false).
    { rewrite Hu. destruct (reIsDeflt r), (live (reDeflt r) now); try done. by destruct Hn. }
    destruct (decide _); [rewrite filter_cons, decide_False by (by rewrite Hf)|]; exact IH.
Qed.

(** What is reported is what holds now, most preferred first.  The view
    lists exactly the default routers whose lifetime has not run out, the one
    with the highest preference first and routers of one preference in the order
    they were heard; exactly the routes, resolvers, search domains and NAT64
    prefixes that have not run out, routes ordered as routers are; and making it
    changes nothing that was still running. *)
Theorem fill_view t now out : let '(t', v) := fill t now out in
  (exists rs, roRouters v = map reAddr rs /\
     rs ≡ₚ filter (fun r => reIsDeflt r = true /\ live (reDeflt r) now = true) (routers t) /\
     StronglySorted (fun a b => rePref b < rePref a \/ rePref a = rePref b /\ reSeq a <= reSeq b) rs) /\
  (exists rs, roRoutes v = map (fun e => mkRoute (rtPrefix e) (rtVia e)) rs /\
     rs ≡ₚ filter (fun r => live (rtLife r) now = true) (routes t) /\
     StronglySorted (fun a b => rtPref b < rtPref a \/ rtPref a = rtPref b /\ rtSeq a <= rtSeq b) rs) /\
  roDNS v = map ekey (filter (fun e => live (elife e) now = true) (dns t)) /\
  roSearch v = map ekey (filter (fun e => live (elife e) now = true) (search t)) /\
  roPREF64 v ≡ₚ map ekey (filter (fun e => live (elife e) now = true) (pref64 t)) /\
  roMTU v = mtu t /\ t' = prune t now.
Proof.
  unfold fill. split_and!; try done.
  - exists (sortStable routerLess (filter (fun r => reIsDeflt r = true) (routers (prune t now)))). split; [done|]. split.
    + rewrite sortStable_perm. destruct (prune_fields t now) as (_ & _ & _ & _ & _ & ->). by rewrite pruned_defaults.
    + destruct routerLess_order as [H1 H2]. eapply StronglySorted_weaken; [|by apply sortStable_sorted].
      intros a b. unfold routerLess. destruct (Z.eqb_spec (rePref b) (rePref a)); cbn [negb]; rewrite Z.ltb_ge; lia.
  - exists (sortStable routeLess (routes (prune t now))). split; [done|]. split.
    + rewrite sortStable_perm. by destruct (prune_fields t now) as (_ & _ & -> & _).
    + destruct routeLess_order as [H1 H2]. eapply StronglySorted_weaken; [|by apply sortStable_sorted].
      intros a b. unfold routeLess. destruct (Z.eqb_spec (rtPref b) (rtPref a)); cbn [negb]; rewrite Z.ltb_ge; lia.
  - apply sortStable_perm.
Qed.
