(* ===== verification/Outward.v ===== *)
(** * The caller's view of a lease: lease/event.go

    The outward lease with its absolute wall-clock deadlines, the bridge between
    the monotonic and the wall clock, the conversion of ring 1's two leases and
    of its stateless configuration, and the merge of what routers advertised. *)

From S2P Require Import Prelude NetAddr Options Codec Values Backoff Kinds Lease Dhcp6 Lease6 Router6.

(** ** Wall-clock time

    A [time.Time] is the nanoseconds since its zero value, the start of year 1;
    the zero value stands for "no deadline".  [Sub] saturates. *)
Abbreviation Time := Z (only parsing).
Definition IsZero (t : Time) : bool := t =? 0.
Definition TimeAdd (t : Time) (d : Duration) : Time := t + d.
Definition TimeSub (t u : Time) : Duration := Z.max (- 2 ^ 63) (Z.min MaxInt64 (t - u)).
Definition TimeAfter (t u : Time) : bool := u <? t.

(** ** The closed sets *)

(** Octet types of the source: a value outside the named ones is the last
    constructor. *)
Inductive LEventKind := Acquired | Changed | Renewed | Lost | Failed | Configured | EventKindOther (n : Z).
Inductive Family := FamilyUnset | FamilyV4 | FamilyV6 | FamilyOther (n : Z).
Inductive DADPhase := DADIdle | DADTentative | DADPassed | DADFailed.

#[global] Instance LEventKind_eq_dec : EqDecision LEventKind.
Proof. solve_decision. Defined.
#[global] Instance Family_eq_dec : EqDecision Family.
Proof. solve_decision. Defined.
#[global] Instance DADPhase_eq_dec : EqDecision DADPhase.
Proof. solve_decision. Defined.

(** ** The lease *)

Record OAddr6 := mkOAddr6 { oaAddr : Prefix; oaPreferred : Time; oaValid : Time }.

Record OLease := mkOLease {
  oAddr : Prefix; oGateway : Addr; oDNS : list Addr; oDomain : gostring; oMTU : Z;
  oServerID : Addr; oServerDUID : bytes; oPrefixServerDUID : bytes; oIAID : Z;
  oPreferred : Time; oValid : Time;
  oRoutes : list Route; oDomainSearch : list gostring;
  oAcquired : Time; oRenew : Time; oRebind : Time; oExpire : Time;
  oOptions : Options; oOptionsV6 : OptionsV6;
  oForcerenewNonce : bytes; oForcerenewReplay : Z;
  oReconfigureKey : bytes; oReconfigureReplay : Z; oReconfigureReplaySeen : bool;
  oAddrs : list OAddr6; oTempAddrs : list OAddr6; oPrefixes : list OAddr6;
  oSLAAC : bool; oFQDN : ClientFQDN; oHasFQDN : bool }.

#[global] Instance eta_OLease : Settable OLease := fun l =>
  mkOLease (oAddr l) (oGateway l) (oDNS l) (oDomain l) (oMTU l) (oServerID l) (oServerDUID l) (oPrefixServerDUID l)
    (oIAID l) (oPreferred l) (oValid l) (oRoutes l) (oDomainSearch l) (oAcquired l) (oRenew l) (oRebind l)
    (oExpire l) (oOptions l) (oOptionsV6 l) (oForcerenewNonce l) (oForcerenewReplay l) (oReconfigureKey l)
    (oReconfigureReplay l) (oReconfigureReplaySeen l) (oAddrs l) (oTempAddrs l) (oPrefixes l) (oSLAAC l)
    (oFQDN l) (oHasFQDN l).

(** Go's [Lease{}]. *)
Definition olease_zero : OLease :=
  mkOLease prefix_zero AddrZero [] [] 0 AddrZero [] [] 0 0 0 [] [] 0 0 0 0 ∅ [] [] 0 [] 0 false [] [] []
    false (mkClientFQDN 0 []) false.

(** The struct [Config6] of proto/action.go, and what a caller sees of it. *)
Record Config6 := mkConfig6 { c6DNS : list Addr; c6Search : list gostring; c6RefreshTime : Duration }.
Record Configuration := mkConfiguration { cfDNS : list Addr; cfSearch : list gostring; cfRefresh : Time }.

Record LEvent := mkLEvent {
  evKind : LEventKind; evLease : OLease; evReason : Reason; evNote : gostring; evRequested : Addr;
  evACD : ACDPhase; evDAD : DADPhase; evConfig : Configuration; evFamily : Family; evStatus : StatusCode;
  evRouter : RouterObservation }.

(** ** The bridge between the clocks *)

Record clockBridge := mkBridge { cbMono : Instant; cbWall : Time }.

Definition at_ (b : clockBridge) (i : Instant) : Time := TimeAdd (cbWall b) (Sub i (cbMono b)).
Definition instant (b : clockBridge) (t : Time) : Instant := Add (cbMono b) (TimeSub t (cbWall b)).

(** ** Conversions *)

Definition toLease (l : Lease) (b : clockBridge) : OLease :=
  let out := olease_zero <| oAddr := lAddr l |> <| oDNS := lDNS l |> <| oDomain := lDomain l |> <| oMTU := lMTU l |>
    <| oServerID := lServerID l |> <| oRoutes := lRoutes l |> <| oDomainSearch := lDomainSearch l |>
    <| oAcquired := at_ b (lStart l) |> <| oOptions := lOptions l |>
    <| oForcerenewNonce := lForcerenewNonce l |> <| oForcerenewReplay := lForcerenewReplay l |> in
  let out := match Gateway l with Some g => out <| oGateway := g |> | None => out end in
  let out := match Expire l with Some t => out <| oExpire := at_ b t |> | None => out end in
  let out := match RenewAt l with Some t => out <| oRenew := at_ b t |> | None => out end in
  match RebindAt l with Some t => out <| oRebind := at_ b t |> | None => out end.

(** The deadline of a lifetime, zero when it is infinite. *)
Definition outwardEnd (b : clockBridge) (start : Instant) (d : Duration) : Time :=
  if IsInfinite d then 0 else at_ b (Add start d).

Definition outwardAddrs (in_ : list Addr6T) (start : Instant) (b : clockBridge) : list OAddr6 :=
  map (fun a =>
    let bits := if a6PrefixLen a <=? 0 then BitLen (a6Addr a) else a6PrefixLen a in
    mkOAddr6 (PrefixFrom (a6Addr a) bits) (outwardEnd b start (a6Preferred a)) (outwardEnd b start (a6Valid a))) in_.

Definition outwardPrefixes (in_ : list Prefix6) (start : Instant) (b : clockBridge) : list OAddr6 :=
  map (fun p => mkOAddr6 (p6Prefix p) (outwardEnd b start (p6Preferred p)) (outwardEnd b start (p6Valid p))) in_.

Definition toLease6 (l : Lease6) (b : clockBridge) : OLease :=
  let out := olease_zero <| oDNS := l6DNS l |> <| oDomainSearch := l6Search l |> <| oServerDUID := l6ServerDUID l |>
    <| oIAID := l6IAID l |> <| oPrefixServerDUID := l6PrefixServerDUID l |> <| oAcquired := at_ b (l6Start l) |>
    <| oReconfigureKey := l6ReconfigureKey l |> <| oReconfigureReplay := l6ReconfigureReplay l |>
    <| oReconfigureReplaySeen := l6ReconfigureReplaySeen l |> in
  let out := match Lease6_Prefix l with Some pfx => out <| oAddr := pfx |> | None => out end in
  let out := out <| oOptionsV6 := l6Options l |> <| oSLAAC := l6SLAAC l |> <| oFQDN := l6FQDN l |>
    <| oHasFQDN := l6HasFQDN l |> <| oAddrs := outwardAddrs (l6Addrs l) (l6Start l) b |>
    <| oTempAddrs := outwardAddrs (l6TempAddrs l) (l6Start l) b |>
    <| oPrefixes := outwardPrefixes (l6Prefixes l) (l6Start l) b |> in
  let d := Lease6Deadlines l in
  let out := match dExpire d with Some t => out <| oExpire := at_ b t |> <| oValid := at_ b t |> | None => out end in
  let out := match dRenew d with Some t => out <| oRenew := at_ b t |> | None => out end in
  let out := match dRebind d with Some t => out <| oRebind := at_ b t |> | None => out end in
  match PreferredUntil l with Some t => out <| oPreferred := at_ b t |> | None => out end.

Definition toConfig (c : Config6) (b : clockBridge) : Configuration :=
  mkConfiguration (c6DNS c) (c6Search c)
    (if (0 <? c6RefreshTime c) && negb (IsInfinite (c6RefreshTime c)) then at_ b (Add (cbMono b) (c6RefreshTime c)) else 0).

(** ** What routers advertised *)

(** [containsAddr], [containsString] and [containsRoute]: the same loop, the
    last comparing destinations. *)
Fixpoint contains {A} (same : A -> A -> bool) (in_ : list A) (x : A) : bool :=
  match in_ with [] => false | v :: in_ => if same v x then true else contains same in_ x end.

(** [for _, x := range xs { if !contains(l, x) { l = append(l, x) } }] *)
Definition appendNew {A} (same : A -> A -> bool) (l xs : list A) : list A :=
  foldl (fun l x => if negb (contains same l x) then l ++ [x] else l) l xs.

Definition sameDest (v r : Route) : bool := bool_decide (Dest v = Dest r).

Definition withRouterAdvert (l : OLease) (r : RouterObservation) : OLease :=
  let l := match roRouters r with
           | a :: _ => if negb (IsValid (oGateway l)) then l <| oGateway := a |> else l
           | [] => l
           end in
  let l := if (oMTU l =? 0) && negb (roMTU r =? 0) then l <| oMTU := roMTU r |> else l in
  let l := l <| oDNS := appendNew addr_eqb (oDNS l) (roDNS r) |> in
  let l := l <| oDomainSearch := appendNew bytes_eqb (oDomainSearch l) (roSearch r) |> in
  l <| oRoutes := appendNew sameDest (oRoutes l) (roRoutes r) |>.

(** ** Merging *)

Section merge.
Context {A K : Type} (same : A -> A -> bool) (key : A -> K).
Hypothesis same_spec : forall v x, same v x = true <-> key v = key x.

Lemma contains_spec l x : contains same l x = true <-> key x ∈ map key l.
Proof using same_spec.
  induction l as [|v l IH]; cbn [contains map]; [split; [done|by intros ?%elem_of_nil]|]. rewrite elem_of_cons.
  destruct (same v x) eqn:E; [apply same_spec in E; split; [by left|done]|]. rewrite IH. split; [by right|].
  intros [Ek|]; [|done]. assert (same v x = true) by (by apply same_spec). congruence.
Qed.

(** What is appended: entries of [xs] in their order, one for every key that
    [l] did not hold. *)
Record merged (l xs l' : list A) : Prop := {
  m_first : exists k, l' = l ++ k /\ k `sublist_of` xs;
  m_keys : forall c, c ∈ map key l' <-> c ∈ map key l \/ c ∈ map key xs;
  m_nodup : NoDup (map key l) -> NoDup (map key l') }.

Lemma appendNew_merged xs : forall l, merged l xs (appendNew same l xs).
Proof using same_spec.
  induction xs as [|x xs IH]; intros l; cbn [appendNew foldl].
  { split; [exists []; rewrite app_nil_r; split; [done|constructor]| |done].
    intros c. split; [by left|]. by intros [?|?%elem_of_nil]. }
  destruct (contains same l x) eqn:Hc; cbn [negb].
  - apply contains_spec in Hc. destruct (IH l) as [(k & Ek & Hk) H2 H3]. split; [exists k; split; [done|by constructor]| |done].
    intros c. unfold appendNew in H2. rewrite H2. cbn [map]. rewrite elem_of_cons. split; [tauto|]. intros [?|[->|?]]; auto.
  - assert (Hn : key x ∉ map key l) by (intros Hin; apply contains_spec in Hin; congruence).
    destruct (IH (l ++ [x])) as [(k & Ek & Hk) H2 H3]. split.
    + exists (x :: k). unfold appendNew in Ek. rewrite Ek, <- app_assoc. split; [done|by constructor].
    + intros c. unfold appendNew in H2. rewrite H2, map_app, elem_of_app. cbn [map]. rewrite list_elem_of_singleton, elem_of_cons. tauto.
    + intros Hl. apply H3. rewrite map_app. apply NoDup_app. split; [done|]. cbn [map]. split; [|apply NoDup_singleton].
      by intros c Hc' ->%list_elem_of_singleton.
Qed.

Lemma appendNew_idem xs : forall l, (forall c, c ∈ map key xs -> c ∈ map key l) -> appendNew same l xs = l.
Proof using same_spec.
  induction xs as [|x xs IH]; intros l Hl; cbn [appendNew foldl]; [done|].
  rewrite (proj2 (contains_spec l x)) by (apply Hl; cbn; by left). cbn [negb]. apply IH. intros c Hc. apply Hl. cbn. by right.
Qed.
End merge.

Lemma addr_same v x : addr_eqb v x = true <-> id v = id x.
Proof. apply addr_eqb_eq. Qed.
Lemma bytes_same v x : bytes_eqb v x = true <-> id v = id x.
Proof. apply bool_decide_eq_true. Qed.
Lemma dest_same v r : sameDest v r = true <-> Dest v = Dest r.
Proof. apply bool_decide_eq_true. Qed.

(** The merge with what routers advertised.  Whatever DHCP sent keeps its
    place: the resolvers, the search list and the routes begin with the lease's
    own, and what is appended are advertised ones in their order, one for each
    address, name or destination the lease did not have; nothing is lost and
    nothing doubled.  The router and the MTU are filled in only where the lease
    has none, no other field moves, and merging the same advertisement again
    changes nothing. *)
Theorem withRouterAdvert_spec l r : let l' := withRouterAdvert l r in
  merged id (oDNS l) (roDNS r) (oDNS l') /\ merged id (oDomainSearch l) (roSearch r) (oDomainSearch l') /\
  merged Dest (oRoutes l) (roRoutes r) (oRoutes l') /\
  oGateway l' = (if IsValid (oGateway l) then oGateway l else default (oGateway l) (head (roRouters r))) /\
  oMTU l' = (if oMTU l =? 0 then roMTU r else oMTU l) /\
  l' = l <| oGateway := oGateway l' |> <| oMTU := oMTU l' |> <| oDNS := oDNS l' |>
         <| oDomainSearch := oDomainSearch l' |> <| oRoutes := oRoutes l' |> /\
  withRouterAdvert l' r = l'.
Proof.
  set (g := if IsValid (oGateway l) then oGateway l else default (oGateway l) (head (roRouters r))).
  set (m := if oMTU l =? 0 then roMTU r else oMTU l).
  pose proof (appendNew_merged addr_eqb id addr_same (roDNS r) (oDNS l)) as Hd.
  pose proof (appendNew_merged bytes_eqb id bytes_same (roSearch r) (oDomainSearch l)) as Hs.
  pose proof (appendNew_merged sameDest Dest dest_same (roRoutes r) (oRoutes l)) as Hr.
  assert (E : forall l, withRouterAdvert l r = l
    <| oGateway := if IsValid (oGateway l) then oGateway l else default (oGateway l) (head (roRouters r)) |>
    <| oMTU := if oMTU l =? 0 then roMTU r else oMTU l |>
    <| oDNS := appendNew addr_eqb (oDNS l) (roDNS r) |>
    <| oDomainSearch := appendNew bytes_eqb (oDomainSearch l) (roSearch r) |>
    <| oRoutes := appendNew sameDest (oRoutes l) (roRoutes r) |>).
  { clear. intros l. unfold withRouterAdvert. destruct l. cbn.
    destruct (roRouters r) as [|a rs], (IsValid oGateway0); cbn; destruct (Z.eqb_spec oMTU0 0) as [->|]; cbn; try done;
      destruct (Z.eqb_spec (roMTU r) 0) as [->|]; done. }
  cbv zeta. assert (El : withRouterAdvert l r = l <| oGateway := g |> <| oMTU := m |>
    <| oDNS := appendNew addr_eqb (oDNS l) (roDNS r) |> <| oDomainSearch := appendNew bytes_eqb (oDomainSearch l) (roSearch r) |>
    <| oRoutes := appendNew sameDest (oRoutes l) (roRoutes r) |>) by apply E.
  rewrite El. split; [exact Hd|]. split; [exact Hs|]. split; [exact Hr|]. split; [done|]. split; [done|].
  split; [by destruct l|]. rewrite E.
  change (oDNS (_ <| oRoutes := _ |>)) with (appendNew addr_eqb (oDNS l) (roDNS r)).
  change (oDomainSearch (_ <| oRoutes := _ |>)) with (appendNew bytes_eqb (oDomainSearch l) (roSearch r)).
  change (oRoutes (_ <| oRoutes := _ |>)) with (appendNew sameDest (oRoutes l) (roRoutes r)).
  change (oGateway (_ <| oRoutes := _ |>)) with g. change (oMTU (_ <| oRoutes := _ |>)) with m.
  rewrite (appendNew_idem addr_eqb id addr_same) by (intros c Hc; apply Hd; by right).
  rewrite (appendNew_idem bytes_eqb id bytes_same) by (intros c Hc; apply Hs; by right).
  rewrite (appendNew_idem sameDest Dest dest_same) by (intros c Hc; apply Hr; by right).
  replace (if IsValid g then g else default g (head (roRouters r))) with g.
  2: { unfold g. destruct (IsValid (oGateway l)) eqn:Ev; [by rewrite Ev|]. destruct (head (roRouters r)) as [a|]; cbn; [by destruct (IsValid a)|by rewrite Ev]. }
  replace (if m =? 0 then roMTU r else m) with m; [by destruct l|].
  unfold m. destruct (Z.eqb_spec (oMTU l) 0) as [Em|Em]; [by destruct (Z.eqb_spec (roMTU r) 0) as [->|]|].
  by rewrite (proj2 (Z.eqb_neq _ _)).
Qed.

(** ** The clocks *)

(** A reading of both clocks: the monotonic one within a hundred and forty-six
    years of its origin, the wall clock past the year 292, so that no deadline
    is the zero time. *)
Definition bridge_wf (b : clockBridge) : Prop := instant_wf (cbMono b) /\ 2 ^ 63 <= cbWall b.

Lemma at_spec b i : bridge_wf b -> 0 <= i < 2 ^ 63 -> at_ b i = cbWall b + (i - cbMono b) /\ IsZero (at_ b i) = false.
Proof.
  unfold bridge_wf, instant_wf, at_, TimeAdd, Sub, IsZero. intros [Hm Hw] Hi.
  change (2 ^ 62) with 4611686018427387904 in *. change (2 ^ 63) with 9223372036854775808 in *. rewrite i64_id by lia. split; [done|].
  apply Z.eqb_neq. lia.
Qed.

Lemma instant_spec b t : bridge_wf b -> - 2 ^ 62 <= t - cbWall b < 2 ^ 63 - cbMono b -> instant b t = cbMono b + (t - cbWall b).
Proof.
  unfold bridge_wf, instant_wf, instant, Add, TimeSub. rewrite MaxInt64_val. intros [Hm Hw] Ht.
  change (2 ^ 62) with 4611686018427387904 in *. change (2 ^ 63) with 9223372036854775808 in *.
  rewrite Z.min_r, Z.max_r by lia. apply i64_id. lia.
Qed.

(** A deadline survives the process.  An instant written to a record as
    wall-clock time and read back by a later process, whose monotonic clock
    counts from another origin, leaves exactly the time that is left after the
    wall-clock time that passed; read back with the same pair of readings it is
    the instant itself; and the time written is never mistaken for "no
    deadline". *)
Theorem bridge_roundtrip b b' i : bridge_wf b -> bridge_wf b' -> instant_wf i -> Z.abs (cbWall b' - cbWall b) < 2 ^ 61 ->
  Z.abs (i - cbMono b) <= 2 ^ 61 ->
  instant b' (at_ b i) - cbMono b' = (i - cbMono b) - (cbWall b' - cbWall b) /\
  (b' = b -> instant b' (at_ b i) = i) /\ IsZero (at_ b i) = false.
Proof.
  intros Hb Hb' Hi Hw Hm. destruct (at_spec b i Hb) as [E Hz]; [unfold instant_wf in Hi; lia|]. rewrite E, instant_spec; [|done|unfold bridge_wf, instant_wf in *; lia].
  split; [lia|]. split; [|by rewrite <- E]. intros ->. lia.
Qed.

(** Ring 1 counted an hour to the deadline; the record is read ten minutes later
    by a process that has just started. *)
Lemma bridge_roundtrip_witness : let b := mkBridge (5 * Hour) (64000000 * 1000 * Second) in
  let b' := mkBridge (3 * Second) (64000000 * 1000 * Second + 10 * Minute) in
  instant b' (at_ b (6 * Hour)) - cbMono b' = 50 * Minute.
Proof.
  intros b b'. destruct (bridge_roundtrip b b' (6 * Hour)) as (-> & _); [..|reflexivity].
  all: first [split; [split|]|split|idtac]; vm_compute; congruence.
Defined.

(** ** The deadlines a caller sees *)

(** The outward deadlines of a DHCPv4 lease.  For every finite lease of at
    least a second they are those the timers are armed for, seen through the
    bridge: the expiry lies the lease time after the acquisition, is not the
    zero time and converts back to the instant it came from; the rebinding lies
    strictly between acquisition and expiry; and a renewal, when there is one,
    strictly between acquisition and rebinding. *)
Theorem toLease_deadlines l b : Second <= lLeaseTime l -> 0 <= lStart l -> lStart l + lLeaseTime l <= 2 ^ 61 ->
  bridge_wf b -> cbMono b <= 2 ^ 61 ->
  let o := toLease l b in
  oExpire o = oAcquired o + lLeaseTime l /\ IsZero (oExpire o) = false /\ IsZero (oAcquired o) = false /\
  instant b (oExpire o) = lStart l + lLeaseTime l /\
  oAcquired o < oRebind o < oExpire o /\
  (lT2 l <> 1 -> oRenew o <> 0) /\ (oRenew o = 0 \/ oAcquired o < oRenew o < oRebind o).
Proof.
  intros Hl Hs Hmax Hb Hm o. destruct (LeaseDeadlines_order l) as (He & r & Hr & Hrr & Hn & Hn'); [done|done|rewrite MaxInt64_val; lia|].
  assert (HE : Lease.Expire l = Some (lStart l + lLeaseTime l)).
  { revert He. unfold LeaseDeadlines, Lease.Expire. cbv zeta. destruct (negb _ && _); [done|].
    destruct (if _ && _ then _ else _) as [rb n1]. destruct (if _ && _ then _ else _) as [rn n2]. done. }
  assert (Hat : forall i, 0 <= i <= 2 ^ 61 -> at_ b i = cbWall b + (i - cbMono b) /\ IsZero (at_ b i) = false)
    by (intros i Hi; apply at_spec; [done|lia]).
  unfold Second in Hl.
  assert (E : oAcquired o = at_ b (lStart l) /\ oExpire o = at_ b (lStart l + lLeaseTime l) /\ oRebind o = at_ b r /\
    oRenew o = match RenewAt l with Some t => at_ b t | None => 0 end).
  { unfold o, toLease. rewrite HE. unfold RenewAt, RebindAt. rewrite Hr.
    destruct (Gateway l), (dRenew (LeaseDeadlines l)); done. }
  destruct E as (-> & -> & -> & Ern). unfold RenewAt in Ern.
  destruct (Hat (lStart l)) as [E1 Z1]; [lia|]. destruct (Hat (lStart l + lLeaseTime l)) as [E2 Z2]; [lia|].
  destruct (Hat r) as [E3 _]; [lia|]. split; [lia|]. split; [done|]. split; [done|].
  split; [rewrite E2, instant_spec by (done || unfold bridge_wf, instant_wf in *; lia); lia|]. split; [lia|]. rewrite Ern.
  destruct (dRenew (LeaseDeadlines l)) as [t|].
  - specialize (Hn t eq_refl). destruct (Hat t) as [E4 Z4]; [lia|]. apply Z.eqb_neq in Z4. split; [done|]. right. lia.
  - split; [|by left]. intros H2. by destruct (Hn' H2).
Qed.

Lemma toLease_deadlines_witness : let o := toLease sample_lease (mkBridge (10 * Second) (64000000 * 1000 * Second)) in
  oExpire o = oAcquired o + 3600 * Second /\ oAcquired o < oRebind o < oExpire o.
Proof.
  intros o. destruct (toLease_deadlines sample_lease (mkBridge (10 * Second) (64000000 * 1000 * Second)))
    as (He & _ & _ & _ & Hr & _); [..|split; [exact He|exact Hr]].
  all: first [split; [split|]|idtac]; vm_compute; congruence.
Defined.

(** What a caller reads of one address: "no end" for an infinite lifetime,
    otherwise the instant it ends, the preferred time first. *)
Definition outward_of (o : OLease) (b : clockBridge) (start : Instant) (a : Addr6T) (oa : OAddr6) : Prop :=
  paddr (oaAddr oa) = WithoutZone (a6Addr a) /\
  (IsZero (oaValid oa) = true <-> a6Valid a = Infinite) /\
  (IsZero (oaPreferred oa) = true <-> a6Preferred a = Infinite) /\
  (IsZero (oaValid oa) = false -> instant b (oaValid oa) = start + a6Valid a /\
     IsZero (oaPreferred oa) = false /\ oAcquired o <= oaPreferred oa <= oaValid oa) /\
  (IsZero (oExpire o) = false -> IsZero (oaValid oa) = false /\ oaValid oa <= oExpire o).

Lemma outwardEnd_spec b start d : bridge_wf b -> 0 <= start <= 2 ^ 61 -> cbMono b <= 2 ^ 61 -> lifetime_wf d ->
  d = Infinite /\ outwardEnd b start d = 0 \/
  0 <= d <= 4294967294 * Second /\ outwardEnd b start d = cbWall b + (start + d - cbMono b) /\
  outwardEnd b start d <> 0 /\ instant b (outwardEnd b start d) = start + d.
Proof.
  intros Hb Hs Hm [->|Hd]; [by left|right]. split; [done|]. unfold outwardEnd, IsInfinite, Infinite, Second in *.
  rewrite (proj2 (Z.eqb_neq _ _)) by lia.
  assert (E : Add start d = start + d) by (unfold Add; apply i64_id; lia). rewrite E.
  destruct (at_spec b (start + d) Hb) as [E1 Z1]; [lia|]. apply Z.eqb_neq in Z1.
  split; [done|]. split; [done|]. rewrite E1, instant_spec; [lia|done|]. unfold bridge_wf, instant_wf in Hb. lia.
Qed.

Lemma oExpire_toLease6 l b : oExpire (toLease6 l b) = match dExpire (Lease6Deadlines l) with Some t => at_ b t | None => 0 end.
Proof. unfold toLease6. repeat case_match; done. Qed.
Lemma oAcquired_toLease6 l b : oAcquired (toLease6 l b) = at_ b (l6Start l).
Proof. unfold toLease6. repeat case_match; done. Qed.
Lemma oAddrs_toLease6 l b : oAddrs (toLease6 l b) = outwardAddrs (l6Addrs l) (l6Start l) b.
Proof. unfold toLease6. repeat case_match; done. Qed.

(** The lifetimes a caller sees.  A DHCPv6 lease shows an expiry exactly
    when none of its addresses lives for ever.  Every address keeps its value,
    shows "no end" exactly for an infinite lifetime, and otherwise a valid end
    that converts back to the instant ring 1 holds; its preferred end lies
    between the acquisition and the valid one, and no valid end lies after the
    expiry. *)
Theorem toLease6_lifetimes l b : l6Addrs l <> [] -> lives (l6Addrs l) -> 0 <= l6Start l <= 2 ^ 61 ->
  lifetime_wf (l6T1 l) -> lifetime_wf (l6T2 l) -> l6SLAAC l = false -> l6pdTimed l = false ->
  bridge_wf b -> cbMono b <= 2 ^ 61 ->
  let o := toLease6 l b in
  (IsZero (oExpire o) = true <-> longestValid l = Infinite) /\
  Forall2 (outward_of o b (l6Start l)) (l6Addrs l) (oAddrs o).
Proof.
  intros Hne Hl Hs H1 H2 Hsl Hpd Hb Hm o.
  destruct (Lease6Deadlines_ordered l Hne Hl) as (_ & Hx & Hex); [unfold instant_wf; lia|done..|].
  destruct (longestValid_spec l Hl) as [Hlw Hla].
  assert (HE : oExpire o = 0 /\ longestValid l = Infinite \/
    longestValid l <> Infinite /\ oExpire o <> 0 /\ oExpire o = cbWall b + (l6Start l + longestValid l - cbMono b)).
  { unfold o. rewrite oExpire_toLease6. destruct (decide (longestValid l = Infinite)) as [Ei|Ei]; [left|right].
    - by rewrite (proj2 Hx Ei).
    - split; [done|]. rewrite (Hex Ei). destruct Hlw as [|Hlw]; [done|]. unfold Second in Hlw.
      destruct (at_spec b (l6Start l + longestValid l) Hb) as [E Z]; [lia|].
      split; [by apply Z.eqb_neq in Z|done]. }
  assert (Ha : oAcquired o = cbWall b + (l6Start l - cbMono b)).
  { unfold o. rewrite oAcquired_toLease6. apply at_spec; [done|]. lia. }
  split.
  { unfold IsZero. rewrite Z.eqb_eq. destruct HE as [[-> ->]|(H & H' & _)]; [done|]. by split. }
  unfold o at 2. rewrite oAddrs_toLease6. unfold outwardAddrs. apply Forall2_fmap_r, Forall_Forall2_diag, Forall_forall.
  intros a Hin. unfold lives in Hl. rewrite Forall_forall in Hl, Hla. specialize (Hl a Hin) as (Hp & Hv & _ & Hpv). specialize (Hla a Hin).
  cbv beta delta [compose outward_of]. cbn [oaAddr oaPreferred oaValid]. split; [done|]. unfold IsZero. rewrite !Z.eqb_eq, !Z.eqb_neq. unfold no_longer in *.
  destruct (outwardEnd_spec b _ _ Hb Hs Hm Hp) as [[Ep Op]|(Rp & Ep & Op & Ip)], (outwardEnd_spec b _ _ Hb Hs Hm Hv) as [[Ev Ov]|(Rv & Ev & Ov & Iv)];
    rewrite ?Op, ?Ov; unfold Infinite in *.
  all: unfold Second in *; split_and!; try (clear HE; intuition lia); try (intros HE0; destruct HE as [[? ?]|(? & ? & ?)]; [done|]; intuition lia).
Qed.

Definition sample_lease6 : Lease6 :=
  lease6_zero <| l6Addrs := [mkAddr6 (Addr6 (Z.shiftl 0x20010db8 96 + 7) []) (3600 * Second) (7200 * Second) 0;
                             mkAddr6 (Addr6 (Z.shiftl 0x20010db8 96 + 8) []) 0 (600 * Second) 0] |>
    <| l6Start := 5 * Second |>.
Definition sample_bridge : clockBridge := mkBridge (10 * Second) (64000000 * 1000 * Second).

Lemma toLease6_lifetimes_witness : let o := toLease6 sample_lease6 sample_bridge in
  IsZero (oExpire o) = false /\ Forall2 (outward_of o sample_bridge (5 * Second)) (l6Addrs sample_lease6) (oAddrs o).
Proof.
  intros o. destruct (toLease6_lifetimes sample_lease6 sample_bridge) as [_ H].
  - discriminate.
  - unfold lives. repeat constructor; first [right; vm_compute; split; congruence|vm_compute; congruence].
  - vm_compute. split; congruence.
  - right. vm_compute. split; congruence.
  - right. vm_compute. split; congruence.
  - reflexivity.
  - reflexivity.
  - split; vm_compute; [split|]; congruence.
  - vm_compute. congruence.
  - split; [vm_compute; reflexivity|exact H].
Defined.
