(* ===== verification/Core6.v ===== *)
(** * The DHCPv6 machine's state and its actions: proto/machine6.go, proto/state6.go, proto/action.go

    The states, events and actions of the DHCPv6 side, the fields of [Machine6],
    [New6], and the monad its methods are written in: a method reads and assigns
    fields and stamps actions with consecutive ids, or stops at a Go run-time
    panic ([None]). *)

From S2P Require Import Prelude NetAddr Options Codec Forcerenew Arp Backoff Kinds Dhcp6 Rkap Backoff6 Icmpv6 Lease6 Slaac Params6 Router6 Outward.

(** ** States (proto/state6.go) *)

Inductive State6 :=
| State6Stopped | State6Init | State6Selecting | State6Requesting | State6Confirming | State6InfoRequesting
| State6DAD | State6Discovering | State6Bound | State6Renewing | State6Rebinding.

#[global] Instance State6_eq_dec : EqDecision State6.
Proof. solve_decision. Defined.

Definition state6_eqb (a b : State6) : bool := bool_decide (a = b).

Definition AllStates6 : list State6 :=
  [State6Stopped; State6Init; State6Selecting; State6Requesting; State6Confirming; State6InfoRequesting;
   State6DAD; State6Discovering; State6Bound; State6Renewing; State6Rebinding].

(** [State6.String] *)
Definition State6String (s : State6) : string :=
  match s with
  | State6Stopped => "STOPPED6" | State6Init => "INIT6" | State6Selecting => "SELECTING6"
  | State6Requesting => "REQUESTING6" | State6Confirming => "CONFIRMING6" | State6InfoRequesting => "INFO-REQUESTING6"
  | State6DAD => "DAD6" | State6Discovering => "DISCOVERING6" | State6Bound => "BOUND6"
  | State6Renewing => "RENEWING6" | State6Rebinding => "REBINDING6"
  end%string.

Definition AState6 (s : State6) : NoteArg := AStr (State6String s).

(** ** Events and actions *)

(** [Event] with the fields the DHCPv6 machine reads of each kind. *)
Inductive Event6 :=
| Ev6Start
| Ev6Stop
| Ev6Received (msg : option MessageV6) (raw : bytes) (dst : Addr)
| Ev6TimerFired (t : TimerID)
| Ev6LinkDown
| Ev6LinkUp
| Ev6ConflictDetected
| Ev6AddressLost
| Ev6ActionFailed (id : ActionID) (reason : gostring)
| Ev6Release
| Ev6ARPReceived
| Ev6RouterAdvert (ra : option RouterAdvert)
| Ev6DADResult (addr : Addr) (duplicate : bool)
| Ev6SetHostname (name : gostring).

Definition Kind6String (ev : Event6) : string :=
  match ev with
  | Ev6Start => "Start" | Ev6Stop => "Stop" | Ev6Received _ _ _ => "Received"
  | Ev6TimerFired _ => "TimerFired" | Ev6LinkDown => "LinkDown" | Ev6LinkUp => "LinkUp"
  | Ev6ConflictDetected => "ConflictDetected" | Ev6AddressLost => "AddressLost"
  | Ev6ActionFailed _ _ => "ActionFailed" | Ev6Release => "Release"
  | Ev6ARPReceived => "ARPReceived" | Ev6RouterAdvert _ => "RouterAdvert"
  | Ev6DADResult _ _ => "DADResult" | Ev6SetHostname _ => "SetHostname"
  end%string.

(** The actions this machine emits; a send names its message and destination. *)
Inductive ActionBody6 :=
| Act6Send (msg : MessageV6) (dst : Addr)
| Act6SetTimer (t : TimerID) (after : Duration)
| Act6CancelTimer (t : TimerID)
| Act6LeaseAcquired (l : Lease6) (requested : Addr)
| Act6LeaseChanged (l : Lease6)
| Act6LeaseRenewed (l : Lease6)
| Act6LeaseLost (r : Reason) (l : Lease6)
| Act6Failed (r : Reason) (status : StatusCode) (text : Note)
| Act6Journal (text : Note)
| Act6SendRouterSolicit
| Act6StartDAD (target : Addr)
| Act6Configured (c : Config6)
| Act6RouterObserved (r : RouterObservation).

Record Action6 := mkAction6 { Act6ID : ActionID; Act6Body : ActionBody6 }.

(** ** What the fields hold *)

Inductive iaScope := scopeAll | scopeNA | scopePD.
#[global] Instance iaScope_eq_dec : EqDecision iaScope.
Proof. solve_decision. Defined.

(** One Advertise the collection window kept. *)
Record advert6 := mkAdvert6 {
  adServer : bytes; adPref : Z; adAddrs : list Addr6T; adTemp : list Addr6T; adPrefixes : list Prefix6;
  adT1 : Duration; adT2 : Duration; adSeq : Z }.

Record deferredPIO := mkDeferred { dfAt : Instant; dfPrefix : Prefix; dfInfo : PrefixInfo }.

(** The closures [afterDecline] is given: the restart of the discovery, and the
    binding of what [declineTemporary] kept. *)
Inductive AfterDecline := ThenRestart | ThenBindPending.

Inductive ReconfigureRefusal :=
| ReconfigureRefusalNone | ReconfigureRefusalUnwilling | ReconfigureRefusalExchangeInFlight
| ReconfigureRefusalNotUnicast | ReconfigureRefusalNoServerID | ReconfigureRefusalAmbiguousServerID
| ReconfigureRefusalNoClientID | ReconfigureRefusalForeignClientID | ReconfigureRefusalNoReconfigureMessage
| ReconfigureRefusalBadReconfigureMessage | ReconfigureRefusalNoAuth | ReconfigureRefusalUnreadableAuth
| ReconfigureRefusalNotRKAP | ReconfigureRefusalNoKey | ReconfigureRefusalBadDigest | ReconfigureRefusalReplay
| ReconfigureRefusalNoLease | ReconfigureRefusalNoConfiguration | ReconfigureRefusalUndefinedMessage.

#[global] Instance ReconfigureRefusal_eq_dec : EqDecision ReconfigureRefusal.
Proof. solve_decision. Defined.

(** The array [Refused] is a function of its index. *)
Record ReconfigureCounters := mkReconfCounts { rcAccepted : Z; rcRefused : ReconfigureRefusal -> Z }.
#[global] Instance eta_ReconfigureCounters : Settable ReconfigureCounters := fun c =>
  mkReconfCounts (rcAccepted c) (rcRefused c).

Record reconfServer := mkReconfServer { rsKey : bytes; rsReplay : Z; rsSeen : bool }.

Record RapidCommit6Counters := mkRapid6 { Rapid6Accepted : Z; Rapid6Refused : Z }.
#[global] Instance eta_Rapid6 : Settable RapidCommit6Counters := fun c => mkRapid6 (Rapid6Accepted c) (Rapid6Refused c).

Record Temporary6Counters := mkTemp6 { TaGranted : Z; TaAbsent : Z; TaRefused : Z; TaConflicted : Z }.
#[global] Instance eta_Temp6 : Settable Temporary6Counters := fun c =>
  mkTemp6 (TaGranted c) (TaAbsent c) (TaRefused c) (TaConflicted c).

Record Prefix6Counters := mkPd6 { PdGranted : Z; PdAbsent : Z; PdRefused : Z; PdChanged : Z }.
#[global] Instance eta_Pd6 : Settable Prefix6Counters := fun c =>
  mkPd6 (PdGranted c) (PdAbsent c) (PdRefused c) (PdChanged c).

Definition incr (z : Z) : Z := u64 (z + 1).

(** ** The machine *)

(** The fields of [Machine6] but for the action counter, which only [stamp6]
    touches.  A message type of 0 is no exchange, an empty list is a nil slice. *)
Record Core6 := mkCore6 {
  nparams : Params6;
  nhostname : gostring;
  nexchangeName : gostring;
  nnameOnWire : gostring;
  nstate : State6;
  nmsgType : MessageTypeV6;
  nxid : Z;
  nsched : Retransmit;
  nexchangeStart : Instant;
  nrt : Duration;
  ntransmits : Z;
  nsendFailures : Z;
  npendingType : MessageTypeV6;
  nadverts : list advert6;
  nwindowDone : bool;
  ntried : list bytes;
  nserver : bytes;
  nlease : Lease6;
  nhaveLse : bool;
  npending : Lease6;
  nhavePending : bool;
  npendingRenewal : bool;
  ndadWait : list Addr;
  ndadBad : list Addr;
  ncarried : list Addr;
  ndeclining : list Addr;
  ndecliningTA : list Addr;
  nreleasing : list Addr6T;
  nreleasingPrefixes : list Prefix6;
  nreleasingTA : list Addr6T;
  nreleasePD : list Prefix6;
  nreleasePDServer : bytes;
  nafterDecline : option AfterDecline;
  ndeclined : list Addr;
  nresume : option Resume6;
  nrouter : RouterObservation;
  nrouters : routerTable;
  nrsCount : Z;
  nconfig : Config6;
  nrefresh : Duration;
  nreconf : gmap bytes reconfServer;
  nreconfCounts : ReconfigureCounters;
  nrapidCounts : RapidCommit6Counters;
  ntempCounts : Temporary6Counters;
  npdCounts : Prefix6Counters;
  nresumeRebind : bool;
  nrebindOwed : bool;
  npdSent : bool;
  nnaSent : bool;
  nscope : iaScope;
  nnextScope : iaScope;
  nholdoff : Instant;
  nomitRT : Duration;
  nresumeAt : Instant;
  nhintOffLink : Addr;
  nreconfDetour : bool;
  nreconfServerID : bytes;
  nrefreshOwed : bool;
  nslaac : slaacTable;
  nslaacPhases : gmap Addr bool;
  nautoDecided : bool;
  ndhcpCommitted : bool;
  ndeferredPrefixes : list deferredPIO;
  nwantConfig : bool;
  naskedConfig : bool }.

#[global] Instance eta_Core6 : Settable Core6 := fun m =>
  mkCore6 (nparams m) (nhostname m) (nexchangeName m) (nnameOnWire m) (nstate m) (nmsgType m) (nxid m) (nsched m)
    (nexchangeStart m) (nrt m) (ntransmits m) (nsendFailures m) (npendingType m) (nadverts m)
    (nwindowDone m) (ntried m) (nserver m) (nlease m) (nhaveLse m) (npending m) (nhavePending m)
    (npendingRenewal m) (ndadWait m) (ndadBad m) (ncarried m) (ndeclining m) (ndecliningTA m) (nreleasing m)
    (nreleasingPrefixes m) (nreleasingTA m) (nreleasePD m) (nreleasePDServer m) (nafterDecline m)
    (ndeclined m) (nresume m) (nrouter m) (nrouters m) (nrsCount m) (nconfig m) (nrefresh m) (nreconf m)
    (nreconfCounts m) (nrapidCounts m) (ntempCounts m) (npdCounts m) (nresumeRebind m) (nrebindOwed m)
    (npdSent m) (nnaSent m) (nscope m) (nnextScope m) (nholdoff m) (nomitRT m) (nresumeAt m)
    (nhintOffLink m) (nreconfDetour m) (nreconfServerID m) (nrefreshOwed m) (nslaac m) (nslaacPhases m)
    (nautoDecided m) (ndhcpCommitted m) (ndeferredPrefixes m) (nwantConfig m) (naskedConfig m).

Record Machine6 := mkMachine6 { ncore : Core6; nnextAction : ActionID }.

Definition router_zero : RouterObservation := mkRouterObservation false false false AddrZero [] [] 0 [] [] [] [].

(** [rememberDeclined] on the set it extends. *)
Definition rememberNew (l addrs : list Addr) : list Addr :=
  foldl (fun l a => if containsAddr l a then l else l ++ [a]) l addrs.

Definition seedReconfigure (r : option Resume6) : gmap bytes reconfServer :=
  match r with
  | None => ∅
  | Some r =>
    if (length (r6ReconfigureKey r) =? 0)%nat then ∅ else
    {[ r6ServerDUID r := mkReconfServer (r6ReconfigureKey r) (r6ReconfigureReplay r)
         (r6ReconfigureReplaySeen r || negb (r6ReconfigureReplay r =? 0)) ]}
  end.

(** [Params6.Clone] copies: a value is the model of each slice and pointer. *)
Definition New6 (p : Params6) : Param6Err + Machine6 :=
  match params6_validate p with
  | Some e => inl e
  | None =>
    inr (mkMachine6
      (mkCore6 p (P6Hostname p) [] [] State6Stopped 0 0 (mkRetransmit 0 0 0 0) 0 0 0 0 0 [] false [] []
        lease6_zero false lease6_zero false false [] [] [] [] [] [] [] [] [] [] None
        (rememberNew [] (P6Declined p)) (P6Resume p) router_zero routerTable_zero 0 (mkConfig6 [] [] 0) 0
        (seedReconfigure (P6Resume p)) (mkReconfCounts 0 (fun _ => 0)) (mkRapid6 0 0) (mkTemp6 0 0 0 0)
        (mkPd6 0 0 0 0) false false false false scopeAll scopeAll 0 0 0 AddrZero false [] false table_zero
        ∅ false false [] false false) 0)
  end.

(** ** The monad *)

Record St6 := mkSt6 { core6 : Core6; next6 : ActionID; out6 : list Action6 }.

Definition M6 (A : Type) := St6 -> option (A * St6).

#[global] Instance M6_ret : MRet M6 := fun A a s => Some (a, s).
#[global] Instance M6_bind : MBind M6 := fun A B f c s =>
  match c s with
  | Some (a, s') => f a s'
  | None => None
  end.

Definition get6 : M6 Core6 := fun s => Some (core6 s, s).

Definition modify6 (f : Core6 -> Core6) : M6 unit := fun s => Some (tt, mkSt6 (f (core6 s)) (next6 s) (out6 s)).

(** [m.field = v] *)
Notation "f ::= v" := (modify6 (fun k : Core6 => k <| f := v |>)) (at level 60, only parsing).

(** A run-time panic of the Go program. *)
Definition panic6 {A} : M6 A := fun _ => None.

Definition lift6 {A} (x : option A) : M6 A := match x with Some a => mret a | None => panic6 end.

(** A call into package wire: the value or the error it returns. *)
Definition liftw6 {A} (x : wire A) : M6 (A + WireErr) :=
  match x with Ok a => mret (inl a) | Err e => mret (inr e) | _ => panic6 end.

(** A call whose error the code has already handled. *)
Definition liftok6 {A} (x : wire A) : M6 A := match x with Ok a => mret a | _ => panic6 end.

Definition when6 (b : bool) (c : M6 unit) : M6 unit := if b then c else mret tt.

(** [actions.stamp] and [takeActionID]. *)
Definition stamp6 (b : ActionBody6) : M6 unit := fun s =>
  Some (tt, mkSt6 (core6 s) (u64 (next6 s + 1)) (out6 s ++ [mkAction6 (next6 s) b])).

Definition sendV6 (msg : MessageV6) : M6 unit := stamp6 (Act6Send msg AllDHCPRelayAgentsAndServers).
Definition set6 (t : TimerID) (d : Duration) : M6 unit := stamp6 (Act6SetTimer t d).
Definition cancel6 (t : TimerID) : M6 unit := stamp6 (Act6CancelTimer t).
Definition journal6 (n : Note) : M6 unit := stamp6 (Act6Journal n).
Definition failed6 (r : Reason) (n : Note) : M6 unit := stamp6 (Act6Failed r StatusSuccess n).
(** [actions.refused] *)
Definition nak6 (st : StatusCode) (n : Note) : M6 unit := stamp6 (Act6Failed ReasonNak st n).

Fixpoint forM6 {A} (l : list A) (f : A -> M6 unit) : M6 unit :=
  match l with [] => mret tt | x :: l => f x ;; forM6 l f end.

Definition cancelAll6 : M6 unit := forM6 AllTimerIDs cancel6.

(** [for _, n := range notes { out.journal(m, n) }] *)
Definition journals (n : Note) : M6 unit := forM6 n (fun l => journal6 [l]).

(** ** Accessors *)

Definition Machine6Lease (m : Core6) : Lease6 * bool := (nlease m, nhaveLse m).
Definition MaxRT (m : Core6) : Duration * Duration := (SolMaxRT (nparams m), InfMaxRT (nparams m)).
Definition RouterTableDrops (m : Core6) : Z := rtRefused (nrouters m).
Definition RouterTableEvictions (m : Core6) : Z := rtEvicted (nrouters m).
Definition RouterOptionsIgnored (m : Core6) : Z := optIgnored (nrouters m).
Definition SLAACAddrs (m : Core6) : list Addr := map seAddr (entries (nslaac m)).

(** [Machine6.DADPhase] *)
Definition DADPhaseOf (m : Core6) : DADPhase :=
  if state6_eqb (nstate m) State6DAD && (0 <? length (ndadBad m))%nat then DADFailed else
  if state6_eqb (nstate m) State6DAD && (nmsgType m =? MsgDecline6) then DADFailed else
  if state6_eqb (nstate m) State6DAD then DADTentative else
  if nhaveLse m then DADPassed else DADIdle.

Definition RefusedTotal (c : ReconfigureCounters) : Z :=
  foldl (fun n r => u64 (n + rcRefused c r)) 0
    [ReconfigureRefusalUnwilling; ReconfigureRefusalExchangeInFlight; ReconfigureRefusalNotUnicast;
     ReconfigureRefusalNoServerID; ReconfigureRefusalAmbiguousServerID; ReconfigureRefusalNoClientID;
     ReconfigureRefusalForeignClientID; ReconfigureRefusalNoReconfigureMessage;
     ReconfigureRefusalBadReconfigureMessage; ReconfigureRefusalNoAuth; ReconfigureRefusalUnreadableAuth;
     ReconfigureRefusalNotRKAP; ReconfigureRefusalNoKey; ReconfigureRefusalBadDigest; ReconfigureRefusalReplay;
     ReconfigureRefusalNoLease; ReconfigureRefusalNoConfiguration; ReconfigureRefusalUndefinedMessage].
