(* ===== verification/Machine6.v ===== *)
(** * The DHCPv6 machine: proto/machine6.go and its companions

    Every method of [Machine6] that a step can reach, in dependency order:
    building messages, the exchange in flight, the lease's timers, router
    discovery and stateless addresses (proto/machine6_slaac.go), starting and
    restarting, duplicate address detection and the bound states, the host name
    (proto/machine6_hostname.go), declines and releases, the Replies
    (proto/temporary6.go, prefix6.go, rapidcommit6.go), reconfigure
    (proto/machine6_reconfigure.go), and [Step6]. *)

From S2P Require Import Prelude NetAddr Options Codec Forcerenew Arp Backoff Kinds Lease Dhcp6 Rkap Backoff6 Icmpv6 Lease6 Slaac Params6 Router6 Outward Core6.

(** ** Small reads *)

Definition randomDelay (max rnd : Z) : Duration := if max <=? 0 then 0 else rnd mod (max + 1).

Definition awaitingAddress (m : Core6) : bool :=
  if negb (formsAddresses (P6Mode (nparams m))) || ndhcpCommitted m then false
  else negb (nhaveLse m) && (length (entries (nslaac m)) =? 0)%nat.

Definition addrsOf (l : Lease6) : list Addr := map a6Addr (l6Addrs l).

Fixpoint refusalCode (codes : list StatusCode) : StatusCode :=
  match codes with
  | [] => StatusSuccess
  | c :: codes => if (c =? StatusSuccess) || (c =? StatusMalformed) then refusalCode codes else c
  end.

Definition solicitHint (m : Core6) : Addr :=
  let h := hintAddr (nparams m) in
  if IsValid h && (containsAddr (ndeclined m) h || addr_eqb h (nhintOffLink m)) then AddrZero else h.

Definition alreadyTried (m : Core6) (sid : bytes) : bool := existsb (fun t => sameDUID t sid) (ntried m).

Definition usablePrefixes (r : option Resume6) : list Prefix6 :=
  match r with None => [] | Some r => filter (fun p => usablePrefix (p6Prefix p) = true) (r6Prefixes r) end.

Definition resumedRebind (m : Core6) : bool :=
  nresumeRebind m && match nresume m with Some _ => true | None => false end.

Definition heldPrefixes (m : Core6) : list Prefix6 :=
  if nhaveLse m then l6Prefixes (nlease m) else if resumedRebind m then usablePrefixes (nresume m) else [].

Definition heldStart (m : Core6) : Instant := if nhaveLse m then l6Start (nlease m) else nexchangeStart m.

Definition resumeAddrs (m : Core6) : list Addr6T := match nresume m with Some r => r6Addrs r | None => [] end.

Definition heldIAs (m : Core6) : Lease6 :=
  let l := lease6_zero <| l6IAID := P6IAID (nparams m) |> <| l6Prefixes := heldPrefixes m |> in
  if nhaveLse m then l <| l6Addrs := l6Addrs (nlease m) |> <| l6TempAddrs := l6TempAddrs (nlease m) |>
  else if resumedRebind m then l <| l6Addrs := resumeAddrs m |> else l.

Definition heldPD (m : Core6) : bytes * Duration * Duration * Instant :=
  if nhaveLse m then (prefixServer (nlease m), l6pdT1 (nlease m), l6pdT2 (nlease m), pdOrigin (nlease m))
  else match nresumeRebind m, nresume m with
       | true, Some r =>
         (if (length (r6PrefixServerDUID r) =? 0)%nat then r6ServerDUID r else r6PrefixServerDUID r,
          r6T1 r, r6T2 r, nresumeAt m)
       | _, _ => ([], 0, 0, 0)
       end.

Definition keepHeldPD (m : Core6) (l : Lease6) : Lease6 :=
  let '(srv, t1, t2, start) := heldPD m in
  l <| l6PrefixServerDUID := srv |> <| l6pdT1 := t1 |> <| l6pdT2 := t2 |> <| l6pdStart := start |> <| l6pdTimed := true |>.

Definition pdOwed (m : Core6) (renewal : bool) : bool :=
  if negb renewal && bool_decide (nscope m = scopeAll)
  then (0 <? P6PrefixHint (nparams m)) || (0 <? length (l6Prefixes (npending m)))%nat
  else npdSent m.

(** The addresses of [l] that [held] does not hold: [unchecked], [freshTemp]. *)
Definition notHeld (held l : list Addr6T) : list Addr :=
  map a6Addr (filter (fun a => existsb (fun h => addr_eqb (a6Addr h) (a6Addr a)) held = false) l).
Definition unchecked (m : Core6) (l : Lease6) : list Addr := notHeld (l6Addrs (nlease m)) (l6Addrs l).
Definition freshTemp (m : Core6) (l : Lease6) : list Addr := notHeld (l6TempAddrs (nlease m)) (l6TempAddrs l).

Definition withReconfigure (m : Core6) (l : Lease6) : Lease6 :=
  match nreconf m !! l6ServerDUID l with
  | None => l
  | Some s => l <| l6ReconfigureKey := rsKey s |> <| l6ReconfigureReplay := rsReplay s |> <| l6ReconfigureReplaySeen := rsSeen s |>
  end.

(** [RFC 9915] section 21.14's option in any form, on a Reply. *)
Definition hasRapidOption6 (msg : option MessageV6) : bool :=
  match msg with Some msg => (MType msg =? MsgReply) && (0 <? Count (MOptionsV6 msg) OptV6RapidCommit) | None => false end.

(** ** Messages *)

Inductive BuildErr := ErrNoServerDUID (t : MessageTypeV6) | ErrBuild (e : WireErr).

Fixpoint iaAddrOptions (zeroLifetimes : bool) (addrs : list Addr6T) : wire OptionsV6 :=
  match addrs with
  | [] => Ok []
  | a :: addrs =>
    if negb (usable6 (a6Addr a)) then iaAddrOptions zeroLifetimes addrs else
    v ← EncodeIAAddr (mkIAAddr (a6Addr a)
          (if zeroLifetimes then 0 else durationToSeconds (a6Preferred a))
          (if zeroLifetimes then 0 else durationToSeconds (a6Valid a)) []);
    rest ← iaAddrOptions zeroLifetimes addrs;
    Ok (mkOptionV6 OptV6IAAddr v :: rest)
  end.

(** The addresses the IA_NA of a message carries and whether their lifetimes are
    zero; [None] is a message with no IA_NA. *)
Definition iaSubject (m : Core6) (t : MessageTypeV6) : option (list Addr6T * bool) :=
  if t =? MsgSolicit then
    Some (if IsValid (solicitHint m) then [mkAddr6 (solicitHint m) 0 0 0] else [], true)
  else if t =? MsgRequest6 then
    if bool_decide (nscope m = scopePD) then None else Some (l6Addrs (npending m), false)
  else if t =? MsgConfirm then Some (resumeAddrs m, true)
  else if (t =? MsgRenew) || (t =? MsgRebind) then
    if bool_decide (nscope m = scopePD) then None
    else if (t =? MsgRebind) && resumedRebind m then Some (resumeAddrs m, true)
    else Some (l6Addrs (nlease m), false)
  else if t =? MsgRelease6 then
    if (length (nreleasing m) =? 0)%nat then None else Some (nreleasing m, false)
  else if t =? MsgDecline6 then
    if (length (ndeclining m) =? 0)%nat then None else Some (map (fun a => mkAddr6 a 0 0 0) (ndeclining m), true)
  else None.

Definition buildIA (m : Core6) (t : MessageTypeV6) : wire (option OptionV6) :=
  match iaSubject m t with
  | None => Ok None
  | Some (addrs, zeroLifetimes) =>
    os ← iaAddrOptions zeroLifetimes addrs;
    v ← EncodeIANA (mkIANA (P6IAID (nparams m)) 0 0 os);
    Ok (Some (mkOptionV6 OptV6IANA v))
  end.

Definition buildTA (m : Core6) (addrs : list Addr6T) : wire OptionV6 :=
  os ← iaAddrOptions false addrs;
  v ← EncodeIATA (mkIATA (P6IAID (nparams m)) os);
  Ok (mkOptionV6 OptV6IATA v).

(** The closure [add] of [buildPD]. *)
Definition iaPrefixOption (p : Prefix) (pref valid : Z) : wire OptionV6 :=
  v ← EncodeIAPrefix (mkIAPrefix p pref valid []); Ok (mkOptionV6 OptV6IAPrefix v).

Fixpoint iaPrefixOptions (zero : bool) (ps : list Prefix6) : wire OptionsV6 :=
  match ps with
  | [] => Ok []
  | p :: ps =>
    o ← iaPrefixOption (p6Prefix p) (if zero then 0 else durationToSeconds (p6Preferred p))
          (if zero then 0 else durationToSeconds (p6Valid p));
    rest ← iaPrefixOptions zero ps;
    Ok (o :: rest)
  end.

Definition buildPD (m : Core6) (prefixes : list Prefix6) (hint : Z) (zero : bool) : wire OptionV6 :=
  os ← iaPrefixOptions zero prefixes;
  os ← (if (length prefixes =? 0)%nat && (0 <? hint)
        then o ← iaPrefixOption (PrefixFrom IPv6Unspecified hint) 0 0; Ok (os ++ [o]) else Ok os);
  v ← EncodeIAPD (mkIAPD (P6IAID (nparams m)) 0 0 os);
  Ok (mkOptionV6 OptV6IAPD v).

(** The prefixes, the hint and the zero flag of a message's IA_PD. *)
Definition pdSubject (m : Core6) (t : MessageTypeV6) : option (list Prefix6 * Z * bool) :=
  if t =? MsgSolicit then Some ([], P6PrefixHint (nparams m), false)
  else if t =? MsgRequest6 then
    if bool_decide (nscope m = scopeNA) then None else Some (l6Prefixes (npending m), P6PrefixHint (nparams m), false)
  else if t =? MsgRenew then
    if bool_decide (nscope m = scopeNA) then None else Some (l6Prefixes (nlease m), 0, false)
  else if t =? MsgRebind then
    if resumedRebind m then Some (usablePrefixes (nresume m), 0, true) else Some (l6Prefixes (nlease m), 0, false)
  else if t =? MsgRelease6 then Some (nreleasingPrefixes m, 0, false)
  else None.

Definition buildPDFor (m : Core6) (t : MessageTypeV6) : wire (option OptionV6) :=
  match pdSubject m t with
  | None => Ok None
  | Some (prefixes, hint, zero) =>
    if (length prefixes =? 0)%nat && (hint <=? 0) then Ok None else
    v ← buildPD m prefixes hint zero; Ok (Some v)
  end.

Definition opt_list {A} (o : option A) : list A := match o with Some x => [x] | None => [] end.

(** The temporary addresses a message names; [None] is a message with no IA_TA. *)
Definition taSubject (m : Core6) (t : MessageTypeV6) : option (list Addr6T) :=
  if (t =? MsgSolicit) && P6Temporary (nparams m) then Some []
  else if (t =? MsgRequest6) && P6Temporary (nparams m) && negb (bool_decide (nscope m = scopePD)) then
    Some (l6TempAddrs (npending m))
  else if (t =? MsgDecline6) && (0 <? length (ndecliningTA m))%nat then
    Some (map (fun a => mkAddr6 a 0 0 0) (ndecliningTA m))
  else if (t =? MsgRelease6) && (0 <? length (nreleasingTA m))%nat then Some (nreleasingTA m)
  else None.

Definition buildIAs (m : Core6) (t : MessageTypeV6) : wire OptionsV6 :=
  na ← buildIA m t;
  pd ← buildPDFor m t;
  match taSubject m t with
  | None => Ok (opt_list na ++ opt_list pd)
  | Some ta =>
    v ← buildTA m ta;
    Ok (if t =? MsgRelease6 then opt_list na ++ [v] ++ opt_list pd else opt_list na ++ opt_list pd ++ [v])
  end.

(** The messages option 39 may ride in (RFC 4704 section 5). *)
Definition mayCarryName (t : MessageTypeV6) : bool :=
  (t =? MsgSolicit) || (t =? MsgRequest6) || (t =? MsgRenew) || (t =? MsgRebind).

(** [fqdnOption]: nil and a value, or the error. *)
Definition fqdnOption (t : MessageTypeV6) : M6 (option bytes + WireErr) :=
  if negb (mayCarryName t) then mret (inl None) else
  m ← get6;
  nnameOnWire ::= nexchangeName m ;;
  if bytes_eqb (nexchangeName m) [] then mret (inl None) else
  r ← liftw6 (EncodeClientFQDN ClientFQDNFlagS (nexchangeName m));
  mret (match r with inl v => inl (Some v) | inr e => inr e end).

(** The Server Identifier a message carries, or the refusal to build it. *)
Definition serverIDOf (m : Core6) (t : MessageTypeV6) : OptionsV6 + BuildErr :=
  if (t =? MsgRequest6) || (t =? MsgRenew) || (t =? MsgRelease6) || (t =? MsgDecline6) then
    if (length (nserver m) =? 0)%nat then inr (ErrNoServerDUID t) else inl [mkOptionV6 OptV6ServerID (nserver m)]
  else if (t =? MsgInformationRequest) && (0 <? length (nreconfServerID m))%nat
  then inl [mkOptionV6 OptV6ServerID (nreconfServerID m)] else inl [].

Definition acceptOption (m : Core6) (t : MessageTypeV6) : OptionsV6 :=
  if P6AcceptReconfigure (nparams m) && ((t =? MsgSolicit) || (t =? MsgRequest6) || (t =? MsgInformationRequest))
  then [mkOptionV6 OptV6ReconfAccept []] else [].

Definition rapidOption (m : Core6) (t : MessageTypeV6) : OptionsV6 :=
  if P6RapidCommit (nparams m) && (t =? MsgSolicit) then [RapidCommitOption] else [].

Definition oroOption (codes : list OptionCodeV6) : OptionsV6 :=
  if (0 <? length codes)%nat then [mkOptionV6 OptV6ORO (codes ≫= be16)] else [].

Definition elapsedOption (m : Core6) (now : Instant) : OptionV6 :=
  mkOptionV6 OptV6ElapsedTime
    (be16 (ElapsedHundredths (u64 (Z.quot (nonNegative (Sub now (nexchangeStart m))) (10 * Millisecond))))).

Definition build (now : Instant) (t : MessageTypeV6) : M6 (MessageV6 + BuildErr) :=
  m ← get6;
  match serverIDOf m t with
  | inr e => mret (inr e)
  | inl sid =>
    ias ← liftw6 (buildIAs m t);
    match ias with
    | inr e => mret (inr (ErrBuild e))
    | inl ias =>
      fqdn ← fqdnOption t;
      match fqdn with
      | inr e => mret (inr (ErrBuild e))
      | inl fqdn =>
        let codes := oro (nparams m) t in
        let codes := match fqdn with
                     | Some _ => if negb (containsCode codes OptV6ClientFQDN) then codes ++ [OptV6ClientFQDN] else codes
                     | None => codes
                     end in
        mret (inl (mkMessageV6 t (nxid m)
          ([mkOptionV6 OptV6ClientID (P6DUID (nparams m))] ++ sid ++ acceptOption m t ++ rapidOption m t ++ ias
           ++ map (mkOptionV6 OptV6ClientFQDN) (opt_list fqdn) ++ oroOption codes ++ [elapsedOption m now])))
      end
    end
  end.

(** ** The exchange in flight *)

Definition schedule (m : Core6) (t : MessageTypeV6) : Retransmit :=
  let p := nparams m in
  if t =? MsgSolicit then SolicitRT p
  else if t =? MsgRequest6 then RequestRT p
  else if t =? MsgConfirm then ConfirmRT p
  else if t =? MsgRenew then RenewRT p
  else if t =? MsgRebind then if nresumeRebind m then ConfirmRT p else RebindRT p
  else if t =? MsgInformationRequest then InfoRequestRT p
  else if t =? MsgRelease6 then ReleaseRT p
  else if t =? MsgDecline6 then DeclineRT p
  else SolicitRT p.

Definition buildErrNote (t : MessageTypeV6) (e : BuildErr) : Note :=
  match e with
  | ErrNoServerDUID t' => note "cannot build a %s: a %s requires a Server Identifier option and this machine has no server DUID" [AType6 t; AType6 t']
  | ErrBuild e => note "cannot build a %s: %s" [AType6 t; AErr e]
  end.

Definition transmit (now : Instant) : M6 unit :=
  m ← get6;
  r ← build now (nmsgType m);
  match r with
  | inr e => failed6 ReasonTransport (buildErrNote (nmsgType m) e)
  | inl msg =>
    ntransmits ::= i64 (ntransmits m + 1) ;;
    when6 (0 <? Count (MOptionsV6 msg) OptV6IAPD) (npdSent ::= true) ;;
    when6 (0 <? Count (MOptionsV6 msg) OptV6IANA) (nnaSent ::= true) ;;
    sendV6 msg ;;
    set6 Timer6Retransmit (nrt m)
  end.

(** The first retransmission time, with the Solicit's exception, and the state
    an exchange is in: the switch of [startExchangeAnswering]. *)
Definition firstRT (t : MessageTypeV6) (s : Retransmit) (rnd : Z) : Duration :=
  let rt := FirstRT s rnd in
  if (t =? MsgSolicit) && (rt <=? IRT s) then i64 (IRT s + 1) else rt.

Definition exchangeState (t : MessageTypeV6) (s : State6) : State6 :=
  if t =? MsgSolicit then State6Selecting
  else if t =? MsgRequest6 then State6Requesting
  else if t =? MsgConfirm then State6Confirming
  else if t =? MsgInformationRequest then State6InfoRequesting
  else if t =? MsgRenew then State6Renewing
  else if t =? MsgRebind then State6Rebinding
  else s.

Definition startExchangeAnswering (now : Instant) (rnd : Z) (t : MessageTypeV6) (sid : bytes) : M6 unit :=
  nreconfServerID ::= sid ;;
  nmsgType ::= t ;;
  m ← get6;
  nexchangeName ::= nhostname m ;;
  nxid ::= Z.land (u32 rnd) (MaxXID6 - 1) ;;
  nexchangeStart ::= now ;;
  ntransmits ::= 0 ;;
  npdSent ::= false ;;
  nnaSent ::= false ;;
  nscope ::= nnextScope m ;;
  nnextScope ::= scopeAll ;;
  nsched ::= schedule m t ;;
  nrt ::= firstRT t (schedule m t) rnd ;;
  nstate ::= exchangeState t (nstate m) ;;
  when6 (t =? MsgSolicit) (nwindowDone ::= false ;; nadverts ::= []) ;;
  transmit now.

Definition startExchange (now : Instant) (rnd : Z) (t : MessageTypeV6) : M6 unit :=
  startExchangeAnswering now rnd t [].

Definition startExchangeFor (now : Instant) (rnd : Z) (t : MessageTypeV6) (scope : iaScope) : M6 unit :=
  nnextScope ::= scope ;; startExchangeAnswering now rnd t [].

Definition retransmit (now : Instant) (rnd : Z) (exhausted : option (M6 unit)) : M6 unit :=
  m ← get6;
  let again :=
    (nrt ::= NextRT (nsched m) (nrt m) rnd ;; transmit now) in
  if Exhausted6 (nsched m) (ntransmits m) (Sub now (nexchangeStart m)) then
    match exhausted with
    | Some f => f
    | None =>
      journal6 (note "the %s exchange reported exhaustion with no bound configured: retransmitting anyway" [AType6 (nmsgType m)]) ;;
      again
    end
  else again.

Definition endExchange : M6 unit :=
  nmsgType ::= 0 ;;
  ndeclining ::= [] ;; ndecliningTA ::= [] ;;
  nafterDecline ::= None ;;
  cancel6 Timer6Retransmit.

(** ** The lease and its timers *)

Definition loseLease (r : Reason) : M6 unit :=
  m ← get6;
  if negb (nhaveLse m) then mret tt else
  nhaveLse ::= false ;;
  nlease ::= lease6_zero ;;
  stamp6 (Act6LeaseLost r (nlease m)).

Definition dropPending : M6 unit :=
  npending ::= lease6_zero ;; nhavePending ::= false ;; npendingRenewal ::= false ;;
  ndadWait ::= [] ;; ndadBad ::= [] ;; ncarried ::= [].

Definition halt (r : Reason) : M6 unit :=
  m ← get6;
  when6 (nhaveLse m) (loseLease r) ;;
  nslaac ::= (table_zero <| counts := counts (nslaac m) |>) ;;
  nslaacPhases ::= ∅ ;;
  ndeferredPrefixes ::= [] ;;
  nautoDecided ::= false ;; ndhcpCommitted ::= false ;;
  nwantConfig ::= false ;; naskedConfig ::= false ;;
  nresumeRebind ::= false ;; nrebindOwed ::= false ;;
  dropPending ;;
  nmsgType ::= 0 ;;
  ndeclining ::= [] ;; ndecliningTA ::= [] ;;
  nafterDecline ::= None ;;
  nstate ::= State6Stopped ;;
  cancelAll6.

Definition armDeadline (now : Instant) (t : TimerID) (ts : option Instant) : M6 unit :=
  match ts with
  | None => cancel6 t
  | Some ts => let d := Sub ts now in set6 t (if d <? 0 then 0 else d)
  end.

Definition armExpiry (now : Instant) : M6 unit :=
  m ← get6;
  let at_ := dExpire (Lease6Deadlines (nlease m)) in
  let at_ := match nextEnd (nlease m) with
             | Some e => match at_ with None => Some e | Some a => if Before e a then Some e else at_ end
             | None => at_
             end in
  armDeadline now Timer6Expire at_.

(** [renewalGroups] *)
Definition renewalGroups (m : Core6) : Deadlines * Deadlines :=
  let '(na, pd) := groupDeadlines (nlease m) in
  (na, mkDeadlines ((fun t => laterOf t (nholdoff m)) <$> dRenew pd) ((fun t => laterOf t (nholdoff m)) <$> dRebind pd)
         (dExpire pd) (dNote pd)).

(** The times [armRenewal] arms. *)
Definition renewalTimes (m : Core6) : option Instant * option Instant :=
  let d := Lease6Deadlines (nlease m) in
  if l6pdTimed (nlease m) then
    let '(na, pd) := renewalGroups m in
    let renew := earliestDeadline (dRenew na) (dRenew pd) in
    let rebind := earliestDeadline (dRebind na) (dRebind pd) in
    (match rebind, renew with
     | Some rb, Some rn => if negb (After rb rn) then None else Some rn
     | _, _ => renew
     end, rebind)
  else (dRenew d, dRebind d).

Definition armRenewal (now : Instant) : M6 unit :=
  m ← get6;
  let '(renew, rebind) := renewalTimes m in
  armDeadline now Timer6Renew renew ;;
  armDeadline now Timer6Rebind rebind.

Definition armOwedRefresh (rnd : Z) : M6 unit :=
  m ← get6;
  if nrefreshOwed m then
    let dd := randomDelay (InfMaxDelay (nparams m)) rnd in
    journal6 (note "the lease is bound again and §21.23's refresh is still owed: Information-request after %s" [ADur dd]) ;;
    nreconfDetour ::= true ;;
    npendingType ::= MsgInformationRequest ;;
    set6 Timer6Delay dd
  else mret tt.

Definition dropEnded (now : Instant) : M6 bool :=
  m ← get6;
  if l6SLAAC (nlease m) ||
     match dExpire (Lease6Deadlines (nlease m)) with Some e => negb (Before now e) | None => false end
  then mret false else
  let '(l, n) := withoutEnded (nlease m) now in
  if n =? 0 then
    journal6 (note "the expiry timer fired before any valid lifetime in the lease ran out: armed again" []) ;;
    armExpiry now ;; mret true
  else
    when6 (length (l6Prefixes l) <? length (l6Prefixes (nlease m)))%nat
      (npdCounts ::= (npdCounts m <| PdChanged := incr (PdChanged (npdCounts m)) |>)) ;;
    journal6 (note "%d binding(s) reached the valid lifetime and left the lease (§6.2, §6.3)" [ANum n]) ;;
    nlease ::= canonPD l ;;
    armExpiry now ;;
    stamp6 (Act6LeaseChanged (canonPD l)) ;;
    mret true.

(** [resumeBound] *)
Definition resumeBound (now : Instant) (rnd : Z) : M6 unit :=
  nmsgType ::= 0 ;;
  cancel6 Timer6Retransmit ;;
  dropPending ;;
  nstate ::= State6Bound ;;
  armRenewal now ;; armExpiry now ;; armOwedRefresh rnd.

(** ** Router discovery and stateless addresses *)

(** [m.slaac.counts.Ignored[why]++]; [why] is one of the ten reasons. *)
Definition slaacIgnored (t : slaacTable) (why : SLAACIgnore) : slaacTable :=
  t <| counts := counts t <| scIgnored := alter incr why (scIgnored (counts t)) |> |>.

Definition solicitRouter : M6 unit :=
  m ← get6;
  if routerSolicitations (nparams m) <=? nrsCount m then mret tt else
  nrsCount ::= i64 (nrsCount m + 1) ;;
  stamp6 Act6SendRouterSolicit ;;
  if i64 (nrsCount m + 1) <? routerSolicitations (nparams m) then
    set6 Timer6RouterSolicit (routerSolicitInterval (nparams m))
  else if awaitingAddress m then set6 Timer6RouterSolicit MaxRtrSolicitationDelay
  else cancel6 Timer6RouterSolicit.

Definition startRouterDiscovery : M6 unit :=
  m ← get6;
  if roSeen (nrouter m) && negb (awaitingAddress m) then mret tt else solicitRouter.

Definition armSLAAC (now : Instant) : M6 unit :=
  m ← get6;
  match Slaac.next (nslaac m) now with
  | None => cancel6 Timer6SLAAC
  | Some ts => let d := Sub ts now in set6 Timer6SLAAC (if d <? 0 then 0 else d)
  end.

Definition maybeInfoRequest (now : Instant) (rnd : Z) : M6 unit :=
  m ← get6;
  if negb (nwantConfig m) || naskedConfig m || negb (nmsgType m =? 0) then mret tt else
  if negb (state6_eqb (nstate m) State6Bound) then mret tt else
  naskedConfig ::= true ;;
  journal6 (note "the router offers other configuration over DHCPv6: Information-request (§18.2.6)" []) ;;
  startExchange now rnd MsgInformationRequest.

Definition startDAD (addrs : list Addr) : M6 unit :=
  ndadWait ::= addrs ;;
  ndadBad ::= [] ;;
  nstate ::= State6DAD ;;
  forM6 addrs (fun a => stamp6 (Act6StartDAD a)) ;;
  m ← get6;
  set6 Timer6DAD (dadTimeout (nparams m)).

Definition enterBoundSLAAC (now : Instant) (rnd : Z) : M6 unit :=
  m ← get6;
  if (length (entries (nslaac m)) =? 0)%nat then mret tt else
  let l := slaacLease (nslaac m) now (P6IAID (nparams m)) in
  let ph := phases (nslaac m) now in
  nmsgType ::= 0 ;;
  nsendFailures ::= 0 ;;
  nlease ::= l ;; nhaveLse ::= true ;;
  nstate ::= State6Bound ;;
  nresume ::= None ;;
  ndhcpCommitted ::= false ;;
  cancel6 Timer6Retransmit ;;
  cancel6 Timer6Renew ;; cancel6 Timer6Rebind ;; cancel6 Timer6Expire ;; cancel6 Timer6AutoFallback ;;
  armSLAAC now ;;
  (if negb (nhaveLse m) then stamp6 (Act6LeaseAcquired l AddrZero)
   else stamp6 (Act6LeaseRenewed l) ;;
        when6 (phasesDiffer (nslaacPhases m) ph) (stamp6 (Act6LeaseChanged l))) ;;
  nslaacPhases ::= ph ;;
  maybeInfoRequest now rnd.

Definition reportSLAAC (now : Instant) (rnd : Z) : M6 unit :=
  m ← get6;
  let fresh := tentativeAddrs (nslaac m) in
  if (length fresh =? 0)%nat then enterBoundSLAAC now rnd else
  if state6_eqb (nstate m) State6DAD then
    journal6 (note "duplicate address detection is already running: the new address(es) are checked when it ends" [])
  else
  npending ::= slaacLease (nslaac m) now (P6IAID (nparams m)) ;;
  nhavePending ::= true ;; npendingRenewal ::= false ;;
  startDAD fresh.

(** The loop of [seedFromResume]. *)
Fixpoint seedLoop (now : Instant) (addrs : list Addr6T) : M6 unit :=
  match addrs with
  | [] => mret tt
  | a :: addrs =>
    m ← get6;
    (if negb (usable6 (a6Addr a)) then mret tt else
     if (MaxSLAACAddresses <=? length (entries (nslaac m)))%nat then
       nslaac ::= slaacIgnored (nslaac m) SLAACIgnoreCapReached
     else
     let p := Masked (PrefixFrom (a6Addr a) (128 - IIDBits)) in
     match find (nslaac m) p with
     | Some _ => mret tt
     | None =>
       nslaac ::= (nslaac m <| entries := entries (nslaac m) ++
         [mkSlaacEntry p (a6Addr a) now (a6Preferred a) (a6Valid a) false true] |>) ;;
       journal6 (note "remembered %s" [AAddr (a6Addr a)])
     end) ;;
    seedLoop now addrs
  end.

Definition seedFromResume (now : Instant) (r : Resume6) : M6 unit := seedLoop now (r6Addrs r).

Definition beginSLAAC (now : Instant) (rnd : Z) : M6 unit :=
  m ← get6;
  nadverts ::= [] ;; nwindowDone ::= false ;; ntried ::= [] ;;
  nsendFailures ::= 0 ;;
  nrsCount ::= 0 ;;
  nstate ::= State6Discovering ;;
  match live6 (nresume m), nresume m with
  | true, Some r =>
    seedFromResume now r ;;
    nresume ::= None ;;
    m ← get6;
    journal6 (note "continuing with %d remembered address(es) and their last known lifetimes"
      [ANum (Z.of_nat (length (entries (nslaac m))))]) ;;
    startRouterDiscovery ;;
    reportSLAAC now rnd
  | _, _ =>
    journal6 (note "waiting for a Router Advertisement carrying a prefix this client can form an address from (RFC 4862 §5.5.3)" []) ;;
    startRouterDiscovery
  end.

(** ** Starting and restarting *)

(** The first message of a start and the bound of its delay. *)
Definition firstExchange (m : Core6) : MessageTypeV6 * Duration * bool :=
  if live6 (nresume m) && (0 <? length (usablePrefixes (nresume m)))%nat then (MsgRebind, CnfMaxDelay (nparams m), true)
  else if live6 (nresume m) then (MsgConfirm, CnfMaxDelay (nparams m), false)
  else (MsgSolicit, SolMaxDelay (nparams m), false).

Definition begin (now : Instant) (rnd : Z) : M6 unit :=
  m ← get6;
  if formsAddresses (P6Mode (nparams m)) && negb (ndhcpCommitted m) then beginSLAAC now rnd else
  nadverts ::= [] ;; nwindowDone ::= false ;; ntried ::= [] ;;
  nsendFailures ::= 0 ;;
  nrsCount ::= 0 ;;
  startRouterDiscovery ;;
  let '(t, delay, rebind) := firstExchange m in
  when6 rebind (nresumeRebind ::= true ;; nrebindOwed ::= false ;; nresumeAt ::= now) ;;
  npendingType ::= t ;;
  nstate ::= State6Init ;;
  let d := randomDelay delay rnd in
  journal6 (note "starting: first %s after %s" [AType6 t; ADur d]) ;;
  set6 Timer6Delay d.

Definition restartDiscovery (now : Instant) (rnd : Z) : M6 unit :=
  m ← get6;
  nresume ::= None ;;
  nresumeRebind ::= false ;; nrebindOwed ::= false ;;
  cancel6 Timer6Renew ;;
  cancel6 Timer6Rebind ;;
  when6 (negb (nhaveLse m)) (cancel6 Timer6Expire) ;;
  begin now rnd.

Definition expireLease (now : Instant) (rnd : Z) : M6 unit :=
  m ← get6;
  if negb (nhaveLse m) then
    cancel6 Timer6Expire ;;
    journal6 (note "the expiry timer fired with no lease held: nothing to end" [])
  else
  dropped ← dropEnded now;
  if dropped : bool then mret tt else
  cancel6 Timer6Expire ;;
  journal6 (note "every valid lifetime in the IA has expired while %s (§18.2.5)" [AState6 (nstate m)]) ;;
  loseLease ReasonExpired ;;
  when6 (state6_eqb (nstate m) State6Bound || state6_eqb (nstate m) State6Renewing || state6_eqb (nstate m) State6Rebinding
         || state6_eqb (nstate m) State6Requesting && negb (bool_decide (nscope m = scopeAll)))
    (restartDiscovery now rnd).

(** ** The bound states *)

Definition abandonRefreshDelay : M6 unit :=
  m ← get6;
  if negb (nrefreshOwed m) || negb (state6_eqb (nstate m) State6Bound) then mret tt else
  nreconfDetour ::= false ;;
  cancel6 Timer6Delay ;;
  journal6 (note "a lease exchange starts while §21.23's refresh delay is pending: the delay is dropped and the Information-request is armed again when the lease is bound" []).

Definition enterRebinding (now : Instant) (rnd : Z) : M6 unit :=
  abandonRefreshDelay ;;
  nserver ::= [] ;;
  journal6 (note "T2: rebinding" []) ;;
  startExchange now rnd MsgRebind.

(** The server a Renew goes to and the IAs it names. *)
Definition renewalTarget (m : Core6) : bytes * iaScope :=
  if Lease6_split (nlease m) then
    let '(na, pd) := renewalGroups m in
    match dRenew pd with
    | Some rp =>
      if match dRenew na with None => true | Some rn => Before rp rn end
      then (l6PrefixServerDUID (nlease m), scopePD) else (l6ServerDUID (nlease m), scopeNA)
    | None => (l6ServerDUID (nlease m), scopeNA)
    end
  else (l6ServerDUID (nlease m), scopeAll).

Definition enterRenewing (now : Instant) (rnd : Z) : M6 unit :=
  abandonRefreshDelay ;;
  m ← get6;
  if (length (l6ServerDUID (nlease m)) =? 0)%nat then
    journal6 (note "the lease names no server: rebinding instead of renewing (§18.2.4 requires a Server Identifier)" []) ;;
    enterRebinding now rnd
  else
  let '(srv, scope) := renewalTarget m in
  nserver ::= srv ;;
  journal6 (note "T1: renewing" []) ;;
  startExchangeFor now rnd MsgRenew scope.

(** [announceHostname6] (proto/machine6_hostname.go) *)
Definition announceHostname6 (now : Instant) (rnd : Z) : M6 bool :=
  m ← get6;
  if bytes_eqb (nhostname m) [] || bytes_eqb (nhostname m) (nnameOnWire m) then mret false else
  let told := (k ← get6; mret (bytes_eqb (nnameOnWire k) (nhostname k))) in
  match nstate m with
  | State6Bound =>
    if negb (nhaveLse m) || l6SLAAC (nlease m) then mret false else
    journal6 (note "a new name: renewing before T1 to carry it" []) ;;
    enterRenewing now rnd ;; told
  | State6Renewing =>
    journal6 (note "a new name: the Renew restarts as a new exchange carrying it" []) ;;
    startExchange now rnd MsgRenew ;; told
  | State6Rebinding =>
    journal6 (note "a new name: the Rebind restarts as a new exchange carrying it" []) ;;
    startExchange now rnd MsgRebind ;; told
  | _ => mret false
  end.

Definition takeHostname6 (now : Instant) (rnd : Z) (name : gostring) : M6 unit :=
  match ValidateHostname6 name with
  | Some _ => journal6 (note "hostname refused: %s" [AText name])
  | None =>
    nhostname ::= name ;;
    told ← announceHostname6 now rnd;
    if told : bool then mret tt else
    m ← get6;
    journal6 (note "hostname %q recorded in %s: option 39 last carried %q and no message was sent"
      [AText (nhostname m); AState6 (nstate m); AText (nnameOnWire m)])
  end.

Definition enterBound (now : Instant) (rnd : Z) (l : Lease6) : M6 unit :=
  nmsgType ::= 0 ;;
  cancel6 Timer6Retransmit ;;
  nsendFailures ::= 0 ;;
  m ← get6;
  let l := withReconfigure m l in
  nlease ::= l ;; nhaveLse ::= true ;;
  nstate ::= State6Bound ;;
  nresume ::= None ;;
  when6 (negb (note_empty (dNote (Lease6Deadlines l)))) (journal6 (dNote (Lease6Deadlines l))) ;;
  (if negb (nhaveLse m) then stamp6 (Act6LeaseAcquired l (solicitHint m))
   else stamp6 (Act6LeaseRenewed l) ;;
        when6 (negb (Lease6Equal (nlease m) l)) (stamp6 (Act6LeaseChanged l))) ;;
  armRenewal now ;;
  armExpiry now ;;
  armOwedRefresh rnd ;;
  _ ← announceHostname6 now rnd;
  mret tt.

(** ** Declines *)

Definition runAfterDecline (now : Instant) (rnd : Z) (then_ : AfterDecline) : M6 unit :=
  match then_ with
  | ThenRestart => restartDiscovery now rnd
  | ThenBindPending =>
    m ← get6;
    dropPending ;;
    enterBound now rnd (npending m)
  end.

Definition declineSet (now : Instant) (rnd : Z) (server : bytes) (addrs temp : list Addr) (then_ : AfterDecline) : M6 unit :=
  if (length addrs + length temp =? 0)%nat then
    journal6 (note "nothing to decline: the lease carries no address (§18.2.8)" []) ;;
    runAfterDecline now rnd then_
  else
  m ← get6;
  ndeclined ::= rememberNew (ndeclined m) addrs ;;
  if (length server =? 0)%nat then
    journal6 (note "the lease names no server: no Decline can be sent (§18.2.8 requires a Server Identifier identifying the server that allocated the lease)" []) ;;
    runAfterDecline now rnd then_
  else
  nserver ::= server ;;
  ndeclining ::= addrs ;;
  ndecliningTA ::= temp ;;
  nafterDecline ::= Some then_ ;;
  nstate ::= State6DAD ;;
  cancel6 Timer6DAD ;;
  startExchange now rnd MsgDecline6 ;;
  nstate ::= State6DAD.

Definition declineAll (now : Instant) (rnd : Z) (l : Lease6) (then_ : AfterDecline) : M6 unit :=
  declineSet now rnd (l6ServerDUID l) (addrsOf l) [] then_.

Definition declineTemporary (now : Instant) (rnd : Z) (bad : list Addr) : M6 unit :=
  m ← get6;
  let l := npending m in
  journal6 (note "duplicate address detection found %d temporary address(es) in use: declining them alone and keeping the stable lease (§18.2.10.1)"
    [ANum (Z.of_nat (length bad))]) ;;
  npending ::= withoutTemp l bad ;;
  ndadWait ::= [] ;; ndadBad ::= [] ;;
  declineSet now rnd (l6ServerDUID l) [] bad ThenBindPending.

Definition finishDecline (now : Instant) (rnd : Z) : M6 unit :=
  m ← get6;
  endExchange ;;
  match nafterDecline m with
  | None => restartDiscovery now rnd
  | Some then_ => runAfterDecline now rnd then_
  end.

(** ** Duplicate address detection *)

(** One address whose check found another node: the loop of [finishSLAACDAD];
    whether a new candidate was formed. *)
Fixpoint badLoop (src : iidSource) (bad : list Addr) (retried : bool) : M6 bool :=
  match bad with
  | [] => mret retried
  | a :: bad =>
    m ← get6;
    let t := refuse (nslaac m) a in
    r ← lift6 (retry t a src);
    let '(t, nxt, n, ok) := r in
    if ok : bool then
      nslaac ::= (t <| counts := counts t <| scConflicts := incr (scConflicts (counts t)) |> |>) ;;
      journal6 (note "duplicate address detection found %s in use: trying %s, DAD_Counter %d (RFC 7217 §6)" [AAddr a; AAddr nxt; ANum n]) ;;
      badLoop src bad true
    else
      let '(t, dropped) := dropAddr t a in
      nslaac ::= (if dropped : bool then t <| counts := counts t <| scConflicts := incr (scConflicts (counts t)) |> |> else t) ;;
      badLoop src bad retried
  end.

Definition finishSLAACDAD (now : Instant) (rnd : Z) : M6 unit :=
  cancel6 Timer6DAD ;;
  m ← get6;
  let bad := ndadBad m in
  retried ← badLoop (iidSourceOf (nparams m)) bad false;
  m ← get6;
  let asked := l6Addrs (npending m) in
  dropPending ;;
  nslaac ::= foldl (fun t a => settle t (a6Addr a)) (nslaac m) asked ;;
  m ← get6;
  let rest := tentativeAddrs (nslaac m) in
  if (0 <? length rest)%nat then
    when6 (negb retried) (journal6 (note "a prefix arrived while duplicate address detection was running: checking %v as well" [AAddrs rest])) ;;
    npending ::= slaacLease (nslaac m) now (P6IAID (nparams m)) ;;
    nhavePending ::= true ;; npendingRenewal ::= false ;;
    startDAD rest
  else
  if (0 <? length (entries (nslaac m)))%nat then
    when6 (0 <? length bad)%nat
      (journal6 (note "duplicate address detection found %v in use: dropped, %d address(es) remain"
        [AAddrs bad; ANum (Z.of_nat (length (entries (nslaac m))))])) ;;
    enterBoundSLAAC now rnd
  else
  let text := note "duplicate address detection found every formed address in use: %v (RFC 4862 §5.4.5)" [AAddrs bad] in
  journal6 text ;;
  (if nhaveLse m then loseLease ReasonConflict else failed6 ReasonConflict text) ;;
  cancel6 Timer6SLAAC ;;
  nslaacPhases ::= ∅ ;;
  beginSLAAC now rnd.

(** The first occurrence of an address taken out of a list. *)
Fixpoint removeFirst (l : list Addr) (a : Addr) : option (list Addr) :=
  match l with
  | [] => None
  | x :: l => if addr_eqb x a then Some l else cons x <$> removeFirst l a
  end.

(** What the Reply named of a lease, the carried addresses left out. *)
Definition withoutCarried (carried : list Addr) (l : Lease6) : Lease6 :=
  if (0 <? length carried)%nat
  then l <| l6Addrs := filter (fun a => containsAddr carried (a6Addr a) = false) (l6Addrs l) |> else l.

(** Every answer is in and at least one is a duplicate. *)
Definition dadConflict (now : Instant) (rnd : Z) : M6 unit :=
  m ← get6;
  let tempBad := filter (fun a => isTemp (npending m) a = true) (ndadBad m) in
  ntempCounts ::= (ntempCounts m <| TaConflicted := u64 (TaConflicted (ntempCounts m) + Z.of_nat (length tempBad)) |>) ;;
  if negb (existsb (fun a => negb (isTemp (npending m) a)) (ndadBad m)) then declineTemporary now rnd tempBad else
  let bad := withoutCarried (ncarried m) (npending m) in
  let granted := freshTemp m bad in
  let text := note "duplicate address detection found %d of %d address(es) in use: declining the IA (§18.2.10.1)"
    [ANum (Z.of_nat (length (ndadBad m))); ANum (Z.of_nat (length (l6Addrs bad) + length (l6TempAddrs bad)))] in
  journal6 text ;;
  dropPending ;;
  when6 (negb (nhaveLse m)) (failed6 ReasonConflict text) ;;
  declineSet now rnd (l6ServerDUID bad) (addrsOf bad) granted ThenRestart.

Definition dadNote (addr : Addr) (dup : bool) (rest : string) : Note :=
  note (if dup then "duplicate address detection reported %s duplicate" else "duplicate address detection reported %s free") [AAddr addr]
  ++ (if String.eqb rest "" then [] else note rest []).

Definition takeDADResult (now : Instant) (rnd : Z) (addr : Addr) (dup : bool) : M6 unit :=
  m ← get6;
  match removeFirst (ndadWait m) addr with
  | None => journal6 (dadNote addr dup ", which this machine did not ask about: ignored")
  | Some wait =>
    ndadWait ::= wait ;;
    when6 dup (ndadBad ::= (ndadBad m ++ [addr])) ;;
    journal6 (dadNote addr dup "") ;;
    if (0 <? length wait)%nat then mret tt else
    if l6SLAAC (npending m) then finishSLAACDAD now rnd else
    cancel6 Timer6DAD ;;
    k ← get6;
    if (length (ndadBad k) =? 0)%nat then
      dropPending ;;
      enterBound now rnd (npending k) ;;
      k ← get6;
      when6 (nrebindOwed k) (nrebindOwed ::= false ;; enterRebinding now rnd)
    else dadConflict now rnd
  end.

(** ** Release *)

Definition releaseDelegated (now : Instant) (rnd : Z) : M6 unit :=
  m ← get6;
  if (length (nreleasePD m) =? 0)%nat then mret tt else
  nserver ::= nreleasePDServer m ;;
  nreleasing ::= [] ;; nreleasingTA ::= [] ;; nreleasingPrefixes ::= nreleasePD m ;;
  nreleasePD ::= [] ;; nreleasePDServer ::= [] ;;
  journal6 (note "releasing the delegated prefixes with the server that delegated them (§18.2.7)" []) ;;
  startExchange now rnd MsgRelease6.

Definition release (now : Instant) (rnd : Z) : M6 unit :=
  m ← get6;
  if negb (nhaveLse m) then
    journal6 (note "release with no lease held: nothing to give back" []) ;;
    halt ReasonReleased
  else
  let l := nlease m in
  nserver ::= l6ServerDUID l ;;
  loseLease ReasonReleased ;;
  cancel6 Timer6Renew ;; cancel6 Timer6Rebind ;; cancel6 Timer6Expire ;;
  nreleasing ::= l6Addrs l ;;
  nreleasingPrefixes ::= (if Lease6_split l then [] else l6Prefixes l) ;;
  nreleasePD ::= (if Lease6_split l then l6Prefixes l else []) ;;
  nreleasePDServer ::= (if Lease6_split l then l6PrefixServerDUID l else []) ;;
  nreleasingTA ::= releaseTemps (l6TempAddrs l) ;;
  nstate ::= State6Stopped ;;
  if (length (l6ServerDUID l) =? 0)%nat then
    journal6 (note "the lease names no server: no Release can be sent, the binding will be reclaimed when its valid lifetime expires (§18.2.7)" []) ;;
    cancelAll6
  else startExchange now rnd MsgRelease6.

(** ** Admission and what every message changes *)

Definition countRapidDiscard (msg : option MessageV6) : M6 unit :=
  m ← get6;
  when6 (hasRapidOption6 msg) (nrapidCounts ::= (nrapidCounts m <| Rapid6Refused := incr (Rapid6Refused (nrapidCounts m)) |>)).

(** Why [admitMsg] turns a message down; [None] is an admitted one. *)
Definition admitWhy (m : Core6) (msg : option MessageV6) : MessageV6 + Note :=
  match msg with
  | None => inr (note "nil v6 message: discarded" [])
  | Some msg =>
    let o := MOptionsV6 msg in
    if nmsgType m =? 0 then inr (note "a %s arrived with no exchange in flight: discarded" [AType6 (MType msg)]) else
    if negb (MXID msg =? nxid m) then
      inr (note "%s xid=%06x does not match the outstanding %06x: discarded (§16.3, §16.10)"
        [AType6 (MType msg); ANum (MXID msg); ANum (nxid m)]) else
    let sids := Count o OptV6ServerID in
    if sids =? 0 then inr (note "%s carries no Server Identifier option: discarded (§16.3, §16.10)" [AType6 (MType msg)]) else
    if 1 <? sids then
      inr (note "%s carries %d Server Identifier options: discarded, the sender is ambiguous (§16, §21.3)" [AType6 (MType msg); ANum sids]) else
    match First o OptV6ClientID with
    | None => inr (note "%s carries no Client Identifier option: discarded (§16.3, §16.10)" [AType6 (MType msg)])
    | Some cid =>
      if negb (sameDUID cid (P6DUID (nparams m))) then
        inr (note "%s carries a Client Identifier that is not ours: discarded (§16.3, §16.10)" [AType6 (MType msg)])
      else inl msg
    end
  end.

Definition admit6 (msg : option MessageV6) : M6 (option MessageV6) :=
  m ← get6;
  match admitWhy m msg with
  | inl msg => mret (Some msg)
  | inr why => journal6 why ;; countRapidDiscard msg ;; mret None
  end.

Definition maxRTNotes (m : Core6) (t : MessageTypeV6) (applied ignored : list OptionCodeV6) : list Note :=
  map (fun c => note "%s from the %s: now %s" [ANum c; AType6 t;
         ADur (if c =? OptV6SolMaxRTCode then SolMaxRT (nparams m) else InfMaxRT (nparams m))]) applied
  ++ map (fun c => note "%s from the %s is outside 60..86400: ignored (§21.24, §21.25)" [ANum c; AType6 t]) ignored.

Definition applyMaxRT (msg : MessageV6) : M6 unit :=
  m ← get6;
  let '(p, applied, ignored, err) := ApplyOptions (nparams m) (MOptionsV6 msg) in
  nparams ::= p ;;
  e ← liftw6 err;
  match e with
  | inr e => journal6 (note "SOL_MAX_RT/INF_MAX_RT option: %s" [AErr e])
  | inl _ => m ← get6; forM6 (maxRTNotes m (MType msg) applied ignored) journal6
  end.

Definition readTemporary (o : OptionsV6) (stable : list Addr6T) (reply : bool) : M6 (list Addr6T) :=
  m ← get6;
  r ← liftok6 (readIATA o (P6IAID (nparams m)));
  let '(res, notes) := r in
  journals notes ;;
  let '(kept, ns) := dropStable (taAddrs res) stable in
  journals ns ;;
  let c := ntempCounts m in
  (if negb (taFound res) then
     ntempCounts ::= (c <| TaAbsent := incr (TaAbsent c) |>) ;;
     journal6 (note "no IA_TA in the message that answered a temporary-address request: the IA_NA lease stands" [])
   else if (length kept =? 0)%nat then
     ntempCounts ::= (c <| TaRefused := incr (TaRefused c) |>) ;;
     journal6 (note "the IA_TA gave no address (status %s): the IA_NA lease stands (§18.2.10.1)" [AStatus (taStatus res)])
   else when6 reply (
     ntempCounts ::= (c <| TaGranted := incr (TaGranted c) |>) ;;
     journal6 (note "the IA_TA gave %d temporary address(es)" [ANum (Z.of_nat (length kept))]))) ;;
  mret kept.

Definition ignoreTemporary (o : OptionsV6) : M6 unit :=
  when6 (0 <? Count o OptV6IATA)
    (journal6 (note "%d IA_TA option(s) in a message that answers none we sent: ignored" [ANum (Count o OptV6IATA)])).

Definition ignorePrefixes (o : OptionsV6) : M6 unit :=
  when6 (0 <? Count o OptV6IAPD)
    (journal6 (note "%d IA_PD option(s) in a message that answers none we sent: ignored" [ANum (Count o OptV6IAPD)])).

Definition countPrefixes (res : pdResult) (notes : Note) (grant : bool) : M6 unit :=
  journals notes ;;
  m ← get6;
  let c := npdCounts m in
  if negb (pdFound res) then
    npdCounts ::= (c <| PdAbsent := incr (PdAbsent c) |>) ;;
    journal6 (note "no IA_PD in the message that answered a prefix request: the IA_NA lease stands (§18.2.10.1)" [])
  else if (length (pdPrefixes res) =? 0)%nat then
    npdCounts ::= (c <| PdRefused := incr (PdRefused c) |>) ;;
    journal6 (note "the IA_PD gave no prefix (status %s): the IA_NA lease stands (§18.2.10.1)" [AStatus (pdStatus res)])
  else when6 grant (
    npdCounts ::= (c <| PdGranted := incr (PdGranted c) |>) ;;
    journal6 (note "the IA_PD gave %d delegated prefix(es)" [ANum (Z.of_nat (length (pdPrefixes res)))])).

(** [readPrefixes] *)
Definition readPrefixes (o : OptionsV6) (grant : bool) : M6 pdResult :=
  m ← get6;
  r ← liftok6 (readIAPD o (P6IAID (nparams m)));
  countPrefixes r.1 r.2 grant ;;
  mret r.1.

Definition statusNote (text : string) (st : Status) : Note := note text [AStatus (StCode st); AText (StMessage st)].

(** ** Selecting (RFC 9915 sections 18.2.1, 18.2.9) *)

(** The loop of [selectAndRequest]. *)
Fixpoint bestAdvert (m : Core6) (l : list advert6) (best : option advert6) : option advert6 :=
  match l with
  | [] => best
  | a :: l =>
    if alreadyTried m (adServer a) then bestAdvert m l best else
    match best with
    | None => bestAdvert m l (Some a)
    | Some b =>
      if (adPref b <? adPref a) || (adPref a =? adPref b) && (adSeq a <? adSeq b)
      then bestAdvert m l (Some a) else bestAdvert m l best
    end
  end.

Definition selectAndRequest (now : Instant) (rnd : Z) : M6 bool :=
  m ← get6;
  match bestAdvert m (nadverts m) None with
  | None => mret false
  | Some a =>
    nserver ::= adServer a ;;
    npending ::= (lease6_zero <| l6IAID := P6IAID (nparams m) |> <| l6Addrs := adAddrs a |> <| l6TempAddrs := adTemp a |>
      <| l6Prefixes := adPrefixes a |> <| l6ServerDUID := adServer a |> <| l6T1 := adT1 a |> <| l6T2 := adT2 a |>) ;;
    journal6 (note "selected the Advertise with preference %d (arrival %d of %d): requesting"
      [ANum (adPref a); ANum (adSeq a + 1); ANum (Z.of_nat (length (nadverts m)))]) ;;
    startExchange now rnd MsgRequest6 ;;
    mret true
  end.

(** The Advertise is one to ask: the second half of [takeAdvertise]. *)
Definition keepAdvertise (now : Instant) (rnd : Z) (msg : MessageV6) (res : iaResult) : M6 unit :=
  m ← get6;
  let o := MOptionsV6 msg in
  pref ← (match Preference o with
          | None => mret 0
          | Some r => r ← liftw6 r;
            match r with
            | inl v => mret v
            | inr e => journal6 (note "Advertise carries a malformed Preference option: %s; treated as preference 0" [AErr e]) ;; mret 0
            end
          end);
  temp ← (if P6Temporary (nparams m) then readTemporary o (iaAddrsOf res) false else mret []);
  prefixes ← (if 0 <? P6PrefixHint (nparams m) then r ← readPrefixes o false; mret (pdPrefixes r)
              else ignorePrefixes o ;; mret []);
  nadverts ::= (nadverts m ++ [mkAdvert6 (default [] (First o OptV6ServerID)) pref (iaAddrsOf res) temp prefixes
                                 (iaT1 res) (iaT2 res) (Z.of_nat (length (nadverts m)))]) ;;
  journal6 (note "Advertise collected: preference %d, %d address(es)" [ANum pref; ANum (Z.of_nat (length (iaAddrsOf res)))]) ;;
  f ← liftok6 (serverFQDN o);
  when6 (negb (note_empty f.2)) (journal6 f.2) ;;
  if pref =? 255 then
    journal6 (note "the Advertise carries preference 255: requesting immediately without waiting out the collection window (§18.2.1)" []) ;;
    nwindowDone ::= true ;;
    _ ← selectAndRequest now rnd; mret tt
  else if nwindowDone m then
    journal6 (note "an Advertise arrived after the collection window: acting on it at once (§18.2.1)" []) ;;
    _ ← selectAndRequest now rnd; mret tt
  else mret tt.

Definition takeAdvertise (now : Instant) (rnd : Z) (msg : MessageV6) : M6 unit :=
  applyMaxRT msg ;;
  let o := MOptionsV6 msg in
  s ← liftok6 (OptionsV6_Status o);
  let '(st, _, err) := s in
  match err with
  | Some _ => journal6 (note "Advertise carries a malformed Status Code option: ignored for selection, its SOL_MAX_RT was applied" [])
  | None =>
    if negb (StCode st =? StatusSuccess) then
      journal6 (note "Advertise says %s: ignored for selection, its SOL_MAX_RT was applied (§18.2.9)" [AStatus (StCode st)]) ;;
      when6 (negb (refusalCode [StCode st] =? StatusSuccess))
        (nak6 (refusalCode [StCode st]) (statusNote "the server answered the Solicit and offered nothing: %s" st))
    else
    m ← get6;
    r ← liftok6 (readIA o (P6IAID (nparams m)));
    let '(res, notes) := r in
    journals notes ;;
    let code := refusalCode [iaStatusOf res] in
    if negb (code =? StatusSuccess) then
      journal6 (note "the IA_NA in the Advertise says %s: ignored for selection (§18.3.9)" [AStatus code]) ;;
      nak6 code (note "the server answered the Solicit and offered nothing for our IA_NA: %s" [AStatus code])
    else if (length (iaAddrsOf res) =? 0)%nat then
      journal6 (note "Advertise offers no address in our IA_NA: ignored for selection, its SOL_MAX_RT was applied (§18.2.9)" [])
    else keepAdvertise now rnd msg res
  end.
