(* ===== verification/Machine6Steps.v ===== *)
(** * The DHCPv6 machine's Replies, advertisements, reconfigure and [Step6]

    What proto/machine6.go does with an admitted Reply, the stateless exchange,
    every Router Advertisement (proto/machine6_slaac.go), a Reconfigure
    (proto/machine6_reconfigure.go) and a Reply with Rapid Commit
    (proto/rapidcommit6.go); the ten states' handlers and [Step]. *)

From S2P Require Import Prelude NetAddr Options Codec Forcerenew Arp Backoff Kinds Lease Dhcp6 Rkap Backoff6 Icmpv6 Lease6 Slaac Params6 Router6 Outward Core6 Machine6.

(** ** Reconfigure keys (RFC 9915 section 20.4.3) *)

Definition noteReconfigureKey (msg : MessageV6) : M6 unit :=
  let o := MOptionsV6 msg in
  let t := MType msg in
  match OptionsV6_Auth o with
  | None => mret tt
  | Some r =>
    a ← liftw6 r;
    match a with
    | inr e => journal6 (note "the %s's Authentication option: %s" [AType6 t; AErr e])
    | inl a =>
      k ← liftw6 (RKAP a);
      match k with
      | inr e => journal6 (note "the %s's Authentication option: %s" [AType6 t; AErr e])
      | inl (typ, val) =>
        if negb (typ =? RKAPTypeKey) then
          journal6 (note "the %s carries RKAP authentication information of type %d, not §20.4.1's reconfigure key: ignored" [AType6 t; ANum typ])
        else
        let sid := default [] (First o OptV6ServerID) in
        if (length sid =? 0)%nat then
          journal6 (note "a reconfigure key arrived in a %s with no Server Identifier: ignored, §20.3 keys the replay counter on the server" [AType6 t])
        else
        m ← get6;
        let s := default (mkReconfServer [] 0 false) (nreconf m !! sid) in
        nreconf ::= <[sid := mkReconfServer val (rsReplay s) (rsSeen s)]> (nreconf m) ;;
        journal6 (note "the %s carries a %d-octet reconfigure key: recorded for this server (§20.4.3)" [AType6 t; ANum (Z.of_nat (length val))])
      end
    end
  end.

(** ** A Reply to a Request, a Renew, a Rebind or a Solicit with Rapid Commit *)

Definition rejectRapidHint : M6 unit :=
  m ← get6;
  when6 (IsValid (solicitHint m)) (nhintOffLink ::= solicitHint m).

Definition paceOmission (now : Instant) (rnd : Z) (found : bool) (l : Lease6) : M6 unit :=
  m ← get6;
  if found || (length (l6Prefixes l) =? 0)%nat then nholdoff ::= 0 ;; nomitRT ::= 0 else
  if negb (npdSent m) then mret tt else
  match dRenew (groupDeadlines l).2 with
  | None => mret tt
  | Some r =>
    if After r now then mret tt else
    let rt := if nomitRT m =? 0 then nrt m else NextRT (nsched m) (nomitRT m) rnd in
    nomitRT ::= rt ;;
    nholdoff ::= Add now rt ;;
    journal6 (note "the Reply left out an IA_PD that is due: the next exchange waits %s (§18.2.10.1)" [ADur rt])
  end.

(** NotOnLink on a Reply. *)
Definition replyNotOnLink (now : Instant) (rnd : Z) (st : Status) : M6 unit :=
  m ← get6;
  when6 (nhaveLse m)
    (journal6 (note "Reply says NotOnLink while a lease is held: the address is not on this link, ending the lease (stated bound; §18.2.10.1 and §18.2.10.3 both address a client that holds none)" []) ;;
     loseLease ReasonNak) ;;
  when6 (state6_eqb (nstate m) State6Selecting) rejectRapidHint ;;
  journal6 (note "Reply says NotOnLink: restarting discovery (§18.2.10.1)" []) ;;
  nak6 (StCode st) (statusNote "the server refused the address for this link: %s" st) ;;
  restartDiscovery now rnd.

(** A NoBinding on a renewal: a Request for the IAs held. *)
Definition requestAgain (now : Instant) (rnd : Z) (msg : MessageV6) (ias : StatusCode) (pdNotes : Note) : M6 unit :=
  journals pdNotes ;;
  journal6 (note (if negb (ias =? StatusNoBinding)
    then "the IA_PD says NoBinding: requesting from the server that answered (§18.2.10.1)"
    else "the IA_NA says NoBinding: requesting from the server that answered (§18.2.10.1)") []) ;;
  nserver ::= default [] (First (MOptionsV6 msg) OptV6ServerID) ;;
  m ← get6;
  npending ::= heldIAs m ;;
  startExchangeFor now rnd MsgRequest6 (nscope m).

(** A Reply with no address for us. *)
Definition noUsable (now : Instant) (rnd : Z) (renewal : bool) (ias : StatusCode) (st : Status) : M6 unit :=
  when6 (ias =? StatusNoAddrsAvail)
    (journal6 (note "the IA_NA says NoAddrsAvail: this server has nothing for us (§18.2.10.1)" [])) ;;
  let code := refusalCode [ias; StCode st] in
  when6 (negb (code =? StatusSuccess)) (nak6 code (note "the server answered and offered no address: %s" [AStatus code])) ;;
  m ← get6;
  if state6_eqb (nstate m) State6Selecting then
    journal6 (note "no usable address in the Reply to the Solicit: soliciting on (§18.2.1)" [])
  else
  asked ← (if negb renewal then ntried ::= (ntried m ++ [nserver m]) ;; selectAndRequest now rnd else mret false);
  if asked : bool then
    journal6 (note "no usable address in the Reply: trying the next server that advertised (§18.2.10.1)" [])
  else
    journal6 (note "no usable address in the Reply: restarting discovery (§18.2.10.1)" []) ;;
    restartDiscovery now rnd.

(** The stable and the temporary addresses of the lease a Reply gives. *)
Definition replyAddresses (now : Instant) (o : OptionsV6) (renewal naCarried : bool) (zeroed : list Addr) (l : Lease6) : M6 Lease6 :=
  m ← get6;
  if naCarried then ignoreTemporary o ;; mret l
  else if renewal then
    ignoreTemporary o ;;
    if negb (nhaveLse m) then mret l else
    let h := nlease m in
    let got := l6Addrs l in
    let kept := renewedAddrs (l6Addrs h) (l6Start h) got zeroed (l6Start l) now in
    let n := Z.of_nat (length kept) - Z.of_nat (length got) in
    when6 (0 <? n)
      (journal6 (note "%d held address(es) the Reply did not name keep their own expiry (§18.2.10.1)" [ANum n]) ;;
       ncarried ::= map a6Addr (filter (fun a => addrIndex got (a6Addr a) = None /\ addrIndex kept (a6Addr a) <> None) (l6Addrs h))) ;;
    let temps := carryTemp (l6TempAddrs h) (l6Start h) (l6Start l) now in
    let n := Z.of_nat (length (l6TempAddrs h)) - Z.of_nat (length temps) in
    when6 (0 <? n)
      (journal6 (note "%d temporary address(es) reached their valid lifetime and left the lease (RFC 8415 section 13.2)" [ANum n])) ;;
    mret (l <| l6Addrs := kept |> <| l6TempAddrs := temps |>)
  else if P6Temporary (nparams m) then
    temps ← readTemporary o (l6Addrs l) true;
    mret (l <| l6TempAddrs := temps |>)
  else ignoreTemporary o ;; mret l.

(** The times of the IA_PD, by where its prefixes come from. *)
Definition replyPDTimes (m : Core6) (renewal naCarried : bool) (srv : bytes) (pd : pdResult) (l : Lease6) : Lease6 :=
  if (0 <? length (pdPrefixes pd))%nat && naCarried then
    l <| l6PrefixServerDUID := srv |> <| l6pdT1 := pdT1Of pd |> <| l6pdT2 := pdT2Of pd |>
      <| l6pdStart := nexchangeStart m |> <| l6pdTimed := true |>
  else if (0 <? length (pdPrefixes pd))%nat then
    l <| l6T1 := earliestT (l6T1 l) (pdT1Of pd) |> <| l6T2 := earliestT (l6T2 l) (pdT2Of pd) |>
      <| l6pdT1 := pdT1Of pd |> <| l6pdT2 := pdT2Of pd |>
  else if renewal then keepHeldPD m l
  else l.

(** The delegated prefixes of the lease a Reply gives. *)
Definition replyPrefixes (now : Instant) (o : OptionsV6) (renewal naCarried owed : bool) (pd : pdResult) (pdNotes : Note)
    (l : Lease6) : M6 Lease6 :=
  m ← get6;
  if owed then
    let held := heldPrefixes m in
    countPrefixes pd pdNotes (negb renewal) ;;
    let ps := if naCarried then rebasePrefixes (pdPrefixes pd) (nexchangeStart m) (l6Start l) now else pdPrefixes pd in
    ps ← (if renewal then
            let res := mkPdResult (pdFound pd) (pdStatus pd) (pdT1Of pd) (pdT2Of pd) ps (pdZeroed pd) in
            let ps := renewedPrefixes held (heldStart m) res (l6Start l) now in
            let n := Z.of_nat (length ps) - Z.of_nat (length (pdPrefixes pd)) in
            when6 (0 <? n)
              (journal6 (note "%d held prefix(es) the Reply did not name stand until their valid lifetimes end (§18.2.10.1)" [ANum n])) ;;
            mret ps
          else mret ps);
    let l := replyPDTimes m renewal naCarried (default [] (First o OptV6ServerID)) pd (l <| l6Prefixes := ps |>) in
    when6 (renewal && negb (samePrefixes held ps))
      (k ← get6;
       npdCounts ::= (npdCounts k <| PdChanged := incr (PdChanged (npdCounts k)) |>) ;;
       journal6 (note "the Reply changed the delegated prefixes: held %d, now %d (§18.2.10.1)"
         [ANum (Z.of_nat (length held)); ANum (Z.of_nat (length ps))])) ;;
    mret l
  else
    ignorePrefixes o ;;
    mret (if bool_decide (nscope m = scopeNA) && nhaveLse m
          then keepHeldPD m (l <| l6Prefixes := rebasePrefixes (l6Prefixes (nlease m)) (l6Start (nlease m)) (l6Start l) now |>)
          else l).

(** The lease is complete: the exchange ends, and the addresses nobody checked
    are checked before it is bound. *)
Definition acceptLease (now : Instant) (rnd : Z) (msg : MessageV6) (renewal : bool) (l : Lease6) : M6 unit :=
  nresumeRebind ::= false ;;
  nserver ::= l6ServerDUID l ;;
  npending ::= l ;; nhavePending ::= true ;; npendingRenewal ::= renewal ;;
  cancel6 Timer6Retransmit ;;
  nmsgType ::= 0 ;;
  noteReconfigureKey msg ;;
  m ← get6;
  let fresh := unchecked m l ++ freshTemp m l in
  if (length fresh =? 0)%nat then enterBound now rnd l else startDAD fresh.

(** The IAs of a Reply, its status read. *)
Definition takeIAs (now : Instant) (rnd : Z) (msg : MessageV6) (renewal : bool) (st : Status) : M6 unit :=
  let o := MOptionsV6 msg in
  m ← get6;
  r ← liftok6 (leaseFromReply msg (P6IAID (nparams m)) (nexchangeStart m));
  let '(l, zeroed, notes, ias, ok) := r in
  journals notes ;;
  let owed := pdOwed m renewal in
  p ← (if owed then liftok6 (readIAPD o (P6IAID (nparams m))) else mret (mkPdResult false StatusSuccess 0 0 [] [], []));
  let '(pd, pdNotes) := p in
  if (ias =? StatusNoBinding) && renewal && nresumeRebind m && negb (nhaveLse m) then
    journal6 (note "the Reply to the resumed Rebind says NoBinding: the remembered binding is gone, restarting discovery (§18.2.10.1)" []) ;;
    restartDiscovery now rnd
  else if renewal && ((ias =? StatusNoBinding) || pdFound pd && (pdStatus pd =? StatusNoBinding)) then
    requestAgain now rnd msg ias pdNotes
  else
  let naCarried := (renewal || bool_decide (nscope m = scopePD)) && negb (nnaSent m) && nhaveLse m in
  if negb (naCarried || ok) then noUsable now rnd renewal ias st else
  ncarried ::= [] ;;
  l ← replyAddresses now o renewal naCarried zeroed (if naCarried then nlease m else l);
  l ← replyPrefixes now o renewal naCarried owed pd pdNotes l;
  paceOmission now rnd (pdFound pd) (canonPD l) ;;
  acceptLease now rnd msg renewal (canonPD l).

Definition takeReply (now : Instant) (rnd : Z) (msg : MessageV6) : M6 unit :=
  applyMaxRT msg ;;
  m ← get6;
  let renewal := state6_eqb (nstate m) State6Renewing || state6_eqb (nstate m) State6Rebinding in
  s ← liftok6 (OptionsV6_Status (MOptionsV6 msg));
  let '(st, _, err) := s in
  match err with
  | Some _ => journal6 (note "Reply carries a malformed Status Code option: ignored, the exchange continues" [])
  | None =>
    if StCode st =? StatusUnspecFail then
      journal6 (note "Reply says UnspecFail: the retransmission schedule continues unchanged (§18.2.10)" []) ;;
      nak6 (StCode st) (statusNote "the server answered and refused the exchange: %s" st)
    else if StCode st =? StatusNotOnLink then replyNotOnLink now rnd st
    else takeIAs now rnd msg renewal st
  end.

Definition refuseRapid6 (why : string) : M6 unit :=
  m ← get6;
  nrapidCounts ::= (nrapidCounts m <| Rapid6Refused := incr (Rapid6Refused (nrapidCounts m)) |>) ;;
  journal6 (note "Reply with Rapid Commit in %s: refused, %s" [AState6 (nstate m); AStr why]).

Definition takeRapidReply (now : Instant) (rnd : Z) (msg : MessageV6) : M6 unit :=
  m ← get6;
  r ← liftw6 (RapidCommitV6 (MOptionsV6 msg));
  match r with
  | inr _ => refuseRapid6 "option 14 is malformed"
  | inl has =>
    if negb has && negb (P6RapidCommit (nparams m)) then
      journal6 (note "a Reply arrived while soliciting: ignored" [])
    else if negb has then
      journal6 (note "a Reply without Rapid Commit arrived while soliciting: discarded (§18.2.1)" [])
    else if negb (P6RapidCommit (nparams m)) then refuseRapid6 "the Solicit did not ask for it"
    else
      takeReply now rnd msg ;;
      m ← get6;
      let c := nrapidCounts m in
      if state6_eqb (nstate m) State6DAD || state6_eqb (nstate m) State6Bound then
        nrapidCounts ::= (c <| Rapid6Accepted := incr (Rapid6Accepted c) |>) ;;
        journal6 (note "Reply with Rapid Commit: lease taken, no Request sent" [])
      else
        nrapidCounts ::= (c <| Rapid6Refused := incr (Rapid6Refused c) |>) ;;
        journal6 (note "Reply with Rapid Commit: no lease taken" [])
  end.

(** ** A remembered binding (RFC 9915 sections 18.2.3, 18.2.10.3) *)

Definition resumedLease (m : Core6) (r : Resume6) (now : Instant) : Lease6 :=
  canonPD (lease6_zero <| l6IAID := P6IAID (nparams m) |> <| l6Addrs := r6Addrs r |>
    <| l6Prefixes := usablePrefixes (Some r) |> <| l6ServerDUID := r6ServerDUID r |>
    <| l6T1 := r6T1 r |> <| l6T2 := r6T2 r |> <| l6Start := now |> <| l6pdT1 := r6T1 r |> <| l6pdT2 := r6T2 r |>
    <| l6PrefixServerDUID := r6PrefixServerDUID r |> <| l6DNS := r6DNS r |> <| l6Search := r6Search r |>).

Definition continueFromResume (now : Instant) (rnd : Z) (how : string) : M6 unit :=
  m ← get6;
  match live6 (nresume m), nresume m with
  | true, Some r =>
    let l := resumedLease m r now in
    npending ::= l ;; nhavePending ::= true ;; npendingRenewal ::= false ;;
    nmsgType ::= 0 ;;
    cancel6 Timer6Retransmit ;;
    journal6 (note "continuing with the %s addresses and their last known lifetimes" [AStr how]) ;;
    when6 (nresumeRebind m) (nresumeRebind ::= false ;; nrebindOwed ::= true) ;;
    when6 (P6Temporary (nparams m)) (journal6 (note "temporary addresses are not asked for on a resumed lease" [])) ;;
    startDAD (addrsOf l)
  | _, _ =>
    journal6 (note "nothing remembered to continue with: restarting discovery" []) ;;
    restartDiscovery now rnd
  end.

(** ** The stateless exchange (RFC 9915 sections 18.2.6, 18.2.10.4, 21.23) *)

Definition refreshTime (v : Duration) (present : bool) : M6 Duration :=
  m ← get6;
  if negb present then
    journal6 (note "the Reply carries no Information Refresh Time option: using IRT_DEFAULT %s (§21.23)" [ADur (IRTDefault (nparams m))]) ;;
    mret (IRTDefault (nparams m))
  else if IsInfinite v then mret Infinite
  else if v <? IRTMinimum (nparams m) then
    journal6 (note "the Information Refresh Time %s is below IRT_MINIMUM: using %s (§21.23)" [ADur v; ADur (IRTMinimum (nparams m))]) ;;
    mret (IRTMinimum (nparams m))
  else mret v.

Definition endReconfigureDetour : M6 unit :=
  nreconfServerID ::= [] ;;
  m ← get6;
  if negb (nreconfDetour m) then mret tt else
  nreconfDetour ::= false ;;
  nstate ::= State6Bound ;;
  journal6 (note "the Reconfigure's Information-request exchange is complete: back to %s with the lease and its timers untouched (§18.2.11)"
    [AState6 State6Bound]).

Definition takeConfig (now : Instant) (msg : MessageV6) : M6 unit :=
  let o := MOptionsV6 msg in
  dns ← liftw6 (DNSServers o);
  dns ← (match dns with
         | inl d => mret d
         | inr e => journal6 (note "DNS Recursive Name Server option: %s" [AErr e]) ;; mret []
         end);
  search ← liftw6 (DomainSearchV6 o);
  search ← (match search with
            | inl s => mret s
            | inr e => journal6 (note "Domain Search List option: %s" [AErr e]) ;; mret []
            end);
  v ← (match Uint32V6 o OptV6InfoRefresh with
       | None => mret (0, false)
       | Some r =>
         r ← liftw6 r;
         match r with
         | inl secs => mret (SecondsToDuration secs, true)
         | inr e => journal6 (note "Information Refresh Time option: %s" [AErr e]) ;; mret (0, true)
         end
       end);
  refresh ← refreshTime v.1 v.2;
  let c := mkConfig6 dns search refresh in
  nconfig ::= c ;;
  nrefresh ::= refresh ;;
  nrefreshOwed ::= false ;;
  nmsgType ::= 0 ;;
  cancel6 Timer6Retransmit ;;
  noteReconfigureKey msg ;;
  endReconfigureDetour ;;
  stamp6 (Act6Configured c) ;;
  if IsInfinite refresh then
    journal6 (note "the information refresh time is infinite: no refresh is armed (§21.23)" []) ;;
    cancel6 Timer6Refresh
  else set6 Timer6Refresh refresh.

(** ** Router Advertisements *)

(** [applyAdvert]: the options of one advertisement, and whether anything moved. *)
Fixpoint applyAdvertLoop (now : Instant) (l : list PrefixInfo) (changed : bool) : M6 bool :=
  match l with
  | [] => mret changed
  | pi :: l =>
    m ← get6;
    r ← lift6 (applyPIO (nslaac m) now pi (iidSourceOf (nparams m)));
    let '(t, formed, moved, why) := r in
    if negb (why =? SLAACIgnoreNone)%nat then
      nslaac ::= slaacIgnored t why ;;
      journal6 (note "Prefix Information option %s/%d formed nothing: reason %d" [AAddr (PiPrefix pi); ANum (PrefixLen pi); ANum (Z.of_nat why)]) ;;
      applyAdvertLoop now l changed
    else
      nslaac ::= t ;;
      when6 formed (journal6 (note "formed %s from %s/%d (RFC 4862 §5.5.3 d)"
        [AAddrs (map seAddr (opt_list (last (entries t)))); AAddr (PiPrefix pi); ANum (PrefixLen pi)])) ;;
      applyAdvertLoop now l (changed || moved)
  end.

Definition applyAdvert (now : Instant) (ra : RouterAdvert) : M6 bool := applyAdvertLoop now (RaPrefixes ra) false.

Definition observeSLAAC (now : Instant) (rnd : Z) (ra : RouterAdvert) : M6 unit :=
  changed ← applyAdvert now ra;
  when6 (Managed ra || Other ra) (nwantConfig ::= true) ;;
  when6 changed (reportSLAAC now rnd) ;;
  maybeInfoRequest now rnd.

(** The loop of [slaacTick] over the entries, from index [i]. *)
Fixpoint deprecateLoop (now : Instant) (l : list slaacEntry) : M6 (list slaacEntry) :=
  match l with
  | [] => mret []
  | e :: l =>
    e ← (if deprecated e now && negb (seDeprecationCharged e) then
           m ← get6;
           nslaac ::= (nslaac m <| counts := counts (nslaac m) <| scDeprecated := incr (scDeprecated (counts (nslaac m))) |> |>) ;;
           journal6 (note "the preferred lifetime of %s has run out: the address is deprecated (RFC 4862 §5.5.4)" [AAddr (seAddr e)]) ;;
           mret (e <| seDeprecationCharged := true |>)
         else mret e);
    l ← deprecateLoop now l;
    mret (e :: l)
  end.

Definition slaacTick (now : Instant) (rnd : Z) : M6 unit :=
  m ← get6;
  let '(t, gone) := expire (nslaac m) now in
  nslaac ::= t ;;
  forM6 gone (fun a => journal6 (note "the valid lifetime of %s has run out: the address is invalid (RFC 4862 §5.5.4)" [AAddr a])) ;;
  es ← deprecateLoop now (entries t);
  m ← get6;
  nslaac ::= (nslaac m <| entries := es |>) ;;
  if (length es =? 0)%nat then
    cancel6 Timer6SLAAC ;;
    nslaacPhases ::= ∅ ;;
    when6 (nhaveLse m) (loseLease ReasonExpired) ;;
    beginSLAAC now rnd
  else
  m ← get6;
  if (0 <? length (tentativeAddrs (nslaac m)))%nat || negb (nhaveLse m) then armSLAAC now
  else enterBoundSLAAC now rnd.

(** [countUnusedPrefixes] *)
Definition countUnusedPrefixes (ra : RouterAdvert) : M6 unit :=
  m ← get6;
  let n := length (filter (fun pi => Autonomous pi = true) (RaPrefixes ra)) in
  nslaac ::= Nat.iter n (fun t => slaacIgnored t SLAACIgnoreModeDHCP) (nslaac m) ;;
  when6 (0 <? n)%nat
    (journal6 (note "the advertisement carries %d autonomous prefix(es) and this client's address comes from DHCPv6" [ANum (Z.of_nat n)])).

Fixpoint replaceDeferred (l : list deferredPIO) (now : Instant) (p : Prefix) (pi : PrefixInfo) : option (list deferredPIO) :=
  match l with
  | [] => None
  | d :: l =>
    if bool_decide (dfPrefix d = p) then Some (mkDeferred now (dfPrefix d) pi :: l)
    else cons d <$> replaceDeferred l now p pi
  end.

(** What [deferPrefixes] does with one option: the set that replaces the held
    one, or why the option is refused. *)
Definition deferOne (m : Core6) (now : Instant) (pi : PrefixInfo) : option (list deferredPIO + SLAACIgnore) :=
  let '(p, why) := slaacOptionRules pi in
  if negb (why =? SLAACIgnoreNone)%nat then Some (inr why) else
  match replaceDeferred (ndeferredPrefixes m) now p pi with
  | Some l => Some (inl l)
  | None =>
    '(_, why) ← slaacFormRules pi (iidSourceOf (nparams m)) (dadOf (nslaac m) p);
    if negb (why =? SLAACIgnoreNone)%nat then Some (inr why) else
    if (MaxSLAACAddresses <=? length (ndeferredPrefixes m))%nat then Some (inr SLAACIgnoreCapReached) else
    Some (inl (ndeferredPrefixes m ++ [mkDeferred now p pi]))
  end.

Definition deferPrefixes (now : Instant) (ra : RouterAdvert) : M6 unit :=
  forM6 (RaPrefixes ra) (fun pi =>
    m ← get6;
    r ← lift6 (deferOne m now pi);
    match r with
    | inl l => ndeferredPrefixes ::= l
    | inr why =>
      nslaac ::= slaacIgnored (nslaac m) why ;;
      journal6 (note "Prefix Information option %s/%d is not kept for the fallback: reason %d"
        [AAddr (PiPrefix pi); ANum (PrefixLen pi); ANum (Z.of_nat why)])
    end).

(** The loop of [autoFallbackFired]: whether an address was formed or moved. *)
Fixpoint fallbackLoop (now : Instant) (l : list deferredPIO) (changed : bool) : M6 bool :=
  match l with
  | [] => mret changed
  | d :: l =>
    m ← get6;
    let valid := SecondsToDuration (PiValid (dfInfo d)) in
    if negb (IsInfinite valid) && (Add (dfAt d) valid <=? now) then
      nslaac ::= slaacIgnored (nslaac m) SLAACIgnoreValidZero ;;
      journal6 (note "the valid lifetime of %s ran out while this client waited for a server: it forms nothing (RFC 4862 §5.5.3 d)"
        [AAddr (PiPrefix (dfInfo d))]) ;;
      fallbackLoop now l changed
    else
    r ← lift6 (applyPIO (nslaac m) (dfAt d) (dfInfo d) (iidSourceOf (nparams m)));
    let '(t, formed, moved, why) := r in
    if negb (why =? SLAACIgnoreNone)%nat then
      nslaac ::= slaacIgnored t why ;; fallbackLoop now l changed
    else
      nslaac ::= t ;; fallbackLoop now l (changed || formed || moved)
  end.

Definition autoFallbackFired (now : Instant) (rnd : Z) : M6 unit :=
  cancel6 Timer6AutoFallback ;;
  m ← get6;
  if nhaveLse m then journal6 (note "the DHCPv6 fallback deadline passed with a lease in hand: nothing to do" []) else
  ndhcpCommitted ::= false ;;
  changed ← fallbackLoop now (ndeferredPrefixes m) false;
  ndeferredPrefixes ::= [] ;;
  m ← get6;
  if negb changed || (length (entries (nslaac m)) =? 0)%nat then
    let text := note "no server answered and the router advertises no prefix this client can form an address from (RFC 4862 §5.5.3)" [] in
    journal6 text ;;
    failed6 ReasonNoPrefix text ;;
    endExchange ;;
    nstate ::= State6Discovering
  else
    nslaac ::= (nslaac m <| counts := counts (nslaac m) <| scFallbacks := incr (scFallbacks (counts (nslaac m))) |> |>) ;;
    journal6 (note "no server answered within the DHCPv6 budget: forming an address from the router's autonomous prefix instead" []) ;;
    endExchange ;;
    nadverts ::= [] ;; nwindowDone ::= false ;;
    reportSLAAC now rnd.

Definition observeAuto (now : Instant) (rnd : Z) (ra : RouterAdvert) : M6 unit :=
  m ← get6;
  let first := negb (nautoDecided m) in
  when6 first (nautoDecided ::= true) ;;
  if first && Managed ra then
    ndhcpCommitted ::= true ;;
    journal6 (note "Router Advertisement M=1: this link's addresses come from DHCPv6 (RFC 4861 §4.2), soliciting" []) ;;
    cancel6 Timer6RouterSolicit ;;
    npendingType ::= MsgSolicit ;;
    nstate ::= State6Init ;;
    let sd := randomDelay (SolMaxDelay (nparams m)) rnd in
    journal6 (note "first Solicit after %s (§18.2.1)" [ADur sd]) ;;
    set6 Timer6Delay sd ;;
    countUnusedPrefixes ra ;;
    deferPrefixes now ra ;;
    match autoFallback (nparams m) with
    | Some d =>
      journal6 (note "if no server answers within %s of the first Solicit this client will form an address from an autonomous prefix instead" [ADur d]) ;;
      set6 Timer6AutoFallback (i64 (sd + d))
    | None => journal6 (note "no fallback is configured: a silent server ends this acquisition" [])
    end
  else
  when6 first (journal6 (note "Router Advertisement M=0: this link's addresses come from the advertisement itself (RFC 4862 §5.5.3)" [])) ;;
  m ← get6;
  if ndhcpCommitted m then countUnusedPrefixes ra ;; deferPrefixes now ra
  else observeSLAAC now rnd ra.

(** The flags of an advertisement, in a mode whose addresses a server grants. *)
Definition observeManaged (now : Instant) (rnd : Z) (ra : RouterAdvert) : M6 unit :=
  countUnusedPrefixes ra ;;
  m ← get6;
  if Managed ra then
    journal6 (note "Router Advertisement M=1: the Solicit exchange already under way is what M asks for" [])
  else if Other ra && state6_eqb (nstate m) State6Selecting then
    journal6 (note "Router Advertisement M=0 O=1 while soliciting: switching to Information-request (design §A.3.3 interlock 1)" []) ;;
    cancel6 Timer6Retransmit ;;
    nadverts ::= [] ;; nwindowDone ::= false ;;
    startExchange now rnd MsgInformationRequest
  else if Other ra then
    journal6 (note "Router Advertisement M=0 O=1 in %s: noted, the exchange in flight is unchanged" [AState6 (nstate m)])
  else
    journal6 (note "Router Advertisement M=0 O=0: RFC 4861 §4.2 says no information is available via DHCPv6; the exchange continues and the caller's deadline ends it" []).

Definition observeRouter (now : Instant) (rnd : Z) (ra : option RouterAdvert) : M6 unit :=
  match ra with
  | None => journal6 (note "nil Router Advertisement: ignored" [])
  | Some ra =>
    m ← get6;
    let first := negb (roSeen (nrouter m)) in
    r ← lift6 (observe (nrouters m) now ra);
    let '(t, named) := r in
    when6 (negb named)
      (journal6 (note "Router Advertisement with no source address: its flags are read and it names no router, so it adds nothing to the router table (RFC 4861 §6.3.4 keys the list on the source address of the packet)" [])) ;;
    let '(t, ro) := fill t now (router_zero <| roSeen := true |> <| roManaged := Managed ra |> <| roOther := Other ra |>
                                 <| roRouter := RaRouter ra |> <| roPrefixes := RaPrefixes ra |>) in
    nrouters ::= t ;; nrouter ::= ro ;;
    when6 (0 <? IgnoredOptions ra)
      (journal6 (note "Router Advertisement carried %d option(s) refused by their own standard's validity rule; the rest of the advertisement was read" [ANum (IgnoredOptions ra)])) ;;
    stamp6 (Act6RouterObserved ro) ;;
    when6 (first && negb (awaitingAddress m)) (cancel6 Timer6RouterSolicit) ;;
    if P6Mode (nparams m) =? Mode6SLAAC then observeSLAAC now rnd ra
    else if P6Mode (nparams m) =? Mode6Auto then observeAuto now rnd ra
    else observeManaged now rnd ra
  end.

Definition routerSolicitTick (now : Instant) (rnd : Z) : M6 unit :=
  m ← get6;
  if nrsCount m <? routerSolicitations (nparams m) then
    if roSeen (nrouter m) && negb (awaitingAddress m) then
      journal6 (note "the router solicitation timer fired after a Router Advertisement had arrived: ignored" []) ;;
      cancel6 Timer6RouterSolicit
    else solicitRouter
  else
  cancel6 Timer6RouterSolicit ;;
  if negb (awaitingAddress m) then journal6 (note "router discovery is finished" []) else
  if roSeen (nrouter m) then
    if (P6Mode (nparams m) =? Mode6Auto) && nwantConfig m && negb (naskedConfig m) && (nmsgType m =? 0) then
      naskedConfig ::= true ;;
      journal6 (note "router discovery formed no address and the router offers other configuration over DHCPv6: Information-request (§18.2.6)" []) ;;
      startExchange now rnd MsgInformationRequest
    else
      failed6 ReasonNoPrefix (note "a router advertises on this link and none of its prefixes formed an address (RFC 4862 §5.5.3); %d option(s) refused"
        [ANum (IgnoredTotal (counts (nslaac m)))])
  else failed6 ReasonNoRouter (note "no Router Advertisement after %d solicitation(s) (RFC 4861 §6.3.7)" [ANum (nrsCount m)]).

(** ** Reconfigure (RFC 9915 sections 16.11, 18.2.11, 20.4) *)

Definition refuseReconfigure (why : ReconfigureRefusal) (n : Note) : M6 unit :=
  m ← get6;
  let c := nreconfCounts m in
  nreconfCounts ::= (c <| rcRefused := fun r => if decide (r = why) then incr (rcRefused c r) else rcRefused c r |>) ;;
  journal6 n.

(** [authenticateReconfigure]: the server's entry and the value to record, or
    the refusal. *)
Definition reconfigureAuthentic (m : Core6) (o : OptionsV6) (raw sid : bytes)
    : wire (reconfServer * Z + ReconfigureRefusal * Note) :=
  match OptionsV6_Auth o with
  | None => Ok (inr (ReconfigureRefusalNoAuth, note "a Reconfigure carries no Authentication option: discarded (§16.11, §20.4)" []))
  | Some r =>
    catch r (fun a =>
      catch (RKAP a) (fun _ =>
        match nreconf m !! sid with
        | Some s =>
          if (length (rsKey s) =? 0)%nat then
            Ok (inr (ReconfigureRefusalNoKey, note "a Reconfigure arrived from a server that has sent this client no reconfigure key: discarded (§16.11, §20.4.3)" []))
          else catch (RKAPVerify raw (rsKey s))
            (fun _ => Ok (if rsSeen s && (Replay a <=? rsReplay s)
              then inr (ReconfigureRefusalReplay, note "a Reconfigure repeats a replay detection value this server has already used: discarded (§20.3)" [])
              else inl (s, Replay a)))
            (fun _ => Ok (inr (ReconfigureRefusalBadDigest, note "a Reconfigure fails RKAP authentication: discarded (§16.11, §20.4.3)" [])))
        | None =>
          Ok (inr (ReconfigureRefusalNoKey, note "a Reconfigure arrived from a server that has sent this client no reconfigure key: discarded (§16.11, §20.4.3)" []))
        end)
        (fun e => Ok (inr (ReconfigureRefusalNotRKAP, note "a Reconfigure's Authentication option is not RKAP: discarded, %s (§16.11, §20.4.1)" [AErr e]))))
      (fun e => Ok (inr (ReconfigureRefusalUnreadableAuth, note "a Reconfigure's Authentication option: discarded, %s (§16.11)" [AErr e])))
  end.

(** [authenticateReconfigure] *)
Definition authenticateReconfigure (o : OptionsV6) (raw sid : bytes) : M6 (option (reconfServer * Z)) :=
  m ← get6;
  r ← liftok6 (reconfigureAuthentic m o raw sid);
  match r with
  | inl sr => mret (Some sr)
  | inr (why, n) => refuseReconfigure why n ;; mret None
  end.

Definition respondToReconfigure (now : Instant) (rnd : Z) (kind : MessageTypeV6) (sid : bytes) : M6 bool :=
  m ← get6;
  if (kind =? MsgRenew) || (kind =? MsgRebind) then
    if negb (state6_eqb (nstate m) State6Bound) then
      refuseReconfigure ReconfigureRefusalNoLease
        (note "an authenticated Reconfigure asks for a %s in %s: ignored, §18.2.11 addresses an interface that holds configuration"
          [AType6 kind; AState6 (nstate m)]) ;; mret false
    else if kind =? MsgRenew then
      journal6 (note "an authenticated Reconfigure asks for a Renew (§18.2.11)" []) ;;
      enterRenewing now rnd ;; mret true
    else
      journal6 (note "an authenticated Reconfigure asks for a Rebind (§18.2.11)" []) ;;
      enterRebinding now rnd ;; mret true
  else if kind =? MsgInformationRequest then
    if state6_eqb (nstate m) State6Bound || state6_eqb (nstate m) State6InfoRequesting then
      when6 (state6_eqb (nstate m) State6Bound) (nreconfDetour ::= true) ;;
      journal6 (note "an authenticated Reconfigure asks for an Information-request (§18.2.11)" []) ;;
      startExchangeAnswering now rnd MsgInformationRequest sid ;; mret true
    else
      refuseReconfigure ReconfigureRefusalNoConfiguration
        (note "an authenticated Reconfigure asks for an Information-request in %s: ignored, §18.2.11 addresses an interface that holds configuration"
          [AState6 (nstate m)]) ;; mret false
  else
    refuseReconfigure ReconfigureRefusalUndefinedMessage
      (note "an authenticated Reconfigure names msg-type %s, which §21.19 does not define: ignored" [AType6 kind]) ;; mret false.

(** Why [takeReconfigure] turns a message down before it is authenticated, or the
    message it asks for and the server that sent it. *)
Definition reconfigureWhy (m : Core6) (o : OptionsV6) (dst : Addr) : MessageTypeV6 * bytes + ReconfigureRefusal * Note :=
  if negb (P6AcceptReconfigure (nparams m)) then
    inr (ReconfigureRefusalUnwilling, note "a Reconfigure arrived and this client announced no Reconfigure Accept option: discarded (§21.20)" [])
  else if negb (nmsgType m =? 0) then
    inr (ReconfigureRefusalExchangeInFlight, note "a Reconfigure arrived while a %s exchange is in flight: ignored until it completes (§18.2.11)" [AType6 (nmsgType m)])
  else if negb (IsValid dst) || IsMulticast dst || IsUnspecified dst then
    inr (ReconfigureRefusalNotUnicast, if IsValid dst
      then note "a Reconfigure addressed to %s: discarded, §16.11's first bullet needs a unicast destination" [AAddr dst]
      else note "a Reconfigure addressed to an address the transport did not report: discarded, §16.11's first bullet needs a unicast destination" [])
  else
  let sids := Count o OptV6ServerID in
  if sids =? 0 then
    inr (ReconfigureRefusalNoServerID, note "a Reconfigure carries no Server Identifier option: discarded (§16.11)" [])
  else if 1 <? sids then
    inr (ReconfigureRefusalAmbiguousServerID, note "a Reconfigure carries %d Server Identifier options: discarded, the sender is ambiguous (§16, §21.3)" [ANum sids])
  else
  match First o OptV6ClientID with
  | None => inr (ReconfigureRefusalNoClientID, note "a Reconfigure carries no Client Identifier option: discarded (§16.11)" [])
  | Some cid =>
    if negb (sameDUID cid (P6DUID (nparams m))) then
      inr (ReconfigureRefusalForeignClientID, note "a Reconfigure carries a Client Identifier that is not ours: discarded (§16.11)" [])
    else
    let '(kind, ok, err) := ReconfigureMessage o in
    if negb ok then
      inr (ReconfigureRefusalNoReconfigureMessage, note "a Reconfigure carries no Reconfigure Message option: discarded (§16.11)" [])
    else
    match err with
    | Some e => inr (ReconfigureRefusalBadReconfigureMessage, note "a Reconfigure's Reconfigure Message option: discarded, %s (§16.11)" [AErr e])
    | None => inl (kind, default [] (First o OptV6ServerID))
    end
  end.

Definition takeReconfigure (now : Instant) (rnd : Z) (msg : MessageV6) (raw : bytes) (dst : Addr) : M6 unit :=
  let o := MOptionsV6 msg in
  m ← get6;
  match reconfigureWhy m o dst with
  | inr (why, n) => refuseReconfigure why n
  | inl (kind, sid) =>
    auth ← authenticateReconfigure o raw sid;
    match auth with
    | None => mret tt
    | Some (s, replay) =>
      acted ← respondToReconfigure now rnd kind sid;
      if negb acted then mret tt else
      when6 (negb (rsSeen s))
        (journal6 (note "the first authenticated Reconfigure from this server: its replay detection value is recorded and the check is skipped (§20.3)" [])) ;;
      m ← get6;
      nreconf ::= <[sid := mkReconfServer (rsKey s) replay true]> (nreconf m) ;;
      nreconfCounts ::= (nreconfCounts m <| rcAccepted := incr (rcAccepted (nreconfCounts m)) |>)
    end
  end.

(** ** The states *)

Definition timerIgnored (t : TimerID) (s : State6) : M6 unit :=
  journal6 (note "timer %s fired in %s: ignored" [ATimer t; AState6 s]).
Definition eventIgnored (ev : Event6) (s : State6) : M6 unit :=
  journal6 (note "event %s in %s: ignored" [AStr (Kind6String ev); AState6 s]).

(** The closure of [stepStopped6]: a Release's end. *)
Definition releaseDone (now : Instant) (rnd : Z) : M6 unit := endExchange ;; releaseDelegated now rnd.

Definition stepStopped6 (now : Instant) (rnd : Z) (ev : Event6) : M6 unit :=
  m ← get6;
  match ev with
  | Ev6Start => begin now rnd
  | Ev6Received msg _ _ =>
    if nmsgType m =? MsgRelease6 then
      a ← admit6 msg;
      match a with
      | Some _ => journal6 (note "Reply to the Release: the release is complete" []) ;; releaseDone now rnd
      | None => mret tt
      end
    else journal6 (note "message received while stopped: ignored" [])
  | Ev6TimerFired Timer6Retransmit =>
    if nmsgType m =? MsgRelease6 then
      retransmit now rnd (Some (
        journal6 (note "the Release exchange reached REL_MAX_RC with no Reply: the binding will be reclaimed when its valid lifetime expires (§18.2.7)" []) ;;
        releaseDone now rnd))
    else journal6 (note "timer %s fired while stopped: ignored" [ATimer Timer6Retransmit])
  | Ev6TimerFired t => journal6 (note "timer %s fired while stopped: ignored" [ATimer t])
  | Ev6Stop => journal6 (note "already stopped" [])
  | _ => journal6 (note "event %s while stopped: ignored" [AStr (Kind6String ev)])
  end.

Definition stepInit6 (now : Instant) (rnd : Z) (ev : Event6) : M6 unit :=
  m ← get6;
  match ev with
  | Ev6TimerFired Timer6Delay => startExchange now rnd (npendingType m)
  | Ev6TimerFired t => timerIgnored t (nstate m)
  | Ev6Stop => halt ReasonStopped
  | Ev6LinkDown => halt ReasonLinkDown
  | Ev6Start => journal6 (note "already starting" [])
  | Ev6Release => halt ReasonReleased
  | _ => eventIgnored ev (nstate m)
  end.

Definition stepSelecting6 (now : Instant) (rnd : Z) (ev : Event6) : M6 unit :=
  m ← get6;
  match ev with
  | Ev6Received msg _ _ =>
    a ← admit6 msg;
    match a with
    | None => mret tt
    | Some msg =>
      if MType msg =? MsgAdvertise then takeAdvertise now rnd msg
      else if MType msg =? MsgReply then takeRapidReply now rnd msg
      else journal6 (note "a %s arrived while soliciting: ignored" [AType6 (MType msg)])
    end
  | Ev6TimerFired Timer6Retransmit =>
    if negb (nwindowDone m) then
      nwindowDone ::= true ;;
      if (0 <? length (nadverts m))%nat then
        journal6 (note "the first RT elapsed with %d Advertise message(s) collected" [ANum (Z.of_nat (length (nadverts m)))]) ;;
        _ ← selectAndRequest now rnd; mret tt
      else
        journal6 (note "the first RT elapsed with no Advertise message: retransmitting the Solicit (§18.2.1)" []) ;;
        retransmit now rnd None
    else retransmit now rnd None
  | Ev6TimerFired t => timerIgnored t (nstate m)
  | Ev6Stop => halt ReasonStopped
  | Ev6LinkDown => halt ReasonLinkDown
  | Ev6Release => halt ReasonReleased
  | Ev6Start => journal6 (note "already soliciting" [])
  | _ => eventIgnored ev (nstate m)
  end.

(** The Request exchange ended with no Reply. *)
Definition requestExhausted (now : Instant) (rnd : Z) : M6 unit :=
  m ← get6;
  if bool_decide (nscope m = scopePD) then
    journal6 (note "the Request for the IA_PD reached REQ_MAX_RC: the lease stands as held (§18.2.2)" []) ;;
    resumeBound now rnd
  else
  ntried ::= (ntried m ++ [nserver m]) ;;
  asked ← selectAndRequest now rnd;
  if asked : bool then
    journal6 (note "the Request exchange reached REQ_MAX_RC: trying the next server that advertised (§18.2.2)" [])
  else
    journal6 (note "the Request exchange reached REQ_MAX_RC with no other server that advertised: restarting discovery (§18.2.2)" []) ;;
    restartDiscovery now rnd.

Definition stepRequesting6 (now : Instant) (rnd : Z) (ev : Event6) : M6 unit :=
  m ← get6;
  match ev with
  | Ev6Received msg _ _ =>
    a ← admit6 msg;
    match a with
    | None => mret tt
    | Some msg =>
      if negb (MType msg =? MsgReply) then journal6 (note "a %s arrived while requesting: ignored" [AType6 (MType msg)])
      else takeReply now rnd msg
    end
  | Ev6TimerFired t =>
    if bool_decide (t = Timer6Rebind) && negb (bool_decide (nscope m = scopeAll)) then
      journal6 (note "T2 reached while requesting one server's IAs: rebinding every IA (§18.2.4)" []) ;;
      dropPending ;; enterRebinding now rnd
    else if negb (bool_decide (t = Timer6Retransmit)) then timerIgnored t (nstate m)
    else retransmit now rnd (Some (requestExhausted now rnd))
  | Ev6Stop => halt ReasonStopped
  | Ev6LinkDown => halt ReasonLinkDown
  | Ev6Release => halt ReasonReleased
  | _ => eventIgnored ev (nstate m)
  end.

(** A Reply to the Confirm. *)
Definition takeConfirmReply (now : Instant) (rnd : Z) (msg : MessageV6) : M6 unit :=
  applyMaxRT msg ;;
  s ← liftok6 (OptionsV6_Status (MOptionsV6 msg));
  let '(st, _, err) := s in
  match err with
  | Some e => journal6 (note "Reply to the Confirm carries a malformed Status Code option: %s" [AErr e])
  | None =>
    if StCode st =? StatusNotOnLink then
      journal6 (note "Reply to the Confirm says NotOnLink: the remembered addresses are not on this link, restarting discovery (§18.2.10.3)" []) ;;
      nak6 (StCode st) (statusNote "the server refused the remembered address for this link: %s" st) ;;
      nresume ::= None ;;
      restartDiscovery now rnd
    else
      journal6 (note "Reply to the Confirm says %s: the remembered addresses are on this link" [AStatus (StCode st)]) ;;
      continueFromResume now rnd "confirmed"
  end.

Definition stepConfirming6 (now : Instant) (rnd : Z) (ev : Event6) : M6 unit :=
  m ← get6;
  match ev with
  | Ev6Received msg _ _ =>
    a ← admit6 msg;
    match a with
    | None => mret tt
    | Some msg =>
      if negb (MType msg =? MsgReply) then journal6 (note "a %s arrived while confirming: ignored" [AType6 (MType msg)])
      else takeConfirmReply now rnd msg
    end
  | Ev6TimerFired Timer6Retransmit =>
    retransmit now rnd (Some (
      journal6 (note "the Confirm exchange reached CNF_MAX_RD with no Reply: continuing with the last known lifetimes (§18.2.3)" []) ;;
      continueFromResume now rnd "unconfirmed"))
  | Ev6TimerFired t => timerIgnored t (nstate m)
  | Ev6Stop => halt ReasonStopped
  | Ev6LinkDown => halt ReasonLinkDown
  | Ev6Release => halt ReasonReleased
  | _ => eventIgnored ev (nstate m)
  end.

(** A Reply to the Information-request. *)
Definition takeInfoReply (now : Instant) (rnd : Z) (msg : MessageV6) : M6 unit :=
  applyMaxRT msg ;;
  s ← liftok6 (OptionsV6_Status (MOptionsV6 msg));
  let '(st, _, err) := s in
  match err with
  | Some _ => journal6 (note "Reply to the Information-request carries a malformed Status Code option: ignored, the exchange continues" [])
  | None =>
    let code := refusalCode [StCode st] in
    if negb (code =? StatusSuccess) then
      journal6 (note "Reply to the Information-request says %s: no configuration was given (§18.2.10)" [AStatus code]) ;;
      nak6 code (statusNote "the server refused the Information-request: %s" st)
    else
      takeConfig now msg ;;
      _ ← announceHostname6 now rnd; mret tt
  end.

(** T1 or T2 during an Information-request. *)
Definition leaseOutranks (now : Instant) (rnd : Z) (t : TimerID) (m : Core6) : M6 unit :=
  if negb (nhaveLse m) then journal6 (note "timer %s fired in %s with no lease: ignored" [ATimer t; AState6 (nstate m)]) else
  nreconfDetour ::= false ;;
  if bool_decide (t = Timer6Renew) then
    journal6 (note "T1 elapsed during an Information-request: the renewal takes precedence (§18.2.4)" []) ;;
    enterRenewing now rnd
  else
    journal6 (note "T2 elapsed during an Information-request: the rebind takes precedence (§18.2.5)" []) ;;
    enterRebinding now rnd.

Definition refreshNote (d : Duration) : Note :=
  note "the information refresh time elapsed: another Information-request after %s (§21.23)" [ADur d].

Definition stepInfoRequesting6 (now : Instant) (rnd : Z) (ev : Event6) : M6 unit :=
  m ← get6;
  match ev with
  | Ev6Received msg _ _ =>
    a ← admit6 msg;
    match a with
    | None => mret tt
    | Some msg =>
      if negb (MType msg =? MsgReply) then journal6 (note "a %s arrived while information-requesting: ignored" [AType6 (MType msg)])
      else takeInfoReply now rnd msg
    end
  | Ev6TimerFired t =>
    match t with
    | Timer6Retransmit => retransmit now rnd None
    | Timer6Refresh =>
      let d := randomDelay (InfMaxDelay (nparams m)) rnd in
      journal6 (refreshNote d) ;;
      npendingType ::= MsgInformationRequest ;;
      set6 Timer6Delay d
    | Timer6Delay => startExchange now rnd MsgInformationRequest
    | Timer6Renew | Timer6Rebind => leaseOutranks now rnd t m
    | _ => timerIgnored t (nstate m)
    end
  | Ev6Stop => halt ReasonStopped
  | Ev6LinkDown => halt ReasonLinkDown
  | Ev6Release => halt ReasonReleased
  | _ => eventIgnored ev (nstate m)
  end.

Definition stepDAD6 (now : Instant) (rnd : Z) (ev : Event6) : M6 unit :=
  m ← get6;
  match ev with
  | Ev6DADResult a dup => takeDADResult now rnd a dup
  | Ev6TimerFired Timer6DAD =>
    cancel6 Timer6DAD ;;
    failed6 ReasonDADIncomplete (note "no EvDADResult for %v within %s" [AAddrs (ndadWait m); ADur (dadTimeout (nparams m))]) ;;
    dropPending ;;
    restartDiscovery now rnd
  | Ev6TimerFired Timer6Retransmit =>
    if nmsgType m =? MsgDecline6 then
      retransmit now rnd (Some (
        journal6 (note "the Decline exchange reached DEC_MAX_RC with no Reply: done (§18.2.8)" []) ;;
        finishDecline now rnd))
    else journal6 (note "the retransmission timer fired with no v6 exchange in flight: ignored" [])
  | Ev6TimerFired t => timerIgnored t (nstate m)
  | Ev6Received msg _ _ =>
    if negb (nmsgType m =? MsgDecline6) then
      countRapidDiscard msg ;;
      journal6 (note "message received while waiting for duplicate address detection: ignored" [])
    else
    a ← admit6 msg;
    match a with
    | None => mret tt
    | Some msg =>
      if negb (MType msg =? MsgReply) then journal6 (note "a %s arrived while declining: ignored" [AType6 (MType msg)])
      else journal6 (note "Reply to the Decline: the decline is complete" []) ;; finishDecline now rnd
    end
  | Ev6AddressLost =>
    journal6 (note "the address went away while duplicate address detection was running: nothing was bound" []) ;;
    dropPending ;;
    restartDiscovery now rnd
  | Ev6Stop => halt ReasonStopped
  | Ev6LinkDown => halt ReasonLinkDown
  | Ev6Release => halt ReasonReleased
  | _ => eventIgnored ev (nstate m)
  end.

Definition stepDiscovering6 (now : Instant) (rnd : Z) (ev : Event6) : M6 unit :=
  m ← get6;
  match ev with
  | Ev6Stop => halt ReasonStopped
  | Ev6LinkDown => halt ReasonLinkDown
  | Ev6Release => halt ReasonReleased
  | Ev6Start => journal6 (note "already waiting for a Router Advertisement" [])
  | Ev6TimerFired Timer6Delay => startExchange now rnd (npendingType m)
  | Ev6TimerFired t => timerIgnored t (nstate m)
  | _ => eventIgnored ev (nstate m)
  end.

(** The bound lease is lost to a conflict: declined, and discovery starts again. *)
Definition loseBound (now : Instant) (rnd : Z) (n : Note) : M6 unit :=
  m ← get6;
  journal6 n ;;
  loseLease ReasonConflict ;;
  declineAll now rnd (nlease m) ThenRestart.

Definition stepBound6 (now : Instant) (rnd : Z) (ev : Event6) : M6 unit :=
  m ← get6;
  match ev with
  | Ev6TimerFired t =>
    match t with
    | Timer6Renew => enterRenewing now rnd
    | Timer6Rebind => enterRebinding now rnd
    | Timer6Refresh =>
      let d := randomDelay (InfMaxDelay (nparams m)) rnd in
      journal6 (refreshNote d) ;;
      nrefreshOwed ::= true ;;
      nreconfDetour ::= true ;;
      npendingType ::= MsgInformationRequest ;;
      set6 Timer6Delay d
    | Timer6Delay => startExchange now rnd MsgInformationRequest
    | _ => timerIgnored t (nstate m)
    end
  | Ev6AddressLost =>
    loseBound now rnd (note "the address was withdrawn under a bound lease: declining it and restarting discovery (sequencing §8.2)" [])
  | Ev6DADResult a dup =>
    if negb dup then journal6 (note "duplicate address detection reported %s free for a bound lease: nothing to do" [AAddr a]) else
    loseBound now rnd (note "duplicate address detection reported %s duplicate for a bound lease: declining it and restarting discovery" [AAddr a])
  | Ev6Release => release now rnd
  | Ev6Stop => halt ReasonStopped
  | Ev6LinkDown => halt ReasonLinkDown
  | Ev6Received msg _ _ =>
    countRapidDiscard msg ;;
    journal6 (note "message received while bound with no exchange in flight: ignored" [])
  | Ev6Start => journal6 (note "already bound" [])
  | _ => eventIgnored ev (nstate m)
  end.

Definition stepRenewal6 (now : Instant) (rnd : Z) (ev : Event6) : M6 unit :=
  m ← get6;
  match ev with
  | Ev6Received msg _ _ =>
    a ← admit6 msg;
    match a with
    | None => mret tt
    | Some msg =>
      if negb (MType msg =? MsgReply) then journal6 (note "a %s arrived while %s: ignored" [AType6 (MType msg); AState6 (nstate m)])
      else takeReply now rnd msg
    end
  | Ev6TimerFired t =>
    match t with
    | Timer6Retransmit =>
      if nresumeRebind m then
        retransmit now rnd (Some (
          journal6 (note "the resumed Rebind reached the Confirm retransmission limit with no Reply: continuing with the last known lifetimes (§18.2.3), rebinding on" []) ;;
          continueFromResume now rnd "unconfirmed"))
      else retransmit now rnd None
    | Timer6Rebind =>
      if state6_eqb (nstate m) State6Renewing then enterRebinding now rnd
      else journal6 (note "the rebind timer fired while already rebinding: ignored" [])
    | Timer6Renew => journal6 (note "the renew timer fired while already renewing: ignored" [])
    | _ => timerIgnored t (nstate m)
    end
  | Ev6AddressLost =>
    loseBound now rnd (note "the address was withdrawn while %s: declining it and restarting discovery" [AState6 (nstate m)])
  | Ev6Release => release now rnd
  | Ev6Stop => halt ReasonStopped
  | Ev6LinkDown => halt ReasonLinkDown
  | _ => eventIgnored ev (nstate m)
  end.

(** ** Step *)

Definition noteActionFailed (id : ActionID) (reason : gostring) : M6 unit :=
  m ← get6;
  let n := i64 (nsendFailures m + 1) in
  nsendFailures ::= n ;;
  journal6 (note "%s failed (%s), consecutive failures %d" [AAction id; AText reason; ANum n]) ;;
  if state6_eqb (nstate m) State6Renewing || state6_eqb (nstate m) State6Rebinding || state6_eqb (nstate m) State6Bound
  then mret tt else
  if maxSendFailures6 (nparams m) <=? n then
    failed6 ReasonTransport (note "%d consecutive send failures: %s" [ANum n; AText reason]) ;;
    halt ReasonTransport
  else mret tt.

(** The switch on the state. *)
Definition stepState6 (now : Instant) (rnd : Z) (ev : Event6) : M6 unit :=
  m ← get6;
  match nstate m with
  | State6Stopped => stepStopped6 now rnd ev
  | State6Init => stepInit6 now rnd ev
  | State6Selecting => stepSelecting6 now rnd ev
  | State6Requesting => stepRequesting6 now rnd ev
  | State6Confirming => stepConfirming6 now rnd ev
  | State6InfoRequesting => stepInfoRequesting6 now rnd ev
  | State6DAD => stepDAD6 now rnd ev
  | State6Discovering => stepDiscovering6 now rnd ev
  | State6Bound => stepBound6 now rnd ev
  | State6Renewing | State6Rebinding => stepRenewal6 now rnd ev
  end.

(** The router table is aged on every event. *)
Definition ageRouters (now : Instant) : M6 unit :=
  m ← get6;
  when6 (roSeen (nrouter m))
    (let '(t, ro) := fill (nrouters m) now (nrouter m) in nrouters ::= t ;; nrouter ::= ro).

(** [Machine6.Step] *)
Definition step6 (now : Instant) (rnd : Z) (ev : Event6) : M6 unit :=
  ageRouters now ;;
  match ev with
  | Ev6RouterAdvert ra => observeRouter now rnd ra
  | Ev6TimerFired Timer6RouterSolicit => routerSolicitTick now rnd
  | Ev6TimerFired Timer6SLAAC => slaacTick now rnd
  | Ev6TimerFired Timer6AutoFallback => autoFallbackFired now rnd
  | Ev6TimerFired Timer6Expire => expireLease now rnd
  | Ev6SetHostname name => takeHostname6 now rnd name
  | Ev6ActionFailed id reason => noteActionFailed id reason
  | Ev6ARPReceived | Ev6ConflictDetected =>
    m ← get6;
    journal6 (note "%s is a v4 conflict event and this is the v6 machine: ignored in %s" [AStr (Kind6String ev); AState6 (nstate m)])
  | Ev6Received (Some msg) raw dst =>
    if MType msg =? MsgReconfigure then takeReconfigure now rnd msg raw dst else stepState6 now rnd ev
  | _ => stepState6 now rnd ev
  end.

Definition Step6 (m : Machine6) (now : Instant) (rnd : Z) (ev : Event6) : option (Machine6 * State6 * list Action6) :=
  match step6 now rnd ev (mkSt6 (ncore m) (nnextAction m) []) with
  | Some (_, s) => Some (mkMachine6 (core6 s) (next6 s), nstate (core6 s), out6 s)
  | None => None
  end.

(** Inputs in order: the machine after them and the actions of each. *)
Fixpoint run6 (m : Machine6) (evs : list (Instant * Z * Event6)) : option (Machine6 * list (list Action6)) :=
  match evs with
  | [] => Some (m, [])
  | (now, rnd, ev) :: evs =>
    match Step6 m now rnd ev with
    | Some (m, _, out) =>
      match run6 m evs with Some (m, outs) => Some (m, out :: outs) | None => None end
    | None => None
    end
  end.
