(* ===== verification/Machine6Spec.v ===== *)
(** * What the DHCPv6 machine promises

    The specification side of [Machine6]: the message shapes of RFC 9915 sections
    18.2.1 to 18.2.8, what an observer of the actions knows (the lease announced,
    the timers armed, the addresses whose duplicate check was asked for and the
    ones it cleared), and what the observer may see next.  Nothing here is code of
    the repository. *)

From S2P Require Import Prelude NetAddr Options Codec Forcerenew Arp Backoff Kinds Lease Dhcp6 Rkap Backoff6 Icmpv6 Lease6 Slaac Params6 Router6 Outward Core6 Machine6 Machine6Steps.

(** ** The messages of a client *)

Definition client_type (t : MessageTypeV6) : Prop :=
  t ∈ [MsgSolicit; MsgRequest6; MsgConfirm; MsgRenew; MsgRebind; MsgRelease6; MsgDecline6; MsgInformationRequest].

(** The four messages a server must be named in. *)
Definition names_server (t : MessageTypeV6) : bool :=
  (t =? MsgRequest6) || (t =? MsgRenew) || (t =? MsgRelease6) || (t =? MsgDecline6).

(** How many IA_NA, IA_PD and IA_TA options a message of a type may carry. *)
Definition na_bounds (t : MessageTypeV6) : Z * Z :=
  if (t =? MsgSolicit) || (t =? MsgConfirm) then (1, 1) else if t =? MsgInformationRequest then (0, 0) else (0, 1).
Definition pd_bound (t : MessageTypeV6) : Z :=
  if (t =? MsgConfirm) || (t =? MsgDecline6) || (t =? MsgInformationRequest) then 0 else 1.
Definition ta_bound (t : MessageTypeV6) : Z :=
  if (t =? MsgSolicit) || (t =? MsgRequest6) || (t =? MsgDecline6) || (t =? MsgRelease6) then 1 else 0.

(** A message of a client configured with [p]: one Client Identifier, its own;
    a Server Identifier where one is required and nowhere else, but for an
    Information-request that answers a Reconfigure; one Elapsed Time; Rapid
    Commit and Reconfigure Accept where the configuration says so and the type
    allows them; a name only in the four types RFC 4704 allows it in; the IAs of
    its type; and no option of another code. *)
Record conforms6 (p : Params6) (m : MessageV6) : Prop := {
  cf_type : client_type (MType m);
  cf_xid : 0 <= MXID m < 2 ^ 24;
  cf_client : All (MOptionsV6 m) OptV6ClientID = [P6DUID p];
  cf_server : if names_server (MType m) then exists sid, sid <> [] /\ All (MOptionsV6 m) OptV6ServerID = [sid]
    else All (MOptionsV6 m) OptV6ServerID = [] \/
      MType m = MsgInformationRequest /\ exists sid, sid <> [] /\ All (MOptionsV6 m) OptV6ServerID = [sid];
  cf_elapsed : exists h, 0 <= h < 2 ^ 16 /\ All (MOptionsV6 m) OptV6ElapsedTime = [be16 h];
  cf_rapid : All (MOptionsV6 m) OptV6RapidCommit = if P6RapidCommit p && (MType m =? MsgSolicit) then [[]] else [];
  cf_accept : All (MOptionsV6 m) OptV6ReconfAccept =
    if P6AcceptReconfigure p && ((MType m =? MsgSolicit) || (MType m =? MsgRequest6) || (MType m =? MsgInformationRequest))
    then [[]] else [];
  cf_name : Count (MOptionsV6 m) OptV6ClientFQDN <= if mayCarryName (MType m) then 1 else 0;
  cf_na : (na_bounds (MType m)).1 <= Count (MOptionsV6 m) OptV6IANA <= (na_bounds (MType m)).2;
  cf_pd : Count (MOptionsV6 m) OptV6IAPD <= pd_bound (MType m);
  cf_ta : Count (MOptionsV6 m) OptV6IATA <= ta_bound (MType m);
  cf_oro : Count (MOptionsV6 m) OptV6ORO <= 1;
  cf_codes : Forall (fun o => OCode o ∈ [OptV6ClientID; OptV6ServerID; OptV6IANA; OptV6IATA; OptV6ORO;
    OptV6ElapsedTime; OptV6RapidCommit; OptV6ReconfAccept; OptV6IAPD; OptV6ClientFQDN]) (MOptionsV6 m)
}.

(** ** The observer *)

(** [armed6]: the timers set and not cancelled or fired since; [ever]: set at
    least once; [held]: the lease announced and not lost; [asked], [clear]: the
    addresses whose check is outstanding, and those whose last check found no
    other node; [faulted]: a transport failure has been reported. *)
Record Env6 := mkEnv6 {
  armed6 : TimerID -> bool; ever : TimerID -> bool; held : option Lease6;
  asked : gset Addr; clear : gset Addr; faulted : bool }.

#[global] Instance eta_Env6 : Settable Env6 := fun e =>
  mkEnv6 (armed6 e) (ever e) (held e) (asked e) (clear e) (faulted e).

Definition arm6 (t : TimerID) (b : bool) (f : TimerID -> bool) : TimerID -> bool :=
  fun t' => if bool_decide (t' = t) then b else f t'.

Definition laddrs (l : Lease6) : list Addr := map a6Addr (l6Addrs l ++ l6TempAddrs l).

(** What an action does to what the observer knows. *)
Definition observe6 (e : Env6) (b : ActionBody6) : Env6 :=
  match b with
  | Act6SetTimer t _ => e <| armed6 := arm6 t true (armed6 e) |> <| ever := arm6 t true (ever e) |>
  | Act6CancelTimer t => e <| armed6 := arm6 t false (armed6 e) |>
  | Act6LeaseAcquired l _ | Act6LeaseRenewed l | Act6LeaseChanged l => e <| held := Some l |>
  | Act6LeaseLost _ _ => e <| held := None |>
  | Act6StartDAD a => e <| asked := {[ a ]} ∪ asked e |> <| clear := clear e ∖ {[ a ]} |>
  | Act6Failed r _ _ => if bool_decide (r = ReasonTransport) then e <| faulted := true |> else e
  | _ => e
  end.

(** What an input does: a timer that fires is no longer armed, and the answer of
    a check that was asked for clears its address or not. *)
Definition hears6 (ev : Event6) (e : Env6) : Env6 :=
  match ev with
  | Ev6TimerFired t => e <| armed6 := arm6 t false (armed6 e) |>
  | Ev6DADResult a dup =>
    if bool_decide (a ∈ asked e)
    then e <| asked := asked e ∖ {[ a ]} |> <| clear := if dup : bool then clear e ∖ {[ a ]} else {[ a ]} ∪ clear e |>
    else e
  | _ => e
  end.

(** The configurations whose addresses a server grants, none of them temporary. *)
Definition stateful (p : Params6) : Prop := P6Mode p = Mode6DHCP /\ P6Temporary p = false.

(** Every address of an announced lease is one a check has cleared. *)
Definition checked (p : Params6) (e : Env6) (l : Lease6) : Prop :=
  stateful p -> forall a, a ∈ laddrs l -> a ∈ clear e.

(** What the observer may see next. *)
Definition allowed6 (p : Params6) (e : Env6) (b : ActionBody6) : Prop :=
  match b with
  | Act6Send m d => conforms6 p m /\ d = AllDHCPRelayAgentsAndServers
  | Act6SetTimer t d => t = Timer6Delay \/ t = Timer6Renew \/ t = Timer6Rebind \/ t = Timer6Expire \/ t = Timer6SLAAC -> 0 <= d
  | Act6LeaseAcquired l _ => held e = None /\ checked p e l
  | Act6LeaseRenewed l | Act6LeaseChanged l => held e <> None /\ checked p e l
  | Act6LeaseLost _ l => held e = Some l
  | _ => True
  end.

Fixpoint trace_ok6 (p : Params6) (e : Env6) (l : list ActionBody6) : Prop :=
  match l with
  | [] => True
  | b :: l => allowed6 p e b /\ trace_ok6 p (observe6 e b) l
  end.

Definition final6 (e : Env6) (l : list ActionBody6) : Env6 := foldl observe6 e l.

Definition env6_0 : Env6 := mkEnv6 (fun _ => false) (fun _ => false) None ∅ ∅ false.

Lemma trace_ok6_app p e l l' : trace_ok6 p e (l ++ l') <-> trace_ok6 p e l /\ trace_ok6 p (final6 e l) l'.
Proof. revert e. induction l as [|b l IH]; intros e; cbn; [tauto|]. rewrite IH. tauto. Qed.

Lemma final6_app e l l' : final6 e (l ++ l') = final6 (final6 e l) l'.
Proof. apply foldl_app. Qed.

(** ** Inputs *)

(** What reaches a machine: an advertisement whose prefixes are those of decoded
    options, and a timer that was set at some time.  A fire that is already under
    way when its timer is cancelled may arrive late, but for the retransmission
    timer's. *)
Definition input_ok (e : Env6) (ev : Event6) : Prop :=
  match ev with
  | Ev6RouterAdvert (Some ra) => Forall pio_wf (RaPrefixes ra)
  | Ev6TimerFired t => ever e t = true /\ (t = Timer6Retransmit -> armed6 e t = true)
  | _ => True
  end.

(** An accepted configuration: the link address is octets and the remembered
    addresses are addresses a lease can have named. *)
Definition resume_addr_ok (a : Addr) : Prop :=
  usable6 a = true -> exists w, a = Addr6 w [] /\ 0 <= w < 2 ^ 128 /\ Contains linkLocalPrefix a = false.

Record config_ok (p : Params6) : Prop := {
  cg_valid : params6_validate p = None;
  cg_link : are_bytes (P6LinkAddr p);
  cg_resume : forall r, P6Resume p = Some r -> Forall (fun a => resume_addr_ok (a6Addr a)) (r6Addrs r)
}.

(** A machine configured with [p] that has been given acceptable inputs, and what
    the observer of its actions knows by then. *)
Inductive reach6 (p : Params6) : Machine6 -> Env6 -> Prop :=
| reach6_new m : New6 p = inr m -> reach6 p m env6_0
| reach6_step m e now rnd ev m' s acts : reach6 p m e -> input_ok e ev ->
    Step6 m now rnd ev = Some (m', s, acts) -> reach6 p m' (final6 (hears6 ev e) (map Act6Body acts)).

(** ** What holds between steps *)

(** The end of a lease's lifetimes is a timer. *)
Definition expiry_armed (m : Core6) (e : Env6) : Prop :=
  nhaveLse m = true -> l6SLAAC (nlease m) = false ->
  dExpire (Lease6Deadlines (nlease m)) <> None \/ nextEnd (nlease m) <> None -> armed6 e Timer6Expire = true.

(** The message whose exchange a state is. *)
Definition exchange_of (s : State6) : option MessageTypeV6 :=
  match s with
  | State6Selecting => Some MsgSolicit
  | State6Requesting => Some MsgRequest6
  | State6Confirming => Some MsgConfirm
  | State6Renewing => Some MsgRenew
  | State6Rebinding => Some MsgRebind
  | _ => None
  end.

(** A state that waits has the exchange, or the check, it waits for, and the
    timer that ends the wait; a Solicit has no server behind it yet.  No state
    waits for a Router Advertisement where a server grants the addresses. *)
Definition driven6 (m : Core6) (e : Env6) : Prop :=
  match exchange_of (nstate m) with
  | Some t => nmsgType m = t /\ armed6 e Timer6Retransmit = true /\ (t = MsgSolicit -> ntried m = [])
  | None =>
    match nstate m with
    | State6Init => armed6 e Timer6Delay = true /\ ntried m = []
    | State6InfoRequesting => nmsgType m = 0 \/ nmsgType m = MsgInformationRequest /\ armed6 e Timer6Retransmit = true
    | State6Stopped => nmsgType m = MsgRelease6 -> armed6 e Timer6Retransmit = true
    | State6DAD => nmsgType m = MsgDecline6 /\ armed6 e Timer6Retransmit = true \/
                   ndadWait m <> [] /\ armed6 e Timer6DAD = true
    | State6Bound => nmsgType m = 0
    | _ => False
    end
  end.
