(* ===== verification/Machine6Logic.v ===== *)
(** * A program logic for the DHCPv6 machine's methods

    [wp6 p c Q k e]: from the fields [k] and the observer's knowledge [e], the
    method [c] does not panic, every action it emits is allowed where it stands,
    and [Q] holds of its result, the fields and the knowledge it leaves. *)

From S2P Require Import Prelude NetAddr Options Codec Forcerenew Arp Backoff Kinds Lease Dhcp6 Rkap Backoff6 Icmpv6 Lease6 Slaac Params6 Router6 Outward Core6 Machine6 Machine6Steps Machine6Spec.

Section logic.
Context (p : Params6).

Definition wp6 {A} (c : M6 A) (Q : A -> Core6 -> Env6 -> Prop) (k : Core6) (e : Env6) : Prop :=
  forall n o,
    match c (mkSt6 k n o) with
    | None => False
    | Some (a, s) => exists acts,
        out6 s = o ++ acts /\ trace_ok6 p e (map Act6Body acts) /\ Q a (core6 s) (final6 e (map Act6Body acts))
    end.

Lemma wp6_ret {A} (a : A) (Q : A -> Core6 -> Env6 -> Prop) k e : Q a k e -> wp6 (mret a) Q k e.
Proof. intros H n o. exists []. rewrite app_nil_r. done. Qed.

Lemma wp6_bind {A B} (c : M6 A) (f : A -> M6 B) Q k e :
  wp6 c (fun a k' e' => wp6 (f a) Q k' e') k e -> wp6 (c ≫= f) Q k e.
Proof.
  intros H n o. specialize (H n o). unfold mbind, M6_bind.
  destruct (c (mkSt6 k n o)) as [[a s]|]; [|done].
  destruct H as (acts & Ho & Ht & H). specialize (H (next6 s) (out6 s)).
  destruct s as [k' n' o']. cbn in *. destruct (f a (mkSt6 k' n' o')) as [[b s']|]; [|done].
  destruct H as (acts' & Ho' & Ht' & H). exists (acts ++ acts').
  rewrite map_app, final6_app, trace_ok6_app. subst o'. by rewrite app_assoc.
Qed.

Lemma wp6_mono {A} (c : M6 A) (Q Q' : A -> Core6 -> Env6 -> Prop) k e :
  wp6 c Q k e -> (forall a k' e', Q a k' e' -> Q' a k' e') -> wp6 c Q' k e.
Proof.
  intros H HQ n o. specialize (H n o). destruct (c _) as [[a s]|]; [|done].
  destruct H as (acts & ? & ? & ?). exists acts. auto.
Qed.

Lemma wp6_get (Q : Core6 -> Core6 -> Env6 -> Prop) k e : Q k k e -> wp6 get6 Q k e.
Proof. intros H n o. exists []. rewrite app_nil_r. done. Qed.

Lemma wp6_modify f (Q : unit -> Core6 -> Env6 -> Prop) k e : Q tt (f k) e -> wp6 (modify6 f) Q k e.
Proof. intros H n o. exists []. rewrite app_nil_r. done. Qed.

Lemma wp6_stamp b (Q : unit -> Core6 -> Env6 -> Prop) k e : allowed6 p e b -> Q tt k (observe6 e b) -> wp6 (stamp6 b) Q k e.
Proof. intros Ha H n o. exists [mkAction6 n b]. cbn. done. Qed.

Lemma wp6_lift {A} (x : option A) a (Q : A -> Core6 -> Env6 -> Prop) k e : x = Some a -> Q a k e -> wp6 (lift6 x) Q k e.
Proof. intros ->. apply wp6_ret. Qed.

Lemma wp6_liftok {A} (x : wire A) a (Q : A -> Core6 -> Env6 -> Prop) k e : x = Ok a -> Q a k e -> wp6 (liftok6 x) Q k e.
Proof. intros ->. apply wp6_ret. Qed.

Lemma wp6_liftw {A} (x : wire A) (Q : A + WireErr -> Core6 -> Env6 -> Prop) k e : returns x ->
  (forall a, x = Ok a -> Q (inl a) k e) -> (forall w, x = Err w -> Q (inr w) k e) -> wp6 (liftw6 x) Q k e.
Proof. intros [H1 H2] Ho He. destruct x; [apply wp6_ret, Ho; done|apply wp6_ret, He; done|done|done]. Qed.

Lemma wp6_when (b : bool) c (Q : unit -> Core6 -> Env6 -> Prop) k e :
  (b = true -> wp6 c Q k e) -> (b = false -> Q tt k e) -> wp6 (when6 b c) Q k e.
Proof. destruct b; intros H1 H2; [by apply H1|by apply wp6_ret, H2]. Qed.

Lemma wp6_cancel t (Q : unit -> Core6 -> Env6 -> Prop) k e : Q tt k (e <| armed6 := arm6 t false (armed6 e) |>) -> wp6 (cancel6 t) Q k e.
Proof. intros. by apply wp6_stamp. Qed.

Lemma wp6_set t d (Q : unit -> Core6 -> Env6 -> Prop) k e : allowed6 p e (Act6SetTimer t d) ->
  Q tt k (e <| armed6 := arm6 t true (armed6 e) |> <| ever := arm6 t true (ever e) |>) -> wp6 (set6 t d) Q k e.
Proof. intros Ha H. by apply wp6_stamp. Qed.

Lemma wp6_journal n (Q : unit -> Core6 -> Env6 -> Prop) k e : Q tt k e -> wp6 (journal6 n) Q k e.
Proof. intros. by apply wp6_stamp. Qed.

(** A journal line that may not be written. *)
Lemma wp6_when_journal b n (Q : unit -> Core6 -> Env6 -> Prop) k e : Q tt k e -> wp6 (when6 b (journal6 n)) Q k e.
Proof. intros H. apply wp6_when; [intros _; by apply wp6_journal|done]. Qed.

Lemma wp6_nak st n (Q : unit -> Core6 -> Env6 -> Prop) k e : Q tt k e -> wp6 (nak6 st n) Q k e.
Proof. intros. by apply wp6_stamp. Qed.

Lemma wp6_failed r n (Q : unit -> Core6 -> Env6 -> Prop) k e : Q tt k (observe6 e (Act6Failed r StatusSuccess n)) ->
  wp6 (failed6 r n) Q k e.
Proof. intros. by apply wp6_stamp. Qed.

(** Loops that change neither the fields nor the knowledge. *)
Lemma wp6_forM_same {A} (l : list A) (f : A -> M6 unit) (Q : unit -> Core6 -> Env6 -> Prop) k e :
  (forall x (Q : unit -> Core6 -> Env6 -> Prop), Q tt k e -> wp6 (f x) Q k e) -> Q tt k e -> wp6 (forM6 l f) Q k e.
Proof.
  intros Hf H. induction l as [|x l IH]; [by apply wp6_ret|]. cbn [forM6]. apply wp6_bind, Hf. exact IH.
Qed.

Lemma wp6_forM_journal {A} (l : list A) (f : A -> Note) (Q : unit -> Core6 -> Env6 -> Prop) k e :
  Q tt k e -> wp6 (forM6 l (fun x => journal6 (f x))) Q k e.
Proof. apply wp6_forM_same. intros x Q' H. by apply wp6_journal. Qed.

Lemma wp6_journals n (Q : unit -> Core6 -> Env6 -> Prop) k e : Q tt k e -> wp6 (journals n) Q k e.
Proof. apply wp6_forM_journal. Qed.

(** A loop under an invariant. *)
Lemma wp6_forM_inv {A} (I : Core6 -> Env6 -> Prop) (l : list A) (f : A -> M6 unit) k e :
  (forall x k e, x ∈ l -> I k e -> wp6 (f x) (fun _ => I) k e) -> I k e -> wp6 (forM6 l f) (fun _ => I) k e.
Proof.
  revert k e. induction l as [|x l IH]; intros k e Hf H; [by apply wp6_ret|]. cbn [forM6]. apply wp6_bind.
  eapply wp6_mono; [apply Hf; [by left|exact H]|]. cbn. intros _ k' e' H'. apply IH; [|done].
  intros y k1 e1 Hy. apply Hf. by right.
Qed.

Lemma wp6_cancels l (Q : unit -> Core6 -> Env6 -> Prop) k e :
  Q tt k (e <| armed6 := foldl (fun f t => arm6 t false f) (armed6 e) l |>) -> wp6 (forM6 l cancel6) Q k e.
Proof.
  revert e. induction l as [|t l IH]; intros e H; [apply wp6_ret; by destruct e|].
  cbn [forM6]. apply wp6_bind, wp6_cancel, IH. done.
Qed.

Lemma foldl_arm6_false l f t : t ∈ l \/ f t = false -> foldl (fun f t => arm6 t false f) f l t = false.
Proof.
  revert f. induction l as [|t' l IH]; cbn; intros f H.
  - destruct H as [H|]; [by apply not_elem_of_nil in H|done].
  - apply IH. unfold arm6. case_bool_decide as Hd; [by right|].
    destruct H as [[->|?]%elem_of_cons|?]; [done|by left|by right].
Qed.

Lemma wp6_cancelAll (Q : unit -> Core6 -> Env6 -> Prop) k e :
  (forall f, (forall t, f t = false) -> Q tt k (e <| armed6 := f |>)) -> wp6 cancelAll6 Q k e.
Proof. intros H. apply wp6_cancels, H. intros t. apply foldl_arm6_false. left. apply elem_of_AllTimerIDs. Qed.
End logic.

(** From here on a judgement is only taken apart by the rules above. *)
#[global] Opaque wp6.

(** One step of symbolic execution. *)
Ltac w6step :=
  lazymatch goal with
  | |- wp6 _ (mret _) _ _ _ => apply wp6_ret
  | |- wp6 _ (_ ≫= _) _ _ _ => apply wp6_bind
  | |- wp6 _ get6 _ _ _ => apply wp6_get
  | |- wp6 _ (modify6 _) _ _ _ => apply wp6_modify
  | |- wp6 _ (journal6 _) _ _ _ => apply wp6_journal
  | |- wp6 _ (journals _) _ _ _ => apply wp6_journals
  | |- wp6 _ (nak6 _ _) _ _ _ => apply wp6_nak
  | |- wp6 _ (cancel6 _) _ _ _ => apply wp6_cancel
  | |- wp6 _ cancelAll6 _ _ _ => apply wp6_cancelAll; intros
  | |- wp6 _ (when6 _ (journal6 _)) _ _ _ => apply wp6_when_journal
  | |- wp6 _ ((fun _ => _) _) _ _ _ => cbv beta
  end.

Ltac w6 := repeat w6step; cbv beta.
