(* ===== verification/Machine6Msgs.v ===== *)
(** * The messages of the DHCPv6 machine

    The readers a Reply goes through always answer, the encoders of its options
    never get stuck, and every message [build] makes conforms to RFC 9915. *)

From S2P Require Import Prelude NetAddr Options Codec Forcerenew Arp Backoff Kinds Lease Dhcp6 Rkap Backoff6 Icmpv6 Lease6 Slaac Params6 Router6 Outward Core6 Machine6 Machine6Steps Machine6Spec Machine6Logic.

(** ** The readers of a Reply answer *)

Lemma Status_ok o : exists r, OptionsV6_Status o = Ok r.
Proof.
  unfold OptionsV6_Status. destruct (First o OptV6StatusCode) as [v|]; [|eauto].
  assert (Hr : returns (DecodeStatus v)).
  { unfold DecodeStatus. destruct (Nat.ltb_spec (length v) 2); [done|].
    apply returns_slice_bind; [lia..|]. intros b Hb. apply returns_bind; [apply returns_ube16; lia|intros c _].
    apply returns_slice_bind; [lia..|]. done. }
  destruct Hr as [H1 H2]. destruct (DecodeStatus v); eauto; done.
Qed.

Lemma iaStatus_ok o w : exists r, iaStatus o w = Ok r.
Proof. unfold iaStatus. destruct (Status_ok o) as ([[st ok] [e|]] & ->); cbn; eauto. Qed.

Lemma iaAddrs_ok o w : exists r, iaAddrs o w = Ok r.
Proof.
  unfold iaAddrs. destruct (catch_ok (Addrs o) (fun addrs => Ok (iaAddrsLoop addrs [] [] []))
    (fun e => Ok ([], [], note "%s: %s" [AStr w; AErr e])) (fun _ => True)) as (r & -> & _); eauto.
  apply decodeAll_returns, DecodeIAAddr_returns.
Qed.

Lemma iaPrefixes_ok o : exists r, iaPrefixes o = Ok r.
Proof.
  unfold iaPrefixes. destruct (catch_ok (Prefixes o) (fun ps => Ok (iaPrefixesLoop ps [] [] []))
    (fun e => Ok ([], [], note "IA Prefix option: %s" [AErr e])) (fun _ => True)) as (r & -> & _); eauto.
  apply decodeAll_returns, DecodeIAPrefix_returns.
Qed.

Lemma readIA_ok o iaid : exists r, readIA o iaid = Ok r.
Proof.
  assert (Hl : forall ias out n, exists r, readIALoop ias iaid out n = Ok r).
  { induction ias as [|ia ias IH]; intros out n; cbn [readIALoop]; [eauto|].
    destruct (negb _); [done|]. destruct (iaFound out); [done|]. destruct (_ && _); [done|].
    destruct (iaStatus_ok (naOptions ia) "IA_NA") as ([st n1] & ->). cbn.
    destruct (iaAddrs_ok (naOptions ia) "IA Address option") as ([[l z] n2] & ->). cbn. apply IH. }
  unfold readIA. unfold catch. pose proof (decodeAll_returns DecodeIANA (All o OptV6IANA) DecodeIANA_returns) as [H1 H2].
  fold (IANAs o) in H1, H2. destruct (IANAs o); [|eauto|done|done]. destruct (Hl a (mkIaResult [] 0 0 StatusSuccess false []) []) as ([r n] & ->). cbn. eauto.
Qed.

Lemma readIATA_ok o iaid : exists r, readIATA o iaid = Ok r.
Proof.
  assert (Hl : forall ias out n, exists r, readIATALoop ias iaid out n = Ok r).
  { induction ias as [|ia ias IH]; intros out n; cbn [readIATALoop]; [eauto|].
    destruct (negb _); [done|]. destruct (taFound out); [done|].
    destruct (iaStatus_ok (taOptions ia) "IA_TA") as ([st n1] & ->). cbn.
    destruct (iaAddrs_ok (taOptions ia) "IA_TA Address option") as ([[l z] n2] & ->). cbn. apply IH. }
  unfold readIATA. unfold catch. pose proof (decodeAll_returns DecodeIATA (All o OptV6IATA) DecodeIATA_returns) as [H1 H2].
  fold (IATAs o) in H1, H2. destruct (IATAs o); [|eauto|done|done]. destruct (Hl a (mkTaResult false StatusSuccess []) []) as ([r n] & ->). cbn. eauto.
Qed.

Lemma readIAPD_ok o iaid : exists r, readIAPD o iaid = Ok r.
Proof.
  assert (Hl : forall ias out n, exists r, readIAPDLoop ias iaid out n = Ok r).
  { induction ias as [|ia ias IH]; intros out n; cbn [readIAPDLoop]; [eauto|].
    destruct (negb _); [done|]. destruct (pdFound out); [done|]. destruct (_ && _); [done|].
    destruct (iaStatus_ok (pdOptions ia) "IA_PD") as ([st n1] & ->). cbn.
    destruct (iaPrefixes_ok (pdOptions ia)) as ([[l z] n2] & ->). cbn. apply IH. }
  unfold readIAPD. unfold catch. pose proof (decodeAll_returns DecodeIAPD (All o OptV6IAPD) DecodeIAPD_returns) as [H1 H2].
  fold (IAPDs o) in H1, H2. destruct (IAPDs o); [|eauto|done|done].
  destruct (Hl a (mkPdResult false StatusSuccess 0 0 [] []) []) as ([r n] & ->). cbn. eauto.
Qed.

Lemma serverFQDN_ok o : exists r, serverFQDN o = Ok r.
Proof.
  unfold serverFQDN. destruct (OptionsV6_ClientFQDN o) as [r|] eqn:E; [|eauto].
  match goal with |- context [catch ?c ?f ?g] => destruct (catch_ok c f g (fun _ => True)) as (x & -> & _); eauto end.
  unfold OptionsV6_ClientFQDN in E. repeat case_match; try done; injection E as <-; try done; apply DecodeClientFQDN_returns.
Qed.

(** A Reply's lease is one a server grants, with no temporary address yet. *)
Lemma leaseFromReply_ok m iaid sent : exists l z n st ok, leaseFromReply m iaid sent = Ok (l, z, n, st, ok) /\
  l6SLAAC l = false /\ l6TempAddrs l = [].
Proof.
  unfold leaseFromReply. destruct (readIA_ok (MOptionsV6 m) iaid) as ([res ns] & ->). cbn [mbind outcome_bind].
  set (l0 := match First _ _ with Some _ => _ | None => _ end).
  assert (H0 : l6SLAAC l0 = false /\ l6TempAddrs l0 = []) by (unfold l0; by destruct (First _ _)). clearbody l0.
  destruct (negb (iaFound res)); [by do 5 eexists|].
  match goal with |- context [let '(a, b) := ?x in _] => destruct x as [addrs notes] end.
  set (l1 := l0 <| l6T1 := _ |> <| l6T2 := _ |> <| l6Addrs := _ |>).
  assert (H1 : l6SLAAC l1 = false /\ l6TempAddrs l1 = []) by done. clearbody l1. clear H0 l0.
  match goal with |- context [catch (DNSServers ?o) ?f ?g] =>
    destruct (catch_ok (DNSServers o) f g (fun r => l6SLAAC r.1 = false /\ l6TempAddrs r.1 = []) (DNSServers_returns o))
      as ([l2 n2] & -> & H2); [eauto..|] end.
  cbn [mbind outcome_bind]. cbn [fst] in H2.
  match goal with |- context [catch (DomainSearchV6 ?o) ?f ?g] =>
    destruct (catch_ok (DomainSearchV6 o) f g (fun r => l6SLAAC r.1 = false /\ l6TempAddrs r.1 = []) (DomainSearchV6_returns o))
      as ([l3 n3] & -> & H3); [eauto..|] end.
  cbn [mbind outcome_bind]. cbn [fst] in H3.
  destruct (serverFQDN_ok (MOptionsV6 m)) as ([[f ok] nf] & ->). cbn [mbind outcome_bind].
  do 5 eexists. split; [reflexivity|]. done.
Qed.

Lemma RapidCommit_returns o : returns (RapidCommitV6 o).
Proof.
  unfold RapidCommitV6. generalize false. induction (All o OptV6RapidCommit) as [|v vs IH]; intros b; cbn; [done|].
  by destruct (negb _).
Qed.

Lemma Preference_returns o r : Preference o = Some r -> returns r.
Proof. unfold Preference. destruct (First o _) as [[|x [|]]|]; intros [= <-]; done. Qed.

Lemma Auth_returns o r : OptionsV6_Auth o = Some r -> returns r.
Proof.
  unfold OptionsV6_Auth. destruct (_ =? 0); [done|]. destruct (1 <? _); intros [= <-]; [done|apply DecodeAuth_returns].
Qed.

Lemma reconfigureAuthentic_ok m o raw sid : exists r, reconfigureAuthentic m o raw sid = Ok r.
Proof.
  unfold reconfigureAuthentic. destruct (OptionsV6_Auth o) as [r|] eqn:E; [|eauto].
  match goal with |- context [catch r ?f ?g] =>
    destruct (catch_ok r f g (fun _ => True) (Auth_returns _ _ E)) as (x & -> & _); [|eauto|eauto] end.
  intros a _. match goal with |- context [catch (RKAP a) ?f ?g] =>
    destruct (catch_ok (RKAP a) f g (fun _ => True) (RKAP_returns a)) as (x & -> & _); [|eauto|eauto] end.
  intros _ _. destruct (nreconf m !! sid) as [s|]; [|eauto]. destruct (_ =? _)%nat; [eauto|].
  match goal with |- context [catch (RKAPVerify ?a ?b) ?f ?g] =>
    destruct (catch_ok (RKAPVerify a b) f g (fun _ => True) (RKAPVerify_returns a b)) as (x & -> & _); eauto end.
Qed.

(** ** The encoders *)

Lemma EncodeOptionsV6_returns o : returns (EncodeOptionsV6 o).
Proof.
  unfold EncodeOptionsV6. generalize (@nil Z). induction o as [|opt o IH]; intros out; cbn; [done|].
  repeat (case_match; try done).
Qed.

Lemma EncodeIAAddr_returns a : returns (EncodeIAAddr a).
Proof. unfold EncodeIAAddr. destruct (_ || _); [done|]. by apply returns_bind; [apply EncodeOptionsV6_returns|]. Qed.
Lemma EncodeIAPrefix_returns a : returns (EncodeIAPrefix a).
Proof. unfold EncodeIAPrefix. cbv zeta. destruct (_ || _); [done|]. by apply returns_bind; [apply EncodeOptionsV6_returns|]. Qed.

Lemma iaAddrOptions_returns z l : returns (iaAddrOptions z l).
Proof.
  induction l as [|a l IH]; cbn; [done|]. destruct (negb _); [done|].
  apply returns_bind; [apply EncodeIAAddr_returns|intros v _]. by apply returns_bind.
Qed.

Lemma iaPrefixOption_returns p x y : returns (iaPrefixOption p x y).
Proof. unfold iaPrefixOption. by apply returns_bind; [apply EncodeIAPrefix_returns|]. Qed.

Lemma iaPrefixOptions_returns z l : returns (iaPrefixOptions z l).
Proof.
  induction l as [|a l IH]; cbn; [done|].
  apply returns_bind; [apply iaPrefixOption_returns|intros v _]. by apply returns_bind.
Qed.

Lemma buildIA_returns m t : returns (buildIA m t).
Proof.
  unfold buildIA. destruct (iaSubject m t) as [[l z]|]; [|done].
  apply returns_bind; [apply iaAddrOptions_returns|intros os _]. apply returns_bind; [|done].
  by apply returns_bind; [apply EncodeOptionsV6_returns|].
Qed.

Lemma buildTA_returns m l : returns (buildTA m l).
Proof.
  unfold buildTA. apply returns_bind; [apply iaAddrOptions_returns|intros os _]. apply returns_bind; [|done].
  by apply returns_bind; [apply EncodeOptionsV6_returns|].
Qed.

Lemma buildPDFor_returns m t : returns (buildPDFor m t).
Proof.
  unfold buildPDFor. destruct (pdSubject m t) as [[[l h] z]|]; [|done]. destruct (_ && _); [done|].
  apply returns_bind; [|done]. unfold buildPD. apply returns_bind; [apply iaPrefixOptions_returns|intros os _].
  apply returns_bind.
  - destruct (_ && _); [|done]. apply returns_bind; [apply iaPrefixOption_returns|done].
  - intros os' _. apply returns_bind; [|done]. by apply returns_bind; [apply EncodeOptionsV6_returns|].
Qed.

Lemma buildIAs_returns m t : returns (buildIAs m t).
Proof.
  unfold buildIAs. apply returns_bind; [apply buildIA_returns|intros na _].
  apply returns_bind; [apply buildPDFor_returns|intros pd _]. destruct (taSubject m t); [|done].
  by apply returns_bind; [apply buildTA_returns|].
Qed.

Lemma EncodeClientFQDN_returns f n : returns (EncodeClientFQDN f n).
Proof.
  unfold EncodeClientFQDN. cbv zeta. do 4 (match goal with |- returns (if ?b then _ else _) => destruct b; [done|] end).
  apply returns_bind; [|intros out _; by destruct (_ <? _)%nat].
  destruct (bytes_eqb _ _); [done|]. generalize [f].
  match goal with |- forall _, returns (encodeLabels6 ?x _) => induction x as [|l ls IH]; intros out; cbn; [done|] end.
  do 2 (match goal with |- returns (if ?b then _ else _) => destruct b; [done|] end). apply IH.
Qed.

(** ** Options by code *)

Lemma Count_app a b c : Count (a ++ b) c = Count a c + Count b c.
Proof. induction a as [|o a IH]; cbn; [done|]. rewrite IH. lia. Qed.

Lemma All_none o c : Forall (fun x => OCode x <> c) o -> All o c = [].
Proof. induction 1 as [|x o Hx Ho IH]; cbn; [done|]. by rewrite (proj2 (Z.eqb_neq _ _) Hx). Qed.

Lemma Count_none o c : Forall (fun x => OCode x <> c) o -> Count o c = 0.
Proof. induction 1 as [|x o Hx Ho IH]; cbn; [done|]. by rewrite (proj2 (Z.eqb_neq _ _) Hx). Qed.

(** ** The shape of the IAs *)

Definition is_some {A} (o : option A) : Z := match o with Some _ => 1 | None => 0 end.

(** [buildIA], [buildPDFor] and [buildTA] give at most one option each, of their
    code. *)
Lemma buildIA_shape m t na : buildIA m t = Ok na ->
  is_some na = is_some (iaSubject m t) /\ Forall (fun o => OCode o = OptV6IANA) (opt_list na).
Proof.
  unfold buildIA. destruct (iaSubject m t) as [[l z]|]; [|by intros <-%ok_inj].
  intros E. destruct (iaAddrOptions z l) as [os| | |]; cbn [mbind outcome_bind] in E; try done.
  destruct (EncodeIANA _); cbn [mbind outcome_bind] in E; try done. apply ok_inj in E as <-. by repeat constructor.
Qed.

Lemma buildPDFor_shape m t pd : buildPDFor m t = Ok pd ->
  (pdSubject m t = None -> pd = None) /\ Forall (fun o => OCode o = OptV6IAPD) (opt_list pd).
Proof.
  unfold buildPDFor. destruct (pdSubject m t) as [[[l h] z]|]; [|by intros <-%ok_inj].
  destruct (_ && _); [by intros <-%ok_inj|]. intros E. destruct (buildPD m l h z) as [v| | |] eqn:Ev; cbn [mbind outcome_bind] in E; try done.
  apply ok_inj in E as <-. split; [done|]. repeat constructor.
  unfold buildPD in Ev. destruct (iaPrefixOptions z l) as [os| | |]; cbn [mbind outcome_bind] in Ev; try done.
  match type of Ev with ((if ?b then _ else _) ≫= _) = _ => destruct (if b then _ else _) as [os'| | |] end; cbn [mbind outcome_bind] in Ev; try done.
  destruct (EncodeIAPD _); cbn [mbind outcome_bind] in Ev; try done. by apply ok_inj in Ev as <-.
Qed.

Lemma buildTA_shape m l v : buildTA m l = Ok v -> OCode v = OptV6IATA.
Proof.
  unfold buildTA. destruct (iaAddrOptions false l) as [os| | |]; cbn [mbind outcome_bind]; try done.
  destruct (EncodeIATA _); cbn [mbind outcome_bind]; try done. by intros <-%ok_inj.
Qed.

Lemma opt_list_count {A} (o : option A) : Z.of_nat (length (opt_list o)) = is_some o.
Proof. by destruct o. Qed.

Lemma Count_code o c : Forall (fun x => OCode x = c) o -> Count o c = Z.of_nat (length o).
Proof. induction 1 as [|x o Hx Ho IH]; cbn; [done|]. rewrite Hx, Z.eqb_refl, IH. lia. Qed.

Lemma buildIAs_shape m t ias : buildIAs m t = Ok ias ->
  Forall (fun o => OCode o ∈ [OptV6IANA; OptV6IAPD; OptV6IATA]) ias /\
  Count ias OptV6IANA = is_some (iaSubject m t) /\
  Count ias OptV6IAPD <= is_some (pdSubject m t) /\ Count ias OptV6IATA = is_some (taSubject m t).
Proof.
  unfold buildIAs. intros E. destruct (buildIA m t) as [na| | |] eqn:Ena; cbn [mbind outcome_bind] in E; try done.
  destruct (buildPDFor m t) as [pd| | |] eqn:Epd; cbn [mbind outcome_bind] in E; try done.
  apply buildIA_shape in Ena as [Hn1 Hn2]. apply buildPDFor_shape in Epd as [Hp1 Hp2].
  assert (Hlen : Z.of_nat (length (opt_list pd)) <= is_some (pdSubject m t)).
  { rewrite opt_list_count. destruct (pdSubject m t); [by destruct pd|by rewrite Hp1]. }
  assert (Hne : forall c c' (l : OptionsV6), Forall (fun o => OCode o = c) l -> c <> c' -> Forall (fun o => OCode o <> c') l).
  { intros c c' l Hl Hc. eapply Forall_impl; [exact Hl|]. by intros x ->. }
  assert (Hin : forall c (l : OptionsV6), Forall (fun o => OCode o = c) l -> c ∈ [OptV6IANA; OptV6IAPD; OptV6IATA] ->
    Forall (fun o => OCode o ∈ [OptV6IANA; OptV6IAPD; OptV6IATA]) l).
  { intros c l Hl Hc. eapply Forall_impl; [exact Hl|]. by intros x ->. }
  assert (Hparts : forall ta, Forall (fun o => OCode o = OptV6IATA) ta ->
    forall l, l = opt_list na ++ opt_list pd ++ ta \/ l = opt_list na ++ ta ++ opt_list pd ->
    Forall (fun o => OCode o ∈ [OptV6IANA; OptV6IAPD; OptV6IATA]) l /\
    Count l OptV6IANA = is_some (iaSubject m t) /\ Count l OptV6IAPD <= is_some (pdSubject m t) /\
    Count l OptV6IATA = Z.of_nat (length ta)).
  { intros ta Hta l Hl.
    assert (Hc : forall c, Count l c = Count (opt_list na) c + Count (opt_list pd) c + Count ta c)
      by (intros c; destruct Hl as [->| ->]; rewrite !Count_app; lia).
    rewrite !Hc, (Count_code _ _ Hn2), (Count_code _ _ Hp2), (Count_code _ _ Hta), opt_list_count, Hn1.
    rewrite (Count_none (opt_list pd) OptV6IANA), (Count_none ta OptV6IANA), (Count_none (opt_list na) OptV6IAPD),
      (Count_none ta OptV6IAPD), (Count_none (opt_list na) OptV6IATA), (Count_none (opt_list pd) OptV6IATA)
      by (eapply Hne; [eassumption|done]).
    split; [|lia]. destruct Hl as [->| ->]; rewrite !Forall_app; split_and!; eapply Hin; try eassumption; set_solver. }
  destruct (taSubject m t) as [ta|] eqn:Et.
  - destruct (buildTA m ta) as [v| | |] eqn:Ev; cbn [mbind outcome_bind] in E; try done. apply ok_inj in E. apply buildTA_shape in Ev.
    apply (Hparts [v]); [by repeat constructor|]. subst ias. destruct (t =? MsgRelease6); auto.
  - apply ok_inj in E. apply (Hparts []); [done|]. subst ias. left. by rewrite app_nil_r.
Qed.

(** ** What [build] makes *)

(** The parts of a message around its IAs. *)
Lemma serverIDOf_shape m t sid : serverIDOf m t = inl sid ->
  (sid = [] /\ names_server t = false) \/
  exists s, s <> [] /\ sid = [mkOptionV6 OptV6ServerID s] /\ (names_server t = true \/ t = MsgInformationRequest).
Proof.
  unfold serverIDOf. fold (names_server t). destruct (names_server t).
  - destruct (nserver m) as [|x s]; cbn; [done|]. intros [= <-]. right. exists (x :: s). by split_and!; [|done|left].
  - destruct (Z.eqb_spec t MsgInformationRequest) as [->|]; cbn [andb]; [|intros [= <-]; by left].
    destruct (nreconfServerID m) as [|x s]; cbn; intros [= <-]; [by left|]. right. exists (x :: s). by split_and!; [|done|right].
Qed.

Lemma ElapsedHundredths_range h : 0 <= h -> 0 <= ElapsedHundredths h < 2 ^ 16.
Proof.
  intros Hh. unfold ElapsedHundredths, MaxElapsedHundredths, u16. destruct (Z.ltb_spec 0xffff h); [lia|].
  apply Z.mod_pos_bound. lia.
Qed.

(** The IAs of each type. *)
Lemma subject_bounds m t : client_type t ->
  (na_bounds t).1 <= is_some (iaSubject m t) <= (na_bounds t).2 /\
  is_some (pdSubject m t) <= pd_bound t /\ is_some (taSubject m t) <= ta_bound t.
Proof.
  assert (Hb : forall A (o : option A), 0 <= is_some o <= 1) by (intros A []; cbn; lia).
  unfold client_type. rewrite !elem_of_cons, elem_of_nil. intros Ht. destruct_or?; subst t; try done;
    unfold iaSubject, pdSubject, taSubject; cbn [Z.eqb Pos.eqb orb andb na_bounds pd_bound ta_bound fst snd
      MsgSolicit MsgRequest6 MsgConfirm MsgRenew MsgRebind MsgRelease6 MsgDecline6 MsgInformationRequest];
    (split; [|split]); repeat match goal with |- context [is_some ?o] => lazymatch o with Some _ => cbn [is_some] | None => cbn [is_some] | _ => first [pose proof (Hb _ o); generalize dependent (is_some o); intros] end end; lia.
Qed.

(** Two option codes are not one, or one is not among others. *)
Ltac code_ne := first [discriminate|apply (bool_decide_unpack _); vm_compute; exact I].

(** The parts of a message that are there or not. *)
Ltac parts :=
  repeat match goal with
  | H : _ = [] \/ exists v, _ = [_] |- _ => destruct H as [->|[? ->]]
  | H : _ = [] \/ _ /\ exists v, _ = [_] |- _ => destruct H as [->|(? & ? & ->)]
  | |- context [if ?b then [_] else []] => is_var b; destruct b
  end; cbn; first [done|lia].

(** What [build] returns, as a function of its parts. *)
Lemma build_parts m sid ias fqdn codes now p : 0 <= nxid m < 2 ^ 24 -> only_maxima p (nparams m) ->
  forall t, client_type t -> serverIDOf m t = inl sid -> buildIAs m t = Ok ias ->
  (mayCarryName t = false -> fqdn = None) ->
  conforms6 p (mkMessageV6 t (nxid m)
    ([mkOptionV6 OptV6ClientID (P6DUID (nparams m))] ++ sid ++ acceptOption m t ++ rapidOption m t ++ ias
     ++ map (mkOptionV6 OptV6ClientFQDN) (opt_list fqdn) ++ oroOption codes ++ [elapsedOption m now])).
Proof.
  intros Hx (sol & inf & Hp & _) t Ht Hsid Hias Hf. apply buildIAs_shape in Hias as (Hc & Hna & Hpd & Hta).
  assert (Hno : forall c, c ∉ [OptV6IANA; OptV6IAPD; OptV6IATA] -> All ias c = [] /\ Count ias c = 0).
  { intros c Hn. split; [apply All_none|apply Count_none]; (eapply Forall_impl; [exact Hc|]); intros o Ho E; apply Hn; by rewrite <- E. }
  apply serverIDOf_shape in Hsid.
  assert (Hel : exists h, 0 <= h < 2 ^ 16 /\ elapsedOption m now = mkOptionV6 OptV6ElapsedTime (be16 h)).
  { eexists. split; [|reflexivity]. apply ElapsedHundredths_range, Z.mod_pos_bound. lia. }
  destruct Hel as (h & Hh & ->).
  assert (Hacc : acceptOption m t = if P6AcceptReconfigure p && ((t =? MsgSolicit) || (t =? MsgRequest6) || (t =? MsgInformationRequest))
    then [mkOptionV6 OptV6ReconfAccept []] else []) by (unfold acceptOption; by rewrite Hp).
  assert (Hrap : rapidOption m t = if P6RapidCommit p && (t =? MsgSolicit) then [RapidCommitOption] else [])
    by (unfold rapidOption; by rewrite Hp).
  assert (Horo : oroOption codes = [] \/ exists v, oroOption codes = [mkOptionV6 OptV6ORO v])
    by (unfold oroOption; destruct (0 <? length codes)%nat; eauto).
  assert (Hduid : P6DUID (nparams m) = P6DUID p) by (by rewrite Hp).
  rewrite Hacc, Hrap, Hduid. clear Hacc Hrap Hp Hduid.
  set (name := map _ (opt_list fqdn)).
  assert (Hname : name = [] \/ mayCarryName t = true /\ exists v, name = [mkOptionV6 OptV6ClientFQDN v])
    by (unfold name; destruct fqdn; [right; destruct (mayCarryName t); [cbn; eauto|by specialize (Hf eq_refl)]|by left]).
  clearbody name. clear Hf.
  assert (Hs : (if names_server t then exists s, s <> [] /\ All sid OptV6ServerID = [s] else
      All sid OptV6ServerID = [] \/ t = MsgInformationRequest /\ exists s, s <> [] /\ All sid OptV6ServerID = [s]) /\
    Forall (fun o => OCode o = OptV6ServerID) sid).
  { destruct Hsid as [[-> ->]|(s & Hs & -> & Ht')]; [by split; [left|]|]. cbn. split; [|by repeat constructor].
    destruct (names_server t); [by exists s|]. destruct Ht' as [|Ht']; [done|]. right. split; [done|]. by exists s. }
  destruct Hs as [Hs Hsc]. clear Hsid.
  assert (Hsn : forall c, c <> OptV6ServerID -> All sid c = [] /\ Count sid c = 0).
  { intros c Hn. split; [apply All_none|apply Count_none]; (eapply Forall_impl; [exact Hsc|]); intros o Ho E; apply Hn; congruence. }
  destruct (subject_bounds m t Ht) as (Bna & Bpd & Bta). rewrite <- Hna in Bna. rewrite <- Hta in Bta.
  remember (P6AcceptReconfigure p && _) as acc eqn:Eacc. remember (P6RapidCommit p && _) as rap eqn:Erap.
  assert (Hsa : forall c, c <> OptV6ServerID -> All sid c = []) by (intros; by apply Hsn).
  assert (Hsb : forall c, c <> OptV6ServerID -> Count sid c = 0) by (intros; by apply Hsn).
  assert (Hia : forall c, c ∉ [OptV6IANA; OptV6IAPD; OptV6IATA] -> All ias c = []) by (intros; by apply Hno).
  assert (Hib : forall c, c ∉ [OptV6IANA; OptV6IAPD; OptV6IATA] -> Count ias c = 0) by (intros; by apply Hno).
  generalize dependent (oroOption codes). intros os Horo.
  constructor; cbn [MType MXID MOptionsV6]; try done; rewrite ?All_app, ?Count_app.
  - rewrite (Hsa OptV6ClientID), (Hia OptV6ClientID) by code_ne. parts.
  - rewrite (Hia OptV6ServerID) by code_ne.
    assert (Hrest : All (if acc then [mkOptionV6 OptV6ReconfAccept []] else []) OptV6ServerID = [] /\
      All (if rap then [RapidCommitOption] else []) OptV6ServerID = [] /\ All name OptV6ServerID = [] /\ All os OptV6ServerID = [])
      by (split_and!; parts).
    destruct Hrest as (-> & -> & -> & ->). cbn [All OCode app]. by rewrite !app_nil_r.
  - exists h. split; [done|]. rewrite (Hsa OptV6ElapsedTime), (Hia OptV6ElapsedTime) by code_ne. parts.
  - rewrite <- Erap, (Hsa OptV6RapidCommit), (Hia OptV6RapidCommit) by code_ne. parts.
  - rewrite <- Eacc, (Hsa OptV6ReconfAccept), (Hia OptV6ReconfAccept) by code_ne. parts.
  - rewrite (Hsb OptV6ClientFQDN), (Hib OptV6ClientFQDN) by code_ne.
    destruct Hname as [->|(-> & v & ->)]; [destruct (mayCarryName t)|]; parts.
  - rewrite (Hsb OptV6IANA) by code_ne. revert Bna. generalize (Count ias OptV6IANA). intros. parts.
  - rewrite (Hsb OptV6IAPD) by code_ne. revert Hpd. generalize (Count ias OptV6IAPD). intros. parts.
  - rewrite (Hsb OptV6IATA) by code_ne. revert Bta. generalize (Count ias OptV6IATA). intros. parts.
  - rewrite (Hsb OptV6ORO), (Hib OptV6ORO) by code_ne. parts.
  - rewrite !Forall_app. split_and!.
    + repeat constructor; code_ne.
    + eapply Forall_impl; [exact Hsc|]. intros o ->. code_ne.
    + destruct acc; repeat constructor; code_ne.
    + destruct rap; repeat constructor; code_ne.
    + eapply Forall_impl; [exact Hc|]. intros o Ho. rewrite !elem_of_cons, elem_of_nil in Ho. destruct Ho as [->|[->|[->|[]]]]; code_ne.
    + destruct Hname as [->|(_ & v & ->)]; repeat constructor; code_ne.
    + destruct Horo as [->|[v ->]]; repeat constructor; code_ne.
    + repeat constructor; code_ne.
Qed.

(** Only the name last carried changes while a message is built. *)
Lemma wp6_build p now t (Q : MessageV6 + BuildErr -> Core6 -> Env6 -> Prop) k e :
  client_type t -> only_maxima p (nparams k) -> 0 <= nxid k < 2 ^ 24 ->
  (forall r nm, (forall msg, r = inl msg -> conforms6 p msg) -> Q r (k <| nnameOnWire := nm |>) e) ->
  wp6 p (build now t) Q k e.
Proof.
  intros Ht Hp Hx HQ. assert (Hk : k = k <| nnameOnWire := nnameOnWire k |>) by (by destruct k).
  assert (HQ' : forall r, (forall msg, r = inl msg -> conforms6 p msg) -> Q r k e) by (intros r Hr; rewrite Hk; by apply HQ).
  unfold build. apply wp6_bind, wp6_get. destruct (serverIDOf k t) as [sid|err] eqn:Es; [|by apply wp6_ret, HQ'].
  apply wp6_bind, wp6_liftw; [apply buildIAs_returns| |by intros; apply wp6_ret, HQ'].
  intros ias Eias. apply wp6_bind. unfold fqdnOption. destruct (mayCarryName t) eqn:Em; cbn [negb].
  2:{ apply wp6_ret, wp6_ret, HQ'. intros msg [= <-]. exact (build_parts k sid ias None _ now p Hx Hp t Ht Es Eias (fun _ => eq_refl)). }
  apply wp6_bind, wp6_get, wp6_bind, wp6_modify.
  destruct (bytes_eqb (nexchangeName k) []).
  { apply wp6_ret, wp6_ret, HQ. intros msg [= <-]. exact (build_parts k sid ias None _ now p Hx Hp t Ht Es Eias (fun _ => eq_refl)). }
  apply wp6_bind, wp6_liftw; [apply EncodeClientFQDN_returns| |].
  - intros v _. apply wp6_ret, wp6_ret, HQ. intros msg [= <-].
    refine (build_parts k sid ias (Some v) _ now p Hx Hp t Ht Es Eias _). by rewrite Em.
  - intros w _. by apply wp6_ret, wp6_ret, HQ.
Qed.
