(* ===== verification/Machine6Inv.v ===== *)
(** * The invariant of the DHCPv6 machine, and its small methods

    [Inv6 p k e] relates the fields [k] of a machine configured with [p] and what
    an observer of its actions knows, [e]: a part that holds in every mode, the
    expiry timer of the lease, and, where a server grants the addresses, the
    timers that drive each state and the addresses a duplicate check stands
    behind. *)

From S2P Require Import Prelude NetAddr Options Codec Forcerenew Arp Backoff Kinds Lease Dhcp6 Rkap Backoff6 Icmpv6 Lease6 Slaac Params6 Router6 Outward Core6 Machine6 Machine6Steps Machine6Spec Machine6Logic Machine6Msgs.

(** ** The invariant *)

(** The messages a delayed start begins with. *)
Definition first_type (t : MessageTypeV6) : Prop := t ∈ [MsgSolicit; MsgConfirm; MsgRebind; MsgInformationRequest].

(** In every state and mode. *)
Definition Base (p : Params6) (k : Core6) (e : Env6) : Prop :=
  only_maxima p (nparams k) /\
  held e = (if nhaveLse k then Some (nlease k) else None) /\
  (nhaveLse k = false -> nlease k = lease6_zero) /\
  0 <= nxid k < 2 ^ 24 /\
  table_ok (nslaac k) /\
  table_wf (nrouters k) /\
  (ever e Timer6Delay = true -> first_type (npendingType k)) /\
  (forall r, nresume k = Some r -> nhaveLse k = false /\ Forall (fun a => resume_addr_ok (a6Addr a)) (r6Addrs r)) /\
  (P6Mode p = Mode6DHCP -> entries (nslaac k) = [] /\ ever e Timer6SLAAC = false /\ ever e Timer6AutoFallback = false /\
     l6SLAAC (nlease k) = false /\ l6SLAAC (npending k) = false) /\
  (P6Temporary p = false -> l6TempAddrs (nlease k) = [] /\ l6TempAddrs (npending k) = [] /\
     Forall (fun a => adTemp a = []) (nadverts k)) /\
  (stateful p -> (forall a, a ∈ laddrs (nlease k) -> a ∈ clear e) /\ asked e ## clear e) /\
  Forall (fun d => pio_wf (dfInfo d)) (ndeferredPrefixes k) /\
  (armed6 e Timer6Retransmit = true -> client_type (nmsgType k)).

(** The check in progress: every address of the pending lease is cleared, waited
    for or bad, and the ones waited for have been asked about. *)
Definition pending_ok (k : Core6) (e : Env6) : Prop :=
  (forall a, a ∈ laddrs (npending k) -> a ∈ clear e \/ a ∈ ndadWait k \/ a ∈ ndadBad k) /\
  (forall a, a ∈ ndadWait k -> a ∈ asked e \/ a ∈ clear e \/ a ∈ ndadBad k).

Definition Dad (k : Core6) (e : Env6) : Prop :=
  (nstate k <> State6DAD -> ndadWait k = []) /\
  (nstate k = State6DAD -> ndadWait k <> [] -> nmsgType k <> MsgDecline6 /\ pending_ok k e) /\
  (nstate k = State6DAD -> nmsgType k = MsgDecline6 -> nafterDecline k = Some ThenBindPending ->
     forall a, a ∈ laddrs (npending k) -> a ∈ clear e).

Definition Drv (k : Core6) (e : Env6) : Prop := faulted e = true \/ driven6 k e.

Definition Inv6 (p : Params6) (k : Core6) (e : Env6) : Prop :=
  Base p k e /\ expiry_armed k e /\ (P6Mode p = Mode6DHCP -> Drv k e) /\ (stateful p -> Dad k e).

(** Where an exchange may be started from. *)
Definition Calm (p : Params6) (k : Core6) (e : Env6) : Prop :=
  Base p k e /\ expiry_armed k e /\ (stateful p -> ndadWait k = []).

(** The invariant outside duplicate address detection. *)
Definition Inv6' (p : Params6) (k : Core6) (e : Env6) : Prop := Inv6 p k e /\ nstate k <> State6DAD.

Lemma Inv6_Calm p k e : Inv6 p k e -> nstate k <> State6DAD -> Calm p k e.
Proof. intros (HB & HE & _ & HD) Hn. split_and!; try done. intros Hs. by apply (HD Hs). Qed.

(** ** Arming a timer, and what a send does *)

Lemma arm6_eq t b f : arm6 t b f t = b.
Proof. unfold arm6. by rewrite bool_decide_true. Qed.
Lemma arm6_ne t t' b f : t' <> t -> arm6 t b f t' = f t'.
Proof. intros. unfold arm6. by rewrite bool_decide_false. Qed.

Definition timer_set (t : TimerID) (e : Env6) : Env6 := e <| armed6 := arm6 t true (armed6 e) |> <| ever := arm6 t true (ever e) |>.
Definition timer_off (t : TimerID) (e : Env6) : Env6 := e <| armed6 := arm6 t false (armed6 e) |>.
Definition fault (e : Env6) : Env6 := e <| faulted := true |>.

(** A message went out and is timed, or it could not be built. *)
Definition sent (e e' : Env6) : Prop := e' = fault e \/ e' = timer_set Timer6Retransmit e.

(** [Base], clause by clause. *)
Ltac base_split := refine (conj _ (conj _ (conj _ (conj _ (conj _ (conj _ (conj _ (conj _ (conj _ (conj _ (conj _ (conj _ _)))))))))))).

Section small.
Context (p : Params6) (now : Instant) (rnd : Z).

Local Abbreviation wp := (wp6 p).

Lemma wp6_transmit (Q : unit -> Core6 -> Env6 -> Prop) k e :
  client_type (nmsgType k) -> only_maxima p (nparams k) -> 0 <= nxid k < 2 ^ 24 ->
  (forall nm n b1 b2 e', sent e e' ->
     Q tt (k <| nnameOnWire := nm |> <| ntransmits := n |> <| npdSent := b1 |> <| nnaSent := b2 |>) e') ->
  wp (transmit now) Q k e.
Proof.
  intros Ht Hp Hx HQ. unfold transmit. w6. apply wp6_build; [done..|]. intros r nm Hr.
  destruct r as [msg|err].
  2:{ w6. apply wp6_failed. change (observe6 _ _) with (fault e). pose proof (HQ nm (ntransmits k) (npdSent k) (nnaSent k) (fault e)) as H.
      replace (k <| nnameOnWire := nm |>) with
        (k <| nnameOnWire := nm |> <| ntransmits := ntransmits k |> <| npdSent := npdSent k |> <| nnaSent := nnaSent k |>)
        by (by destruct k). apply H. by left. }
  w6. apply wp6_when; intros _; w6; apply wp6_when; intros _; w6; (apply wp6_stamp; [split; [by apply Hr|done]|]);
    (apply wp6_set; [by intros [?|[?|[?|[?|?]]]]|]); cbv beta.
  - apply HQ. by right.
  - pose proof (HQ nm (i64 (ntransmits k + 1)) true (nnaSent k) (timer_set Timer6Retransmit e) (or_intror eq_refl)) as H.
    destruct k. exact H.
  - pose proof (HQ nm (i64 (ntransmits k + 1)) (npdSent k) true (timer_set Timer6Retransmit e) (or_intror eq_refl)) as H.
    destruct k. exact H.
  - pose proof (HQ nm (i64 (ntransmits k + 1)) (npdSent k) (nnaSent k) (timer_set Timer6Retransmit e) (or_intror eq_refl)) as H.
    destruct k. exact H.
Qed.

Lemma wp6_loseLease r (Q : unit -> Core6 -> Env6 -> Prop) k e : Base p k e ->
  (nhaveLse k = false -> Q tt k e) ->
  (nhaveLse k = true -> Q tt (k <| nhaveLse := false |> <| nlease := lease6_zero |>) (e <| held := None |>)) ->
  wp (loseLease r) Q k e.
Proof.
  intros HB H0 H1. unfold loseLease. w6. destruct (nhaveLse k) eqn:E; cbn [negb]; w6; [|by apply H0].
  apply wp6_stamp; [|by apply H1]. cbn. destruct HB as (_ & -> & _). by rewrite E.
Qed.

Lemma wp6_dropPending (Q : unit -> Core6 -> Env6 -> Prop) k e :
  Q tt (k <| npending := lease6_zero |> <| nhavePending := false |> <| npendingRenewal := false |>
          <| ndadWait := [] |> <| ndadBad := [] |> <| ncarried := [] |>) e ->
  wp dropPending Q k e.
Proof. intros H. unfold dropPending. by w6. Qed.

(** A deadline: set with a time that is not negative, or cancelled. *)
Lemma wp6_armDeadline t ts (Q : unit -> Core6 -> Env6 -> Prop) k e :
  (ts = None -> Q tt k (timer_off t e)) -> (ts <> None -> Q tt k (timer_set t e)) -> wp (armDeadline now t ts) Q k e.
Proof.
  intros H0 H1. unfold armDeadline. destruct ts as [ts|]; [|by w6; apply H0].
  apply wp6_set; [|by apply H1]. intros _. destruct (Z.ltb_spec (Sub ts now) 0); lia.
Qed.

(** The lease's expiry timer, armed when the lease ends. *)
Definition expiry_set (k : Core6) (e e' : Env6) : Prop :=
  (e' = timer_off Timer6Expire e \/ e' = timer_set Timer6Expire e) /\ expiry_armed k e'.

Lemma wp6_armExpiry (Q : unit -> Core6 -> Env6 -> Prop) k e :
  (forall e', expiry_set k e e' -> Q tt k e') -> wp (armExpiry now) Q k e.
Proof.
  intros H. unfold armExpiry. w6. set (at_ := match nextEnd _ with Some _ => _ | None => _ end).
  assert (Ha : dExpire (Lease6Deadlines (nlease k)) <> None \/ nextEnd (nlease k) <> None -> at_ <> None).
  { unfold at_. destruct (nextEnd (nlease k)) as [x|], (dExpire _) as [y|]; try done; [|by intros [?|?]].
    by destruct (Before x y). }
  clearbody at_. apply wp6_armDeadline; intros Hn; apply H.
  - split; [by left|]. intros _ _ Hx. by apply Ha in Hx.
  - split; [by right|]. intros _ _ _. unfold timer_set. cbn. by rewrite arm6_eq.
Qed.

(** Renewal timers are armed or cancelled. *)
Definition retimed (ts : list TimerID) (e e' : Env6) : Prop :=
  held e' = held e /\ asked e' = asked e /\ clear e' = clear e /\ faulted e' = faulted e /\
  forall t, t ∉ ts -> armed6 e' t = armed6 e t /\ ever e' t = ever e t.

Lemma retimed_off t ts e e1 : t ∈ ts -> retimed ts e e1 -> retimed ts e (timer_off t e1).
Proof.
  intros Hin (?&?&?&?&H). split_and!; try done. intros t' Hn. unfold timer_off. cbn.
  rewrite arm6_ne by (intros ->; done). by apply H.
Qed.
Lemma retimed_set t ts e e1 : t ∈ ts -> retimed ts e e1 -> retimed ts e (timer_set t e1).
Proof.
  intros Hin (?&?&?&?&H). split_and!; try done. intros t' Hn. unfold timer_set. cbn.
  rewrite !arm6_ne by (intros ->; done). by apply H.
Qed.
Lemma retimed_refl ts e : retimed ts e e.
Proof. by split_and!. Qed.

Lemma wp6_armRenewal (Q : unit -> Core6 -> Env6 -> Prop) k e :
  (forall e', retimed [Timer6Renew; Timer6Rebind] e e' -> Q tt k e') -> wp (armRenewal now) Q k e.
Proof.
  intros H. unfold armRenewal. w6. destruct (renewalTimes k) as [rn rb]. w6.
  apply wp6_armDeadline; intros _; apply wp6_armDeadline; intros _; apply H;
    repeat first [apply retimed_refl|apply retimed_off; [set_solver|]|apply retimed_set; [set_solver|]].
Qed.

Lemma wp6_armSLAAC (Q : unit -> Core6 -> Env6 -> Prop) k e :
  (forall e', retimed [Timer6SLAAC] e e' -> Q tt k e') -> wp (armSLAAC now) Q k e.
Proof.
  intros H. unfold armSLAAC. w6. destruct (Slaac.next (nslaac k) now) as [ts|].
  - apply wp6_set; [intros _; destruct (Z.ltb_spec (Sub ts now) 0); lia|]. apply H, retimed_set, retimed_refl. set_solver.
  - w6. apply H, retimed_off, retimed_refl. set_solver.
Qed.

Lemma wp6_solicitRouter (Q : unit -> Core6 -> Env6 -> Prop) k e :
  (forall n e', retimed [Timer6RouterSolicit] e e' -> Q tt (k <| nrsCount := n |>) e') -> wp solicitRouter Q k e.
Proof.
  intros H. unfold solicitRouter. w6. destruct (_ <=? _).
  { w6. replace k with (k <| nrsCount := nrsCount k |>) by (by destruct k). apply H, retimed_refl. }
  w6. apply wp6_stamp; [done|]. cbn [observe6].
  destruct (_ <? _); [|destruct (awaitingAddress k)]; try (apply wp6_set; [by intros [?|[?|[?|[?|?]]]]|]); w6;
    apply H; first [apply retimed_set|apply retimed_off]; [set_solver|apply retimed_refl..|set_solver|apply retimed_refl|set_solver|apply retimed_refl].
Qed.

Lemma wp6_startRouterDiscovery (Q : unit -> Core6 -> Env6 -> Prop) k e :
  (forall n e', retimed [Timer6RouterSolicit] e e' -> Q tt (k <| nrsCount := n |>) e') -> wp startRouterDiscovery Q k e.
Proof.
  intros H. unfold startRouterDiscovery. w6. destruct (_ && _); [|by apply wp6_solicitRouter].
  w6. replace k with (k <| nrsCount := nrsCount k |>) by (by destruct k). apply H, retimed_refl.
Qed.
End small.

(** ** The invariant under what an observer learns *)

(** The timers whose history [Base] reads. *)
Definition base_timer (p : Params6) (t : TimerID) : Prop :=
  t = Timer6Delay \/ t = Timer6Retransmit \/ P6Mode p = Mode6DHCP /\ (t = Timer6SLAAC \/ t = Timer6AutoFallback).

(** What [Base] reads of the observer. *)
Lemma Base_env p k e e' : held e' = held e -> asked e' = asked e -> clear e' = clear e ->
  (forall t, base_timer p t -> t <> Timer6Retransmit -> ever e' t = true -> ever e t = true) ->
  (armed6 e' Timer6Retransmit = true -> armed6 e Timer6Retransmit = true \/ client_type (nmsgType k)) ->
  Base p k e -> Base p k e'.
Proof.
  intros Eh Ea Ec Et Er (H1 & H2 & H3 & H4 & H5 & H6 & H7 & H8 & H9 & H10 & H11 & H12 & H13). unfold Base. rewrite Eh, Ea, Ec.
  base_split; try done.
  - intros H. apply H7, Et; [by left|done..].
  - intros Hm. destruct (H9 Hm) as (G1 & G2 & G3 & G4). split; [done|]. split; [|split; [|done]];
      apply not_true_is_false; intros H; apply Et in H; unfold base_timer; try congruence; tauto.
  - intros H. destruct (Er H); auto.
Qed.

Lemma Base_set p k e t : ~ base_timer p t -> Base p k e -> Base p k (timer_set t e).
Proof.
  intros Ht HB. assert (t <> Timer6Retransmit) by (intros ->; apply Ht; right; by left).
  revert HB. apply Base_env; [done..| |].
  - intros t' Ht' _ H'. unfold timer_set in H'. cbn in H'. rewrite arm6_ne in H'; [done|]. by intros ->.
  - intros H'. left. unfold timer_set in H'. cbn in H'. by rewrite arm6_ne in H' by done.
Qed.
Lemma Base_off p k e t : Base p k e -> Base p k (timer_off t e).
Proof.
  apply Base_env; [done..|]. intros H. left. unfold timer_off in H. cbn in H.
  destruct (decide (Timer6Retransmit = t)) as [<-|]; [by rewrite arm6_eq in H|by rewrite arm6_ne in H].
Qed.
Lemma Base_fault p k e : Base p k e -> Base p k (fault e).
Proof. apply Base_env; auto. Qed.
Lemma Base_retimed p k e e' ts : (forall t, t ∈ ts -> ~ base_timer p t) -> retimed ts e e' -> Base p k e -> Base p k e'.
Proof.
  intros Ht (Eh & Ea & Ec & Ef & H). apply Base_env; [done..| |].
  - intros t Hb _ Hev. rewrite <- (proj2 (H t (fun Hin => Ht t Hin Hb))). done.
  - intros Hr. left. rewrite <- (proj1 (H Timer6Retransmit (fun Hin => Ht _ Hin (or_intror (or_introl eq_refl))))). done.
Qed.
Lemma Base_sent p k e e' : client_type (nmsgType k) -> sent e e' -> Base p k e -> Base p k e'.
Proof.
  intros Hc [->| ->] H; [by apply Base_fault|]. revert H. apply Base_env; [done..| |by right].
  intros t _ Ht Hev. unfold timer_set in Hev. cbn in Hev. by rewrite arm6_ne in Hev.
Qed.

(** The type of the message in flight, and its end. *)
Lemma Base_type p k e t : client_type t -> Base p k e -> Base p (k <| nmsgType := t |>) e.
Proof. intros Hc (H1 & H2 & H3 & H4 & H5 & H6 & H7 & H8 & H9 & H10 & H11 & H12 & H13). by base_split. Qed.
Lemma Base_idle p k e : armed6 e Timer6Retransmit = false -> Base p k e -> Base p (k <| nmsgType := 0 |>) e.
Proof.
  intros Hr (H1 & H2 & H3 & H4 & H5 & H6 & H7 & H8 & H9 & H10 & H11 & H12 & H13). base_split; try done.
  intros H. by rewrite Hr in H.
Qed.

Lemma expiry_env k e e' : armed6 e' Timer6Expire = armed6 e Timer6Expire -> expiry_armed k e -> expiry_armed k e'.
Proof. intros E H. unfold expiry_armed. by rewrite E. Qed.
Lemma expiry_sent k e e' : sent e e' -> expiry_armed k e -> expiry_armed k e'.
Proof. intros [->| ->]; by apply expiry_env. Qed.
Lemma expiry_retimed k e e' ts : Timer6Expire ∉ ts -> retimed ts e e' -> expiry_armed k e -> expiry_armed k e'.
Proof. intros Hn (_&_&_&_&H). apply expiry_env. by apply H. Qed.
Lemma expiry_set_Base p k e e' : expiry_set k e e' -> Base p k e -> Base p k e'.
Proof. intros [[->| ->] _] H; [by apply Base_off|]. apply Base_set; [|done]. by intros [?|[?|[? [?|?]]]]. Qed.

Lemma sent_Drv e e' : sent e e' -> faulted e' = true \/ armed6 e' Timer6Retransmit = true.
Proof. intros [->| ->]; [by left|right]. unfold timer_set. cbn. by rewrite arm6_eq. Qed.

(** [Base] when the transaction id and the Advertises change. *)
Lemma Base_xid p k e x ads : Base p k e -> 0 <= x < 2 ^ 24 -> (P6Temporary p = false -> Forall (fun a => adTemp a = []) ads) ->
  Base p (k <| nxid := x |> <| nadverts := ads |>) e.
Proof.
  intros (H1 & H2 & H3 & H4 & H5 & H6 & H7 & H8 & H9 & H10 & H11 & H12 & H13) Hx Ha. base_split; try done.
  intros Ht. destruct (H10 Ht) as (G1 & G2 & _). split_and!; try done. by apply Ha.
Qed.

Lemma xid_range rnd : 0 <= Z.land (u32 rnd) (MaxXID6 - 1) < 2 ^ 24.
Proof.
  unfold MaxXID6. change (Z.shiftl 1 24 - 1) with (Z.ones 24). rewrite Z.land_ones by lia. apply Z.mod_pos_bound. lia.
Qed.

(** ** Starting an exchange *)

Definition waiting_type (t : MessageTypeV6) : Prop :=
  t ∈ [MsgSolicit; MsgRequest6; MsgConfirm; MsgRenew; MsgRebind; MsgInformationRequest].

Lemma waiting_client t : waiting_type t -> client_type t.
Proof. unfold waiting_type, client_type. rewrite !elem_of_cons. tauto. Qed.
Lemma first_waiting t : first_type t -> waiting_type t.
Proof. unfold waiting_type, first_type. rewrite !elem_of_cons. tauto. Qed.

(** The fields [startExchangeAnswering] leaves, but for the ones nothing here
    reads. *)
Definition exchanged (t : MessageTypeV6) (x : Z) (ads : list advert6) (k : Core6) : Core6 :=
  k <| nmsgType := t |> <| nxid := x |> <| nstate := exchangeState t (nstate k) |> <| nadverts := ads |>.

(** Two machines alike in the fields [Base] reads, and in all [Inv6] reads. *)
Definition alike0 (k k' : Core6) : Prop :=
  nparams k' = nparams k /\ nhaveLse k' = nhaveLse k /\ nlease k' = nlease k /\ nxid k' = nxid k /\ nslaac k' = nslaac k /\
  nrouters k' = nrouters k /\ npendingType k' = npendingType k /\ npending k' = npending k /\ nadverts k' = nadverts k /\
  nresume k' = nresume k /\ ndeferredPrefixes k' = ndeferredPrefixes k /\ nmsgType k' = nmsgType k.

Definition alike (k k' : Core6) : Prop := alike0 k k' /\
  nstate k' = nstate k /\ ntried k' = ntried k /\ ndadWait k' = ndadWait k /\ ndadBad k' = ndadBad k /\
  nafterDecline k' = nafterDecline k.

(** ... and in what [Calm] reads. *)
Definition alikeC (k k' : Core6) : Prop := alike0 k k' /\ ndadWait k' = ndadWait k.

(** Two chains of assignments that agree there. *)
Ltac al := unfold alike, alikeC, alike0;
  lazy [set_fld nparams nhaveLse nlease nxid nslaac nrouters npendingType npending nadverts nresume nstate nmsgType
        ndadWait ndadBad nafterDecline ndeferredPrefixes ntried]; split_and!; reflexivity.

Lemma Base_alike p k k' e : alike0 k k' -> Base p k e -> Base p k' e.
Proof.
  intros (E1 & E2 & E3 & E4 & E5 & E6 & E7 & E8 & E9 & E10 & E11 & E12) H. unfold Base.
  rewrite E1, E2, E3, E4, E5, E6, E7, E8, E9, E10, E11, E12. exact H.
Qed.
Lemma expiry_alike k k' e : alike0 k k' -> expiry_armed k e -> expiry_armed k' e.
Proof. intros (_ & E2 & E3 & _) H. unfold expiry_armed. rewrite E2, E3. exact H. Qed.
Lemma Dad_alike k k' e : alike k k' -> Dad k e -> Dad k' e.
Proof.
  intros ((_ & _ & _ & _ & _ & _ & _ & E8 & _ & _ & _ & E12) & E11 & _ & E13 & E14 & E15) H. unfold Dad, pending_ok.
  rewrite E8, E11, E12, E13, E14, E15. exact H.
Qed.
Lemma Drv_alike k k' e : alike k k' -> Drv k e -> Drv k' e.
Proof. intros ((_ & _ & _ & _ & _ & _ & _ & _ & _ & _ & _ & E12) & E11 & Et & E13 & _) H. unfold Drv, driven6. rewrite E11, E12, E13, Et. exact H. Qed.
Lemma Inv6_alike p k k' e : alike k k' -> Inv6 p k e -> Inv6 p k' e.
Proof.
  intros Ha (HB & HE & HD & Hd). split_and!; [apply (Base_alike p k); [apply Ha|done]|apply (expiry_alike k); [apply Ha|done]|
    intros ?; apply (Drv_alike k); auto|intros ?; apply (Dad_alike k); auto].
Qed.

Lemma Calm_alike p k k' e : alikeC k k' -> Calm p k e -> Calm p k' e.
Proof.
  intros Ha (HB & HE & HD). split_and!; [apply (Base_alike p k); [apply Ha|done]|apply (expiry_alike k); [apply Ha|done]|].
  destruct Ha as (_ & ->). exact HD.
Qed.

Lemma expiry_same k k' e : nhaveLse k' = nhaveLse k /\ nlease k' = nlease k -> expiry_armed k e -> expiry_armed k' e.
Proof. intros [E2 E3] H. unfold expiry_armed. rewrite E2, E3. exact H. Qed.

(** The goal is [H] after assignments to fields it does not read. *)
Ltac same H :=
  lazymatch type of H with
  | Base ?p ?k _ => apply (Base_alike p k); [al|exact H]
  | expiry_armed ?k _ => apply (expiry_same k); [lazy [set_fld nhaveLse nlease]; split; reflexivity|exact H]
  | Drv ?k _ => apply (Drv_alike k); [al|exact H]
  | Dad ?k _ => apply (Dad_alike k); [al|exact H]
  | Inv6 ?p ?k _ => apply (Inv6_alike p k); [al|exact H]
  | Calm ?p ?k _ => apply (Calm_alike p k); [al|exact H]
  end.

Lemma exchanged_Base p k e e' t x ads : client_type t -> sent e e' -> 0 <= x < 2 ^ 24 ->
  (P6Temporary p = false -> Forall (fun a => adTemp a = []) ads) -> Base p k e -> Base p (exchanged t x ads k) e'.
Proof.
  intros Ht He Hx Ha HB. assert (H : Base p (k <| nmsgType := t |> <| nxid := x |> <| nadverts := ads |>) e').
  { apply Base_xid; [|done..]. by apply (Base_sent p _ e); [..|apply Base_type]. }
  same H.
Qed.

Section exchange.
Context (p : Params6) (now : Instant) (rnd : Z).
Local Abbreviation wp := (wp6 p).

Lemma wp6_startExchange t sid (Q : unit -> Core6 -> Env6 -> Prop) k e : client_type t -> Base p k e ->
  (forall k' x e', sent e e' -> 0 <= x < 2 ^ 24 ->
     alike (exchanged t x (if t =? MsgSolicit then [] else nadverts k) k) k' -> Q tt k' e') ->
  wp (startExchangeAnswering now rnd t sid) Q k e.
Proof.
  intros Ht HB HQ. unfold startExchangeAnswering. w6.
  assert (Hp : only_maxima p (nparams k)) by apply HB. pose proof (xid_range rnd) as Hx.
  destruct (t =? MsgSolicit) eqn:Es; cbn [when6]; w6; (apply wp6_transmit; [done..|]); intros nm n b1 b2 e' He';
    apply (HQ _ (Z.land (u32 rnd) (MaxXID6 - 1)) e' He' Hx); unfold exchanged; al.
Qed.

(** From a calm state, an exchange that waits in a state of its own. *)
Lemma wp6_exchange t sid k e : waiting_type t -> Calm p k e -> (P6Mode p = Mode6DHCP -> t = MsgSolicit -> faulted e = true \/ ntried k = []) ->
  wp (startExchangeAnswering now rnd t sid) (fun _ => Inv6' p) k e.
Proof.
  intros Ht (HB & HE & HD) Htr. apply wp6_startExchange; [by apply waiting_client|done|].
  intros k' x e' He' Hx Ha. set (ads := if t =? MsgSolicit then [] else nadverts k) in *.
  assert (Hads : P6Temporary p = false -> Forall (fun a => adTemp a = []) ads).
  { intros Hp. unfold ads. destruct (t =? MsgSolicit); [constructor|]. by apply HB. }
  assert (HI : Inv6' p (exchanged t x ads k) e').
  { assert (Hst : nstate (exchanged t x ads k) = exchangeState t (nstate k)) by done.
    unfold waiting_type in Ht. rewrite !elem_of_cons, elem_of_nil in Ht.
    assert (Hne : exchangeState t (nstate k) <> State6DAD) by (destruct_or?; by subst t).
    assert (HDrv : P6Mode p = Mode6DHCP -> Drv (exchanged t x ads k) e').
    { intros Hm. destruct (sent_Drv e e' He') as [Hf|Hr]; [by left|].
      assert (Htr' : t = MsgSolicit -> faulted e' = true \/ ntried k = []).
      { intros E. destruct (Htr Hm E) as [Hf|?]; [left|by right]. by destruct He' as [->| ->]. }
      unfold Drv, driven6. rewrite Hst. clear -Ht Hr Htr'.
      destruct_or?; subst t; cbn; try (right; done); try (right; by right).
      destruct (Htr' eq_refl); [by left|by right]. }
    split; [|by rewrite Hst]. split_and!; [|by eapply expiry_sent|exact HDrv|].
    - apply (exchanged_Base p k e); [|done..]. apply waiting_client. unfold waiting_type. by rewrite !elem_of_cons, elem_of_nil.
    - intros Hs. split_and!; [|by rewrite Hst..]. intros _. by apply HD. }
  destruct HI as [HI Hn]. split; [by eapply Inv6_alike|]. destruct Ha as (_&->&_). done.
Qed.
End exchange.

(** ** The invariant under assignments *)

Lemma Base_take p k e l : Base p k e -> (P6Mode p = Mode6DHCP -> l6SLAAC l = false) ->
  (P6Temporary p = false -> l6TempAddrs l = []) -> (stateful p -> forall a, a ∈ laddrs l -> a ∈ clear e) ->
  Base p (k <| nlease := l |> <| nhaveLse := true |> <| nresume := None |>) (e <| held := Some l |>).
Proof.
  intros (H1 & H2 & H3 & H4 & H5 & H6 & H7 & H8 & H9 & H10 & H11 & H12 & H13) Hs Ht Hc. base_split; try done.
  - intros Hm. destruct (H9 Hm) as (G1 & G2 & G3 & G4 & G5). by split_and!; [..|apply Hs|].
  - intros Hn. destruct (H10 Hn) as (G1 & G2 & G3). by split_and!; [apply Ht|..].
  - intros Hst. destruct (H11 Hst) as [_ Hd]. split; [by apply Hc|done].
Qed.

(** The lease held is replaced by what is left of it. *)
Lemma Base_keep p k e l : Base p k e -> nhaveLse k = true -> l6SLAAC l = l6SLAAC (nlease k) ->
  (P6Temporary p = false -> l6TempAddrs l = []) -> (forall a, a ∈ laddrs l -> a ∈ laddrs (nlease k)) ->
  Base p (k <| nlease := l |>) (e <| held := Some l |>).
Proof.
  intros (H1 & H2 & H3 & H4 & H5 & H6 & H7 & H8 & H9 & H10 & H11 & H12 & H13) Hh Hs Ht Hc. base_split; try done.
  - cbn. by rewrite Hh.
  - cbn. rewrite Hh. done.
  - intros Hm. destruct (H9 Hm) as (G1 & G2 & G3 & G4 & G5). by split_and!; [..|rewrite <- G4|].
  - intros Hn. destruct (H10 Hn) as (G1 & G2 & G3). by split_and!; [apply Ht|..].
  - intros Hst. destruct (H11 Hst) as [Hcl Hd]. split; [|done]. intros a Ha. by apply Hcl, Hc.
Qed.

Lemma Base_lose p k e : Base p k e ->
  Base p (k <| nhaveLse := false |> <| nlease := lease6_zero |>) (e <| held := None |>).
Proof.
  intros (H1 & H2 & H3 & H4 & H5 & H6 & H7 & H8 & H9 & H10 & H11 & H12 & H13). base_split; try done.
  - intros r Hr. split; [done|]. by apply (H8 r Hr).
  - intros Hm. by destruct (H9 Hm) as (G1 & G2 & G3 & G4 & G5).
  - intros Hn. by destruct (H10 Hn) as (G1 & G2 & G3).
  - intros Hst. split; [|by apply (H11 Hst)]. intros a Ha. by apply elem_of_nil in Ha.
Qed.

Lemma Base_pend p k e l : Base p k e -> (P6Mode p = Mode6DHCP -> l6SLAAC l = false) ->
  (P6Temporary p = false -> l6TempAddrs l = []) -> Base p (k <| npending := l |>) e.
Proof.
  intros (H1 & H2 & H3 & H4 & H5 & H6 & H7 & H8 & H9 & H10 & H11 & H12 & H13) Hs Ht. base_split; try done.
  - intros Hm. destruct (H9 Hm) as (G1 & G2 & G3 & G4 & G5). split_and!; try done. by apply Hs.
  - intros Hn. destruct (H10 Hn) as (G1 & G2 & G3). split_and!; try done. by apply Ht.
Qed.

Lemma Base_adverts p k e ads : Base p k e -> (P6Temporary p = false -> Forall (fun a => adTemp a = []) ads) ->
  Base p (k <| nadverts := ads |>) e.
Proof.
  intros (H1 & H2 & H3 & H4 & H5 & H6 & H7 & H8 & H9 & H10 & H11 & H12 & H13) Ha. base_split; try done.
  intros Hn. destruct (H10 Hn) as (G1 & G2 & G3). split_and!; try done. by apply Ha.
Qed.

Lemma Base_resume_none p k e : Base p k e -> Base p (k <| nresume := None |>) e.
Proof. intros (H1 & H2 & H3 & H4 & H5 & H6 & H7 & H8 & H9 & H10 & H11 & H12 & H13). by base_split. Qed.

Lemma Base_slaac p k e t : Base p k e -> table_ok t -> P6Mode p <> Mode6DHCP -> Base p (k <| nslaac := t |>) e.
Proof. intros (H1 & H2 & H3 & H4 & H5 & H6 & H7 & H8 & H9 & H10 & H11 & H12 & H13) Ht Hm. by base_split. Qed.

(** The table's counters alone. *)
Lemma Base_counts p k e t : Base p k e -> entries t = entries (nslaac k) -> dadCount t = dadCount (nslaac k) ->
  Base p (k <| nslaac := t |>) e.
Proof.
  intros (H1 & H2 & H3 & H4 & H5 & H6 & H7 & H8 & H9 & H10 & H11 & H12 & H13) Ee Ed. base_split; try done.
  - unfold table_ok, dadOf in *. cbn. by rewrite Ee, Ed.
  - intros Hm. destruct (H9 Hm) as (G1 & G). cbn. by rewrite Ee.
Qed.

Lemma Base_next p k e t : Base p k e -> first_type t -> Base p (k <| npendingType := t |>) e.
Proof. intros (H1 & H2 & H3 & H4 & H5 & H6 & H7 & H8 & H9 & H10 & H11 & H12 & H13) Ht. by base_split. Qed.

(** The delay of a start. *)
Lemma Base_delay p k e t : Base p k e -> first_type t -> Base p (k <| npendingType := t |>) (timer_set Timer6Delay e).
Proof.
  intros (H1 & H2 & H3 & H4 & H5 & H6 & H7 & H8 & H9 & H10 & H11 & H12 & H13) Ht. by base_split.
Qed.

Lemma Base_params p k e q : Base p k e -> only_maxima (nparams k) q -> Base p (k <| nparams := q |>) e.
Proof.
  intros (H1 & H2 & H3 & H4 & H5 & H6 & H7 & H8 & H9 & H10 & H11 & H12 & H13) Hq. base_split; try done.
  by eapply only_maxima_trans.
Qed.

Lemma Base_deferred p k e l : Base p k e -> Forall (fun d => pio_wf (dfInfo d)) l -> Base p (k <| ndeferredPrefixes := l |>) e.
Proof. intros (H1 & H2 & H3 & H4 & H5 & H6 & H7 & H8 & H9 & H10 & H11 & H12 & H13) Hl. by base_split. Qed.

Lemma Base_routers p k e t : Base p k e -> table_wf t -> Base p (k <| nrouters := t |>) e.
Proof. intros (H1 & H2 & H3 & H4 & H5 & H6 & H7 & H8 & H9 & H10 & H11 & H12 & H13) Ht. by base_split. Qed.

(** A timer that fires is not armed. *)
Lemma Base_fired p k e t : Base p k e -> Base p k (timer_off t e).
Proof. apply Base_off. Qed.

Lemma randomDelay_nonneg max rnd : 0 <= randomDelay max rnd.
Proof. unfold randomDelay. destruct (Z.leb_spec max 0); [lia|]. pose proof (Z.mod_pos_bound rnd (max + 1)). lia. Qed.

(** ** Asking for a duplicate check *)

Definition ask (e : Env6) (a : Addr) : Env6 := observe6 e (Act6StartDAD a).
Definition asks (l : list Addr) (e : Env6) : Env6 := foldl ask e l.

Lemma asks_spec l : forall e, held (asks l e) = held e /\ armed6 (asks l e) = armed6 e /\ ever (asks l e) = ever e /\
  faulted (asks l e) = faulted e /\ (forall a, a ∈ asked (asks l e) <-> a ∈ l \/ a ∈ asked e) /\
  (forall a, a ∈ clear (asks l e) <-> a ∈ clear e /\ a ∉ l).
Proof.
  induction l as [|x l IH]; intros e.
  - split_and!; try done; intros a; cbn; set_solver.
  - destruct (IH (ask e x)) as (E1 & E2 & E3 & E4 & E5 & E6). change (asks (x :: l) e) with (asks l (ask e x)).
    rewrite E1, E2, E3, E4. split_and!; try done; intros a; [rewrite E5|rewrite E6]; unfold ask; cbn; rewrite elem_of_cons; set_solver.
Qed.

Lemma Base_asks p k e l : Base p k e -> (stateful p -> forall a, a ∈ l -> a ∉ laddrs (nlease k)) -> Base p k (asks l e).
Proof.
  intros (H1 & H2 & H3 & H4 & H5 & H6 & H7 & H8 & H9 & H10 & H11 & H12 & H13) Hn.
  destruct (asks_spec l e) as (E1 & E2 & E3 & E4 & E5 & E6). unfold Base. rewrite E1, E2, E3. base_split; try done.
  intros Hst. destruct (H11 Hst) as [Hc Hd]. split.
  - intros a Ha. apply E6. split; [by apply Hc|]. intros Hl. by apply (Hn Hst a Hl).
  - intros a Ha1 Ha2. apply E5 in Ha1. apply E6 in Ha2 as [Ha2 Hnl]. destruct Ha1; [done|]. by apply (Hd a).
Qed.

Lemma wp6_startDAD p addrs (Q : unit -> Core6 -> Env6 -> Prop) k e :
  Q tt (k <| ndadWait := addrs |> <| ndadBad := [] |> <| nstate := State6DAD |>) (timer_set Timer6DAD (asks addrs e)) ->
  wp6 p (startDAD addrs) Q k e.
Proof.
  intros H. unfold startDAD. w6.
  assert (Hl : forall l k e (Q : unit -> Core6 -> Env6 -> Prop), Q tt k (asks l e) -> wp6 p (forM6 l (fun a => stamp6 (Act6StartDAD a))) Q k e).
  { clear. induction l as [|a l IH]; intros k e Q H; [by apply wp6_ret|]. cbn [forM6]. apply wp6_bind, wp6_stamp; [done|].
    apply IH. exact H. }
  apply Hl. w6. apply wp6_set; [by intros [?|[?|[?|[?|?]]]]|exact H].
Qed.
