(* ===== verification/Machine6Slaac.v ===== *)
(** * The DHCPv6 machine where no server grants the addresses

    The methods of proto/machine6_slaac.go keep the part of the invariant that
    holds in every mode: the table of formed addresses stays well formed, so no
    lookup, retry or advertised option stops the program, and the lease reported
    is the lease held. *)

From S2P Require Import Prelude NetAddr Options Codec Forcerenew Arp Backoff Kinds Lease Dhcp6 Rkap Backoff6 Icmpv6 Lease6 Slaac Params6 Router6 Outward Core6 Machine6 Machine6Steps Machine6Spec Machine6Logic Machine6Msgs Machine6Inv.

(** The two parts of [Inv6] that do not depend on the mode. *)
Definition BE (p : Params6) (k : Core6) (e : Env6) : Prop := Base p k e /\ expiry_armed k e.

Lemma BE_Inv6 p k e : P6Mode p <> Mode6DHCP -> BE p k e -> Inv6 p k e.
Proof. intros Hm [HB HE]. split_and!; try done. by intros [? _]. Qed.
Lemma Inv6_BE p k e : Inv6 p k e -> BE p k e.
Proof. by intros (HB & HE & _). Qed.
Lemma BE_Calm p k e : P6Mode p <> Mode6DHCP -> BE p k e -> Calm p k e.
Proof. intros Hm [HB HE]. split_and!; try done. by intros [? _]. Qed.
Lemma BE_alike p k k' e : alike0 k k' -> BE p k e -> BE p k' e.
Proof. intros Ha [HB HE]. split; [by eapply Base_alike|by eapply expiry_alike]. Qed.

(** Assignments [BE] does not read. *)
Ltac be H := lazymatch type of H with BE ?p ?k _ => apply (BE_alike p k); [al|exact H] end.

Section slaac.
Context (p : Params6) (Hcfg : config_ok p) (Hm : P6Mode p <> Mode6DHCP) (now : Instant) (rnd : Z).
Local Abbreviation wp := (wp6 p).

Lemma BE_slaac k e t : BE p k e -> table_ok t -> BE p (k <| nslaac := t |>) e.
Proof. intros [HB HE] Ht. split; [by apply Base_slaac|done]. Qed.

Lemma BE_slaac_table k e : BE p k e -> table_ok (nslaac k).
Proof. intros [HB _]. by destruct HB as (_&_&_&_&H&_). Qed.

Lemma BE_source k e : BE p k e -> source_wf (iidSourceOf (nparams k)).
Proof. intros [HB _]. destruct HB as ((s & i & -> & _) & _). exact (cg_link p Hcfg). Qed.

Lemma BE_off k e t : t <> Timer6Expire -> BE p k e -> BE p k (timer_off t e).
Proof. intros Ht [HB HE]. split; [by apply Base_off|]. apply (expiry_env k e); [|done]. cbn. by rewrite arm6_ne. Qed.
Lemma BE_set k e t : t <> Timer6Expire -> ~ base_timer p t -> BE p k e -> BE p k (timer_set t e).
Proof. intros Ht Hb [HB HE]. split; [by apply Base_set|]. apply (expiry_env k e); [|done]. cbn. by rewrite arm6_ne. Qed.
Lemma BE_retimed k e e' ts : Timer6Expire ∉ ts -> (forall t, t ∈ ts -> ~ base_timer p t) -> retimed ts e e' -> BE p k e -> BE p k e'.
Proof. intros Ht Hb Hr [HB HE]. split; [by eapply Base_retimed|by eapply expiry_retimed]. Qed.
Lemma BE_idle k e : armed6 e Timer6Retransmit = false -> BE p k e -> BE p (k <| nmsgType := 0 |>) e.
Proof. intros Hr [HB HE]. split; [by apply Base_idle|same HE]. Qed.

Lemma slaac_timers t : t ∈ [Timer6SLAAC] -> ~ base_timer p t.
Proof. intros ->%list_elem_of_singleton. by intros [?|[?|[? _]]]. Qed.
Lemma solicit_timers t : t ∈ [Timer6RouterSolicit] -> ~ base_timer p t.
Proof. intros ->%list_elem_of_singleton. by intros [?|[?|[_ [?|?]]]]. Qed.

Lemma exchange_BE t sid k e : waiting_type t -> BE p k e -> wp (startExchangeAnswering now rnd t sid) (fun _ => BE p) k e.
Proof. intros Ht HB. eapply wp6_mono; [apply wp6_exchange; [done|by apply BE_Calm|by intros ?]|]. cbv beta; intros _ k' e' [H _]. by apply Inv6_BE. Qed.

Lemma maybeInfoRequest_BE k e : BE p k e -> wp (maybeInfoRequest now rnd) (fun _ => BE p) k e.
Proof.
  intros HB. unfold maybeInfoRequest. w6. destruct (_ || _ || _); [by w6|]. destruct (negb _); [by w6|]. w6.
  apply exchange_BE; [repeat constructor|be HB].
Qed.

Lemma startRouterDiscovery_BE k e : BE p k e -> wp startRouterDiscovery (fun _ => BE p) k e.
Proof.
  intros HB. apply wp6_startRouterDiscovery. intros n e' He'.
  assert (HB' : BE p k e') by (eapply BE_retimed; [|apply solicit_timers|exact He'|exact HB]; set_solver). be HB'.
Qed.

(** The formed set is installed: what [Base] says of it. *)
Lemma slaacLease_facts t iaid : l6SLAAC (slaacLease t now iaid) = true /\ l6TempAddrs (slaacLease t now iaid) = [].
Proof. done. Qed.

Lemma enterBoundSLAAC_BE k e : BE p k e -> wp (enterBoundSLAAC now rnd) (fun _ => BE p) k e.
Proof.
  intros HB. unfold enterBoundSLAAC. w6. destruct (_ =? _)%nat; [by w6|]. w6.
  set (l := slaacLease _ _ _). set (ph := phases _ _).
  apply wp6_armSLAAC. intros e' He'.
  assert (HB' : BE p k (timer_off Timer6AutoFallback (timer_off Timer6Rebind (timer_off Timer6Renew (timer_off Timer6Retransmit e)))))
    by (do 4 (apply BE_off; [done|]); exact HB).
  assert (HB2 : Base p k e').
  { eapply (Base_retimed p k _ e' [Timer6SLAAC]); [apply slaac_timers|exact He'|].
    apply Base_off, Base_off, Base_off, Base_off, Base_off. apply HB. }
  assert (Hh : held e' = if nhaveLse k then Some (nlease k) else None) by apply HB2.
  assert (Hr : armed6 e' Timer6Retransmit = false).
  { destruct He' as (_&_&_&_&He'). rewrite (proj1 (He' Timer6Retransmit ltac:(by intros ?%list_elem_of_singleton))). reflexivity. }
  assert (HBl : BE p (k <| nmsgType := 0 |> <| nlease := l |> <| nhaveLse := true |> <| nresume := None |>) (e' <| held := Some l |>)).
  { split; [|by intros _ ?]. apply Base_take; [by apply Base_idle|done..|by intros [? _]]. }
  assert (Hnext : wp (nslaacPhases ::= ph ;; maybeInfoRequest now rnd) (fun _ => BE p)
    (k <| nmsgType := 0 |> <| nsendFailures := 0 |> <| nlease := l |> <| nhaveLse := true |> <| nstate := State6Bound |>
       <| nresume := None |> <| ndhcpCommitted := false |>) (e' <| held := Some l |>))
    by (w6; apply maybeInfoRequest_BE; be HBl).
  clear HB HB' HB2 HBl. destruct (nhaveLse k); cbn [negb].
  - w6. apply wp6_stamp; [split; [by rewrite Hh|by intros [? _]]|]. w6. apply wp6_when; intros _; [|exact Hnext].
    apply wp6_stamp; [split; [done|by intros [? _]]|]. exact Hnext.
  - apply wp6_bind, wp6_stamp; [split; [done|by intros [? _]]|]. exact Hnext.
Qed.
(** Checks are asked for, and the answers awaited. *)
Lemma startDAD_BE addrs k e : BE p k e -> wp (startDAD addrs) (fun _ => BE p) k e.
Proof.
  intros [HB HE]. apply wp6_startDAD.
  destruct (asks_spec addrs e) as (E1 & E2 & E3 & E4 & _). split.
  - assert (H : Base p k (timer_set Timer6DAD (asks addrs e))).
    { apply Base_set; [by intros [?|[?|[_ [?|?]]]]|]. apply Base_asks; [done|]. by intros [? _]. }
    same H.
  - assert (H : expiry_armed k (timer_set Timer6DAD (asks addrs e))).
    { apply (expiry_env k e); [|done]. unfold timer_set. cbn. by rewrite arm6_ne, E2. }
    same H.
Qed.

Lemma pendDAD_BE addrs k e l : BE p k e -> l6TempAddrs l = [] ->
  wp (npending ::= l ;; nhavePending ::= true ;; npendingRenewal ::= false ;; startDAD addrs) (fun _ => BE p) k e.
Proof.
  intros [HB HE] Ht. w6. apply startDAD_BE.
  assert (H : BE p (k <| npending := l |>) e) by (split; [by apply Base_pend|same HE]). be H.
Qed.

Lemma reportSLAAC_BE k e : BE p k e -> wp (reportSLAAC now rnd) (fun _ => BE p) k e.
Proof.
  intros HB. unfold reportSLAAC. w6. destruct (_ =? _)%nat; [by apply enterBoundSLAAC_BE|].
  destruct (state6_eqb _ _); [by w6|]. by apply pendDAD_BE.
Qed.

(** A remembered address takes the place its prefix has in the table. *)
Lemma seeded_entry a start pref valid : resume_addr_ok a -> usable6 a = true ->
  entry_ok (mkSlaacEntry (Masked (PrefixFrom a (128 - IIDBits))) a start pref valid false true).
Proof.
  intros Ha Hu. destruct (Ha Hu) as (w & -> & Hw & Hl). unfold PrefixFrom, IIDBits. cbn [WithoutZone IsValid BitLen andb].
  change (128 - 64) with 64. cbn [Z.leb Z.compare andb]. unfold Masked. cbn [pbits paddr Z.ltb Z.compare].
  destruct (mask_to_spec w 64 Hw ltac:(lia)) as (Hm1 & Hm2 & Hm3).
  exists (mask_to 128 64 w), w. cbn [sePrefix seAddr]. split; [done|]. split; [done|]. split; [done|].
  split; [|split; [done|split; [done|by rewrite Hm3]]].
  revert Hl. unfold Contains. cbn [linkLocalPrefix PrefixIsValid pbits paddr Z.leb negb Z.compare Pos.compare].
  by rewrite Hm3 by lia.
Qed.

Lemma seedLoop_BE addrs : forall k e, Forall (fun a => resume_addr_ok (a6Addr a)) addrs -> BE p k e ->
  wp (seedLoop now addrs) (fun _ => BE p) k e.
Proof.
  induction addrs as [|a addrs IH]; intros k e Hf HB; cbn [seedLoop]; [by w6|].
  apply Forall_cons in Hf as [Ha Hf]. w6. pose proof (BE_slaac_table k e HB) as Ht.
  destruct (usable6 (a6Addr a)) eqn:Hu; cbn [negb]; [|w6; by apply IH].
  destruct (Nat.leb_spec MaxSLAACAddresses (length (entries (nslaac k)))); [w6; apply IH; [done|]; by apply BE_slaac|].
  unfold find. assert (Hmm : Masked (Masked (PrefixFrom (a6Addr a) (128 - IIDBits))) = Masked (PrefixFrom (a6Addr a) (128 - IIDBits))).
  { destruct (seeded_entry (a6Addr a) now 0 0 Ha Hu) as (v & w & E & _ & Hmk & _). cbn [sePrefix] in E. rewrite E.
    unfold Masked. cbn [pbits paddr Z.ltb Z.compare]. by rewrite <- Hmk. }
  rewrite Hmm. pose proof (findLoop_spec (entries (nslaac k)) (Masked (PrefixFrom (a6Addr a) (128 - IIDBits))) 0) as Hn.
  destruct (findLoop _ _ _); [w6; by apply IH|]. w6. apply IH; [done|]. apply BE_slaac; [done|].
  apply (table_ok_append (nslaac k)); [done|done|by apply seeded_entry|done].
Qed.

Lemma beginSLAAC_BE k e : BE p k e -> wp (beginSLAAC now rnd) (fun _ => BE p) k e.
Proof.
  intros HB. unfold beginSLAAC. w6.
  assert (HB1 : BE p (k <| nadverts := [] |>) e) by (destruct HB as [HB HE]; split; [by apply Base_adverts|same HE]).
  set (k1 := k <| nadverts := [] |> <| nwindowDone := false |> <| ntried := [] |> <| nsendFailures := 0 |> <| nrsCount := 0 |>
    <| nstate := State6Discovering |>).
  assert (HB2 : BE p k1 e) by be HB1. clearbody k1. clear HB1.
  destruct (live6 (nresume k)); [|w6; by apply startRouterDiscovery_BE].
  destruct (nresume k) as [r|] eqn:Er; [|w6; by apply startRouterDiscovery_BE].
  assert (Hr : Forall (fun a => resume_addr_ok (a6Addr a)) (r6Addrs r)).
  { destruct HB as [(_&_&_&_&_&_&_&H8&_) _]. by apply (H8 r). }
  w6. eapply wp6_mono; [by apply seedLoop_BE|]. cbv beta; intros _ k2 e2 H2. w6.
  eapply wp6_mono; [apply startRouterDiscovery_BE|].
  { destruct H2 as [H2 H2']. split; [by apply Base_resume_none|same H2']. }
  cbv beta; intros _ k3 e3 H3. by apply reportSLAAC_BE.
Qed.

(** ** The answers *)

Lemma retry_ok t a src : table_ok t -> source_wf src -> exists r, retry t a src = Some r /\ table_ok r.1.1.1.
Proof.
  intros Ht Hs. destruct (retry t a src) as [[[[t' nxt] n] ok]|] eqn:E.
  - exists (t', nxt, n, ok). split; [done|]. exact (table_step_ok src t t' Hs Ht (StepRetry src t a t' nxt n ok E)).
  - exfalso. unfold retry in E. destruct (entryOf (entries t) a) as [i|] eqn:Ei; [|done].
    apply entryOf_spec in Ei as (en & He & _). rewrite He in E. cbn [mbind option_bind] in E.
    destruct (retryLoop_ok src i en 4 t Ht Hs He) as (? & ? & ? & ? & E' & _); [|by rewrite E in E'].
    pose proof (proj2 (proj2 (proj2 Ht)) (sePrefix en)). unfold retries, IDGenRetries in *. destruct (_ =? _); lia.
Qed.

Lemma drop_ok t a : table_ok t -> table_ok (dropAddr t a).1.
Proof. intros Ht. apply (table_step_ok (iidSourceOf p) t); [exact (cg_link p Hcfg)|done|constructor]. Qed.

Lemma badLoop_BE src bad : source_wf src -> forall k e b, BE p k e -> wp (badLoop src bad b) (fun _ => BE p) k e.
Proof.
  intros Hs. induction bad as [|a bad IH]; intros k e b HB; cbn [badLoop]; [by w6|]. w6.
  pose proof (BE_slaac_table k e HB) as Ht.
  destruct (retry_ok (refuse (nslaac k) a) a src) as ([[[t nxt] n] ok] & E & Ht'); [done|done|].
  eapply wp6_lift; [exact E|]. cbv beta zeta iota. destruct ok.
  - w6. apply IH, BE_slaac; done.
  - pose proof (drop_ok t a Ht') as Hd. destruct (dropAddr t a) as [t2 dropped]. w6. apply IH, BE_slaac; [done|].
    by destruct dropped.
Qed.

Lemma foldl_settle_ok l : forall t, table_ok t -> table_ok (foldl (fun t (a : Addr6T) => settle t (a6Addr a)) t l).
Proof. induction l as [|a l IH]; intros t Ht; [done|]. apply IH. by apply settle_ok. Qed.

Lemma dropPending_BE k e : BE p k e ->
  BE p (k <| npending := lease6_zero |> <| nhavePending := false |> <| npendingRenewal := false |>
          <| ndadWait := [] |> <| ndadBad := [] |> <| ncarried := [] |>) e.
Proof.
  intros [HB HE]. split; [|same HE]. assert (H : Base p (k <| npending := lease6_zero |>) e) by (by apply Base_pend). same H.
Qed.

Lemma BE_lose r (Q : unit -> Core6 -> Env6 -> Prop) k e : BE p k e -> (forall k' e', BE p k' e' -> Q tt k' e') ->
  wp (loseLease r) Q k e.
Proof.
  intros HB HQ. apply wp6_loseLease; [apply HB| |]; intros Hh; apply HQ; [done|].
  destruct HB as [HB _]. split; [by apply Base_lose|by intros ?].
Qed.

Lemma BE_fault k e : BE p k e -> BE p k (fault e).
Proof. intros [HB HE]. split; [by apply Base_fault|done]. Qed.

Lemma failed_BE r n (Q : unit -> Core6 -> Env6 -> Prop) k e : BE p k e -> (forall e', BE p k e' -> Q tt k e') -> wp (failed6 r n) Q k e.
Proof.
  intros HB HQ. apply wp6_failed, HQ. cbn [observe6]. case_bool_decide; [|done]. by apply BE_fault.
Qed.

Lemma finishSLAACDAD_BE k e : BE p k e -> wp (finishSLAACDAD now rnd) (fun _ => BE p) k e.
Proof.
  intros HB. unfold finishSLAACDAD. w6. assert (HB1 : BE p k (timer_off Timer6DAD e)) by (by apply BE_off).
  eapply wp6_mono; [apply (badLoop_BE _ _ (BE_source _ _ HB1)); exact HB1|]. cbv beta; intros retried k1 e1 H1. w6.
  apply wp6_dropPending. w6. apply dropPending_BE in H1.
  match type of H1 with BE _ ?k' _ => set (k2 := k') in * end.
  change (nslaac k1) with (nslaac k2).
  set (t := foldl _ (nslaac k2) _). assert (Ht : table_ok t) by (apply foldl_settle_ok; by eapply BE_slaac_table).
  apply (BE_slaac _ _ t) in H1; [|done]. set (k3 := k2 <| nslaac := t |>) in *.
  change (nslaac k3) with t. clearbody t k3. clear k2.
  destruct (0 <? length (tentativeAddrs t))%nat; [apply wp6_bind, wp6_when_journal; by apply pendDAD_BE|].
  destruct (0 <? length (entries t))%nat; [w6; by apply enterBoundSLAAC_BE|]. w6.
  assert (Hend : forall k e, BE p k e -> wp (cancel6 Timer6SLAAC ;; nslaacPhases ::= ∅ ;; beginSLAAC now rnd) (fun _ => BE p) k e).
  { clear -Hm Hcfg. intros k e HB. w6. apply beginSLAAC_BE. assert (HB1 : BE p k (timer_off Timer6SLAAC e)) by (by apply BE_off). be HB1. }
  destruct (nhaveLse k3).
  - apply BE_lose; [done|]. intros k4 e4 H4. by apply Hend.
  - apply failed_BE; [done|]. intros e4 H4. by apply Hend.
Qed.

(** ** Advertisements *)

Lemma applyAdvert_BE l : Forall pio_wf l -> forall k e b, BE p k e -> wp (applyAdvertLoop now l b) (fun _ => BE p) k e.
Proof.
  induction 1 as [|pi l Hpi Hl IH]; intros k e b HB; cbn [applyAdvertLoop]; [by w6|]. w6.
  destruct (applyPIO_ok (nslaac k) now pi (iidSourceOf (nparams k)) (BE_slaac_table k e HB) Hpi (BE_source k e HB))
    as (t & f & c & why & E & Ht).
  eapply wp6_lift; [exact E|]. cbv beta zeta iota. destruct (negb _).
  - w6. apply IH. by apply BE_slaac.
  - w6. apply IH. by apply BE_slaac.
Qed.

Lemma observeSLAAC_BE ra k e : Forall pio_wf (RaPrefixes ra) -> BE p k e -> wp (observeSLAAC now rnd ra) (fun _ => BE p) k e.
Proof.
  intros Hf HB. unfold observeSLAAC. apply wp6_bind. eapply wp6_mono; [by apply applyAdvert_BE|].
  cbv beta; intros changed k1 e1 H1. apply wp6_bind, wp6_when; intros _; w6.
  - assert (H2 : BE p (k1 <| nwantConfig := true |>) e1) by be H1. clear H1. apply wp6_when; intros _; [|by apply maybeInfoRequest_BE].
    eapply wp6_mono; [by apply reportSLAAC_BE|]. cbv beta; intros _ k2 e2 H3. by apply maybeInfoRequest_BE.
  - apply wp6_when; intros _; [|by apply maybeInfoRequest_BE].
    eapply wp6_mono; [by apply reportSLAAC_BE|]. cbv beta; intros _ k2 e2 H3. by apply maybeInfoRequest_BE.
Qed.

(** Charging a deprecation leaves the prefix and the address of an entry. *)
Lemma deprecateLoop_BE l : forall (Q : list slaacEntry -> Core6 -> Env6 -> Prop) k e, BE p k e ->
  (forall l' k', map sePrefix l' = map sePrefix l -> map seAddr l' = map seAddr l -> BE p k' e ->
     refused (nslaac k') = refused (nslaac k) -> dadCount (nslaac k') = dadCount (nslaac k) -> Q l' k' e) ->
  wp (deprecateLoop now l) Q k e.
Proof.
  induction l as [|en l IH]; intros Q k e HB HQ; cbn [deprecateLoop]; [w6; by apply HQ|].
  destruct (deprecated en now && negb (seDeprecationCharged en)).
  - w6. apply IH; [by apply BE_slaac; [..|exact (BE_slaac_table k e HB)]|]. intros l' k' E1 E2 HB' E3 E4. w6.
    apply HQ; [cbn; by rewrite E1|cbn; by rewrite E2|done|by rewrite E3|by rewrite E4].
  - w6. apply IH; [done|]. intros l' k' E1 E2 HB' E3 E4. w6.
    apply HQ; [cbn; by rewrite E1|cbn; by rewrite E2|done..].
Qed.

Lemma entries_ok_keys l l' : map sePrefix l' = map sePrefix l -> map seAddr l' = map seAddr l -> Forall entry_ok l -> Forall entry_ok l'.
Proof.
  revert l'. induction l as [|en l IH]; intros [|en' l'] E1 E2 Hf; try done. cbn in E1, E2.
  injection E1 as P1 P2. injection E2 as A1 A2. apply Forall_cons in Hf as [He Hf]. apply Forall_cons.
  split; [by apply (entry_ok_key en)|by apply IH].
Qed.

Lemma expire_ok t : table_ok t -> table_ok (expire t now).1.
Proof. intros Ht. apply (table_step_ok (iidSourceOf p) t); [exact (cg_link p Hcfg)|done|constructor]. Qed.

Lemma slaacTick_BE k e : BE p k e -> wp (slaacTick now rnd) (fun _ => BE p) k e.
Proof.
  intros HB. unfold slaacTick. w6. pose proof (expire_ok (nslaac k) (BE_slaac_table k e HB)) as Ht.
  destruct (expire (nslaac k) now) as [t gone]. cbn [fst] in Ht. w6. apply wp6_forM_journal. w6.
  assert (H1 : BE p (k <| nslaac := t |>) e) by (by apply BE_slaac). 
  apply deprecateLoop_BE; [done|]. intros es k2 E1 E2 H2 E3 E4. w6.
  assert (Ht2 : table_ok (nslaac k2 <| entries := es |>)).
  { destruct Ht as (G1 & G2 & G3 & G4). unfold table_ok, dadOf in *. cbn [set_fld entries dadCount]. rewrite E4. cbn [set_fld nslaac].
    split; [|split; [|split; [|done]]]; [|by apply (entries_ok_keys (entries t))|by rewrite E1].
    rewrite <- (length_map sePrefix), E1, length_map. exact G1. }
  apply (BE_slaac _ _ _ H2) in Ht2. clear H1 H2 Ht HB. destruct (length es =? 0)%nat.
  - w6. assert (H3 : forall k3 e3, BE p k3 e3 -> wp (beginSLAAC now rnd) (fun _ => BE p) k3 e3) by (by apply beginSLAAC_BE).
    set (k3 := k2 <| nslaac := _ |>) in *. clearbody k3.
    assert (H4 : BE p (k3 <| nslaacPhases := ∅ |>) (timer_off Timer6SLAAC e)).
    { assert (H : BE p k3 (timer_off Timer6SLAAC e)) by (by apply BE_off). be H. }
    apply wp6_when; intros _; [|by apply H3]. apply BE_lose; [exact H4|]. intros k4 e4 H5. by apply H3.
  - w6. set (k3 := k2 <| nslaac := _ |>) in *. clearbody k3. destruct (_ || _); [|by apply enterBoundSLAAC_BE].
    apply wp6_armSLAAC. intros e' He'. eapply BE_retimed; [|apply slaac_timers|exact He'|exact Ht2]. set_solver.
Qed.

(** ** The prefixes kept for the fallback *)

Lemma formRules_ok pi c : pio_wf pi -> forall src, slaacFormRules pi src c <> None.
Proof.
  intros (v & E & Hv) src. unfold slaacFormRules. destruct (negb _); [done|]. destruct (_ =? _); [done|]. rewrite E.
  destruct (formSLAAC_spec v [] (PrefixLen pi) src c Hv) as [[H1 H2] _].
  by destruct (formSLAAC _ _ _ _).
Qed.

Lemma replaceDeferred_wf l q pi l' : pio_wf pi -> Forall (fun d => pio_wf (dfInfo d)) l -> replaceDeferred l now q pi = Some l' ->
  Forall (fun d => pio_wf (dfInfo d)) l'.
Proof.
  intros Hpi. revert l'. induction l as [|d l IH]; intros l' Hf; cbn [replaceDeferred]; [done|].
  apply Forall_cons in Hf as [Hd Hf]. case_bool_decide; [intros [= <-]; by constructor|].
  destruct (replaceDeferred l now q pi) as [l2|]; [|done]. cbn. intros [= <-]. constructor; [done|by apply IH].
Qed.

Lemma deferPrefixes_BE ra k e : Forall pio_wf (RaPrefixes ra) -> BE p k e -> wp (deferPrefixes now ra) (fun _ => BE p) k e.
Proof.
  intros Hf HB. unfold deferPrefixes. apply (wp6_forM_inv p (BE p)); [|done]. clear k e HB. intros pi k e Hin HB.
  rewrite Forall_forall in Hf. specialize (Hf pi Hin). w6.
  assert (Hd : Forall (fun d => pio_wf (dfInfo d)) (ndeferredPrefixes k)) by (destruct HB as [HB _]; apply HB).
  assert (Hone : exists r, deferOne k now pi = Some r /\ match r with
    | inl l => Forall (fun d => pio_wf (dfInfo d)) l | inr _ => True end).
  { unfold deferOne. destruct (slaacOptionRules pi) as [q why]. destruct (negb _); [by eexists|].
    destruct (replaceDeferred (ndeferredPrefixes k) now q pi) as [l|] eqn:Er; [eexists; split; [reflexivity|]; by eapply replaceDeferred_wf|].
    pose proof (formRules_ok pi (dadOf (nslaac k) q) Hf (iidSourceOf (nparams k))) as Hr.
    destruct (slaacFormRules pi (iidSourceOf (nparams k)) (dadOf (nslaac k) q)) as [[a why2]|]; [|done]. cbn [mbind option_bind].
    destruct (negb _); [by eexists|]. destruct (_ <=? _)%nat; [by eexists|]. eexists. split; [reflexivity|].
    apply Forall_app. split; [done|]. by repeat constructor. }
  destruct Hone as (r & E & Hr). eapply wp6_lift; [exact E|]. cbv beta. destruct r as [l|why].
  - w6. destruct HB as [HB HE]. split; [by apply Base_deferred|same HE].
  - w6. apply BE_slaac; [done|]. exact (BE_slaac_table k e HB).
Qed.

Lemma fallbackLoop_BE l : Forall (fun d => pio_wf (dfInfo d)) l -> forall k e b, BE p k e -> wp (fallbackLoop now l b) (fun _ => BE p) k e.
Proof.
  induction 1 as [|d l Hd Hl IH]; intros k e b HB; cbn [fallbackLoop]; [by w6|]. w6.
  pose proof (BE_slaac_table k e HB) as Ht. destruct (_ && _); [w6; apply IH; by apply BE_slaac|].
  destruct (applyPIO_ok (nslaac k) (dfAt d) (dfInfo d) (iidSourceOf (nparams k)) Ht Hd (BE_source k e HB))
    as (t & f & c & why & E & Ht').
  w6. eapply wp6_lift; [exact E|]. cbv beta zeta iota. destruct (negb _); w6; apply IH; by apply BE_slaac.
Qed.

Lemma endExchange_BE (Q : unit -> Core6 -> Env6 -> Prop) k e : BE p k e ->
  (forall k' e', BE p k' e' -> Q tt k' e') -> wp endExchange Q k e.
Proof.
  intros HB HQ. unfold endExchange. w6. apply HQ.
  assert (H : BE p (k <| nmsgType := 0 |>) (timer_off Timer6Retransmit e)) by (apply BE_idle; [reflexivity|by apply BE_off]). be H.
Qed.

Lemma autoFallbackFired_BE k e : BE p k e -> wp (autoFallbackFired now rnd) (fun _ => BE p) k e.
Proof.
  intros HB. unfold autoFallbackFired. w6. assert (H1 : BE p k (timer_off Timer6AutoFallback e)) by (by apply BE_off).
  destruct (nhaveLse k); [by w6|]. w6.
  eapply wp6_mono; [apply fallbackLoop_BE; [destruct HB as [HB _]; apply HB|]|].
  { assert (H : BE p (k <| ndhcpCommitted := false |>) (timer_off Timer6AutoFallback e)) by be H1. exact H. }
  cbv beta; intros changed k2 e2 H2. w6.
  assert (H3 : BE p (k2 <| ndeferredPrefixes := [] |>) e2).
  { destruct H2 as [H2 H2']. split; [by apply Base_deferred|same H2']. }
  set (k3 := k2 <| ndeferredPrefixes := [] |>) in *. clearbody k3. destruct (_ || _).
  - w6. apply failed_BE; [done|]. intros e4 H4. w6. apply endExchange_BE; [done|]. intros k5 e5 H5. w6. be H5.
  - w6. apply endExchange_BE; [apply BE_slaac; [done|exact (BE_slaac_table k3 e2 H3)]|].
    intros k5 e5 H5. w6. apply reportSLAAC_BE.
    assert (H6 : BE p (k5 <| nadverts := [] |>) e5) by (destruct H5 as [HB5 HE5]; split; [by apply Base_adverts|same HE5]). be H6.
Qed.

Lemma countUnused_Base ra (Q : unit -> Core6 -> Env6 -> Prop) k e :
  (forall t, entries t = entries (nslaac k) -> dadCount t = dadCount (nslaac k) -> Q tt (k <| nslaac := t |>) e) ->
  wp (countUnusedPrefixes ra) Q k e.
Proof.
  intros HQ. unfold countUnusedPrefixes. w6. generalize (length (filter (fun pi => Autonomous pi = true) (RaPrefixes ra))).
  intros n. assert (Hn : forall n t, entries (Nat.iter n (fun t => slaacIgnored t SLAACIgnoreModeDHCP) t) = entries t /\
    dadCount (Nat.iter n (fun t => slaacIgnored t SLAACIgnoreModeDHCP) t) = dadCount t).
  { clear. induction n as [|n IH]; intros t; [done|]. cbn [Nat.iter nat_rect]. destruct (IH t) as [E1 E2]. by split. }
  apply HQ; apply Hn.
Qed.

(** An advertisement once the mode is decided. *)
Lemma decided_BE ra k e : Forall pio_wf (RaPrefixes ra) -> BE p k e ->
  wp (if ndhcpCommitted k then countUnusedPrefixes ra;; deferPrefixes now ra else observeSLAAC now rnd ra : M6 unit)
    (fun _ => BE p) k e.
Proof.
  intros Hf HB. destruct (ndhcpCommitted k); [|by apply observeSLAAC_BE].
  destruct HB as [HB HE]. apply wp6_bind, countUnused_Base. intros t E1 E2.
  apply deferPrefixes_BE; [done|]. split; [by apply Base_counts|same HE].
Qed.

Lemma observeAuto_BE ra k e : Forall pio_wf (RaPrefixes ra) -> BE p k e -> wp (observeAuto now rnd ra) (fun _ => BE p) k e.
Proof.
  intros Hf HB. unfold observeAuto. apply wp6_bind, wp6_get. destruct (nautoDecided k); cbn [negb andb when6].
  { w6. by apply decided_BE. }
  w6. assert (H1 : BE p (k <| nautoDecided := true |>) e) by be HB. clear HB.
  destruct (Managed ra); [|w6; apply (decided_BE ra _ e Hf H1)]. w6.
  apply wp6_set; [intros _; apply randomDelay_nonneg|].
  match goal with |- wp _ _ ?k' ?e' => assert (H2 : BE p k' e') end.
  { destruct H1 as [HB1 HE1]. split.
    - assert (H : Base p (k <| nautoDecided := true |> <| npendingType := MsgSolicit |>) (timer_set Timer6Delay (timer_off Timer6RouterSolicit e)))
        by (apply Base_delay; [by apply Base_off|repeat constructor]). same H.
    - assert (H : expiry_armed (k <| nautoDecided := true |>) (timer_set Timer6Delay (timer_off Timer6RouterSolicit e)))
        by (by apply (expiry_env _ e)). same H. }
  match type of H2 with BE _ ?k' ?e' => generalize dependent e'; generalize dependent k' end. clear H1. intros k1 e1 [HB1 HE1].
  apply wp6_bind, countUnused_Base. intros t E1 E2. apply wp6_bind.
  eapply wp6_mono; [apply deferPrefixes_BE; [done|]; split; [by apply Base_counts|same HE1]|].
  cbv beta; intros _ k2 e2 H2. destruct (autoFallback (nparams k)) as [d|]; [|by w6].
  w6. apply wp6_set; [by intros [?|[?|[?|[?|?]]]]|]. apply BE_set; [done| |done]. by intros [?|[?|[? _]]].
Qed.
End slaac.
