(* ===== verification/Machine6Bound.v ===== *)
(** * The DHCPv6 machine's lease: starting, binding, declining, releasing

    Each method of proto/machine6.go between an admitted message and the lease
    keeps the invariant: starting and restarting, the two renewal exchanges, the
    bound state, a Decline and what follows it, the answers of duplicate address
    detection, a Release, the end of a lifetime. *)

From S2P Require Import Prelude NetAddr Options Codec Forcerenew Arp Backoff Kinds Lease Dhcp6 Rkap Backoff6 Icmpv6 Lease6 Slaac Params6 Router6 Outward Core6 Machine6 Machine6Steps Machine6Spec Machine6Logic Machine6Msgs Machine6Inv Machine6Slaac.

(** A message type of a closed list. *)
Ltac mem := unfold client_type, waiting_type, first_type; rewrite !elem_of_cons; tauto.

(** ** A calm machine *)

Section calm.
Context (p : Params6).

Lemma Calm_Inv6' k e : Calm p k e -> nstate k <> State6DAD -> (P6Mode p = Mode6DHCP -> Drv k e) -> Inv6' p k e.
Proof. intros (HB & HE & HD) Hn Hd. split; [|done]. split_and!; try done. intros Hs. split_and!; [|done..]. intros _. by apply HD. Qed.

Lemma Inv6'_Calm k e : Inv6' p k e -> Calm p k e.
Proof. intros [H Hn]. by apply Inv6_Calm. Qed.

Lemma Calm_off k e t : t <> Timer6Expire -> Calm p k e -> Calm p k (timer_off t e).
Proof.
  intros Ht (HB & HE & HD). split_and!; [by apply Base_off| |done]. apply (expiry_env k e); [|done]. cbn. by rewrite arm6_ne.
Qed.
Lemma Calm_set k e t : t <> Timer6Expire -> ~ base_timer p t -> Calm p k e -> Calm p k (timer_set t e).
Proof.
  intros Ht Hb (HB & HE & HD). split_and!; [by apply Base_set| |done]. apply (expiry_env k e); [|done]. cbn. by rewrite arm6_ne.
Qed.
Lemma Calm_retimed k e e' ts : Timer6Expire ∉ ts -> (forall t, t ∈ ts -> ~ base_timer p t) -> retimed ts e e' -> Calm p k e -> Calm p k e'.
Proof. intros Ht Hb Hr (HB & HE & HD). split_and!; [by eapply Base_retimed|by eapply expiry_retimed|done]. Qed.
Lemma Calm_fault k e : Calm p k e -> Calm p k (fault e).
Proof. intros (HB & HE & HD). split_and!; [by apply Base_fault|done..]. Qed.

Lemma mode_of k e : Base p k e -> P6Mode (nparams k) = P6Mode p.
Proof. intros H. by destruct (proj1 H) as (s & i & -> & _). Qed.
Lemma temp_of k e : Base p k e -> P6Temporary (nparams k) = P6Temporary p.
Proof. intros H. by destruct (proj1 H) as (s & i & -> & _). Qed.

Lemma forms_mode k e : Base p k e -> formsAddresses (P6Mode (nparams k)) = true -> P6Mode p <> Mode6DHCP.
Proof. intros H E Hm. rewrite (mode_of _ _ H), Hm in E. done. Qed.

Lemma Calm_adverts k e ads : Calm p k e -> (P6Temporary p = false -> Forall (fun a => adTemp a = []) ads) ->
  Calm p (k <| nadverts := ads |>) e.
Proof. intros (HB & HE & HD) Ha. split_and!; [by apply Base_adverts|same HE|done]. Qed.

Lemma Calm_resume_none k e : Calm p k e -> Calm p (k <| nresume := None |>) e.
Proof. intros (HB & HE & HD). split_and!; [by apply Base_resume_none|same HE|done]. Qed.

Lemma Calm_BE k e : Calm p k e -> BE p k e.
Proof. by intros (HB & HE & _). Qed.

Lemma Calm_idle k e : armed6 e Timer6Retransmit = false -> Calm p k e -> Calm p (k <| nmsgType := 0 |>) e.
Proof. intros Hr (HB & HE & HD). split_and!; [by apply Base_idle|same HE|done]. Qed.

(** A lease that is not held is nobody's. *)
Lemma Calm_lose k e : Calm p k e -> Calm p (k <| nhaveLse := false |> <| nlease := lease6_zero |>) (e <| held := None |>).
Proof. intros (HB & HE & HD). by split_and!; [apply Base_lose|by intros ?|]. Qed.

(** Nothing pends. *)
Lemma Base_dropped k e : Base p k e ->
  Base p (k <| npending := lease6_zero |> <| nhavePending := false |> <| npendingRenewal := false |>
          <| ndadWait := [] |> <| ndadBad := [] |> <| ncarried := [] |>) e.
Proof. intros HB. assert (H : Base p (k <| npending := lease6_zero |>) e) by (by apply Base_pend). same H. Qed.

Lemma Calm_dropped k e : BE p k e ->
  Calm p (k <| npending := lease6_zero |> <| nhavePending := false |> <| npendingRenewal := false |>
          <| ndadWait := [] |> <| ndadBad := [] |> <| ncarried := [] |>) e.
Proof. intros [HB HE]. split_and!; [by apply Base_dropped|same HE|done]. Qed.

Lemma delay_timers t : t <> Timer6Delay -> t <> Timer6Retransmit -> t <> Timer6SLAAC -> t <> Timer6AutoFallback -> ~ base_timer p t.
Proof. intros ???? [?|[?|[_ [?|?]]]]; done. Qed.

Lemma renewal_timers t : t ∈ [Timer6Renew; Timer6Rebind] -> ~ base_timer p t.
Proof. intros [->|[->|?%elem_of_nil]%elem_of_cons]%elem_of_cons; [by apply delay_timers..|done]. Qed.
End calm.

(** ** Starting *)

Section bound.
Context (p : Params6) (Hcfg : config_ok p) (now : Instant) (rnd : Z).
Local Abbreviation wp := (wp6 p).

Lemma firstExchange_type k : first_type (firstExchange k).1.1.
Proof. unfold firstExchange, first_type. repeat case_match; cbn; set_solver. Qed.

Lemma begin_ok k e : Calm p k e -> wp (begin now rnd) (fun _ => Inv6 p) k e.
Proof.
  intros HC. unfold begin. w6. destruct (formsAddresses _ && _) eqn:Ef.
  { apply andb_prop in Ef as [Ef _]. pose proof (forms_mode p k e (proj1 HC) Ef) as Hm.
    eapply wp6_mono; [by apply beginSLAAC_BE; [..|apply Calm_BE]|]. cbv beta. intros _ k' e' H. by apply BE_Inv6. }
  w6. apply wp6_startRouterDiscovery. intros n e' He'.
  pose proof (firstExchange_type k) as Ht. destruct (firstExchange k) as [[t delay] rebind]. cbn [fst] in Ht.
  assert (HC' : Calm p k e') by (eapply (Calm_retimed p k e e' [Timer6RouterSolicit]); [set_solver|apply solicit_timers|done|done]).
  assert (HC1 : Calm p (k <| nadverts := [] |> <| npendingType := t |>) (timer_set Timer6Delay e')).
  { destruct HC' as (HB & HE & HD). split_and!; [by apply Base_delay; [apply Base_adverts|]|same HE|done]. }
  apply wp6_bind, wp6_when; intros _; w6;
    (apply wp6_set; [intros _; apply randomDelay_nonneg|]); cbv beta;
    (apply Calm_Inv6'; [same HC1|done|intros _; right; unfold driven6; cbn; by rewrite arm6_eq]).
Qed.

Lemma restartDiscovery_ok k e : Calm p k e -> wp (restartDiscovery now rnd) (fun _ => Inv6 p) k e.
Proof.
  intros HC. unfold restartDiscovery. w6.
  assert (HC1 : Calm p (k <| nresume := None |>) (timer_off Timer6Rebind (timer_off Timer6Renew e)))
    by (apply Calm_off, Calm_off, Calm_resume_none; done).
  apply wp6_when; intros Hh; w6; apply begin_ok; [|same HC1].
  assert (HC2 : Calm p (k <| nresume := None |>) (timer_off Timer6Expire (timer_off Timer6Rebind (timer_off Timer6Renew e)))).
  { destruct HC1 as (HB & HE & HD). split_and!; [by apply Base_off| |done]. intros Hh'. cbn in Hh'. by rewrite Hh' in Hh. }
  same HC2.
Qed.

(** ** The bound states *)

Lemma exchange_ok t sid k e : waiting_type t -> t <> MsgSolicit -> Calm p k e -> wp (startExchangeAnswering now rnd t sid) (fun _ => Inv6' p) k e.
Proof. intros Ht Hn HC. by apply wp6_exchange. Qed.

Lemma start_ok t k e : waiting_type t -> t <> MsgSolicit -> Calm p k e -> wp (startExchange now rnd t) (fun _ => Inv6' p) k e.
Proof. apply exchange_ok. Qed.

Lemma abandon_ok k e : Calm p k e -> wp abandonRefreshDelay (fun _ => Calm p) k e.
Proof.
  intros HC. unfold abandonRefreshDelay. w6. destruct (_ || _); w6; [done|].
  assert (HC1 : Calm p k (timer_off Timer6Delay e)) by (by apply Calm_off). same HC1.
Qed.

Lemma enterRebinding_ok k e : Calm p k e -> wp (enterRebinding now rnd) (fun _ => Inv6' p) k e.
Proof.
  intros HC. unfold enterRebinding. w6. eapply wp6_mono; [by apply abandon_ok|]. cbv beta; intros _ k1 e1 H1. w6.
  apply exchange_ok; [mem|done|same H1].
Qed.

Lemma exchangeFor_ok t s k e : waiting_type t -> t <> MsgSolicit -> Calm p k e -> wp (startExchangeFor now rnd t s) (fun _ => Inv6' p) k e.
Proof. intros Ht Hn HC. unfold startExchangeFor. w6. apply exchange_ok; [done|done|same HC]. Qed.

Lemma enterRenewing_ok k e : Calm p k e -> wp (enterRenewing now rnd) (fun _ => Inv6' p) k e.
Proof.
  intros HC. unfold enterRenewing. w6. eapply wp6_mono; [by apply abandon_ok|]. cbv beta; intros _ k1 e1 H1. w6.
  destruct (_ =? _)%nat; [w6; by apply enterRebinding_ok|]. destruct (renewalTarget k1) as [srv scope]. w6.
  apply exchangeFor_ok; [mem|done|same H1].
Qed.

Lemma told_ok (Q : Core6 -> Env6 -> Prop) k e : Q k e ->
  wp (k ← get6; mret (bytes_eqb (nnameOnWire k) (nhostname k)) : M6 bool) (fun _ => Q) k e.
Proof. intros H. by w6. Qed.

Lemma announce_ok k e : Inv6' p k e -> wp (announceHostname6 now rnd) (fun _ => Inv6' p) k e.
Proof.
  intros HI. pose proof (Inv6'_Calm p k e HI) as HC. unfold announceHostname6. w6. destruct (_ || _); [by w6|].
  assert (Ht : forall (c : M6 unit) n, wp c (fun _ => Inv6' p) k e ->
    wp (journal6 n ;; c ;; (k ← get6; mret (bytes_eqb (nnameOnWire k) (nhostname k))) : M6 bool) (fun _ => Inv6' p) k e).
  { intros c n H. w6. eapply wp6_mono; [exact H|]. cbv beta; intros _ k' e' H'. by apply told_ok. }
  cbv zeta. destruct (nstate k);
    lazymatch goal with
    | |- wp6 _ (mret _) _ _ _ => apply wp6_ret; exact HI
    | |- wp6 _ (if _ then _ else _) _ _ _ => destruct (_ || _); [apply wp6_ret; exact HI|apply Ht; by apply enterRenewing_ok]
    | _ => apply Ht; apply exchange_ok; [mem|done|exact HC]
    end.
Qed.

(** Nothing is announced while an address is checked. *)
Lemma announce_quiet (Q : bool -> Core6 -> Env6 -> Prop) k e : nstate k = State6DAD -> Q false k e ->
  wp (announceHostname6 now rnd) Q k e.
Proof. intros Hs H. unfold announceHostname6. w6. rewrite Hs. by destruct (_ || _); w6. Qed.

Lemma state_eq_dec' (s : State6) : s = State6DAD \/ s <> State6DAD.
Proof. destruct s; auto. Qed.

Lemma takeHostname_ok name k e : Inv6 p k e -> wp (takeHostname6 now rnd name) (fun _ => Inv6 p) k e.
Proof.
  intros HI. unfold takeHostname6. destruct (ValidateHostname6 name); [by w6|]. w6.
  assert (H1 : Inv6 p (k <| nhostname := name |>) e) by same HI.
  assert (Hend : forall told : bool, forall k e, Inv6 p k e ->
    wp (if told then mret tt else (m ← get6;
      journal6 (note "hostname %q recorded in %s: option 39 last carried %q and no message was sent"
        [AText (nhostname m); AState6 (nstate m); AText (nnameOnWire m)]))) (fun _ => Inv6 p) k e)
    by (intros [] k' e' H; by w6).
  destruct (state_eq_dec' (nstate k)) as [Hs|Hs].
  - apply announce_quiet; [exact Hs|]. apply (Hend false). exact H1.
  - eapply wp6_mono; [apply announce_ok; split; [exact H1|exact Hs]|]. cbv beta; intros told k2 e2 [H2 _]. apply Hend. exact H2.
Qed.

(** The renewal timers, the expiry timer and the refresh still owed. *)
Lemma owed_ok k e : Calm p k e -> nstate k = State6Bound -> nmsgType k = 0 ->
  wp (armOwedRefresh rnd) (fun _ k' e' => Inv6' p k' e' /\ nstate k' = State6Bound) k e.
Proof.
  intros HC Hs Ht. unfold armOwedRefresh. w6.
  assert (Hb : forall k e, Calm p k e -> nstate k = State6Bound -> nmsgType k = 0 -> Inv6' p k e /\ nstate k = State6Bound).
  { intros k1 e1 H1 Hs1 Ht1. split; [|done]. apply Calm_Inv6'; [done|by rewrite Hs1|]. intros _. right. unfold driven6. by rewrite Hs1. }
  destruct (nrefreshOwed k); [|w6; by apply Hb]. w6. apply wp6_set; [intros _; apply randomDelay_nonneg|]. apply Hb; [|exact Hs|exact Ht].
  assert (HC1 : Calm p (k <| npendingType := MsgInformationRequest |>) (timer_set Timer6Delay e)).
  { destruct HC as (HB & HE & HD). split_and!; [apply Base_delay; [done|mem]|same HE|done]. }
  same HC1.
Qed.

Lemma rearm_ok {A} (c : M6 A) (Q : A -> Core6 -> Env6 -> Prop) k e : Base p k e -> (stateful p -> ndadWait k = []) ->
  (forall e', Calm p k e' -> wp c Q k e') -> wp (armRenewal now ;; armExpiry now ;; c) Q k e.
Proof.
  intros HB HD HQ. apply wp6_bind, wp6_armRenewal. intros e1 He1.
  assert (HB1 : Base p k e1) by (by eapply Base_retimed; [apply renewal_timers|..]).
  apply wp6_bind, wp6_armExpiry. intros e2 He2. apply HQ. split_and!; [by eapply expiry_set_Base|apply He2|].
  by apply HD.
Qed.

Lemma withReconfigure_addrs k l : laddrs (withReconfigure k l) = laddrs l /\ l6SLAAC (withReconfigure k l) = l6SLAAC l /\
  l6TempAddrs (withReconfigure k l) = l6TempAddrs l.
Proof. unfold withReconfigure. by destruct (nreconf k !! _). Qed.

(** A lease that may be bound. *)
Definition bindable (l : Lease6) (e : Env6) : Prop :=
  (P6Mode p = Mode6DHCP -> l6SLAAC l = false) /\ (P6Temporary p = false -> l6TempAddrs l = []) /\
  (stateful p -> forall a, a ∈ laddrs l -> a ∈ clear e).

Lemma enterBound_ok l k e : Base p k e -> (stateful p -> ndadWait k = []) -> bindable l e ->
  wp (enterBound now rnd l) (fun _ => Inv6' p) k e.
Proof.
  intros HB HD (Hl1 & Hl2 & Hl3). unfold enterBound. w6. cbn [set_fld nhaveLse nlease].
  match goal with |- context [withReconfigure ?k' l] => destruct (withReconfigure_addrs k' l) as (E1 & E2 & E3);
    set (l' := withReconfigure k' l) in * end.
  clearbody l'. rewrite <- E2 in Hl1. rewrite <- E3 in Hl2. rewrite <- E1 in Hl3. clear E1 E2 E3.
  assert (HB0 : Base p (k <| nmsgType := 0 |>) (timer_off Timer6Retransmit e)) by (apply Base_idle; [reflexivity|by apply Base_off]).
  assert (Hh : held e = if nhaveLse k then Some (nlease k) else None) by apply HB.
  pose proof (Base_take p (k <| nmsgType := 0 |>) (timer_off Timer6Retransmit e) l' HB0 Hl1 Hl2 Hl3) as HB1.
  assert (Htail : forall k1, nstate k1 = State6Bound -> nmsgType k1 = 0 -> (stateful p -> ndadWait k1 = []) ->
    Base p k1 (timer_off Timer6Retransmit e <| held := Some l' |>) ->
    wp (armRenewal now ;; armExpiry now ;; armOwedRefresh rnd ;; _ ← announceHostname6 now rnd; mret tt) (fun _ => Inv6' p) k1
       (timer_off Timer6Retransmit e <| held := Some l' |>)).
  { clear -Hcfg. intros k1 Hs1 Ht1 HD1 HB1. apply rearm_ok; [done..|]. intros e2 H2. apply wp6_bind.
    eapply wp6_mono; [by apply owed_ok|]. cbv beta; intros _ k3 e3 [H3 _]. apply wp6_bind.
    eapply wp6_mono; [by apply announce_ok|]. cbv beta; intros b k4 e4 H4. by w6. }
  match goal with |- wp _ _ ?k' ?e' => set (k1 := k'); assert (HB2 : Base p k1 (timer_off Timer6Retransmit e <| held := Some l' |>)) by same HB1;
    assert (Hs1 : nstate k1 = State6Bound) by reflexivity; assert (Ht1 : nmsgType k1 = 0) by reflexivity; assert (HD1 : stateful p -> ndadWait k1 = []) by exact HD end.
  clearbody k1. clear HB1 HB0.
  pose proof (Htail k1 Hs1 Ht1 HD1 HB2) as Hend. destruct (nhaveLse k); cbn [negb].
  - apply wp6_bind, wp6_stamp; [split; [by cbn; rewrite Hh|exact Hl3]|]. cbv beta. apply wp6_when; intros _; [|exact Hend].
    apply wp6_stamp; [split; [done|exact Hl3]|exact Hend].
  - apply wp6_stamp; [split; [exact Hh|exact Hl3]|exact Hend].
Qed.

(** ** Declines *)

(** What a Decline leaves to do can be done. *)
Definition after_ok (then_ : AfterDecline) (k : Core6) (e : Env6) : Prop :=
  then_ = ThenBindPending -> stateful p -> forall a, a ∈ laddrs (npending k) -> a ∈ clear e.

Lemma pending_bindable k e : Base p k e -> (stateful p -> forall a, a ∈ laddrs (npending k) -> a ∈ clear e) ->
  bindable (npending k) e.
Proof.
  intros (_&_&_&_&_&_&_&_&H9&H10&_) Hc. split; [by intros Hm; apply (H9 Hm)|]. split; [by intros Ht; apply (H10 Ht)|done].
Qed.

Lemma runAfterDecline_ok then_ k e : Calm p k e -> after_ok then_ k e -> wp (runAfterDecline now rnd then_) (fun _ => Inv6 p) k e.
Proof.
  intros HQ Ha. unfold runAfterDecline. destruct then_; [by apply restartDiscovery_ok|]. w6.
  apply wp6_dropPending. eapply wp6_mono; [apply enterBound_ok|by intros _ k' e' [H _]].
  - apply Base_dropped, HQ.
  - done.
  - apply pending_bindable; [apply HQ|by apply Ha].
Qed.

Lemma state_same k s : nstate k = s -> k <| nstate := s |> = k.
Proof. intros <-. by destruct k. Qed.

(** A Decline goes out from a machine that is in DAD already. *)
Lemma declineSend_ok then_ k e : Calm p k e -> nstate k = State6DAD -> nafterDecline k = Some then_ -> after_ok then_ k e ->
  wp (startExchange now rnd MsgDecline6 ;; nstate ::= State6DAD) (fun _ => Inv6 p) k e.
Proof.
  intros (HB & HE & HD) Hs Hd Ha. apply wp6_bind. unfold startExchange. apply wp6_startExchange; [mem|exact HB|].
  change (MsgDecline6 =? MsgSolicit) with false. cbv beta iota. intros k2 x e2 He2 Hx Hal. apply wp6_modify.
  assert (HI : Inv6 p (exchanged MsgDecline6 x (nadverts k) k) e2).
  { split_and!.
    - apply (exchanged_Base p k e); [mem|done|done| |exact HB]. intros Ht. apply HB. exact Ht.
    - assert (H : expiry_armed k e2) by (by eapply expiry_sent). same H.
    - intros _. destruct (sent_Drv e e2 He2); [by left|]. right. unfold driven6, exchanged. cbn. rewrite Hs. by left.
    - intros Hst. split_and!; [done| |].
      + intros _ Hn. destruct Hn. exact (HD Hst).
      + intros _ _ Hd' a Hin. cbn in Hd'. rewrite Hd in Hd'. injection Hd' as ->.
        assert (clear e2 = clear e) as -> by (by destruct He2 as [->| ->]). exact (Ha eq_refl Hst a Hin). }
  rewrite state_same; [by eapply Inv6_alike|]. destruct Hal as (_ & -> & _). exact Hs.
Qed.

Lemma declineSet_ok server addrs temp then_ k e : Calm p k e -> after_ok then_ k e ->
  wp (declineSet now rnd server addrs temp then_) (fun _ => Inv6 p) k e.
Proof.
  intros HQ Ha. unfold declineSet. destruct (_ =? _)%nat; [w6; by apply runAfterDecline_ok|]. w6.
  destruct (_ =? _)%nat.
  { w6. apply runAfterDecline_ok; [apply (Calm_alike p k); [al|exact HQ]|exact Ha]. }
  do 5 (apply wp6_bind, wp6_modify). apply wp6_bind, wp6_cancel. cbv beta. apply (declineSend_ok then_).
  - apply (Calm_alike p k); [al|]. by apply Calm_off.
  - reflexivity.
  - reflexivity.
  - exact Ha.
Qed.

Lemma finishDecline_ok k e : BE p k e -> (stateful p -> Dad k e) -> nstate k = State6DAD -> nmsgType k = MsgDecline6 ->
  wp (finishDecline now rnd) (fun _ => Inv6 p) k e.
Proof.
  intros [HB HE] HD Hs Ht. unfold finishDecline, endExchange. w6.
  match goal with |- wp _ _ ?k' ?e' => assert (HQ : Calm p k' e') end.
  { split_and!.
    - assert (H : Base p (k <| nmsgType := 0 |>) (timer_off Timer6Retransmit e)) by (apply Base_idle; [reflexivity|by apply Base_off]).
      same H.
    - apply (expiry_env k e (timer_off Timer6Retransmit e)) in HE; [same HE|done].
    - intros Hst. destruct (HD Hst) as (_ & Hd & _). cbn [set_fld ndadWait]. destruct (ndadWait k) as [|a l]; [done|].
      by destruct (Hd Hs). }
  destruct (nafterDecline k) as [then_|] eqn:Ea; [|by apply restartDiscovery_ok].
  apply runAfterDecline_ok; [exact HQ|]. intros -> Hst. by apply (HD Hst).
Qed.

Lemma withoutTemp_addrs l bad : l6SLAAC (withoutTemp l bad) = l6SLAAC l /\ (l6TempAddrs l = [] -> l6TempAddrs (withoutTemp l bad) = []).
Proof. unfold withoutTemp. cbn. split; [done|]. by intros ->. Qed.

Lemma declineTemporary_ok bad k e : ~ stateful p -> BE p k e -> wp (declineTemporary now rnd bad) (fun _ => Inv6 p) k e.
Proof.
  intros Hns [HB HE]. unfold declineTemporary. w6. destruct (withoutTemp_addrs (npending k) bad) as [E1 E2].
  apply declineSet_ok; [|by intros _ ?]. split_and!; [|same HE|done].
  assert (H : Base p (k <| npending := withoutTemp (npending k) bad |>) e).
  { pose proof HB as (_&_&_&_&_&_&_&_&H9&H10&_). apply Base_pend; [done| |].
    - intros Hm. rewrite E1. by apply (H9 Hm).
    - intros Ht. apply E2. by apply (H10 Ht). }
  same H.
Qed.

(** A transport failure, or another. *)
Lemma failed_ok (P : Env6 -> Prop) r n k e : P e -> P (fault e) -> wp (failed6 r n) (fun _ k' e' => k' = k /\ P e') k e.
Proof. intros H H'. apply wp6_failed. cbn [observe6]. by case_bool_decide. Qed.

Lemma failed_Calm r n k e : Calm p k e -> wp (failed6 r n) (fun _ => Calm p) k e.
Proof. intros HC. apply wp6_failed. cbn [observe6]. case_bool_decide; [by apply Calm_fault|done]. Qed.

Lemma isTemp_none l : l6TempAddrs l = [] -> forall a, isTemp l a = false.
Proof. intros E a. unfold isTemp. by rewrite E. Qed.

(** ** The answers of duplicate address detection *)

Lemma dadConflict_ok k e : Calm p k e -> (stateful p -> ndadBad k <> []) -> wp (dadConflict now rnd) (fun _ => Inv6 p) k e.
Proof.
  intros HQ Hbad. unfold dadConflict. w6.
  set (k1 := k <| ntempCounts := _ |>). assert (HQ1 : Calm p k1 e) by (apply (Calm_alike p k); [al|exact HQ]).
  change (ndadBad k) with (ndadBad k1). change (npending k) with (npending k1).
  assert (Hbad1 : stateful p -> ndadBad k1 <> []) by exact Hbad. clearbody k1. clear HQ Hbad.
  destruct (existsb _ (ndadBad k1)) eqn:Ex; cbn [negb].
  - w6. apply wp6_dropPending.
    assert (H2 : forall e2, Calm p k1 e2 -> Calm p (k1 <| npending := lease6_zero |> <| nhavePending := false |> <| npendingRenewal := false |>
          <| ndadWait := [] |> <| ndadBad := [] |> <| ncarried := [] |>) e2).
    { intros e2 (HB & HE & HD). split_and!; [by apply Base_dropped|same HE|done]. }
    apply wp6_bind, wp6_when; intros _; [apply wp6_failed|]; apply declineSet_ok; try done; apply H2; [|done].
    cbn [observe6]. case_bool_decide; [|done]. destruct HQ1 as (HB & HE & HD). by split_and!; [apply Base_fault|..].
  - apply declineTemporary_ok; [|by destruct HQ1 as (?&?&_)]. intros Hs.
    assert (Ht : l6TempAddrs (npending k1) = []) by (destruct HQ1 as ((_&_&_&_&_&_&_&_&_&H10&_) & _); by apply (H10 (proj2 Hs))).
    destruct (ndadBad k1) as [|b l]; [by apply (Hbad1 Hs)|]. cbn in Ex. by rewrite (isTemp_none _ Ht) in Ex.
Qed.

(** What the answer to a check changes: nothing an observer holds clear, but
    for an address it asked about. *)
Lemma answered_rest e a dup : let e' := hears6 (Ev6DADResult a dup) e in
  held e' = held e /\ armed6 e' = armed6 e /\ ever e' = ever e /\ faulted e' = faulted e.
Proof. cbn [hears6]. by case_bool_decide. Qed.

Lemma answered e a dup : asked e ## clear e -> let e' := hears6 (Ev6DADResult a dup) e in
  asked e' ## clear e' /\
  (forall x, x ∈ clear e -> x ∈ clear e') /\ (forall x, x ∈ asked e -> x <> a -> x ∈ asked e') /\
  (a ∈ asked e -> dup = false -> a ∈ clear e').
Proof. intros Hd. cbn [hears6]. case_bool_decide as Ha; [|by split_and!]. cbn. destruct dup; set_solver. Qed.

Lemma Base_answered k e a dup : Base p k e -> Base p k (hears6 (Ev6DADResult a dup) e).
Proof.
  intros (H1&H2&H3&H4&H5&H6&H7&H8&H9&H10&H11&H12&H13). destruct (answered_rest e a dup) as (E1&E2&E3&E4).
  unfold Base. rewrite E1, E2, E3. base_split; try done. intros Hs. destruct (H11 Hs) as [Hc Hd].
  destruct (answered e a dup Hd) as (D1&D2&_). split; [|exact D1]. intros x Hx. by apply D2, Hc.
Qed.

Lemma BE_answered k e a dup : BE p k e -> BE p k (hears6 (Ev6DADResult a dup) e).
Proof.
  intros [HB HE]. split; [by apply Base_answered|]. apply (expiry_env k e); [|done].
  by destruct (answered_rest e a dup) as (_&->&_).
Qed.

Lemma Drv_answered k e a dup : Drv k e -> Drv k (hears6 (Ev6DADResult a dup) e).
Proof. destruct (answered_rest e a dup) as (_&E2&_&E4). unfold Drv, driven6. by rewrite E2, E4. Qed.

Lemma removeFirst_spec l a :
  match removeFirst l a with
  | None => a ∉ l
  | Some l' => a ∈ l /\ (forall x, x ∈ l' -> x ∈ l) /\ (forall x, x ∈ l -> x = a \/ x ∈ l')
  end.
Proof.
  induction l as [|x l IH]; cbn [removeFirst]; [by apply not_elem_of_nil|].
  destruct (addr_eqb x a) eqn:E; [apply addr_eqb_eq in E; subst x|]; [set_solver|].
  assert (x <> a) by (intros ->; by rewrite (proj2 (addr_eqb_eq a a)) in E).
  destruct (removeFirst l a) as [l'|]; cbn; set_solver.
Qed.

(** The answers awaited once one of them is in. *)
Lemma pending_answered k e a (dup : bool) wait : asked e ## clear e -> pending_ok k e -> removeFirst (ndadWait k) a = Some wait ->
  pending_ok (k <| ndadWait := wait |> <| ndadBad := (if dup then ndadBad k ++ [a] else ndadBad k) |>)
    (hears6 (Ev6DADResult a dup) e).
Proof.
  intros Hd [Hp Hw] Hr. pose proof (removeFirst_spec (ndadWait k) a) as Hs. rewrite Hr in Hs. destruct Hs as (Ha & Hsub & Hsplit).
  destruct (answered e a dup Hd) as (_&D2&D3&D4).
  assert (Hbad : forall x, x ∈ ndadBad k -> x ∈ (if dup then ndadBad k ++ [a] else ndadBad k)) by (destruct dup; set_solver).
  assert (Hself : a ∈ clear (hears6 (Ev6DADResult a dup) e) \/ a ∈ (if dup then ndadBad k ++ [a] else ndadBad k)).
  { destruct dup; [right; set_solver|]. destruct (Hw a Ha) as [H|[H|H]]; [left; by apply D4|left; by apply D2|by right]. }
  split; cbn [set_fld npending ndadWait ndadBad]; intros x Hx.
  - destruct (Hp x Hx) as [H|[H|H]]; [left; by apply D2| |right; right; by apply Hbad].
    destruct (Hsplit x H) as [->|H']; [destruct Hself; auto|auto].
  - destruct (decide (x = a)) as [->|Hn]; [destruct Hself; auto|].
    destruct (Hw x (Hsub x Hx)) as [H|[H|H]]; [left; by apply D3|right; left; by apply D2|right; right; by apply Hbad].
Qed.

(** An answer that awaits nothing more, or that was not awaited. *)
Lemma stale_ok k e a dup : Inv6 p k e -> a ∉ ndadWait k \/ nstate k <> State6DAD -> Inv6 p k (hears6 (Ev6DADResult a dup) e).
Proof.
  intros (HB & HE & HD & Hd) Hn. destruct (BE_answered k e a dup (conj HB HE)) as [HB' HE'].
  split_and!; [done|done|intros Hm; by apply Drv_answered, HD|]. intros Hs. destruct (Hd Hs) as (G1 & G2 & G3).
  pose proof HB as (_&_&_&_&_&_&_&_&_&_&H11&_).
  destruct (answered e a dup (proj2 (H11 Hs))) as (_&D2&D3&D4). split_and!; [done| |].
  - intros Hst Hw. destruct (G2 Hst Hw) as [G2a [Hp Hq]]. split; [done|]. split; intros x Hx.
    + destruct (Hp x Hx) as [H|[H|H]]; auto.
    + destruct (Hq x Hx) as [H|[H|H]]; auto. destruct (decide (x = a)) as [->|Hna]; [|auto]. by destruct Hn.
  - intros Hst Ht Ha x Hx. apply D2. by apply G3.
Qed.

(** Every answer is in. *)
Lemma lastAnswer_ok k e : Calm p k e -> ndadWait k = [] -> (stateful p -> pending_ok k e) ->
  wp (k ← get6;
      (if (length (ndadBad k) =? 0)%nat then
         dropPending ;;
         enterBound now rnd (npending k) ;;
         k ← get6;
         when6 (nrebindOwed k) (nrebindOwed ::= false ;; enterRebinding now rnd)
       else dadConflict now rnd) : M6 unit) (fun _ => Inv6 p) k e.
Proof.
  intros HQ Hw Hp. w6. destruct (Nat.eqb_spec (length (ndadBad k)) 0) as [Hb|Hb].
  - apply wp6_bind, wp6_dropPending, wp6_bind. eapply wp6_mono; [apply enterBound_ok; [apply Base_dropped, HQ|done|]|].
    + apply pending_bindable; [apply HQ|]. intros Hs x Hx. destruct (proj1 (Hp Hs) x Hx) as [H|[H|H]]; [done| |].
      * rewrite Hw in H. by apply elem_of_nil in H.
      * destruct (ndadBad k); [by apply elem_of_nil in H|done].
    + cbv beta; intros _ k2 e2 H2. w6. apply wp6_when; intros _; [|by apply H2]. w6.
      eapply wp6_mono; [apply enterRebinding_ok; apply Inv6'_Calm in H2; same H2|]. by intros _ k3 e3 [H3 _].
  - apply dadConflict_ok; [done|]. intros _ Hn. by rewrite Hn in Hb.
Qed.

(** An answer is taken, and [wait] are still awaited. *)
Lemma nextAnswer_ok k e wait : BE p k e -> nstate k = State6DAD -> ndadWait k = wait -> (P6Mode p = Mode6DHCP -> wait <> [] -> Drv k e) ->
  (stateful p -> nmsgType k <> MsgDecline6 /\ pending_ok k e) ->
  wp ((if (0 <? length wait)%nat then mret tt else
       if l6SLAAC (npending k) then finishSLAACDAD now rnd else
       cancel6 Timer6DAD ;;
       k ← get6;
       if (length (ndadBad k) =? 0)%nat then
         dropPending ;;
         enterBound now rnd (npending k) ;;
         k ← get6;
         when6 (nrebindOwed k) (nrebindOwed ::= false ;; enterRebinding now rnd)
       else dadConflict now rnd) : M6 unit) (fun _ => Inv6 p) k e.
Proof.
  intros HBE Hst Hw HD Hpend. destruct (Nat.ltb_spec 0 (length wait)) as [Hl|Hl].
  { assert (Hne : wait <> []) by (by intros ->; cbn in Hl; lia). w6.
    split_and!; [apply HBE|apply HBE|by intros Hm; apply HD|]. intros Hs. destruct (Hpend Hs) as [Hn Hp].
    split_and!; [by intros Hx|done|]. intros _ Hx. by destruct Hn. }
  assert (wait = []) as -> by (destruct wait; [done|cbn in Hl; lia]).
  destruct (l6SLAAC (npending k)) eqn:Esl.
  { assert (Hm : P6Mode p <> Mode6DHCP).
    { intros Hm. destruct HBE as [(_&_&_&_&_&_&_&_&H9&_) _]. destruct (H9 Hm) as (_&_&_&_&G). congruence. }
    eapply wp6_mono; [by apply finishSLAACDAD_BE|]. cbv beta; intros _ k2 e2 H2. by apply BE_Inv6. }
  apply wp6_bind, wp6_cancel. cbv beta. apply lastAnswer_ok; [|done|intros Hs; apply (Hpend Hs)].
  apply (Calm_off p k e Timer6DAD); [done|]. by split_and!; [apply HBE..|].
Qed.

Lemma takeDADResult_ok a dup k e : Inv6 p k e -> nstate k = State6DAD ->
  wp (takeDADResult now rnd a dup) (fun _ => Inv6 p) k (hears6 (Ev6DADResult a dup) e).
Proof.
  intros HI Hst. unfold takeDADResult. w6. pose proof (removeFirst_spec (ndadWait k) a) as Hr.
  destruct (removeFirst (ndadWait k) a) as [wait|] eqn:Er; [|w6; apply stale_ok; auto].
  set (bad := if dup then ndadBad k ++ [a] else ndadBad k). set (e' := hears6 (Ev6DADResult a dup) e).
  set (k' := k <| ndadWait := wait |> <| ndadBad := bad |>).
  destruct HI as (HB & HE & HD & Hd).
  assert (HBE : BE p k' e'). { destruct (BE_answered k e a dup (conj HB HE)) as [H1 H2]. split; [same H1|same H2]. }
  assert (Hpend : stateful p -> nmsgType k' <> MsgDecline6 /\ pending_ok k' e').
  { intros Hs. destruct (Hd Hs) as (_ & G2 & _). destruct G2 as [G2 Hp]; [done| |]; [intros E; rewrite E in Hr; destruct Hr as [Hr _]; by apply elem_of_nil in Hr|]. split; [done|].
    apply pending_answered; [|done..]. destruct HB as (_&_&_&_&_&_&_&_&_&_&H11&_). apply (H11 Hs). }
  assert (HD' : P6Mode p = Mode6DHCP -> wait <> [] -> Drv k' e').
  { intros Hm Hne. destruct (Drv_answered k e a dup (HD Hm)) as [Hf|Hf]; [by left|right]. revert Hf. unfold driven6.
    change (nstate k') with (nstate k). change (nmsgType k') with (nmsgType k). rewrite Hst. cbn [exchange_of].
    intros [Hf|[_ Hf]]; [by left|by right]. }
  pose proof (nextAnswer_ok k' e' wait HBE Hst eq_refl HD' Hpend) as Hk.
  w6. apply wp6_when; intros ->; [w6; exact Hk|]. w6.
  assert (k <| ndadWait := wait |> = k') as -> by (unfold k', bad; by destruct k). exact Hk.
Qed.
End bound.
