(* ===== verification/Machine6Ends.v ===== *)
(** * The DHCPv6 machine: ends

    Halting, giving the lease back, the end of a lifetime, the return to the
    bound state and retransmissions keep the invariant. *)

From S2P Require Import Prelude NetAddr Options Codec Forcerenew Arp Backoff Kinds Lease Dhcp6 Rkap Backoff6 Icmpv6 Lease6 Slaac Params6 Router6 Outward Core6 Machine6 Machine6Steps Machine6Spec Machine6Logic Machine6Msgs Machine6Inv Machine6Slaac Machine6Bound.

Section ends.
Context (p : Params6) (Hcfg : config_ok p) (now : Instant) (rnd : Z).
Local Abbreviation wp := (wp6 p).

(** ** Halting *)

(** The table of formed addresses is emptied. *)
Lemma Base_emptied k e t : Base p k e -> entries t = [] -> dadCount t = ∅ -> Base p (k <| nslaac := t |>) e.
Proof.
  intros (H1&H2&H3&H4&H5&H6&H7&H8&H9&H10&H11&H12&H13) Ee Ed. base_split; try done.
  - unfold table_ok, dadOf. cbn. rewrite Ee, Ed. split; [cbn; unfold MaxSLAACAddresses; lia|]. split; [constructor|].
    split; [constructor|]. intros q. rewrite lookup_empty. cbn. unfold IDGenRetries. lia.
  - intros Hm. destruct (H9 Hm) as (G1 & G). by split.
Qed.

Lemma Base_armed k e f : f Timer6Retransmit = false -> Base p k e -> Base p k (e <| armed6 := f |>).
Proof. intros Hf. apply Base_env; [done..|]. intros H. change (f Timer6Retransmit = true) in H. by rewrite Hf in H. Qed.

Lemma halted_ok k k' e f : Base p k e -> nhaveLse k = false -> f Timer6Retransmit = false ->
  alikeC (k <| nslaac := (table_zero <| counts := counts (nslaac k) |>) |> <| ndeferredPrefixes := [] |> <| npending := lease6_zero |>
            <| ndadWait := [] |> <| nmsgType := 0 |>) k' ->
  nstate k' = State6Stopped -> Inv6' p k' (e <| armed6 := f |>).
Proof.
  intros HB Hh Hf Ha Hs. assert (Ht : nmsgType k' = 0) by apply Ha. apply Calm_Inv6'; [|by rewrite Hs|].
  - eapply Calm_alike; [exact Ha|]. split_and!; [|intros H; cbn in H; by rewrite Hh in H|done].
    assert (H : Base p (k <| nslaac := (table_zero <| counts := counts (nslaac k) |>) |> <| ndeferredPrefixes := [] |>
      <| npending := lease6_zero |> <| nmsgType := 0 |>) (e <| armed6 := f |>)).
    { apply Base_idle; [exact Hf|]. apply Base_pend; [|done..]. apply Base_deferred; [|constructor].
      apply Base_emptied; [by apply Base_armed|done..]. }
    same H.
  - intros _. right. unfold driven6. by rewrite Hs, Ht.
Qed.

Lemma halt_ok r k e : BE p k e -> wp (halt r) (fun _ => Inv6' p) k e.
Proof.
  intros [HB HE]. unfold halt. apply wp6_bind, wp6_get, wp6_bind.
  assert (Hend : forall c k e, Base p k e -> nhaveLse k = false -> c = counts (nslaac k) ->
    wp (nslaac ::= (table_zero <| counts := c |>) ;; nslaacPhases ::= ∅ ;; ndeferredPrefixes ::= [] ;;
        nautoDecided ::= false ;; ndhcpCommitted ::= false ;; nwantConfig ::= false ;; naskedConfig ::= false ;;
        nresumeRebind ::= false ;; nrebindOwed ::= false ;; dropPending ;; nmsgType ::= 0 ;; ndeclining ::= [] ;;
        ndecliningTA ::= [] ;; nafterDecline ::= None ;; nstate ::= State6Stopped ;; cancelAll6) (fun _ => Inv6' p) k e).
  { clear. intros c k e HB Hh ->. do 9 (apply wp6_bind, wp6_modify; cbv beta). apply wp6_bind, wp6_dropPending. cbv beta.
    do 5 (apply wp6_bind, wp6_modify; cbv beta). apply wp6_cancelAll. intros f Hf.
    apply (halted_ok k); [exact HB|exact Hh|apply Hf|al|lazy [set_fld nstate]; reflexivity]. }
  apply wp6_when; intros Hh; [|by apply Hend]. apply wp6_loseLease; [done|by rewrite Hh|]. intros _.
  apply Hend; [by apply Base_lose|reflexivity..].
Qed.

(** ** Giving the lease back *)

Lemma releaseSend_ok k e : Calm p k e -> nstate k = State6Stopped -> wp (startExchange now rnd MsgRelease6) (fun _ => Inv6' p) k e.
Proof.
  intros HC Hs. unfold startExchange. apply wp6_startExchange; [mem|apply HC|].
  change (MsgRelease6 =? MsgSolicit) with false. cbv beta iota. intros k2 x e2 He2 Hx Hal.
  assert (HI : Inv6' p (exchanged MsgRelease6 x (nadverts k) k) e2).
  { destruct HC as (HB & HE & HD). apply Calm_Inv6'; [split_and!| |].
    - apply (exchanged_Base p k e); [mem|done|done| |exact HB]. intros Ht. apply HB. exact Ht.
    - assert (H : expiry_armed k e2) by (by eapply expiry_sent). same H.
    - exact HD.
    - unfold exchanged. cbn. by rewrite Hs.
    - intros _. destruct (sent_Drv e e2 He2) as [|Ha]; [by left|]. right. unfold driven6, exchanged. cbn. rewrite Hs. cbn. by intros _. }
  destruct HI as [HI Hn]. split; [by eapply Inv6_alike|]. destruct Hal as (_ & -> & _). exact Hn.
Qed.

Lemma releaseDelegated_ok k e : Calm p k e -> nstate k = State6Stopped -> nmsgType k <> MsgRelease6 ->
  wp (releaseDelegated now rnd) (fun _ => Inv6' p) k e.
Proof.
  intros HC Hs Ht. unfold releaseDelegated. w6. destruct (_ =? _)%nat.
  - w6. apply Calm_Inv6'; [done|by rewrite Hs|]. intros _. right. unfold driven6. rewrite Hs. cbn. by intros ?.
  - w6. apply releaseSend_ok; [same HC|exact Hs].
Qed.

Lemma releaseDone_ok k e : Calm p k e -> nstate k = State6Stopped -> wp (releaseDone now rnd) (fun _ => Inv6' p) k e.
Proof.
  intros HC Hs. unfold releaseDone, endExchange. w6. assert (HC1 : Calm p (k <| nmsgType := 0 |>) (timer_off Timer6Retransmit e)) by (apply Calm_idle; [reflexivity|by apply Calm_off]).
  apply releaseDelegated_ok; [same HC1|exact Hs|done].
Qed.

(** In the states that release a lease, no Release is in flight. *)
Lemma release_ok k e : Calm p k e -> (P6Mode p = Mode6DHCP -> faulted e = true \/ nmsgType k <> MsgRelease6) ->
  wp (release now rnd) (fun _ => Inv6' p) k e.
Proof.
  intros HC Ht. unfold release. w6. destruct (nhaveLse k) eqn:Hh; cbn [negb].
  2:{ w6. by apply halt_ok, Calm_BE. }
  apply wp6_bind, wp6_modify, wp6_bind.
  assert (HC0 : Calm p (k <| nserver := l6ServerDUID (nlease k) |>) e) by same HC.
  apply wp6_loseLease; [apply HC0|by cbn; rewrite Hh|]. intros _.
  apply Calm_lose in HC0. w6.
  set (e0 := e <| held := None |>) in *.
  assert (HC1 : Calm p (k <| nserver := l6ServerDUID (nlease k) |> <| nhaveLse := false |> <| nlease := lease6_zero |>)
    (timer_off Timer6Expire (timer_off Timer6Rebind (timer_off Timer6Renew e0)))).
  { destruct HC0 as (HB & HE & HD). split_and!; [by do 3 apply Base_off|by intros ?|done]. }
  set (e1 := timer_off Timer6Expire (timer_off Timer6Rebind (timer_off Timer6Renew e0))) in *.
  assert (F3 : faulted e1 = faulted e) by reflexivity. destruct (_ =? _)%nat.
  - w6. apply Calm_Inv6'; [|done|].
    + assert (HC2 : Calm p (k <| nserver := l6ServerDUID (nlease k) |> <| nhaveLse := false |> <| nlease := lease6_zero |>) (e1 <| armed6 := f |>)).
      { destruct HC1 as (HB & HE & HD). split_and!; [apply Base_armed; [apply H|done]|by intros ?|done]. }
      same HC2.
    + intros Hm. destruct (Ht Hm) as [Hf|Hn]; [by left|]. right. unfold driven6. cbn. by intros ?.
  - apply releaseSend_ok; [same HC1|reflexivity].
Qed.

(** ** Retransmissions *)

Lemma retransmit_ok ex (Q : unit -> Core6 -> Env6 -> Prop) k e : client_type (nmsgType k) -> Base p k e ->
  (forall k' e', sent e e' -> alike k k' -> Q tt k' e') -> (forall f, ex = Some f -> wp f Q k e) ->
  wp (retransmit now rnd ex) Q k e.
Proof.
  intros Ht HB HQ Hx. unfold retransmit. apply wp6_bind, wp6_get. cbv zeta.
  assert (Ha : wp (nrt ::= NextRT (nsched k) (nrt k) rnd ;; transmit now) Q k e).
  { w6. apply wp6_transmit; [exact Ht|apply HB|apply HB|]. intros nm n b1 b2 e' He'. apply HQ; [done|al]. }
  destruct (Exhausted6 _ _ _); [|exact Ha]. destruct ex as [f|]; [by apply Hx|]. apply wp6_bind, wp6_journal. exact Ha.
Qed.

Lemma Drv_resend k e e' : Drv k e -> sent (timer_off Timer6Retransmit e) e' -> Drv k e'.
Proof.
  intros [Hf|Hd] [->| ->]; [by left|by left|by left|]. right. revert Hd. unfold driven6.
  assert (Ha : forall t, t <> Timer6Retransmit ->
    armed6 (timer_set Timer6Retransmit (timer_off Timer6Retransmit e)) t = armed6 e t).
  { intros t Ht. unfold timer_set, timer_off. cbn. by rewrite !arm6_ne. }
  assert (Hr : armed6 (timer_set Timer6Retransmit (timer_off Timer6Retransmit e)) Timer6Retransmit = true)
    by (unfold timer_set; cbn; by rewrite arm6_eq).
  rewrite Hr. destruct (exchange_of (nstate k)); [by intros (? & _ & ?)|]. rewrite !Ha by done. destruct (nstate k); try done.
  - intros [?|[? _]]; auto.
  - intros [[? _]|?]; auto.
Qed.

Lemma Inv6_resend k k' e e' : Inv6 p k e -> client_type (nmsgType k) -> sent (timer_off Timer6Retransmit e) e' -> alike k k' -> Inv6 p k' e'.
Proof.
  intros (HB & HE & HD & Hd) Ht Hs Ha. eapply Inv6_alike; [exact Ha|]. split_and!.
  - eapply Base_sent; [exact Ht|exact Hs|by apply Base_off].
  - eapply expiry_sent; [exact Hs|]. by apply (expiry_env k e).
  - intros Hm. by eapply Drv_resend; [apply HD|].
  - intros Hst. specialize (Hd Hst). by destruct Hs as [->| ->].
Qed.

(** The timer that fires, where something takes its place if the exchange is
    over. *)
Lemma fired_resend ex k e : Inv6 p k e -> client_type (nmsgType k) ->
  (forall f, ex = Some f -> wp f (fun _ => Inv6 p) k (timer_off Timer6Retransmit e)) ->
  wp (retransmit now rnd ex) (fun _ => Inv6 p) k (timer_off Timer6Retransmit e).
Proof.
  intros HI Ht Hx. apply retransmit_ok; [done|apply Base_off, HI| |done].
  intros k' e' Hs Ha. by eapply Inv6_resend.
Qed.

(** ** Back in the bound state *)

Lemma resumeBound_ok k e : Calm p k e -> wp (resumeBound now rnd) (fun _ => Inv6' p) k e.
Proof.
  intros HC. unfold resumeBound. apply wp6_bind, wp6_modify, wp6_bind, wp6_cancel, wp6_bind, wp6_dropPending, wp6_bind, wp6_modify. cbv beta.
  assert (HB : Base p (k <| nmsgType := 0 |> <| npending := lease6_zero |>) (timer_off Timer6Retransmit e)).
  { apply Base_pend; [|done..]. apply Base_idle; [reflexivity|]. apply Base_off, HC. }
  apply rearm_ok; [same HB|done|]. intros e' HC'. eapply wp6_mono; [apply owed_ok; [exact HC'|reflexivity..]|].
  by intros _ k2 e2 [H _].
Qed.

(** ** The end of a lifetime *)

Lemma withoutEnded_facts l : l6SLAAC (withoutEnded l now).1 = l6SLAAC l /\
  (l6TempAddrs l = [] -> l6TempAddrs (withoutEnded l now).1 = []) /\
  (forall a, a ∈ laddrs (withoutEnded l now).1 -> a ∈ laddrs l).
Proof.
  unfold withoutEnded. destruct (keepLoop_spec a6Valid (l6Start l) now (l6Addrs l) 0) as (k1 & -> & _).
  destruct (keepLoop_spec a6Valid (l6Start l) now (l6TempAddrs l) (0 + k1)) as (k2 & -> & _).
  destruct (keepLoop_spec p6Valid (l6Start l) now (l6Prefixes l) (0 + k1 + k2)) as (k3 & -> & _).
  cbn. split; [done|]. split; [by intros ->|]. intros a. unfold laddrs. cbn. rewrite !map_app, !elem_of_app.
  intros [H|H]; [left|right]; apply list_elem_of_fmap in H as (x & -> & Hx); apply list_elem_of_filter in Hx as [_ Hx];
    apply list_elem_of_fmap; eauto.
Qed.

Lemma canonPD_facts l : l6SLAAC (canonPD l) = l6SLAAC l /\ l6TempAddrs (canonPD l) = l6TempAddrs l /\ laddrs (canonPD l) = laddrs l.
Proof. unfold canonPD. by repeat case_match. Qed.

(** Timers nothing but the lease's end reads. *)
Lemma Drv_retimed k e e' ts : (forall t, t ∈ ts -> t ∉ [Timer6Delay; Timer6Retransmit; Timer6DAD]) -> retimed ts e e' -> Drv k e -> Drv k e'.
Proof.
  intros Ht (_&_&_&Ef&Ha). assert (Hn : forall t, t ∈ [Timer6Delay; Timer6Retransmit; Timer6DAD] -> armed6 e' t = armed6 e t).
  { intros t Hin. apply Ha. intros H. by apply (Ht t). }
  unfold Drv, driven6. rewrite Ef, !Hn by set_solver. done.
Qed.

(** [Inv6] but for the expiry timer. *)
Definition Inv6x (k : Core6) (e : Env6) : Prop := Base p k e /\ (P6Mode p = Mode6DHCP -> Drv k e) /\ (stateful p -> Dad k e).

Lemma Inv6_x k e : Inv6 p k e -> Inv6x k e.
Proof. by intros (HB & _ & HD & Hd). Qed.
Lemma x_Inv6 k e : Inv6x k e -> expiry_armed k e -> Inv6 p k e.
Proof. by intros (HB & HD & Hd) HE. Qed.

Lemma x_retimed k e e' ts : (forall t, t ∈ ts -> ~ base_timer p t /\ t <> Timer6DAD) -> retimed ts e e' -> Inv6x k e -> Inv6x k e'.
Proof.
  intros Ht Hr (HB & HD & Hd). split_and!.
  - eapply Base_retimed; [intros t Hin; by apply Ht|exact Hr|exact HB].
  - intros Hm. eapply Drv_retimed; [|exact Hr|by apply HD]. intros t Hin. destruct (Ht t Hin) as [Hb Hn].
    rewrite !elem_of_cons, elem_of_nil. intros [->|[->|[->|[]]]]; [by apply Hb; left|by apply Hb; right; left|done].
  - intros Hs. destruct Hr as (_&Ea&Ec&_). specialize (Hd Hs). unfold Dad, pending_ok in *. by rewrite Ea, Ec.
Qed.

Lemma Inv6_retimed k e e' ts : (forall t, t ∈ ts -> ~ base_timer p t /\ t <> Timer6DAD) -> retimed ts e e' -> expiry_armed k e' ->
  Inv6 p k e -> Inv6 p k e'.
Proof. intros Ht Hr HE HI. apply x_Inv6; [|done]. eapply x_retimed; [done..|by apply Inv6_x]. Qed.

Lemma expire_timers t : t ∈ [Timer6Expire] -> ~ base_timer p t /\ t <> Timer6DAD.
Proof. intros ->%list_elem_of_singleton. split; [by apply delay_timers|done]. Qed.

Lemma expiry_set_retimed k e e' : expiry_set k e e' -> retimed [Timer6Expire] e e'.
Proof.
  intros [[->| ->] _]; [apply retimed_off|apply retimed_set]; [by left|apply retimed_refl|by left|apply retimed_refl].
Qed.

(** The fired timer, armed again or not. *)
Lemma expired_again k e e' : expiry_set k (timer_off Timer6Expire e) e' -> retimed [Timer6Expire] e e'.
Proof.
  intros H. apply expiry_set_retimed in H as (H1&H2&H3&H4&H5). split_and!; try done.
  intros t Ht. destruct (H5 t Ht) as [-> ->]. split; [|done]. unfold timer_off. cbn. rewrite arm6_ne; [done|]. intros ->. apply Ht. by left.
Qed.

Lemma x_keep k e l : Inv6x k e -> nhaveLse k = true -> l6SLAAC l = l6SLAAC (nlease k) ->
  (l6TempAddrs (nlease k) = [] -> l6TempAddrs l = []) -> (forall a, a ∈ laddrs l -> a ∈ laddrs (nlease k)) ->
  Inv6x (k <| nlease := l |>) (e <| held := Some l |>).
Proof.
  intros (HB & HD & Hd) Hh Hs Ht Ha. split_and!; [|exact HD|exact Hd].
  apply Base_keep; try done. intros Hn. apply Ht. pose proof HB as (_&_&_&_&_&_&_&_&_&H10&_). by apply H10.
Qed.

(** What is left of the lease is announced. *)
Lemma keepAnnounced_ok l n (Q : bool -> Core6 -> Env6 -> Prop) k e : Inv6 p k e -> nhaveLse k = true -> l6SLAAC l = l6SLAAC (nlease k) ->
  (l6TempAddrs (nlease k) = [] -> l6TempAddrs l = []) -> (forall a, a ∈ laddrs l -> a ∈ laddrs (nlease k)) ->
  (forall k' e', Inv6 p k' e' -> Q true k' e') ->
  wp (journal6 n ;; nlease ::= l ;; armExpiry now ;; stamp6 (Act6LeaseChanged l) ;; mret true) Q k (timer_off Timer6Expire e).
Proof.
  intros HI Hh Hs Ht Ha HQ. w6. apply wp6_armExpiry. intros e' He'. pose proof (expired_again _ e e' He') as Hr.
  assert (HX : Inv6x k e') by (eapply x_retimed; [apply expire_timers|exact Hr|by apply Inv6_x]).
  pose proof HX as ((_&Hheld&_&_&_&_&_&_&_&_&H11&_)&_). rewrite Hh in Hheld. w6.
  apply wp6_stamp; [split; [by rewrite Hheld|]|].
  - intros Hst a Hin. by apply (H11 Hst), Ha.
  - w6. apply HQ, x_Inv6; [by apply x_keep|]. exact (proj2 He').
Qed.

Lemma dropEnded_ok (Q : bool -> Core6 -> Env6 -> Prop) k e : Inv6 p k e -> nhaveLse k = true ->
  Q false k (timer_off Timer6Expire e) -> (forall k' e', Inv6 p k' e' -> Q true k' e') ->
  wp (dropEnded now) Q k (timer_off Timer6Expire e).
Proof.
  intros HI Hh HQ0 HQ1. unfold dropEnded. w6. destruct (_ || _); [by w6|].
  destruct (withoutEnded_facts (nlease k)) as (W1 & W2 & W3). destruct (withoutEnded (nlease k) now) as [l n]. cbn [fst] in *.
  destruct (canonPD_facts l) as (C1 & C2 & C3). rewrite <- C1 in W1. rewrite <- C2 in W2. rewrite <- C3 in W3. clear C1 C2 C3.
  destruct (n =? 0).
  { w6. apply wp6_armExpiry. intros e' He'. w6. apply HQ1.
    apply (Inv6_retimed k e e' [Timer6Expire]); [apply expire_timers|by apply (expired_again k)|apply He'|done]. }
  apply wp6_bind, wp6_when; intros _; [apply wp6_modify; cbv beta|]; (eapply keepAnnounced_ok; [|exact Hh|exact W1|exact W2|exact W3|exact HQ1]); [|exact HI].
  same HI.
Qed.

Lemma expireLease_ok k e : Inv6 p k e -> wp (expireLease now rnd) (fun _ => Inv6 p) k (timer_off Timer6Expire e).
Proof.
  intros HI. unfold expireLease. w6.
  assert (Hoff : forall f, retimed [Timer6Expire] e f -> retimed [Timer6Expire] e (timer_off Timer6Expire f)) by (intros f; apply retimed_off; by left).
  assert (Hr : retimed [Timer6Expire] e (timer_off Timer6Expire (timer_off Timer6Expire e))) by apply Hoff, Hoff, retimed_refl.
  destruct (nhaveLse k) eqn:Hh; cbn [negb].
  2:{ w6. eapply (Inv6_retimed k e); [apply expire_timers|exact Hr| |exact HI]. intros H. by rewrite Hh in H. }
  apply wp6_bind, dropEnded_ok; [done..| |]; [|by intros k' e' H; w6]. w6.
  assert (HX : Inv6x k (timer_off Timer6Expire (timer_off Timer6Expire e))).
  { eapply x_retimed; [apply expire_timers|exact Hr|by apply Inv6_x]. }
  match goal with |- wp _ _ _ ?e' => change e' with (timer_off Timer6Expire (timer_off Timer6Expire e)) end.
  generalize dependent (timer_off Timer6Expire (timer_off Timer6Expire e)). intros e1 _ HX.
  apply wp6_loseLease; [exact (proj1 HX)|intros H; by rewrite Hh in H|]. intros _. destruct HX as (HB & HD & Hd).
  apply wp6_when; intros Hs.
  - apply restartDiscovery_ok; [exact Hcfg|]. split_and!; [by apply Base_lose|by intros ?|]. intros Hst. apply (Hd Hst).
    by destruct (nstate k).
  - split_and!; [by apply Base_lose|by intros ?|intros Hm; exact (HD Hm)|].
    exact Hd.
Qed.
End ends.
