(* ===== verification/Machine6Reply.v ===== *)
(** * The DHCPv6 machine: the messages a server sends

    Admission, the Advertises, the Replies to a Request, a Renew, a Rebind, a
    Solicit with Rapid Commit, a Confirm and an Information-request keep the
    invariant. *)

From S2P Require Import Prelude NetAddr Options Codec Forcerenew Arp Backoff Kinds Lease Dhcp6 Rkap Backoff6 Icmpv6 Lease6 Slaac Params6 Router6 Outward Core6 Machine6 Machine6Steps Machine6Spec Machine6Logic Machine6Msgs Machine6Inv Machine6Slaac Machine6Bound Machine6Ends.

(** ** Methods that change nothing the invariant reads *)

Lemma alike_refl k : alike k k.
Proof. by split_and!. Qed.

Lemma alike_trans k1 k2 k3 : alike k1 k2 -> alike k2 k3 -> alike k1 k3.
Proof.
  intros ((A1&A2&A3&A4&A5&A6&A7&A8&A9&A10&A11&A12)&B1&B2&B3&B4&B5) ((C1&C2&C3&C4&C5&C6&C7&C8&C9&C10&C11&C12)&D1&D2&D3&D4&D5).
  unfold alike, alike0. split_and!; by etrans.
Qed.

Section still.
Context (p : Params6).

(** [c] counts and journals, no more. *)
Definition still {A} (c : M6 A) : Prop := forall (Q : A -> Core6 -> Env6 -> Prop) k e,
  (forall a k', alike k k' -> Q a k' e) -> wp6 p c Q k e.

Lemma still_ret {A} (a : A) : still (mret a).
Proof. intros Q k e H. apply wp6_ret, H, alike_refl. Qed.

Lemma still_bind {A B} (c : M6 A) (f : A -> M6 B) : still c -> (forall a, still (f a)) -> still (c ≫= f).
Proof.
  intros Hc Hf Q k e H. apply wp6_bind, Hc. intros a k' Ha. apply Hf. intros b k2 Hb. apply H. by eapply alike_trans.
Qed.

Lemma still_get {A} (f : Core6 -> M6 A) : (forall m, still (f m)) -> still (get6 ≫= f).
Proof. intros Hf Q k e H. apply wp6_bind, wp6_get, Hf, H. Qed.

Lemma still_modify f : (forall k, alike k (f k)) -> still (modify6 f).
Proof. intros Hf Q k e H. apply wp6_modify, H, Hf. Qed.

Lemma still_journal n : still (journal6 n).
Proof. intros Q k e H. apply wp6_journal, H, alike_refl. Qed.

Lemma still_journals n : still (journals n).
Proof. intros Q k e H. apply wp6_journals, H, alike_refl. Qed.

Lemma still_forM {A} (l : list A) (f : A -> M6 unit) : (forall x, still (f x)) -> still (forM6 l f).
Proof. intros Hf. induction l as [|x l IH]; [apply still_ret|]. cbn [forM6]. by apply still_bind. Qed.

Lemma still_when b c : still c -> still (when6 b c).
Proof. intros Hc. destruct b; [done|apply still_ret]. Qed.

Lemma still_nak st n : still (nak6 st n).
Proof. intros Q k e H. apply wp6_nak, H, alike_refl. Qed.

Lemma still_liftok {A} (x : wire A) : (exists a, x = Ok a) -> still (liftok6 x).
Proof. intros [a E] Q k e H. eapply wp6_liftok; [exact E|]. apply H, alike_refl. Qed.

Lemma still_liftw {A} (x : wire A) : returns x -> still (liftw6 x).
Proof. intros Hx Q k e H. apply wp6_liftw; [done|..]; intros; apply H, alike_refl. Qed.
End still.

(** Taken apart by its shape. *)
Ltac still_step :=
  lazymatch goal with
  | |- still _ (mret _) => apply still_ret
  | |- still _ (get6 ≫= _) => apply still_get; intros ?; cbv zeta
  | |- still _ (_ ≫= _) => apply still_bind; [|intros ?; cbv zeta]
  | |- still _ (modify6 _) => apply still_modify; intros ?; al
  | |- still _ (journal6 _) => apply still_journal
  | |- still _ (journals _) => apply still_journals
  | |- still _ (nak6 _ _) => apply still_nak
  | |- still _ (when6 _ _) => apply still_when
  | |- still _ (forM6 _ _) => apply still_forM; intros ?
  | |- still _ (if ?b then _ else _) => destruct b
  | |- still _ (match ?x with _ => _ end) => destruct x
  | |- forall _, still _ _ => intros ?; cbv zeta
  end.
Ltac stills := repeat still_step.

Section reply.
Context (p : Params6) (Hcfg : config_ok p) (now : Instant) (rnd : Z).
Local Abbreviation wp := (wp6 p).

Lemma countRapidDiscard_still msg : still p (countRapidDiscard msg).
Proof. unfold countRapidDiscard. stills. Qed.

Lemma ignoreTemporary_still o : still p (ignoreTemporary o).
Proof. unfold ignoreTemporary. stills. Qed.
Lemma ignorePrefixes_still o : still p (ignorePrefixes o).
Proof. unfold ignorePrefixes. stills. Qed.
Lemma countPrefixes_still res n b : still p (countPrefixes res n b).
Proof. unfold countPrefixes. stills. Qed.
Lemma readPrefixes_still o b : still p (readPrefixes o b).
Proof.
  unfold readPrefixes. apply still_get. intros m. apply still_bind; [apply still_liftok, readIAPD_ok|intros r].
  apply still_bind; [apply countPrefixes_still|intros _; apply still_ret].
Qed.
Lemma readTemporary_still o l b : still p (readTemporary o l b).
Proof.
  unfold readTemporary. apply still_get. intros m. apply still_bind; [apply still_liftok, readIATA_ok|intros [res notes]]. stills.
Qed.
Lemma paceOmission_still b l : still p (paceOmission now rnd b l).
Proof. unfold paceOmission. stills. Qed.
Lemma rejectRapidHint_still : still p rejectRapidHint.
Proof. unfold rejectRapidHint. stills. Qed.
Lemma refuseRapid_still w : still p (refuseRapid6 w).
Proof. unfold refuseRapid6. stills. Qed.
Lemma refuseReconfigure_still w n : still p (refuseReconfigure w n).
Proof. unfold refuseReconfigure. stills. Qed.
Lemma refreshTime_still v b : still p (refreshTime v b).
Proof. unfold refreshTime. stills. Qed.

Lemma noteReconfigureKey_still msg : still p (noteReconfigureKey msg).
Proof.
  unfold noteReconfigureKey. destruct (OptionsV6_Auth (MOptionsV6 msg)) as [r|] eqn:E; [|apply still_ret].
  apply still_bind; [apply still_liftw; by eapply Auth_returns|]. intros [a|w]; [|apply still_journal].
  apply still_bind; [apply still_liftw, RKAP_returns|stills].
Qed.

(** Admission turns a message down, or leaves everything as it is. *)
Lemma admit_ok msg (Q : option MessageV6 -> Core6 -> Env6 -> Prop) k e :
  (forall m, msg = Some m -> Q (Some m) k e) -> (forall k', alike k k' -> Q None k' e) -> wp (admit6 msg) Q k e.
Proof.
  intros H1 H2. unfold admit6. w6. destruct (admitWhy k msg) as [m|why] eqn:E.
  - w6. apply H1. unfold admitWhy in E. destruct msg as [m'|]; [|done]. repeat (case_match; try done). by injection E as ->.
  - w6. apply countRapidDiscard_still. intros [] k' Ha. w6. by apply H2.
Qed.

Lemma applyMaxRT_ok msg (Q : unit -> Core6 -> Env6 -> Prop) k e :
  (forall q, only_maxima (nparams k) q -> Q tt (k <| nparams := q |>) e) -> wp (applyMaxRT msg) Q k e.
Proof.
  intros HQ. unfold applyMaxRT. w6.
  assert (Hs : let '(q, _, _, r) := ApplyOptions (nparams k) (MOptionsV6 msg) in only_maxima (nparams k) q /\ returns r).
  { unfold ApplyOptions. apply applyLoop_spec. }
  destruct (ApplyOptions (nparams k) (MOptionsV6 msg)) as [[[q ap] ig] r]. destruct Hs as [Hq Hr].
  w6. apply wp6_liftw; [done| |]; intros x _; w6; [apply wp6_forM_same; [intros n Q' H; by apply wp6_journal|]|]; by apply HQ.
Qed.

Lemma Inv6_params k e q : Inv6 p k e -> only_maxima (nparams k) q -> Inv6 p (k <| nparams := q |>) e.
Proof. intros (HB & HE & HD & Hd) Hq. split_and!; [by apply Base_params|exact HE|exact HD|exact Hd]. Qed.

(** ** Selecting *)

Lemma bestAdvert_in m l : forall best a, bestAdvert m l best = Some a -> a ∈ l \/ best = Some a.
Proof.
  induction l as [|x l IH]; intros best a; cbn [bestAdvert]; [auto|]. intros H.
  destruct (alreadyTried m (adServer x)); [destruct (IH _ _ H); [left; by right|auto]|].
  destruct best as [b|]; [destruct (_ || _)|]; destruct (IH _ _ H) as [Hi|Hi];
    try (left; by right); try (by right); injection Hi as ->; left; by left.
Qed.

Lemma bestAdvert_some m l best : ntried m = [] -> l <> [] \/ best <> None -> bestAdvert m l best <> None.
Proof.
  intros Ht. revert best. induction l as [|x l IH]; intros best H; cbn [bestAdvert]; [by destruct H|].
  unfold alreadyTried. rewrite Ht. cbn [existsb]. destruct best as [b|]; [destruct (_ || _)|]; apply IH; by right.
Qed.

(** A server is asked, or nothing is changed. *)
Lemma select_ok (Q : bool -> Core6 -> Env6 -> Prop) k e : Calm p k e ->
  (forall k' e', Inv6' p k' e' -> Q true k' e') -> (bestAdvert k (nadverts k) None = None -> Q false k e) ->
  wp (selectAndRequest now rnd) Q k e.
Proof.
  intros HC H1 H0. unfold selectAndRequest. w6. destruct (bestAdvert k (nadverts k) None) as [a|] eqn:E; [|by w6; apply H0].
  apply bestAdvert_in in E as [Hin|]; [|done].
  match goal with |- context [fun k0 => k0 <| npending := ?l' |>] => set (l := l');
    assert (Hl : l6SLAAC l = false /\ l6TempAddrs l = adTemp a) by done; clearbody l end. destruct Hl as [Hl1 Hl2].
  w6. eapply wp6_mono; [apply (exchange_ok p now rnd MsgRequest6 []); [mem|done|]|].
  - destruct HC as (HB & HE & HD).
    assert (HC1 : Calm p (k <| npending := l |>) e).
    { split_and!; [apply Base_pend; [done|done|]|same HE|done]. intros Ht. rewrite Hl2.
      pose proof HB as (_&_&_&_&_&_&_&_&_&H10&_). destruct (H10 Ht) as (_&_&Hf). rewrite Forall_forall in Hf. by apply Hf. }
    same HC1.
  - cbv beta. intros _ k' e' H. w6. by apply H1.
Qed.

Lemma select_Inv6 k e : Inv6' p k e -> wp (_ ← selectAndRequest now rnd; mret tt) (fun _ => Inv6 p) k e.
Proof.
  intros H. apply wp6_bind, select_ok; [by apply Inv6'_Calm|intros k' e' [H' _]; by w6|intros _; w6; apply H].
Qed.

Lemma keepAdvertise_ok msg res k e : Inv6' p k e -> wp (keepAdvertise now rnd msg res) (fun _ => Inv6 p) k e.
Proof.
  intros HI. unfold keepAdvertise. w6. set (o := MOptionsV6 msg).
  match goal with |- wp ?c _ _ _ => assert (Hpref : still p c) end.
  { destruct (Preference o) as [r|] eqn:Er; [|apply still_ret]. apply still_bind; [apply still_liftw; by eapply Preference_returns|].
    intros [v|w]; stills. }
  apply Hpref. clear Hpref. intros pref k1 A1. apply wp6_bind.
  assert (Htemp : forall (Q : list Addr6T -> Core6 -> Env6 -> Prop), (forall l k2, alike k k2 -> (P6Temporary p = false -> l = []) -> Q l k2 e) ->
    wp (if P6Temporary (nparams k) then readTemporary o (iaAddrsOf res) false else mret []) Q k1 e).
  { intros Q HQ. rewrite (temp_of p k e) by apply HI. destruct (P6Temporary p) eqn:Et.
    - apply readTemporary_still. intros l k2 A2. apply HQ; [by eapply alike_trans|done].
    - w6. by apply HQ. }
  apply Htemp. clear Htemp. intros temp k2 A2 Ht. apply wp6_bind.
  match goal with |- wp ?c _ _ _ => assert (Hpd : still p c) end.
  { destruct (0 <? _); [apply still_bind; [apply readPrefixes_still|stills]|apply still_bind; [apply ignorePrefixes_still|stills]]. }
  apply Hpd. clear Hpd. intros ps k3 A3. apply wp6_bind, wp6_modify, wp6_bind, wp6_journal, wp6_bind.
  destruct (serverFQDN_ok o) as (f & E). eapply wp6_liftok; [exact E|]. apply wp6_bind.
  apply wp6_when_journal. cbv beta.
  assert (A13 : alike k k3) by (by eapply alike_trans).
  set (ads := nadverts k ++ _).
  assert (H4 : Inv6' p (k3 <| nadverts := ads |>) e).
  { destruct HI as [HI Hn]. apply (Inv6_alike p k k3) in HI; [|exact A13]. destruct A13 as [(_&_&_&_&_&_&_&_&Ead&_) (Est&_)].
    destruct HI as (HB & HE & HD & Hd). split; [|cbn; by rewrite Est]. split_and!; [|same HE|exact HD|exact Hd].
    apply Base_adverts; [done|]. intros Hp. unfold ads. apply Forall_app. split; [|constructor; [|constructor]]; [|by apply Ht].
    rewrite <- Ead. pose proof HB as (_&_&_&_&_&_&_&_&_&H10&_). by apply H10. }
  clearbody ads. destruct (pref =? 255); [|destruct (nwindowDone k)].
  - apply wp6_bind, wp6_journal, wp6_bind, wp6_modify. cbv beta. apply select_Inv6. destruct H4 as [H4 H4']. split; [same H4|exact H4'].
  - apply wp6_bind, wp6_journal. cbv beta. by apply select_Inv6.
  - w6. apply H4.
Qed.

(** An alike machine, and other maxima, outside DAD. *)
Lemma Inv6'_alike k k' e : alike k k' -> Inv6' p k e -> Inv6' p k' e.
Proof. intros Ha [HI Hn]. split; [by eapply Inv6_alike|]. by destruct Ha as (_&->&_). Qed.
Lemma Inv6'_params k e q : Inv6' p k e -> only_maxima (nparams k) q -> Inv6' p (k <| nparams := q |>) e.
Proof. intros [HI Hn] Hq. split; [by apply Inv6_params|exact Hn]. Qed.

Lemma takeAdvertise_ok msg k e : Inv6' p k e -> wp (takeAdvertise now rnd msg) (fun _ => Inv6 p) k e.
Proof.
  intros HI. unfold takeAdvertise. apply wp6_bind, applyMaxRT_ok. intros q Hq. apply (Inv6'_params k e q HI) in Hq.
  revert Hq. generalize (k <| nparams := q |>). clear. intros k HI. cbv zeta.
  apply wp6_bind. destruct (Status_ok (MOptionsV6 msg)) as ([[st ok] err] & E). eapply wp6_liftok; [exact E|]. clear E.
  destruct err as [w|]; [w6; apply HI|]. destruct (negb _).
  { w6. apply wp6_when; intros _; [w6|]; apply HI. }
  apply wp6_bind, wp6_get, wp6_bind. destruct (readIA_ok (MOptionsV6 msg) (P6IAID (nparams k))) as ([res notes] & E).
  eapply wp6_liftok; [exact E|]. cbv beta zeta iota. apply wp6_bind, wp6_journals. cbv beta.
  destruct (negb _); [w6; apply HI|]. destruct (_ =? _)%nat; [w6; apply HI|]. by apply keepAdvertise_ok.
Qed.

(** ** A Reply to a Request, a Renew, a Rebind or a Solicit *)

(** A lease that may be held, once its addresses are checked. *)
Definition fit (l : Lease6) : Prop := (P6Mode p = Mode6DHCP -> l6SLAAC l = false) /\ (P6Temporary p = false -> l6TempAddrs l = []).

Lemma Calm_pend k e l : Calm p k e -> fit l -> Calm p (k <| npending := l |>) e.
Proof. intros (HB & HE & HD) [H1 H2]. split_and!; [by apply Base_pend|same HE|done]. Qed.

Lemma heldIAs_fit k e : Base p k e -> fit (heldIAs k).
Proof.
  intros HB. unfold heldIAs, fit. pose proof HB as (_&_&_&_&_&_&_&_&_&H10&_).
  destruct (nhaveLse k); [|by destruct (resumedRebind k)]. cbn. split; [done|]. intros Ht. by apply H10.
Qed.

Lemma requestAgain_ok msg ias n k e : Calm p k e -> wp (requestAgain now rnd msg ias n) (fun _ => Inv6' p) k e.
Proof.
  intros HC. unfold requestAgain. w6. match goal with |- context [heldIAs ?k'] => assert (Hf : fit (heldIAs k')) end.
  { apply (heldIAs_fit _ e). destruct HC as (HB&_). same HB. }
  match goal with |- context [heldIAs ?k'] => generalize dependent (heldIAs k') end. intros l Hf. w6.
  apply exchangeFor_ok; [mem|done|]. apply (Calm_pend k e l) in HC; [|done]. same HC.
Qed.

Lemma lost_ok r (Q : unit -> Core6 -> Env6 -> Prop) k e : Calm p k e -> (forall k' e', Calm p k' e' -> Q tt k' e') -> wp (loseLease r) Q k e.
Proof.
  intros HC HQ. apply wp6_loseLease; [apply HC|by intros _; apply HQ|]. intros _. apply HQ. by apply Calm_lose.
Qed.

Lemma alike_Calm k k' e : alike k k' -> Calm p k e -> Calm p k' e.
Proof. intros (Ha & _ & _ & Hw & _). by apply Calm_alike. Qed.

Lemma replyNotOnLink_ok st k e : Calm p k e -> wp (replyNotOnLink now rnd st) (fun _ => Inv6 p) k e.
Proof.
  intros HC. unfold replyNotOnLink. apply wp6_bind, wp6_get, wp6_bind. generalize (state6_eqb (nstate k) State6Selecting). intros b.
  assert (Hend : forall k e, Calm p k e -> wp (when6 b rejectRapidHint ;;
    journal6 (note "Reply says NotOnLink: restarting discovery (§18.2.10.1)" []) ;;
    nak6 (StCode st) (statusNote "the server refused the address for this link: %s" st) ;;
    restartDiscovery now rnd) (fun _ => Inv6 p) k e).
  { clear -Hcfg. intros k e HC. apply wp6_bind. apply (still_when p b _ rejectRapidHint_still). intros [] k1 A1. w6.
    apply restartDiscovery_ok; [exact Hcfg|]. by apply (alike_Calm k). }
  apply wp6_when; intros _; [|by apply Hend]. apply wp6_bind, wp6_journal, lost_ok; [done|]. intros k1 e1 H1. by apply Hend.
Qed.

Lemma noUsable_ok renewal ias st k e : Inv6' p k e -> wp (noUsable now rnd renewal ias st) (fun _ => Inv6 p) k e.
Proof.
  intros HI. unfold noUsable. apply wp6_bind, wp6_when_journal, wp6_bind.
  match goal with |- wp ?c _ _ _ => assert (Hs : still p c) by stills end. apply Hs. intros [] k1 A1. clear Hs.
  apply (Inv6'_alike k k1) in HI; [|done]. clear A1. w6. destruct (state6_eqb _ _); [w6; apply HI|].
  assert (Hend : forall (b : bool) k e, Inv6' p k e \/ b = false /\ Calm p k e -> wp (if b then
      journal6 (note "no usable address in the Reply: trying the next server that advertised (§18.2.10.1)" [])
    else (journal6 (note "no usable address in the Reply: restarting discovery (§18.2.10.1)" []) ;; restartDiscovery now rnd))
    (fun _ => Inv6 p) k e).
  { clear -Hcfg. intros b k e H. destruct b; w6; [by destruct H as [[H _]|[? _]]|]. apply restartDiscovery_ok; [exact Hcfg|].
    destruct H as [H|[_ H]]; [by apply Inv6'_Calm|done]. }
  apply wp6_bind. destruct renewal; cbn [negb]; [apply wp6_ret; apply (Hend false); by left|].
  apply wp6_bind, wp6_modify. assert (HC : Calm p (k1 <| ntried := ntried k1 ++ [nserver k1] |>) e) by (apply Inv6'_Calm in HI; same HI).
  apply select_ok; [done|intros k' e' H; apply (Hend true); by left|]. intros _. apply (Hend false). by right.
Qed.

(** What a Reply gives and what the machine holds: no address of the lease it
    leaves is unchecked. *)
Lemma notHeld_spec held l a : a ∈ map a6Addr l -> a ∈ notHeld held l \/ a ∈ map a6Addr held.
Proof.
  unfold notHeld. intros (x & -> & Hx)%list_elem_of_fmap.
  destruct (existsb (fun h => addr_eqb (a6Addr h) (a6Addr x)) held) eqn:E.
  - right. apply existsb_exists in E as (h & Hh%list_elem_of_In & Ea%addr_eqb_eq). rewrite <- Ea. by apply list_elem_of_fmap_2.
  - left. apply list_elem_of_fmap_2, list_elem_of_filter. by split.
Qed.

Lemma notHeld_fresh held l a : a ∈ notHeld held l -> a ∉ map a6Addr held.
Proof.
  unfold notHeld. intros (x & -> & [E Hx]%list_elem_of_filter)%list_elem_of_fmap (h & Eh & Hh)%list_elem_of_fmap.
  apply (not_true_iff_false _) in E. apply E, existsb_exists. exists h. split; [by apply list_elem_of_In|]. by apply addr_eqb_eq.
Qed.

(** Duplicate address detection of the addresses of a lease nobody checked. *)
Lemma startDAD_ok addrs k e : Base p k e -> expiry_armed k e -> addrs <> [] -> nmsgType k <> MsgDecline6 ->
  (stateful p -> (forall a, a ∈ addrs -> a ∉ laddrs (nlease k)) /\
     forall a, a ∈ laddrs (npending k) -> a ∈ addrs \/ a ∈ clear e) ->
  wp (startDAD addrs) (fun _ => Inv6 p) k e.
Proof.
  intros HB HE Hne Ht Ha. apply wp6_startDAD. destruct (asks_spec addrs e) as (E1 & E2 & E3 & E4 & E5 & E6). split_and!.
  - assert (H : Base p k (timer_set Timer6DAD (asks addrs e))).
    { apply Base_set; [by apply delay_timers|]. apply Base_asks; [done|]. intros Hs. by apply Ha. }
    same H.
  - assert (H : expiry_armed k (timer_set Timer6DAD (asks addrs e))).
    { apply (expiry_env k e); [|done]. unfold timer_set. cbn. by rewrite arm6_ne, E2. }
    same H.
  - intros _. right. unfold driven6. cbn. right. split; [done|]. by rewrite arm6_eq.
  - intros Hs. destruct (Ha Hs) as [Hf Hp]. split_and!; [by intros Hn|..].
    + intros _ _. split; [exact Ht|]. split; cbn; intros a Hin.
      * destruct (decide (a ∈ addrs)); [auto|]. left. apply E6. split; [|done]. by destruct (Hp a Hin).
      * left. apply E5. by left.
    + intros _ H. by destruct (Ht H).
Qed.

Lemma acceptLease_ok msg renewal l k e : Calm p k e -> fit l -> wp (acceptLease now rnd msg renewal l) (fun _ => Inv6 p) k e.
Proof.
  intros HC Hl. unfold acceptLease. w6. match goal with |- wp _ _ ?k' ?e' => set (k1 := k'); set (e1 := e') end.
  assert (HC1 : Calm p k1 e1).
  { assert (H : Calm p (k <| nmsgType := 0 |> <| npending := l |>) e1).
    { apply Calm_pend; [|done]. apply Calm_idle; [reflexivity|]. by apply Calm_off. }
    same H. }
  assert (F : npending k1 = l /\ nmsgType k1 = 0) by done. clearbody k1 e1. clear HC.
  apply noteReconfigureKey_still. intros [] k2 A2. apply (alike_Calm k1 k2) in HC1; [|done].
  assert (F2 : npending k2 = l /\ nmsgType k2 = 0) by (by destruct A2 as ((_&_&_&_&_&_&_&->&_&_&_&->)&_)).
  clear k1 F A2. destruct F2 as [Fp Ft]. destruct HC1 as (HB & HE & HD). destruct Hl as [Hl1 Hl2]. w6.
  pose proof HB as (_&_&_&_&_&_&_&_&_&H10&H11&_).
  assert (Hcov : stateful p -> forall a, a ∈ laddrs l -> a ∈ unchecked k2 l ++ freshTemp k2 l \/ a ∈ clear e1).
  { intros Hs a Ha. unfold laddrs in Ha. rewrite (Hl2 (proj2 Hs)), app_nil_r in Ha.
    destruct (notHeld_spec (l6Addrs (nlease k2)) (l6Addrs l) a Ha) as [H|H]; [left; apply elem_of_app; by left|right].
    apply (H11 Hs). unfold laddrs. rewrite map_app, elem_of_app. by left. }
  assert (Hfr : stateful p -> forall a, a ∈ unchecked k2 l ++ freshTemp k2 l -> a ∉ laddrs (nlease k2)).
  { intros Hs a Ha Hin. destruct (H10 (proj2 Hs)) as (E&_). unfold laddrs in Hin. rewrite E, app_nil_r in Hin.
    unfold freshTemp, notHeld in Ha. rewrite (Hl2 (proj2 Hs)), app_nil_r in Ha. by apply (notHeld_fresh (l6Addrs (nlease k2)) (l6Addrs l) a). }
  destruct (Nat.eqb_spec (length (unchecked k2 l ++ freshTemp k2 l)) 0) as [E|E].
  - apply nil_length_inv in E. rewrite E in Hcov. eapply wp6_mono; [apply enterBound_ok; [exact HB|exact HD|]|by intros _ k3 e3 [H _]].
    split; [done|]. split; [done|]. intros Hs a Ha. by destruct (Hcov Hs a Ha) as [?%elem_of_nil|].
  - apply startDAD_ok; [exact HB|exact HE|by intros E'; rewrite E' in E|by rewrite Ft|]. intros Hs. split; [by apply Hfr|].
    rewrite Fp. by apply Hcov.
Qed.

(** The addresses and the prefixes a Reply leaves. *)
Lemma replyAddresses_ok o renewal na zeroed l (Q : Lease6 -> Core6 -> Env6 -> Prop) k e : Base p k e -> fit l ->
  (forall l' k', fit l' -> alike k k' -> Q l' k' e) -> wp (replyAddresses now o renewal na zeroed l) Q k e.
Proof.
  intros HB Hl HQ. unfold replyAddresses. w6. destruct na.
  { w6. apply ignoreTemporary_still. intros [] k1 A1. w6. by apply HQ. }
  destruct renewal.
  - w6. apply ignoreTemporary_still. intros [] k1 A1. destruct (nhaveLse k); cbn [negb]; [|w6; by apply HQ]. cbv zeta. apply wp6_bind.
    match goal with |- wp ?c _ _ _ => assert (Hs : still p c) by stills end. apply Hs. clear Hs. intros [] k2 A2. w6.
    apply HQ; [|by eapply alike_trans]. destruct Hl as [Hl1 Hl2]. split; [exact Hl1|]. intros Ht. cbn.
    pose proof HB as (_&_&_&_&_&_&_&_&_&H10&_). destruct (H10 Ht) as (E&_). unfold carryTemp. by rewrite E.
  - rewrite (temp_of p k e HB). destruct (P6Temporary p) eqn:Et.
    + w6. apply readTemporary_still. intros ts k1 A1. w6. apply HQ; [|done]. split; [apply Hl|by rewrite Et].
    + w6. apply ignoreTemporary_still. intros [] k1 A1. w6. by apply HQ.
Qed.

Lemma keepHeldPD_fit k l : fit l -> fit (keepHeldPD k l).
Proof. intros [H1 H2]. unfold keepHeldPD. by destruct (heldPD k) as [[[? ?] ?] ?]. Qed.

Lemma replyPDTimes_fit k a b s pd l : fit l -> fit (replyPDTimes k a b s pd l).
Proof. intros H. unfold replyPDTimes. destruct (_ && _); [exact H|]. destruct (_ <? _)%nat; [exact H|]. destruct a; [by apply keepHeldPD_fit|done]. Qed.

Lemma replyPrefixes_ok o renewal na owed pd n l (Q : Lease6 -> Core6 -> Env6 -> Prop) k e : fit l ->
  (forall l' k', fit l' -> alike k k' -> Q l' k' e) -> wp (replyPrefixes now o renewal na owed pd n l) Q k e.
Proof.
  intros Hl HQ. unfold replyPrefixes. w6. destruct owed.
  - cbv zeta. w6. apply countPrefixes_still. intros [] k1 A1. w6.
    match goal with |- wp ?c _ _ _ => assert (Hs : still p c) by stills end. apply Hs. clear Hs. intros ps k2 A2. cbv zeta. w6.
    match goal with |- wp ?c _ _ _ => assert (Hs : still p c) by stills end. apply Hs. clear Hs. intros [] k3 A3. w6.
    apply HQ; [by apply replyPDTimes_fit|]. eapply alike_trans; [exact A1|]. by eapply alike_trans.
  - w6. apply ignorePrefixes_still. intros [] k1 A1. w6. apply HQ; [|done]. destruct (_ && _); [by apply keepHeldPD_fit|done].
Qed.

Lemma canonPD_fit l : fit l -> fit (canonPD l).
Proof. destruct (canonPD_facts l) as (E1 & E2 & _). unfold fit. by rewrite E1, E2. Qed.

(** The lease a Reply changes. *)
Lemma takeLease_ok o msg renewal na owed pd pdNotes zeroed l k e : Calm p k e -> fit l ->
  wp (ncarried ::= [] ;;
      l ← replyAddresses now o renewal na zeroed l;
      l ← replyPrefixes now o renewal na owed pd pdNotes l;
      paceOmission now rnd (pdFound pd) (canonPD l) ;;
      acceptLease now rnd msg renewal (canonPD l)) (fun _ => Inv6 p) k e.
Proof.
  intros HC Hl. apply wp6_bind, wp6_modify. cbv beta. assert (HC1 : Calm p (k <| ncarried := [] |>) e) by same HC.
  revert HC1. generalize (k <| ncarried := [] |>). clear HC k. intros k HC. apply wp6_bind, replyAddresses_ok; [apply HC|done|].
  intros l1 k1 Hl1 A1. apply (alike_Calm k k1) in HC; [|done]. apply wp6_bind, replyPrefixes_ok; [done|].
  intros l2 k2 Hl2 A2. apply (alike_Calm k1 k2) in HC; [|done]. apply wp6_bind, paceOmission_still.
  intros [] k3 A3. apply (alike_Calm k2 k3) in HC; [|done]. apply acceptLease_ok; [done|by apply canonPD_fit].
Qed.

Lemma takeIAs_ok msg renewal st k e : Inv6' p k e -> wp (takeIAs now rnd msg renewal st) (fun _ => Inv6 p) k e.
Proof.
  intros HI. pose proof (Inv6'_Calm p k e HI) as HC. unfold takeIAs. apply wp6_bind, wp6_get, wp6_bind.
  destruct (leaseFromReply_ok msg (P6IAID (nparams k)) (nexchangeStart k)) as (l & zeroed & notes & ias & ok & E & El1 & El2).
  eapply wp6_liftok; [exact E|]. cbv beta zeta iota. apply wp6_bind, wp6_journals, wp6_bind.
  match goal with |- wp ?c _ _ _ => assert (Hs : still p c) end.
  { destruct (pdOwed k renewal); [apply still_liftok, readIAPD_ok|apply still_ret]. }
  apply Hs. clear Hs. intros [pd pdNotes] k1 A1. apply (Inv6'_alike k k1) in HI; [|done]. apply (alike_Calm k k1) in HC; [|done].
  destruct (_ && _ && _ && _); [w6; by apply restartDiscovery_ok|].
  destruct (_ && _); [eapply wp6_mono; [by apply requestAgain_ok|by intros _ k2 e2 [H _]]|].
  cbv zeta. destruct (negb _); [by apply noUsable_ok|]. apply takeLease_ok; [done|].
  destruct (_ && nhaveLse k); [|by split].
  destruct HI as [((_&_&_&_&_&_&_&_&H9&H10&_)&_) _]. destruct A1 as ((_&_&<-&_)&_).
  split; [by intros Hm; apply (H9 Hm)|by intros Ht; apply (H10 Ht)].
Qed.

Lemma takeReply_ok msg k e : Inv6' p k e -> wp (takeReply now rnd msg) (fun _ => Inv6 p) k e.
Proof.
  intros HI. unfold takeReply. apply wp6_bind, applyMaxRT_ok. intros q Hq. apply (Inv6'_params k e q HI) in Hq.
  revert Hq. generalize (k <| nparams := q |>). clear HI k q. intros k HI. apply wp6_bind, wp6_get. cbv zeta.
  apply wp6_bind. destruct (Status_ok (MOptionsV6 msg)) as ([[st ok] err] & E). eapply wp6_liftok; [exact E|]. clear E.
  cbv beta iota. destruct err as [w|]; [w6; apply HI|]. destruct (_ =? _); [w6; apply HI|].
  destruct (_ =? _); [by apply replyNotOnLink_ok, Inv6'_Calm|]. by apply takeIAs_ok.
Qed.

Lemma takeRapidReply_ok msg k e : Inv6' p k e -> wp (takeRapidReply now rnd msg) (fun _ => Inv6 p) k e.
Proof.
  intros HI. unfold takeRapidReply. apply wp6_bind, wp6_get, wp6_bind, wp6_liftw; [apply RapidCommit_returns| |].
  2:{ intros w _. apply refuseRapid_still. intros [] k' Ha. eapply Inv6_alike; [exact Ha|apply HI]. }
  intros has _. destruct (_ && _); [w6; apply HI|]. destruct (negb has); [w6; apply HI|]. destruct (negb _).
  { apply refuseRapid_still. intros [] k' Ha. eapply Inv6_alike; [exact Ha|apply HI]. }
  apply wp6_bind. eapply wp6_mono; [by apply takeReply_ok|]. cbv beta. intros _ k1 e1 H1.
  match goal with |- wp ?c _ _ _ => assert (Hs : still p c) by stills end. apply Hs. intros [] k2 A2. by eapply Inv6_alike.
Qed.

(** ** A remembered binding *)

Lemma resumedLease_facts m r n : fit (resumedLease m r n) /\ laddrs (resumedLease m r n) = map a6Addr (r6Addrs r) /\
  addrsOf (resumedLease m r n) = map a6Addr (r6Addrs r).
Proof.
  unfold resumedLease. match goal with |- context [canonPD ?l'] =>
    assert (H1 : l6SLAAC l' = false) by reflexivity; assert (H2 : l6TempAddrs l' = []) by reflexivity;
    assert (H3 : l6Addrs l' = r6Addrs r) by reflexivity; generalize dependent l' end.
  intros l H1 H2 H3.
  destruct (canonPD_facts l) as (E1 & E2 & E3). unfold fit, addrsOf. rewrite E1, E2, E3. split; [done|]. unfold laddrs.
  assert (l6Addrs (canonPD l) = l6Addrs l) as -> by (unfold canonPD; by repeat case_match).
  by rewrite H2, H3, app_nil_r.
Qed.

Lemma live_addrs r : live6 (Some r) = true -> map a6Addr (r6Addrs r) <> [].
Proof. cbn. by destruct (r6Addrs r). Qed.

Lemma continueFromResume_ok how k e : Calm p k e -> wp (continueFromResume now rnd how) (fun _ => Inv6 p) k e.
Proof.
  intros HC. unfold continueFromResume. apply wp6_bind, wp6_get.
  assert (Hno : wp (journal6 (note "nothing remembered to continue with: restarting discovery" []) ;; restartDiscovery now rnd)
    (fun _ => Inv6 p) k e) by (w6; by apply restartDiscovery_ok).
  destruct (live6 (nresume k)) eqn:El; [|exact Hno]. destruct (nresume k) as [r|] eqn:Er; [|exact Hno]. clear Hno.
  destruct (resumedLease_facts k r now) as (Hf & Ha & Hb). cbv zeta. generalize dependent (resumedLease k r now). intros l Hf Ha Hb.
  apply live_addrs in El. rewrite <- Hb in El.
  assert (Hh : nhaveLse k = false). { destruct HC as ((_&_&_&_&_&_&_&H8&_)&_). by apply (H8 r). }
  assert (Hz : nlease k = lease6_zero) by (destruct HC as ((_&_&H3&_)&_); by apply H3).
  w6.
  match goal with |- wp _ _ ?k' ?e' => set (k1 := k'); set (e1 := e') end.
  assert (HC1 : Calm p k1 e1).
  { assert (H : Calm p (k <| nmsgType := 0 |> <| npending := l |>) e1).
    { apply Calm_pend; [|done]. apply Calm_idle; [reflexivity|]. by apply Calm_off. }
    same H. }
  assert (F : npending k1 = l /\ nmsgType k1 = 0 /\ nlease k1 = lease6_zero) by (by rewrite <- Hz). clearbody k1 e1. clear HC.
  match goal with |- wp ?c _ _ _ => assert (Hs : still p c) by stills end. apply Hs. clear Hs. intros [] k2 A2.
  apply wp6_bind. match goal with |- wp ?c _ _ _ => assert (Hs : still p c) by stills end. apply Hs. clear Hs. intros [] k3 A3.
  apply (alike_trans _ _ _ A2) in A3. apply (alike_Calm k1 k3) in HC1; [|done].
  assert (F3 : npending k3 = l /\ nmsgType k3 = 0 /\ nlease k3 = lease6_zero)
    by (by destruct A3 as ((_&_&->&_&_&_&_&->&_&_&_&->)&_)).
  destruct F3 as (Fp & Ft & Fl). destruct HC1 as (HB & HE & HD). apply startDAD_ok; [done|done|done|by rewrite Ft|].
  intros _. rewrite Fp, Fl, Ha, Hb. split; [|by left]. intros a _. by apply not_elem_of_nil.
Qed.
End reply.
