(* ===== verification/Machine6Run.v ===== *)
(** * The DHCPv6 machine: every event in every state

    The stateless exchange, Router Advertisements, Reconfigure and the handlers
    of the ten states keep the invariant; with it [Step6] does not panic, and
    what an observer sees of it is allowed. *)

From S2P Require Import Prelude NetAddr Options Codec Forcerenew Arp Backoff Kinds Lease Dhcp6 Rkap Backoff6 Icmpv6 Lease6 Slaac Params6 Router6 Outward Core6 Machine6 Machine6Steps Machine6Spec Machine6Logic Machine6Msgs Machine6Inv Machine6Slaac Machine6Bound Machine6Ends Machine6Reply.

Section run.
Context (p : Params6) (Hcfg : config_ok p) (now : Instant) (rnd : Z).
Local Abbreviation wp := (wp6 p).

(** ** The stateless exchange *)

(** An exchange is over, in one of the two states that rest. *)
Lemma rested k e : Calm p k e -> nmsgType k = 0 -> nstate k = State6Bound \/ nstate k = State6InfoRequesting -> Inv6' p k e.
Proof.
  intros HC Ht Hs. apply Calm_Inv6'; [done|by destruct Hs as [-> | ->]|]. intros _. right. unfold driven6.
  destruct Hs as [-> | ->]; cbn; auto.
Qed.

Lemma takeConfig_ok msg k e : Calm p k e -> nstate k = State6InfoRequesting -> wp (takeConfig now msg) (fun _ => Inv6' p) k e.
Proof.
  intros HC Hs. unfold takeConfig. cbv zeta. set (o := MOptionsV6 msg).
  apply wp6_bind. apply (still_liftw p _ (DNSServers_returns o)). intros dns k1 A1. apply wp6_bind.
  match goal with |- wp ?c _ _ _ => assert (H : still p c) by (destruct dns; stills) end. apply H. clear H. intros dns' k2 A2.
  apply wp6_bind. apply (still_liftw p _ (DomainSearchV6_returns o)). intros se k3 A3. apply wp6_bind.
  match goal with |- wp ?c _ _ _ => assert (H : still p c) by (destruct se; stills) end. apply H. clear H. intros se' k4 A4.
  apply wp6_bind.
  match goal with |- wp ?c _ _ _ => assert (H : still p c) end.
  { destruct (Uint32V6 o OptV6InfoRefresh) as [r|] eqn:E; [|apply still_ret].
    apply still_bind; [apply still_liftw; by eapply Uint32V6_returns|]. intros []; stills. }
  apply H. clear H. intros v k5 A5. apply wp6_bind, refreshTime_still. intros refresh k6 A6.
  assert (A : alike k k6) by (do 5 (eapply alike_trans; [eassumption|]); done).
  apply (alike_Calm p k k6) in HC; [|done]. assert (Hs6 : nstate k6 = State6InfoRequesting) by (by destruct A as (_&->&_)).
  clear A A1 A2 A3 A4 A5 A6 Hs. w6.
  match goal with |- wp _ _ ?k' ?e' => set (k7 := k'); set (e7 := e'); assert (H7 : Calm p k7 e7 /\ nmsgType k7 = 0 /\ nstate k7 = State6InfoRequesting) end.
  { assert (H : Calm p (k6 <| nmsgType := 0 |>) e7) by (apply Calm_idle; [reflexivity|by apply Calm_off]). split; [same H|by split]. }
  clearbody k7 e7. destruct H7 as (HC7 & Ht7 & Hs7). apply noteReconfigureKey_still. intros [] k8 A8.
  apply (alike_Calm p k7 k8) in HC7; [|done].
  assert (H8 : nmsgType k8 = 0 /\ nstate k8 = State6InfoRequesting) by (by destruct A8 as ((_&_&_&_&_&_&_&_&_&_&_&->)&->&_)).
  clear k7 A8 Hs7 Ht7. destruct H8 as [Ht8 Hs8]. unfold endReconfigureDetour. w6.
  assert (Hend : forall k, Calm p k e7 -> nmsgType k = 0 -> nstate k = State6Bound \/ nstate k = State6InfoRequesting ->
    wp (stamp6 (Act6Configured (mkConfig6 dns' se' refresh)) ;;
        if IsInfinite refresh then
          journal6 (note "the information refresh time is infinite: no refresh is armed (§21.23)" []) ;; cancel6 Timer6Refresh
        else set6 Timer6Refresh refresh) (fun _ => Inv6' p) k e7).
  { clear. intros k HC Ht Hs. apply wp6_bind, wp6_stamp; [done|]. cbn [observe6]. destruct (IsInfinite refresh).
    - w6. apply rested; [by apply (Calm_off p k e7)|done|done].
    - apply wp6_set; [by intros [?|[?|[?|[?|?]]]]|]. apply rested; [apply Calm_set; [done|by apply delay_timers|done]|done|done]. }
  destruct (nreconfDetour _); cbn [negb].
  - apply wp6_bind, wp6_modify, wp6_bind, wp6_modify, wp6_journal. cbv beta. apply Hend; [same HC7|exact Ht8|by left].
  - apply wp6_ret. apply Hend; [same HC7|exact Ht8|by right].
Qed.

Lemma takeInfoReply_ok msg k e : Inv6 p k e -> nstate k = State6InfoRequesting -> wp (takeInfoReply now rnd msg) (fun _ => Inv6 p) k e.
Proof.
  intros HI Hs. unfold takeInfoReply. apply wp6_bind, applyMaxRT_ok. intros q Hq. apply (Inv6_params p k e q HI) in Hq.
  assert (Hs1 : nstate (k <| nparams := q |>) = State6InfoRequesting) by exact Hs.
  revert Hq Hs1. generalize (k <| nparams := q |>). clear HI Hs k. intros k HI Hs. apply wp6_bind.
  destruct (Status_ok (MOptionsV6 msg)) as ([[st ok] err] & E). eapply wp6_liftok; [exact E|]. clear E.
  destruct err as [w|]; [by w6|]. cbv zeta. destruct (negb _); [by w6|]. apply wp6_bind.
  eapply wp6_mono; [apply takeConfig_ok; [apply Inv6_Calm; [done|by rewrite Hs]|done]|]. cbv beta. intros _ k1 e1 H1.
  apply wp6_bind. eapply wp6_mono; [by apply announce_ok|]. cbv beta. intros _ k2 e2 [H2 _]. by w6.
Qed.

Lemma takeConfirmReply_ok msg k e : Inv6' p k e -> wp (takeConfirmReply now rnd msg) (fun _ => Inv6 p) k e.
Proof.
  intros HI. unfold takeConfirmReply. apply wp6_bind, applyMaxRT_ok. intros q Hq. apply (Inv6'_params p k e q HI) in Hq.
  revert Hq. generalize (k <| nparams := q |>). clear HI k. intros k HI. apply wp6_bind.
  destruct (Status_ok (MOptionsV6 msg)) as ([[st ok] err] & E). eapply wp6_liftok; [exact E|]. clear E. cbv beta iota.
  pose proof (Inv6'_Calm p k e HI) as HC. destruct err as [w|]; [w6; apply HI|]. destruct (_ =? _).
  - w6. apply restartDiscovery_ok; [exact Hcfg|]. by apply Calm_resume_none.
  - w6. by apply continueFromResume_ok.
Qed.

Lemma leaseOutranks_ok t m k e : Inv6' p k e -> wp (leaseOutranks now rnd t m) (fun _ => Inv6 p) k e.
Proof.
  intros HI. unfold leaseOutranks. destruct (negb _); [w6; apply HI|].
  assert (HC : Calm p (k <| nreconfDetour := false |>) e) by (apply Inv6'_Calm in HI; same HI).
  destruct (bool_decide _); w6;
    [eapply wp6_mono; [by apply enterRenewing_ok|]|eapply wp6_mono; [by apply enterRebinding_ok|]]; by intros _ k' e' [H _].
Qed.

(** ** Reconfigure *)

Lemma authenticate_still o raw sid : still p (authenticateReconfigure o raw sid).
Proof.
  unfold authenticateReconfigure. apply still_get. intros m.
  apply still_bind; [apply still_liftok, reconfigureAuthentic_ok|]. intros [sr|[why n]]; [apply still_ret|].
  apply still_bind; [apply refuseReconfigure_still|intros _; apply still_ret].
Qed.

(** The message asked for goes out, or nothing is changed. *)
Lemma respond_ok kind sid (Q : bool -> Core6 -> Env6 -> Prop) k e : Inv6 p k e ->
  (forall b k' e', Inv6 p k' e' -> Q b k' e') -> wp (respondToReconfigure now rnd kind sid) Q k e.
Proof.
  intros HI HQ. unfold respondToReconfigure. apply wp6_bind, wp6_get.
  assert (Hno : forall w n, wp (refuseReconfigure w n ;; mret false) Q k e).
  { intros w n. apply wp6_bind, refuseReconfigure_still. intros [] k' Ha. apply wp6_ret, HQ. by eapply Inv6_alike. }
  assert (Hgo : forall c : M6 unit, wp c (fun _ => Inv6' p) k e -> wp (c ;; mret true) Q k e).
  { intros c H. apply wp6_bind. eapply wp6_mono; [exact H|]. cbv beta. intros _ k' e' [H' _]. by apply wp6_ret, HQ. }
  destruct (_ || _).
  - destruct (state6_eqb (nstate k) State6Bound) eqn:Es; cbn [negb]; [|apply Hno].
    assert (HC : Calm p k e) by (apply Inv6_Calm; [done|by intros E; rewrite E in Es]).
    destruct (kind =? MsgRenew); apply wp6_bind, wp6_journal; apply Hgo; [by apply enterRenewing_ok|by apply enterRebinding_ok].
  - destruct (_ =? _); [|apply Hno]. destruct (_ || _) eqn:Es; [|apply Hno].
    assert (HC : Calm p k e) by (apply Inv6_Calm; [done|by intros E; rewrite E in Es]).
    apply wp6_bind, wp6_when; intros _; [apply wp6_modify|]; apply wp6_bind, wp6_journal; cbv beta; apply wp6_bind;
      (eapply wp6_mono; [apply exchange_ok; [mem|done|same HC]|]);
      cbv beta; intros _ k' e' [H' _]; by apply wp6_ret, HQ.
Qed.

Lemma takeReconfigure_ok msg raw dst k e : Inv6 p k e -> wp (takeReconfigure now rnd msg raw dst) (fun _ => Inv6 p) k e.
Proof.
  intros HI. unfold takeReconfigure. cbv zeta. apply wp6_bind, wp6_get.
  destruct (reconfigureWhy k (MOptionsV6 msg) dst) as [[kind sid]|[why n]].
  2:{ apply refuseReconfigure_still. intros [] k' Ha. by eapply Inv6_alike. }
  apply wp6_bind, authenticate_still. intros auth k1 A1. apply (Inv6_alike p k k1) in HI; [|done].
  destruct auth as [[s replay]|]; [|by w6]. apply wp6_bind, respond_ok; [done|]. intros b k2 e2 H2.
  match goal with |- wp ?c _ _ _ => assert (Hs : still p c) by stills end. apply Hs. intros [] k3 A3. by eapply Inv6_alike.
Qed.

(** ** Router Advertisements *)

Lemma Inv6_counts k e t : Inv6 p k e -> entries t = entries (nslaac k) -> dadCount t = dadCount (nslaac k) -> Inv6 p (k <| nslaac := t |>) e.
Proof. intros (HB & HE & HD & Hd) E1 E2. split_and!; [by apply Base_counts|exact HE|exact HD|exact Hd]. Qed.

Lemma Inv6_routers k e t : Inv6 p k e -> table_wf t -> Inv6 p (k <| nrouters := t |>) e.
Proof. intros (HB & HE & HD & Hd) Ht. split_and!; [by apply Base_routers|exact HE|exact HD|exact Hd]. Qed.

Lemma observeManaged_ok ra k e : Inv6 p k e -> wp (observeManaged now rnd ra) (fun _ => Inv6 p) k e.
Proof.
  intros HI. unfold observeManaged. apply wp6_bind, countUnused_Base. intros t E1 E2. apply (Inv6_counts k e t HI) in E1; [|exact E2].
  revert E1. generalize (k <| nslaac := t |>). clear -Hcfg. intros k HI. w6. destruct (Managed ra); [by w6|].
  destruct (Other ra && state6_eqb (nstate k) State6Selecting) eqn:Es; [|destruct (Other ra); by w6].
  apply andb_prop in Es as [_ Es]. assert (HC : Calm p k e) by (apply Inv6_Calm; [done|by intros E; rewrite E in Es]).
  w6. eapply wp6_mono; [apply start_ok; [mem|done|]|by intros _ k' e' [H _]].
  assert (H : Calm p (k <| nadverts := [] |>) (timer_off Timer6Retransmit e)) by (apply Calm_adverts; [by apply Calm_off|done]).
  same H.
Qed.

(** A timer nothing of the invariant is about. *)
Lemma Inv6_away k e t : ~ base_timer p t -> t <> Timer6DAD -> t <> Timer6Expire -> Inv6 p k e -> Inv6 p k (timer_off t e).
Proof.
  intros Hb Hd He HI. eapply (Inv6_retimed p Hcfg k e _ [t]); [|apply retimed_off; [by left|apply retimed_refl]| |exact HI].
  - by intros t' ->%list_elem_of_singleton.
  - apply (expiry_env k e); [|apply HI]. unfold timer_off. cbn. by rewrite arm6_ne.
Qed.

Lemma observe_wf t ra : table_wf t -> exists r, observe t now ra = Some r /\ table_wf r.1.
Proof.
  intros Hw. destruct (IsValid (RaRouter ra)) eqn:Hv.
  - destruct (observe_parts t now ra Hw Hv) as (t1 & E & Hw1 & _). rewrite E. eexists. split; [done|]. by apply prune_wf.
  - unfold observe. rewrite Hv. by eexists.
Qed.

Lemma observeRouter_ok ra k e : match ra with Some ra => Forall pio_wf (RaPrefixes ra) | None => True end -> Inv6 p k e ->
  wp (observeRouter now rnd ra) (fun _ => Inv6 p) k e.
Proof.
  intros Hra HI. unfold observeRouter. destruct ra as [ra|]; [|by w6]. w6.
  destruct (observe_wf (nrouters k) ra) as ([t named] & E & Hw); [apply HI|]. eapply wp6_lift; [exact E|]. cbv beta iota. cbn [fst] in Hw.
  w6. set (ro := router_zero <| _ := _ |> <| _ := _ |> <| _ := _ |> <| _ := _ |> <| _ := _ |>). clearbody ro.
  unfold fill. cbv zeta. set (ro' := ro <| _ := _ |> <| _ := _ |> <| _ := _ |> <| _ := _ |> <| _ := _ |> <| _ := _ |>). clearbody ro'.
  assert (HI1 : Inv6 p (k <| nrouters := prune t now |> <| nrouter := ro' |>) e).
  { assert (H : Inv6 p (k <| nrouters := prune t now |>) e) by (apply Inv6_routers; [done|by apply prune_wf]). same H. }
  w6. apply wp6_stamp; [done|]. cbn [observe6]. revert HI1. generalize (k <| nrouters := prune t now |> <| nrouter := ro' |>).
  intros k1 HI1. apply wp6_bind.
  assert (Hend : forall e, Inv6 p k1 e -> wp (if P6Mode (nparams k) =? Mode6SLAAC then observeSLAAC now rnd ra
    else if P6Mode (nparams k) =? Mode6Auto then observeAuto now rnd ra else observeManaged now rnd ra) (fun _ => Inv6 p) k1 e).
  { intros e1 H1. rewrite (mode_of p k e) by apply HI. destruct (Z.eqb_spec (P6Mode p) Mode6SLAAC) as [Em|_];
      [|destruct (Z.eqb_spec (P6Mode p) Mode6Auto) as [Em|_]; [|by apply observeManaged_ok]];
      (assert (Hm : P6Mode p <> Mode6DHCP) by (by rewrite Em); eapply wp6_mono;
       [first [apply observeSLAAC_BE|apply observeAuto_BE]; [done|done|done|by apply Inv6_BE]|]; cbv beta; intros _ k2 e2 H2; by apply BE_Inv6). }
  apply wp6_when; intros _; [|by apply Hend]. apply wp6_cancel. apply Hend.
  apply (Inv6_away k1 e Timer6RouterSolicit); [by apply delay_timers|done|done|done].
Qed.

Lemma routerSolicitTick_ok k e : Inv6 p k e -> wp (routerSolicitTick now rnd) (fun _ => Inv6 p) k (timer_off Timer6RouterSolicit e).
Proof.
  intros HI. unfold routerSolicitTick. w6.
  apply (Inv6_away k e Timer6RouterSolicit) in HI; [|by apply delay_timers|done|done].
  revert HI. generalize (timer_off Timer6RouterSolicit e). clear e. intros e HI.
  assert (HI1 : Inv6 p k (timer_off Timer6RouterSolicit e)) by (apply Inv6_away; [by apply delay_timers|done|done|done]).
  destruct (_ <? _).
  - destruct (_ && _); [by w6|]. apply wp6_solicitRouter. intros n e' He'.
    assert (H : Inv6 p k e').
    { eapply (Inv6_retimed p Hcfg k e e' [Timer6RouterSolicit]); [|exact He'| |exact HI].
      - intros t ->%list_elem_of_singleton. split; [by apply delay_timers|done].
      - eapply expiry_retimed; [|exact He'|apply HI]. by intros ?%list_elem_of_singleton. }
    same H.
  - w6. destruct (awaitingAddress k) eqn:Ea; cbn [negb]; [|by w6].
    assert (Hm : P6Mode p <> Mode6DHCP).
    { eapply forms_mode; [apply HI|]. unfold awaitingAddress in Ea. by destruct (formsAddresses _). }
    destruct (roSeen _); [destruct (_ && _)|].
    + w6. eapply wp6_mono; [apply (exchange_BE p Hm now rnd MsgInformationRequest []); [mem|]|cbv beta; intros _ k2 e2 H2; by apply BE_Inv6].
      apply Inv6_BE in HI1. be HI1.
    + eapply failed_BE; [by apply Inv6_BE|]. intros e' H. by apply BE_Inv6.
    + eapply failed_BE; [by apply Inv6_BE|]. intros e' H. by apply BE_Inv6.
Qed.

Lemma ageRouters_ok k : exists k', (forall (Q : unit -> Core6 -> Env6 -> Prop) e, Q tt k' e -> wp (ageRouters now) Q k e) /\
  (forall e, Inv6 p k e -> Inv6 p k' e).
Proof.
  exists (if roSeen (nrouter k) then k <| nrouters := (fill (nrouters k) now (nrouter k)).1 |>
            <| nrouter := (fill (nrouters k) now (nrouter k)).2 |> else k).
  unfold ageRouters. split.
  - intros Q e H. w6. apply wp6_when; intros E; rewrite E in H; [|done]. destruct (fill _ _ _) as [t ro]. w6. exact H.
  - intros e HI. destruct (roSeen _); [|done].
    assert (H : Inv6 p (k <| nrouters := (fill (nrouters k) now (nrouter k)).1 |>) e).
    { apply Inv6_routers; [done|]. unfold fill. cbv zeta. cbn [fst]. apply prune_wf. apply HI. }
    generalize dependent (fill (nrouters k) now (nrouter k)). intros r H. same H.
Qed.

(** ** A timer that fires in a state that does not wait for it *)

Definition idle_timer (k : Core6) (t : TimerID) : Prop :=
  match exchange_of (nstate k) with
  | Some _ => t <> Timer6Retransmit
  | None =>
    match nstate k with
    | State6Init => t <> Timer6Delay
    | State6InfoRequesting => t <> Timer6Retransmit
    | State6Stopped => t <> Timer6Retransmit \/ nmsgType k <> MsgRelease6
    | State6DAD => t <> Timer6DAD /\ (t <> Timer6Retransmit \/ nmsgType k <> MsgDecline6)
    | _ => True
    end
  end.

Lemma Drv_idle k e t : idle_timer k t -> Drv k e -> Drv k (timer_off t e).
Proof.
  intros Ht [Hf|Hd]; [by left|right]. revert Ht Hd. unfold idle_timer, driven6.
  assert (Ha : forall t', t <> t' -> armed6 (timer_off t e) t' = armed6 e t') by (intros t' Hn; unfold timer_off; cbn; by rewrite arm6_ne).
  destruct (exchange_of (nstate k)); [intros Ht; by rewrite Ha|]. destruct (nstate k); try done.
  - intros [Ht|Ht] Hd Hm; [rewrite Ha by done; by apply Hd|done].
  - intros Ht. by rewrite Ha.
  - intros Ht. by rewrite Ha.
  - intros [Ht Hr]. rewrite (Ha Timer6DAD) by done. intros [[Hm Hd]|Hd]; [|by right]. destruct Hr as [Hr|Hr]; [|done].
    left. by rewrite Ha.
Qed.

Lemma fired_idle k e t : t <> Timer6Expire -> idle_timer k t -> Inv6 p k e -> Inv6 p k (timer_off t e).
Proof.
  intros Hn Ht (HB & HE & HD & Hd). split_and!; [by apply Base_off| |intros Hm; by apply Drv_idle, HD|exact Hd].
  apply (expiry_env k e); [|done]. unfold timer_off. cbn. by rewrite arm6_ne.
Qed.

Lemma ignored_ok n k e : Inv6 p k e -> wp (journal6 n) (fun _ => Inv6 p) k e.
Proof. intros H. by w6. Qed.

Lemma halted_Inv6 r k e : Inv6 p k e -> wp (halt r) (fun _ => Inv6 p) k e.
Proof. intros HI. eapply wp6_mono; [apply halt_ok; by apply Inv6_BE|]. by intros _ k' e' [H _]. Qed.

(** A delayed Information-request. *)
Lemma delayed_ok d k e : 0 <= d -> Inv6 p k e -> nstate k = State6Bound \/ nstate k = State6InfoRequesting ->
  wp (npendingType ::= MsgInformationRequest ;; set6 Timer6Delay d) (fun _ => Inv6 p) k e.
Proof.
  intros Hd (HB & HE & HD & Hda) Hs. w6. apply wp6_set; [by intros _|]. split_and!.
  - apply Base_delay; [done|mem].
  - exact HE.
  - intros Hm. destruct (HD Hm) as [Hf|Hf]; [by left|right]. revert Hf. unfold driven6. cbn. by destruct Hs as [-> | ->].
  - exact Hda.
Qed.

(** The delay ran out: the first message of a start. *)
Lemma first_ok k e : Inv6 p k e -> ever e Timer6Delay = true -> nstate k = State6Init \/ nstate k = State6Discovering ->
  wp (startExchange now rnd (npendingType k)) (fun _ => Inv6 p) k (timer_off Timer6Delay e).
Proof.
  intros HI He Hs. assert (Hf : first_type (npendingType k)) by (by apply HI).
  unfold startExchange. eapply wp6_mono; [apply wp6_exchange|by intros _ k' e' [H _]].
  - by apply first_waiting.
  - apply Calm_off; [done|]. apply Inv6_Calm; [done|]. by destruct Hs as [-> | ->].
  - intros Hm _. destruct HI as (_&_&HD&_). destruct (HD Hm) as [Hx|Hx]; [by left|right]. revert Hx. unfold driven6.
    destruct Hs as [-> | ->]; cbn; [by intros [_ ?]|done].
Qed.

Lemma Calm_fired k e t : Inv6 p k e -> nstate k <> State6DAD -> t <> Timer6Expire -> Calm p k (timer_off t e).
Proof. intros HI Hs Ht. apply Calm_off; [done|]. by apply Inv6_Calm. Qed.

(** What is in flight when the retransmission timer fires. *)
Lemma fired_client k e : Inv6 p k e -> armed6 e Timer6Retransmit = true -> client_type (nmsgType k).
Proof. intros HI Ha. by apply HI. Qed.

(** ** The states *)

(** The events a handler only journals, and the ones that halt. *)
Ltac quiet_event Hs HI :=
  unfold timerIgnored, eventIgnored;
  lazymatch goal with
  | |- wp6 _ (journal6 _) _ _ (hears6 (Ev6TimerFired ?t) ?e) =>
    change (hears6 (Ev6TimerFired t) e) with (timer_off t e);
    apply ignored_ok, fired_idle; [discriminate| |exact HI]; unfold idle_timer; rewrite Hs; cbn [exchange_of];
    first [discriminate|exact Logic.I|left; discriminate|split; [discriminate|left; discriminate]]
  | |- wp6 _ (journal6 _) _ _ (hears6 (Ev6DADResult _ _) _) => apply ignored_ok, stale_ok; [assumption|exact HI|right; rewrite Hs; discriminate]
  | |- wp6 _ (journal6 _) _ _ _ => apply ignored_ok; exact HI
  | |- wp6 _ (halt _) _ _ _ => apply halted_Inv6; exact HI
  end.

Ltac ignored HI :=
  unfold timerIgnored, eventIgnored;
  lazymatch goal with
  | |- wp6 _ (journal6 _) _ _ _ => apply ignored_ok; by apply HI
  | |- wp6 _ (halt _) _ _ _ => apply halted_Inv6; exact HI
  end.

(** A message is admitted, or nothing but the counts is changed. *)
Lemma admitted_ok msg (f : MessageV6 -> M6 unit) k e : Inv6 p k e ->
  (forall m, msg = Some m -> wp (f m) (fun _ => Inv6 p) k e) ->
  wp (a ← admit6 msg; match a with None => mret tt | Some m => f m end) (fun _ => Inv6 p) k e.
Proof.
  intros HI Hf. apply wp6_bind, admit_ok; [exact Hf|]. intros k' Ha. apply wp6_ret. by eapply Inv6_alike.
Qed.

Lemma stopped_ok ev k e : Inv6 p k e -> nstate k = State6Stopped -> input_ok e ev -> ev <> Ev6TimerFired Timer6Expire ->
  wp (stepStopped6 now rnd ev) (fun _ => Inv6 p) k (hears6 ev e).
Proof.
  intros HI Hs Hin Hx. unfold stepStopped6. apply wp6_bind, wp6_get.
  assert (HC : Calm p k e) by (apply Inv6_Calm; [done|by rewrite Hs]).
  assert (Hrel : forall e n, Calm p k e -> wp (journal6 n ;; releaseDone now rnd) (fun _ => Inv6 p) k e).
  { intros e1 n H1. w6. eapply wp6_mono; [by apply releaseDone_ok|]. by intros _ k' e' [H _]. }
  destruct ev as [| |msg raw dst|t| | | | | | | | | |]; try quiet_event Hs HI; [by apply begin_ok| |].
  - destruct (_ =? _); [|quiet_event Hs HI]. apply wp6_bind, admit_ok; [intros m _; by apply Hrel|].
    intros k' Ha. apply wp6_ret. by eapply Inv6_alike.
  - destruct t; try quiet_event Hs HI; [|by destruct Hx]. destruct (Z.eqb_spec (nmsgType k) MsgRelease6) as [Ht|Ht].
    + apply fired_resend; [done|by apply (fired_client k e), Hin|]. intros f [= <-]. by apply Hrel, Calm_fired; [|rewrite Hs|].
    + apply ignored_ok, fired_idle; [done| |done]. unfold idle_timer. rewrite Hs. by right.
Qed.

Lemma init_ok ev k e : Inv6 p k e -> nstate k = State6Init -> input_ok e ev -> ev <> Ev6TimerFired Timer6Expire ->
  wp (stepInit6 now rnd ev) (fun _ => Inv6 p) k (hears6 ev e).
Proof.
  intros HI Hs Hin Hx. unfold stepInit6. apply wp6_bind, wp6_get.
  destruct ev as [| |msg raw dst|t| | | | | | | | | |]; try quiet_event Hs HI. destruct t; try quiet_event Hs HI; [|by destruct Hx].
  apply first_ok; [done|apply Hin|by left].
Qed.

Lemma discovering_ok ev k e : Inv6 p k e -> nstate k = State6Discovering -> input_ok e ev -> ev <> Ev6TimerFired Timer6Expire ->
  wp (stepDiscovering6 now rnd ev) (fun _ => Inv6 p) k (hears6 ev e).
Proof.
  intros HI Hs Hin Hx. unfold stepDiscovering6. apply wp6_bind, wp6_get.
  destruct ev as [| |msg raw dst|t| | | | | | | | | |]; try quiet_event Hs HI. destruct t; try quiet_event Hs HI; [|by destruct Hx].
  apply first_ok; [done|apply Hin|by right].
Qed.

(** The collection window closes. *)
Lemma window_ok k e : Inv6 p k e -> nstate k = State6Selecting -> nadverts k <> [] ->
  wp (_ ← selectAndRequest now rnd; mret tt) (fun _ => Inv6 p) k (timer_off Timer6Retransmit e).
Proof.
  intros HI Hs Ha. apply wp6_bind, select_ok; [by apply Calm_fired; [|rewrite Hs|]|intros k' e' [H _]; by apply wp6_ret|].
  intros Hb. apply wp6_ret. destruct HI as (HB & HE & HD & Hd). split_and!; [by apply Base_off|by apply (expiry_env k e)| |exact Hd].
  intros Hm. destruct (HD Hm) as [Hf|Hf]; [by left|]. exfalso. revert Hf. unfold driven6. rewrite Hs. cbn [exchange_of].
  intros (_ & _ & Ht). by apply (bestAdvert_some k (nadverts k) None (Ht eq_refl)); [left|].
Qed.

Lemma selecting_ok ev k e : Inv6 p k e -> nstate k = State6Selecting -> input_ok e ev -> ev <> Ev6TimerFired Timer6Expire ->
  wp (stepSelecting6 now rnd ev) (fun _ => Inv6 p) k (hears6 ev e).
Proof.
  intros HI Hs Hin Hx. unfold stepSelecting6. apply wp6_bind, wp6_get. assert (Hn : nstate k <> State6DAD) by (by rewrite Hs).
  destruct ev as [| |msg raw dst|t| | | | | | | | | |]; try quiet_event Hs HI.
  - apply admitted_ok; [done|]. intros m _. destruct (_ =? _); [by apply takeAdvertise_ok|].
    destruct (_ =? _); [by apply takeRapidReply_ok|by apply ignored_ok].
  - destruct t; try quiet_event Hs HI; [|by destruct Hx]. change (hears6 _ e) with (timer_off Timer6Retransmit e).
    assert (Hc : client_type (nmsgType k)) by (by apply (fired_client k e), Hin).
    destruct (nwindowDone k); cbn [negb]; [by apply fired_resend|].
    apply wp6_bind, wp6_modify. cbv beta. assert (HI1 : Inv6 p (k <| nwindowDone := true |>) e) by same HI.
    destruct (Nat.ltb_spec 0 (length (nadverts k))) as [Hl|Hl].
    + apply wp6_bind, wp6_journal. cbv beta. apply window_ok; [done|exact Hs|]. intros E. cbn in E. rewrite E in Hl. cbn in Hl. lia.
    + apply wp6_bind, wp6_journal. cbv beta. by apply fired_resend.
Qed.

Lemma dropped_ok (Q : unit -> Core6 -> Env6 -> Prop) k e : BE p k e -> (forall k', Calm p k' e -> Q tt k' e) -> wp dropPending Q k e.
Proof. intros HB HQ. apply wp6_dropPending, HQ. by apply Calm_dropped. Qed.

Lemma requestExhausted_ok k e : Calm p k e -> wp (requestExhausted now rnd) (fun _ => Inv6 p) k e.
Proof.
  intros HC. unfold requestExhausted. apply wp6_bind, wp6_get. destruct (bool_decide _).
  { w6. eapply wp6_mono; [by apply resumeBound_ok|]. by intros _ k' e' [H _]. }
  apply wp6_bind, wp6_modify. cbv beta. assert (HC1 : Calm p (k <| ntried := ntried k ++ [nserver k] |>) e) by same HC.
  apply wp6_bind, select_ok; [done|intros k' e' [H _]; by w6|]. intros _. w6. by apply restartDiscovery_ok.
Qed.

Lemma requesting_ok ev k e : Inv6 p k e -> nstate k = State6Requesting -> input_ok e ev -> ev <> Ev6TimerFired Timer6Expire ->
  wp (stepRequesting6 now rnd ev) (fun _ => Inv6 p) k (hears6 ev e).
Proof.
  intros HI Hs Hin Hx. unfold stepRequesting6. apply wp6_bind, wp6_get. assert (Hn : nstate k <> State6DAD) by (by rewrite Hs).
  destruct ev as [| |msg raw dst|t| | | | | | | | | |]; try quiet_event Hs HI.
  - apply admitted_ok; [done|]. intros m _. destruct (negb _); [by apply ignored_ok|by apply takeReply_ok].
  - change (hears6 _ e) with (timer_off t e). destruct (bool_decide (t = Timer6Rebind) && _) eqn:Er.
    { apply andb_prop in Er as [->%bool_decide_eq_true _]. apply wp6_bind, wp6_journal, wp6_bind, dropped_ok.
      - by apply Calm_BE, Calm_fired.
      - intros k' HC. eapply wp6_mono; [by apply enterRebinding_ok|]. by intros _ k2 e2 [H _]. }
    clear Er. case_bool_decide as Ht; cbn [negb].
    + subst t. apply fired_resend; [done|by apply (fired_client k e), Hin|]. intros f [= <-]. by apply requestExhausted_ok, Calm_fired.
    + apply ignored_ok, fired_idle; [by intros ->| |done]. unfold idle_timer. by rewrite Hs.
Qed.

Lemma confirming_ok ev k e : Inv6 p k e -> nstate k = State6Confirming -> input_ok e ev -> ev <> Ev6TimerFired Timer6Expire ->
  wp (stepConfirming6 now rnd ev) (fun _ => Inv6 p) k (hears6 ev e).
Proof.
  intros HI Hs Hin Hx. unfold stepConfirming6. apply wp6_bind, wp6_get. assert (Hn : nstate k <> State6DAD) by (by rewrite Hs).
  destruct ev as [| |msg raw dst|t| | | | | | | | | |]; try quiet_event Hs HI.
  - apply admitted_ok; [done|]. intros m _. destruct (negb _); [by apply ignored_ok|by apply takeConfirmReply_ok].
  - destruct t; try quiet_event Hs HI; [|by destruct Hx]. change (hears6 _ e) with (timer_off Timer6Retransmit e).
    apply fired_resend; [done|by apply (fired_client k e), Hin|]. intros f [= <-]. w6.
    by apply continueFromResume_ok, Calm_fired.
Qed.

Lemma information_ok ev k e : Inv6 p k e -> nstate k = State6InfoRequesting -> input_ok e ev -> ev <> Ev6TimerFired Timer6Expire ->
  wp (stepInfoRequesting6 now rnd ev) (fun _ => Inv6 p) k (hears6 ev e).
Proof.
  intros HI Hs Hin Hx. unfold stepInfoRequesting6. apply wp6_bind, wp6_get. assert (Hn : nstate k <> State6DAD) by (by rewrite Hs).
  destruct ev as [| |msg raw dst|t| | | | | | | | | |]; try quiet_event Hs HI.
  - apply admitted_ok; [done|]. intros m _. destruct (negb _); [by apply ignored_ok|by apply takeInfoReply_ok].
  - assert (Hi : forall t, t <> Timer6Expire -> t <> Timer6Retransmit -> Inv6 p k (timer_off t e)).
    { intros t' H1 H2. apply fired_idle; [done| |done]. unfold idle_timer. by rewrite Hs. }
    change (hears6 _ e) with (timer_off t e). destruct t; try ignored Hi.
    + apply fired_resend; [done|by apply (fired_client k e), Hin|done].
    + eapply wp6_mono; [apply start_ok; [mem|done|by apply Calm_fired]|by intros _ k' e' [H _]].
    + apply leaseOutranks_ok. split; [by apply Hi|done].
    + apply leaseOutranks_ok. split; [by apply Hi|done].
    + apply wp6_bind, wp6_journal. cbv beta. apply delayed_ok; [apply randomDelay_nonneg|by apply Hi|by right].
Qed.

(** ** Duplicate address detection *)

Lemma abandoned_ok k e : BE p k e -> wp (dropPending ;; restartDiscovery now rnd) (fun _ => Inv6 p) k e.
Proof. intros HB. apply wp6_bind, dropped_ok; [done|]. intros k' HC. by apply restartDiscovery_ok. Qed.

Lemma BE_fired k e t : Inv6 p k e -> t <> Timer6Expire -> BE p k (timer_off t e).
Proof. intros HI Ht. apply BE_off; [done|by apply Inv6_BE]. Qed.

Lemma dad_ok ev k e : Inv6 p k e -> nstate k = State6DAD -> input_ok e ev -> ev <> Ev6TimerFired Timer6Expire ->
  wp (stepDAD6 now rnd ev) (fun _ => Inv6 p) k (hears6 ev e).
Proof.
  intros HI Hs Hin Hx. unfold stepDAD6. apply wp6_bind, wp6_get.
  assert (Hd : forall e1, BE p k e1 -> clear e1 = clear e -> asked e1 = asked e -> nmsgType k = MsgDecline6 ->
    wp (finishDecline now rnd) (fun _ => Inv6 p) k e1).
  { intros e1 HB Ec Ea Ht. apply finishDecline_ok; try done. intros Hst. destruct HI as (_&_&_&Hda). specialize (Hda Hst).
    unfold Dad, pending_ok in *. by rewrite Ec, Ea. }
  destruct ev as [| |msg raw dst|t| | | | | | | | |a dup|]; try quiet_event Hs HI.
  - destruct (Z.eqb_spec (nmsgType k) MsgDecline6) as [Ht|Ht]; cbn [negb].
    + apply admitted_ok; [done|]. intros m _. destruct (negb _); [by apply ignored_ok|]. apply wp6_bind, wp6_journal.
      by apply Hd; [apply Inv6_BE|..].
    + apply wp6_bind, countRapidDiscard_still. intros [] k' Ha. apply ignored_ok. by eapply Inv6_alike.
  - destruct t; try quiet_event Hs HI; [|by destruct Hx|].
    + change (hears6 _ e) with (timer_off Timer6Retransmit e). destruct (Z.eqb_spec (nmsgType k) MsgDecline6) as [Ht|Ht].
      * apply fired_resend; [done|by apply (fired_client k e), Hin|]. intros f [= <-]. apply wp6_bind, wp6_journal.
        by apply Hd; [apply BE_fired|..].
      * apply ignored_ok, fired_idle; [done| |done]. unfold idle_timer. rewrite Hs. cbn. split; [done|by right].
    + apply wp6_bind, wp6_cancel, wp6_bind. eapply failed_BE; [by apply (BE_off p k _ Timer6DAD); [|apply BE_fired]|].
      intros e1 H1. by apply abandoned_ok.
  - apply wp6_bind, wp6_journal. by apply abandoned_ok, Inv6_BE.
  - by apply takeDADResult_ok.
Qed.

(** ** The bound states *)

Lemma loseBound_ok n k e : Calm p k e -> wp (loseBound now rnd n) (fun _ => Inv6 p) k e.
Proof.
  intros HC. unfold loseBound. apply wp6_bind, wp6_get, wp6_bind, wp6_journal, wp6_bind, lost_ok; [done|].
  intros k1 e1 H1. apply declineSet_ok; [exact Hcfg|done|done].
Qed.

Lemma renewedNow_ok (b : bool) k e : Calm p k e ->
  wp (if b then enterRenewing now rnd else enterRebinding now rnd) (fun _ => Inv6 p) k e.
Proof.
  intros HC. destruct b; [eapply wp6_mono; [by apply enterRenewing_ok|]|eapply wp6_mono; [by apply enterRebinding_ok|]];
    by intros _ k' e' [H _].
Qed.

(** No Release is in flight in the states that hold a lease. *)
Lemma releasing_ok k e : Inv6 p k e -> nstate k = State6Bound \/ nstate k = State6Renewing \/ nstate k = State6Rebinding ->
  wp (release now rnd) (fun _ => Inv6 p) k e.
Proof.
  intros HI Hs. eapply wp6_mono; [apply release_ok|by intros _ k' e' [H _]].
  - apply Inv6_Calm; [done|]. by destruct Hs as [-> | [-> | ->]].
  - intros Hm. destruct HI as (_&_&HD&_). destruct (HD Hm) as [Hf|Hf]; [by left|right]. revert Hf. unfold driven6.
    destruct Hs as [-> | [-> | ->]]; cbn [exchange_of]; [by intros ->|by intros [-> _]..].
Qed.

Lemma boundState_ok ev k e : Inv6 p k e -> nstate k = State6Bound -> input_ok e ev -> ev <> Ev6TimerFired Timer6Expire ->
  wp (stepBound6 now rnd ev) (fun _ => Inv6 p) k (hears6 ev e).
Proof.
  intros HI Hs Hin Hx. unfold stepBound6. apply wp6_bind, wp6_get. assert (Hn : nstate k <> State6DAD) by (by rewrite Hs).
  assert (HC : Calm p k e) by (by apply Inv6_Calm).
  destruct ev as [| |msg raw dst|t| | | | | | | | |a dup|]; try quiet_event Hs HI.
  - apply wp6_bind, countRapidDiscard_still. intros [] k' Ha. apply ignored_ok. by eapply Inv6_alike.
  - change (hears6 _ e) with (timer_off t e).
    assert (Hi : forall t, t <> Timer6Expire -> Inv6 p k (timer_off t e)).
    { intros t' H1. apply fired_idle; [done| |done]. unfold idle_timer. by rewrite Hs. }
    destruct t; try ignored Hi.
    + eapply wp6_mono; [apply start_ok; [mem|done|by apply Calm_fired]|by intros _ k' e' [H _]].
    + by apply (renewedNow_ok true), Calm_fired.
    + by apply (renewedNow_ok false), Calm_fired.
    + apply wp6_bind, wp6_journal, wp6_bind, wp6_modify, wp6_bind, wp6_modify. cbv beta.
      apply delayed_ok; [apply randomDelay_nonneg| |by left]. pose proof (Hi Timer6Refresh ltac:(done)) as H. same H.
  - by apply loseBound_ok.
  - apply releasing_ok; [exact HI|by left].
  - assert (H : Inv6 p k (hears6 (Ev6DADResult a dup) e)) by (apply stale_ok; auto).
    destruct dup; cbn [negb]; [|by apply ignored_ok]. by apply loseBound_ok, Inv6_Calm.
Qed.

Lemma renewal_ok ev k e : Inv6 p k e -> nstate k = State6Renewing \/ nstate k = State6Rebinding -> input_ok e ev ->
  ev <> Ev6TimerFired Timer6Expire -> wp (stepRenewal6 now rnd ev) (fun _ => Inv6 p) k (hears6 ev e).
Proof.
  intros HI Hs Hin Hx. unfold stepRenewal6. apply wp6_bind, wp6_get. assert (Hn : nstate k <> State6DAD) by (by destruct Hs as [-> | ->]).
  assert (HC : Calm p k e) by (by apply Inv6_Calm).
  assert (Hi : forall t, t <> Timer6Expire -> t <> Timer6Retransmit -> Inv6 p k (timer_off t e)).
  { intros t' H1 H2. apply fired_idle; [done| |done]. unfold idle_timer. by destruct Hs as [-> | ->]. }
  destruct ev as [| |msg raw dst|t| | | | | | | | |a dup|]; unfold eventIgnored, timerIgnored;
    try ignored HI.
  - apply admitted_ok; [done|]. intros m _. destruct (negb _); [by apply ignored_ok|by apply takeReply_ok].
  - change (hears6 _ e) with (timer_off t e). destruct t; try ignored Hi.
    + destruct (nresumeRebind k); (apply fired_resend; [done|by apply (fired_client k e), Hin|]); [|done].
      intros f [= <-]. w6. by apply continueFromResume_ok, Calm_fired.
    + destruct (state6_eqb _ _); [by apply (renewedNow_ok false), Calm_fired|]. apply ignored_ok; by apply Hi.
  - by apply loseBound_ok.
  - apply releasing_ok; [exact HI|by right].
  - apply ignored_ok, stale_ok; auto.
Qed.

(** ** The step *)

Lemma stepState_ok ev k e : Inv6 p k e -> input_ok e ev -> ev <> Ev6TimerFired Timer6Expire ->
  wp (stepState6 now rnd ev) (fun _ => Inv6 p) k (hears6 ev e).
Proof.
  intros HI Hin Hx. unfold stepState6. apply wp6_bind, wp6_get. destruct (nstate k) eqn:Hs.
  - by apply stopped_ok.
  - by apply init_ok.
  - by apply selecting_ok.
  - by apply requesting_ok.
  - by apply confirming_ok.
  - by apply information_ok.
  - by apply dad_ok.
  - by apply discovering_ok.
  - by apply boundState_ok.
  - apply renewal_ok; auto.
  - apply renewal_ok; auto.
Qed.

Lemma noteActionFailed_ok id reason k e : Inv6 p k e -> wp (noteActionFailed id reason) (fun _ => Inv6 p) k e.
Proof.
  intros HI. unfold noteActionFailed. apply wp6_bind, wp6_get. cbv zeta. apply wp6_bind, wp6_modify, wp6_bind, wp6_journal. cbv beta.
  assert (H : Inv6 p (k <| nsendFailures := i64 (nsendFailures k + 1) |>) e) by same HI.
  destruct (_ || _ || _); [by w6|]. destruct (_ <=? _); [|by w6].
  apply wp6_bind. eapply failed_BE; [by apply Inv6_BE|]. intros e' H'.
  eapply wp6_mono; [by apply halt_ok|]. by intros _ k2 e2 [H2 _].
Qed.

(** A timer of the stateless modes fires in one of them. *)
Lemma stateless k e t : Inv6 p k e -> ever e t = true -> t = Timer6SLAAC \/ t = Timer6AutoFallback -> P6Mode p <> Mode6DHCP.
Proof.
  intros HI He Ht Hm. destruct HI as ((_&_&_&_&_&_&_&_&H9&_)&_). destruct (H9 Hm) as (_ & E1 & E2 & _).
  destruct Ht as [-> | ->]; congruence.
Qed.

Theorem step6_ok ev k e : Inv6 p k e -> input_ok e ev -> wp (step6 now rnd ev) (fun _ => Inv6 p) k (hears6 ev e).
Proof.
  intros HI Hin. unfold step6. destruct (ageRouters_ok k) as (k' & Hage & HI'). apply wp6_bind, Hage. apply HI' in HI.
  revert HI. clear Hage HI'. generalize k'. clear k k'. intros k HI.
  assert (Hst : ev <> Ev6TimerFired Timer6Expire -> wp (stepState6 now rnd ev) (fun _ => Inv6 p) k (hears6 ev e))
    by (by apply stepState_ok).
  destruct ev as [| |[msg|] raw dst|t| | | | |id reason| | |ra|a dup|name]; try (by apply Hst).
  - destruct (_ =? _); [by apply takeReconfigure_ok|by apply Hst].
  - destruct t; try (by apply Hst); change (hears6 (Ev6TimerFired ?t) e) with (timer_off t e).
    + by apply expireLease_ok.
    + by apply routerSolicitTick_ok.
    + assert (Hm : P6Mode p <> Mode6DHCP) by (eapply stateless; [exact HI|apply Hin|auto]).
      eapply wp6_mono; [apply slaacTick_BE; [done|done|by apply BE_fired]|]. cbv beta. intros _ k2 e2 H2. by apply BE_Inv6.
    + assert (Hm : P6Mode p <> Mode6DHCP) by (eapply stateless; [exact HI|apply Hin|auto]).
      eapply wp6_mono; [apply autoFallbackFired_BE; [done|done|by apply BE_fired]|]. cbv beta. intros _ k2 e2 H2. by apply BE_Inv6.
  - w6. exact HI.
  - by apply noteActionFailed_ok.
  - w6. exact HI.
  - by apply observeRouter_ok.
  - by apply takeHostname_ok.
Qed.
End run.
