(* ===== verification/Machine6Props.v ===== *)
(** * What every run of the DHCPv6 machine promises

    Theorems about every machine [New6] makes of an accepted configuration, after
    any inputs: the next step runs, what it asks for is allowed, a state that
    waits is driven, and a lease is announced, checked and ended as it should. *)

From S2P Require Import Prelude NetAddr Options Codec Forcerenew Arp Backoff Kinds Lease Dhcp6 Rkap Backoff6 Icmpv6 Lease6 Slaac Params6 Router6 Outward Core6 Machine6 Machine6Steps Machine6Spec Machine6Logic Machine6Msgs Machine6Inv Machine6Slaac Machine6Bound Machine6Ends Machine6Reply Machine6Run.

(** ** The invariant holds of every reachable machine *)

Lemma New6_Inv6 p m : config_ok p -> New6 p = inr m -> Inv6 p (ncore m) env6_0.
Proof.
  intros Hc. unfold New6. rewrite (cg_valid p Hc). intros [= <-]. cbn [ncore]. split_and!.
  - base_split; try done; try apply table_zero_ok; try apply table_wf_zero.
    + apply only_maxima_refl.
    + cbn. intros r Hr. split; [done|]. by apply (cg_resume p Hc).
    + intros _. split; [|set_solver]. intros a Ha. cbn in Ha. by apply elem_of_nil in Ha.
  - by intros ?.
  - intros _. right. done.
  - intros _. by split_and!.
Qed.

Lemma wp6_run {A} p (c : M6 A) Q k e n : wp6 p c Q k e ->
  exists a s acts, c (mkSt6 k n []) = Some (a, s) /\ out6 s = acts /\ trace_ok6 p e (map Act6Body acts) /\
    Q a (core6 s) (final6 e (map Act6Body acts)).
Proof.
  Transparent wp6. intros H. specialize (H n []). destruct (c (mkSt6 k n [])) as [[a s]|]; [|done].
  destruct H as (acts & Ho & H). exists a, s, acts. done.
Qed.
#[global] Opaque wp6.

(** One step, of any machine the invariant holds of. *)
Lemma Step6_ok p m e now rnd ev : config_ok p -> Inv6 p (ncore m) e -> input_ok e ev ->
  exists m' s acts, Step6 m now rnd ev = Some (m', s, acts) /\ trace_ok6 p (hears6 ev e) (map Act6Body acts) /\
    Inv6 p (ncore m') (final6 (hears6 ev e) (map Act6Body acts)).
Proof.
  intros Hc HI Hin. destruct (wp6_run p _ _ _ _ (nnextAction m) (step6_ok p Hc now rnd ev (ncore m) e HI Hin)) as (a & s & acts & E & Eo & Ht & H).
  unfold Step6. rewrite E, Eo. eexists _, _, _. split; [done|]. by split.
Qed.

Lemma reach6_Inv6 p m e : config_ok p -> reach6 p m e -> Inv6 p (ncore m) e.
Proof.
  intros Hc. induction 1 as [m Hn|m e now rnd ev m' s acts Hr IH Hin Hs]; [by apply New6_Inv6|].
  destruct (Step6_ok p m e now rnd ev Hc IH Hin) as (m2 & s2 & acts2 & E & _ & H). rewrite Hs in E. by injection E as -> -> ->.
Qed.

(** ** A concrete run

    A client of a managed network: Solicit, Advertise, Request, Reply, the
    duplicate check, T1, and a release. *)

(** Inputs in order, where each may arrive. *)
Definition inputb (e : Env6) (ev : Event6) : bool :=
  match ev with
  | Ev6RouterAdvert (Some _) => false
  | Ev6TimerFired t => ever e t && (negb (bool_decide (t = Timer6Retransmit)) || armed6 e t)
  | _ => true
  end.

Lemma inputb_ok e ev : inputb e ev = true -> input_ok e ev.
Proof.
  destruct ev as [| | |t| | | | | | | |[ra|]| |]; cbn; try done. intros [He Ha]%andb_prop. split; [done|]. intros ->.
  by rewrite bool_decide_true in Ha.
Qed.

Fixpoint walk6 (m : Machine6) (e : Env6) (evs : list (Instant * Z * Event6)) : option (Machine6 * Env6) :=
  match evs with
  | [] => Some (m, e)
  | (now, rnd, ev) :: evs =>
    if inputb e ev then
      match Step6 m now rnd ev with
      | Some (m', _, acts) => walk6 m' (final6 (hears6 ev e) (map Act6Body acts)) evs
      | None => None
      end
    else None
  end.

Lemma walk6_reach p evs : forall m e m' e', reach6 p m e -> walk6 m e evs = Some (m', e') -> reach6 p m' e'.
Proof.
  induction evs as [|[[now rnd] ev] evs IH]; intros m e m' e' Hr; cbn [walk6]; [by intros [= <- <-]|].
  destruct (inputb e ev) eqn:Hin; [|done]. destruct (Step6 m now rnd ev) as [[[m1 s] acts]|] eqn:Es; [|done].
  apply IH. eapply reach6_step; [exact Hr|by apply inputb_ok|exact Es].
Qed.

Definition managed_params : Params6 := sample_params6 <| P6Mode := Mode6DHCP |> <| P6IAID := 9 |>.

Definition octets (x : wire bytes) : bytes := match x with Ok v => v | _ => [] end.
Definition sample_addr : Addr := Addr6 (Z.shiftl 0x20010db8 96 + 5) [].
Definition sample_na : bytes :=
  octets (EncodeIANA (mkIANA 9 0 0 [mkOptionV6 OptV6IAAddr (octets (EncodeIAAddr (mkIAAddr sample_addr 3600 7200 [])))])).
Definition sample_msg (t : MessageTypeV6) (xid : Z) : Event6 :=
  Ev6Received (Some (mkMessageV6 t xid [mkOptionV6 OptV6ClientID (P6DUID managed_params);
    mkOptionV6 OptV6ServerID [0; 3; 0; 1; 2; 0; 0; 0; 0; 9]; mkOptionV6 OptV6IANA sample_na])) [] AddrZero.

Definition sample_inputs6 : list (Instant * Z * Event6) :=
  [(1 * Second, 7, Ev6Start); (2 * Second, 8, Ev6TimerFired Timer6Delay); (3 * Second, 9, sample_msg MsgAdvertise 8);
   (4 * Second, 10, Ev6TimerFired Timer6Retransmit); (5 * Second, 11, sample_msg MsgReply 10);
   (6 * Second, 12, Ev6DADResult sample_addr false); (7 * Second, 13, Ev6TimerFired Timer6Renew)].

(** A new machine after some inputs, and what the observer knows. *)
Definition run_to (p : Params6) (evs : list (Instant * Z * Event6)) : option (Machine6 * Env6) :=
  match New6 p with inr m => walk6 m env6_0 evs | inl _ => None end.

Definition sample_run (n : nat) : option (Machine6 * Env6) := run_to managed_params (take n sample_inputs6).

Lemma managed_ok : config_ok managed_params.
Proof.
  split; [vm_compute; reflexivity| |by intros r [=]].
  unfold are_bytes. cbn. repeat (apply Forall_cons; split; [unfold is_byte; lia|]). by apply Forall_nil.
Qed.

Lemma run_to_reach p evs m e : run_to p evs = Some (m, e) -> reach6 p m e.
Proof. unfold run_to. destruct (New6 p) as [|m0] eqn:En; [done|]. apply walk6_reach. by constructor. Qed.

(** After six inputs it is bound, after seven it is renewing. *)
Lemma sample_states : option_map (fun r => nstate (ncore r.1)) (sample_run 6) = Some State6Bound /\
  option_map (fun r => nstate (ncore r.1)) (sample_run 7) = Some State6Renewing.
Proof. split; vm_compute; reflexivity. Qed.

Lemma sample_at n st : option_map (fun r => nstate (ncore r.1)) (sample_run n) = Some st ->
  exists m e, sample_run n = Some (m, e) /\ reach6 managed_params m e /\ nstate (ncore m) = st.
Proof.
  destruct (sample_run n) as [[m e]|] eqn:E; [|done]. intros [= <-]. exists m, e. split; [done|]. split; [by eapply run_to_reach|done].
Qed.

(** The release that follows says so to the server. *)
Definition releases (b : ActionBody6) : bool :=
  match b with Act6Send m _ => MType m =? MsgRelease6 | _ => false end.

(** Whether a step's actions have one that satisfies a test. *)
Definition finds {A} (f : ActionBody6 -> bool) (r : option (Machine6 * A * list Action6)) : bool :=
  match r with Some (_, _, acts) => existsb f (map Act6Body acts) | None => false end.

Lemma finds_some {A} f (r : option (Machine6 * A * list Action6)) : finds f r = true ->
  exists m' s acts b, r = Some (m', s, acts) /\ b ∈ map Act6Body acts /\ f b = true.
Proof.
  destruct r as [[[m' s] acts]|]; [|done]. intros (b & Hb & Hf)%existsb_exists.
  exists m', s, acts, b. split; [done|]. split; [by apply list_elem_of_In|done].
Qed.

Lemma run_finds p evs f now rnd ev :
  option_map (fun r => finds f (Step6 r.1 now rnd ev)) (run_to p evs) = Some true ->
  exists m e m' s acts b, reach6 p m e /\ Step6 m now rnd ev = Some (m', s, acts) /\ b ∈ map Act6Body acts /\ f b = true.
Proof.
  destruct (run_to p evs) as [[m e]|] eqn:E; [|done]. intros H.
  apply (f_equal (fun o => match o with Some b => b | None => false end)), finds_some in H as (m' & s & acts & b & H).
  exists m, e, m', s, acts, b. split; [by eapply run_to_reach|exact H].
Qed.

Lemma sample_release : exists m e m' s acts msg d, reach6 managed_params m e /\
  Step6 m (8 * Second) 14 Ev6Release = Some (m', s, acts) /\ Act6Send msg d ∈ map Act6Body acts /\ MType msg = MsgRelease6.
Proof.
  destruct (run_finds managed_params sample_inputs6 releases (8 * Second) 14 Ev6Release ltac:(vm_compute; reflexivity))
    as (m & e & m' & s & acts & b & Hr & Hs & Hb & Hf).
  destruct b as [msg d| | | | | | | | | | | |]; try discriminate Hf.
  exists m, e, m', s, acts, msg, d. split; [exact Hr|]. split; [exact Hs|]. split; [exact Hb|by apply Z.eqb_eq].
Qed.

(** ** The step *)

(** C2: Refinement of the observer's specification. From every configuration
    [New6] accepts whose link address is octets and whose remembered addresses
    are ones a lease can have named ([config_ok]), after any inputs [input_ok]
    admits, the next step on an input it admits does not panic, and every action
    of the step is allowed where it stands: each message has the shape of its
    type and goes to the servers' group, no start delay and no timer of a lease
    or of formed addresses is set for a negative time, a lease is announced when
    none is held, renewed or changed when one is, and lost as what was last
    announced; and for a client of managed mode that asks for no temporary
    addresses, no address of a lease is announced that a duplicate check has not
    cleared. [input_ok] admits every event at any time but for three: an
    advertisement's prefixes are addresses, as decoded ones are; a timer fires
    only after it was set once; and the retransmission timer fires only while it
    is armed. The runtime can deliver that fire late as well; what the machine
    does then is [late_retransmission] of Machine6Findings. *)
Theorem step6_refines p m e now rnd ev : config_ok p -> reach6 p m e -> input_ok e ev ->
  exists m' s acts, Step6 m now rnd ev = Some (m', s, acts) /\ trace_ok6 p (hears6 ev e) (map Act6Body acts).
Proof.
  intros Hc Hr Hin. destruct (Step6_ok p m e now rnd ev Hc (reach6_Inv6 p m e Hc Hr) Hin) as (m' & s & acts & E & H & _).
  by exists m', s, acts.
Qed.

Lemma step6_refines_witness : exists m e m' s acts, nstate (ncore m) = State6Renewing /\
  Step6 m (8 * Second) 14 Ev6Release = Some (m', s, acts) /\ trace_ok6 managed_params e (map Act6Body acts).
Proof.
  destruct (sample_at 7 _ (proj2 sample_states)) as (m & e & _ & Hr & Hs).
  destruct (step6_refines managed_params m e (8 * Second) 14 Ev6Release managed_ok Hr Logic.I) as (m' & s & acts & H).
  exists m, e, m', s, acts. exact (conj Hs H).
Defined.

(** C8: RFC 9915 sections 18.2.1 to 18.2.8. Every message sent in a step of a
    client [New6] made of a configuration [config_ok] allows, after any inputs
    [input_ok] admits and on one it admits (a retransmission only as it is
    armed: on a late fire a message of type 0 is sent, [late_retransmission]),
    has the shape of its type: its own Client Identifier once, a Server
    Identifier exactly where one is required (an Information-request may carry
    one), the identity associations of its type and no option of a code outside
    the ten; and it goes to the servers' group. *)
Theorem messages6_conform p m e now rnd ev m' s acts msg d : config_ok p -> reach6 p m e -> input_ok e ev ->
  Step6 m now rnd ev = Some (m', s, acts) -> Act6Send msg d ∈ map Act6Body acts ->
  conforms6 p msg /\ d = AllDHCPRelayAgentsAndServers.
Proof.
  intros Hc Hr Hin Hs Hm. destruct (Step6_ok p m e now rnd ev Hc (reach6_Inv6 p m e Hc Hr) Hin) as (m2 & s2 & acts2 & E & H & _).
  rewrite Hs in E. injection E as <- <- <-. apply list_elem_of_split in Hm as (l1 & l2 & Hl). rewrite Hl in H.
  apply trace_ok6_app in H as (_ & H & _). exact H.
Qed.

Lemma messages6_conform_witness : exists msg, MType msg = MsgRelease6 /\ conforms6 managed_params msg.
Proof.
  destruct sample_release as (m & e & m' & s & acts & msg & d & Hr & Hs & Hm & Ht).
  destruct (messages6_conform managed_params m e (8 * Second) 14 Ev6Release m' s acts msg d managed_ok Hr Logic.I Hs Hm) as [H _].
  exists msg. exact (conj Ht H).
Defined.

(** ** The lease *)

(** C5: What the client says of its lease is what it holds, after any inputs
    [input_ok] admits: the lease last announced and not lost since is the
    machine's. While it holds a granted lease (one not formed of advertised
    prefixes) that has an end in sight, or a part of which ends, the expiry
    timer is armed; and in managed mode without temporary addresses every
    address of the lease is one whose last duplicate check was answered and
    found it free. Of a formed lease, which the table of Slaac times, and of
    temporary addresses nothing more is said here. *)
Theorem lease6_invariant p m e : config_ok p -> reach6 p m e ->
  held e = (if nhaveLse (ncore m) then Some (nlease (ncore m)) else None) /\
  expiry_armed (ncore m) e /\
  (stateful p -> forall a, a ∈ laddrs (nlease (ncore m)) -> a ∈ clear e).
Proof.
  intros Hc Hr. destruct (reach6_Inv6 p m e Hc Hr) as (HB & HE & _). pose proof HB as (_&Hh&_&_&_&_&_&_&_&_&H11&_).
  split; [exact Hh|]. split; [exact HE|]. intros Hs. by apply (H11 Hs).
Qed.

Lemma lease6_invariant_witness : exists m e, nstate (ncore m) = State6Bound /\
  (stateful managed_params -> forall a, a ∈ laddrs (nlease (ncore m)) -> a ∈ clear e).
Proof.
  destruct (sample_at 6 _ (proj1 sample_states)) as (m & e & _ & Hr & Hs).
  destruct (lease6_invariant managed_params m e managed_ok Hr) as (_ & _ & H).
  exists m, e. exact (conj Hs H).
Defined.

(** ** Nothing waits for ever *)

(** C12: What a client of managed mode waits for, after any inputs [input_ok]
    admits and as long as it has reported no transport failure (a message it
    could not build, or too many sends that failed): a state with an exchange is
    in the exchange it names with the retransmission timer armed; INIT6 has the
    start delay armed; DAD6 has a check outstanding with its deadline armed or a
    Decline in flight with the retransmission timer; an Information-request or a
    Release in flight is timed; in BOUND6 no exchange is left over, and a
    granted lease held that has an end in sight has its expiry timer armed; and
    it is never in DISCOVERING6. Whether BOUND6 has a lease at all is not said
    ([detour_outlives_lease] of Machine6Findings ends in one without), nor
    anything after a transport failure ([empty_server_wedges]). *)
Theorem state6_is_driven p m e : config_ok p -> reach6 p m e -> P6Mode p = Mode6DHCP -> faulted e = false ->
  driven6 (ncore m) e /\ expiry_armed (ncore m) e.
Proof.
  intros Hc Hr Hm Hf. destruct (reach6_Inv6 p m e Hc Hr) as (_ & HE & HD & _). split; [|exact HE].
  destruct (HD Hm) as [Hx|Hx]; [congruence|exact Hx].
Qed.

Lemma sample_unfaulted : option_map (fun r => faulted r.2) (sample_run 7) = Some false.
Proof. vm_compute. reflexivity. Qed.

Lemma state6_is_driven_witness : exists m e, nstate (ncore m) = State6Renewing /\ driven6 (ncore m) e /\ expiry_armed (ncore m) e.
Proof.
  destruct (sample_at 7 _ (proj2 sample_states)) as (m & e & E & Hr & Hs).
  assert (Hf : faulted e = false).
  { pose proof sample_unfaulted as Hf. rewrite E in Hf. exact (f_equal (fun o => match o with Some b => b | None => true end) Hf). }
  exists m, e. exact (conj Hs (state6_is_driven managed_params m e managed_ok Hr eq_refl Hf)).
Defined.
