(* ===== verification/Machine6Local.v ===== *)
(** * What single methods of the DHCPv6 machine do

    Which messages are read, what a Reconfigure must prove, and that a replayed
    one never passes again.  [runs6] is the triple the exact accounts are stated
    in; [moves R] says that a method only moves the fields along [R], and is how a
    property of one field is carried through every method. *)

From S2P Require Import Prelude NetAddr Options Codec HmacMd5 Forcerenew Arp Backoff Kinds Lease Dhcp6 Rkap Backoff6 Icmpv6 Lease6 Slaac Params6 Router6 Outward Core6 Machine6 Machine6Steps Machine6Spec Machine6Msgs Machine6Props.

(** ** The triple *)

Definition runs6 {A} (c : M6 A) (Q : A -> Core6 -> list ActionBody6 -> Prop) (k : Core6) : Prop :=
  forall n o, match c (mkSt6 k n o) with
    | None => False
    | Some (a, s) => exists acts, out6 s = o ++ acts /\ Q a (core6 s) (map Act6Body acts)
    end.

Lemma runs6_ret {A} (a : A) Q k : Q a k [] -> runs6 (mret a) Q k.
Proof. intros H n o. exists []. by rewrite app_nil_r. Qed.

Lemma runs6_bind {A B} (c : M6 A) (f : A -> M6 B) Q k :
  runs6 c (fun a k' l => runs6 (f a) (fun b k'' l' => Q b k'' (l ++ l')) k') k -> runs6 (c ≫= f) Q k.
Proof.
  intros H n o. specialize (H n o). unfold mbind, M6_bind. destruct (c _) as [[a s]|]; [|done].
  destruct H as (acts & Ho & H). specialize (H (next6 s) (out6 s)). destruct s as [k' n' o']. cbn in *.
  destruct (f a _) as [[b s']|]; [|done]. destruct H as (acts' & Ho' & H). exists (acts ++ acts').
  by rewrite Ho', Ho, map_app, app_assoc.
Qed.

Lemma runs6_mono {A} (c : M6 A) (Q Q' : A -> Core6 -> list ActionBody6 -> Prop) k :
  runs6 c Q k -> (forall a k' l, Q a k' l -> Q' a k' l) -> runs6 c Q' k.
Proof.
  intros H HQ n o. specialize (H n o). destruct (c _) as [[a s]|]; [|done].
  destruct H as (acts & ? & ?). eauto.
Qed.

Lemma runs6_get Q k : Q k k [] -> runs6 get6 Q k.
Proof. intros H n o. exists []. by rewrite app_nil_r. Qed.
Lemma runs6_modify f Q k : Q tt (f k) [] -> runs6 (modify6 f) Q k.
Proof. intros H n o. exists []. by rewrite app_nil_r. Qed.
Lemma runs6_stamp b Q k : Q tt k [b] -> runs6 (stamp6 b) Q k.
Proof. intros H n o. by exists [mkAction6 n b]. Qed.
Lemma runs6_when (b : bool) c Q k : (b = true -> runs6 c Q k) -> (b = false -> Q tt k []) -> runs6 (when6 b c) Q k.
Proof. destruct b; intros H1 H2; [by apply H1|by apply runs6_ret, H2]. Qed.

Ltac r6step :=
  lazymatch goal with
  | |- runs6 (mret _) _ _ => apply runs6_ret
  | |- runs6 (_ ≫= _) _ _ => apply runs6_bind
  | |- runs6 get6 _ _ => apply runs6_get
  | |- runs6 (modify6 _) _ _ => apply runs6_modify
  | |- runs6 (journal6 _) _ _ => apply runs6_stamp
  end; cbv beta; cbn [app].
Ltac r6 := repeat r6step.

(** The fields every step begins with: the router table aged to [now]. *)
Definition aged (now : Instant) (k : Core6) : Core6 :=
  if roSeen (nrouter k)
  then let '(t, ro) := fill (nrouters k) now (nrouter k) in k <| nrouters := t |> <| nrouter := ro |> else k.

Lemma runs6_age {A} now (c : M6 A) Q k : runs6 c Q (aged now k) -> runs6 (ageRouters now ;; c) Q k.
Proof.
  unfold ageRouters, aged. intros H. r6. apply runs6_when; intros E; rewrite E in H; [|exact H].
  destruct (fill _ _ _) as [t ro]. r6. exact H.
Qed.

(** ** Which messages are read *)

(** Admission reads the exchange in flight and the client's own identifier. *)
Lemma admitWhy_aged now k msg : admitWhy (aged now k) msg = admitWhy k msg.
Proof. unfold aged. destruct (roSeen _); [|done]. by destruct (fill _ _ _). Qed.

Lemma nstate_aged now k : nstate (aged now k) = nstate k.
Proof. unfold aged. destruct (roSeen _); [|done]. by destruct (fill _ _ _). Qed.

Lemma Count_nonneg o c : 0 <= Count o c.
Proof. induction o as [|x o IH]; cbn; [done|]. destruct (_ =? _); lia. Qed.

Lemma same_counts k : k <| nrapidCounts := nrapidCounts k |> = k.
Proof. by destruct k. Qed.

(** C37: RFC 9915 sections 16.3 and 16.10.  A message is read only while an exchange
    is in flight, with that exchange's transaction id, one Server Identifier and
    the client's own Client Identifier; in every state with an exchange of its
    own, any other message changes the router table's age and one counter and
    emits one journal line. *)
Theorem admission6 k msg raw dst now rnd :
  match admitWhy k msg with
  | inl m => msg = Some m /\ nmsgType k <> 0 /\ MXID m = nxid k /\ Count (MOptionsV6 m) OptV6ServerID = 1 /\
      First (MOptionsV6 m) OptV6ClientID = Some (P6DUID (nparams k))
  | inr why =>
      is_Some (exchange_of (nstate k)) \/ nstate k = State6InfoRequesting ->
      (forall m, msg = Some m -> MType m <> MsgReconfigure) ->
      runs6 (step6 now rnd (Ev6Received msg raw dst)) (fun _ k' acts =>
        (exists c, k' = aged now k <| nrapidCounts := c |>) /\ acts = [Act6Journal why]) k
  end.
Proof.
  destruct (admitWhy k msg) as [m|why] eqn:E.
  - unfold admitWhy in E. destruct msg as [m0|]; [|discriminate E]. cbv zeta in E.
    destruct (Z.eqb_spec (nmsgType k) 0); [discriminate E|].
    destruct (Z.eqb_spec (MXID m0) (nxid k)); cbn [negb] in E; [|discriminate E].
    destruct (Z.eqb_spec (Count (MOptionsV6 m0) OptV6ServerID) 0); [discriminate E|].
    destruct (Z.ltb_spec 1 (Count (MOptionsV6 m0) OptV6ServerID)); [discriminate E|].
    destruct (First (MOptionsV6 m0) OptV6ClientID) as [cid|] eqn:Ec; [|discriminate E].
    destruct (sameDUID cid (P6DUID (nparams k))) eqn:Ed; cbn [negb] in E; [|discriminate E].
    injection E as <-. apply bytes_eqb_eq in Ed. subst cid. split_and!; try done.
    assert (0 <= Count (MOptionsV6 m0) OptV6ServerID) by apply Count_nonneg. lia.
  - intros Hst Hnr. unfold step6. apply runs6_age. rewrite <- (nstate_aged now) in Hst. rewrite <- (admitWhy_aged now) in E.
    assert (Hadm : forall Q, (forall c, Q None (aged now k <| nrapidCounts := c |>) [Act6Journal why]) ->
      runs6 (admit6 msg) Q (aged now k)).
    { intros Q H. unfold admit6. r6. rewrite E. r6. unfold countRapidDiscard. r6.
      apply runs6_when; intros _; r6; [apply H|]. specialize (H (nrapidCounts (aged now k))). by rewrite same_counts in H. }
    assert (Hs : runs6 (stepState6 now rnd (Ev6Received msg raw dst)) (fun _ k' acts =>
        (exists c, k' = aged now k <| nrapidCounts := c |>) /\ acts = [Act6Journal why]) (aged now k)).
    { unfold stepState6, stepSelecting6, stepRequesting6, stepConfirming6, stepInfoRequesting6, stepRenewal6. r6.
      destruct (nstate (aged now k)); try (destruct Hst as [[? [=]]|[=]]); r6; apply Hadm; intros c; r6; eauto. }
    destruct msg as [m|]; [|exact Hs]. destruct (Z.eqb_spec (MType m) MsgReconfigure) as [e|]; [|exact Hs].
    by destruct (Hnr m eq_refl).
Qed.

Definition stray6 : MessageV6 := mkMessageV6 MsgAdvertise 9 [].

Lemma selecting_reached : option_map (fun r => nstate (ncore r.1)) (sample_run 2) = Some State6Selecting.
Proof. vm_compute; reflexivity. Qed.

Lemma admission6_witness : exists m e why, reach6 managed_params m e /\ nstate (ncore m) = State6Selecting /\
  runs6 (step6 0 0 (Ev6Received (Some stray6) [] AddrZero)) (fun _ k' acts =>
    (exists c, k' = aged 0 (ncore m) <| nrapidCounts := c |>) /\ acts = [Act6Journal why]) (ncore m).
Proof.
  destruct (sample_at 2 _ selecting_reached) as (m & e & _ & Hr & Hs).
  pose proof (admission6 (ncore m) (Some stray6) [] AddrZero 0 0) as H.
  destruct (admitWhy (ncore m) (Some stray6)) as [x|why].
  - destruct H as ([= <-] & _ & _ & H & _). discriminate H.
  - exists m, e, why. split; [exact Hr|]. split; [exact Hs|]. apply H; [left; rewrite Hs; by eexists|]. intros x [= <-]. discriminate.
Defined.

(** ** Moving along a relation *)

Section moves.
Context (R : Core6 -> Core6 -> Prop) `{!PreOrder R}.

Definition moves {A} (c : M6 A) : Prop := forall s a s', c s = Some (a, s') -> R (core6 s) (core6 s').

Lemma moves_ret {A} (a : A) : moves (mret a).
Proof. intros s b s' [= <- <-]. reflexivity. Qed.

Lemma moves_bind {A B} (c : M6 A) (f : A -> M6 B) : moves c -> (forall a, moves (f a)) -> moves (c ≫= f).
Proof.
  intros Hc Hf s b s' H. unfold mbind, M6_bind in H. destruct (c s) as [[a s1]|] eqn:E; [|discriminate H].
  etransitivity; [by eapply Hc|by eapply Hf].
Qed.

Lemma moves_get : moves get6.
Proof. intros s b s' [= <- <-]. reflexivity. Qed.
Lemma moves_modify f : (forall k, R k (f k)) -> moves (modify6 f).
Proof. intros H s b s' [= <- <-]. apply H. Qed.
Lemma moves_stamp b : moves (stamp6 b).
Proof. intros s x s' [= <- <-]. reflexivity. Qed.
Lemma moves_panic {A} : moves (panic6 (A := A)).
Proof. by intros s x s' H. Qed.
Lemma moves_lift {A} (x : option A) : moves (lift6 x).
Proof. destruct x; [apply moves_ret|apply moves_panic]. Qed.
Lemma moves_liftok {A} (x : wire A) : moves (liftok6 x).
Proof. destruct x; (apply moves_ret || apply moves_panic). Qed.
Lemma moves_liftw {A} (x : wire A) : moves (liftw6 x).
Proof. destruct x; (apply moves_ret || apply moves_panic). Qed.
Lemma moves_forM {A} (l : list A) (f : A -> M6 unit) : (forall x, moves (f x)) -> moves (forM6 l f).
Proof. intros H. induction l as [|x l IH]; [apply moves_ret|]. by apply moves_bind. Qed.
Lemma moves_when b c : moves c -> moves (when6 b c).
Proof. intros H. destruct b; [exact H|apply moves_ret]. Qed.
End moves.

(** A field written from its own old value. *)
Lemma moves_update R `{!PreOrder R} {A} (f : Core6 -> Core6 -> Core6) (g : Core6 -> unit -> M6 A) :
  (forall m, R m (f m m)) -> (forall m a, moves R (g m a)) -> moves R (get6 ≫= fun m => modify6 (f m) ≫= g m).
Proof.
  intros Hf Hg s a s' H. unfold mbind, M6_bind, get6, modify6 in H. etransitivity; [apply Hf|].
  exact (Hg _ _ (mkSt6 _ _ _) _ _ H).
Qed.

(** One step; a method without a lemma is unfolded. *)
Create HintDb moves.

Ltac called c := lazymatch c with ?f _ => called f | _ => c end.

Ltac move_step :=
  lazymatch goal with
  | |- moves ?R (mret _) => apply (moves_ret R)
  | |- moves ?R (get6 ≫= fun m => modify6 (@?f m) ≫= @?g m) => apply (moves_update R f g); intros ?; [solve [auto 1 with moves]|intros ?]
  | |- moves ?R (_ ≫= _) => apply (moves_bind R); [|intros ?]
  | |- moves ?R get6 => apply (moves_get R)
  | |- moves ?R (modify6 _) => apply (moves_modify R); intros ?; solve [auto 1 with moves]
  | |- moves ?R (stamp6 _) => apply (moves_stamp R)
  | |- moves ?R (lift6 _) => apply (moves_lift R)
  | |- moves ?R (liftok6 _) => apply (moves_liftok R)
  | |- moves ?R (liftw6 _) => apply (moves_liftw R)
  | |- moves ?R (forM6 _ _) => apply (moves_forM R); intros ?
  | |- moves ?R (when6 _ _) => apply (moves_when R)
  | |- moves ?R (let _ := _ in _) => cbv zeta
  | |- moves ?R (if ?b then _ else _) => destruct b
  | |- moves ?R (match ?x with _ => _ end) => destruct x
  | |- moves ?R ((fun _ => _) _) => cbv beta
  | |- moves ?R ?c => first [solve [auto 2 with moves nocore] | let h := called c in unfold h]
  end.
Ltac moved := intros; repeat first [progress cbv beta iota zeta | move_step].

Lemma rememberNew_incl l addrs : l ⊆ rememberNew l addrs.
Proof.
  revert l. induction addrs as [|a addrs IH]; intros l; cbn; [done|]. etrans; [|apply IH].
  destruct (containsAddr l a); [done|]. intros x Hx. apply elem_of_app. by left.
Qed.

Lemma rememberNew_all l addrs : addrs ⊆ rememberNew l addrs.
Proof.
  revert l. induction addrs as [|a addrs IH]; intros l; [by intros x ?%elem_of_nil|]. intros x [->|Hx]%elem_of_cons; cbn; [|by apply IH].
  apply (rememberNew_incl _ addrs). destruct (containsAddr l a) eqn:E; [by apply containsAddr_in|]. apply elem_of_app. right. by left.
Qed.

(** The table of reconfigure keys, the declined addresses, the parameters and the
    addresses a Decline in flight names are each written in one or two places; a
    step moves along any order those places, and every change that leaves the
    first three alone and at most forgets the last, move along.  A Decline names
    what is remembered already: that is where the order of two assignments of
    [declineSet] counts. *)
Section keys.
Context (R : Core6 -> Core6 -> Prop) `{!PreOrder R}.
Context (Hkey : forall k k', nreconf k' = nreconf k -> ndeclined k' = ndeclined k -> nparams k' = nparams k ->
  ndeclining k' = ndeclining k \/ ndeclining k' = [] -> R k k').
Context (Hdecl : forall k l, R k (k <| ndeclined := rememberNew (ndeclined k) l |>)).
Context (Hname : forall k l, l ⊆ ndeclined k -> R k (k <| ndeclining := l |>)).
Context (Hmax : forall msg, moves R (applyMaxRT msg)).
Context (Hnote : forall msg, moves R (noteReconfigureKey msg)).
Context (Hrec : forall now rnd msg raw dst, moves R (takeReconfigure now rnd msg raw dst)).

#[local] Hint Extern 0 (R _ _) => apply Hkey; [reflexivity..|first [left; reflexivity|right; reflexivity]] : moves.
#[local] Hint Resolve Hdecl Hmax Hnote Hrec : moves.

Lemma transmit_moves now : moves R (transmit now).
Proof. moved. Qed.
#[local] Hint Resolve transmit_moves : moves.
Lemma startExchangeAnswering_moves now rnd t sid : moves R (startExchangeAnswering now rnd t sid).
Proof. moved. Qed.
#[local] Hint Resolve startExchangeAnswering_moves : moves.
Lemma halt_moves r : moves R (halt r).
Proof. moved. Qed.
#[local] Hint Resolve halt_moves : moves.
Lemma armDeadline_moves now t ts : moves R (armDeadline now t ts).
Proof. moved. Qed.
#[local] Hint Resolve armDeadline_moves : moves.
Lemma startDAD_moves addrs : moves R (startDAD addrs).
Proof. moved. Qed.
#[local] Hint Resolve startDAD_moves : moves.
Lemma seedLoop_moves now addrs : moves R (seedLoop now addrs).
Proof. revert addrs. induction addrs; intros; cbn; moved; auto with moves. Qed.
#[local] Hint Resolve seedLoop_moves : moves.
Lemma enterBoundSLAAC_moves now rnd : moves R (enterBoundSLAAC now rnd).
Proof. moved. Qed.
#[local] Hint Resolve enterBoundSLAAC_moves : moves.
Lemma reportSLAAC_moves now rnd : moves R (reportSLAAC now rnd).
Proof. moved. Qed.
#[local] Hint Resolve reportSLAAC_moves : moves.
Lemma beginSLAAC_moves now rnd : moves R (beginSLAAC now rnd).
Proof. moved. Qed.
#[local] Hint Resolve beginSLAAC_moves : moves.
Lemma begin_moves now rnd : moves R (begin now rnd).
Proof. moved. Qed.
#[local] Hint Resolve begin_moves : moves.
Lemma restartDiscovery_moves now rnd : moves R (restartDiscovery now rnd).
Proof. moved. Qed.
#[local] Hint Resolve restartDiscovery_moves : moves.
Lemma expireLease_moves now rnd : moves R (expireLease now rnd).
Proof. moved. Qed.
#[local] Hint Resolve expireLease_moves : moves.
Lemma enterRebinding_moves now rnd : moves R (enterRebinding now rnd).
Proof. moved. Qed.
#[local] Hint Resolve enterRebinding_moves : moves.
Lemma enterRenewing_moves now rnd : moves R (enterRenewing now rnd).
Proof. moved. Qed.
#[local] Hint Resolve enterRenewing_moves : moves.
Lemma announceHostname6_moves now rnd : moves R (announceHostname6 now rnd).
Proof. moved. Qed.
#[local] Hint Resolve announceHostname6_moves : moves.
Lemma takeHostname6_moves now rnd name : moves R (takeHostname6 now rnd name).
Proof. moved. Qed.
#[local] Hint Resolve takeHostname6_moves : moves.
Lemma enterBound_moves now rnd l : moves R (enterBound now rnd l).
Proof. moved. Qed.
#[local] Hint Resolve enterBound_moves : moves.
Lemma declineSet_moves now rnd srv addrs temp then_ : moves R (declineSet now rnd srv addrs temp then_).
Proof.
  unfold declineSet. destruct (_ =? _)%nat; [moved|]. intros s a s'. unfold mbind at 1 2, M6_bind at 1 2, get6, modify6 at 1.
  set (k1 := core6 s <| ndeclined := _ |>). intros H. transitivity k1; [apply Hdecl|]. change k1 with (core6 (mkSt6 k1 (next6 s) (out6 s))).
  revert H. generalize (next6 s), (out6 s). intros n o.
  assert (Hk : addrs ⊆ ndeclined k1) by (unfold k1; apply rememberNew_all). clearbody k1. destruct (_ =? _)%nat.
  { intros H. revert H. apply (moves_bind R); [apply (moves_stamp R)|]. intros []. moved. }
  unfold mbind at 1 2, M6_bind at 1 2, modify6 at 1 2. cbn [core6 next6 out6].
  set (k2 := k1 <| nserver := srv |>). intros H. transitivity k2; [auto 1 with moves|].
  transitivity (k2 <| ndeclining := addrs |>); [by apply Hname|].
  revert H. set (k3 := k2 <| ndeclining := addrs |>). change k3 with (core6 (mkSt6 k3 n o)) at 2. generalize (mkSt6 k3 n o). intros s3 H. revert s3 a s' H.
  match goal with |- forall s a s', ?c s = _ -> _ => change (moves R c) end. moved.
Qed.
#[local] Hint Resolve declineSet_moves : moves.
Lemma finishDecline_moves now rnd : moves R (finishDecline now rnd).
Proof. moved. Qed.
#[local] Hint Resolve finishDecline_moves : moves.
Lemma badLoop_moves src bad retried : moves R (badLoop src bad retried).
Proof. revert retried. induction bad; intros; cbn; moved; auto with moves. Qed.
#[local] Hint Resolve badLoop_moves : moves.
Lemma finishSLAACDAD_moves now rnd : moves R (finishSLAACDAD now rnd).
Proof. moved. Qed.
#[local] Hint Resolve finishSLAACDAD_moves : moves.
Lemma takeDADResult_moves now rnd a dup : moves R (takeDADResult now rnd a dup).
Proof. moved. Qed.
#[local] Hint Resolve takeDADResult_moves : moves.
Lemma release_moves now rnd : moves R (release now rnd).
Proof. moved. Qed.
#[local] Hint Resolve release_moves : moves.
Lemma admit_moves msg : moves R (admit6 msg).
Proof. moved. Qed.
#[local] Hint Resolve admit_moves : moves.
Lemma selectAndRequest_moves now rnd : moves R (selectAndRequest now rnd).
Proof. moved. Qed.
#[local] Hint Resolve selectAndRequest_moves : moves.
Lemma takeAdvertise_moves now rnd msg : moves R (takeAdvertise now rnd msg).
Proof. moved. Qed.
#[local] Hint Resolve takeAdvertise_moves : moves.
Lemma continueFromResume_moves now rnd how : moves R (continueFromResume now rnd how).
Proof. moved. Qed.
#[local] Hint Resolve continueFromResume_moves : moves.
Lemma endReconfigureDetour_moves : moves R (endReconfigureDetour).
Proof. moved. Qed.
#[local] Hint Resolve endReconfigureDetour_moves : moves.
Lemma takeConfig_moves now msg : moves R (takeConfig now msg).
Proof. moved. Qed.
#[local] Hint Resolve takeConfig_moves : moves.
Lemma applyAdvertLoop_moves now l changed : moves R (applyAdvertLoop now l changed).
Proof. revert changed. induction l; intros; cbn; moved; auto with moves. Qed.
#[local] Hint Resolve applyAdvertLoop_moves : moves.
Lemma deprecateLoop_moves now l : moves R (deprecateLoop now l).
Proof. induction l; intros; cbn; moved; auto with moves. Qed.
#[local] Hint Resolve deprecateLoop_moves : moves.
Lemma observeSLAAC_moves now rnd ra : moves R (observeSLAAC now rnd ra).
Proof. moved. Qed.
#[local] Hint Resolve observeSLAAC_moves : moves.
Lemma slaacTick_moves now rnd : moves R (slaacTick now rnd).
Proof. moved. Qed.
#[local] Hint Resolve slaacTick_moves : moves.
Lemma countUnusedPrefixes_moves ra : moves R (countUnusedPrefixes ra).
Proof. moved. Qed.
#[local] Hint Resolve countUnusedPrefixes_moves : moves.
Lemma deferPrefixes_moves now ra : moves R (deferPrefixes now ra).
Proof. moved. Qed.
#[local] Hint Resolve deferPrefixes_moves : moves.
Lemma fallbackLoop_moves now l changed : moves R (fallbackLoop now l changed).
Proof. revert changed. induction l; intros; cbn; moved; auto with moves. Qed.
#[local] Hint Resolve fallbackLoop_moves : moves.
Lemma autoFallbackFired_moves now rnd : moves R (autoFallbackFired now rnd).
Proof. moved. Qed.
#[local] Hint Resolve autoFallbackFired_moves : moves.
Lemma observeRouter_moves now rnd ra : moves R (observeRouter now rnd ra).
Proof. moved. Qed.
#[local] Hint Resolve observeRouter_moves : moves.
Lemma routerSolicitTick_moves now rnd : moves R (routerSolicitTick now rnd).
Proof. moved. Qed.
#[local] Hint Resolve routerSolicitTick_moves : moves.
Lemma respondToReconfigure_moves now rnd kind sid : moves R (respondToReconfigure now rnd kind sid).
Proof. moved. Qed.
#[local] Hint Resolve respondToReconfigure_moves : moves.
Lemma releaseDone_moves now rnd : moves R (releaseDone now rnd).
Proof. moved. Qed.
#[local] Hint Resolve releaseDone_moves : moves.
Lemma requestExhausted_moves now rnd : moves R (requestExhausted now rnd).
Proof. moved. Qed.
#[local] Hint Resolve requestExhausted_moves : moves.
Lemma takeConfirmReply_moves now rnd msg : moves R (takeConfirmReply now rnd msg).
Proof. moved. Qed.
#[local] Hint Resolve takeConfirmReply_moves : moves.
Lemma takeInfoReply_moves now rnd msg : moves R (takeInfoReply now rnd msg).
Proof. moved. Qed.
#[local] Hint Resolve takeInfoReply_moves : moves.
Lemma replyNotOnLink_moves now rnd st : moves R (replyNotOnLink now rnd st).
Proof. moved. Qed.
#[local] Hint Resolve replyNotOnLink_moves : moves.
Lemma requestAgain_moves now rnd msg ias notes : moves R (requestAgain now rnd msg ias notes).
Proof. moved. Qed.
#[local] Hint Resolve requestAgain_moves : moves.
Lemma noUsable_moves now rnd renewal ias st : moves R (noUsable now rnd renewal ias st).
Proof. moved. Qed.
#[local] Hint Resolve noUsable_moves : moves.
Lemma replyAddresses_moves now o renewal naCarried zeroed l : moves R (replyAddresses now o renewal naCarried zeroed l).
Proof. moved. Qed.
#[local] Hint Resolve replyAddresses_moves : moves.
Lemma replyPrefixes_moves now o renewal naCarried owed pd notes l : moves R (replyPrefixes now o renewal naCarried owed pd notes l).
Proof. moved. Qed.
#[local] Hint Resolve replyPrefixes_moves : moves.
Lemma paceOmission_moves now rnd found l : moves R (paceOmission now rnd found l).
Proof. moved. Qed.
#[local] Hint Resolve paceOmission_moves : moves.
Lemma loseBound_moves now rnd n : moves R (loseBound now rnd n).
Proof. moved. Qed.
#[local] Hint Resolve loseBound_moves : moves.
Lemma noteActionFailed_moves id reason : moves R (noteActionFailed id reason).
Proof. moved. Qed.
#[local] Hint Resolve noteActionFailed_moves : moves.
Lemma acceptLease_moves now rnd msg renewal l : moves R (acceptLease now rnd msg renewal l).
Proof. moved. Qed.
#[local] Hint Resolve acceptLease_moves : moves.
Lemma takeIAs_moves now rnd msg renewal st : moves R (takeIAs now rnd msg renewal st).
Proof. moved. Qed.
#[local] Hint Resolve takeIAs_moves : moves.
Lemma takeReply_moves now rnd msg : moves R (takeReply now rnd msg).
Proof. moved. Qed.
#[local] Hint Resolve takeReply_moves : moves.
Lemma stepStopped6_moves now rnd ev : moves R (stepStopped6 now rnd ev).
Proof. moved. Qed.
#[local] Hint Resolve stepStopped6_moves : moves.
Lemma stepInit6_moves now rnd ev : moves R (stepInit6 now rnd ev).
Proof. moved. Qed.
#[local] Hint Resolve stepInit6_moves : moves.
Lemma stepSelecting6_moves now rnd ev : moves R (stepSelecting6 now rnd ev).
Proof. moved. Qed.
#[local] Hint Resolve stepSelecting6_moves : moves.
Lemma stepRequesting6_moves now rnd ev : moves R (stepRequesting6 now rnd ev).
Proof. moved. Qed.
#[local] Hint Resolve stepRequesting6_moves : moves.
Lemma stepConfirming6_moves now rnd ev : moves R (stepConfirming6 now rnd ev).
Proof. moved. Qed.
#[local] Hint Resolve stepConfirming6_moves : moves.
Lemma stepInfoRequesting6_moves now rnd ev : moves R (stepInfoRequesting6 now rnd ev).
Proof. moved. Qed.
#[local] Hint Resolve stepInfoRequesting6_moves : moves.
Lemma stepDAD6_moves now rnd ev : moves R (stepDAD6 now rnd ev).
Proof. moved. Qed.
#[local] Hint Resolve stepDAD6_moves : moves.
Lemma stepDiscovering6_moves now rnd ev : moves R (stepDiscovering6 now rnd ev).
Proof. moved. Qed.
#[local] Hint Resolve stepDiscovering6_moves : moves.
Lemma stepBound6_moves now rnd ev : moves R (stepBound6 now rnd ev).
Proof. moved. Qed.
#[local] Hint Resolve stepBound6_moves : moves.
Lemma stepRenewal6_moves now rnd ev : moves R (stepRenewal6 now rnd ev).
Proof. moved. Qed.
#[local] Hint Resolve stepRenewal6_moves : moves.
Lemma step6_moves now rnd ev : moves R (step6 now rnd ev).
Proof. moved. Qed.
#[local] Hint Resolve step6_moves : moves.
End keys.

(** ** What only grows *)

(** The greatest value a server's Reconfigures have used, once one was acted on. *)
Definition floor6 (k : Core6) (sid : bytes) : option Z :=
  match nreconf k !! sid with Some s => if rsSeen s then Some (rsReplay s) else None | None => None end.

(** What holds of the fields and any later ones. *)
Definition later (k k' : Core6) : Prop :=
  (forall sid r, floor6 k sid = Some r -> exists r', floor6 k' sid = Some r' /\ r <= r') /\
  ndeclined k ⊆ ndeclined k' /\ only_maxima (nparams k) (nparams k').

#[local] Instance later_preorder : PreOrder later.
Proof.
  split.
  - intros k. split; [intros sid r H; exists r; split; [exact H|lia]|]. split; [done|apply only_maxima_refl].
  - intros k1 k2 k3 (F1 & D1 & P1) (F2 & D2 & P2). split; [|split; [by etrans|by eapply only_maxima_trans]].
    intros sid r (r1 & H1 & L1)%F1. apply F2 in H1 as (r2 & H2 & L2). exists r2. split; [done|lia].
Qed.

Lemma later_same k k' : nreconf k' = nreconf k -> ndeclined k' = ndeclined k -> nparams k' = nparams k -> later k k'.
Proof.
  intros H1 H2 H3. unfold later, floor6. rewrite H1, H2, H3. split; [|by split; [|apply only_maxima_refl]].
  intros sid r H. exists r. split; [exact H|lia].
Qed.

Lemma later_declined k l : later k (k <| ndeclined := rememberNew (ndeclined k) l |>).
Proof.
  split; [intros sid r H; exists r; split; [exact H|lia]|]. split; [apply rememberNew_incl|apply only_maxima_refl].
Qed.

Lemma applyMaxRT_later msg : moves later (applyMaxRT msg).
Proof.
  assert (H : forall m, only_maxima (nparams m) (ApplyOptions (nparams m) (MOptionsV6 msg)).1.1.1).
  { intros m. pose proof (applyLoop_spec [OptV6SolMaxRTCode; OptV6InfMaxRTCode] (MOptionsV6 msg) (nparams m) [] []) as H.
    unfold ApplyOptions. destruct (applyLoop _ _ _ _ _) as [[[p' ap] ig] r]. apply H. }
  intros s a s' Hs. unfold applyMaxRT in Hs. unfold mbind at 1, M6_bind at 1, get6 at 1 in Hs. specialize (H (core6 s)).
  destruct (ApplyOptions _ _) as [[[q ap] ig] r]. cbn [fst] in H.
  transitivity (core6 s <| nparams := q |>).
  { split; [intros sid x Hx; exists x; split; [exact Hx|lia]|]. split; [done|exact H]. }
  unfold mbind at 1, M6_bind at 1, modify6 at 1 in Hs.
  refine (moves_bind later (liftw6 r) _ (moves_liftw later r) _ (mkSt6 _ _ _) a s' Hs).
  intros [x|e]; moved.
Qed.

Lemma insert_floor k sid s : (forall r, floor6 k sid = Some r -> rsSeen s = true /\ r <= rsReplay s) ->
  later k (k <| nreconf := <[sid := s]> (nreconf k) |>).
Proof.
  intros Hs. split; [|split; [done|apply only_maxima_refl]]. intros sid' r H. 
  unfold floor6. change (nreconf (k <| nreconf := <[sid := s]> (nreconf k) |>)) with (<[sid := s]> (nreconf k)).
  destruct (decide (sid' = sid)) as [->|Hne].
  - destruct (Hs r H) as [Hseen Hle]. exists (rsReplay s). rewrite lookup_insert_eq, Hseen. split; [done|exact Hle].
  - rewrite lookup_insert_ne by done. exists r. split; [exact H|lia].
Qed.

Lemma note_floor m sid val : later m (m <| nreconf := <[sid := mkReconfServer val
  (rsReplay (default (mkReconfServer [] 0 false) (nreconf m !! sid)))
  (rsSeen (default (mkReconfServer [] 0 false) (nreconf m !! sid)))]> (nreconf m) |>).
Proof.
  apply insert_floor. unfold floor6. intros r Hr. cbn [rsSeen rsReplay].
  destruct (nreconf m !! sid) as [s|]; [|discriminate Hr]. cbn [from_option id]. destruct (rsSeen s) eqn:E; [|discriminate Hr].
  injection Hr as ->. split; [done|lia].
Qed.

#[export] Hint Resolve later_declined applyMaxRT_later note_floor : moves.
#[export] Hint Extern 1 (later _ _) => apply later_same; reflexivity : moves.

(** A key that arrives leaves the floor of its server where it was. *)
Lemma noteReconfigureKey_later msg : moves later (noteReconfigureKey msg).
Proof. moved. Qed.

(** ** A Reconfigure (RFC 9915 sections 16.11, 18.2.11, 20.3) *)

(** What a Reconfigure is acted on for: the client said it accepts them, no
    exchange is in flight, it was addressed to a unicast address, it names one
    server and this client and a message to send, and its authentication verifies
    under the key that server gave, with a replay value above the server's last. *)
Record genuine6 (k : Core6) (msg : MessageV6) (raw : bytes) (dst : Addr) (sid : bytes) (s : reconfServer) (replay : Z) : Prop := {
  ge_willing : P6AcceptReconfigure (nparams k) = true;
  ge_idle : nmsgType k = 0;
  ge_unicast : IsValid dst = true /\ IsMulticast dst = false /\ IsUnspecified dst = false;
  ge_server : Count (MOptionsV6 msg) OptV6ServerID = 1 /\ First (MOptionsV6 msg) OptV6ServerID = Some sid;
  ge_client : First (MOptionsV6 msg) OptV6ClientID = Some (P6DUID (nparams k));
  ge_kind : exists kind, ReconfigureMessage (MOptionsV6 msg) = (kind, true, None);
  ge_key : nreconf k !! sid = Some s /\ rsKey s <> [];
  ge_digest : RKAPVerify raw (rsKey s) = Ok tt;
  ge_auth : exists a v, OptionsV6_Auth (MOptionsV6 msg) = Some (Ok a) /\ RKAP a = Ok v /\ Replay a = replay;
  ge_replay : forall r, floor6 k sid = Some r -> r < replay
}.

Lemma First_count o c : Count o c = 1 -> exists v, First o c = Some v.
Proof. induction o as [|x o IH]; cbn; [lia|]. destruct (_ =? _); [eauto|]. intros H. apply IH. lia. Qed.

Lemma reconfigure_genuine k msg raw dst kind sid s replay :
  reconfigureWhy k (MOptionsV6 msg) dst = inl (kind, sid) ->
  reconfigureAuthentic k (MOptionsV6 msg) raw sid = Ok (inl (s, replay)) -> genuine6 k msg raw dst sid s replay.
Proof.
  unfold reconfigureWhy. destruct (P6AcceptReconfigure _) eqn:E1; cbn [negb]; [|discriminate].
  destruct (Z.eqb_spec (nmsgType k) 0); cbn [negb]; [|discriminate].
  destruct (IsValid dst) eqn:E2; cbn [negb orb]; [|discriminate].
  destruct (IsMulticast dst) eqn:E3; cbn [orb]; [discriminate|]. destruct (IsUnspecified dst) eqn:E4; [discriminate|]. cbv zeta.
  destruct (Z.eqb_spec (Count (MOptionsV6 msg) OptV6ServerID) 0); [discriminate|].
  destruct (Z.ltb_spec 1 (Count (MOptionsV6 msg) OptV6ServerID)); [discriminate|].
  destruct (First (MOptionsV6 msg) OptV6ClientID) as [cid|] eqn:E5; [|discriminate].
  destruct (sameDUID cid (P6DUID (nparams k))) eqn:E6; cbn [negb]; [|discriminate]. apply bytes_eqb_eq in E6. subst cid.
  destruct (ReconfigureMessage (MOptionsV6 msg)) as [[kd ok] err] eqn:E7. destruct ok; cbn [negb]; [|discriminate].
  destruct err; [discriminate|]. intros [= -> <-].
  assert (Hc : Count (MOptionsV6 msg) OptV6ServerID = 1) by (pose proof (Count_nonneg (MOptionsV6 msg) OptV6ServerID); lia).
  destruct (First_count _ _ Hc) as [sid Es]. rewrite Es. cbn [from_option id].
  unfold reconfigureAuthentic. destruct (OptionsV6_Auth _) as [ra|] eqn:Ea; [|discriminate].
  destruct ra as [a| | |]; cbn [catch]; try discriminate. destruct (RKAP a) as [v| | |] eqn:Er; cbn [catch]; try discriminate.
  destruct (nreconf k !! sid) as [s0|] eqn:Ek; [|discriminate]. destruct (Nat.eqb_spec (length (rsKey s0)) 0); [discriminate|].
  destruct (RKAPVerify raw (rsKey s0)) as [[]| | |] eqn:Ev; cbn [catch]; try discriminate.
  destruct (rsSeen s0 && (Replay a <=? rsReplay s0)) eqn:Ef; [discriminate|]. intros [= -> <-].
  split; try done; [by eauto|split; [done|by destruct (rsKey s)]|by eauto|].
  intros r. unfold floor6. rewrite Ek. destruct (rsSeen s); [|discriminate]. intros [= <-]. cbn [andb] in Ef. by apply Z.leb_gt in Ef.
Qed.

(** The reply a Reconfigure asks for changes no key, no parameter and no lease. *)
Definition untouched (k k' : Core6) : Prop :=
  nreconf k' = nreconf k /\ ndeclined k' = ndeclined k /\ nparams k' = nparams k /\
  nlease k' = nlease k /\ nhaveLse k' = nhaveLse k.

#[local] Instance untouched_preorder : PreOrder untouched.
Proof.
  split; [by intros k; split_and!|]. intros k1 k2 k3 (A1&A2&A3&A4&A5) (B1&B2&B3&B4&B5). split_and!; by etrans.
Qed.

#[local] Hint Extern 0 (untouched _ _) => split_and!; reflexivity : moves.

Lemma answering_untouched now rnd t sid : moves untouched (startExchangeAnswering now rnd t sid).
Proof. moved. Qed.
#[local] Hint Resolve answering_untouched : moves.
Lemma rebinding_untouched now rnd : moves untouched (enterRebinding now rnd).
Proof. moved. Qed.
#[local] Hint Resolve rebinding_untouched : moves.
Lemma renewing_untouched now rnd : moves untouched (enterRenewing now rnd).
Proof. moved. Qed.
#[local] Hint Resolve renewing_untouched : moves.

(** A refusal: one counter and one journal line. *)
Definition refused6 (st st' : St6) : Prop := exists why n, refuseReconfigure why n st = Some (tt, st').

Lemma bind_some {A B} (c : M6 A) (f : A -> M6 B) st b st' : (c ≫= f) st = Some (b, st') ->
  exists a st1, c st = Some (a, st1) /\ f a st1 = Some (b, st').
Proof. unfold mbind, M6_bind. destruct (c st) as [[a st1]|]; [|discriminate]. by exists a, st1. Qed.

Lemma refuse_then {A} why n (a b : A) st st' : (refuseReconfigure why n ;; mret a) st = Some (b, st') -> b = a /\ refused6 st st'.
Proof. intros ([] & st1 & E & [= <- <-])%bind_some. split; [done|]. by exists why, n. Qed.

Lemma acts_then {A} (c : M6 unit) (a b : A) st st' : moves untouched c -> (c ;; mret a) st = Some (b, st') ->
  b = a /\ untouched (core6 st) (core6 st').
Proof. intros Hc ([] & st1 & E & [= <- <-])%bind_some. split; [done|by eapply Hc]. Qed.

Lemma journal_acts n (c : M6 unit) st b st' : moves untouched c -> (journal6 n ;; c ;; mret true) st = Some (b, st') ->
  b = true /\ untouched (core6 st) (core6 st').
Proof. intros Hc ([] & st1 & [= <-] & H)%bind_some. exact (acts_then c true b _ _ Hc H). Qed.

(** A Reconfigure that is authentic is answered, or refused. *)
Lemma respond_cases now rnd kind sid st b st' : respondToReconfigure now rnd kind sid st = Some (b, st') ->
  b = false /\ refused6 st st' \/ b = true /\ untouched (core6 st) (core6 st').
Proof.
  unfold respondToReconfigure. intros (m & st1 & [= <- <-] & H)%bind_some. revert H.
  destruct ((kind =? MsgRenew) || (kind =? MsgRebind)).
  - destruct (state6_eqb _ _); cbn [negb]; intros E; [|left; exact (refuse_then _ _ _ _ _ _ E)].
    right. destruct (kind =? MsgRenew); (eapply journal_acts; [|exact E]; auto with moves).
  - destruct (kind =? MsgInformationRequest); intros E; [|left; exact (refuse_then _ _ _ _ _ _ E)].
    destruct (_ || _); [|left; exact (refuse_then _ _ _ _ _ _ E)].
    right. apply bind_some in E as ([] & st1 & E1 & E). eapply journal_acts in E; [|auto with moves].
    destruct E as [-> E]. split; [done|]. transitivity (core6 st1); [|exact E].
    refine ((_ : moves untouched (when6 _ _)) _ _ _ E1). apply (moves_when untouched), (moves_modify untouched). intros k. by split_and!.
Qed.

(** Whatever arrives is refused, or genuine and acted on. *)
Lemma takeReconfigure_cases now rnd msg raw dst st x st' : takeReconfigure now rnd msg raw dst st = Some (x, st') ->
  refused6 st st' \/ exists sid s replay, genuine6 (core6 st) msg raw dst sid s replay /\
    nreconf (core6 st') = <[sid := mkReconfServer (rsKey s) replay true]> (nreconf (core6 st)) /\
    ndeclined (core6 st') = ndeclined (core6 st) /\ nparams (core6 st') = nparams (core6 st) /\
    nlease (core6 st') = nlease (core6 st) /\ nhaveLse (core6 st') = nhaveLse (core6 st).
Proof.
  unfold takeReconfigure. cbv zeta. intros (m & st1 & [= <- <-] & H)%bind_some. revert H. destruct x.
  destruct (reconfigureWhy (core6 st) (MOptionsV6 msg) dst) as [[kind sid]|[why n]] eqn:Ew; [|intros E; left; by exists why, n].
  unfold authenticateReconfigure. intros (auth & st1 & E & H)%bind_some.
  apply bind_some in E as (m & st2 & [= <- <-] & E). apply bind_some in E as (r & st2 & E1 & E).
  destruct (reconfigureAuthentic (core6 st) (MOptionsV6 msg) raw sid) as [r0| | |] eqn:Er; try discriminate E1.
  injection E1 as <- <-. destruct r0 as [[s replay]|[why n]].
  2:{ apply refuse_then in E as [-> Hr]. injection H as <-. by left. }
  injection E as <- <-. cbv iota in H. apply bind_some in H as (acted & st2 & Eb & H).
  apply respond_cases in Eb as [[-> Hr]|[-> (Hn & Hd & Hp & Hl & Hh)]]; cbn [negb] in H; [injection H as <-; by left|].
  right. exists sid, s, replay. split; [by eapply reconfigure_genuine|].
  apply bind_some in H as ([] & st3 & Ej & H). assert (H3 : core6 st3 = core6 st2).
  { revert Ej. destruct (negb _); intros [= <-]; done. }
  rewrite <- Hn, <- Hd, <- Hp, <- Hl, <- Hh, <- H3. clear - H.
  apply bind_some in H as (m & st4 & [= <- <-] & H). apply bind_some in H as ([] & st4 & [= <-] & H).
  injection H as <-. by split_and!.
Qed.

Lemma refused6_fields st st' : refused6 st st' -> exists c, core6 st' = core6 st <| nreconfCounts := c |>.
Proof. intros (why & n & [= <-]). by eexists. Qed.

Lemma takeReconfigure_later now rnd msg raw dst : moves later (takeReconfigure now rnd msg raw dst).
Proof.
  intros st x st' H. apply takeReconfigure_cases in H as [(c & ->)%refused6_fields|(sid & s & replay & Hg & Hn & Hd & Hp & _)].
  - by apply later_same.
  - transitivity (core6 st <| nreconf := <[sid := mkReconfServer (rsKey s) replay true]> (nreconf (core6 st)) |>).
    + apply insert_floor. intros r Hr. split; [done|]. apply (ge_replay _ _ _ _ _ _ _ Hg) in Hr. cbn. lia.
    + by apply later_same.
Qed.

#[local] Hint Resolve takeReconfigure_later noteReconfigureKey_later : moves.

(** Every step moves along [later]. *)
Lemma step6_later now rnd ev : moves later (step6 now rnd ev).
Proof.
  apply (step6_moves later); auto with moves. intros k k' H1 H2 H3 _. by apply later_same.
Qed.

(** Machines a machine becomes, whatever happens. *)
Inductive steps6 : Machine6 -> Machine6 -> Prop :=
| steps6_refl m : steps6 m m
| steps6_step m now rnd ev m1 s acts m2 : Step6 m now rnd ev = Some (m1, s, acts) -> steps6 m1 m2 -> steps6 m m2.

Lemma Step6_later m now rnd ev m1 s acts : Step6 m now rnd ev = Some (m1, s, acts) -> later (ncore m) (ncore m1).
Proof.
  unfold Step6. destruct (step6 now rnd ev (mkSt6 (ncore m) (nnextAction m) [])) as [[[] st]|] eqn:E; [|discriminate].
  intros [= <- _ _]. exact (step6_later now rnd ev _ _ _ E).
Qed.

Lemma steps6_later m m2 : steps6 m m2 -> later (ncore m) (ncore m2).
Proof. induction 1 as [|m now rnd ev m1 s acts m2 Hs _ IH]; [reflexivity|]. etransitivity; [by eapply Step6_later|exact IH]. Qed.

(** ** A declined address is not asked for again *)

(** The addresses of a Decline in flight are remembered as declined. *)
Definition remembered (k : Core6) : Prop := ndeclining k ⊆ ndeclined k.
Definition keeps_remembered (k k' : Core6) : Prop := remembered k -> remembered k'.

#[local] Instance keeps_remembered_preorder : PreOrder keeps_remembered.
Proof. unfold keeps_remembered. split; [by intros k|]. intros k1 k2 k3 H1 H2 H. auto. Qed.

Lemma remembered_same k k' : ndeclined k' = ndeclined k -> ndeclining k' = ndeclining k \/ ndeclining k' = [] -> keeps_remembered k k'.
Proof. unfold keeps_remembered, remembered. intros -> [->| ->] H; [exact H|]. by intros a ?%elem_of_nil. Qed.

#[local] Hint Extern 0 (keeps_remembered _ _) =>
  apply remembered_same; [reflexivity|first [left; reflexivity|right; reflexivity]] : moves.

Lemma answering_remembered now rnd t sid : moves keeps_remembered (startExchangeAnswering now rnd t sid).
Proof. moved. Qed.
#[local] Hint Resolve answering_remembered : moves.
Lemma enterRebinding_remembered now rnd : moves keeps_remembered (enterRebinding now rnd).
Proof. moved. Qed.
#[local] Hint Resolve enterRebinding_remembered : moves.
Lemma enterRenewing_remembered now rnd : moves keeps_remembered (enterRenewing now rnd).
Proof. moved. Qed.
#[local] Hint Resolve enterRenewing_remembered : moves.
Lemma respond_remembered now rnd kind sid : moves keeps_remembered (respondToReconfigure now rnd kind sid).
Proof. moved. Qed.
#[local] Hint Resolve respond_remembered : moves.
Lemma takeReconfigure_remembered now rnd msg raw dst : moves keeps_remembered (takeReconfigure now rnd msg raw dst).
Proof. moved. Qed.
Lemma noteReconfigureKey_remembered msg : moves keeps_remembered (noteReconfigureKey msg).
Proof. moved. Qed.
Lemma applyMaxRT_remembered msg : moves keeps_remembered (applyMaxRT msg).
Proof. moved. Qed.
#[local] Hint Resolve takeReconfigure_remembered noteReconfigureKey_remembered applyMaxRT_remembered : moves.

Lemma step6_remembered now rnd ev : moves keeps_remembered (step6 now rnd ev).
Proof.
  apply (step6_moves keeps_remembered); auto with moves.
  - intros k k' _ H1 _ H2. by apply remembered_same.
  - intros k l Hk a Ha. cbn. by apply rememberNew_incl, Hk.
  - intros k l Hl _. exact Hl.
Qed.

Lemma steps6_remembered m m2 : steps6 m m2 -> remembered (ncore m) -> remembered (ncore m2).
Proof.
  induction 1 as [|m now rnd ev m1 s acts m2 Hs _ IH]; [done|]. intros Hm. apply IH. clear IH. unfold Step6 in Hs.
  destruct (step6 now rnd ev (mkSt6 (ncore m) (nnextAction m) [])) as [[[] st]|] eqn:E; [|discriminate].
  injection Hs as <- _ _. exact (step6_remembered now rnd ev _ _ _ E Hm).
Qed.

(** A new machine remembers what it was told, and declines nothing. *)
Lemma New6_declined p m : New6 p = inr m -> remembered (ncore m) /\ P6Declined p ⊆ ndeclined (ncore m).
Proof.
  unfold New6. destruct (params6_validate p); [discriminate|]. intros [= <-]. split; [by intros a ?%elem_of_nil|].
  apply rememberNew_all.
Qed.

(** Whatever happens after an address is remembered, no Solicit names it. *)
Lemma remembered_not_solicited m m2 a : a ∈ ndeclined (ncore m) -> steps6 m m2 ->
  exists addrs zero, iaSubject (ncore m2) MsgSolicit = Some (addrs, zero) /\ a ∉ map a6Addr addrs.
Proof.
  intros Ha Hs. destruct (steps6_later _ _ Hs) as (_ & Hd & _). apply Hd in Ha. clear Hd Hs.
  unfold iaSubject. cbn [Z.eqb MsgSolicit]. eexists _, _. split; [reflexivity|].
  destruct (IsValid (solicitHint (ncore m2))) eqn:E; [|by intros ?%elem_of_nil].
  cbn. intros ->%list_elem_of_singleton. revert E Ha. unfold solicitHint.
  destruct (IsValid (hintAddr (nparams (ncore m2)))) eqn:Ev; cbn [andb]; [|congruence].
  destruct (containsAddr (ndeclined (ncore m2)) _) eqn:Ec; cbn [orb]; [done|]. destruct (addr_eqb _ _); [done|].
  intros _ Ha. apply not_true_iff_false in Ec. apply Ec. by apply containsAddr_in.
Qed.

(** C38: RFC 9915 section 18.2.10.1.  An address a client has declined it asks no
    server for again.  Take any machine an accepted configuration becomes,
    whatever happened to it; let an address be in the IA_NA of the Decline it has
    in flight, or among those the configuration says were declined before.  Then
    whatever happens afterwards, no IA_NA of a Solicit the machine builds carries
    the address.  (What a Decline or a Solicit carries is what [iaSubject] hands
    to [buildIA]; a declined temporary address, in an IA_TA, is not of this
    theorem, and a Solicit names no temporary address.) *)
Theorem declined_never_solicited p m0 m m2 a : New6 p = inr m0 -> steps6 m0 m ->
  (a ∈ P6Declined p \/ exists addrs zero, iaSubject (ncore m) MsgDecline6 = Some (addrs, zero) /\ a ∈ map a6Addr addrs) ->
  steps6 m m2 ->
  exists addrs zero, iaSubject (ncore m2) MsgSolicit = Some (addrs, zero) /\ a ∉ map a6Addr addrs.
Proof.
  intros Hnew H0 Ha Hs. destruct (New6_declined p m0 Hnew) as [Hr Hd]. apply (remembered_not_solicited m); [|done].
  destruct Ha as [Ha|(addrs & zero & Hsub & Ha)].
  - destruct (steps6_later _ _ H0) as (_ & Hl & _). by apply Hl, Hd.
  - apply (steps6_remembered _ _ H0 Hr). revert Hsub. unfold iaSubject. cbn [Z.eqb MsgDecline6 MsgSolicit MsgRequest6 MsgConfirm MsgRenew MsgRebind MsgRelease6 Pos.eqb orb].
    destruct (_ =? _)%nat; [discriminate|]. intros [= <- _]. rewrite map_map in Ha. cbn in Ha. by rewrite map_id in Ha.
Qed.

Lemma steps6_snoc m m1 now rnd ev m2 s acts : steps6 m m1 -> Step6 m1 now rnd ev = Some (m2, s, acts) -> steps6 m m2.
Proof. induction 1; intros Hs; econstructor; eauto. constructor. Qed.

Lemma reach6_steps p m e : reach6 p m e -> exists m0, New6 p = inr m0 /\ steps6 m0 m.
Proof.
  induction 1 as [m H|m e now rnd ev m' s acts _ (m0 & H0 & Hs) _ H]; [exists m; split; [done|constructor]|].
  exists m0. split; [done|]. by eapply steps6_snoc.
Qed.

(** A client whose hint is the address a server grants it, and whose duplicate
    check finds another node with that address: it declines the address, and,
    once the Decline is answered, solicits without it. *)
Definition hinting_params : Params6 := managed_params <| P6Hint := sample_addr |>.
Definition declining_inputs : list (Instant * Z * Event6) :=
  take 5 sample_inputs6 ++ [(6 * Second, 12, Ev6DADResult sample_addr true)].
Definition names_in (t : MessageTypeV6) (k : Core6) : list Addr :=
  match iaSubject k t with Some (addrs, _) => map a6Addr addrs | None => [] end.

(** The Decline's answer and the start delay: four machines, the last one
    soliciting. *)
Definition declining_at : option (Machine6 * Machine6 * Machine6 * Machine6) :=
  match New6 hinting_params with
  | inr m0 =>
    match run_to hinting_params declining_inputs with
    | Some (m, _) =>
      match Step6 m (7 * Second) 13 (sample_msg MsgReply 12) with
      | Some (m1, _, _) =>
        match Step6 m1 (8 * Second) 14 (Ev6TimerFired Timer6Delay) with Some (m2, _, _) => Some (m0, m, m1, m2) | None => None end
      | None => None
      end
    | None => None
    end
  | inl _ => None
  end.

Lemma declining_steps m0 m m1 m2 : declining_at = Some (m0, m, m1, m2) ->
  New6 hinting_params = inr m0 /\ steps6 m0 m /\ steps6 m m2.
Proof.
  unfold declining_at. destruct (New6 hinting_params) as [|m0'] eqn:E0; [discriminate|].
  destruct (run_to hinting_params declining_inputs) as [[m' e]|] eqn:E1; [|discriminate].
  destruct (Step6 m' (7 * Second) 13 (sample_msg MsgReply 12)) as [[[m1' s1] a1]|] eqn:E2; [|discriminate].
  destruct (Step6 m1' (8 * Second) 14 (Ev6TimerFired Timer6Delay)) as [[[m2' s2] a2]|] eqn:E3; [|discriminate].
  intros [= -> -> -> ->]. apply run_to_reach, reach6_steps in E1 as (m0' & Hnew & Hs).
  rewrite E0 in Hnew. injection Hnew as <-. split; [reflexivity|]. split; [exact Hs|].
  exact (steps6_step _ _ _ _ _ _ _ _ E2 (steps6_step _ _ _ _ _ _ _ _ E3 (steps6_refl m2))).
Qed.

Lemma declining_names : match declining_at with
  | Some (m0, m, m1, m2) =>
    names_in MsgSolicit (ncore m0) = [sample_addr] /\ names_in MsgDecline6 (ncore m) = [sample_addr] /\
    nstate (ncore m2) = State6Selecting
  | None => False
  end.
Proof. vm_compute. split; [reflexivity|]. split; reflexivity. Qed.

Lemma names_in_some t k a : a ∈ names_in t k -> exists addrs zero, iaSubject k t = Some (addrs, zero) /\ a ∈ map a6Addr addrs.
Proof. unfold names_in. destruct (iaSubject k t) as [[addrs zero]|]; [by exists addrs, zero|by intros ?%elem_of_nil]. Qed.

Lemma declined_never_solicited_witness : exists m0 m m1 m2, declining_at = Some (m0, m, m1, m2) /\
  names_in MsgSolicit (ncore m0) = [sample_addr] /\ names_in MsgDecline6 (ncore m) = [sample_addr] /\
  nstate (ncore m2) = State6Selecting /\
  exists addrs zero, iaSubject (ncore m2) MsgSolicit = Some (addrs, zero) /\ sample_addr ∉ map a6Addr addrs.
Proof.
  pose proof declining_names as Hn. pose proof declining_steps as Hs.
  destruct declining_at as [[[[m0 m] m1] m2]|]; [|destruct Hn]. destruct Hn as (Hn0 & Hn1 & Hn2).
  destruct (Hs m0 m m1 m2 eq_refl) as (E0 & H0 & H2). exists m0, m, m1, m2.
  refine (conj eq_refl (conj Hn0 (conj Hn1 (conj Hn2 (declined_never_solicited hinting_params m0 m m2 sample_addr E0 H0 _ H2))))).
  right. apply names_in_some. rewrite Hn1. by left.
Defined.

(** ** A Reconfigure acts once *)

Lemma genuine6_aged now k msg raw dst sid s replay : genuine6 (aged now k) msg raw dst sid s replay ->
  genuine6 k msg raw dst sid s replay.
Proof.
  unfold aged. destruct (roSeen (nrouter k)); [|done]. destruct (fill _ _ _) as [t ro].
  intros [H1 H2 H3 H4 H5 H6 H7 H8 H9 H10]. by split.
Qed.

Lemma ageRouters_run now st : ageRouters now st = Some (tt, mkSt6 (aged now (core6 st)) (next6 st) (out6 st)).
Proof.
  unfold ageRouters, aged, mbind, M6_bind, get6. destruct (roSeen (nrouter (core6 st))); cbn [when6].
  - by destruct (fill _ _ _).
  - by destruct st.
Qed.

(** A step on a Reconfigure: a refusal, or a genuine message acted on. *)
Definition turned_down (now : Instant) (m m' : Machine6) (acts : list Action6) : Prop :=
  exists c n, ncore m' = aged now (ncore m) <| nreconfCounts := c |> /\ map Act6Body acts = [Act6Journal n].

Definition acted_on (m m' : Machine6) (msg : MessageV6) (raw : bytes) (dst : Addr) (sid : bytes) (replay : Z) : Prop :=
  (exists s, genuine6 (ncore m) msg raw dst sid s replay) /\ floor6 (ncore m') sid = Some replay /\
  nlease (ncore m') = nlease (ncore m) /\ nhaveLse (ncore m') = nhaveLse (ncore m).

Lemma Step6_reconfigure m now rnd msg raw dst m' s acts : MType msg = MsgReconfigure ->
  Step6 m now rnd (Ev6Received (Some msg) raw dst) = Some (m', s, acts) ->
  turned_down now m m' acts \/ exists sid replay, acted_on m m' msg raw dst sid replay.
Proof.
  intros Ht. unfold Step6, step6, mbind, M6_bind. rewrite Ht, Z.eqb_refl, ageRouters_run. cbn [core6 next6 out6].
  destruct (takeReconfigure _ _ _ _ _ _) as [[[] st]|] eqn:E; [|discriminate]. intros [= <- _ <-].
  apply takeReconfigure_cases in E as [(why & n & [= <-])|(sid & sv & replay & Hg & Hn & _ & _ & Hl & Hh)].
  - left. by eexists _, n.
  - right. cbn [core6] in *. exists sid, replay. split; [exists sv; by eapply genuine6_aged|].
    assert (Ha : nlease (aged now (ncore m)) = nlease (ncore m) /\ nhaveLse (aged now (ncore m)) = nhaveLse (ncore m)).
    { unfold aged. destruct (roSeen _); [|done]. by destruct (fill _ _ _). }
    cbn [ncore]. unfold floor6. rewrite Hn, lookup_insert_eq. by rewrite Hl, Hh.
Qed.

(** C9: RFC 9915 sections 16.11, 18.2.11 and 20.3.  A Reconfigure that reaches an
    accepted client either changes nothing but a counter and the router table's
    age and is journalled once, or is genuine and acted on, with the lease as it
    was; and then, whatever happens afterwards, a message with the same server and
    the same replay value or a smaller one is turned down, so no replay acts. *)
Theorem reconfigure_acts_once p m e now rnd msg raw dst : config_ok p -> reach6 p m e -> MType msg = MsgReconfigure ->
  exists m' s acts, Step6 m now rnd (Ev6Received (Some msg) raw dst) = Some (m', s, acts) /\
    (turned_down now m m' acts \/ exists sid replay, acted_on m m' msg raw dst sid replay /\
      forall m2 now2 rnd2 msg2 a raw2 dst2 m3 s3 acts3, steps6 m' m2 -> MType msg2 = MsgReconfigure ->
        First (MOptionsV6 msg2) OptV6ServerID = Some sid -> OptionsV6_Auth (MOptionsV6 msg2) = Some (Ok a) -> Replay a <= replay ->
        Step6 m2 now2 rnd2 (Ev6Received (Some msg2) raw2 dst2) = Some (m3, s3, acts3) -> turned_down now2 m2 m3 acts3).
Proof.
  intros Hc Hr Ht. destruct (Step6_ok p m e now rnd (Ev6Received (Some msg) raw dst) Hc (reach6_Inv6 p m e Hc Hr) Logic.I)
    as (m' & s & acts & Hs & _). exists m', s, acts. split; [exact Hs|].
  destruct (Step6_reconfigure _ _ _ _ _ _ _ _ _ Ht Hs) as [H|(sid & replay & H)]; [by left|]. right. exists sid, replay. split; [exact H|].
  intros m2 now2 rnd2 msg2 a raw2 dst2 m3 s3 acts3 Hst Ht2 Hsid Ha Hle Hs2.
  destruct (Step6_reconfigure _ _ _ _ _ _ _ _ _ Ht2 Hs2) as [H2|(sid2 & replay2 & (sv & Hg) & _)]; [exact H2|]. exfalso.
  destruct H as (_ & Hf & _). destruct (steps6_later _ _ Hst) as (Hfl & _). destruct (Hfl _ _ Hf) as (r & Hf2 & Hr1).
  pose proof (ge_server _ _ _ _ _ _ _ Hg) as [_ Es]. rewrite Hsid in Es. injection Es as Es. rewrite Es in Hf2.
  destruct (ge_auth _ _ _ _ _ _ _ Hg) as (a2 & v & Ha2 & _ & Hrep). rewrite Ha in Ha2. injection Ha2 as Ea. rewrite Ea in Hle.
  pose proof (ge_replay _ _ _ _ _ _ _ Hg _ Hf2). lia.
Qed.

(** A client that accepts Reconfigures and was given a key in the Reply. *)
Definition key_params : Params6 := managed_params <| P6AcceptReconfigure := true |>.
Definition sample_sid : bytes := [0; 3; 0; 1; 2; 0; 0; 0; 0; 9].

Definition with_option (o : OptionV6) (ev : Event6) : Event6 :=
  match ev with
  | Ev6Received (Some m) raw dst => Ev6Received (Some (mkMessageV6 (MType m) (MXID m) (MOptionsV6 m ++ [o]))) raw dst
  | ev => ev
  end.

Definition key_inputs : list (Instant * Z * Event6) :=
  map (fun '(now, rnd, ev) => (now, rnd, with_option (authOption (rkap RKAPTypeKey 0 sample_key)) ev)) (take 6 sample_inputs6).

(** A Reconfigure that asks for a Renew, with the digest [d]. *)
Definition renew_please (d : bytes) : MessageV6 :=
  mkMessageV6 MsgReconfigure 0 [mkOptionV6 OptV6ClientID (P6DUID managed_params); mkOptionV6 OptV6ServerID sample_sid;
    mkOptionV6 OptV6ReconfMsg [MsgRenew]; authOption (rkap RKAPTypeDigest 7 d)].

Definition renew_digest : bytes := octets (hmacMD5 sample_key (octets (EncodeV6 (renew_please (replicate RKAPValueLen 0))))).
Definition renew_raw : bytes := octets (EncodeV6 (renew_please renew_digest)).

Definition renews (b : ActionBody6) : bool := match b with Act6Send m _ => MType m =? MsgRenew | _ => false end.

(** It is acted on: a Renew goes out, and a second copy of it is turned down. *)
Lemma reconfigure_acts_once_witness : exists m e m' s acts sid replay, reach6 key_params m e /\
  Step6 m (9 * Second) 15 (Ev6Received (Some (renew_please renew_digest)) renew_raw sample_addr) = Some (m', s, acts) /\
  acted_on m m' (renew_please renew_digest) renew_raw sample_addr sid replay.
Proof.
  destruct (run_finds key_params key_inputs renews (9 * Second) 15
    (Ev6Received (Some (renew_please renew_digest)) renew_raw sample_addr) ltac:(vm_compute; reflexivity))
    as (m & e & m' & s & acts & b & Hr & Hs & Hb & Hf).
  assert (Hc : config_ok key_params).
  { split; [vm_compute; reflexivity|exact (cg_link _ managed_ok)|by intros r [=]]. }
  destruct (reconfigure_acts_once key_params m e (9 * Second) 15 (renew_please renew_digest) renew_raw sample_addr Hc Hr eq_refl)
    as (m1 & s1 & acts1 & Hs1 & H). rewrite Hs in Hs1. injection Hs1 as <- <- <-.
  destruct H as [(c & n & _ & Hn)|(sid & replay & H & _)].
  - rewrite Hn in Hb. apply list_elem_of_singleton in Hb. subst b. discriminate Hf.
  - exists m, e, m', s, acts, sid, replay. exact (conj Hr (conj Hs H)).
Defined.
