(* ===== verification/Machine6Findings.v ===== *)
(** * Where the DHCPv6 machine does what it does not mean to

    Runs of the machine that its comments or the RFCs rule out, each evaluated
    from a new machine, and the retransmission fire that arrives late. *)

From S2P Require Import Prelude NetAddr Options Codec HmacMd5 Forcerenew Arp Backoff Kinds Lease Dhcp6 Rkap Backoff6 Icmpv6 Lease6 Slaac Params6 Router6 Outward Core6 Machine6 Machine6Steps Machine6Spec Machine6Props Machine6Local.

(** ** A retransmission fire that was already under way

    runtime/timers.go delivers fires through a buffered channel, so a fire can
    follow the cancel of its timer; [routerSolicitTick] and the DAD6 and STOPPED6
    handlers allow for it, INFO-REQUESTING6 does not. *)

(** What [build] makes when no exchange is in flight. *)
Definition typeless (now : Instant) (k : Core6) : MessageV6 :=
  mkMessageV6 0 (nxid k) ([mkOptionV6 OptV6ClientID (P6DUID (nparams k))] ++ oroOption (oro (nparams k) 0) ++ [elapsedOption k now]).

Lemma build_typeless now k (Q : MessageV6 + BuildErr -> Core6 -> list ActionBody6 -> Prop) :
  Q (inl (typeless now k)) k [] -> runs6 (build now 0) Q k.
Proof.
  intros H. unfold build. r6. change (serverIDOf k 0) with (inl [] : OptionsV6 + BuildErr). cbv iota. r6.
  assert (E : buildIAs k 0 = Ok []) by reflexivity. rewrite E. cbn [liftw6]. r6. unfold fqdnOption. change (mayCarryName 0) with false. cbn [negb]. r6.
  assert (Ho : acceptOption k 0 = [] /\ rapidOption k 0 = []).
  { unfold acceptOption, rapidOption. by destruct (P6AcceptReconfigure _), (P6RapidCommit _). }
  destruct Ho as [-> ->]. exact H.
Qed.

Lemma transmit_typeless now k : nmsgType k = 0 ->
  runs6 (transmit now) (fun _ _ acts => exists msg d t, acts = [Act6Send msg d; Act6SetTimer Timer6Retransmit t] /\ MType msg = 0) k.
Proof.
  intros Ht. unfold transmit. r6. rewrite Ht. apply build_typeless. cbv iota. r6.
  apply runs6_when; intros _; r6; apply runs6_when; intros _; r6; apply runs6_stamp; cbn [app]; apply runs6_stamp; cbn [app]; eauto.
Qed.

(** When a retransmission fire reaches INFO-REQUESTING6 after its Reply has ended
    the exchange, the machine sends a message of type 0, which is no DHCPv6
    message, and arms the timer again: so it goes on, with no exchange to end it. *)
Theorem late_retransmission now rnd k : nstate k = State6InfoRequesting -> nmsgType k = 0 ->
  runs6 (step6 now rnd (Ev6TimerFired Timer6Retransmit)) (fun _ _ acts =>
    exists l msg d t, acts = l ++ [Act6Send msg d; Act6SetTimer Timer6Retransmit t] /\ MType msg = 0) k.
Proof.
  intros Hs Ht. unfold step6. apply runs6_age. unfold stepState6. r6. rewrite nstate_aged, Hs. unfold stepInfoRequesting6. r6.
  assert (Ht' : nmsgType (aged now k) = 0) by (unfold aged; destruct (roSeen _); [by destruct (fill _ _ _)|done]).
  revert Ht'. generalize (aged now k). clear k Hs Ht. intros k Ht. unfold retransmit. r6.
  destruct (Exhausted6 _ _ _); r6; (eapply runs6_mono; [by apply transmit_typeless|]); intros _ k' l (msg & d & t & -> & H);
    [eexists [_], msg, d, t|exists [], msg, d, t]; done.
Qed.

(** ** Runs *)

(** A new machine after some inputs, and the actions of the last of them. *)
Definition ends (p : Params6) (evs : list (Instant * Z * Event6)) (now : Instant) (rnd : Z) (ev : Event6)
    : option (Core6 * list ActionBody6) :=
  match New6 p with
  | inr m =>
    match run6 m evs with
    | Some (m, _) => match Step6 m now rnd ev with Some (m, _, out) => Some (ncore m, map Act6Body out) | None => None end
    | None => None
    end
  | inl _ => None
  end.

Definition says (f : Core6 -> bool) (l : list (ActionBody6 -> bool)) (r : option (Core6 * list ActionBody6)) : Prop :=
  match r with Some (k, acts) => f k = true /\ Forall (fun g => existsb g acts = true) l | None => False end.
Definition in_state (s : State6) (t : MessageTypeV6) (held : bool) (k : Core6) : bool :=
  state6_eqb (nstate k) s && (nmsgType k =? t) && eqb (nhaveLse k) held.

Definition is_send (t : MessageTypeV6) (b : ActionBody6) : bool := match b with Act6Send m _ => MType m =? t | _ => false end.
Definition is_lost (r : Reason) (b : ActionBody6) : bool := match b with Act6LeaseLost r' _ => bool_decide (r' = r) | _ => false end.
Definition is_failed (b : ActionBody6) : bool := match b with Act6Failed _ _ _ => true | _ => false end.
Definition is_acquired (b : ActionBody6) : bool := match b with Act6LeaseAcquired _ _ => true | _ => false end.

(** No action asks for a check or arms a timer. *)
Definition asks_nothing (acts : list ActionBody6) : bool :=
  forallb (fun b => match b with Act6StartDAD _ | Act6SetTimer _ _ | Act6Send _ _ => false | _ => true end) acts.

Definition bare_reply (xid : Z) : Event6 :=
  Ev6Received (Some (mkMessageV6 MsgReply xid [mkOptionV6 OptV6ClientID (P6DUID managed_params); mkOptionV6 OptV6ServerID sample_sid])) [] AddrZero.

(** The same as a run: Solicit, an advertisement with M=0 and O=1,
    Information-request, Reply, late fire. *)
Example late_retransmission_run : says (in_state State6InfoRequesting 0 false) [is_send 0]
  (ends managed_params [(1 * Second, 7, Ev6Start); (2 * Second, 8, Ev6TimerFired Timer6Delay);
     (3 * Second, 9, Ev6RouterAdvert (Some sample_ra)); (4 * Second, 10, bare_reply 9)]
   (5 * Second) 11 (Ev6TimerFired Timer6Retransmit)).
Proof. vm_compute. repeat constructor. Qed.

(** An Advertise whose Server Identifier is empty is collected and selected; the
    Request cannot be built, and the machine waits in REQUESTING6 with no timer. *)
Definition empty_server_advert : Event6 :=
  Ev6Received (Some (mkMessageV6 MsgAdvertise 8 [mkOptionV6 OptV6ClientID (P6DUID managed_params);
    mkOptionV6 OptV6ServerID []; mkOptionV6 OptV6IANA sample_na])) [] AddrZero.

Example empty_server_wedges :
  let r := ends managed_params [(1 * Second, 7, Ev6Start); (2 * Second, 8, Ev6TimerFired Timer6Delay);
    (3 * Second, 9, empty_server_advert)] (4 * Second) 10 (Ev6TimerFired Timer6Retransmit) in
  says (in_state State6Requesting MsgRequest6 false) [is_failed] r /\ option_map (fun r => asks_nothing r.2) r = Some true.
Proof. vm_compute. repeat constructor. Qed.

(** A duplicate reported of an address that is not the lease's ends the lease and
    declines the lease's own address. *)
Example foreign_duplicate_declines : says (in_state State6DAD MsgDecline6 false) [is_lost ReasonConflict; is_send MsgDecline6]
  (ends managed_params (take 6 sample_inputs6) (7 * Second) 13 (Ev6DADResult (Addr6 7 []) true)).
Proof. vm_compute. repeat constructor. Qed.

(** A lease that expires while a Reconfigure's Information-request is under way
    leaves the machine in BOUND6 with no lease and no exchange. *)
Definition info_please (d : bytes) : MessageV6 :=
  mkMessageV6 MsgReconfigure 0 [mkOptionV6 OptV6ClientID (P6DUID managed_params); mkOptionV6 OptV6ServerID sample_sid;
    mkOptionV6 OptV6ReconfMsg [MsgInformationRequest]; authOption (rkap RKAPTypeDigest 7 d)].
Definition info_digest : bytes := octets (hmacMD5 sample_key (octets (EncodeV6 (info_please (replicate RKAPValueLen 0))))).
Definition info_raw : bytes := octets (EncodeV6 (info_please info_digest)).

Example detour_outlives_lease : says (in_state State6Bound 0 false) []
  (ends key_params (key_inputs ++ [(7 * Second, 13, Ev6Received (Some (info_please info_digest)) info_raw sample_addr);
     (8000 * Second, 14, Ev6TimerFired Timer6Expire)]) (8001 * Second) 15 (bare_reply 13)).
Proof. vm_compute. repeat constructor. Qed.

(** A formed address that another node took is announced again, unchecked, at the
    router's next advertisement. *)
Definition router_prefix : RouterAdvert :=
  sample_ra <| Other := false |> <| RaRouter := Addr6 (Z.shiftl 0xfe80 112 + 1) [] |> <| RaPrefixes := [sample_pio] |>.
Definition formed_addr : Addr := Addr6 (Z.shiftl 0x20010db8 96 + 0xfffe000001) [].

Example lost_address_announced_again :
  let r := ends sample_params6 [(1 * Second, 7, Ev6Start); (2 * Second, 8, Ev6RouterAdvert (Some router_prefix));
    (3 * Second, 9, Ev6DADResult formed_addr false); (4 * Second, 10, Ev6AddressLost)]
    (5 * Second) 11 (Ev6RouterAdvert (Some router_prefix)) in
  says (in_state State6Bound 0 true) [is_acquired] r /\
  option_map (fun r => existsb (fun b => match b with Act6StartDAD _ => true | _ => false end) r.2) r = Some false.
Proof. vm_compute. repeat constructor. Qed.

(** The fallback of the automatic mode during a Decline: the Decline's timer is
    cancelled, the state stays DAD6, and nothing is asked for. *)
Definition auto_params : Params6 :=
  managed_params <| P6Mode := Mode6Auto |> <| P6LinkAddr := [2; 0; 0; 0; 0; 1] |> <| P6AutoFallback := 30 * Second |>.

Example fallback_wedges_decline :
  let r := ends auto_params [(1 * Second, 7, Ev6Start); (2 * Second, 8, Ev6RouterAdvert (Some (router_prefix <| Managed := true |>)));
    (3 * Second, 8, Ev6TimerFired Timer6Delay); (3 * Second, 9, sample_msg MsgAdvertise 8);
    (4 * Second, 10, Ev6TimerFired Timer6Retransmit); (5 * Second, 11, sample_msg MsgReply 10);
    (6 * Second, 12, Ev6DADResult sample_addr true)] (40 * Second) 13 (Ev6TimerFired Timer6AutoFallback) in
  says (in_state State6DAD 0 false) [] r /\ option_map (fun r => asks_nothing r.2) r = Some true.
Proof. vm_compute. repeat constructor. Qed.

Lemma late_retransmission_witness : exists k, nstate k = State6InfoRequesting /\
  runs6 (step6 (5 * Second) 11 (Ev6TimerFired Timer6Retransmit)) (fun _ _ acts =>
    exists l msg d t, acts = l ++ [Act6Send msg d; Act6SetTimer Timer6Retransmit t] /\ MType msg = 0) k.
Proof.
  destruct (ends managed_params [(1 * Second, 7, Ev6Start); (2 * Second, 8, Ev6TimerFired Timer6Delay);
     (3 * Second, 9, Ev6RouterAdvert (Some sample_ra))] (4 * Second) 10 (bare_reply 9)) as [[k acts]|] eqn:E.
  2:{ vm_compute in E. discriminate E. }
  assert (H : option_map (fun r => (nstate r.1, nmsgType r.1)) (Some (k, acts)) = Some (State6InfoRequesting, 0)).
  { rewrite <- E. vm_compute. reflexivity. }
  injection H as Hs Ht. exists k. exact (conj Hs (late_retransmission (5 * Second) 11 k Hs Ht)).
Defined.
