(* ===== verification/Record.v ===== *)
(** * The lease record: lease/record.go

    What survives a process: one record per identity, made by folding a journal
    of events, each of which is folded or refused.  The guards of [Fold] in the
    source's order, the counters it accumulates across the managers that ran,
    and what a record answers to a process that resumes it.  A copy of a slice
    is the slice here. *)

From Stdlib Require Import Strings.String.
From S2P Require Import Prelude NetAddr Options Codec Values Backoff Kinds Lease Params Dhcp6 Lease6 Params6 Router6 Outward.

(** ** Phases, operations, refusals *)

(** Octet types of the source, read back from a file: a value outside the named
    ones is the last constructor. *)
Inductive Phase :=
| PhaseUnset | PhaseReserved | PhaseCreated | PhaseJoined | PhaseLeft | PhaseRetained | PhaseAdopted | PhaseClosed
| PhaseOther (n : Z).

Inductive RecordOp :=
| OpReserve | OpCreate | OpRebind | OpAdopt | OpBind | OpLease | OpLost | OpLeave | OpRetain | OpClose | OpStats | OpExtra
| OpOther (n : Z).

Inductive RejectReason :=
| RejectNone | RejectNoRecord | RejectExists | RejectPhase | RejectIdentity | RejectSeq | RejectScope | RejectID
| RejectStats | RejectPayload | RejectFamily | RejectManager.

#[global] Instance Phase_eq_dec : EqDecision Phase.
Proof. solve_decision. Defined.
#[global] Instance RecordOp_eq_dec : EqDecision RecordOp.
Proof. solve_decision. Defined.

(** ** Counters *)

Record RecordCounters := mkRecordCounters {
  Acquisitions : Z; Changes : Z; Renewals : Z; Losses : Z; StoppedNotLost : Z; Configurations : Z;
  Failures : Z; Naks : Z; Timeouts : Z; Conflicts : Z; Expiries : Z; Rejects : Z; Wire : list Z }.

#[global] Instance eta_RecordCounters : Settable RecordCounters := fun c =>
  mkRecordCounters (Acquisitions c) (Changes c) (Renewals c) (Losses c) (StoppedNotLost c) (Configurations c)
    (Failures c) (Naks c) (Timeouts c) (Conflicts c) (Expiries c) (Rejects c) (Wire c).

(** The fields of [WireCounters] and of [Stats] (lease/manager.go), in order;
    the source walks them by reflection and pairs them by name, so a struct is
    the list of its values here. *)
Definition wireNames : list string :=
  ["Steps"; "Sent"; "SendFailures"; "Received"; "DecodeFailures"; "TransportErrors"; "TimerFires"; "EventsDropped";
   "ActionsExecuted"; "ActionsFailedFed"; "DeclinesSent"; "ReleasesSent"; "RequestsDropped"; "RenewalsSent";
   "NaksSeen"; "ProbesSent"; "AnnouncementsSent"; "ARPSendFailures"; "ARPSeen"; "ARPIgnored"; "ARPDecodeFailures";
   "ARPErrors"; "RateLimited"; "NDSeen"; "NDIgnored"; "NDErrors"; "NDSendFailures"; "RouterSolicitsSent";
   "RouterAdvertsSeen"; "RouterAdvertsRefused"; "RouterAdvertOptionsIgnored"; "RouterTableEntriesDropped";
   "RouterTableEntriesEvicted"; "DADChecksStarted"; "DADConflicts"; "SLAACAddressesFormed";
   "SLAACAddressesRefreshed"; "SLAACAddressesDeprecated"; "SLAACAddressesExpired"; "SLAACAddressesConflicted";
   "SLAACPrefixesIgnored"; "SLAACFallbacks"; "ReconfiguresAccepted"; "ReconfiguresRefused"; "IPv6OnlyWaited";
   "IPv6OnlyIgnored"; "IPv6OnlyMalformed"; "RapidCommitsAccepted"; "RapidCommitsRefused"; "ForcerenewsRenewed";
   "ForcerenewsAlreadyRenewing"; "ForcerenewsAckRefused"; "ForcerenewsRefused"; "TemporaryAddressesGranted";
   "TemporaryAddressesRefused"; "TemporaryAddressesAbsent"; "TemporaryAddressesConflicted"; "PrefixesGranted";
   "PrefixesRefused"; "PrefixesAbsent"; "PrefixesChanged"]%string.

Definition statsNames : list string :=
  ["Steps"; "Sent"; "SendFailures"; "Received"; "DecodeFailures"; "TransportErrors"; "LeasesAcquired"; "LeasesLost";
   "AcquireFailures"; "TimerFires"; "EventsDropped"; "ActionsExecuted"; "ActionsFailedFed"; "DeclinesSent";
   "ReleasesSent"; "RequestsDropped"; "RenewalsSent"; "RenewalsCompleted"; "NaksSeen"; "NaksAccepted";
   "ConflictsDetected"; "ProbesSent"; "AnnouncementsSent"; "ARPSendFailures"; "ARPSeen"; "ARPIgnored";
   "ARPDecodeFailures"; "ARPErrors"; "RateLimited"; "NDSeen"; "NDIgnored"; "NDErrors"; "NDSendFailures";
   "RouterSolicitsSent"; "RouterAdvertsSeen"; "RouterAdvertsRefused"; "RouterAdvertOptionsIgnored";
   "RouterTableEntriesDropped"; "RouterTableEntriesEvicted"; "DADChecksStarted"; "DADConflicts"; "ConfiguredEvents";
   "SLAACAddressesFormed"; "SLAACAddressesRefreshed"; "SLAACAddressesDeprecated"; "SLAACAddressesExpired";
   "SLAACAddressesConflicted"; "SLAACPrefixesIgnored"; "SLAACFallbacks"; "ReconfiguresAccepted";
   "ReconfiguresRefused"; "IPv6OnlyWaited"; "IPv6OnlyIgnored"; "IPv6OnlyMalformed"; "RapidCommitsAccepted";
   "RapidCommitsRefused"; "ForcerenewsRenewed"; "ForcerenewsAlreadyRenewing"; "ForcerenewsAckRefused";
   "ForcerenewsRefused"; "TemporaryAddressesGranted"; "TemporaryAddressesRefused"; "TemporaryAddressesAbsent";
   "TemporaryAddressesConflicted"; "PrefixesGranted"; "PrefixesRefused"; "PrefixesAbsent"; "PrefixesChanged"]%string.

Definition statsFoldedInstead : list (string * string) :=
  [("LeasesAcquired", "Acquisitions"); ("LeasesLost", "Losses"); ("AcquireFailures", "Failures");
   ("RenewalsCompleted", "Renewals"); ("NaksAccepted", "Naks"); ("ConfiguredEvents", "Configurations");
   ("ConflictsDetected", "Conflicts")]%string.

Abbreviation Stats := (list Z) (only parsing).
Abbreviation WireCounters := (list Z) (only parsing).

Definition stats_zero : Stats := map (fun _ => 0) statsNames.
Definition wire_zero : WireCounters := map (fun _ => 0) wireNames.

(** [FieldByName]: [None] is a name the struct does not have, a panic. *)
Fixpoint fieldByName (names : list string) (s : Stats) (n : string) : option Z :=
  match names, s with
  | m :: names, v :: s => if String.eqb m n then Some v else fieldByName names s n
  | _, _ => None
  end.

Definition statsIntoWire (s : Stats) : option WireCounters := mapM (fieldByName statsNames s) wireNames.

(** [None] is the name of the counter that went backwards. *)
Fixpoint addDelta (w now base : WireCounters) : option WireCounters :=
  match w, now, base with
  | w0 :: w, n :: now, b :: base =>
    if n <? b then None else
    match addDelta w now base with Some w => Some (u64 (w0 + u64 (n - b)) :: w) | None => None end
  | _, _, _ => Some w
  end.

Definition inc (x : Z) : Z := u64 (x + 1).

(** ** The record and its events *)

Record Rec := mkRec {
  rID : gostring; rScope : gostring; rFamily : Family; rCHAddr : bytes; rIdentity : bytes;
  rParams : option Params; rParams6 : option Params6; rDeclined6 : list Addr;
  rLease : OLease; rHeld : bool; rPhase : Phase; rACD : ACDPhase; rDAD : DADPhase; rConfig : Configuration;
  rDeadline : Time; rStepsRef : gostring; rCounters : RecordCounters; rExtra : gmap gostring Z;
  rSeq : Z; rInstance : gostring; rLastReject : RejectReason;
  statsBase : Stats; statsManager : gostring; statsSeen : gset gostring }.

#[global] Instance eta_Rec : Settable Rec := fun r =>
  mkRec (rID r) (rScope r) (rFamily r) (rCHAddr r) (rIdentity r) (rParams r) (rParams6 r) (rDeclined6 r) (rLease r)
    (rHeld r) (rPhase r) (rACD r) (rDAD r) (rConfig r) (rDeadline r) (rStepsRef r) (rCounters r) (rExtra r)
    (rSeq r) (rInstance r) (rLastReject r) (statsBase r) (statsManager r) (statsSeen r).

Definition counters_empty : RecordCounters := mkRecordCounters 0 0 0 0 0 0 0 0 0 0 0 0 wire_zero.

(** Go's [Record{}]. *)
Definition rec_zero : Rec :=
  mkRec [] [] FamilyUnset [] [] None None [] olease_zero false PhaseUnset ACDIdle DADIdle (mkConfiguration [] [] 0)
    0 [] counters_empty ∅ 0 [] RejectNone stats_zero [] ∅.

Record RecordEvent := mkRecordEvent {
  reID : gostring; reOp : RecordOp; reSeq : Z; reAt : Time; reInstance : gostring; reManager : gostring;
  reScope : gostring; reFamily : Family; reCHAddr : bytes; reIdentity : bytes;
  reParams : option Params; reParams6 : option Params6; reDeclined6 : list Addr; reDeadline : Time;
  reStepsRef : gostring; reKind : LEventKind; reLease : option OLease; reReason : Reason; reNote : gostring;
  reACD : ACDPhase; reDAD : DADPhase; reConfig : option Configuration; reStats : option Stats;
  reExtra : gmap gostring Z }.

#[global] Instance eta_RecordEvent : Settable RecordEvent := fun e =>
  mkRecordEvent (reID e) (reOp e) (reSeq e) (reAt e) (reInstance e) (reManager e) (reScope e) (reFamily e) (reCHAddr e)
    (reIdentity e) (reParams e) (reParams6 e) (reDeclined6 e) (reDeadline e) (reStepsRef e) (reKind e) (reLease e)
    (reReason e) (reNote e) (reACD e) (reDAD e) (reConfig e) (reStats e) (reExtra e).

(** The error of [Fold]; the text of its note is not here. *)
Record Reject := mkReject {
  rjReason : RejectReason; rjOp : RecordOp; rjPhase : Phase; rjID : gostring; rjSeq : Z }.

(** ** The fold *)

(** [p == PhaseUnset] and the like *)
Definition isPhase (p q : Phase) : bool := bool_decide (p = q).
Definition isFamily (f g : Family) : bool := bool_decide (f = g).
Definition isSome {A} (o : option A) : bool := match o with Some _ => true | None => false end.
Definition nonempty {A} (l : list A) : bool := (0 <? length l)%nat.

Definition holdsAnAddress (p : Phase) : bool :=
  match p with PhaseReserved | PhaseCreated | PhaseJoined | PhaseAdopted => true | _ => false end.

Definition familyOf (ev : RecordEvent) (rec : Rec) : Family :=
  if negb (isFamily (reFamily ev) FamilyUnset) then reFamily ev else rFamily rec.

Definition creating (rec : Rec) (ev : RecordEvent) : bool :=
  match reOp ev with
  | OpReserve | OpAdopt => true
  | OpCreate => isPhase (rPhase rec) PhaseUnset
  | _ => false
  end.

(** The refusals before the operation is looked at, in the source's order. *)
Definition guard (rec : Rec) (ev : RecordEvent) : option RejectReason :=
  let new := isPhase (rPhase rec) PhaseUnset in
  if bytes_eqb (reID ev) [] then Some RejectID else
  if new && negb (creating rec ev) then Some RejectNoRecord else
  if negb new && negb (bytes_eqb (reID ev) (rID rec)) then Some RejectID else
  if negb new && creating rec ev then Some RejectExists else
  if negb new && negb (bytes_eqb (reScope ev) []) && negb (bytes_eqb (reScope ev) (rScope rec)) then Some RejectScope else
  if negb (creating rec ev) && (reSeq ev <=? rSeq rec) then Some RejectSeq else
  if nonempty (reIdentity ev) && nonempty (rIdentity rec) && negb (bytes_eqb (reIdentity ev) (rIdentity rec))
  then Some RejectIdentity else
  if creating rec ev && isFamily (reFamily ev) FamilyV6 && negb (nonempty (reIdentity ev)) then Some RejectIdentity else
  if negb (isFamily (reFamily ev) FamilyUnset) && negb (isFamily (rFamily rec) FamilyUnset)
     && negb (isFamily (reFamily ev) (rFamily rec)) then Some RejectFamily else
  if isSome (reParams ev) && isFamily (familyOf ev rec) FamilyV6 then Some RejectFamily else
  if isSome (reParams6 ev) && isFamily (familyOf ev rec) FamilyV4 then Some RejectFamily else
  if isSome (reParams ev) && isSome (reParams6 ev) then Some RejectFamily else None.

Definition foldLease (rec : Rec) (ev : RecordEvent) : Rec + RejectReason :=
  let c := rCounters rec in
  let holding (l : OLease) (c : RecordCounters) :=
    inl (rec <| rLease := l |> <| rHeld := true |> <| rACD := reACD ev |> <| rDAD := reDAD ev |> <| rCounters := c |>) in
  match reKind ev, reLease ev with
  | Acquired, Some l => holding l (c <| Acquisitions := inc (Acquisitions c) |>)
  | Changed, Some l => holding l (c <| Changes := inc (Changes c) |>)
  | Renewed, Some l => holding l (c <| Renewals := inc (Renewals c) |>)
  | Acquired, None | Changed, None | Renewed, None => inr RejectPayload
  | Configured, _ =>
    match reConfig ev with
    | None => inr RejectPayload
    | Some cfg => inl (rec <| rConfig := cfg |> <| rCounters := c <| Configurations := inc (Configurations c) |> |>)
    end
  | Failed, _ =>
    let c := c <| Failures := inc (Failures c) |> in
    let c := match reReason ev with
             | ReasonNak => c <| Naks := inc (Naks c) |>
             | ReasonNoServer => c <| Timeouts := inc (Timeouts c) |>
             | ReasonConflict => c <| Conflicts := inc (Conflicts c) |>
             | _ => c
             end in
    inl (rec <| rCounters := c |>)
  | Lost, _ => inr RejectPayload
  | EventKindOther _, _ => inr RejectPayload
  end.

Definition foldLost (rec : Rec) (ev : RecordEvent) : Rec :=
  let rec := rec <| rACD := reACD ev |> <| rDAD := reDAD ev |> in
  let c := rCounters rec in
  match reReason ev with
  | ReasonStopped => rec <| rCounters := c <| StoppedNotLost := inc (StoppedNotLost c) |> |>
  | _ =>
    let c := c <| Losses := inc (Losses c) |> in
    let c := match reReason ev with
             | ReasonConflict => c <| Conflicts := inc (Conflicts c) |>
             | ReasonExpired => c <| Expiries := inc (Expiries c) |>
             | _ => c
             end in
    rec <| rCounters := c |> <| rLease := olease_zero |> <| rHeld := false |>
  end.

(** [OpStats]; the outer [None] is the panic of [statsIntoWire]. *)
Definition foldStats (next : Rec) (ev : RecordEvent) : option (Rec + RejectReason) :=
  match reStats ev with
  | None => Some (inr RejectPayload)
  | Some stats =>
    if bytes_eqb (reManager ev) [] then Some (inr RejectPayload) else
    now ← statsIntoWire stats;
    base ← statsIntoWire (statsBase next);
    let other := negb (bytes_eqb (reManager ev) (statsManager next)) in
    if other && bool_decide (reManager ev ∈ statsSeen next) then Some (inr RejectManager) else
    let base := if other then wire_zero else base in
    match addDelta (Wire (rCounters next)) now base with
    | None => Some (inr RejectStats)
    | Some w =>
      Some (inl (next <| rCounters := rCounters next <| Wire := w |> |> <| statsBase := stats |>
                      <| statsManager := reManager ev |> <| statsSeen := {[ reManager ev ]} ∪ statsSeen next |>))
    end
  end.

Definition foldExtra (next : Rec) (ev : RecordEvent) : Rec + RejectReason :=
  if bool_decide (reExtra ev = ∅) then inr RejectPayload else
  inl (next <| rExtra := union_with (fun a b => Some (u64 (a + b))) (rExtra next) (reExtra ev) |>).

(** The switch on the operation. *)
Definition foldOp (rec : Rec) (ev : RecordEvent) : option (Rec + RejectReason) :=
  let to_ (p : Phase) : option (Rec + RejectReason) := Some (inl (rec <| rPhase := p |>)) in
  let no : option (Rec + RejectReason) := Some (inr RejectPhase) in
  match reOp ev with
  | OpReserve => to_ PhaseReserved
  | OpCreate =>
    if negb (isPhase (rPhase rec) PhaseUnset) && negb (isPhase (rPhase rec) PhaseReserved) then no else to_ PhaseCreated
  | OpRebind =>
    if negb (isPhase (rPhase rec) PhaseRetained) then no
    else Some (inl (rec <| rPhase := PhaseCreated |> <| rDeadline := 0 |>))
  | OpAdopt => to_ PhaseAdopted
  | OpBind =>
    if negb (isPhase (rPhase rec) PhaseCreated) && negb (isPhase (rPhase rec) PhaseAdopted) then no else to_ PhaseJoined
  | OpLease => if negb (holdsAnAddress (rPhase rec)) then no else Some (foldLease rec ev)
  | OpLost => if negb (holdsAnAddress (rPhase rec)) then no else Some (inl (foldLost rec ev))
  | OpLeave => if negb (isPhase (rPhase rec) PhaseJoined) then no else to_ PhaseLeft
  | OpRetain =>
    if negb (holdsAnAddress (rPhase rec)) && negb (isPhase (rPhase rec) PhaseLeft) then no else to_ PhaseRetained
  | OpClose => to_ PhaseClosed
  | OpStats => foldStats rec ev
  | OpExtra => Some (foldExtra rec ev)
  | OpOther _ => no
  end.

(** [if b { r.field = ... }] *)
Definition upd (b : bool) (f : Rec -> Rec) (r : Rec) : Rec := if b then f r else r.

Definition clearsDeadline (op : RecordOp) : bool := match op with OpRebind | OpCreate | OpBind => true | _ => false end.

(** The assignments every folded event makes. *)
Definition assign (next : Rec) (ev : RecordEvent) : Rec :=
  let next := next <| rID := reID ev |> <| rSeq := reSeq ev |> <| rInstance := reInstance ev |> in
  let next := upd (negb (bytes_eqb (reScope ev) [])) (fun r => r <| rScope := reScope ev |>) next in
  let next := upd (negb (isFamily (reFamily ev) FamilyUnset)) (fun r => r <| rFamily := reFamily ev |>) next in
  let next := upd (nonempty (reCHAddr ev)) (fun r => r <| rCHAddr := reCHAddr ev |>) next in
  let next := upd (nonempty (reIdentity ev)) (fun r => r <| rIdentity := reIdentity ev |>) next in
  let next := upd (isSome (reParams ev)) (fun r => r <| rParams := reParams ev |>) next in
  let next := upd (isSome (reParams6 ev)) (fun r => r <| rParams6 := reParams6 ev |>) next in
  let next := upd (nonempty (reDeclined6 ev)) (fun r => r <| rDeclined6 := reDeclined6 ev |>) next in
  let next := upd (negb (bytes_eqb (reStepsRef ev) [])) (fun r => r <| rStepsRef := reStepsRef ev |>) next in
  let next := upd (negb (IsZero (reDeadline ev))) (fun r => r <| rDeadline := reDeadline ev |>) next in
  upd (negb (isPhase (rPhase next) PhaseRetained) && negb (bool_decide (reOp ev = OpRetain)) && clearsDeadline (reOp ev))
    (fun r => r <| rDeadline := 0 |>) next.

Definition reject (rec : Rec) (ev : RecordEvent) (reason : RejectReason) : Rec * option Reject :=
  (rec <| rCounters := rCounters rec <| Rejects := inc (Rejects (rCounters rec)) |> |> <| rLastReject := reason |>,
   Some (mkReject reason (reOp ev) (rPhase rec) (reID ev) (reSeq ev))).

(** The outer [None] is a panic; the error is Go's, [None] for nil. *)
Definition Fold (rec : Rec) (ev : RecordEvent) : option (Rec * option Reject) :=
  match guard rec ev with
  | Some reason => Some (reject rec ev reason)
  | None =>
    r ← foldOp rec ev;
    match r with
    | inl next => Some (assign next ev, None)
    | inr reason => Some (reject rec ev reason)
    end
  end.

(** ** What a record answers *)

Definition Resume (r : Rec) (now : Time) : option OLease :=
  if negb (rHeld r) then None else
  match rPhase r with
  | PhaseReserved | PhaseCreated | PhaseJoined | PhaseLeft | PhaseAdopted =>
    if negb (PrefixIsValid (oAddr (rLease r))) then None else
    if IsZero (oExpire (rLease r)) || TimeAfter (oExpire (rLease r)) now then Some (rLease r) else None
  | _ => None
  end.

Definition Prefer (r : Rec) (now : Time) : option Addr :=
  if isSome (Resume r now) then None else
  match rPhase r with
  | PhaseUnset | PhaseClosed => None
  | _ =>
    if negb (PrefixIsValid (oAddr (rLease r))) then None else
    let addr := paddr (oAddr (rLease r)) in
    if negb (Is4 addr) || IsUnspecified addr then None else Some addr
  end.

Definition RecAddr (r : Rec) : option Addr :=
  if negb (PrefixIsValid (oAddr (rLease r))) then None else Some (paddr (oAddr (rLease r))).

(** [EventRecord] (lease/rebuild.go): a manager event as a line of the journal. *)
Definition EventRecord (id instance : gostring) (seq : Z) (at_ : Time) (ev : LEvent) : RecordEvent :=
  let out := mkRecordEvent id OpReserve seq at_ instance [] [] (evFamily ev) [] [] None None [] 0 [] (evKind ev) None
               (evReason ev) (evNote ev) (evACD ev) (evDAD ev) None None ∅ in
  if bool_decide (evKind ev = Lost) then out <| reOp := OpLost |> else
  let out := out <| reOp := OpLease |> in
  let out := if negb (bool_decide (evKind ev = Failed)) && negb (bool_decide (evKind ev = Configured))
             then out <| reLease := Some (evLease ev) |> else out in
  if bool_decide (evKind ev = Configured) then out <| reConfig := Some (evConfig ev) |> else out.

(** ** What a fold keeps *)

Lemma isPhase_spec p q : isPhase p q = true <-> p = q.
Proof. apply bool_decide_eq_true. Qed.
Lemma isFamily_spec f g : isFamily f g = true <-> f = g.
Proof. apply bool_decide_eq_true. Qed.
Lemma isPhase_refl p : isPhase p p = true.
Proof. by apply isPhase_spec. Qed.

Lemma nonempty_spec {A} (l : list A) : nonempty l = true <-> l <> [].
Proof. by destruct l. Qed.

Lemma bytes_eqb_nil b : bytes_eqb b [] = false <-> b <> [].
Proof. unfold bytes_eqb. rewrite bool_decide_eq_false. done. Qed.

(** What an event that passed the guards on an existing record says. *)
Record admitted (rec : Rec) (ev : RecordEvent) : Prop := {
  ad_id : reID ev <> [];
  ad_new : rPhase rec = PhaseUnset <-> creating rec ev = true;
  ad_same : rPhase rec <> PhaseUnset -> reID ev = rID rec;
  ad_scope : rPhase rec <> PhaseUnset -> reScope ev = [] \/ reScope ev = rScope rec;
  ad_seq : rPhase rec <> PhaseUnset -> rSeq rec < reSeq ev;
  ad_identity : reIdentity ev = [] \/ rIdentity rec = [] \/ reIdentity ev = rIdentity rec;
  ad_v6 : creating rec ev = true -> reFamily ev = FamilyV6 -> reIdentity ev <> [];
  ad_family : reFamily ev = FamilyUnset \/ rFamily rec = FamilyUnset \/ reFamily ev = rFamily rec;
  ad_params : reParams ev <> None -> familyOf ev rec <> FamilyV6 /\ reParams6 ev = None;
  ad_params6 : reParams6 ev <> None -> familyOf ev rec <> FamilyV4 }.

Ltac guard_case H :=
  match type of H with
  | (if ?b then Some _ else _) = None => let E := fresh "G" in destruct b eqn:E; [discriminate H|]
  end.

Lemma guard_admits rec ev : guard rec ev = None -> admitted rec ev.
Proof.
  unfold guard. cbv zeta. intros H. repeat guard_case H. clear H. apply bytes_eqb_nil in G.
  assert (HI : reIdentity ev = [] \/ rIdentity rec = [] \/ reIdentity ev = rIdentity rec).
  { clear - G5. destruct (reIdentity ev) as [|x l]; [by left|]. destruct (rIdentity rec) as [|y k]; [by right; left|].
    cbn [nonempty length Nat.ltb Nat.leb andb] in G5. apply negb_false_iff, bool_decide_eq_true in G5. auto. }
  assert (HF : reFamily ev = FamilyUnset \/ rFamily rec = FamilyUnset \/ reFamily ev = rFamily rec).
  { clear - G7. unfold isFamily in G7. repeat case_bool_decide; auto; done. }
  assert (HP : reParams ev <> None -> familyOf ev rec <> FamilyV6 /\ reParams6 ev = None).
  { clear - G8 G10. destruct (reParams ev); [|done]. cbn [isSome andb] in *. intros _. split; [|by destruct (reParams6 ev)].
    intros E. apply isFamily_spec in E. congruence. }
  assert (HP6 : reParams6 ev <> None -> familyOf ev rec <> FamilyV4).
  { clear - G9. destruct (reParams6 ev); [|done]. cbn [isSome andb] in *. intros _ E. apply isFamily_spec in E. congruence. }
  assert (HV : creating rec ev = true -> reFamily ev = FamilyV6 -> reIdentity ev <> []).
  { clear - G6. intros Hc E. rewrite Hc, E in G6. change (isFamily FamilyV6 FamilyV6) with true in G6. cbn [andb] in G6.
    by apply negb_false_iff, nonempty_spec in G6. }
  destruct (isPhase (rPhase rec) PhaseUnset) eqn:Eu; cbn [negb andb] in *.
  - apply isPhase_spec in Eu. apply negb_false_iff in G0. by split; try done.
  - assert (Hne : rPhase rec <> PhaseUnset) by (intros E; apply isPhase_spec in E; congruence).
    rewrite G2 in *. cbn [negb andb] in *. split; try done; [by rewrite G2; split|..].
    + intros _. by apply negb_false_iff, bool_decide_eq_true in G1.
    + intros _. destruct (decide (reScope ev = [])) as [|Es]; [by left|right]. apply bytes_eqb_nil in Es. rewrite Es in G3. cbn [negb andb] in G3.
      by apply negb_false_iff, bool_decide_eq_true in G3.
    + intros _. by apply Z.leb_gt in G4.
    + by rewrite G2.
Qed.

(** The operation moves none of the fields the event assigns afterwards. *)
Record kept (r r' : Rec) : Prop := {
  kp_id : rID r' = rID r; kp_scope : rScope r' = rScope r; kp_family : rFamily r' = rFamily r;
  kp_identity : rIdentity r' = rIdentity r; kp_seq : rSeq r' = rSeq r; kp_reject : rLastReject r' = rLastReject r;
  kp_params : rParams r' = rParams r; kp_params6 : rParams6 r' = rParams6 r }.

Lemma foldOp_kept rec ev next : foldOp rec ev = Some (inl next) -> kept rec next.
Proof.
  unfold foldOp, foldLease, foldLost, foldStats, foldExtra. cbv zeta. intros H.
  repeat (case_match; try discriminate H; simplify_option_eq); try (injection H as <-); by split.
Qed.

Lemma foldOp_phase rec ev next : foldOp rec ev = Some (inl next) ->
  (rPhase rec = PhaseUnset -> creating rec ev = true) -> rPhase next <> PhaseUnset.
Proof.
  unfold foldOp, foldLease, foldLost, foldStats, foldExtra, creating. cbv zeta. intros H Hc.
  repeat (case_match; try discriminate H; simplify_option_eq); try (injection H as <-); try done; cbn; intros E; specialize (Hc E); done.
Qed.

Lemma upd_keeps {B} (p : Rec -> B) b f r : (forall r, p (f r) = p r) -> p (upd b f r) = p r.
Proof. intros H. by destruct b; cbn. Qed.

(** A field [assign] never touches. *)
Lemma assign_keeps {B} (p : Rec -> B) next ev :
  (forall r v, p (r <| rID := v |>) = p r) -> (forall r v, p (r <| rSeq := v |>) = p r) ->
  (forall r v, p (r <| rInstance := v |>) = p r) -> (forall r v, p (r <| rScope := v |>) = p r) ->
  (forall r v, p (r <| rFamily := v |>) = p r) -> (forall r v, p (r <| rCHAddr := v |>) = p r) ->
  (forall r v, p (r <| rIdentity := v |>) = p r) -> (forall r v, p (r <| rParams := v |>) = p r) ->
  (forall r v, p (r <| rParams6 := v |>) = p r) -> (forall r v, p (r <| rDeclined6 := v |>) = p r) ->
  (forall r v, p (r <| rStepsRef := v |>) = p r) -> (forall r v, p (r <| rDeadline := v |>) = p r) ->
  p (assign next ev) = p next.
Proof. intros. unfold assign. cbv zeta. rewrite !(upd_keeps p) by auto. by match goal with H1 : forall r v, p (r <| rID := v |>) = _, H2 : forall r v, p (r <| rSeq := v |>) = _, H3 : forall r v, p (r <| rInstance := v |>) = _ |- _ => rewrite H3, H2, H1 end. Qed.

Lemma assign_written next ev : let r := assign next ev in
  rID r = reID ev /\ rSeq r = reSeq ev /\ rInstance r = reInstance ev /\
  rScope r = (if negb (bytes_eqb (reScope ev) []) then reScope ev else rScope next) /\
  rFamily r = (if negb (isFamily (reFamily ev) FamilyUnset) then reFamily ev else rFamily next) /\
  rIdentity r = (if nonempty (reIdentity ev) then reIdentity ev else rIdentity next).
Proof.
  cbv zeta. unfold assign. cbv zeta.
  split; [by rewrite !(upd_keeps rID)|]. split; [by rewrite !(upd_keeps rSeq)|]. split; [by rewrite !(upd_keeps rInstance)|].
  split; [|split].
  - do 9 rewrite (upd_keeps rScope) by done. by destruct (negb _).
  - do 8 rewrite (upd_keeps rFamily) by done. destruct (negb (isFamily _ _)); cbn [upd]; [done|]. by rewrite (upd_keeps rFamily).
  - do 6 rewrite (upd_keeps rIdentity) by done. destruct (nonempty (reIdentity ev)); cbn [upd]; [done|]. by rewrite !(upd_keeps rIdentity).
Qed.

Fixpoint foldAll (r : Rec) (evs : list RecordEvent) : option Rec :=
  match evs with [] => Some r | ev :: evs => '(r, _) ← Fold r ev; foldAll r evs end.

(** A fold either refuses, and moves the two fields that say so, or passes the
    guards, runs the operation and assigns. *)
Lemma Fold_inv r ev r' e : Fold r ev = Some (r', e) ->
  (exists reason, (r', e) = reject r ev reason) \/
  e = None /\ admitted r ev /\ exists next, foldOp r ev = Some (inl next) /\ r' = assign next ev.
Proof.
  unfold Fold. destruct (guard r ev) as [reason|] eqn:Hg; [intros [= <- <-]; left; by exists reason|].
  destruct (foldOp r ev) as [[next|reason]|] eqn:Ho; cbn [mbind option_bind]; intros H; try discriminate H.
  - injection H as <- <-. right. split; [done|]. split; [by apply guard_admits|]. by exists next.
  - injection H as <- <-. left. by exists reason.
Qed.

Lemma reject_keeps r ev reason : let r' := (reject r ev reason).1 in
  kept (r <| rLastReject := reason |>) r' /\ rPhase r' = rPhase r.
Proof. by repeat split. Qed.

(** A record once made keeps what ties it to its client. *)
Record same_record (r r' : Rec) : Prop := {
  sr_phase : rPhase r' <> PhaseUnset; sr_id : rID r' = rID r; sr_scope : rScope r' = rScope r;
  sr_seq : rSeq r <= rSeq r';
  sr_identity : rIdentity r <> [] -> rIdentity r' = rIdentity r;
  sr_family : rFamily r <> FamilyUnset -> rFamily r' = rFamily r }.

Lemma Fold_same r ev r' e : Fold r ev = Some (r', e) -> rPhase r <> PhaseUnset ->
  same_record r r' /\ (e = None -> rSeq r < rSeq r').
Proof.
  intros H Hp. destruct (Fold_inv r ev r' e H) as [(reason & [= -> ->])|(-> & Ha & next & Ho & ->)].
  { split; [|done]. by split. }
  destruct Ha as [_ Hnew Hid Hsc Hsq Hi _ Hf _ _]. pose proof (foldOp_kept r ev next Ho) as Hk.
  pose proof (foldOp_phase r ev next Ho (proj1 Hnew)) as Hph.
  destruct (assign_written next ev) as (Ei & Es & _ & Esc & Efa & Eid). specialize (Hid Hp). specialize (Hsc Hp). specialize (Hsq Hp).
  assert (Ephase : rPhase (assign next ev) = rPhase next) by (by apply assign_keeps). destruct Hk.
  split; [split|].
  - by rewrite Ephase.
  - by rewrite Ei.
  - rewrite Esc, kp_scope0. destruct (bytes_eqb (reScope ev) []) eqn:E; cbn [negb]; [done|]. apply bytes_eqb_nil in E. by destruct Hsc.
  - rewrite Es. lia.
  - intros Hne. rewrite Eid, kp_identity0. destruct (nonempty (reIdentity ev)) eqn:E; [|done]. apply nonempty_spec in E. naive_solver.
  - intros Hne. rewrite Efa, kp_family0. destruct (isFamily (reFamily ev) FamilyUnset) eqn:E; cbn [negb]; [done|].
    assert (reFamily ev <> FamilyUnset) by (intros E'; apply isFamily_spec in E'; congruence). naive_solver.
  - intros _. rewrite Es. done.
Qed.

Lemma same_record_trans a b c : same_record a b -> same_record b c -> same_record a c.
Proof. intros [] []. split; try congruence; [lia|..]; intros; intuition congruence. Qed.

Lemma foldAll_same evs : forall r r', foldAll r evs = Some r' -> rPhase r <> PhaseUnset -> same_record r r'.
Proof.
  induction evs as [|ev evs IH]; intros r r'; cbn [foldAll].
  - intros [= <-] Hp. split; done || lia.
  - intros H Hp. apply bind_Some in H as ([r1 e] & H1 & H2). destruct (Fold_same r ev r1 e H1 Hp) as [Hs _].
    eapply same_record_trans; [exact Hs|]. apply IH; [done|apply Hs].
Qed.

(** C16: what a record is written once with.  However many events follow the
    one that made it, by however many writers: the record keeps its id and its
    scope, an identity or a family once set never changes, it never becomes
    "no record" again and its sequence number never falls; an event that is
    folded raises it strictly, and one that is refused moves the two fields
    that count refusals and nothing else. *)
Theorem record_written_once r evs r' : foldAll r evs = Some r' -> rPhase r <> PhaseUnset ->
  same_record r r' /\
  (forall ev r'', Fold r' ev = Some (r'', None) -> rSeq r' < rSeq r'') /\
  (forall ev r'' rj, Fold r' ev = Some (r'', Some rj) ->
     r'' = r' <| rCounters := rCounters r' <| Rejects := u64 (Rejects (rCounters r') + 1) |> |> <| rLastReject := rjReason rj |> /\
     rj = mkReject (rjReason rj) (reOp ev) (rPhase r') (reID ev) (reSeq ev)).
Proof.
  intros H Hp. pose proof (foldAll_same evs r r' H Hp) as Hs. split; [done|]. split.
  - intros ev r'' HF. destruct (Fold_same r' ev r'' None HF) as [_ Hlt]; [apply Hs|by apply Hlt].
  - intros ev r'' rj HF. destruct (Fold_inv _ _ _ _ HF) as [(reason & [= -> ->])|(? & _)]; done.
Qed.

Definition ev0 : RecordEvent :=
  mkRecordEvent (ascii_bytes "e1") OpCreate 1 0 [] [] (ascii_bytes "net") FamilyV4 [] [1; 2] None None [] 0 [] Acquired None
    ReasonNone [] ACDIdle DADIdle None None ∅.
Definition rec_created : Rec := default rec_zero (foldAll rec_zero [ev0]).

(** A second event that claims another identity is refused. *)
Lemma record_written_once_witness : exists r, foldAll rec_created [ev0 <| reOp := OpBind |> <| reSeq := 2 |> <| reIdentity := [9] |>] = Some r /\
  rIdentity r = [1; 2] /\ rPhase r = PhaseCreated /\ rLastReject r = RejectIdentity.
Proof.
  destruct (foldAll rec_created [ev0 <| reOp := OpBind |> <| reSeq := 2 |> <| reIdentity := [9] |>]) as [r|] eqn:E; [|vm_compute in E; discriminate E].
  exists r. split; [done|]. destruct (record_written_once _ _ _ E) as (Hs & _); [vm_compute; discriminate|].
  split; [apply Hs; vm_compute; discriminate|]. vm_compute in E. injection E as <-. by split.
Defined.

(** ** The counters a record accumulates *)

Definition u64_val (v : Z) : Prop := 0 <= v < 2 ^ 64.
Definition stats_wf (s : Stats) : Prop := length s = length statsNames /\ Forall u64_val s.
Definition event_wf (ev : RecordEvent) : Prop := forall s, reStats ev = Some s -> stats_wf s.

Lemma wireNames_known : forallb (fun n => existsb (String.eqb n) statsNames) wireNames = true.
Proof. vm_compute. reflexivity. Qed.

Lemma fieldByName_ok names : forall s n, length s = length names -> existsb (String.eqb n) names = true ->
  exists v, fieldByName names s n = Some v /\ v ∈ s.
Proof.
  induction names as [|m names IH]; intros [|x s] n Hl; cbn in Hl; try lia; cbn [existsb fieldByName]; [done|]. intros Hn.
  rewrite String.eqb_sym. destruct (String.eqb n m) eqn:E; [exists x; split; [done|by left]|].
  cbn [orb] in Hn. destruct (IH s n) as (v & Hv & Hin); [lia|done|]. exists v. split; [done|by right].
Qed.

Lemma statsIntoWire_ok s : stats_wf s ->
  exists w, statsIntoWire s = Some w /\ length w = length wireNames /\ Forall u64_val w.
Proof.
  intros [Hl Hu]. unfold statsIntoWire. pose proof wireNames_known as Hk. rewrite forallb_forall in Hk.
  assert (H : forall ns, (forall n, In n ns -> existsb (String.eqb n) statsNames = true) ->
    exists w, mapM (fieldByName statsNames s) ns = Some w /\ length w = length ns /\ Forall u64_val w).
  { induction ns as [|n ns IH]; intros Hn; [by exists []|]. destruct (fieldByName_ok statsNames s n Hl) as (v & Hv & Hin); [apply Hn; by left|].
    destruct IH as (w & Hw & Hlw & Huw); [intros m Hm; apply Hn; by right|]. exists (v :: w). cbn [mapM]. rewrite Hv. cbn [mbind option_bind]. rewrite Hw.
    split; [done|]. split; [cbn; lia|]. constructor; [|done]. rewrite Forall_forall in Hu. by apply Hu. }
  by apply H.
Qed.

Definition wireOf (s : Stats) : WireCounters := default wire_zero (statsIntoWire s).

Lemma addDelta_spec w : forall now base, length now = length w -> length base = length w ->
  match addDelta w now base with
  | None => True
  | Some w' => length w' = length w /\ Forall2 (fun n b => b <= n) now base /\
      (Forall u64_val w -> Forall u64_val w') /\
      forall i, nth i w' 0 = (if (i <? length w)%nat then u64 (nth i w 0 + u64 (nth i now 0 - nth i base 0)) else 0)
  end.
Proof.
  induction w as [|x w IH]; intros [|n now] [|b base]; cbn [length]; try lia; intros H1 H2; cbn [addDelta].
  { split; [done|]. split; [constructor|]. split; [done|]. intros i. by destruct i. }
  destruct (Z.ltb_spec n b); [done|]. specialize (IH now base ltac:(lia) ltac:(lia)). destruct (addDelta w now base) as [w'|]; [|done].
  destruct IH as (Hl & Hf & Hu & Hn). split; [cbn; lia|]. split; [by constructor|]. split.
  - intros Hw. apply Forall_cons in Hw as [_ Hw]. constructor; [|by apply Hu]. apply u64_range.
  - intros [|i]; [done|]. apply (Hn i).
Qed.

(** The last snapshot folded of every manager. *)
Fixpoint ledger (r : Rec) (m : gmap gostring Stats) (evs : list RecordEvent) : gmap gostring Stats :=
  match evs with
  | [] => m
  | ev :: evs =>
    match Fold r ev with
    | None => m
    | Some (r, e) =>
      ledger r (match reOp ev, reStats ev, e with OpStats, Some s, None => <[reManager ev := s]> m | _, _, _ => m end) evs
    end
  end.

Definition totalOf (i : nat) (m : gmap gostring Stats) : Z := map_fold (fun _ s acc => nth i (wireOf s) 0 + acc) 0 m.

Lemma totalOf_insert i m k s : m !! k = None -> totalOf i (<[k := s]> m) = nth i (wireOf s) 0 + totalOf i m.
Proof. intros Hk. unfold totalOf. rewrite map_fold_insert_L; [done| |done]. intros. lia. Qed.

Lemma totalOf_replace i m k s0 s : m !! k = Some s0 ->
  totalOf i (<[k := s]> m) = nth i (wireOf s) 0 - nth i (wireOf s0) 0 + totalOf i m.
Proof.
  intros Hk. rewrite <- (insert_delete_eq m k s), totalOf_insert by apply lookup_delete_eq.
  rewrite <- (insert_delete_id m k s0 Hk) at 2. rewrite (totalOf_insert i (delete k m)) by apply lookup_delete_eq. lia.
Qed.

(** The invariant of the accounting, and of what a record holds. *)
Record rec_inv (r : Rec) (m : gmap gostring Stats) : Prop := {
  ri_base : stats_wf (statsBase r);
  ri_wire : length (Wire (rCounters r)) = length wireNames /\ Forall u64_val (Wire (rCounters r));
  ri_total : forall i, (i < length wireNames)%nat -> nth i (Wire (rCounters r)) 0 = u64 (totalOf i m);
  ri_seen : dom m = statsSeen r;
  ri_current : if bytes_eqb (statsManager r) [] then m = ∅ else m !! statsManager r = Some (statsBase r);
  ri_held : rHeld r = false -> rLease r = olease_zero;
  ri_phase : rHeld r = true -> rPhase r <> PhaseUnset }.

Definition accounts (r : Rec) : WireCounters * Stats * gostring * gset gostring :=
  (Wire (rCounters r), statsBase r, statsManager r, statsSeen r).

Lemma foldOp_accounts rec ev next : foldOp rec ev = Some (inl next) -> reOp ev <> OpStats -> accounts next = accounts rec.
Proof.
  unfold foldOp, foldLease, foldLost, foldExtra. cbv zeta. intros H Hn.
  repeat (case_match; try discriminate H; try done); by injection H as <-.
Qed.

Lemma foldOp_held rec ev next : foldOp rec ev = Some (inl next) -> (rHeld rec = false -> rLease rec = olease_zero) ->
  rHeld next = false -> rLease next = olease_zero.
Proof.
  unfold foldOp, foldLease, foldLost, foldStats, foldExtra. cbv zeta. intros H Hi.
  repeat (case_match; try discriminate H; simplify_option_eq); try (injection H as <-); by try apply Hi.
Qed.

Lemma foldOp_stats rec ev next m s : rec_inv rec m -> reOp ev = OpStats -> reStats ev = Some s -> stats_wf s ->
  foldOp rec ev = Some (inl next) ->
  exists w, accounts next = (w, s, reManager ev, {[ reManager ev ]} ∪ statsSeen rec) /\ reManager ev <> [] /\
    length w = length wireNames /\ Forall u64_val w /\
    forall i, (i < length wireNames)%nat -> nth i w 0 = u64 (totalOf i (<[reManager ev := s]> m)).
Proof.
  intros [Hb [Hwl Hwu] Ht Hs Hc _ _] Eop Es Hsw. unfold foldOp, foldStats. rewrite Eop, Es.
  destruct (bytes_eqb (reManager ev) []) eqn:Em; [done|]. apply bytes_eqb_nil in Em.
  destruct (statsIntoWire_ok s Hsw) as (now & En & Hnl & Hnu). destruct (statsIntoWire_ok _ Hb) as (base & Eb & Hbl & Hbu).
  rewrite En, Eb. cbn [mbind option_bind]. assert (Eno : wireOf s = now) by (unfold wireOf; by rewrite En).
  assert (Ebo : wireOf (statsBase rec) = base) by (unfold wireOf; by rewrite Eb).
  destruct (bytes_eqb (reManager ev) (statsManager rec)) eqn:Eq; cbn [negb andb].
  - apply bool_decide_eq_true in Eq. rewrite <- Eq in Hc.
    assert (Em' : bytes_eqb (reManager ev) [] = false) by (by apply bytes_eqb_nil). rewrite Em' in Hc.
    pose proof (addDelta_spec (Wire (rCounters rec)) now base ltac:(lia) ltac:(lia)) as Ha.
    destruct (addDelta _ now base) as [w|]; [|done]. intros [= <-]. destruct Ha as (Hl & _ & Hu & Hn).
    exists w. split; [done|]. split; [done|]. split; [lia|]. split; [auto|]. intros i Hi. rewrite Hn, (proj2 (Nat.ltb_lt _ _)), Ht by lia.
    rewrite (totalOf_replace i m _ _ s Hc), Eno, Ebo. unfold u64. rewrite <- Zplus_mod. f_equal. lia.
  - destruct (bool_decide (reManager ev ∈ statsSeen rec)) eqn:Ein; [done|]. apply bool_decide_eq_false in Ein.
    rewrite <- Hs in Ein. apply not_elem_of_dom in Ein.
    pose proof (addDelta_spec (Wire (rCounters rec)) now wire_zero ltac:(lia) ltac:(unfold wire_zero; rewrite length_map; lia)) as Ha.
    destruct (addDelta _ now wire_zero) as [w|]; [|done]. intros [= <-]. destruct Ha as (Hl & _ & Hu & Hn).
    exists w. split; [done|]. split; [done|]. split; [lia|]. split; [auto|]. intros i Hi. rewrite Hn, (proj2 (Nat.ltb_lt _ _)), Ht by lia.
    rewrite (totalOf_insert i m _ s Ein), Eno. replace (nth i wire_zero 0) with 0.
    2: { symmetry. unfold wire_zero. generalize wireNames. clear. induction i as [|i IH]; intros [|x l]; try done. cbn [map nth]. apply IH. }
    unfold u64. rewrite <- Zplus_mod. f_equal. lia.
Qed.

Lemma Fold_total r m ev : rec_inv r m -> event_wf ev ->
  exists r' e, Fold r ev = Some (r', e) /\
    rec_inv r' (match reOp ev, reStats ev, e with OpStats, Some s, None => <[reManager ev := s]> m | _, _, _ => m end).
Proof.
  intros Hi Hev. assert (Hrej : forall reason, rec_inv (reject r ev reason).1 m) by (destruct Hi; intros reason; by split).
  unfold Fold. destruct (guard r ev) as [reason|] eqn:Hg.
  { do 2 eexists. split; [reflexivity|]. repeat case_match; try apply Hrej; try discriminate. }
  assert (Ho : exists o, foldOp r ev = Some o).
  { unfold foldOp. destruct (reOp ev); repeat case_match; eauto. unfold foldStats.
    destruct (reStats ev) as [s|] eqn:Es; [|eauto]. destruct (bytes_eqb _ _); [eauto|].
    destruct (statsIntoWire_ok s (Hev s Es)) as (w & -> & _). destruct (statsIntoWire_ok _ (ri_base _ _ Hi)) as (w' & -> & _).
    cbn [mbind option_bind]. repeat case_match; eauto. }
  destruct Ho as [[next|reason] Ho]; rewrite Ho; cbn [mbind option_bind];
    [|do 2 eexists; split; [reflexivity|]; repeat case_match; try apply Hrej; try discriminate].
  do 2 eexists. split; [reflexivity|]. apply guard_admits in Hg as Ha.
  assert (Eph : rPhase (assign next ev) <> PhaseUnset).
  { rewrite (assign_keeps rPhase) by done. eapply foldOp_phase; [exact Ho|]. apply Ha. }
  assert (Eheld : rHeld (assign next ev) = false -> rLease (assign next ev) = olease_zero).
  { rewrite (assign_keeps rHeld), (assign_keeps rLease) by done. eapply foldOp_held; [exact Ho|]. apply Hi. }
  assert (Eacc : accounts (assign next ev) = accounts next) by (by apply (assign_keeps accounts)).
  destruct (decide (reOp ev = OpStats)) as [Es|Es].
  - rewrite Es. destruct (reStats ev) as [s|] eqn:Est.
    2: { exfalso. revert Ho. unfold foldOp, foldStats. by rewrite Es, Est. }
    destruct (foldOp_stats r ev next m s Hi Es Est (Hev s Est) Ho) as (w & Ew & Hm & Hl & Hu & Hn).
    rewrite Ew in Eacc. unfold accounts in Eacc. injection Eacc as E1 E2 E3 E4.
    split; rewrite ?E1, ?E2, ?E3, ?E4; auto.
    + by rewrite dom_insert_L, (ri_seen _ _ Hi).
    + rewrite (proj2 (bytes_eqb_nil _) Hm). apply lookup_insert_eq.
  - assert (Em : match reOp ev, reStats ev, @None Reject with OpStats, Some s, None => <[reManager ev := s]> m | _, _, _ => m end = m)
      by (by destruct (reOp ev)).
    rewrite Em, (foldOp_accounts r ev next Ho Es) in *. unfold accounts in Eacc. injection Eacc as E1 E2 E3 E4.
    destruct Hi. split; rewrite ?E1, ?E2, ?E3, ?E4; auto.
Qed.

Lemma rec_inv_zero : rec_inv rec_zero ∅.
Proof.
  split; try done.
  - split; [reflexivity|]. apply (bool_decide_unpack _). vm_compute. exact I.
  - split; [reflexivity|]. apply (bool_decide_unpack _). vm_compute. exact I.
  - intros i _. change (totalOf i ∅) with (map_fold (fun _ s acc => nth i (wireOf s) 0 + acc) 0 (∅ : gmap gostring Stats)).
    rewrite map_fold_empty. change (u64 0) with 0. cbn [rec_zero rCounters counters_empty Wire]. unfold wire_zero.
    generalize wireNames. clear. induction i as [|i IH]; intros [|x l]; try done. cbn [map nth]. apply IH.
Qed.

Lemma foldAll_inv evs : Forall event_wf evs -> forall r m, rec_inv r m ->
  exists r', foldAll r evs = Some r' /\ rec_inv r' (ledger r m evs).
Proof.
  intros Hwf. induction Hwf as [|ev evs Hev _ IH]; intros r m Hi; cbn [foldAll ledger]; [by exists r|].
  destruct (Fold_total r m ev Hi Hev) as (r1 & e & E & Hi1). rewrite E. cbn [mbind option_bind]. by apply IH.
Qed.

(** ** What a snapshot has to say to be counted *)

(** A snapshot is a line of this record: it names the record, it is newer than
    every line folded, and what else it says the record does not contradict. *)
Definition of_record (r : Rec) (ev : RecordEvent) : Prop :=
  rPhase r <> PhaseUnset /\ reID ev <> [] /\ reID ev = rID r /\ rSeq r < reSeq ev /\
  (reScope ev = [] \/ reScope ev = rScope r) /\
  (reIdentity ev = [] \/ rIdentity r = [] \/ reIdentity ev = rIdentity r) /\
  (reFamily ev = FamilyUnset \/ rFamily r = FamilyUnset \/ reFamily ev = rFamily r) /\
  ~ (isSome (reParams ev) = true /\ familyOf ev r = FamilyV6) /\
  ~ (isSome (reParams6 ev) = true /\ familyOf ev r = FamilyV4) /\
  ~ (isSome (reParams ev) = true /\ isSome (reParams6 ev) = true).

#[global] Instance of_record_dec r ev : Decision (of_record r ev).
Proof. unfold of_record. apply _. Defined.

Lemma guard_stats r ev : reOp ev = OpStats -> guard r ev = None <-> of_record r ev.
Proof.
  intros Eo. assert (Ec : creating r ev = false) by (unfold creating; by rewrite Eo). split.
  - intros Hg. pose proof (guard_admits r ev Hg) as [Hid Hnew Hsame Hsc Hsq Hi _ Hf Hp Hp6].
    assert (Hu : rPhase r <> PhaseUnset) by (intros Hu; apply Hnew in Hu; congruence).
    split_and!; auto.
    + intros [E1 E2]. destruct (reParams ev); [|done]. by destruct (Hp ltac:(done)).
    + intros [E1 E2]. destruct (reParams6 ev); [|done]. by apply Hp6.
    + intros [E1 E2]. destruct (reParams ev); [|done]. destruct (Hp ltac:(done)) as [_ E]. by rewrite E in E2.
  - intros (Hu & Hid & Hsame & Hsq & Hsc & Hi & Hf & H1 & H2 & H3). unfold guard. cbv zeta. rewrite Ec.
    assert (Eu : isPhase (rPhase r) PhaseUnset = false) by (by apply bool_decide_eq_false).
    rewrite Eu, (proj2 (bytes_eqb_nil _) Hid), (proj2 (Z.leb_gt _ _) Hsq). cbn [negb andb].
    rewrite Hsame. rewrite (bool_decide_eq_true_2 _ eq_refl : bytes_eqb (rID r) (rID r) = true). cbn [negb].
    assert (E1 : negb (bytes_eqb (reScope ev) []) && negb (bytes_eqb (reScope ev) (rScope r)) = false).
    { unfold bytes_eqb. repeat case_bool_decide; naive_solver. }
    assert (E2 : nonempty (reIdentity ev) && nonempty (rIdentity r) && negb (bytes_eqb (reIdentity ev) (rIdentity r)) = false).
    { destruct Hi as [->|[->| ->]]; [done|by rewrite andb_false_r|]. unfold bytes_eqb. rewrite bool_decide_eq_true_2 by done. apply andb_false_r. }
    assert (E3 : negb (isFamily (reFamily ev) FamilyUnset) && negb (isFamily (rFamily r) FamilyUnset)
      && negb (isFamily (reFamily ev) (rFamily r)) = false) by (unfold isFamily; repeat case_bool_decide; naive_solver).
    assert (E4 : isSome (reParams ev) && isFamily (familyOf ev r) FamilyV6 = false)
      by (apply not_true_iff_false; rewrite andb_true_iff, isFamily_spec; exact H1).
    assert (E5 : isSome (reParams6 ev) && isFamily (familyOf ev r) FamilyV4 = false)
      by (apply not_true_iff_false; rewrite andb_true_iff, isFamily_spec; exact H2).
    assert (E6 : isSome (reParams ev) && isSome (reParams6 ev) = false)
      by (apply not_true_iff_false; rewrite andb_true_iff; exact H3).
    by rewrite E1, E2, E3, E4, E5, E6.
Qed.

(** The snapshot an event adds to a book: it is a line of the record, it names
    its manager, and that manager is one not heard before, or the one heard
    last, none of whose counters has gone back. *)
Definition counted (r : Rec) (m : gmap gostring Stats) (last : gostring) (ev : RecordEvent) : option Stats :=
  match reOp ev, reStats ev with
  | OpStats, Some s =>
    if bool_decide (of_record r ev) && bool_decide (reManager ev <> []) &&
       match m !! reManager ev with
       | None => true
       | Some s0 => bool_decide (reManager ev = last) && bool_decide (Forall2 (fun b n => b <= n) (wireOf s0) (wireOf s))
       end
    then Some s else None
  | _, _ => None
  end.

(** The book an observer of the journal keeps: of each manager the snapshot
    counted last, and the manager heard last.  Of what [Fold] does it uses only
    the record the journal has made so far, to know which lines are its own. *)
Fixpoint book (r : Rec) (m : gmap gostring Stats) (last : gostring) (evs : list RecordEvent) : gmap gostring Stats :=
  match evs with
  | [] => m
  | ev :: evs =>
    match Fold r ev with
    | None => m
    | Some (r', _) =>
      match counted r m last ev with
      | Some s => book r' (<[reManager ev := s]> m) (reManager ev) evs
      | None => book r' m last evs
      end
    end
  end.

Lemma addDelta_total w : forall now base, Forall2 (fun b n => b <= n) base now -> addDelta w now base <> None.
Proof.
  induction w as [|x w IH]; intros now base H; [by destruct now|]. destruct H as [|b n base now Hle H]; [done|].
  cbn [addDelta]. rewrite (proj2 (Z.ltb_ge _ _) Hle). specialize (IH now base H). by destruct (addDelta w now base).
Qed.

Lemma wire_zero_le w : length w = length wireNames -> Forall u64_val w -> Forall2 (fun b n => b <= n) wire_zero w.
Proof.
  unfold wire_zero. generalize wireNames. intros l. revert w.
  induction l as [|x l IH]; intros [|v w] Hl Hw; cbn in Hl; try lia; [constructor|].
  apply Forall_cons in Hw as [Hv Hw]. constructor; [apply Hv|]. apply IH; [lia|done].
Qed.

Lemma foldStats_counted rec ev m s : rec_inv rec m -> stats_wf s -> reStats ev = Some s -> reManager ev <> [] ->
  ((exists next, foldStats rec ev = Some (inl next)) <->
   match m !! reManager ev with
   | None => True
   | Some s0 => reManager ev = statsManager rec /\ Forall2 (fun b n => b <= n) (wireOf s0) (wireOf s)
   end).
Proof.
  intros [Hb [Hwl Hwu] _ Hs Hc _ _] Hsw Es Hm. unfold foldStats. rewrite Es, (proj2 (bytes_eqb_nil _) Hm).
  destruct (statsIntoWire_ok s Hsw) as (now & En & Hnl & Hnu). destruct (statsIntoWire_ok _ Hb) as (base & Eb & Hbl & Hbu).
  rewrite En, Eb. cbn [mbind option_bind]. assert (Eno : wireOf s = now) by (unfold wireOf; by rewrite En).
  assert (Ebo : wireOf (statsBase rec) = base) by (unfold wireOf; by rewrite Eb). rewrite Eno.
  destruct (bytes_eqb (reManager ev) (statsManager rec)) eqn:Eq; cbn [negb andb].
  - apply bool_decide_eq_true in Eq. rewrite <- Eq, (proj2 (bytes_eqb_nil _) Hm) in Hc. rewrite Hc, Ebo.
    pose proof (addDelta_spec (Wire (rCounters rec)) now base ltac:(lia) ltac:(lia)) as Ha.
    pose proof (addDelta_total (Wire (rCounters rec)) now base) as Ht.
    destruct (addDelta _ now base) as [w|]; [|split; [by intros [? [=]]|intros [_ H]; by destruct (Ht H)]].
    destruct Ha as (_ & Hf & _). split; [|eauto]. intros _. split; [done|]. by apply Forall2_flip.
  - apply bool_decide_eq_false in Eq. destruct (m !! reManager ev) as [s0|] eqn:Em.
    + rewrite bool_decide_eq_true_2 by (rewrite <- Hs; by eapply elem_of_dom_2). split; [by intros [? [=]]|by intros [? _]].
    + rewrite bool_decide_eq_false_2 by (rewrite <- Hs; by apply not_elem_of_dom).
      pose proof (addDelta_total (Wire (rCounters rec)) now wire_zero (wire_zero_le now Hnl Hnu)) as Ht.
      destruct (addDelta _ now wire_zero) as [w|]; [|done]. split; [done|eauto].
Qed.

Lemma foldOp_manager rec ev next : foldOp rec ev = Some (inl next) ->
  statsManager next = match reOp ev with OpStats => reManager ev | _ => statsManager rec end.
Proof.
  unfold foldOp, foldLease, foldLost, foldStats, foldExtra. cbv zeta. intros H.
  repeat (case_match; try discriminate H; simplify_option_eq); by try (injection H as <-).
Qed.

(** Folding takes exactly the snapshots the observer counts. *)
Lemma Fold_counted r m ev r' e : rec_inv r m -> event_wf ev -> Fold r ev = Some (r', e) ->
  counted r m (statsManager r) ev = match reOp ev, reStats ev, e with OpStats, Some s, None => Some s | _, _, _ => None end /\
  statsManager r' = match counted r m (statsManager r) ev with Some _ => reManager ev | None => statsManager r end.
Proof.
  intros Hi Hev HF. unfold counted. destruct (decide (reOp ev = OpStats)) as [Eo|Eo].
  2: { assert (Hm : statsManager r' = statsManager r).
       { destruct (Fold_inv _ _ _ _ HF) as [(reason & [= -> ->])|(-> & _ & next & Ho & ->)]; [done|].
         rewrite (assign_keeps statsManager) by done. rewrite (foldOp_manager _ _ _ Ho). by destruct (reOp ev). }
       destruct (reOp ev); done. }
  rewrite Eo. destruct (reStats ev) as [s|] eqn:Es.
  2: { destruct (Fold_inv _ _ _ _ HF) as [(reason & [= -> ->])|(-> & _ & next & Ho & ->)]; [done|].
       exfalso. revert Ho. unfold foldOp, foldStats. by rewrite Eo, Es. }
  pose proof (guard_stats r ev Eo) as Hg. unfold Fold in HF. destruct (guard r ev) as [reason|].
  { rewrite (bool_decide_eq_false_2 (of_record r ev)) by (intros H; by apply Hg in H). cbn [andb]. by injection HF as <- <-. }
  rewrite (bool_decide_eq_true_2 (of_record r ev)) by (by apply Hg). cbn [andb].
  assert (Eop : foldOp r ev = foldStats r ev) by (unfold foldOp; by rewrite Eo).
  destruct (decide (reManager ev = [])) as [Em|Em].
  { rewrite (bool_decide_eq_false_2 (reManager ev <> [])) by (intros H; by apply H). cbn [andb].
    rewrite Eop in HF. unfold foldStats in HF. rewrite Es, Em in HF. cbn in HF. by injection HF as <- <-. }
  rewrite (bool_decide_eq_true_2 (reManager ev <> [])) by done. cbn [andb].
  pose proof (foldStats_counted r ev m s Hi (Hev s Es) Es Em) as Hc. rewrite <- Eop in Hc.
  set (b := match m !! reManager ev with Some _ => _ | None => true end).
  assert (Hb : b = true <-> exists next, foldOp r ev = Some (inl next)).
  { rewrite Hc. unfold b. destruct (m !! reManager ev); [|done]. by rewrite andb_true_iff, !bool_decide_eq_true. }
  clearbody b. destruct (foldOp r ev) as [[next|reason]|] eqn:Ho; cbn [mbind option_bind] in HF; [| |discriminate HF].
  - injection HF as <- <-. rewrite (proj2 Hb) by eauto. split; [done|]. rewrite (assign_keeps statsManager) by done.
    by rewrite (foldOp_manager _ _ _ Ho), Eo.
  - injection HF as <- <-. destruct b; [|done]. destruct (proj1 Hb eq_refl) as [? [=]].
Qed.

Lemma book_ledger evs : Forall event_wf evs -> forall r m, rec_inv r m -> book r m (statsManager r) evs = ledger r m evs.
Proof.
  intros Hwf. induction Hwf as [|ev evs Hev _ IH]; intros r m Hi; cbn [book ledger]; [done|].
  destruct (Fold_total r m ev Hi Hev) as (r' & e & E & Hi'). rewrite E.
  destruct (Fold_counted r m ev r' e Hi Hev E) as [Hc Hm]. rewrite Hc in *.
  specialize (IH r' _ Hi'). rewrite Hm in IH. destruct (reOp ev); try exact IH. destruct (reStats ev); [|exact IH].
  destruct e; exact IH.
Qed.

(** C30: the wire counters of a record account for every manager that ran.  For
    any journal whose snapshots have the fields of [Stats], folding never gets
    stuck, and every wire counter of the record is, modulo 2^64, the sum over the
    managers of the snapshot counted last of each, in the book of an observer who
    reads the same journal: a snapshot counts when it is a line of the record
    and names a manager that is new, or the one heard last with no counter gone
    back; one of a manager that comes back after another is not counted, nor is
    one whose counters fell.  No snapshot is counted twice and none of those is
    lost across a change of manager; the managers remembered are exactly the
    book's; and a record that holds no lease carries none.  The counters [Fold]
    keeps of its own (acquisitions, losses and the like) are not of this
    theorem. *)
Theorem record_accounts evs : Forall event_wf evs ->
  exists r, foldAll rec_zero evs = Some r /\
    (forall i, (i < length wireNames)%nat -> nth i (Wire (rCounters r)) 0 = u64 (totalOf i (book rec_zero ∅ [] evs))) /\
    dom (book rec_zero ∅ [] evs) = statsSeen r /\
    (rHeld r = false -> rLease r = olease_zero) /\ (rHeld r = true -> rPhase r <> PhaseUnset).
Proof.
  intros Hwf. pose proof (book_ledger evs Hwf rec_zero ∅ rec_inv_zero) as Eb.
  change (statsManager rec_zero) with (@nil Z) in Eb. rewrite Eb.
  destruct (foldAll_inv evs Hwf rec_zero ∅ rec_inv_zero) as (r & E & []). by exists r.
Qed.

Definition stats_ev (seq : Z) (mgr : string) (n : Z) : RecordEvent :=
  ev0 <| reOp := OpStats |> <| reSeq := seq |> <| reManager := ascii_bytes mgr |>
      <| reStats := Some (map (fun _ => n) statsNames) |>.

(** Manager [a] reported 3 and then 5 of everything, manager [b] 4; [a] coming
    back is refused: 9. *)
Lemma record_accounts_witness :
  exists r, foldAll rec_zero [ev0; stats_ev 2 "a" 3; stats_ev 3 "a" 5; stats_ev 4 "b" 4; stats_ev 5 "a" 9] = Some r /\
    nth 0 (Wire (rCounters r)) 0 = 9 /\ rLastReject r = RejectManager.
Proof.
  destruct (record_accounts [ev0; stats_ev 2 "a" 3; stats_ev 3 "a" 5; stats_ev 4 "b" 4; stats_ev 5 "a" 9]) as (r & E & H & _).
  - assert (Hw : forall n, 0 <= n < 2 ^ 64 -> stats_wf (map (fun _ => n) statsNames)).
    { intros n Hn. split; [apply length_map|]. apply Forall_forall. intros x Hx. apply list_elem_of_In, in_map_iff in Hx as (_ & <- & _). done. }
    repeat apply Forall_cons_2; try apply Forall_nil_2; intros s Hs; try discriminate Hs; injection Hs as <-; apply Hw; vm_compute; split; congruence.
  - exists r. split; [exact E|]. split; [|vm_compute in E; by injection E as <-]. rewrite H by (vm_compute; lia). vm_compute. reflexivity.
Defined.

(** ** Manager events *)

Lemma guard_passes r ev : rPhase r <> PhaseUnset -> creating r ev = false -> reID ev = rID r -> reID ev <> [] ->
  reScope ev = [] -> reIdentity ev = [] -> rSeq r < reSeq ev -> reParams ev = None -> reParams6 ev = None ->
  (reFamily ev = FamilyUnset \/ rFamily r = FamilyUnset \/ reFamily ev = rFamily r) -> guard r ev = None.
Proof.
  intros Hp Hc Hid Hne Hs Hi Hq H4 H6 Hf. unfold guard. cbv zeta. rewrite Hc, Hs, Hi, H4, H6.
  assert (Eu : isPhase (rPhase r) PhaseUnset = false) by (apply not_true_iff_false; by rewrite isPhase_spec).
  rewrite Eu, (proj2 (bytes_eqb_nil _) Hne). cbn [negb andb]. rewrite Hid. unfold bytes_eqb at 1. rewrite bool_decide_eq_true_2 by done.
  rewrite (proj2 (Z.leb_gt _ _)) by lia. cbn [negb andb nonempty length Nat.ltb Nat.leb isSome]. unfold isFamily.
  destruct Hf as [->|[->| ->]]; [done| |]; repeat case_bool_decide; try done.
Qed.

(** What an event of the manager does to the lease a record holds. *)
Definition lease_after (r : Rec) (ev : LEvent) (r' : Rec) : Prop :=
  match evKind ev with
  | Acquired | Changed | Renewed => rHeld r' = true /\ rLease r' = evLease ev
  | Lost => if bool_decide (evReason ev = ReasonStopped) then rHeld r' = rHeld r /\ rLease r' = rLease r
            else rHeld r' = false /\ rLease r' = olease_zero
  | Configured => rHeld r' = rHeld r /\ rLease r' = rLease r /\ rConfig r' = evConfig ev
  | Failed => rHeld r' = rHeld r /\ rLease r' = rLease r
  | EventKindOther _ => False
  end.

(** No event of a manager is mis-folded.  On a record that owns an address,
    the line [EventRecord] makes of any event the manager emits is folded, not
    refused: an acquired, changed or renewed lease is the record's lease, a lost
    one is gone, except that stopping the manager leaves it for the next one to
    resume, and a failure or a configuration leaves the lease alone; neither
    the phase nor the identity moves. *)
Theorem EventRecord_folds r ev instance seq at_ : holdsAnAddress (rPhase r) = true -> rID r <> [] -> rSeq r < seq ->
  (evFamily ev = FamilyUnset \/ rFamily r = FamilyUnset \/ evFamily ev = rFamily r) ->
  (forall n, evKind ev <> EventKindOther n) ->
  exists r', Fold r (EventRecord (rID r) instance seq at_ ev) = Some (r', None) /\ lease_after r ev r' /\
    rPhase r' = rPhase r /\ rIdentity r' = rIdentity r /\ rSeq r' = seq.
Proof.
  intros Hh Hid Hseq Hf Hk. set (e := EventRecord _ _ _ _ _).
  assert (He : reID e = rID r /\ reSeq e = seq /\ reScope e = [] /\ reIdentity e = [] /\ reParams e = None /\ reParams6 e = None /\
    reFamily e = evFamily ev /\ reKind e = evKind ev /\ reReason e = evReason ev /\
    reOp e = (if bool_decide (evKind ev = Lost) then OpLost else OpLease) /\
    (evKind ev = Acquired \/ evKind ev = Changed \/ evKind ev = Renewed -> reLease e = Some (evLease ev)) /\
    (evKind ev = Configured -> reConfig e = Some (evConfig ev))).
  { unfold e, EventRecord. cbv zeta. destruct (evKind ev); repeat case_bool_decide; try done; split_and!; try done; naive_solver. }
  clearbody e. destruct He as (E1 & E2 & E3 & E4 & E5 & E6 & E7 & E8 & E9 & Eop & El & Ec).
  assert (Hg : guard r e = None).
  { apply guard_passes; rewrite ?E1, ?E2, ?E7; try done; [by intros Eu; rewrite Eu in Hh|].
    unfold creating. rewrite Eop. by case_bool_decide. }
  assert (Ho : exists next, foldOp r e = Some (inl next) /\ lease_after r ev next /\ rPhase next = rPhase r).
  { unfold foldOp, lease_after. rewrite Eop. destruct (evKind ev) eqn:Ek; try (by destruct (Hk n)).
    all: case_bool_decide as Hl; try discriminate Hl; try (by destruct Hl); rewrite Hh; cbn [negb]; unfold foldLease, foldLost; rewrite ?E8, ?Ek, ?E9.
    1-3: rewrite El by auto; eexists; split; [reflexivity|done].
    - eexists. split; [reflexivity|]. destruct (evReason ev); case_bool_decide; done.
    - eexists. split; [reflexivity|]. by destruct (evReason ev).
    - rewrite Ec by done. eexists. split; [reflexivity|done]. }
  destruct Ho as (next & Ho & Hla & Hp). exists (assign next e). unfold Fold. rewrite Hg, Ho. cbn [mbind option_bind].
  split; [done|]. destruct (assign_written next e) as (_ & Es & _ & _ & _ & Ei). destruct (foldOp_kept r e next Ho).
  split; [|split; [by rewrite (assign_keeps rPhase)|split; [by rewrite Ei, E4|by rewrite Es]]].
  unfold lease_after in *. by rewrite (assign_keeps rHeld), (assign_keeps rLease), (assign_keeps rConfig).
Qed.

Definition held_lease : OLease :=
  olease_zero <| oAddr := PrefixFrom (AddrFrom4 [192; 0; 2; 7]) 24 |> <| oExpire := 1000 |>.
Definition acquired_ev : LEvent :=
  mkLEvent Acquired held_lease ReasonNone [] AddrZero ACDDefending DADIdle (mkConfiguration [] [] 0) FamilyV4 0
    (mkRouterObservation false false false AddrZero [] [] 0 [] [] [] []).

Lemma EventRecord_folds_witness : exists r', Fold rec_created (EventRecord (ascii_bytes "e1") [] 2 0 acquired_ev) = Some (r', None) /\
  rHeld r' = true /\ rLease r' = held_lease.
Proof.
  destruct (EventRecord_folds rec_created acquired_ev [] 2 0) as (r' & E & [H1 H2] & _).
  - vm_compute. reflexivity.
  - vm_compute. discriminate.
  - vm_compute. reflexivity.
  - right. right. vm_compute. reflexivity.
  - discriminate.
  - exists r'. split; [exact E|]. split; [exact H1|exact H2].
Defined.

(** ** What a resuming process is told *)

(** Claim or ask, never both.  [Resume] answers exactly the held lease of a
    record that is neither retained nor closed, has an address and has not
    expired; [Prefer] answers only where [Resume] does not; and a record that
    is not closed and holds an IPv4 address always gets one of the two. *)
Theorem resume_or_prefer r now :
  (forall l, Resume r now = Some l <->
     l = rLease r /\ rHeld r = true /\ PrefixIsValid (oAddr l) = true /\ (oExpire l = 0 \/ now < oExpire l) /\
     rPhase r ∈ [PhaseReserved; PhaseCreated; PhaseJoined; PhaseLeft; PhaseAdopted]) /\
  (forall a, Prefer r now = Some a -> Resume r now = None /\ RecAddr r = Some a /\ Is4 a = true /\ IsUnspecified a = false) /\
  (forall a, RecAddr r = Some a -> Is4 a = true -> IsUnspecified a = false -> rPhase r <> PhaseUnset -> rPhase r <> PhaseClosed ->
     Resume r now = Some (rLease r) \/ Prefer r now = Some a).
Proof.
  assert (HR : forall l, Resume r now = Some l <->
     l = rLease r /\ rHeld r = true /\ PrefixIsValid (oAddr l) = true /\ (oExpire l = 0 \/ now < oExpire l) /\
     rPhase r ∈ [PhaseReserved; PhaseCreated; PhaseJoined; PhaseLeft; PhaseAdopted]).
  { intros l. unfold Resume, IsZero, TimeAfter. set_unfold. split.
    - destruct (rHeld r); cbn [negb]; [|done]. intros H.
      assert (Hp : rPhase r = PhaseReserved \/ rPhase r = PhaseCreated \/ rPhase r = PhaseJoined \/ rPhase r = PhaseLeft \/ rPhase r = PhaseAdopted)
        by (destruct (rPhase r); try discriminate H; tauto).
      assert (H' : (if negb (PrefixIsValid (oAddr (rLease r))) then None else
        if (oExpire (rLease r) =? 0) || (now <? oExpire (rLease r)) then Some (rLease r) else None) = Some l) by (by destruct (rPhase r)).
      clear H. destruct (PrefixIsValid _) eqn:Ev; cbn [negb] in H'; [|done].
      destruct (_ || _) eqn:Eo; [|done]. injection H' as <-. apply orb_true_iff in Eo. rewrite Z.eqb_eq, Z.ltb_lt in Eo. tauto.
    - intros (-> & -> & -> & Ho & Hp). cbn [negb]. rewrite <- Z.eqb_eq, <- Z.ltb_lt, <- orb_true_iff in Ho. rewrite Ho.
      destruct_or! Hp; rewrite ?Hp; try done. }
  split; [exact HR|]. split.
  - intros a. unfold Prefer. destruct (Resume r now) as [l|]; cbn [isSome]; [done|]. unfold RecAddr.
    destruct (rPhase r); try done; (destruct (negb (PrefixIsValid _)); [done|]);
      (destruct (Is4 (paddr _)) eqn:E4; [|done]); (destruct (IsUnspecified (paddr _)) eqn:Eu; [done|]); intros [= <-]; done.
  - intros a Ha H4 Hu Hn Hc. unfold Prefer. destruct (Resume r now) as [l|] eqn:Er; [left; by destruct (proj1 (HR l) eq_refl) as (-> & _)|right].
    cbn [isSome]. revert Ha. unfold RecAddr. destruct (negb _); [done|]. intros [= ->]. rewrite H4, Hu. by destruct (rPhase r).
Qed.

(** An acquired lease is claimed until it expires, and asked for afterwards. *)
Lemma resume_or_prefer_witness : let r := default rec_zero (foldAll rec_created [EventRecord (ascii_bytes "e1") [] 2 0 acquired_ev]) in
  Resume r 999 = Some held_lease /\ Prefer r 1000 = Some (AddrFrom4 [192; 0; 2; 7]).
Proof.
  intros r. split; [vm_compute; reflexivity|].
  destruct (resume_or_prefer r 1000) as (_ & _ & H). destruct (H (AddrFrom4 [192; 0; 2; 7])) as [H'|H']; try (vm_compute; congruence).
Defined.

(** ** What the fold lets through *)

(** The refusals of a family look at the event, not at what the record already
    holds: a record made without a family takes one parameter snapshot of each,
    and becomes a DHCPv6 record without an identity. *)
Lemma family_set_late : exists r,
  foldAll rec_zero [ev0 <| reFamily := FamilyUnset |> <| reIdentity := [] |> <| reParams := Some (DefaultParams [2; 0; 0; 0; 0; 1]) |>;
                    ev0 <| reOp := OpBind |> <| reSeq := 2 |> <| reFamily := FamilyV6 |> <| reIdentity := [] |>
                        <| reParams6 := Some DefaultParams6 |>] = Some r /\
  rFamily r = FamilyV6 /\ rIdentity r = [] /\ rParams r <> None /\ rParams6 r <> None /\ rLastReject r = RejectNone.
Proof. eexists. split; [vm_compute; reflexivity|]. vm_compute. by split_and!. Qed.

(** A deadline is not confined to a retained record: any event can carry one. *)
Lemma deadline_outside_retained : exists r,
  foldAll rec_zero [ev0; ev0 <| reOp := OpBind |> <| reSeq := 2 |>;
                    ev0 <| reOp := OpExtra |> <| reSeq := 3 |> <| reExtra := {[ [1] := 1 ]} |> <| reDeadline := 7 |>] = Some r /\
  rPhase r = PhaseJoined /\ rDeadline r = 7.
Proof. eexists. split; [vm_compute; reflexivity|]. by vm_compute. Qed.
