(* ===== verification/Rebuild.v ===== *)
(** * The rebuild of a journal: lease/rebuild.go

    All records of one journal, in the order they were created, with what the
    fold refused; the two lookups; and the theorem that a record is the fold of
    its own lines, whatever other records' lines stand between them. *)

From S2P Require Import Prelude NetAddr Backoff Outward Record.

(** ** The rebuild of a journal *)

Record Rebuilt := mkRebuilt { Records : list Rec; RejectsOf : list Reject; byID : gmap gostring nat }.

#[global] Instance eta_Rebuilt : Settable Rebuilt := fun r => mkRebuilt (Records r) (RejectsOf r) (byID r).

(** The outer [None] is an index out of range; the inner one is "no such record". *)
Definition ByID (rb : Rebuilt) (id : gostring) : option (option Rec) :=
  match byID rb !! id with
  | None => Some None
  | Some i => r ← Records rb !! i; Some (Some r)
  end.

Definition ByScopeAddr (rb : Rebuilt) (scope : gostring) (addr : Addr) : list Rec :=
  filter (fun r => rScope r = scope /\ RecAddr r = Some addr) (Records rb).

Definition ByScopeMAC (rb : Rebuilt) (scope : gostring) (mac : bytes) : list Rec :=
  filter (fun r => rScope r = scope /\ mac <> [] /\ rCHAddr r = mac) (Records rb).

Definition Tombstones (rb : Rebuilt) (scope : gostring) (now : Time) : list Rec :=
  filter (fun r => rScope r = scope /\ rPhase r = PhaseRetained /\ IsZero (rDeadline r) = false /\ TimeAfter (rDeadline r) now = true)
    (Records rb).

(** One turn of the loop of [Rebuild]. *)
Definition rebuildStep (rb : Rebuilt) (ev : RecordEvent) : option Rebuilt :=
  let known := byID rb !! reID ev in
  cur ← match known with Some i => Records rb !! i | None => Some rec_zero end;
  '(next, err) ← Fold cur ev;
  let rb := match err with Some rj => rb <| RejectsOf := RejectsOf rb ++ [rj] |> | None => rb end in
  match known with
  | Some i => Some (rb <| Records := <[i := next]> (Records rb) |>)
  | None =>
    if isPhase (rPhase next) PhaseUnset then Some rb else
    Some (rb <| byID := <[reID ev := length (Records rb)]> (byID rb) |> <| Records := Records rb ++ [next] |>)
  end.

Fixpoint rebuildLoop (rb : Rebuilt) (evs : list RecordEvent) : option Rebuilt :=
  match evs with [] => Some rb | ev :: evs => rb ← rebuildStep rb ev; rebuildLoop rb evs end.

Definition Rebuild (evs : list RecordEvent) : option Rebuilt := rebuildLoop (mkRebuilt [] [] ∅) evs.


(** ** A record is the fold of its own lines *)

(** One line on what is known of a record so far; a refused line before the
    record exists leaves nothing. *)
Definition keep (o : option Rec) (ev : RecordEvent) : option Rec :=
  match Fold (default rec_zero o) ev with
  | Some (next, _) => match o with Some _ => Some next | None => if isPhase (rPhase next) PhaseUnset then None else Some next end
  | None => o
  end.

Definition recordOf (id : gostring) (evs : list RecordEvent) : option Rec :=
  foldl keep None (filter (fun ev => reID ev = id) evs).

(** What the journal's account gains by one line, and by all of them. *)
Definition refusal (past : list RecordEvent) (ev : RecordEvent) : list Reject :=
  match Fold (default rec_zero (recordOf (reID ev) past)) ev with Some (_, Some rj) => [rj] | _ => [] end.

Fixpoint refusals (past evs : list RecordEvent) : list Reject :=
  match evs with [] => [] | ev :: evs => refusal past ev ++ refusals (past ++ [ev]) evs end.

(** The rebuilt set against the lines read so far. *)
Record rebuilt (rb : Rebuilt) (evs : list RecordEvent) : Prop := {
  rb_of : forall id, match byID rb !! id with
                     | None => recordOf id evs = None
                     | Some i => exists r, Records rb !! i = Some r /\ recordOf id evs = Some r
                     end;
  rb_id : forall id i r, byID rb !! id = Some i -> Records rb !! i = Some r -> rID r = id;
  rb_all : forall i r, Records rb !! i = Some r -> byID rb !! rID r = Some i /\ rPhase r <> PhaseUnset;
  rb_inv : Forall (fun r => exists m, rec_inv r m) (Records rb) }.

Lemma recordOf_app id evs ev :
  recordOf id (evs ++ [ev]) = if decide (reID ev = id) then keep (recordOf id evs) ev else recordOf id evs.
Proof.
  unfold recordOf. rewrite filter_app, foldl_app. rewrite filter_cons, filter_nil. by destruct (decide _).
Qed.

Lemma Fold_id r ev r' e : Fold r ev = Some (r', e) -> rPhase r' <> PhaseUnset -> (rPhase r <> PhaseUnset -> rID r = reID ev) ->
  rID r' = reID ev.
Proof.
  intros H Hp Hr. destruct (decide (rPhase r = PhaseUnset)) as [Hu|Hu].
  - destruct (Fold_inv _ _ _ _ H) as [(reason & [= -> ->])|(_ & _ & next & _ & ->)]; [by destruct Hp|].
    apply assign_written.
  - destruct (Fold_same _ _ _ _ H Hu) as [[] _]. by rewrite sr_id, Hr.
Qed.

Lemma rebuilt_update rb evs ev i r r' rjs : rebuilt rb evs -> byID rb !! reID ev = Some i -> Records rb !! i = Some r ->
  recordOf (reID ev) evs = Some r -> keep (Some r) ev = Some r' -> rID r' = reID ev -> rPhase r' <> PhaseUnset ->
  (exists m, rec_inv r' m) -> rebuilt (mkRebuilt (<[i := r']> (Records rb)) rjs (byID rb)) (evs ++ [ev]).
Proof.
  intros [Hof Hid Hall Hinv] Ei Hr Hrec Hk Eid Hp Hm. assert (Hlt : (i < length (Records rb))%nat) by (by apply lookup_lt_Some in Hr).
  split; cbn [Records byID].
  - intros id. rewrite recordOf_app. specialize (Hof id). destruct (decide (reID ev = id)) as [<-|Hne].
    + rewrite Ei, Hrec. exists r'. by rewrite list_lookup_insert_eq.
    + destruct (byID rb !! id) as [j|] eqn:Ej; [|done]. destruct Hof as (x & Hx & Hxr). exists x. split; [|done].
      rewrite list_lookup_insert_ne; [done|]. intros ->. apply Hne. rewrite <- (Hid _ _ _ Ei Hr). by apply (Hid _ j).
  - intros id j x Hj Hx. destruct (decide (i = j)) as [<-|Hne].
    + rewrite list_lookup_insert_eq in Hx by done. injection Hx as <-. rewrite Eid, <- (Hid _ _ _ Ei Hr). by apply (Hid _ i).
    + rewrite list_lookup_insert_ne in Hx by done. by apply (Hid _ j).
  - intros j x Hx. destruct (decide (i = j)) as [<-|Hne].
    + rewrite list_lookup_insert_eq in Hx by done. injection Hx as <-. by rewrite Eid.
    + rewrite list_lookup_insert_ne in Hx by done. by apply Hall.
  - by apply Forall_insert.
Qed.

Lemma rebuilt_append rb evs ev r' rjs : rebuilt rb evs -> byID rb !! reID ev = None -> keep None ev = Some r' ->
  rID r' = reID ev -> rPhase r' <> PhaseUnset -> (exists m, rec_inv r' m) ->
  rebuilt (mkRebuilt (Records rb ++ [r']) rjs (<[reID ev := length (Records rb)]> (byID rb))) (evs ++ [ev]).
Proof.
  intros [Hof Hid Hall Hinv] Ei Hk Eid Hp Hm. split; cbn [Records byID].
  - intros id. rewrite recordOf_app. pose proof (Hof id) as Ho. pose proof (Hof (reID ev)) as Hev. rewrite Ei in Hev.
    destruct (decide (reID ev = id)) as [<-|Hne].
    + rewrite lookup_insert_eq, Hev. exists r'. split; [|done]. by rewrite lookup_app_r, Nat.sub_diag.
    + rewrite lookup_insert_ne by done. destruct (byID rb !! id) as [j|] eqn:Ej; [|done]. destruct Ho as (x & Hx & Hxr).
      exists x. split; [|done]. rewrite lookup_app_l; [done|]. by apply lookup_lt_Some in Hx.
  - intros id j x Hj Hx. destruct (decide (reID ev = id)) as [<-|Hne].
    + rewrite lookup_insert_eq in Hj. injection Hj as <-. rewrite lookup_app_r, Nat.sub_diag in Hx by lia. by injection Hx as <-.
    + rewrite lookup_insert_ne in Hj by done. pose proof (Hof id) as Ho. rewrite Hj in Ho. destruct Ho as (y & Hy & _).
      rewrite lookup_app_l in Hx by (by apply lookup_lt_Some in Hy). by apply (Hid _ j).
  - intros j x Hx. apply lookup_app_Some in Hx as [Hx|[Hl Hx]].
    + destruct (Hall j x Hx) as [Hb Hpx]. split; [|done]. rewrite lookup_insert_ne; [done|]. intros E. by rewrite E, Hb in Ei.
    + destruct (j - length (Records rb))%nat as [|k] eqn:Ej; [|done]. injection Hx as <-. rewrite Eid, lookup_insert_eq.
      split; [f_equal; lia|done].
  - apply Forall_app. split; [done|]. by apply Forall_singleton.
Qed.

Lemma rebuilt_none rb evs ev rjs : rebuilt rb evs -> byID rb !! reID ev = None -> keep None ev = None ->
  rebuilt (mkRebuilt (Records rb) rjs (byID rb)) (evs ++ [ev]).
Proof.
  intros [Hof Hid Hall Hinv] Ei Hk. split; [|exact Hid|exact Hall|exact Hinv]. cbn [Records byID].
  intros id. rewrite recordOf_app. pose proof (Hof id) as Ho. destruct (decide (reID ev = id)) as [<-|]; [|done].
  rewrite Ei in Ho |- *. by rewrite Ho.
Qed.

Lemma rebuildStep_ok rb evs ev : rebuilt rb evs -> event_wf ev ->
  exists rb', rebuildStep rb ev = Some rb' /\ rebuilt rb' (evs ++ [ev]) /\
    map rID (Records rb) `prefix_of` map rID (Records rb') /\ RejectsOf rb' = RejectsOf rb ++ refusal evs ev.
Proof.
  intros Hrb Hev. unfold rebuildStep. pose proof (rb_of _ _ Hrb (reID ev)) as Hof.
  destruct (byID rb !! reID ev) as [i|] eqn:Ei.
  - destruct Hof as (r & Hr & Hk). rewrite Hr. cbn [mbind option_bind].
    pose proof (rb_inv _ _ Hrb) as Hinv. rewrite Forall_lookup in Hinv. destruct (Hinv i r Hr) as [m Hm].
    destruct (rb_all _ _ Hrb i r Hr) as [_ Hp].
    destruct (Fold_total r m ev Hm Hev) as (r' & e & E & Hm'). rewrite E. cbn [mbind option_bind].
    pose proof (rb_id _ _ Hrb _ _ _ Ei Hr) as Hrid. destruct (Fold_same r ev r' e E Hp) as [[Hp' Hid' _ _ _ _] _].
    assert (Er : refusal evs ev = match e with Some rj => [rj] | None => [] end) by (unfold refusal; rewrite Hk; cbn; rewrite E; by destruct e).
    eexists. split; [reflexivity|]. rewrite Er. split; [|split].
    + assert (Hrb' : forall rjs, rebuilt (mkRebuilt (<[i := r']> (Records rb)) rjs (byID rb)) (evs ++ [ev])).
      { intros rjs. apply (rebuilt_update rb evs ev i r r'); [done..| |by rewrite Hid'|done|by eexists]. unfold keep. cbn. by rewrite E. }
      destruct e; exact (Hrb' _).
    + assert (El : rID <$> <[i := r']> (Records rb) = rID <$> Records rb).
      { rewrite list_fmap_insert, list_insert_id; [done|]. rewrite list_lookup_fmap, Hr. cbn. by rewrite Hid'. }
      destruct e; cbn; change (map rID ?l) with (rID <$> l); rewrite El; reflexivity.
    + destruct e; cbn; [done|by rewrite app_nil_r].
  - cbn [mbind option_bind]. destruct (Fold_total rec_zero ∅ ev rec_inv_zero Hev) as (r' & e & E & Hm'). rewrite E. cbn [mbind option_bind].
    assert (Hk : keep None ev = if isPhase (rPhase r') PhaseUnset then None else Some r') by (unfold keep; cbn [default]; by rewrite E).
    assert (Er : refusal evs ev = match e with Some rj => [rj] | None => [] end) by (unfold refusal; rewrite Hof; cbn [default]; rewrite E; by destruct e).
    rewrite Er. destruct (isPhase (rPhase r') PhaseUnset) eqn:Eu.
    + destruct rb as [rs js bi]. destruct e as [rj|].
      * exists (mkRebuilt rs (js ++ [rj]) bi). split; [done|]. split; [by apply (rebuilt_none (mkRebuilt rs js bi))|done].
      * exists (mkRebuilt rs js bi). split; [done|]. split; [by apply (rebuilt_none (mkRebuilt rs js bi) evs ev js)|]. by rewrite app_nil_r.
    + assert (Hp : rPhase r' <> PhaseUnset) by (intros E'; apply isPhase_spec in E'; congruence).
      assert (Eid : rID r' = reID ev) by (by eapply Fold_id).
      destruct e; (eexists; split; [reflexivity|]; split; [apply (rebuilt_append rb evs ev r'); eauto|split]); cbn;
        rewrite ?map_app, ?app_nil_r; try done; by apply prefix_app_r.
Qed.

Lemma rebuilt_empty : rebuilt (mkRebuilt [] [] ∅) [].
Proof. split; cbn; intros; [by rewrite lookup_empty|done|done|apply Forall_nil_2]. Qed.

Lemma rebuildLoop_ok evs : forall rb past, rebuilt rb past -> Forall event_wf evs ->
  exists rb', rebuildLoop rb evs = Some rb' /\ rebuilt rb' (past ++ evs) /\
    map rID (Records rb) `prefix_of` map rID (Records rb') /\ RejectsOf rb' = RejectsOf rb ++ refusals past evs.
Proof.
  induction evs as [|ev evs IH]; intros rb past Hrb Hwf.
  - exists rb. by rewrite !app_nil_r.
  - apply Forall_cons in Hwf as [Hev Hwf]. destruct (rebuildStep_ok rb past ev Hrb Hev) as (rb1 & E1 & Hrb1 & Hp1 & Hr1).
    destruct (IH rb1 (past ++ [ev]) Hrb1 Hwf) as (rb2 & E2 & Hrb2 & Hp2 & Hr2).
    exists rb2. cbn. rewrite E1. cbn. rewrite <- app_assoc in Hrb2. split; [done|]. split; [done|]. split; [by etrans|].
    by rewrite Hr2, Hr1, app_assoc.
Qed.

Lemma rebuildLoop_app evs1 evs2 : forall rb, rebuildLoop rb (evs1 ++ evs2) = rb' ← rebuildLoop rb evs1; rebuildLoop rb' evs2.
Proof. induction evs1 as [|ev evs1 IH]; intros rb; [done|]. cbn. destruct (rebuildStep rb ev); [apply IH|done]. Qed.

(** C13: a journal of any lines is rebuilt, and each record of the result is the
    fold of its own lines: what other endpoints' lines stand between them, and
    whether those are refused, makes no difference.  [ByID] finds exactly the
    records the journal names, no two records share an identifier, the order
    is the order of creation (a longer journal only appends), and the journal's
    account of refusals holds each refused line once, in the order of the
    lines. *)
Theorem Rebuild_per_record evs : Forall event_wf evs ->
  exists rb, Rebuild evs = Some rb /\ (forall id, ByID rb id = Some (recordOf id evs)) /\ NoDup (map rID (Records rb)) /\
    (forall r, r ∈ Records rb -> recordOf (rID r) evs = Some r) /\ RejectsOf rb = refusals [] evs /\
    forall evs1 evs2, evs = evs1 ++ evs2 -> exists rb1, Rebuild evs1 = Some rb1 /\ map rID (Records rb1) `prefix_of` map rID (Records rb).
Proof.
  intros Hwf. destruct (rebuildLoop_ok evs _ [] rebuilt_empty Hwf) as (rb & E & Hrb & _ & Hr). cbn in Hrb, Hr.
  pose proof Hrb as [Hof Hid Hall _]. exists rb. split; [exact E|]. split; [|split; [|split; [|split; [exact Hr|]]]].
  - intros id. unfold ByID. specialize (Hof id). destruct (byID rb !! id) as [i|]; [|by rewrite Hof].
    destruct Hof as (r & -> & ->). done.
  - apply NoDup_alt. intros i j x Hi Hj. change (map rID (Records rb)) with (rID <$> Records rb) in Hi, Hj.
    apply list_lookup_fmap_Some in Hi as (r1 & -> & Hi), Hj as (r2 & Ex & Hj).
    destruct (Hall _ _ Hi) as [Bi _], (Hall _ _ Hj) as [Bj _]. rewrite Ex in Bi. congruence.
  - intros r [i Hi]%list_elem_of_lookup. destruct (Hall _ _ Hi) as [Hb _]. specialize (Hof (rID r)). rewrite Hb in Hof.
    destruct Hof as (x & Hx & ->). congruence.
  - intros evs1 evs2 ->. apply Forall_app in Hwf as [Hw1 Hw2].
    destruct (rebuildLoop_ok evs1 _ [] rebuilt_empty Hw1) as (rb1 & E1 & Hrb1 & _). exists rb1. split; [exact E1|].
    rewrite rebuildLoop_app, E1 in E. cbn in E. destruct (rebuildLoop_ok evs2 rb1 evs1 Hrb1 Hw2) as (rb2 & E2 & _ & Hp & _).
    by replace rb with rb2 by congruence.
Qed.

(** Two endpoints' lines interleaved, a refused line between them: a second
    identity for [e1], and a lease for an endpoint nothing created. *)
Definition interleaved : list RecordEvent :=
  [ev0; ev0 <| reID := ascii_bytes "e2" |>; ev0 <| reOp := OpBind |> <| reSeq := 2 |> <| reIdentity := [9] |>;
   EventRecord (ascii_bytes "e3") [] 1 0 acquired_ev; EventRecord (ascii_bytes "e1") [] 3 0 acquired_ev].

Lemma Rebuild_per_record_witness : exists rb, Rebuild interleaved = Some rb /\ map rID (Records rb) = [ascii_bytes "e1"; ascii_bytes "e2"] /\
  length (RejectsOf rb) = 2%nat /\ exists r, ByID rb (ascii_bytes "e1") = Some (Some r) /\ rHeld r = true.
Proof.
  destruct (Rebuild_per_record interleaved) as (rb & E & Hby & _ & _ & Hr & _).
  - repeat apply Forall_cons_2; try apply Forall_nil_2; intros s Hs; discriminate Hs.
  - exists rb. split; [exact E|]. split; [vm_compute in E; by injection E as <-|]. rewrite Hr, Hby.
    split; [vm_compute; reflexivity|]. eexists. split; vm_compute; reflexivity.
Defined.

(** ** The lookups by scope *)

(** The re-bind candidates of a scope are its retained records whose
    deadline is set and still ahead, each once and in journal order; no other
    record is offered, and none is left out. *)
Theorem Tombstones_spec rb scope now r : r ∈ Tombstones rb scope now <->
  r ∈ Records rb /\ rScope r = scope /\ rPhase r = PhaseRetained /\ rDeadline r <> 0 /\ now < rDeadline r.
Proof.
  unfold Tombstones. rewrite list_elem_of_filter. unfold IsZero, TimeAfter. rewrite Z.ltb_lt, Z.eqb_neq. naive_solver.
Qed.
