(* ===== verification/IpUdp6.v ===== *)
(** * The IPv6 header, UDP and ICMPv6 over it (runtime/ipudp6.go)

    The frames the DHCPv6 and neighbour-discovery transports build and read: the
    walk over extension headers, the checksum that IPv6 makes mandatory, and
    every refusal. *)

From S2P Require Import Prelude NetAddr Options IpUdp Icmpv6.

Definition ClientPort6 : Z := 546.
Definition ServerPort6 : Z := 547.
Definition ipv6HeaderLen : nat := 40.
Definition ipv6Version : Z := 6.
Definition NDHopLimit : Z := 255.
Definition dhcpHopLimit : Z := 1.
Definition extHopByHop : Z := 0.
Definition extRouting : Z := 43.
Definition extFragment : Z := 44.
Definition extDestOpts : Z := 60.
Definition extNoNextHdr : Z := 59.

(** The errors of ipudp.go that this file returns too, and its own; the last is
    the error without a sentinel of [BuildIPv6ICMP]. *)
Inductive Frame6Err :=
| Shared (e : FrameErr) | ErrNotIPv6Frame | ErrExtensionHeader | ErrZeroChecksum6 | ErrNotICMPv6 | ErrShortBody.

Abbreviation framed6 A := (outcome Frame6Err A) (only parsing).

Definition requireIPv6Addr (a : Addr) : framed6 unit := if negb (Is6 a) || Is4In6 a then Err ErrNotIPv6Frame else Ok tt.

(** ** Checksums: [src] and [dst] are [[16]byte], whose word loops are
    [IpUdp.sumWords]'s *)

Definition pseudoBase6 (src dst : bytes) (ulen next : Z) : Z :=
  let sum := sumWords dst (sumWords src 0) in
  let sum := u32 (sum + Z.shiftr (u32 ulen) 16) in
  let sum := u32 (sum + Z.land (u32 ulen) 0xFFFF) in
  u32 (sum + next).

Definition pseudoSum6 (src dst u : bytes) : Z := sum16 u (pseudoBase6 src dst (Z.of_nat (length u)) protoUDP).
Definition pseudoHeaderSum6 (src dst : bytes) (ulen : Z) : Z := sum16 [] (pseudoBase6 src dst ulen protoUDP).

Definition udpChecksum6 (src dst u : bytes) : Z :=
  let c := not16 (pseudoSum6 src dst u) in if c =? 0 then 0xFFFF else c.
Definition udpChecksumVerify6 (src dst u : bytes) : Z := not16 (pseudoSum6 src dst u).

(** ** Building *)

Definition ipv6Header (plen next hopLimit : Z) (s16 d16 : bytes) : bytes :=
  [Z.shiftl ipv6Version 4; 0; 0; 0] ++ be16 plen ++ [next; hopLimit] ++ s16 ++ d16.

Definition BuildIPv6UDP (src dst : Addr) (sport dport hopLimit : Z) (payload : bytes) : framed6 bytes :=
  _ ← requireIPv6Addr src;
  _ ← requireIPv6Addr dst;
  let ulen := (udpHeaderLen + length payload)%nat in
  if 0xFFFF <? Z.of_nat ulen then Err (Shared ErrDatagramTooLong) else
  let u cs := udpDatagram sport dport cs payload in
  Ok (ipv6Header (u16 (Z.of_nat ulen)) protoUDP hopLimit (As16 src) (As16 dst)
      ++ u (udpChecksum6 (As16 src) (As16 dst) (u 0))).

Definition BuildIPv6ICMP (pkt : ICMPv6Packet) : framed6 bytes :=
  _ ← requireIPv6Addr (PSrc pkt);
  _ ← requireIPv6Addr (PDst pkt);
  if (length (PBody pkt) <? 4)%nat then Err ErrShortBody else
  Ok (ipv6Header (u16 (Z.of_nat (length (PBody pkt)))) ICMPv6NextHeader NDHopLimit (As16 (PSrc pkt)) (As16 (PDst pkt))
      ++ PBody pkt).

(** ** Reading *)

(** The walk over extension headers, [for range 8]. *)
Fixpoint upperLoop (fuel : nat) (next : Z) (rest : bytes) : framed6 (Z * bytes) :=
  match fuel with
  | O => Err ErrExtensionHeader
  | S fuel =>
    if (next =? extHopByHop) || (next =? extRouting) || (next =? extDestOpts) then
      if (length rest <? 8)%nat then Err ErrExtensionHeader else
      r1 ← idx rest 1;
      let n := Z.to_nat ((r1 + 1) * 8) in
      if (length rest <? n)%nat then Err ErrExtensionHeader else
      r0 ← idx rest 0;
      rest ← slice rest n (length rest);
      upperLoop fuel r0 rest
    else if (next =? extFragment) || (next =? extNoNextHdr) then Err ErrExtensionHeader
    else Ok (next, rest)
  end.

Definition ipv6Upper (frame : bytes) : framed6 (Addr * Addr * Z * bytes) :=
  if (length frame <? ipv6HeaderLen)%nat then Err (Shared ErrShortFrame) else
  b0 ← idx frame 0;
  if negb (Z.shiftr b0 4 =? ipv6Version) then Err ErrNotIPv6Frame else
  p ← slice frame 4 6; plen ← ube16 p;
  if (length frame <? ipv6HeaderLen + Z.to_nat plen)%nat then Err (Shared ErrShortFrame) else
  s ← slice frame 8 24;
  d ← slice frame 24 40;
  next ← idx frame 6;
  rest ← slice frame ipv6HeaderLen (ipv6HeaderLen + Z.to_nat plen);
  '(next, body) ← upperLoop 8 next rest;
  Ok (AddrFrom16 s, AddrFrom16 d, next, body).

Record DatagramV6 := mkDatagramV6 { D6Payload : bytes; D6Src : Addr; D6Dst : Addr; D6Checksum : ChecksumState }.

Definition ParseIPv6UDP (frame : bytes) : framed6 DatagramV6 :=
  '(src, dst, next, body) ← ipv6Upper frame;
  if negb (next =? protoUDP) then Err (Shared ErrNotUDP) else
  if (length body <? udpHeaderLen)%nat then Err (Shared ErrShortFrame) else
  p ← slice body 2 4; port ← ube16 p;
  if negb (port =? ClientPort6) then Err (Shared ErrWrongPort) else
  l ← slice body 4 6; ulen ← ube16 l;
  let ulen := Z.to_nat ulen in
  if ((ulen <? udpHeaderLen) || (length body <? ulen))%nat then Err (Shared ErrPayloadShort) else
  u ← slice body 0 ulen;
  let s16 := As16 src in
  let d16 := As16 dst in
  g ← slice u 6 8; got ← ube16 g;
  state ← (if got =? 0 then Err ErrZeroChecksum6
           else if udpChecksumVerify6 s16 d16 u =? 0 then Ok ChecksumVerified
           else if got =? pseudoHeaderSum6 s16 d16 (Z.of_nat (length u)) then Ok ChecksumUncompleted
           else Err (Shared ErrBadChecksum));
  payload ← slice u udpHeaderLen (length u);
  Ok (mkDatagramV6 payload src dst state).

Record ICMPv6Frame := mkICMPv6Frame { F6Src : Addr; F6Dst : Addr; F6HopLimit : Z; F6Body : bytes }.

Definition ParseIPv6ICMP (frame : bytes) : framed6 ICMPv6Frame :=
  '(src, dst, next, body) ← ipv6Upper frame;
  if negb (next =? ICMPv6NextHeader) then Err ErrNotICMPv6 else
  if (length body <? 4)%nat then Err (Shared ErrShortFrame) else
  h ← idx frame 7;
  Ok (mkICMPv6Frame src dst h body).

(** ** Extension headers *)

(** A header the walk steps over: its type, its length field, its octets after
    those two. *)
Record ExtHeader := mkExt { exType : Z; exLen : Z; exBody : bytes }.

Definition ext_wf (h : ExtHeader) : Prop :=
  (exType h = extHopByHop \/ exType h = extRouting \/ exType h = extDestOpts) /\ 0 <= exLen h < 256 /\
  Z.of_nat (length (exBody h)) = 8 * (exLen h + 1) - 2.

Definition firstHeader (hs : list ExtHeader) (upper : Z) : Z := match hs with [] => upper | h :: _ => exType h end.

Fixpoint chain (hs : list ExtHeader) (upper : Z) : bytes :=
  match hs with
  | [] => []
  | h :: hs => [firstHeader hs upper; exLen h] ++ exBody h ++ chain hs upper
  end.

Definition is_upper (p : Z) : Prop := Forall (fun x => p <> x) [extHopByHop; extRouting; extDestOpts; extFragment; extNoNextHdr].

Lemma upperLoop_skips hs upper rest : is_upper upper -> Forall ext_wf hs -> forall fuel, (length hs < fuel)%nat ->
  upperLoop fuel (firstHeader hs upper) (chain hs upper ++ rest) = Ok (upper, rest).
Proof.
  intros Hu Hw. induction Hw as [|h hs (Ht & Hl & Hb) _ IH]; intros [|fuel] Hf; cbn [length] in Hf; try lia; cbn [upperLoop firstHeader chain].
  - unfold is_upper in Hu. repeat rewrite Forall_cons in Hu. destruct Hu as (H1 & H2 & H3 & H4 & H5 & _).
    by rewrite !(proj2 (Z.eqb_neq upper _)).
  - assert (E : (exType h =? extHopByHop) || (exType h =? extRouting) || (exType h =? extDestOpts) = true)
      by (by destruct Ht as [->|[->| ->]]). rewrite E. set (n := Z.to_nat ((exLen h + 1) * 8)).
    assert (Hn : n = (2 + length (exBody h))%nat) by (unfold n; lia).
    rewrite <- !app_assoc. set (r := _ ++ _ ++ _ ++ rest).
    assert (Hr : length r = (n + length (chain hs upper ++ rest))%nat).
    { unfold r. rewrite !length_app, Hn. cbn. lia. }
    rewrite (proj2 (Nat.ltb_ge _ _)) by (rewrite Hr, Hn; lia). change (@idx Frame6Err r 1) with (@Ok Frame6Err byte (exLen h)).
    cbn [mbind outcome_bind]. fold n. rewrite (proj2 (Nat.ltb_ge _ _)) by lia.
    change (@idx Frame6Err r 0) with (@Ok Frame6Err byte (firstHeader hs upper)). cbn [mbind outcome_bind].
    rewrite slice_tail by lia. cbn [mbind outcome_bind].
    replace (drop n r) with (chain hs upper ++ rest); [apply IH; lia|].
    change r with (([firstHeader hs upper; exLen h] ++ exBody h ++ chain hs upper ++ rest)). rewrite app_assoc.
    replace n with (length ([firstHeader hs upper; exLen h] ++ exBody h)) by (rewrite length_app, Hn; done).
    by rewrite drop_app_length.
Qed.

(** A frame: the header, extension headers, the upper-layer packet, and what the
    link put behind it. *)
Definition frame6 (hs : list ExtHeader) (upper hopLimit s d : Z) (body pad : bytes) : bytes :=
  ipv6Header (Z.of_nat (length (chain hs upper ++ body))) (firstHeader hs upper) hopLimit (toBE 16 s) (toBE 16 d)
  ++ chain hs upper ++ body ++ pad.

Lemma ipv6Upper_frame hs upper hopLimit s d body pad : is_upper upper -> Forall ext_wf hs -> (length hs < 8)%nat ->
  0 <= s < 2 ^ 128 -> 0 <= d < 2 ^ 128 -> Z.of_nat (length (chain hs upper ++ body)) < 65536 ->
  ipv6Upper (frame6 hs upper hopLimit s d body pad) = Ok (Addr6 s [], Addr6 d [], upper, body) /\
  @idx Frame6Err (frame6 hs upper hopLimit s d body pad) 7 = Ok hopLimit.
Proof.
  intros Hu Hw Hlen Hs Hd Hn. unfold frame6. set (plen := Z.of_nat _) in *.
  rewrite (app_assoc (chain hs upper) body pad).
  set (rest := chain hs upper ++ body) in *. set (F := ipv6Header plen _ _ _ _ ++ rest ++ pad).
  assert (Hh : length (ipv6Header plen (firstHeader hs upper) hopLimit (toBE 16 s) (toBE 16 d)) = 40%nat)
    by (unfold ipv6Header; by rewrite !length_app, !length_toBE).
  assert (HF : length F = (40 + (length rest + length pad))%nat) by (unfold F; by rewrite !length_app, Hh).
  assert (S : forall i j v (l1 l2 : bytes), F = l1 ++ v ++ l2 -> i = length l1 -> j = (length l1 + length v)%nat ->
    @slice Frame6Err F i j = Ok v) by (intros i j v l1 l2 ->; apply slice_app).
  split; [|reflexivity]. unfold ipv6Upper, ipv6HeaderLen. rewrite (proj2 (Nat.ltb_ge _ _)) by lia.
  change (@idx Frame6Err F 0) with (@Ok Frame6Err byte 96). change (@idx Frame6Err F 6) with (@Ok Frame6Err byte (firstHeader hs upper)).
  cbn [mbind outcome_bind]. change (negb (Z.shiftr 96 4 =? ipv6Version)) with false. cbv iota.
  rewrite (S 4%nat 6%nat (be16 plen) (take 4 F) (drop 6 F)) by done. cbn [mbind outcome_bind].
  rewrite be16_read by (unfold plen; lia). cbn [mbind outcome_bind]. unfold plen. rewrite Nat2Z.id.
  rewrite (proj2 (Nat.ltb_ge _ _)) by lia.
  rewrite (S 8%nat 24%nat (toBE 16 s) (take 8 F) (toBE 16 d ++ rest ++ pad)) by done. cbn [mbind outcome_bind].
  rewrite (S 24%nat 40%nat (toBE 16 d) (take 24 F) (rest ++ pad)) by done. cbn [mbind outcome_bind].
  rewrite (S 40%nat (40 + length rest)%nat rest (ipv6Header plen (firstHeader hs upper) hopLimit (toBE 16 s) (toBE 16 d)) pad)
    by (done || by rewrite Hh). cbn [mbind outcome_bind]. unfold rest.
  rewrite (upperLoop_skips hs upper body Hu Hw 8 Hlen). cbn [mbind outcome_bind]. by rewrite !AddrFrom16_As16.
Qed.

(** ** Checksums *)

Lemma pseudoBase6_ok s d ulen next : 0 <= ulen < 65536 -> 0 <= next < 256 ->
  let W := words (toBE 16 s) + words (toBE 16 d) in
  pseudoBase6 (toBE 16 s) (toBE 16 d) ulen next = W + ulen + next /\ 0 <= W <= 1114112.
Proof.
  intros Hu Hn W. pose proof (words_bound _ (toBE_bytes 16 s)) as Hs. pose proof (words_bound _ (toBE_bytes 16 d)) as Hd.
  rewrite length_toBE in *. unfold pseudoBase6.
  rewrite (sumWords_ok (toBE 16 s)), sumWords_ok by (apply toBE_bytes || (zpow; lia)). fold W.
  split; [|unfold W; lia]. rewrite (u32_id ulen) by (zpow; lia). rewrite Z.shiftr_div_pow2, Z.div_small by (zpow; lia).
  change 0xFFFF with (Z.ones 16). rewrite Z.land_ones, Z.mod_small by (zpow; lia).
  unfold W. rewrite (u32_id (_ + 0)) by (zpow; lia). rewrite (u32_id (_ + ulen)) by (zpow; lia). rewrite u32_id by (zpow; lia). lia.
Qed.

Lemma udp_checks6 s d sport dport payload : are_bytes payload -> Z.of_nat (length payload) < 65528 ->
  let u cs := udpDatagram sport dport cs payload in
  let cs := udpChecksum6 (toBE 16 s) (toBE 16 d) (u 0) in
  0 < cs < 65536 /\ udpChecksumVerify6 (toBE 16 s) (toBE 16 d) (u cs) = 0.
Proof.
  intros Hp Hn u cs. pose proof (fun cs => udpDatagram_bytes sport dport cs payload Hp) as Hb.
  destruct (pseudoBase6_ok s d (Z.of_nat (8 + length payload)) protoUDP) as [Hbase HW]; [lia|unfold protoUDP; lia|].
  set (W := words _ + words _) in *. set (base := W + _ + protoUDP) in Hbase.
  assert (Hs : forall cs, pseudoSum6 (toBE 16 s) (toBE 16 d) (u cs) = sum16 (u cs) base).
  { intros c. unfold pseudoSum6, u. by rewrite length_udpDatagram, Hbase. }
  pose proof (words_bound _ (Hb 0)) as Hw. rewrite length_udpDatagram in Hw.
  destruct (completed u base Hb (fun cs => udpDatagram_words sport dport cs payload)) as (Hc & Hok & Hz);
    unfold u, base, protoUDP in *; [lia..|].
  unfold cs, udpChecksum6, udpChecksumVerify6. rewrite Hs. set (c := not16 _) in *.
  destruct (Z.eqb_spec c 0) as [Ez|]; (split; [lia|]); rewrite Hs.
  - by rewrite (Hz Ez).
  - by rewrite Hok.
Qed.

Lemma datagram_fields6 sport dport cs payload :
  let u := udpDatagram sport dport cs payload in
  @slice Frame6Err u 2 4 = Ok (be16 dport) /\
  @slice Frame6Err u 4 6 = Ok (be16 (u16 (Z.of_nat (8 + length payload)))) /\
  @slice Frame6Err u 6 8 = Ok (be16 cs) /\
  @slice Frame6Err u 0 (8 + length payload) = Ok u /\
  @slice Frame6Err u 8 (8 + length payload) = Ok payload.
Proof.
  intros u. destruct (datagram_fields sport dport cs payload) as (H1 & H2 & H3 & H4 & H5). fold u in H1, H2, H3, H4, H5.
  assert (T : forall i j v, @slice FrameErr u i j = Ok v -> @slice Frame6Err u i j = Ok v)
    by (intros i j v; unfold slice; destruct (_ && _); [|done]; by intros [= ->]).
  split_and!; by apply T.
Qed.

(** C40: what this side sends over IPv6, this side reads, whatever the path adds.
    A datagram built for the client port, with up to seven extension headers put
    in front of it and any octets behind it, is read back with its addresses and
    payload and a verified checksum; an ICMPv6 packet likewise, with the hop
    limit of 255 that proves no router forwarded it. *)
Theorem frames6_read s d sport hop payload body hs pad :
  0 <= s < 2 ^ 128 -> 0 <= d < 2 ^ 128 -> are_bytes payload -> Forall ext_wf hs -> (length hs < 8)%nat ->
  Z.of_nat (length (chain hs protoUDP)) + Z.of_nat (length payload) < 65528 ->
  Z.of_nat (length (chain hs ICMPv6NextHeader)) + Z.of_nat (length body) < 65536 ->
  (forall b, BuildIPv6UDP (Addr6 s []) (Addr6 d []) sport ClientPort6 hop payload = Ok b ->
    b = frame6 [] protoUDP hop s d (drop 40 b) [] /\
    ParseIPv6UDP (frame6 hs protoUDP hop s d (drop 40 b) pad) =
      Ok (mkDatagramV6 payload (Addr6 s []) (Addr6 d []) ChecksumVerified)) /\
  (forall b, BuildIPv6ICMP (mkPacket (Addr6 s []) (Addr6 d []) body) = Ok b ->
    b = frame6 [] ICMPv6NextHeader NDHopLimit s d body [] /\
    ParseIPv6ICMP (frame6 hs ICMPv6NextHeader NDHopLimit s d body pad) =
      Ok (mkICMPv6Frame (Addr6 s []) (Addr6 d []) NDHopLimit body)).
Proof.
  intros Hs Hd Hp Hw Hlen Hlu Hli. split.
  - intros b Hb. unfold BuildIPv6UDP in Hb.
    apply bind_ok_inv in Hb as (? & _ & Hb). apply bind_ok_inv in Hb as (? & _ & Hb). cbv zeta in Hb.
    destruct (Z.ltb_spec 65535 (Z.of_nat (udpHeaderLen + length payload))) as [|Hl]; [done|]. unfold udpHeaderLen in *.
    apply ok_inj in Hb. destruct (udp_checks6 s d sport ClientPort6 payload Hp ltac:(lia)) as [Hcs Hv].
    cbv zeta in Hcs, Hv. cbn [As16] in Hb. set (cs := udpChecksum6 _ _ _) in *. clearbody cs.
    pose proof (datagram_fields6 sport ClientPort6 cs payload) as (U2 & U4 & U6 & Ua & Up).
    pose proof (length_udpDatagram sport ClientPort6 cs payload) as Hlu'.
    set (u := udpDatagram sport ClientPort6 cs payload) in *. clearbody u.
    assert (Hdrop : drop 40 b = u) by (by rewrite <- Hb).
    rewrite Hdrop. split.
    { rewrite <- Hb. unfold frame6. cbn [chain firstHeader app]. rewrite app_nil_r, Hlu'. by rewrite u16_id by lia. }
    destruct (ipv6Upper_frame hs protoUDP hop s d u pad) as [E _]; try done.
    { unfold is_upper. repeat constructor; done. } { rewrite length_app, Hlu'. lia. }
    unfold ParseIPv6UDP. rewrite E. cbn [mbind outcome_bind]. change (negb (protoUDP =? protoUDP)) with false. cbv iota.
    unfold udpHeaderLen. rewrite Hlu', (proj2 (Nat.ltb_ge _ _)) by lia. rewrite U2. cbn [mbind outcome_bind].
    rewrite be16_read by (unfold ClientPort6; lia). cbn [mbind outcome_bind]. change (negb (ClientPort6 =? ClientPort6)) with false.
    cbv iota. rewrite U4. cbn [mbind outcome_bind]. rewrite u16_id, be16_read by lia. cbn [mbind outcome_bind].
    rewrite Nat2Z.id, !(proj2 (Nat.ltb_ge _ _)) by lia. cbn [orb]. rewrite Ua. cbn [mbind outcome_bind].
    rewrite U6. cbn [mbind outcome_bind]. rewrite be16_read by lia. cbn [mbind outcome_bind As16].
    rewrite (proj2 (Z.eqb_neq _ _)), Hv, Z.eqb_refl by lia. cbn [mbind outcome_bind]. rewrite Hlu', Up. done.
  - intros b Hb. unfold BuildIPv6ICMP in Hb. cbn [PSrc PDst PBody] in Hb.
    apply bind_ok_inv in Hb as (? & _ & Hb). apply bind_ok_inv in Hb as (? & _ & Hb).
    destruct (Nat.ltb_spec (length body) 4) as [|H4]; [done|]. apply ok_inj in Hb. cbn [As16] in Hb. split.
    { rewrite <- Hb. unfold frame6. cbn [chain firstHeader app]. rewrite app_nil_r. by rewrite u16_id by lia. }
    destruct (ipv6Upper_frame hs ICMPv6NextHeader NDHopLimit s d body pad) as [E E7]; try done.
    { unfold is_upper. repeat constructor; done. } { rewrite length_app. lia. }
    unfold ParseIPv6ICMP. rewrite E. cbn [mbind outcome_bind]. change (negb (_ =? _)) with false. cbv iota.
    rewrite (proj2 (Nat.ltb_ge _ _)) by lia. by rewrite E7.
Qed.

(** A payload behind a hop-by-hop header of eight octets, and a solicitation. *)
Lemma frames6_read_witness : let hs := [mkExt extHopByHop 0 [5; 2; 0; 0; 1; 0]] in
  exists b b', BuildIPv6UDP (Addr6 1 []) (Addr6 2 []) ServerPort6 ClientPort6 dhcpHopLimit [7; 1; 2; 3] = Ok b /\
  BuildIPv6ICMP (mkPacket (Addr6 1 []) (Addr6 2 []) [133; 0; 0; 0]) = Ok b' /\
  ParseIPv6UDP (frame6 hs protoUDP dhcpHopLimit 1 2 (drop 40 b) [0; 0]) =
    Ok (mkDatagramV6 [7; 1; 2; 3] (Addr6 1 []) (Addr6 2 []) ChecksumVerified) /\
  ParseIPv6ICMP (frame6 hs ICMPv6NextHeader NDHopLimit 1 2 [133; 0; 0; 0] [0; 0]) =
    Ok (mkICMPv6Frame (Addr6 1 []) (Addr6 2 []) NDHopLimit [133; 0; 0; 0]).
Proof.
  intros hs. assert (Hw : Forall ext_wf hs) by (repeat constructor; cbn; (by left) || lia).
  assert (Hp : are_bytes [7; 1; 2; 3]) by (repeat (apply are_bytes_cons; split; [done|]); apply Forall_nil, I).
  destruct (frames6_read 1 2 ServerPort6 dhcpHopLimit [7; 1; 2; 3] [133; 0; 0; 0] hs [0; 0]) as [H1 H2];
    [done|done|exact Hp|exact Hw|cbn; lia|cbn; lia|cbn; lia|].
  do 2 eexists. split; [vm_compute; reflexivity|]. split; [vm_compute; reflexivity|].
  split; [apply H1|apply (H2 _ eq_refl)]. vm_compute. reflexivity.
Defined.

(** ** Every frame is answered *)

Lemma upperLoop_returns fuel : forall next rest, returns (upperLoop fuel next rest).
Proof.
  induction fuel as [|fuel IH]; intros next rest; [done|]. cbn [upperLoop]. destruct (_ || _ || _); [|by destruct (_ || _)].
  destruct (Nat.ltb_spec (length rest) 8); [done|]. apply returns_bind; [apply returns_idx; lia|intros r1 _].
  destruct (Nat.ltb_spec (length rest) (Z.to_nat ((r1 + 1) * 8))); [done|].
  apply returns_bind; [apply returns_idx; lia|intros r0 _]. apply returns_slice_bind; [lia..|]. intros v _. apply IH.
Qed.

Lemma ipv6Upper_returns frame : returns (ipv6Upper frame) /\ forall r, ipv6Upper frame = Ok r -> (40 <= length frame)%nat.
Proof.
  unfold ipv6Upper, ipv6HeaderLen. destruct (Nat.ltb_spec (length frame) 40) as [|H40]; [done|]. split; [|done].
  apply returns_bind; [apply returns_idx; lia|intros b0 _]. destruct (negb _); [done|].
  apply returns_slice_bind; [lia..|]. intros p Hp. apply returns_bind; [apply returns_ube16; lia|intros plen _].
  destruct (Nat.ltb_spec (length frame) (40 + Z.to_nat plen)); [done|].
  do 2 (apply returns_slice_bind; [lia..|]; intros ? ?). apply returns_bind; [apply returns_idx; lia|intros next _].
  apply returns_slice_bind; [lia..|]. intros rest _. apply returns_bind; [apply upperLoop_returns|]. by intros [n b] _.
Qed.

(** No frame of the link makes an IPv6 parser panic or loop, and none with
    the checksum UDP over IPv6 must carry left at zero is accepted. *)
Theorem frames6_return frame : returns (ParseIPv6UDP frame) /\ returns (ParseIPv6ICMP frame) /\
  (forall dg, ParseIPv6UDP frame = Ok dg -> D6Checksum dg <> ChecksumAbsent).
Proof.
  destruct (ipv6Upper_returns frame) as [Hr Hl]. split; [|split].
  - unfold ParseIPv6UDP. apply returns_bind; [done|]. intros [[[src dst] next] body] _.
    destruct (negb _); [done|]. unfold udpHeaderLen. destruct (Nat.ltb_spec (length body) 8); [done|].
    apply returns_slice_bind; [lia..|]. intros p Hp. apply returns_bind; [apply returns_ube16; lia|intros port _].
    destruct (negb _); [done|].
    apply returns_slice_bind; [lia..|]. intros l Hll. apply returns_bind; [apply returns_ube16; lia|intros ulen _].
    destruct (Nat.ltb_spec (Z.to_nat ulen) 8); [done|]. destruct (Nat.ltb_spec (length body) (Z.to_nat ulen)); [done|].
    cbn [orb]. apply returns_slice_bind; [lia..|]. intros u Hu.
    apply returns_slice_bind; [lia..|]. intros g Hg. apply returns_bind; [apply returns_ube16; lia|intros got _].
    apply returns_bind; [destruct (got =? 0); [done|]; destruct (_ =? 0); [done|]; by destruct (_ =? _)|intros st _].
    apply returns_slice_bind; [lia..|]. done.
  - unfold ParseIPv6ICMP. apply returns_bind; [done|]. intros [[[src dst] next] body] E. specialize (Hl _ E).
    destruct (negb _); [done|]. destruct (Nat.ltb_spec (length body) 4); [done|].
    apply returns_bind; [apply returns_idx; lia|done].
  - intros dg H. unfold ParseIPv6UDP in H. apply bind_ok_inv in H as ([[[src dst] next] body] & _ & H).
    destruct (negb _); [done|]. destruct (_ <? _)%nat; [done|].
    apply bind_ok_inv in H as (p & _ & H). apply bind_ok_inv in H as (port & _ & H). destruct (negb _); [done|].
    apply bind_ok_inv in H as (l & _ & H). apply bind_ok_inv in H as (ulen & _ & H). destruct (_ || _); [done|].
    apply bind_ok_inv in H as (u & _ & H). apply bind_ok_inv in H as (g & _ & H). apply bind_ok_inv in H as (got & _ & H).
    apply bind_ok_inv in H as (st & Hst & H). apply bind_ok_inv in H as (pl & _ & H). injection H as <-. cbn [D6Checksum].
    destruct (got =? 0); [done|]. destruct (_ =? 0); [by injection Hst as <-|]. destruct (_ =? _); [by injection Hst as <-|done].
Qed.
