(* ===== verification/Release.v ===== *)
(** * Giving a recorded lease back: lease/release.go, runtime/release_record.go, runtime/release_link.go

    A release built from the record alone, when the machine that held the lease
    and the namespace it ran in are gone: the datagrams of a record, what sends
    them from an address of the host, and what sends one over the link when the
    host has none.  The network is a parameter: [send] answers an error or
    nothing, and a link is what its sockets answered. *)

From Stdlib Require Import Strings.String.
From S2P Require Import Prelude NetAddr Options Codec Values Arp Backoff Kinds Lease Params Dhcp6 Lease6 Params6 Router6 Outward Record IpUdp IpUdp6.

(** ** lease/release.go *)

Record AddrPort := mkAddrPort { apAddr : Addr; apPort : Z }.

(** The error values of the three files, and the errors they wrap: one of the
    codec, one of the entropy source, one of a socket (its text). *)
Inductive ReleaseErr :=
| ErrReleaseFamily | ErrReleaseNoAddr | ErrReleaseNoServer | ErrReleaseNoIdentity | ErrReleaseIAIDMismatch
| ErrReleaseNoSource | ErrReleaseSourceFamily | ErrReleaseNoInterface | ErrReleaseSourceIsReleased
| ErrLinkReleaseFamily | ErrLinkReleaseNoInterface | ErrLinkReleaseNoRoute | ErrLinkReleaseHopSilent
| ErrLinkClosed | ReleaseWire (e : WireErr) | ReleaseSeed | ReleasePort (text : gostring).

Definition wired {A} (o : wire A) : outcome ReleaseErr A :=
  match o with Ok a => Ok a | Err e => Err (ReleaseWire e) | Panic => Panic | Hang => Hang end.

Record ReleaseDatagram := mkReleaseDatagram { Payload : bytes; DestOf : AddrPort }.

Definition serverPort4 : Z := 67.
Definition serverPort6 : Z := 547.
Definition iaidLen : nat := 4.
Definition releaseMessage : gostring := ascii_bytes "released by the host from the lease record".

Definition splitRecord (l : OLease) : bool :=
  nonempty (oPrefixServerDUID l) && negb (bytes_eqb (oPrefixServerDUID l) (oServerDUID l)).

Definition buildRelease4 (rec : Rec) (xid : Z) : outcome ReleaseErr ReleaseDatagram :=
  let addr := paddr (oAddr (rLease rec)) in
  if negb (Is4 addr) || IsUnspecified addr then Err ErrReleaseNoAddr else
  let sid := oServerID (rLease rec) in
  if negb (Is4 sid) || IsUnspecified sid then Err ErrReleaseNoServer else
  if negb (nonempty (rIdentity rec)) && negb (nonempty (rCHAddr rec)) then Err ErrReleaseNoIdentity else
  let msg := mkMessage BootRequest HTypeEthernet 0 0 xid 0 0 AddrZero AddrZero AddrZero AddrZero (rCHAddr rec) [] [] ∅ in
  let msg := SetType msg MsgRelease in
  let msg := msg <| CIAddr := addr |> in
  match As4 sid with
  | None => Panic
  | Some sv =>
    let msg := msg <| MOptions := <[OptServerID := sv]> (MOptions msg) |> in
    let msg := msg <| MOptions := <[OptMessage := releaseMessage]> (MOptions msg) |> in
    let msg := if nonempty (rIdentity rec) then msg <| MOptions := <[OptClientID := rIdentity rec]> (MOptions msg) |> else msg in
    payload ← wired (Encode msg);
    Ok (mkReleaseDatagram payload (mkAddrPort sid serverPort4))
  end.

(** The loop of [releasePD]. *)
Fixpoint releasePDLoop (ps : list OAddr6) (out : OptionsV6) : outcome ReleaseErr OptionsV6 :=
  match ps with
  | [] => Ok out
  | p :: ps =>
    let pfx := oaAddr p in
    if negb (PrefixIsValid pfx) || negb (Is6 (paddr pfx)) || Is4In6 (paddr pfx) || (pbits pfx <? 1)
    then releasePDLoop ps out else
    v ← wired (EncodeIAPrefix (mkIAPrefix pfx 0 0 []));
    releasePDLoop ps (out ++ [mkOptionV6 OptV6IAPrefix v])
  end.

Definition releasePD (l : OLease) : outcome ReleaseErr (option OptionV6) :=
  opts ← releasePDLoop (oPrefixes l) [];
  if (length opts =? 0)%nat then Ok None else
  v ← wired (EncodeIAPD (mkIAPD (oIAID l) 0 0 opts));
  Ok (Some (mkOptionV6 OptV6IAPD v)).

Fixpoint releaseTALoop (ts : list OAddr6) (out : OptionsV6) : outcome ReleaseErr OptionsV6 :=
  match ts with
  | [] => Ok out
  | t :: ts =>
    let a := paddr (oaAddr t) in
    if negb (PrefixIsValid (oaAddr t)) || negb (Is6 a) || Is4In6 a || IsUnspecified a then releaseTALoop ts out else
    v ← wired (EncodeIAAddr (mkIAAddr a 0 0 []));
    releaseTALoop ts (out ++ [mkOptionV6 OptV6IAAddr v])
  end.

Definition releaseTA (l : OLease) : outcome ReleaseErr (option OptionV6) :=
  opts ← releaseTALoop (oTempAddrs l) [];
  if (length opts =? 0)%nat then Ok None else
  v ← wired (EncodeIATA (mkIATA (oIAID l) opts));
  Ok (Some (mkOptionV6 OptV6IATA v)).

Definition opt_list {A} (o : option A) : list A := match o with Some a => [a] | None => [] end.

(** [rec.Identity[:len(rec.Identity)-iaidLen]] *)
Definition recordDUID (rec : Rec) : outcome ReleaseErr bytes := slice (rIdentity rec) 0 (length (rIdentity rec) - iaidLen).

Definition buildRelease6 (rec : Rec) (xid : Z) : outcome ReleaseErr ReleaseDatagram :=
  let l := rLease rec in
  let addr := paddr (oAddr l) in
  if negb (Is6 addr) || Is4In6 addr || IsUnspecified addr then Err ErrReleaseNoAddr else
  if negb (nonempty (oServerDUID l)) then Err ErrReleaseNoServer else
  if (length (rIdentity rec) <=? iaidLen)%nat then Err ErrReleaseNoIdentity else
  duid ← recordDUID rec;
  tail ← slice (rIdentity rec) (length (rIdentity rec) - iaidLen) (length (rIdentity rec));
  sent ← ube32 tail;
  if negb (sent =? oIAID l) then Err ErrReleaseIAIDMismatch else
  ia ← wired (EncodeIAAddr (mkIAAddr addr 0 0 []));
  iana ← wired (EncodeIANA (mkIANA (oIAID l) 0 0 [mkOptionV6 OptV6IAAddr ia]));
  let opts := [mkOptionV6 OptV6ClientID duid; mkOptionV6 OptV6ServerID (oServerDUID l); mkOptionV6 OptV6IANA iana] in
  ta ← releaseTA l;
  let opts := opts ++ opt_list ta in
  pd ← releasePD l;
  let opts := if splitRecord l then opts else opts ++ opt_list pd in
  let opts := opts ++ [mkOptionV6 OptV6ElapsedTime [0; 0]] in
  payload ← wired (EncodeV6 (mkMessageV6 MsgRelease6 (Z.land xid (MaxXID6 - 1)) opts));
  Ok (mkReleaseDatagram payload (mkAddrPort AllDHCPRelayAgentsAndServers serverPort6)).

Definition BuildRelease (rec : Rec) (xid : Z) : outcome ReleaseErr ReleaseDatagram :=
  match rFamily rec with
  | FamilyV4 => buildRelease4 rec xid
  | FamilyV6 => buildRelease6 rec xid
  | _ => Err ErrReleaseFamily
  end.

(** What the source returns beside an error is not a result here. *)
Definition BuildReleases (rec : Rec) (xid : Z) : outcome ReleaseErr (list ReleaseDatagram) :=
  d ← BuildRelease rec xid;
  if negb (isFamily (rFamily rec) FamilyV6) || negb (splitRecord (rLease rec)) then Ok [d] else
  pd ← releasePD (rLease rec);
  match pd with
  | None => Ok [d]
  | Some pd =>
    duid ← recordDUID rec;
    payload ← wired (EncodeV6 (mkMessageV6 MsgRelease6 (Z.land (u32 (xid + 1)) (MaxXID6 - 1))
      [mkOptionV6 OptV6ClientID duid; mkOptionV6 OptV6ServerID (oPrefixServerDUID (rLease rec)); pd;
       mkOptionV6 OptV6ElapsedTime [0; 0]]));
    Ok [d; mkReleaseDatagram payload (DestOf d)]
  end.

(** ** runtime/release_record.go

    [send] is the socket: the answer to one datagram, [None] for no error.  A
    run is what was handed to it, in order, with each answer; an [Err] is a
    refusal, before any datagram.  [rnd] is the number the entropy source drew,
    [None] when a fresh one could not be seeded. *)

Record ReleaseConfig := mkReleaseConfig { rcInterface : gostring; rcSource : Addr; rcSourcePort : Z }.

Record ReleaseCall := mkReleaseCall { clSrc : AddrPort; clDst : AddrPort; clIface : gostring; clPayload : bytes }.

Section Sender.
Context (send : ReleaseCall -> option gostring).

Fixpoint sendAll (src : AddrPort) (iface : gostring) (gs : list ReleaseDatagram) : list (ReleaseCall * option gostring) :=
  match gs with
  | [] => []
  | g :: gs => let c := mkReleaseCall src (DestOf g) iface (Payload g) in (c, send c) :: sendAll src iface gs
  end.

Definition sendReleaseWith (rec : Rec) (cfg : ReleaseConfig) (rnd : option Z) :
    outcome ReleaseErr (list (ReleaseCall * option gostring)) :=
  let src := Unmap (rcSource cfg) in
  if negb (IsValid src) || IsUnspecified src then Err ErrReleaseNoSource else
  match rnd with
  | None => Err ReleaseSeed
  | Some r =>
    grams ← BuildReleases rec (u32 r);
    match grams with
    | [] => Panic
    | g :: _ =>
      let dst := DestOf g in
      if negb (Bool.eqb (Is4 src) (Is4 (apAddr dst))) then Err ErrReleaseSourceFamily else
      let port := rcSourcePort cfg in
      if Is4 (apAddr dst) then
        Ok (sendAll (mkAddrPort src (if port =? 0 then ClientPort else port)) (rcInterface cfg) grams)
      else if bytes_eqb (rcInterface cfg) [] then Err ErrReleaseNoInterface else
        let released := paddr (oAddr (rLease rec)) :: map (fun t => paddr (oaAddr t)) (oTempAddrs (rLease rec)) in
        if existsb (fun a => addr_eqb (WithoutZone src) (WithoutZone a)) released then Err ErrReleaseSourceIsReleased else
        Ok (sendAll (mkAddrPort src (if port =? 0 then ClientPort6 else port)) (rcInterface cfg) grams)
    end
  end.

End Sender.

(** [errors.Join] of the answers. *)
Definition answers (calls : list (ReleaseCall * option gostring)) : list gostring := omap snd calls.

(** ** runtime/release_link.go

    The two sockets of a link, as they answered: [lpReceived] is what the ARP
    socket delivered until the deadline, in order. *)

Inductive LinkEvent := InFrame (b : bytes) | InError (text : gostring) | InClosed | Deadline.

Record LinkPorts := mkLinkPorts {
  lpOpenIP : option gostring; lpOpenARP : option gostring; lpHardwareAddr : bytes; lpArpSend : option gostring;
  lpReceived : list LinkEvent; lpArpClose : option gostring; lpSend : option gostring; lpIPClose : option gostring }.

Inductive LinkSent := ProbeSent (frame : bytes) | ReleaseSent (dst src : Addr) (hw payload : bytes).

(** [LinkResolveCache]: [None] is the nil cache; a hop that nothing answered is
    remembered with no address. *)
Abbreviation LinkCache := (option (gmap (gostring * Addr) (option bytes))) (only parsing).

Definition cache_lookup (c : LinkCache) (iface : gostring) (hop : Addr) : option (option bytes) :=
  match c with None => None | Some m => m !! (iface, hop) end.
Definition cache_remember (c : LinkCache) (iface : gostring) (hop : Addr) (hw : option bytes) : LinkCache :=
  match c with None => None | Some m => Some (<[(iface, hop) := hw]> m) end.

Definition broadcastMAC : bytes := replicate 6 0xff.

Definition isZeroOrBroadcast (hw : bytes) : bool := forallb (Z.eqb 0) hw || forallb (Z.eqb 0xff) hw.

Definition replyFrom (frame : bytes) (server : Addr) : outcome WireErr (option bytes) :=
  match DecodeARP frame with
  | Ok p =>
    if negb (ArpOp p =? ARPReply) || negb (addr_eqb (SenderIP p) server) then Ok None else
    if negb (length (SenderHW p) =? Z.to_nat ARPHLenEthernet)%nat || isZeroOrBroadcast (SenderHW p) then Ok None else
    Ok (Some (SenderHW p))
  | Err _ => Ok None
  | Panic => Panic
  | Hang => Hang
  end.

(** The select loop; a socket that delivers nothing more before the deadline
    has come is a loop that waits. *)
Fixpoint awaitReply (server : Addr) (evs : list LinkEvent) : outcome ReleaseErr (option bytes) :=
  match evs with
  | [] => Hang
  | InClosed :: _ => Err ErrLinkClosed
  | InError t :: _ => Err (ReleasePort t)
  | Deadline :: _ => Ok None
  | InFrame b :: evs =>
    hw ← wired (replyFrom b server);
    match hw with Some _ => Ok hw | None => awaitReply server evs end
  end.

Definition linkProbe (ports : LinkPorts) (server : Addr) : wire bytes :=
  EncodeARP (mkARP ARPRequest (lpHardwareAddr ports) [] addr_any server).

Definition port_err (o : option gostring) : outcome ReleaseErr unit :=
  match o with Some t => Err (ReleasePort t) | None => Ok tt end.

Definition resolveByProbe (ports : LinkPorts) (server : Addr) : outcome ReleaseErr (option bytes) * list LinkSent :=
  match wired (linkProbe ports server) with
  | Ok probe => ((_ ← port_err (lpArpSend ports); awaitReply server (lpReceived ports)), [ProbeSent probe])
  | Err e => (Err e, [])
  | Panic => (Panic, [])
  | Hang => (Hang, [])
  end.

Definition nextHop (l : OLease) (server : Addr) : outcome ReleaseErr (Addr * bool) :=
  if (pbits (oAddr l) =? 32) || Contains (oAddr l) server then Ok (server, true) else
  if negb (Is4 (oGateway l)) then Err ErrLinkReleaseNoRoute else Ok (oGateway l, false).

(** A run: its error, what left by the sockets and the cache afterwards. *)
Record LinkRun := mkLinkRun { lkErr : outcome ReleaseErr unit; lkSent : list LinkSent; lkCache : LinkCache }.

(** [defer errors.Join(err, ip.Close())]: a failure of the close is the error
    when there was none before it; of two joined errors this is the first. *)
Definition closing (ports : LinkPorts) (r : LinkRun) : LinkRun :=
  mkLinkRun (_ ← lkErr r; port_err (lpIPClose ports)) (lkSent r) (lkCache r).

Definition sendOnHop (rec : Rec) (ports : LinkPorts) (payload : bytes) (server : Addr) (onLink : bool)
    (hw : option bytes) (sent : list LinkSent) (cache : LinkCache) : LinkRun :=
  match hw with
  | None =>
    if negb onLink then mkLinkRun (Err ErrLinkReleaseHopSilent) sent cache else
    mkLinkRun (port_err (lpSend ports))
      (sent ++ [ReleaseSent server (paddr (oAddr (rLease rec))) broadcastMAC payload]) cache
  | Some hw =>
    mkLinkRun (port_err (lpSend ports)) (sent ++ [ReleaseSent server (paddr (oAddr (rLease rec))) hw payload]) cache
  end.

Definition sendReleaseOnLinkWith (rec : Rec) (iface : gostring) (rnd : option Z) (cache : LinkCache)
    (ports : LinkPorts) : LinkRun :=
  let refuse e := mkLinkRun (Err e) [] cache in
  if negb (isFamily (rFamily rec) FamilyV4) then refuse ErrLinkReleaseFamily else
  if bytes_eqb iface [] then refuse ErrLinkReleaseNoInterface else
  match rnd with
  | None => refuse ReleaseSeed
  | Some r =>
    match (d ← BuildRelease rec (u32 r); h ← nextHop (rLease rec) (apAddr (DestOf d)); Ok (d, h)) with
    | Err e => refuse e
    | Panic => mkLinkRun Panic [] cache
    | Hang => mkLinkRun Hang [] cache
    | Ok (d, (hop, onLink)) =>
      let server := apAddr (DestOf d) in
      match lpOpenIP ports with
      | Some t => refuse (ReleasePort t)
      | None => closing ports
        match cache_lookup cache iface hop with
        | Some hw => sendOnHop rec ports (Payload d) server onLink hw [] cache
        | None =>
          match lpOpenARP ports with
          | Some t => refuse (ReleasePort t)
          | None =>
            let '(r, sent) := resolveByProbe ports hop in
            match (hw ← r; _ ← port_err (lpArpClose ports); Ok hw) with
            | Ok hw => sendOnHop rec ports (Payload d) server onLink hw sent (cache_remember cache iface hop hw)
            | Err e => mkLinkRun (Err e) sent cache
            | Panic => mkLinkRun Panic sent cache
            | Hang => mkLinkRun Hang sent cache
            end
          end
        end
      end
    end
  end.

(** ** Options that are written and read back *)

(** [a] has a form of [n] octets that is read back as [a]. *)
Definition written_as {A} (enc : A -> wire bytes) (dec : bytes -> wire A) (a : A) (n : nat) : Prop :=
  exists v, enc a = Ok v /\ are_bytes v /\ length v = n /\ dec v = Ok a.

Lemma options_written o : Forall option_wf o -> EncodeOptionsV6 o = Ok (wireOptions o) /\ are_bytes (wireOptions o).
Proof.
  intros Ho. split.
  - apply encode6Loop_spec. split; [|done]. eapply Forall_impl; [exact Ho|]. by intros ? (_ & _ & ?).
  - unfold wireOptions. induction Ho as [|opt o (Hc & Hd & Hl) Ho IH]; [apply Forall_nil, I|].
    change (concat (map wireOption (opt :: o))) with (wireOption opt ++ concat (map wireOption o)).
    unfold wireOption. rewrite !are_bytes_app. repeat split; [apply be16_bytes..|done|done].
Qed.

Lemma IANA_written ia : iana_wf ia -> written_as EncodeIANA DecodeIANA ia (12 + length (wireOptions (naOptions ia))).
Proof.
  intros Hw. destruct (options_written (naOptions ia)) as [E Hb]; [apply Hw|].
  exists (be32 (naIAID ia) ++ be32 (naT1 ia) ++ be32 (naT2 ia) ++ wireOptions (naOptions ia)).
  assert (Ee : EncodeIANA ia = Ok (be32 (naIAID ia) ++ be32 (naT1 ia) ++ be32 (naT2 ia) ++ wireOptions (naOptions ia)))
    by (unfold EncodeIANA; rewrite E; done).
  assert (Hv : are_bytes (be32 (naIAID ia) ++ be32 (naT1 ia) ++ be32 (naT2 ia) ++ wireOptions (naOptions ia)))
    by (rewrite !are_bytes_app; repeat split; try apply be32_bytes; done).
  split; [done|]. split; [done|]. split; [rewrite !length_app, !length_be32; lia|]. by apply IANA_codec.
Qed.

Lemma IATA_written ia : iata_wf ia -> written_as EncodeIATA DecodeIATA ia (4 + length (wireOptions (taOptions ia))).
Proof.
  intros Hw. destruct (options_written (taOptions ia)) as [E Hb]; [apply Hw|].
  exists (be32 (taIAID ia) ++ wireOptions (taOptions ia)).
  assert (Ee : EncodeIATA ia = Ok (be32 (taIAID ia) ++ wireOptions (taOptions ia))) by (unfold EncodeIATA; rewrite E; done).
  assert (Hv : are_bytes (be32 (taIAID ia) ++ wireOptions (taOptions ia)))
    by (rewrite !are_bytes_app; repeat split; try apply be32_bytes; done).
  split; [done|]. split; [done|]. split; [rewrite !length_app, !length_be32; lia|]. by apply IATA_codec.
Qed.

Lemma IAPD_written ia : iapd_wf ia -> written_as EncodeIAPD DecodeIAPD ia (12 + length (wireOptions (pdOptions ia))).
Proof.
  intros Hw. destruct (options_written (pdOptions ia)) as [E Hb]; [apply Hw|].
  exists (be32 (pdIAID ia) ++ be32 (pdT1 ia) ++ be32 (pdT2 ia) ++ wireOptions (pdOptions ia)).
  assert (Ee : EncodeIAPD ia = Ok (be32 (pdIAID ia) ++ be32 (pdT1 ia) ++ be32 (pdT2 ia) ++ wireOptions (pdOptions ia)))
    by (unfold EncodeIAPD; rewrite E; done).
  assert (Hv : are_bytes (be32 (pdIAID ia) ++ be32 (pdT1 ia) ++ be32 (pdT2 ia) ++ wireOptions (pdOptions ia)))
    by (rewrite !are_bytes_app; repeat split; try apply be32_bytes; done).
  split; [done|]. split; [done|]. split; [rewrite !length_app, !length_be32; lia|]. by apply IAPD_codec.
Qed.

(** An address or a prefix that is given back: no lifetimes, no options. *)
Definition addr_given (a : Addr) : IAAddr := mkIAAddr a 0 0 [].
Definition prefix_given (p : Prefix) : IAPrefix := mkIAPrefix p 0 0 [].

(** A value of Go's [netip.Prefix]: an address without a zone, a width of its family or -1. *)
Definition prefix_wf (p : Prefix) : Prop :=
  addr_wf (paddr p) /\ WithoutZone (paddr p) = paddr p /\ -1 <= pbits p <= BitLen (paddr p).

Definition usable_addr6 (a : Addr) : bool := Is6 a && negb (Is4In6 a) && negb (IsUnspecified a).
Definition usable_prefix6 (p : Prefix) : bool := Is6 (paddr p) && negb (Is4In6 (paddr p)) && (1 <=? pbits p).

Lemma addr_written a : Is6 a = true -> Is4In6 a = false -> addr_wf a -> WithoutZone a = a ->
  written_as EncodeIAAddr DecodeIAAddr (addr_given a) 24.
Proof.
  destruct a as [| |v z]; try done. intros _ H4 Hw [= <-]. cbn [addr_wf] in Hw.
  assert (Hiw : iaaddr_wf (addr_given (Addr6 v []))).
  { split; [by exists v|]. by repeat split. }
  assert (E : EncodeIAAddr (addr_given (Addr6 v [])) = Ok (As16 (Addr6 v []) ++ be32 0 ++ be32 0)).
  { unfold EncodeIAAddr. cbn [addr_given iaAddr iaOptions]. rewrite H4. cbn. done. }
  assert (Hb : are_bytes (As16 (Addr6 v []) ++ be32 0 ++ be32 0)).
  { rewrite !are_bytes_app. split; [apply As16_bytes|]. split; apply be32_bytes. }
  eexists. split; [exact E|]. split; [exact Hb|]. split; [done|]. by apply IAAddr_codec.
Qed.

Lemma prefix_written p : usable_prefix6 p = true -> prefix_wf p ->
  written_as EncodeIAPrefix DecodeIAPrefix (prefix_given p) 25.
Proof.
  destruct p as [[| |v z] n]; try done. unfold usable_prefix6. cbn [paddr pbits Is6].
  intros [H4%negb_true_iff Hn%Z.leb_le]%andb_true_iff (Hw & [= <-] & Hbits). cbn [addr_wf BitLen paddr pbits] in *.
  assert (Hiw : iaprefix_wf (prefix_given (PrefixOf (Addr6 v []) n))).
  { split; [exists v, n; repeat split; try done; lia|]. by repeat split. }
  assert (E : EncodeIAPrefix (prefix_given (PrefixOf (Addr6 v []) n))
              = Ok (be32 0 ++ be32 0 ++ [u8 n] ++ As16 (Addr6 v []) ++ [])).
  { unfold EncodeIAPrefix, PrefixIsValid. cbn [prefix_given pxPrefix pxOptions paddr pbits].
    rewrite H4, (proj2 (Z.leb_le 0 n)) by lia. done. }
  assert (Hb : are_bytes (be32 0 ++ be32 0 ++ [u8 n] ++ As16 (Addr6 v []) ++ [])).
  { rewrite !are_bytes_app. split; [apply be32_bytes|]. split; [apply be32_bytes|].
    split; [apply are_bytes_cons; split; [apply u8_range|apply Forall_nil, I]|].
    split; [apply As16_bytes|apply Forall_nil, I]. }
  eexists. split; [exact E|]. split; [exact Hb|]. split; [done|]. by apply IAPrefix_codec.
Qed.

(** Options of one code, read back as a list of values of [n] octets each. *)
Record reads_as {A} (code : OptionCodeV6) (dec : bytes -> wire A) (n : nat) (o : OptionsV6) (l : list A) : Prop := {
  ra_wf : Forall option_wf o;
  ra_read : decodeAll dec (All o code) = Ok l;
  ra_len : length (wireOptions o) = ((4 + n) * length l)%nat;
  ra_count : length o = length l }.

Lemma decodeAll_snoc {A} (dec : bytes -> wire A) vs v l a : decodeAll dec vs = Ok l -> dec v = Ok a ->
  decodeAll dec (vs ++ [v]) = Ok (l ++ [a]).
Proof.
  revert l. induction vs as [|w vs IH]; cbn [decodeAll app]; intros l H Ha.
  - injection H as <-. by rewrite Ha.
  - apply bind_ok_inv in H as (x & Hx & H). apply bind_ok_inv in H as (l' & Hl & H). injection H as <-.
    rewrite Hx. cbn [mbind outcome_bind]. by rewrite (IH _ Hl Ha).
Qed.

Lemma reads_nil {A} code (dec : bytes -> wire A) n : reads_as code dec n [] [].
Proof. split; [done..|cbn; lia|done]. Qed.

Lemma reads_snoc {A} code enc (dec : bytes -> wire A) n o l a v : reads_as code dec n o l ->
  0 <= code < 2 ^ 16 -> Z.of_nat n < 2 ^ 16 -> written_as enc dec a n -> enc a = Ok v ->
  reads_as code dec n (o ++ [mkOptionV6 code v]) (l ++ [a]).
Proof.
  intros [Hw Hr Hl Hc] Hcode Hn (v' & Ev & Hb & Lv & Dv) E. rewrite E in Ev. injection Ev as <-. split.
  - apply Forall_app_2; [done|]. repeat constructor; cbn; try done; lia.
  - rewrite All_app. cbn [All]. rewrite Z.eqb_refl. by apply decodeAll_snoc.
  - rewrite wireOptions_app, !length_app, Hl. cbn [wireOptions map concat length wireOption OCode OData].
    rewrite app_nil_r. unfold wireOption. rewrite !length_app. cbn [be16 length OData]. lia.
  - rewrite !length_app, Hc. done.
Qed.

(** What a record's IAs give back: the entries that have a wire form. *)
Definition given_addrs (ts : list OAddr6) : list Addr :=
  omap (fun t => if PrefixIsValid (oaAddr t) && usable_addr6 (paddr (oaAddr t)) then Some (paddr (oaAddr t)) else None) ts.
Definition given_prefixes (ps : list OAddr6) : list Prefix :=
  omap (fun p => if usable_prefix6 (oaAddr p) then Some (oaAddr p) else None) ps.

Lemma releaseTALoop_reads ts : Forall (fun t => prefix_wf (oaAddr t)) ts -> forall out l,
  reads_as OptV6IAAddr DecodeIAAddr 24 out l -> exists o, releaseTALoop ts out = Ok o /\
  reads_as OptV6IAAddr DecodeIAAddr 24 o (l ++ map addr_given (given_addrs ts)).
Proof.
  induction 1 as [|t ts (Hw & Hz & Hbits) Hts IH]; intros out l Hr; cbn [releaseTALoop given_addrs omap list_omap].
  { exists out. by rewrite app_nil_r. }
  unfold usable_addr6. destruct (PrefixIsValid (oaAddr t)) eqn:Ev; cbn [negb orb andb]; [|by apply IH].
  destruct (Is6 (paddr (oaAddr t))) eqn:E6; cbn [negb orb andb]; [|by apply IH].
  destruct (Is4In6 (paddr (oaAddr t))) eqn:E4; cbn [negb orb andb]; [by apply IH|].
  destruct (IsUnspecified (paddr (oaAddr t))) eqn:Eu; cbn [negb orb andb]; [by apply IH|].
  destruct (addr_written _ E6 E4 Hw Hz) as (v & E & Hrest). unfold addr_given in E. rewrite E. cbn [wired mbind outcome_bind].
  edestruct (IH (out ++ [mkOptionV6 OptV6IAAddr v]) (l ++ [addr_given (paddr (oaAddr t))])) as (o & Ho & Hor).
  { eapply reads_snoc; [done|done|done|exists v; split; [exact E|exact Hrest]|exact E]. }
  exists o. split; [done|]. by rewrite <- app_assoc in Hor.
Qed.

Lemma releasePDLoop_reads ps : Forall (fun p => prefix_wf (oaAddr p)) ps -> forall out l,
  reads_as OptV6IAPrefix DecodeIAPrefix 25 out l -> exists o, releasePDLoop ps out = Ok o /\
  reads_as OptV6IAPrefix DecodeIAPrefix 25 o (l ++ map prefix_given (given_prefixes ps)).
Proof.
  induction 1 as [|p ps Hw Hps IH]; intros out l Hr; cbn [releasePDLoop given_prefixes omap list_omap].
  { exists out. by rewrite app_nil_r. }
  assert (Eu : negb (PrefixIsValid (oaAddr p)) || negb (Is6 (paddr (oaAddr p))) || Is4In6 (paddr (oaAddr p))
               || (pbits (oaAddr p) <? 1) = negb (usable_prefix6 (oaAddr p))).
  { unfold usable_prefix6, PrefixIsValid. destruct (Is6 _), (Is4In6 _); rewrite ?orb_true_r; cbn; try done.
    rewrite orb_false_r. destruct (Z.leb_spec 0 (pbits (oaAddr p))), (Z.ltb_spec (pbits (oaAddr p)) 1),
      (Z.leb_spec 1 (pbits (oaAddr p))); (done || lia). }
  rewrite Eu. destruct (usable_prefix6 (oaAddr p)) eqn:E6; cbn [negb]; [|by apply IH].
  destruct (prefix_written _ E6 Hw) as (v & E & Hrest). unfold prefix_given in E. rewrite E. cbn [wired mbind outcome_bind].
  edestruct (IH (out ++ [mkOptionV6 OptV6IAPrefix v]) (l ++ [prefix_given (oaAddr p)])) as (o & Ho & Hor).
  { eapply reads_snoc; [done|done|done|exists v; split; [exact E|exact Hrest]|exact E]. }
  exists o. split; [done|]. by rewrite <- app_assoc in Hor.
Qed.

(** ** What a DHCPv6 release gives back

    A datagram as its server reads it: whose binding, from which server, and
    the leases of each IA. *)

Record Given6 := mkGiven6 {
  gvXID : Z; gvClient : option bytes; gvServer : option bytes;
  gvNA : list (Z * list IAAddr); gvTA : list (Z * list IAAddr); gvPD : list (Z * list IAPrefix) }.

Definition readNA (v : bytes) : wire (Z * list IAAddr) := ia ← DecodeIANA v; l ← Addrs (naOptions ia); Ok (naIAID ia, l).
Definition readTA (v : bytes) : wire (Z * list IAAddr) := ia ← DecodeIATA v; l ← Addrs (taOptions ia); Ok (taIAID ia, l).
Definition readPD (v : bytes) : wire (Z * list IAPrefix) := ia ← DecodeIAPD v; l ← Prefixes (pdOptions ia); Ok (pdIAID ia, l).

Definition readRelease6 (b : bytes) : wire Given6 :=
  m ← DecodeV6 b;
  if negb (MType m =? MsgRelease6) then Err ErrV6UnknownType else
  na ← decodeAll readNA (All (MOptionsV6 m) OptV6IANA);
  ta ← decodeAll readTA (All (MOptionsV6 m) OptV6IATA);
  pd ← decodeAll readPD (All (MOptionsV6 m) OptV6IAPD);
  Ok (mkGiven6 (MXID m) (First (MOptionsV6 m) OptV6ClientID) (First (MOptionsV6 m) OptV6ServerID) na ta pd).

Definition one_ia {A} (iaid : Z) (l : list A) : list (Z * list A) := match l with [] => [] | _ => [(iaid, l)] end.

(** What the releases of a record must say. *)
Definition gives6 (rec : Rec) (xid : Z) : list Given6 :=
  let l := rLease rec in
  let duid := take (length (rIdentity rec) - 4) (rIdentity rec) in
  let pd := one_ia (oIAID l) (map prefix_given (given_prefixes (oPrefixes l))) in
  mkGiven6 (xid mod 2 ^ 24) (Some duid) (Some (oServerDUID l)) [(oIAID l, [addr_given (paddr (oAddr l))])]
    (one_ia (oIAID l) (map addr_given (given_addrs (oTempAddrs l)))) (if splitRecord l then [] else pd) ::
  (if splitRecord l && nonempty (given_prefixes (oPrefixes l))
   then [mkGiven6 ((xid + 1) mod 2 ^ 24) (Some duid) (Some (oPrefixServerDUID l)) [] [] pd] else []).

(** A value of the type [Record] of a DHCPv6 lease. *)
Record rec6_wf (rec : Rec) : Prop := {
  r6_identity : are_bytes (rIdentity rec);
  r6_server : are_bytes (oServerDUID (rLease rec));
  r6_pserver : are_bytes (oPrefixServerDUID (rLease rec));
  r6_iaid : u32_wf (oIAID (rLease rec));
  r6_addr : prefix_wf (oAddr (rLease rec));
  r6_temps : Forall (fun t => prefix_wf (oaAddr t)) (oTempAddrs (rLease rec));
  r6_prefixes : Forall (fun t => prefix_wf (oaAddr t)) (oPrefixes (rLease rec)) }.

(** Options of one IA kind: none, or one that is read back as what it gives. *)
Record ia_part {A} (code : OptionCodeV6) (rd : bytes -> wire A) (l : list A) (o : OptionsV6) : Prop := {
  ip_code : Forall (fun x => OCode x = code) o;
  ip_bytes : Forall (fun x => are_bytes (OData x)) o;
  ip_read : decodeAll rd (map OData o) = Ok l }.

Lemma All_code o c d : Forall (fun x => OCode x = c) o -> All o d = if c =? d then map OData o else [].
Proof.
  induction 1 as [|x o Hx Ho IH]; cbn [All map]; [by destruct (_ =? _)|].
  rewrite Hx, IH. by destruct (c =? d).
Qed.

Lemma ia_part_nil {A} code (rd : bytes -> wire A) : ia_part code rd [] [].
Proof. by repeat constructor. Qed.

Definition ta_size (l : OLease) : Z := 4 + 28 * Z.of_nat (length (given_addrs (oTempAddrs l))).
Definition pd_size (l : OLease) : Z := 12 + 29 * Z.of_nat (length (given_prefixes (oPrefixes l))).
Definition sized (n : Z) (o : OptionsV6) : Prop := Forall (fun x => Z.of_nat (length (OData x)) = n) o.

Lemma releaseTA_part l : u32_wf (oIAID l) -> Forall (fun t => prefix_wf (oaAddr t)) (oTempAddrs l) ->
  exists o, releaseTA l = Ok o /\ (isSome o = nonempty (given_addrs (oTempAddrs l))) /\ sized (ta_size l) (opt_list o) /\
    ia_part OptV6IATA readTA (one_ia (oIAID l) (map addr_given (given_addrs (oTempAddrs l)))) (opt_list o).
Proof.
  intros Hi Hw. unfold releaseTA.
  edestruct (releaseTALoop_reads _ Hw [] []) as (o & -> & [Hwf Hr Hl Hc]); [apply reads_nil|].
  cbn [mbind outcome_bind app] in *. rewrite Hc, length_map in *.
  destruct (given_addrs (oTempAddrs l)) as [|a as_] eqn:Eg; cbn [length Nat.eqb map one_ia].
  { exists None. split; [done|]. split; [done|]. split; [by constructor|apply ia_part_nil]. }
  destruct (IATA_written (mkIATA (oIAID l) o)) as (v & -> & Hb & Lv & Dv); [by split|].
  cbn [wired mbind outcome_bind]. exists (Some (mkOptionV6 OptV6IATA v)). split; [done|]. split; [done|]. cbn [opt_list taOptions] in *. split.
  - repeat constructor. unfold ta_size. cbn [OData]. rewrite Lv, Hl, Eg. cbn [length]. lia.
  - split; [by repeat constructor..|]. cbn [map OData decodeAll]. unfold readTA, Addrs.
    rewrite Dv. cbn [mbind outcome_bind taOptions taIAID]. by rewrite Hr.
Qed.

Lemma releasePD_part l : u32_wf (oIAID l) -> Forall (fun t => prefix_wf (oaAddr t)) (oPrefixes l) ->
  exists o, releasePD l = Ok o /\ (isSome o = nonempty (given_prefixes (oPrefixes l))) /\ sized (pd_size l) (opt_list o) /\
    ia_part OptV6IAPD readPD (one_ia (oIAID l) (map prefix_given (given_prefixes (oPrefixes l)))) (opt_list o).
Proof.
  intros Hi Hw. unfold releasePD.
  edestruct (releasePDLoop_reads _ Hw [] []) as (o & -> & [Hwf Hr Hl Hc]); [apply reads_nil|].
  cbn [mbind outcome_bind app] in *. rewrite Hc, length_map in *.
  destruct (given_prefixes (oPrefixes l)) as [|a as_] eqn:Eg; cbn [length Nat.eqb map one_ia].
  { exists None. split; [done|]. split; [done|]. split; [by constructor|apply ia_part_nil]. }
  destruct (IAPD_written (mkIAPD (oIAID l) 0 0 o)) as (v & -> & Hb & Lv & Dv); [repeat (split; [done|]); done|].
  cbn [wired mbind outcome_bind]. exists (Some (mkOptionV6 OptV6IAPD v)). split; [done|]. split; [done|].
  cbn [opt_list pdOptions] in *. split.
  - repeat constructor. unfold pd_size. cbn [OData]. rewrite Lv, Hl, Eg. cbn [length]. lia.
  - split; [by repeat constructor..|]. cbn [map OData decodeAll]. unfold readPD, Prefixes.
    rewrite Dv. cbn [mbind outcome_bind pdOptions pdIAID]. by rewrite Hr.
Qed.

Lemma na_part iaid addr : u32_wf iaid -> usable_addr6 addr = true -> addr_wf addr -> WithoutZone addr = addr ->
  exists ia v, EncodeIAAddr (mkIAAddr addr 0 0 []) = Ok ia /\
    EncodeIANA (mkIANA iaid 0 0 [mkOptionV6 OptV6IAAddr ia]) = Ok v /\ length v = 40%nat /\
    ia_part OptV6IANA readNA [(iaid, [addr_given addr])] [mkOptionV6 OptV6IANA v].
Proof.
  intros Hi [[H6 H4%negb_true_iff]%andb_true_iff _]%andb_true_iff Hw Hz.
  pose proof (addr_written _ H6 H4 Hw Hz) as Ha. destruct Ha as (ia & E & Hrest).
  pose proof (reads_snoc OptV6IAAddr _ _ 24 [] [] _ ia (reads_nil _ _ _) ltac:(done) ltac:(done)
    (ex_intro _ ia (conj E Hrest)) E) as [Hwf Hr Hl _]. cbn [app] in *.
  destruct (IANA_written (mkIANA iaid 0 0 [mkOptionV6 OptV6IAAddr ia])) as (v & Ev & Hb & Lv & Dv);
    [repeat (split; [done|]); done|].
  exists ia, v. split; [done|]. split; [done|]. split; [cbn [naOptions] in Lv; rewrite Lv, Hl; done|].
  split; [by repeat constructor..|]. cbn [map OData decodeAll]. unfold readNA, Addrs.
  rewrite Dv. cbn [mbind outcome_bind naOptions naIAID]. by rewrite Hr.
Qed.

Definition short (o : OptionsV6) : Prop := Forall (fun x => Z.of_nat (length (OData x)) < 2 ^ 16) o.

Lemma encode6Loop_long o : forall out, ~ short o -> encode6Loop o out = Err ErrV6Encode.
Proof.
  induction o as [|x o IH]; intros out Hs; cbn [encode6Loop]; [by destruct Hs; constructor|].
  destruct (Z.ltb_spec 65535 (Z.of_nat (length (OData x)))); [done|].
  apply IH. intros Ho. apply Hs. constructor; [lia|done].
Qed.

Lemma xid_masked x : 0 <= x -> Z.land x (MaxXID6 - 1) = x mod 2 ^ 24.
Proof. intros Hx. change (MaxXID6 - 1) with (Z.ones 24). by apply Z.land_ones. Qed.

Definition release_options (duid server : bytes) (na ta pd : OptionsV6) : OptionsV6 :=
  [mkOptionV6 OptV6ClientID duid; mkOptionV6 OptV6ServerID server] ++ na ++ ta ++ pd ++ [mkOptionV6 OptV6ElapsedTime [0; 0]].

Definition release_message (x : Z) (o : OptionsV6) : MessageV6 := mkMessageV6 MsgRelease6 (Z.land x (MaxXID6 - 1)) o.

Lemma release_long x o : 0 <= x -> ~ short o -> EncodeV6 (release_message x o) = Err ErrV6Encode.
Proof.
  intros Hx Ho. unfold EncodeV6, release_message, EncodeOptionsV6. cbn [MXID MOptionsV6].
  destruct (MaxXID6 <=? _); [done|]. by rewrite encode6Loop_long.
Qed.

Section Message.
Context (x : Z) (duid server : bytes) (na ta pd : OptionsV6).
Context (NA TA : list (Z * list IAAddr)) (PD : list (Z * list IAPrefix)).
Hypothesis x_ok : 0 <= x.
Hypothesis duid_ok : are_bytes duid.
Hypothesis server_ok : are_bytes server.
Hypothesis na_ok : ia_part OptV6IANA readNA NA na.
Hypothesis ta_ok : ia_part OptV6IATA readTA TA ta.
Hypothesis pd_ok : ia_part OptV6IAPD readPD PD pd.

Lemma part_wf {A} c (rd : bytes -> wire A) l o : 0 <= c < 2 ^ 16 -> ia_part c rd l o -> short o -> Forall option_wf o.
Proof.
  intros Hc [H1 H2 _] H3. apply Forall_forall. intros y Hy. unfold short in *. rewrite Forall_forall in H1, H2, H3.
  unfold option_wf. rewrite (H1 y Hy). auto.
Qed.

Lemma First_skips o c d o' : Forall (fun y => OCode y = c) o -> c <> d -> First (o ++ o') d = First o' d.
Proof.
  induction 1 as [|y o Hy Ho IH]; intros Hne; cbn [app First]; [done|].
  rewrite Hy, (proj2 (Z.eqb_neq _ _)) by done. by apply IH.
Qed.

Lemma release_read : let o := release_options duid server na ta pd in short o ->
  exists b, EncodeV6 (release_message x o) = Ok b /\
    readRelease6 b = Ok (mkGiven6 (x mod 2 ^ 24) (Some duid) (Some server) NA TA PD).
Proof.
  intros o Hs. assert (Hx : 0 <= Z.land x (MaxXID6 - 1) < MaxXID6) by (rewrite xid_masked by done; apply Z.mod_pos_bound; done).
  assert (Ho : Forall option_wf o).
  { unfold o, release_options, short in *. rewrite !Forall_app in Hs. destruct Hs as ([H1 H2]%Forall_cons & Hn & Ht & Hp & _).
    rewrite Forall_cons in H2. rewrite !Forall_app. split; [|split; [by apply (part_wf OptV6IANA _ _ _ ltac:(done) na_ok)|split; [by apply (part_wf OptV6IATA _ _ _ ltac:(done) ta_ok)|]]].
    - apply Forall_cons. split; [by split|]. apply Forall_cons. split; [by split; [|split; [|apply H2]]|by constructor].
    - split; [by apply (part_wf OptV6IAPD _ _ _ ltac:(done) pd_ok)|]. apply Forall_cons. split; [|by constructor]. split; [done|]. split; [|done].
      by repeat constructor. }
  destruct (options_written o Ho) as [Eo Hb].
  set (b := [u8 MsgRelease6; u8 (Z.shiftr (Z.land x (MaxXID6 - 1)) 16); u8 (Z.shiftr (Z.land x (MaxXID6 - 1)) 8);
    u8 (Z.land x (MaxXID6 - 1))] ++ wireOptions o).
  assert (E : EncodeV6 (release_message x o) = Ok b).
  { unfold EncodeV6, release_message. cbn [MXID MOptionsV6 MType]. rewrite (proj2 (Z.leb_gt _ _)) by lia. by rewrite Eo. }
  assert (D : DecodeV6 b = Ok (release_message x o)).
  { apply DecodeV6_spec; [|split; [exact E|split; [done|split; [apply Hx|done]]]].
    apply are_bytes_app. split; [|done]. repeat (apply are_bytes_cons; split; [apply u8_range|]). by constructor. }
  exists b. split; [done|]. unfold readRelease6. rewrite D. cbn [mbind outcome_bind release_message MType MOptionsV6 MXID].
  change (negb (MsgRelease6 =? MsgRelease6)) with false. cbv iota.
  destruct na_ok as [cn _ rn], ta_ok as [ct _ rt], pd_ok as [cp _ rp].
  unfold o, release_options. rewrite !All_app, !(All_code _ _ _ cn), !(All_code _ _ _ ct), !(All_code _ _ _ cp).
  cbn [All OCode Z.eqb Pos.eqb OptV6IANA OptV6IATA OptV6IAPD OptV6ClientID OptV6ServerID OptV6ElapsedTime app].
  rewrite !app_nil_r, rn, rt, rp. cbn [mbind outcome_bind First OCode OData app Z.eqb Pos.eqb OptV6ClientID OptV6ServerID].
  by rewrite xid_masked.
Qed.

End Message.

(** ** Which records can be released, and by what *)

(** A DHCPv6 record that names an address, a server and its own IA. *)
Record named6 (rec : Rec) (duid : bytes) : Prop := {
  nm_addr : usable_addr6 (paddr (oAddr (rLease rec))) = true;
  nm_server : oServerDUID (rLease rec) <> [];
  nm_identity : rIdentity rec = duid ++ be32 (oIAID (rLease rec));
  nm_duid : duid <> [] }.

(** Everything it gives back fits the length field of an option. *)
Record fits6 (rec : Rec) (duid : bytes) : Prop := {
  ft_duid : Z.of_nat (length duid) < 2 ^ 16;
  ft_server : Z.of_nat (length (oServerDUID (rLease rec))) < 2 ^ 16;
  ft_ta : ta_size (rLease rec) < 2 ^ 16;
  ft_pd : pd_size (rLease rec) < 2 ^ 16;
  ft_pserver : splitRecord (rLease rec) = true -> given_prefixes (oPrefixes (rLease rec)) <> [] ->
    Z.of_nat (length (oPrefixServerDUID (rLease rec))) < 2 ^ 16 }.

Lemma nonempty_nil {A} (l : list A) : negb (nonempty l) = true <-> l = [].
Proof. destruct l; cbn; split; done. Qed.

Lemma identity_named rec : are_bytes (rIdentity rec) -> u32_wf (oIAID (rLease rec)) -> forall duid,
  rIdentity rec = duid ++ be32 (oIAID (rLease rec)) ->
  duid = take (length (rIdentity rec) - 4) (rIdentity rec) /\ recordDUID rec = Ok duid /\
  (sent ← (tail ← slice (rIdentity rec) (length (rIdentity rec) - iaidLen) (length (rIdentity rec)); ube32 tail);
   Ok sent) = (Ok (oIAID (rLease rec)) : outcome ReleaseErr Z).
Proof.
  intros Hb Hi duid E. assert (L : length (rIdentity rec) = (length duid + 4)%nat) by (rewrite E, length_app, length_be32; lia).
  unfold recordDUID, iaidLen. replace (length (rIdentity rec) - 4)%nat with (length duid) by lia.
  split; [by rewrite E, take_app_length|]. split.
  - rewrite slice_ok by lia. by rewrite E, drop_0, Nat.sub_0_r, take_app_length.
  - rewrite slice_tail by lia. cbn [mbind outcome_bind]. rewrite E, drop_app_length. by rewrite ube32_be32'.
Qed.

Lemma identity_unnamed rec : are_bytes (rIdentity rec) -> (iaidLen < length (rIdentity rec))%nat ->
  (forall duid, duid <> [] -> rIdentity rec <> duid ++ be32 (oIAID (rLease rec))) ->
  exists duid tail sent, recordDUID rec = Ok duid /\
    slice (rIdentity rec) (length (rIdentity rec) - iaidLen) (length (rIdentity rec)) = (Ok tail : outcome ReleaseErr bytes) /\
    ube32 tail = (Ok sent : outcome ReleaseErr Z) /\ sent <> oIAID (rLease rec).
Proof.
  unfold recordDUID, iaidLen. intros Hb Hl Hno. set (n := (length (rIdentity rec) - 4)%nat).
  rewrite slice_ok by lia. rewrite slice_tail by lia. fold n. rewrite Nat.sub_0_r, drop_0.
  assert (Lt : length (drop n (rIdentity rec)) = 4%nat) by (rewrite length_drop; lia).
  destruct (@ube32_returns ReleaseErr (drop n (rIdentity rec)) ltac:(lia)) as (s & Es).
  exists (take n (rIdentity rec)), (drop n (rIdentity rec)), s. split; [done|]. split; [done|]. split; [done|]. intros ->.
  apply be32_ube32 in Es as [Es _]; [|by apply are_bytes_drop|done].
  apply (Hno (take n (rIdentity rec))).
  - intros H%(f_equal length). rewrite length_take in H. cbn in H. lia.
  - by rewrite Es, take_drop.
Qed.

Lemma named6_dec rec : (exists duid, named6 rec duid) \/ (forall duid, ~ named6 rec duid).
Proof.
  set (d := take (length (rIdentity rec) - 4) (rIdentity rec)).
  destruct (usable_addr6 (paddr (oAddr (rLease rec)))) eqn:Ea; [|right; intros ? []; congruence].
  destruct (decide (oServerDUID (rLease rec) = [])); [right; intros ? []; congruence|].
  destruct (decide (rIdentity rec = d ++ be32 (oIAID (rLease rec)))) as [Hi|Hi], (decide (d = [])) as [Hd|Hd].
  2: { left. by exists d. }
  all: right; intros d' [_ _ Hi' Hd']; assert (d = d');
    [unfold d; rewrite Hi', length_app, length_be32, Nat.add_sub; apply take_app_length|congruence].
Qed.

Lemma buildRelease6_unnamed rec x : rec6_wf rec -> (forall duid, ~ named6 rec duid) ->
  exists e, buildRelease6 rec x = Err e.
Proof.
  intros Hw Hno. unfold buildRelease6.
  destruct (negb (Is6 (paddr (oAddr (rLease rec)))) || Is4In6 (paddr (oAddr (rLease rec)))
            || IsUnspecified (paddr (oAddr (rLease rec)))) eqn:Ea; [by eexists|].
  destruct (negb (nonempty (oServerDUID (rLease rec)))) eqn:Es; [by eexists|].
  destruct (Nat.leb_spec (length (rIdentity rec)) iaidLen) as [|Hl]; [by eexists|].
  destruct (identity_unnamed rec) as (duid & tail & sent & -> & -> & Eu & Hne); [apply Hw|done| |].
  - intros duid Hd Hi. apply (Hno duid). split; [|intros E; by apply nonempty_nil in E; rewrite E in Es|done|done].
    unfold usable_addr6. by destruct (Is6 _), (Is4In6 _), (IsUnspecified _).
  - cbn [mbind outcome_bind]. rewrite Eu. cbn [mbind outcome_bind].
    rewrite (proj2 (Z.eqb_neq _ _) Hne). by eexists.
Qed.

Lemma buildRelease6_named rec x duid : rec6_wf rec -> named6 rec duid -> exists na ta pd,
  buildRelease6 rec x = (payload ← wired (EncodeV6 (release_message x
    (release_options duid (oServerDUID (rLease rec)) na (opt_list ta) (if splitRecord (rLease rec) then [] else opt_list pd))));
    Ok (mkReleaseDatagram payload (mkAddrPort AllDHCPRelayAgentsAndServers serverPort6))) /\
  ia_part OptV6IANA readNA [(oIAID (rLease rec), [addr_given (paddr (oAddr (rLease rec)))])] na /\ sized 40 na /\
  releaseTA (rLease rec) = Ok ta /\ releasePD (rLease rec) = Ok pd.
Proof.
  intros [Hid Hsd Hpd Hi Ha Ht Hp] [Haddr Hserver Hident Hduid].
  destruct (na_part _ _ Hi Haddr ltac:(apply Ha) ltac:(apply Ha)) as (ia & v & Eia & Ena & Lv & Hna).
  destruct (releaseTA_part _ Hi Ht) as (ta & Eta & _). destruct (releasePD_part _ Hi Hp) as (pd & Epd & _).
  exists [mkOptionV6 OptV6IANA v], ta, pd. split; [|split; [done|split; [by repeat constructor; cbn; rewrite Lv|done]]].
  destruct (identity_named rec Hid Hi duid Hident) as (_ & Ed & Es). unfold buildRelease6.
  assert (Ea : negb (Is6 (paddr (oAddr (rLease rec)))) || Is4In6 (paddr (oAddr (rLease rec)))
            || IsUnspecified (paddr (oAddr (rLease rec))) = false).
  { unfold usable_addr6 in Haddr. by destruct (Is6 _), (Is4In6 _), (IsUnspecified _). }
  rewrite Ea. replace (negb (nonempty (oServerDUID (rLease rec)))) with false by (by destruct (oServerDUID _)).
  rewrite (proj2 (Nat.leb_gt _ _)) by (rewrite Hident, length_app, length_be32; destruct duid; cbn; [done|unfold iaidLen; lia]).
  rewrite Ed. cbn [mbind outcome_bind]. apply bind_ok_inv in Es as (sent & Es & [= ->]).
  apply bind_ok_inv in Es as (tail & -> & Es). cbn [mbind outcome_bind]. rewrite Es. cbn [mbind outcome_bind].
  rewrite Z.eqb_refl, Eia. cbn [negb wired mbind outcome_bind]. rewrite Ena. cbn [wired mbind outcome_bind].
  rewrite Eta, Epd. cbn [mbind outcome_bind]. unfold release_message, release_options.
  do 3 f_equal. f_equal. destruct (splitRecord _); rewrite <- ?app_assoc; done.
Qed.

Lemma sized_short n o : sized n o -> (o = [] -> n < 2 ^ 16) -> short o <-> n < 2 ^ 16.
Proof.
  intros Hs Hn. unfold sized, short in *. destruct Hs as [|y o Hy Hs]; [split; [auto|by constructor]|].
  split; [intros [H _]%Forall_cons; lia|]. intros Hlt. constructor; [lia|]. eapply Forall_impl; [exact Hs|]. cbn. lia.
Qed.

Lemma short_release duid server na ta pd : short (release_options duid server na ta pd) <->
  Z.of_nat (length duid) < 2 ^ 16 /\ Z.of_nat (length server) < 2 ^ 16 /\ short na /\ short ta /\ short pd.
Proof.
  unfold release_options, short. rewrite !Forall_app, !Forall_cons. cbn [OData]. split; [tauto|].
  intros (H1 & H2 & H3 & H4 & H5). repeat split; try done; by constructor.
Qed.

Lemma ta_short l ta : u32_wf (oIAID l) -> Forall (fun t => prefix_wf (oaAddr t)) (oTempAddrs l) ->
  releaseTA l = Ok ta -> short (opt_list ta) <-> ta_size l < 2 ^ 16.
Proof.
  intros Hi Ht E. destruct (releaseTA_part l Hi Ht) as (ta' & E' & Hn & Hs & _). rewrite E in E'. injection E' as <-.
  apply sized_short; [done|]. unfold ta_size. destruct ta, (given_addrs _); done.
Qed.

Lemma pd_short l pd : u32_wf (oIAID l) -> Forall (fun t => prefix_wf (oaAddr t)) (oPrefixes l) ->
  releasePD l = Ok pd -> short (opt_list pd) <-> pd_size l < 2 ^ 16.
Proof.
  intros Hi Ht E. destruct (releasePD_part l Hi Ht) as (pd' & E' & Hn & Hs & _). rewrite E in E'. injection E' as <-.
  apply sized_short; [done|]. unfold pd_size. destruct pd, (given_prefixes _); done.
Qed.

Definition releasable6 (rec : Rec) : Prop := exists duid, named6 rec duid /\ fits6 rec duid.

(** The datagrams read back, each to the servers' group and port. *)
Definition read6 (gs : list ReleaseDatagram) : wire (list Given6) := decodeAll readRelease6 (map Payload gs).
Definition to_servers6 (g : ReleaseDatagram) : Prop := DestOf g = mkAddrPort AllDHCPRelayAgentsAndServers serverPort6.

Section Built.
Context (rec : Rec) (xid : Z) (duid : bytes).
Hypothesis rec_ok : rec6_wf rec.
Hypothesis rec_v6 : rFamily rec = FamilyV6.
Hypothesis xid_ok : 0 <= xid < 2 ^ 32.
Hypothesis named : named6 rec duid.

Lemma second_release : releasePD (rLease rec) = Ok None \/ exists pd, releasePD (rLease rec) = Ok (Some pd).
Proof. destruct (releasePD_part (rLease rec)) as ([pd|] & E & _); [apply rec_ok..|right; eauto|by left]. Qed.

(** The releases when everything has a wire form. *)
Lemma releases_fit : fits6 rec duid -> exists gs, BuildReleases rec xid = Ok gs /\ Forall to_servers6 gs /\ read6 gs = Ok (gives6 rec xid).
Proof.
  intros [Fd Fs Ft Fp Fq]. destruct (buildRelease6_named rec xid duid rec_ok named) as (na & ta & pd & Eb & Hna & Sna & Eta & Epd).
  destruct rec_ok as [Hid Hsd Hpsd Hi Ha Ht Hp]. destruct named as [_ _ Hident _].
  destruct (identity_named rec Hid Hi duid Hident) as (Ed & Er & _).
  assert (Hbd : are_bytes duid) by (rewrite Ed; by apply are_bytes_take).
  destruct (releaseTA_part _ Hi Ht) as (ta' & Eta' & _ & _ & Pta). rewrite Eta in Eta'. injection Eta' as <-.
  destruct (releasePD_part _ Hi Hp) as (pd' & Epd' & Npd & _ & Ppd). rewrite Epd in Epd'. injection Epd' as <-.
  assert (Hsna : short na) by (unfold short, sized in *; eapply Forall_impl; [exact Sna|]; cbn; lia).
  assert (Hsta : short (opt_list ta)) by (by apply (ta_short (rLease rec))).
  assert (Hspd : short (opt_list pd)) by (by apply (pd_short (rLease rec))).
  assert (Pnil : ia_part OptV6IAPD readPD ([] : list (Z * list IAPrefix)) []) by apply ia_part_nil.
  assert (Pfirst : ia_part OptV6IAPD readPD
     (if splitRecord (rLease rec) then [] else one_ia (oIAID (rLease rec)) (map prefix_given (given_prefixes (oPrefixes (rLease rec)))))
     (if splitRecord (rLease rec) then [] else opt_list pd)) by (by destruct (splitRecord _)).
  destruct (release_read xid duid _ _ _ _ _ _ _ ltac:(lia) Hbd Hsd Hna Pta Pfirst) as (b & E1 & R1).
  { apply short_release. repeat split; try done. destruct (splitRecord _); [by constructor|done]. }
  unfold BuildReleases, BuildRelease. rewrite rec_v6, Eb, E1. cbn [wired mbind outcome_bind isFamily negb orb].
  change (isFamily FamilyV6 FamilyV6) with true. cbn [negb orb]. unfold gives6. rewrite <- Ed.
  destruct (splitRecord (rLease rec)) eqn:Esp; cbn [negb andb orb].
  2: { eexists. split; [done|]. split; [by repeat constructor|]. unfold read6. cbn [map Payload decodeAll]. by rewrite R1. }
  rewrite Epd. cbn [mbind outcome_bind]. destruct pd as [pd|]; cbn [isSome] in Npd; rewrite <- Npd.
  2: { eexists. split; [done|]. split; [by repeat constructor|]. unfold read6. cbn [map Payload decodeAll]. by rewrite R1. }
  rewrite Er. cbn [mbind outcome_bind].
  destruct (release_read (u32 (xid + 1)) duid (oPrefixServerDUID (rLease rec)) [] [] (opt_list (Some pd)) [] [] _
    ltac:(unfold u32; apply Z.mod_pos_bound; done) Hbd Hpsd (ia_part_nil _ _) (ia_part_nil _ _) Ppd) as (b2 & E2 & R2).
  { apply short_release. repeat split; try done; try by constructor. apply Fq; [done|]. by destruct (given_prefixes _). }
  unfold release_message, release_options in E2. cbn [opt_list app] in E2. rewrite E2. cbn [wired mbind outcome_bind].
  eexists. split; [done|]. split; [by repeat constructor|]. unfold read6. cbn [map Payload decodeAll].
  rewrite R1, R2. cbn [mbind outcome_bind]. do 4 f_equal. unfold u32. apply Z.mod_mod_divide. by exists (2 ^ 8).
Qed.

End Built.

(** The releases when something has none. *)
Lemma releases_unfit rec xid duid : rec6_wf rec -> rFamily rec = FamilyV6 -> 0 <= xid < 2 ^ 32 -> named6 rec duid ->
  ~ fits6 rec duid -> exists e, BuildReleases rec xid = Err e.
Proof.
  intros Hrec Hv6 Hx Hn Hno. destruct (buildRelease6_named rec xid duid Hrec Hn) as (na & ta & pd & Eb & Hna & Sna & Eta & Epd).
  destruct Hrec as [Hid Hsd Hpsd Hi Ha Ht Hp]. destruct Hn as [_ _ Hident _].
  destruct (identity_named rec Hid Hi duid Hident) as (_ & Er & _).
  destruct (releasePD_part _ Hi Hp) as (pd' & Epd' & Npd & _). rewrite Epd in Epd'. injection Epd' as <-.
  unfold BuildReleases, BuildRelease. rewrite Hv6, Eb. change (isFamily FamilyV6 FamilyV6) with true. cbn [negb orb].
  set (o1 := release_options _ _ _ _ _). set (sp := splitRecord (rLease rec)) in *.
  destruct (decide (short o1)) as [Hs|Hs].
  2: { rewrite release_long by (done || lia). by eexists. }
  destruct (EncodeV6 (release_message xid o1)) as [b|e| |] eqn:E1; [|by eexists|exfalso..].
  2,3: unfold EncodeV6, EncodeOptionsV6, release_message in E1; cbn [MXID MOptionsV6] in E1; destruct (MaxXID6 <=? _); [done|];
    rewrite (proj2 (encode6Loop_spec _ [] _) (conj Hs eq_refl)) in E1; done.
  apply short_release in Hs as (H1 & H2 & H3 & H4 & H5). cbn [wired mbind outcome_bind].
  apply (ta_short (rLease rec)) in H4; [|done..].
  destruct sp eqn:Esp; cbn [negb].
  2: { destruct Hno. apply (pd_short (rLease rec)) in H5; [|done..]. split; try done. unfold sp in Esp. by rewrite Esp. }
  rewrite Epd. cbn [mbind outcome_bind]. destruct pd as [pd|]; cbn [isSome] in Npd.
  2: { destruct Hno. assert (Hg : given_prefixes (oPrefixes (rLease rec)) = []) by (by apply nonempty_nil; rewrite <- Npd).
       split; try done. unfold pd_size. by rewrite Hg. }
  rewrite Er. cbn [mbind outcome_bind].
  pose proof (release_long (u32 (xid + 1)) (release_options duid (oPrefixServerDUID (rLease rec)) [] [] (opt_list (Some pd)))) as Hlong.
  unfold release_message, release_options in Hlong. cbn [opt_list app] in Hlong.
  rewrite Hlong; [by eexists|unfold u32; by apply Z.mod_pos_bound|]. intros Hs.
  change (short (release_options duid (oPrefixServerDUID (rLease rec)) [] [] (opt_list (Some pd)))) in Hs.
  apply short_release in Hs as (_ & H6 & _ & _ & H7). apply (pd_short (rLease rec)) in H7; [|done..].
  destruct Hno. by split.
Qed.

(** C20: the releases of a DHCPv6 record.  Every record has an answer (nothing
    panics): the datagrams, exactly where the record names an address, a server
    and its own IA and everything fits an option, and an error otherwise.  Read
    back, the first datagram gives the address, every usable temporary address
    and, unless another server delegated them, every usable prefix to the
    server of the lease; the second one, there exactly when another server
    delegated prefixes, gives them to that server; all go to the servers' group. *)
Theorem releases6_spec rec xid : rFamily rec = FamilyV6 -> rec6_wf rec -> 0 <= xid < 2 ^ 32 ->
  (releasable6 rec -> exists gs, BuildReleases rec xid = Ok gs /\ Forall to_servers6 gs /\ read6 gs = Ok (gives6 rec xid)) /\
  (~ releasable6 rec -> exists e, BuildReleases rec xid = Err e).
Proof.
  intros Hv6 Hw Hx. split.
  - intros (duid & Hn & Hf). by apply (releases_fit rec xid duid).
  - intros Hno. destruct (named6_dec rec) as [(duid & Hn)|Hn].
    + apply (releases_unfit rec xid duid); try done. intros Hf. apply Hno. by exists duid.
    + destruct (buildRelease6_unnamed rec xid Hw Hn) as (e & E). exists e.
      unfold BuildReleases, BuildRelease. by rewrite Hv6, E.
Qed.

(** ** The release of a DHCPv4 record *)

(** A value of the type [Record] of a DHCPv4 lease. *)
Record rec4_wf (rec : Rec) : Prop := {
  r4_addr : addr_wf (paddr (oAddr (rLease rec)));
  r4_server : addr_wf (oServerID (rLease rec)) }.

Definition options4 (rec : Rec) : Options :=
  let o := <[OptMessage := releaseMessage]> (<[OptServerID := default [] (As4 (oServerID (rLease rec)))]>
             (<[OptMessageType := [MsgRelease]]> ∅)) in
  if nonempty (rIdentity rec) then <[OptClientID := rIdentity rec]> o else o.

(** The message a server reads: RFC 2131 section 4.4.6 and table 5. *)
Definition gives4 (rec : Rec) (xid : Z) : Message :=
  mkMessage BootRequest HTypeEthernet (Z.of_nat (length (rCHAddr rec))) 0 xid 0 0 (paddr (oAddr (rLease rec)))
    addr_any addr_any addr_any (rCHAddr rec) [] [] (options4 rec).

Definition releasable4 (rec : Rec) : Prop :=
  usable4 (paddr (oAddr (rLease rec))) = true /\ usable4 (oServerID (rLease rec)) = true /\
  (rIdentity rec <> [] \/ rCHAddr rec <> []) /\ (length (rCHAddr rec) <= 16)%nat /\ (length (rIdentity rec) <= 255)%nat.

Lemma options4_content rec c v : options4 rec !! c = Some v -> is_content c /\ c <> OptOverload /\
  (c = OptClientID /\ v = rIdentity rec \/ v = releaseMessage \/ v = default [] (As4 (oServerID (rLease rec))) \/ v = [MsgRelease]).
Proof.
  unfold options4. destruct (nonempty (rIdentity rec)); [rewrite lookup_insert_Some; intros [[<- <-]|[_ H]]|intros H].
  1: { split; [done|]. split; [done|by left]. }
  all: rewrite !lookup_insert_Some, lookup_empty in H;
    repeat destruct H as [[<- <-]|[_ H]]; [split; [done|split; [done|auto]]..|done].
Qed.

Lemma As4_bytes a : Is4 a = true -> exists v, As4 a = Some (octets4 v) /\ length (octets4 v) = 4%nat /\ Addr4 v = a.
Proof. destruct a as [|v|]; try done. intros _. by exists v. Qed.

Lemma options4_fit rec : Is4 (oServerID (rLease rec)) = true ->
  map_Forall (fun c v => is_content c -> (length v <= 255)%nat) (options4 rec) <-> (length (rIdentity rec) <= 255)%nat.
Proof.
  intros (s & Es & Ls & _)%As4_bytes. split.
  - intros H. unfold options4, map_Forall in H. destruct (rIdentity rec) as [|x l] eqn:Ei; [cbn; lia|].
    apply (H OptClientID); [|done]. cbn [nonempty length Nat.ltb Nat.leb]. by rewrite lookup_insert_eq.
  - intros H c v Hv _. apply options4_content in Hv as (_ & _ & [[_ ->]|[->|[->| ->]]]); [done| | |cbn; lia].
    + vm_compute. lia.
    + rewrite Es. change (length (octets4 s) <= 255)%nat. rewrite Ls. lia.
Qed.

Definition release4_message (rec : Rec) (xid : Z) : Message :=
  mkMessage BootRequest HTypeEthernet 0 0 xid 0 0 (paddr (oAddr (rLease rec))) AddrZero AddrZero AddrZero (rCHAddr rec) []
    [] (options4 rec).

Lemma buildRelease4_eq rec xid : usable4 (paddr (oAddr (rLease rec))) = true -> usable4 (oServerID (rLease rec)) = true ->
  rIdentity rec <> [] \/ rCHAddr rec <> [] ->
  buildRelease4 rec xid = (payload ← wired (Encode (release4_message rec xid));
    Ok (mkReleaseDatagram payload (mkAddrPort (oServerID (rLease rec)) serverPort4))).
Proof.
  unfold usable4. intros [Ha Hu%negb_true_iff]%andb_true_iff [Hs Hus%negb_true_iff]%andb_true_iff Hid. unfold buildRelease4.
  rewrite Ha, Hu, Hs, Hus. cbn [negb orb].
  replace (negb (nonempty (rIdentity rec)) && negb (nonempty (rCHAddr rec))) with false
    by (destruct (rIdentity rec), (rCHAddr rec); try done; by destruct Hid).
  destruct (As4_bytes _ Hs) as (s & Es & _). rewrite Es. unfold release4_message, options4. rewrite Es. cbn [default].
  by destruct (nonempty (rIdentity rec)).
Qed.

Lemma gives4_wire rec xid : releasable4 rec -> wire_form (release4_message rec xid) = gives4 rec xid.
Proof.
  intros (Ha & _). unfold wire_form, gives4, release4_message. cbn [Op HType Hops XID Secs Flags CIAddr YIAddr SIAddr GIAddr CHAddr SName File MOptions].
  unfold usable4 in Ha. apply andb_true_iff in Ha as [Ha _]. unfold wire_addr at 1. rewrite Ha.
  assert (Hd : forall c, c = OptPad \/ c = OptEnd -> options4 rec !! c = None).
  { intros c Hc. destruct (options4 rec !! c) as [v|] eqn:E; [|done].
    apply options4_content in E as ([? ?] & _). by destruct Hc. }
  by rewrite !delete_id by (rewrite ?lookup_delete_None; auto).
Qed.

(** C32: the release of a DHCPv4 record.  Every record has an answer: one datagram to
    port 67 of the server, exactly where the record names a usable address, a
    usable server and a client (by identifier or hardware address) and both fit;
    an error otherwise.  The server reads a DHCPRELEASE with the leased address
    in ciaddr, the hardware address, options 53, 54 and 56, option 61 exactly
    when the record has an identity, and nothing else: no option 50. *)
Theorem release4_spec rec xid : rFamily rec = FamilyV4 -> rec4_wf rec -> 0 <= xid < 2 ^ 32 ->
  (releasable4 rec -> exists b, BuildReleases rec xid = Ok [mkReleaseDatagram b (mkAddrPort (oServerID (rLease rec)) serverPort4)] /\
     Decode b = Ok (gives4 rec xid)) /\
  (~ releasable4 rec -> exists e, BuildReleases rec xid = Err e).
Proof.
  intros Hf [Hwa Hws] Hx. unfold BuildReleases, BuildRelease. rewrite Hf.
  change (negb (isFamily FamilyV4 FamilyV6)) with true. cbn [orb]. split.
  - intros Hr. pose proof Hr as (Ha & Hs & Hid & Hc & Hi). rewrite buildRelease4_eq by done.
    assert (H4 : Is4 (oServerID (rLease rec)) = true) by (by apply andb_true_iff in Hs as [? _]).
    destruct (proj1 (Encode_accepts (release4_message rec xid))) as (b & E); [split; [done|by apply options4_fit]|].
    rewrite E. cbn [wired mbind outcome_bind]. exists b. split; [done|]. rewrite <- (gives4_wire rec xid Hr).
    apply Decode_written; [|unfold overload_of|done].
    + split; cbn [release4_message Op HType Hops XID Secs Flags CIAddr YIAddr SIAddr GIAddr MOptions]; try done; try lia.
      apply Forall_forall. intros c [v Hv]%elem_of_Codes. unfold options4 in Hv.
      destruct (nonempty _); rewrite !lookup_insert_Some, lookup_empty in Hv;
        repeat destruct Hv as [[<- _]|[_ Hv]]; done.
    + destruct (MOptions (release4_message rec xid) !! OptOverload) as [v|] eqn:Ev; [|done].
      by apply options4_content in Ev as (_ & ? & _).
  - intros Hno. destruct (usable4 (paddr (oAddr (rLease rec)))) eqn:Ea.
    2: { unfold buildRelease4, usable4 in *. destruct (Is4 (paddr _)), (IsUnspecified (paddr _)); try done; by eexists. }
    destruct (usable4 (oServerID (rLease rec))) eqn:Es.
    2: { unfold buildRelease4, usable4 in *. destruct (Is4 (paddr _)), (IsUnspecified (paddr _)); try done.
         destruct (Is4 (oServerID _)), (IsUnspecified (oServerID _)); try done; by eexists. }
    destruct (decide (rIdentity rec = [] /\ rCHAddr rec = [])) as [[E1 E2]|Hid].
    { unfold buildRelease4, usable4 in *. rewrite E1, E2. destruct (Is4 (paddr _)), (IsUnspecified (paddr _)); try done.
      destruct (Is4 (oServerID _)), (IsUnspecified (oServerID _)); try done; by eexists. }
    assert (Hor : rIdentity rec <> [] \/ rCHAddr rec <> []) by (destruct (rIdentity rec); [right; tauto|by left]).
    rewrite buildRelease4_eq by done.
    destruct (proj2 (Encode_accepts (release4_message rec xid))) as (e & ->); [|by eexists].
    intros [Hc Hm]. apply Hno. unfold releasable4. rewrite Ea, Es. split; [done|]. split; [done|]. split; [done|]. split; [done|].
    apply options4_fit; [by apply andb_true_iff in Es as [? _]|done].
Qed.

(** ** Sending from an address of the host *)

(** Every address a datagram names. *)
Definition addresses6 (g : Given6) : list Addr := map iaAddr (concat (map snd (gvNA g ++ gvTA g))).

Lemma one_ia_concat {A} iaid (l : list A) : concat (map snd (one_ia iaid l)) = l.
Proof. destruct l; [done|]. cbn. by rewrite app_nil_r. Qed.

Lemma given_addrs_in ts a : a ∈ given_addrs ts -> a ∈ map (fun t => paddr (oaAddr t)) ts.
Proof.
  unfold given_addrs. rewrite list_elem_of_omap. intros (t & Ht & E). destruct (PrefixIsValid _ && _); [|done].
  injection E as <-. apply list_elem_of_fmap. by exists t.
Qed.

Lemma gives6_addresses rec x g a : g ∈ gives6 rec x -> a ∈ addresses6 g ->
  a ∈ paddr (oAddr (rLease rec)) :: map (fun t => paddr (oaAddr t)) (oTempAddrs (rLease rec)).
Proof.
  unfold gives6, addresses6. intros Hg Ha. apply elem_of_cons in Hg as [->|Hg].
  - cbn [gvNA gvTA] in Ha. rewrite map_app, concat_app, one_ia_concat in Ha. cbn [map snd concat app iaAddr addr_given] in Ha.
    apply elem_of_cons in Ha as [->|Ha]; [left|right]. apply given_addrs_in.
    rewrite map_map in Ha. by rewrite map_id in Ha.
  - destruct (_ && _); [|by apply not_elem_of_nil in Hg]. apply list_elem_of_singleton in Hg as ->.
    cbn in Ha. by apply not_elem_of_nil in Ha.
Qed.

Lemma releases_one_dest rec x gs : BuildReleases rec x = Ok gs ->
  exists g gs', gs = g :: gs' /\ Forall (fun h => DestOf h = DestOf g) gs.
Proof.
  unfold BuildReleases. intros H. apply bind_ok_inv in H as (d & _ & H).
  destruct (negb _ || negb _); [injection H as <-; exists d, []; split; [done|by repeat constructor]|].
  apply bind_ok_inv in H as ([pd|] & _ & H); [|injection H as <-; exists d, []; split; [done|by repeat constructor]].
  apply bind_ok_inv in H as (duid & _ & H). apply bind_ok_inv in H as (b & _ & H). injection H as <-.
  eexists d, _. split; [done|by repeat constructor].
Qed.

Lemma sendAll_map send src iface gs : sendAll send src iface gs =
  map (fun g => let c := mkReleaseCall src (DestOf g) iface (Payload g) in (c, send c)) gs.
Proof. induction gs as [|g gs IH]; cbn [sendAll map]; [done|]. by rewrite IH. Qed.

(** C31: sending a release.  When [SendRelease] sends at all, it sends every datagram
    of the record once and in order, whatever the socket answered to an earlier
    one, all from the address the caller named (unmapped, never the unspecified
    one, in the family of the destination) and from the family's client port
    unless another was named.  A DHCPv6 release leaves by a named interface, and
    never from an address that one of its datagrams gives back. *)
Theorem release_sends send rec cfg r calls :
  rFamily rec = FamilyV4 \/ rFamily rec = FamilyV6 /\ rec6_wf rec ->
  sendReleaseWith send rec cfg (Some r) = Ok calls ->
  exists gs, BuildReleases rec (u32 r) = Ok gs /\ let src := Unmap (rcSource cfg) in
    IsValid src = true /\ IsUnspecified src = false /\
    let port := if rcSourcePort cfg =? 0 then if Is4 src then 68 else 546 else rcSourcePort cfg in
    calls = map (fun g => let c := mkReleaseCall (mkAddrPort src port) (DestOf g) (rcInterface cfg) (Payload g) in (c, send c)) gs /\
    Forall (fun g => Is4 (apAddr (DestOf g)) = Is4 src) gs /\
    (rFamily rec = FamilyV6 -> Is4 src = false -> rcInterface cfg <> [] /\
       forall g a, g ∈ gives6 rec (u32 r) -> a ∈ addresses6 g -> WithoutZone src <> a).
Proof.
  intros Hfam. unfold sendReleaseWith. destruct (negb (IsValid _) || IsUnspecified _) eqn:Esrc; [done|].
  apply orb_false_iff in Esrc as [Hv%negb_false_iff Hu]. intros H. apply bind_ok_inv in H as (gs & Hgs & H).
  exists gs. split; [done|]. cbv zeta. split; [done|]. split; [done|].
  destruct (releases_one_dest _ _ _ Hgs) as (g & gs' & -> & Hd). destruct (Bool.eqb (Is4 (Unmap (rcSource cfg))) (Is4 (apAddr (DestOf g)))) eqn:E4; cbn [negb] in H; [|done].
  apply eqb_prop in E4. rewrite <- E4 in H.
  assert (H4 : Forall (fun g => Is4 (apAddr (DestOf g)) = Is4 (Unmap (rcSource cfg))) (g :: gs'))
    by (eapply Forall_impl; [exact Hd|]; cbn; intros h ->; done). clear Hgs Hd. destruct (Is4 (Unmap (rcSource cfg))) eqn:E.
  - injection H as <-. rewrite sendAll_map. by split.
  - destruct (bytes_eqb (rcInterface cfg) []) eqn:Ei; [done|]. destruct (existsb _ _) eqn:Ex; [done|].
    injection H as <-. rewrite sendAll_map. split; [done|]. split; [done|]. intros Hf _.
    destruct Hfam as [Hf'|[_ Hw]]; [congruence|].
    split; [intros Hi; rewrite Hi in Ei; done|]. intros g' a Hg Ha Hsrc.
    apply (gives6_addresses _ _ _ _ Hg) in Ha. rewrite <- not_true_iff_false in Ex. apply Ex, existsb_exists. exists a.
    split; [by apply list_elem_of_In|]. apply addr_eqb_eq. rewrite Hsrc. symmetry.
    apply elem_of_cons in Ha as [->|Ha]; [apply (r6_addr rec Hw)|].
    apply list_elem_of_fmap in Ha as (t & -> & Ht). pose proof (r6_temps rec Hw) as Htemps.
    rewrite Forall_forall in Htemps. by apply Htemps.
Qed.

(** ** Sending over a link *)

(** A hardware address a frame can be sent to. *)
Definition good_hw (hw : bytes) : Prop := length hw = 6%nat /\ isZeroOrBroadcast hw = false.

(** A frame that answers for [hop]: an ARP reply whose sender is [hop] at [hw]. *)
Definition answers_for (hop : Addr) (b hw : bytes) : Prop :=
  exists p, DecodeARP b = Ok p /\ ArpOp p = ARPReply /\ SenderIP p = hop /\ SenderHW p = hw /\ good_hw hw.

Definition cache_ok (c : LinkCache) : Prop :=
  match c with None => True | Some m => map_Forall (fun _ o => match o with Some hw => good_hw hw | None => True end) m end.

Lemma replyFrom_spec b server : exists o, replyFrom b server = Ok o /\
  (forall hw, o = Some hw -> answers_for server b hw) /\ (o = None -> forall hw, ~ answers_for server b hw).
Proof.
  unfold replyFrom, answers_for. pose proof (DecodeARP_returns b) as [Hp Hh].
  destruct (DecodeARP b) as [p|e| |]; [|eexists; split; [done|split; [done|intros _ hw (? & ? & _); done]]|done..].
  destruct (Z.eqb_spec (ArpOp p) ARPReply) as [Ho|Ho]; cbn [negb orb].
  2: { eexists; split; [done|split; [done|]]. intros _ hw (? & [= <-] & ? & _). done. }
  destruct (addr_eqb (SenderIP p) server) eqn:Es; cbn [negb].
  2: { eexists; split; [done|split; [done|]]. intros _ hw (? & [= <-] & _ & ? & _). by apply addr_eqb_neq in Es. }
  apply addr_eqb_eq in Es. change (Z.to_nat ARPHLenEthernet) with 6%nat.
  destruct (Nat.eqb_spec (length (SenderHW p)) 6) as [Hl|Hl]; cbn [negb orb].
  2: { eexists; split; [done|split; [done|]]. intros _ hw (? & [= <-] & _ & _ & <- & [? _]). done. }
  destruct (isZeroOrBroadcast (SenderHW p)) eqn:Ez.
  { eexists; split; [done|split; [done|]]. intros _ hw (? & [= <-] & _ & _ & <- & [_ ?]). congruence. }
  eexists; split; [done|split; [|done]]. intros hw [= <-]. by exists p.
Qed.

(** What the loop answers, and that it ends when the deadline comes. *)
Lemma awaitReply_spec server evs :
  (forall hw, awaitReply server evs = Ok (Some hw) -> exists b, InFrame b ∈ evs /\ answers_for server b hw) /\
  awaitReply server evs <> Panic /\ (Deadline ∈ evs -> awaitReply server evs <> Hang).
Proof.
  induction evs as [|ev evs (IH1 & IH2 & IH3)]; cbn [awaitReply].
  { split; [done|]. split; [done|]. by intros H%not_elem_of_nil. }
  destruct ev as [b|t| |]; try done.
  destruct (replyFrom_spec b server) as (o & -> & Ho & _). cbn [wired mbind outcome_bind]. destruct o as [hw|].
  - split; [intros hw' [= <-]; exists b; split; [left|by apply Ho]|done].
  - split; [intros hw (b' & Hb & ?)%IH1; exists b'; split; [by right|done]|].
    split; [done|]. intros [Hd|Hd]%elem_of_cons; [done|]. by apply IH3.
Qed.

Lemma cache_lookup_ok c iface hop hw : cache_ok c -> cache_lookup c iface hop = Some (Some hw) -> good_hw hw.
Proof. destruct c as [m|]; cbn; [|done]. intros H E. apply (H _ _ E). Qed.

Lemma cache_remember_ok c iface hop o : cache_ok c -> (forall hw, o = Some hw -> good_hw hw) -> cache_ok (cache_remember c iface hop o).
Proof.
  destruct c as [m|]; cbn; [|done]. intros H Ho. apply map_Forall_insert_2; [|done]. destruct o; [by apply Ho|done].
Qed.

(** Where the hardware address of a frame may come from. *)
Definition hop_hw (cache : LinkCache) (ports : LinkPorts) (iface : gostring) (hop : Addr) (hw : bytes) : Prop :=
  cache_lookup cache iface hop = Some (Some hw) \/
  cache_lookup cache iface hop = None /\ exists b, InFrame b ∈ lpReceived ports /\ answers_for hop b hw.

(** What may leave by the sockets of a link. *)
Definition sent_ok (rec : Rec) (iface : gostring) (r : Z) (cache : LinkCache) (ports : LinkPorts) (s : LinkSent) : Prop :=
  exists d hop onLink, BuildRelease rec r = Ok d /\ nextHop (rLease rec) (apAddr (DestOf d)) = Ok (hop, onLink) /\
  match s with
  | ProbeSent f => exists p, EncodeARP p = Ok f /\ IsProbe p = true /\ TargetIP p = hop
  | ReleaseSent dst src hw payload =>
      dst = apAddr (DestOf d) /\ src = paddr (oAddr (rLease rec)) /\ payload = Payload d /\
      (hop_hw cache ports iface hop hw /\ good_hw hw \/ hw = broadcastMAC /\ onLink = true)
  end.

Definition is_release (s : LinkSent) : bool := match s with ReleaseSent _ _ _ _ => true | _ => false end.

Definition link_ok (rec : Rec) (iface : gostring) (r : Z) (cache : LinkCache) (ports : LinkPorts) (run : LinkRun) : Prop :=
  cache_ok (lkCache run) /\ Forall (sent_ok rec iface r cache ports) (lkSent run) /\
  (length (List.filter is_release (lkSent run)) <= 1)%nat /\
  (lkErr run = Ok tt -> exists s, s ∈ lkSent run /\ is_release s = true) /\
  lkErr run <> Panic /\ (Deadline ∈ lpReceived ports -> lkErr run <> Hang).

Section Link.
Context (rec : Rec) (iface : gostring) (r : Z) (cache : LinkCache) (ports : LinkPorts).
Hypothesis cache_in : cache_ok cache.
Abbreviation ok := (link_ok rec iface r cache ports).

Lemma link_refused e sent c : cache_ok c -> Forall (sent_ok rec iface r cache ports) sent ->
  List.filter is_release sent = [] -> ok (mkLinkRun (Err e) sent c).
Proof. intros Hc Hs Hf. split; [done|]. split; [done|]. cbn [lkSent lkErr]. rewrite Hf. cbn. by split; [lia|]. Qed.

Lemma link_closing run : ok run -> ok (closing ports run).
Proof.
  intros (H1 & H2 & H3 & H4 & H5 & H6). unfold closing, link_ok. cbn [lkErr lkSent lkCache].
  split; [done|]. split; [done|]. split; [done|].
  destruct (lkErr run) as [[]|e| |]; cbn [mbind outcome_bind]; try done.
  unfold port_err. by destruct (lpIPClose ports).
Qed.

Context (d : ReleaseDatagram) (hop : Addr) (onLink : bool).
Hypothesis built : BuildRelease rec r = Ok d.
Hypothesis hopped : nextHop (rLease rec) (apAddr (DestOf d)) = Ok (hop, onLink).

Lemma link_hop hw sent c : cache_ok c -> Forall (sent_ok rec iface r cache ports) sent -> List.filter is_release sent = [] ->
  (forall a, hw = Some a -> hop_hw cache ports iface hop a /\ good_hw a) ->
  ok (sendOnHop rec ports (Payload d) (apAddr (DestOf d)) onLink hw sent c).
Proof.
  intros Hc Hs Hf Hhw.
  assert (Hsend : forall a, hop_hw cache ports iface hop a /\ good_hw a \/ a = broadcastMAC /\ onLink = true ->
    ok (mkLinkRun (port_err (lpSend ports))
      (sent ++ [ReleaseSent (apAddr (DestOf d)) (paddr (oAddr (rLease rec))) a (Payload d)]) c)).
  { intros a Ha. split; [done|]. cbn [lkSent lkErr]. split.
    { apply Forall_app. split; [done|]. constructor; [|by constructor]. by exists d, hop, onLink. }
    rewrite List.filter_app, Hf. split; [cbn; lia|]. split.
    { intros _. eexists. split; [apply elem_of_app; right; by apply list_elem_of_singleton|done]. }
    unfold port_err. by destruct (lpSend ports). }
  unfold sendOnHop. destruct hw as [a|]; [apply Hsend; left; by apply Hhw|].
  destruct onLink; cbn [negb]; [apply Hsend; by right|by apply link_refused].
Qed.

End Link.

Lemma resolveByProbe_spec rec iface r cache ports d hop onLink : BuildRelease rec r = Ok d ->
  nextHop (rLease rec) (apAddr (DestOf d)) = Ok (hop, onLink) ->
  let '(o, sent) := resolveByProbe ports hop in
  Forall (sent_ok rec iface r cache ports) sent /\ List.filter is_release sent = [] /\
  (forall hw, o = Ok (Some hw) -> exists b, InFrame b ∈ lpReceived ports /\ answers_for hop b hw) /\
  o <> Panic /\ (Deadline ∈ lpReceived ports -> o <> Hang).
Proof.
  intros Eb Eh. unfold resolveByProbe, linkProbe. pose proof (awaitReply_spec hop (lpReceived ports)) as (A1 & A2 & A3).
  destruct (EncodeARP _) as [f|e| |] eqn:E; cbn [wired].
  - split.
    { constructor; [|by constructor]. exists d, hop, onLink. split; [done|]. split; [done|]. eexists. by split; [exact E|]. }
    split; [done|]. unfold port_err. destruct (lpArpSend ports); cbn [mbind outcome_bind]; done.
  - split; [by constructor|]. done.
  - unfold EncodeARP in E. by repeat destruct (negb _).
  - unfold EncodeARP in E. by repeat destruct (negb _).
Qed.

Lemma buildRelease4_returns rec x : returns (buildRelease4 rec x).
Proof.
  unfold buildRelease4. destruct (_ || _); [done|]. destruct (Is4 (oServerID (rLease rec))) eqn:Es; cbn [negb orb]; [|done].
  destruct (IsUnspecified _); [done|]. destruct (_ && _); [done|].
  destruct (As4_bytes _ Es) as (s & -> & _). set (m := if nonempty _ then _ else _).
  destruct (Encode_accepts m) as [H1 H2]. unfold returns.
  destruct (decide (encodes m)) as [H|H]; [destruct (H1 H) as (b & ->)|destruct (H2 H) as (e & ->)]; done.
Qed.

(** C21: releasing over a link.  Whatever the two sockets answer, at most one
    release leaves, and only after everything before it succeeded: the record's
    datagram, to the server, from the leased address, in a frame to a unicast
    hardware address that an ARP reply of the next hop named (now or when the
    cache was filled), or to everyone when the server is on the link and nothing
    answered, never so through a gateway.  What asks is an ARP probe, which
    claims no address.  No error means a release left; the cache keeps only
    usable answers; and with a deadline the call returns. *)
Theorem link_release_spec rec iface rnd cache ports : cache_ok cache ->
  let run := sendReleaseOnLinkWith rec iface rnd cache ports in
  (forall r, rnd = Some r -> link_ok rec iface (u32 r) cache ports run) /\
  (rnd = None -> exists e, run = mkLinkRun (Err e) [] cache).
Proof.
  intros Hc. unfold sendReleaseOnLinkWith. cbv zeta. split.
  2: { intros ->. destruct (negb _); [by eexists|]. destruct (bytes_eqb _ _); by eexists. }
  intros r ->. destruct (isFamily (rFamily rec) FamilyV4) eqn:Ef; cbn [negb]; [|by apply link_refused].
  apply bool_decide_eq_true in Ef. destruct (bytes_eqb iface []); [by apply link_refused|].
  destruct (BuildRelease rec (u32 r)) as [d|e| |] eqn:Eb; cbn [mbind outcome_bind]; [|by apply link_refused|exfalso..].
  2,3: unfold BuildRelease in Eb; rewrite Ef in Eb; by destruct (buildRelease4_returns rec (u32 r)).
  destruct (nextHop (rLease rec) (apAddr (DestOf d))) as [[hop onLink]|e| |] eqn:Eh; cbn [mbind outcome_bind];
    [|by apply link_refused|exfalso..].
  2,3: unfold nextHop in Eh; by repeat destruct (negb _), (_ || _).
  destruct (lpOpenIP ports); [by apply link_refused|]. apply link_closing.
  destruct (cache_lookup cache iface hop) as [hw|] eqn:El.
  { apply link_hop with hop; try done. intros a ->. split; [by left|]. by eapply cache_lookup_ok. }
  destruct (lpOpenARP ports); [by apply link_refused|].
  pose proof (resolveByProbe_spec rec iface (u32 r) cache ports d hop onLink Eb Eh) as H.
  destruct (resolveByProbe ports hop) as [o sent]. destruct H as (Hs & Hf & Ha & Hp & Hh).
  assert (Hgood : forall hw, o = Ok (Some hw) -> hop_hw cache ports iface hop hw /\ good_hw hw).
  { intros hw (b & Hb & Hans)%Ha. split; [right; split; [done|by exists b]|]. by destruct Hans as (p & _ & _ & _ & _ & ?). }
  destruct o as [hw|e| |]; cbn [mbind outcome_bind]; [|by apply link_refused|done|].
  - unfold port_err. destruct (lpArpClose ports); cbn [mbind outcome_bind]; [by apply link_refused|].
    apply link_hop with hop; try done.
    + apply cache_remember_ok; [done|]. intros a ->. by apply Hgood.
    + intros a ->. by apply Hgood.
  - split; [done|]. split; [done|]. cbn [lkSent lkErr]. rewrite Hf. split; [cbn; lia|]. split; [done|]. split; [done|].
    intros Hd. by destruct (Hh Hd).
Qed.

(** ** Sample records *)

Definition sample_rec6 : Rec := rec_zero <| rID := [1] |> <| rFamily := FamilyV6 |>
  <| rIdentity := [0; 3; 0; 1; 2; 0; 0; 0; 0; 1; 0; 0; 0; 7] |>
  <| rLease := olease_zero <| oAddr := PrefixOf (Addr6 (Z.shiftl 0x20010db8 96 + 5) []) 128 |> <| oServerDUID := [0; 1; 9] |>
     <| oIAID := 7 |> <| oPrefixServerDUID := [0; 1; 8] |>
     <| oAddrs := [mkOAddr6 (PrefixOf (Addr6 (Z.shiftl 0x20010db8 96 + 5) []) 128) 0 0;
                   mkOAddr6 (PrefixOf (Addr6 (Z.shiftl 0x20010db8 96 + 6) []) 128) 0 0] |>
     <| oTempAddrs := [mkOAddr6 (PrefixOf (Addr6 (Z.shiftl 0x20010db8 96 + 9) []) 128) 0 0] |>
     <| oPrefixes := [mkOAddr6 (PrefixOf (Addr6 (Z.shiftl 0x20010db8 96 + Z.shiftl 1 80) []) 56) 0 0;
                      mkOAddr6 (PrefixOf (Addr6 0 []) 0) 0 0] |> |>.

Lemma sample_rec6_wf : rec6_wf sample_rec6.
Proof.
  assert (Hp : forall v n, 0 <= v < 2 ^ 128 -> -1 <= n <= 128 -> prefix_wf (PrefixOf (Addr6 v []) n)) by (by split).
  split.
  1, 2, 3: by repeat constructor.
  { split; vm_compute; done. }
  { apply Hp; vm_compute; by split. }
  - constructor; [|constructor]. apply Hp; vm_compute; by split.
  - constructor; [|constructor; [|constructor]]; apply Hp; vm_compute; by split.
Qed.

Lemma sample_rec6_releasable : releasable6 sample_rec6.
Proof. exists [0; 3; 0; 1; 2; 0; 0; 0; 0; 1]. split; split; vm_compute; done. Qed.

(** Two datagrams: the addresses to one server, the usable prefix to the other.
    The second address of the IA_NA is in neither. *)
Lemma releases6_spec_witness : exists gs, BuildReleases sample_rec6 0xFFFFFFFF = Ok gs /\ Forall to_servers6 gs /\
  read6 gs = Ok (gives6 sample_rec6 0xFFFFFFFF) /\ length gs = 2%nat /\
  Forall (fun g => Addr6 (Z.shiftl 0x20010db8 96 + 6) [] ∉ addresses6 g) (gives6 sample_rec6 0xFFFFFFFF).
Proof.
  destruct (proj1 (releases6_spec sample_rec6 0xFFFFFFFF eq_refl sample_rec6_wf ltac:(lia)) sample_rec6_releasable)
    as (gs & H1 & H2 & H3).
  exists gs. split; [exact H1|]. split; [exact H2|]. split; [exact H3|]. split.
  - vm_compute in H1. injection H1 as <-. reflexivity.
  - vm_compute. repeat constructor; intros H; repeat (apply elem_of_cons in H as [H|H]; [discriminate H|]);
      by apply not_elem_of_nil in H.
Defined.

Definition sample_rec4 : Rec := rec_zero <| rID := [1] |> <| rFamily := FamilyV4 |> <| rCHAddr := [2; 66; 172; 17; 0; 2] |>
  <| rLease := olease_zero <| oAddr := PrefixOf (AddrFrom4 [192; 168; 99; 5]) 24 |>
     <| oServerID := AddrFrom4 [10; 0; 0; 1] |> <| oGateway := AddrFrom4 [192; 168; 99; 1] |> |>.

(** No identity: option 61 is absent. *)
Lemma release4_spec_witness : exists b,
  BuildReleases sample_rec4 77 = Ok [mkReleaseDatagram b (mkAddrPort (AddrFrom4 [10; 0; 0; 1]) serverPort4)] /\
  Decode b = Ok (gives4 sample_rec4 77) /\ MOptions (gives4 sample_rec4 77) !! OptClientID = None.
Proof.
  destruct (proj1 (release4_spec sample_rec4 77 eq_refl ltac:(by split; vm_compute) ltac:(lia))) as (b & H1 & H2).
  - split; [reflexivity|]. split; [reflexivity|]. split; [by right|]. vm_compute. lia.
  - exists b. split; [exact H1|]. split; [exact H2|]. reflexivity.
Defined.

(** The first datagram fails; the second one is sent all the same. *)
Lemma release_sends_witness :
  let send c := if bytes_eqb (clIface c) [] then None else Some (ascii_bytes "network is down") in
  let cfg := mkReleaseConfig [101] (Addr6 (Z.shiftl 0xfe80 112 + 1) [101]) 0 in
  exists calls gs, sendReleaseWith send sample_rec6 cfg (Some 5) = Ok calls /\ length (answers calls) = 2%nat /\
    BuildReleases sample_rec6 (u32 5) = Ok gs /\ length calls = length gs.
Proof.
  intros send cfg. eexists. destruct (release_sends send sample_rec6 cfg 5
    (match sendReleaseWith send sample_rec6 cfg (Some 5) with Ok c => c | _ => [] end)) as (gs & Hgs & H).
  - right. split; [reflexivity|apply sample_rec6_wf].
  - vm_compute. reflexivity.
  - exists gs. split; [vm_compute; reflexivity|]. split; [vm_compute; reflexivity|]. split; [exact Hgs|].
    destruct H as (_ & _ & H & _). apply (f_equal length) in H. rewrite length_map in H. rewrite <- H. reflexivity.
Defined.

Definition gateway_reply : bytes := match EncodeARP (mkARP ARPReply [2; 0; 0; 0; 0; 1] [2; 0; 0; 0; 0; 9] (AddrFrom4 [192; 168; 99; 1]) (AddrFrom4 [0; 0; 0; 0])) with Ok b => b | _ => [] end.

Definition sample_ports : LinkPorts :=
  mkLinkPorts None None [2; 0; 0; 0; 0; 9] None [InFrame [1; 2; 3]; InFrame gateway_reply; Deadline] None None None.

(** The server is behind the gateway, which answers the probe. *)
Lemma link_release_spec_witness : let run := sendReleaseOnLinkWith sample_rec4 [101] (Some 5) (Some ∅) sample_ports in
  link_ok sample_rec4 [101] (u32 5) (Some ∅) sample_ports run /\ lkErr run = Ok tt /\
  lkCache run = Some {[ ([101], AddrFrom4 [192; 168; 99; 1]) := Some [2; 0; 0; 0; 0; 1] ]}.
Proof.
  intros run. split; [|split; vm_compute; reflexivity].
  refine (proj1 (link_release_spec sample_rec4 [101] (Some 5) (Some ∅) sample_ports _) 5 eq_refl).
  intros k o H. by rewrite lookup_empty in H.
Defined.
