(* ===== verification/Timers.v ===== *)
(** * The timer service: runtime/timers.go

    The table of armed timers with its generations, the callbacks the Go runtime
    starts for them, and the channel a client reads, as a transition system: one
    step for each critical section and each channel operation, in any order the
    scheduler may take them.  An abstract timer service (a timer is armed or
    not; a fire is delivered once) and the simulation between the two. *)

From S2P Require Import Prelude.

(** ** The service *)

(** [gen] and [timer] are the two slices; [timer] holds the generation the
    [time.Timer] was made with.  [pending] are the timers of the Go runtime that
    have not expired, [running] the callbacks that were started and have not
    taken the mutex, [sending] those behind the closed check that have not
    finished with the channel (the wait group counts them).  [firedCh] is the
    channel's buffer, [waiting] says whether a Close waits for the senders, and
    [closedCh] whether the channel is closed. *)
Record Timers := mkTimers {
  gen : list Z; timer : list (option Z); pending : list (nat * Z); running : list (nat * Z); sending : list nat;
  firedCh : list nat; tclosed : bool; waiting : bool; closedCh : bool }.

#[global] Instance eta_Timers : Settable Timers := fun t =>
  mkTimers (gen t) (timer t) (pending t) (running t) (sending t) (firedCh t) (tclosed t) (waiting t) (closedCh t).

Section Service.

(** [len(proto.AllTimerIDs())]. *)
Context (numTimers : nat).

Definition NewTimers : Timers :=
  mkTimers (replicate numTimers 0) (replicate numTimers None) [] [] [] [] false false false.

Definition genOf (t : Timers) (id : nat) : Z := default 0 (gen t !! id).
Definition timerOf (t : Timers) (id : nat) : option Z := default None (timer t !! id).

Definition same_arming (a b : nat * Z) : bool := bool_decide (a = b).

(** [Stop] takes a timer that has not expired from the Go runtime; a callback
    that was started goes on. *)
Definition stopLocked (t : Timers) (id : nat) : Timers :=
  match timerOf t id with
  | None => t
  | Some g => t <| pending := List.filter (fun a => negb (same_arming a (id, g))) (pending t) |>
                <| timer := <[id := None]> (timer t) |>
  end.

Definition bump (t : Timers) (id : nat) : Timers := t <| gen := <[id := u64 (genOf t id + 1)]> (gen t) |>.

(** The delay only says when the Go runtime starts the callback, which is the
    scheduler's choice here. *)
Definition Set_ (t : Timers) (id : nat) : Timers :=
  if (numTimers <=? id)%nat then t else
  if tclosed t then t else
  let t := bump (stopLocked t id) id in
  let g := genOf t id in
  t <| pending := pending t ++ [(id, g)] |> <| timer := <[id := Some g]> (timer t) |>.

Definition Cancel (t : Timers) (id : nat) : Timers :=
  if (numTimers <=? id)%nat then t else bump (stopLocked t id) id.

Fixpoint closeLoop (ids : list nat) (t : Timers) : Timers :=
  match ids with [] => t | id :: ids => closeLoop ids (bump (stopLocked t id) id) end.

(** [Close] up to its unlock; the rest is [closeWait]. *)
Definition Close (t : Timers) : Timers :=
  if tclosed t then t else closeLoop (seq 0 numTimers) (t <| tclosed := true |>) <| waiting := true |>.

(** [sending.Wait] and [close(t.fired)]. *)
Definition closeWait (t : Timers) : option Timers :=
  if waiting t && (length (sending t) =? 0)%nat then Some (t <| waiting := false |> <| closedCh := true |>) else None.

(** The Go runtime starts a callback. *)
Definition expires (t : Timers) (i : nat) : option Timers :=
  match pending t !! i with
  | Some a => Some (t <| pending := delete i (pending t) |> <| running := running t ++ [a] |>)
  | None => None
  end.

(** [fire] up to its unlock. *)
Definition fire (t : Timers) (i : nat) : option Timers :=
  match running t !! i with
  | None => None
  | Some (id, g) =>
    let t := t <| running := delete i (running t) |> in
    if tclosed t || negb (genOf t id =? g) then Some t else
    Some (t <| timer := <[id := None]> (timer t) |> <| sending := sending t ++ [id] |>)
  end.

(** The select of [fire]: the send, ready while the buffer has room, and the
    closed [done]. A send on a closed channel is a panic. *)
Inductive sent_ := Sent (t : Timers) | SendPanics | SendBlocks.

Definition send_ (t : Timers) (i : nat) : sent_ :=
  match sending t !! i with
  | None => SendBlocks
  | Some id =>
    if closedCh t then SendPanics else
    if (length (firedCh t) <? numTimers)%nat
    then Sent (t <| firedCh := firedCh t ++ [id] |> <| sending := delete i (sending t) |>) else SendBlocks
  end.

Definition gives_up (t : Timers) (i : nat) : option Timers :=
  match sending t !! i with
  | Some _ => if tclosed t then Some (t <| sending := delete i (sending t) |>) else None
  | None => None
  end.

(** A client reads the channel. *)
Definition receive (t : Timers) : option (nat * Timers) :=
  match firedCh t with
  | [] => None
  | id :: l => Some (id, t <| firedCh := l |>)
  end.

(** ** The transition system *)

Inductive Call := CSet (id : nat) | CCancel (id : nat) | CClose | CReceive (id : nat).

(** A step and what a client sees of it. *)
Inductive tstep : Timers -> option Call -> Timers -> Prop :=
| st_set t id : tstep t (Some (CSet id)) (Set_ t id)
| st_cancel t id : tstep t (Some (CCancel id)) (Cancel t id)
| st_close t : tstep t (Some CClose) (Close t)
| st_receive t id t' : receive t = Some (id, t') -> tstep t (Some (CReceive id)) t'
| st_expires t i t' : expires t i = Some t' -> tstep t None t'
| st_fire t i t' : fire t i = Some t' -> tstep t None t'
| st_send t i t' : send_ t i = Sent t' -> tstep t None t'
| st_gives_up t i t' : gives_up t i = Some t' -> tstep t None t'
| st_wait t t' : closeWait t = Some t' -> tstep t None t'.

(** A run of [n] steps and the calls a client sees in it. *)
Definition seen (l : option Call) : list Call := match l with Some c => [c] | None => [] end.

Inductive truns : nat -> Timers -> list Call -> Timers -> Prop :=
| tr_nil t : truns 0 t [] t
| tr_step n t l t' tr t'' : tstep t l t' -> truns n t' tr t'' -> truns (S n) t (seen l ++ tr) t''.

(** ** The abstract service

    A set of armed timers, the fires that were made and not read, and whether it
    is shut.  A timer fires only while it is armed, and fires once. *)
Record Service := mkService { armed : gset nat; out : list nat; shut : bool }.

Inductive sstep : Service -> option Call -> Service -> Prop :=
| ss_set s id : (id < numTimers)%nat -> shut s = false ->
    sstep s (Some (CSet id)) (mkService ({[id]} ∪ armed s) (out s) (shut s))
| ss_set_ignored s id : (numTimers <= id)%nat \/ shut s = true -> sstep s (Some (CSet id)) s
| ss_cancel s id : sstep s (Some (CCancel id)) (mkService (armed s ∖ {[id]}) (out s) (shut s))
| ss_close s : sstep s (Some CClose) (mkService ∅ (out s) true)
| ss_receive s id o : out s ≡ₚ id :: o -> sstep s (Some (CReceive id)) (mkService (armed s) o (shut s))
| ss_fire s id : id ∈ armed s -> sstep s None (mkService (armed s ∖ {[id]}) (out s ++ [id]) (shut s))
| ss_lost s id o : shut s = true -> out s ≡ₚ id :: o -> sstep s None (mkService (armed s) o (shut s)).

(** The armed timers of the table. *)
Definition armed_of (t : Timers) : gset nat :=
  list_to_set (List.filter (fun id => match timerOf t id with Some _ => true | None => false end) (seq 0 numTimers)).

Definition abstraction (t : Timers) : Service := mkService (armed_of t) (firedCh t ++ sending t) (tclosed t).

(** A step of the specification or none. *)
Inductive simulated : Service -> option Call -> Service -> Prop :=
| sim_step s l s' : sstep s l s' -> simulated s l s'
| sim_none s s' : armed s = armed s' -> out s ≡ₚ out s' -> shut s = shut s' -> simulated s None s'.

(** ** The invariant of the table *)

(** The callbacks that may still run. *)
Definition live (t : Timers) : list (nat * Z) := pending t ++ running t.

(** A set timer is the callback of its id's current generation, which is yet to
    run; every other callback is of an older one.  [b] bounds the generations. *)
Record table_inv (b : Z) (t : Timers) : Prop := {
  ti_gen : length (gen t) = numTimers;
  ti_timer : length (timer t) = numTimers;
  ti_range : forall id, 0 <= genOf t id <= b;
  ti_live : forall a, a ∈ live t -> (a.1 < numTimers)%nat /\ a.2 <= genOf t a.1;
  ti_once : NoDup (live t);
  ti_set : forall id g, timerOf t id = Some g <-> g = genOf t id /\ (id, g) ∈ live t }.

(** Close is made once: it waits or it has closed the channel, and then there is
    nothing that could send. *)
Record timers_inv (b : Z) (t : Timers) : Prop := {
  tv_table : table_inv b t;
  tv_closed : tclosed t = true -> (forall id, timerOf t id = None) /\ (waiting t = true <-> closedCh t = false);
  tv_open : tclosed t = false -> waiting t = false /\ closedCh t = false;
  tv_done : closedCh t = true -> sending t = [];
  tv_room : (length (firedCh t) <= numTimers)%nat;
  tv_sending : forall id, id ∈ sending t -> (id < numTimers)%nat }.

Lemma timerOf_insert t id j o : length (timer t) = numTimers -> (id < numTimers)%nat ->
  default None (<[id := o]> (timer t) !! j) = if decide (j = id) then o else timerOf t j.
Proof.
  intros Hl Hid. unfold timerOf. destruct (decide (j = id)) as [->|Hj].
  - by rewrite list_lookup_insert_eq by lia.
  - by rewrite list_lookup_insert_ne.
Qed.

Lemma genOf_insert t id j o : length (gen t) = numTimers -> (id < numTimers)%nat ->
  default 0 (<[id := o]> (gen t) !! j) = if decide (j = id) then o else genOf t j.
Proof.
  intros Hl Hid. unfold genOf. destruct (decide (j = id)) as [->|Hj].
  - by rewrite list_lookup_insert_eq by lia.
  - by rewrite list_lookup_insert_ne.
Qed.

Lemma timerOf_out b t id : table_inv b t -> (numTimers <= id)%nat -> timerOf t id = None.
Proof. intros H Hid. unfold timerOf. by rewrite lookup_ge_None_2 by (rewrite (ti_timer _ _ H); lia). Qed.

Lemma elem_filter (p : nat * Z -> bool) l a : a ∈ List.filter p l <-> a ∈ l /\ p a = true.
Proof. rewrite !list_elem_of_In. apply List.filter_In. Qed.

Lemma NoDup_filter_ (p : nat * Z -> bool) l : NoDup l -> NoDup (List.filter p l).
Proof. rewrite !NoDup_ListNoDup. apply List.NoDup_filter. Qed.

Lemma stopped b t id : table_inv b t -> (id < numTimers)%nat -> let t' := stopLocked t id in
  gen t' = gen t /\ length (timer t') = numTimers /\ running t' = running t /\ sending t' = sending t /\
  firedCh t' = firedCh t /\ tclosed t' = tclosed t /\ waiting t' = waiting t /\ closedCh t' = closedCh t /\
  NoDup (live t') /\ (forall a, a ∈ live t' -> a ∈ live t) /\
  (forall a, a ∈ live t -> a.1 <> id -> a ∈ live t') /\
  (forall j, timerOf t' j = if decide (j = id) then None else timerOf t j).
Proof.
  intros [Hg Ht Hr Hl Ho Hs] Hid t'. unfold t', stopLocked, live. destruct (timerOf t id) as [g|] eqn:E.
  - cbn. rewrite length_insert. do 8 (split; [done|]). split; [|split; [|split]].
    + unfold live in Ho. apply NoDup_app in Ho as (H1 & H2 & H3). apply NoDup_app. split; [by apply NoDup_filter_|].
      split; [|done]. intros a [Ha _]%elem_filter. by apply H2.
    + intros a. rewrite !elem_of_app, elem_filter. tauto.
    + intros a. rewrite !elem_of_app, elem_filter. intros [Ha|Ha] Hne; [left|by right]. split; [done|].
      apply negb_true_iff, bool_decide_eq_false. by intros ->.
    + intros j. by apply timerOf_insert.
  - do 8 (split; [done|]). split; [done|]. split; [done|]. split; [done|].
    intros j. by destruct (decide (j = id)) as [->|].
Qed.

(** What [Cancel] does to a table: the id is disarmed and none of its callbacks is current. *)
Lemma disarmed b t id : table_inv b t -> (id < numTimers)%nat -> genOf t id < b -> b < 2 ^ 64 ->
  let t' := bump (stopLocked t id) id in
  table_inv b t' /\ (forall j, timerOf t' j = if decide (j = id) then None else timerOf t j) /\
  (forall j, genOf t' j = if decide (j = id) then genOf t id + 1 else genOf t j) /\
  sending t' = sending t /\ firedCh t' = firedCh t /\ tclosed t' = tclosed t /\ waiting t' = waiting t /\
  closedCh t' = closedCh t /\ (id, genOf t' id) ∉ live t'.
Proof.
  intros HI Hid Hb Hw t'. destruct (stopped b t id HI Hid) as (Eg & Lt & Er & Es & Ef & Ec & Ew & Eh & Hnd & Hsub & Hsup & Htm).
  destruct HI as [Hg Ht Hr Hl Ho Hs]. set (u := stopLocked t id) in *.
  assert (Gu : forall j, genOf u j = genOf t j) by (intros j; unfold genOf; by rewrite Eg).
  assert (Gt : forall j, genOf t' j = if decide (j = id) then genOf t id + 1 else genOf t j).
  { intros j. change (genOf t' j) with (default 0 (<[id := u64 (genOf u id + 1)]> (gen u) !! j)).
    rewrite genOf_insert by (rewrite ?Eg; done).
    rewrite Gu. destruct (decide (j = id)); [|done]. apply u64_id. pose proof (Hr id). lia. }
  assert (Tt : forall j, timerOf t' j = if decide (j = id) then None else timerOf t j).
  { intros j. rewrite <- Htm. done. }
  assert (Hnot : (id, genOf t' id) ∉ live t').
  { intros H. change (live t') with (live u) in H. apply Hsub, Hl in H as [_ H]. cbn [fst snd] in H.
    rewrite Gt, decide_True in H by done. lia. }
  split; [|split; [exact Tt|split; [exact Gt|do 5 (split; [done|]); exact Hnot]]]. split.
  - unfold t', bump. cbn. by rewrite length_insert, Eg.
  - done.
  - intros j. rewrite Gt. destruct (decide (j = id)) as [->|]; [|apply Hr]. pose proof (Hr id). lia.
  - intros a Ha. change (live t') with (live u) in Ha. apply Hsub, Hl in Ha as [H1 H2]. split; [done|].
    rewrite Gt. destruct (decide (a.1 = id)) as [Ha|]; [rewrite Ha in H2; lia|done].
  - done.
  - intros j g. rewrite Tt. destruct (decide (j = id)) as [->|Hj].
    + split; [done|]. by intros [-> ?].
    + rewrite Gt, decide_False, Hs by done. change (live t') with (live u).
      split; intros [H1 H2]; (split; [done|]); [by apply Hsup|by apply Hsub].
Qed.

Lemma table_mono b b' t : b <= b' -> table_inv b t -> table_inv b' t.
Proof. intros Hb [Hg Ht Hr Hl Ho Hs]. split; try done. intros id. pose proof (Hr id). lia. Qed.

(** What the table's invariant is about. *)
Lemma table_ext b t t' : gen t' = gen t -> timer t' = timer t -> live t' ≡ₚ live t -> table_inv b t -> table_inv b t'.
Proof.
  intros Eg Et El [Hg Ht Hr Hl Ho Hs]. split.
  - by rewrite Eg.
  - by rewrite Et.
  - intros id. unfold genOf. rewrite Eg. apply Hr.
  - intros a. unfold genOf. rewrite El, Eg. apply Hl.
  - by rewrite El.
  - intros id g. unfold genOf, timerOf. rewrite El, Eg, Et. apply Hs.
Qed.

Lemma armed_of_spec t id : id ∈ armed_of t <-> (id < numTimers)%nat /\ timerOf t id <> None.
Proof.
  unfold armed_of. rewrite elem_of_list_to_set, list_elem_of_In, List.filter_In, in_seq.
  destruct (timerOf t id); split; intros [? ?]; (split; [lia|done]).
Qed.

(** [Set] on a table that is not shut. *)
Lemma set_table b t id : table_inv b t -> (id < numTimers)%nat -> genOf t id < b -> b < 2 ^ 64 -> tclosed t = false ->
  let t' := Set_ t id in table_inv b t' /\ armed_of t' = {[id]} ∪ armed_of t /\ sending t' = sending t /\
  firedCh t' = firedCh t /\ tclosed t' = tclosed t /\ waiting t' = waiting t /\ closedCh t' = closedCh t.
Proof.
  intros HI Hid Hb Hw Hc t'. destruct (disarmed b t id HI Hid Hb Hw) as (HU & Tu & Gu & Es & Ef & Ec & Ew & Eh & Hnot).
  unfold t', Set_. rewrite (proj2 (Nat.leb_gt _ _) Hid), Hc. set (u := bump (stopLocked t id) id) in *.
  set (g := genOf u id) in *. cbv zeta. set (v := u <| pending := _ |> <| timer := _ |>).
  destruct HU as [Hg Ht Hr Hl Ho Hs].
  assert (Hv : live v ≡ₚ (id, g) :: live u) by (unfold live, v; cbn; rewrite <- app_assoc; symmetry; apply Permutation_middle).
  assert (Tv : forall j, timerOf v j = if decide (j = id) then Some g else timerOf t j).
  { intros j. change (timerOf v j) with (default None (<[id := Some g]> (timer u) !! j)).
    rewrite timerOf_insert by done. rewrite Tu. by destruct (decide (j = id)). }
  split; [|split; [|split; [exact Es|split; [exact Ef|split; [by etransitivity|split; [exact Ew|exact Eh]]]]]].
  - split.
    + done.
    + unfold v. cbn. by rewrite length_insert.
    + done.
    + intros a. rewrite Hv, elem_of_cons. intros [->|Ha]; [|by apply Hl]. split; [done|]. change (g <= genOf u id). unfold g. lia.
    + rewrite Hv. by apply NoDup_cons.
    + intros j h. change (genOf v j) with (genOf u j). rewrite Tv, Hv, elem_of_cons. destruct (decide (j = id)) as [->|Hj].
      * fold g. split; [intros [= <-]; split; [done|by left]|]. by intros [-> _].
      * specialize (Hs j h). rewrite Tu, decide_False in Hs by done. rewrite Hs. split; [tauto|].
        intros [-> [[= -> _]|?]]; done.
  - apply set_eq. intros j. rewrite elem_of_union, elem_of_singleton, !armed_of_spec, Tv.
    destruct (decide (j = id)) as [->|]; [split; [by left|done]|]. tauto.
Qed.

(** [Close]: every id is disarmed. *)
Lemma closeLoop_table b ids : forall t, table_inv b t -> NoDup ids -> (forall id, id ∈ ids -> (id < numTimers)%nat /\ genOf t id < b) ->
  b < 2 ^ 64 -> let t' := closeLoop ids t in table_inv b t' /\
  (forall j, timerOf t' j = if decide (j ∈ ids) then None else timerOf t j) /\ sending t' = sending t /\
  firedCh t' = firedCh t /\ tclosed t' = tclosed t /\ waiting t' = waiting t /\ closedCh t' = closedCh t.
Proof.
  induction ids as [|id ids IH]; intros t HI Hnd Hids Hw; cbn [closeLoop]; cbv zeta.
  { split; [done|]. split; [|done]. intros j. rewrite decide_False; [done|]. by apply not_elem_of_nil. }
  apply NoDup_cons in Hnd as [Hid Hnd]. destruct (Hids id ltac:(left)) as [Hlt Hg].
  destruct (disarmed b t id HI Hlt Hg Hw) as (HU & Tu & Gu & Es & Ef & Ec & Ew & Eh & _).
  destruct (IH (bump (stopLocked t id) id) HU Hnd) as (H1 & H2 & H3 & H4 & H5 & H6 & H7); [|done|].
  { intros j Hj. split; [by apply Hids; right|]. rewrite Gu, decide_False by (by intros ->). by apply Hids; right. }
  split; [done|]. split; [|by rewrite H3, H4, H5, H6, H7].
  intros j. rewrite H2, Tu. destruct (decide (j = id)) as [->|Hj].
  - rewrite (decide_True (P := id ∈ id :: ids)) by left. by destruct (decide _).
  - destruct (decide (j ∈ ids)), (decide (j ∈ id :: ids)) as [Hin|Hin]; try done.
    + destruct Hin. by right.
    + apply elem_of_cons in Hin as [|]; done.
Qed.

(** [fire] of a callback: it is dropped, or its id was armed and no longer is. *)
Lemma fire_table b t i t' : timers_inv b t -> fire t i = Some t' ->
  table_inv b t' /\ firedCh t' = firedCh t /\ tclosed t' = tclosed t /\ waiting t' = waiting t /\ closedCh t' = closedCh t /\
  (armed_of t' = armed_of t /\ sending t' = sending t /\ timer t' = timer t \/
   exists id, id ∈ armed_of t /\ armed_of t' = armed_of t ∖ {[id]} /\ sending t' = sending t ++ [id] /\ tclosed t = false).
Proof.
  intros [HT Hcl Hop _ _ _] H. unfold fire in H. destruct (running t !! i) as [[id g]|] eqn:Ei; [|done].
  set (u := t <| running := delete i (running t) |>) in *.
  assert (Hp : live t ≡ₚ (id, g) :: live u).
  { unfold live, u. cbn. rewrite (delete_Permutation (running t) i (id, g) Ei) at 1. symmetry. apply Permutation_middle. }
  pose proof HT as [Hg Ht Hr Hl Ho Hs]. rewrite Hp in Ho. apply NoDup_cons in Ho as [Hnot Ho].
  assert (Hidl : (id, g) ∈ live t) by (rewrite Hp; left). destruct (Hl _ Hidl) as [Hid Hgle]. cbn [fst snd] in *.
  change (genOf u id) with (genOf t id) in H. change (tclosed u) with (tclosed t) in H.
  destruct (tclosed t || negb (genOf t id =? g)) eqn:E; injection H as <-.
  - split; [|split; [done|split; [done|split; [done|split; [done|by left]]]]]. split; try done.
    + intros a Ha. apply Hl. rewrite Hp. by right.
    + intros j h. change (timerOf u j) with (timerOf t j). change (genOf u j) with (genOf t j).
      rewrite Hs, Hp, elem_of_cons. split; [|tauto]. intros [-> [[= -> Eg]|?]]; [|done].
      exfalso. apply orb_true_iff in E as [E|E]; [|by rewrite Eg, Z.eqb_refl in E].
      destruct (Hcl E) as [Hnone _]. specialize (Hs id g). rewrite Hnone in Hs.
      assert (None = Some g) by (apply Hs; done). done.
  - apply orb_false_iff in E as [Ec Eg]. apply negb_false_iff, Z.eqb_eq in Eg. subst g.
    assert (Harm : timerOf t id = Some (genOf t id)) by (by apply Hs).
    set (v := u <| timer := _ |> <| sending := _ |>).
    assert (Tv : forall j, timerOf v j = if decide (j = id) then None else timerOf t j) by (intros j; by apply timerOf_insert).
    split; [|split; [done|split; [done|split; [done|split; [done|right]]]]].
    + split; try done.
      * unfold v. cbn. by rewrite length_insert.
      * intros a Ha. apply Hl. rewrite Hp. by right.
      * intros j h. rewrite Tv. change (genOf v j) with (genOf t j). change (live v) with (live u).
        destruct (decide (j = id)) as [->|Hj]; [split; [done|]; by intros [-> ?]|].
        rewrite Hs, Hp, elem_of_cons. split; [|tauto]. intros [-> [[= -> _]|?]]; done.
    + exists id. split; [by apply armed_of_spec; rewrite Harm|]. split; [|done].
      apply set_eq. intros j. rewrite elem_of_difference, elem_of_singleton, !armed_of_spec, Tv.
      destruct (decide (j = id)) as [->|]; [|tauto]. split; [by intros [_ ?]|by intros [_ ?]].
Qed.

Lemma new_inv : timers_inv 0 NewTimers.
Proof.
  assert (Hg : forall id, genOf NewTimers id = 0).
  { intros id. unfold genOf, NewTimers. cbn. destruct (replicate numTimers 0 !! id) eqn:E; [|done].
    by apply lookup_replicate in E as [-> _]. }
  assert (Ht : forall id, timerOf NewTimers id = None).
  { intros id. unfold timerOf, NewTimers. cbn. destruct (replicate numTimers None !! id) eqn:E; [|done].
    by apply lookup_replicate in E as [-> _]. }
  split; try done; [|cbn; lia|intros id H; by apply not_elem_of_nil in H]. split.
  - apply length_replicate.
  - apply length_replicate.
  - intros id. rewrite Hg. lia.
  - intros a H. by apply not_elem_of_nil in H.
  - by apply NoDup_nil.
  - intros id g. rewrite Ht. split; [done|]. intros [_ H]. by apply not_elem_of_nil in H.
Qed.

(** A change of the channel's side alone. *)
Lemma channel_step b t t' : timers_inv b t -> gen t' = gen t -> timer t' = timer t -> live t' ≡ₚ live t -> tclosed t' = tclosed t ->
  (tclosed t' = true -> (waiting t' = true <-> closedCh t' = false)) -> (tclosed t' = false -> waiting t' = false /\ closedCh t' = false) ->
  (closedCh t' = true -> sending t' = []) -> (length (firedCh t') <= numTimers)%nat -> (forall id, id ∈ sending t' -> id ∈ sending t) ->
  timers_inv (b + 1) t' /\ armed_of t' = armed_of t.
Proof.
  intros [HT Hcl Hop Hdn Hrm Hsd] Eg Et El Ec H1 H2 H3 H4 H5.
  assert (Tt : forall j, timerOf t' j = timerOf t j) by (intros j; unfold timerOf; by rewrite Et).
  split; [split|].
  - apply (table_mono b); [lia|]. by eapply table_ext.
  - intros H. split; [|by apply H1]. intros id. rewrite Tt. apply Hcl. congruence.
  - done.
  - done.
  - done.
  - auto.
  - apply set_eq. intros j. by rewrite !armed_of_spec, Tt.
Qed.

Lemma set_step b t id : timers_inv b t -> b + 1 < 2 ^ 64 -> timers_inv (b + 1) (Set_ t id) /\
  simulated (abstraction t) (Some (CSet id)) (abstraction (Set_ t id)).
Proof.
  intros HI Hb. pose proof HI as [HT Hcl Hop Hdn Hrm Hsd].
  assert (Hsame : Set_ t id = t -> (numTimers <= id)%nat \/ tclosed t = true -> timers_inv (b + 1) (Set_ t id) /\
    simulated (abstraction t) (Some (CSet id)) (abstraction (Set_ t id))).
  { intros -> Hor. split; [|by apply sim_step, ss_set_ignored]. split; try done. apply (table_mono b); [lia|done]. }
  destruct (Nat.leb_spec numTimers id) as [Hn|Hn].
  { apply Hsame; [|by left]. unfold Set_. by rewrite (proj2 (Nat.leb_le _ _) Hn). }
  destruct (tclosed t) eqn:Ec.
  { apply Hsame; [|by right]. unfold Set_. by rewrite (proj2 (Nat.leb_gt _ _) Hn), Ec. }
  pose proof (ti_range _ _ HT id). assert (HT' : table_inv (b + 1) t) by (apply (table_mono b); [lia|done]).
  destruct (set_table (b + 1) t id HT' Hn ltac:(lia) Hb Ec) as (H1 & H2 & Es & Ef & Ec' & Ew & Eh).
  split.
  - split; rewrite ?Es, ?Ef, ?Ec', ?Ew, ?Eh; try done; [intros Hx; congruence|intros _; by apply Hop].
  - unfold abstraction. rewrite H2, Es, Ef, Ec'. apply sim_step. by apply (ss_set (mkService _ _ _)).
Qed.

Lemma cancel_step b t id : timers_inv b t -> b + 1 < 2 ^ 64 -> timers_inv (b + 1) (Cancel t id) /\
  simulated (abstraction t) (Some (CCancel id)) (abstraction (Cancel t id)).
Proof.
  intros HI Hb. pose proof HI as [HT Hcl Hop Hdn Hrm Hsd]. unfold Cancel.
  assert (HT' : table_inv (b + 1) t) by (apply (table_mono b); [lia|done]).
  destruct (Nat.leb_spec numTimers id) as [Hn|Hn].
  - split; [by split|]. assert (E : abstraction t = mkService (armed_of t ∖ {[id]}) (firedCh t ++ sending t) (tclosed t)).
    { unfold abstraction. f_equal. apply set_eq. intros j. rewrite elem_of_difference, elem_of_singleton, armed_of_spec.
      split; [|tauto]. intros [? ?]. split; [done|lia]. }
    rewrite E at 2. apply sim_step, (ss_cancel (abstraction t)).
  - pose proof (ti_range _ _ HT id).
    destruct (disarmed (b + 1) t id HT' Hn ltac:(lia) Hb) as (H1 & Tu & _ & Es & Ef & Ec & Ew & Eh & _).
    split.
    + split; rewrite ?Es, ?Ef, ?Ec, ?Ew, ?Eh; try done. intros Hx. split; [|by apply Hcl]. intros j. rewrite Tu.
      destruct (decide _); [done|]. by apply Hcl.
    + assert (E : abstraction (bump (stopLocked t id) id) = mkService (armed_of t ∖ {[id]}) (firedCh t ++ sending t) (tclosed t)).
      { unfold abstraction. rewrite Es, Ef, Ec. f_equal. apply set_eq. intros j.
        rewrite elem_of_difference, elem_of_singleton, !armed_of_spec, Tu. destruct (decide (j = id)); [|tauto].
        split; [by intros [_ ?]|by intros [_ ?]]. }
      rewrite E. apply sim_step, (ss_cancel (abstraction t)).
Qed.

Lemma armed_none t : (forall id, timerOf t id = None) -> armed_of t = ∅.
Proof. intros H. apply set_eq. intros j. rewrite armed_of_spec, H. set_solver. Qed.

Lemma close_step b t : timers_inv b t -> b + 1 < 2 ^ 64 -> timers_inv (b + 1) (Close t) /\
  simulated (abstraction t) (Some CClose) (abstraction (Close t)).
Proof.
  intros HI Hb. pose proof HI as [HT Hcl Hop Hdn Hrm Hsd]. unfold Close.
  assert (HT' : table_inv (b + 1) t) by (apply (table_mono b); [lia|done]).
  destruct (tclosed t) eqn:Ec.
  - split; [split; try done; by rewrite Ec|].
    assert (E : abstraction t = mkService ∅ (firedCh t ++ sending t) true) by (unfold abstraction; rewrite Ec, armed_none; [done|by apply Hcl]).
    rewrite E at 2. apply sim_step, (ss_close (abstraction t)).
  - set (u := t <| tclosed := true |>).
    assert (HU : table_inv (b + 1) u) by (by apply (table_ext (b + 1) t)).
    destruct (closeLoop_table (b + 1) (seq 0 numTimers) u HU) as (H1 & H2 & Es & Ef & Ec' & Ew & Eh); [by apply NoDup_seq| |done|].
    { intros id Hid%elem_of_seq. split; [lia|]. pose proof (ti_range _ _ HT id). change (genOf u id) with (genOf t id). lia. }
    set (v := closeLoop (seq 0 numTimers) u) in *.
    assert (Hnone : forall id, timerOf v id = None).
    { intros id. rewrite H2. destruct (decide _) as [|Hn]; [done|]. apply (timerOf_out (b + 1) u); [done|].
      rewrite elem_of_seq in Hn. lia. }
    destruct (Hop eq_refl) as [Hw Hh]. split.
    + split; try done.
      * by apply (table_ext (b + 1) v).
      * intros _. split; [done|]. change (true = true <-> closedCh v = false). rewrite Eh. done.
      * change (tclosed v = false -> true = false /\ closedCh v = false). by rewrite Ec'.
      * change (closedCh v = true -> sending v = []). rewrite Eh, Es. done.
      * change (length (firedCh v) <= numTimers)%nat. by rewrite Ef.
      * change (forall id, id ∈ sending v -> (id < numTimers)%nat). by rewrite Es.
    + assert (E : abstraction (v <| waiting := true |>) = mkService ∅ (firedCh t ++ sending t) true).
      { unfold abstraction. change (armed_of (v <| waiting := true |>)) with (armed_of v). rewrite (armed_none v Hnone).
        change (mkService ∅ (firedCh v ++ sending v) (tclosed v) = mkService ∅ (firedCh t ++ sending t) true). by rewrite Ef, Es, Ec'. }
      rewrite E. apply sim_step, (ss_close (abstraction t)).
Qed.

Lemma internal_step b t l t' : timers_inv b t -> tstep t l t' -> (forall id, l <> Some (CSet id)) -> (forall id, l <> Some (CCancel id)) ->
  l <> Some CClose -> timers_inv (b + 1) t' /\ simulated (abstraction t) l (abstraction t').
Proof.
  intros HI Hs N1 N2 N3. pose proof HI as [HT Hcl Hop Hdn Hrm Hsd]. destruct Hs as [t id|t id|t|t id t' H|t i t' H|t i t' H|t i t' H|t i t' H|t t' H];
    try (by destruct (N1 id)); try (by destruct (N2 id)); try done.
  - unfold receive in H. destruct (firedCh t) as [|x q] eqn:Ef; [done|]. injection H as <- <-.
    destruct (channel_step b t (t <| firedCh := q |>) HI) as [H1 H2]; try done; [by apply Hcl|cbn in *; lia|].
    split; [done|]. unfold abstraction. rewrite H2, Ef. by apply sim_step, (ss_receive (mkService _ _ _)).
  - unfold expires in H. destruct (pending t !! i) as [a|] eqn:Ei; [|done]. injection H as <-.
    edestruct (channel_step b t) as [H1 H2]; [done|..|split; [exact H1|unfold abstraction; rewrite H2; by apply sim_none]]; try done; [|by apply Hcl].
    unfold live. cbn. rewrite (delete_Permutation (pending t) i a Ei) at 2. cbn. rewrite app_assoc.
    symmetry. apply Permutation_cons_append.
  - destruct (fire_table b t i t' HI H) as (HT' & Ef & Ec & Ew & Eh & Hor). split.
    + assert (Hnone : forall id, tclosed t = true -> timerOf t' id = None).
      { intros id Hx. destruct Hor as [(_ & _ & Et)|(? & _ & _ & _ & Hy)]; [|congruence]. unfold timerOf. rewrite Et. by apply Hcl. }
      split; rewrite ?Ef, ?Ec, ?Ew, ?Eh; try done.
      * apply (table_mono b); [lia|done].
      * intros Hx. split; [intros id; by apply Hnone|]. by apply Hcl.
      * intros Hx. destruct Hor as [(_ & -> & _)|(? & _ & _ & _ & Hy)]; [by apply Hdn|]. apply Hop in Hy as [_ Hy]. congruence.
      * destruct Hor as [(_ & -> & _)|(id & Ha & _ & -> & _)]; [done|]. intros j [Hj|Hj]%elem_of_app; [by apply Hsd|]. apply list_elem_of_singleton in Hj as ->.
        by apply armed_of_spec in Ha as [? _].
    + unfold abstraction. rewrite Ef, Ec. destruct Hor as [(-> & -> & _)|(id & Ha & -> & -> & _)]; [by apply sim_none|].
      rewrite app_assoc. by apply sim_step, (ss_fire (mkService _ _ _)).
  - unfold send_ in H. destruct (sending t !! i) as [id|] eqn:Ei; [|done]. destruct (closedCh t) eqn:Eh; [done|].
    destruct (Nat.ltb_spec (length (firedCh t)) numTimers) as [Hl|]; [|done]. injection H as <-.
    edestruct (channel_step b t) as [H1 H2]; [done|..|split; [exact H1|unfold abstraction; rewrite H2; apply sim_none]]; try done.
    + cbn. rewrite Eh. by apply Hcl.
    + cbn. rewrite Eh. done.
    + cbn. by rewrite Eh.
    + cbn. rewrite length_app. cbn. lia.
    + cbn. intros j Hj. by eapply list_elem_of_delete_inv.
    + cbn. rewrite <- app_assoc. f_equiv. by apply delete_Permutation.
  - unfold gives_up in H. destruct (sending t !! i) as [id|] eqn:Ei; [|done]. destruct (tclosed t) eqn:Ec; [|done]. injection H as <-.
    edestruct (channel_step b t) as [H1 H2]; [done|..|split; [exact H1|]]; try done.
    + cbn. intros _. by apply Hcl.
    + cbn. by rewrite Ec.
    + cbn. intros Hx. by rewrite (Hdn Hx).
    + cbn. intros j Hj. by eapply list_elem_of_delete_inv.
    + unfold abstraction. rewrite H2. cbn. rewrite Ec. apply sim_step.
      apply (ss_lost (mkService (armed_of t) _ true) id); [done|]. cbn. rewrite (delete_Permutation (sending t) i id Ei) at 1.
      symmetry. apply Permutation_middle.
  - unfold closeWait in H. destruct (waiting t && (length (sending t) =? 0)%nat) eqn:E; [|done]. injection H as <-.
    apply andb_true_iff in E as [Ew El%Nat.eqb_eq].
    assert (Ec : tclosed t = true) by (destruct (tclosed t) eqn:Ec; [done|]; destruct (Hop eq_refl) as [Hx _]; congruence).
    edestruct (channel_step b t) as [H1 H2]; [done|..|split; [exact H1|unfold abstraction; rewrite H2; by apply sim_none]]; try done.
    + cbn. rewrite Ec. done.
    + cbn. intros _. by apply nil_length_inv.
Qed.

(** Runs of the abstract service. *)
Inductive sruns : Service -> list Call -> Service -> Prop :=
| sr_nil s : sruns s [] s
| sr_step s l s' tr s'' : simulated s l s' -> sruns s' tr s'' -> sruns s (seen l ++ tr) s''.

Lemma step_ok b t l t' : timers_inv b t -> b + 1 < 2 ^ 64 -> tstep t l t' ->
  timers_inv (b + 1) t' /\ simulated (abstraction t) l (abstraction t').
Proof.
  intros HI Hb Hs. destruct l as [[id|id| |id]|].
  - inversion Hs; subst. by apply set_step.
  - inversion Hs; subst. by apply cancel_step.
  - inversion Hs; subst. by apply close_step.
  - by apply internal_step.
  - by apply internal_step.
Qed.

Lemma runs_ok n t tr t' : truns n t tr t' -> forall b, timers_inv b t -> b + Z.of_nat n < 2 ^ 64 ->
  timers_inv (b + Z.of_nat n) t' /\ sruns (abstraction t) tr (abstraction t').
Proof.
  induction 1 as [t|n t l t' tr t'' Hs Hr IH]; intros b HI Hb.
  { split; [by replace (b + Z.of_nat 0) with b by lia|constructor]. }
  destruct (step_ok b t l t' HI ltac:(lia) Hs) as [HI' Hsim].
  destruct (IH (b + 1) HI' ltac:(lia)) as [H1 H2].
  split; [by replace (b + Z.of_nat (S n)) with (b + 1 + Z.of_nat n) by lia|]. by econstructor.
Qed.

Lemma reached_inv n tr t : truns n NewTimers tr t -> Z.of_nat n < 2 ^ 64 -> timers_inv (Z.of_nat n) t.
Proof. intros Hr Hn. by apply (runs_ok _ _ _ _ Hr 0 new_inv). Qed.

(** ** What a client may rely on *)

Definition idle : Service := mkService ∅ [] false.

(** C22: the timer service implements the abstract one.  In every interleaving of its
    callers, the callbacks the Go runtime starts and the senders, for as long as
    the generations do not wrap, what a client sees is a run of a service whose
    timers are armed or not, fire only while armed and disarm by firing; the
    channel is never sent on after it was closed, and holds at most one fire for
    each timer there is. *)
Theorem timers_refine n tr t : truns n NewTimers tr t -> Z.of_nat n < 2 ^ 64 ->
  sruns idle tr (abstraction t) /\ (forall i, send_ t i <> SendPanics) /\ (length (firedCh t) <= numTimers)%nat.
Proof.
  intros Hr Hn. destruct (runs_ok _ _ _ _ Hr 0 new_inv Hn) as [HI Hs]. split; [|split].
  - replace (abstraction NewTimers) with idle in Hs; [done|]. unfold abstraction, idle. f_equal.
    symmetry. apply armed_none. intros id. unfold timerOf, NewTimers. cbn.
    destruct (replicate numTimers None !! id) eqn:E; [|done]. by apply lookup_replicate in E as [-> _].
  - intros i. unfold send_. destruct (sending t !! i) as [id|] eqn:Ei; [|done].
    destruct (closedCh t) eqn:Ec; [|by destruct (_ <? _)%nat]. by rewrite (tv_done _ _ HI Ec) in Ei.
  - by apply (tv_room _ _ HI).
Qed.

Definition sets_of (id : nat) (c : Call) : bool := match c with CSet j => (j =? id)%nat | _ => false end.
Definition reads_of (id : nat) (c : Call) : bool := match c with CReceive j => (j =? id)%nat | _ => false end.
Definition count (p : Call -> bool) (tr : list Call) : nat := length (List.filter p tr).
Definition in_flight (id : nat) (l : list nat) : nat := length (List.filter (Nat.eqb id) l).
Definition is_armed (id : nat) (s : Service) : nat := if decide (id ∈ armed s) then 1 else 0.

Lemma in_flight_perm id l l' : l ≡ₚ l' -> in_flight id l = in_flight id l'.
Proof.
  unfold in_flight. induction 1 as [|x l l' _ IH|x y l|l l' l'' _ IH1 _ IH2]; cbn [List.filter]; try done.
  - destruct (id =? x)%nat; cbn; by rewrite IH.
  - by destruct (id =? x)%nat, (id =? y)%nat.
  - by rewrite IH1.
Qed.

(** A fire of an id that is read was in flight, or the id was armed, or was set since. *)
Lemma sruns_budget id s tr s' : sruns s tr s' ->
  (count (reads_of id) tr + in_flight id (out s') + is_armed id s' <= count (sets_of id) tr + in_flight id (out s) + is_armed id s)%nat.
Proof.
  assert (Happ : forall p l tr, count p (seen l ++ tr) = (count p (seen l) + count p tr)%nat).
  { intros p l tr'. unfold count. by rewrite List.filter_app, length_app. }
  induction 1 as [s|s l s' tr s'' Hs Hr IH]; [cbn; lia|]. rewrite !Happ.
  enough (count (reads_of id) (seen l) + in_flight id (out s') + is_armed id s' <=
    count (sets_of id) (seen l) + in_flight id (out s) + is_armed id s)%nat by lia.
  assert (Hcons : forall x o, in_flight id (x :: o) = ((if (x =? id)%nat then 1 else 0) + in_flight id o)%nat).
  { intros x o. unfold in_flight. cbn [List.filter]. rewrite (Nat.eqb_sym id x). by destruct (x =? id)%nat. }
  destruct Hs as [s l s' Hs|s s' Ea Eo _]; [destruct Hs as [s j Hj Hsh|s j Hj|s j|s|s j o Ho|s j Ha|s j o Hsh Ho]|].
  - unfold count, is_armed. cbn [seen List.filter reads_of sets_of out armed].
    destruct (Nat.eqb_spec j id) as [->|Hne]; cbn [length]; repeat case_decide; set_solver || lia.
  - unfold count, is_armed. cbn [seen List.filter reads_of sets_of out armed]. destruct (j =? id)%nat; cbn [length]; lia.
  - unfold count, is_armed. cbn [seen List.filter reads_of sets_of out armed length]. repeat case_decide; set_solver || lia.
  - unfold count, is_armed. cbn [seen List.filter reads_of sets_of out armed length]. repeat case_decide; set_solver || lia.
  - rewrite (in_flight_perm id _ _ Ho), Hcons. unfold count, is_armed. cbn [seen List.filter reads_of sets_of out armed].
    destruct (j =? id)%nat; cbn [length]; lia.
  - assert (E : in_flight id (out s ++ [j]) = in_flight id (j :: out s)) by (apply in_flight_perm; symmetry; apply Permutation_cons_append).
    unfold count, is_armed. cbn [seen List.filter reads_of sets_of out armed length]. rewrite E, Hcons.
    destruct (Nat.eqb_spec j id) as [->|Hne]; repeat case_decide; set_solver || lia.
  - rewrite (in_flight_perm id _ _ Ho), Hcons. unfold count, is_armed. cbn [seen List.filter out armed length]. lia.
  - rewrite (in_flight_perm id _ _ Eo). unfold count, is_armed. cbn [seen List.filter length]. rewrite Ea. lia.
Qed.

(** C35: one fire for one [Set].  In every run a timer is read from the channel no
    more often than it was set; and once it is cancelled, no more often than it
    is set again, except for the fires that were already made: those in the
    channel and those on their way to it. *)
Theorem timers_once n tr t m id tr' t' : truns n NewTimers tr t -> truns m (Cancel t id) tr' t' ->
  Z.of_nat n + Z.of_nat m + 1 < 2 ^ 64 ->
  (count (reads_of id) tr <= count (sets_of id) tr)%nat /\
  (count (reads_of id) tr' <= count (sets_of id) tr' + in_flight id (firedCh t ++ sending t))%nat.
Proof.
  intros Hr Hr' Hn. pose proof (reached_inv _ _ _ Hr ltac:(lia)) as HI.
  destruct (cancel_step _ t id HI ltac:(lia)) as [HI' Hc].
  destruct (runs_ok _ _ _ _ Hr 0 new_inv ltac:(lia)) as [_ H1]. destruct (runs_ok _ _ _ _ Hr' _ HI' ltac:(lia)) as [_ H2].
  apply (sruns_budget id) in H1, H2. split.
  - replace (is_armed id (abstraction NewTimers)) with 0%nat in H1; [cbn in H1; lia|].
    unfold is_armed. rewrite decide_False; [done|]. intros [_ Ha]%armed_of_spec. apply Ha.
    unfold timerOf, NewTimers. cbn. destruct (replicate numTimers None !! id) eqn:E; [|done]. by apply lookup_replicate in E as [-> _].
  - assert (Ho : in_flight id (out (abstraction (Cancel t id))) = in_flight id (firedCh t ++ sending t) /\
                 is_armed id (abstraction (Cancel t id)) = 0%nat); [|lia].
    assert (Hcan : forall s s', simulated s (Some (CCancel id)) s' -> out s' = out s /\ id ∉ armed s').
    { intros s s' H. inversion H as [? ? ? Hs|]; subst. inversion Hs; subst. cbn. set_solver. }
    destruct (Hcan _ _ Hc) as [-> Ha]. split; [done|]. unfold is_armed. by rewrite decide_False.
Qed.

(** ** What is sure to happen *)

Lemma truns_app n t tr t' m tr' t'' : truns n t tr t' -> truns m t' tr' t'' -> truns (n + m) t (tr ++ tr') t''.
Proof. induction 1 as [|n t l t' tr u Hs Hr IH]; intros H; [done|]. rewrite <- app_assoc. econstructor; [done|by apply IH]. Qed.

Lemma truns_one t l t' : tstep t l t' -> truns 1 t (seen l) t'.
Proof. intros H. rewrite <- (app_nil_r (seen l)). econstructor; [done|constructor]. Qed.

Lemma drain l : forall t, firedCh t = l -> truns (length l) t (map CReceive l) (t <| firedCh := [] |>).
Proof.
  induction l as [|x l IH]; intros t E; cbn [length map].
  - replace (t <| firedCh := [] |>) with t; [constructor|]. destruct t; cbn in *; by subst.
  - change (CReceive x :: map CReceive l) with (seen (Some (CReceive x)) ++ map CReceive l).
    econstructor; [apply st_receive; unfold receive; by rewrite E|].
    replace (t <| firedCh := [] |>) with (t <| firedCh := l |> <| firedCh := [] |>) by (by destruct t). by apply IH.
Qed.

Lemma leave l : forall t, sending t = l -> tclosed t = true -> exists t', truns (length l) t [] t' /\
  sending t' = [] /\ waiting t' = waiting t /\ tclosed t' = true.
Proof.
  induction l as [|x l IH]; intros t E Hc.
  - exists t. split; [constructor|done].
  - destruct (IH (t <| sending := l |>)) as (t' & Hr & Hs & Hw & Hc'); [done..|]. exists t'. split; [|done].
    change ([] : list Call) with (seen None ++ [] : list Call). econstructor; [|exact Hr].
    apply (st_gives_up t 0). unfold gives_up. rewrite E, Hc. cbn. f_equal.
Qed.

(** Whoever waits to send comes through once the channel is read. *)
Lemma flush l : forall t, sending t = l -> firedCh t = [] -> closedCh t = false -> (0 < numTimers)%nat ->
  truns (length l + length l) t (map CReceive l) (t <| sending := [] |>).
Proof.
  induction l as [|x l IH]; intros t E Ef Ec Hn; cbn [length map].
  - replace (t <| sending := [] |>) with t; [constructor|]. destruct t; cbn in *; by subst.
  - set (u := t <| firedCh := [x] |> <| sending := l |>).
    assert (H1 : truns 1 t [] u).
    { apply (truns_one t None), (st_send t 0). unfold send_, u. rewrite E, Ec, Ef. cbn [lookup list_lookup length app delete list_delete].
      by rewrite (proj2 (Nat.ltb_lt 0 numTimers)). }
    pose proof (drain [x] u eq_refl) as H2. cbn [length map] in H2.
    specialize (IH (u <| firedCh := [] |>) eq_refl eq_refl Ec Hn).
    replace (u <| firedCh := [] |> <| sending := [] |>) with (t <| sending := [] |>) in IH by (unfold u; destruct t; cbn in *; by subst).
    replace (S (length l) + S (length l))%nat with (1 + (1 + (length l + length l)))%nat by lia.
    exact (truns_app _ _ _ _ _ _ _ H1 (truns_app _ _ _ _ _ _ _ H2 IH)).
Qed.

(** What is in the channel and what is on its way to it can be read: a step for
    each of the first, two for each of the second. *)
Lemma read_all t : closedCh t = false -> (0 < numTimers)%nat ->
  truns (length (firedCh t) + (length (sending t) + length (sending t))) t (map CReceive (firedCh t ++ sending t))
    (t <| firedCh := [] |> <| sending := [] |>).
Proof.
  intros Ec Hn. rewrite map_app. eapply truns_app; [by apply drain|].
  set (u := t <| firedCh := [] |>). change (sending t) with (sending u). by apply flush.
Qed.

(** The fire of an armed timer, when nothing is before it. *)
Lemma fire_now b t id : timers_inv b t -> id ∈ armed_of t -> firedCh t = [] -> sending t = [] ->
  exists m t', truns m t [CReceive id] t' /\ (m <= 4)%nat /\ id ∉ armed_of t'.
Proof.
  intros [HT Hcl Hop Hdn Hrm Hsd] Ha Ef0 Hse. apply armed_of_spec in Ha as [Hid Ht]. destruct (timerOf t id) as [g|] eqn:E; [|done].
  pose proof (proj1 (ti_set _ _ HT id g) E) as [-> Hl].
  assert (Ec : tclosed t = false) by (destruct (tclosed t) eqn:Ec; [|done]; destruct (Hcl eq_refl) as [Hx _]; by rewrite Hx in E).
  destruct (Hop Ec) as [_ Eh].
  assert (Hrun : exists m u i, truns m t [] u /\ (m <= 1)%nat /\ running u !! i = Some (id, genOf t id) /\ gen u = gen t /\
    timer u = timer t /\ sending u = [] /\ firedCh u = [] /\ tclosed u = false /\ closedCh u = false).
  { unfold live in Hl. apply elem_of_app in Hl as [Hp|Hp]; apply list_elem_of_lookup in Hp as [i Hi].
    - exists 1%nat, (t <| pending := delete i (pending t) |> <| running := running t ++ [(id, genOf t id)] |>), (length (running t)).
      split; [apply (truns_one t None), (st_expires t i); unfold expires; by rewrite Hi|]. split; [done|].
      split; [cbn; by rewrite lookup_app_r, Nat.sub_diag by lia|]. done.
    - exists 0%nat, t, i. split; [constructor|]. split; [lia|]. done. }
  destruct Hrun as (m & u & i & Hru & Hm & Hi & Eg & Et & Es & Ef & Ec' & Eh').
  set (v := u <| running := delete i (running u) |> <| timer := <[id := None]> (timer u) |> <| sending := [id] |>).
  assert (Hv : truns 1 u [] v).
  { apply (truns_one u None), (st_fire u i). unfold fire. rewrite Hi. cbn. rewrite Ec'.
    change (genOf (u <| running := delete i (running u) |>) id) with (genOf u id).
    unfold genOf. rewrite Eg, Z.eqb_refl. cbn. unfold v. by rewrite Es. }
  pose proof (flush [id] v eq_refl Ef Eh' ltac:(lia)) as Hz. cbn [map length] in Hz.
  eexists _, _. split; [exact (truns_app _ _ _ _ _ _ _ Hru (truns_app _ _ _ _ _ _ _ Hv Hz))|]. split; [lia|].
  intros [_ Hx]%armed_of_spec. apply Hx. unfold timerOf, v. cbn.
  rewrite list_lookup_insert_eq; [done|]. rewrite Et, (ti_timer _ _ HT). done.
Qed.

(** C36: the service makes progress.  From any state a run reaches, an armed timer
    can be read, with no call but the reads: the fires that are in the channel
    come out of it, then those that wait to be sent, each as soon as there is
    room, and then that of the timer, whose callback runs and finds itself
    current; nobody has to set it again, and the number of steps is bounded.  A
    Close that waits is never waiting for a client: the senders leave by
    themselves, and then the channel is closed. *)
Theorem timers_live n tr t id : truns n NewTimers tr t -> Z.of_nat n < 2 ^ 64 ->
  (id ∈ armed_of t ->
     exists m t', truns m t (map CReceive (firedCh t ++ sending t) ++ [CReceive id]) t' /\
       (m <= length (firedCh t) + 2 * length (sending t) + 4)%nat /\ id ∉ armed_of t') /\
  (waiting t = true -> exists m t', truns m t [] t' /\ (m <= length (sending t) + 1)%nat /\ closedCh t' = true).
Proof.
  intros Hr Hn. pose proof (reached_inv _ _ _ Hr Hn) as HI. pose proof HI as [HT Hcl Hop Hdn Hrm Hsd]. split.
  - intros Ha. pose proof Ha as [Hid Ht]%armed_of_spec.
    assert (Ec : tclosed t = false) by (destruct (tclosed t) eqn:Ec; [|done]; destruct (Hcl eq_refl) as [Hx _]; by destruct (Ht (Hx id))).
    destruct (Hop Ec) as [_ Eh]. pose proof (read_all t Eh ltac:(lia)) as Hread.
    destruct (fire_now (Z.of_nat n) (t <| firedCh := [] |> <| sending := [] |>) id) as (m & t' & Hf & Hm & Ho); [|done..|].
    { split; [by destruct HT|exact Hcl|exact Hop|done|cbn; lia|by intros ? ?%elem_of_nil]. }
    eexists _, _. split; [exact (truns_app _ _ _ _ _ _ _ Hread Hf)|]. split; [lia|done].
  - intros Hw. assert (Ec : tclosed t = true) by (destruct (tclosed t) eqn:Ec; [done|]; destruct (Hop eq_refl); congruence).
    destruct (leave (sending t) t eq_refl Ec) as (u & Hu & Es & Ew & _). eexists _, _.
    split; [exact (truns_app _ _ _ _ _ _ _ Hu (truns_one u None _ (st_wait u _ ltac:(unfold closeWait; rewrite Ew, Hw, Es; reflexivity))))|].
    split; [lia|done].
Qed.

End Service.

(** ** Runs *)

(** A schedule: which call is made, or which of the waiting parties moves. *)
Inductive Choice := DoSet (id : nat) | DoCancel (id : nat) | DoClose | DoReceive | DoExpire (i : nat) | DoFire (i : nat)
| DoSend (i : nat) | DoGiveUp (i : nat) | DoWait.

Section Play.
Context (numTimers : nat).

Definition move (c : Choice) (t : Timers) : option (option Call * Timers) :=
  match c with
  | DoSet id => Some (Some (CSet id), Set_ numTimers t id)
  | DoCancel id => Some (Some (CCancel id), Cancel numTimers t id)
  | DoClose => Some (Some CClose, Close numTimers t)
  | DoReceive => match receive t with Some (id, t') => Some (Some (CReceive id), t') | None => None end
  | DoExpire i => option_map (pair None) (expires t i)
  | DoFire i => option_map (pair None) (fire t i)
  | DoSend i => match send_ numTimers t i with Sent t' => Some (None, t') | _ => None end
  | DoGiveUp i => option_map (pair None) (gives_up t i)
  | DoWait => option_map (pair None) (closeWait t)
  end.

Fixpoint play (cs : list Choice) (t : Timers) : option (list Call * Timers) :=
  match cs with
  | [] => Some ([], t)
  | c :: cs =>
    match move c t with
    | None => None
    | Some (l, t) => match play cs t with Some (tr, t) => Some (seen l ++ tr, t) | None => None end
    end
  end.

Lemma move_step c t l t' : move c t = Some (l, t') -> tstep numTimers t l t'.
Proof.
  destruct c; cbn [move]; intros H.
  - injection H as <- <-. constructor.
  - injection H as <- <-. constructor.
  - injection H as <- <-. constructor.
  - destruct (receive t) as [[id u]|] eqn:E; [|done]. injection H as <- <-. by constructor.
  - destruct (expires t i) eqn:E; [|done]. injection H as <- <-. by eapply st_expires.
  - destruct (fire t i) eqn:E; [|done]. injection H as <- <-. by eapply st_fire.
  - destruct (send_ numTimers t i) eqn:E; try done. injection H as <- <-. by eapply st_send.
  - destruct (gives_up t i) eqn:E; [|done]. injection H as <- <-. by eapply st_gives_up.
  - destruct (closeWait t) eqn:E; [|done]. injection H as <- <-. by eapply st_wait.
Qed.

Lemma play_runs cs : forall t tr t', play cs t = Some (tr, t') -> truns numTimers (length cs) t tr t'.
Proof.
  induction cs as [|c cs IH]; cbn [play length]; intros t tr t' H.
  - injection H as <- <-. constructor.
  - destruct (move c t) as [[l u]|] eqn:E; [|done]. destruct (play cs u) as [[tr' v]|] eqn:Ep; [|done].
    injection H as <- <-. econstructor; [by apply move_step in E|by apply IH].
Qed.

End Play.

(** The timers of both machines ([proto.AllTimerIDs]). *)
Definition allTimers : nat := 17.

(** A fire that was not read, and the timer set again: two fires of it wait in
    the channel. *)
Definition twice : list Choice :=
  [DoSet 7; DoExpire 0; DoFire 0; DoSend 0; DoSet 7; DoExpire 0; DoFire 0; DoSend 0].

Example two_fires_wait : (r ← play allTimers twice (NewTimers allTimers); Some (firedCh r.2)) = Some [7; 7]%nat.
Proof. reflexivity. Qed.

(** A fire that was sent is read after the timer was cancelled. *)
Definition late : list Choice := [DoSet 7; DoExpire 0; DoFire 0; DoSend 0].

Example cancelled_fire_is_read :
  (r ← play allTimers (late ++ [DoCancel 7; DoReceive]) (NewTimers allTimers); Some r.1) = Some [CSet 7; CCancel 7; CReceive 7].
Proof. reflexivity. Qed.

(** A callback that was started and is cancelled before it takes the mutex is dropped. *)
Example cancelled_callback_is_dropped :
  (r ← play allTimers [DoSet 7; DoExpire 0; DoCancel 7; DoFire 0] (NewTimers allTimers); Some (sending r.2, firedCh r.2)) = Some ([], []).
Proof. reflexivity. Qed.

(** What a schedule of all timers comes to. *)
Definition played (cs : list Choice) (t : Timers) : list Call * Timers := default ([], t) (play allTimers cs t).

Lemma played_runs cs t : (match play allTimers cs t with Some _ => true | None => false end) = true ->
  truns allTimers (length cs) t (played cs t).1 (played cs t).2.
Proof. unfold played. destruct (play allTimers cs t) as [[tr u]|] eqn:E; [|done]. intros _. by apply play_runs. Qed.

Definition new17 : Timers := NewTimers allTimers.
Definition closing_run : list Choice := late ++ [DoClose; DoWait; DoReceive].
Definition closed_at : Timers := (played closing_run new17).2.
Definition late_at : Timers := (played late new17).2.
Definition after_cancel : list Call * Timers := played [DoReceive] (Cancel allTimers late_at 7).
Definition armed_at : Timers := (played [DoSet 3; DoSet 7; DoExpire 0; DoFire 0] new17).2.

Lemma timers_refine_witness : closedCh closed_at = true /\ count (reads_of 7) (played closing_run new17).1 = 1%nat /\
  sruns allTimers idle (played closing_run new17).1 (abstraction allTimers closed_at) /\
  (forall i, send_ allTimers closed_at i <> SendPanics) /\ (length (firedCh closed_at) <= allTimers)%nat.
Proof.
  split; [vm_compute; reflexivity|]. split; [vm_compute; reflexivity|].
  apply (timers_refine allTimers (length closing_run) (played closing_run new17).1 closed_at).
  - apply played_runs. vm_compute. reflexivity.
  - vm_compute. reflexivity.
Defined.

(** The bound is met: the cancelled fire is the one in flight. *)
Lemma timers_once_witness : count (reads_of 7) after_cancel.1 = 1%nat /\ count (sets_of 7) after_cancel.1 = 0%nat /\
  (count (reads_of 7) (played late new17).1 <= count (sets_of 7) (played late new17).1)%nat /\
  (count (reads_of 7) after_cancel.1 <= count (sets_of 7) after_cancel.1 + in_flight 7 (firedCh late_at ++ sending late_at))%nat.
Proof.
  split; [vm_compute; reflexivity|]. split; [vm_compute; reflexivity|].
  apply (timers_once allTimers (length late) _ late_at 1 7 after_cancel.1 after_cancel.2).
  - apply (played_runs late new17). vm_compute. reflexivity.
  - apply (played_runs [DoReceive]). vm_compute. reflexivity.
  - vm_compute. reflexivity.
Defined.

Lemma timers_live_witness : sending armed_at = [3%nat] /\
  exists m t', truns allTimers m armed_at [CReceive 3; CReceive 7] t' /\ 7%nat ∉ armed_of allTimers t'.
Proof.
  split; [vm_compute; reflexivity|].
  destruct (timers_live allTimers 4 (played [DoSet 3; DoSet 7; DoExpire 0; DoFire 0] new17).1 armed_at 7) as [H _].
  - apply (played_runs [DoSet 3; DoSet 7; DoExpire 0; DoFire 0] new17). vm_compute. reflexivity.
  - vm_compute. reflexivity.
  - destruct H as (m & t' & H1 & _ & H2).
    + apply armed_of_spec. split; [apply Nat.ltb_lt; reflexivity|]. vm_compute. discriminate.
    + exists m, t'. split; [exact H1|exact H2].
Defined.
