(* ===== verification/Manager.v ===== *)
(** * The lease manager: lease/manager.go, lease/ports.go

    What the two families share: the state of a [Manager], its ports, the monad
    its methods are written in, the counters, the outward events, the request
    queue, [drain], [dispatch] and the loop of [Run].  The family is an interface
    ([Ring1], [Handler]) with an instance in Manager4 and one in Manager6.

    A port answers as it likes: each answer is a function of everything the
    manager has asked so far, and a theorem about all ports is one about every
    behaviour of the clock, the network and the caller.  The manager's mutex and
    its one goroutine make a method one step; a send on the events channel is
    answered by whether it was taken or given up. *)

From S2P Require Import Prelude NetAddr Options Codec Arp Backoff Kinds Lease Params Core Dhcp6 Icmpv6 Lease6 Params6 Router6 Outward RateLimit Record.

(** ** Counters by name *)

Fixpoint updateField (names : list string) (s : Stats) (n : string) (f : Z -> Z) : Stats :=
  match names, s with
  | m :: names, v :: s => if String.eqb m n then f v :: s else v :: updateField names s n f
  | _, _ => s
  end.

(** The field [n] of [Stats], and the counters with it replaced. *)
Definition stat (s : Stats) (n : string) : Z := default 0 (fieldByName statsNames s n).
Definition setStat (n : string) (v : Z) (s : Stats) : Stats := updateField statsNames s n (fun _ => v).
Definition addStat (n : string) (v : Z) (s : Stats) : Stats := updateField statsNames s n (fun x => u64 (x + v)).
(** [s.n++] *)
Definition incStat (n : string) (s : Stats) : Stats := addStat n 1 s.

(** ** Ports *)

(** [Inbound]; and [ARPInbound] and [NDInbound], the first of which has no source. *)
Record Inbound := mkInbound { inPayload : bytes; inFrom : Addr; inTo : Addr; inErr : option gostring }.
Record LinkInbound := mkLinkInbound { liFrame : bytes; liSrc : Addr; liErr : option gostring }.

Inductive Direction := DirIn | DirOut.

(** [CapturedPacket] and [CapturedPacketV6]. *)
Record CapturedPacket := mkCaptured {
  cpAt : Time; cpDir : Direction; cpRaw : bytes; cpMsg : option Message; cpDecodeErr : option gostring;
  cpARP : option ARPPacket }.
Record CapturedPacketV6 := mkCaptured6 {
  c6At : Time; c6Dir : Direction; c6Raw : bytes; c6Msg : option MessageV6; c6DecodeErr : option gostring;
  c6RA : option RouterAdvert; c6RS : bool }.

(** What a caller asks for from its own goroutine. *)
Inductive Request := QRelease | QConflict | QAddressLost | QDADResult (a : Addr) (duplicate : bool) | QSetHostname (name : gostring).

(** [Config]; the ports are interfaces, of which the manager reads whether they
    are nil. *)
Record Config := mkConfig {
  cfParams : Params; cfTransport : bool; cfClock : bool; cfTimers : bool; cfEntropy : bool; cfARP : bool;
  cfResume : option OLease; cfParams6 : option Params6; cfTransportV6 : bool; cfND : bool;
  cfLinkLocal : Addr; cfLinkHW : bytes; cfDAD : bool; cfRateLimit : RateLimit; cfResume6 : option OLease }.

#[global] Instance eta_Config : Settable Config := fun c =>
  mkConfig (cfParams c) (cfTransport c) (cfClock c) (cfTimers c) (cfEntropy c) (cfARP c) (cfResume c) (cfParams6 c)
    (cfTransportV6 c) (cfND c) (cfLinkLocal c) (cfLinkHW c) (cfDAD c) (cfRateLimit c) (cfResume6 c).

(** ** What a family is to the manager *)

(** The machine of ring 1, its events, actions and states, and [mirror], what the
    manager keeps beside it for callers and for its own use. *)
Class Ring1 := {
  machine : Type; event : Type; action : Type; mstate_ : Type; mirror : Type;
  r1Step : machine -> Instant -> Z -> event -> option (machine * mstate_ * list action) }.

Section manager.
Context {F : Ring1}.

(** One call of a port with its answer, what came out of a channel, the answer to
    a caller's request, or one line of a log the manager keeps. *)
Inductive Fx :=
| FxMono (t : Instant)
| FxWall (t : Time)
| FxEntropy (r : Z)
| FxSend (d : Dest) (raw : bytes) (err : option gostring)
| FxSendV6 (d : Addr) (raw : bytes) (err : option gostring)
| FxSendARP (raw : bytes) (err : option gostring)
| FxSendND (pkt : ICMPv6Packet) (err : option gostring)
| FxTake (t : Instant) (granted : bool)
| FxSetTimer (t : TimerID) (after : Duration)
| FxCancelTimer (t : TimerID)
| FxStartDAD (a : Addr) (runner : bool)
| FxReceive (i : Inbound)
| FxReceiveV6 (i : Inbound)
| FxReceiveARP (i : LinkInbound)
| FxReceiveND (i : LinkInbound)
| FxFired (t : TimerID)
| FxAsked (queued : bool)
| FxJournal (seq : Z) (now : Instant) (rnd : Z) (ev : event) (to : mstate_) (acts : list action)
| FxNote (n : Note)
| FxRecord (c : CapturedPacket)
| FxRecordV6 (c : CapturedPacketV6)
| FxEvent (e : LEvent) (seen : Stats) (taken : bool)
| FxClosed.

(** The latest first. *)
Abbreviation Log := (list Fx).

Record Ports := mkPorts {
  portMono : Log -> Instant;
  portWall : Log -> Time;
  portUint64 : Log -> Z;
  portSend : Log -> Dest -> bytes -> option gostring;
  portSendV6 : Log -> Addr -> bytes -> option gostring;
  portSendARP : Log -> bytes -> option gostring;
  portSendND : Log -> ICMPv6Packet -> option gostring;
  (** whether an event sent on the channel was taken *)
  portTaken : Log -> LEvent -> bool;
  (** [err.Error()], a journal note as text, the note of a refused message *)
  errText : WireErr -> gostring;
  noteText : Note -> gostring;
  limitText : MessageTypeV6 -> bucket -> gostring }.

Record Manager := mkManager {
  mgCfg : Config;
  mgMachine : machine;
  mgMirror : mirror;
  mgHostname : gostring;
  mgRequests : list event;
  mgStopping : bool;
  mgLease : OLease;
  mgHeld : bool;
  mgSeq : Z;
  mgConfig : Configuration;
  mgStats : Stats;
  mgLog : Log }.

#[global] Instance eta_Manager : Settable Manager := fun m =>
  mkManager (mgCfg m) (mgMachine m) (mgMirror m) (mgHostname m) (mgRequests m) (mgStopping m) (mgLease m) (mgHeld m)
    (mgSeq m) (mgConfig m) (mgStats m) (mgLog m).

(** ** The monad *)

Definition MG (A : Type) := Manager -> outcome Empty_set (A * Manager).

#[global] Instance MG_ret : MRet MG := fun A a m => Ok (a, m).
#[global] Instance MG_bind : MBind MG := fun A B f c m =>
  match c m with
  | Ok (a, m') => f a m'
  | Err e => Err e
  | Panic => Panic
  | Hang => Hang
  end.

Definition getM : MG Manager := fun m => Ok (m, m).
Definition modM (f : Manager -> Manager) : MG unit := fun m => Ok (tt, f m).
Definition whenM (b : bool) (c : MG unit) : MG unit := if b then c else mret tt.
Definition logM (x : Fx) : MG unit := modM (fun m => m <| mgLog := x :: mgLog m |>).
(** [bump] *)
Definition bumpM (f : Stats -> Stats) : MG unit := modM (fun m => m <| mgStats := f (mgStats m) |>).

(** A call of package wire whose error the code handles. *)
Definition caseM {A B} (x : wire A) (bad : WireErr -> MG B) (good : A -> MG B) : MG B :=
  match x with Ok a => good a | Err e => bad e | Panic => fun _ => Panic | Hang => fun _ => Hang end.

Context (P : Ports).

(** One call of a port: the answer to what was asked so far, and the entry. *)
Definition callM {A} (port : Log -> A) (fx : A -> Fx) : MG A :=
  m ← getM; let a := port (mgLog m) in logM (fx a) ;; mret a.

Definition Mono : MG Instant := callM (portMono P) FxMono.
Definition Wall : MG Time := callM (portWall P) FxWall.
Definition Uint64 : MG Z := callM (portUint64 P) FxEntropy.
Definition Send_ (d : Dest) (raw : bytes) : MG (option gostring) := callM (fun l => portSend P l d raw) (FxSend d raw).
Definition SendV6_ (d : Addr) (raw : bytes) : MG (option gostring) := callM (fun l => portSendV6 P l d raw) (FxSendV6 d raw).
Definition SendARP_ (raw : bytes) : MG (option gostring) := callM (fun l => portSendARP P l raw) (FxSendARP raw).
Definition SendND_ (pkt : ICMPv6Packet) : MG (option gostring) := callM (fun l => portSendND P l pkt) (FxSendND pkt).

(** [bridge]: both clocks, the monotonic one first. *)
Definition bridge : MG clockBridge := mono ← Mono; wall ← Wall; mret (mkBridge mono wall).

(** [journalNote] *)
Definition journalNote (n : Note) : MG unit := logM (FxNote n).

(** ** The family's part

    [r1Fill] is what [emit] adds to an event; [r1Mirror] what [dispatch] copies
    from the machine after a step; [r1Exec] the action kinds of [drain] with the
    event of a failed one; the last two the handlers of what arrives, which are
    given [dispatch]. *)
Class Handler := {
  r1Fill : machine -> Configuration -> LEvent -> LEvent;
  r1Mirror : Manager -> Manager;
  r1Exec : action -> clockBridge -> MG (option event);
  r1Start : event; r1Stop : event; r1Fired : TimerID -> event; r1Request : Request -> event;
  r1HasLink : Config -> bool;
  r1LinkClosed : Note;
  r1OnInbound : (event -> MG unit) -> Inbound -> MG unit;
  r1OnLink : (event -> MG unit) -> LinkInbound -> MG unit }.

(** [emit]; the event is taken, or given up when the caller is gone. *)
Definition emitWith (fill : machine -> Configuration -> LEvent -> LEvent) (e : LEvent) : MG unit :=
  m ← getM;
  let e := fill (mgMachine m) (mgConfig m) e in
  taken ← callM (fun l => portTaken P l e) (FxEvent e (mgStats m));
  whenM (negb taken) (bumpM (incStat "EventsDropped")).

Definition router_none : RouterObservation := mkRouterObservation false false false AddrZero [] [] 0 [] [] [] [].

(** The event of a lease arm of [drain]. *)
Definition leaseEvent (k : LEventKind) (l : OLease) (r : Reason) (requested : Addr) : LEvent :=
  mkLEvent k l r [] requested ACDIdle DADIdle (mkConfiguration [] [] 0) FamilyUnset StatusSuccess router_none.

Definition failedEvent (r : Reason) (n : gostring) (st : StatusCode) : LEvent :=
  mkLEvent Failed olease_zero r n AddrZero ACDIdle DADIdle (mkConfiguration [] [] 0) FamilyUnset st router_none.

Definition configuredEvent (c : Configuration) : LEvent :=
  mkLEvent Configured olease_zero ReasonNone [] AddrZero ACDIdle DADIdle c FamilyUnset StatusSuccess router_none.

(** ** The arms of [drain] both families have *)

Section arms.
Context (fill : machine -> Configuration -> LEvent -> LEvent).

(** [ActLeaseAcquired], [ActLeaseRenewed], [ActLeaseChanged] *)
Definition gainM (k : LEventKind) (l : OLease) (requested : Addr) (count : Stats -> Stats) : MG unit :=
  modM (fun m => m <| mgLease := l |> <| mgHeld := true |> <| mgStats := count (mgStats m) |>) ;;
  emitWith fill (leaseEvent k l ReasonNone requested).

(** [v6] is [mg.machine6 != nil]. *)
Definition countConflict (v6 : bool) (r : Reason) (s : Stats) : Stats :=
  if bool_decide (r = ReasonConflict)
  then let s := incStat "ConflictsDetected" s in if v6 then incStat "DADConflicts" s else s
  else s.

(** [ActLeaseLost] *)
Definition loseM (v6 : bool) (r : Reason) : MG unit :=
  m ← getM;
  let lost := mgLease m in
  modM (fun m => m <| mgLease := olease_zero |> <| mgHeld := false |>
    <| mgStats := countConflict v6 r (incStat "LeasesLost" (mgStats m)) |>) ;;
  emitWith fill (leaseEvent Lost lost r AddrZero).

(** [ActFailed] *)
Definition failM (v6 : bool) (r : Reason) (n : Note) (st : StatusCode) : MG unit :=
  bumpM (fun s =>
    let s := incStat "AcquireFailures" s in
    match r with ReasonNak => incStat "NaksAccepted" s | _ => countConflict v6 r s end) ;;
  emitWith fill (failedEvent r (noteText P n) st).

(** A send that did not leave, counted under [n]. *)
Definition sendFailed (n : string) (ev : event) : MG (option event) := bumpM (incStat n) ;; mret (Some ev).
End arms.

(** ** [drain], [dispatch] *)

Section handler.
Context {H : Handler}.

Definition emit (e : LEvent) : MG unit := emitWith r1Fill e.

(** The loop of [drain]: every action in order, the failures in order. *)
Fixpoint drainLoop (acts : list action) (b : clockBridge) : MG (list event) :=
  match acts with
  | [] => mret []
  | a :: acts =>
    bumpM (incStat "ActionsExecuted") ;;
    r ← r1Exec a b;
    failures ← drainLoop acts b;
    mret (option_list r ++ failures)
  end.

Definition drain (acts : list action) : MG (list event) :=
  b ← bridge;
  failures ← drainLoop acts b;
  whenM (0 <? length failures)%nat (bumpM (addStat "ActionsFailedFed" (Z.of_nat (length failures)))) ;;
  mret failures.

(** One turn of the loop of [dispatch]: a step and all it asks for.  The counters
    are mirrored, the line is journalled, and then the actions are executed. *)
Definition turn (ev : event) : MG (list event) :=
  now ← Mono;
  rnd ← Uint64;
  m ← getM;
  match r1Step (mgMachine m) now rnd ev with
  | None => fun _ => Panic
  | Some (mc, to, acts) =>
    let seq := mgSeq m in
    modM (fun m => r1Mirror (m <| mgMachine := mc |> <| mgSeq := u64 (seq + 1) |> <| mgStats := incStat "Steps" (mgStats m) |>)) ;;
    logM (FxJournal seq now rnd ev to acts) ;;
    drain acts
  end.

(** [dispatch]: the queue until it is empty. *)
Fixpoint dispatchLoop (fuel : nat) (queue : list event) : MG unit :=
  match queue with
  | [] => mret tt
  | ev :: queue =>
    match fuel with
    | O => fun _ => Hang
    | S fuel => failures ← turn ev; dispatchLoop fuel (queue ++ failures)
    end
  end.

Definition dispatch (fuel : nat) (ev : event) : MG unit := dispatchLoop fuel [ev].

(** ** The request queue *)

Definition requestDepth : nat := 4.

(** [requestQueued]: a full queue refuses, and counts. *)
Definition requestQueued (ev : event) : MG bool :=
  m ← getM;
  if (length (mgRequests m) <? requestDepth)%nat
  then logM (FxAsked true) ;; modM (fun m => m <| mgRequests := mgRequests m ++ [ev] |>) ;; mret true
  else logM (FxAsked false) ;; bumpM (incStat "RequestsDropped") ;; mret false.

(** [request], and with it [Release], [ReportConflict], [ReportDADResult] and
    [ReportAddressLost]. *)
Definition request (q : Request) : MG unit := requestQueued (r1Request q) ;; mret tt.

(** ** [Run] *)

(** The ready case the [select] of [Run] takes; [ok] is false of a closed channel. *)
Inductive Wake :=
| WakeRequest
| WakeDone (err : gostring)
| WakeInbound (i : Inbound)
| WakeInboundClosed
| WakeLink (i : LinkInbound)
| WakeLinkClosed
| WakeFired (t : TimerID)
| WakeFiredClosed.

(** What happens next: a caller asks for something, or [Run] takes a case. *)
Inductive Moment := Caller (q : Request) | Select (w : Wake).

(** [shutdown] *)
Definition shutdown (fuel : nat) : MG unit :=
  modM (fun m => m <| mgStopping := true |>) ;; dispatch fuel r1Stop.

(** One iteration: whether the link's channel is still read, and the error [Run]
    returns, if it does.  A nil or empty channel is never ready. *)
Definition serve (fuel : nat) (w : Wake) (link : bool) : MG (bool * option gostring) :=
  match w with
  | WakeRequest =>
    m ← getM;
    match mgRequests m with
    | [] => mret tt
    | ev :: evs => modM (fun m => m <| mgRequests := evs |>) ;; dispatch fuel ev
    end ;;
    mret (link, None)
  | WakeDone err => shutdown fuel ;; mret (link, Some err)
  | WakeInbound i => r1OnInbound (dispatch fuel) i ;; mret (link, None)
  | WakeInboundClosed => shutdown fuel ;; mret (link, Some (ascii_bytes "lease: transport closed"))
  | WakeLink i => whenM link (r1OnLink (dispatch fuel) i) ;; mret (link, None)
  | WakeLinkClosed => whenM link (journalNote r1LinkClosed) ;; mret (false, None)
  | WakeFired t => logM (FxFired t) ;; bumpM (incStat "TimerFires") ;; dispatch fuel (r1Fired t) ;; mret (link, None)
  | WakeFiredClosed => shutdown fuel ;; mret (link, Some (ascii_bytes "lease: timers closed"))
  end.

(** The loop; [None] when [Run] has not returned after these moments. *)
Fixpoint serveAll (fuel : nat) (ms : list Moment) (link : bool) : MG (option gostring) :=
  match ms with
  | [] => mret None
  | Caller q :: ms => request q ;; serveAll fuel ms link
  | Select w :: ms =>
    r ← serve fuel w link;
    match r.2 with
    | Some err => mret (Some err)
    | None => serveAll fuel ms r.1
    end
  end.

Definition Run (fuel : nat) (ms : list Moment) : MG (option gostring) :=
  dispatch fuel r1Start ;;
  m ← getM;
  r ← serveAll fuel ms (r1HasLink (mgCfg m));
  whenM (bool_decide (is_Some r)) (logM FxClosed) ;;
  mret r.
End handler.
End manager.

Arguments Fx : clear implicits.
Arguments Ports : clear implicits.
Arguments Manager : clear implicits.
Arguments Handler : clear implicits.
