(* ===== verification/ManagerLogic.v ===== *)
(** * What any manager promises

    The specification side of the manager and the proofs that do not depend on
    the family: what the log must look like ([log_ok]), which counter counts what
    ([counters]), the laws a family's handler has to obey ([Lawful]), and that a
    manager whose handler obeys them serves every wake-up. *)

From S2P Require Import Prelude NetAddr Options Codec Arp Backoff Kinds Lease Params Core Dhcp6 Icmpv6 Lease6 Params6 Router6 Outward RateLimit Record Manager.

(** ** Counters by name *)

Lemma fieldByName_update names s n n' f : length names = length s -> n ∈ names ->
  default 0 (fieldByName names (updateField names s n f) n') =
    (if String.eqb n n' then f (default 0 (fieldByName names s n)) else default 0 (fieldByName names s n')).
Proof.
  revert s. induction names as [|m names IH]; intros [|v s] Hl Hn; try done; [by apply elem_of_nil in Hn|].
  cbn [updateField fieldByName]. destruct (String.eqb_spec m n) as [->|Hmn].
  - cbn [fieldByName]. destruct (String.eqb_spec n n') as [->|]; [done|done].
  - cbn [fieldByName]. apply elem_of_cons in Hn as [->|Hn]; [done|]. specialize (IH s ltac:(cbn in Hl; lia) Hn).
    destruct (String.eqb_spec m n') as [->|]; [|exact IH]. destruct (String.eqb_spec n n') as [->|]; done.
Qed.

Lemma length_updateField names s n f : length (updateField names s n f) = length s.
Proof. revert s. induction names as [|m names IH]; intros [|v s]; cbn; try done. destruct (String.eqb m n); cbn; [done|by rewrite IH]. Qed.

Definition sized_stats (s : Stats) : Prop := length s = length statsNames.

Section by_name.
Context (s : Stats) (Hs : sized_stats s).

Lemma sized_add n v : sized_stats (addStat n v s).
Proof using Hs. unfold sized_stats, addStat. by rewrite length_updateField. Qed.

Lemma sized_set n v : sized_stats (setStat n v s).
Proof using Hs. unfold sized_stats, setStat. by rewrite length_updateField. Qed.

Lemma stat_add n v n' : n ∈ statsNames -> stat (addStat n v s) n' = if String.eqb n n' then u64 (stat s n + v) else stat s n'.
Proof using Hs. intros Hn. unfold stat, addStat. by apply fieldByName_update. Qed.

Lemma stat_set n v n' : n ∈ statsNames -> stat (setStat n v s) n' = if String.eqb n n' then v else stat s n'.
Proof using Hs. intros Hn. unfold stat, setStat. by apply fieldByName_update. Qed.
End by_name.

Lemma stat_zero n : stat stats_zero n = 0.
Proof. unfold stat, stats_zero. induction statsNames as [|m names IH]; [done|]. cbn [map fieldByName]. by destruct (String.eqb m n). Qed.

#[global] Opaque stat addStat setStat.

Lemma set_stats_eq {F : Ring1} (m : Manager F) s : mgStats (m <| mgStats := s |>) = s.
Proof. done. Qed.

(** Counters replaced together, the last first. *)
Definition setAll (cs : list (string * Z)) (s : Stats) : Stats := foldr (fun c s => setStat c.1 c.2 s) s cs.

Lemma setAll_sized cs s : sized_stats s -> sized_stats (setAll cs s).
Proof. intros Hs. induction cs as [|c cs IH]; [done|]. by apply sized_set. Qed.

Lemma setAll_other cs s n : sized_stats s -> Forall (.∈ statsNames) (map fst cs) -> n ∉ map fst cs -> stat (setAll cs s) n = stat s n.
Proof.
  intros Hs. induction cs as [|c cs IH]; [done|]. cbn [map]. intros [Hc Hn]%Forall_cons [Hne Hni]%not_elem_of_cons.
  change (stat (setStat c.1 c.2 (setAll cs s)) n = stat s n). rewrite stat_set by (done || by apply setAll_sized).
  rewrite (proj2 (String.eqb_neq _ _)) by done. by apply IH.
Qed.

Lemma setAll_spec cs s : sized_stats s -> Forall (.∈ statsNames) (map fst cs) -> NoDup (map fst cs) ->
  Forall (fun c => stat (setAll cs s) c.1 = c.2) cs.
Proof.
  intros Hs. induction cs as [|c cs IH]; [by constructor|]. cbn [map]. intros [Hc Hn]%Forall_cons [Hni Hd]%NoDup_cons.
  assert (E : forall n, stat (setAll (c :: cs) s) n = if String.eqb c.1 n then c.2 else stat (setAll cs s) n).
  { intros n. change (setAll (c :: cs) s) with (setStat c.1 c.2 (setAll cs s)). apply stat_set; [by apply setAll_sized|done]. }
  constructor; [by rewrite E, String.eqb_refl|]. specialize (IH Hn Hd). rewrite Forall_forall in IH |- *. intros x Hx.
  rewrite E, (proj2 (String.eqb_neq _ _)); [by apply IH|]. intros Ec. apply Hni. rewrite Ec. apply list_elem_of_In, in_map, list_elem_of_In, Hx.
Qed.

(** Counters incremented together, each once. *)
Definition incAll (ns : list string) (s : Stats) : Stats := foldr incStat s ns.

Lemma incAll_ok ns : forall s, sized_stats s -> Forall (.∈ statsNames) ns -> NoDup ns ->
  sized_stats (incAll ns s) /\
  forall n, stat (incAll ns s) n = if bool_decide (n ∈ ns) then u64 (stat s n + 1) else stat s n.
Proof.
  induction ns as [|m ns IH]; intros s Hs Hn Hd.
  { split; [done|]. intros n. by rewrite bool_decide_false by apply not_elem_of_nil. }
  apply Forall_cons in Hn as [Hm Hn]. apply NoDup_cons in Hd as [Hmd Hd].
  destruct (IH s Hs Hn Hd) as [H1 H2]. cbn [incAll foldr] in *. split; [by apply sized_add|].
  intros n. unfold incStat. rewrite stat_add by done. fold (incAll ns s). rewrite H2, H2.
  destruct (String.eqb_spec m n) as [->|Hne].
  - rewrite (bool_decide_false (n ∈ ns)) by done. by rewrite bool_decide_true by (by left).
  - rewrite (bool_decide_ext (n ∈ m :: ns) (n ∈ ns)); [done|]. rewrite elem_of_cons. naive_solver.
Qed.

(** ** What the log tells *)

Section spec.
Context {F : Ring1}.

(** The lease last reported and not lost since, as it was shown. *)
Fixpoint reported (l : list (Fx F)) : option OLease :=
  match l with
  | [] => None
  | FxEvent e _ _ :: l =>
    match evKind e with
    | Acquired | Renewed | Changed => Some (evLease e)
    | Lost => None
    | _ => reported l
    end
  | _ :: l => reported l
  end.

(** An event in its place: a lease is acquired when none is out, and renewed,
    changed or lost when one is; what is lost is what was shown. *)
Definition event_ok (shows : OLease -> OLease -> Prop) (l : list (Fx F)) (e : LEvent) : Prop :=
  match evKind e with
  | Acquired => reported l = None
  | Renewed | Changed => is_Some (reported l)
  | Lost => exists shown, reported l = Some shown /\ shows (evLease e) shown
  | _ => True
  end.

(** ** Which counter counts what *)

Definition is_event (f : LEvent -> bool) (x : Fx F) : bool := match x with FxEvent e _ _ => f e | _ => false end.
Definition of_kind (k : LEventKind) (e : LEvent) : bool := bool_decide (evKind e = k).

Definition of_conflict (e : LEvent) : bool :=
  (of_kind Failed e || of_kind Lost e) && bool_decide (evReason e = ReasonConflict).

(** The counters an event reports. *)
Definition eventCounters : list (string * (Fx F -> bool)) :=
  [("LeasesAcquired", is_event (of_kind Acquired));
   ("RenewalsCompleted", is_event (of_kind Renewed));
   ("LeasesLost", is_event (of_kind Lost));
   ("AcquireFailures", is_event (of_kind Failed));
   ("NaksAccepted", is_event (fun e => of_kind Failed e && bool_decide (evReason e = ReasonNak)));
   ("ConflictsDetected", is_event of_conflict);
   ("DADConflicts", is_event (fun e => of_conflict e && bool_decide (evFamily e = FamilyV6)));
   ("ConfiguredEvents", is_event (of_kind Configured))]%string.

(** The counters of what the ports were asked and answered. *)
Definition portCounters : list (string * (Fx F -> bool)) :=
  [("Steps", fun x => match x with FxJournal _ _ _ _ _ _ => true | _ => false end);
   ("Sent", fun x => match x with FxSend _ _ None | FxSendV6 _ _ None => true | _ => false end);
   ("RouterSolicitsSent", fun x => match x with FxSendND _ None => true | _ => false end);
   ("RateLimited", fun x => match x with FxTake _ false => true | _ => false end);
   ("EventsDropped", fun x => match x with FxEvent _ _ false => true | _ => false end);
   ("TimerFires", fun x => match x with FxFired _ => true | _ => false end);
   ("RequestsDropped", fun x => match x with FxAsked false => true | _ => false end);
   ("DADChecksStarted", fun x => match x with FxStartDAD _ _ => true | _ => false end)]%string.

(** What was sent, as the packet ring has it: a message of either family, an ARP
    packet. *)
Definition sent_msg (f4 : Message -> bool) (f6 : MessageV6 -> bool) (x : Fx F) : bool :=
  match x with
  | FxRecord (mkCaptured _ DirOut _ (Some m) _ _) => f4 m
  | FxRecordV6 (mkCaptured6 _ DirOut _ (Some m) _ _ _) => f6 m
  | _ => false
  end.
Definition sent_arp (f : ARPPacket -> bool) (x : Fx F) : bool :=
  match x with FxRecord (mkCaptured _ DirOut _ _ _ (Some p)) => f p | _ => false end.

Definition of_type4 (t : Z) (m : Message) : bool :=
  match Type_ m with Some t' => t' =? t | None => false end.
Definition of_type6 (t : MessageTypeV6) (m : MessageV6) : bool := MType m =? t.

(** A request for the address the client has: RENEWING and REBINDING of RFC 2131
    table 4 are told from the others by [ciaddr]. *)
Definition renews4 (m : Message) : bool := of_type4 MsgRequest m && Is4 (CIAddr m) && negb (IsUnspecified (CIAddr m)).

Definition sentCounters : list (string * (Fx F -> bool)) :=
  [("RenewalsSent", sent_msg renews4 (fun m => of_type6 MsgRenew m || of_type6 MsgRebind m));
   ("DeclinesSent", sent_msg (of_type4 MsgDecline) (of_type6 MsgDecline6));
   ("ReleasesSent", sent_msg (of_type4 MsgRelease) (of_type6 MsgRelease6));
   ("ProbesSent", sent_arp IsProbe);
   ("AnnouncementsSent", sent_arp (fun p => negb (IsProbe p)))]%string.

(** What arrived: on the sockets of the two families, of ARP and of neighbour
    discovery; a datagram or frame, or the error of the socket. *)
Definition arrived (f : Inbound -> bool) (x : Fx F) : bool :=
  match x with FxReceive i | FxReceiveV6 i => f i | _ => false end.
Definition failed_read (i : Inbound) : bool := match inErr i with Some _ => true | None => false end.
Definition decoded {E A} (f : A -> bool) (o : outcome E A) : bool := match o with Ok a => f a | _ => false end.
Definition any {A} (_ : A) : bool := true.

Definition arrived4 (f : wire Message -> bool) (x : Fx F) : bool :=
  match x with FxReceive i => negb (failed_read i) && f (Decode (inPayload i)) | _ => false end.
Definition arrived6 (f : wire MessageV6 -> bool) (x : Fx F) : bool :=
  match x with FxReceiveV6 i => negb (failed_read i) && f (DecodeV6 (inPayload i)) | _ => false end.

Definition link_failed (i : LinkInbound) : bool := match liErr i with Some _ => true | None => false end.
Definition arp_frame (f : wire ARPPacket -> bool) (x : Fx F) : bool :=
  match x with FxReceiveARP i => negb (link_failed i) && f (DecodeARP (liFrame i)) | _ => false end.
Definition nd_frame (f : bytes -> wire RouterAdvert -> bool) (x : Fx F) : bool :=
  match x with FxReceiveND i => negb (link_failed i) && f (liFrame i) (DecodeRouterAdvert (liFrame i)) | _ => false end.
(** The first octet of an ICMPv6 message says what it is. *)
Definition says_advert (b : bytes) : bool := match head b with Some t => t =? ICMPv6RouterAdvert | None => false end.

Definition arrivalCounters : list (string * (Fx F -> bool)) :=
  [("Received", arrived (fun i => negb (failed_read i)));
   ("TransportErrors", arrived failed_read);
   ("DecodeFailures", fun x => arrived4 (fun o => negb (decoded any o)) x || arrived6 (fun o => negb (decoded any o)) x);
   ("NaksSeen", arrived4 (decoded (of_type4 MsgNak)));
   ("ARPErrors", fun x => match x with FxReceiveARP i => link_failed i | _ => false end);
   ("ARPSeen", arp_frame any);
   ("ARPDecodeFailures", arp_frame (fun o => negb (decoded any o)));
   ("NDErrors", fun x => match x with FxReceiveND i => link_failed i | _ => false end);
   ("NDSeen", nd_frame (fun _ => any));
   ("NDIgnored", nd_frame (fun _ o => negb (decoded any o)));
   ("RouterAdvertsSeen", nd_frame (fun _ => decoded any));
   ("RouterAdvertsRefused", nd_frame (fun b o => negb (decoded any o) && says_advert b))]%string.

Definition counters : list (string * (Fx F -> bool)) := eventCounters ++ portCounters ++ sentCounters ++ arrivalCounters.

(** The counters a step replaces with the machine's own. *)
Definition mirroredNames : list string :=
  ["RouterTableEntriesDropped"; "RouterTableEntriesEvicted"; "SLAACAddressesFormed"; "SLAACAddressesRefreshed";
   "SLAACAddressesDeprecated"; "SLAACAddressesExpired"; "SLAACAddressesConflicted"; "SLAACPrefixesIgnored"; "SLAACFallbacks";
   "ReconfiguresAccepted"; "ReconfiguresRefused"; "IPv6OnlyWaited"; "IPv6OnlyIgnored"; "IPv6OnlyMalformed";
   "RapidCommitsAccepted"; "RapidCommitsRefused"; "ForcerenewsRenewed"; "ForcerenewsAlreadyRenewing"; "ForcerenewsAckRefused";
   "ForcerenewsRefused"; "TemporaryAddressesGranted"; "TemporaryAddressesRefused"; "TemporaryAddressesAbsent";
   "TemporaryAddressesConflicted"; "PrefixesGranted"; "PrefixesRefused"; "PrefixesAbsent"; "PrefixesChanged"]%string.

Definition count (f : Fx F -> bool) (l : list (Fx F)) : Z := Z.of_nat (length (List.filter f l)).

Definition counted_by (table : list (string * (Fx F -> bool))) (s : Stats) (l : list (Fx F)) : Prop :=
  Forall (fun c => stat s c.1 = u64 (count c.2 l)) table.

(** Every event stands where it may, and whoever reads the counters when it
    arrives sees it counted. *)
Fixpoint log_ok (shows : OLease -> OLease -> Prop) (l : list (Fx F)) : Prop :=
  match l with
  | [] => True
  | FxEvent e seen taken :: l =>
    event_ok shows l e /\ counted_by eventCounters seen (FxEvent e seen taken :: l) /\ log_ok shows l
  | _ :: l => log_ok shows l
  end.

Lemma count_cons f x l : u64 (count f (x :: l)) = if f x then u64 (u64 (count f l) + 1) else u64 (count f l).
Proof.
  unfold count. cbn [List.filter]. destruct (f x); [|done].
  cbn [length]. unfold u64. rewrite Zplus_mod_idemp_l. f_equal. lia.
Qed.

(** A new entry, with exactly the counters incremented that count it. *)
Lemma counted_entry table s l ns x : sized_stats s -> Forall (.∈ statsNames) ns -> NoDup ns ->
  counted_by table s l -> forallb (fun c => Bool.eqb (c.2 x) (bool_decide (c.1 ∈ ns))) table = true ->
  counted_by table (incAll ns s) (x :: l).
Proof.
  intros Hs Hn Hd Hc Ht. unfold counted_by in *. rewrite Forall_forall in Hc |- *. intros c Hin.
  rewrite forallb_forall in Ht. specialize (Ht c (proj1 (list_elem_of_In _ _) Hin)). apply Bool.eqb_prop in Ht.
  rewrite count_cons, Ht, (proj2 (incAll_ok ns s Hs Hn Hd)), <- (Hc c Hin). by destruct (bool_decide _).
Qed.

(** Other counters move: these stay. *)
Lemma counted_other table s l ns : sized_stats s -> Forall (.∈ statsNames) ns -> NoDup ns ->
  counted_by table s l -> forallb (fun c => negb (bool_decide (c.1 ∈ ns))) table = true -> counted_by table (incAll ns s) l.
Proof.
  intros Hs Hn Hd Hc Ht. unfold counted_by in *. rewrite Forall_forall in Hc |- *. intros c Hin.
  rewrite forallb_forall in Ht. specialize (Ht c (proj1 (list_elem_of_In _ _) Hin)). apply negb_true_iff in Ht.
  rewrite (proj2 (incAll_ok ns s Hs Hn Hd)), Ht. by apply Hc.
Qed.

(** Counters, events and machine that agree with each other: what holds of the
    parts of a manager between any two of its doings. *)
Record consistent (shows : OLease -> OLease -> Prop) (xi : mirror -> list (Fx F) -> Prop)
    (s : Stats) (l : list (Fx F)) (lease : OLease) (held : bool) (mr : mirror) : Prop := {
  cs_sized : sized_stats s;
  cs_counted : counted_by counters s l;
  cs_log : log_ok shows l;
  cs_held : match reported l with Some shown => held = true /\ shows lease shown | None => held = false end;
  cs_xi : xi mr l }.
End spec.

(** ** A program logic for the manager's methods *)

Section logic.
Context {F : Ring1}.

(** [c] returns from [m], and [Q] holds of the result and of the manager it leaves. *)
Definition wpm {A} (c : MG A) (Q : A -> Manager F -> Prop) (m : Manager F) : Prop :=
  match c m with Ok (a, m') => Q a m' | _ => False end.

Lemma wpm_ret {A} (a : A) Q m : Q a m -> wpm (mret a) Q m.
Proof. done. Qed.

Lemma wpm_bind {A B} (c : MG A) (f : A -> MG B) Q m : wpm c (fun a => wpm (f a) Q) m -> wpm (c ≫= f) Q m.
Proof. unfold wpm, mbind, MG_bind. by destruct (c m) as [[a m']| | |]. Qed.

Lemma wpm_mono {A} (c : MG A) (Q Q' : A -> Manager F -> Prop) m : wpm c Q m -> (forall a m', Q a m' -> Q' a m') -> wpm c Q' m.
Proof. unfold wpm. destruct (c m) as [[a m']| | |]; auto. Qed.

Lemma wpm_get Q (m : Manager F) : Q m m -> wpm getM Q m.
Proof. done. Qed.
Lemma wpm_mod f Q (m : Manager F) : Q tt (f m) -> wpm (modM f) Q m.
Proof. done. Qed.
Lemma wpm_bump f Q (m : Manager F) : Q tt (m <| mgStats := f (mgStats m) |>) -> wpm (bumpM f) Q m.
Proof. done. Qed.
Lemma wpm_log x Q (m : Manager F) : Q tt (m <| mgLog := x :: mgLog m |>) -> wpm (logM x) Q m.
Proof. done. Qed.
Lemma wpm_when (b : bool) c Q (m : Manager F) : (b = true -> wpm c Q m) -> (b = false -> Q tt m) -> wpm (whenM b c) Q m.
Proof. destruct b; intros H1 H2; [by apply H1|by apply H2]. Qed.

(** A port's answer may be anything. *)
Lemma wpm_call {A} port (fx : A -> Fx F) Q m : (forall a, Q a (m <| mgLog := fx a :: mgLog m |>)) -> wpm (callM port fx) Q m.
Proof. intros H. apply H. Qed.

Lemma wpm_case {A B} (x : wire A) bad good (Q : B -> Manager F -> Prop) m : returns x ->
  (forall e, x = Err e -> wpm (bad e) Q m) -> (forall a, x = Ok a -> wpm (good a) Q m) -> wpm (caseM x bad good) Q m.
Proof. intros [H1 H2] He Ho. destruct x; cbn; [by apply Ho|by apply He|done|done]. Qed.

Lemma wpm_run {A} (c : MG A) Q (m : Manager F) : wpm c Q m <-> exists a m', c m = Ok (a, m') /\ Q a m'.
Proof.
  unfold wpm. split.
  - destruct (c m) as [[a m']| | |]; try done. intros H. by exists a, m'.
  - by intros (a & m' & -> & H).
Qed.
End logic.

(** One step of symbolic execution of a method of the manager. *)
Ltac mstep :=
  lazymatch goal with
  | |- wpm (mret _) _ _ => apply wpm_ret
  | |- wpm (_ ≫= _) _ _ => apply wpm_bind
  | |- wpm getM _ _ => apply wpm_get
  | |- wpm (modM _) _ _ => apply wpm_mod
  | |- wpm (bumpM _) _ _ => apply wpm_bump
  | |- wpm (logM _) _ _ => apply wpm_log
  | |- wpm (callM _ _) _ _ => apply wpm_call; intros ?
  | |- wpm (Mono _) _ _ => apply wpm_call; intros ?
  | |- wpm (Wall _) _ _ => apply wpm_call; intros ?
  | |- wpm (Uint64 _) _ _ => apply wpm_call; intros ?
  | |- wpm (Send_ _ _ _) _ _ => apply wpm_call; intros ?
  | |- wpm (SendV6_ _ _ _) _ _ => apply wpm_call; intros ?
  | |- wpm (SendARP_ _ _) _ _ => apply wpm_call; intros ?
  | |- wpm (SendND_ _ _) _ _ => apply wpm_call; intros ?
  | |- wpm (bridge _) _ _ => unfold bridge
  | |- wpm (whenM _ _) _ _ => apply wpm_when; intros ?
  | |- wpm (sendFailed _ _) _ _ => unfold sendFailed
  | |- wpm (journalNote _) _ _ => apply wpm_log
  | |- wpm ((fun _ => _) _) _ _ => cbv beta
  end.
Ltac msteps := repeat (mstep; cbv beta zeta).

(** ** The laws of a family *)

Inductive Report := RNothing | RGain (fresh : bool) | RLose.

Section laws.
Context {F : Ring1}.

Definition plain (x : Fx F) : Prop := match x with FxTake _ _ | FxSendV6 _ _ _ => False | _ => True end.

(** The steps of the log, the latest first. *)
Definition journals (l : list (Fx F)) : list (Fx F) :=
  List.filter (fun x => match x with FxJournal _ _ _ _ _ _ => true | _ => false end) l.

(** What a method changes that is not the work of a step: the machine, the
    queue, the flags and the steps of the log stay. *)
Record steady (m m' : Manager F) : Prop := {
  sd_machine : mgMachine m' = mgMachine m;
  sd_cfg : mgCfg m' = mgCfg m;
  sd_requests : mgRequests m' = mgRequests m;
  sd_stopping : mgStopping m' = mgStopping m;
  sd_seq : mgSeq m' = mgSeq m;
  sd_steps : journals (mgLog m') = journals (mgLog m) }.

(** The counters a step replaces are as the step left them. *)
Definition same_mirrored (s s' : Stats) : Prop := Forall (fun n => stat s' n = stat s n) mirroredNames.

(** The three counters of failed sends, and the two of the work of [drain]. *)
Definition failures (s : Stats) : Z := u64 (stat s "SendFailures" + stat s "ARPSendFailures" + stat s "NDSendFailures").

Record worked (k : Z) (s s' : Stats) : Prop := {
  wk_failures : failures s' = u64 (failures s + k);
  wk_executed : stat s' "ActionsExecuted" = stat s "ActionsExecuted";
  wk_fed : stat s' "ActionsFailedFed" = stat s "ActionsFailedFed";
  wk_mirrored : same_mirrored s s' }.

Definition held_after (held : bool) (r : Report) : bool :=
  match r with RNothing => held | RGain _ => true | RLose => false end.

Definition report_ok (held : bool) (r : Report) : Prop :=
  match r with RNothing => True | RGain fresh => held = negb fresh | RLose => held = true end.

Fixpoint reports_ok (held : bool) (l : list Report) : Prop :=
  match l with [] => True | r :: l => report_ok held r /\ reports_ok (held_after held r) l end.

Class Lawful (H : Handler F) := {
  env : Type;
  lStart : env;
  lInv : machine -> env -> Prop;
  lInput : env -> event -> Prop;
  lAfter : Instant -> event -> list action -> env -> env;
  lHolds : env -> bool;
  lFailed : event -> bool;
  lSends : action -> bool;
  lReport : action -> Report;
  lPerforms : action -> Prop;
  lShows : OLease -> OLease -> Prop;
  lXi : mirror -> list (Fx F) -> Prop;
  lAccepts : env -> Wake -> bool;
  (** the counters of the machine, by the names they are mirrored under *)
  lMirrored : machine -> list (string * Z);

  (** what the machine's theorems ask of a step's input, and of what wakes [Run] *)
  law_step m e now rnd ev : lInv m e -> lInput e ev -> exists m' to acts,
    r1Step m now rnd ev = Some (m', to, acts) /\ lInv m' (lAfter now ev acts e) /\
    Forall lPerforms acts /\ reports_ok (lHolds e) (map lReport acts) /\
    lHolds (lAfter now ev acts e) = foldl held_after (lHolds e) (map lReport acts);
  law_quiet m now rnd ev m' to acts : lFailed ev = true -> r1Step m now rnd ev = Some (m', to, acts) ->
    Forall (fun a => lSends a = false) acts;
  law_failed_input e ev : lFailed ev = true -> lInput e ev;
  law_timely e t : lAccepts e (WakeFired t) = true -> lInput e (r1Fired t);
  law_inputs e : lInput e r1Start /\ lInput e r1Stop /\ forall q, lInput e (r1Request q);
  law_outside : lFailed r1Start = false /\ lFailed r1Stop = false /\ (forall t, lFailed (r1Fired t) = false) /\
    forall q, lFailed (r1Request q) = false;
  law_plain mr l x : plain x -> lXi mr l -> lXi mr (x :: l);
  law_names mc : Forall (.∈ mirroredNames) (map fst (lMirrored mc)) }.

Context `{L : Lawful}.

(** What an observer of the steps knows. *)
Fixpoint watch (l : list (Fx F)) : env :=
  match l with
  | [] => lStart
  | FxJournal _ now _ ev _ acts :: l => lAfter now ev acts (watch l)
  | _ :: l => watch l
  end.

Definition consistent_ (m : Manager F) : Prop :=
  consistent lShows lXi (mgStats m) (mgLog m) (mgLease m) (mgHeld m) (mgMirror m).

(** The mirrored counters are the machine's. *)
Definition in_step (s : Stats) (mc : machine) : Prop := Forall (fun c => stat s c.1 = c.2) (lMirrored mc).

Lemma in_step_same s s' mc : same_mirrored s s' -> in_step s mc -> in_step s' mc.
Proof using Type.
  unfold same_mirrored, in_step. rewrite !Forall_forall. intros Hs Hi c Hc. rewrite <- (Hi c Hc). apply Hs.
  pose proof (law_names mc) as Hn. rewrite Forall_forall in Hn. apply Hn, list_elem_of_In, in_map, list_elem_of_In, Hc.
Qed.

(** [k] more failed sends, and no step. *)
Record doing (k : Z) (m m' : Manager F) : Prop := {
  dg_steady : steady m m';
  dg_worked : worked k (mgStats m) (mgStats m');
  dg_consistent : consistent_ m' }.

(** The counters the manager itself keeps. *)
Definition kept : list string :=
  map fst (counters (F := F)) ++ ["SendFailures"; "ARPSendFailures"; "NDSendFailures"; "ActionsExecuted"; "ActionsFailedFed"]%string.

Class Served (P : Ports F) := {
  law_fill m c e : evKind (r1Fill m c e) = evKind e /\ evReason (r1Fill m c e) = evReason e /\
    (evKind e = Lost -> evLease (r1Fill m c e) = evLease e) /\ lShows (evLease e) (evLease (r1Fill m c e));
  law_exec a b m : lPerforms a -> consistent_ m -> report_ok (mgHeld m) (lReport a) ->
    wpm (r1Exec a b) (fun r m' => doing (if r is Some _ then 1 else 0) m m' /\ mgHeld m' = held_after (mgHeld m) (lReport a) /\
      match r with Some ev => lFailed ev = true /\ lSends a = true | None => True end) m;
  law_mirror m : sized_stats (mgStats m) -> let m' := r1Mirror m in
    steady m m' /\ mgLog m' = mgLog m /\ mgLease m' = mgLease m /\ mgHeld m' = mgHeld m /\
    sized_stats (mgStats m') /\ Forall (fun n => stat (mgStats m') n = stat (mgStats m) n) kept /\
    in_step (mgStats m') (mgMachine m) /\
    (lXi (mgMirror m) (mgLog m) -> lXi (mgMirror m') (mgLog m));
  (** A handler hands at most one event to [dispatch], at its end. *)
  law_inbound i m : exists m' r,
    (forall disp, r1OnInbound disp i m = match r with Some ev => disp ev m' | None => Ok (tt, m') end) /\
    (consistent_ m -> doing 0 m m' /\ mgHeld m' = mgHeld m) /\
    (forall ev e, r = Some ev -> lFailed ev = false /\ lInput e ev);
  law_link i m : exists m' r,
    (forall disp, r1OnLink disp i m = match r with Some ev => disp ev m' | None => Ok (tt, m') end) /\
    (consistent_ m -> doing 0 m m' /\ mgHeld m' = mgHeld m) /\
    (forall ev e, r = Some ev -> lAccepts e (WakeLink i) = true -> lFailed ev = false /\ lInput e ev) }.
End laws.

(** ** Counters and log together *)

Section consistency.
Context {F : Ring1} (shows : OLease -> OLease -> Prop) (xi : mirror -> list (Fx F) -> Prop)
  (xi_plain : forall mr l x, plain x -> xi mr l -> xi mr (x :: l)).

Definition known (ns : list string) : bool := forallb (fun n => bool_decide (n ∈ statsNames)) ns && bool_decide (NoDup ns).

Lemma known_spec ns : known ns = true -> Forall (.∈ statsNames) ns /\ NoDup ns.
Proof using Type.
  unfold known. intros [H1 H2]%andb_true_iff. split; [|by apply bool_decide_eq_true in H2].
  rewrite Forall_forall. rewrite forallb_forall in H1. intros n Hn%list_elem_of_In. specialize (H1 n Hn).
  by apply bool_decide_eq_true in H1.
Qed.

Definition uncounted (table : list (string * (Fx F -> bool))) (ns : list string) : bool :=
  forallb (fun c => negb (bool_decide (c.1 ∈ ns))) table.
Definition counts_it (table : list (string * (Fx F -> bool))) (ns : list string) (x : Fx F) : bool :=
  forallb (fun c => Bool.eqb (c.2 x) (bool_decide (c.1 ∈ ns))) table.

Abbreviation ok := (consistent shows xi).

(** Counters no entry is counted by. *)
Lemma consistent_bump ns s l lease held mr : known ns = true -> uncounted counters ns = true -> ok s l lease held mr ->
  ok (incAll ns s) l lease held mr.
Proof using Type.
  intros [Hn Hd]%known_spec Hu [H1 H2 H3 H4 H5]. split; try done; [by apply incAll_ok|by apply counted_other].
Qed.

(** An entry that is no event, with the counters that count it. *)
Lemma consistent_entry_at ns x s l lease held mr mr' : known ns = true -> counts_it counters ns x = true ->
  is_event (fun _ => true) x = false -> xi mr' (x :: l) -> ok s l lease held mr -> ok (incAll ns s) (x :: l) lease held mr'.
Proof using Type.
  intros [Hn Hd]%known_spec Hu Hx Hp [H1 H2 H3 H4 H5]. split.
  - by apply incAll_ok.
  - by apply counted_entry.
  - by destruct x.
  - by destruct x.
  - exact Hp.
Qed.

Lemma consistent_entry ns x s l lease held mr : known ns = true -> counts_it counters ns x = true ->
  is_event (fun _ => true) x = false -> plain x -> ok s l lease held mr -> ok (incAll ns s) (x :: l) lease held mr.
Proof using xi_plain. intros Hk Hu Hx Hp Hc. apply (consistent_entry_at ns x _ _ _ _ mr); try done. apply xi_plain; [done|]. apply Hc. Qed.

(** The same of an entry nothing counts. *)
Lemma consistent_plain x s l lease held mr : counts_it counters [] x = true -> is_event (fun _ => true) x = false -> plain x ->
  ok s l lease held mr -> ok s (x :: l) lease held mr.
Proof using xi_plain. intros. by apply (consistent_entry []). Qed.

(** The counters an event is counted by, itself and when it is given up. *)
Definition reports_in (ns : list string) (e : LEvent) : bool :=
  counts_it counters ns (FxEvent e [] true) && counts_it counters ("EventsDropped"%string :: ns) (FxEvent e [] false) &&
  known ("EventsDropped"%string :: ns).

(** An event: the counters are incremented before it is sent. *)
Lemma consistent_event ns e taken s l lease held mr lease' held' : reports_in ns e = true -> event_ok shows l e ->
  ok s l lease held mr ->
  match reported (FxEvent e (incAll ns s) taken :: l) with
  | Some shown => held' = true /\ shows lease' shown | None => held' = false end ->
  ok (if taken : bool then incAll ns s else incStat "EventsDropped" (incAll ns s)) (FxEvent e (incAll ns s) taken :: l) lease' held' mr.
Proof using xi_plain.
  intros [[Ht Hf]%andb_true_iff Hk]%andb_true_iff He [H1 H2 H3 H4 H5] Hr.
  assert (Hk' : known ns = true).
  { revert Hk. unfold known. cbn [forallb]. rewrite !andb_true_iff, !bool_decide_eq_true. intros [[_ Hk] [_ Hd]%NoDup_cons]. done. }
  destruct (known_spec _ Hk) as [Hn Hd]. destruct (known_spec _ Hk') as [Hn' Hd'].
  assert (Hall : counted_by counters (if taken then incAll ns s else incStat "EventsDropped" (incAll ns s)) (FxEvent e (incAll ns s) taken :: l)).
  { destruct taken; [by apply counted_entry|]. change (incStat "EventsDropped" (incAll ns s)) with (incAll ("EventsDropped"%string :: ns) s).
    by apply counted_entry. }
  split; try done.
  - destruct taken; [by apply incAll_ok|]. apply sized_add. by apply incAll_ok.
  - split; [exact He|]. split; [|exact H3]. apply counted_entry; try done.
    + unfold counted_by, counters in H2. by apply Forall_app in H2 as [H2 _].
    + unfold counts_it, counters in Ht. rewrite forallb_app in Ht. apply andb_true_iff in Ht as [Ht _].
      destruct taken; exact Ht.
  - by apply xi_plain.
Qed.
End consistency.

(** The counters of an entry, from what is known of the datagram in it. *)
Ltac counts_by :=
  unfold counts_it, counters, eventCounters, portCounters, sentCounters, arrivalCounters;
  cbn [forallb app fst snd is_event sent_msg sent_arp arrived arrived4 arrived6 arp_frame nd_frame];
  unfold failed_read, link_failed, decoded, any, renews4, of_type4, of_type6, says_advert;
  repeat match goal with E : _ = _ |- _ => progress (rewrite ?E; cbn [head]) end; reflexivity.

(** ** The work counters *)

Definition workNames : list string := ["SendFailures"; "ARPSendFailures"; "NDSendFailures"]%string.

(** How many failed sends incrementing [ns] counts. *)
Definition failing (ns : list string) : Z :=
  foldr (fun n z => (if bool_decide (n ∈ ns) then 1 else 0) + z) 0 workNames.

Definition unmirrored (ns : list string) : bool := forallb (fun n => negb (bool_decide (n ∈ ns))) mirroredNames.

Definition off_work (ns : list string) : bool :=
  unmirrored ns && negb (bool_decide ("ActionsExecuted"%string ∈ ns)) && negb (bool_decide ("ActionsFailedFed"%string ∈ ns)).

Lemma u64_idemp_l a b : u64 (u64 a + b) = u64 (a + b).
Proof. unfold u64. apply Zplus_mod_idemp_l. Qed.
Lemma u64_idemp_r a b : u64 (a + u64 b) = u64 (a + b).
Proof. unfold u64. apply Zplus_mod_idemp_r. Qed.

Lemma u64_add3 a b c : u64 (u64 a + u64 b + u64 c) = u64 (a + b + c).
Proof. by rewrite u64_idemp_r, <- (Z.add_assoc (u64 a)), u64_idemp_l, (Z.add_comm (u64 b)), Z.add_assoc, u64_idemp_r, <- Z.add_assoc, (Z.add_comm c), Z.add_assoc. Qed.

Lemma stat_inc_mod ns s n : known ns = true -> sized_stats s ->
  u64 (stat (incAll ns s) n) = u64 (stat s n + (if bool_decide (n ∈ ns) then 1 else 0)).
Proof.
  intros [Hn Hd]%known_spec Hs. rewrite (proj2 (incAll_ok ns s Hs Hn Hd)). destruct (bool_decide _).
  - unfold u64. apply Z.mod_mod. lia.
  - by rewrite Z.add_0_r.
Qed.

Lemma mirrored_refl s : same_mirrored s s.
Proof. by apply Forall_true. Qed.

Lemma mirrored_trans s s1 s2 : same_mirrored s s1 -> same_mirrored s1 s2 -> same_mirrored s s2.
Proof. unfold same_mirrored. rewrite !Forall_forall. intros H1 H2 n Hn. exact (eq_trans (H2 n Hn) (H1 n Hn)). Qed.

Lemma mirrored_inc ns s : known ns = true -> sized_stats s -> unmirrored ns = true -> same_mirrored s (incAll ns s).
Proof.
  intros [Hn Hd]%known_spec Hs Ho. unfold same_mirrored. rewrite Forall_forall. intros n Hin.
  unfold unmirrored in Ho. rewrite forallb_forall in Ho. specialize (Ho n (proj1 (list_elem_of_In _ _) Hin)). apply negb_true_iff in Ho.
  by rewrite (proj2 (incAll_ok ns s Hs Hn Hd)), Ho.
Qed.

Lemma worked_inc ns s : known ns = true -> sized_stats s -> off_work ns = true -> worked (failing ns) s (incAll ns s).
Proof.
  intros Hk Hs Ho. apply andb_true_iff in Ho as [[Hm He]%andb_true_iff Hf].
  apply (mirrored_inc ns s Hk Hs) in Hm.
  pose proof (known_spec _ Hk) as [Hn Hd]. apply negb_true_iff in He, Hf. split; [..|exact Hm].
  - unfold failures, failing, workNames. cbn [foldr].
    rewrite <- u64_add3, !stat_inc_mod, u64_add3, u64_idemp_l by done. apply (f_equal u64). lia.
  - by rewrite (proj2 (incAll_ok ns s Hs Hn Hd)), He.
  - by rewrite (proj2 (incAll_ok ns s Hs Hn Hd)), Hf.
Qed.

Lemma u64_add_0 a : u64 a = u64 (u64 a + 0).
Proof. by rewrite u64_idemp_l, Z.add_0_r. Qed.

Lemma worked_refl s : worked 0 s s.
Proof. split; [unfold failures; apply u64_add_0|reflexivity..|apply mirrored_refl]. Qed.

Lemma worked_trans k k' s s1 s2 : worked k s s1 -> worked k' s1 s2 -> worked (k + k') s s2.
Proof.
  intros [H1 H2 H3 M1] [H4 H5 H6 M2]. split; [|exact (eq_trans H5 H2)|exact (eq_trans H6 H3)|by eapply mirrored_trans].
  rewrite H4, H1, u64_idemp_l. apply (f_equal u64). lia.
Qed.

Section steady.
Context {F : Ring1}.

Lemma steady_refl (m : Manager F) : steady m m.
Proof. by split. Qed.

Lemma steady_trans (m m1 m2 : Manager F) : steady m m1 -> steady m1 m2 -> steady m m2.
Proof. intros [] []. split; congruence. Qed.

Context {H : Handler F} {L : Lawful H}.

Lemma doing_refl m : consistent_ m -> doing 0 m m.
Proof. intros. split; [by apply steady_refl|by apply worked_refl|done]. Qed.

Lemma doing_trans k k' m m1 m2 : doing k m m1 -> doing k' m1 m2 -> doing (k + k') m m2.
Proof. intros [] []. split; [by eapply steady_trans|by eapply worked_trans|done]. Qed.

(** The steps are all an observer looks at. *)
Lemma watch_journals l l' : journals l' = journals l -> watch l' = watch l.
Proof.
  assert (H0 : forall l, watch l = watch (journals l)).
  { clear. induction l as [|x l IH]; [done|]. destruct x; cbn; try done. by rewrite IH. }
  intros E. by rewrite H0, E, <- H0.
Qed.
End steady.

(** ** The arms that report *)

Section arms.
Context {F : Ring1} {H : Handler F} {L : Lawful H} (P : Ports F) (fill : machine -> Configuration -> LEvent -> LEvent) (v6 : bool).

Definition family : Family := if v6 then FamilyV6 else FamilyV4.

Definition fills : Prop := forall m c e, evKind (fill m c e) = evKind e /\ evReason (fill m c e) = evReason e /\
  (evKind e = Lost -> evLease (fill m c e) = evLease e) /\ lShows (evLease e) (evLease (fill m c e)) /\
  evFamily (fill m c e) = family.

(** What the counters read of an event. *)
Definition shown_as (k : LEventKind) (r : Reason) : LEvent :=
  mkLEvent k olease_zero r [] AddrZero ACDIdle DADIdle (mkConfiguration [] [] 0) family StatusSuccess router_none.

Hypothesis fill_ok : fills.

Lemma reports_in_ext ns e e' : evKind e = evKind e' -> evReason e = evReason e' -> evFamily e = evFamily e' ->
  reports_in (F := F) ns e = reports_in (F := F) ns e'.
Proof using Type.
  intros Hk Hr Hf. unfold reports_in, counts_it, counters, eventCounters. cbn [forallb app fst snd is_event].
  unfold of_conflict, of_kind. by rewrite Hk, Hr, Hf.
Qed.

Lemma wpm_emit e Q m :
  (forall taken, let e := fill (mgMachine m) (mgConfig m) e in
    Q tt (m <| mgLog := FxEvent e (mgStats m) taken :: mgLog m |>
            <| mgStats := if taken : bool then mgStats m else incStat "EventsDropped" (mgStats m) |>)) ->
  wpm (emitWith P fill e) Q m.
Proof using Type.
  intros HQ. unfold emitWith. msteps.
  - specialize (HQ a). destruct a; [done|exact HQ].
  - specialize (HQ a). destruct a; [|done]. by destruct m.
Qed.

(** An arm that reports: counters, lease and flag first, then the event. *)
Lemma report_ok_arm ns e lease held (cfg : Configuration) Q m : consistent_ m ->
  reports_in (F := F) ns (shown_as (evKind e) (evReason e)) = true -> off_work ns = true -> failing ns = 0 ->
  event_ok lShows (mgLog m) (fill (mgMachine m) cfg e) ->
  match evKind e with
  | Acquired | Renewed | Changed => held = true /\ lease = evLease e
  | Lost => held = false
  | _ => held = mgHeld m /\ lease = mgLease m
  end ->
  (forall m', doing 0 m m' -> mgHeld m' = held -> Q tt m') ->
  wpm (emitWith P fill e) Q (m <| mgConfig := cfg |> <| mgLease := lease |> <| mgHeld := held |> <| mgStats := incAll ns (mgStats m) |>).
Proof using fill_ok.
  intros Hc Hr Hw Hf He Hl HQ. destruct (fill_ok (mgMachine m) cfg e) as (Ek & Er & El & Es & Ef).
  assert (Hr' : reports_in (F := F) ns (fill (mgMachine m) cfg e) = true) by (by rewrite (reports_in_ext _ _ (shown_as (evKind e) (evReason e)))).
  assert (known ("EventsDropped"%string :: ns) = true /\ known ns = true) as [Hk0 Hk].
  { unfold reports_in in Hr. apply andb_true_iff in Hr as [_ Hk]. split; [done|].
    revert Hk. unfold known. cbn [forallb]. rewrite !andb_true_iff, !bool_decide_eq_true. intros [[_ Hk] [_ Hd]%NoDup_cons]. done. }
  destruct (known_spec _ Hk) as [Hn Hd]. apply wpm_emit. cbv zeta. intros taken. apply HQ; [|done]. pose proof (cs_sized _ _ _ _ _ _ _ Hc) as Hs. split.
  - by split.
  - change (worked 0 (mgStats m) (if taken then incAll ns (mgStats m) else incStat "EventsDropped" (incAll ns (mgStats m)))).
    destruct taken.
    + rewrite <- Hf. by apply worked_inc.
    + rewrite <- (Z.add_0_r 0). eapply worked_trans; [rewrite <- Hf; by apply worked_inc|].
      change (incStat "EventsDropped" (incAll ns (mgStats m))) with (incAll ["EventsDropped"%string] (incAll ns (mgStats m))).
      apply (worked_inc ["EventsDropped"%string]); [done| |done]. by apply incAll_ok.
  - change (consistent lShows lXi (if taken then incAll ns (mgStats m) else incStat "EventsDropped" (incAll ns (mgStats m)))
      (FxEvent (fill (mgMachine m) cfg e) (incAll ns (mgStats m)) taken :: mgLog m) lease held (mgMirror m)).
    apply (consistent_event lShows lXi law_plain ns (fill (mgMachine m) cfg e) taken _ _ _ _ _ lease held Hr' He Hc).
    cbn [reported]. rewrite Ek. pose proof (cs_held _ _ _ _ _ _ _ Hc) as Hh. destruct (evKind e); try done.
    + destruct Hl as [-> ->]. split; [done|exact Es].
    + destruct Hl as [-> ->]. split; [done|exact Es].
    + destruct Hl as [-> ->]. split; [done|exact Es].
    + destruct Hl as [-> ->]. exact Hh.
    + destruct Hl as [-> ->]. exact Hh.
    + destruct Hl as [-> ->]. exact Hh.
Qed.

Lemma held_reported m : consistent_ m -> if mgHeld m then exists shown, reported (mgLog m) = Some shown /\ lShows (mgLease m) shown
  else reported (mgLog m) = None.
Proof using Type.
  intros Hc. pose proof (cs_held _ _ _ _ _ _ _ Hc) as Hh. destruct (reported (mgLog m)) as [shown|].
  - destruct Hh as [-> Hh]. by exists shown.
  - by rewrite Hh.
Qed.

(** [ActLeaseAcquired], [ActLeaseRenewed] and [ActLeaseChanged] *)
Lemma gain_ok k l requested ns Q m : consistent_ m ->
  match k with Acquired => mgHeld m = false | Renewed | Changed => mgHeld m = true | _ => False end ->
  reports_in (F := F) ns (shown_as k ReasonNone) = true -> off_work ns = true -> failing ns = 0 ->
  (forall m', doing 0 m m' -> mgHeld m' = true -> Q tt m') -> wpm (gainM P fill k l requested (incAll ns)) Q m.
Proof using fill_ok.
  intros Hc Hk Hr Hw Hf HQ. unfold gainM. mstep. mstep.
  assert (E : m <| mgLease := l |> <| mgHeld := true |> <| mgStats := incAll ns (mgStats m) |> =
    m <| mgConfig := mgConfig m |> <| mgLease := l |> <| mgHeld := true |> <| mgStats := incAll ns (mgStats m) |>) by (by destruct m).
  rewrite E. apply (report_ok_arm ns); try done.
  - unfold event_ok. pose proof (held_reported m Hc) as Hh. rewrite (proj1 (fill_ok _ _ _)). cbn [evKind leaseEvent].
    destruct k; try done; rewrite Hk in Hh; [done|destruct Hh as (x & -> & _); by eexists..].
  - cbn [evKind leaseEvent evLease]. by destruct k.
Qed.

Definition conflictNames (r : Reason) : list string :=
  if bool_decide (r = ReasonConflict) then (if v6 then ["DADConflicts"; "ConflictsDetected"] else ["ConflictsDetected"])%string else [].

Lemma countConflict_eq r s : countConflict v6 r s = incAll (conflictNames r) s.
Proof using Type. unfold countConflict, conflictNames. destruct (bool_decide _), v6; done. Qed.

Lemma incAll_app ns ns' s : incAll (ns ++ ns') s = incAll ns (incAll ns' s).
Proof using Type. apply foldr_app. Qed.

(** [ActLeaseLost] *)
Lemma lose_ok r Q m : consistent_ m -> mgHeld m = true ->
  (forall m', doing 0 m m' -> mgHeld m' = false -> Q tt m') -> wpm (loseM P fill v6 r) Q m.
Proof using fill_ok.
  intros Hc Hh HQ. unfold loseM. mstep. mstep. cbv beta zeta. mstep. mstep.
  set (ns := conflictNames r ++ ["LeasesLost"%string]).
  assert (E : m <| mgLease := olease_zero |> <| mgHeld := false |> <| mgStats := countConflict v6 r (incStat "LeasesLost" (mgStats m)) |> =
    m <| mgConfig := mgConfig m |> <| mgLease := olease_zero |> <| mgHeld := false |> <| mgStats := incAll ns (mgStats m) |>).
  { unfold ns. rewrite incAll_app, countConflict_eq. by destruct m. }
  rewrite E. apply (report_ok_arm ns); try done.
  - unfold ns, conflictNames, shown_as, family. clear. destruct v6, r; reflexivity.
  - unfold ns, conflictNames, shown_as, family. clear. destruct v6, r; reflexivity.
  - unfold ns, conflictNames, shown_as, family. clear. destruct v6, r; reflexivity.
  - unfold event_ok. pose proof (held_reported m Hc) as Hr. rewrite Hh in Hr.
    destruct (fill_ok (mgMachine m) (mgConfig m) (leaseEvent Lost (mgLease m) r AddrZero)) as (-> & _ & El & _).
    cbn [evKind leaseEvent]. by rewrite El.
Qed.

(** [ActFailed] *)
Lemma fail_ok r n st Q m : consistent_ m ->
  (forall m', doing 0 m m' -> mgHeld m' = mgHeld m -> Q tt m') -> wpm (failM P fill v6 r n st) Q m.
Proof using fill_ok.
  intros Hc HQ. unfold failM. mstep. mstep.
  set (ns := (match r with ReasonNak => ["NaksAccepted"%string] | _ => conflictNames r end) ++ ["AcquireFailures"%string]).
  match goal with |- wpm _ _ ?m' => assert (E : m' =
    m <| mgConfig := mgConfig m |> <| mgLease := mgLease m |> <| mgHeld := mgHeld m |> <| mgStats := incAll ns (mgStats m) |>) end.
  { unfold ns. rewrite incAll_app. destruct m, r; cbn -[countConflict incAll]; rewrite ?countConflict_eq; done. }
  rewrite E. apply (report_ok_arm ns); try done.
  - unfold ns, conflictNames, shown_as, family. clear. destruct v6, r; reflexivity.
  - unfold ns, conflictNames, shown_as, family. clear. destruct v6, r; reflexivity.
  - unfold ns, conflictNames, shown_as, family. clear. destruct v6, r; reflexivity.
  - unfold event_ok. by rewrite (proj1 (fill_ok _ _ _)).
Qed.
End arms.
