(* ===== verification/ManagerRun.v ===== *)
(** * Every manager serves

    Of any family whose handler obeys the laws: [drain] executes every action and
    hands back each send that failed, [dispatch] comes to an end, and [Run] serves
    whatever wakes it, with the log and the counters in order after each. *)

From S2P Require Import Prelude NetAddr Options Codec Arp Backoff Kinds Lease Params Core Dhcp6 Icmpv6 Lease6 Params6 Router6 Outward RateLimit Record Manager ManagerLogic.

Section run.
Context {F : Ring1} {H : Handler F} {L : Lawful H} (P : Ports F) {S : Served P}.

(** ** One doing at a time

    [did k m0 m]: since [m0], sends that failed [k] times, with the lease as it was. *)
Definition did (k : Z) (m0 m : Manager F) : Prop := doing k m0 m /\ mgHeld m = mgHeld m0.

Lemma did_refl m : consistent_ m -> did 0 m m.
Proof using Type. intros Hc. split; [by apply doing_refl|done]. Qed.

(** An entry with the counters that count it. *)
Definition entry_ok (ns : list string) (x : Fx F) : bool :=
  known ns && off_work ns && counts_it counters ns x && negb (is_event (fun _ => true) x) &&
  match x with FxTake _ _ | FxSendV6 _ _ _ | FxJournal _ _ _ _ _ _ => false | _ => true end.

Lemma did_entry ns x k m0 m : entry_ok ns x = true -> did k m0 m ->
  did (k + failing ns) m0 (m <| mgLog := x :: mgLog m |> <| mgStats := incAll ns (mgStats m) |>).
Proof using Type.
  unfold entry_ok. rewrite !andb_true_iff, negb_true_iff. intros ((((Hk & Ho) & Hx) & He) & Hp) [Hd Hh].
  pose proof (dg_consistent _ _ _ Hd) as Hc. split; [|exact Hh]. eapply doing_trans; [exact Hd|]. split.
  - split; try done. by destruct x.
  - apply worked_inc; [done| |done]. exact (cs_sized _ _ _ _ _ _ _ Hc).
  - apply (consistent_entry _ _ law_plain ns x); try done. by destruct x.
Qed.

Lemma did_log x k m0 m : entry_ok [] x = true -> did k m0 m -> did k m0 (m <| mgLog := x :: mgLog m |>).
Proof using Type.
  intros Hx Hd. pose proof (did_entry [] x k m0 m Hx Hd) as H1. change (failing []) with 0 in H1. rewrite Z.add_0_r in H1.
  replace (m <| mgLog := x :: mgLog m |>) with (m <| mgLog := x :: mgLog m |> <| mgStats := incAll [] (mgStats m) |>) by (by destruct m).
  exact H1.
Qed.

Definition bump_ok (ns : list string) : bool := known ns && off_work ns && uncounted (F := F) counters ns.

Lemma did_bump ns k m0 m : bump_ok ns = true -> did k m0 m -> did (k + failing ns) m0 (m <| mgStats := incAll ns (mgStats m) |>).
Proof using Type.
  unfold bump_ok. rewrite !andb_true_iff. intros ((Hk & Ho) & Hu) [Hd Hh]. pose proof (dg_consistent _ _ _ Hd) as Hc.
  split; [|exact Hh]. eapply doing_trans; [exact Hd|]. split; [by split| |by apply consistent_bump].
  apply worked_inc; [done| |done]. exact (cs_sized _ _ _ _ _ _ _ Hc).
Qed.

Lemma did_bump0 ns k m0 m : bump_ok ns = true -> failing ns = 0 -> did k m0 m -> did k m0 (m <| mgStats := incAll ns (mgStats m) |>).
Proof using Type. intros Hb Hf Hd. rewrite <- (Z.add_0_r k), <- Hf. by apply did_bump. Qed.

Lemma same_stats (m : Manager F) : m <| mgStats := mgStats m |> = m.
Proof using Type. by destruct m. Qed.
Lemma set_stats_twice (m : Manager F) a b : m <| mgStats := a |> <| mgStats := b |> = m <| mgStats := b |>.
Proof using Type. by destruct m. Qed.
Lemma same_mirror (m : Manager F) : m <| mgMirror := mgMirror m |> = m.
Proof using Type. by destruct m. Qed.

(** ** Counters mirrored from a machine *)

(** The counters the manager keeps itself are what they were. *)
Definition keeps (s s' : Stats) : Prop :=
  sized_stats s -> sized_stats s' /\ Forall (fun n => stat s' n = stat s n) (kept (F := F)).

Definition mirrored (n : string) : bool := bool_decide (n ∈ statsNames) && negb (bool_decide (n ∈ kept (F := F))).

Lemma keeps_refl s : keeps s s.
Proof using Type. intros Hs. split; [done|]. by apply Forall_true. Qed.

Lemma keeps_update n s s' (f : Stats -> Stats) : mirrored n = true ->
  (forall s, sized_stats s -> sized_stats (f s) /\ forall n', n <> n' -> stat (f s) n' = stat s n') -> keeps s s' -> keeps s (f s').
Proof using Type.
  unfold mirrored. intros [_ Hn%negb_true_iff]%andb_true_iff Hf Hk Hs. apply bool_decide_eq_false in Hn.
  destruct (Hk Hs) as [Hs' Hall]. destruct (Hf s' Hs') as [Hs2 Heq]. split; [exact Hs2|].
  rewrite Forall_forall in Hall |- *. intros n' Hin. rewrite Heq; [by apply Hall|]. intros ->. done.
Qed.

Lemma keeps_set n v s s' : mirrored n = true -> keeps s s' -> keeps s (setStat n v s').
Proof using Type.
  intros Hm. apply (keeps_update n _ _ (setStat n v) Hm). intros s1 Hs. split; [by apply sized_set|]. intros n' Hne.
  unfold mirrored in Hm. apply andb_true_iff in Hm as [Hm%bool_decide_eq_true _]. rewrite stat_set by done. by rewrite (proj2 (String.eqb_neq _ _)).
Qed.

Lemma keeps_add n v s s' : mirrored n = true -> keeps s s' -> keeps s (addStat n v s').
Proof using Type.
  intros Hm. apply (keeps_update n _ _ (addStat n v) Hm). intros s1 Hs. split; [by apply sized_add|]. intros n' Hne.
  unfold mirrored in Hm. apply andb_true_iff in Hm as [Hm%bool_decide_eq_true _]. rewrite stat_add by done. by rewrite (proj2 (String.eqb_neq _ _)).
Qed.

Lemma counted_by_ext table s s' (l : list (Fx F)) : Forall (fun n => stat s' n = stat s n) (map fst table) ->
  counted_by table s l -> counted_by table s' l.
Proof using Type.
  unfold counted_by. rewrite Forall_map, !Forall_forall. intros H1 H2 c Hc. exact (eq_trans (H1 c Hc) (H2 c Hc)).
Qed.

(** Counters the manager does not keep move. *)
Lemma did_keeps s' k m0 m : keeps (mgStats m) s' -> same_mirrored (mgStats m) s' -> did k m0 m -> did k m0 (m <| mgStats := s' |>).
Proof using Type.
  intros Hk Hmi [Hd Hh]. pose proof (dg_consistent _ _ _ Hd) as [C1 C2 C3 C4 C5]. destruct (Hk C1) as [Hs Hall].
  unfold kept in Hall. apply Forall_app in Hall as [Hall1 Hall2]. rewrite !Forall_cons in Hall2. destruct Hall2 as (K1 & K2 & K3 & K4 & K5 & _).
  split; [|exact Hh]. rewrite <- (Z.add_0_r k). eapply doing_trans; [exact Hd|]. split; [by split|split; [|exact K4|exact K5|exact Hmi]|split; try done].
  - change (failures s' = u64 (failures (mgStats m) + 0)). transitivity (failures (mgStats m)); [unfold failures; by rewrite K1, K2, K3|].
    unfold failures. apply u64_add_0.
  - by apply (counted_by_ext _ (mgStats m)).
Qed.

(** ** [drain] *)

(** What [drainLoop] has done when it has executed [n] actions, [k] of which
    failed. *)
Record drained (n k : Z) (m m' : Manager F) : Prop := {
  dr_steady : steady m m';
  dr_consistent : consistent_ m';
  dr_failures : failures (mgStats m') = u64 (failures (mgStats m) + k);
  dr_executed : stat (mgStats m') "ActionsExecuted" = u64 (stat (mgStats m) "ActionsExecuted" + n);
  dr_fed : stat (mgStats m') "ActionsFailedFed" = stat (mgStats m) "ActionsFailedFed";
  dr_mirrored : same_mirrored (mgStats m) (mgStats m') }.

Definition stats_small (s : Stats) : Prop :=
  u64 (stat s "ActionsExecuted") = stat s "ActionsExecuted" /\ u64 (stat s "ActionsFailedFed") = stat s "ActionsFailedFed".

Lemma u64_u64 a : u64 (u64 a) = u64 a.
Proof. unfold u64. apply Z.mod_mod. lia. Qed.

Lemma bumped n s : n ∈ statsNames -> sized_stats s -> incStat n s = incAll [n] s /\ sized_stats (incStat n s).
Proof. intros Hn Hs. split; [done|]. by apply sized_add. Qed.

Lemma execute_ok a b m : lPerforms a -> consistent_ m -> report_ok (mgHeld m) (lReport a) ->
  wpm (bumpM (incStat "ActionsExecuted") ;; r1Exec a b) (fun r m' =>
    drained 1 (if r is Some _ then 1 else 0) m m' /\ mgHeld m' = held_after (mgHeld m) (lReport a) /\
    match r with Some ev => lFailed ev = true /\ lSends a = true | None => True end) m.
Proof using S.
  intros Hp Hc Hr. mstep. mstep. set (m1 := m <| mgStats := incStat "ActionsExecuted" (mgStats m) |>).
  pose proof (cs_sized _ _ _ _ _ _ _ Hc) as Hs.
  assert (Hc1 : consistent_ m1).
  { change (consistent lShows lXi (incAll ["ActionsExecuted"%string] (mgStats m)) (mgLog m) (mgLease m) (mgHeld m) (mgMirror m)).
    by apply consistent_bump. }
  eapply wpm_mono; [apply (law_exec a b m1 Hp Hc1 Hr)|]. intros r m' ([Hst [W1 W2 W3 W4] Hc'] & Hh & Hf).
  split; [|by split]. split; [by destruct Hst; split|done|..].
  - rewrite W1. change (mgStats m1) with (incAll ["ActionsExecuted"%string] (mgStats m)). unfold failures.
    by rewrite !(proj2 (incAll_ok ["ActionsExecuted"%string] (mgStats m) Hs ltac:(repeat constructor; by apply (bool_decide_unpack _)) ltac:(by apply (bool_decide_unpack _)))).
  - rewrite W2. change (mgStats m1) with (addStat "ActionsExecuted" 1 (mgStats m)).
    rewrite stat_add; [done|done|by apply (bool_decide_unpack _)].
  - rewrite W3. change (mgStats m1) with (addStat "ActionsExecuted" 1 (mgStats m)).
    rewrite stat_add; [done|done|by apply (bool_decide_unpack _)].
  - eapply mirrored_trans; [|exact W4]. exact (mirrored_inc ["ActionsExecuted"%string] (mgStats m) eq_refl Hs eq_refl).
Qed.

Lemma drained_trans n k n' k' m m1 m2 : drained n k m m1 -> drained n' k' m1 m2 -> drained (n + n') (k + k') m m2.
Proof using Type.
  intros [A1 A2 A3 A4 A5 A6] [B1 B2 B3 B4 B5 B6]. split; [by eapply steady_trans|done|..].
  - rewrite B3, A3, u64_idemp_l. apply (f_equal u64). lia.
  - rewrite B4, A4, u64_idemp_l. apply (f_equal u64). lia.
  - exact (eq_trans B5 A5).
  - by eapply mirrored_trans.
Qed.

(** Nothing done. *)
Lemma drained_refl m : consistent_ m -> u64 (stat (mgStats m) "ActionsExecuted") = stat (mgStats m) "ActionsExecuted" ->
  drained 0 0 m m.
Proof using Type.
  intros Hc He. split; [apply steady_refl|done|apply u64_add_0| |reflexivity|apply mirrored_refl]. rewrite <- He. apply u64_add_0.
Qed.

Lemma drainLoop_ok acts b : forall m, Forall lPerforms acts -> consistent_ m -> reports_ok (mgHeld m) (map lReport acts) ->
  u64 (stat (mgStats m) "ActionsExecuted") = stat (mgStats m) "ActionsExecuted" ->
  wpm (drainLoop acts b) (fun fs m' =>
    drained (Z.of_nat (length acts)) (Z.of_nat (length fs)) m m' /\
    mgHeld m' = foldl held_after (mgHeld m) (map lReport acts) /\ Forall (fun ev => lFailed ev = true) fs /\
    (Forall (fun a => lSends a = false) acts -> fs = [])) m.
Proof using S.
  induction acts as [|a acts IH]; intros m Hp Hc Hr He.
  { apply wpm_ret. split; [by apply drained_refl|]. split; [done|]. split; [constructor|done]. }
  apply Forall_cons in Hp as [Ha Hp]. destruct Hr as [Hra Hr]. cbn [drainLoop].
  pose proof (execute_ok a b m Ha Hc Hra) as Hx. apply wpm_run in Hx as (r & m1 & E1 & Hd1 & Hh1 & Hf1).
  unfold mbind, MG_bind in E1 |- *. unfold wpm at 1.
  destruct (bumpM (incStat "ActionsExecuted") m) as [[[] m0]| | |] eqn:E0; try done. rewrite E1.
  assert (Hr1 : reports_ok (mgHeld m1) (map lReport acts)) by (rewrite Hh1; exact Hr).
  assert (He1 : u64 (stat (mgStats m1) "ActionsExecuted") = stat (mgStats m1) "ActionsExecuted") by (rewrite (dr_executed _ _ _ _ Hd1); apply u64_u64).
  specialize (IH m1 Hp (dr_consistent _ _ _ _ Hd1) Hr1 He1). apply wpm_run in IH as (fs & m2 & -> & Hd2 & Hh2 & Hf2 & Hq).
  unfold mret, MG_ret. cbv beta iota.
  pose proof (drained_trans _ _ _ _ _ _ _ Hd1 Hd2) as Hd. split; [|split; [|split]].
  - replace (Z.of_nat (length (a :: acts))) with (1 + Z.of_nat (length acts)) by (cbn [length]; lia).
    replace (Z.of_nat (length (option_list r ++ fs))) with ((if r is Some _ then 1 else 0) + Z.of_nat (length fs)); [exact Hd|].
    destruct r as [e|]; [change (option_list (Some e) ++ fs) with (e :: fs); cbn [length]; lia|done].
  - rewrite Hh2, Hh1. done.
  - apply Forall_app. split; [|done]. destruct r; cbn [option_list]; [constructor; [apply Hf1|constructor]|constructor].
  - intros [Hn Hs]%Forall_cons. rewrite (Hq Hs). destruct r; [|done]. destruct Hf1 as [_ Hf1]. congruence.
Qed.

(** ** [dispatch] *)

Definition executed (l : list (Fx F)) : Z :=
  foldr (fun x z => match x with FxJournal _ _ _ _ _ acts => Z.of_nat (length acts) + z | _ => z end) 0 l.
Definition fed (l : list (Fx F)) : Z :=
  count (fun x => match x with FxJournal _ _ _ ev _ _ => lFailed ev | _ => false end) l.

(** The accounts with [n] failed sends still to be told: every action of every
    step was executed, every failed send handed back. *)
Record tallied (n : Z) (s : Stats) (l : list (Fx F)) : Prop := {
  ta_failures : stat s "ActionsFailedFed" = failures s;
  ta_fed : stat s "ActionsFailedFed" = u64 (fed l + n);
  ta_executed : stat s "ActionsExecuted" = u64 (executed l) }.

Lemma fed_journals l : fed l = fed (journals l).
Proof using Type. unfold fed, count. f_equal. f_equal. induction l as [|x l IH]; [done|]. destruct x; cbn; try done. destruct (lFailed ev); by rewrite IH. Qed.
Lemma executed_journals l : executed l = executed (journals l).
Proof using Type. unfold executed. induction l as [|x l IH]; [done|]. destruct x; cbn; try exact IH. by rewrite IH. Qed.

(** A manager between two doings of [dispatch]. *)
Record ready (n : Z) (m : Manager F) : Prop := {
  rd_consistent : consistent_ m;
  rd_inv : lInv (mgMachine m) (watch (mgLog m));
  rd_held : mgHeld m = lHolds (watch (mgLog m));
  rd_tallied : tallied n (mgStats m) (mgLog m);
  rd_mirrored : in_step (mgStats m) (mgMachine m) }.

(** What [dispatch] leaves alone. *)
Definition same_shell (m m' : Manager F) : Prop :=
  mgCfg m' = mgCfg m /\ mgRequests m' = mgRequests m /\ mgStopping m' = mgStopping m.

Lemma same_shell_trans m m1 m2 : same_shell m m1 -> same_shell m1 m2 -> same_shell m m2.
Proof using Type. intros (?&?&?) (?&?&?). split_and!; congruence. Qed.

Lemma steady_shell m m' : steady m m' -> same_shell m m'.
Proof using Type. intros []. by split_and!. Qed.

(** The bookkeeping of a step: machine, mirrors, counters and the line of the
    journal. *)
Definition stepped (m : Manager F) mc now rnd ev to acts : Manager F :=
  let m' := r1Mirror (m <| mgMachine := mc |> <| mgSeq := u64 (mgSeq m + 1) |> <| mgStats := incStat "Steps" (mgStats m) |>) in
  m' <| mgLog := FxJournal (mgSeq m) now rnd ev to acts :: mgLog m' |>.

Lemma stepped_ok m mc now rnd ev to acts : consistent_ m -> let m' := stepped m mc now rnd ev to acts in
  consistent_ m' /\ mgMachine m' = mc /\ mgHeld m' = mgHeld m /\ same_shell m m' /\
  mgLog m' = FxJournal (mgSeq m) now rnd ev to acts :: mgLog m /\ mgSeq m' = u64 (mgSeq m + 1) /\
  failures (mgStats m') = failures (mgStats m) /\
  stat (mgStats m') "ActionsExecuted" = stat (mgStats m) "ActionsExecuted" /\
  stat (mgStats m') "ActionsFailedFed" = stat (mgStats m) "ActionsFailedFed" /\ in_step (mgStats m') mc.
Proof using S.
  intros Hc. unfold stepped. cbv zeta. set (m1 := m <| mgMachine := mc |> <| mgSeq := _ |> <| mgStats := _ |>).
  pose proof (cs_sized _ _ _ _ _ _ _ Hc) as Hs.
  assert (Hs1 : sized_stats (mgStats m1)) by (by apply sized_add).
  destruct (law_mirror m1 Hs1) as (Hst & El & Ele & Eh & Hs2 & Hk & Hmi & Hx). set (m2 := r1Mirror m1) in *.
  set (x := FxJournal (mgSeq m) now rnd ev to acts).
  assert (Hc1 : consistent lShows lXi (incAll ["Steps"%string] (mgStats m)) (x :: mgLog m) (mgLease m) (mgHeld m) (mgMirror m)).
  { by apply (consistent_entry _ _ law_plain). }
  change (incAll ["Steps"%string] (mgStats m)) with (mgStats m1) in Hc1. destruct Hc1 as [_ C2 C3 C4 C5].
  unfold kept in Hk. apply Forall_app in Hk as [Hk1 Hk2]. rewrite !Forall_cons in Hk2. destruct Hk2 as (K1 & K2 & K3 & K4 & K5 & _).
  pose proof (worked_inc ["Steps"%string] (mgStats m) eq_refl Hs eq_refl) as Hw. change (failing _) with 0 in Hw.
  change (incAll ["Steps"%string] (mgStats m)) with (mgStats m1) in Hw.
  destruct Hw as [W1 W2 W3 _]. destruct Hst as [T1 T2 T3 T4 T5 T6]. split; [|split; [exact T1|split; [exact Eh|split; [exact (conj T2 (conj T3 T4))|split; [|split; [exact T5|split; [|split; [|split; [|exact Hmi]]]]]]]]].
  - change (consistent lShows lXi (mgStats m2) (x :: mgLog m2) (mgLease m2) (mgHeld m2) (mgMirror m2)).
    rewrite El, Ele, Eh. split; try done; [by eapply counted_by_ext|]. apply law_plain; [done|]. apply Hx.
    exact (cs_xi _ _ _ _ _ _ _ Hc).
  - change (x :: mgLog m2 = x :: mgLog m). by rewrite El.
  - change (failures (mgStats m2) = failures (mgStats m)). transitivity (failures (mgStats m1)).
    + unfold failures. by rewrite K1, K2, K3.
    + rewrite W1. unfold failures. by rewrite u64_idemp_l, Z.add_0_r.
  - exact (eq_trans K4 W2).
  - exact (eq_trans K5 W3).
Qed.

(** All of [drain]. *)
Record worked_off (acts : list action) (fs : list event) (m m' : Manager F) : Prop := {
  wo_steady : steady m m';
  wo_consistent : consistent_ m';
  wo_held : mgHeld m' = foldl held_after (mgHeld m) (map lReport acts);
  wo_failures : failures (mgStats m') = u64 (failures (mgStats m) + Z.of_nat (length fs));
  wo_executed : stat (mgStats m') "ActionsExecuted" = u64 (stat (mgStats m) "ActionsExecuted" + Z.of_nat (length acts));
  wo_fed : stat (mgStats m') "ActionsFailedFed" = u64 (stat (mgStats m) "ActionsFailedFed" + Z.of_nat (length fs));
  wo_mirrored : same_mirrored (mgStats m) (mgStats m');
  wo_failed : Forall (fun ev => lFailed ev = true) fs;
  wo_quiet : Forall (fun a => lSends a = false) acts -> fs = [] }.

(** [n] more in [ActionsFailedFed] is no other counter's business. *)
Lemma fed_more v m : consistent_ m -> let m' := m <| mgStats := addStat "ActionsFailedFed" v (mgStats m) |> in
  consistent_ m' /\ failures (mgStats m') = failures (mgStats m) /\
  stat (mgStats m') "ActionsExecuted" = stat (mgStats m) "ActionsExecuted" /\
  stat (mgStats m') "ActionsFailedFed" = u64 (stat (mgStats m) "ActionsFailedFed" + v) /\
  same_mirrored (mgStats m) (mgStats m').
Proof using Type.
  intros [C1 C2 C3 C4 C5]. cbv zeta.
  assert (E : forall n, stat (addStat "ActionsFailedFed" v (mgStats m)) n =
    if String.eqb "ActionsFailedFed" n then u64 (stat (mgStats m) "ActionsFailedFed" + v) else stat (mgStats m) n).
  { intros n. apply stat_add; [exact C1|by apply (bool_decide_unpack _)]. }
  change (consistent lShows lXi (addStat "ActionsFailedFed" v (mgStats m)) (mgLog m) (mgLease m) (mgHeld m) (mgMirror m) /\
    failures (addStat "ActionsFailedFed" v (mgStats m)) = failures (mgStats m) /\
    stat (addStat "ActionsFailedFed" v (mgStats m)) "ActionsExecuted" = stat (mgStats m) "ActionsExecuted" /\
    stat (addStat "ActionsFailedFed" v (mgStats m)) "ActionsFailedFed" = u64 (stat (mgStats m) "ActionsFailedFed" + v) /\
    same_mirrored (mgStats m) (addStat "ActionsFailedFed" v (mgStats m))).
  unfold failures. rewrite !E. split; [|split; [reflexivity|split; [reflexivity|split; [reflexivity|repeat (constructor; [by rewrite E|]); constructor]]]]. split; [by apply sized_add| |done..].
  apply (counted_by_ext _ (mgStats m)); [|exact C2]. repeat (constructor; [by rewrite E|]). constructor.
Qed.

Lemma drain_ok acts m : Forall lPerforms acts -> consistent_ m -> reports_ok (mgHeld m) (map lReport acts) ->
  u64 (stat (mgStats m) "ActionsExecuted") = stat (mgStats m) "ActionsExecuted" ->
  u64 (stat (mgStats m) "ActionsFailedFed") = stat (mgStats m) "ActionsFailedFed" ->
  wpm (drain P acts) (fun fs m' => worked_off acts fs m m') m.
Proof using S.
  intros Hp Hc Hr He Hf. unfold drain. do 8 mstep.
  match goal with |- wpm _ _ ?m' => set (m1 := m') end. match goal with |- wpm (drainLoop acts ?b) _ _ => set (bt := b) end.
  assert (Hc1 : consistent_ m1) by (do 2 (apply (consistent_plain _ _ law_plain); [done..|]); exact Hc).
  assert (Hst : steady m m1) by (by split).
  eapply wpm_mono; [exact (drainLoop_ok acts bt m1 Hp Hc1 Hr He)|]. cbv beta. intros fs m2 ([D1 D2 D3 D4 D5 D6] & Hh & Hfl & Hq).
  mstep. destruct (fed_more (Z.of_nat (length fs)) m2 D2) as (Hc3 & F1 & F2 & F3 & F4). apply wpm_when; intros Hn; [mstep|]; mstep.
  - split; [|exact Hc3|exact Hh| | | | |exact Hfl|exact Hq].
    + destruct (steady_trans _ _ _ Hst D1). split; assumption.
    + exact (eq_trans F1 D3).
    + exact (eq_trans F2 D4).
    + rewrite F3. change (stat (mgStats m) "ActionsFailedFed") with (stat (mgStats m1) "ActionsFailedFed"). by rewrite D5.
    + eapply mirrored_trans; [exact D6|exact F4].
  - split; [|exact D2|exact Hh|exact D3|exact D4| |exact D6|exact Hfl|exact Hq].
    + exact (steady_trans _ _ _ Hst D1).
    + destruct fs; [|discriminate Hn]. exact (eq_trans D5 (eq_trans (eq_sym Hf) (f_equal u64 (eq_sym (Z.add_0_r _))))).
Qed.

Lemma step_counts now rnd ev to acts seq l : executed (FxJournal seq now rnd ev to acts :: l) = Z.of_nat (length acts) + executed l /\
  fed (FxJournal seq now rnd ev to acts :: l) = (if lFailed ev then 1 else 0) + fed l.
Proof using Type. split; [done|]. unfold fed, count. cbn [List.filter]. destruct (lFailed ev); cbn [length]; lia. Qed.

(** One turn of the loop of [dispatch], from accounts with [n] failures to tell
    beside that of [ev]. *)
Lemma turn_ok n ev m : ready (n + if lFailed ev then 1 else 0) m -> lInput (watch (mgLog m)) ev ->
  wpm (turn P ev) (fun fs m' => ready (n + Z.of_nat (length fs)) m' /\ Forall (fun ev => lFailed ev = true) fs /\
    (lFailed ev = true -> fs = []) /\ same_shell m m') m.
Proof using S.
  intros [Hc Hi Hh [Ta Tf Te] _] Hin. unfold turn. do 6 mstep.
  match goal with |- context [r1Step (mgMachine ?m') ?t ?r] => set (m1 := m'); set (now := t); set (rnd := r) end.
  assert (Hc1 : consistent_ m1) by (do 2 (apply (consistent_plain _ _ law_plain); [done..|]); exact Hc).
  destruct (law_step _ _ now rnd ev Hi Hin) as (mc & to & acts & Es & Hi' & Hp & Hr & Hf).
  change (mgMachine m1) with (mgMachine m). rewrite Es. do 4 mstep.
  destruct (stepped_ok m1 mc now rnd ev to acts Hc1) as (Hc2 & Em & Ehd & Hsh & El & _ & Efa & Eex & Efd & Emi).
  match goal with |- wpm _ _ ?m' => change m' with (stepped m1 mc now rnd ev to acts) end.
  set (m2 := stepped m1 mc now rnd ev to acts) in *.
  assert (Hw : watch (mgLog m2) = lAfter now ev acts (watch (mgLog m))) by (by rewrite El).
  assert (Hh2 : mgHeld m2 = lHolds (watch (mgLog m))) by exact (eq_trans Ehd Hh).
  pose proof (eq_trans Eex Te) as Ex. pose proof (eq_trans Efd Tf) as Ef.
  eapply wpm_mono; [apply (drain_ok acts m2 Hp Hc2); [by rewrite Hh2|by rewrite Ex, u64_u64|by rewrite Ef, u64_u64]|].
  intros fs m3 [O1 O2 O3 O4 O5 O6 Om O7 O8].
  assert (Hw3 : watch (mgLog m3) = watch (mgLog m2)) by (apply watch_journals, (sd_steps _ _ O1)).
  assert (Hl3 : executed (mgLog m3) = Z.of_nat (length acts) + executed (mgLog m) /\
    fed (mgLog m3) = (if lFailed ev then 1 else 0) + fed (mgLog m)).
  { rewrite executed_journals, fed_journals, (sd_steps _ _ O1), <- executed_journals, <- fed_journals, El. exact (step_counts now rnd ev to acts (mgSeq m1) (mgLog m1)). }
  destruct Hl3 as [Hl3 Hl3']. split; [split; [exact O2| | |split|]|split; [exact O7|split]].
  - by rewrite Hw3, Hw, (sd_machine _ _ O1), Em.
  - by rewrite O3, Hw3, Hw, Hf, Hh2.
  - rewrite O6, O4. f_equal. f_equal. exact (eq_trans Efd (eq_trans Ta (eq_sym Efa))).
  - rewrite O6, Ef, u64_idemp_l, Hl3'. apply (f_equal u64). lia.
  - rewrite O5, Ex, u64_idemp_l, Hl3. apply (f_equal u64). lia.
  - rewrite (sd_machine _ _ O1), Em. exact (in_step_same _ _ _ Om Emi).
  - intros Hfl. apply O8. by eapply law_quiet.
  - eapply same_shell_trans; [exact Hsh|]. by apply steady_shell.
Qed.

(** More fuel changes nothing once it was enough. *)
Lemma dispatchLoop_mono fuel : forall fuel' q m r, (fuel <= fuel')%nat -> dispatchLoop P fuel q m = Ok r -> dispatchLoop P fuel' q m = Ok r.
Proof using Type.
  induction fuel as [|fuel IH]; intros fuel' q m r Hl Hr.
  - destruct q; [|done]. by destruct fuel'.
  - destruct q as [|ev q]; [by destruct fuel'|]. destruct fuel' as [|fuel']; [lia|]. cbn [dispatchLoop] in *.
    unfold mbind, MG_bind in *. destruct (turn P ev m) as [[fs m1]| | |]; try done. apply (IH fuel'); [lia|done].
Qed.

(** The failures of failed sends' answers: none, so a queue of them runs dry. *)
Lemma failed_queue q : forall m, Forall (fun ev => lFailed ev = true) q -> ready (Z.of_nat (length q)) m ->
  wpm (dispatchLoop P (length q) q) (fun _ m' => ready 0 m' /\ same_shell m m') m.
Proof using S.
  induction q as [|ev q IH]; intros m Hq Hr; [by apply wpm_ret|].
  apply Forall_cons in Hq as [Hev Hq]. cbn [dispatchLoop length]. apply wpm_bind.
  assert (Hin : lInput (watch (mgLog m)) ev) by (by apply law_failed_input).
  assert (Hr1 : ready (Z.of_nat (length q) + if lFailed ev then 1 else 0) m).
  { rewrite Hev. replace (Z.of_nat (length q) + 1) with (Z.of_nat (length (ev :: q))) by (cbn [length]; lia). exact Hr. }
  eapply wpm_mono; [exact (turn_ok (Z.of_nat (length q)) ev m Hr1 Hin)|]. cbv beta. intros fs m1 (Hr2 & _ & Hfs & Hsh).
  rewrite (Hfs Hev) in Hr2 |- *. rewrite app_nil_r. cbn [length Z.of_nat] in Hr2. rewrite Z.add_0_r in Hr2.
  eapply wpm_mono; [exact (IH m1 Hq Hr2)|]. cbv beta. intros _ m2 [Hr3 Hsh']. split; [exact Hr3|by eapply same_shell_trans].
Qed.

(** [dispatch] of what is no failed send's answer: it comes to an end. *)
Lemma dispatch_ok ev m : ready 0 m -> lFailed ev = false -> lInput (watch (mgLog m)) ev ->
  exists fuel0 m', (forall fuel, (fuel0 <= fuel)%nat -> dispatch P fuel ev m = Ok (tt, m')) /\ ready 0 m' /\ same_shell m m'.
Proof using S.
  intros Hr Hf Hin. assert (Hr0 : ready (0 + if lFailed ev then 1 else 0) m) by (rewrite Hf; exact Hr).
  pose proof (turn_ok 0 ev m Hr0 Hin) as Ht. apply wpm_run in Ht as (fs & m1 & E1 & Hr1 & Hfs & _ & Hsh).
  pose proof (failed_queue fs m1 Hfs Hr1) as Hq. apply wpm_run in Hq as ([] & m2 & E2 & Hr2 & Hsh2).
  exists (1 + length fs)%nat, m2. split; [|split; [exact Hr2|by eapply same_shell_trans]]. intros fuel Hl.
  destruct fuel as [|fuel]; [lia|]. unfold dispatch. cbn [dispatchLoop]. unfold mbind, MG_bind. rewrite E1.
  cbn [app]. apply (dispatchLoop_mono (length fs)); [lia|done].
Qed.

(** ** [Run] *)

(** A change of nothing the accounts look at. *)
Lemma ready_doing m m' : ready 0 m -> doing 0 m m' -> mgHeld m' = mgHeld m -> ready 0 m' /\ same_shell m m' /\
  watch (mgLog m') = watch (mgLog m).
Proof using Type.
  intros [Hc Hi Hh [T1 T2 T3] Hm] [Hst [W1 W2 W3 W4] Hc'] Eh.
  assert (Ew : watch (mgLog m') = watch (mgLog m)) by (apply watch_journals, (sd_steps _ _ Hst)).
  split; [|split; [by apply steady_shell|exact Ew]]. split; [exact Hc'|..].
  - by rewrite Ew, (sd_machine _ _ Hst).
  - by rewrite Eh, Ew.
  - split.
    + rewrite W3, W1, T1. unfold failures. apply u64_add_0.
    + rewrite W3, T2, fed_journals, (fed_journals (mgLog m')), (sd_steps _ _ Hst). reflexivity.
    + rewrite W2, T3, executed_journals, (executed_journals (mgLog m')), (sd_steps _ _ Hst). reflexivity.
  - rewrite (sd_machine _ _ Hst). exact (in_step_same _ _ _ W4 Hm).
Qed.

(** A handler of what arrives: it is done, or its event is dispatched. *)
Lemma handler_ok (c : (event -> MG unit) -> MG unit) (acc : env -> Prop) m : ready 0 m -> acc (watch (mgLog m)) ->
  (exists m' r, (forall disp, c disp m = match r with Some ev => disp ev m' | None => Ok (tt, m') end) /\
    (consistent_ m -> doing 0 m m' /\ mgHeld m' = mgHeld m) /\
    (forall ev e, r = Some ev -> acc e -> lFailed ev = false /\ lInput e ev)) ->
  exists fuel0 m', (forall fuel, (fuel0 <= fuel)%nat -> c (dispatch P fuel) m = Ok (tt, m')) /\ ready 0 m' /\ same_shell m m'.
Proof using S.
  intros Hr Ha (m1 & r & E & Hd & Hev). destruct (Hd (rd_consistent _ _ Hr)) as [Hd1 Hh1].
  destruct (ready_doing m m1 Hr Hd1 Hh1) as (Hr1 & Hsh & Ew). destruct r as [ev|].
  - destruct (Hev ev (watch (mgLog m1)) eq_refl) as [Hf Hin]; [by rewrite Ew|]. destruct (dispatch_ok ev m1 Hr1 Hf Hin) as (f0 & m2 & Em & Hr2 & Hsh2).
    exists f0, m2. split; [|split; [exact Hr2|by eapply same_shell_trans]]. intros fuel Hl. rewrite E. by apply Em.
  - exists 0%nat, m1. split; [|by split]. intros fuel _. by rewrite E.
Qed.

(** A wake-up that may come: of the timers, one that could have fired. *)
Definition timely (m : Manager F) (w : Wake) : bool := lAccepts (watch (mgLog m)) w.

Lemma ready_shell m m' : ready 0 m -> mgMachine m' = mgMachine m -> mgLog m' = mgLog m -> mgStats m' = mgStats m ->
  mgLease m' = mgLease m -> mgHeld m' = mgHeld m -> mgMirror m' = mgMirror m -> ready 0 m'.
Proof using Type.
  intros [Hc Hi Hh Ht Hm] Em El Es Ele Ehd Emi. split; [unfold consistent_|..]; rewrite ?Em, ?El, ?Es, ?Ele, ?Ehd, ?Emi; [exact Hc|exact Hi|exact Hh|exact Ht|exact Hm].
Qed.

(** An entry with the counters that count it. *)
Lemma entry_ready ns x m : entry_ok ns x = true -> failing ns = 0 -> ready 0 m ->
  ready 0 (m <| mgLog := x :: mgLog m |> <| mgStats := incAll ns (mgStats m) |>).
Proof using Type.
  intros Hx Hf Hr. destruct (did_entry ns x 0 m m Hx (did_refl m (rd_consistent _ _ Hr))) as [Hd Hh]. rewrite Hf in Hd.
  by apply (ready_doing m).
Qed.

Lemma log_ready x m : counts_it counters [] x = true -> is_event (fun _ => true) x = false -> plain x -> journals (x :: mgLog m) = journals (mgLog m) ->
  ready 0 m -> ready 0 (m <| mgLog := x :: mgLog m |>).
Proof using Type.
  intros Hx He Hp Hj Hr. apply (ready_doing m); [exact Hr| |reflexivity]. split; [by split|apply worked_refl|].
  apply (consistent_plain _ _ law_plain); try done. exact (rd_consistent _ _ Hr).
Qed.

Lemma request_ok q m : ready 0 m -> exists m', request q m = Ok (tt, m') /\ ready 0 m' /\ mgCfg m' = mgCfg m.
Proof using Type.
  intros Hr. unfold request, requestQueued, mbind, MG_bind, getM. cbv beta.
  destruct (length (mgRequests m) <? requestDepth)%nat; (eexists; split; [reflexivity|]; split; [|done]).
  - eapply ready_shell; [by apply (log_ready (FxAsked true) m)|done..].
  - by apply (entry_ready ["RequestsDropped"%string] (FxAsked false) m).
Qed.

(** A call of the request queue aside, [serve] comes to an end. *)
Definition serves (w : Wake) (l : bool) (m : Manager F) (r : bool * option gostring) (m' : Manager F) : Prop :=
  exists fuel0, forall fuel, (fuel0 <= fuel)%nat -> serve P fuel w l m = Ok (r, m').

Lemma shutdown_ok m : ready 0 m -> exists fuel0 m', (forall fuel, (fuel0 <= fuel)%nat -> shutdown P fuel m = Ok (tt, m')) /\
  ready 0 m' /\ mgCfg m' = mgCfg m /\ mgRequests m' = mgRequests m.
Proof using S.
  intros Hr. set (m1 := m <| mgStopping := true |>). assert (Hr1 : ready 0 m1) by (by apply (ready_shell m)).
  destruct (dispatch_ok r1Stop m1 Hr1) as (f0 & m2 & E & Hr2 & Hsh); [apply law_outside|apply law_inputs|].
  exists f0, m2. split; [intros fuel Hl; exact (E fuel Hl)|]. split; [exact Hr2|]. split; [exact (proj1 Hsh)|exact (proj1 (proj2 Hsh))].
Qed.

(** The queue holds what callers asked for. *)
Definition asked (m : Manager F) : Prop := forall ev, ev ∈ mgRequests m -> exists q, ev = r1Request q.

(** An iteration that does [c] and goes on with [r]. *)
Lemma serves_by (c : nat -> MG unit) w l m r : (forall fuel, serve P fuel w l m = (c fuel ;; mret r) m) ->
  (exists fuel0 m', (forall fuel, (fuel0 <= fuel)%nat -> c fuel m = Ok (tt, m')) /\ ready 0 m' /\ mgCfg m' = mgCfg m /\
    (mgRequests m' = mgRequests m \/ exists ev, mgRequests m = ev :: mgRequests m')) -> asked m ->
  exists m', serves w l m r m' /\ ready 0 m' /\ mgCfg m' = mgCfg m /\ asked m'.
Proof using Type.
  intros Es (f0 & m' & E & Hr & Hc & Hq) Ha. exists m'. split; [|split; [exact Hr|split; [exact Hc|]]].
  - exists f0. intros fuel Hl. rewrite Es. unfold mbind, MG_bind. by rewrite E.
  - intros ev Hev. apply Ha. destruct Hq as [<-|[ev' ->]]; [done|by right].
Qed.

(** The same of one that changes little. *)
Lemma at_once (c : MG unit) m m' : c m = Ok (tt, m') -> ready 0 m' -> same_shell m m' ->
  exists fuel0 m', (forall fuel, (fuel0 <= fuel)%nat -> c m = Ok (tt, m')) /\ ready 0 m' /\ mgCfg m' = mgCfg m /\
    (mgRequests m' = mgRequests m \/ exists ev, mgRequests m = ev :: mgRequests m').
Proof using Type. intros E Hr (? & ? & ?). exists 0%nat, m'. split; [done|]. split; [done|]. split; [done|by left]. Qed.

Lemma of_shell (c : nat -> MG unit) m :
  (exists fuel0 m', (forall fuel, (fuel0 <= fuel)%nat -> c fuel m = Ok (tt, m')) /\ ready 0 m' /\ same_shell m m') ->
  exists fuel0 m', (forall fuel, (fuel0 <= fuel)%nat -> c fuel m = Ok (tt, m')) /\ ready 0 m' /\ mgCfg m' = mgCfg m /\
    (mgRequests m' = mgRequests m \/ exists ev, mgRequests m = ev :: mgRequests m').
Proof using Type. intros (f0 & m' & E & Hr & (? & ? & ?)). exists f0, m'. split; [done|]. split; [done|]. split; [done|by left]. Qed.

Lemma of_shutdown m : ready 0 m ->
  exists fuel0 m', (forall fuel, (fuel0 <= fuel)%nat -> shutdown P fuel m = Ok (tt, m')) /\ ready 0 m' /\ mgCfg m' = mgCfg m /\
    (mgRequests m' = mgRequests m \/ exists ev, mgRequests m = ev :: mgRequests m').
Proof using S. intros Hr. destruct (shutdown_ok m Hr) as (f0 & m' & E & Hr' & Hc & Hq). exists f0, m'. split; [done|]. split; [done|]. split; [done|by left]. Qed.

Lemma of_request m : ready 0 m -> asked m ->
  exists fuel0 m', (forall fuel, (fuel0 <= fuel)%nat ->
    match mgRequests m with [] => mret tt | ev :: evs => modM (fun m => m <| mgRequests := evs |>) ;; dispatch P fuel ev end m = Ok (tt, m')) /\
    ready 0 m' /\ mgCfg m' = mgCfg m /\ (mgRequests m' = mgRequests m \/ exists ev, mgRequests m = ev :: mgRequests m').
Proof using S.
  intros Hr Ha. destruct (mgRequests m) as [|ev evs] eqn:Eq.
  { exists 0%nat, m. split; [done|]. split; [done|]. split; [done|by left]. }
  set (m1 := m <| mgRequests := evs |>). assert (Hr1 : ready 0 m1) by (by apply (ready_shell m)).
  destruct (Ha ev) as [q ->]; [rewrite Eq; by left|].
  destruct (dispatch_ok (r1Request q) m1 Hr1) as (f0 & m2 & E & Hr2 & (H1 & H2 & H3)); [apply law_outside|apply law_inputs|].
  exists f0, m2. split; [intros fuel Hl; exact (E fuel Hl)|]. split; [exact Hr2|]. split; [exact H1|right; exists (r1Request q)]. by rewrite H2.
Qed.

(** Whatever wakes [Run], the iteration comes to an end. *)
Lemma serve_ok w l m : ready 0 m -> timely m w = true -> asked m ->
  exists r m', serves w l m r m' /\ ready 0 m' /\ mgCfg m' = mgCfg m /\ asked m'.
Proof using S.
  intros Hr Ht Ha. destruct w as [|err|i| |i| |t|]; eexists.
  - apply (serves_by (fun fuel => match mgRequests m with [] => mret tt | ev :: evs => modM (fun m => m <| mgRequests := evs |>) ;; dispatch P fuel ev end)
      WakeRequest l m (l, None)); [reflexivity| |exact Ha]. by apply of_request.
  - apply (serves_by (fun fuel => shutdown P fuel) (WakeDone err) l m (l, Some err)); [reflexivity| |exact Ha]. by apply of_shutdown.
  - apply (serves_by (fun fuel => r1OnInbound (dispatch P fuel) i) (WakeInbound i) l m (l, None)); [reflexivity| |exact Ha].
    apply (of_shell (fun fuel => r1OnInbound (dispatch P fuel) i)). apply (handler_ok (fun disp => r1OnInbound disp i) (fun _ => True) m Hr I).
    destruct (law_inbound i m) as (m' & r & H1 & H2 & H3). exists m', r. split; [exact H1|split; [exact H2|]]. intros ev e Hev _. by apply H3.
  - apply (serves_by (fun fuel => shutdown P fuel) WakeInboundClosed l m (l, Some (ascii_bytes "lease: transport closed"))); [reflexivity| |exact Ha]. by apply of_shutdown.
  - apply (serves_by (fun fuel => whenM l (r1OnLink (dispatch P fuel) i)) (WakeLink i) l m (l, None)); [reflexivity| |exact Ha].
    destruct l; cbn [whenM]; [|by apply (at_once _ m m)].
    apply (of_shell (fun fuel => r1OnLink (dispatch P fuel) i)). exact (handler_ok (fun disp => r1OnLink disp i) (fun e => lAccepts e (WakeLink i) = true) m Hr Ht (law_link i m)).
  - apply (serves_by (fun _ => whenM l (journalNote r1LinkClosed)) WakeLinkClosed l m (false, None)); [reflexivity| |exact Ha].
    destruct l; cbn [whenM]; [|by apply (at_once _ m m)]. eapply at_once; [reflexivity| |by split_and!]. by apply log_ready.
  - apply (serves_by (fun fuel => logM (FxFired t) ;; bumpM (incStat "TimerFires") ;; dispatch P fuel (r1Fired t)) (WakeFired t) l m (l, None)); [reflexivity| |exact Ha].
    set (m1 := m <| mgLog := FxFired t :: mgLog m |> <| mgStats := incStat "TimerFires" (mgStats m) |>).
    assert (Hr1 : ready 0 m1) by (by apply (entry_ready ["TimerFires"%string] (FxFired t) m)).
    destruct (dispatch_ok (r1Fired t) m1 Hr1) as (f0 & m2 & E & Hr2 & Hsh); [apply law_outside|by apply law_timely|].
    apply (of_shell (fun fuel => logM (FxFired t) ;; bumpM (incStat "TimerFires") ;; dispatch P fuel (r1Fired t))). exists f0, m2. split; [intros fuel Hl; exact (E fuel Hl)|]. by split.
  - apply (serves_by (fun fuel => shutdown P fuel) WakeFiredClosed l m (l, Some (ascii_bytes "lease: timers closed"))); [reflexivity| |exact Ha]. by apply of_shutdown.
Qed.

(** ** More fuel *)

Definition mono {A} (c : nat -> MG A) : Prop :=
  forall fuel fuel' m r, (fuel <= fuel')%nat -> c fuel m = Ok r -> c fuel' m = Ok r.

Lemma mono_const {A} (c : MG A) : mono (fun _ => c).
Proof using Type. by intros fuel fuel' m r _. Qed.

Lemma mono_bind {A B} (c : nat -> MG A) (f : nat -> A -> MG B) : mono c -> (forall a, mono (fun fuel => f fuel a)) ->
  mono (fun fuel => c fuel ≫= f fuel).
Proof using Type.
  intros Hc Hf fuel fuel' m r Hl Hr. unfold mbind, MG_bind in *. destruct (c fuel m) as [[a m1]| | |] eqn:E; try done.
  rewrite (Hc _ _ _ _ Hl E). by apply (Hf a fuel).
Qed.

Lemma mono_dispatch ev : mono (fun fuel => dispatch P fuel ev).
Proof using Type. intros fuel fuel' m [[] m'] Hl Hr. by eapply dispatchLoop_mono. Qed.

Lemma mono_handler (c : (event -> MG unit) -> MG unit) :
  (forall m, exists m' r, forall disp, c disp m = match r with Some ev => disp ev m' | None => Ok (tt, m') end) ->
  mono (fun fuel => c (dispatch P fuel)).
Proof using Type.
  intros Hc fuel fuel' m r Hl Hr. destruct (Hc m) as (m' & [ev|] & E); rewrite E in *; [by eapply mono_dispatch|done].
Qed.

Lemma mono_serve w l : mono (fun fuel => serve P fuel w l).
Proof using S.
  assert (Hsd : mono (fun fuel => shutdown P fuel)) by (apply (mono_bind (fun _ => _)); [apply mono_const|intros []; apply mono_dispatch]).
  destruct w as [|err|i| |i| |t|]; cbn [serve].
  - apply (mono_bind (fun _ => getM)); [apply mono_const|]. intros m. apply mono_bind; [|intros []; apply mono_const].
    destruct (mgRequests m) as [|ev evs]; [apply mono_const|]. apply (mono_bind (fun _ => modM _)); [apply mono_const|]. intros []. apply mono_dispatch.
  - apply mono_bind; [exact Hsd|intros []; apply mono_const].
  - apply mono_bind; [|intros []; apply mono_const]. apply (mono_handler (fun disp => r1OnInbound disp i)).
    intros m. destruct (law_inbound i m) as (m' & r & E & _). by exists m', r.
  - apply mono_bind; [exact Hsd|intros []; apply mono_const].
  - apply mono_bind; [|intros []; apply mono_const]. destruct l; cbn [whenM]; [|apply mono_const].
    apply (mono_handler (fun disp => r1OnLink disp i)). intros m. destruct (law_link i m) as (m' & r & E & _). by exists m', r.
  - apply mono_const.
  - apply (mono_bind (fun _ => logM _)); [apply mono_const|]. intros []. apply (mono_bind (fun _ => bumpM _)); [apply mono_const|]. intros []. apply mono_bind; [apply mono_dispatch|intros []; apply mono_const].
  - apply mono_bind; [exact Hsd|intros []; apply mono_const].
Qed.

(** ** Runs *)

(** No timer fires in the run but one that could have. *)
Fixpoint timelyAll (fuel : nat) (ms : list Moment) (l : bool) (m : Manager F) : bool :=
  match ms with
  | [] => true
  | Caller q :: ms => match request q m with Ok (_, m') => timelyAll fuel ms l m' | _ => true end
  | Select w :: ms =>
    timely m w && match serve P fuel w l m with Ok ((l', None), m') => timelyAll fuel ms l' m' | _ => true end
  end.

Definition timelyRun (fuel : nat) (ms : list Moment) (m : Manager F) : bool :=
  match dispatch P fuel r1Start m with Ok (_, m') => timelyAll fuel ms (r1HasLink (mgCfg m')) m' | _ => true end.

(** A manager no one has run: as [NewManager] leaves it. *)
Definition fresh_manager (m : Manager F) : Prop := ready 0 m /\ mgRequests m = [].

Lemma asked_request q m m' : asked m -> request q m = Ok (tt, m') -> asked m'.
Proof using Type.
  unfold request, requestQueued, mbind, MG_bind, getM, asked. cbv beta. intros Ha. destruct (_ <? _)%nat; intros [= <-]; [|exact Ha].
  intros ev Hev. change (ev ∈ mgRequests m ++ [r1Request q]) in Hev. apply elem_of_app in Hev as [Hev|Hev]; [by apply Ha|].
  apply list_elem_of_singleton in Hev as ->. by exists q.
Qed.

(** From a manager in order the loop ends, if the timers fire in order. *)
Lemma serveAll_ok ms : forall l m, ready 0 m -> asked m ->
  exists fuel0, forall fuel, (fuel0 <= fuel)%nat -> timelyAll fuel ms l m = true ->
    exists r m', serveAll P fuel ms l m = Ok (r, m') /\ ready 0 m' /\ asked m' /\ mgCfg m' = mgCfg m.
Proof using S.
  induction ms as [|[q|w] ms IH]; intros l m Hr Ha.
  - exists 0%nat. intros fuel _ _. exists None, m. by split_and!.
  - destruct (request_ok q m Hr) as (m1 & E & Hr1 & Hc1). pose proof (asked_request q m m1 Ha E) as Ha1.
    destruct (IH l m1 Hr1 Ha1) as [f0 Hf0]. exists f0. intros fuel Hl Ht. cbn [timelyAll] in Ht. rewrite E in Ht.
    destruct (Hf0 fuel Hl Ht) as (r & m2 & E2 & Hr2 & Ha2 & Hc2). exists r, m2. split; [|by rewrite Hc2].
    cbn [serveAll]. unfold mbind, MG_bind. by rewrite E.
  - destruct (timely m w) eqn:Etm.
    2: { exists 0%nat. intros fuel _ Ht. cbn [timelyAll] in Ht. by rewrite Etm in Ht. }
    destruct (serve_ok w l m Hr Etm Ha) as ([l1 e] & m1 & [f1 E] & Hr1 & Hc1 & Ha1).
    destruct e as [err|].
    { exists f1. intros fuel Hl _. exists (Some err), m1. split; [|by split]. cbn [serveAll]. unfold mbind, MG_bind. by rewrite E. }
    destruct (IH l1 m1 Hr1 Ha1) as [f0 Hf0]. exists (max f0 f1). intros fuel Hl Ht. cbn [timelyAll] in Ht.
    rewrite Etm, (E fuel ltac:(lia)) in Ht. cbn [andb] in Ht.
    destruct (Hf0 fuel ltac:(lia) Ht) as (r & m2 & E2 & Hr2 & Ha2 & Hc2). exists r, m2. split; [|by rewrite Hc2].
    cbn [serveAll]. unfold mbind, MG_bind. by rewrite (E fuel ltac:(lia)).
Qed.

(** With fuel enough [Run] comes to the end of any moments. *)
Lemma Run_ends ms m : fresh_manager m -> exists fuel0, forall fuel, (fuel0 <= fuel)%nat -> timelyRun fuel ms m = true ->
  exists r m', Run P fuel ms m = Ok (r, m').
Proof using S.
  intros [Hr Hq]. destruct (dispatch_ok r1Start m Hr) as (f1 & m1 & E & Hr1 & (Hc1 & Hq1 & _)); [apply law_outside|apply law_inputs|].
  assert (Ha1 : asked m1) by (intros ev Hev; rewrite Hq1, Hq in Hev; by apply elem_of_nil in Hev).
  destruct (serveAll_ok ms (r1HasLink (mgCfg m1)) m1 Hr1 Ha1) as [f0 Hf0]. exists (max f0 f1). intros fuel Hl Ht.
  unfold timelyRun in Ht. rewrite (E fuel ltac:(lia)) in Ht. destruct (Hf0 fuel ltac:(lia) Ht) as (r & m2 & E2 & _).
  unfold Run, mbind, MG_bind. rewrite (E fuel ltac:(lia)). unfold getM. rewrite E2. destruct (bool_decide (is_Some r)); cbn; by eexists _, _.
Qed.

(** What a run that ended left, whatever its fuel was. *)
Lemma serve_left fuel w l m r m' : ready 0 m -> timely m w = true -> asked m -> serve P fuel w l m = Ok (r, m') ->
  ready 0 m' /\ mgCfg m' = mgCfg m /\ asked m'.
Proof using S.
  intros Hr Ht Ha E. destruct (serve_ok w l m Hr Ht Ha) as (r1 & m1 & [f0 E1] & Hg).
  assert (E2 : serve P (max f0 fuel) w l m = Ok (r, m')) by (apply (mono_serve w l fuel); [lia|exact E]).
  rewrite (E1 (max f0 fuel) ltac:(lia)) in E2. injection E2 as <- <-. exact Hg.
Qed.

Lemma serveAll_left fuel ms : forall l m r m', ready 0 m -> asked m -> timelyAll fuel ms l m = true ->
  serveAll P fuel ms l m = Ok (r, m') -> ready 0 m'.
Proof using S.
  induction ms as [|[q|w] ms IH]; intros l m r m' Hr Ha Ht E; cbn [serveAll timelyAll] in E, Ht.
  - by injection E as _ <-.
  - destruct (request_ok q m Hr) as (m1 & E1 & Hr1 & _). unfold mbind, MG_bind in E. rewrite E1 in E, Ht.
    exact (IH _ _ _ _ Hr1 (asked_request q m m1 Ha E1) Ht E).
  - apply andb_true_iff in Ht as [Hw Ht]. unfold mbind, MG_bind in E.
    destruct (serve P fuel w l m) as [[[l1 e] m1]| | |] eqn:E1; try done.
    destruct (serve_left _ _ _ _ _ _ Hr Hw Ha E1) as (Hr1 & _ & Ha1). destruct e as [err|]; cbn [snd fst] in E; [by injection E as _ <-|].
    exact (IH _ _ _ _ Hr1 Ha1 Ht E).
Qed.

Lemma Run_left fuel ms m r m' : fresh_manager m -> timelyRun fuel ms m = true -> Run P fuel ms m = Ok (r, m') -> ready 0 m'.
Proof using S.
  intros [Hr Hq] Ht E. unfold Run, timelyRun, mbind, MG_bind, getM in E, Ht.
  destruct (dispatch P fuel r1Start m) as [[[] m1]| | |] eqn:E1; try done.
  destruct (dispatch_ok r1Start m Hr) as (f1 & m2 & E2 & Hr2 & (_ & Hq2 & _)); [apply law_outside|apply law_inputs|].
  assert (Em : m2 = m1).
  { pose proof (mono_dispatch r1Start fuel (max fuel f1) m (tt, m1) ltac:(lia) E1) as E3. cbv beta in E3. rewrite (E2 (max fuel f1) ltac:(lia)) in E3. by injection E3. }
  subst m2. assert (Ha1 : asked m1) by (intros ev Hev; rewrite Hq2, Hq in Hev; by apply elem_of_nil in Hev).
  destruct (serveAll P fuel ms (r1HasLink (mgCfg m1)) m1) as [[r1 m3]| | |] eqn:E3; try done.
  pose proof (serveAll_left _ _ _ _ _ _ Hr2 Ha1 Ht E3) as Hr3.
  destruct (bool_decide (is_Some r1)); cbn in E; injection E as _ <-; [by apply log_ready|done].
Qed.
End run.
