(* ===== verification/Manager4.v ===== *)
(** * The manager of a DHCPv4 lease: lease/manager.go

    [NewManager], the arms of [drain] a DHCPv4 machine's actions take, what is
    mirrored after a step, and the handlers of datagrams and of ARP frames. *)

From S2P Require Import Prelude NetAddr Options Codec Arp Backoff Kinds Lease Acd Params Core Machine Dhcp6 Icmpv6 Lease6 Params6 Router6 Outward RateLimit Record Manager.

(** ** The machine *)

(** The mirrors: the phase of conflict detection and the per-rule counters. *)
Record Mirror4 := mkMirror4 {
  mrACD : ACDPhase; mrV6Only : IPv6OnlyCounters; mrRapid : RapidCommitCounters; mrForcerenew : ForcerenewCounters }.

#[global] Instance ring4 : Ring1 := {|
  machine := Machine; event := Event; action := Action; mstate_ := State; mirror := Mirror4; r1Step := Step |}.

(** [ForcerenewCounters.RefusedTotal] *)
Definition RefusedTotal4 (c : ForcerenewCounters) : Z :=
  foldl (fun n r => u64 (n + FrRefused c r)) 0
    [ForcerenewRefusalWrongState; ForcerenewRefusalNoRaw; ForcerenewRefusalNotUnicast;
     ForcerenewRefusalNotOurAddress; ForcerenewRefusalNotThisClient; ForcerenewRefusalNoNonce;
     ForcerenewRefusalNoAuth; ForcerenewRefusalMalformedAuth; ForcerenewRefusalReplay;
     ForcerenewRefusalBadDigest; ForcerenewRefusalNoServer].

(** What [dispatch] copies after a step. *)
Definition mirror4 (m : Manager ring4) : Manager ring4 :=
  let c := mcore (mgMachine m) in
  let v := mv6OnlyCounts c in let r := mrapidCounts c in let f := mfrCounts c in
  m <| mgMirror := mkMirror4 (MachineACDPhase c) v r f |>
    <| mgHostname := mhostname c |>
    <| mgStats := setStat "ForcerenewsRefused" (RefusedTotal4 f) (setStat "ForcerenewsAckRefused" (FrAckRefused f)
        (setStat "ForcerenewsAlreadyRenewing" (FrAlreadyRenewing f) (setStat "ForcerenewsRenewed" (FrRenewed f)
        (setStat "RapidCommitsRefused" (RapidRefused r) (setStat "RapidCommitsAccepted" (RapidAccepted r)
        (setStat "IPv6OnlyMalformed" (Malformed v) (setStat "IPv6OnlyIgnored" (Ignored v)
        (setStat "IPv6OnlyWaited" (Waited v) (mgStats m))))))))) |>.

(** What [emit] adds. *)
Definition fill4 (m : Machine) (_ : Configuration) (e : LEvent) : LEvent :=
  mkLEvent (evKind e) (evLease e) (evReason e) (evNote e) (evRequested e) (MachineACDPhase (mcore m)) (evDAD e)
    (evConfig e) FamilyV4 (evStatus e) (evRouter e).

(** ** The arms of [drain] *)

Section exec.
Context (P : Ports ring4).

(** [countSent] *)
Definition countSent (msg : Message) (s : Stats) : Stats :=
  match Type_ msg with
  | None => s
  | Some t =>
    if t =? MsgDecline then incStat "DeclinesSent" s else
    if t =? MsgRelease then incStat "ReleasesSent" s else
    if (t =? MsgRequest) && Is4 (CIAddr msg) && negb (IsUnspecified (CIAddr msg)) then incStat "RenewalsSent" s else s
  end.

Definition exec4 (a : Action) (b : clockBridge) : MG (option Event) :=
  match ActBody a with
  | ActSend msg d =>
    caseM (Encode msg)
      (fun e => sendFailed "SendFailures" (EvActionFailed (ActID a) (ascii_bytes "encode: " ++ errText P e)))
      (fun raw =>
        err ← Send_ P d raw;
        match err with
        | Some e => sendFailed "SendFailures" (EvActionFailed (ActID a) e)
        | None =>
          bumpM (incStat "Sent") ;; bumpM (countSent msg) ;;
          logM (FxRecord (mkCaptured (cbWall b) DirOut raw (Some msg) None None)) ;; mret None
        end)
  | ActSendARP p =>
    caseM (EncodeARP p)
      (fun e => sendFailed "ARPSendFailures" (EvActionFailed (ActID a) (ascii_bytes "encode ARP: " ++ errText P e)))
      (fun raw =>
        m ← getM;
        if negb (cfARP (mgCfg m)) then sendFailed "ARPSendFailures" (EvActionFailed (ActID a) (ascii_bytes "no ARP port")) else
        err ← SendARP_ P raw;
        match err with
        | Some e => sendFailed "ARPSendFailures" (EvActionFailed (ActID a) e)
        | None =>
          bumpM (incStat (if IsProbe p then "ProbesSent" else "AnnouncementsSent")) ;;
          logM (FxRecord (mkCaptured (cbWall b) DirOut raw None None (Some p))) ;; mret None
        end)
  | ActSetTimer t d => logM (FxSetTimer t d) ;; mret None
  | ActCancelTimer t => logM (FxCancelTimer t) ;; mret None
  | ActLeaseAcquired l requested => gainM P fill4 Acquired (toLease l b) requested (incStat "LeasesAcquired") ;; mret None
  | ActLeaseRenewed l => gainM P fill4 Renewed (toLease l b) AddrZero (incStat "RenewalsCompleted") ;; mret None
  | ActLeaseChanged l => gainM P fill4 Changed (toLease l b) AddrZero id ;; mret None
  | ActLeaseLost r => loseM P fill4 false r ;; mret None
  | ActFailed r n => failM P fill4 false r n StatusSuccess ;; mret None
  | ActJournal _ | ActRouterObserved => mret None
  (** the DHCPv6 machine's kinds: its ports are nil here, and a DHCPv4 machine
      asks for none of them ([performs4] of Manager4Laws) *)
  | ActSendRouterSolicit | ActStartDAD | ActConfigured | ActSendV6 => fun _ => Panic
  end.

(** ** The handlers *)

Definition onInbound4 (disp : Event -> MG unit) (i : Inbound) : MG unit :=
  logM (FxReceive i) ;;
  match inErr i with
  | Some e =>
    bumpM (incStat "TransportErrors") ;;
    at_ ← Wall P;
    logM (FxRecord (mkCaptured at_ DirIn [] None (Some e) None))
  | None =>
    bumpM (incStat "Received") ;;
    caseM (Decode (inPayload i))
      (fun e =>
        at_ ← Wall P;
        logM (FxRecord (mkCaptured at_ DirIn (inPayload i) None (Some (errText P e)) None)) ;;
        bumpM (incStat "DecodeFailures"))
      (fun msg =>
        whenM (bool_decide (Type_ msg = Some MsgNak)) (bumpM (incStat "NaksSeen")) ;;
        at_ ← Wall P;
        logM (FxRecord (mkCaptured at_ DirIn (inPayload i) (Some msg) None None)) ;;
        disp (EvReceived (Some msg) (inPayload i) (inTo i)))
  end.

(** [onARP] *)
Definition onARP (disp : Event -> MG unit) (i : LinkInbound) : MG unit :=
  logM (FxReceiveARP i) ;;
  match liErr i with
  | Some _ => bumpM (incStat "ARPErrors")
  | None =>
    caseM (DecodeARP (liFrame i))
      (fun _ => bumpM (fun s => incStat "ARPDecodeFailures" (incStat "ARPSeen" s)))
      (fun p =>
        m ← getM;
        if negb (ARPRelevant (mcore (mgMachine m)) (Some p)) then bumpM (fun s => incStat "ARPIgnored" (incStat "ARPSeen" s)) else
        bumpM (incStat "ARPSeen") ;;
        at_ ← Wall P;
        logM (FxRecord (mkCaptured at_ DirIn (liFrame i) None None (Some p))) ;;
        disp (EvARPReceived (Some p)))
  end.

Definition request4 (q : Request) : Event :=
  match q with
  | QRelease => EvRelease
  | QConflict => EvConflictDetected
  | QAddressLost => EvAddressLost
  | QDADResult a dup => EvDADResult a dup
  | QSetHostname n => EvSetHostname n
  end.

#[global] Instance handler4 : Handler ring4 := {|
  r1Fill := fill4; r1Mirror := mirror4; r1Exec := exec4;
  r1Start := EvStart; r1Stop := EvStop; r1Fired := EvTimerFired; r1Request := request4;
  r1HasLink := cfARP;
  r1LinkClosed := note "the ARP socket closed: RFC 5227 2.4 ongoing conflict detection has stopped for this lease" [];
  r1OnInbound := onInbound4; r1OnLink := onARP |}.
End exec.

(** ** [NewManager] *)

Inductive ManagerErr :=
| ErrNoTransport | ErrNoClock | ErrNoTimers | ErrNoEntropy | ErrNoARP | ErrResumeTwice | ErrResumeNoAddr

(** an error of [proto.New] *)
| ErrParams (e : ParamErr).

(** [NewManager] without Params6.  The clock is read once, for a resumed lease;
    [b] is what it shows then. *)
Definition NewManager4 (cfg : Config) (b : clockBridge) : ManagerErr + Manager ring4 :=
  if negb (cfTransport cfg) then inl ErrNoTransport else
  if negb (cfClock cfg) then inl ErrNoClock else
  if negb (cfTimers cfg) then inl ErrNoTimers else
  if negb (cfEntropy cfg) then inl ErrNoEntropy else
  let params := cfParams cfg in
  if negb (bool_decide (pConflict params = ConflictOff)) && negb (cfARP cfg) then inl ErrNoARP else
  let resumed : ManagerErr + Params :=
    match cfResume cfg with
    | None => inr params
    | Some l =>
      match pResume params with
      | Some _ => inl ErrResumeTwice
      | None =>
        let addr := paddr (oAddr l) in
        if negb (Is4 addr) || IsUnspecified addr then inl ErrResumeNoAddr else
        inr (params <| pResume := Some (if negb (IsZero (oExpire l)) then mkResume addr (instant b (oExpire l)) true
                                        else mkResume addr 0 false) |>)
      end
    end in
  match resumed with
  | inl e => inl e
  | inr params =>
    match New params with
    | inl e => inl (ErrParams e)
    | inr m =>
      inr (mkManager cfg m (mkMirror4 ACDIdle (mkV6Only 0 0 0) (mkRapid 0 0) (mkFr 0 0 0 (fun _ => 0))) (mhostname (mcore m))
        [] false olease_zero false 0 (mkConfiguration [] [] 0) stats_zero [])
    end
  end.

(** ** What a caller reads and asks for *)

(** [Manager.Lease] *)
Definition Lease4 (m : Manager ring4) : OLease * bool := (mgLease m, mgHeld m).

Inductive HostnameErr := ErrHostnameFQDN | ErrHostnameSyntax | ErrRequestQueueFull.

(** [SetHostname] *)
Definition SetHostname4 (name : gostring) : MG (F := ring4) (option HostnameErr) :=
  m ← getM;
  if negb (length (FQDNName (pFQDN (cfParams (mgCfg m)))) =? 0)%nat then mret (Some ErrHostnameFQDN) else
  if negb (ValidateHostname name) then mret (Some ErrHostnameSyntax) else
  ok ← requestQueued (EvSetHostname name);
  mret (if ok : bool then None else Some ErrRequestQueueFull).
