(* ===== verification/Manager4Laws.v ===== *)
(** * The DHCPv4 manager obeys the laws

    The machine's invariant and its observer give the laws of steps; the arms of
    [drain] and the handlers are executed symbolically. *)

From S2P Require Import Prelude NetAddr Options Codec Forcerenew Values Arp Backoff Kinds Lease Acd Params Core Machine MachineSpec MachineLogic Messages MachineInv MachineSteps MachineRun Dhcp6 Icmpv6 Lease6 Params6 Router6 Outward RateLimit Record Manager ManagerLogic ManagerRun Manager4.

(** ** A failed send is answered without sending *)

Definition sends4 (a : Action) : bool := match ActBody a with ActSend _ _ | ActSendARP _ => true | _ => false end.

(** A method that sends nothing. *)
Definition silent {A} (c : M A) : Prop :=
  forall s a s', c s = Some (a, s') -> exists acts, out s' = out s ++ acts /\ Forall (fun a => sends4 a = false) acts.

Lemma silent_ret {A} (a : A) : silent (mret a).
Proof. intros s a' s' [= _ <-]. exists []. by rewrite app_nil_r. Qed.
Lemma silent_bind {A B} (c : M A) (f : A -> M B) : silent c -> (forall a, silent (f a)) -> silent (c ≫= f).
Proof.
  intros Hc Hf s b s'. unfold mbind, M_bind. destruct (c s) as [[a s1]|] eqn:E; [|done]. intros E'.
  destruct (Hc _ _ _ E) as (l1 & E1 & H1). destruct (Hf a _ _ _ E') as (l2 & E2 & H2).
  exists (l1 ++ l2). split; [by rewrite E2, E1, app_assoc|by apply Forall_app].
Qed.
Lemma silent_get : silent get.
Proof. intros s a s' [= _ <-]. exists []. by rewrite app_nil_r. Qed.
Lemma silent_modify f : silent (modify f).
Proof. intros s a s' [= _ <-]. exists []. by rewrite app_nil_r. Qed.
Lemma silent_stamp b : sends4 (mkAction 0 b) = false -> silent (stamp b).
Proof. intros Hb s a s' [= _ <-]. eexists. split; [reflexivity|]. constructor; [exact Hb|constructor]. Qed.
Lemma silent_when (b : bool) c : silent c -> silent (when b c).
Proof. destruct b; [done|]. intros _. apply silent_ret. Qed.
Lemma silent_if {A} (b : bool) (c d : M A) : silent c -> silent d -> silent (if b then c else d).
Proof. by destruct b. Qed.
Lemma silent_forM {A} (l : list A) f : (forall x, silent (f x)) -> silent (forM_ l f).
Proof. intros Hf. induction l as [|x l IH]; [apply silent_ret|]. apply silent_bind; [apply Hf|intros _; exact IH]. Qed.

Create HintDb silent.
#[local] Hint Resolve silent_ret silent_get silent_modify silent_when : silent.

Ltac silent_step :=
  first
    [ apply silent_bind; [|intros ?]
    | apply silent_if
    | apply silent_when
    | apply silent_forM; intros ?
    | apply silent_stamp; reflexivity
    | solve [auto with silent]
    | match goal with |- silent (match ?x with _ => _ end) => destruct x end ].

Lemma dropLease_silent r : silent (dropLease r).
Proof. unfold dropLease, cancel. repeat silent_step. Qed.
Lemma toInitIdle_silent : silent toInitIdle.
Proof. unfold toInitIdle, acdIdle, cancelAll, cancel. repeat silent_step. Qed.
#[local] Hint Resolve dropLease_silent toInitIdle_silent : silent.

Lemma noteActionFailed_silent now rnd id reason : silent (noteActionFailed now rnd id reason).
Proof. unfold noteActionFailed, journal, failed, setTimer. repeat silent_step. Qed.
#[local] Hint Resolve noteActionFailed_silent : silent.

Lemma step_failed_silent m now rnd id reason m' to acts : Step m now rnd (EvActionFailed id reason) = Some (m', to, acts) ->
  Forall (fun a => sends4 a = false) acts.
Proof.
  unfold Step. destruct (step now rnd _ _) as [[u s]|] eqn:E; [|done]. intros [= _ _ <-].
  assert (H : silent (step now rnd (EvActionFailed id reason))).
  { unfold step. silent_step; [auto with silent|]. unfold stepState. destruct (mstate _); try apply noteActionFailed_silent.
    unfold stepStopped, journal. repeat silent_step. }
  destruct (H _ _ _ E) as (l & -> & Hl). exact Hl.
Qed.

(** ** Steps *)

Definition failed4 (ev : Event) : bool := match ev with EvActionFailed _ _ => true | _ => false end.

Definition report4 (a : Action) : Report :=
  match ActBody a with
  | ActLeaseAcquired _ _ => RGain true
  | ActLeaseRenewed _ | ActLeaseChanged _ => RGain false
  | ActLeaseLost _ => RLose
  | _ => RNothing
  end.

Definition performs4 (a : Action) : Prop :=
  match ActBody a with
  | ActSendRouterSolicit | ActStartDAD | ActConfigured | ActRouterObserved | ActSendV6 => False
  | _ => True
  end.

Lemma trace_reports p now acts : forall e, trace_ok p now e (map ActBody acts) ->
  Forall performs4 acts /\ reports_ok (holds e) (map report4 acts) /\
  holds (final now e (map ActBody acts)) = foldl held_after (holds e) (map report4 acts).
Proof.
  induction acts as [|a acts IH]; intros e; [split; [constructor|by split]|]. cbn [map trace_ok reports_ok foldl]. intros [Ha Ht].
  assert (Hh : holds (MachineSpec.observe now e (ActBody a)) = held_after (holds e) (report4 a)).
  { unfold report4. destruct (ActBody a) as [msg d| | | | | | | | | | | | | |]; cbn in Ha |- *; try done; try by destruct (is_request msg). by destruct Ha. }
  destruct (IH _ Ht) as (H1 & H2 & H3). rewrite Hh in H2, H3. split_and!; [|..|done|exact H3].
  - constructor; [|done]. unfold performs4. by destruct (ActBody a).
  - unfold report4. destruct (ActBody a); cbn in *; naive_solver.
Qed.

(** The machine's counters by the names they are mirrored under. *)
Definition mirrored4 (c : Core) : list (string * Z) :=
  [("ForcerenewsRefused", RefusedTotal4 (mfrCounts c)); ("ForcerenewsAckRefused", FrAckRefused (mfrCounts c));
   ("ForcerenewsAlreadyRenewing", FrAlreadyRenewing (mfrCounts c)); ("ForcerenewsRenewed", FrRenewed (mfrCounts c));
   ("RapidCommitsRefused", RapidRefused (mrapidCounts c)); ("RapidCommitsAccepted", RapidAccepted (mrapidCounts c));
   ("IPv6OnlyMalformed", Malformed (mv6OnlyCounts c)); ("IPv6OnlyIgnored", Ignored (mv6OnlyCounts c));
   ("IPv6OnlyWaited", Waited (mv6OnlyCounts c))]%string.

Lemma mirrored4_names c : Forall (.∈ statsNames) (map fst (mirrored4 c)) /\ NoDup (map fst (mirrored4 c)).
Proof. split; apply (bool_decide_unpack _); vm_compute; reflexivity. Qed.

Definition inv4 (m : Machine) (e : Env) : Prop := exists p, params_wf p /\ InvOf False p (mcore m) e.

Section served.
Context (P : Ports ring4).

Lemma step4 m e now rnd ev : inv4 m e -> exists m' to acts,
  Step m now rnd ev = Some (m', to, acts) /\ inv4 m' (final now (fire ev e) (map ActBody acts)) /\
  Forall performs4 acts /\ reports_ok (holds e) (map report4 acts) /\
  holds (final now (fire ev e) (map ActBody acts)) = foldl held_after (holds e) (map report4 acts).
Proof.
  intros (p & Hp & Hi). destruct (Step_inv False p m now rnd ev e Hp Hi (False_ind _)) as (m' & acts & E & _ & Ht & Hi').
  eexists _, _, _. split; [exact E|]. split; [by exists p|].
  assert (Hf : holds (fire ev e) = holds e) by (by destruct ev). rewrite <- Hf. by eapply trace_reports.
Qed.

#[global] Program Instance lawful4 : Lawful (handler4 P) := {|
  env := Env; lStart := env0; lInv := inv4; lInput := fun _ _ => True;
  lAfter := fun now ev acts e => final now (fire ev e) (map ActBody acts);
  lHolds := holds; lFailed := failed4; lSends := sends4; lReport := report4; lPerforms := performs4;
  lShows := fun l shown => shown = l; lXi := fun _ _ => True; lAccepts := fun _ _ => true;
  lMirrored := fun m => mirrored4 (mcore m) |}.
Next Obligation. intros. by apply step4. Qed.
Next Obligation. intros m now rnd ev m' to acts Hf E. destruct ev; try done. by eapply step_failed_silent. Qed.
Next Obligation. done. Qed.
Next Obligation. done. Qed.
Next Obligation. intros e. by split_and!. Qed.
Next Obligation. split_and!; try done. by intros []. Qed.
Next Obligation. done. Qed.
Next Obligation. intros mc. by apply (bool_decide_unpack _). Qed.

(** ** The arms of [drain] *)

Lemma encodeOptions_total o cs : forall buf, returns (encodeOptions o cs buf).
Proof.
  induction cs as [|c cs IH]; intros buf; cbn [encodeOptions]; [done|].
  destruct (_ || _)%bool; [apply IH|]. cbv zeta. destruct (_ <? _)%nat; [done|apply IH].
Qed.

Lemma Encode_total m : returns (Encode m).
Proof. unfold Encode. destruct (_ <? _)%nat; [done|]. apply returns_bind; [apply encodeOptions_total|done]. Qed.

Lemma EncodeARP_total p : returns (EncodeARP p).
Proof. unfold EncodeARP. by repeat (destruct (_ : bool); [done|]). Qed.

Lemma fill4_ok : fills (H := handler4 P) fill4 false.
Proof. intros m c e. by split_and!. Qed.

Definition done4 (a : Action) (m : Manager ring4) (r : option Event) (m' : Manager ring4) : Prop :=
  doing (H := handler4 P) (if r is Some _ then 1 else 0) m m' /\ mgHeld m' = held_after (mgHeld m) (report4 a) /\
  match r with Some ev => failed4 ev = true /\ sends4 a = true | None => True end.

(** The end of an arm that reports no lease. *)
Lemma arm_none a m m' : report4 a = RNothing -> did (H := handler4 P) 0 m m' -> done4 a m None m'.
Proof. intros Hr [Hd Hh]. split; [exact Hd|]. by rewrite Hr. Qed.

Lemma arm_failed a m m' id txt : report4 a = RNothing -> sends4 a = true -> did (H := handler4 P) 1 m m' ->
  done4 a m (Some (EvActionFailed id txt)) m'.
Proof. intros Hr Hs [Hd Hh]. split; [exact Hd|]. by rewrite Hr. Qed.

(** The failure of a send is counted and handed back. *)
Lemma wpm_failed4 n a m0 m id txt : bump_ok (F := ring4) [n] = true -> failing [n] = 1 -> report4 a = RNothing -> sends4 a = true ->
  did (H := handler4 P) 0 m0 m -> wpm (sendFailed n (EvActionFailed id txt)) (done4 a m0) m.
Proof.
  intros Hb Hf Hr Hs Hd. unfold sendFailed. msteps.
  pose proof (did_bump [n] 0 m0 m Hb Hd) as H1. rewrite Hf in H1. by apply arm_failed.
Qed.

Definition sentNames (msg : Message) : list string :=
  match Type_ msg with
  | None => []
  | Some t =>
    if t =? MsgDecline then ["DeclinesSent"%string] else
    if t =? MsgRelease then ["ReleasesSent"%string] else
    if (t =? MsgRequest) && Is4 (CIAddr msg) && negb (IsUnspecified (CIAddr msg)) then ["RenewalsSent"%string] else []
  end.

Lemma countSent_eq msg s : countSent msg s = incAll (sentNames msg) s.
Proof. unfold countSent, sentNames. destruct (Type_ msg) as [t|]; [|reflexivity].
  destruct (t =? MsgDecline); [reflexivity|]. destruct (t =? MsgRelease); [reflexivity|]. by destruct (_ && _ && _)%bool.
Qed.

(** The packet ring's entry is counted by the name of its type. *)
Lemma sentNames_ok msg t raw : entry_ok (F := ring4) (sentNames msg) (FxRecord (mkCaptured t DirOut raw (Some msg) None None)) = true /\
  failing (sentNames msg) = 0.
Proof.
  unfold entry_ok. rewrite !andb_true_r. unfold sentNames. destruct (Type_ msg) as [ty|] eqn:E; [|split; [counts_by|done]].
  destruct (ty =? MsgDecline) eqn:E1; [|destruct (ty =? MsgRelease) eqn:E2; [|destruct ((ty =? MsgRequest) && Is4 (CIAddr msg) && negb (IsUnspecified (CIAddr msg))) eqn:E3]].
  - apply Z.eqb_eq in E1 as ->. split; [counts_by|done].
  - apply Z.eqb_eq in E2 as ->. split; [counts_by|done].
  - split; [counts_by|done].
  - split; [counts_by|done].
Qed.

Lemma send4_ok a msg d b m : ActBody a = ActSend msg d -> consistent_ (H := handler4 P) m -> wpm (exec4 P a b) (done4 a m) m.
Proof.
  intros E Hc. assert (Hr : report4 a = RNothing) by (unfold report4; by rewrite E).
  assert (Hs : sends4 a = true) by (unfold sends4; by rewrite E).
  pose proof (did_refl (H := handler4 P) m Hc) as H0. unfold exec4. rewrite E. apply wpm_case; [apply Encode_total| |].
  - intros e _. by apply wpm_failed4.
  - intros raw _. mstep. mstep. destruct a0 as [e|].
    + apply wpm_failed4; try done. by apply did_log.
    + do 6 mstep. apply arm_none; [done|]. rewrite countSent_eq. destruct (sentNames_ok msg (cbWall b) raw) as [H1 H2].
      pose proof (did_entry ["Sent"%string] (FxSend d raw None) 0 m m eq_refl H0) as H3.
      apply (did_entry _ _ _ _ _ H1) in H3. rewrite H2 in H3. exact H3.
Qed.

Lemma sendARP_ok a p b m : ActBody a = ActSendARP p -> consistent_ (H := handler4 P) m -> wpm (exec4 P a b) (done4 a m) m.
Proof.
  intros E Hc. assert (Hr : report4 a = RNothing) by (unfold report4; by rewrite E).
  assert (Hs : sends4 a = true) by (unfold sends4; by rewrite E).
  pose proof (did_refl (H := handler4 P) m Hc) as H0. unfold exec4. rewrite E. apply wpm_case; [apply EncodeARP_total| |].
  - intros e _. by apply wpm_failed4.
  - intros raw _. do 2 mstep. destruct (negb _); [by apply wpm_failed4|]. do 2 mstep. destruct a0 as [e|].
    + apply wpm_failed4; try done. by apply did_log.
    + do 4 mstep. apply arm_none; [done|].
      assert (H1 : did (H := handler4 P) 0 m (m <| mgLog := FxSendARP raw None :: mgLog m |>)) by (by apply did_log).
      set (x := FxRecord (mkCaptured (cbWall b) DirOut raw None None (Some p))).
      assert (Hx : entry_ok (F := ring4) [if IsProbe p then "ProbesSent" else "AnnouncementsSent"]%string x = true).
      { unfold entry_ok. rewrite !andb_true_r. destruct (IsProbe p) eqn:Ep; unfold x; counts_by. }
      apply (did_entry _ x _ _ _ Hx) in H1. destruct (IsProbe p); exact H1.
Qed.

Lemma exec4_ok a b m : performs4 a -> consistent_ (H := handler4 P) m -> report_ok (mgHeld m) (report4 a) -> wpm (exec4 P a b) (done4 a m) m.
Proof.
  intros Hp Hc Hr. pose proof (did_refl (H := handler4 P) m Hc) as H0.
  destruct (ActBody a) as [msg d|t d|t|l req|l|l|r|r n|n|p| | | | |] eqn:E; unfold performs4 in Hp; rewrite E in Hp; try done.
  all: try (by eapply send4_ok); try (by eapply sendARP_ok).
  all: assert (Er : report4 a = match ActBody a with ActLeaseAcquired _ _ => RGain true | ActLeaseRenewed _ | ActLeaseChanged _ => RGain false
    | ActLeaseLost _ => RLose | _ => RNothing end) by done; rewrite E in Er; rewrite Er in Hr; cbn in Hr; unfold exec4; rewrite E.
  - msteps. apply arm_none; [done|]. by apply did_log.
  - msteps. apply arm_none; [done|]. by apply did_log.
  - mstep. apply (gain_ok P fill4 false fill4_ok Acquired _ _ ["LeasesAcquired"%string]); try done.
    intros m' Hd Hh. msteps. split; [exact Hd|]. by rewrite Er.
  - mstep. apply (gain_ok P fill4 false fill4_ok Changed _ _ []); try done.
    intros m' Hd Hh. msteps. split; [exact Hd|]. by rewrite Er.
  - mstep. apply (gain_ok P fill4 false fill4_ok Renewed _ _ ["RenewalsCompleted"%string]); try done.
    intros m' Hd Hh. msteps. split; [exact Hd|]. by rewrite Er.
  - mstep. apply (lose_ok P fill4 false fill4_ok); try done. intros m' Hd Hh. msteps. split; [exact Hd|]. by rewrite Er.
  - mstep. apply (fail_ok P fill4 false fill4_ok); try done. intros m' Hd Hh. msteps. by apply arm_none.
  - msteps. by apply arm_none.
Qed.

(** ** The handlers *)

Lemma mirror4_ok m : sized_stats (mgStats m) -> let m' := mirror4 m in
  steady m m' /\ mgLog m' = mgLog m /\ mgLease m' = mgLease m /\ mgHeld m' = mgHeld m /\
  sized_stats (mgStats m') /\ Forall (fun n => stat (mgStats m') n = stat (mgStats m) n) (kept (F := ring4)) /\
  in_step (H := handler4 P) (mgStats m') (mgMachine m).
Proof.
  intros Hs. assert (Hk : keeps (F := ring4) (mgStats m) (mgStats (mirror4 m))).
  { do 9 (apply keeps_set; [reflexivity|]). apply keeps_refl. }
  destruct (Hk Hs) as [H1 H2]. split_and!; try done.
  destruct (mirrored4_names (mcore (mgMachine m))) as [Hn Hd].
  assert (E : mgStats (mirror4 m) = setAll (mirrored4 (mcore (mgMachine m))) (mgStats m)).
  { unfold setAll, mirrored4, mirror4. cbn [foldr fst snd]. cbv zeta. by rewrite set_stats_eq. }
  unfold in_step. rewrite E. exact (setAll_spec _ (mgStats m) Hs Hn Hd).
Qed.

(** What a handler has done before it dispatches. *)
Definition hands (m m' : Manager ring4) (r : option Event) (c : (Event -> MG unit) -> MG unit) : Prop :=
  (forall disp, c disp m = match r with Some ev => disp ev m' | None => Ok (tt, m') end) /\
  (consistent_ (H := handler4 P) m -> doing (H := handler4 P) 0 m m' /\ mgHeld m' = mgHeld m) /\
  (forall ev (e : Env), r = Some ev -> failed4 ev = false /\ True).

(** The counters of what was received, and what is noted of it. *)
Lemma onInbound4_hands i m : exists m' r, hands m m' r (fun disp => onInbound4 P disp i).
Proof.
  unfold hands, onInbound4. destruct (inErr i) as [e|] eqn:Ei.
  { eexists _, None. split; [intros disp; reflexivity|]. split; [|done]. intros Hc.
    apply did_log; [done|]. apply did_log; [done|]. apply (did_entry ["TransportErrors"%string] (FxReceive i) 0 m m); [|by apply did_refl].
    unfold entry_ok. rewrite !andb_true_r. counts_by. }
  pose proof (Decode_returns (inPayload i)) as [H1 H2]. destruct (Decode (inPayload i)) as [msg|e| |] eqn:E; try done; cbn [caseM].
  - set (nak := bool_decide (Type_ msg = Some MsgNak)).
    set (ns := (if nak then ["NaksSeen"; "Received"] else ["Received"])%string).
    assert (Hx : entry_ok (F := ring4) ns (FxReceive i) = true /\ failing ns = 0).
    { unfold ns, nak, entry_ok. rewrite !andb_true_r. destruct (Type_ msg) as [ty|] eqn:Et; [|split; [counts_by|done]].
      destruct (decide (ty = MsgNak)) as [->|Hn]; [split; [counts_by|done]|].
      rewrite bool_decide_false by congruence. apply Z.eqb_neq in Hn. split; [counts_by|done]. }
    destruct Hx as [Hx Hf]. unfold ns in Hx, Hf. destruct nak; eexists _, (Some (EvReceived (Some msg) (inPayload i) (inTo i))).
    all: split; [intros disp; reflexivity|split; [|by intros ev e [= <-]]]; intros Hc; do 2 (apply did_log; [done|]).
    all: pose proof (did_entry _ (FxReceive i) 0 m m Hx (did_refl m Hc)) as Hd; rewrite Hf in Hd; exact Hd.
  - eexists _, None. split; [intros disp; reflexivity|]. split; [|done]. intros Hc.
    assert (Hx : entry_ok (F := ring4) ["DecodeFailures"; "Received"]%string (FxReceive i) = true) by (unfold entry_ok; rewrite !andb_true_r; counts_by).
    assert (Hd : did (H := handler4 P) 0 m (m <| mgLog := FxReceive i :: mgLog m |> <| mgStats := incAll ["DecodeFailures"; "Received"]%string (mgStats m) |>))
      by exact (did_entry _ (FxReceive i) 0 m m Hx (did_refl m Hc)).
    apply (did_log (FxWall (portWall P (FxReceive i :: mgLog m)))) in Hd; [|done]. by apply (did_log (FxRecord (mkCaptured (portWall P (FxReceive i :: mgLog m)) DirIn (inPayload i) None (Some (errText P e)) None))) in Hd.
Qed.

Lemma onARP_hands i m : exists m' r, hands m m' r (fun disp => onARP P disp i).
Proof.
  unfold hands, onARP. destruct (liErr i) as [e|] eqn:Ei.
  { eexists _, None. split; [intros disp; reflexivity|]. split; [|done]. intros Hc.
    apply (did_entry ["ARPErrors"%string] (FxReceiveARP i) 0 m m); [|by apply did_refl].
    unfold entry_ok. rewrite !andb_true_r. counts_by. }
  pose proof (DecodeARP_returns (liFrame i)) as [H1 H2]. destruct (DecodeARP (liFrame i)) as [p|e| |] eqn:E; try done; cbn [caseM].
  - assert (Hx : entry_ok (F := ring4) ["ARPSeen"]%string (FxReceiveARP i) = true) by (unfold entry_ok; rewrite !andb_true_r; counts_by).
    assert (Hd : consistent_ (H := handler4 P) m -> did (H := handler4 P) 0 m (m <| mgLog := FxReceiveARP i :: mgLog m |> <| mgStats := incAll ["ARPSeen"]%string (mgStats m) |>))
      by (intros Hc; exact (did_entry _ (FxReceiveARP i) 0 m m Hx (did_refl m Hc))).
    destruct (ARPRelevant (mcore (mgMachine m)) (Some p)) eqn:Er.
    + eexists _, (Some (EvARPReceived (Some p))). split; [|split; [|by intros ev e [= <-]]].
      * intros disp. unfold mbind, MG_bind, getM, logM, modM. change (mgMachine (m <| mgLog := _ |>)) with (mgMachine m). rewrite Er. reflexivity.
      * intros Hc. do 2 (apply did_log; [done|]). exact (Hd Hc).
    + eexists _, None. split; [|split; [|done]].
      * intros disp. unfold mbind, MG_bind, getM, logM, modM. change (mgMachine (m <| mgLog := _ |>)) with (mgMachine m). rewrite Er. reflexivity.
      * intros Hc. exact (did_bump0 ["ARPIgnored"]%string 0 m _ eq_refl eq_refl (Hd Hc)).
  - eexists _, None. split; [intros disp; reflexivity|]. split; [|done]. intros Hc.
    assert (Hx : entry_ok (F := ring4) ["ARPDecodeFailures"; "ARPSeen"]%string (FxReceiveARP i) = true) by (unfold entry_ok; rewrite !andb_true_r; counts_by).
    exact (did_entry _ (FxReceiveARP i) 0 m m Hx (did_refl m Hc)).
Qed.

#[global] Instance served4 : Served (H := handler4 P) P.
Proof.
  split.
  - intros m c e. destruct (fill4_ok m c e) as (?&?&?&?&_). by split_and!.
  - exact exec4_ok.
  - intros m Hs. destruct (mirror4_ok m Hs) as (?&?&?&?&?&?&?). by split_and!.
  - exact onInbound4_hands.
  - intros i m. destruct (onARP_hands i m) as (m' & r & H1 & H2 & H3). exists m', r. split; [exact H1|split; [exact H2|]]. intros ev e Hev _. by apply H3.
Qed.
End served.
