(* ===== verification/Manager6.v ===== *)
(** * The manager of a DHCPv6 lease: lease/manager.go, lease/manager6.go

    [newManager6], the arms of [drain] a DHCPv6 machine's actions take with the
    rate limit in front of every message, what is mirrored after a step, and the
    handlers of datagrams and of neighbour discovery frames. *)

From S2P Require Import Prelude NetAddr Options Codec Forcerenew Arp Backoff Kinds Lease Dhcp6 Rkap Backoff6 Icmpv6 Lease6 Slaac Params6 Router6 Outward Core6 Machine6 Machine6Steps RateLimit Record Manager.

(** ** The machine *)

(** The mirrors, with the bucket and the watermark of [RouterOptionsIgnored]. *)
Record Mirror6 := mkMirror6 {
  mrDAD : DADPhase; mrRouter : RouterObservation; mrParams6 : Params6; mrDeclined6 : list Addr;
  mrReconf : ReconfigureCounters; mrRapid6 : RapidCommit6Counters; mrTemp : Temporary6Counters; mrPd : Prefix6Counters;
  mrLimiter : bucket; mrRAIgnored : Z }.

#[global] Instance eta_Mirror6 : Settable Mirror6 := fun m =>
  mkMirror6 (mrDAD m) (mrRouter m) (mrParams6 m) (mrDeclined6 m) (mrReconf m) (mrRapid6 m) (mrTemp m) (mrPd m)
    (mrLimiter m) (mrRAIgnored m).

#[global] Instance ring6 : Ring1 := {|
  machine := Machine6; event := Event6; action := Action6; mstate_ := State6; mirror := Mirror6; r1Step := Step6 |}.

(** The counters a step replaces, and the two rings' count of ignored options. *)
Definition mirrorStats6 (c : Core6) (seen : Z) (s : Stats) : Stats :=
  let s := setStat "RouterTableEntriesEvicted" (RouterTableEvictions c)
    (setStat "RouterTableEntriesDropped" (RouterTableDrops c) s) in
  let n := RouterOptionsIgnored c in
  let s := if seen <? n then addStat "RouterAdvertOptionsIgnored" (u64 (n - seen)) s else s in
  let sc := counts (nslaac c) in
  let s := setStat "SLAACFallbacks" (scFallbacks sc) (setStat "SLAACPrefixesIgnored" (IgnoredTotal sc)
    (setStat "SLAACAddressesConflicted" (scConflicts sc) (setStat "SLAACAddressesExpired" (scExpired sc)
    (setStat "SLAACAddressesDeprecated" (scDeprecated sc) (setStat "SLAACAddressesRefreshed" (scRefreshed sc)
    (setStat "SLAACAddressesFormed" (scFormed sc) s)))))) in
  let rc := nreconfCounts c in
  let s := setStat "ReconfiguresRefused" (RefusedTotal rc) (setStat "ReconfiguresAccepted" (rcAccepted rc) s) in
  let s := setStat "RapidCommitsRefused" (Rapid6Refused (nrapidCounts c))
    (setStat "RapidCommitsAccepted" (Rapid6Accepted (nrapidCounts c)) s) in
  let tc := ntempCounts c in
  let s := setStat "TemporaryAddressesConflicted" (TaConflicted tc) (setStat "TemporaryAddressesAbsent" (TaAbsent tc)
    (setStat "TemporaryAddressesRefused" (TaRefused tc) (setStat "TemporaryAddressesGranted" (TaGranted tc) s))) in
  let pc := npdCounts c in
  setStat "PrefixesChanged" (PdChanged pc) (setStat "PrefixesAbsent" (PdAbsent pc)
    (setStat "PrefixesRefused" (PdRefused pc) (setStat "PrefixesGranted" (PdGranted pc) s))).

(** What [dispatch] copies after a step. *)
Definition mirror6 (m : Manager ring6) : Manager ring6 :=
  let c := ncore (mgMachine m) in
  let mr := mgMirror m in
  let seen := mrRAIgnored mr in
  m <| mgStats := mirrorStats6 c seen (mgStats m) |>
    <| mgMirror := mr <| mrDAD := DADPhaseOf c |> <| mrRouter := nrouter c |>
         <| mrRAIgnored := if seen <? RouterOptionsIgnored c then RouterOptionsIgnored c else seen |>
         <| mrReconf := nreconfCounts c |> <| mrRapid6 := nrapidCounts c |> <| mrTemp := ntempCounts c |> <| mrPd := npdCounts c |>
         <| mrParams6 := mrParams6 mr <| SolMaxRT := (MaxRT c).1 |> <| InfMaxRT := (MaxRT c).2 |> |>
         <| mrDeclined6 := if negb (length (ndeclined c) =? length (mrDeclined6 mr))%nat then ndeclined c else mrDeclined6 mr |> |>
    <| mgHostname := nhostname c |>.

(** What [emit] adds: a lease that is shown carries what routers advertised. *)
Definition fill6 (m : Machine6) (cfg : Configuration) (e : LEvent) : LEvent :=
  let router := nrouter (ncore m) in
  let lease := match evKind e with Acquired | Changed | Renewed => withRouterAdvert (evLease e) router | _ => evLease e end in
  mkLEvent (evKind e) lease (evReason e) (evNote e) (evRequested e) (evACD e) (DADPhaseOf (ncore m))
    (if negb (bool_decide (evKind e = Configured)) then cfg else evConfig e) FamilyV6 (evStatus e) router.

(** ** The arms of [drain] *)

Section exec.
Context (P : Ports ring6).

(** [countSent6] *)
Definition countSent6 (msg : MessageV6) (s : Stats) : Stats :=
  if (MType msg =? MsgRenew) || (MType msg =? MsgRebind) then incStat "RenewalsSent" s else
  if MType msg =? MsgDecline6 then incStat "DeclinesSent" s else
  if MType msg =? MsgRelease6 then incStat "ReleasesSent" s else s.

(** [mg.limiter.take(now)] *)
Definition takeM (now : Instant) : MG bool :=
  m ← getM;
  let r := take_ (mrLimiter (mgMirror m)) now in
  modM (fun m => m <| mgMirror := mgMirror m <| mrLimiter := r.1 |> |>) ;;
  logM (FxTake now r.2) ;;
  mret r.2.

Definition sendV6M (id : ActionID) (msg : MessageV6) (dst : Addr) (b : clockBridge) : MG (option Event6) :=
  caseM (EncodeV6 msg)
    (fun e => sendFailed "SendFailures" (Ev6ActionFailed id (ascii_bytes "encode: " ++ errText P e)))
    (fun raw =>
      now ← Mono P;
      ok ← takeM now;
      if negb ok then
        bumpM (fun s => incStat "SendFailures" (incStat "RateLimited" s)) ;;
        m ← getM;
        mret (Some (Ev6ActionFailed id (limitText P (MType msg) (mrLimiter (mgMirror m)))))
      else
        err ← SendV6_ P dst raw;
        match err with
        | Some e => sendFailed "SendFailures" (Ev6ActionFailed id e)
        | None =>
          bumpM (incStat "Sent") ;; bumpM (countSent6 msg) ;;
          logM (FxRecordV6 (mkCaptured6 (cbWall b) DirOut raw (Some msg) None None false)) ;; mret None
        end).

Definition sendRouterSolicitM (id : ActionID) (b : clockBridge) : MG (option Event6) :=
  m ← getM;
  let src := cfLinkLocal (mgCfg m) in
  let src := if negb (Is6 src) || Is4In6 src then IPv6Unspecified else src in
  let hw := if IsUnspecified src then [] else cfLinkHW (mgCfg m) in
  caseM (EncodeRouterSolicit src hw)
    (fun e => sendFailed "NDSendFailures" (Ev6ActionFailed id (ascii_bytes "encode router solicitation: " ++ errText P e)))
    (fun pkt =>
      err ← SendND_ P pkt;
      match err with
      | Some e => sendFailed "NDSendFailures" (Ev6ActionFailed id e)
      | None =>
        bumpM (incStat "RouterSolicitsSent") ;;
        logM (FxRecordV6 (mkCaptured6 (cbWall b) DirOut (PBody pkt) None None None true)) ;; mret None
      end).

(** [mg.cfg.DAD.Start(a.Target, mg.ReportDADResult)], where there is a runner. *)
Definition startDADM (target : Addr) : MG unit :=
  bumpM (incStat "DADChecksStarted") ;;
  m ← getM;
  if cfDAD (mgCfg m)
  then journalNote (note "duplicate address detection started for %s (RFC 4862 section 5.4)" [AAddr target]) ;;
       logM (FxStartDAD target true)
  else journalNote (note "duplicate address detection requested for %s (RFC 4862 section 5.4; no runner configured, the caller owes the result)" [AAddr target]) ;;
       logM (FxStartDAD target false).

Definition exec6 (a : Action6) (b : clockBridge) : MG (option Event6) :=
  match Act6Body a with
  | Act6Send msg dst => sendV6M (Act6ID a) msg dst b
  | Act6SendRouterSolicit => sendRouterSolicitM (Act6ID a) b
  | Act6StartDAD target => startDADM target ;; mret None
  | Act6RouterObserved _ => mret None
  | Act6Configured c =>
    let cfg := toConfig c b in
    modM (fun m => m <| mgConfig := cfg |> <| mgStats := incStat "ConfiguredEvents" (mgStats m) |>) ;;
    emitWith P fill6 (configuredEvent cfg) ;; mret None
  | Act6SetTimer t d => logM (FxSetTimer t d) ;; mret None
  | Act6CancelTimer t => logM (FxCancelTimer t) ;; mret None
  | Act6LeaseAcquired l requested => gainM P fill6 Acquired (toLease6 l b) requested (incStat "LeasesAcquired") ;; mret None
  | Act6LeaseRenewed l => gainM P fill6 Renewed (toLease6 l b) AddrZero (incStat "RenewalsCompleted") ;; mret None
  | Act6LeaseChanged l => gainM P fill6 Changed (toLease6 l b) AddrZero id ;; mret None
  | Act6LeaseLost r _ => loseM P fill6 true r ;; mret None
  | Act6Failed r st n => failM P fill6 true r n st ;; mret None
  | Act6Journal _ => mret None
  end.

(** ** The handlers *)

Definition onInbound6 (disp : Event6 -> MG unit) (i : Inbound) : MG unit :=
  logM (FxReceiveV6 i) ;;
  match inErr i with
  | Some e =>
    bumpM (incStat "TransportErrors") ;;
    at_ ← Wall P;
    logM (FxRecordV6 (mkCaptured6 at_ DirIn [] None (Some e) None false))
  | None =>
    bumpM (incStat "Received") ;;
    caseM (DecodeV6 (inPayload i))
      (fun e =>
        at_ ← Wall P;
        logM (FxRecordV6 (mkCaptured6 at_ DirIn (inPayload i) None (Some (errText P e)) None false)) ;;
        bumpM (incStat "DecodeFailures"))
      (fun msg =>
        at_ ← Wall P;
        logM (FxRecordV6 (mkCaptured6 at_ DirIn (inPayload i) (Some msg) None None false)) ;;
        disp (Ev6Received (Some msg) (inPayload i) (inTo i)))
  end.

Definition onND (disp : Event6 -> MG unit) (i : LinkInbound) : MG unit :=
  logM (FxReceiveND i) ;;
  match liErr i with
  | Some _ => bumpM (incStat "NDErrors")
  | None =>
    caseM (DecodeRouterAdvert (liFrame i))
      (fun _ =>
        let refused := match liFrame i with t :: _ => t =? ICMPv6RouterAdvert | [] => false end in
        bumpM (fun s => let s := incStat "NDIgnored" (incStat "NDSeen" s) in
          if refused then incStat "RouterAdvertsRefused" s else s))
      (fun ra =>
        let ra := ra <| RaRouter := liSrc i |> in
        bumpM (fun s => addStat "RouterAdvertOptionsIgnored" (u64 (IgnoredOptions ra))
          (incStat "RouterAdvertsSeen" (incStat "NDSeen" s))) ;;
        at_ ← Wall P;
        logM (FxRecordV6 (mkCaptured6 at_ DirIn (liFrame i) None None (Some ra) false)) ;;
        disp (Ev6RouterAdvert (Some ra)))
  end.

Definition request6 (q : Request) : Event6 :=
  match q with
  | QRelease => Ev6Release
  | QConflict => Ev6ConflictDetected
  | QAddressLost => Ev6AddressLost
  | QDADResult a dup => Ev6DADResult a dup
  | QSetHostname n => Ev6SetHostname n
  end.

#[global] Instance handler6 : Handler ring6 := {|
  r1Fill := fill6; r1Mirror := mirror6; r1Exec := exec6;
  r1Start := Ev6Start; r1Stop := Ev6Stop; r1Fired := Ev6TimerFired; r1Request := request6;
  r1HasLink := fun _ => true;
  r1LinkClosed := note "the Neighbor Discovery socket closed: router discovery and duplicate address detection have stopped for this lease" [];
  r1OnInbound := onInbound6; r1OnLink := onND |}.
End exec.

(** ** [newManager6] *)

Inductive Manager6Err :=
| ErrBothFamilies | ErrNoTransportV6 | ErrNoClock6 | ErrNoTimers6 | ErrNoEntropy6 | ErrNoND
| ErrResume6NoAddr | ErrResume6Twice | ErrParams6 (e : Param6Err).

(** [remaining]: how long until the first deadline that is set; a past one is no
    time at all, and none is for ever. *)
Fixpoint remaining (b : clockBridge) (at_ : list Time) : Duration :=
  match at_ with
  | [] => Infinite
  | t :: at_ => if IsZero t then remaining b at_ else let d := TimeSub t (cbWall b) in if d <? 0 then 0 else d
  end.

Definition resumedPrefixes (b : clockBridge) (rec : OLease) : list Prefix6 :=
  map (fun p => mkPrefix6 (oaAddr p) (remaining b [oaPreferred p]) (remaining b [oaValid p; oExpire rec])) (oPrefixes rec).

(** An address [Resume6] may name. *)
Definition resumable (ip : Addr) : bool := Is6 ip && negb (Is4In6 ip) && negb (IsUnspecified ip).

Definition resumedAddrs (b : clockBridge) (rec : OLease) : option (list Addr6T) :=
  match oAddrs rec with
  | [] => Some [mkAddr6 (paddr (oAddr rec)) (remaining b [oPreferred rec]) (remaining b [oValid rec; oExpire rec]) 0]
  | addrs =>
    mapM (fun a =>
      if negb (resumable (paddr (oaAddr a))) then None else
      Some (mkAddr6 (paddr (oaAddr a)) (remaining b [oaPreferred a; oPreferred rec])
              (remaining b [oaValid a; oValid rec; oExpire rec]) 0)) addrs
  end.

Definition resume6Of (b : clockBridge) (rec : OLease) : Manager6Err + Resume6 :=
  if negb (resumable (paddr (oAddr rec))) then inl ErrResume6NoAddr else
  match resumedAddrs b rec with
  | None => inl ErrResume6NoAddr
  | Some addrs =>
    inr (mkResume6 addrs (oServerDUID rec) (oPrefixServerDUID rec) (remaining b [oRenew rec]) (remaining b [oRebind rec])
      (oDNS rec) (oDomainSearch rec) (resumedPrefixes b rec)
      (oReconfigureKey rec) (oReconfigureReplay rec) (oReconfigureReplaySeen rec))
  end.

(** [newManager6], [params] being what [Params6] points to. *)
Definition newManager6 (cfg : Config) (params : Params6) (b : clockBridge) : Manager6Err + Manager ring6 :=
  if cfTransport cfg || cfARP cfg || bool_decide (is_Some (cfResume cfg)) then inl ErrBothFamilies else
  if negb (cfTransportV6 cfg) then inl ErrNoTransportV6 else
  if negb (cfClock cfg) then inl ErrNoClock6 else
  if negb (cfTimers cfg) then inl ErrNoTimers6 else
  if negb (cfEntropy cfg) then inl ErrNoEntropy6 else
  if negb (cfND cfg) then inl ErrNoND else
  let resumed : Manager6Err + Params6 :=
    match cfResume6 cfg with
    | None => inr params
    | Some rec =>
      match P6Resume params with
      | Some _ => inl ErrResume6Twice
      | None => match resume6Of b rec with inl e => inl e | inr r => inr (params <| P6Resume := Some r |>) end
      end
    end in
  match resumed with
  | inl e => inl e
  | inr params =>
    match New6 params with
    | inl e => inl (ErrParams6 e)
    | inr m =>
      let limiter := newBucket (cfRateLimit cfg) in
      let log := if bon limiter then []
        else [FxNote (note "RFC 9915 §14.1's rate limit is disabled by Config.RateLimit.Messages < 0: this client will not bound the messages it sends" [])] in
      let c := ncore m in
      inr (mkManager cfg m
        (mkMirror6 DADIdle router_none (nparams c) (ndeclined c) (mkReconfCounts 0 (fun _ => 0)) (mkRapid6 0 0)
          (mkTemp6 0 0 0 0) (mkPd6 0 0 0 0) limiter 0)
        (nhostname c) [] false olease_zero false 0 (mkConfiguration [] [] 0) stats_zero log)
    end
  end.

(** ** What a caller reads and asks for *)

(** [Manager.Lease]: a held lease with what routers advertised. *)
Definition LeaseOf6 (m : Manager ring6) : OLease * bool :=
  if mgHeld m then (withRouterAdvert (mgLease m) (mrRouter (mgMirror m)), true) else (mgLease m, mgHeld m).

Inductive Hostname6Err := ErrHostname6Syntax (e : Param6Err) | ErrRequestQueueFull6.

(** [SetHostname] *)
Definition SetHostname6 (name : gostring) : MG (F := ring6) (option Hostname6Err) :=
  match ValidateHostname6 name with
  | Some e => mret (Some (ErrHostname6Syntax e))
  | None =>
    ok ← requestQueued (Ev6SetHostname name);
    mret (if ok : bool then None else Some ErrRequestQueueFull6)
  end.
