(* ===== verification/Manager6Laws.v ===== *)
(** * The DHCPv6 manager obeys the laws

    As Manager4Laws, with two more: every message that leaves was granted by the
    bucket just before, and an advertisement's prefixes are addresses. *)

From S2P Require Import Prelude NetAddr Options Codec Forcerenew Arp Backoff Kinds Lease Dhcp6 Rkap Backoff6 Icmpv6 Lease6 Slaac Params6 Router6 Outward Core6 Machine6 Machine6Steps Machine6Spec Machine6Logic Machine6Msgs Machine6Inv Machine6Slaac Machine6Bound Machine6Ends Machine6Reply Machine6Run Machine6Props RateLimit Record Manager ManagerLogic ManagerRun Manager6.

(** ** A failed send is answered without sending *)

Definition sends6 (a : Action6) : bool := match Act6Body a with Act6Send _ _ | Act6SendRouterSolicit => true | _ => false end.

(** A method that sends nothing. *)
Definition silent {A} (c : M6 A) : Prop :=
  forall s a s', c s = Some (a, s') -> exists acts, out6 s' = out6 s ++ acts /\ Forall (fun a => sends6 a = false) acts.

Lemma silent6_ret {A} (a : A) : silent (mret a).
Proof. intros s a' s' [= _ <-]. exists []. by rewrite app_nil_r. Qed.
Lemma silent6_bind {A B} (c : M6 A) (f : A -> M6 B) : silent c -> (forall a, silent (f a)) -> silent (c ≫= f).
Proof.
  intros Hc Hf s b s'. unfold mbind, M6_bind. destruct (c s) as [[a s1]|] eqn:E; [|done]. intros E'.
  destruct (Hc _ _ _ E) as (l1 & E1 & H1). destruct (Hf a _ _ _ E') as (l2 & E2 & H2).
  exists (l1 ++ l2). split; [by rewrite E2, E1, app_assoc|by apply Forall_app].
Qed.
Lemma silent6_get : silent get6.
Proof. intros s a s' [= _ <-]. exists []. by rewrite app_nil_r. Qed.
Lemma silent6_modify f : silent (modify6 f).
Proof. intros s a s' [= _ <-]. exists []. by rewrite app_nil_r. Qed.
Lemma silent6_stamp b : sends6 (mkAction6 0 b) = false -> silent (stamp6 b).
Proof. intros Hb s a s' [= _ <-]. eexists. split; [reflexivity|]. constructor; [exact Hb|constructor]. Qed.
Lemma silent6_when (b : bool) c : silent c -> silent (when6 b c).
Proof. destruct b; [done|]. intros _. apply silent6_ret. Qed.
Lemma silent6_if {A} (b : bool) (c d : M6 A) : silent c -> silent d -> silent (if b then c else d).
Proof. by destruct b. Qed.
Lemma silent6_forM {A} (l : list A) f : (forall x, silent (f x)) -> silent (forM6 l f).
Proof. intros Hf. induction l as [|x l IH]; [apply silent6_ret|]. apply silent6_bind; [apply Hf|intros _; exact IH]. Qed.

Create HintDb silent6.
#[local] Hint Resolve silent6_ret silent6_get silent6_modify silent6_when : silent6.

Ltac silent_step :=
  first
    [ apply silent6_bind; [|intros ?]
    | apply silent6_if
    | apply silent6_when
    | apply silent6_forM; intros ?
    | apply silent6_stamp; reflexivity
    | solve [auto with silent6]
    | match goal with |- silent (match ?x with _ => _ end) => destruct x end ].

Lemma halt_silent r : silent (halt r).
Proof. unfold halt, loseLease, dropPending, cancelAll6, cancel6. repeat silent_step. Qed.
#[local] Hint Resolve halt_silent : silent6.

Lemma noteActionFailed_silent6 id reason : silent (noteActionFailed id reason).
Proof. unfold noteActionFailed, journal6, failed6. repeat silent_step. Qed.
#[local] Hint Resolve noteActionFailed_silent6 : silent6.

Lemma step6_failed_silent m now rnd id reason m' to acts : Step6 m now rnd (Ev6ActionFailed id reason) = Some (m', to, acts) ->
  Forall (fun a => sends6 a = false) acts.
Proof.
  unfold Step6. destruct (step6 now rnd _ _) as [[u s]|] eqn:E; [|done]. intros [= _ _ <-].
  assert (H : silent (step6 now rnd (Ev6ActionFailed id reason))) by (unfold step6, ageRouters; repeat silent_step).
  destruct (H _ _ _ E) as (l & -> & Hl). exact Hl.
Qed.

(** ** Steps *)

Definition failed6b (ev : Event6) : bool := match ev with Ev6ActionFailed _ _ => true | _ => false end.

Definition report6 (a : Action6) : Report :=
  match Act6Body a with
  | Act6LeaseAcquired _ _ => RGain true
  | Act6LeaseRenewed _ | Act6LeaseChanged _ => RGain false
  | Act6LeaseLost _ _ => RLose
  | _ => RNothing
  end.

Definition holds6 (e : Env6) : bool := match held e with Some _ => true | None => false end.

Lemma trace_reports6 p acts : forall e, trace_ok6 p e (map Act6Body acts) ->
  reports_ok (holds6 e) (map report6 acts) /\
  holds6 (final6 e (map Act6Body acts)) = foldl held_after (holds6 e) (map report6 acts).
Proof.
  induction acts as [|a acts IH]; intros e; [by split|]. cbn [map trace_ok6 reports_ok foldl]. intros [Ha Ht].
  assert (Hh : holds6 (observe6 e (Act6Body a)) = held_after (holds6 e) (report6 a)).
  { unfold report6, holds6. destruct (Act6Body a) as [| | | | | | |r st n| | | | |]; try done. cbn. by destruct (bool_decide _). }
  destruct (IH _ Ht) as (H2 & H3). rewrite Hh in H2, H3. split; [|exact H3]. split; [|exact H2].
  unfold report6, holds6. destruct (Act6Body a); cbn in *; try done.
  - destruct Ha as [-> _]. done.
  - destruct Ha as [Ha _]. by destruct (held e).
  - destruct Ha as [Ha _]. by destruct (held e).
  - by rewrite Ha.
Qed.

Definition inv6 (m : Machine6) (e : Env6) : Prop := exists p, config_ok p /\ Inv6 p (ncore m) e.

Lemma step6_laws m e now rnd ev : inv6 m e -> input_ok e ev -> exists m' to acts,
  Step6 m now rnd ev = Some (m', to, acts) /\ inv6 m' (final6 (hears6 ev e) (map Act6Body acts)) /\
  Forall (fun _ => True) acts /\ reports_ok (holds6 e) (map report6 acts) /\
  holds6 (final6 (hears6 ev e) (map Act6Body acts)) = foldl held_after (holds6 e) (map report6 acts).
Proof.
  intros (p & Hp & Hi) Hin. destruct (Step6_ok p m e now rnd ev Hp Hi Hin) as (m' & s & acts & E & Ht & Hi').
  eexists _, _, _. split; [exact E|]. split; [by exists p|]. split; [by apply Forall_true|].
  assert (Hf : holds6 (hears6 ev e) = holds6 e) by (destruct ev; try done; cbn; by destruct (bool_decide _)).
  rewrite <- Hf. by eapply trace_reports6.
Qed.

(** The machine's counters by the names they are mirrored under. *)
Definition mirrored6 (c : Core6) : list (string * Z) :=
  let tc := ntempCounts c in let pc := npdCounts c in let sc := counts (nslaac c) in
  [("PrefixesChanged", PdChanged pc); ("PrefixesAbsent", PdAbsent pc); ("PrefixesRefused", PdRefused pc); ("PrefixesGranted", PdGranted pc);
   ("TemporaryAddressesConflicted", TaConflicted tc); ("TemporaryAddressesAbsent", TaAbsent tc);
   ("TemporaryAddressesRefused", TaRefused tc); ("TemporaryAddressesGranted", TaGranted tc);
   ("RapidCommitsRefused", Rapid6Refused (nrapidCounts c)); ("RapidCommitsAccepted", Rapid6Accepted (nrapidCounts c));
   ("ReconfiguresRefused", RefusedTotal (nreconfCounts c)); ("ReconfiguresAccepted", rcAccepted (nreconfCounts c));
   ("SLAACFallbacks", scFallbacks sc); ("SLAACPrefixesIgnored", IgnoredTotal sc); ("SLAACAddressesConflicted", scConflicts sc);
   ("SLAACAddressesExpired", scExpired sc); ("SLAACAddressesDeprecated", scDeprecated sc);
   ("SLAACAddressesRefreshed", scRefreshed sc); ("SLAACAddressesFormed", scFormed sc);
   ("RouterTableEntriesEvicted", RouterTableEvictions c); ("RouterTableEntriesDropped", RouterTableDrops c)]%string.

Lemma mirrored6_names c : Forall (.∈ statsNames) (map fst (mirrored6 c)) /\ NoDup (map fst (mirrored6 c)).
Proof. split; apply (bool_decide_unpack _); vm_compute; reflexivity. Qed.

(** ** What a decoded advertisement holds *)

Lemma walkNDLoop_keeps {A} (I : A -> Prop) fn b fuel : are_bytes b ->
  (forall typ opt acc acc', are_bytes opt -> I acc -> fn typ opt acc = Ok acc' -> I acc') ->
  forall i acc r, I acc -> walkNDLoop fuel b i fn acc = Ok r -> I r.
Proof.
  intros Hb Hfn. induction fuel as [|fuel IH]; intros i acc r Ha H; [done|]. cbn [walkNDLoop] in H.
  destruct (_ <? _)%nat; [|by injection H as <-]. destruct (_ <? 2)%nat; [done|]. apply bind_ok_inv in H as (l & _ & H).
  cbv zeta in H. destruct (_ =? 0)%nat; [done|]. destruct (_ <? _)%nat; [done|]. apply bind_ok_inv in H as (typ & _ & H).
  apply bind_ok_inv in H as (opt & Ho & H). apply bind_ok_inv in H as (acc' & Hf & H). apply (IH _ _ _) in H; [exact H|].
  apply slice_inv in Ho as (_ & _ & ->). eapply Hfn; [|exact Ha|exact Hf]. by apply are_bytes_take, are_bytes_drop.
Qed.

Lemma raOption_pio typ opt ra ra' : are_bytes opt -> Forall pio_wf (RaPrefixes ra) -> raOption typ opt ra = Ok ra' ->
  Forall pio_wf (RaPrefixes ra').
Proof.
  intros Hb Hra. unfold raOption. destruct (typ =? NDOptPrefixInfo).
  { destruct (negb _); [by intros [= <-]|]. intros H. repeat (apply bind_ok_inv in H as (? & ?Hs & H)).
    injection H as <-. apply Forall_app. split; [done|]. constructor; [|constructor].
    match goal with Hs : slice opt 16 32 = Ok ?a |- _ => apply slice_inv in Hs as (? & ? & ->) end.
    eexists. split; [reflexivity|]. pose proof (fromBE_range _ (are_bytes_take 16 _ (are_bytes_drop 16 _ Hb))) as Hr.
    rewrite length_take, length_drop in Hr. replace (8 * Z.of_nat _) with 128 in Hr by lia. exact Hr. }
  destruct (typ =? NDOptMTU).
  { destruct (negb _); [by intros [= <-]|]. intros H. repeat (apply bind_ok_inv in H as (? & ?Hs & H)). by injection H as <-. }
  repeat (destruct (_ =? _); [intros H; apply bind_ok_inv in H as ([?|] & _ & H); by injection H as <-|]).
  by intros [= <-].
Qed.

Lemma DecodeRouterAdvert_pio b ra : are_bytes b -> DecodeRouterAdvert b = Ok ra -> Forall pio_wf (RaPrefixes ra).
Proof.
  intros Hb. unfold DecodeRouterAdvert. destruct (_ <? _)%nat; [done|]. intros H.
  apply bind_ok_inv in H as (t & _ & H). destruct (negb _); [done|]. do 10 (apply bind_ok_inv in H as (? & _ & H)).
  cbv zeta in H. apply bind_ok_inv in H as (body & Hbody & H). apply slice_inv in Hbody as (_ & _ & ->).
  unfold walkNDOptions in H. eapply (walkNDLoop_keeps (fun ra => Forall pio_wf (RaPrefixes ra))) in H; [exact H| |exact raOption_pio|constructor].
  by apply are_bytes_take, are_bytes_drop.
Qed.

(** ** The laws *)

Section served.
Context (P : Ports ring6) (rl : RateLimit).

(** The questions to the bucket so far with its answers, the first first. *)
Fixpoint takenAt (l : list (Fx ring6)) : list (Instant * bool) :=
  match l with
  | [] => []
  | FxTake t g :: l => takenAt l ++ [(t, g)]
  | _ :: l => takenAt l
  end.

(** A message leaves right after the bucket granted it. *)
Fixpoint granted_sends (l : list (Fx ring6)) : Prop :=
  match l with
  | [] => True
  | x :: l => match x with FxSendV6 _ _ _ => exists t l', l = FxTake t true :: l' | _ => True end /\ granted_sends l
  end.

Definition limited (mr : Mirror6) (l : list (Fx ring6)) : Prop :=
  takes (newBucket rl) (map fst (takenAt l)) = (mrLimiter mr, map snd (takenAt l)) /\ granted_sends l.

Lemma limited_plain mr l x : plain (F := ring6) x -> limited mr l -> limited mr (x :: l).
Proof. intros Hx [H1 H2]. split; [by destruct x|]. split; [by destruct x|exact H2]. Qed.

(** A fire of a timer that was set, a retransmission only as it is armed; and a
    frame is octets. *)
Definition accepts6 (e : Env6) (w : Wake) : bool :=
  match w with
  | WakeFired t => ever e t && (negb (bool_decide (t = Timer6Retransmit)) || armed6 e t)
  | WakeLink i => bool_decide (are_bytes (liFrame i))
  | _ => true
  end.

#[global] Program Instance lawful6 : Lawful (handler6 P) := {|
  env := Env6; lStart := env6_0; lInv := inv6; lInput := input_ok;
  lAfter := fun _ ev acts e => final6 (hears6 ev e) (map Act6Body acts);
  lHolds := holds6; lFailed := failed6b; lSends := sends6; lReport := report6; lPerforms := fun _ => True;
  lShows := fun l shown => shown = l \/ exists r, shown = withRouterAdvert l r; lXi := limited; lAccepts := accepts6;
  lMirrored := fun m => mirrored6 (ncore m) |}.
Next Obligation. intros. by apply step6_laws. Qed.
Next Obligation. intros m now rnd ev m' to acts Hf E. destruct ev; try done. by eapply step6_failed_silent. Qed.
Next Obligation. intros e ev. by destruct ev. Qed.
Next Obligation. intros e t. cbn. destruct (ever e t); [|done]. destruct (decide (t = Timer6Retransmit)) as [->|Hn]; [done|]. done. Qed.
Next Obligation. intros e. split; [done|]. split; [done|]. by intros []. Qed.
Next Obligation. split_and!; try done. by intros []. Qed.
Next Obligation. exact limited_plain. Qed.
Next Obligation. intros mc. by apply (bool_decide_unpack _). Qed.

(** ** The arms of [drain] *)

Lemma encode6_total o : forall out, returns (encode6Loop o out).
Proof. induction o as [|x o IH]; intros out; cbn [encode6Loop]; [done|]. destruct (_ : bool); [done|apply IH]. Qed.

Lemma EncodeV6_total m : returns (EncodeV6 m).
Proof. unfold EncodeV6. destruct (_ <=? _); [done|]. apply returns_bind; [apply encode6_total|done]. Qed.

Lemma EncodeRouterSolicit_total src hw : returns (EncodeRouterSolicit src hw).
Proof.
  unfold EncodeRouterSolicit, requireIPv6, encodeLinkAddrOption. destruct (_ || _)%bool; [done|]. cbn [mbind outcome_bind].
  destruct (_ && _)%bool; [destruct (negb _); done|]. by destruct (_ && _)%bool.
Qed.

Lemma fill6_ok : fills (H := handler6 P) fill6 true.
Proof.
  intros m c e. split; [done|]. split; [done|]. split.
  - intros Hk. cbn [fill6 evLease]. unfold fill6. cbn [evLease]. by rewrite Hk.
  - split; [|done]. unfold fill6. cbn [evLease lShows lawful6]. destruct (evKind e); auto; right; by eexists.
Qed.

Abbreviation did6 := (did (H := handler6 P)).

Definition done6 (a : Action6) (m : Manager ring6) (r : option Event6) (m' : Manager ring6) : Prop :=
  doing (H := handler6 P) (if r is Some _ then 1 else 0) m m' /\ mgHeld m' = held_after (mgHeld m) (report6 a) /\
  match r with Some ev => failed6b ev = true /\ sends6 a = true | None => True end.

Lemma arm_none6 a m m' : report6 a = RNothing -> did6 0 m m' -> done6 a m None m'.
Proof. intros Hr [Hd Hh]. split; [exact Hd|]. by rewrite Hr. Qed.

Lemma arm_failed6 a m m' id txt : report6 a = RNothing -> sends6 a = true -> did6 1 m m' ->
  done6 a m (Some (Ev6ActionFailed id txt)) m'.
Proof. intros Hr Hs [Hd Hh]. split; [exact Hd|]. by rewrite Hr. Qed.

(** The failure of a send is counted and handed back. *)
Lemma wpm_failed6 n a m0 m id txt : bump_ok (F := ring6) [n] = true -> failing [n] = 1 -> report6 a = RNothing -> sends6 a = true ->
  did6 0 m0 m -> wpm (sendFailed n (Ev6ActionFailed id txt)) (done6 a m0) m.
Proof.
  intros Hb Hf Hr Hs Hd. unfold sendFailed. msteps.
  pose proof (did_bump [n] 0 m0 m Hb Hd) as H1. rewrite Hf in H1. by apply arm_failed6.
Qed.

Definition sentNames (msg : MessageV6) : list string :=
  if (MType msg =? MsgRenew) || (MType msg =? MsgRebind) then ["RenewalsSent"%string] else
  if MType msg =? MsgDecline6 then ["DeclinesSent"%string] else
  if MType msg =? MsgRelease6 then ["ReleasesSent"%string] else [].

Lemma countSent6_eq msg s : countSent6 msg s = incAll (sentNames msg) s.
Proof.
  unfold countSent6, sentNames. destruct (_ || _)%bool; [reflexivity|]. destruct (_ =? _); [reflexivity|]. by destruct (_ =? _).
Qed.

(** The packet ring's entry is counted by the name of its type. *)
Lemma sentNames6_ok msg tm raw : entry_ok (F := ring6) (sentNames msg) (FxRecordV6 (mkCaptured6 tm DirOut raw (Some msg) None None false)) = true /\
  failing (sentNames msg) = 0.
Proof.
  unfold entry_ok. rewrite !andb_true_r. unfold sentNames. destruct (MType msg =? MsgRenew) eqn:E1; [|destruct (MType msg =? MsgRebind) eqn:E2].
  - apply Z.eqb_eq in E1. split; [counts_by|done].
  - apply Z.eqb_eq in E2. split; [counts_by|done].
  - cbn [orb]. destruct (MType msg =? MsgDecline6) eqn:E3; [|destruct (MType msg =? MsgRelease6) eqn:E4].
    + apply Z.eqb_eq in E3. split; [counts_by|done].
    + split; [counts_by|done].
    + split; [counts_by|done].
Qed.

(** An entry the bucket has its part in, with the counters that count it. *)
Lemma did_limited ns x mr k m0 m : known ns && off_work ns && counts_it counters ns x && negb (is_event (fun _ => true) x) = true ->
  (limited (mgMirror m) (mgLog m) -> limited mr (x :: mgLog m)) -> journals [x] = [] -> did6 k m0 m ->
  did6 (k + failing ns) m0 (m <| mgMirror := mr |> <| mgLog := x :: mgLog m |> <| mgStats := incAll ns (mgStats m) |>).
Proof.
  rewrite !andb_true_iff, negb_true_iff. intros (((Hk & Ho) & Hx) & He) Hl Hj [Hd Hh]. pose proof (dg_consistent _ _ _ Hd) as Hc.
  split; [|exact Hh]. eapply doing_trans; [exact Hd|]. split.
  - split; try done. change (journals (x :: mgLog m) = journals (mgLog m)). by destruct x.
  - apply worked_inc; [done| |done]. exact (cs_sized _ _ _ _ _ _ _ Hc).
  - apply (consistent_entry_at _ _ ns x _ _ _ _ (mgMirror m) mr Hk Hx He); [|exact Hc]. apply Hl. exact (cs_xi _ _ _ _ _ _ _ Hc).
Qed.

(** The bucket's answer is the one it gives after all it was asked. *)
Lemma limited_take mr l now : limited mr l -> let r := take_ (mrLimiter mr) now in
  limited (mr <| mrLimiter := r.1 |>) (FxTake now r.2 :: l).
Proof.
  intros [H1 H2]. cbv zeta. split; [|by split]. cbn [takenAt]. rewrite !map_app, takes_app, H1. cbn [map fst snd takes].
  by destruct (take_ (mrLimiter mr) now).
Qed.

Lemma sendV6_ok a msg dst b m : Act6Body a = Act6Send msg dst -> consistent_ (H := handler6 P) m -> wpm (exec6 P a b) (done6 a m) m.
Proof.
  intros E Hc. assert (Hr : report6 a = RNothing) by (unfold report6; by rewrite E).
  assert (Hs : sends6 a = true) by (unfold sends6; by rewrite E).
  pose proof (did_refl (H := handler6 P) m Hc) as H0. unfold exec6. rewrite E. unfold sendV6M. apply wpm_case; [apply EncodeV6_total| |].
  - intros e _. by apply wpm_failed6.
  - intros raw _. do 2 mstep. set (m1 := m <| mgLog := FxMono a0 :: mgLog m |>).
    assert (H1 : did6 0 m m1) by (by apply did_log). mstep. unfold takeM. do 2 mstep. cbv beta zeta.
    set (mr := mgMirror m1 <| mrLimiter := (take_ (mrLimiter (mgMirror m1)) a0).1 |>).
    assert (Hl : limited (mgMirror m1) (mgLog m1) -> limited mr (FxTake a0 (take_ (mrLimiter (mgMirror m1)) a0).2 :: mgLog m1)) by apply limited_take.
    destruct (take_ (mrLimiter (mgMirror m1)) a0) as [lim g]. cbn [fst snd] in Hl, mr |- *. do 4 mstep. apply wpm_ret. destruct g; cbn [negb].
    + do 2 mstep. assert (H2 : did6 0 m (m1 <| mgMirror (F := ring6) := mr |> <| mgLog := FxTake a0 true :: mgLog m1 |>)).
      { rewrite <- (same_stats (m1 <| mgMirror (F := ring6) := mr |> <| mgLog := FxTake a0 true :: mgLog m1 |>)).
        exact (did_limited [] (FxTake a0 true) mr 0 m m1 eq_refl Hl eq_refl H1). }
      set (m2 := m1 <| mgMirror (F := ring6) := mr |> <| mgLog := FxTake a0 true :: mgLog m1 |>) in *.
      assert (Hl2 : forall err, limited (mgMirror m2) (mgLog m2) -> limited (mgMirror m2) (FxSendV6 dst raw err :: mgLog m2)).
      { intros err [L1 L2]. split; [exact L1|]. split; [by eexists _, _|exact L2]. }
      destruct a1 as [e|].
      * apply wpm_failed6; try done. rewrite <- (same_stats (m2 <| mgLog := FxSendV6 dst raw (Some e) :: mgLog m2 |>)).
        pose proof (did_limited [] (FxSendV6 dst raw (Some e)) (mgMirror m2) 0 m m2 eq_refl (Hl2 _) eq_refl H2) as H3.
        rewrite same_mirror in H3. exact H3.
      * do 6 mstep. apply arm_none6; [done|]. rewrite countSent6_eq. destruct (sentNames6_ok msg (cbWall b) raw) as [N1 N2].
        pose proof (did_limited ["Sent"%string] (FxSendV6 dst raw None) (mgMirror m2) 0 m m2 eq_refl (Hl2 _) eq_refl H2) as H3.
        rewrite same_mirror in H3. apply (did_entry _ _ _ _ _ N1) in H3. rewrite N2 in H3. exact H3.
    + do 5 mstep. apply arm_failed6; [done|done|].
      exact (did_limited ["SendFailures"; "RateLimited"]%string (FxTake a0 false) mr 0 m m1 eq_refl Hl eq_refl H1).
Qed.

Lemma solicit_ok a b m : Act6Body a = Act6SendRouterSolicit -> consistent_ (H := handler6 P) m -> wpm (exec6 P a b) (done6 a m) m.
Proof.
  intros E Hc. assert (Hr : report6 a = RNothing) by (unfold report6; by rewrite E).
  assert (Hs : sends6 a = true) by (unfold sends6; by rewrite E).
  pose proof (did_refl (H := handler6 P) m Hc) as H0. unfold exec6. rewrite E. unfold sendRouterSolicitM. do 2 mstep. cbv zeta.
  apply wpm_case; [apply EncodeRouterSolicit_total| |].
  - intros e _. by apply wpm_failed6.
  - intros pkt _. do 2 mstep. destruct a0 as [e|].
    + apply wpm_failed6; try done. by apply did_log.
    + do 4 mstep. apply arm_none6; [done|]. apply did_log; [done|].
      exact (did_entry ["RouterSolicitsSent"%string] (FxSendND pkt None) 0 m m eq_refl H0).
Qed.

Lemma startDADM_ok a target b m : Act6Body a = Act6StartDAD target -> consistent_ (H := handler6 P) m -> wpm (exec6 P a b) (done6 a m) m.
Proof.
  intros E Hc. assert (Hr : report6 a = RNothing) by (unfold report6; by rewrite E).
  pose proof (did_refl (H := handler6 P) m Hc) as H0. unfold exec6. rewrite E. unfold startDADM. do 5 mstep.
  assert (H1 : forall n r, did6 0 m (m <| mgLog := FxStartDAD target r :: FxNote n :: mgLog m |> <| mgStats := incStat "DADChecksStarted" (mgStats m) |>)).
  { intros n r. pose proof (did_log (FxNote n) 0 m m eq_refl H0) as H1. exact (did_entry ["DADChecksStarted"%string] (FxStartDAD target r) 0 m _ eq_refl H1). }
  destruct (cfDAD _).
  - msteps. apply arm_none6; [done|]. apply H1.
  - msteps. apply arm_none6; [done|]. apply H1.
Qed.

Lemma configured_ok a c b m : Act6Body a = Act6Configured c -> consistent_ (H := handler6 P) m -> wpm (exec6 P a b) (done6 a m) m.
Proof.
  intros E Hc. assert (Hr : report6 a = RNothing) by (unfold report6; by rewrite E). unfold exec6. rewrite E. cbv zeta.
  set (cfg := toConfig c b). do 3 mstep.
  match goal with |- wpm _ _ ?m' => assert (Em : m' =
    m <| mgConfig := cfg |> <| mgLease := mgLease m |> <| mgHeld := mgHeld m |> <| mgStats := incAll ["ConfiguredEvents"%string] (mgStats m) |>) by (by destruct m) end.
  rewrite Em. apply (report_ok_arm P fill6 true fill6_ok ["ConfiguredEvents"%string]); try done.
  intros m' Hd Hh. msteps. by apply arm_none6.
Qed.

Lemma exec6_ok a b m : consistent_ (H := handler6 P) m -> report_ok (mgHeld m) (report6 a) -> wpm (exec6 P a b) (done6 a m) m.
Proof.
  intros Hc Hr. pose proof (did_refl (H := handler6 P) m Hc) as H0.
  destruct (Act6Body a) as [msg d|t d|t|l req|l|l|r l|r st n|n| |target|c|o] eqn:E.
  all: try (by eapply sendV6_ok); try (by eapply solicit_ok); try (by eapply startDADM_ok); try (by eapply configured_ok).
  all: assert (Er : report6 a = match Act6Body a with Act6LeaseAcquired _ _ => RGain true | Act6LeaseRenewed _ | Act6LeaseChanged _ => RGain false
    | Act6LeaseLost _ _ => RLose | _ => RNothing end) by done; rewrite E in Er; rewrite Er in Hr; cbn in Hr; unfold exec6; rewrite E.
  - msteps. apply arm_none6; [done|]. by apply did_log.
  - msteps. apply arm_none6; [done|]. by apply did_log.
  - mstep. apply (gain_ok P fill6 true fill6_ok Acquired _ _ ["LeasesAcquired"%string]); try done.
    intros m' Hd Hh. msteps. split; [exact Hd|]. by rewrite Er.
  - mstep. apply (gain_ok P fill6 true fill6_ok Changed _ _ []); try done.
    intros m' Hd Hh. msteps. split; [exact Hd|]. by rewrite Er.
  - mstep. apply (gain_ok P fill6 true fill6_ok Renewed _ _ ["RenewalsCompleted"%string]); try done.
    intros m' Hd Hh. msteps. split; [exact Hd|]. by rewrite Er.
  - mstep. apply (lose_ok P fill6 true fill6_ok); try done. intros m' Hd Hh. msteps. split; [exact Hd|]. by rewrite Er.
  - mstep. apply (fail_ok P fill6 true fill6_ok); try done. intros m' Hd Hh. msteps. by apply arm_none6.
  - msteps. by apply arm_none6.
  - msteps. by apply arm_none6.
Qed.

(** ** The mirrors and the handlers *)

Lemma mirrorStats6_keeps c seen s : keeps (F := ring6) s (mirrorStats6 c seen s).
Proof.
  unfold mirrorStats6. cbv zeta. do 19 (apply keeps_set; [reflexivity|]).
  destruct (_ <? _); [apply keeps_add; [reflexivity|]|]; (do 2 (apply keeps_set; [reflexivity|])); apply keeps_refl.
Qed.

(** The table of the routers is copied first, before the options ignored are
    added up; the other nineteen after. *)
Lemma mirrorStats6_set c seen s : sized_stats s -> Forall (fun x => stat (mirrorStats6 c seen s) x.1 = x.2) (mirrored6 c).
Proof.
  intros Hs. destruct (mirrored6_names c) as [Hn Hd]. rewrite <- (take_drop 19 (mirrored6 c)), map_app in Hn, Hd.
  apply Forall_app in Hn as [Hn1 Hn2]. apply NoDup_app in Hd as (Hd1 & Hdj & Hd2).
  set (s0 := setAll (drop 19 (mirrored6 c)) s). assert (H0 : sized_stats s0) by (by apply setAll_sized).
  set (s1 := if seen <? RouterOptionsIgnored c then addStat "RouterAdvertOptionsIgnored" (u64 (RouterOptionsIgnored c - seen)) s0 else s0).
  assert (H1 : sized_stats s1 /\ forall n, n <> "RouterAdvertOptionsIgnored"%string -> stat s1 n = stat s0 n).
  { unfold s1. destruct (_ <? _); [|done]. split; [by apply sized_add|]. intros n Hne.
    rewrite stat_add; [by rewrite (proj2 (String.eqb_neq _ _)) by done|done|by apply (bool_decide_unpack _)]. }
  destruct H1 as [Hs1 H1].
  assert (E : mirrorStats6 c seen s = setAll (take 19 (mirrored6 c)) s1).
  { unfold s1, s0, setAll, mirrored6, mirrorStats6. cbv zeta. cbn [take drop foldr fst snd]. reflexivity. }
  rewrite E. set (cs := take 19 (mirrored6 c)) in *. rewrite <- (take_drop 19 (mirrored6 c)). fold cs. apply Forall_app. split; [by apply setAll_spec|].
  pose proof (setAll_spec _ s Hs Hn2 Hd2) as Hf. fold s0 in Hf. rewrite Forall_forall in Hf |- *. intros x Hx. rewrite <- (Hf x Hx).
  assert (Hin : x.1 ∈ map fst (drop 19 (mirrored6 c))) by (apply list_elem_of_In, in_map, list_elem_of_In, Hx).
  rewrite setAll_other; [apply H1|done|done|intros Hin2; exact (Hdj _ Hin2 Hin)].
  intros Ex. rewrite Ex in Hin. revert Hin. cbn [drop mirrored6 map fst]. rewrite !elem_of_cons, elem_of_nil. by intros [|[|]].
Qed.

Lemma mirror6_ok m : sized_stats (mgStats m) -> let m' := mirror6 m in
  steady m m' /\ mgLog m' = mgLog m /\ mgLease m' = mgLease m /\ mgHeld m' = mgHeld m /\
  sized_stats (mgStats m') /\ Forall (fun n => stat (mgStats m') n = stat (mgStats m) n) (kept (F := ring6)) /\
  in_step (H := handler6 P) (mgStats m') (mgMachine m) /\
  (limited (mgMirror m) (mgLog m) -> limited (mgMirror m') (mgLog m)).
Proof.
  intros Hs. destruct (mirrorStats6_keeps (ncore (mgMachine m)) (mrRAIgnored (mgMirror m)) (mgStats m) Hs) as [H1 H2].
  pose proof (mirrorStats6_set (ncore (mgMachine m)) (mrRAIgnored (mgMirror m)) (mgStats m) Hs) as H3. by split_and!.
Qed.

(** What a handler has done before it dispatches. *)
Definition hands (acc : Env6 -> Prop) (m m' : Manager ring6) (r : option Event6) (c : (Event6 -> MG unit) -> MG unit) : Prop :=
  (forall disp, c disp m = match r with Some ev => disp ev m' | None => Ok (tt, m') end) /\
  (consistent_ (H := handler6 P) m -> doing (H := handler6 P) 0 m m' /\ mgHeld m' = mgHeld m) /\
  (forall ev (e : Env6), r = Some ev -> acc e -> failed6b ev = false /\ input_ok e ev).

(** A receipt with the counters that count it. *)
Lemma did_receipt ns x m : known ns && off_work ns && counts_it counters ns x && negb (is_event (fun _ => true) x) &&
    match x with FxTake _ _ | FxSendV6 _ _ _ | FxJournal _ _ _ _ _ _ => false | _ => true end = true -> failing ns = 0 ->
  consistent_ (H := handler6 P) m -> did6 0 m (m <| mgLog := x :: mgLog m |> <| mgStats := incAll ns (mgStats m) |>).
Proof. intros Hx Hf Hc. pose proof (did_entry ns x 0 m m Hx (did_refl m Hc)) as Hd. rewrite Hf in Hd. exact Hd. Qed.

Lemma onInbound6_hands i m : exists m' r, hands (fun _ => True) m m' r (fun disp => onInbound6 P disp i).
Proof.
  unfold hands, onInbound6. destruct (inErr i) as [e|] eqn:Ei.
  { eexists _, None. split; [intros disp; reflexivity|]. split; [|done]. intros Hc.
    apply did_log; [done|]. apply did_log; [done|]. apply (did_receipt ["TransportErrors"%string] (FxReceiveV6 i)); [|done|done].
    rewrite !andb_true_r. counts_by. }
  pose proof (DecodeV6_returns (inPayload i)) as [H1 H2]. destruct (DecodeV6 (inPayload i)) as [msg|e| |] eqn:E; try done; cbn [caseM].
  - eexists _, (Some (Ev6Received (Some msg) (inPayload i) (inTo i))).
    split; [intros disp; reflexivity|split; [|by intros ev e [= <-] _]]. intros Hc. do 2 (apply did_log; [done|]).
    apply (did_receipt ["Received"%string] (FxReceiveV6 i)); [|done|done]. rewrite !andb_true_r. counts_by.
  - eexists _, None. split; [intros disp; reflexivity|]. split; [|done]. intros Hc.
    assert (Hd : did6 0 m (m <| mgLog := FxReceiveV6 i :: mgLog m |> <| mgStats := incAll ["DecodeFailures"; "Received"]%string (mgStats m) |>)).
    { apply did_receipt; [|done|done]. rewrite !andb_true_r. counts_by. }
    apply (did_log (FxWall (portWall P (FxReceiveV6 i :: mgLog m)))) in Hd; [|done].
    by apply (did_log (FxRecordV6 (mkCaptured6 (portWall P (FxReceiveV6 i :: mgLog m)) DirIn (inPayload i) None (Some (errText P e)) None false))) in Hd.
Qed.

Lemma onND_hands i m : exists m' r, hands (fun e => accepts6 e (WakeLink i) = true) m m' r (fun disp => onND P disp i).
Proof.
  unfold hands, onND. destruct (liErr i) as [e|] eqn:Ei.
  { eexists _, None. split; [intros disp; reflexivity|]. split; [|done]. intros Hc.
    apply (did_receipt ["NDErrors"%string] (FxReceiveND i)); [|done|done]. rewrite !andb_true_r. counts_by. }
  destruct (proj1 (nd_returns (liFrame i) AddrZero AddrZero)) as [H1 H2].
  destruct (DecodeRouterAdvert (liFrame i)) as [ra|e| |] eqn:E; try done; cbn [caseM].
  - eexists _, (Some (Ev6RouterAdvert (Some (ra <| RaRouter := liSrc i |>)))).
    split; [intros disp; reflexivity|split].
    + intros Hc. do 2 (apply did_log; [done|]).
      set (m1 := m <| mgLog := FxReceiveND i :: mgLog m |> <| mgStats := incAll ["RouterAdvertsSeen"; "NDSeen"]%string (mgStats m) |>).
      assert (Hd : did6 0 m m1) by (apply did_receipt; [rewrite !andb_true_r; counts_by|done|done]).
      set (v := u64 _). change (did6 0 m (m1 <| mgStats := addStat "RouterAdvertOptionsIgnored" v (mgStats m1) |>)).
      pose proof (cs_sized _ _ _ _ _ _ _ (dg_consistent _ _ _ (proj1 Hd))) as Hs.
      apply did_keeps; [apply keeps_add; [reflexivity|apply keeps_refl]| |exact Hd].
      apply Forall_forall. intros n Hn. rewrite stat_add; [|done|by apply (bool_decide_unpack _)].
      destruct (String.eqb_spec "RouterAdvertOptionsIgnored" n) as [<-|]; [|done]. apply (bool_decide_pack _) in Hn. by vm_compute in Hn.
    + intros ev e [= <-] Hb. split; [done|]. cbn [accepts6] in Hb. apply bool_decide_eq_true in Hb.
      exact (DecodeRouterAdvert_pio _ _ Hb E).
  - destruct (liFrame i) as [|t fr] eqn:El.
    + eexists _, None; split; [intros disp; reflexivity|]; split; [|done]; intros Hc.
      apply (did_receipt ["NDIgnored"; "NDSeen"]%string (FxReceiveND i)); [|done|done]. rewrite !andb_true_r. counts_by.
    + destruct (t =? ICMPv6RouterAdvert) eqn:Et; eexists _, None; (split; [intros disp; reflexivity|]; split; [|done]; intros Hc).
      * apply (did_receipt ["RouterAdvertsRefused"; "NDIgnored"; "NDSeen"]%string (FxReceiveND i)); [|done|done]. rewrite !andb_true_r. counts_by.
      * apply (did_receipt ["NDIgnored"; "NDSeen"]%string (FxReceiveND i)); [|done|done]. rewrite !andb_true_r. counts_by.
Qed.

#[global] Instance served6 : Served (H := handler6 P) P.
Proof.
  split.
  - intros m c e. destruct (fill6_ok m c e) as (?&?&?&?&_). by split_and!.
  - intros a b m _. apply exec6_ok.
  - exact mirror6_ok.
  - intros i m. destruct (onInbound6_hands i m) as (m' & r & H1 & H2 & H3). exists m', r. split; [exact H1|split; [exact H2|]]. intros ev e Hev. by apply H3.
  - exact onND_hands.
Qed.
End served.
