(* ===== verification/ManagerProps.v ===== *)
(** * What every run of a manager promises

    Theorems about [Run] from what [NewManager4] and [newManager6] return, for
    all ports, all callers and every order in which the cases of the [select]
    become ready: the run comes to its end, what the events report is what the
    manager holds, the counters count what was done, and a DHCPv6 client sends no
    faster than its limit. *)

From S2P Require Import Prelude NetAddr Options Codec Forcerenew Arp Backoff Kinds Lease Acd Params Core Machine MachineSpec MachineInv MachineRun MachineProps Dhcp6 Icmpv6 Lease6 Params6 Router6 Outward Core6 Machine6 Machine6Spec Machine6Inv Machine6Props RateLimit Record Manager ManagerLogic ManagerRun Manager4 Manager4Laws Manager6 Manager6Laws.

(** ** A new manager is in order *)

Section fresh.
Context {F : Ring1} {H : Handler F} {L : Lawful H} (P : Ports F) {S : Served P}.

Lemma counted_zero : counted_by (F := F) counters stats_zero [].
Proof using Type. unfold counted_by, counters, eventCounters, portCounters, sentCounters, arrivalCounters. cbn [app]. repeat (apply Forall_cons; split; [vm_compute; reflexivity|]). by apply Forall_nil. Qed.

Lemma fresh_ready m : mgStats m = stats_zero -> mgLog m = [] -> mgRequests m = [] -> mgHeld m = false -> lHolds lStart = false ->
  lInv (mgMachine m) lStart -> lXi (mgMirror m) [] -> Forall (fun c => c.2 = 0) (lMirrored (mgMachine m)) -> fresh_manager m.
Proof using Type.
  intros Es El Eq Eh Hh Hi Hx Hz. split; [|exact Eq]. split.
  - unfold consistent_. rewrite Es, El, Eh. split; [reflexivity|exact counted_zero|exact I|reflexivity|exact Hx].
  - by rewrite El.
  - rewrite El, Eh. exact (eq_sym Hh).
  - rewrite Es, El. split; vm_compute; reflexivity.
  - rewrite Es. unfold in_step. eapply Forall_impl; [exact Hz|]. intros c Hc. by rewrite stat_zero.
Qed.

Lemma fresh_note n m : fresh_manager m -> fresh_manager (m <| mgLog := FxNote n :: mgLog m |>).
Proof using Type. intros [Hr Hq]. split; [|exact Hq]. by apply log_ready. Qed.
End fresh.

(** A new machine has counted nothing. *)
Lemma New_counts p m : New p = inr m -> Forall (fun c => c.2 = 0) (mirrored4 (mcore m)).
Proof.
  unfold New. destruct (params_validate p); [done|]. cbv zeta. destruct (if (_ <? _)%nat then _ else _); try done.
  destruct (if negb _ then _ else _); try done. intros [= <-]. by repeat constructor.
Qed.

Lemma New6_counts p m : New6 p = inr m -> Forall (fun c => c.2 = 0) (mirrored6 (ncore m)).
Proof. unfold New6. destruct (params6_validate p); [done|]. intros [= <-]. by repeat constructor. Qed.

(** What [NewManager4] hands to [New]. *)
Definition resumed4 (cfg : Config) (b : clockBridge) : Params :=
  match cfResume cfg with
  | None => cfParams cfg
  | Some l => cfParams cfg <| pResume := Some (if negb (IsZero (oExpire l)) then mkResume (paddr (oAddr l)) (instant b (oExpire l)) true
                                               else mkResume (paddr (oAddr l)) 0 false) |>
  end.

Lemma NewManager4_inv cfg b m : NewManager4 cfg b = inr m ->
  New (resumed4 cfg b) = inr (mgMachine m) /\
  mgStats m = stats_zero /\ mgLog m = [] /\ mgRequests m = [] /\ mgHeld m = false /\ mgCfg m = cfg /\
  (cfResume cfg = None \/ exists l, cfResume cfg = Some l /\ pResume (cfParams cfg) = None /\ Is4 (paddr (oAddr l)) = true /\
    IsUnspecified (paddr (oAddr l)) = false).
Proof.
  unfold NewManager4, resumed4. do 5 (destruct (_ : bool); [done|]). cbv zeta. destruct (cfResume cfg) as [l|].
  - destruct (pResume (cfParams cfg)); [done|]. destruct (negb (Is4 _) || _) eqn:Ea; [done|].
    apply orb_false_iff in Ea as [Ea Eu]. apply negb_false_iff in Ea.
    destruct (New _) as [e|mc]; [done|]. intros [= <-]. split_and!; try done. right. exists l. by split_and!.
  - destruct (New _) as [e|mc]; [done|]. intros [= <-]. split_and!; try done. by left.
Qed.

Lemma NewManager4_fresh (P : Ports ring4) cfg b m : typed (cfParams cfg) -> NewManager4 cfg b = inr m -> fresh_manager (H := handler4 P) m.
Proof.
  intros Ht Hn. destruct (NewManager4_inv _ _ _ Hn) as (E & ? & ? & ? & ? & _).
  assert (Ht' : typed (resumed4 cfg b)) by (unfold resumed4; destruct (cfResume cfg); [destruct Ht; by split|done]).
  destruct (New_inv False _ _ Ht' E) as (Hp & Hi & _). apply fresh_ready; try done; [by eexists|exact (New_counts _ _ E)].
Qed.

(** A DHCPv4 machine takes its timers as they fire. *)
Lemma timely4 (P : Ports ring4) fuel ms m : timelyRun (H := handler4 P) P fuel ms m = true.
Proof.
  unfold timelyRun. destruct (dispatch _ _ _ _) as [[u m1]| | |]; try done. generalize (r1HasLink (Handler := handler4 P) (mgCfg m1)). revert m1.
  induction ms as [|[q|w] ms IH]; intros m1 l; cbn [timelyAll]; [done| |].
  - destruct (request _ _) as [[]| | |]; [apply IH|done..].
  - destruct (serve _ _ _ _ _) as [[[l' [e|]] m']| | |]; try done. exact (IH m' l').
Qed.

(** What is given to [newManager6] is what a program can hold: the link address
    is octets, and remembered addresses are addresses a lease can have named. *)
Record given6 (cfg : Config) (params : Params6) : Prop := {
  gv_link : are_bytes (P6LinkAddr params);
  gv_resume : forall r, P6Resume params = Some r -> Forall (fun a => resume_addr_ok (a6Addr a)) (r6Addrs r);
  gv_record : forall rec, cfResume6 cfg = Some rec ->
    resume_addr_ok (paddr (oAddr rec)) /\ Forall (fun a => resume_addr_ok (paddr (oaAddr a))) (oAddrs rec) }.

Lemma newManager6_inv cfg params b m : newManager6 cfg params b = inr m -> exists p,
  match cfResume6 cfg with
  | None => p = params
  | Some rec => P6Resume params = None /\ exists r, resume6Of b rec = inr r /\ p = params <| P6Resume := Some r |>
  end /\
  New6 p = inr (mgMachine m) /\
  mgStats m = stats_zero /\ mgRequests m = [] /\ mgHeld m = false /\ mgCfg m = cfg /\
  mrLimiter (mgMirror m) = newBucket (cfRateLimit cfg) /\ (mgLog m = [] \/ exists n, mgLog m = [FxNote n]).
Proof.
  unfold newManager6. do 6 (destruct (_ : bool); [done|]). cbv zeta.
  assert (Hend : forall p, match New6 p with
    | inl e => inl (ErrParams6 e)
    | inr m => inr (mkManager cfg m
        (mkMirror6 DADIdle router_none (nparams (ncore m)) (ndeclined (ncore m)) (mkReconfCounts 0 (fun _ => 0)) (mkRapid6 0 0)
          (mkTemp6 0 0 0 0) (mkPd6 0 0 0 0) (newBucket (cfRateLimit cfg)) 0)
        (nhostname (ncore m)) [] false olease_zero false 0 (mkConfiguration [] [] 0) stats_zero
        (if bon (newBucket (cfRateLimit cfg)) then [] else [FxNote (note "RFC 9915 §14.1's rate limit is disabled by Config.RateLimit.Messages < 0: this client will not bound the messages it sends" [])]))
    end = inr m -> New6 p = inr (mgMachine m) /\ mgStats m = stats_zero /\ mgRequests m = [] /\ mgHeld m = false /\ mgCfg m = cfg /\
      mrLimiter (mgMirror m) = newBucket (cfRateLimit cfg) /\ (mgLog m = [] \/ exists n, mgLog m = [FxNote n])).
  { intros p. destruct (New6 p) as [e|mc]; [done|]. intros [= <-]. split_and!; try done. cbn [mgLog]. destruct (bon _); [by left|right; by eexists]. }
  destruct (cfResume6 cfg) as [rec|].
  - destruct (P6Resume params); [done|]. destruct (resume6Of b rec) as [e|r]; [done|]. intros Hn. eexists. split; [|by apply Hend]. split; [done|]. by exists r.
  - intros Hn. exists params. split; [done|]. by apply Hend.
Qed.

Lemma resumedAddrs_ok b rec l : resume_addr_ok (paddr (oAddr rec)) -> Forall (fun a => resume_addr_ok (paddr (oaAddr a))) (oAddrs rec) ->
  resumedAddrs b rec = Some l -> Forall (fun a => resume_addr_ok (a6Addr a)) l.
Proof.
  intros Ha Hl. unfold resumedAddrs. destruct (oAddrs rec) as [|x xs] eqn:Ex; [intros [= <-]; by apply Forall_singleton|].
  rewrite <- Ex in *. clear Ex x xs. intros Hm%mapM_Some. revert Hl. induction Hm as [|a y xs l E _ IH]; intros Hl; [done|].
  apply Forall_cons in Hl as [H1 H2]. constructor; [|by apply IH]. destruct (negb _); [done|]. by injection E as <-.
Qed.

Lemma newManager6_config cfg params b m : given6 cfg params -> newManager6 cfg params b = inr m ->
  exists p, config_ok p /\ New6 p = inr (mgMachine m).
Proof.
  intros [G1 G2 G3] Hn. destruct (newManager6_inv _ _ _ _ Hn) as (p & Hp & E & _). exists p. split; [|done].
  assert (Hv : params6_validate p = None) by (revert E; unfold New6; by destruct (params6_validate p)).
  destruct (cfResume6 cfg) as [rec|]; [|subst p; by split]. destruct Hp as (_ & r & Hr & ->). split; [exact Hv|exact G1|].
  destruct (G3 rec eq_refl) as [Ha Hl]. intros r' [= <-]. unfold resume6Of in Hr. destruct (negb _); [done|].
  destruct (resumedAddrs b rec) as [l|] eqn:El; [|done]. injection Hr as <-. by eapply resumedAddrs_ok.
Qed.

Lemma newManager6_fresh (P : Ports ring6) cfg params b m : given6 cfg params -> newManager6 cfg params b = inr m ->
  fresh_manager (H := handler6 P) (L := lawful6 P (cfRateLimit cfg)) m.
Proof.
  intros Hg Hn. destruct (newManager6_config _ _ _ _ Hg Hn) as (p & Hp & E).
  destruct (newManager6_inv _ _ _ _ Hn) as (_ & _ & _ & Es & Eq & Eh & _ & Em & Hl).
  assert (H0 : fresh_manager (H := handler6 P) (L := lawful6 P (cfRateLimit cfg)) (m <| mgLog := [] |>)).
  { apply fresh_ready; try done; [exists p; by split; [|apply New6_Inv6]| |exact (New6_counts _ _ E)].
    split; [|done]. cbn. by rewrite Em. }
  destruct Hl as [El|[n El]].
  - assert (E0 : m <| mgLog := [] |> = m) by (destruct m; cbn in El; by subst). by rewrite E0 in H0.
  - apply (fresh_note n) in H0. assert (E0 : m <| mgLog := [] |> <| mgLog := FxNote n :: [] |> = m) by (destruct m; cbn in El; by subst).
    cbn [mgLog set_fld] in H0. by rewrite E0 in H0.
Qed.

(** ** Concrete ports

    A client whose clocks gain a second with every call, on a network that takes
    everything. *)

Definition sample_ports (F : Ring1) : Ports F :=
  mkPorts (fun l => Z.of_nat (length l) * Second) (fun l => 2 ^ 63 + Z.of_nat (length l) * Second) (fun _ => 7)
    (fun _ _ _ => None) (fun _ _ _ => None) (fun _ _ => None) (fun _ _ => None) (fun _ _ => true)
    (fun _ => []) (fun _ => []) (fun _ _ => []).

Definition sample_cfg4 : Config :=
  mkConfig sample_params true true true true true None None false false AddrZero [] false (mkRateLimit 0 0) None.
Definition sample_cfg6 : Config :=
  mkConfig sample_params false true true true false None (Some managed_params) true true AddrZero [] true (mkRateLimit 1 (20 * Second)) None.

Definition octets4_of (m : Message) : bytes := match Encode m with Ok b => b | _ => [] end.
Definition octets6_of (m : MessageV6) : bytes := match EncodeV6 m with Ok b => b | _ => [] end.

Definition from_server (t : Z) : Moment := Select (WakeInbound (mkInbound (octets4_of (MachineProps.sample_reply t)) MachineProps.sample_server AddrZero None)).
Definition from_server6 (e : Event6) : Moment :=
  Select (WakeInbound (mkInbound (match e with Ev6Received (Some msg) _ _ => octets6_of msg | _ => [] end) AddrZero AddrZero None)).

(** An acquisition with its probes, and the caller's end; and one of DHCPv6 with
    a retransmission of the Solicit. *)
Definition sample_moments4 : list Moment :=
  [from_server MsgOffer; from_server MsgAck] ++ replicate 4 (Select (WakeFired TimerACD)) ++ [Caller QRelease; Select WakeRequest; Select (WakeDone [])].
Definition sample_moments6 : list Moment :=
  [Select (WakeFired Timer6Delay); Select (WakeFired Timer6Retransmit); from_server6 (sample_msg MsgAdvertise 7);
   Select (WakeFired Timer6Retransmit); from_server6 (sample_msg MsgReply 7); Caller (QDADResult sample_addr false); Select WakeRequest;
   Select (WakeFired Timer6Renew)].

Definition sample_bridge0 : clockBridge := mkBridge 0 (2 ^ 63).

(** The run of a sample, and what can be asked of it. *)
Definition sample_run4 : option (Manager ring4) :=
  match NewManager4 sample_cfg4 sample_bridge0 with
  | inr m => match Run (H := handler4 (sample_ports ring4)) (sample_ports ring4) 20 sample_moments4 m with Ok (_, m') => Some m' | _ => None end
  | inl _ => None
  end.
Definition sample_run6 : option (Manager ring6) :=
  match newManager6 sample_cfg6 managed_params sample_bridge0 with
  | inr m => match Run (H := handler6 (sample_ports ring6)) (sample_ports ring6) 20 sample_moments6 m with Ok (_, m') => Some m' | _ => None end
  | inl _ => None
  end.

Lemma sample_started4 : exists m, NewManager4 sample_cfg4 sample_bridge0 = inr m /\ typed (cfParams sample_cfg4) /\
  exists r m', Run (H := handler4 (sample_ports ring4)) (sample_ports ring4) 20 sample_moments4 m = Ok (r, m') /\ sample_run4 = Some m'.
Proof.
  assert (H : match sample_run4 with Some _ => true | None => false end = true) by (vm_compute; reflexivity). revert H. unfold sample_run4.
  destruct (NewManager4 sample_cfg4 sample_bridge0) as [|m]; [done|]. intros H. exists m. split; [done|]. split; [exact sample_typed|].
  destruct (Run _ 20 sample_moments4 m) as [[r m']| | |]; [|done..]. by exists r, m'.
Qed.

Lemma sample_given : given6 sample_cfg6 managed_params.
Proof. split; [exact (cg_link _ managed_ok)|by intros r [=]|by intros r [=]]. Qed.

Lemma sample_started6 : exists m, newManager6 sample_cfg6 managed_params sample_bridge0 = inr m /\
  timelyRun (H := handler6 (sample_ports ring6)) (L := lawful6 (sample_ports ring6) (cfRateLimit sample_cfg6)) (sample_ports ring6) 20 sample_moments6 m = true /\
  exists r m', Run (H := handler6 (sample_ports ring6)) (sample_ports ring6) 20 sample_moments6 m = Ok (r, m') /\ sample_run6 = Some m'.
Proof.
  assert (H : match newManager6 sample_cfg6 managed_params sample_bridge0 with
    | inr m => timelyRun (H := handler6 (sample_ports ring6)) (L := lawful6 (sample_ports ring6) (cfRateLimit sample_cfg6)) (sample_ports ring6) 20 sample_moments6 m
    | inl _ => false end && match sample_run6 with Some _ => true | None => false end = true) by (vm_compute; reflexivity).
  apply andb_true_iff in H as [Ht H]. revert H. unfold sample_run6.
  destruct (newManager6 sample_cfg6 managed_params sample_bridge0) as [|m]; [done|]. intros H. exists m. split; [done|]. split; [exact Ht|].
  destruct (Run _ 20 sample_moments6 m) as [[r m']| | |]; [|done..]. by exists r, m'.
Qed.

(** ** Every run comes to its end *)

(** C6: [Run] never spins or panics. A failed send is handed back to the machine
    as an event, in the same [dispatch], and the machine's answer never sends
    again: so from what [NewManager] returns, for all ports and any sequence of
    callers and ready cases, there is a fuel from which on [Run] gets through
    it. For a DHCPv4 manager there is no further condition on the run, only
    configured numbers within their types ([typed]). For a DHCPv6 one the
    configuration is what a program can hold ([given6]), and the run is one in
    which the timers fire as they were set, the retransmission timer only while
    it is armed, and a received frame is octets ([timelyRun]). *)
Theorem manager_ends :
  (forall (P : Ports ring4) cfg b m ms, typed (cfParams cfg) -> NewManager4 cfg b = inr m ->
    exists fuel0, forall fuel, (fuel0 <= fuel)%nat -> exists r m', Run (H := handler4 P) P fuel ms m = Ok (r, m')) /\
  (forall (P : Ports ring6) cfg params b m ms, given6 cfg params -> newManager6 cfg params b = inr m ->
    exists fuel0, forall fuel, (fuel0 <= fuel)%nat ->
      timelyRun (H := handler6 P) (L := lawful6 P (cfRateLimit cfg)) P fuel ms m = true ->
      exists r m', Run (H := handler6 P) P fuel ms m = Ok (r, m')).
Proof.
  split.
  - intros P cfg b m ms Ht Hn. destruct (Run_ends (H := handler4 P) P ms m (NewManager4_fresh P cfg b m Ht Hn)) as [f0 Hf].
    exists f0. intros fuel Hl. apply Hf; [done|]. by apply timely4.
  - intros P cfg params b m ms Hg Hn. exact (Run_ends P ms m (newManager6_fresh P cfg params b m Hg Hn)).
Qed.

Lemma manager_ends_witness :
  (exists m f r m', NewManager4 sample_cfg4 sample_bridge0 = inr m /\
    Run (H := handler4 (sample_ports ring4)) (sample_ports ring4) f sample_moments4 m = Ok (r, m')) /\
  exists m f0, newManager6 sample_cfg6 managed_params sample_bridge0 = inr m /\
    forall f, (f0 <= f)%nat ->
      timelyRun (H := handler6 (sample_ports ring6)) (L := lawful6 (sample_ports ring6) (cfRateLimit sample_cfg6)) (sample_ports ring6) f sample_moments6 m = true ->
      exists r m', Run (H := handler6 (sample_ports ring6)) (sample_ports ring6) f sample_moments6 m = Ok (r, m').
Proof.
  split.
  - destruct sample_started4 as (m & Hn & Ht & _).
    destruct (proj1 manager_ends (sample_ports ring4) _ _ m sample_moments4 Ht Hn) as [f Hf].
    destruct (Hf f (Nat.le_refl f)) as (r & m' & E). by exists m, f, r, m'.
  - destruct sample_started6 as (m & Hn & _).
    destruct (proj2 manager_ends (sample_ports ring6) _ _ _ m sample_moments6 sample_given Hn) as [f Hf]. by exists m, f.
Defined.

(** ** What the events say *)

(** A run from what the constructor returned has left [m']. *)
Definition ran4 (P : Ports ring4) (cfg : Config) (m' : Manager ring4) : Prop :=
  typed (cfParams cfg) /\ exists b m fuel ms r, NewManager4 cfg b = inr m /\ Run (H := handler4 P) P fuel ms m = Ok (r, m').
Definition ran6 (P : Ports ring6) (cfg : Config) (m' : Manager ring6) : Prop :=
  exists params b m fuel ms r, given6 cfg params /\ newManager6 cfg params b = inr m /\
    timelyRun (H := handler6 P) (L := lawful6 P (cfRateLimit cfg)) P fuel ms m = true /\
    Run (H := handler6 P) P fuel ms m = Ok (r, m').

Lemma ran4_ready P cfg m' : ran4 P cfg m' -> ready (H := handler4 P) 0 m'.
Proof.
  intros (Ht & b & m & fuel & ms & r & Hn & E).
  exact (Run_left P fuel ms m r m' (NewManager4_fresh P cfg b m Ht Hn) (timely4 P fuel ms m) E).
Qed.

Lemma ran6_ready P cfg m' : ran6 P cfg m' -> ready (H := handler6 P) (L := lawful6 P (cfRateLimit cfg)) 0 m'.
Proof.
  intros (params & b & m & fuel & ms & r & Hg & Hn & Ht & E).
  exact (Run_left P fuel ms m r m' (newManager6_fresh P cfg params b m Hg Hn) Ht E).
Qed.

Lemma sample_ran4 : exists m', sample_run4 = Some m' /\ ran4 (sample_ports ring4) sample_cfg4 m'.
Proof.
  destruct sample_started4 as (m & Hn & Ht & r & m' & E & Es). exists m'. split; [exact Es|].
  split; [exact Ht|]. exists sample_bridge0, m, 20%nat, sample_moments4, r. exact (conj Hn E).
Qed.
Lemma sample_ran6 : exists m', sample_run6 = Some m' /\ ran6 (sample_ports ring6) sample_cfg6 m'.
Proof.
  destruct sample_started6 as (m & Hn & Ht & r & m' & E & Es). exists m'. split; [exact Es|].
  exists managed_params, sample_bridge0, m, 20%nat, sample_moments6, r. exact (conj sample_given (conj Hn (conj Ht E))).
Qed.

(** C3: the events of a run are the manager's own account. In every run of a
    DHCPv4 manager, and in every run of a DHCPv6 one whose configuration is what
    a program can hold ([given6]) and whose timers fire as they were set, a
    retransmission only as it is armed ([timelyRun]), whatever the ports answer:
    a lease is acquired when none is out, renewed, changed or lost when one is;
    when an event arrives, the counters its caller reads have counted it
    ([log_ok]); and [Lease] answers a lease exactly when one was reported and
    not lost since, which is when the machine holds one. Of DHCPv4 the lease
    lost and the lease [Lease] answers are the one last shown. Of DHCPv6 what is
    shown is the lease merged with what routers advertised then: the lease lost
    is the one that was last shown before that merge, and [Lease] answers the
    same lease merged with what the routers say now. *)
Theorem manager_reports :
  (forall P cfg m', ran4 P cfg m' ->
    log_ok (fun l shown => shown = l) (mgLog m') /\ (Lease4 m').2 = mhaveLse (mcore (mgMachine m')) /\
    match reported (mgLog m') with Some shown => Lease4 m' = (shown, true) | None => (Lease4 m').2 = false end) /\
  (forall P cfg m', ran6 P cfg m' ->
    log_ok (fun l shown => shown = l \/ exists r, shown = withRouterAdvert l r) (mgLog m') /\
    (LeaseOf6 m').2 = nhaveLse (ncore (mgMachine m')) /\
    match reported (mgLog m') with
    | Some shown => LeaseOf6 m' = (withRouterAdvert (mgLease m') (mrRouter (mgMirror m')), true) /\
        (shown = mgLease m' \/ exists r, shown = withRouterAdvert (mgLease m') r)
    | None => (LeaseOf6 m').2 = false
    end).
Proof.
  split; intros P cfg m' Hr.
  - destruct (ran4_ready P cfg m' Hr) as [[_ _ Hl Hh _] (p & _ & Hc & _) He _ _]. split; [exact Hl|].
    split; [exact (eq_trans He (co_holds _ _ _ Hc))|]. unfold Lease4. destruct (reported _) as [shown|]; [|exact Hh].
    destruct Hh as [-> Hs]. by rewrite Hs.
  - destruct (ran6_ready P cfg m' Hr) as [[_ _ Hl Hh _] (p & _ & (_ & Hb & _) & _) He _ _]. split; [exact Hl|].
    assert (E2 : (LeaseOf6 m').2 = mgHeld m') by (unfold LeaseOf6; by destruct (mgHeld m')). rewrite E2. split.
    + rewrite He. cbn [lHolds lawful6]. unfold holds6. rewrite Hb. by destruct (nhaveLse _).
    + destruct (reported _) as [shown|]; [|exact Hh]. destruct Hh as [Hh Hs]. split; [|exact Hs]. unfold LeaseOf6. by rewrite Hh.
Qed.

(** Of the samples, the DHCPv4 run has reported its lease and lost it, the DHCPv6
    one still shows the address it was granted. *)
Lemma manager_reports_witness :
  (exists m', sample_run4 = Some m' /\ log_ok (fun l shown => shown = l) (mgLog m') /\ (Lease4 m').2 = false) /\
  exists m', sample_run6 = Some m' /\ (LeaseOf6 m').2 = true /\ nhaveLse (ncore (mgMachine m')) = true.
Proof.
  split.
  - destruct sample_ran4 as (m' & Es & Hr). destruct (proj1 manager_reports _ _ _ Hr) as (H1 & _ & H3). exists m'. split; [exact Es|]. split; [exact H1|].
    assert (E : option_map (fun m => reported (mgLog m)) sample_run4 = Some None) by (vm_compute; reflexivity). rewrite Es in E. cbn in E.
    injection E as E. by rewrite E in H3.
  - destruct sample_ran6 as (m' & Es & Hr). destruct (proj2 manager_reports _ _ _ Hr) as (_ & H2 & _). exists m'. split; [exact Es|].
    assert (E : option_map (fun m => nhaveLse (ncore (mgMachine m))) sample_run6 = Some true) by (vm_compute; reflexivity). rewrite Es in E. cbn in E.
    injection E as E. split; [|exact E]. by rewrite H2.
Defined.

(** ** What the counters count *)

(** C10: the counters of a run. In every run of a DHCPv4 manager, and of a
    DHCPv6 one under [given6] and [timelyRun], the counters of [counters] are,
    modulo 2^64, the numbers of log entries of their kinds: the steps, the
    messages sent, the renewals, declines, releases, router solicitations, ARP
    probes and announcements among them, the sends the bucket refused, the
    duplicate checks started, the timers that fired, the requests and events
    dropped, the datagrams and frames received, those of them that failed to be
    read or decoded, the NAKs and advertisements among them, and the leases
    acquired, renewed and lost, the failures and the configurations reported, those
    for a conflict or a NAK among them. [ActionsExecuted] is the number of
    actions of all steps, so none is skipped; [ActionsFailedFed] is both the sum
    of the three counters of failed sends and the number of failures the machine
    was told of, so none is swallowed; and every counter mirrored from the
    machine is the machine's own ([mirrored4], [mirrored6]). Of the counters of
    [Stats], [ARPIgnored] and [RouterAdvertOptionsIgnored] are not covered, and
    those of failed sends only by their sum. *)
Theorem manager_accounts :
  (forall P cfg m', ran4 P cfg m' -> let s := mgStats m' in let l := mgLog m' in
    counted_by counters s l /\ stat s "ActionsExecuted" = u64 (executed l) /\
    stat s "ActionsFailedFed" = u64 (stat s "SendFailures" + stat s "ARPSendFailures" + stat s "NDSendFailures") /\
    stat s "ActionsFailedFed" = u64 (count (fun x : Fx ring4 => match x with FxJournal _ _ _ (EvActionFailed _ _) _ _ => true | _ => false end) l) /\
    Forall (fun c => stat s c.1 = c.2) (mirrored4 (mcore (mgMachine m')))) /\
  (forall P cfg m', ran6 P cfg m' -> let s := mgStats m' in let l := mgLog m' in
    counted_by counters s l /\ stat s "ActionsExecuted" = u64 (executed l) /\
    stat s "ActionsFailedFed" = u64 (stat s "SendFailures" + stat s "ARPSendFailures" + stat s "NDSendFailures") /\
    stat s "ActionsFailedFed" = u64 (count (fun x : Fx ring6 => match x with FxJournal _ _ _ (Ev6ActionFailed _ _) _ _ => true | _ => false end) l) /\
    Forall (fun c => stat s c.1 = c.2) (mirrored6 (ncore (mgMachine m')))).
Proof.
  split; intros P cfg m' Hr.
  - destruct (ran4_ready P cfg m' Hr) as [[_ Hc _ _ _] _ _ [T1 T2 T3] Hm]. cbv zeta. rewrite Z.add_0_r in T2.
    split; [exact Hc|]. split; [exact T3|]. split; [exact T1|]. split; [exact T2|exact Hm].
  - destruct (ran6_ready P cfg m' Hr) as [[_ Hc _ _ _] _ _ [T1 T2 T3] Hm]. cbv zeta. rewrite Z.add_0_r in T2.
    split; [exact Hc|]. split; [exact T3|]. split; [exact T1|]. split; [exact T2|exact Hm].
Qed.

(** The DHCPv6 sample executes 31 actions, and is told of the two messages the
    rate limit refused. *)
Lemma manager_accounts_witness :
  (exists m', sample_run4 = Some m' /\ counted_by counters (mgStats m') (mgLog m')) /\
  exists m', sample_run6 = Some m' /\ u64 (executed (mgLog m')) = 31 /\
    u64 (count (fun x : Fx ring6 => match x with FxJournal _ _ _ (Ev6ActionFailed _ _) _ _ => true | _ => false end) (mgLog m')) = 2.
Proof.
  split.
  - destruct sample_ran4 as (m' & Es & Hr). exists m'. split; [exact Es|]. exact (proj1 (proj1 manager_accounts _ _ _ Hr)).
  - destruct sample_ran6 as (m' & Es & Hr). destruct (proj2 manager_accounts _ _ _ Hr) as (_ & H1 & _ & H2 & _). exists m'. split; [exact Es|].
    assert (E : option_map (fun m => (stat (mgStats m) "ActionsExecuted", stat (mgStats m) "ActionsFailedFed")) sample_run6 = Some (31, 2)) by (vm_compute; reflexivity).
    rewrite Es in E. injection E as E1 E2. exact (conj (eq_trans (eq_sym H1) E1) (eq_trans (eq_sym H2) E2)).
Defined.

(** ** How fast a DHCPv6 client sends *)

Definition is_sendv6 (x : Fx ring6) : bool := match x with FxSendV6 _ _ _ => true | _ => false end.
Definition takes_one (x : Fx ring6) : Z := match x with FxTake _ true => 1 | _ => 0 end.

Lemma takenAt_app a b : takenAt (a ++ b) = takenAt b ++ takenAt a.
Proof. induction a as [|x a IH]; [by rewrite app_nil_r|]. destruct x; cbn [app takenAt]; try exact IH. by rewrite IH, app_assoc. Qed.

Lemma granted_app a b : granted (a ++ b) = granted a + granted b.
Proof. induction a as [|g a IH]; [done|]. cbn [app granted]. rewrite IH. lia. Qed.

(** Every send of a part of the log has a grant of its own in it, but for the
    grant the part ends with. *)
Lemma sends_granted mid t g old : granted_sends (mid ++ FxTake t g :: old) ->
  count is_sendv6 mid + takes_one (hd (FxTake t g) mid) <= granted (g :: map snd (takenAt mid)).
Proof.
  induction mid as [|x mid IH]; cbn [app granted_sends]; [intros _; by destruct g|]. intros [Hx Hm]. specialize (IH Hm).
  assert (E : count is_sendv6 (x :: mid) = (if is_sendv6 x then 1 else 0) + count is_sendv6 mid).
  { unfold count. cbn [List.filter]. destruct (is_sendv6 x); cbn [length]; lia. }
  rewrite E. change (hd (FxTake t g) (x :: mid)) with x.
  assert (H0 : 0 <= takes_one (hd (FxTake t g) mid)) by (unfold takes_one; repeat case_match; lia).
  destruct x; cbn [is_sendv6 takes_one takenAt]; try lia.
  - destruct Hx as (t' & l' & El). assert (E1 : hd (FxTake t g) mid = FxTake t' true) by (destruct mid; exact (f_equal (hd FxClosed) El)). rewrite E1 in IH. cbn [takes_one] in IH. lia.
  - rewrite map_app, app_comm_cons, granted_app. cbn [map snd RateLimit.granted] in IH |- *. destruct granted; lia.
Qed.

(** C11: the rate limit of RFC 9915 section 14.1 holds of the wire, not only of
    the bucket. In a run of a DHCPv6 manager ([given6], [timelyRun]) whose limit
    of [M] messages in [W] is switched on, over a clock that does not go back
    between the questions to the bucket and within the time in which the
    bucket's products fit an int64 (beyond it [bucket_wraps] of RateLimit), in
    any stretch of the log that starts with a question to the bucket the
    messages that left number at most [M] and as many as the stretch refills,
    rounded down: whatever is sent, retransmitted, declined or released, and
    whatever the machine asks for. *)
Theorem manager6_rate P cfg m' M W t0 te old t g mid new : ran6 P cfg m' ->
  resolve (cfRateLimit cfg) = (mkRateLimit M W, true) ->
  0 <= t0 -> te <= MaxInt64 -> M * W + M * (te - t0) <= MaxInt64 -> clock t0 (map fst (takenAt (mgLog m'))) te ->
  mgLog m' = new ++ mid ++ FxTake t g :: old ->
  W * count is_sendv6 mid <= M * (W + (List.last (map fst (takenAt mid)) t - t)).
Proof.
  intros Hr Hrl H0 He Hf Hc El. destruct (cs_xi _ _ _ _ _ _ _ (rd_consistent _ _ (ran6_ready P cfg m' Hr))) as [Hx Hg].
  assert (Et : takenAt (mgLog m') = takenAt old ++ (t, g) :: takenAt mid ++ takenAt new).
  { rewrite El, !takenAt_app. cbn [takenAt]. by rewrite <- !app_assoc. }
  rewrite Et, !map_app in *. cbn [map fst snd] in *. rewrite !map_app in *.
  destruct (bucket_bound _ M W t0 te (map fst (takenAt old)) t (map fst (takenAt mid)) (map fst (takenAt new)) Hrl H0 He Hf Hc) as (Hb & _).
  rewrite Hx in Hb. cbn [snd] in Hb. rewrite !length_map in Hb.
  change (map snd (takenAt old) ++ g :: map snd (takenAt mid) ++ map snd (takenAt new))
    with (map snd (takenAt old) ++ (g :: map snd (takenAt mid)) ++ map snd (takenAt new)) in Hb.
  rewrite take_length_app in Hb by (by rewrite ?length_map || (cbn [length]; by rewrite length_map)).
  rewrite El in Hg. assert (Hg' : granted_sends (mid ++ FxTake t g :: old)).
  { clear -Hg. induction new as [|x new IH]; [exact Hg|]. apply IH. exact (proj2 Hg). }
  pose proof (sends_granted mid t g old Hg') as Hs. destruct (resolve_pos _ _ _ Hrl) as [HM HW].
  assert (0 <= takes_one (hd (FxTake t g) mid)) by (unfold takes_one; repeat case_match; lia). nia.
Qed.

(** Three messages left the sample in seventy-six seconds, with one allowed in twenty. *)
Lemma manager6_rate_witness : exists m', sample_run6 = Some m' /\
  count is_sendv6 (take 79 (mgLog m')) = 3 /\ 20 * Second * 3 <= 1 * (20 * Second + 76 * Second).
Proof.
  destruct sample_ran6 as (m' & Es & Hr). exists m'. split; [exact Es|].
  assert (E : match sample_run6 with
    | Some m => match mgLog m !! 79%nat with Some (FxTake t true) => bool_decide (t = 15 * Second) | _ => false end
                && bool_decide (map fst (takenAt (mgLog m)) = [15 * Second; 26 * Second; 42 * Second; 53 * Second; 91 * Second])
                && bool_decide (List.last (map fst (takenAt (take 79 (mgLog m)))) 0 = 91 * Second)
                && (count is_sendv6 (take 79 (mgLog m)) =? 3)
    | None => false end = true) by (vm_compute; reflexivity).
  rewrite Es, !andb_true_iff in E. destruct E as (((E1 & E2) & E3) & E4). apply bool_decide_eq_true in E2, E3. apply Z.eqb_eq in E4.
  split; [exact E4|]. destruct (mgLog m' !! 79%nat) as [[| | | | | | |t g| | | | | | | | | | | | | | |]|] eqn:El; try discriminate E1.
  destruct g; [|discriminate E1]. apply bool_decide_eq_true in E1 as ->.
  pose proof (manager6_rate (sample_ports ring6) sample_cfg6 m' 1 (20 * Second) 0 (91 * Second) (drop 80 (mgLog m')) (15 * Second) true
    (take 79 (mgLog m')) [] Hr eq_refl ltac:(done) ltac:(done) ltac:(done)) as H.
  rewrite E2, E4 in H. assert (E5 : List.last (map fst (takenAt (take 79 (mgLog m')))) (15 * Second) = 91 * Second).
  { revert E3. generalize (map fst (takenAt (take 79 (mgLog m')))). intros w. destruct w as [|i w]; [vm_compute; congruence|]. intros E3. exact (eq_trans (last_cons i _ w) (eq_trans (eq_sym (last_cons i 0 w)) E3)). }
  rewrite E5 in H. apply H; [cbn; unfold Second; lia|]. symmetry. exact (take_drop_middle _ _ _ El).
Defined.

(** ** A lease from an earlier process *)

Lemma remaining_set b t ts : IsZero t = false -> Z.abs (t - cbWall b) < 2 ^ 63 -> remaining b (t :: ts) = Z.max 0 (t - cbWall b).
Proof.
  intros Hz Ht. cbn [remaining]. rewrite Hz. unfold TimeSub. rewrite MaxInt64_val. change (2 ^ 63) with 9223372036854775808 in *.
  rewrite Z.min_r, Z.max_r by lia. destruct (Z.ltb_spec (t - cbWall b) 0); lia.
Qed.

Lemma remaining_unset b t ts : IsZero t = true -> remaining b (t :: ts) = remaining b ts.
Proof. intros Hz. cbn [remaining]. by rewrite Hz. Qed.

(** How much longer the process that reads the record has to wait than the one
    that wrote it, in the wall-clock time between them. *)
Definition elapsed (b0 b : clockBridge) : Duration := cbWall b - cbWall b0.

(** What a lifetime of a lease written by one process is in another. *)
Definition left_of (b0 b : clockBridge) (start : Instant) (d : Duration) : Duration :=
  if IsInfinite d then Infinite else Z.max 0 (start + d - cbMono b0 - elapsed b0 b).

(** What an instant on the clock of one is in another; none is for ever. *)
Definition left_at (b0 b : clockBridge) (t : option Instant) : Duration :=
  match t with None => Infinite | Some t => Z.max 0 (t - cbMono b0 - elapsed b0 b) end.

(** How a deadline is written to the record, and one the clocks can count to. *)
Definition shown_end (b : clockBridge) (t : option Instant) : Time := match t with Some t => at_ b t | None => 0 end.
Definition in_reach (t : option Instant) : Prop :=
  match t with Some t => 0 <= t <= 2 ^ 61 + 4294967294 * Second | None => True end.

Lemma remaining_deadline b0 b start d ts : bridge_wf b0 -> 0 <= start <= 2 ^ 61 -> cbMono b0 <= 2 ^ 61 -> lifetime_wf d ->
  Z.abs (elapsed b0 b) < 2 ^ 61 -> d <> Infinite ->
  IsZero (outwardEnd b0 start d) = false /\ remaining b (outwardEnd b0 start d :: ts) = left_of b0 b start d.
Proof.
  intros Hb Hs Hm Hd He Hi. destruct (outwardEnd_spec b0 start d Hb Hs Hm Hd) as [[? _]|(Hr & E & Hz & _)]; [done|].
  apply Z.eqb_neq in Hz. split; [exact Hz|]. unfold elapsed, bridge_wf, instant_wf, Second in *.
  rewrite remaining_set; [|exact Hz|rewrite E; lia]. rewrite E. unfold left_of, IsInfinite, elapsed.
  destruct (Z.eqb_spec d Infinite) as [|_]; [done|]. f_equal. lia.
Qed.

Lemma New_resume p m : New p = inr m -> mresume (mcore m) = pResume p.
Proof.
  unfold New. destruct (params_validate p); [done|]. cbv zeta. destruct (if (_ <? _)%nat then _ else _); try done.
  destruct (if negb _ then _ else _); try done. by intros [= <-].
Qed.

Lemma New6_resume p m : New6 p = inr m -> nresume (ncore m) = P6Resume p.
Proof. unfold New6. destruct (params6_validate p); [done|]. by intros [= <-]. Qed.

Lemma oExpire_toLease l b : oExpire (toLease l b) = match Expire l with Some t => at_ b t | None => 0 end.
Proof. unfold toLease. cbv zeta. destruct (Gateway l), (Expire l), (RenewAt l), (RebindAt l); done. Qed.
Lemma oAddr_toLease l b : oAddr (toLease l b) = lAddr l.
Proof. unfold toLease. cbv zeta. destruct (Gateway l), (Expire l), (RenewAt l), (RebindAt l); done. Qed.
Lemma toLease6_deadlines l b : let o := toLease6 l b in let d := Lease6Deadlines l in
  oValid o = oExpire o /\ oExpire o = shown_end b (dExpire d) /\ oRenew o = shown_end b (dRenew d) /\
  oRebind o = shown_end b (dRebind d) /\ oPreferred o = shown_end b (PreferredUntil l).
Proof. unfold toLease6, shown_end. cbv zeta. destruct (Lease6_Prefix l), (dExpire _), (dRenew _), (dRebind _), (PreferredUntil l); by split_and!. Qed.

Lemma toLease6_fields l b : let o := toLease6 l b in
  oServerDUID o = l6ServerDUID l /\ oPrefixServerDUID o = l6PrefixServerDUID l /\ oDNS o = l6DNS l /\ oDomainSearch o = l6Search l /\
  oReconfigureKey o = l6ReconfigureKey l /\ oReconfigureReplay o = l6ReconfigureReplay l /\
  oReconfigureReplaySeen o = l6ReconfigureReplaySeen l /\ oPrefixes o = outwardPrefixes (l6Prefixes l) (l6Start l) b.
Proof. unfold toLease6. cbv zeta. destruct (Lease6_Prefix l), (dExpire _), (dRenew _), (dRebind _), (PreferredUntil l); by split_and!. Qed.

(** The longest valid lifetime ends a lease, whatever arms its renewal. *)
Lemma dExpire_eq l : dExpire (Lease6Deadlines l) = if IsInfinite (longestValid l) then None else Some (Add (l6Start l) (longestValid l)).
Proof.
  unfold Lease6Deadlines. destruct (IsInfinite (longestValid l)) eqn:Ei; cbn [negb andb]; destruct (_ || _)%bool; try done;
    destruct (l6SLAAC l); try done; destruct (_ && _)%bool; try done; by destruct (groupDeadlines l).
Qed.

(** An address of a lease, and the machine's memory of it in the next process. *)
Definition remembered (b0 b : clockBridge) (l : Lease6) (a a' : Addr6T) : Prop :=
  a6Addr a' = WithoutZone (a6Addr a) /\ a6Valid a' = left_of b0 b (l6Start l) (a6Valid a) /\
  a6Preferred a' = if IsInfinite (a6Preferred a) then left_at b0 b (PreferredUntil l) else left_of b0 b (l6Start l) (a6Preferred a).

(** The same of a prefix. *)
Definition remembered_prefix (b0 b : clockBridge) (l : Lease6) (p p' : Prefix6) : Prop :=
  p6Prefix p' = p6Prefix p /\ p6Preferred p' = left_of b0 b (l6Start l) (p6Preferred p) /\
  p6Valid p' = if IsInfinite (p6Valid p) then left_at b0 b (dExpire (Lease6Deadlines l)) else left_of b0 b (l6Start l) (p6Valid p).

(** A lease ring 1 has named: times within the range of the clocks. *)
Record nameable (b0 b : clockBridge) (l : Lease6) : Prop := {
  nb_addrs : l6Addrs l <> [];
  nb_lives : lives (l6Addrs l);
  nb_prefixes : Forall (fun p => lifetime_wf (p6Preferred p) /\ lifetime_wf (p6Valid p)) (l6Prefixes l);
  nb_start : 0 <= l6Start l <= 2 ^ 61;
  nb_renew : in_reach (dRenew (Lease6Deadlines l)) /\ in_reach (dRebind (Lease6Deadlines l));
  nb_bridge : bridge_wf b0;
  nb_mono : cbMono b0 <= 2 ^ 61;
  nb_wall : Z.abs (elapsed b0 b) < 2 ^ 61 }.

(** What of a lease the machine of the next process is given. *)
Record resumes_as (b0 b : clockBridge) (l : Lease6) (x : Resume6) : Prop := {
  ra_addrs : Forall2 (remembered b0 b l) (l6Addrs l) (r6Addrs x);
  ra_prefixes : Forall2 (remembered_prefix b0 b l) (l6Prefixes l) (r6Prefixes x);
  ra_T1 : r6T1 x = left_at b0 b (dRenew (Lease6Deadlines l));
  ra_T2 : r6T2 x = left_at b0 b (dRebind (Lease6Deadlines l));
  ra_server : r6ServerDUID x = l6ServerDUID l;
  ra_prefixServer : r6PrefixServerDUID x = l6PrefixServerDUID l;
  ra_dns : r6DNS x = l6DNS l;
  ra_search : r6Search x = l6Search l;
  ra_key : r6ReconfigureKey x = l6ReconfigureKey l;
  ra_replay : r6ReconfigureReplay x = l6ReconfigureReplay l;
  ra_seen : r6ReconfigureReplaySeen x = l6ReconfigureReplaySeen l }.

Section resumed.
Context (b0 b : clockBridge) (l : Lease6) (Hl : nameable b0 b l).
Let o := toLease6 l b0.

Lemma remaining_at t ts : in_reach t -> remaining b (shown_end b0 t :: ts) = match t with Some _ => left_at b0 b t | None => remaining b ts end.
Proof using Hl.
  destruct Hl as [_ _ _ _ _ Hb Hm He]. intros Hr. destruct t as [t|]; [|by apply remaining_unset].
  cbn [shown_end left_at in_reach] in *. unfold Second in Hr. destruct (at_spec b0 t Hb) as [E Hz]; [lia|].
  unfold elapsed in *. rewrite remaining_set; [rewrite E; f_equal; lia|exact Hz|]. rewrite E. destruct Hb as [Hb _]. unfold instant_wf in Hb.
  change (2 ^ 63) with 9223372036854775808. change (2 ^ 61) with 2305843009213693952 in *. lia.
Qed.

Lemma expire_reach : in_reach (dExpire (Lease6Deadlines l)).
Proof using Hl.
  destruct Hl as [Hne Hli _ Hs _ _ _ _]. rewrite dExpire_eq. unfold IsInfinite. destruct (longestValid_spec l Hli) as [[->|Hv] _]; [done|].
  destruct (Z.eqb_spec (longestValid l) Infinite); [done|]. cbn [in_reach]. unfold Add, Second in *.
  change (2 ^ 61) with 2305843009213693952 in *. rewrite i64_id by lia. lia.
Qed.

Lemma shortestLoop_wf as_ : forall out first p f, lives as_ -> lifetime_wf out -> shortestLoop as_ out first = (p, f) -> lifetime_wf p.
Proof using Type.
  induction as_ as [|a as_ IH]; intros out first p f Ha Ho; cbn [shortestLoop]; [by intros [= <- _]|].
  apply Forall_cons in Ha as [Ha1 Ha]. destruct (IsInfinite _); [by apply IH|]. destruct (_ || _)%bool; apply IH; try done. by destruct Ha1.
Qed.

Lemma preferred_reach : in_reach (PreferredUntil l).
Proof using Hl.
  destruct Hl as [Hne Hli _ Hs _ _ _ _]. unfold PreferredUntil, shortestPreferred. destruct (_ =? 0)%nat; [done|].
  destruct (shortestLoop _ _ _) as [p f] eqn:E. apply shortestLoop_wf in E; [|done|right; unfold Second; lia].
  unfold IsInfinite. destruct f; [done|]. destruct (Z.eqb_spec p Infinite); [done|]. cbn [orb]. destruct (p <=? 0); [done|].
  destruct E as [|Hv]; [done|]. cbn [in_reach]. unfold Add, Second in *.
  change (2 ^ 61) with 2305843009213693952 in *. rewrite i64_id by lia. lia.
Qed.

(** The end of one lifetime, and what stands in its place when it has none. *)
Lemma remaining_lifetime d ts : lifetime_wf d ->
  remaining b (outwardEnd b0 (l6Start l) d :: ts) = if IsInfinite d then remaining b ts else left_of b0 b (l6Start l) d.
Proof using Hl.
  destruct Hl as [_ _ _ Hs _ Hb Hm He]. intros Hd. unfold IsInfinite. destruct (Z.eqb_spec d Infinite) as [->|Hi].
  - by apply remaining_unset.
  - exact (proj2 (remaining_deadline b0 b (l6Start l) d ts Hb Hs Hm Hd He Hi)).
Qed.

Lemma resumed_addresses addrs : resumedAddrs b o = Some addrs -> Forall2 (remembered b0 b l) (l6Addrs l) addrs.
Proof using Hl.
  pose proof (toLease6_deadlines l b0) as (Ev & Ee & _ & _ & Ep). fold o in Ev, Ee, Ep. unfold resumedAddrs. rewrite Ev, Ee, Ep.
  assert (Eo : oAddrs o = outwardAddrs (l6Addrs l) (l6Start l) b0) by apply oAddrs_toLease6.
  pose proof (nb_addrs _ _ _ Hl) as Hne. pose proof (nb_lives _ _ _ Hl) as Hli.
  destruct (oAddrs o) as [|y ys] eqn:Ey; [by destruct (l6Addrs l)|]. rewrite Eo in *. clear Eo Ey y ys.
  intros Hm%mapM_Some. pose proof (proj2 (longestValid_spec l Hli)) as Hlong. unfold lives in Hli. revert addrs Hm Hli Hlong.
  generalize (l6Addrs l). intros as_. induction as_ as [|a as_ IH]; intros addrs Hm Hli Hlong; [by inversion Hm|].
  apply Forall_cons in Hli as [(Hp & Hv & _ & _) Hli]. apply Forall_cons in Hlong as [Ha Hlong].
  inversion Hm as [|? a' ? addrs' Ea Hm']; subst. constructor; [|by apply IH]. clear IH Hm Hm' Hli Hlong. cbv beta in Ea.
  destruct (negb _); [done|]. apply (inj Some) in Ea. subst a'. unfold remembered. cbn [a6Addr a6Valid a6Preferred oaAddr oaValid oaPreferred].
  split; [done|]. rewrite !remaining_lifetime, !remaining_at by first [done|exact expire_reach|exact preferred_reach]. split.
  - destruct (IsInfinite (a6Valid a)) eqn:Ei; [|done]. unfold IsInfinite in Ei. apply Z.eqb_eq in Ei. unfold left_of. rewrite Ei in Ha |- *.
    rewrite dExpire_eq. destruct Ha as [Ha|[Ha _]]; [|done]. by rewrite Ha.
  - destruct (IsInfinite (a6Preferred a)); [|done]. by destruct (PreferredUntil l).
Qed.

Lemma resumed_prefixes : Forall2 (remembered_prefix b0 b l) (l6Prefixes l) (resumedPrefixes b o).
Proof using Hl.
  pose proof (toLease6_deadlines l b0) as (_ & Ee & _). fold o in Ee. pose proof (toLease6_fields l b0) as (_&_&_&_&_&_&_&Ef). fold o in Ef.
  unfold resumedPrefixes. rewrite Ef, Ee. unfold outwardPrefixes. rewrite map_map. apply Forall2_fmap_r, Forall_Forall2_diag.
  eapply Forall_impl; [exact (nb_prefixes _ _ _ Hl)|]. intros p [Hp Hv]. unfold remembered_prefix, compose.
  cbn [p6Prefix p6Preferred p6Valid oaAddr oaPreferred oaValid]. split; [done|].
  rewrite !remaining_lifetime, !remaining_at by first [done|exact expire_reach]. split.
  - unfold left_of. by destruct (IsInfinite _).
  - destruct (IsInfinite _); [|done]. by destruct (dExpire _).
Qed.

Lemma resumed6 x : resume6Of b o = inr x -> resumes_as b0 b l x.
Proof using Hl.
  unfold resume6Of. destruct (negb _); [done|]. destruct (resumedAddrs b o) as [addrs|] eqn:Ea; [|done]. intros E%(inj inr). subst x.
  pose proof (toLease6_deadlines l b0) as (_ & _ & Er & Eb & _). destruct (nb_renew _ _ _ Hl) as [H1 H2].
  pose proof (toLease6_fields l b0) as (?&?&?&?&?&?&?&_). fold o in Er, Eb. split;
    cbn [r6Addrs r6Prefixes r6T1 r6T2 r6ServerDUID r6PrefixServerDUID r6DNS r6Search r6ReconfigureKey r6ReconfigureReplay r6ReconfigureReplaySeen];
    try assumption.
  - by apply resumed_addresses.
  - apply resumed_prefixes.
  - rewrite Er, (remaining_at _ [] H1). by destruct (dRenew _).
  - rewrite Eb, (remaining_at _ [] H2). by destruct (dRebind _).
Qed.
End resumed.

(** C19: a lease one process wrote is the lease the next one resumes.  Of a
    DHCPv4 lease the address and the expiry are read: the machine is given the
    address and, counted on its own clock, exactly the time that is left after the
    wall-clock time between the two processes; no expiry stays no expiry.  Of a
    DHCPv6 lease, granted or formed, every address and every prefix comes back in
    its order, and T1 and T2, each finite lifetime shortened by that time and
    never negative ([left_of], [left_at]); with the servers, the resolvers, the
    search list, the reconfigure key and its floor.  An infinite valid lifetime of
    an address stays one; an infinite preferred lifetime of an address, and an
    infinite valid one of a prefix, come back as what is left of the shortest
    preferred and of the longest valid lifetime of all addresses, as the code
    falls back to.  Temporary addresses are not read. *)
Theorem lease_resumed :
  (forall cfg b0 b m l, NewManager4 cfg b = inr m -> cfResume cfg = Some (toLease l b0) -> bridge_wf b0 -> bridge_wf b ->
    Z.abs (elapsed b0 b) < 2 ^ 61 -> exists x, mresume (mcore (mgMachine m)) = Some x /\ ResumeAddr x = paddr (lAddr l) /\
    match Expire l with
    | None => HasExpire x = false
    | Some e => instant_wf e -> Z.abs (e - cbMono b0) <= 2 ^ 61 ->
        HasExpire x = true /\ ResumeExpire x - cbMono b = e - cbMono b0 - elapsed b0 b
    end) /\
  (forall cfg params b0 b m l, newManager6 cfg params b = inr m -> cfResume6 cfg = Some (toLease6 l b0) -> nameable b0 b l ->
    exists x, nresume (ncore (mgMachine m)) = Some x /\ resumes_as b0 b l x).
Proof.
  split.
  - intros cfg b0 b m l Hn Hc Hb0 Hb He. destruct (NewManager4_inv _ _ _ Hn) as [E _]. apply New_resume in E. unfold resumed4 in E. rewrite Hc in E.
    rewrite oAddr_toLease, oExpire_toLease in E. eexists. split; [exact E|]. destruct (Expire l) as [e|]; [|by split].
    split; [by destruct (negb _)|]. intros Hi Hm. destruct (bridge_roundtrip b0 b e Hb0 Hb Hi He Hm) as (E1 & _ & Ez).
    rewrite Ez. cbn [negb HasExpire ResumeExpire]. split; [done|exact E1].
  - intros cfg params b0 b m l Hn Hc Hl. destruct (newManager6_inv _ _ _ _ Hn) as (p & Hp & E & _). rewrite Hc in Hp.
    destruct Hp as (_ & r & Hr & ->). apply New6_resume in E. exists r. split; [exact E|]. by apply resumed6.
Qed.

(** A lease of two addresses and a prefix, its T1 and T2 given. *)
Definition written_lease : Lease6 :=
  sample_lease6 <| l6T1 := 1800 * Second |> <| l6T2 := 2880 * Second |>
    <| l6Prefixes := [mkPrefix6 (PrefixFrom (Addr6 (Z.shiftl 0x20010db8 96) []) 56) Infinite (3600 * Second)] |>.

Lemma written_nameable b : cbWall b = cbWall sample_bridge + 700 * Second -> nameable sample_bridge b written_lease.
Proof.
  intros Hw. split.
  - discriminate.
  - unfold lives. repeat constructor; first [right; vm_compute; split; congruence|vm_compute; congruence].
  - apply Forall_singleton. split; [left; reflexivity|right; vm_compute; split; congruence].
  - split; vm_compute; congruence.
  - split; vm_compute; split; congruence.
  - split; vm_compute; [split|]; congruence.
  - vm_compute. congruence.
  - unfold elapsed. rewrite Hw. vm_compute. reflexivity.
Qed.

(** An hour's lease read ten minutes later; and a DHCPv6 lease of two addresses,
    the second of which was all but over, and a prefix. *)
Lemma lease_resumed_witness :
  (exists m x, NewManager4 (sample_cfg4 <| cfResume := Some (toLease sample_lease (mkBridge (10 * Second) (64000000 * 1000 * Second))) |>)
      (mkBridge (3 * Second) (64000000 * 1000 * Second + 600 * Second)) = inr m /\
    mresume (mcore (mgMachine m)) = Some x /\ ResumeExpire x = 2998 * Second) /\
  exists m x, newManager6 (sample_cfg6 <| cfResume6 := Some (toLease6 written_lease sample_bridge) |>) managed_params
      (mkBridge 0 (cbWall sample_bridge + 700 * Second)) = inr m /\
    nresume (ncore (mgMachine m)) = Some x /\
    resumes_as sample_bridge (mkBridge 0 (cbWall sample_bridge + 700 * Second)) written_lease x /\
    map a6Valid (r6Addrs x) = [6495 * Second; 0] /\ map p6Valid (r6Prefixes x) = [2895 * Second] /\
    (r6T1 x, r6T2 x) = (1095 * Second, 2175 * Second).
Proof.
  split.
  - set (b0 := mkBridge (10 * Second) (64000000 * 1000 * Second)). set (b := mkBridge (3 * Second) _). set (cfg := _ <| cfResume := _ |>).
    assert (Hok : match NewManager4 cfg b with inr _ => true | inl _ => false end = true) by (vm_compute; reflexivity).
    destruct (NewManager4 cfg b) as [|m] eqn:Hn; [discriminate Hok|]. destruct (proj1 lease_resumed cfg b0 b m sample_lease Hn) as (x & E & _ & He).
    + reflexivity.
    + split; vm_compute; [split|]; congruence.
    + split; vm_compute; [split|]; congruence.
    + vm_compute. reflexivity.
    + exists m, x. split; [done|]. split; [exact E|]. change (Expire sample_lease) with (Some (3605 * Second)) in He.
      destruct He as [_ He]; [split; vm_compute; congruence|vm_compute; congruence|].
      change (cbMono b) with (3 * Second) in He. change (cbMono b0) with (10 * Second) in He. change (elapsed b0 b) with (600 * Second) in He.
      unfold Second in *. lia.
  - set (b := mkBridge 0 _). set (cfg := _ <| cfResume6 := _ |>).
    assert (Hok : match newManager6 cfg managed_params b with
      | inr m => match nresume (ncore (mgMachine m)) with
                 | Some x => bool_decide (map a6Valid (r6Addrs x) = [6495 * Second; 0]) && bool_decide (map p6Valid (r6Prefixes x) = [2895 * Second]) &&
                     bool_decide ((r6T1 x, r6T2 x) = (1095 * Second, 2175 * Second))
                 | None => false
                 end
      | inl _ => false end = true) by (vm_compute; reflexivity).
    destruct (newManager6 cfg managed_params b) as [|m] eqn:Hn; [discriminate Hok|].
    destruct (proj2 lease_resumed cfg managed_params sample_bridge b m written_lease Hn eq_refl (written_nameable b eq_refl)) as (x & E & He).
    rewrite E, !andb_true_iff in Hok. destruct Hok as [[H1 H2] H3]. apply bool_decide_eq_true in H1, H2, H3.
    exists m, x. split; [done|]. split; [exact E|]. split; [exact He|]. split; [exact H1|]. split; [exact H2|exact H3].
Defined.

(** ** Where a record gives back less than was written *)

(** An address that stays preferred for ever, in a lease whose other address is
    preferred for an hour, resumes preferred for an hour: its own deadline is the
    zero time, and the shortest of the lease is read in its place. *)
Theorem infinite_preferred_shortened :
  let l := lease6_zero <| l6Addrs := [mkAddr6 (Addr6 (Z.shiftl 0x20010db8 96 + 7) []) Infinite Infinite 0;
                                      mkAddr6 (Addr6 (Z.shiftl 0x20010db8 96 + 8) []) (3600 * Second) (7200 * Second) 0] |> in
  let b := mkBridge 0 (64000000 * 1000 * Second) in
  map (fun a => (IsInfinite (a6Preferred a), a6Preferred a)) (l6Addrs l) = [(true, Infinite); (false, 3600 * Second)] /\
  option_map (map (fun a => (IsInfinite (a6Preferred a), a6Preferred a))) (resumedAddrs b (toLease6 l b)) =
    Some [(false, 3600 * Second); (false, 3600 * Second)].
Proof. vm_compute. by split. Qed.
